(* ===== verification/_CoqProject ===== *)
-Q . S2P
Prelude.v
Memory.v
Kmalloc.v
Atomic.v
Terminal.v
Fs.v
FsInv.v
FsProps.v
FsSpec.v
Calc.v
CalcSpec.v
Mlang.v
MlangSpec.v
Alloc.v
Sched.v
SchedInv.v
SchedSpec.v
Ring.v
Keyboard.v
Mouse.v
Vfs.v
VfsSpec.v
Syscall.v
SyscallSpec.v
Elf.v
Dyld.v
DyldSpec.v
Process.v
ProcessSpec.v
Ata.v
AtaPio.v
Fat32.v
Fat32Spec.v
Fat32Vol.v
Fat32Chain.v
Fat32Dir.v
Fat32Tree.v
Fat32Refine.v
Fat32Mkfs.v
Part.v
Paging64.v
Ports.v
Pci.v
Gfx.v
Vbe.v
Mkdraw.v
Mkdisp.v
MkdispSpec.v
MkdispProps.v
Platform.v
Settings.v
Snake.v
SnakeSpec.v
SnakeDraw.v
SnakeProps.v
Gdt.v
Irq.v
IrqSpec.v
PicSpec.v
Umalloc.v
UmallocSpec.v
Ustdio.v
Lined.v
LinedSpec.v
Shell.v
ShellSpec.v
Devices.v
Desktop.v
DesktopSpec.v
Install.v
InstallSpec.v
Ac97.v
Ac97Spec.v
Pong.v
PongSpec.v
Fbcon.v
FbconSpec.v
Menu.v
MenuSpec.v
Boot.v
