(* ===== verification/Prelude.v ===== *)
(** * Verification of mykernel

    mykernel is a hobby kernel for i386 (src/src) with the start of an
    x86-64 port (src/src64).  The kernel runs on flat physical memory with
    one CPU and a preemptive scheduler; programs reach it through int 0x80.

    ** How the program fits together

    The kernel heap (kmalloc.c) hands out memory to the scheduler (task
    stacks).  The timer interrupt (irq.c, timer.c) drives the scheduler
    (sched.c, context_switch.s).  The RAM file system (fs.c) guards its node
    table with the spinlock of atomic.h and is used by the system calls
    (syscall.c) and by the mount table (vfs.c), which sends the other paths
    to the FAT32 driver (fat32.c).  That driver and the partitioning code
    (part.c) work on the disk (ata.c).  The ELF loader (elf.c) and the
    dynamic loader (dyld.c) copy programs to the memory the system calls
    later serve; process.c enters them and comes back.  The keyboard and
    mouse drivers fill ring buffers in interrupt context; the terminal
    (vga.c) shows what every other part prints; calc.c is the shell's
    calculator and the expression evaluator of the script language
    (mlang.c).  The compositor (mkdisp.c, mkdraw.c) draws windows, whose
    pixels come from the kernel heap, into the frame buffer that vbe.c finds
    on the PCI bus (pci.c); gfx.c is the older 320x200 mode and the font.
    snake.c and pong.c run in either mode, as settings.c and platform.c
    decide.  The desktop (desktop.c) arranges windows of the compositor; the
    shell (shell.c) reads lines and calls all the other parts, among them
    the installer (install.c) and the AC97 player (ac97.c).  Every entry from
    a program or a device goes through the tables of gdt.c and idt.c and the
    stubs of isr.s (irq.c).  user/lib is the library of the programs, over
    the system calls.  kernel.c starts all of this in order.  kernel64.c is
    the main function of the 64-bit kernel, whose page permissions paging64.c
    sets.

    ** Conventions

    A w-bit integer is a [Z] with its wrap-around written out ([u8], [u16],
    [u32], [s8], [s32], [u64]).  Code that can fault returns [out A]: [Ret]
    or [Fault] with a reason: [OutOfBounds] for an access outside an object,
    [Hang] for a lock nobody can release, [Trap] for a processor exception, and
    [NoFuel] for a loop that is cut off by the model.  A theorem that a
    call returns is stated as [exists ..., call = Ret ...], so it excludes
    all of them.  State is passed explicitly; a component's state is one
    record.  The definitions are executable and keep the names of the C
    functions; helper definitions name the loop or the tail they stand for.

    ** Memory

    The machine has one flat memory without protection.  The kernel heap, the
    stacks, what programs and loaders store, the frame buffer and the
    variables of process.c are bytes of [mem].  The variables of the other
    parts are records beside it.  That is faithful as long as nobody stores
    through a bad pointer into the kernel's image, and this is a condition of
    the claims, not of the definitions: [SyscallSpec.writes_of] is the memory
    a system call may store to, [spares_kernel] says that it stays out of
    [kernel_mem] (below 4 MiB, where the kernel, its heap and its stacks lie),
    and [syscall_safe], [syscall_trap], [process_exec_returns] and
    [mmap_regions_disjoint] assume it of the calls they are about.
    [unchecked_pointer] and [exit_follows_buffer] show what a program
    that breaks the condition can do, since no code checks it.  The linker
    scripts place the node table of fs.c over the heap window or the memory of
    programs ([Boot.BootSpec.nodes_overlap]); the development keeps these
    apart, as the comments of kmalloc.c intend.

    ** Files

    - [Prelude]: integers, the outcome monad, C strings and character
      arrays, bounded searches, hints and tactics.  [Memory]: flat memory,
      little-endian words, byte images, the copy and fill loops.
    - [Kmalloc] (kmalloc.c): the block list with its headers in memory.
      [heap_rep] relates it to a list of blocks; every operation refines its
      counterpart on lists.  Theorems: a successful request of any 32-bit
      size gets fresh memory, large enough up to 0xFFFFFFF8 bytes, and leaves the other blocks and their contents
      alone; [kfree] releases exactly one block and leaves no free
      neighbours; allocation and release cancel out; [krealloc] keeps the
      contents; the statistics add up; a request near 4 GiB wraps.
      [Alloc] states these laws as the class [Allocator], proves that
      kmalloc.c keeps them, and is what the scheduler is proved against.
    - [Atomic] (atomic.h): the primitives, and mutual exclusion of the
      spinlock for any number of CPUs and any interleaving.
    - [Terminal] (vga.c, text mode): the cursor stays on the screen; the
      number formatting prints the decimal digits of its argument.
    - [Fs], [FsInv], [FsProps], [FsSpec] (fs.c): the node table, the lock
      and every call; the tree invariant; what each call promises.
      No sequence of calls from boot faults, deadlocks or breaks the tree;
      creation, removal of subtrees, renaming, writing, appending, path
      creation, path printing and path reading do what they say, errors
      included; the component buffer of [fs_mkdir_p] overflows for long
      components.
    - [Calc], [CalcSpec] (calc.c): the evaluator agrees with a grammar and
      a tree semantics with 32-bit wrap-around, on accepted and rejected
      inputs, and returns for every string.
    - [Mlang], [MlangSpec] (mlang.c): the script interpreter.  Programs are
      trees with a semantics of their own, which shares nothing with the
      interpreter but the variables and the console; a script that writes
      down a program does what its tree means; every script ends.  The body
      of a while holds simple commands, because the code cannot run others.
    - [Sched], [SchedInv], [SchedSpec] (sched.c, context_switch.s, the tick
      path of timer.c and irq.c): task table, stacks in memory, register
      file and interrupt flag, as a step relation.  For every reachable
      state: one running task, intact frames on disjoint stacks, a switch
      restores exactly the registers the task was suspended with, a ready
      task runs within a bounded number of ticks, and a task first entered
      from the timer runs its first slice with interrupts masked.
    - [Ring], [Keyboard], [Mouse] (keyboard.c, mouse.c): the readers see
      the decoded keys in order without duplicates; pointer and event ring
      stay in range for every byte stream.
    - [Vfs], [VfsSpec] (vfs.c): resolution picks the longest mounted
      prefix; mount and unmount are inverse for paths that fit a slot, and
      are not for longer ones.  The FAT32 driver is the class [FatDriver];
      [Fat32Spec] instantiates it with the driver of fat32.c.
    - [Syscall], [SyscallSpec] (syscall.c): descriptors, user heap, mmap
      arena and the whole dispatcher.  Every call keeps the invariant and
      stores inside the buffers it was given; the calls that end a program
      hand over to [Process]; reads through a descriptor deliver the file as a stream;
      lseek positions the next read; anonymous mappings are disjoint; two
      checks wrap.
    - [Elf] (elf.c): a well-formed image is loaded byte for byte, zero
      filled, and nothing else is written.
    - [Dyld], [DyldSpec] (dyld.c): relocations get the values of the i386
      ABI, symbols resolved in load order, and nothing else changes.
    - [Process], [ProcessSpec] (process.c, setjmp.s): for an image without
      dynamic parts both loaders leave the same memory; whatever an entered
      program does with memory that is its own, its exit returns to the
      kernel context saved in memory.
    - [AtaPio] with [AtaPioSpec] (ata.c): the registers, polls and words of the
      driver implement the sector view [Ata] that the other parts use, with
      every drive that answers in time; errors found out after the data of a
      write are overlooked.
    - [Fat32], [Fat32Spec] (fat32.c):
      every operation of the driver.  Setting a table entry updates all
      copies and nothing else; freeing a chain ends on every table,
      cyclic or damaged; 8.3 names convert back and forth.
    - [Fat32Vol], [Fat32Chain], [Fat32Dir], [Fat32Tree]: a mounted volume as
      links and clusters, chains, the list of directory entries, and the
      invariant that no cluster has two owners.  [Fat32Refine]: writing,
      reading, making and removing are the operations of a map from names to
      files and directories, and keep the invariant; where an overwrite on a
      full disk, a name starting with 0xE5 and the table size of mkfs break
      it.  [Fat32Mkfs]: formatting and mounting start it.
    - [Part] (part.c): MBR and GPT writing; the MBR that is written is the
      one the driver finds again.
    - [Paging64] (src64/paging64.c, the tables of src64/boot64.s): on the
      tables the boot code builds, after the pass no page of the kernel
      window is both writable and executable when the processor has NX, and
      translations stay where they were; the address the kernel is linked at
      is mapped neither before nor after.  Its module [Kernel64]
      (src64/kernel64.c): the main function ends halted whatever the boot
      loader passed, writes only inside the screen and prints one line per
      tag.
    - [Ports] (io.h): the log of port traffic; what devices answer is a
      parameter.  [Pci] (pci.c): the search finds the first device in scan
      order.  [Gfx] (gfx.c), [Vbe] (vbe.c), [Mkdraw] (mkdraw.c): mode
      setting, font and clipped drawing.
    - [Mkdisp], [MkdispSpec], [MkdispProps] (mkdisp.c): windows, frames and
      cursor, over the class [Allocator].  A composed frame is the painter's
      composition of its parts and nothing outside the two frames is
      written; the cursor leaves no trail; the hit test agrees with the
      screen; windows are safe from each other under any calls.
    - [Platform] (platform.c, sound.c), [Settings] with [SettingsSpec] (settings.c):
      the settings text reads back as what was written, and settings saved
      to the FAT32 volume are loaded back.
    - [Fbcon], [FbconSpec] (vga.c, framebuffer mode): the pixels are a grid
      of character cells under every operation; any string appears as the
      page its characters build one by one, with the underlines that carriage
      returns leave; without carriage returns that page is, at 80 by 25, what
      text mode shows; moving the cursor back erases.  [Menu], [MenuSpec] (the menu of
      settings.c, vbe_demo): every choice leaves a mode that exists and a
      console in order, or one that a failed switch has silenced.
    - [Snake], [SnakeSpec], [SnakeDraw], [SnakeProps] (snake.c): the search
      for food ends (by the period of the generator); a step keeps the rules
      of the game; the incremental redraw shows what a full redraw would.

    - [Pong], [PongSpec] (pong.c): paddles and ball stay in the court under
      any keys and clock, and a paddle that follows the ball concedes no
      point.
    - [Gdt] (gdt.c, gdt_flush.s), [Irq], [IrqSpec], [PicSpec] (irq.c, idt.c,
      isr.s, idt_load.s): the tables as the processor decodes them, the
      stubs instruction by instruction on the registers and the kernel
      stack, and the two interrupt controllers.  Every vector is the right
      gate or absent; [int 0x80] is a call of [Syscall.syscall_handler] on
      the caller's registers and returns behind the instruction; a device
      interrupt runs its driver, is acknowledged and leaves the interrupted
      program as it was but for es, fs and gs, which become copies of ds; an exception halts after one report; exactly the
      unmasked lines arrive.
    - [Umalloc], [UmallocSpec], [Ustdio] (user/lib): malloc, free, realloc
      and calloc over the break of [Syscall], and printf over its write.
      Memory handed out is disjoint and of the requested size; a request
      past 4 GiB wraps; printf writes the text its format describes.
    - [Lined], [LinedSpec], [Shell], [ShellSpec] (shell.c): the line editor
      agrees with an editor on plain texts for every key sequence but two
      uses of completion, which damage the line; a session of lines that do
      not run another program is the sequence of calls on file systems,
      mounts and disk its lines name; a script runs its lines in order.
    - [Devices] (serial.c, power.c, timer.c, net.c, the port side of mouse.c,
      keyboard.c and vga.c): what is sent over the serial line, the
      programmed rate of the timer, the sleep loop; the hardware cursor is
      where the next character goes.
    - [Desktop], [DesktopSpec] (desktop.c): windows and applications
      correspond whatever the user does; the calculator computes from left
      to right; menu rows answer where they are drawn; icons take clicks of
      windows above them.
    - [Install], [InstallSpec] (install.c): the boot loader is written where
      the machine and the driver look for it; where the images collide with
      the GPT and the volume.
    - [Ac97], [Ac97Spec] (ac97.c): a tone is the sampled wave asked for, is
      handed to the controller whole, and costs no memory.
    - [Boot] with [BootSpec] (kernel.c): [kernel_main] over the states of all
      components.  It reaches the shell from any memory, ports and disk; when
      it turns interrupts on, the gates are in place and exactly the lines
      with a driver are open; when the shell starts, every component is in a
      state that its own theorems assume.

    ** Bounds and fuel

    [heap_fuel] is 87400 steps: a block occupies at least its 12-byte header
    of the 1 MiB window, so no block list is longer.  Walks of the node table
    take [FS_MAX_NODES] steps, and the tree invariant shows that no path to
    the root is longer.  [calc_fuel] grows with the input and is proved to be
    enough for every string.  [chain_fuel] exceeds the number of non-zero
    slots of the whole disk, which strictly falls when a chain is freed; for
    reading, a chain that ends is shorter ([chain_fuel_enough]), and the source
    itself does not end on a cyclic directory chain.  Scripts nest at most
    64 blocks, one per line, and a while loop has the source's bound of 10000
    turns.  The dynamic section and the relocation tables are walked for as
    many entries as the memory or their size can hold.  The food search of
    the game has 2^31 rounds, the period of its generator, counted by
    doubling.  [walk_fuel] of the user allocator is the same count for the
    1 MiB of a program's break.  Waits for a device (serial line, keyboard
    controller, sound card) take their number of polls as an argument; the
    theorems about them assume the device becomes ready within it, or hold
    for every number.  The nesting of scripts is an argument too ([depth]),
    and [run_itself_never_ends] shows that no depth is enough for a script
    that runs itself.  The other loops are structural on a count the source also
    has ([for_up]).

    ** What is not modelled

    The floating-point computation of the sine table, whose values are a
    parameter; the duration of delay loops; the boot assembly (but for the
    page tables it builds) and the linker scripts, whose result is the initial
    state of [Boot] and the layout of [Paging64]; interrupts that arrive during the last three steps of
    [kernel_main]; the demonstration programs under user/.  In the shell,
    commands that hand the screen to a game, the desktop or the settings are
    calls of a parameter, because the loops of those parts are modelled on
    their own inputs.  What the hardware answers
    (sectors, scan codes, serial bytes, ports, CPUID, link addresses) is an
    argument or part of the state.

    ** Next

    The two controllers behind PS/2, under the port traffic of [Devices];
    the order of a FAT32 listing, which the map of [Fat32Refine] does not keep.

    ** This file

    The vocabulary shared by all components, listed under Prelude above. *)

From stdpp Require Export base option list list_numbers numbers gmap strings.
From Stdlib Require Export ZArith Lia.


#[global] Open Scope Z_scope.
#[global] Close Scope string_scope.

Declare Scope kernel_scope.
Delimit Scope kernel_scope with kernel.

Create HintDb kernel.
Create Rewrite HintDb wrap.

(** ** Machine integers

    A w-bit integer is a [Z]; the conversions below are the C conversions
    to [uint8_t], [uint16_t], [uint32_t] and [int32_t] (two's complement,
    as the i386 target behaves). *)

Definition u8 (z : Z) : Z := z mod 256.
Definition u16 (z : Z) : Z := z mod 65536.
Definition u32 (z : Z) : Z := z mod 4294967296.
Definition u64 (z : Z) : Z := z mod 18446744073709551616.
Definition s8 (z : Z) : Z := (z + 128) mod 256 - 128.
Definition s32 (z : Z) : Z := (z + 2147483648) mod 4294967296 - 2147483648.

Definition in_s32 (z : Z) : Prop := -2147483648 <= z <= 2147483647.
Definition in_u32 (z : Z) : Prop := 0 <= z < 4294967296.

Lemma u8_range z : 0 <= u8 z < 256.
Proof. unfold u8. apply Z.mod_pos_bound. lia. Qed.
Lemma u16_range z : 0 <= u16 z < 65536.
Proof. unfold u16. apply Z.mod_pos_bound. lia. Qed.
Lemma u32_range z : 0 <= u32 z < 4294967296.
Proof. unfold u32. apply Z.mod_pos_bound. lia. Qed.
Lemma s32_range z : in_s32 (s32 z).
Proof.
  unfold in_s32, s32.
  pose proof (Z.mod_pos_bound (z + 2147483648) 4294967296 ltac:(lia)). lia.
Qed.

Lemma u8_small z : 0 <= z < 256 -> u8 z = z.
Proof. apply Z.mod_small. Qed.
Lemma u16_small z : 0 <= z < 65536 -> u16 z = z.
Proof. apply Z.mod_small. Qed.
Lemma u32_small z : in_u32 z -> u32 z = z.
Proof. apply Z.mod_small. Qed.
Lemma s32_small z : in_s32 z -> s32 z = z.
Proof. unfold in_s32, s32. intros H. rewrite Z.mod_small; lia. Qed.

Lemma u8_u8 z : u8 (u8 z) = u8 z.
Proof. apply u8_small, u8_range. Qed.
Lemma u32_u32 z : u32 (u32 z) = u32 z.
Proof. apply u32_small, u32_range. Qed.

(** [s32 x] and [s32 y] agree exactly when [x] and [y] are congruent. *)
Lemma s32_eqm x y : x mod 4294967296 = y mod 4294967296 -> s32 x = s32 y.
Proof.
  unfold s32. intros H. f_equal.
  rewrite (Z.add_mod x), (Z.add_mod y) by lia. by rewrite H.
Qed.

Lemma s32_mod z : (s32 z) mod 4294967296 = z mod 4294967296.
Proof.
  unfold s32. rewrite Zminus_mod_idemp_l.
  f_equal. lia.
Qed.

Lemma s32_s32 z : s32 (s32 z) = s32 z.
Proof. apply s32_small, s32_range. Qed.

Lemma s32_u32 z : s32 (u32 z) = s32 z.
Proof. apply s32_eqm. unfold u32. apply Z.mod_mod. lia. Qed.

Lemma s32_add_l x y : s32 (s32 x + y) = s32 (x + y).
Proof.
  apply s32_eqm. rewrite Z.add_mod, s32_mod, <- Z.add_mod by lia. done.
Qed.
Lemma s32_add_r x y : s32 (x + s32 y) = s32 (x + y).
Proof. rewrite Z.add_comm, s32_add_l. f_equal. lia. Qed.
Lemma s32_mul_l x y : s32 (s32 x * y) = s32 (x * y).
Proof.
  apply s32_eqm. rewrite Z.mul_mod, s32_mod, <- Z.mul_mod by lia. done.
Qed.
Lemma s32_mul_r x y : s32 (x * s32 y) = s32 (x * y).
Proof. rewrite Z.mul_comm, s32_mul_l. f_equal. lia. Qed.

#[export] Hint Rewrite s32_s32 s32_u32 s32_add_l s32_add_r s32_mul_l s32_mul_r
  u8_u8 u32_u32 : wrap.

(** [lia] with divisions and remainders by constants made explicit. *)
Ltac zlia := Z.div_mod_to_equations; lia.

(** [x & ~(2^k - 1)]: the low [k] bits cleared. *)
Lemma land_clear_low x k :
  in_u32 x -> 0 <= k -> Z.land x (u32 (Z.lnot (2 ^ k - 1))) = 2 ^ k * (x / 2 ^ k).
Proof.
  intros Hx Hk. unfold u32. change 4294967296 with (2 ^ 32). rewrite <- Z.land_ones by lia.
  rewrite (Z.land_comm (Z.lnot _)), Z.land_assoc, Z.land_ones by lia.
  rewrite Z.mod_small by exact Hx.
  replace (2 ^ k - 1) with (Z.ones k) by (rewrite Z.ones_equiv; lia).
  rewrite <- Z.ldiff_land, Z.ldiff_ones_r, Z.shiftl_mul_pow2, Z.shiftr_div_pow2 by lia. lia.
Qed.

(** ** Outcomes

    Code that can spin for ever, index outside an array, trap, or (in the
    model only) run out of the fuel of a bounded loop returns an [out]. *)

Inductive fault : Type :=
| Hang         (** a lock that is never released *)
| OutOfBounds  (** an access outside the object: undefined behaviour in C *)
| Trap         (** a processor exception, e.g. the divide error *)
| NoFuel.      (** the model's loop bound was too small *)

Inductive out (A : Type) : Type :=
| Ret (a : A)
| Fault (f : fault).
Arguments Ret {A} a.
Arguments Fault {A} f.

#[export] Instance out_mret : MRet out := fun A a => Ret a.
#[export] Instance out_mbind : MBind out :=
  fun A B k x => match x with Ret a => k a | Fault f => Fault f end.

#[export] Instance fault_eq_dec : EqDecision fault.
Proof. solve_decision. Defined.

Definition is_ret {A} (x : out A) : Prop := exists a, x = Ret a.

Lemma bind_ret_inv {A B} (x : out A) (k : A -> out B) b :
  x ≫= k = Ret b -> exists a, x = Ret a /\ k a = Ret b.
Proof. destruct x; simpl; [eauto | discriminate]. Qed.

(** The components of a returned pair, without computing them. *)
Lemma ret_pair_inj {A B} (a c : A) (b d : B) : Ret (a, b) = Ret (c, d) -> a = c /\ b = d.
Proof. by intros [= -> ->]. Qed.

(** Decompose every [_ ≫= _ = Ret _] hypothesis. *)
Ltac inv_ret :=
  repeat match goal with
  | H : _ ≫= _ = Ret _ |- _ =>
      let a := fresh "r" in let H1 := fresh "Hr" in
      apply bind_ret_inv in H as (a & H1 & H)
  | H : mret _ = Ret _ |- _ => injection H as H
  | H : Ret _ = Ret _ |- _ => injection H as H
  | H : Fault _ = Ret _ |- _ => discriminate H
  end.

(** ** Bounded searches

    [for_find p i n] is the C idiom
    [for (k = i; k < i + n; k++) if (p(k)) return k;]. *)

Fixpoint for_find (p : nat -> bool) (i n : nat) : option nat :=
  match n with
  | O => None
  | S n' => if p i then Some i else for_find p (S i) n'
  end.

Lemma for_find_Some p i n k :
  for_find p i n = Some k <->
  (i <= k < i + n)%nat /\ p k = true /\ (forall j, (i <= j < k)%nat -> p j = false).
Proof.
  revert i. induction n as [|n IH]; intros i; simpl.
  - split; [discriminate | lia].
  - destruct (p i) eqn:E.
    + split.
      * intros [= ->]. repeat split; [lia | lia | done | lia].
      * intros (Hk & Hp & Hmin). destruct (decide (i = k)) as [->|Hne]; [done|].
        rewrite Hmin in E by lia. discriminate.
    + rewrite IH. split; intros (Hk & Hp & Hmin).
      * repeat split; [lia | lia | done |].
        intros j Hj. destruct (decide (i = j)) as [->|]; [done | apply Hmin; lia].
      * assert (i <> k) by congruence.
        repeat split; [lia | lia | done | intros j Hj; apply Hmin; lia].
Qed.

Lemma for_find_None p i n :
  for_find p i n = None <-> forall k, (i <= k < i + n)%nat -> p k = false.
Proof.
  revert i. induction n as [|n IH]; intros i; simpl.
  - split; [lia | done].
  - destruct (p i) eqn:E.
    + split; [discriminate |]. intros H. rewrite H in E by lia. discriminate.
    + rewrite IH. split; intros H k Hk; [|apply H; lia].
      destruct (decide (i = k)) as [->|]; [done | apply H; lia].
Qed.

Lemma for_find_ext p q i n :
  (forall k, (i <= k < i + n)%nat -> p k = q k) ->
  for_find p i n = for_find q i n.
Proof.
  revert i. induction n as [|n IH]; intros i H; simpl; [done|].
  rewrite H by lia. destruct (q i); [done|]. apply IH. intros k Hk. apply H. lia.
Qed.

(** ** Counted loops

    [for_up n i f a] is [for (k = i; k < i + n; k++) a = f(k, a);]. *)

Fixpoint for_up {A} (n : nat) (i : Z) (f : Z -> A -> A) (a : A) : A :=
  match n with
  | O => a
  | S n' => for_up n' (i + 1) f (f i a)
  end.

(** The invariant rule. *)
Lemma for_up_inv {A} (P : Z -> A -> Prop) n i f a :
  P i a -> (forall k b, i <= k < i + Z.of_nat n -> P k b -> P (k + 1) (f k b)) ->
  P (i + Z.of_nat n) (for_up n i f a).
Proof.
  revert i a. induction n as [|n IH]; intros i a H0 HS; cbn [for_up]; [by rewrite Z.add_0_r|].
  replace (i + Z.of_nat (S n)) with (i + 1 + Z.of_nat n) by lia.
  apply IH; [apply HS; [lia | done] | intros k b Hk; apply HS; lia].
Qed.

Lemma for_up_ext {A} n i (f g : Z -> A -> A) a :
  (forall k b, i <= k < i + Z.of_nat n -> f k b = g k b) -> for_up n i f a = for_up n i g a.
Proof.
  revert i a. induction n as [|n IH]; intros i a H; cbn [for_up]; [done|].
  rewrite H by lia. apply IH. intros k b Hk. apply H. lia.
Qed.

Lemma for_up_app {A} n k i (f : Z -> A -> A) a :
  for_up (n + k) i f a = for_up k (i + Z.of_nat n) f (for_up n i f a).
Proof.
  revert i a. induction n as [|n IH]; intros i a; cbn [for_up Nat.add]; [by rewrite Z.add_0_r|].
  rewrite IH. f_equal. lia.
Qed.

(** The last round. *)
Lemma for_up_last {A} n i (f : Z -> A -> A) a :
  for_up (S n) i f a = f (i + Z.of_nat n) (for_up n i f a).
Proof.
  revert i a. induction n as [|n IH]; intros i a; [cbn; by rewrite Z.add_0_r|].
  change (for_up (S (S n)) i f a) with (for_up (S n) (i + 1) f (f i a)). rewrite IH.
  change (for_up (S n) i f a) with (for_up n (i + 1) f (f i a)). f_equal. lia.
Qed.

(** Two loops in lockstep. *)
Lemma for_up_rel {A B} (R : A -> B -> Prop) n i f g a b :
  R a b -> (forall k a b, i <= k < i + Z.of_nat n -> R a b -> R (f k a) (g k b)) ->
  R (for_up n i f a) (for_up n i g b).
Proof.
  revert i a b. induction n as [|n IH]; intros i a b H0 HS; cbn [for_up]; [done|].
  apply IH; [apply HS; [lia | done] | intros k x y Hk; apply HS; lia].
Qed.

(** ** C strings and character arrays

    A [char*] is the list of the bytes from the pointer on; reading past
    the end of the list reads the terminating NUL.  [cstr] is the string a
    C function sees: the bytes before the first NUL. *)

Abbreviation chars := (list Z).

Fixpoint cstr (s : chars) : chars :=
  match s with
  | [] => []
  | c :: s' => if c =? 0 then [] else c :: cstr s'
  end.

(** [s[i]] *)
Definition char_at (s : chars) (i : nat) : Z := default 0 (s !! i).

(** No NUL inside: the list is exactly the C string it denotes. *)
Definition no_nul (s : chars) : Prop := Forall (fun c => c <> 0) s.

Lemma cstr_no_nul s : no_nul (cstr s).
Proof.
  induction s as [|c s IH]; simpl; [constructor|].
  destruct (Z.eqb_spec c 0); constructor; auto.
Qed.

Lemma cstr_id s : no_nul s -> cstr s = s.
Proof.
  induction 1 as [|c s Hc _ IH]; simpl; [done|].
  destruct (Z.eqb_spec c 0); [done | by rewrite IH].
Qed.

Lemma cstr_cstr s : cstr (cstr s) = cstr s.
Proof. apply cstr_id, cstr_no_nul. Qed.

Lemma cstr_app_nul s t : no_nul s -> cstr (s ++ 0 :: t) = s.
Proof.
  induction 1 as [|c s Hc _ IH]; simpl; [done|].
  destruct (Z.eqb_spec c 0); [done | by rewrite IH].
Qed.

Lemma cstr_take_no_nul n s : no_nul (take n (cstr s)).
Proof. apply Forall_take, cstr_no_nul. Qed.

(** The loop [while (s[n]) n++;]. *)
Fixpoint c_strlen (s : chars) : nat :=
  match s with
  | [] => 0
  | c :: s' => if c =? 0 then 0 else S (c_strlen s')
  end.

Lemma c_strlen_cstr s : c_strlen s = length (cstr s).
Proof. induction s as [|c s IH]; simpl; [done|]. case_match; simpl; auto. Qed.

(** The loop [while (a[i] && b[i]) { if (a[i] != b[i]) return 0; i++; }
    return a[i] == b[i];]. *)
Fixpoint c_streq (a b : chars) : bool :=
  match a, b with
  | [], [] => true
  | [], y :: _ => y =? 0
  | x :: _, [] => x =? 0
  | x :: a', y :: b' =>
      if (x =? 0) || (y =? 0) then x =? y
      else if x =? y then c_streq a' b' else false
  end.

Lemma c_streq_spec a b : c_streq a b = true <-> cstr a = cstr b.
Proof.
  revert b. induction a as [|x a IH]; intros [|y b]; simpl.
  - done.
  - destruct (Z.eqb_spec y 0); split; congruence.
  - destruct (Z.eqb_spec x 0); split; congruence.
  - destruct (Z.eqb_spec x 0), (Z.eqb_spec y 0), (Z.eqb_spec x y); simpl;
      subst; try congruence; try lia; try (split; congruence).
    + rewrite IH. split; congruence.
Qed.

Lemma c_streq_false a b : c_streq a b = false <-> cstr a <> cstr b.
Proof.
  rewrite <- c_streq_spec. destruct (c_streq a b); split; congruence.
Qed.

(** The bounded copy [while (s[i] && i < size - 1) { d[i] = s[i]; i++; }
    d[i] = 0;] into the array [d]: the bytes after the NUL keep their old
    contents. *)
Definition c_strcpy_truncate (dst src : chars) (dst_size : nat) : chars :=
  let w := take (dst_size - 1) (cstr src) in
  w ++ 0 :: drop (S (length w)) dst.

Lemma c_strcpy_truncate_length dst src n :
  (0 < n)%nat -> length dst = n -> length (c_strcpy_truncate dst src n) = n.
Proof.
  intros Hn Hd. unfold c_strcpy_truncate.
  rewrite length_app; simpl. rewrite length_drop, length_take. lia.
Qed.

Lemma cstr_strcpy_truncate dst src n :
  cstr (c_strcpy_truncate dst src n) = take (n - 1) (cstr src).
Proof. apply cstr_app_nul, cstr_take_no_nul. Qed.

Lemma cstr_strcpy_fits dst src n :
  (length (cstr src) < n)%nat -> cstr (c_strcpy_truncate dst src n) = cstr src.
Proof. intros H. rewrite cstr_strcpy_truncate. apply take_ge. lia. Qed.

(** String literals of the sources. *)
Definition lit (s : String.string) : chars :=
  map (fun a => Z.of_N (Ascii.N_of_ascii a)) (String.list_ascii_of_string s).
Notation "$ s" := (lit s%string) (at level 1, format "$ s") : kernel_scope.
#[global] Open Scope kernel_scope.
