(* ===== verification/Memory.v ===== *)
(** * Flat physical memory

    The kernel runs without paging on i386: pointers are 32-bit physical
    addresses.  Memory is a finite map from addresses to bytes (absent
    bytes read as zero, the state of RAM the model starts from).  Words are
    little-endian.  The copy and fill loops of the sources ([mem_copy],
    [mem_zero], [mem_set], [k_memcpy]) are written here once, in the order
    in which the loops write. *)

From S2P Require Import Prelude.

Abbreviation mem := (gmap Z Z).

Definition ld8 (m : mem) (a : Z) : Z := u8 (default 0 (m !! a)).
Definition st8 (m : mem) (a v : Z) : mem := <[a := u8 v]> m.

Definition ld32 (m : mem) (a : Z) : Z :=
  ld8 m a + 256 * ld8 m (a + 1) + 65536 * ld8 m (a + 2) + 16777216 * ld8 m (a + 3).

Definition st32 (m : mem) (a v : Z) : mem :=
  st8 (st8 (st8 (st8 m a v) (a + 1) (v / 256)) (a + 2) (v / 65536))
    (a + 3) (v / 16777216).

(** [for (i = 0; i < n; i++) d[i] = s[i];] *)
Fixpoint mem_copy (m : mem) (d s : Z) (n : nat) : mem :=
  match n with
  | O => m
  | S n' => mem_copy (st8 m d (ld8 m s)) (d + 1) (s + 1) n'
  end.

(** [for (i = 0; i < n; i++) d[i] = v;] *)
Fixpoint mem_set (m : mem) (d v : Z) (n : nat) : mem :=
  match n with
  | O => m
  | S n' => mem_set (st8 m d v) (d + 1) v n'
  end.

(** [for (i = 0; i < n; i++) d[i] = bytes[i];] for bytes that live outside
    the flat memory (a kernel array, an image in the RAM file system). *)
Fixpoint mem_write (m : mem) (d : Z) (bs : list Z) : mem :=
  match bs with
  | [] => m
  | b :: bs' => mem_write (st8 m d b) (d + 1) bs'
  end.

(** [n] bytes from [a] on. *)
Fixpoint mem_read (m : mem) (a : Z) (n : nat) : list Z :=
  match n with
  | O => []
  | S n' => ld8 m a :: mem_read m (a + 1) n'
  end.

(** Pointer arithmetic wraps at 2^32: bytes stored and fetched through a
    32-bit pointer, and little-endian fields. *)

Fixpoint put (m : mem) (a : Z) (bs : list Z) : mem :=
  match bs with
  | [] => m
  | b :: bs' => put (st8 m (u32 a) b) (a + 1) bs'
  end.
Fixpoint get (m : mem) (a : Z) (n : nat) : list Z :=
  match n with
  | O => []
  | S n' => ld8 m (u32 a) :: get m (a + 1) n'
  end.
Definition le16 (v : Z) : list Z := [v; v / 256].
Definition le32 (v : Z) : list Z := [v; v / 256; v / 65536; v / 16777216].
Definition get32 (m : mem) (a : Z) : Z :=
  ld8 m (u32 a) + 256 * ld8 m (u32 (a + 1)) + 65536 * ld8 m (u32 (a + 2))
  + 16777216 * ld8 m (u32 (a + 3)).

(** The C string a pointer points to: the characters before the first NUL
    from [a] on.  Only stored bytes are non-zero, so a string is no longer
    than the map has entries. *)
Fixpoint cstr_from (n : nat) (m : mem) (a : Z) : chars :=
  match n with
  | O => []
  | S n' => let c := ld8 m (u32 a) in if c =? 0 then [] else c :: cstr_from n' m (a + 1)
  end.
Definition cstr_at (m : mem) (a : Z) : chars := cstr_from (size m) m a.

(** Little-endian fields of a byte array, and a store into it. *)
Definition im8 (b : list Z) (i : Z) : Z := u8 (b !!! Z.to_nat i).
Definition im16 (b : list Z) (i : Z) : Z := im8 b i + 256 * im8 b (i + 1).
Definition im32 (b : list Z) (i : Z) : Z := im16 b i + 65536 * im16 b (i + 2).
Definition wr (b : list Z) (off : Z) (bytes : list Z) : list Z :=
  take (Z.to_nat off) b ++ bytes ++ drop (Z.to_nat off + length bytes) b.

(** ** Reading back *)

Lemma ld8_range m a : 0 <= ld8 m a < 256.
Proof. apply u8_range. Qed.

Lemma ld32_range m a : in_u32 (ld32 m a).
Proof.
  unfold in_u32, ld32.
  pose proof (ld8_range m a). pose proof (ld8_range m (a + 1)).
  pose proof (ld8_range m (a + 2)). pose proof (ld8_range m (a + 3)). lia.
Qed.

Lemma ld8_st8 m a b v : ld8 (st8 m a v) b = if decide (a = b) then u8 v else ld8 m b.
Proof.
  unfold ld8, st8. rewrite lookup_insert. case_decide; [apply u8_u8 | done].
Qed.
Lemma ld8_st8_eq m a v : ld8 (st8 m a v) a = u8 v.
Proof. rewrite ld8_st8. by rewrite decide_True. Qed.
Lemma ld8_st8_ne m a b v : a <> b -> ld8 (st8 m a v) b = ld8 m b.
Proof. intros H. rewrite ld8_st8. by rewrite decide_False. Qed.

Lemma ld8_st32_ne m a b v : b < a \/ a + 4 <= b -> ld8 (st32 m a v) b = ld8 m b.
Proof. intros H. unfold st32. by rewrite !ld8_st8_ne by lia. Qed.

Lemma ld32_ext m m' a :
  (forall i, a <= i < a + 4 -> ld8 m i = ld8 m' i) -> ld32 m a = ld32 m' a.
Proof. intros H. unfold ld32. by rewrite !H by lia. Qed.

Lemma ld32_st32_ne m a b v : b + 4 <= a \/ a + 4 <= b -> ld32 (st32 m a v) b = ld32 m b.
Proof. intros H. apply ld32_ext. intros i Hi. apply ld8_st32_ne. lia. Qed.

Lemma bytes_u32 v :
  u8 v + 256 * u8 (v / 256) + 65536 * u8 (v / 65536) + 16777216 * u8 (v / 16777216) = u32 v.
Proof.
  unfold u8, u32.
  assert (E1 : v / 65536 = v / 256 / 256) by (rewrite Z.div_div by lia; done).
  assert (E2 : v / 16777216 = v / 256 / 256 / 256) by (rewrite !Z.div_div by lia; done).
  assert (E3 : v / 4294967296 = v / 256 / 256 / 256 / 256)
    by (rewrite !Z.div_div by lia; done).
  pose proof (Z.div_mod v 4294967296 ltac:(lia)) as H4. rewrite E3 in H4. rewrite E1, E2.
  pose proof (Z.div_mod v 256 ltac:(lia)).
  pose proof (Z.div_mod (v / 256) 256 ltac:(lia)).
  pose proof (Z.div_mod (v / 256 / 256) 256 ltac:(lia)).
  pose proof (Z.div_mod (v / 256 / 256 / 256) 256 ltac:(lia)).
  lia.
Qed.

Lemma ld32_st32_eq m a v : ld32 (st32 m a v) a = u32 v.
Proof.
  rewrite <- bytes_u32. unfold ld32, st32.
  rewrite !ld8_st8.
  repeat (case_decide; try lia).
Qed.

(** ** The loops *)

Lemma ld8_mem_set m d v n a :
  ld8 (mem_set m d v n) a =
  if decide (d <= a < d + Z.of_nat n) then u8 v else ld8 m a.
Proof.
  revert m d. induction n as [|n IH]; intros m d; simpl.
  - rewrite decide_False by lia. done.
  - rewrite IH, ld8_st8.
    repeat case_decide; try done; lia.
Qed.

Lemma ld8_mem_copy m d s n a :
  d + Z.of_nat n <= s \/ s + Z.of_nat n <= d ->
  ld8 (mem_copy m d s n) a =
  if decide (d <= a < d + Z.of_nat n) then ld8 m (s + (a - d)) else ld8 m a.
Proof.
  revert m d s. induction n as [|n IH]; intros m d s Hdisj; simpl.
  - rewrite decide_False by lia. done.
  - rewrite IH by lia. repeat case_decide; try lia.
    + rewrite ld8_st8_ne by lia. f_equal. lia.
    + assert (a = d) as -> by lia. rewrite ld8_st8_eq.
      unfold ld8 at 1. rewrite u8_u8. replace (s + (d - d)) with s by lia. done.
    + rewrite ld8_st8_ne by lia. done.
Qed.

Lemma ld8_mem_write_out m d bs a :
  a < d \/ d + Z.of_nat (length bs) <= a -> ld8 (mem_write m d bs) a = ld8 m a.
Proof.
  revert m d. induction bs as [|b bs IH]; intros m d H; simpl in *; [done|].
  rewrite IH by lia. apply ld8_st8_ne. lia.
Qed.

Lemma ld8_mem_write_in m d bs (i : nat) b :
  bs !! i = Some b -> ld8 (mem_write m d bs) (d + Z.of_nat i) = u8 b.
Proof.
  revert m d i. induction bs as [|c bs IH]; intros m d i H; [done|].
  destruct i as [|i]; simpl in *.
  - injection H as ->. rewrite ld8_mem_write_out by lia.
    rewrite Z.add_0_r. apply ld8_st8_eq.
  - replace (d + Z.of_nat (S i)) with (d + 1 + Z.of_nat i) by lia. by apply IH.
Qed.

Lemma length_mem_read m a n : length (mem_read m a n) = n.
Proof. revert a. induction n; intros; simpl; auto. Qed.

Lemma mem_read_ext m m' a n :
  (forall i, a <= i < a + Z.of_nat n -> ld8 m i = ld8 m' i) ->
  mem_read m a n = mem_read m' a n.
Proof.
  revert a. induction n as [|n IH]; intros a H; simpl; [done|].
  f_equal; [apply H; lia | apply IH; intros; apply H; lia].
Qed.

(** ** Memory through wrapping pointers *)

Lemma ld8_put_out m a bs x :
  0 <= a -> a + Z.of_nat (length bs) <= 4294967296 ->
  x < a \/ a + Z.of_nat (length bs) <= x -> ld8 (put m a bs) x = ld8 m x.
Proof.
  revert m a. induction bs as [|b bs IH]; intros m a H0 H1 H2; cbn [put length] in *; [done|].
  rewrite IH by lia. rewrite u32_small by (unfold in_u32; lia). apply ld8_st8_ne. lia.
Qed.

Lemma get_put m a bs :
  0 <= a -> a + Z.of_nat (length bs) <= 4294967296 -> get (put m a bs) a (length bs) = map u8 bs.
Proof.
  revert m a. induction bs as [|b bs IH]; intros m a H0 H1; cbn [put length get map] in *; [done|].
  rewrite IH by lia. f_equal. rewrite u32_small by (unfold in_u32; lia).
  rewrite ld8_put_out by lia. apply ld8_st8_eq.
Qed.

Lemma ld8_put_in m a bs (i : nat) b :
  0 <= a -> a + Z.of_nat (length bs) <= 4294967296 -> bs !! i = Some b ->
  ld8 (put m a bs) (a + Z.of_nat i) = u8 b.
Proof.
  revert m a i. induction bs as [|c bs IH]; intros m a i H0 H1 Hi; [done|]. cbn [put length] in *.
  destruct i as [|i]; cbn in Hi.
  - injection Hi as ->. rewrite ld8_put_out by lia. rewrite Z.add_0_r, u32_small by (unfold in_u32; lia).
    apply ld8_st8_eq.
  - replace (a + Z.of_nat (S i)) with (a + 1 + Z.of_nat i) by lia. apply IH; [lia | lia | done].
Qed.

(** Clearing a range clears every address its (wrapping) pointer reaches. *)
Lemma put_zeros_stay m a n x : ld8 m x = 0 -> ld8 (put m a (replicate n 0)) x = 0.
Proof.
  revert m a. induction n as [|n IH]; intros m a Hx; cbn [replicate put]; [done|].
  apply IH. rewrite ld8_st8. case_decide; [done | exact Hx].
Qed.

Lemma ld8_put_zeros m a n i x :
  (i < n)%nat -> u32 (a + Z.of_nat i) = x -> ld8 (put m a (replicate n 0)) x = 0.
Proof.
  revert m a i. induction n as [|n IH]; intros m a i Hi Hx; cbn [replicate put]; [lia|].
  destruct i as [|i].
  - apply put_zeros_stay. rewrite Z.add_0_r in Hx. subst. by rewrite ld8_st8_eq.
  - apply (IH _ _ i); [lia|]. rewrite <- Hx. f_equal. lia.
Qed.

(** ** Strings in memory *)

Lemma cstr_from_zero n m a k :
  (k < n)%nat -> ld8 m (u32 (a + Z.of_nat k)) = 0 -> (length (cstr_from n m a) <= k)%nat.
Proof.
  revert a k. induction n as [|n IH]; intros a k Hk Hz; [lia|]. cbn [cstr_from].
  destruct (Z.eqb_spec (ld8 m (u32 a)) 0) as [|Hne]; [simpl; lia|].
  destruct k as [|k]; [rewrite Z.add_0_r in Hz; lia|]. cbn [length].
  specialize (IH (a + 1) k). apply le_n_S, IH; [lia|].
  by replace (a + 1 + Z.of_nat k) with (a + Z.of_nat (S k)) by lia.
Qed.

Lemma cstr_from_no_nul n m a : no_nul (cstr_from n m a).
Proof.
  revert a. induction n as [|n IH]; intros a; cbn [cstr_from]; [constructor|].
  destruct (Z.eqb_spec (ld8 m (u32 a)) 0); constructor; auto. apply IH.
Qed.

(** A string read from memory is what is stored there. *)
Lemma cstr_from_stored n m a w :
  no_nul w -> (length w <= n)%nat ->
  get m a (S (length w)) = w ++ [0] -> cstr_from n m a = w.
Proof.
  revert a n. induction w as [|c w IH]; intros a n Hn Hl Hg.
  - cbn [get length app] in Hg. injection Hg as Hg. destruct n; [done|]. cbn [cstr_from]. by rewrite Hg.
  - destruct n as [|n]; [simpl in Hl; lia|]. apply Forall_cons in Hn as [Hc Hn].
    assert (Hg1 : ld8 m (u32 a) = c /\ get m (a + 1) (S (length w)) = w ++ [0]).
    { cbn [length] in Hg. injection Hg as H1 H2. split; [done|]. exact H2. }
    destruct Hg1 as [Hg1 Hg2]. cbn [cstr_from]. rewrite Hg1.
    rewrite (proj2 (Z.eqb_neq c 0)) by done. f_equal. apply IH; auto. simpl in Hl. lia.
Qed.

(** The bytes of a string are stored, so the size of the map is fuel enough. *)
Lemma stored_size (m : mem) a n :
  Z.of_nat n <= 4294967296 -> (forall k, (k < n)%nat -> ld8 m (u32 (a + Z.of_nat k)) <> 0) -> (n <= size m)%nat.
Proof.
  intros Hn Hs. rewrite <- (size_dom (D := gset Z)).
  set (l := (fun k => u32 (a + Z.of_nat k)) <$> seq 0 n).
  assert (Hnd : NoDup l).
  { unfold l. apply NoDup_fmap_2_strong; [|apply NoDup_seq].
    intros i j Hi Hj Hij. apply elem_of_seq in Hi, Hj. unfold u32 in Hij. zlia. }
  assert (Hl : length l = n) by (unfold l; by rewrite length_fmap, length_seq).
  rewrite <- Hl, <- (size_list_to_set (C := gset Z) l Hnd). apply subseteq_size.
  intros x Hx. apply elem_of_list_to_set, list_elem_of_fmap in Hx as (k & -> & Hk).
  apply elem_of_seq in Hk. apply elem_of_dom. specialize (Hs k ltac:(lia)).
  unfold ld8 in Hs. destruct (m !! _); [eauto | done].
Qed.

Lemma get_lookup m a n k : (k < n)%nat -> get m a n !! k = Some (ld8 m (u32 (a + Z.of_nat k))).
Proof.
  revert a k. induction n as [|n IH]; intros a k Hk; [lia|]. cbn [get]. destruct k as [|k]; cbn [lookup list_lookup].
  - by rewrite Z.add_0_r.
  - rewrite IH by lia. do 3 f_equal. lia.
Qed.

Lemma cstr_at_stored m a w :
  no_nul w -> Z.of_nat (length w) < 4294967296 -> get m a (S (length w)) = w ++ [0] -> cstr_at m a = w.
Proof.
  intros Hn Hl Hg. apply cstr_from_stored; [done | | done]. apply (stored_size m a); [lia|].
  intros k Hk. pose proof (get_lookup m a (S (length w)) k ltac:(lia)) as E. rewrite Hg in E.
  rewrite lookup_app_l in E by done. by apply (Forall_lookup_1 _ _ _ _ Hn E).
Qed.

Lemma get_ext m m' a n :
  (forall k, (k < n)%nat -> ld8 m' (u32 (a + Z.of_nat k)) = ld8 m (u32 (a + Z.of_nat k))) ->
  get m' a n = get m a n.
Proof.
  revert a. induction n as [|n IH]; intros a H; cbn [get]; [done|]. f_equal.
  - specialize (H 0%nat ltac:(lia)). by rewrite Z.add_0_r in H.
  - apply IH. intros k Hk. specialize (H (S k) ltac:(lia)).
    by replace (a + 1 + Z.of_nat k) with (a + Z.of_nat (S k)) by lia.
Qed.

Lemma get32_ext m m' a :
  (forall k, (k < 4)%nat -> ld8 m' (u32 (a + Z.of_nat k)) = ld8 m (u32 (a + Z.of_nat k))) ->
  get32 m' a = get32 m a.
Proof.
  intros H. unfold get32. pose proof (H 0%nat ltac:(lia)) as H0. rewrite Z.add_0_r in H0.
  pose proof (H 1%nat ltac:(lia)) as H1. pose proof (H 2%nat ltac:(lia)) as H2.
  pose proof (H 3%nat ltac:(lia)) as H3. change (Z.of_nat 1) with 1 in H1.
  change (Z.of_nat 2) with 2 in H2. change (Z.of_nat 3) with 3 in H3. by rewrite H0, H1, H2, H3.
Qed.

Lemma get32_range m a : in_u32 (get32 m a).
Proof.
  unfold in_u32, get32. pose proof (ld8_range m (u32 a)). pose proof (ld8_range m (u32 (a + 1))).
  pose proof (ld8_range m (u32 (a + 2))). pose proof (ld8_range m (u32 (a + 3))). lia.
Qed.

(** A word stored through a pointer and read back. *)
Lemma get32_put m a v : 0 <= a -> a + 4 <= 4294967296 -> get32 (put m a (le32 v)) a = u32 v.
Proof.
  intros H0 H1. pose proof (get_put m a (le32 v) H0 ltac:(simpl; lia)) as E. unfold get32.
  set (m' := put m a (le32 v)) in *. cbn [length le32 get map] in E.
  injection E as E0 E1 E2 E3. replace (a + 1 + 1) with (a + 2) in * by lia.
  replace (a + 2 + 1) with (a + 3) in * by lia. rewrite E0, E1, E2, E3. apply bytes_u32.
Qed.

Lemma im8_range b i : 0 <= im8 b i < 256.
Proof. apply u8_range. Qed.
Lemma im16_range b i : 0 <= im16 b i < 65536.
Proof. unfold im16. pose proof (im8_range b i). pose proof (im8_range b (i + 1)). lia. Qed.
Lemma im32_range b i : in_u32 (im32 b i).
Proof.
  unfold im32, in_u32. pose proof (im16_range b i). pose proof (im16_range b (i + 2)). lia.
Qed.

#[export] Hint Resolve ld8_range ld32_range u8_range u16_range u32_range s32_range : kernel.

(** ** Footprints

    The bytes a run of stores may change: a list of start addresses and
    lengths, reached through wrapping pointers. *)

Definition fp_hits (w : list (Z * Z)) (x : Z) : bool := existsb (fun e => u32 (x - fst e) <? snd e) w.

(** Bytes outside the footprint are the same. *)
Definition fp_same (w : list (Z * Z)) (m m' : mem) : Prop :=
  forall x, in_u32 x -> fp_hits w x = false -> ld8 m' x = ld8 m x.

Lemma fp_refl w m : fp_same w m m.
Proof. by intros x _ _. Qed.

Lemma fp_trans w m1 m2 m3 : fp_same w m1 m2 -> fp_same w m2 m3 -> fp_same w m1 m3.
Proof. intros H1 H2 x Hx Hh. by rewrite (H2 x), (H1 x). Qed.

Lemma fp_app_l w w' m m' : fp_same w m m' -> fp_same (w ++ w') m m'.
Proof. intros H x Hx Hh. apply H; [done|]. unfold fp_hits in *. rewrite existsb_app in Hh. by apply orb_false_iff in Hh as [? _]. Qed.

Lemma fp_app_r w w' m m' : fp_same w' m m' -> fp_same (w ++ w') m m'.
Proof. intros H x Hx Hh. apply H; [done|]. unfold fp_hits in *. rewrite existsb_app in Hh. by apply orb_false_iff in Hh as [_ ?]. Qed.

Lemma ld8_put_miss m a bs x :
  in_u32 x -> Z.of_nat (length bs) <= u32 (x - a) -> ld8 (put m a bs) x = ld8 m x.
Proof.
  unfold in_u32. intros Hx. revert m a. induction bs as [|b bs IH]; intros m a Hl; [done|].
  cbn [put]. cbn [length] in Hl. rewrite IH; [apply ld8_st8_ne|]; unfold u32 in *; zlia.
Qed.

(** A store inside an entry of the footprint. *)
Lemma fp_put a n off bs m m' :
  fp_same [(a, n)] m m' -> 0 <= off -> off + Z.of_nat (length bs) <= n -> fp_same [(a, n)] m (put m' (a + off) bs).
Proof.
  intros H H0 Hn x Hx Hh. pose proof Hh as Hh'. cbn [fp_hits existsb fst snd] in Hh'.
  rewrite orb_false_r in Hh'. apply Z.ltb_ge in Hh'.
  rewrite ld8_put_miss; [by apply H | done |]. unfold in_u32, u32 in *. zlia.
Qed.
Lemma fp_put0 a n bs m m' :
  fp_same [(a, n)] m m' -> Z.of_nat (length bs) <= n -> fp_same [(a, n)] m (put m' a bs).
Proof. intros H Hn. rewrite <- (Z.add_0_r a) at 2. by apply fp_put. Qed.
