(* ===== verification/Kmalloc.v ===== *)
(** * The kernel heap (src/src/kmalloc.c)

    First-fit allocation with splitting and coalescing in the fixed window
    0x200000 .. 0x300000.  [struct block] headers live in the flat memory
    (12 bytes on i386: size, free flag, next pointer), and the operations
    below read and write those words exactly as the C code does.  The
    abstract view is the list of blocks in address order; [heap_rep] ties
    the two together and the refinement lemmas show that every operation
    implements its counterpart on lists. *)

From S2P Require Import Prelude Memory.

Module Kmalloc.

Definition KHEAP_START : Z := 0x200000.
Definition KHEAP_SIZE : Z := 0x100000.
Definition ALIGN : Z := 8.
Definition SIZEOF_BLOCK : Z := 12.
Definition HEAP_END : Z := 0x300000.

(** [struct block { size_t size; int free; struct block* next; }] *)
Definition b_size (m : mem) (b : Z) : Z := ld32 m b.
Definition b_free (m : mem) (b : Z) : Z := ld32 m (b + 4).
Definition b_next (m : mem) (b : Z) : Z := ld32 m (b + 8).
Definition set_size (m : mem) (b v : Z) : mem := st32 m b v.
Definition set_free (m : mem) (b v : Z) : mem := st32 m (b + 4) v.
Definition set_next (m : mem) (b v : Z) : mem := st32 m (b + 8) v.

Record kstate : Type := mk_kstate {
  kmem : mem;
  head : Z;
  heap_used : Z;
}.

Definition align_up (n : Z) : Z := Z.land (u32 (n + (ALIGN - 1))) (u32 (Z.lnot (ALIGN - 1))).

Definition kmalloc_init (s : kstate) : kstate :=
  let m := kmem s in
  let h := KHEAP_START in
  let m := set_size m h (u32 (KHEAP_SIZE - SIZEOF_BLOCK)) in
  let m := set_free m h 1 in
  let m := set_next m h 0 in
  mk_kstate m h 0.

Definition split_block (m : mem) (b size : Z) : mem :=
  let total := u32 (SIZEOF_BLOCK + b_size m b) in
  let need := u32 (SIZEOF_BLOCK + size) in
  if total <? u32 (need + SIZEOF_BLOCK + ALIGN) then m
  else
    let n := u32 (b + need) in
    let m := set_size m n (u32 (b_size m b - size - SIZEOF_BLOCK)) in
    let m := set_free m n 1 in
    let m := set_next m n (b_next m b) in
    let m := set_size m b size in
    set_next m b n.

(** The number of loop iterations that is always enough: a block takes at
    least its 12-byte header of the 1 MiB window. *)
Definition heap_fuel : nat := Z.to_nat 87400.

Fixpoint coalesce_loop (fuel : nat) (m : mem) (b : Z) : out mem :=
  match fuel with
  | O => Fault NoFuel
  | S f =>
      if (b =? 0) || (b_next m b =? 0) then Ret m
      else if negb (b_free m b =? 0) && negb (b_free m (b_next m b) =? 0) then
        let m1 := set_size m b (u32 (b_size m b + (SIZEOF_BLOCK + b_size m (b_next m b)))) in
        let m2 := set_next m1 b (b_next m1 (b_next m1 b)) in
        coalesce_loop f m2 b
      else coalesce_loop f m (b_next m b)
  end.

Definition coalesce (s : kstate) : out kstate :=
  m ← coalesce_loop heap_fuel (kmem s) (head s);
  Ret (mk_kstate m (head s) (heap_used s)).

(** The search loop of [kmalloc]: the first free block that is large
    enough, or [None] at the end of the list. *)
Fixpoint find_fit (fuel : nat) (m : mem) (b size : Z) : out (option Z) :=
  match fuel with
  | O => Fault NoFuel
  | S f =>
      if b =? 0 then Ret None
      else if negb (b_free m b =? 0) && (size <=? b_size m b) then Ret (Some b)
      else find_fit f m (b_next m b) size
  end.

Definition kmalloc (s : kstate) (size : Z) : out (Z * kstate) :=
  if size =? 0 then Ret (0, s)
  else
    let size := align_up size in
    r ← find_fit heap_fuel (kmem s) (head s) size;
    match r with
    | Some b =>
        let m := split_block (kmem s) b size in
        let m := set_free m b 0 in
        Ret (u32 (b + SIZEOF_BLOCK),
             mk_kstate m (head s) (u32 (heap_used s + b_size m b)))
    | None => Ret (0, s)
    end.

Definition kfree (s : kstate) (ptr : Z) : out kstate :=
  if ptr =? 0 then Ret s
  else
    let b := u32 (ptr - SIZEOF_BLOCK) in
    let m := kmem s in
    if negb (b_free m b =? 0) then Ret s
    else
      let used := if b_size m b <=? heap_used s then heap_used s - b_size m b else 0 in
      coalesce (mk_kstate (set_free m b 1) (head s) used).

Definition krealloc (s : kstate) (ptr size : Z) : out (Z * kstate) :=
  if ptr =? 0 then kmalloc s size
  else if size =? 0 then s' ← kfree s ptr; Ret (0, s')
  else
    let b := u32 (ptr - SIZEOF_BLOCK) in
    if size <=? b_size (kmem s) b then Ret (ptr, s)
    else
      '(n, s1) ← kmalloc s size;
      if n =? 0 then Ret (0, s1)
      else
        let m := mem_copy (kmem s1) n ptr (Z.to_nat (b_size (kmem s1) b)) in
        s2 ← kfree (mk_kstate m (head s1) (heap_used s1)) ptr;
        Ret (n, s2).

Fixpoint sum_free (fuel : nat) (m : mem) (b f : Z) : out Z :=
  match fuel with
  | O => Fault NoFuel
  | S fu =>
      if b =? 0 then Ret f
      else sum_free fu m (b_next m b)
             (if negb (b_free m b =? 0) then u32 (f + b_size m b) else f)
  end.

(** [used], [total] and [free_bytes], in this order. *)
Definition kmalloc_stats (s : kstate) : out (Z * Z * Z) :=
  f ← sum_free heap_fuel (kmem s) (head s) 0;
  Ret (heap_used s, KHEAP_SIZE, f).

(** ** The abstract heap: blocks in address order *)

Record blk : Type := Blk { bsz : Z; bfree : bool }.

(** The pointer a list walk holds when the remaining blocks start at [a]:
    NULL at the end of the list. *)
Definition chain_ptr (a : Z) (bs : list blk) : Z :=
  match bs with [] => 0 | _ => a end.

(** The blocks [bs] tile memory from [a] to the end of the heap and their
    headers are in [m]. *)
Fixpoint chain (m : mem) (a : Z) (bs : list blk) : Prop :=
  match bs with
  | [] => a = HEAP_END
  | b :: r =>
      b_size m a = bsz b /\
      b_free m a = (if bfree b then 1 else 0) /\
      b_next m a = chain_ptr (a + SIZEOF_BLOCK + bsz b) r /\
      0 <= bsz b /\ bsz b mod 4 = 0 /\
      chain m (a + SIZEOF_BLOCK + bsz b) r
  end.

Fixpoint used_bytes (bs : list blk) : Z :=
  match bs with
  | [] => 0
  | b :: r => (if bfree b then 0 else bsz b) + used_bytes r
  end.

Fixpoint free_bytes (bs : list blk) : Z :=
  match bs with
  | [] => 0
  | b :: r => (if bfree b then bsz b else 0) + free_bytes r
  end.

(** Payload extents (address, length) of the allocated blocks. *)
Fixpoint allocs (a : Z) (bs : list blk) : list (Z * Z) :=
  match bs with
  | [] => []
  | b :: r =>
      let tl := allocs (a + SIZEOF_BLOCK + bsz b) r in
      if bfree b then tl else (a + SIZEOF_BLOCK, bsz b) :: tl
  end.

Definition heap_rep (s : kstate) (bs : list blk) : Prop :=
  head s = KHEAP_START /\ bs <> [] /\ chain (kmem s) KHEAP_START bs /\
  heap_used s = used_bytes bs.

(** Reference allocation: carve the request out of the first free block
    that fits, keeping a remainder of at least 8 payload bytes as a new
    free block. *)
Definition carve (b : blk) (size : Z) : list blk :=
  if bsz b <? size + SIZEOF_BLOCK + ALIGN then [Blk (bsz b) false]
  else [Blk size false; Blk (bsz b - size - SIZEOF_BLOCK) true].

Fixpoint spec_alloc (a size : Z) (bs : list blk) : option (Z * list blk) :=
  match bs with
  | [] => None
  | b :: r =>
      if bfree b && (size <=? bsz b) then Some (a + SIZEOF_BLOCK, carve b size ++ r)
      else match spec_alloc (a + SIZEOF_BLOCK + bsz b) size r with
           | Some (p, r') => Some (p, b :: r')
           | None => None
           end
  end.

(** Reference release: mark the block, then merge every run of free
    neighbours. *)
Fixpoint mark_free (a p : Z) (bs : list blk) : list blk :=
  match bs with
  | [] => []
  | b :: r =>
      if a + SIZEOF_BLOCK =? p then Blk (bsz b) true :: r
      else b :: mark_free (a + SIZEOF_BLOCK + bsz b) p r
  end.

Fixpoint merge_from (b : blk) (r : list blk) : list blk :=
  match r with
  | [] => [b]
  | c :: r' =>
      if bfree b && bfree c then merge_from (Blk (bsz b + (SIZEOF_BLOCK + bsz c)) true) r'
      else b :: merge_from c r'
  end.

Definition merge_all (bs : list blk) : list blk :=
  match bs with [] => [] | b :: r => merge_from b r end.

(** No two neighbouring free blocks. *)
Fixpoint coalesced (bs : list blk) : Prop :=
  match bs with
  | b :: ((c :: _) as r) => ~ (bfree b = true /\ bfree c = true) /\ coalesced r
  | _ => True
  end.

(** ** Memory-level lemmas *)

Ltac kconst := unfold KHEAP_START, KHEAP_SIZE, HEAP_END, SIZEOF_BLOCK, ALIGN, in_u32 in *.
Ltac klia := kconst; lia.

(** Evaluate header reads through header writes. *)
Ltac hdr :=
  unfold b_size, b_free, b_next, set_size, set_free, set_next in *;
  repeat first [rewrite ld32_st32_eq | rewrite ld32_st32_ne by klia].

Lemma align_up_eq n : align_up n = 8 * (u32 (n + 7) / 8).
Proof.
  unfold align_up. change (n + (ALIGN - 1)) with (n + 7).
  change (ALIGN - 1) with (2 ^ 3 - 1). rewrite land_clear_low; [done | apply u32_range | lia].
Qed.

Lemma align_up_range n : 0 <= align_up n < 4294967296 /\ align_up n mod 4 = 0.
Proof. rewrite align_up_eq. pose proof (u32_range (n + 7)). split; zlia. Qed.

Lemma align_up_spec n : 0 <= n <= 0xFFFFFFF8 ->
  n <= align_up n < n + 8 /\ align_up n mod 8 = 0.
Proof.
  intros H. rewrite align_up_eq, u32_small by klia.
  split; [zlia |]. rewrite Z.mul_comm, Z.mod_mul; lia.
Qed.

Lemma header_frame m m' a :
  (forall i, a <= i < a + SIZEOF_BLOCK -> ld8 m' i = ld8 m i) ->
  b_size m' a = b_size m a /\ b_free m' a = b_free m a /\ b_next m' a = b_next m a.
Proof.
  intros H. unfold b_size, b_free, b_next.
  repeat split; apply ld32_ext; intros; apply H; klia.
Qed.

Lemma chain_bounds m a bs :
  chain m a bs -> a + 12 * Z.of_nat (length bs) + used_bytes bs + free_bytes bs = HEAP_END /\
  0 <= used_bytes bs /\ 0 <= free_bytes bs.
Proof.
  revert a. induction bs as [|b r IH]; intros a H; simpl in *; [klia|].
  destruct H as (_ & _ & _ & Hsz & _ & H). apply IH in H.
  destruct (bfree b); klia.
Qed.

Lemma chain_frame m m' a bs :
  chain m a bs -> (forall i, a <= i < HEAP_END -> ld8 m' i = ld8 m i) -> chain m' a bs.
Proof.
  revert a. induction bs as [|b r IH]; intros a H Hf; simpl in *; [done|].
  destruct H as (Hs & Hfr & Hn & Hsz & Hm & H).
  pose proof (chain_bounds _ _ _ H).
  destruct (header_frame m m' a) as (-> & -> & ->); [intros; apply Hf; klia |].
  repeat split; auto. apply IH; [done | intros; apply Hf; klia].
Qed.

Lemma heap_fuel_enough m bs :
  chain m KHEAP_START bs -> (length bs < heap_fuel)%nat.
Proof.
  intros H. apply chain_bounds in H. unfold heap_fuel. klia.
Qed.

(** A list walk is at NULL exactly at the end of the list. *)
Lemma chain_ptr_zero a bs :
  KHEAP_START <= a -> (chain_ptr a bs =? 0) = match bs with [] => true | _ => false end.
Proof.
  intros Ha. destruct bs as [|b r]; simpl; [done|]. apply Z.eqb_neq. klia.
Qed.

Lemma bool_flag b : negb ((if b : bool then 1 else 0) =? 0) = b.
Proof. by destruct b. Qed.

(** ** Allocation *)

(** The writes of [kmalloc] once the block is chosen. *)
Definition take_block (m : mem) (b size : Z) : mem := set_free (split_block m b size) b 0.

Lemma take_block_chain m a b r size :
  chain m a (b :: r) -> KHEAP_START <= a ->
  0 <= size <= bsz b -> size mod 4 = 0 ->
  chain (take_block m a size) a (carve b size ++ r) /\
  (forall i, i < a \/ a + SIZEOF_BLOCK + bsz b <= i -> ld8 (take_block m a size) i = ld8 m i).
Proof.
  simpl. intros (Hs & Hfr & Hn & Hsz & Hm & Hr) Ha Hsize Hal.
  pose proof (chain_bounds _ _ _ Hr) as Hb.
  unfold take_block, split_block, carve. rewrite Hs.
  rewrite (u32_small (SIZEOF_BLOCK + bsz b)) by klia.
  rewrite !(u32_small (SIZEOF_BLOCK + size)) by klia.
  rewrite (u32_small (SIZEOF_BLOCK + size + SIZEOF_BLOCK + ALIGN)) by klia.
  rewrite !(u32_small (a + (SIZEOF_BLOCK + size))) by klia.
  replace (SIZEOF_BLOCK + bsz b <? SIZEOF_BLOCK + size + SIZEOF_BLOCK + ALIGN)
    with (bsz b <? size + SIZEOF_BLOCK + ALIGN) by (kconst; lia).
  destruct (Z.ltb_spec (bsz b) (size + SIZEOF_BLOCK + ALIGN)).
  - split.
    + simpl. hdr. rewrite Hs, Hn. repeat split; auto.
      eapply chain_frame; [done|]. intros. apply ld8_st32_ne. klia.
    + intros i Hi. apply ld8_st32_ne. klia.
  - rewrite (u32_small (bsz b - size - SIZEOF_BLOCK)) by klia.
    set (n := a + (SIZEOF_BLOCK + size)).
    assert (Hfar : forall i, i < a \/ a + SIZEOF_BLOCK + bsz b <= i ->
      ld8 (set_free (set_next (set_size (set_next (set_free (set_size m n
        (bsz b - size - SIZEOF_BLOCK)) n 1) n
        (b_next (set_free (set_size m n (bsz b - size - SIZEOF_BLOCK)) n 1) a))
        a size) a n) a 0) i = ld8 m i).
    { intros i Hi. unfold n in *. hdr. rewrite !ld8_st32_ne by klia. done. }
    split; [|exact Hfar].
    simpl app. cbn [chain bsz bfree].
    replace (a + SIZEOF_BLOCK + size) with n by (unfold n; lia).
    replace (n + SIZEOF_BLOCK + (bsz b - size - SIZEOF_BLOCK))
      with (a + SIZEOF_BLOCK + bsz b) by (unfold n; lia).
    assert (Hn4 : n = a + 12 + size) by (unfold n; klia). clearbody n.
    hdr. rewrite Hn. unfold chain_ptr at 1.
    rewrite !u32_small by (try (destruct r; simpl); klia).
    repeat split; try klia.
    { clear -Hm Hal. kconst. zlia. }
    eapply chain_frame; [done|]. intros i Hi. by rewrite !ld8_st32_ne by klia.
Qed.

(** Every allocated extent lies inside the window, after the header of the
    first block. *)
Lemma allocs_bounds m a bs q n :
  chain m a bs -> (q, n) ∈ allocs a bs ->
  a + SIZEOF_BLOCK <= q /\ 0 <= n /\ q + n <= HEAP_END.
Proof.
  revert a. induction bs as [|b r IH]; intros a Hc Hin; simpl in *.
  - by apply elem_of_nil in Hin.
  - destruct Hc as (_ & _ & _ & Hb & _ & Hr). pose proof (chain_bounds _ _ _ Hr).
    assert ((q, n) = (a + SIZEOF_BLOCK, bsz b) \/
            (q, n) ∈ allocs (a + SIZEOF_BLOCK + bsz b) r) as [[= -> ->]|Hin'].
    { destruct (bfree b); [by right | by apply elem_of_cons in Hin]. }
    + klia.
    + apply IH in Hin'; [klia | done].
Qed.

Lemma find_fit_refines m a size bs fuel :
  chain m a bs -> KHEAP_START <= a -> (length bs < fuel)%nat ->
  0 <= size -> size mod 4 = 0 ->
  match spec_alloc a size bs with
  | Some (p, bs') =>
      find_fit fuel m (chain_ptr a bs) size = Ret (Some (p - SIZEOF_BLOCK)) /\
      a <= p - SIZEOF_BLOCK /\ p <= HEAP_END /\
      chain (take_block m (p - SIZEOF_BLOCK) size) a bs' /\
      (forall i, i < p - SIZEOF_BLOCK ->
         ld8 (take_block m (p - SIZEOF_BLOCK) size) i = ld8 m i) /\
      (forall q n i, (q, n) ∈ allocs a bs -> q <= i < q + n ->
         ld8 (take_block m (p - SIZEOF_BLOCK) size) i = ld8 m i)
  | None => find_fit fuel m (chain_ptr a bs) size = Ret None
  end.
Proof.
  revert a fuel. induction bs as [|b r IH]; intros a fuel Hc Ha Hf Hsz Hal;
    (destruct fuel as [|fuel]; simpl in Hf; [lia|]).
  - done.
  - pose proof Hc as (Hs & Hfr & Hn & Hb & Hm & Hr). pose proof (chain_bounds _ _ _ Hr).
    cbn [spec_alloc find_fit]. rewrite chain_ptr_zero by done.
    cbn [chain_ptr]. rewrite Hs, Hfr, bool_flag.
    destruct (bfree b && (size <=? bsz b)) eqn:E.
    + apply andb_true_iff in E as [Hfree Hle].
      replace (a + SIZEOF_BLOCK - SIZEOF_BLOCK) with a by lia.
      destruct (take_block_chain m a b r size) as [Hch Hfar]; auto; [lia|].
      split_and!; [done | lia | klia | done | intros; apply Hfar; lia |].
      intros q n i Hin Hi. apply Hfar. cbn [allocs] in Hin. rewrite Hfree in Hin.
      eapply allocs_bounds in Hin; [klia | done].
    + rewrite Hn. specialize (IH (a + SIZEOF_BLOCK + bsz b) fuel Hr).
      destruct spec_alloc as [[p r']|]; [|apply IH; klia].
      destruct IH as (Hff & Hle & Hend & Hch & Hlow & Hpay); try klia; auto.
      split_and!; auto; try klia.
      * cbn [chain].
        destruct (header_frame m (take_block m (p - SIZEOF_BLOCK) size) a) as (-> & -> & ->);
          [intros; apply Hlow; klia |].
        repeat split; auto. rewrite Hn. destruct r, r'; simpl in Hr, Hch |- *; klia.
      * intros q n i Hin Hi. cbn [allocs] in Hin.
        destruct (bfree b); [by eapply Hpay |].
        apply elem_of_cons in Hin as [[= -> ->]|Hin]; [apply Hlow; klia | by eapply Hpay].
Qed.

(** ** Where a block sits in the list *)

(** Bytes taken by a run of blocks, headers included. *)
Fixpoint span (bs : list blk) : Z :=
  match bs with [] => 0 | b :: r => SIZEOF_BLOCK + bsz b + span r end.

Lemma chain_at m a pre c r :
  chain m a (pre ++ c :: r) ->
  b_size m (a + span pre) = bsz c /\ b_free m (a + span pre) = (if bfree c then 1 else 0) /\
  0 <= span pre /\ 0 <= bsz c /\ bsz c mod 4 = 0 /\ span pre mod 4 = 0 /\
  a + span pre + SIZEOF_BLOCK + bsz c <= HEAP_END.
Proof.
  revert a. induction pre as [|b pre IH]; intros a H; simpl in *.
  - destruct H as (Hs & Hf & _ & Hb & Hm & Hr). pose proof (chain_bounds _ _ _ Hr).
    rewrite Z.add_0_r. split_and!; auto; klia.
  - destruct H as (_ & _ & _ & Hb & Hm & Hr).
    apply IH in Hr as (H1 & H2 & H3 & H4 & H5 & H6 & H7).
    replace (a + (SIZEOF_BLOCK + bsz b + span pre))
      with (a + SIZEOF_BLOCK + bsz b + span pre) by lia.
    split_and!; auto; [klia | clear -Hm H6; kconst; zlia].
Qed.

Lemma used_bytes_app l1 l2 : used_bytes (l1 ++ l2) = used_bytes l1 + used_bytes l2.
Proof. induction l1 as [|b r IH]; simpl; [done|]. rewrite IH. lia. Qed.

Lemma allocs_app a l1 l2 : allocs a (l1 ++ l2) = allocs a l1 ++ allocs (a + span l1) l2.
Proof.
  revert a. induction l1 as [|b r IH]; intros a; simpl; [f_equal; lia|].
  rewrite IH.
  replace (a + SIZEOF_BLOCK + bsz b + span r)
    with (a + (SIZEOF_BLOCK + bsz b + span r)) by lia.
  by destruct (bfree b).
Qed.

Lemma chain_suffix m a pre r :
  chain m a (pre ++ r) ->
  chain m (a + span pre) r /\ 0 <= span pre /\ 0 <= used_bytes pre.
Proof.
  revert a. induction pre as [|c pre IH]; intros a H; simpl in *.
  - rewrite Z.add_0_r. split_and!; [done | lia | lia].
  - destruct H as (_ & _ & _ & Hc & _ & H). apply IH in H as (H & Hs & Hu).
    replace (a + (SIZEOF_BLOCK + bsz c + span pre))
      with (a + SIZEOF_BLOCK + bsz c + span pre) by lia.
    split_and!; [done | klia | destruct (bfree c); lia].
Qed.

(** Allocated extents before and after a block do not meet it. *)
Lemma allocs_prefix_below m a pre r q n :
  chain m a (pre ++ r) -> (q, n) ∈ allocs a pre -> q + n <= a + span pre.
Proof.
  revert a. induction pre as [|b pre IH]; intros a Hc Hin; simpl in *.
  - by apply elem_of_nil in Hin.
  - destruct Hc as (_ & _ & _ & Hb & _ & Hr).
    pose proof (chain_suffix _ _ _ _ Hr) as (_ & Hsp & _).
    assert ((q, n) = (a + SIZEOF_BLOCK, bsz b) \/
            (q, n) ∈ allocs (a + SIZEOF_BLOCK + bsz b) pre) as [[= -> ->]|Hin'].
    { destruct (bfree b); [by right | by apply elem_of_cons in Hin]. }
    + klia.
    + apply IH in Hin'; [klia | done].
Qed.

Lemma spec_alloc_inv a size bs p bs' :
  spec_alloc a size bs = Some (p, bs') ->
  exists pre b r, bs = pre ++ b :: r /\ bs' = pre ++ carve b size ++ r /\
    bfree b = true /\ size <= bsz b /\ p = a + span pre + SIZEOF_BLOCK /\
    Forall (fun c => bfree c = false \/ bsz c < size) pre.
Proof.
  revert a bs'. induction bs as [|b r IH]; intros a bs' H; simpl in H; [done|].
  destruct (bfree b && (size <=? bsz b)) eqn:E.
  - injection H as <- <-. apply andb_true_iff in E as [? ?].
    exists [], b, r. simpl. split_and!; auto; lia.
  - destruct spec_alloc as [[p' r']|] eqn:Hs; [|done]. injection H as <- <-.
    apply IH in Hs as (pre & b0 & r0 & -> & -> & ? & ? & -> & Hpre).
    exists (b :: pre), b0, r0. simpl. split_and!; auto; [lia|].
    constructor; [|done]. apply andb_false_iff in E as [?|?]; [by left | right; lia].
Qed.

Lemma carve_head b size : exists n tl, carve b size = Blk n false :: tl /\
  Forall (fun c => bfree c = true) tl /\ (size <= bsz b -> size <= n <= bsz b) /\
  used_bytes (carve b size) = n /\ span (carve b size) = SIZEOF_BLOCK + bsz b.
Proof.
  unfold carve. destruct (Z.ltb_spec (bsz b) (size + SIZEOF_BLOCK + ALIGN)).
  - eexists _, []. simpl. split_and!; eauto; intros; klia.
  - eexists _, [_]. simpl. split_and!; eauto; intros; klia.
Qed.

Lemma allocs_all_free a bs : Forall (fun c => bfree c = true) bs -> allocs a bs = [].
Proof.
  intros H. revert a. induction H as [|c r Hc _ IH]; intros a; simpl; [done|].
  rewrite Hc. apply IH.
Qed.

(** ** [kmalloc] implements the reference allocation *)

Lemma kmalloc_init_rep s : heap_rep (kmalloc_init s) [Blk (KHEAP_SIZE - SIZEOF_BLOCK) true].
Proof.
  unfold heap_rep, kmalloc_init. cbn [kmem head heap_used].
  split_and!; [done | done | | done].
  cbn [chain bsz bfree]. hdr. by split_and!.
Qed.

(** For every request but the empty one; above 0xFFFFFFF8 bytes the rounded
    size is 0. *)
Lemma kmalloc_step s bs size :
  heap_rep s bs -> 0 < size < 4294967296 ->
  match spec_alloc KHEAP_START (align_up size) bs with
  | Some (p, bs') =>
      exists s', kmalloc s size = Ret (p, s') /\ heap_rep s' bs' /\ p <> 0 /\
        forall q n i, (q, n) ∈ allocs KHEAP_START bs -> q <= i < q + n ->
          ld8 (kmem s') i = ld8 (kmem s) i
  | None => kmalloc s size = Ret (0, s)
  end.
Proof.
  intros (Hhd & Hne & Hc & Hu) Hsz.
  destruct (align_up_range size) as [Hal Hmod4].
  unfold kmalloc. rewrite (proj2 (Z.eqb_neq size 0)) by lia. rewrite Hhd.
  pose proof (find_fit_refines (kmem s) KHEAP_START (align_up size) bs heap_fuel Hc) as Hff.
  specialize (Hff ltac:(lia) (heap_fuel_enough _ _ Hc) ltac:(lia) Hmod4).
  assert (Hcp : chain_ptr KHEAP_START bs = KHEAP_START) by (by destruct bs).
  rewrite Hcp in Hff.
  destruct spec_alloc as [[p bs']|] eqn:Hspec; [|by rewrite Hff].
  destruct Hff as (Hfind & Hlo & Hend & Hch & _ & Hpay). rewrite Hfind. simpl.
  replace (p - SIZEOF_BLOCK + SIZEOF_BLOCK) with p by lia.
  rewrite u32_small by klia.
  eexists. split; [reflexivity|]. cbn [kmem head heap_used].
  fold (take_block (kmem s) (p - SIZEOF_BLOCK) (align_up size)).
  split; [|split; [klia | exact Hpay]].
  apply spec_alloc_inv in Hspec as (pre & b & r & -> & -> & Hfree & Hfit & Hp & _).
  destruct (carve_head b (align_up size)) as (n & tl & Hcv & _ & Hn & Hub & _).
  unfold heap_rep. cbn [kmem head heap_used]. split_and!; auto.
  { by destruct pre; rewrite Hcv. }
  assert (b_size (take_block (kmem s) (p - SIZEOF_BLOCK) (align_up size)) (p - SIZEOF_BLOCK) = n)
    as ->.
  { rewrite Hcv in Hch. simpl in Hch. apply chain_at in Hch as [Hch _].
    assert (p - SIZEOF_BLOCK = KHEAP_START + span pre) as Hpb by (rewrite Hp; ring).
    by rewrite Hpb in *. }
  pose proof (chain_bounds _ _ _ Hch) as Hbnd.
  rewrite !used_bytes_app, Hub in Hbnd |- *. rewrite used_bytes_app in Hu. simpl in Hu.
  rewrite Hfree in Hu. rewrite Hu, u32_small; klia.
Qed.

(** ** Coalescing *)

Lemma merge_from_head b r : exists n tl, merge_from b r = Blk n (bfree b) :: tl.
Proof.
  revert b. induction r as [|c r IH]; intros [n f]; simpl; [eauto|].
  destruct (f && bfree c) eqn:E; [|eauto].
  apply andb_true_iff in E as [-> _]. apply (IH (Blk _ true)).
Qed.

Lemma merge_from_coalesced b r : coalesced (merge_from b r).
Proof.
  revert b. induction r as [|c r IH]; intros b; simpl; [done|].
  destruct (bfree b && bfree c) eqn:E; [apply IH|].
  specialize (IH c). destruct (merge_from_head c r) as (n & tl & Hm). rewrite Hm in *.
  simpl. split; [|exact IH]. simpl. intros [H1 H2]. by rewrite H1, H2 in E.
Qed.

Lemma merge_from_used b r : used_bytes (merge_from b r) = used_bytes (b :: r).
Proof.
  revert b. induction r as [|c r IH]; intros b; simpl; [done|].
  destruct (bfree b && bfree c) eqn:E; rewrite ?IH; simpl; rewrite ?IH; [|done].
  apply andb_true_iff in E as [-> ->]. lia.
Qed.

Lemma merge_from_allocs a b r : allocs a (merge_from b r) = allocs a (b :: r).
Proof.
  revert a b. induction r as [|c r IH]; intros a b; simpl; [done|].
  destruct (bfree b && bfree c) eqn:E.
  - rewrite IH. simpl. apply andb_true_iff in E as [-> ->]. f_equal. lia.
  - simpl. by rewrite IH.
Qed.

(** A merged list is left alone. *)
Lemma merge_from_id b r : coalesced (b :: r) -> merge_from b r = b :: r.
Proof.
  revert b. induction r as [|c r IH]; intros b H; [done|].
  destruct H as [Hn H]. cbn [merge_from].
  destruct (bfree b && bfree c) eqn:E; [|by rewrite IH].
  apply andb_true_iff in E. tauto.
Qed.

Lemma coalesce_loop_refines m a b r fuel :
  chain m a (b :: r) -> KHEAP_START <= a -> (length r < fuel)%nat ->
  exists m', coalesce_loop fuel m a = Ret m' /\ chain m' a (merge_from b r) /\
    (forall i, i < a \/ HEAP_END <= i -> ld8 m' i = ld8 m i) /\
    (forall q n i, (q, n) ∈ allocs a (b :: r) -> q <= i < q + n -> ld8 m' i = ld8 m i).
Proof.
  revert m a b fuel. induction r as [|c r IH]; intros m a b fuel Hc Ha Hf;
    (destruct fuel as [|fuel]; simpl in Hf; [lia|]);
    pose proof Hc as (Hs & Hfr & Hn & Hb & Hm & Hr); cbn [coalesce_loop];
    rewrite (proj2 (Z.eqb_neq a 0)) by klia; rewrite Hn.
  - exists m. simpl. split_and!; auto.
  - rewrite chain_ptr_zero by klia. cbn [chain_ptr orb].
    pose proof Hr as (Hs2 & Hfr2 & Hn2 & Hb2 & Hm2 & Hr2).
    pose proof (chain_bounds _ _ _ Hr2).
    rewrite Hfr, Hfr2, !bool_flag, Hs, Hs2. cbn [merge_from].
    destruct (bfree b && bfree c) eqn:E.
    + apply andb_true_iff in E as [Eb Ec].
      rewrite u32_small by klia.
      assert (Hnn : forall v, b_next (set_size m a v) (b_next (set_size m a v) a) =
        chain_ptr (a + SIZEOF_BLOCK + bsz b + SIZEOF_BLOCK + bsz c) r).
      { intros v. replace (b_next (set_size m a v) a) with (a + SIZEOF_BLOCK + bsz b);
          hdr; [exact Hn2 | by rewrite Hn]. }
      rewrite Hnn. set (m2 := set_next _ _ _).
      assert (Hm2far : forall i, i < a \/ a + SIZEOF_BLOCK <= i -> ld8 m2 i = ld8 m i).
      { intros i Hi. unfold m2, set_next, set_size. rewrite !ld8_st32_ne by klia. done. }
      destruct (IH m2 a (Blk (bsz b + (SIZEOF_BLOCK + bsz c)) true) fuel)
        as (m' & Hm' & Hch & Hlow & Hpay); [|done|lia|].
      * cbn [chain bsz bfree]. unfold m2. hdr. rewrite Hfr, Eb.
        rewrite !u32_small by (try (destruct r; simpl); klia).
        replace (a + SIZEOF_BLOCK + (bsz b + (SIZEOF_BLOCK + bsz c)))
          with (a + SIZEOF_BLOCK + bsz b + SIZEOF_BLOCK + bsz c) by lia.
        split_and!; auto; try klia; [clear -Hm Hm2; kconst; zlia|].
        eapply chain_frame; [done|]. intros i Hi. by rewrite !ld8_st32_ne by klia.
      * exists m'. split_and!; auto.
        { intros i Hi. rewrite Hlow by done. apply Hm2far. klia. }
        intros q n i Hin Hi. cbn [allocs] in Hin. rewrite Eb, Ec in Hin.
        pose proof (allocs_bounds _ _ _ _ _ Hr2 Hin).
        rewrite (Hpay q n i); [apply Hm2far; klia | | done].
        cbn [allocs bfree bsz]. revert Hin. by match goal with
          |- _ ∈ allocs ?x _ -> _ ∈ allocs ?y _ => replace y with x by lia end.
    + destruct (IH m (a + SIZEOF_BLOCK + bsz b) c fuel) as (m' & Hm' & Hch & Hlow & Hpay);
        [done | klia | lia |].
      exists m'. split_and!; auto.
      * cbn [chain]. destruct (header_frame m m' a) as (-> & -> & ->);
          [intros; apply Hlow; klia |].
        split_and!; auto. rewrite Hn. destruct (merge_from_head c r) as (n & tl & ->). done.
      * intros i Hi. apply Hlow. klia.
      * intros q n i Hin Hi. cbn [allocs] in Hin.
        destruct (bfree b); [by eapply Hpay |].
        apply elem_of_cons in Hin as [[= -> ->]|Hin]; [apply Hlow; klia | by eapply Hpay].
Qed.

(** ** Releasing *)

Lemma allocs_inv a bs p n :
  (p, n) ∈ allocs a bs ->
  exists pre r, bs = pre ++ Blk n false :: r /\ p = a + span pre + SIZEOF_BLOCK.
Proof.
  revert a. induction bs as [|[sz f] r IH]; intros a H; simpl in H.
  - by apply elem_of_nil in H.
  - assert (f = false /\ (p, n) = (a + SIZEOF_BLOCK, sz) \/
            (p, n) ∈ allocs (a + SIZEOF_BLOCK + sz) r) as [[-> [= -> ->]]|H'].
    { destruct f; [by right |]. apply elem_of_cons in H as [?|?]; auto. }
    + exists [], r. simpl. split; [done | lia].
    + apply IH in H' as (pre & r' & -> & ->). exists (Blk sz f :: pre), r'.
      simpl. split; [done | lia].
Qed.

Lemma mark_free_at m a pre b r :
  chain m a (pre ++ b :: r) ->
  mark_free a (a + span pre + SIZEOF_BLOCK) (pre ++ b :: r) = pre ++ Blk (bsz b) true :: r.
Proof.
  revert a. induction pre as [|c pre IH]; intros a H; simpl.
  - by rewrite (proj2 (Z.eqb_eq _ _)) by lia.
  - simpl in H. destruct H as (_ & _ & _ & Hc & _ & H).
    pose proof (chain_at _ _ _ _ _ H).
    rewrite (proj2 (Z.eqb_neq _ _)) by klia.
    rewrite <- (IH _ H). do 2 f_equal. lia.
Qed.

Lemma chain_set_free m a pre b r :
  chain m a (pre ++ b :: r) -> KHEAP_START <= a ->
  chain (set_free m (a + span pre) 1) a (pre ++ Blk (bsz b) true :: r).
Proof.
  revert a. induction pre as [|c pre IH]; intros a H Ha.
  - simpl in *. destruct H as (Hs & _ & Hn & Hb & Hm & Hr).
    rewrite Z.add_0_r. hdr. split_and!; auto.
    eapply chain_frame; [done|]. intros i Hi. apply ld8_st32_ne. klia.
  - simpl in H. destruct H as (Hs & Hf & Hn & Hc & Hm & Hr).
    pose proof (chain_at _ _ _ _ _ Hr). simpl.
    specialize (IH _ Hr ltac:(klia)).
    replace (a + (SIZEOF_BLOCK + bsz c + span pre))
      with (a + SIZEOF_BLOCK + bsz c + span pre) by lia.
    destruct (header_frame m (set_free m (a + SIZEOF_BLOCK + bsz c + span pre) 1) a)
      as (-> & -> & ->); [intros i Hi; apply ld8_st32_ne; klia |].
    split_and!; auto. rewrite Hn. by destruct pre.
Qed.

(** Distinct allocated payloads are disjoint from each other's headers and
    bytes: the free flag of one block is outside every other payload. *)
Lemma payload_not_header m a pre b r q n i :
  chain m a (pre ++ b :: r) -> (q, n) ∈ allocs a (pre ++ b :: r) -> q <= i < q + n ->
  i < a + span pre \/ a + span pre + SIZEOF_BLOCK <= i.
Proof.
  intros Hc Hin Hi. rewrite allocs_app in Hin. apply elem_of_app in Hin as [Hin|Hin].
  - left. pose proof (allocs_prefix_below _ _ _ _ _ _ Hc Hin). lia.
  - right. apply chain_suffix in Hc as (Hc & _ & _).
    pose proof (allocs_bounds _ _ _ _ _ Hc Hin). klia.
Qed.

Lemma kfree_step s bs p n :
  heap_rep s bs -> (p, n) ∈ allocs KHEAP_START bs ->
  exists s', kfree s p = Ret s' /\ heap_rep s' (merge_all (mark_free KHEAP_START p bs)) /\
    (forall q k i, (q, k) ∈ allocs KHEAP_START (mark_free KHEAP_START p bs) ->
       q <= i < q + k -> ld8 (kmem s') i = ld8 (kmem s) i) /\
    (forall i, i < KHEAP_START \/ HEAP_END <= i -> ld8 (kmem s') i = ld8 (kmem s) i).
Proof.
  intros (Hhd & Hne & Hc & Hu) Hin.
  apply allocs_inv in Hin as (pre & r & -> & ->).
  rewrite (mark_free_at _ _ _ _ _ Hc).
  pose proof (chain_at _ _ _ _ _ Hc) as (Hs & Hf & Hsp & Hb & _ & _ & He).
  pose proof (chain_bounds _ _ _ Hc) as Hbnd.
  cbn [bsz bfree] in *. set (b := KHEAP_START + span pre) in *.
  unfold kfree. rewrite (proj2 (Z.eqb_neq _ _)) by klia.
  replace (b + SIZEOF_BLOCK - SIZEOF_BLOCK) with b by lia.
  rewrite u32_small by klia. rewrite Hf. cbn [Z.eqb negb].
  rewrite Hs, Hu. rewrite used_bytes_app in Hu, Hbnd |- *. simpl in Hu, Hbnd |- *.
  destruct (chain_suffix _ _ _ _ Hc) as (Hsuf & _ & Hup). fold b in Hsuf.
  destruct Hsuf as (_ & _ & _ & _ & _ & Hr). pose proof (chain_bounds _ _ _ Hr) as Hsb.
  rewrite (proj2 (Z.leb_le _ _)) by lia.
  pose proof (chain_set_free _ _ _ _ _ Hc ltac:(lia)) as Hc1. fold b in Hc1.
  cbn [bsz] in Hc1. set (m1 := set_free (kmem s) b 1) in *.
  set (bs1 := pre ++ Blk n true :: r) in *.
  assert (exists c r1, bs1 = c :: r1) as (c & r1 & Hbs1) by (unfold bs1; destruct pre; eauto).
  unfold coalesce. cbn [kmem head heap_used]. rewrite Hhd.
  pose proof (heap_fuel_enough _ _ Hc1) as Hfuel.
  rewrite Hbs1 in Hc1, Hfuel |- *. simpl in Hfuel.
  destruct (coalesce_loop_refines m1 KHEAP_START c r1 heap_fuel Hc1)
    as (m' & Hm' & Hch & Hfar & Hpay); [lia | lia |].
  rewrite Hm'. simpl. eexists. split; [reflexivity|]. cbn [kmem head heap_used].
  split; [|split].
  - split_and!; auto; cbn [kmem head heap_used].
    + by destruct (merge_from_head c r1) as (? & ? & ->).
    + rewrite merge_from_used, <- Hbs1. unfold bs1. rewrite used_bytes_app. simpl. lia.
  - intros q k i Hin Hi. rewrite (Hpay q k i Hin Hi). apply ld8_st32_ne.
    assert (Hin1 : (q, k) ∈ allocs KHEAP_START bs1) by (rewrite Hbs1; exact Hin).
    pose proof (chain_set_free _ _ _ _ _ Hc ltac:(lia)) as Hc2.
    pose proof (payload_not_header _ _ _ _ _ _ _ _ Hc2 Hin1 Hi) as H. fold b in H. klia.
  - intros i Hi. rewrite Hfar by done. apply ld8_st32_ne. klia.
Qed.

Lemma mark_free_allocs m a bs p n :
  chain m a bs -> (p, n) ∈ allocs a bs ->
  allocs a bs ≡ₚ (p, n) :: allocs a (mark_free a p bs).
Proof.
  intros Hc Hin. apply allocs_inv in Hin as (pre & r & -> & ->).
  rewrite (mark_free_at _ _ _ _ _ Hc), !allocs_app. simpl.
  symmetry. apply Permutation_middle.
Qed.

Lemma spec_alloc_allocs m a size bs p bs' :
  chain m a bs -> 0 <= size -> a mod 4 = 0 -> spec_alloc a size bs = Some (p, bs') ->
  exists n, size <= n /\ allocs a bs' ≡ₚ (p, n) :: allocs a bs /\ p mod 4 = 0 /\
    a + SIZEOF_BLOCK <= p /\ p + n <= HEAP_END /\
    forall q k, (q, k) ∈ allocs a bs -> q + k <= p \/ p + n <= q.
Proof.
  intros Hc Hsz Ha Hs.
  apply spec_alloc_inv in Hs as (pre & b & r & -> & -> & Hfree & Hfit & -> & _).
  destruct (carve_head b size) as (n & tl & Hcv & Htl & Hn & _ & Hsp).
  specialize (Hn Hfit). exists n.
  pose proof (chain_at _ _ _ _ _ Hc) as (_ & _ & Hpre & _ & _ & Hpm & He).
  split_and!; [lia | | clear -Ha Hpm; kconst; zlia | klia | klia |].
  - rewrite !allocs_app. simpl. rewrite Hfree, Hsp.
    rewrite Hcv. simpl. rewrite (allocs_all_free _ tl) by done. simpl.
    replace (a + span pre + (SIZEOF_BLOCK + bsz b))
      with (a + span pre + SIZEOF_BLOCK + bsz b) by lia.
    symmetry. apply Permutation_middle.
  - intros q k Hin. rewrite allocs_app in Hin. apply elem_of_app in Hin as [Hin|Hin].
    + pose proof (allocs_prefix_below _ _ _ _ _ _ Hc Hin). klia.
    + simpl in Hin. rewrite Hfree in Hin. apply chain_suffix in Hc as (Hc & _ & _).
      destruct Hc as (_ & _ & _ & _ & _ & Hr).
      pose proof (allocs_bounds _ _ _ _ _ Hr Hin). klia.
Qed.

(** A client that writes only inside its own block leaves the heap intact. *)
Lemma chain_payload_write m m' a bs p n :
  chain m a bs -> (p, n) ∈ allocs a bs ->
  (forall i, i < p \/ p + n <= i -> ld8 m' i = ld8 m i) -> chain m' a bs.
Proof.
  revert a. induction bs as [|b r IH]; intros a Hc Hin Hw; [done|].
  pose proof (allocs_bounds _ _ _ _ _ Hc Hin) as Hbd.
  pose proof Hc as (Hs & Hf & Hn & Hb & Hm & Hr). simpl in Hin |- *.
  destruct (header_frame m m' a) as (-> & -> & ->); [intros; apply Hw; klia|].
  split_and!; auto.
  assert ((p, n) = (a + SIZEOF_BLOCK, bsz b) \/
          (p, n) ∈ allocs (a + SIZEOF_BLOCK + bsz b) r) as [[= -> ->]|Hin'].
  { destruct (bfree b); [by right | by apply elem_of_cons in Hin]. }
  - eapply chain_frame; [done|]. intros. apply Hw. lia.
  - by apply IH.
Qed.

Lemma sum_free_spec m a bs fuel acc :
  chain m a bs -> KHEAP_START <= a -> (length bs < fuel)%nat -> 0 <= acc ->
  acc + free_bytes bs < 4294967296 ->
  sum_free fuel m (chain_ptr a bs) acc = Ret (acc + free_bytes bs).
Proof.
  revert a fuel acc. induction bs as [|b r IH]; intros a fuel acc Hc Ha Hf Hacc Hlt;
    (destruct fuel as [|fuel]; simpl in Hf; [lia|]); cbn [sum_free].
  - simpl. f_equal. lia.
  - rewrite chain_ptr_zero by done. cbn [chain_ptr].
    destruct Hc as (Hs & Hfr & Hn & Hb & _ & Hr). rewrite Hs, Hfr, Hn, bool_flag.
    pose proof (chain_bounds _ _ _ Hr). simpl in *.
    destruct (bfree b); rewrite ?u32_small by klia; rewrite IH; auto; try klia;
      f_equal; lia.
Qed.

(** ** Properties *)

(** C1. [kmalloc] is safe and complete, for every value of its 32-bit
    argument.  NULL means that the heap is unchanged and that the request was
    empty or no free block holds it, rounded up to 8 bytes; otherwise the
    result is a 4-aligned block inside the heap window, disjoint from every
    block allocated before, the block list is consistent and the contents of
    those blocks are untouched.  The block holds at least the bytes asked
    for, up to 0xFFFFFFF8 of them: larger requests are rounded to 0
    ([kmalloc_huge_wraps]) and may get a block of no bytes. *)
Theorem kmalloc_safe s bs size :
  heap_rep s bs -> 0 <= size < 4294967296 ->
  exists p s', kmalloc s size = Ret (p, s') /\
    (p = 0 -> s' = s /\ (size = 0 \/ Forall (fun b => bfree b = false \/ bsz b < align_up size) bs)) /\
    (p <> 0 -> exists bs' n,
       heap_rep s' bs' /\ align_up size <= n /\ (size <= 0xFFFFFFF8 -> size <= n) /\ p mod 4 = 0 /\
       KHEAP_START < p /\ p + n <= HEAP_END /\
       allocs KHEAP_START bs' ≡ₚ (p, n) :: allocs KHEAP_START bs /\
       forall q k, (q, k) ∈ allocs KHEAP_START bs ->
         (q + k <= p \/ p + n <= q) /\
         forall i, q <= i < q + k -> ld8 (kmem s') i = ld8 (kmem s) i).
Proof.
  intros Hrep Hsz. destruct (Z.eqb_spec size 0) as [->|Hnz].
  { exists 0, s. split_and!; [done | intros _; split; [done | by left] | done]. }
  pose proof (kmalloc_step s bs size Hrep ltac:(lia)) as Hstep.
  destruct (align_up_range size) as [Hal Hm4].
  pose proof Hrep as (_ & _ & Hc & _).
  destruct spec_alloc as [[p bs']|] eqn:Hs.
  - destruct Hstep as (s' & Hk & Hrep' & Hp & Hpay).
    exists p, s'. split_and!; [done | done |]. intros _.
    destruct (spec_alloc_allocs _ KHEAP_START (align_up size) _ _ _ Hc ltac:(lia) eq_refl Hs)
      as (n & Hn & Hperm & Hp4 & Hlo & Hhi & Hdis).
    exists bs', n. split_and!; try klia; auto; eauto.
    intros Hle. destruct (align_up_spec size) as [? _]; lia.
  - exists 0, s. split_and!; [done | | done]. intros _. split; [done | right].
    clear -Hs. revert Hs. generalize KHEAP_START.
    induction bs as [|b r IH]; intros a Hs; [constructor|]. simpl in Hs.
    destruct (bfree b && _) eqn:E; [done|]. destruct spec_alloc as [[]|] eqn:E2; [done|].
    constructor; [|by eapply IH].
    apply andb_false_iff in E as [?|?]; [by left | right; lia].
Qed.

Definition boot_heap : kstate := kmalloc_init (mk_kstate ∅ 0 0).
Definition boot_blocks : list blk := [Blk (KHEAP_SIZE - SIZEOF_BLOCK) true].

Lemma kmalloc_safe_witness :
  exists p s', kmalloc boot_heap 100 = Ret (p, s') /\
    (p = 0 -> s' = boot_heap /\
       (100 = 0 \/ Forall (fun b => bfree b = false \/ bsz b < align_up 100) boot_blocks)).
Proof.
  destruct (kmalloc_safe boot_heap boot_blocks 100) as (p & s' & Hk & H0 & _);
    [apply kmalloc_init_rep | lia | eauto].
Defined.

(** C12. [kfree] of an allocated block returns, takes exactly that block out
    of the allocated set, leaves no two neighbouring free blocks, and
    preserves the contents of every other allocated block. *)
Theorem kfree_releases s bs p n :
  heap_rep s bs -> (p, n) ∈ allocs KHEAP_START bs ->
  exists s' bs', kfree s p = Ret s' /\ heap_rep s' bs' /\ coalesced bs' /\
    allocs KHEAP_START bs ≡ₚ (p, n) :: allocs KHEAP_START bs' /\
    heap_used s = heap_used s' + n /\
    forall q k i, (q, k) ∈ allocs KHEAP_START bs' -> q <= i < q + k ->
      ld8 (kmem s') i = ld8 (kmem s) i.
Proof.
  intros Hrep Hin. destruct (kfree_step s bs p n Hrep Hin) as (s' & Hk & Hrep' & Hpay & _).
  pose proof Hrep as (_ & _ & Hc & Hu).
  pose proof (mark_free_allocs _ _ _ _ _ Hc Hin) as Hperm.
  assert (Hal : allocs KHEAP_START (merge_all (mark_free KHEAP_START p bs)) =
                allocs KHEAP_START (mark_free KHEAP_START p bs)).
  { unfold merge_all. destruct (mark_free _ _ _); [done | apply merge_from_allocs]. }
  eexists s', _. split_and!; [done | exact Hrep' | | by rewrite Hal | | ].
  - unfold merge_all. destruct (mark_free _ _ _); [done | apply merge_from_coalesced].
  - destruct Hrep' as (_ & _ & _ & ->). rewrite Hu.
    apply allocs_inv in Hin as (pre & r & -> & ->).
    rewrite (mark_free_at _ _ _ _ _ Hc). unfold merge_all.
    transitivity (used_bytes (pre ++ Blk n true :: r) + n).
    { rewrite !used_bytes_app. simpl. lia. }
    f_equal. cbn [bsz]. destruct pre as [|b pre]; simpl; by rewrite merge_from_used.
  - intros q k i Hq Hi. apply (Hpay q k i); [by rewrite <- Hal | done].
Qed.

(** One 8-byte block allocated at the start of the boot heap. *)
Definition one_block : list blk := [Blk 8 false; Blk 1048544 true].
Definition one_heap : kstate :=
  match kmalloc boot_heap 8 with Ret (_, s) => s | Fault _ => boot_heap end.

Lemma one_heap_rep : heap_rep one_heap one_block.
Proof.
  pose proof (kmalloc_step boot_heap boot_blocks 8 (kmalloc_init_rep _) ltac:(lia)) as H.
  change (spec_alloc KHEAP_START (align_up 8) boot_blocks)
    with (Some (0x20000C, one_block)) in H.
  destruct H as (s' & Hk & Hrep & _). unfold one_heap. by rewrite Hk.
Qed.

Lemma kfree_releases_witness :
  exists s' bs', kfree one_heap 0x20000C = Ret s' /\ heap_rep s' bs' /\ coalesced bs'.
Proof.
  destruct (kfree_releases one_heap one_block 0x20000C 8) as (s' & bs' & H1 & H2 & H3 & _);
    [apply one_heap_rep | apply elem_of_cons; by left | eauto].
Defined.

Lemma merge_split_back pre b r size :
  coalesced (pre ++ b :: r) -> bfree b = true -> size <= bsz b ->
  merge_all (pre ++ match carve b size with c :: tl => Blk (bsz c) true :: tl | [] => [] end ++ r)
  = pre ++ b :: r.
Proof.
  intros Hco Hfree Hfit.
  assert (Hend : forall l, coalesced (b :: l) ->
    merge_all (match carve b size with c :: tl => Blk (bsz c) true :: tl | [] => [] end ++ l)
    = b :: l).
  { intros l Hl. unfold carve. destruct b as [n f]; simpl in *; subst f.
    destruct (n <? size + SIZEOF_BLOCK + ALIGN); simpl; [by apply merge_from_id|].
    rewrite merge_from_id; [f_equal; f_equal; lia |].
    by replace (size + (SIZEOF_BLOCK + (n - size - SIZEOF_BLOCK))) with n by lia. }
  destruct (carve_head b size) as (n & tl & Hcv & Htl & _). rewrite Hcv in *.
  cbn [bsz] in *.
  induction pre as [|c pre IH]; [by apply Hend|].
  assert (Hco' : coalesced (pre ++ b :: r)) by (destruct pre; apply Hco).
  specialize (IH Hco'). destruct pre as [|c2 pre].
  - simpl in *. destruct Hco as [Hn _]. rewrite Hfree in Hn.
    destruct (bfree c) eqn:Ec; [tauto|]. simpl. by rewrite IH.
  - simpl in *. destruct Hco as [Hn _].
    destruct (bfree c && bfree c2) eqn:Ec; [apply andb_true_iff in Ec; tauto|].
    by rewrite IH.
Qed.

(** Allocation and release are inverse: on a heap without neighbouring
    free blocks, [kfree(kmalloc(size))] brings the block list and the
    usage counter back to what they were. *)
Theorem kmalloc_kfree_roundtrip s bs size p s' :
  heap_rep s bs -> coalesced bs -> 0 < size <= 0xFFFFFFF8 ->
  kmalloc s size = Ret (p, s') -> p <> 0 ->
  exists s'', kfree s' p = Ret s'' /\ heap_rep s'' bs /\ heap_used s'' = heap_used s.
Proof.
  intros Hrep Hco Hsz Hk Hp. pose proof (kmalloc_step s bs size Hrep ltac:(lia)) as Hstep.
  destruct (align_up_spec size) as [Hal _]; [lia|].
  pose proof Hrep as (_ & _ & Hc & Hu).
  destruct spec_alloc as [[p0 bs']|] eqn:Hs; [|congruence].
  destruct Hstep as (s0 & Hk0 & Hrep' & _ & _).
  rewrite Hk in Hk0. injection Hk0 as <- <-.
  destruct (spec_alloc_allocs _ KHEAP_START (align_up size) _ _ _ Hc ltac:(lia) eq_refl Hs)
    as (n & _ & Hperm & _).
  assert (Hin : (p, n) ∈ allocs KHEAP_START bs') by (rewrite Hperm; by left).
  destruct (kfree_step s' bs' p n Hrep' Hin) as (s'' & Hf & Hrep'' & _).
  exists s''. split; [done|].
  enough (merge_all (mark_free KHEAP_START p bs') = bs) as Heq.
  { rewrite Heq in Hrep''. split; [done|]. destruct Hrep'' as (_ & _ & _ & ->). done. }
  destruct Hrep' as (_ & _ & Hc' & _).
  apply spec_alloc_inv in Hs as (pre & b & r & -> & -> & Hfree & Hfit & -> & _).
  destruct (carve_head b (align_up size)) as (k & tl & Hcv & _).
  pose proof (merge_split_back pre b r (align_up size) Hco Hfree Hfit) as Hback.
  rewrite Hcv in Hback, Hc' |- *.
  change ((Blk k false :: tl) ++ r) with (Blk k false :: (tl ++ r)) in *.
  rewrite (mark_free_at _ _ _ _ _ Hc'). exact Hback.
Qed.

Lemma kmalloc_kfree_roundtrip_witness :
  exists s'', kfree one_heap 0x20000C = Ret s'' /\ heap_rep s'' boot_blocks /\
    heap_used s'' = heap_used boot_heap.
Proof.
  apply (kmalloc_kfree_roundtrip boot_heap boot_blocks 8 0x20000C one_heap);
    [apply kmalloc_init_rep | done | lia | vm_compute; reflexivity | lia].
Defined.

(** The header in front of an allocated payload holds its size. *)
Lemma alloc_header s bs p n :
  heap_rep s bs -> (p, n) ∈ allocs KHEAP_START bs -> b_size (kmem s) (p - SIZEOF_BLOCK) = n.
Proof.
  intros (_ & _ & Hc & _) Hin. apply allocs_inv in Hin as (pre & r & -> & Hp).
  pose proof (chain_at _ _ _ _ _ Hc) as (Hs & _).
  by replace (p - SIZEOF_BLOCK) with (KHEAP_START + span pre) by (rewrite Hp; lia).
Qed.

(** [krealloc] of an allocated block returns; when the result is not
    NULL it is an allocated block of at least the new size that starts with
    the old contents, and when it is NULL the old block and the whole heap
    are unchanged. *)
Theorem krealloc_preserves s bs p n size :
  heap_rep s bs -> (p, n) ∈ allocs KHEAP_START bs -> 0 < size <= 0xFFFFFFF8 ->
  exists q s', krealloc s p size = Ret (q, s') /\
    (q = 0 -> s' = s) /\
    (q <> 0 -> exists bs' k, heap_rep s' bs' /\ (q, k) ∈ allocs KHEAP_START bs' /\ size <= k /\
       forall i, 0 <= i < Z.min n size -> ld8 (kmem s') (q + i) = ld8 (kmem s) (p + i)).
Proof.
  intros Hrep Hin Hsz. pose proof Hrep as (_ & _ & Hc & _).
  pose proof (allocs_bounds _ _ _ _ _ Hc Hin) as Hpb.
  pose proof (alloc_header _ _ _ _ Hrep Hin) as Hat.
  unfold krealloc. rewrite !(proj2 (Z.eqb_neq _ _)) by klia.
  rewrite u32_small by klia. rewrite Hat.
  destruct (Z.leb_spec size n) as [Hle|Hgt].
  { exists p, s. split_and!; [done | done |]. intros _. exists bs, n. by split_and!. }
  pose proof (kmalloc_step s bs size Hrep ltac:(lia)) as Hstep.
  destruct (align_up_spec size) as [Hal _]; [lia|].
  destruct spec_alloc as [[q bs']|] eqn:Hs.
  2: { rewrite Hstep. exists 0, s. by split_and!. }
  destruct Hstep as (s1 & Hk & Hrep1 & Hq0 & Hpay). rewrite Hk. simpl.
  rewrite (proj2 (Z.eqb_neq q 0)) by done.
  destruct (spec_alloc_allocs _ KHEAP_START (align_up size) _ _ _ Hc ltac:(lia) eq_refl Hs)
    as (k & Hk1 & Hperm & _ & Hq1 & Hq2 & Hdis).
  specialize (Hdis p n Hin).
  assert (Hpin : (p, n) ∈ allocs KHEAP_START bs') by (rewrite Hperm; by right).
  pose proof (alloc_header _ _ _ _ Hrep1 Hpin) as Hb1.
  rewrite Hb1. set (m := mem_copy _ _ _ _).
  assert (Hcopy : forall i, ld8 m i =
    if decide (q <= i < q + n) then ld8 (kmem s1) (p + (i - q)) else ld8 (kmem s1) i).
  { intros i. unfold m. rewrite ld8_mem_copy by lia. rewrite Z2Nat.id by lia. done. }
  assert (Hqin : (q, k) ∈ allocs KHEAP_START bs') by (rewrite Hperm; by left).
  assert (Hrep2 : heap_rep (mk_kstate m (head s1) (heap_used s1)) bs').
  { destruct Hrep1 as (Hh & Hne & Hc1 & Hu1). split_and!; auto; cbn [kmem].
    eapply chain_payload_write; [exact Hc1 | exact Hqin |].
    intros i Hi. rewrite Hcopy. rewrite decide_False by lia. done. }
  destruct (kfree_step _ bs' p n Hrep2 Hpin) as (s2 & Hf & Hrep3 & Hpay3 & _).
  rewrite Hf. simpl. exists q, s2. split_and!; [done | done |]. intros _.
  assert (Hqin' : (q, k) ∈ allocs KHEAP_START (mark_free KHEAP_START p bs')).
  { destruct Hrep1 as (_ & _ & Hc1 & _).
    rewrite (mark_free_allocs _ _ _ _ _ Hc1 Hpin) in Hqin.
    apply elem_of_cons in Hqin as [[= -> ->]|]; [lia | done]. }
  eexists _, k. split_and!; [exact Hrep3 | | lia |].
  { unfold merge_all. destruct (mark_free _ _ _); [done | by rewrite merge_from_allocs]. }
  intros i Hi. rewrite (Hpay3 q k (q + i) Hqin') by lia. cbn [kmem].
  rewrite Hcopy, decide_True by lia. replace (q + i - q) with i by lia.
  apply (Hpay p n); [done | lia].
Qed.

Lemma krealloc_preserves_witness :
  exists q s', krealloc one_heap 0x20000C 64 = Ret (q, s') /\ (q = 0 -> s' = one_heap).
Proof.
  destruct (krealloc_preserves one_heap one_block 0x20000C 8 64) as (q & s' & H1 & H2 & _);
    [apply one_heap_rep | apply elem_of_cons; by left | lia | eauto].
Defined.

Lemma stats_run s bs :
  heap_rep s bs -> kmalloc_stats s = Ret (used_bytes bs, KHEAP_SIZE, free_bytes bs).
Proof.
  intros (Hh & Hne & Hc & Hu). pose proof (chain_bounds _ _ _ Hc) as Hb.
  unfold kmalloc_stats. rewrite Hh.
  replace KHEAP_START with (chain_ptr KHEAP_START bs) by (by destruct bs).
  rewrite (sum_free_spec _ _ _ _ _ Hc); [|lia | by eapply heap_fuel_enough | lia | klia].
  cbn [mbind out_mbind]. by rewrite Hu.
Qed.

(** The numbers [kmalloc_stats] reports account for the whole window:
    used bytes, free bytes and one 12-byte header per block add up to the
    1 MiB of the heap, in every reachable heap state. *)
Theorem kmalloc_stats_account s bs :
  heap_rep s bs ->
  exists used total free, kmalloc_stats s = Ret (used, total, free) /\
    used = used_bytes bs /\ free = free_bytes bs /\
    used + free + SIZEOF_BLOCK * Z.of_nat (length bs) = total.
Proof.
  intros Hrep. rewrite (stats_run s bs Hrep). destruct Hrep as (_ & _ & Hc & _).
  pose proof (chain_bounds _ _ _ Hc) as Hb. eexists _, _, _. split; [reflexivity|].
  split_and!; auto; klia.
Qed.

Lemma kmalloc_stats_account_witness :
  exists used total free, kmalloc_stats one_heap = Ret (used, total, free) /\
    used = used_bytes one_block /\ free = free_bytes one_block.
Proof.
  destruct (kmalloc_stats_account one_heap one_block one_heap_rep)
    as (u & t & f & H1 & H2 & H3 & _). eauto 6.
Defined.

(** The size computation wraps: a request of more than 0xFFFFFFF8 bytes
    on the boot heap is rounded to zero and succeeds, handing out a block
    of no bytes instead of NULL. *)
Theorem kmalloc_huge_wraps size :
  0xFFFFFFF8 < size < 4294967296 ->
  exists s', kmalloc boot_heap size = Ret (KHEAP_START + SIZEOF_BLOCK, s') /\
    heap_rep s' [Blk 0 false; Blk (KHEAP_SIZE - 2 * SIZEOF_BLOCK) true].
Proof.
  intros Hsz.
  assert (Hz : align_up size = 0).
  { rewrite align_up_eq. unfold u32. zlia. }
  unfold kmalloc. rewrite Hz. rewrite (proj2 (Z.eqb_neq size 0)) by lia.
  eexists. split; [reflexivity|].
  split_and!; [done | done | | vm_compute; reflexivity].
  cbn [kmem chain bsz bfree chain_ptr].
  split_and!; vm_compute; congruence.
Qed.

Lemma kmalloc_huge_wraps_witness :
  exists s', kmalloc boot_heap 0xFFFFFFFF = Ret (KHEAP_START + SIZEOF_BLOCK, s').
Proof. destruct (kmalloc_huge_wraps 0xFFFFFFFF) as (s' & H & _); [lia | eauto]. Defined.

End Kmalloc.
