(* ===== verification/Atomic.v ===== *)
(** * Spinlocks (src/src/atomic.h)

    The exchange, compare-and-swap and spinlock primitives.  On the single
    CPU the kernel runs on, a [spin_lock] that finds the lock taken spins
    for ever: nobody else can run to release it; this is the [Hang]
    outcome.  The second half models several CPUs that execute the same
    instructions with arbitrary interleaving and shows that the
    xchg-loop gives mutual exclusion. *)

From S2P Require Import Prelude.

Module Atomic.

(** Each primitive returns its result and the new value of [*ptr]. *)
Definition atomic_xchg (cell val : Z) : Z * Z := (cell, val).

Definition atomic_cas (cell expected desired : Z) : bool * Z :=
  if cell =? expected then (true, desired) else (false, cell).

Definition atomic_store (cell val : Z) : Z := val.
Definition atomic_load (cell : Z) : Z := cell.

Definition spin_init : Z := 0.

Definition spin_lock (locked : Z) : out Z :=
  let '(old, new) := atomic_xchg locked 1 in
  if old =? 0 then Ret new else Fault Hang.

Definition spin_unlock (locked : Z) : Z := atomic_store locked 0.

(** ** Several CPUs

    Each CPU is outside, spinning in [spin_lock], or inside the critical
    section; the steps are the atomic instructions of the two functions. *)

Inductive cpu_pc : Type := Idle | Spinning | Critical.

Record smp : Type := mk_smp { lock_word : Z; pcs : list cpu_pc }.

Inductive smp_step : smp -> smp -> Prop :=
| step_call c i :
    pcs c !! i = Some Idle ->
    smp_step c (mk_smp (lock_word c) (<[i := Spinning]> (pcs c)))
| step_xchg_win c i :
    pcs c !! i = Some Spinning ->
    fst (atomic_xchg (lock_word c) 1) = 0 ->
    smp_step c (mk_smp (snd (atomic_xchg (lock_word c) 1)) (<[i := Critical]> (pcs c)))
| step_xchg_lose c i :
    pcs c !! i = Some Spinning ->
    fst (atomic_xchg (lock_word c) 1) <> 0 ->
    smp_step c (mk_smp (snd (atomic_xchg (lock_word c) 1)) (pcs c))
| step_unlock c i :
    pcs c !! i = Some Critical ->
    smp_step c (mk_smp (atomic_store (lock_word c) 0) (<[i := Idle]> (pcs c))).

Inductive smp_reach (c0 : smp) : smp -> Prop :=
| reach_refl : smp_reach c0 c0
| reach_step c c' : smp_reach c0 c -> smp_step c c' -> smp_reach c0 c'.

Definition smp_boot (n : nat) : smp := mk_smp spin_init (replicate n Idle).

(** The lock word is 0 or 1; it is 0 exactly when nobody is inside, and at
    most one CPU is inside. *)
Definition smp_inv (c : smp) : Prop :=
  (lock_word c = 0 /\ forall i, pcs c !! i <> Some Critical) \/
  (lock_word c = 1 /\ exists i, pcs c !! i = Some Critical /\
     forall j, pcs c !! j = Some Critical -> j = i).

Lemma pcs_insert (l : list cpu_pc) i j p q :
  l !! i = Some q -> <[i := p]> l !! j = if decide (i = j) then Some p else l !! j.
Proof.
  intros H. pose proof (lookup_lt_Some _ _ _ H).
  case_decide; subst; [by apply list_lookup_insert_eq | by apply list_lookup_insert_ne].
Qed.

Lemma smp_inv_step c c' : smp_inv c -> smp_step c c' -> smp_inv c'.
Proof.
  intros Hinv Hst. destruct Hst as [c i Hi|c i Hi Hx|c i Hi Hx|c i Hi]; simpl in *.
  - destruct Hinv as [[Hl Hn]|[Hl (k & Hk & Hu)]]; [left|right]; simpl; (split; [done|]).
    + intros j. rewrite (pcs_insert _ _ _ _ _ Hi). case_decide; [done | apply Hn].
    + exists k. assert (i <> k) by congruence.
      rewrite (pcs_insert _ _ _ _ _ Hi), decide_False by done. split; [done|].
      intros j. rewrite (pcs_insert _ _ _ _ _ Hi). case_decide; [done | apply Hu].
  - destruct Hinv as [[Hl Hn]|[Hl _]]; [|lia]. right. simpl. split; [done|].
    exists i. rewrite (pcs_insert _ _ _ _ _ Hi), decide_True by done. split; [done|].
    intros j. rewrite (pcs_insert _ _ _ _ _ Hi). case_decide; [done|].
    intros Hj. by destruct (Hn j).
  - destruct Hinv as [[Hl Hn]|[Hl H]]; [lia|]. right. by split.
  - destruct Hinv as [[Hl Hn]|[Hl (k & Hk & Hu)]]; [by destruct (Hn i)|].
    left. simpl. split; [done|]. intros j. rewrite (pcs_insert _ _ _ _ _ Hi).
    case_decide; [done|]. intros Hj. rewrite (Hu _ Hi) in *. by rewrite (Hu _ Hj) in *.
Qed.

Lemma smp_inv_reach n c : smp_reach (smp_boot n) c -> smp_inv c.
Proof.
  induction 1 as [|c c' _ IH Hst]; [|by eapply smp_inv_step].
  left. simpl. split; [done|]. intros i H. by apply lookup_replicate_1 in H as [? _].
Qed.

(** C29. Mutual exclusion: however the CPUs interleave their [spin_lock] and
    [spin_unlock] instructions, two of them are never in the critical
    section at the same time, and the lock word is set while one is. *)
Theorem spinlock_mutual_exclusion n c i j :
  smp_reach (smp_boot n) c ->
  pcs c !! i = Some Critical -> pcs c !! j = Some Critical ->
  i = j /\ lock_word c = 1.
Proof.
  intros Hr Hi Hj. destruct (smp_inv_reach _ _ Hr) as [[_ Hn]|[Hl (k & _ & Hu)]].
  - by destruct (Hn i).
  - split; [|done]. by rewrite (Hu i Hi), (Hu j Hj).
Qed.

(** Two CPUs contend; CPU 1 wins and CPU 0 spins. *)
Definition contended : smp := mk_smp 1 [Spinning; Critical].

Lemma contended_reach : smp_reach (smp_boot 2) contended.
Proof.
  eapply reach_step; [|apply (step_xchg_lose contended 0); done].
  eapply reach_step; [|apply (step_xchg_win (mk_smp 0 [Spinning; Spinning]) 1); done].
  eapply reach_step; [|apply (step_call (mk_smp 0 [Spinning; Idle]) 1); done].
  eapply reach_step; [|apply (step_call (mk_smp 0 [Idle; Idle]) 0); done].
  apply reach_refl.
Defined.

Lemma spinlock_mutual_exclusion_witness : 1%nat = 1%nat /\ lock_word contended = 1.
Proof. exact (spinlock_mutual_exclusion 2 contended 1 1 contended_reach eq_refl eq_refl). Defined.

End Atomic.
