(* ===== verification/Terminal.v ===== *)
(** * The text console (src/src/vga.c)

    The 80x25 VGA text screen with its cursor and scrolling, the copy of
    every character on the serial line, and the number formatting.  Here
    [fb_mode] is 0; the framebuffer mode is in [Fbcon].  Components
    that print are modelled as producing the characters they pass to
    [terminal_putchar]; [terminal_writestring] gives such a stream its
    effect on the screen. *)

From S2P Require Import Prelude.

Module Terminal.

Definition VGA_TEXT_W : nat := 80.
Definition VGA_TEXT_H : nat := 25.

(** [vga_entry_color] and [vga_entry]. *)
Definition vga_entry_color (fg bg : Z) : Z := u8 (Z.lor fg (Z.shiftl bg 4)).
Definition vga_entry (uc color : Z) : Z := Z.lor (u8 uc) (Z.shiftl color 8).

Record term : Type := mk_term {
  terminal_row : nat;
  terminal_column : nat;
  terminal_color : Z;
  terminal_buffer : list Z;   (** 80*25 cells *)
  serial_out : chars;         (** everything sent to the serial line *)
}.

Definition terminal_putentryat (c color : Z) (x y : nat) (t : term) : term :=
  mk_term (terminal_row t) (terminal_column t) (terminal_color t)
    (<[(y * VGA_TEXT_W + x)%nat := vga_entry c color]> (terminal_buffer t)) (serial_out t).

(** Rows 1..24 move up one line, the last row is blanked. *)
Definition terminal_scroll (t : term) : term :=
  mk_term (VGA_TEXT_H - 1) (terminal_column t) (terminal_color t)
    (drop VGA_TEXT_W (terminal_buffer t) ++
     replicate VGA_TEXT_W (vga_entry 32 (terminal_color t))) (serial_out t).

Definition set_pos (r c : nat) (t : term) : term :=
  mk_term r c (terminal_color t) (terminal_buffer t) (serial_out t).

(** A newline goes out as CR LF. *)
Definition serial_putchar (c : Z) (t : term) : term :=
  mk_term (terminal_row t) (terminal_column t) (terminal_color t) (terminal_buffer t)
    (serial_out t ++ (if c =? 10 then [13; 10] else [c])).

Definition terminal_putchar (c : Z) (t : term) : term :=
  let t := serial_putchar c t in
  let t :=
    if c =? 10 then set_pos (S (terminal_row t)) 0 t
    else if c =? 13 then set_pos (terminal_row t) 0 t
    else
      let t := terminal_putentryat c (terminal_color t) (terminal_column t) (terminal_row t) t in
      if (S (terminal_column t) =? VGA_TEXT_W)%nat then set_pos (S (terminal_row t)) 0 t
      else set_pos (terminal_row t) (S (terminal_column t)) t in
  if (VGA_TEXT_H <=? terminal_row t)%nat then terminal_scroll t else t.

Definition terminal_backspace (t : term) : term :=
  let t :=
    match terminal_column t with
    | O => t
    | S c =>
        let t := set_pos (terminal_row t) c t in
        terminal_putentryat 32 (terminal_color t) c (terminal_row t) t
    end in
  serial_putchar 8 (serial_putchar 32 (serial_putchar 8 t)).

Definition terminal_set_cursor (x y : nat) (t : term) : term :=
  let x := if (VGA_TEXT_W <=? x)%nat then (VGA_TEXT_W - 1)%nat else x in
  let y := if (VGA_TEXT_H <=? y)%nat then (VGA_TEXT_H - 1)%nat else y in
  set_pos y x t.

Fixpoint terminal_move_left (n : nat) (t : term) : term :=
  match n, terminal_column t with
  | S n', S c => terminal_move_left n' (set_pos (terminal_row t) c t)
  | _, _ => t
  end.

Fixpoint terminal_move_right (n : nat) (t : term) : term :=
  match n with
  | S n' =>
      if (terminal_column t <? VGA_TEXT_W - 1)%nat
      then terminal_move_right n' (set_pos (terminal_row t) (S (terminal_column t)) t)
      else t
  | O => t
  end.

Definition terminal_writestring (s : chars) (t : term) : term :=
  foldl (fun t c => terminal_putchar c t) t (cstr s).

Definition terminal_initialize (t : term) : term :=
  let color := vga_entry_color 10 0 in
  mk_term 0 0 color (replicate (VGA_TEXT_W * VGA_TEXT_H) (vga_entry 32 color)) (serial_out t).

(** ** Number formatting *)

(** [while (value > 0 && i > 0) { buf[--i] = '0' + value % 10; value /= 10; }] *)
Fixpoint uint_digits (i : nat) (value : Z) (acc : chars) : chars :=
  match i with
  | O => acc
  | S i' =>
      if value <=? 0 then acc
      else uint_digits i' (value / 10) (48 + value mod 10 :: acc)
  end.

(** The characters [terminal_write_uint] prints. *)
Definition uint_chars (value : Z) : chars :=
  if value =? 0 then $"0" else uint_digits 10 value [].

Definition int_chars (value : Z) : chars :=
  if value <? 0 then $"-" ++ uint_chars (u32 (- value)) else uint_chars value.

Fixpoint hex_digits (i : nat) (value : Z) (acc : chars) : chars :=
  match i with
  | O => acc
  | S i' => hex_digits i' (Z.shiftr value 4)
              (char_at $"0123456789ABCDEF" (Z.to_nat (Z.land value 0xF)) :: acc)
  end.

Definition hex_chars (value : Z) : chars := $"0x" ++ hex_digits 8 value [].

Definition terminal_write_uint (value : Z) (t : term) : term :=
  terminal_writestring (uint_chars value) t.
Definition terminal_write_int (value : Z) (t : term) : term :=
  terminal_writestring (int_chars value) t.
Definition terminal_write_hex (value : Z) (t : term) : term :=
  terminal_writestring (hex_chars value) t.

(** ** Well-formed screens *)

Definition term_wf (t : term) : Prop :=
  (terminal_row t < VGA_TEXT_H)%nat /\ (terminal_column t < VGA_TEXT_W)%nat /\
  length (terminal_buffer t) = (VGA_TEXT_W * VGA_TEXT_H)%nat.

Lemma terminal_putchar_wf c t : term_wf t -> term_wf (terminal_putchar c t).
Proof.
  unfold term_wf, terminal_putchar, VGA_TEXT_W, VGA_TEXT_H. intros (Hr & Hc & Hb).
  cbn [serial_putchar terminal_row terminal_column terminal_buffer].
  assert (Hscroll : forall t, (terminal_column t < 80)%nat ->
    length (terminal_buffer t) = (80 * 25)%nat -> term_wf (terminal_scroll t)).
  { intros t' Ht' Hb'. unfold term_wf, terminal_scroll, VGA_TEXT_W, VGA_TEXT_H.
    cbn [terminal_row terminal_column terminal_buffer].
    rewrite length_app, length_drop, length_replicate. lia. }
  assert (Hfin : forall t, (terminal_row t <= 25)%nat -> (terminal_column t < 80)%nat ->
    length (terminal_buffer t) = (80 * 25)%nat ->
    term_wf (if (25 <=? terminal_row t)%nat then terminal_scroll t else t)).
  { intros t' H1 H2 H3. destruct (Nat.leb_spec 25 (terminal_row t')); [by apply Hscroll|].
    by split_and!. }
  apply Hfin; repeat (case_match; cbn [set_pos terminal_putentryat serial_putchar
    terminal_row terminal_column terminal_buffer] in *); rewrite ?length_insert; try lia.
  apply Nat.eqb_neq in H1. lia.
Qed.

Lemma terminal_writestring_wf s t : term_wf t -> term_wf (terminal_writestring s t).
Proof.
  unfold terminal_writestring. revert t. induction (cstr s) as [|c r IH]; intros t H; simpl; auto.
  apply IH, terminal_putchar_wf, H.
Qed.

Lemma terminal_move_wf n t :
  term_wf t -> term_wf (terminal_move_left n t) /\ term_wf (terminal_move_right n t).
Proof.
  revert t. induction n as [|n IH]; intros t (Hr & Hc & Hb);
    cbn [terminal_move_left terminal_move_right].
  - done.
  - split.
    + destruct (terminal_column t) as [|c] eqn:E.
      { split_and!; [done | lia | done]. }
      apply IH. split_and!; simpl; auto; lia.
    + destruct (Nat.ltb_spec (terminal_column t) (VGA_TEXT_W - 1)); [|exact (conj Hr (conj Hc Hb))].
      apply IH. split_and!; simpl; auto; unfold VGA_TEXT_W in *; lia.
Qed.

(** The console as a command sequence. *)
Inductive term_op : Type :=
| OpPutchar (c : Z) | OpBackspace | OpSetCursor (x y : nat)
| OpMoveLeft (n : nat) | OpMoveRight (n : nat) | OpWriteUint (v : Z) | OpWriteHex (v : Z).

Definition term_exec (t : term) (o : term_op) : term :=
  match o with
  | OpPutchar c => terminal_putchar c t
  | OpBackspace => terminal_backspace t
  | OpSetCursor x y => terminal_set_cursor x y t
  | OpMoveLeft n => terminal_move_left n t
  | OpMoveRight n => terminal_move_right n t
  | OpWriteUint v => terminal_write_uint v t
  | OpWriteHex v => terminal_write_hex v t
  end.

Lemma term_exec_wf t o : term_wf t -> term_wf (term_exec t o).
Proof.
  intros H. destruct o; simpl; try by apply terminal_writestring_wf.
  - by apply terminal_putchar_wf.
  - destruct H as (Hr & Hc & Hb). unfold terminal_backspace.
    destruct (terminal_column t) as [|c] eqn:E; unfold term_wf; simpl;
      rewrite ?length_insert, ?E; split_and!; auto; lia.
  - destruct H as (Hr & Hc & Hb). unfold terminal_set_cursor, term_wf.
    cbn [set_pos terminal_row terminal_column terminal_buffer].
    destruct (Nat.leb_spec VGA_TEXT_W x), (Nat.leb_spec VGA_TEXT_H y);
      split_and!; try done; unfold VGA_TEXT_W, VGA_TEXT_H in *; lia.
  - by apply terminal_move_wf.
  - by apply terminal_move_wf.
Qed.

(** The cursor never leaves the 80x25 screen and the screen never
    changes size: every sequence of console operations after
    [terminal_initialize] keeps all cell writes in bounds. *)
Theorem terminal_stays_on_screen t ops :
  let t' := foldl term_exec (terminal_initialize t) ops in
  (terminal_row t' < VGA_TEXT_H)%nat /\ (terminal_column t' < VGA_TEXT_W)%nat /\
  length (terminal_buffer t') = (VGA_TEXT_W * VGA_TEXT_H)%nat.
Proof.
  enough (forall t0, term_wf t0 -> term_wf (foldl term_exec t0 ops)) as H.
  { apply H. unfold term_wf, terminal_initialize. simpl. rewrite ?length_replicate.
    unfold VGA_TEXT_W, VGA_TEXT_H. split_and!; [lia | lia | done]. }
  induction ops as [|o ops IH]; intros t0 H; simpl; auto. apply IH, term_exec_wf, H.
Qed.

(** ** Decimal output *)

(** The value of a digit string, most significant digit first. *)
Definition dec_value (s : chars) : Z := foldl (fun v c => v * 10 + (c - 48)) 0 s.

Definition is_digit (c : Z) : bool := (48 <=? c) && (c <=? 57).

Lemma dec_value_app s t : dec_value (s ++ t) = foldl (fun v c => v * 10 + (c - 48)) (dec_value s) t.
Proof. unfold dec_value. by rewrite foldl_app. Qed.

Lemma dec_foldl_shift v acc :
  foldl (fun v c => v * 10 + (c - 48)) v acc =
  v * 10 ^ Z.of_nat (length acc) + dec_value acc.
Proof.
  unfold dec_value. revert v. induction acc as [|c acc IH]; intros v; [simpl; lia|].
  cbn [foldl length]. rewrite IH, (IH (0 * 10 + (c - 48))), Nat2Z.inj_succ.
  rewrite Z.pow_succ_r by lia. lia.
Qed.

Lemma uint_digits_spec i v acc :
  0 <= v < 10 ^ Z.of_nat i ->
  exists ds, uint_digits i v acc = ds ++ acc /\ dec_value ds = v /\
    Forall (fun c => is_digit c = true) ds /\ (length ds <= i)%nat /\ (0 < v -> ds <> []).
Proof.
  revert v acc. induction i as [|i IH]; intros v acc Hv.
  - exists []. change (10 ^ Z.of_nat 0) with 1 in Hv.
    replace v with 0 by lia. simpl. split_and!; auto; lia.
  - cbn [uint_digits]. destruct (Z.leb_spec v 0).
    + exists []. replace v with 0 by lia. simpl. split_and!; auto; lia.
    + rewrite Nat2Z.inj_succ, Z.pow_succ_r in Hv by lia.
      destruct (IH (v / 10) (48 + v mod 10 :: acc)) as (ds & Hd & Hval & Hall & Hlen & _).
      { split; [apply Z.div_pos; lia | apply Z.div_lt_upper_bound; lia]. }
      exists (ds ++ [48 + v mod 10]). rewrite Hd, <- app_assoc. split_and!; auto.
      * rewrite dec_value_app, Hval. simpl. zlia.
      * apply Forall_app. split; [done|]. constructor; [|done]. unfold is_digit.
        apply andb_true_iff. zlia.
      * rewrite length_app. simpl. lia.
      * intros _ Hnil. by apply app_nil in Hnil as [_ ?].
Qed.

(** Printing an unsigned number and reading the digits gives it back. *)
Lemma uint_chars_spec v :
  0 <= v < 4294967296 ->
  dec_value (uint_chars v) = v /\ Forall (fun c => is_digit c = true) (uint_chars v) /\
  uint_chars v <> [] /\ (length (uint_chars v) <= 10)%nat.
Proof.
  intros Hv. unfold uint_chars. destruct (Z.eqb_spec v 0) as [->|Hnz].
  - change (dec_value $"0") with 0. split_and!; [done | by repeat constructor | done |].
    vm_compute. lia.
  - destruct (uint_digits_spec 10 v []) as (ds & -> & Hval & Hall & Hlen & Hne);
      [simpl; lia|]. rewrite app_nil_r. split_and!; auto. apply Hne. lia.
Qed.

End Terminal.
