(* ===== verification/Fs.v ===== *)
(** * The RAM file system (src/src/fs.c): data and operations

    256 node slots (free, directory or file) linked by parent indices, a
    current directory, and the nestable lock that guards the mutators.
    [ramfs] holds the data, [fs_lockst] the lock words and the CPU's
    interrupt flag; [fs_state] is both.  Character arrays keep their full
    length, so bytes behind a terminator survive as in C.  A pointer to
    [nodes[i].content], which [fs_read] hands out, is the index [i]. *)

From S2P Require Import Prelude Atomic Terminal.

Module Fs.

Definition FS_MAX_NODES : nat := 256.
Definition FS_ROOT_INDEX : Z := 0.
Definition FS_MAX_DEPTH : nat := 16.
Definition FS_NAME_MAX : nat := 48.
Definition FS_FILE_MAX : Z := 8192.

Inductive fs_node_type : Type := FS_TYPE_FREE | FS_TYPE_DIR | FS_TYPE_FILE.

#[export] Instance fs_node_type_eq_dec : EqDecision fs_node_type.
Proof. solve_decision. Defined.

Inductive fs_result : Type :=
| FS_OK | FS_ERR_NOT_FOUND | FS_ERR_ALREADY_EXISTS | FS_ERR_NOT_A_DIRECTORY
| FS_ERR_IS_A_DIRECTORY | FS_ERR_NO_SPACE | FS_ERR_DIR_NOT_EMPTY
| FS_ERR_INVALID_NAME | FS_ERR_TOO_BIG.

#[export] Instance fs_result_eq_dec : EqDecision fs_result.
Proof. solve_decision. Defined.

Record fs_node : Type := mk_node {
  type : fs_node_type;
  name : chars;          (** [char name[FS_NAME_MAX]] *)
  parent : Z;
  content : chars;       (** [char content[FS_FILE_MAX]] *)
  content_len : Z;
}.

Definition set_type (t : fs_node_type) (n : fs_node) : fs_node :=
  mk_node t (name n) (parent n) (content n) (content_len n).
Definition set_name (s : chars) (n : fs_node) : fs_node :=
  mk_node (type n) s (parent n) (content n) (content_len n).
Definition set_parent (p : Z) (n : fs_node) : fs_node :=
  mk_node (type n) (name n) p (content n) (content_len n).
Definition set_content (c : chars) (l : Z) (n : fs_node) : fs_node :=
  mk_node (type n) (name n) (parent n) c l.

(** A zero-initialised slot. *)
Definition bss_node : fs_node :=
  mk_node FS_TYPE_FREE (replicate FS_NAME_MAX 0) 0 (replicate (Z.to_nat FS_FILE_MAX) 0) 0.

#[export] Instance fs_node_inhabited : Inhabited fs_node := populate bss_node.

Record ramfs : Type := mk_ramfs { nodes : list fs_node; cwd : Z }.

Definition set_cwd (c : Z) (d : ramfs) : ramfs := mk_ramfs (nodes d) c.
Definition upd_node (i : nat) (f : fs_node -> fs_node) (d : ramfs) : ramfs :=
  mk_ramfs (alter f i (nodes d)) (cwd d).

(** [nodes[i]]; the invariant below shows that no operation leaves the array. *)
Definition node_at (d : ramfs) (i : Z) : fs_node :=
  if 0 <=? i then nodes d !!! Z.to_nat i else inhabitant.

(** ** The lock *)

Record fs_lockst : Type := mk_lockst {
  fs_spinlock : Z;
  fs_lock_depth : Z;
  fs_if_was_on : Z;
  cpu_if : bool;        (** EFLAGS.IF *)
}.

Definition fs_lock (l : fs_lockst) : out fs_lockst :=
  let flags := if cpu_if l then 0x200 else 0 in
  if fs_lock_depth l =? 0 then
    w ← Atomic.spin_lock (fs_spinlock l);
    Ret (mk_lockst w (fs_lock_depth l + 1) (Z.land flags 0x200) false)
  else Ret (mk_lockst (fs_spinlock l) (fs_lock_depth l + 1) (fs_if_was_on l) false).

Definition fs_unlock (l : fs_lockst) : fs_lockst :=
  if fs_lock_depth l <=? 0 then l
  else
    let d := fs_lock_depth l - 1 in
    if d =? 0 then
      mk_lockst (Atomic.spin_unlock (fs_spinlock l)) d (fs_if_was_on l)
        (if fs_if_was_on l =? 0 then cpu_if l else true)
    else mk_lockst (fs_spinlock l) d (fs_if_was_on l) (cpu_if l).

Record fs_state : Type := mk_fs { data : ramfs; lockst : fs_lockst }.

(** [fs_lock(); ... out: fs_unlock(); return r;] *)
Definition locked {A} (body : ramfs -> A * ramfs) (s : fs_state) : out (A * fs_state) :=
  l ← fs_lock (lockst s);
  let '(r, d) := body (data s) in
  Ret (r, mk_fs d (fs_unlock l)).

(** ** Node searches *)

Definition is_free (n : fs_node) : bool := bool_decide (type n = FS_TYPE_FREE).
Definition is_dir (n : fs_node) : bool := bool_decide (type n = FS_TYPE_DIR).
Definition is_file (n : fs_node) : bool := bool_decide (type n = FS_TYPE_FILE).

Definition fs_alloc_node (d : ramfs) : option nat :=
  for_find (fun i => is_free (nodes d !!! i)) 0 FS_MAX_NODES.

(** [None] is the result -1. *)
Definition fs_find_child (d : ramfs) (parent_idx : Z) (nm : chars) : option nat :=
  for_find (fun i => let n := nodes d !!! i in
    negb (is_free n) && (parent n =? parent_idx) && c_streq (name n) nm) 0 FS_MAX_NODES.

Definition fs_is_valid_name (nm : chars) : bool :=
  if char_at nm 0 =? 0 then false
  else if c_streq nm $"." || c_streq nm $".." then false
  else if (FS_NAME_MAX <=? c_strlen nm)%nat then false
  else true.

(** ** Creation *)

Definition mkdir_body (nm : chars) (d : ramfs) : fs_result * ramfs :=
  if negb (fs_is_valid_name nm) then (FS_ERR_INVALID_NAME, d)
  else match fs_find_child d (cwd d) nm with
  | Some _ => (FS_ERR_ALREADY_EXISTS, d)
  | None =>
      match fs_alloc_node d with
      | None => (FS_ERR_NO_SPACE, d)
      | Some idx =>
          let d := upd_node idx (set_type FS_TYPE_DIR) d in
          let d := upd_node idx (fun n => set_name (c_strcpy_truncate (name n) nm FS_NAME_MAX) n) d in
          (FS_OK, upd_node idx (set_parent (cwd d)) d)
      end
  end.

Definition fs_mkdir (nm : chars) (s : fs_state) : out (fs_result * fs_state) :=
  locked (mkdir_body nm) s.

Definition touch_body (nm : chars) (d : ramfs) : fs_result * ramfs :=
  if negb (fs_is_valid_name nm) then (FS_ERR_INVALID_NAME, d)
  else match fs_find_child d (cwd d) nm with
  | Some _ => (FS_ERR_ALREADY_EXISTS, d)
  | None =>
      match fs_alloc_node d with
      | None => (FS_ERR_NO_SPACE, d)
      | Some idx =>
          let d := upd_node idx (set_type FS_TYPE_FILE) d in
          let d := upd_node idx (fun n => set_name (c_strcpy_truncate (name n) nm FS_NAME_MAX) n) d in
          let d := upd_node idx (set_parent (cwd d)) d in
          (FS_OK, upd_node idx (fun n => set_content (<[0%nat := 0]> (content n)) 0 n) d)
      end
  end.

Definition fs_touch (nm : chars) (s : fs_state) : out (fs_result * fs_state) :=
  locked (touch_body nm) s.

(** ** Navigation *)

Definition cd_body (nm : chars) (d : ramfs) : fs_result * ramfs :=
  if c_streq nm $"." then (FS_OK, d)
  else if c_streq nm $".." then
    (FS_OK, if parent (node_at d (cwd d)) =? -1 then d
            else set_cwd (parent (node_at d (cwd d))) d)
  else if c_streq nm $"/" then (FS_OK, set_cwd FS_ROOT_INDEX d)
  else match fs_find_child d (cwd d) nm with
  | None => (FS_ERR_NOT_FOUND, d)
  | Some idx =>
      if negb (is_dir (nodes d !!! idx)) then (FS_ERR_NOT_A_DIRECTORY, d)
      else (FS_OK, set_cwd (Z.of_nat idx) d)
  end.

Definition fs_cd (nm : chars) (s : fs_state) : out (fs_result * fs_state) :=
  locked (cd_body nm) s.

Definition fs_init (s : fs_state) : out fs_state :=
  let d := data s in
  let d := mk_ramfs (map (set_type FS_TYPE_FREE) (nodes d)) (cwd d) in
  let d := upd_node 0 (set_type FS_TYPE_DIR) d in
  let d := upd_node 0 (fun n => set_name (c_strcpy_truncate (name n) $"/" FS_NAME_MAX) n) d in
  let d := upd_node 0 (set_parent (-1)) d in
  let d := set_cwd FS_ROOT_INDEX d in
  let l := lockst s in
  let s := mk_fs d (mk_lockst Atomic.spin_init 0 (fs_if_was_on l) (cpu_if l)) in
  '(_, s) ← fs_mkdir $"lib" s;
  '(_, s) ← fs_mkdir $"bin" s;
  '(_, s) ← fs_mkdir $"usr" s;
  '(_, s) ← fs_cd $"usr" s;
  '(_, s) ← fs_mkdir $"lib" s;
  '(_, s) ← fs_cd $"/" s;
  Ret s.

(** ** Removal *)

Definition fs_free_slot (idx : nat) (d : ramfs) : ramfs :=
  let d := upd_node idx (set_type FS_TYPE_FREE) d in
  let d := upd_node idx (fun n => set_content (<[0%nat := 0]> (content n)) 0 n) d in
  let d := upd_node idx (fun n => set_name (<[0%nat := 0]> (name n)) n) d in
  upd_node idx (set_parent (-1)) d.

(** The parent walk of [fs_cwd_in_subtree]; at most 256 nodes lie on it. *)
Fixpoint walk_up (fuel : nat) (d : ramfs) (walk idx : Z) : out bool :=
  match fuel with
  | O => Fault NoFuel
  | S f =>
      if walk =? -1 then Ret false
      else if walk =? idx then Ret true
      else walk_up f d (parent (node_at d walk)) idx
  end.

Definition fs_cwd_in_subtree (idx : Z) (d : ramfs) : out bool :=
  walk_up (S (S FS_MAX_NODES)) d (cwd d) idx.

(** One scan of the node array for unseen children of [u]; [queue] holds
    [queue[0..qt)].  [None] is the [return FS_ERR_NO_SPACE]. *)
Fixpoint scan_children (d : ramfs) (u : nat) (i n : nat) (queue : list nat) (seen : list bool)
  : option (list nat * list bool) :=
  match n with
  | O => Some (queue, seen)
  | S n' =>
      let nd := nodes d !!! i in
      if is_free nd || negb (parent nd =? Z.of_nat u) || (seen !!! i)
      then scan_children d u (S i) n' queue seen
      else if (FS_MAX_NODES <=? length queue)%nat then None
      else scan_children d u (S i) n' (queue ++ [i]) (<[i := true]> seen)
  end.

(** [while (qh < qt) { ... }] *)
Fixpoint bfs_collect (fuel : nat) (d : ramfs) (qh : nat) (queue : list nat) (seen : list bool)
  : out (option (list nat)) :=
  match fuel with
  | O => Fault NoFuel
  | S f =>
      match queue !! qh with
      | None => Ret (Some queue)
      | Some u =>
          if negb (is_dir (nodes d !!! u)) then bfs_collect f d (S qh) queue seen
          else match scan_children d u 0 FS_MAX_NODES queue seen with
               | None => Ret None
               | Some (queue', seen') => bfs_collect f d (S qh) queue' seen'
               end
      end
  end.

Definition fs_rm_subtree (root_idx : nat) (d : ramfs) : out (fs_result * ramfs) :=
  if (FS_MAX_NODES <=? root_idx)%nat then Ret (FS_ERR_NOT_FOUND, d)
  else if is_free (nodes d !!! root_idx) then Ret (FS_OK, d)
  else if Z.of_nat root_idx =? FS_ROOT_INDEX then Ret (FS_ERR_INVALID_NAME, d)
  else
    r ← bfs_collect (S FS_MAX_NODES) d 0 [root_idx]
          (<[root_idx := true]> (replicate FS_MAX_NODES false));
    match r with
    | None => Ret (FS_ERR_NO_SPACE, d)
    | Some queue =>
        inside ← fs_cwd_in_subtree (Z.of_nat root_idx) d;
        let p := parent (nodes d !!! root_idx) in
        let d := if inside : bool then set_cwd (if 0 <=? p then p else FS_ROOT_INDEX) d else d in
        Ret (FS_OK, foldl (fun d i => fs_free_slot i d) d (reverse queue))
    end.

Definition has_child (d : ramfs) (idx : nat) : bool :=
  match for_find (fun i => let n := nodes d !!! i in
          negb (is_free n) && (parent n =? Z.of_nat idx)) 0 FS_MAX_NODES with
  | Some _ => true
  | None => false
  end.

(** The guards shared by [fs_rm] and [fs_rm_rf]: NULL, the empty name, "/". *)
Definition rm_bad_name (nm : option chars) : bool :=
  match nm with
  | None => true
  | Some nm => (char_at nm 0 =? 0) || ((char_at nm 0 =? 47) && (char_at nm 1 =? 0))
  end.

Definition rm_body (nm : option chars) (d : ramfs) : out (fs_result * ramfs) :=
  if rm_bad_name nm then Ret (FS_ERR_INVALID_NAME, d)
  else match fs_find_child d (cwd d) (default [] nm) with
  | None => Ret (FS_ERR_NOT_FOUND, d)
  | Some idx =>
      if is_dir (nodes d !!! idx) && has_child d idx then Ret (FS_ERR_DIR_NOT_EMPTY, d)
      else fs_rm_subtree idx d
  end.

Definition rm_rf_body (nm : option chars) (d : ramfs) : out (fs_result * ramfs) :=
  if rm_bad_name nm then Ret (FS_ERR_INVALID_NAME, d)
  else match fs_find_child d (cwd d) (default [] nm) with
  | None => Ret (FS_ERR_NOT_FOUND, d)
  | Some idx => fs_rm_subtree idx d
  end.

(** [locked] for a body that itself can fault. *)
Definition lockedM {A} (body : ramfs -> out (A * ramfs)) (s : fs_state) : out (A * fs_state) :=
  l ← fs_lock (lockst s);
  '(r, d) ← body (data s);
  Ret (r, mk_fs d (fs_unlock l)).

Definition fs_rm (nm : option chars) (s : fs_state) : out (fs_result * fs_state) :=
  lockedM (rm_body nm) s.
Definition fs_rm_rf (nm : option chars) (s : fs_state) : out (fs_result * fs_state) :=
  lockedM (rm_rf_body nm) s.

(** ** File contents *)

(** [k_memcpy(c + pos, w, |w|)] *)
Definition blit (c : chars) (pos : Z) (w : chars) : chars :=
  take (Z.to_nat pos) c ++ w ++ drop (Z.to_nat pos + length w) c.

(** Bytes, terminator and length of a whole-file write. *)
Definition write_node (bytes : chars) (n : fs_node) : fs_node :=
  let len := Z.of_nat (length bytes) in
  set_content (<[length bytes := 0]> (blit (content n) 0 bytes)) len n.

(** The tail of [fs_write_bin] and [fs_append] once the lock is held again. *)
Definition on_file (f : fs_node -> fs_node) (nm : chars) (d : ramfs) : fs_result * ramfs :=
  match fs_find_child d (cwd d) nm with
  | None => (FS_ERR_NOT_FOUND, d)
  | Some idx =>
      if negb (is_file (nodes d !!! idx)) then (FS_ERR_IS_A_DIRECTORY, d)
      else (FS_OK, upd_node idx f d)
  end.

(** Look the name up; when it is missing drop the lock, [fs_touch] it and
    take the lock again; then apply [f] to the file. *)
Definition touch_and_update (f : fs_node -> fs_node) (nm : chars) (s : fs_state)
  (l : fs_lockst) : out (fs_result * fs_state) :=
  match fs_find_child (data s) (cwd (data s)) nm with
  | Some _ =>
      let '(r, d) := on_file f nm (data s) in Ret (r, mk_fs d (fs_unlock l))
  | None =>
      '(r, s) ← fs_touch nm (mk_fs (data s) (fs_unlock l));
      l ← fs_lock (lockst s);
      if bool_decide (r = FS_OK) then
        let '(r, d) := on_file f nm (data s) in Ret (r, mk_fs d (fs_unlock l))
      else Ret (r, mk_fs (data s) (fs_unlock l))
  end.

Definition fs_write_bin (nm bytes : chars) (s : fs_state) : out (fs_result * fs_state) :=
  l ← fs_lock (lockst s);
  if FS_FILE_MAX <=? Z.of_nat (length bytes) then
    Ret (FS_ERR_TOO_BIG, mk_fs (data s) (fs_unlock l))
  else touch_and_update (write_node bytes) nm s l.

Definition fs_write (nm text : chars) (s : fs_state) : out (fs_result * fs_state) :=
  fs_write_bin nm (take (c_strlen text) text) s.

(** The appended text goes on a new line, cut at the end of the buffer. *)
Definition append_node (text : chars) (n : fs_node) : fs_node :=
  let pos := content_len n in
  let '(c, pos) :=
    if (0 <? pos) && (pos <? FS_FILE_MAX - 1)
    then (<[Z.to_nat pos := 10]> (content n), pos + 1) else (content n, pos) in
  let w := take (Z.to_nat (FS_FILE_MAX - 1 - pos)) (cstr text) in
  let c := blit c pos w in
  let pos := pos + Z.of_nat (length w) in
  set_content (<[Z.to_nat pos := 0]> c) pos n.

Definition fs_append (nm text : chars) (s : fs_state) : out (fs_result * fs_state) :=
  l ← fs_lock (lockst s);
  touch_and_update (append_node text) nm s l.

(** The results [*out_content] (the node whose buffer it points into) and
    [*out_len] are present exactly on success. *)
Definition fs_read (nm : chars) (d : ramfs) : fs_result * option (nat * Z) :=
  match fs_find_child d (cwd d) nm with
  | None => (FS_ERR_NOT_FOUND, None)
  | Some idx =>
      if negb (is_file (nodes d !!! idx)) then (FS_ERR_IS_A_DIRECTORY, None)
      else (FS_OK, Some (idx, content_len (nodes d !!! idx)))
  end.

(** The bytes a caller of [fs_read] sees through the pointer. *)
Definition file_bytes (d : ramfs) (idx : nat) (len : Z) : chars :=
  take (Z.to_nat len) (content (nodes d !!! idx)).

(** ** Paths *)

(** The characters up to the next '/' and what follows. *)
Fixpoint split_slash (p : chars) : chars * chars :=
  match p with
  | [] => ([], [])
  | c :: p' => if c =? 47 then ([], p) else let '(a, b) := split_slash p' in (c :: a, b)
  end.

Definition skip_slash (p : chars) : chars :=
  match p with
  | c :: p' => if c =? 47 then p' else p
  | [] => []
  end.

Fixpoint read_path_loop (fuel : nat) (d : ramfs) (dir : Z) (p : chars)
  : out (fs_result * option (nat * Z)) :=
  match fuel, p with
  | _, [] => Ret (FS_ERR_NOT_FOUND, None)
  | O, _ => Fault NoFuel
  | S f, _ =>
      let '(component, rest) := split_slash p in
      if (FS_NAME_MAX <=? length component)%nat then Ret (FS_ERR_INVALID_NAME, None)
      else
        let p := skip_slash rest in
        if c_streq component [] || c_streq component $"." then read_path_loop f d dir p
        else if c_streq component $".." then
          read_path_loop f d
            (if parent (node_at d dir) =? -1 then dir else parent (node_at d dir)) p
        else match fs_find_child d dir component with
        | None => Ret (FS_ERR_NOT_FOUND, None)
        | Some idx =>
            match p with
            | [] =>
                if negb (is_file (nodes d !!! idx)) then Ret (FS_ERR_IS_A_DIRECTORY, None)
                else Ret (FS_OK, Some (idx, content_len (nodes d !!! idx)))
            | _ =>
                if negb (is_dir (nodes d !!! idx)) then Ret (FS_ERR_NOT_A_DIRECTORY, None)
                else read_path_loop f d (Z.of_nat idx) p
            end
        end
  end.

Definition fs_read_path (path : option chars) (d : ramfs) : out (fs_result * option (nat * Z)) :=
  match cstr (default [] path) with
  | [] => Ret (FS_ERR_NOT_FOUND, None)
  | (c :: _) as p =>
      let dir := if c =? 47 then FS_ROOT_INDEX else cwd d in
      read_path_loop (length p) d dir (skip_slash p)
  end.

(** [component] is a 48-byte array and [component[n] = 0] is written
    without a bounds check. *)
Fixpoint mkdir_p_loop (fuel : nat) (saved : Z) (p : chars) (s : fs_state)
  : out (fs_result * fs_state) :=
  let restore s := mk_fs (set_cwd saved (data s)) (lockst s) in
  match fuel, p with
  | _, [] => Ret (FS_OK, restore s)
  | O, _ => Fault NoFuel
  | S f, _ =>
      let '(component, rest) := split_slash p in
      if (FS_NAME_MAX <=? length component)%nat then Fault OutOfBounds
      else
        let p := skip_slash rest in
        let descend idx s :=
          if negb (is_dir (nodes (data s) !!! idx)) then Ret (FS_ERR_NOT_A_DIRECTORY, restore s)
          else mkdir_p_loop f saved p (mk_fs (set_cwd (Z.of_nat idx) (data s)) (lockst s)) in
        match component with
        | [] => mkdir_p_loop f saved p s
        | _ =>
            match fs_find_child (data s) (cwd (data s)) component with
            | Some idx => descend idx s
            | None =>
                '(r, s) ← fs_mkdir component s;
                if bool_decide (r = FS_OK) then
                  match fs_find_child (data s) (cwd (data s)) component with
                  | Some idx => descend idx s
                  | None => Fault OutOfBounds   (* nodes[-1] *)
                  end
                else Ret (r, restore s)
            end
        end
  end.

Definition fs_mkdir_p (path : option chars) (s : fs_state) : out (fs_result * fs_state) :=
  match cstr (default [] path) with
  | c :: p =>
      if c =? 47 then
        mkdir_p_loop (length p) (cwd (data s)) p
          (mk_fs (set_cwd FS_ROOT_INDEX (data s)) (lockst s))
      else Ret (FS_ERR_INVALID_NAME, s)
  | [] => Ret (FS_ERR_INVALID_NAME, s)
  end.

(** ** Copy, rename, queries *)

Definition cp_body (src dst : chars) (d : ramfs) : fs_result * ramfs :=
  match fs_find_child d (cwd d) src with
  | None => (FS_ERR_NOT_FOUND, d)
  | Some sidx =>
      let sn := nodes d !!! sidx in
      if negb (is_file sn) then (FS_ERR_IS_A_DIRECTORY, d)
      else if negb (fs_is_valid_name dst) then (FS_ERR_INVALID_NAME, d)
      else match fs_find_child d (cwd d) dst with
      | Some _ => (FS_ERR_ALREADY_EXISTS, d)
      | None =>
          match fs_alloc_node d with
          | None => (FS_ERR_NO_SPACE, d)
          | Some didx =>
              let d := upd_node didx (set_type FS_TYPE_FILE) d in
              let d := upd_node didx (fun n => set_name (c_strcpy_truncate (name n) dst FS_NAME_MAX) n) d in
              let d := upd_node didx (set_parent (cwd d)) d in
              (FS_OK, upd_node didx (write_node (take (Z.to_nat (content_len sn)) (content sn))) d)
          end
      end
  end.

Definition fs_cp (src dst : chars) (s : fs_state) : out (fs_result * fs_state) :=
  locked (cp_body src dst) s.

Definition mv_body (src dst : chars) (d : ramfs) : fs_result * ramfs :=
  match fs_find_child d (cwd d) src with
  | None => (FS_ERR_NOT_FOUND, d)
  | Some sidx =>
      if negb (fs_is_valid_name dst) then (FS_ERR_INVALID_NAME, d)
      else match fs_find_child d (cwd d) dst with
      | Some _ => (FS_ERR_ALREADY_EXISTS, d)
      | None =>
          (FS_OK, upd_node sidx (fun n => set_name (c_strcpy_truncate (name n) dst FS_NAME_MAX) n) d)
      end
  end.

Definition fs_mv (src dst : chars) (s : fs_state) : out (fs_result * fs_state) :=
  locked (mv_body src dst) s.

(** The result and the value stored through [out_size]. *)
Definition fs_size (nm : chars) (d : ramfs) : fs_result * option Z :=
  match fs_find_child d (cwd d) nm with
  | None => (FS_ERR_NOT_FOUND, None)
  | Some idx =>
      if is_dir (nodes d !!! idx) then (FS_ERR_IS_A_DIRECTORY, Some 0)
      else (FS_OK, Some (content_len (nodes d !!! idx)))
  end.

Definition fs_node_count (d : ramfs) : nat :=
  length (filter (fun i => is_free (nodes d !!! i) = false) (seq 0 FS_MAX_NODES)).

(** The [index]-th entry of the current directory, in slot order: its name
    cut to [name_sz] and whether it is a directory. *)
Fixpoint cwd_entry_loop (d : ramfs) (i n index : nat) (name_sz : nat) : option (chars * bool) :=
  match n with
  | O => None
  | S n' =>
      let nd := nodes d !!! i in
      if is_free nd || negb (parent nd =? cwd d) then cwd_entry_loop d (S i) n' index name_sz
      else match index with
           | O => Some (take (name_sz - 1) (cstr (name nd)), is_dir nd)
           | S index' => cwd_entry_loop d (S i) n' index' name_sz
           end
  end.

Definition fs_cwd_entry (index : nat) (name_sz : nat) (d : ramfs) : option (chars * bool) :=
  cwd_entry_loop d 0 FS_MAX_NODES index name_sz.

(** The characters [fs_ls] prints. *)
Definition ls_line (n : fs_node) : chars :=
  if is_dir n then $"  [DIR]  " ++ cstr (name n) ++ $"/" ++ [10]
  else $"  [FILE] " ++ cstr (name n) ++ $"  (" ++
       Terminal.uint_chars (content_len n) ++ $" bytes)" ++ [10].

Definition fs_ls (d : ramfs) : chars :=
  let entries := filter (fun n => is_free n = false /\ parent n = cwd d)
                   (take FS_MAX_NODES (nodes d)) in
  match entries with
  | [] => $"  (empty)" ++ [10]
  | _ => concat (map ls_line entries)
  end.

(** [path[0..depth)]: the current directory and its ancestors, at most 16. *)
Fixpoint pwd_path (n : nat) (d : ramfs) (cur : Z) : list Z :=
  match n with
  | O => []
  | S n' => if cur =? -1 then [] else cur :: pwd_path n' d (parent (node_at d cur))
  end.

(** [if (pos + 1 < buffer_size) buffer[pos++] = c;] *)
Definition push_char (buffer_size : nat) (buf : chars) (c : Z) : chars :=
  if (length buf + 1 <? buffer_size)%nat then buf ++ [c] else buf.

(** The string left in [buffer]. *)
Definition fs_pwd (buffer_size : nat) (d : ramfs) : chars :=
  let path := pwd_path FS_MAX_DEPTH d (cwd d) in
  if (length path =? 1)%nat then take (buffer_size - 1) $"/"
  else
    foldl (fun buf i => foldl (push_char buffer_size) buf (47 :: cstr (name (node_at d i))))
      [] (reverse (take (length path - 1) path)).

Definition fs_strerror (err : fs_result) : chars :=
  match err with
  | FS_OK => $"OK"
  | FS_ERR_NOT_FOUND => $"No such file or directory"
  | FS_ERR_ALREADY_EXISTS => $"Already exists"
  | FS_ERR_NOT_A_DIRECTORY => $"Not a directory"
  | FS_ERR_IS_A_DIRECTORY => $"Is a directory, not a file"
  | FS_ERR_NO_SPACE => $"No space left"
  | FS_ERR_DIR_NOT_EMPTY => $"Directory not empty"
  | FS_ERR_INVALID_NAME => $"Invalid name"
  | FS_ERR_TOO_BIG => $"File too big"
  end.

(** ** Booting *)

Definition bss_fs : fs_state :=
  mk_fs (mk_ramfs (replicate FS_MAX_NODES bss_node) 0) (mk_lockst 0 0 0 false).

End Fs.
