(* ===== verification/FsInv.v ===== *)
(** * The RAM file system: the tree invariant

    What a well-formed node table is, and how the kinds of update the
    operations perform (creating a node in a free slot, renaming,
    rewriting a file, moving the current directory, freeing a closed set
    of nodes) preserve it. *)

From S2P Require Import Prelude Atomic Fs.
Import Fs.

Module FsInv.

Abbreviation nd d i := (nodes d !!! i).

Definition live (d : ramfs) (i : nat) : Prop :=
  (i < FS_MAX_NODES)%nat /\ type (nd d i) <> FS_TYPE_FREE.

(** [depth d i k]: the parent chain of node [i] reaches the root in [k] steps. *)
Inductive depth (d : ramfs) : nat -> nat -> Prop :=
| depth_root : depth d 0 0
| depth_step i j k :
    i <> 0%nat -> live d i -> parent (nd d i) = Z.of_nat j -> depth d j k -> depth d i (S k).

Definition file_ok (n : fs_node) : Prop :=
  type n = FS_TYPE_FILE ->
  0 <= content_len n < FS_FILE_MAX /\ content n !! Z.to_nat (content_len n) = Some 0.

Definition arrays_ok (n : fs_node) : Prop :=
  length (name n) = FS_NAME_MAX /\ length (content n) = Z.to_nat FS_FILE_MAX.

Definition dir_node (d : ramfs) (j : nat) : Prop :=
  (j < FS_MAX_NODES)%nat /\ type (nd d j) = FS_TYPE_DIR.

Record wf (d : ramfs) : Prop := mk_wf {
  wf_len : length (nodes d) = FS_MAX_NODES;
  wf_arr : forall i, (i < FS_MAX_NODES)%nat -> arrays_ok (nd d i);
  wf_root : type (nd d 0%nat) = FS_TYPE_DIR /\ parent (nd d 0%nat) = -1;
  wf_par : forall i, live d i -> i <> 0%nat ->
    exists j, parent (nd d i) = Z.of_nat j /\ dir_node d j;
  wf_depth : forall i, live d i -> exists k, depth d i k;
  wf_name : forall i, live d i -> i <> 0%nat -> fs_is_valid_name (name (nd d i)) = true;
  wf_uniq : forall i j, live d i -> live d j -> parent (nd d i) = parent (nd d j) ->
    cstr (name (nd d i)) = cstr (name (nd d j)) -> i = j;
  wf_cwd : exists j, cwd d = Z.of_nat j /\ dir_node d j;
  wf_file : forall i, live d i -> file_ok (nd d i);
}.

Lemma is_free_true n : is_free n = true <-> type n = FS_TYPE_FREE.
Proof. unfold is_free. apply bool_decide_eq_true. Qed.
Lemma is_free_false n : is_free n = false <-> type n <> FS_TYPE_FREE.
Proof. unfold is_free. apply bool_decide_eq_false. Qed.
Lemma is_dir_true n : is_dir n = true <-> type n = FS_TYPE_DIR.
Proof. unfold is_dir. apply bool_decide_eq_true. Qed.
Lemma is_file_true n : is_file n = true <-> type n = FS_TYPE_FILE.
Proof. unfold is_file. apply bool_decide_eq_true. Qed.

Lemma dir_live d j : dir_node d j -> live d j.
Proof. intros [H1 H2]. split; [done | congruence]. Qed.

Lemma root_dir d : wf d -> dir_node d 0.
Proof. intros H. split; [unfold FS_MAX_NODES; lia | apply wf_root, H]. Qed.

Lemma node_at_nat d j : node_at d (Z.of_nat j) = nd d j.
Proof.
  unfold node_at. rewrite (proj2 (Z.leb_le 0 _)) by lia. by rewrite Nat2Z.id.
Qed.

#[export] Hint Resolve dir_live root_dir : kernel.

(** ** One-slot updates *)

Lemma upd_node_cwd i f d : cwd (upd_node i f d) = cwd d.
Proof. done. Qed.

Lemma upd_node_nd i f d j :
  (i < length (nodes d))%nat ->
  nd (upd_node i f d) j = if decide (j = i) then f (nd d i) else nd d j.
Proof.
  intros Hi. unfold upd_node. simpl. rewrite list_lookup_total_alter.
  destruct (decide (j = i)) as [->|]; [by rewrite decide_True|].
  rewrite decide_False; [done|]. intros [? _]. congruence.
Qed.

Lemma upd_node_upd i f g d : upd_node i f (upd_node i g d) = upd_node i (f ∘ g) d.
Proof. unfold upd_node. simpl. f_equal. apply list_alter_alter_eq. Qed.

Lemma upd_node_len i f d : length (nodes (upd_node i f d)) = length (nodes d).
Proof. unfold upd_node. simpl. apply length_alter. Qed.

(** Two tables that agree on which nodes are live and on the parents of
    live nodes have the same chains. *)
Lemma depth_agree d d' i k :
  (forall j, live d j -> live d' j /\ parent (nd d' j) = parent (nd d j)) ->
  depth d i k -> depth d' i k.
Proof.
  intros H. induction 1 as [|i j k Hi Hl Hp _ IH]; [constructor|].
  destruct (H i Hl) as [Hl' Hp']. econstructor; eauto. congruence.
Qed.

Lemma depth_fun d i k k' : depth d i k -> depth d i k' -> k = k'.
Proof.
  intros H. revert k'. induction H as [|i j k Hi Hl Hp _ IH]; intros k' H'.
  - inversion H'; [done | congruence].
  - inversion H' as [|? j' k2 ? ? Hp2 Hd]; [congruence|]. subst.
    rewrite Hp in Hp2. apply Nat2Z.inj in Hp2 as <-. f_equal. by apply IH.
Qed.

(** The chain of a node of depth [k] contains a live node at every depth
    up to [k]; the table has 256 slots, so [k] is below 256. *)
Lemma depth_chain d i k :
  wf d -> live d i -> depth d i k ->
  exists l : list nat, length l = S k /\ NoDup l /\
    Forall (fun j => (j < FS_MAX_NODES)%nat /\ exists m, (m <= k)%nat /\ depth d j m) l.
Proof.
  intros Hwf Hl H. revert Hl. induction H as [|i j k Hi Hl Hp Hd IH]; intros Hlive.
  - exists [0%nat]. split_and!; [done | apply NoDup_singleton |].
    constructor; [|done]. split; [unfold FS_MAX_NODES; lia|]. exists 0%nat. split; [lia | constructor].
  - destruct (wf_par d Hwf i Hl Hi) as (j' & Hp' & Hj'). rewrite Hp in Hp'.
    apply Nat2Z.inj in Hp' as <-.
    destruct IH as (l & Hlen & Hnd & Hall); [by apply dir_live|].
    exists (i :: l). split_and!.
    + simpl. lia.
    + constructor; [|done]. intros Hin. rewrite Forall_forall in Hall.
      destruct (Hall i Hin) as [_ (m & Hm & Hdm)].
      pose proof (depth_fun d i m (S k) Hdm (depth_step d i j k Hi Hl Hp Hd)). lia.
    + constructor.
      * split; [apply Hl|]. exists (S k). split; [lia | by econstructor].
      * eapply Forall_impl; [exact Hall|]. intros x [Hx (m & Hm & Hdm)].
        split; [done|]. exists m. split; [lia | done].
Qed.

Lemma depth_bound d i k : wf d -> live d i -> depth d i k -> (k < FS_MAX_NODES)%nat.
Proof.
  intros Hwf Hl Hd. destruct (depth_chain d i k Hwf Hl Hd) as (l & Hlen & Hnd & Hall).
  enough (length l <= length (seq 0 FS_MAX_NODES))%nat as H by (rewrite length_seq in H; lia).
  apply submseteq_length, NoDup_submseteq; [done|].
  intros x Hx. rewrite Forall_forall in Hall. apply elem_of_seq.
  destruct (Hall x) as [? _]; [done|]. lia.
Qed.

(** ** Searches *)

Lemma find_child_Some d p nm i :
  fs_find_child d p nm = Some i ->
  live d i /\ parent (nd d i) = p /\ cstr (name (nd d i)) = cstr nm.
Proof.
  unfold fs_find_child. rewrite for_find_Some. intros (Hi & Hb & _).
  rewrite !andb_true_iff, negb_true_iff, is_free_false, Z.eqb_eq, c_streq_spec in Hb.
  destruct Hb as [[? ?] ?]. split_and!; [split; [lia | done] | done | done].
Qed.

Lemma find_child_None d p nm :
  fs_find_child d p nm = None <->
  forall i, live d i -> parent (nd d i) = p -> cstr (name (nd d i)) <> cstr nm.
Proof.
  unfold fs_find_child. rewrite for_find_None. split.
  - intros H i [Hi Hl] Hp Hn. specialize (H i ltac:(lia)).
    rewrite (proj2 (is_free_false _) Hl), Hp, Z.eqb_refl in H. simpl in H.
    by rewrite (proj2 (c_streq_spec _ _) Hn) in H.
  - intros H i Hi. destruct (is_free (nd d i)) eqn:Ef; [done|].
    destruct (Z.eqb_spec (parent (nd d i)) p) as [Hp|]; [|done]. simpl.
    apply c_streq_false, H; [|done]. split; [lia | by apply is_free_false].
Qed.

(** In a well-formed table the child is unique, so the search is a lookup. *)
Lemma find_child_iff d p nm i :
  wf d ->
  (fs_find_child d p nm = Some i <->
   live d i /\ parent (nd d i) = p /\ cstr (name (nd d i)) = cstr nm).
Proof.
  intros Hwf. split; [apply find_child_Some|]. intros (Hl & Hp & Hn).
  destruct (fs_find_child d p nm) as [j|] eqn:E.
  - apply find_child_Some in E as (Hl' & Hp' & Hn').
    f_equal. apply (wf_uniq d Hwf); congruence.
  - by destruct (proj1 (find_child_None d p nm) E i Hl Hp).
Qed.

Lemma alloc_Some d i :
  fs_alloc_node d = Some i -> (i < FS_MAX_NODES)%nat /\ type (nd d i) = FS_TYPE_FREE.
Proof.
  unfold fs_alloc_node. rewrite for_find_Some. intros (? & Hf & _).
  split; [lia | by apply is_free_true].
Qed.

Lemma valid_name_spec nm :
  fs_is_valid_name nm = true <->
  cstr nm <> [] /\ cstr nm <> $"." /\ cstr nm <> $".." /\ (length (cstr nm) < FS_NAME_MAX)%nat.
Proof.
  unfold fs_is_valid_name. rewrite c_strlen_cstr.
  assert (H0 : (char_at nm 0 =? 0) = true <-> cstr nm = []).
  { destruct nm as [|c r]; simpl; [done|]. unfold char_at. simpl.
    destruct (Z.eqb_spec c 0); split; congruence. }
  destruct (char_at nm 0 =? 0) eqn:E0; [split; [done | tauto]|].
  pose proof (c_streq_spec nm $".") as H1. pose proof (c_streq_spec nm $"..") as H2.
  change (cstr $".") with $"." in H1. change (cstr $"..") with $".." in H2.
  assert (cstr nm <> []) by (intros Hn; by apply H0 in Hn).
  destruct (c_streq nm $"."); [split; [done | tauto]|].
  destruct (c_streq nm $".."); [split; [done | tauto]|]. cbn [orb].
  destruct (Nat.leb_spec FS_NAME_MAX (length (cstr nm))).
  - split; [done|]. intros (_ & _ & _ & ?). lia.
  - split; [|done]. intros _.
    split_and!; auto; intros Hx; [by apply H1 in Hx | by apply H2 in Hx].
Qed.

Lemma valid_name_ext a b : cstr a = cstr b -> fs_is_valid_name a = fs_is_valid_name b.
Proof.
  intros H. apply eq_true_iff_eq. rewrite !valid_name_spec, H. done.
Qed.

(** ** Updates that preserve the invariant *)

(** A node is created in a free slot, as a child of the current directory. *)
Lemma wf_create d d' idx :
  wf d -> (idx < FS_MAX_NODES)%nat -> type (nd d idx) = FS_TYPE_FREE ->
  length (nodes d') = FS_MAX_NODES -> cwd d' = cwd d ->
  (forall j, j <> idx -> nd d' j = nd d j) ->
  type (nd d' idx) <> FS_TYPE_FREE -> parent (nd d' idx) = cwd d ->
  arrays_ok (nd d' idx) -> file_ok (nd d' idx) ->
  fs_is_valid_name (name (nd d' idx)) = true ->
  (forall j, live d j -> parent (nd d j) = cwd d ->
     cstr (name (nd d j)) <> cstr (name (nd d' idx))) ->
  wf d'.
Proof.
  intros Hwf Hi Hfree Hlen Hcwd Hoth Htype Hpar Harr Hfile Hname Hfresh.
  assert (Hnl : ~ live d idx) by (intros [_ ?]; done).
  assert (H0 : idx <> 0%nat).
  { intros ->. destruct (wf_root d Hwf). congruence. }
  assert (Hlive : forall j, live d j -> live d' j /\ nd d' j = nd d j).
  { intros j Hj. assert (j <> idx) by (intros ->; done).
    unfold live. rewrite Hoth by done. by split. }
  assert (Hlive' : forall j, live d' j -> j = idx \/ (j <> idx /\ live d j /\ nd d' j = nd d j)).
  { intros j Hj. destruct (decide (j = idx)) as [->|Hne]; [by left|]. right.
    unfold live in Hj. rewrite Hoth in Hj by done. auto. }
  assert (Hdir : forall j, dir_node d j -> dir_node d' j).
  { intros j Hj. destruct (Hlive j) as [Hl E]; [by apply dir_live|].
    unfold dir_node in *. by rewrite E. }
  destruct (wf_cwd d Hwf) as (c & Hc & Hcd).
  constructor; auto.
  - intros i Hi2. destruct (decide (i = idx)) as [->|]; [done|].
    rewrite Hoth by done. by apply (wf_arr d Hwf).
  - rewrite Hoth by done. apply (wf_root d Hwf).
  - intros i Hl Hne. destruct (Hlive' i Hl) as [->|(_ & Hl2 & E)].
    + exists c. rewrite Hpar. auto.
    + rewrite E. destruct (wf_par d Hwf i Hl2 Hne) as (j & Hp & Hj). eauto.
  - intros i Hl. assert (Hag : forall j, live d j -> live d' j /\ parent (nd d' j) = parent (nd d j)).
    { intros j Hj. destruct (Hlive j Hj) as [? E]. by rewrite E. }
    destruct (Hlive' i Hl) as [->|(_ & Hl2 & _)].
    + destruct (wf_depth d Hwf c) as [k Hk]; [by apply dir_live|].
      exists (S k). apply (depth_step d' idx c); [done | done | congruence |].
      by eapply depth_agree.
    + destruct (wf_depth d Hwf i Hl2) as [k Hk]. exists k. by eapply depth_agree.
  - intros i Hl Hne. destruct (Hlive' i Hl) as [->|(_ & Hl2 & E)]; [done|].
    rewrite E. by apply (wf_name d Hwf).
  - intros i j Hli Hlj Hp Hn.
    destruct (Hlive' i Hli) as [->|(_ & Hl2 & E)], (Hlive' j Hlj) as [->|(_ & Hl3 & E')];
      [done | | |].
    + rewrite E' in *. exfalso. apply (Hfresh j Hl3); congruence.
    + rewrite E in *. exfalso. apply (Hfresh i Hl2); congruence.
    + rewrite E, E' in *. by apply (wf_uniq d Hwf).
  - rewrite Hcwd. exists c. auto.
  - intros i Hl. destruct (Hlive' i Hl) as [->|(_ & Hl2 & E)]; [done|].
    rewrite E. by apply (wf_file d Hwf).
Qed.

(** Types and parents stay; names, contents and the current directory may
    change within their constraints. *)
Lemma wf_reshape d d' :
  wf d -> length (nodes d') = FS_MAX_NODES ->
  (forall i, type (nd d' i) = type (nd d i) /\ parent (nd d' i) = parent (nd d i)) ->
  (forall i, (i < FS_MAX_NODES)%nat -> arrays_ok (nd d' i)) ->
  (forall i, live d i -> i <> 0%nat -> fs_is_valid_name (name (nd d' i)) = true) ->
  (forall i j, live d i -> live d j -> parent (nd d i) = parent (nd d j) ->
     cstr (name (nd d' i)) = cstr (name (nd d' j)) -> i = j) ->
  (exists j, cwd d' = Z.of_nat j /\ dir_node d j) ->
  (forall i, live d i -> file_ok (nd d' i)) ->
  wf d'.
Proof.
  intros Hwf Hlen Hsh Harr Hname Huniq Hcwd Hfile.
  assert (Ht : forall i, type (nd d' i) = type (nd d i)) by (intros i; apply Hsh).
  assert (Hp : forall i, parent (nd d' i) = parent (nd d i)) by (intros i; apply Hsh).
  assert (Hl : forall i, live d' i <-> live d i) by (intros i; unfold live; by rewrite Ht).
  assert (Hd : forall i, dir_node d' i <-> dir_node d i) by (intros i; unfold dir_node; by rewrite Ht).
  constructor; auto.
  - rewrite Ht, Hp. apply (wf_root d Hwf).
  - intros i Hi Hne. apply Hl in Hi. rewrite Hp.
    destruct (wf_par d Hwf i Hi Hne) as (j & ? & ?). exists j. by rewrite Hd.
  - intros i Hi. apply Hl in Hi. destruct (wf_depth d Hwf i Hi) as [k Hk]. exists k.
    eapply depth_agree; [|done]. intros j. by rewrite Hl, Hp.
  - intros i Hi. apply Hname. by apply Hl.
  - intros i j Hi Hj Hpij. rewrite !Hp in Hpij. apply Huniq; by try apply Hl.
  - destruct Hcwd as (j & ? & ?). exists j. by rewrite Hd.
  - intros i Hi. apply Hfile. by apply Hl.
Qed.

Lemma wf_set_cwd d j : wf d -> dir_node d j -> wf (set_cwd (Z.of_nat j) d).
Proof.
  intros Hwf Hj. apply (wf_reshape d); auto; simpl; try apply Hwf; eauto.
Qed.

(** ** Freeing a subtree *)

(** [i] is [r] or lies below it. *)
Inductive desc (d : ramfs) (r : nat) : nat -> Prop :=
| desc_refl : desc d r r
| desc_child i j : live d i -> parent (nd d i) = Z.of_nat j -> desc d r j -> desc d r i.

Lemma wf_free d d' (F : nat -> Prop) :
  wf d -> (forall i, F i \/ ~ F i) -> ~ F 0%nat ->
  (forall i j, live d i -> parent (nd d i) = Z.of_nat j -> F j -> F i) ->
  length (nodes d') = FS_MAX_NODES ->
  (forall i, (i < FS_MAX_NODES)%nat -> F i -> type (nd d' i) = FS_TYPE_FREE /\ arrays_ok (nd d' i)) ->
  (forall i, (i < FS_MAX_NODES)%nat -> ~ F i -> nd d' i = nd d i) ->
  (exists c, cwd d' = Z.of_nat c /\ dir_node d c /\ ~ F c) ->
  wf d'.
Proof.
  intros Hwf Hdec HF0 Hclo Hlen HF HnF (c & Hc & Hcd & HcF).
  assert (Hl : forall i, live d' i <-> live d i /\ ~ F i).
  { intros i. unfold live. split.
    - intros [Hi Ht]. destruct (Hdec i) as [Fi|Fi]; [by destruct (HF i Hi Fi)|].
      rewrite HnF in Ht by done. auto.
    - intros [[Hi Ht] Fi]. rewrite HnF by done. auto. }
  assert (Hd : forall i, dir_node d i -> ~ F i -> dir_node d' i).
  { intros i [Hi Ht] Fi. split; [done|]. by rewrite HnF. }
  assert (H0 : (0 < FS_MAX_NODES)%nat) by (unfold FS_MAX_NODES; lia).
  constructor; auto.
  - intros i Hi. destruct (Hdec i) as [Fi|Fi]; [by apply HF|].
    rewrite HnF by done. by apply (wf_arr d Hwf).
  - rewrite HnF by done. apply (wf_root d Hwf).
  - intros i [Hli Fi]%Hl Hne. rewrite HnF by (done || apply Hli).
    destruct (wf_par d Hwf i Hli Hne) as (j & Hp & Hj). exists j. split; [done|].
    apply Hd; [done|]. intros Fj. apply Fi. by eapply Hclo.
  - intros i [Hli Fi]%Hl. destruct (wf_depth d Hwf i Hli) as [k Hk]. exists k.
    clear Hli. induction Hk as [|i j k Hne Hli Hp _ IH]; [constructor|].
    apply (depth_step d' i j); [done | by apply Hl | |].
    + rewrite HnF by (done || apply Hli). done.
    + apply IH. intros Fj. apply Fi. by eapply Hclo.
  - intros i [Hli Fi]%Hl Hne. rewrite HnF by (done || apply Hli). by apply (wf_name d Hwf).
  - intros i j [Hli Fi]%Hl [Hlj Fj]%Hl. rewrite !HnF by (done || apply Hli || apply Hlj).
    by apply (wf_uniq d Hwf).
  - exists c. auto.
  - intros i [Hli Fi]%Hl. rewrite HnF by (done || apply Hli). by apply (wf_file d Hwf).
Qed.

Definition seen_ok (q : list nat) (seen : list bool) : Prop :=
  length seen = FS_MAX_NODES /\ forall i, (i < FS_MAX_NODES)%nat -> seen !!! i = true <-> i ∈ q.

Definition in_table (q : list nat) : Prop := forall i, i ∈ q -> (i < FS_MAX_NODES)%nat.

Lemma in_table_length q : NoDup q -> in_table q -> (length q <= FS_MAX_NODES)%nat.
Proof.
  intros Hnd Hin.
  enough (length q <= length (seq 0 FS_MAX_NODES))%nat as H by (by rewrite length_seq in H).
  apply submseteq_length, NoDup_submseteq; [done|].
  intros x Hx. apply elem_of_seq. specialize (Hin x Hx). lia.
Qed.

Lemma in_table_snoc q i :
  NoDup q -> in_table q -> (i < FS_MAX_NODES)%nat -> i ∉ q ->
  NoDup (q ++ [i]) /\ in_table (q ++ [i]) /\ (length q < FS_MAX_NODES)%nat.
Proof.
  intros Hnd Hin Hi Hni.
  assert (H1 : NoDup (q ++ [i])).
  { apply NoDup_app. split_and!; [done | set_solver | apply NoDup_singleton]. }
  assert (H2 : in_table (q ++ [i])).
  { intros x Hx. apply elem_of_app in Hx as [Hx|Hx]; [by apply Hin|].
    apply list_elem_of_singleton in Hx as ->. done. }
  split_and!; [done | done |]. pose proof (in_table_length _ H1 H2) as Hlen.
  rewrite length_app in Hlen. simpl in Hlen. lia.
Qed.

Lemma seen_ok_snoc q seen i :
  seen_ok q seen -> (i < FS_MAX_NODES)%nat -> seen_ok (q ++ [i]) (<[i := true]> seen).
Proof.
  intros [Hlen Hs] Hi. split; [by rewrite length_insert|]. intros j Hj.
  rewrite elem_of_app, list_elem_of_singleton.
  destruct (decide (j = i)) as [->|Hne].
  - rewrite list_lookup_total_insert_eq by lia. tauto.
  - rewrite list_lookup_total_insert_ne by done. rewrite Hs by done. tauto.
Qed.

Lemma scan_children_spec d u i n q seen :
  (i + n = FS_MAX_NODES)%nat -> NoDup q -> in_table q -> seen_ok q seen ->
  exists new seen', scan_children d u i n q seen = Some (q ++ new, seen') /\
    NoDup (q ++ new) /\ in_table (q ++ new) /\ seen_ok (q ++ new) seen' /\
    (forall x, x ∈ new -> live d x /\ parent (nd d x) = Z.of_nat u) /\
    (forall x, (i <= x)%nat -> live d x -> parent (nd d x) = Z.of_nat u -> x ∈ q ++ new).
Proof.
  revert i q seen. induction n as [|n IH]; intros i q seen Hin Hnd Htab Hseen; cbn [scan_children].
  - exists [], seen. rewrite app_nil_r. split_and!; auto; [by intros x ?%elem_of_nil|].
    intros x Hx [? _]. lia.
  - destruct (is_free (nd d i) || negb (parent (nd d i) =? Z.of_nat u) || (seen !!! i)) eqn:E.
    + destruct (IH (S i) q seen) as (new & seen' & -> & H1 & H2 & H3 & H4 & H5); auto; [lia|].
      exists new, seen'. split_and!; auto. intros x Hx Hl Hp.
      destruct (decide (x = i)) as [->|]; [|apply H5; auto; lia].
      rewrite !orb_true_iff, negb_true_iff, is_free_true, Z.eqb_neq in E.
      destruct Hl as [Hx' Ht]. destruct E as [[E|E]|E]; [done | done |].
      apply elem_of_app. left. by apply Hseen in E.
    + rewrite !orb_false_iff, negb_false_iff, is_free_false, Z.eqb_eq in E.
      destruct E as [[Ht Hp] Hs].
      assert (Hni : i ∉ q).
      { intros Hq. apply (proj2 Hseen i) in Hq; [congruence | lia]. }
      destruct (in_table_snoc q i) as (Hnd' & Htab' & Hlt); auto; [lia|].
      rewrite (proj2 (Nat.leb_gt _ _)) by lia.
      destruct (IH (S i) (q ++ [i]) (<[i := true]> seen))
        as (new & seen' & Heq & H1 & H2 & H3 & H4 & H5); auto; [lia | apply seen_ok_snoc; [done|lia] |].
      rewrite Heq. exists (i :: new), seen'.
      replace (q ++ i :: new) with ((q ++ [i]) ++ new) by (by rewrite <- app_assoc).
      split_and!; auto.
      * intros x [->|Hx]%elem_of_cons; [|by apply H4]. split; [split; [lia | done] | done].
      * intros x Hx Hl Hp'. destruct (decide (x = i)) as [->|]; [set_solver | apply H5; auto; lia].
Qed.

Lemma no_child_of_file d u x :
  wf d -> type (nd d u) <> FS_TYPE_DIR -> live d x -> parent (nd d x) <> Z.of_nat u.
Proof.
  intros Hwf Hu Hl Hp. destruct (decide (x = 0%nat)) as [->|Hne].
  - destruct (wf_root d Hwf) as [_ Hr]. lia.
  - destruct (wf_par d Hwf x Hl Hne) as (j & Hj & [_ Hd]). rewrite Hp in Hj.
    apply Nat2Z.inj in Hj as <-. done.
Qed.

Lemma bfs_collect_spec d r fuel qh q seen :
  wf d -> NoDup q -> in_table q -> seen_ok q seen -> r ∈ q ->
  (forall x, x ∈ q -> desc d r x) ->
  (forall k u x, (k < qh)%nat -> q !! k = Some u -> live d x ->
     parent (nd d x) = Z.of_nat u -> x ∈ q) ->
  (qh <= length q)%nat -> (FS_MAX_NODES - qh < fuel)%nat ->
  exists q', bfs_collect fuel d qh q seen = Ret (Some q') /\ NoDup q' /\ in_table q' /\
    forall x, x ∈ q' <-> desc d r x.
Proof.
  intros Hwf. revert qh q seen.
  induction fuel as [|fuel IH]; intros qh q seen Hnd Htab Hseen Hr Hdesc Hdone Hqh Hf; [lia|].
  cbn [bfs_collect]. pose proof (in_table_length _ Hnd Htab) as Hle.
  destruct (q !! qh) as [u|] eqn:Hu.
  - pose proof (lookup_lt_Some _ _ _ Hu) as Hlt.
    destruct (is_dir (nd d u)) eqn:Hd; cbn [negb].
    + destruct (scan_children_spec d u 0 FS_MAX_NODES q seen)
        as (new & seen' & -> & H1 & H2 & H3 & H4 & H5); auto.
      apply IH; auto.
      * set_solver.
      * intros x [Hx|Hx]%elem_of_app; [auto|]. destruct (H4 x Hx) as [Hl Hp].
        econstructor; eauto. apply Hdesc. by apply list_elem_of_lookup_2 in Hu.
      * intros k v x Hk Hv Hl Hp. destruct (decide (k = qh)) as [->|].
        -- rewrite lookup_app_l in Hv by done. rewrite Hu in Hv. injection Hv as <-.
           apply H5; auto. lia.
        -- rewrite lookup_app_l in Hv by lia. apply elem_of_app. left.
           eapply (Hdone k); eauto. lia.
      * rewrite length_app. lia.
      * lia.
    + apply IH; auto; [|lia]. intros k v x Hk Hv Hl Hp.
      destruct (decide (k = qh)) as [->|]; [|eapply (Hdone k); eauto; lia].
      rewrite Hu in Hv. injection Hv as <-. exfalso.
      eapply no_child_of_file; eauto. intros E. apply is_dir_true in E. congruence.
  - apply lookup_ge_None in Hu. exists q. split_and!; auto. intros x. split; [auto|].
    induction 1 as [|i j Hl Hp _ IHd]; [done|].
    apply list_elem_of_lookup in IHd as [k Hk].
    eapply (Hdone k); eauto. apply lookup_lt_Some in Hk. lia.
Qed.

Lemma walk_up_spec d idx j k fuel :
  wf d -> idx <> 0%nat -> live d j -> depth d j k -> (k + 1 < fuel)%nat ->
  exists b, walk_up fuel d (Z.of_nat j) (Z.of_nat idx) = Ret b /\ (b = true <-> desc d idx j).
Proof.
  intros Hwf Hidx Hl Hd. revert fuel. induction Hd as [|j p k Hne Hlj Hp Hd IH]; intros fuel Hf;
    (destruct fuel as [|fuel]; [lia|]); cbn [walk_up].
  - rewrite (proj2 (Z.eqb_neq _ (-1))), (proj2 (Z.eqb_neq _ (Z.of_nat idx))) by lia.
    change (Z.of_nat 0) with (Z.of_nat 0%nat). rewrite node_at_nat.
    destruct (wf_root d Hwf) as [_ Hr]. rewrite Hr. destruct fuel as [|fuel]; [lia|].
    exists false. split; [done|]. split; [done|].
    intros H. inversion H as [|? ? ? Hx]; [done|]. lia.
  - rewrite (proj2 (Z.eqb_neq _ (-1))) by lia.
    destruct (Z.eqb_spec (Z.of_nat j) (Z.of_nat idx)) as [E|E].
    + apply Nat2Z.inj in E as ->. exists true. split; [done|]. split; [constructor | done].
    + rewrite node_at_nat, Hp.
      destruct (wf_par d Hwf j Hlj Hne) as (p' & Hp' & Hpd). rewrite Hp in Hp'.
      apply Nat2Z.inj in Hp' as <-.
      destruct (IH (dir_live _ _ Hpd) fuel) as (b & -> & Hb); [lia|]. exists b. split; [done|].
      rewrite Hb. split; [by econstructor|].
      intros H. inversion H as [|? p' ? Hx Hy]; [congruence|]. subst.
      rewrite Hp in Hx. by apply Nat2Z.inj in Hx as <-.
Qed.

End FsInv.
