(* ===== verification/FsProps.v ===== *)
(** * The RAM file system: correctness of the operations

    Every operation returns, releases the lock, restores the interrupt
    flag and keeps the table well formed; creation, renaming and removal
    act on the (parent, name) directory relation as their specifications
    say; whole-file writes read back; [fs_mkdir_p] and [fs_pwd] agree with
    walking the tree. *)

From S2P Require Import Prelude Atomic Fs FsInv.
Import Fs FsInv.

Module FsProps.

(** ** The lock *)

Definition unlocked (l : fs_lockst) : Prop := fs_spinlock l = 0 /\ fs_lock_depth l = 0.

(** The lock words after an operation that found the lock free. *)
Definition relocked (l : fs_lockst) : fs_lockst :=
  mk_lockst 0 0 (if cpu_if l then 0x200 else 0) (cpu_if l).
Definition held (l : fs_lockst) : fs_lockst :=
  mk_lockst 1 1 (if cpu_if l then 0x200 else 0) false.

Lemma lock_free l : unlocked l -> fs_lock l = Ret (held l).
Proof.
  intros [H1 H2]. unfold fs_lock. rewrite H1, H2. simpl. unfold held.
  by destruct (cpu_if l).
Qed.
Lemma unlock_held l : fs_unlock (held l) = relocked l.
Proof. unfold fs_unlock, held, relocked. simpl. by destruct (cpu_if l). Qed.
Lemma relocked_unlocked l : unlocked (relocked l).
Proof. done. Qed.
Lemma relocked_relocked l : relocked (relocked l) = relocked l.
Proof. done. Qed.

Lemma locked_pure {A} (body : ramfs -> A * ramfs) s :
  unlocked (lockst s) ->
  locked body s = Ret (fst (body (data s)), mk_fs (snd (body (data s))) (relocked (lockst s))).
Proof.
  intros H. unfold locked. rewrite lock_free by done. simpl. rewrite unlock_held.
  by destruct (body (data s)).
Qed.

Lemma lockedM_pure {A} (body : ramfs -> out (A * ramfs)) s r d :
  unlocked (lockst s) -> body (data s) = Ret (r, d) ->
  lockedM body s = Ret (r, mk_fs d (relocked (lockst s))).
Proof.
  intros H Hb. unfold lockedM. rewrite lock_free by done. simpl. rewrite Hb. simpl.
  by rewrite unlock_held.
Qed.

(** The sequential meaning of [touch_and_update]. *)
Definition update_body (f : fs_node -> fs_node) (nm : chars) (d : ramfs) : fs_result * ramfs :=
  match fs_find_child d (cwd d) nm with
  | Some _ => on_file f nm d
  | None =>
      let '(r, d1) := touch_body nm d in
      if bool_decide (r = FS_OK) then on_file f nm d1 else (r, d1)
  end.

Lemma touch_and_update_pure f nm s :
  unlocked (lockst s) ->
  touch_and_update f nm s (held (lockst s)) =
  Ret (fst (update_body f nm (data s)),
       mk_fs (snd (update_body f nm (data s))) (relocked (lockst s))).
Proof.
  intros H. unfold touch_and_update, update_body, fs_touch. rewrite unlock_held.
  destruct (fs_find_child _ _ _) as [i|].
  - by destruct (on_file _ _ _).
  - rewrite locked_pure by done. cbn [data lockst]. destruct (touch_body nm (data s)) as [r d1].
    cbn [fst snd mbind out_mbind data lockst]. rewrite lock_free by done.
    cbn [mbind out_mbind]. rewrite unlock_held, relocked_relocked.
    destruct (bool_decide (r = FS_OK)); [by destruct (on_file _ _ _) | done].
Qed.

(** ** Byte-array updates *)

Lemma length_blit c pos w :
  0 <= pos -> (Z.to_nat pos + length w <= length c)%nat -> length (blit c pos w) = length c.
Proof.
  intros H1 H2. unfold blit. rewrite !length_app, length_take, length_drop. lia.
Qed.

Lemma write_node_ok bytes n :
  Z.of_nat (length bytes) < FS_FILE_MAX -> arrays_ok n ->
  arrays_ok (write_node bytes n) /\
  content_len (write_node bytes n) = Z.of_nat (length bytes) /\
  content (write_node bytes n) !! length bytes = Some 0 /\
  take (length bytes) (content (write_node bytes n)) = bytes.
Proof.
  intros Hlen [Hn Hc]. unfold write_node, set_content. cbn [content content_len].
  assert (Hb : length (blit (content n) 0 bytes) = Z.to_nat FS_FILE_MAX).
  { rewrite length_blit; [done | lia | rewrite Hc; lia]. }
  split_and!; [split; [done | cbn [content]; by rewrite length_insert] | done | |].
  - apply list_lookup_insert_eq. lia.
  - rewrite take_insert_ge by lia. unfold blit. simpl.
    by rewrite take_app_le, take_ge by lia.
Qed.

Lemma write_node_file_ok bytes n :
  Z.of_nat (length bytes) < FS_FILE_MAX -> arrays_ok n -> file_ok (write_node bytes n).
Proof.
  intros Hlen Ha Ht. destruct (write_node_ok bytes n Hlen Ha) as (_ & Hl & Hz & _).
  rewrite Hl. rewrite Nat2Z.id. split; [lia | done].
Qed.

(** The bytes after an append: the old ones, a newline when there were any
    and there is room, then as much of the text as fits. *)
Definition appended (old text : chars) : chars :=
  let old' := if ((0 <? Z.of_nat (length old)) && (Z.of_nat (length old) <? FS_FILE_MAX - 1))
              then old ++ [10] else old in
  old' ++ take (Z.to_nat (FS_FILE_MAX - 1) - length old') (cstr text).

Lemma blit_app c w pos :
  0 <= pos -> (Z.to_nat pos + length w <= length c)%nat ->
  take (Z.to_nat pos + length w) (blit c pos w) = take (Z.to_nat pos) c ++ w.
Proof.
  intros H1 H2. unfold blit. rewrite app_assoc, take_app_le.
  - apply take_ge. rewrite length_app, length_take. lia.
  - rewrite length_app, length_take. lia.
Qed.

Lemma append_node_ok text n :
  arrays_ok n -> file_ok n -> type n = FS_TYPE_FILE ->
  arrays_ok (append_node text n) /\ file_ok (append_node text n) /\
  take (Z.to_nat (content_len (append_node text n))) (content (append_node text n)) =
  appended (take (Z.to_nat (content_len n)) (content n)) text.
Proof.
  intros [Hn Hc] Hf Ht. destruct (Hf Ht) as [Hl Hz]. unfold append_node, appended.
  set (pos := content_len n) in *.
  assert (Hol : length (take (Z.to_nat pos) (content n)) = Z.to_nat pos)
    by (rewrite length_take; lia).
  rewrite Hol, Z2Nat.id by lia.
  assert (Hgen : forall c p, length c = Z.to_nat FS_FILE_MAX -> 0 <= p < FS_FILE_MAX ->
    let w := take (Z.to_nat (FS_FILE_MAX - 1 - p)) (cstr text) in
    let n' := set_content (<[Z.to_nat (p + Z.of_nat (length w)) := 0]> (blit c p w))
                (p + Z.of_nat (length w)) n in
    arrays_ok n' /\ file_ok n' /\
    take (Z.to_nat (content_len n')) (content n') = take (Z.to_nat p) c ++ w).
  { intros c p Hlc Hp w n'.
    assert (Hw : (length w <= Z.to_nat (FS_FILE_MAX - 1 - p))%nat)
      by (unfold w; rewrite length_take; lia).
    assert (Hb : length (blit c p w) = Z.to_nat FS_FILE_MAX)
      by (rewrite length_blit; lia).
    unfold n', set_content, arrays_ok, file_ok. cbn [name content content_len type].
    split_and!.
    - done.
    - by rewrite length_insert.
    - intros _. split; [lia|]. apply list_lookup_insert_eq. lia.
    - rewrite take_insert_ge by lia.
      replace (Z.to_nat (p + Z.of_nat (length w))) with (Z.to_nat p + length w)%nat by lia.
      apply blit_app; lia. }
  destruct ((0 <? pos) && (pos <? FS_FILE_MAX - 1)) eqn:E.
  - apply andb_true_iff in E as [E1 E2].
    destruct (Hgen (<[Z.to_nat pos := 10]> (content n)) (pos + 1)) as (H1 & H2 & H3);
      [by rewrite length_insert | lia |].
    split_and!; auto. etransitivity; [exact H3|]. rewrite length_app, Hol. simpl length.
    f_equal; [|f_equal; lia].
    replace (Z.to_nat (pos + 1)) with (S (Z.to_nat pos)) by lia.
    erewrite take_S_r by (apply list_lookup_insert_eq; lia).
    by rewrite take_insert_ge by lia.
  - destruct (Hgen (content n) pos) as (H1 & H2 & H3); [done | lia |].
    split_and!; auto. etransitivity; [exact H3|]. f_equal. f_equal. lia.
Qed.

(** ** Creating a node *)

(** The slot after a creation: a live node named [nm] in directory [p]. *)
Definition created (nm : chars) (p : Z) (n n' : fs_node) : Prop :=
  type n' <> FS_TYPE_FREE /\ parent n' = p /\
  name n' = c_strcpy_truncate (name n) nm FS_NAME_MAX /\ arrays_ok n' /\ file_ok n'.

Lemma created_name nm p n n' :
  fs_is_valid_name nm = true -> created nm p n n' -> cstr (name n') = cstr nm.
Proof.
  intros Hv (_ & _ & -> & _ & _). apply valid_name_spec in Hv as (_ & _ & _ & Hl).
  by apply cstr_strcpy_fits.
Qed.

Lemma create_wf d nm idx F :
  wf d -> fs_is_valid_name nm = true -> fs_find_child d (cwd d) nm = None ->
  fs_alloc_node d = Some idx -> created nm (cwd d) (nd d idx) (F (nd d idx)) ->
  wf (upd_node idx F d) /\
  (forall j, nd (upd_node idx F d) j = if decide (j = idx) then F (nd d idx) else nd d j) /\
  ~ live d idx /\ live (upd_node idx F d) idx.
Proof.
  intros Hwf Hv Hnone Ha Hc. apply alloc_Some in Ha as [Hi Hfree].
  assert (Hnd : forall j, nd (upd_node idx F d) j = if decide (j = idx) then F (nd d idx) else nd d j).
  { intros j. apply upd_node_nd. rewrite (wf_len d Hwf). done. }
  assert (Hidx : nd (upd_node idx F d) idx = F (nd d idx)) by (rewrite Hnd; by rewrite decide_True).
  pose proof (created_name _ _ _ _ Hv Hc) as Hnm.
  destruct Hc as (Ht & Hp & _ & Harr & Hfile).
  split_and!; auto.
  - apply (wf_create d _ idx); rewrite ?Hidx; auto.
    + rewrite upd_node_len. apply Hwf.
    + intros j Hj. rewrite Hnd. by rewrite decide_False.
    + rewrite (valid_name_ext _ nm); done.
    + intros j Hl Hpj. rewrite Hnm. by apply (proj1 (find_child_None _ _ _) Hnone).
  - intros [_ ?]. done.
  - split; [done|]. by rewrite Hidx.
Qed.

(** Lookups after a creation: one new entry, everything else as before. *)
Lemma create_lookup d nm idx F p nm' :
  wf d -> fs_is_valid_name nm = true -> fs_find_child d (cwd d) nm = None ->
  fs_alloc_node d = Some idx -> created nm (cwd d) (nd d idx) (F (nd d idx)) ->
  fs_find_child (upd_node idx F d) p nm' =
  if decide (p = cwd d /\ cstr nm' = cstr nm) then Some idx else fs_find_child d p nm'.
Proof.
  intros Hwf Hv Hnone Ha Hc. destruct (create_wf d nm idx F) as (Hwf' & Hnd & Hnl & Hl); auto.
  pose proof (created_name _ _ _ _ Hv Hc) as Hnm. destruct Hc as (Ht & Hp & _ & _ & _).
  assert (Hidx : nd (upd_node idx F d) idx = F (nd d idx)) by (rewrite Hnd; by rewrite decide_True).
  case_decide as E.
  - destruct E as [-> E]. apply find_child_iff; [done|]. rewrite Hidx. split_and!; congruence || done.
  - assert (Hlive : forall j, j <> idx -> live (upd_node idx F d) j <-> live d j).
    { intros j Hj. unfold live. rewrite Hnd. by rewrite decide_False. }
    destruct (fs_find_child d p nm') as [i|] eqn:Ef.
    + apply find_child_Some in Ef as (Hli & Hpi & Hni). assert (i <> idx) by (intros ->; done).
      apply find_child_iff; [done|]. rewrite Hlive, Hnd, decide_False by done. by split_and!.
    + apply find_child_None. intros i Hli Hpi Hni.
      destruct (decide (i = idx)) as [->|Hne].
      * rewrite Hidx in *. apply E. split; congruence.
      * rewrite Hnd, decide_False in Hpi, Hni by done. apply Hlive in Hli; [|done].
        by apply (proj1 (find_child_None _ _ _) Ef i).
Qed.

Definition dir_slot (nm : chars) (p : Z) (n : fs_node) : fs_node :=
  mk_node FS_TYPE_DIR (c_strcpy_truncate (name n) nm FS_NAME_MAX) p (content n) (content_len n).
Definition file_slot (nm : chars) (p : Z) (n : fs_node) : fs_node :=
  mk_node FS_TYPE_FILE (c_strcpy_truncate (name n) nm FS_NAME_MAX) p (<[0%nat := 0]> (content n)) 0.

Lemma created_dir d nm i :
  wf d -> fs_alloc_node d = Some i -> created nm (cwd d) (nd d i) (dir_slot nm (cwd d) (nd d i)).
Proof.
  intros Hwf Ha. apply alloc_Some in Ha as [Hi _]. destruct (wf_arr d Hwf i Hi) as [Hn Hc].
  unfold created, dir_slot, arrays_ok, file_ok. cbn [type name parent content content_len].
  split_and!; try done. apply c_strcpy_truncate_length; [unfold FS_NAME_MAX; lia | done].
Qed.

Lemma created_file d nm i :
  wf d -> fs_alloc_node d = Some i -> created nm (cwd d) (nd d i) (file_slot nm (cwd d) (nd d i)).
Proof.
  intros Hwf Ha. apply alloc_Some in Ha as [Hi _]. destruct (wf_arr d Hwf i Hi) as [Hn Hc].
  unfold created, file_slot, arrays_ok, file_ok. cbn [type name parent content content_len].
  split_and!; try done.
  - apply c_strcpy_truncate_length; [unfold FS_NAME_MAX; lia | done].
  - by rewrite length_insert.
  - intros _. split; [unfold FS_FILE_MAX; lia|]. apply list_lookup_insert_eq.
    rewrite Hc. unfold FS_FILE_MAX. lia.
Qed.

(** The branches of [fs_mkdir] and [fs_touch]; [slot] is what the chosen
    free slot becomes. *)
Definition creates (slot : chars -> Z -> fs_node -> fs_node) (nm : chars) (d : ramfs)
  (r : fs_result) (d' : ramfs) : Prop :=
  (fs_is_valid_name nm = false /\ r = FS_ERR_INVALID_NAME /\ d' = d) \/
  (fs_is_valid_name nm = true /\ fs_find_child d (cwd d) nm <> None /\
   r = FS_ERR_ALREADY_EXISTS /\ d' = d) \/
  (fs_is_valid_name nm = true /\ fs_find_child d (cwd d) nm = None /\
   fs_alloc_node d = None /\ r = FS_ERR_NO_SPACE /\ d' = d) \/
  (exists idx, fs_is_valid_name nm = true /\ fs_find_child d (cwd d) nm = None /\
   fs_alloc_node d = Some idx /\ r = FS_OK /\ d' = upd_node idx (slot nm (cwd d)) d).

Lemma mkdir_creates nm d : creates dir_slot nm d (fst (mkdir_body nm d)) (snd (mkdir_body nm d)).
Proof.
  unfold mkdir_body, creates. destruct (fs_is_valid_name nm); cbn [negb]; [|by left].
  destruct (fs_find_child d (cwd d) nm) eqn:E; [right; left; by split_and!|].
  destruct (fs_alloc_node d) as [idx|] eqn:Ea; [|right; right; left; by split_and!].
  right; right; right. exists idx. split_and!; auto. cbn [fst snd].
  rewrite !upd_node_upd. done.
Qed.

Lemma touch_creates nm d : creates file_slot nm d (fst (touch_body nm d)) (snd (touch_body nm d)).
Proof.
  unfold touch_body, creates. destruct (fs_is_valid_name nm); cbn [negb]; [|by left].
  destruct (fs_find_child d (cwd d) nm) eqn:E; [right; left; by split_and!|].
  destruct (fs_alloc_node d) as [idx|] eqn:Ea; [|right; right; left; by split_and!].
  right; right; right. exists idx. split_and!; auto. cbn [fst snd].
  rewrite !upd_node_upd. done.
Qed.

Lemma creates_wf slot nm d r d' :
  (forall d i, wf d -> fs_alloc_node d = Some i ->
     created nm (cwd d) (nd d i) (slot nm (cwd d) (nd d i))) ->
  wf d -> creates slot nm d r d' -> wf d'.
Proof.
  intros Hs Hwf [(_ & _ & ->)|[(_ & _ & _ & ->)|[(_ & _ & _ & _ & ->)|(i & Hv & Hn & Ha & _ & ->)]]];
    try done. apply (create_wf d nm i); auto.
Qed.

Lemma mkdir_wf nm d : wf d -> wf (snd (mkdir_body nm d)).
Proof.
  intros H. eapply creates_wf; [|done|apply mkdir_creates]. intros. by apply created_dir.
Qed.
Lemma touch_wf nm d : wf d -> wf (snd (touch_body nm d)).
Proof.
  intros H. eapply creates_wf; [|done|apply touch_creates]. intros. by apply created_file.
Qed.

(** ** Files, renaming, navigation *)

Lemma upd_content_wf d idx f :
  wf d -> (idx < FS_MAX_NODES)%nat -> type (nd d idx) = FS_TYPE_FILE ->
  (forall n, type (f n) = type n /\ parent (f n) = parent n /\ name (f n) = name n) ->
  arrays_ok (f (nd d idx)) -> file_ok (f (nd d idx)) ->
  wf (upd_node idx f d).
Proof.
  intros Hwf Hi Ht Hf Harr Hfile.
  assert (Hnd : forall j, nd (upd_node idx f d) j = if decide (j = idx) then f (nd d idx) else nd d j).
  { intros j. apply upd_node_nd. rewrite (wf_len d Hwf). done. }
  assert (Hnm : forall j, name (nd (upd_node idx f d) j) = name (nd d j)).
  { intros j. rewrite Hnd. case_decide; subst; [apply Hf | done]. }
  apply (wf_reshape d); auto.
  - rewrite upd_node_len. apply Hwf.
  - intros i. rewrite Hnd. case_decide; subst; [split; apply Hf | done].
  - intros i Hi'. rewrite Hnd. case_decide; [done | by apply (wf_arr d Hwf)].
  - intros i Hl Hne. rewrite Hnm. by apply (wf_name d Hwf).
  - intros i j. rewrite !Hnm. apply (wf_uniq d Hwf).
  - apply (wf_cwd d Hwf).
  - intros i Hl. rewrite Hnd. case_decide; [done | by apply (wf_file d Hwf)].
Qed.

(** The content updates of the file system keep type, parent and name, and
    turn good files into good files. *)
Definition content_update (f : fs_node -> fs_node) : Prop :=
  (forall n, type (f n) = type n /\ parent (f n) = parent n /\ name (f n) = name n) /\
  (forall n, arrays_ok n -> file_ok n -> type n = FS_TYPE_FILE ->
     arrays_ok (f n) /\ file_ok (f n)).

Lemma write_node_update bytes :
  Z.of_nat (length bytes) < FS_FILE_MAX -> content_update (write_node bytes).
Proof.
  intros H. split; [done|]. intros n Ha _ _.
  split; [by apply write_node_ok | by apply write_node_file_ok].
Qed.

Lemma append_node_update text : content_update (append_node text).
Proof.
  split.
  - intros n. unfold append_node. by destruct (_ && _).
  - intros n Ha Hf Ht. destruct (append_node_ok text n Ha Hf Ht) as (? & ? & _). auto.
Qed.

Lemma on_file_wf f nm d : content_update f -> wf d -> wf (snd (on_file f nm d)).
Proof.
  intros [Hf1 Hf2] Hwf. unfold on_file. destruct (fs_find_child _ _ _) as [i|] eqn:E; [|done].
  apply find_child_Some in E as (Hl & _ & _).
  destruct (is_file (nd d i)) eqn:Et; cbn [negb snd]; [|done]. apply is_file_true in Et.
  destruct (Hf2 (nd d i)) as [? ?]; [by apply (wf_arr d Hwf), Hl | by apply (wf_file d Hwf) | done |].
  apply upd_content_wf; auto. apply Hl.
Qed.

Lemma update_body_wf f nm d : content_update f -> wf d -> wf (snd (update_body f nm d)).
Proof.
  intros Hf Hwf. unfold update_body. destruct (fs_find_child _ _ _); [by apply on_file_wf|].
  pose proof (touch_wf nm d Hwf) as Ht. destruct (touch_body nm d) as [r d1]. simpl in Ht.
  destruct (bool_decide _); [by apply on_file_wf | done].
Qed.

Lemma cd_wf nm d : wf d -> wf (snd (cd_body nm d)).
Proof.
  intros Hwf. unfold cd_body. destruct (c_streq nm _); [done|].
  destruct (c_streq nm _).
  { cbn [snd]. destruct (wf_cwd d Hwf) as (j & Hj & Hd). rewrite Hj, node_at_nat.
    destruct (Z.eqb_spec (parent (nd d j)) (-1)) as [|Hne]; [done|].
    destruct (decide (j = 0%nat)) as [->|Hj0]; [by destruct (wf_root d Hwf)|].
    destruct (wf_par d Hwf j (dir_live _ _ Hd) Hj0) as (p & -> & Hp). by apply wf_set_cwd. }
  destruct (c_streq nm _).
  { apply (wf_set_cwd d 0); auto with kernel. }
  destruct (fs_find_child _ _ _) as [i|] eqn:E; [|done].
  destruct (is_dir (nd d i)) eqn:Ed; cbn [negb snd]; [|done].
  apply find_child_Some in E as ([Hi _] & _ & _). apply is_dir_true in Ed.
  by apply wf_set_cwd.
Qed.

(** What a rename does to the slot: only the name array changes. *)
Lemma mv_wf src dst d : wf d -> wf (snd (mv_body src dst d)).
Proof.
  intros Hwf. unfold mv_body. destruct (fs_find_child d (cwd d) src) as [i|] eqn:Es; [|done].
  destruct (fs_is_valid_name dst) eqn:Hv; cbn [negb]; [|done].
  destruct (fs_find_child d (cwd d) dst) as [|] eqn:Ed; [done|]. cbn [snd].
  apply find_child_Some in Es as (Hl & Hp & _). pose proof (proj1 (find_child_None _ _ _) Ed) as Hfresh.
  set (F := fun n => set_name _ n).
  assert (Hnd : forall j, nd (upd_node i F d) j = if decide (j = i) then F (nd d i) else nd d j).
  { intros j. apply upd_node_nd. rewrite (wf_len d Hwf). apply Hl. }
  assert (Hlen : (length (cstr dst) < FS_NAME_MAX)%nat)
    by (apply valid_name_spec in Hv; tauto).
  assert (Hnm : cstr (name (F (nd d i))) = cstr dst) by (by apply cstr_strcpy_fits).
  apply (wf_reshape d); auto.
  - rewrite upd_node_len. apply Hwf.
  - intros j. rewrite Hnd. by case_decide; subst.
  - intros j Hj. rewrite Hnd. case_decide; [|by apply (wf_arr d Hwf)].
    destruct (wf_arr d Hwf i (proj1 Hl)) as [Hn Hc]. split; [|done].
    apply c_strcpy_truncate_length; [unfold FS_NAME_MAX; lia | done].
  - intros j Hlj Hj. rewrite Hnd. case_decide; [|by apply (wf_name d Hwf)].
    by rewrite (valid_name_ext _ dst).
  - intros j k Hlj Hlk Hpar. rewrite !Hnd. repeat case_decide; subst; auto; rewrite ?Hnm.
    + intros Heq. exfalso. apply (Hfresh k); congruence.
    + intros Heq. exfalso. apply (Hfresh j); congruence.
    + by apply (wf_uniq d Hwf).
  - apply (wf_cwd d Hwf).
  - intros j Hlj. rewrite Hnd. case_decide; subst; [|by apply (wf_file d Hwf)].
    apply (wf_file d Hwf i Hl).
Qed.

Lemma cp_wf src dst d : wf d -> wf (snd (cp_body src dst d)).
Proof.
  intros Hwf. unfold cp_body. destruct (fs_find_child d (cwd d) src) as [i|] eqn:Es; [|done].
  destruct (is_file (nd d i)) eqn:Ef; cbn [negb]; [|done].
  destruct (fs_is_valid_name dst) eqn:Hv; cbn [negb]; [|done].
  destruct (fs_find_child d (cwd d) dst) as [|] eqn:Ed; [done|].
  destruct (fs_alloc_node d) as [k|] eqn:Ea; [|done]. cbn [snd]. rewrite !upd_node_upd.
  apply find_child_Some in Es as (Hl & _ & _). apply is_file_true in Ef.
  destruct (wf_file d Hwf i Hl Ef) as [Hlen _].
  set (bytes := take _ _).
  assert (Hb : Z.of_nat (length bytes) < FS_FILE_MAX) by (unfold bytes; rewrite length_take; lia).
  pose proof (created_dir d dst k Hwf Ea) as (_ & _ & _ & [Hn Hc] & _).
  apply (create_wf d dst k); auto. unfold created, compose.
  assert (Ha : forall t p, arrays_ok (mk_node t (c_strcpy_truncate (name (nd d k)) dst FS_NAME_MAX)
     p (content (nd d k)) (content_len (nd d k)))) by (intros; by split).
  split_and!; try done.
  - apply write_node_ok; [done | apply Ha].
  - apply write_node_file_ok; [done | apply Ha].
Qed.

(** ** Removing a subtree *)

Definition freed_node (n : fs_node) : fs_node :=
  mk_node FS_TYPE_FREE (<[0%nat := 0]> (name n)) (-1) (<[0%nat := 0]> (content n)) 0.

Lemma free_slot_upd i d : fs_free_slot i d = upd_node i freed_node d.
Proof. unfold fs_free_slot. by rewrite !upd_node_upd. Qed.

Lemma free_slots_nd l d :
  length (nodes d) = FS_MAX_NODES -> in_table l ->
  let d' := foldl (fun d i => fs_free_slot i d) d l in
  length (nodes d') = FS_MAX_NODES /\ cwd d' = cwd d /\
  (forall j, j ∉ l -> nd d' j = nd d j) /\
  (forall j, (j < FS_MAX_NODES)%nat -> arrays_ok (nd d j) ->
     (j ∈ l -> type (nd d' j) = FS_TYPE_FREE) /\ arrays_ok (nd d' j)).
Proof.
  revert d. induction l as [|i l IH]; intros d Hlen Htab; cbn [foldl].
  - split_and!; auto. intros j _ Ha. split; [by intros ?%elem_of_nil | done].
  - assert (Hi : (i < FS_MAX_NODES)%nat) by (apply Htab; by left).
    rewrite free_slot_upd.
    assert (Hnd : forall j, nd (upd_node i freed_node d) j =
      if decide (j = i) then freed_node (nd d i) else nd d j)
      by (intros j; apply upd_node_nd; by rewrite Hlen).
    assert (Hfa : forall n, arrays_ok n -> arrays_ok (freed_node n)).
    { intros n [H1 H2]. split; cbn [freed_node name content]; by rewrite length_insert. }
    destruct (IH (upd_node i freed_node d)) as (H1 & H2 & H3 & H4);
      [by rewrite upd_node_len | intros x Hx; apply Htab; by right |].
    split_and!; auto.
    + intros j Hj. apply not_elem_of_cons in Hj as [Hji Hjl].
      rewrite H3 by done. rewrite Hnd. by rewrite decide_False.
    + intros j Hj Ha.
      assert (Ha' : arrays_ok (nd (upd_node i freed_node d) j)).
      { rewrite Hnd. case_decide; subst; auto. }
      destruct (H4 j Hj Ha') as [H5 H6]. split; [|done].
      intros [->|Hin]%elem_of_cons; [|by apply H5].
      destruct (decide (i ∈ l)) as [Hin|Hni]; [by apply H5|].
      rewrite H3 by done. rewrite Hnd. by rewrite decide_True.
Qed.

(** The parent of [r] is not below [r]: depths grow along chains. *)
Lemma parent_not_desc d r p :
  wf d -> live d r -> r <> 0%nat -> parent (nd d r) = Z.of_nat p -> ~ desc d r p.
Proof.
  intros Hwf Hl Hr Hp H. destruct (wf_depth d Hwf r Hl) as [m Hm].
  destruct (wf_par d Hwf r Hl Hr) as (p' & Hp' & Hpd). rewrite Hp in Hp'.
  apply Nat2Z.inj in Hp' as <-.
  assert (Hge : forall i, desc d r i -> live d i -> exists m', depth d i m' /\ (m <= m')%nat).
  { clear -Hwf Hm. induction 1 as [|i j Hli Hpi _ IH]; intros Hli'; [by exists m|].
    destruct (decide (i = 0%nat)) as [->|Hi0]; [destruct (wf_root d Hwf); lia|].
    destruct (wf_par d Hwf i Hli Hi0) as (j' & Hj' & Hjd). rewrite Hpi in Hj'.
    apply Nat2Z.inj in Hj' as <-.
    destruct (IH (dir_live _ _ Hjd)) as (m' & Hm' & Hle). exists (S m'). split; [|lia].
    by econstructor. }
  destruct (Hge p H (dir_live _ _ Hpd)) as (m' & Hm' & Hle).
  pose proof (depth_fun d r m (S m') Hm ltac:(by econstructor)). lia.
Qed.

Lemma rm_subtree_spec d r :
  wf d -> live d r -> r <> 0%nat ->
  exists d', fs_rm_subtree r d = Ret (FS_OK, d') /\ wf d' /\
    (forall i, (i < FS_MAX_NODES)%nat ->
       (desc d r i -> type (nd d' i) = FS_TYPE_FREE) /\ (~ desc d r i -> nd d' i = nd d i)) /\
    (exists c, cwd d = Z.of_nat c /\
       (desc d r c -> cwd d' = parent (nd d r)) /\ (~ desc d r c -> cwd d' = cwd d)).
Proof.
  intros Hwf Hl Hr. unfold fs_rm_subtree.
  rewrite (proj2 (Nat.leb_gt _ _)) by apply Hl.
  rewrite (proj2 (is_free_false _)) by apply Hl.
  rewrite (proj2 (Z.eqb_neq _ _)) by (unfold FS_ROOT_INDEX; lia).
  destruct (bfs_collect_spec d r (S FS_MAX_NODES) 0 [r]
    (<[r := true]> (replicate FS_MAX_NODES false))) as (q & Hq & Hnd & Htab & Hdesc); auto.
  { apply NoDup_singleton. }
  { intros x Hx%list_elem_of_singleton. subst. apply Hl. }
  { pose proof (seen_ok_snoc [] (replicate FS_MAX_NODES false) r) as H. apply H; [|apply Hl].
    split; [apply length_replicate|]. intros i Hi. rewrite lookup_total_replicate_2 by done.
    split; [done | by intros ?%elem_of_nil]. }
  { by apply list_elem_of_singleton. }
  { intros x Hx%list_elem_of_singleton. subst. constructor. }
  { simpl. lia. }
  { lia. }
  rewrite Hq. cbn [mbind out_mbind].
  destruct (wf_cwd d Hwf) as (c & Hc & Hcd). pose proof (dir_live _ _ Hcd) as Hcl.
  destruct (wf_depth d Hwf c Hcl) as [k Hk].
  pose proof (depth_bound d c k Hwf Hcl Hk) as Hkb.
  destruct (walk_up_spec d r c k (S (S FS_MAX_NODES))) as (b & Hb & Hbd); auto; [lia|].
  unfold fs_cwd_in_subtree. rewrite Hc, Hb. cbn [mbind out_mbind].
  destruct (wf_par d Hwf r Hl Hr) as (p & Hp & Hpd). rewrite Hp.
  rewrite (proj2 (Z.leb_le 0 _)) by lia.
  set (d1 := if b then _ else d).
  assert (Hd1 : nodes d1 = nodes d) by (unfold d1; by destruct b).
  destruct (free_slots_nd (reverse q) d1) as (H1 & H2 & H3 & H4).
  { rewrite Hd1. apply Hwf. }
  { intros x Hx. apply Htab. by apply elem_of_reverse. }
  eexists. split; [reflexivity|]. set (d' := foldl _ _ _) in *.
  assert (Hin : forall x, x ∈ reverse q <-> desc d r x) by (intros x; by rewrite elem_of_reverse).
  assert (Hclosed : forall i j, live d i -> parent (nd d i) = Z.of_nat j -> desc d r j -> desc d r i)
    by (intros; by econstructor).
  assert (Hpn : ~ desc d r p) by (by eapply parent_not_desc).
  assert (Hcwd' : cwd d' = if b then Z.of_nat p else cwd d) by (rewrite H2; unfold d1; by destruct b).
  split_and!.
  - apply (wf_free d d' (desc d r)); auto.
    + intros i. rewrite <- Hdesc. destruct (decide (i ∈ q)); auto.
    + intros H0. apply Hr. inversion H0 as [|? ? ? Hx]; [done|]. destruct (wf_root d Hwf). lia.
    + intros i Hi Hdi. unfold d' in *. apply Hin in Hdi. rewrite Hd1 in H4.
      destruct (H4 i Hi) as [H5 H6]; [by apply (wf_arr d Hwf)|]. auto.
    + intros i Hi Hdi. rewrite <- Hin in Hdi. rewrite H3 by done. by rewrite Hd1.
    + rewrite Hcwd'. destruct b; [by exists p|]. exists c. split_and!; auto.
      intros Hx. by apply Hbd in Hx.
  - intros i Hi. split.
    + intros Hdi. apply Hin in Hdi. rewrite Hd1 in H4.
      destruct (H4 i Hi) as [H5 H6]; [by apply (wf_arr d Hwf)|]. auto.
    + intros Hdi. rewrite <- Hin in Hdi. rewrite H3 by done. by rewrite Hd1.
  - exists c. rewrite Hcwd'. split_and!; auto.
    + intros Hx. apply Hbd in Hx as ->. done.
    + intros Hx. destruct b; [by destruct Hx; apply Hbd | done].
Qed.

(** A name found in the current directory is never the root. *)
Lemma child_not_root d nm i :
  wf d -> fs_find_child d (cwd d) nm = Some i -> live d i /\ i <> 0%nat.
Proof.
  intros Hwf H. apply find_child_Some in H as (Hl & Hp & _). split; [done|]. intros ->.
  destruct (wf_root d Hwf) as [_ Hr]. destruct (wf_cwd d Hwf) as (c & Hc & _). lia.
Qed.

Lemma rm_rf_ret nm d : wf d -> exists r d', rm_rf_body nm d = Ret (r, d') /\ wf d'.
Proof.
  intros Hwf. unfold rm_rf_body. destruct (rm_bad_name nm); [eauto|].
  destruct (fs_find_child _ _ _) as [i|] eqn:E; [|eauto].
  destruct (child_not_root d _ i Hwf E) as [Hl Hi].
  destruct (rm_subtree_spec d i Hwf Hl Hi) as (d' & -> & Hwf' & _). eauto.
Qed.

Lemma rm_ret nm d : wf d -> exists r d', rm_body nm d = Ret (r, d') /\ wf d'.
Proof.
  intros Hwf. unfold rm_body. destruct (rm_bad_name nm); [eauto|].
  destruct (fs_find_child _ _ _) as [i|] eqn:E; [|eauto].
  destruct (is_dir _ && _); [eauto|].
  destruct (child_not_root d _ i Hwf E) as [Hl Hi].
  destruct (rm_subtree_spec d i Hwf Hl Hi) as (d' & -> & Hwf' & _). eauto.
Qed.

(** ** Paths *)

(** The components of a path, empty ones included. *)
Fixpoint comps (p : chars) : list chars :=
  match p with
  | [] => []
  | c :: p' =>
      if c =? 47 then [] :: comps p'
      else match comps p' with h :: t => (c :: h) :: t | [] => [[c]] end
  end.

Lemma split_slash_comps p a b :
  p <> [] -> split_slash p = (a, b) ->
  comps p = a :: comps (skip_slash b) /\ (length a + length b = length p)%nat /\
  (length (skip_slash b) < length p)%nat.
Proof.
  revert a b. induction p as [|c p IH]; intros a b Hp H; [done|]. simpl in *.
  destruct (Z.eqb_spec c 47) as [->|Hc].
  - injection H as <- <-. simpl. split_and!; lia || done.
  - destruct (split_slash p) as [a' b'] eqn:E. injection H as <- <-.
    destruct (decide (p = [])) as [->|Hne]; [injection E as <- <-; simpl; split_and!; lia || done|].
    destruct (IH a' b' Hne eq_refl) as (-> & Hl & Hs). simpl. split_and!; lia || done.
Qed.

(** Existing nodes keep their slots and contents. *)
Definition extends (d d' : ramfs) : Prop := forall i, live d i -> live d' i /\ nd d' i = nd d i.

Lemma extends_refl d : extends d d.
Proof. by intros i. Qed.
Lemma extends_trans d1 d2 d3 : extends d1 d2 -> extends d2 d3 -> extends d1 d3.
Proof.
  intros H1 H2 i Hi. destruct (H1 i Hi) as [Hl E]. destruct (H2 i Hl) as [Hl' E'].
  split; [done | congruence].
Qed.

Lemma extends_find d d' p nm i :
  wf d' -> extends d d' -> fs_find_child d p nm = Some i -> fs_find_child d' p nm = Some i.
Proof.
  intros Hwf' He H. apply find_child_Some in H as (Hl & Hp & Hn).
  apply find_child_iff; [done|]. destruct (He i Hl) as [Hl' ->]. done.
Qed.

Lemma mkdir_extends nm d : wf d -> extends d (snd (mkdir_body nm d)).
Proof.
  intros Hwf i Hi.
  destruct (mkdir_creates nm d) as [(_ & _ & ->)|[(_ & _ & _ & ->)|[(_ & _ & _ & _ & ->)|
    (k & Hv & Hn & Ha & _ & ->)]]]; try done.
  destruct (create_wf d nm k (dir_slot nm (cwd d))) as (_ & Hnd & Hnl & _); auto;
    [by apply created_dir|].
  assert (i <> k) by (intros ->; done).
  unfold live. rewrite Hnd, decide_False by done. done.
Qed.

(** Follow named components from node [i]; empty components are skipped. *)
Fixpoint walk (d : ramfs) (i : nat) (cs : list chars) : option nat :=
  match cs with
  | [] => Some i
  | [] :: cs' => walk d i cs'
  | c :: cs' =>
      match fs_find_child d (Z.of_nat i) c with
      | Some j => walk d j cs'
      | None => None
      end
  end.

Lemma mkdir_body_ok nm d :
  fst (mkdir_body nm d) = FS_OK -> wf d ->
  exists i, fs_find_child (snd (mkdir_body nm d)) (cwd d) nm = Some i /\
    cwd (snd (mkdir_body nm d)) = cwd d /\ dir_node (snd (mkdir_body nm d)) i.
Proof.
  intros Hok Hwf.
  destruct (mkdir_creates nm d) as [(_ & E & _)|[(_ & _ & E & _)|[(_ & _ & _ & E & _)|
    (k & Hv & Hn & Ha & _ & ->)]]]; try congruence.
  pose proof (created_dir d nm k Hwf Ha) as Hc.
  destruct (create_wf d nm k (dir_slot nm (cwd d))) as (_ & Hnd & _ & Hl); auto.
  exists k. split_and!; auto.
  - cbn [snd]. rewrite (create_lookup d nm k) by done. by rewrite decide_True.
  - split; [apply Hl|]. rewrite Hnd. by rewrite decide_True.
Qed.

Lemma extends_dir d d' j : extends d d' -> dir_node d j -> dir_node d' j.
Proof.
  intros He Hj. destruct (He j (dir_live _ _ Hj)) as [Hl E]. split; [apply Hl|].
  rewrite E. apply Hj.
Qed.

(** What [fs_mkdir_p] leaves behind when it stops with result [r]. *)
Definition mkdir_p_post (s : fs_state) (saved : Z) (c : nat) (p : chars)
  (r : fs_result) (s' : fs_state) : Prop :=
  wf (data s') /\ unlocked (lockst s') /\ cpu_if (lockst s') = cpu_if (lockst s) /\
  cwd (data s') = saved /\ extends (data s) (data s') /\
  (r = FS_OK -> exists j, walk (data s') c (comps p) = Some j /\ dir_node (data s') j).

Definition restore (saved : Z) (s : fs_state) : fs_state :=
  mk_fs (set_cwd saved (data s)) (lockst s).

(** Restoring the directory and reporting an error. *)
Lemma mkdir_p_stop s s' saved c p r :
  wf (data s') -> unlocked (lockst s') -> cpu_if (lockst s') = cpu_if (lockst s) ->
  extends (data s) (data s') -> (exists j, saved = Z.of_nat j /\ dir_node (data s) j) ->
  r <> FS_OK -> mkdir_p_post s saved c p r (restore saved s').
Proof.
  intros Hwf Hul Hif He (j & -> & Hj) Hr. unfold restore.
  split_and!; auto; [|done]. apply wf_set_cwd; [done|]. by eapply extends_dir.
Qed.

(** One component of the path: it exists or has just been created as [idx]. *)
Lemma mkdir_p_descend fuel saved p s s1 c x rest idx :
  (forall p s c, wf (data s) -> unlocked (lockst s) -> cwd (data s) = Z.of_nat c ->
     (exists j, saved = Z.of_nat j /\ dir_node (data s) j) ->
     Forall (fun x => (length x < FS_NAME_MAX)%nat) (comps p) -> (length p <= fuel)%nat ->
     exists r s', mkdir_p_loop fuel saved p s = Ret (r, s') /\ mkdir_p_post s saved c p r s') ->
  wf (data s1) -> unlocked (lockst s1) -> cpu_if (lockst s1) = cpu_if (lockst s) ->
  extends (data s) (data s1) -> (exists j, saved = Z.of_nat j /\ dir_node (data s) j) ->
  comps p = x :: comps rest -> x <> [] -> (length rest <= fuel)%nat ->
  Forall (fun x => (length x < FS_NAME_MAX)%nat) (comps p) ->
  fs_find_child (data s1) (Z.of_nat c) x = Some idx ->
  exists r s',
    (if negb (is_dir (nodes (data s1) !!! idx)) then Ret (FS_ERR_NOT_A_DIRECTORY, restore saved s1)
     else mkdir_p_loop fuel saved rest (mk_fs (set_cwd (Z.of_nat idx) (data s1)) (lockst s1)))
    = Ret (r, s') /\ mkdir_p_post s saved c p r s'.
Proof.
  intros IH Hwf Hul Hif He Hsav Hcs Hx Hlen Hall Hfind.
  destruct (is_dir (nd (data s1) idx)) eqn:Ed; cbn [negb];
    [|eexists _, _; split; [reflexivity | by apply mkdir_p_stop]].
  apply is_dir_true in Ed. pose proof Hfind as Hf2. apply find_child_Some in Hf2 as ([Hi _] & _ & _).
  destruct (IH rest (mk_fs (set_cwd (Z.of_nat idx) (data s1)) (lockst s1)) idx)
    as (r & s' & Hrun & Hwf' & Hul' & Hif' & Hcwd' & He' & Hw); auto.
  - by apply wf_set_cwd.
  - destruct Hsav as (j & -> & Hj). exists j. split; [done|]. by apply (extends_dir (data s)).
  - rewrite Hcs in Hall. by inversion Hall.
  - exists r, s'. split; [done|]. cbn [lockst data] in *.
    assert (He1 : extends (data s1) (data s')) by exact He'.
    split_and!; auto; [congruence | by eapply extends_trans |].
    intros Hr. rewrite Hcs. destruct x as [|y x]; [done|]. cbn [walk].
    rewrite (extends_find (data s1) (data s') _ _ idx) by done. auto.
Qed.

Lemma mkdir_p_loop_spec fuel saved p s c :
  wf (data s) -> unlocked (lockst s) -> cwd (data s) = Z.of_nat c ->
  (exists j, saved = Z.of_nat j /\ dir_node (data s) j) ->
  Forall (fun x => (length x < FS_NAME_MAX)%nat) (comps p) -> (length p <= fuel)%nat ->
  exists r s', mkdir_p_loop fuel saved p s = Ret (r, s') /\ mkdir_p_post s saved c p r s'.
Proof.
  revert p s c. induction fuel as [|fuel IH]; intros p s c Hwf Hul Hcwd Hsav Hall Hf.
  all: destruct p as [|z p].
  1, 3: destruct Hsav as (j & -> & Hj); eexists _, _; split; [reflexivity|];
    (split_and!; [by apply wf_set_cwd | done | done | done | done |]); intros _; exists c; split; [done|];
    destruct (wf_cwd _ Hwf) as (c' & Hc' & Hd); rewrite Hcwd in Hc';
    apply Nat2Z.inj in Hc' as <-; exact Hd.
  { simpl in Hf. lia. }
  cbn [mkdir_p_loop]. destruct (split_slash (z :: p)) as [x rest] eqn:Es.
  destruct (split_slash_comps (z :: p) x rest ltac:(discriminate) Es) as (Hcs & _ & Hlen). cbn [length] in *.
  assert (Hx : (length x < FS_NAME_MAX)%nat) by (rewrite Hcs in Hall; by inversion Hall).
  rewrite (proj2 (Nat.leb_gt _ _)) by done. rewrite Hcwd.
  destruct (decide (x = [])) as [->|Hne].
  { destruct (IH (skip_slash rest) s c) as (r & s' & Hrun & Hpost); auto;
      [rewrite Hcs in Hall; by inversion Hall | lia |].
    exists r, s'. split; [done|]. unfold mkdir_p_post. by rewrite Hcs. }
  destruct x as [|y x]; [done|]. fold (restore saved s).
  destruct (fs_find_child (data s) (Z.of_nat c) (y :: x)) as [idx|] eqn:Ef.
  { eapply (mkdir_p_descend fuel saved (z :: p) s s); eauto using extends_refl. lia. }
  unfold fs_mkdir. rewrite locked_pure by done. cbn [mbind out_mbind data lockst].
  pose proof (mkdir_wf (y :: x) _ Hwf) as Hwf1. pose proof (mkdir_extends (y :: x) _ Hwf) as He1.
  pose proof (mkdir_body_ok (y :: x) (data s)) as Hmk. rewrite Hcwd in Hmk.
  set (m := mkdir_body (y :: x) (data s)) in *.
  case_bool_decide as Hr; [|eexists _, _; split; [reflexivity|];
    by apply (mkdir_p_stop s (mk_fs (snd m) (relocked (lockst s))))].
  destruct (Hmk Hr Hwf) as (i & Hfi & Hcw & _). rewrite Hcw, Hfi.
  eapply (mkdir_p_descend fuel saved (z :: p) s (mk_fs (snd m) (relocked (lockst s)))); eauto;
    [done | lia].
Qed.

(** ** Initialisation *)

Definition table_ok (d : ramfs) : Prop :=
  length (nodes d) = FS_MAX_NODES /\ forall i, (i < FS_MAX_NODES)%nat -> arrays_ok (nd d i).

(** The table after the reset loop and the root set-up of [fs_init]. *)
Definition reset_table (d : ramfs) : ramfs :=
  set_cwd FS_ROOT_INDEX (upd_node 0 (dir_slot $"/" (-1))
    (mk_ramfs (map (set_type FS_TYPE_FREE) (nodes d)) (cwd d))).

Lemma reset_nd d i :
  table_ok d -> (i < FS_MAX_NODES)%nat ->
  nd (reset_table d) i = if decide (i = 0%nat) then dir_slot $"/" (-1) (nd d 0%nat)
                         else set_type FS_TYPE_FREE (nd d i).
Proof.
  intros [Hlen _] Hi.
  assert (Hm : forall j, (j < FS_MAX_NODES)%nat ->
    map (set_type FS_TYPE_FREE) (nodes d) !!! j = set_type FS_TYPE_FREE (nd d j)).
  { intros j Hj. rewrite !list_lookup_total_alt. rewrite list_lookup_fmap.
    by destruct (lookup_lt_is_Some_2 (nodes d) j) as [x ->]; [lia|]. }
  unfold reset_table. etransitivity; [apply upd_node_nd; cbn [nodes]; rewrite length_map; lia|].
  cbn [nodes]. rewrite !Hm by lia. by case_decide; subst.
Qed.

Lemma reset_wf d : table_ok d -> wf (reset_table d).
Proof.
  intros Ht. pose proof (reset_nd d) as Hnd. pose proof Ht as [Hlen Harr].
  assert (H0 : (0 < FS_MAX_NODES)%nat) by (unfold FS_MAX_NODES; lia).
  assert (Hl : forall i, live (reset_table d) i -> i = 0%nat).
  { intros i [Hi Hf]. rewrite Hnd in Hf by done. by case_decide. }
  assert (Hr : nd (reset_table d) 0%nat = dir_slot $"/" (-1) (nd d 0%nat)).
  { rewrite Hnd by done. by rewrite decide_True. }
  constructor.
  - unfold reset_table. cbn [nodes set_cwd]. rewrite upd_node_len. cbn [nodes]. by rewrite length_map.
  - intros i Hi. rewrite Hnd by done. destruct (Harr i Hi) as [Hn Hc].
    case_decide; [subst | done]. split; [|done].
    apply c_strcpy_truncate_length; [unfold FS_NAME_MAX; lia | done].
  - by rewrite Hr.
  - intros i Hi. by rewrite (Hl i Hi).
  - intros i Hi. rewrite (Hl i Hi). exists 0%nat. constructor.
  - intros i Hi. by rewrite (Hl i Hi).
  - intros i j Hi Hj _ _. by rewrite (Hl i Hi), (Hl j Hj).
  - exists 0%nat. split; [done|]. split; [done|]. by rewrite Hr.
  - intros i Hi. rewrite (Hl i Hi), Hr. done.
Qed.

Lemma bss_table_ok : table_ok (data bss_fs).
Proof.
  split; [apply length_replicate|]. intros i Hi. unfold bss_fs. cbn [data nodes].
  rewrite lookup_total_replicate_2 by done. split; cbn [bss_node name content]; apply length_replicate.
Qed.

(** ** The calls of the interface *)

Inductive fs_op : Type :=
| OpMkdir (nm : chars) | OpTouch (nm : chars) | OpCd (nm : chars)
| OpRm (nm : option chars) | OpRmRf (nm : option chars)
| OpWriteBin (nm bytes : chars) | OpWrite (nm text : chars) | OpAppend (nm text : chars)
| OpMkdirP (path : option chars) | OpCp (src dst : chars) | OpMv (src dst : chars).

Definition exec (op : fs_op) : fs_state -> out (fs_result * fs_state) :=
  match op with
  | OpMkdir nm => fs_mkdir nm
  | OpTouch nm => fs_touch nm
  | OpCd nm => fs_cd nm
  | OpRm nm => fs_rm nm
  | OpRmRf nm => fs_rm_rf nm
  | OpWriteBin nm bytes => fs_write_bin nm bytes
  | OpWrite nm text => fs_write nm text
  | OpAppend nm text => fs_append nm text
  | OpMkdirP path => fs_mkdir_p path
  | OpCp src dst => fs_cp src dst
  | OpMv src dst => fs_mv src dst
  end.

(** A sequence of calls; the results are dropped, the state is threaded. *)
Fixpoint run (ops : list fs_op) (s : fs_state) : out fs_state :=
  match ops with
  | [] => Ret s
  | op :: ops' => '(_, s) ← exec op s; run ops' s
  end.

(** [fs_mkdir_p] is only safe on paths whose components fit its buffer. *)
Definition short_path (path : option chars) : Prop :=
  Forall (fun x => (length x < FS_NAME_MAX)%nat) (comps (tail (cstr (default [] path)))).
Definition op_ok (op : fs_op) : Prop :=
  match op with OpMkdirP path => short_path path | _ => True end.

(** The state between two calls: a well-formed tree, a free lock. *)
Definition idle (s : fs_state) : Prop := wf (data s) /\ unlocked (lockst s).

Lemma fs_write_bin_body nm bytes s :
  unlocked (lockst s) ->
  fs_write_bin nm bytes s =
  let b := if FS_FILE_MAX <=? Z.of_nat (length bytes) then (FS_ERR_TOO_BIG, data s)
           else update_body (write_node bytes) nm (data s) in
  Ret (fst b, mk_fs (snd b) (relocked (lockst s))).
Proof.
  intros H. unfold fs_write_bin. rewrite lock_free by done. cbn [mbind out_mbind].
  destruct (_ <=? _); [by rewrite unlock_held | by apply touch_and_update_pure].
Qed.

Lemma fs_append_body nm text s :
  unlocked (lockst s) ->
  fs_append nm text s =
  Ret (fst (update_body (append_node text) nm (data s)),
       mk_fs (snd (update_body (append_node text) nm (data s))) (relocked (lockst s))).
Proof.
  intros H. unfold fs_append. rewrite lock_free by done. cbn [mbind out_mbind].
  by apply touch_and_update_pure.
Qed.

Lemma write_bin_ret nm bytes s :
  idle s -> exists r s', fs_write_bin nm bytes s = Ret (r, s') /\ idle s' /\
    cpu_if (lockst s') = cpu_if (lockst s).
Proof.
  intros [Hwf Hul]. rewrite fs_write_bin_body by done. eexists _, _. split; [reflexivity|].
  split; [split; [|done] | done]. cbn [data].
  destruct (Z.leb_spec FS_FILE_MAX (Z.of_nat (length bytes))); [done|].
  apply update_body_wf; [by apply write_node_update | done].
Qed.

Lemma mkdir_p_ret path s :
  idle s -> short_path path ->
  exists r s', fs_mkdir_p path s = Ret (r, s') /\ idle s' /\
    cpu_if (lockst s') = cpu_if (lockst s) /\ cwd (data s') = cwd (data s) /\
    extends (data s) (data s') /\
    (r = FS_OK -> exists j, walk (data s') 0 (comps (tail (cstr (default [] path)))) = Some j /\
       dir_node (data s') j).
Proof.
  intros [Hwf Hul] Hsp. unfold fs_mkdir_p, short_path in *.
  destruct (cstr (default [] path)) as [|c p];
    [eexists _, _; split; [reflexivity|]; split_and!; auto using extends_refl; done|].
  destruct (c =? 47);
    [|eexists _, _; split; [reflexivity|]; split_and!; auto using extends_refl; done].
  edestruct (mkdir_p_loop_spec (length p) (cwd (data s)) p
    (mk_fs (set_cwd FS_ROOT_INDEX (data s)) (lockst s)) 0)
    as (r & s' & Hrun & H1 & H2 & H3 & H4 & H5 & H6); auto.
  - apply (wf_set_cwd (data s) 0); auto with kernel.
  - apply (wf_cwd _ Hwf).
  - exists r, s'. split_and!; auto. by split.
Qed.

Lemma exec_ret op s :
  idle s -> op_ok op ->
  exists r s', exec op s = Ret (r, s') /\ idle s' /\ cpu_if (lockst s') = cpu_if (lockst s).
Proof.
  intros Hid Hok. pose proof Hid as [Hwf Hul].
  assert (Hlk : forall body : ramfs -> fs_result * ramfs,
    (wf (data s) -> wf (snd (body (data s)))) ->
    exists r s', locked body s = Ret (r, s') /\ idle s' /\ cpu_if (lockst s') = cpu_if (lockst s)).
  { intros body Hb. rewrite locked_pure by done. eexists _, _. split; [reflexivity|].
    split; [split; [auto | done] | done]. }
  assert (HlkM : forall body : ramfs -> out (fs_result * ramfs),
    (exists r d, body (data s) = Ret (r, d) /\ wf d) ->
    exists r s', lockedM body s = Ret (r, s') /\ idle s' /\ cpu_if (lockst s') = cpu_if (lockst s)).
  { intros body (r & d & Hb & Hd). rewrite (lockedM_pure body s r d) by done.
    eexists _, _. split; [reflexivity|]. by split. }
  destruct op; cbn [exec].
  - apply Hlk, mkdir_wf.
  - apply Hlk, touch_wf.
  - apply Hlk, cd_wf.
  - apply HlkM. by apply rm_ret.
  - apply HlkM. by apply rm_rf_ret.
  - by apply write_bin_ret.
  - by apply write_bin_ret.
  - rewrite fs_append_body by done. eexists _, _. split; [reflexivity|]. split; [split; [|done]|done].
    apply update_body_wf; [apply append_node_update | done].
  - destruct (mkdir_p_ret path s) as (r & s' & ? & ? & ? & _); eauto.
  - apply Hlk, cp_wf.
  - apply Hlk, mv_wf.
Qed.

Lemma run_ret ops s :
  idle s -> Forall op_ok ops ->
  exists s', run ops s = Ret s' /\ idle s' /\ cpu_if (lockst s') = cpu_if (lockst s).
Proof.
  intros Hid Hok. revert s Hid. induction Hok as [|op ops Hop _ IH]; intros s Hid; cbn [run]; [eauto|].
  destruct (exec_ret op s) as (r & s1 & -> & Hid1 & Hif); auto. cbn [mbind out_mbind].
  destruct (IH s1 Hid1) as (s' & -> & ? & ?). exists s'. split_and!; auto. congruence.
Qed.

Lemma reset_eq d :
  set_cwd FS_ROOT_INDEX (upd_node 0 (set_parent (-1))
    (upd_node 0 (fun n => set_name (c_strcpy_truncate (name n) $"/" FS_NAME_MAX) n)
      (upd_node 0 (set_type FS_TYPE_DIR)
        (mk_ramfs (map (set_type FS_TYPE_FREE) (nodes d)) (cwd d))))) = reset_table d.
Proof. unfold reset_table. rewrite !upd_node_upd. reflexivity. Qed.

(** The calls [fs_init] makes once the table is reset. *)
Definition init_ops : list fs_op :=
  [OpMkdir $"lib"; OpMkdir $"bin"; OpMkdir $"usr"; OpCd $"usr"; OpMkdir $"lib"; OpCd $"/"].

Lemma fs_init_run s :
  fs_init s = run init_ops
    (mk_fs (reset_table (data s))
       (mk_lockst Atomic.spin_init 0 (fs_if_was_on (lockst s)) (cpu_if (lockst s)))).
Proof. rewrite <- reset_eq. reflexivity. Qed.

Lemma fs_init_ret s :
  table_ok (data s) ->
  exists s', fs_init s = Ret s' /\ idle s' /\ cpu_if (lockst s') = cpu_if (lockst s).
Proof.
  intros Ht. rewrite fs_init_run. set (s0 := mk_fs _ _).
  assert (Hid : idle s0) by (split; [by apply reset_wf | done]).
  apply (run_ret init_ops s0 Hid). repeat constructor.
Qed.

End FsProps.
