(* ===== verification/FsSpec.v ===== *)
(** * The RAM file system: what its calls promise

    The theorems a client of fs.c relies on: no sequence of calls faults
    or breaks the tree; creation, removal, renaming, writing and appending
    change exactly what they name; paths printed by [fs_pwd] and created
    by [fs_mkdir_p] resolve. *)

From S2P Require Import Prelude Atomic Fs FsInv FsProps.
Import Fs FsInv FsProps.

Module FsSpec.

(** ** Helper lemmas on walking *)

Lemma walk_app d i cs cs' :
  walk d i (cs ++ cs') = match walk d i cs with Some j => walk d j cs' | None => None end.
Proof.
  revert i. induction cs as [|c cs IH]; intros i; [done|].
  destruct c as [|x c]; cbn [app walk]; [apply IH|].
  destruct (fs_find_child _ _ _); [apply IH | done].
Qed.

Lemma valid_cstr_ne nm : fs_is_valid_name nm = true -> cstr nm <> [].
Proof. intros H. apply valid_name_spec in H. tauto. Qed.

Lemma walk_one d p i nm :
  wf d -> live d i -> parent (nd d i) = Z.of_nat p -> cstr (name (nd d i)) = cstr nm ->
  nm <> [] -> walk d p [nm] = Some i.
Proof.
  intros Hwf Hl Hp Hn Hne. destruct nm as [|x nm]; [done|]. cbn [walk].
  by rewrite (proj2 (find_child_iff d (Z.of_nat p) (x :: nm) i Hwf)).
Qed.

(** The nodes from [i] up to the root, and the names that lead back down. *)
Lemma chain_exists d i k :
  wf d -> depth d i k ->
  exists l, length l = S k /\
    (forall n, pwd_path n d (Z.of_nat i) = map Z.of_nat (take n l)) /\
    walk d 0 (reverse (map (fun j => cstr (name (nd d j))) (take k l))) = Some i /\
    Forall (fun j => cstr (name (nd d j)) <> []) (take k l).
Proof.
  intros Hwf. induction 1 as [|i j k Hi Hl Hp Hd IH].
  - exists [0%nat]. split_and!; [done | | done | constructor]. intros n. destruct n as [|n]; [done|].
    cbn [pwd_path take map]. rewrite node_at_nat.
    destruct (wf_root d Hwf) as [_ ->]. rewrite take_nil. by destruct n.
  - destruct IH as (l & Hlen & Hpath & Hw & Hne). exists (i :: l). split_and!.
    + simpl. lia.
    + intros n. destruct n as [|n]; [done|]. cbn [pwd_path take map].
      rewrite (proj2 (Z.eqb_neq _ _)) by lia. by rewrite node_at_nat, Hp, Hpath.
    + cbn [take map]. rewrite reverse_cons, walk_app, Hw.
      apply walk_one; auto; [by rewrite cstr_cstr |].
      by apply valid_cstr_ne, (wf_name d Hwf).
    + cbn [take]. constructor; [by apply valid_cstr_ne, (wf_name d Hwf) | done].
Qed.

Lemma push_chars n buf w :
  (length buf <= n - 1)%nat -> foldl (push_char n) buf w = take (n - 1) (buf ++ w).
Proof.
  revert buf. induction w as [|c w IH]; intros buf H; cbn [foldl].
  - rewrite app_nil_r. by rewrite take_ge.
  - unfold push_char at 2. destruct (Nat.ltb_spec (length buf + 1) n).
    + rewrite IH by (rewrite length_app; simpl; lia). by rewrite <- app_assoc.
    + rewrite IH by done. rewrite !take_app. f_equal.
      replace (n - 1 - length buf)%nat with 0%nat by lia. done.
Qed.

Lemma push_words {A} n (f : A -> chars) l buf :
  (length buf <= n - 1)%nat ->
  foldl (fun b i => foldl (push_char n) b (f i)) buf l = take (n - 1) (buf ++ concat (map f l)).
Proof.
  revert buf. induction l as [|x l IH]; intros buf H; cbn [foldl map concat].
  - rewrite app_nil_r. by rewrite take_ge.
  - rewrite push_chars by done. rewrite IH by (rewrite length_take; lia).
    rewrite app_assoc. generalize (buf ++ f x). intros w.
    destruct (Nat.le_gt_cases (length w) (n - 1)); [by rewrite (take_ge w)|].
    rewrite !take_app, length_take, take_take.
    replace (n - 1 - length w)%nat with 0%nat by lia.
    replace (n - 1 - (n - 1) `min` length w)%nat with 0%nat by lia.
    by rewrite Nat.min_id.
Qed.

(** ** Claims *)

(** The state of the file system before [fs_init], with EFLAGS.IF [if_on]. *)
Definition power_on (if_on : bool) : fs_state :=
  mk_fs (data bss_fs) (mk_lockst 0 0 0 if_on).

(** C2. After [fs_init], every sequence of calls of the file-system interface
    (with [fs_mkdir_p] given components that fit its buffer) runs to its end:
    no lock is taken twice, no array is left, no loop runs on; the tree stays
    well formed, the lock is free again and the interrupt flag is what it was. *)
Theorem fs_calls_safe if_on ops :
  Forall op_ok ops ->
  exists s0 s', fs_init (power_on if_on) = Ret s0 /\ run ops s0 = Ret s' /\
    wf (data s') /\ unlocked (lockst s') /\ cpu_if (lockst s') = if_on.
Proof.
  intros Hok. destruct (fs_init_ret (power_on if_on) bss_table_ok) as (s0 & H0 & Hid & Hif).
  destruct (run_ret ops s0 Hid Hok) as (s' & Hrun & [Hwf Hul] & Hif').
  exists s0, s'. split_and!; auto. by rewrite Hif', Hif.
Qed.

Definition demo_ops : list fs_op :=
  [OpMkdirP (Some $"/home/user"); OpCd $"home"; OpWrite $"notes" $"hello"; OpCp $"notes" $"copy";
   OpRmRf (Some $"user"); OpCd $".."].

Lemma fs_calls_safe_witness :
  exists s0 s', fs_init (power_on true) = Ret s0 /\ run demo_ops s0 = Ret s' /\
    wf (data s') /\ unlocked (lockst s') /\ cpu_if (lockst s') = true.
Proof.
  apply (fs_calls_safe true demo_ops). unfold demo_ops.
  repeat constructor; unfold short_path; cbn; repeat constructor; unfold FS_NAME_MAX; cbn; lia.
Defined.

(** What [fs_mkdir] and [fs_touch] do, [t] being the type of node they make. *)
Definition create_post (t : fs_node_type) (nm : chars) (d : ramfs) (r : fs_result) (d' : ramfs) : Prop :=
  match r with
  | FS_OK =>
      fs_is_valid_name nm = true /\ fs_find_child d (cwd d) nm = None /\
      exists i, ~ live d i /\ live d' i /\ type (nd d' i) = t /\
        (t = FS_TYPE_FILE -> content_len (nd d' i) = 0) /\
        (forall j, j <> i -> nd d' j = nd d j) /\ cwd d' = cwd d /\
        (forall p nm', fs_find_child d' p nm' =
           if decide (p = cwd d /\ cstr nm' = cstr nm) then Some i else fs_find_child d p nm')
  | FS_ERR_INVALID_NAME => fs_is_valid_name nm = false /\ d' = d
  | FS_ERR_ALREADY_EXISTS =>
      fs_is_valid_name nm = true /\ is_Some (fs_find_child d (cwd d) nm) /\ d' = d
  | FS_ERR_NO_SPACE => (forall i, (i < FS_MAX_NODES)%nat -> live d i) /\ d' = d
  | _ => False
  end.

Lemma creates_post t slot nm d r d' :
  (forall d i, wf d -> fs_alloc_node d = Some i ->
     created nm (cwd d) (nd d i) (slot nm (cwd d) (nd d i))) ->
  (forall nm p n, type (slot nm p n) = t /\ (t = FS_TYPE_FILE -> content_len (slot nm p n) = 0)) ->
  wf d -> creates slot nm d r d' -> create_post t nm d r d'.
Proof.
  intros Hs Ht Hwf [(Hv & -> & ->)|[(Hv & Hn & -> & ->)|[(Hv & Hn & Ha & -> & ->)|
    (i & Hv & Hn & Ha & -> & ->)]]]; cbn [create_post].
  - done.
  - split_and!; auto. by apply not_eq_None_Some.
  - split; [|done]. intros i Hi. split; [done|]. intros Hf.
    pose proof (proj1 (for_find_None _ _ _) Ha i ltac:(lia)) as Hx. cbv beta in Hx.
    apply is_free_false in Hx. done.
  - split_and!; auto. exists i.
    destruct (create_wf d nm i (slot nm (cwd d))) as (Hwf' & Hnd & Hnl & Hl); auto.
    assert (Hi : nd (upd_node i (slot nm (cwd d)) d) i = slot nm (cwd d) (nd d i))
      by (rewrite Hnd; by rewrite decide_True).
    split_and!; auto.
    + rewrite Hi. apply Ht.
    + rewrite Hi. apply Ht.
    + intros j Hj. rewrite Hnd. by rewrite decide_False.
    + intros p nm'. by apply create_lookup; auto.
Qed.

(** [fs_mkdir] and [fs_touch] on every branch: an invalid name, an
    existing name or a full table leave the tree unchanged with the right
    error; otherwise exactly one new entry appears, in the current directory,
    in a slot that was free, and every other lookup and node is as before. *)
Theorem fs_create_spec nm s :
  idle s ->
  (exists r s', fs_mkdir nm s = Ret (r, s') /\ idle s' /\
     create_post FS_TYPE_DIR nm (data s) r (data s')) /\
  (exists r s', fs_touch nm s = Ret (r, s') /\ idle s' /\
     create_post FS_TYPE_FILE nm (data s) r (data s')).
Proof.
  intros [Hwf Hul]. unfold fs_mkdir, fs_touch. rewrite !locked_pure by done.
  split; eexists _, _; (split; [reflexivity|]); cbn [data].
  - split; [split; [by apply mkdir_wf | done]|].
    apply (creates_post _ dir_slot); [by auto using created_dir | by intros; split | done |].
    apply mkdir_creates.
  - split; [split; [by apply touch_wf | done]|].
    apply (creates_post _ file_slot); [by auto using created_file | by intros; split | done |].
    apply touch_creates.
Qed.

(** A freshly initialised file system, computed. *)
Definition booted : fs_state :=
  match fs_init (power_on true) with Ret s => s | Fault _ => bss_fs end.

Lemma booted_idle : idle booted.
Proof.
  unfold booted. destruct (fs_init_ret (power_on true) bss_table_ok) as (s & -> & H & _). done.
Qed.

Lemma fs_create_spec_witness :
  exists r s', fs_mkdir $"tmp" booted = Ret (r, s') /\ idle s' /\
    create_post FS_TYPE_DIR $"tmp" (data booted) r (data s').
Proof. exact (proj1 (fs_create_spec $"tmp" booted booted_idle)). Defined.

(** C19. [fs_rm_rf] refuses NULL, the empty name and "/", reports a missing
    name, and otherwise frees exactly the named node and everything below it;
    every other slot keeps its contents, and a current directory inside the
    removed tree moves to the parent of the removed node. *)
Theorem fs_rm_rf_spec nm s :
  idle s ->
  exists r s', fs_rm_rf nm s = Ret (r, s') /\ idle s' /\
    match (if rm_bad_name nm then None else fs_find_child (data s) (cwd (data s)) (default [] nm)) with
    | None => r = (if rm_bad_name nm then FS_ERR_INVALID_NAME else FS_ERR_NOT_FOUND) /\
              data s' = data s
    | Some i =>
        r = FS_OK /\
        (forall j, (j < FS_MAX_NODES)%nat -> desc (data s) i j -> ~ live (data s') j) /\
        (forall j, (j < FS_MAX_NODES)%nat -> ~ desc (data s) i j ->
           nd (data s') j = nd (data s) j) /\
        (exists c, cwd (data s) = Z.of_nat c /\
           (desc (data s) i c -> cwd (data s') = parent (nd (data s) i)) /\
           (~ desc (data s) i c -> cwd (data s') = cwd (data s)))
    end.
Proof.
  intros [Hwf Hul]. unfold fs_rm_rf, rm_rf_body.
  destruct (rm_bad_name nm) eqn:Eb.
  { eexists _, _. split; [apply lockedM_pure; [done | reflexivity]|]. by split. }
  destruct (fs_find_child (data s) (cwd (data s)) (default [] nm)) as [i|] eqn:Ef.
  - destruct (child_not_root (data s) _ i Hwf Ef) as [Hl Hi].
    destruct (rm_subtree_spec (data s) i Hwf Hl Hi) as (d' & Hrm & Hwf' & Hn & Hc).
    eexists _, (mk_fs d' _). split; [apply lockedM_pure; [done | cbv beta; rewrite Ef; exact Hrm]|].
    split; [by split|]. cbn [data]. split_and!; auto.
    + intros j Hj Hd [_ Hf]. apply Hf. by apply Hn.
    + intros j Hj Hd. by apply Hn.
  - eexists _, _. split; [apply lockedM_pure; [done | cbv beta; by rewrite Ef]|]. by split.
Qed.

Lemma fs_rm_rf_spec_witness :
  idle booted /\
  exists r s', fs_rm_rf (Some $"usr") booted = Ret (r, s') /\ idle s' /\
    match fs_find_child (data booted) (cwd (data booted)) $"usr" with
    | None => r = FS_ERR_NOT_FOUND /\ data s' = data booted
    | Some i =>
        r = FS_OK /\
        (forall j, (j < FS_MAX_NODES)%nat -> desc (data booted) i j -> ~ live (data s') j) /\
        (forall j, (j < FS_MAX_NODES)%nat -> ~ desc (data booted) i j ->
           nd (data s') j = nd (data booted) j) /\
        (exists c, cwd (data booted) = Z.of_nat c /\
           (desc (data booted) i c -> cwd (data s') = parent (nd (data booted) i)) /\
           (~ desc (data booted) i c -> cwd (data s') = cwd (data booted)))
    end.
Proof. split; [apply booted_idle | exact (fs_rm_rf_spec (Some $"usr") booted booted_idle)]. Defined.

(** ** Writing files *)

(** An update of the file named [nm]: which node it reaches and what else changes. *)
Lemma on_file_spec f nm d i :
  wf d -> fs_find_child d (cwd d) nm = Some i -> type (nd d i) = FS_TYPE_FILE ->
  (forall n, type (f n) = type n /\ parent (f n) = parent n /\ name (f n) = name n) ->
  on_file f nm d = (FS_OK, upd_node i f d) /\
  fs_read nm (upd_node i f d) = (FS_OK, Some (i, content_len (f (nd d i)))) /\
  nd (upd_node i f d) i = f (nd d i) /\ (forall j, j <> i -> nd (upd_node i f d) j = nd d j).
Proof.
  intros Hwf Hf Ht Hk. pose proof Hf as Hf'. apply find_child_Some in Hf' as (Hl & Hp & Hn).
  assert (Hnd : forall j, nd (upd_node i f d) j = if decide (j = i) then f (nd d i) else nd d j).
  { intros j. apply upd_node_nd. rewrite (wf_len d Hwf). apply Hl. }
  assert (Hi : nd (upd_node i f d) i = f (nd d i)) by (rewrite Hnd; by rewrite decide_True).
  split_and!; auto.
  - unfold on_file. rewrite Hf. by rewrite (proj2 (is_file_true _) Ht).
  - unfold fs_read. rewrite upd_node_cwd.
    assert (Hfc : fs_find_child (upd_node i f d) (cwd d) nm = Some i).
    { rewrite <- Hf. unfold fs_find_child. apply for_find_ext. intros j _. cbv beta zeta.
      rewrite Hnd. case_decide; [subst | done]. unfold is_free.
      destruct (Hk (nd d i)) as (-> & -> & ->). done. }
    rewrite Hfc, Hi. destruct (Hk (nd d i)) as (Hty & _ & _).
    by rewrite (proj2 (is_file_true _)) by congruence.
  - intros j Hj. rewrite Hnd. by rewrite decide_False.
Qed.

(** The bytes of the file [nm] of the current directory before a write. *)
Definition old_bytes (nm : chars) (d : ramfs) : chars :=
  match fs_read nm d with (_, Some (i, len)) => file_bytes d i len | _ => [] end.

(** What an update of the contents of [nm] does: [g] maps old to new bytes. *)
Definition update_post (g : chars -> chars) (nm : chars) (d : ramfs) (r : fs_result) (d' : ramfs) : Prop :=
  match fs_find_child d (cwd d) nm with
  | Some i =>
      if is_file (nd d i) then
        r = FS_OK /\ fs_read nm d' = (FS_OK, Some (i, Z.of_nat (length (g (old_bytes nm d))))) /\
        file_bytes d' i (Z.of_nat (length (g (old_bytes nm d)))) = g (old_bytes nm d) /\
        (forall j, j <> i -> nd d' j = nd d j)
      else r = FS_ERR_IS_A_DIRECTORY /\ d' = d
  | None =>
      (r <> FS_OK /\ d' = d) \/
      (r = FS_OK /\ exists i, ~ live d i /\
        fs_read nm d' = (FS_OK, Some (i, Z.of_nat (length (g [])))) /\
        file_bytes d' i (Z.of_nat (length (g []))) = g [] /\ (forall j, j <> i -> nd d' j = nd d j))
  end.

Lemma update_body_spec f g nm d :
  wf d ->
  (forall n, type (f n) = type n /\ parent (f n) = parent n /\ name (f n) = name n) ->
  (forall n, arrays_ok n -> file_ok n -> type n = FS_TYPE_FILE ->
     let new := g (take (Z.to_nat (content_len n)) (content n)) in
     content_len (f n) = Z.of_nat (length new) /\ take (length new) (content (f n)) = new) ->
  update_post g nm d (fst (update_body f nm d)) (snd (update_body f nm d)).
Proof.
  intros Hwf Hk Hg. unfold update_post, update_body.
  destruct (fs_find_child d (cwd d) nm) as [i|] eqn:Ef.
  - destruct (is_file (nd d i)) eqn:Et.
    + pose proof Ef as Ef'. apply find_child_Some in Ef' as (Hl & _ & _).
      apply is_file_true in Et. destruct (on_file_spec f nm d i) as (-> & Hr & Hi & Ho); auto.
      cbn [fst snd]. rewrite Hr.
      destruct (Hg (nd d i)) as [H1 H2]; auto; [apply (wf_arr d Hwf), Hl | by apply (wf_file d Hwf)|].
      unfold old_bytes, fs_read. rewrite Ef, (proj2 (is_file_true _) Et). cbn [negb].
      unfold file_bytes. rewrite H1, Nat2Z.id. cbn [nodes] in *. rewrite Hi. by split_and!.
    + unfold on_file. by rewrite Ef, Et.
  - destruct (touch_creates nm d) as [(_ & E & E')|[(_ & Hn & _)|[(_ & _ & _ & E & E')|
      (i & Hv & _ & Ha & E & E')]]]; destruct (touch_body nm d) as [r d1]; cbn [fst snd] in *; subst.
    + by left.
    + done.
    + by left.
    + rewrite bool_decide_true by done. right.
      pose proof (created_file d nm i Hwf Ha) as Hc.
      destruct (create_wf d nm i (file_slot nm (cwd d))) as (Hwf1 & Hnd1 & Hnl & Hl1); auto.
      set (d1 := upd_node i (file_slot nm (cwd d)) d) in *.
      assert (Hi1 : nd d1 i = file_slot nm (cwd d) (nd d i)) by (rewrite Hnd1; by rewrite decide_True).
      assert (Hf1 : fs_find_child d1 (cwd d1) nm = Some i).
      { unfold d1. rewrite (create_lookup d nm i) by done. by rewrite decide_True. }
      destruct (on_file_spec f nm d1 i) as (-> & Hr & Hi & Ho); auto; [by rewrite Hi1|].
      cbn [fst snd]. split; [done|]. exists i. split; [done|].
      destruct (Hg (nd d1 i)) as [H1 H2];
        [apply (wf_arr d1 Hwf1), Hl1 | by apply (wf_file d1 Hwf1) | by rewrite Hi1|].
      rewrite Hi1 in H1, H2. cbn [file_slot content_len] in H1, H2. rewrite take_0 in H1, H2.
      rewrite Hr, Hi1. unfold file_bytes. rewrite Hi, Hi1, Nat2Z.id, H1. split_and!; auto.
      intros j Hj. rewrite Ho by done. rewrite Hnd1. by rewrite decide_False.
Qed.

(** C20. [fs_write_bin] of fewer than 8192 bytes, then [fs_read]: an existing
    file is replaced, a missing one is created in a free slot, and reading it
    back gives exactly the bytes written (embedded zero bytes included); no
    other node changes.  Longer data is refused and nothing changes, a
    directory is refused, and a failed creation changes nothing. *)
Theorem fs_write_read nm bytes s :
  idle s ->
  exists r s', fs_write_bin nm bytes s = Ret (r, s') /\ idle s' /\
    (FS_FILE_MAX <= Z.of_nat (length bytes) -> r = FS_ERR_TOO_BIG /\ data s' = data s) /\
    (Z.of_nat (length bytes) < FS_FILE_MAX ->
       update_post (fun _ => bytes) nm (data s) r (data s')).
Proof.
  intros Hid. destruct (write_bin_ret nm bytes s Hid) as (r & s' & Hrun & Hid' & _).
  exists r, s'. split_and!; auto; destruct Hid as [Hwf Hul];
    rewrite fs_write_bin_body in Hrun by done; cbv zeta in Hrun; injection Hrun as <- <-.
  - intros Hb. rewrite (proj2 (Z.leb_le _ _)) by done. done.
  - intros Hb. rewrite (proj2 (Z.leb_gt _ _)) by done. cbn [data].
    apply update_body_spec; [done | done |]. intros n Ha Hf Ht new.
    destruct (write_node_ok bytes n Hb Ha) as (_ & H1 & _ & H2). done.
Qed.

Lemma fs_write_read_witness :
  exists r s', fs_write_bin $"a.bin" [1; 0; 2] booted = Ret (r, s') /\ idle s' /\
    (Z.of_nat (length [1; 0; 2]) < FS_FILE_MAX) /\
    update_post (fun _ => [1; 0; 2]) $"a.bin" (data booted) r (data s').
Proof.
  destruct (fs_write_read $"a.bin" [1; 0; 2] booted booted_idle) as (r & s' & H & H1 & H2 & H3).
  exists r, s'. assert (Hb : Z.of_nat (length [1; 0; 2]) < FS_FILE_MAX) by (vm_compute; done).
  split_and!; auto.
Defined.

(** [fs_append] keeps the old bytes, separates the new text by a newline
    when the file was not empty and there is room for it, and cuts the text so
    that the file never exceeds 8191 bytes; a missing file is created. *)
Theorem fs_append_spec nm text s :
  idle s ->
  exists r s', fs_append nm text s = Ret (r, s') /\ idle s' /\
    update_post (fun old => appended old text) nm (data s) r (data s').
Proof.
  intros [Hwf Hul]. rewrite fs_append_body by done. eexists _, _. split; [reflexivity|]. split.
  - split; [|done]. apply update_body_wf; [apply append_node_update | done].
  - apply update_body_spec; [done | apply append_node_update |]. intros n Ha Hf Ht new.
    destruct (append_node_ok text n Ha Hf Ht) as (Ha' & Hf' & Heq).
    assert (Ht' : type (append_node text n) = FS_TYPE_FILE)
      by (destruct (proj1 (append_node_update text) n) as (-> & _); done).
    destruct (Hf' Ht') as [Hb _]. destruct Ha' as [_ Hlc].
    assert (Hlen : length new = Z.to_nat (content_len (append_node text n))).
    { unfold new. rewrite <- Heq, length_take. lia. }
    rewrite Hlen, Z2Nat.id by lia. by rewrite Heq.
Qed.

Lemma fs_append_spec_witness :
  exists r s', fs_append $"log" $"line" booted = Ret (r, s') /\ idle s' /\
    update_post (fun old => appended old $"line") $"log" (data booted) r (data s').
Proof. exact (fs_append_spec $"log" $"line" booted booted_idle). Defined.

(** ** Paths *)

(** [fs_mkdir_p] with components that fit its buffer returns, restores
    the current directory, keeps every existing node, and on success walking
    the path from the root reaches a directory. *)
Theorem fs_mkdir_p_spec path s :
  idle s -> short_path path ->
  exists r s', fs_mkdir_p path s = Ret (r, s') /\ idle s' /\
    cwd (data s') = cwd (data s) /\ extends (data s) (data s') /\
    (r = FS_OK -> exists j, walk (data s') 0 (comps (tail (cstr (default [] path)))) = Some j /\
       type (nd (data s') j) = FS_TYPE_DIR).
Proof.
  intros Hid Hsp. destruct (mkdir_p_ret path s Hid Hsp) as (r & s' & H1 & H2 & H3 & H4 & H5 & H6).
  exists r, s'. split_and!; auto. intros Hr. destruct (H6 Hr) as (j & Hw & [_ Hj]). eauto.
Qed.

Lemma fs_mkdir_p_spec_witness :
  short_path (Some $"/var/log") /\
  exists r s', fs_mkdir_p (Some $"/var/log") booted = Ret (r, s') /\ idle s' /\
    cwd (data s') = cwd (data booted) /\ extends (data booted) (data s') /\
    (r = FS_OK -> exists j, walk (data s') 0 [$"var"; $"log"] = Some j /\
       type (nd (data s') j) = FS_TYPE_DIR).
Proof.
  assert (H : short_path (Some $"/var/log"))
    by (unfold short_path; cbn; repeat constructor; unfold FS_NAME_MAX; cbn; lia).
  split; [done|]. exact (fs_mkdir_p_spec (Some $"/var/log") booted booted_idle H).
Defined.

(** A first component of 48 characters or more makes [fs_mkdir_p] write
    its terminator outside the 48-byte array [component] (the copy loop is
    bounded, the terminator is not): the guard of [fs_read_path] is missing. *)
Theorem fs_mkdir_p_overflow path x rest s :
  cstr path = 47 :: x ++ rest -> Forall (fun c => c <> 47) x ->
  (rest = [] \/ exists r, rest = 47 :: r) -> (FS_NAME_MAX <= length x)%nat ->
  fs_mkdir_p (Some path) s = Fault OutOfBounds.
Proof.
  intros Hp Hx Hrest Hlen. unfold fs_mkdir_p.
  change (cstr (default [] (Some path))) with (cstr path). rewrite Hp.
  change (47 =? 47) with true. cbv iota.
  assert (Hsp : split_slash (x ++ rest) = (x, rest)).
  { clear Hlen Hp. induction Hx as [|c x Hc _ IH]; cbn [app split_slash].
    - by destruct Hrest as [->|[r ->]].
    - rewrite (proj2 (Z.eqb_neq c 47)) by done. by rewrite IH. }
  destruct (x ++ rest) as [|z p] eqn:E.
  { apply app_eq_nil in E as [-> _]. unfold FS_NAME_MAX in Hlen. simpl in Hlen. lia. }
  cbn [length mkdir_p_loop]. rewrite Hsp. by rewrite (proj2 (Nat.leb_le _ _)).
Qed.

Lemma fs_mkdir_p_overflow_witness :
  fs_mkdir_p (Some (47 :: replicate 48 97)) booted = Fault OutOfBounds.
Proof.
  apply (fs_mkdir_p_overflow _ (replicate 48 97) []).
  - reflexivity.
  - apply Forall_replicate. discriminate.
  - by left.
  - rewrite length_replicate. unfold FS_NAME_MAX. lia.
Defined.

(** Names joined into a path. *)
Definition join (ns : list chars) : chars := concat (map (cons 47) ns).

(** What [fs_pwd] leaves in a buffer of [n] bytes: for the root "/";
    otherwise, with [ns] the names that lead from the root to the current
    directory, the join of [ns] cut to [n - 1] bytes, as long as the directory
    is at most 15 levels deep.  Deeper, only the last 15 names are printed,
    still starting with '/'. *)
Theorem fs_pwd_spec n d :
  wf d ->
  exists c ns, cwd d = Z.of_nat c /\ walk d 0 ns = Some c /\ Forall (fun x => x <> []) ns /\
    fs_pwd n d = take (n - 1) (match ns with [] => $"/" | _ => join (drop (length ns - 15) ns) end).
Proof.
  intros Hwf. destruct (wf_cwd d Hwf) as (c & Hc & Hcd).
  destruct (wf_depth d Hwf c (dir_live _ _ Hcd)) as [k Hk].
  destruct (chain_exists d c k Hwf Hk) as (l & Hlen & Hpath & Hw & Hne).
  set (nm := fun j => cstr (name (nd d j))) in *.
  exists c, (reverse (map nm (take k l))). split_and!; auto.
  { apply Forall_reverse, Forall_map. exact Hne. }
  unfold fs_pwd. rewrite Hc, Hpath, length_map, length_take, Hlen.
  destruct k as [|k]; [done|].
  assert (Hl : length (map nm (take (S k) l)) = S k) by (rewrite length_map, length_take; lia).
  set (ns := reverse (map nm (take (S k) l))).
  assert (Hns : length ns = S k) by (unfold ns; by rewrite length_reverse).
  destruct ns as [|n0 ns'] eqn:Ens; [discriminate|]. rewrite <- Ens in *.
  replace (FS_MAX_DEPTH `min` S (S k) =? 1)%nat with false
    by (symmetry; apply Nat.eqb_neq; unfold FS_MAX_DEPTH; lia).
  rewrite push_words by (simpl; lia). cbn [app]. f_equal. unfold join. f_equal.
  rewrite Hns. unfold ns. rewrite drop_reverse, Hl, !firstn_map, !take_take.
  unfold reverse. rewrite <- !rev_alt, <- !map_rev, !map_map.
  replace ((FS_MAX_DEPTH `min` S (S k) - 1) `min` FS_MAX_DEPTH)%nat with ((S k - (S k - 15)) `min` S k)%nat
    by (unfold FS_MAX_DEPTH; lia).
  apply map_ext. intros j. by rewrite node_at_nat.
Qed.

Lemma fs_pwd_spec_witness :
  wf (data booted) /\
  exists c ns, cwd (data booted) = Z.of_nat c /\ walk (data booted) 0 ns = Some c /\
    Forall (fun x => x <> []) ns /\
    fs_pwd 64 (data booted) =
      take 63 (match ns with [] => $"/" | _ => join (drop (length ns - 15) ns) end).
Proof. split; [apply booted_idle | exact (fs_pwd_spec 64 (data booted) (proj1 booted_idle))]. Defined.

(** [fs_mv] renames inside the current directory: on success the node
    found under [src] is found under [dst] and no longer under [src], keeps
    its slot, type, parent, bytes and children, and every other lookup is
    unchanged; on each error nothing changes. *)
Theorem fs_mv_spec src dst s :
  idle s ->
  exists r s', fs_mv src dst s = Ret (r, s') /\ idle s' /\
    let d := data s in let d' := data s' in
    match fs_find_child d (cwd d) src with
    | None => r = FS_ERR_NOT_FOUND /\ d' = d
    | Some i =>
        (r = FS_OK /\ fs_is_valid_name dst = true /\ fs_find_child d (cwd d) dst = None /\
         cwd d' = cwd d /\
         (forall j, type (nd d' j) = type (nd d j) /\ parent (nd d' j) = parent (nd d j) /\
            content (nd d' j) = content (nd d j) /\ content_len (nd d' j) = content_len (nd d j)) /\
         (forall p nm, fs_find_child d' p nm =
            if decide (p = cwd d /\ cstr nm = cstr dst) then Some i
            else if decide (p = cwd d /\ cstr nm = cstr src) then None
            else fs_find_child d p nm)) \/
        (r = FS_ERR_INVALID_NAME /\ fs_is_valid_name dst = false /\ d' = d) \/
        (r = FS_ERR_ALREADY_EXISTS /\ is_Some (fs_find_child d (cwd d) dst) /\ d' = d)
    end.
Proof.
  intros [Hwf Hul]. unfold fs_mv. rewrite locked_pure by done.
  eexists _, _. split; [reflexivity|]. cbn [data]. pose proof (mv_wf src dst _ Hwf) as Hwf'.
  split; [by split|]. cbv zeta. revert Hwf'. generalize (data s) Hwf. clear s Hwf Hul.
  intros d Hwf. unfold mv_body.
  destruct (fs_find_child d (cwd d) src) as [i|] eqn:Es; [|done].
  destruct (fs_is_valid_name dst) eqn:Hv; cbn [negb]; [|right; left; done].
  destruct (fs_find_child d (cwd d) dst) as [k|] eqn:Ed; cbn [fst snd]; [right; right; eauto|].
  intros Hwf'. left.
  apply find_child_Some in Es as (Hl & Hp & Hn). pose proof (proj1 (find_child_None _ _ _) Ed) as Hfr.
  set (F := fun n => set_name _ n) in *.
  assert (Hnd : forall j, nd (upd_node i F d) j = if decide (j = i) then F (nd d i) else nd d j).
  { intros j. apply upd_node_nd. rewrite (wf_len d Hwf). apply Hl. }
  assert (Hsame : forall j, type (nd (upd_node i F d) j) = type (nd d j) /\
    parent (nd (upd_node i F d) j) = parent (nd d j) /\
    content (nd (upd_node i F d) j) = content (nd d j) /\
    content_len (nd (upd_node i F d) j) = content_len (nd d j)).
  { intros j. rewrite Hnd. by case_decide; subst. }
  assert (Hlive : forall j, live (upd_node i F d) j <-> live d j).
  { intros j. unfold live. by destruct (Hsame j) as (-> & _). }
  assert (Hnm : cstr (name (F (nd d i))) = cstr dst).
  { apply cstr_strcpy_fits. apply valid_name_spec in Hv. tauto. }
  split_and!; auto. intros p nm. case_decide as E1; [|case_decide as E2].
  - destruct E1 as [-> E1]. apply find_child_iff; [done|]. rewrite Hlive, Hnd, decide_True by done.
    split_and!; [done | done | congruence].
  - destruct E2 as [-> E2]. apply find_child_None. intros j Hj Hpj Hnj. rewrite Hlive in Hj.
    rewrite Hnd in Hpj, Hnj. case_decide as Ej; [apply E1; split; [done | congruence]|].
    apply Ej. apply (wf_uniq d Hwf); congruence || done.
  - destruct (fs_find_child d p nm) as [j|] eqn:Ef.
    + apply find_child_Some in Ef as (Hlj & Hpj & Hnj).
      assert (j <> i) by (intros ->; apply E2; split; congruence).
      apply find_child_iff; [done|]. rewrite Hlive, Hnd, decide_False by done. by split_and!.
    + apply find_child_None. intros j Hj Hpj Hnj. rewrite Hlive in Hj.
      rewrite Hnd in Hpj, Hnj. case_decide as Ej.
      * subst j. apply E1. split; [cbn in Hpj; congruence | congruence].
      * by apply (proj1 (find_child_None _ _ _) Ef j).
Qed.

Lemma fs_mv_spec_witness :
  idle booted /\ fs_find_child (data booted) (cwd (data booted)) $"bin" = Some 2%nat /\
  exists r s', fs_mv $"bin" $"sbin" booted = Ret (r, s') /\ idle s'.
Proof.
  split_and!; [apply booted_idle | vm_compute; reflexivity |].
  destruct (fs_mv_spec $"bin" $"sbin" booted booted_idle) as (r & s' & H1 & H2 & _).
  exists r, s'. split; assumption.
Defined.

(** A node with a child is a directory. *)
Lemma parent_is_dir d p nm i :
  wf d -> fs_find_child d (Z.of_nat p) nm = Some i -> is_dir (nd d p) = true.
Proof.
  intros Hwf Hf. apply find_child_Some in Hf as (Hl & Hp & _). apply is_dir_true.
  destruct (decide (type (nd d p) = FS_TYPE_DIR)); [done|].
  exfalso. by apply (no_child_of_file d p i).
Qed.

Lemma found_valid d p nm i :
  wf d -> fs_find_child d (Z.of_nat p) nm = Some i -> fs_is_valid_name nm = true.
Proof.
  intros Hwf Hf. apply find_child_Some in Hf as (Hl & Hp & Hn).
  rewrite <- (valid_name_ext _ _ Hn). apply (wf_name d Hwf); [done|]. intros ->.
  destruct (wf_root d Hwf). lia.
Qed.

(** The answer of [fs_read] and [fs_read_path] about node [j]. *)
Definition read_answer (d : ramfs) (j : nat) : fs_result * option (nat * Z) :=
  if is_file (nd d j) then (FS_OK, Some (j, content_len (nd d j))) else (FS_ERR_IS_A_DIRECTORY, None).

(** Walking on from [i] over at least one named component: [i] is a directory. *)
Lemma walk_dir d i cs j :
  wf d -> walk d i cs = Some j -> (exists c, last cs = Some c /\ c <> []) ->
  is_dir (nd d i) = true.
Proof.
  intros Hwf. revert i. induction cs as [|c cs IH]; intros i Hw (c' & Hl & Hne); [done|].
  destruct c as [|x c].
  - cbn [walk] in Hw. apply (IH i Hw). exists c'. split; [|done].
    destruct cs; [cbn in Hl; congruence | done].
  - cbn [walk] in Hw. destruct (fs_find_child d (Z.of_nat i) (x :: c)) eqn:E; [|done].
    by eapply parent_is_dir.
Qed.

Lemma split_slash_app p a b : split_slash p = (a, b) -> p = a ++ b.
Proof.
  revert a b. induction p as [|c p IH]; intros a b H; simpl in H; [by injection H as <- <-|].
  destruct (c =? 47); [by injection H as <- <-|].
  destruct (split_slash p) as [a' b']. injection H as <- <-. cbn [app]. f_equal. by apply IH.
Qed.

Lemma split_slash_no_nul p a b :
  no_nul p -> split_slash p = (a, b) -> no_nul a /\ no_nul (skip_slash b).
Proof.
  intros H Hs. rewrite (split_slash_app _ _ _ Hs) in H. apply Forall_app in H as [Ha Hb].
  split; [done|]. destruct b as [|c b]; [done|]. simpl. destruct (c =? 47); [|done].
  by inversion Hb.
Qed.

(** A name that some node has is none of the special components. *)
Lemma valid_not_special nm :
  fs_is_valid_name nm = true ->
  c_streq nm [] = false /\ c_streq nm $"." = false /\ c_streq nm $".." = false /\
  (length (cstr nm) < FS_NAME_MAX)%nat.
Proof. rewrite valid_name_spec, !c_streq_false. tauto. Qed.

Lemma last_cons_some {A} (x : A) l y : l <> [] -> last (x :: l) = Some y -> last l = Some y.
Proof. by destruct l. Qed.

Lemma comps_nil p : comps p = [] -> p = [].
Proof.
  destruct p as [|c p]; [done|]. simpl. destruct (c =? 47); [done|]. by destruct (comps p).
Qed.

Lemma read_path_loop_spec fuel d i p j :
  wf d -> no_nul p -> (length p <= fuel)%nat -> walk d i (comps p) = Some j ->
  (exists c, last (comps p) = Some c /\ c <> []) ->
  read_path_loop fuel d (Z.of_nat i) p = Ret (read_answer d j).
Proof.
  intros Hwf. revert i p. induction fuel as [|fuel IH]; intros i p Hnn Hlen Hw (lc & Hlast & Hlc);
    (destruct p as [|z p]; [done|]); [simpl in Hlen; lia|].
  cbn [read_path_loop]. destruct (split_slash (z :: p)) as [x rest] eqn:Es.
  destruct (split_slash_comps (z :: p) x rest ltac:(discriminate) Es) as (Hcs & Hl1 & Hl2).
  destruct (split_slash_no_nul _ _ _ Hnn Es) as [Hnx Hnr].
  rewrite Hcs in Hw, Hlast. cbn [length] in *. set (q := skip_slash rest) in *.
  destruct x as [|y x].
  - cbn [length]. replace (FS_NAME_MAX <=? 0)%nat with false by done. cbn [c_streq orb].
    assert (comps q <> []) by (intros E; rewrite E in Hlast; cbn in Hlast; congruence).
    apply IH; eauto using last_cons_some; lia.
  - cbn [walk] in Hw. destruct (fs_find_child d (Z.of_nat i) (y :: x)) as [k|] eqn:Ef; [|done].
    destruct (valid_not_special (y :: x)) as (-> & -> & -> & Hlx); [by eapply found_valid|].
    rewrite cstr_id in Hlx by done. rewrite (proj2 (Nat.leb_gt _ _)) by done. cbn [orb].
    destruct q as [|z' q'] eqn:Eq.
    + injection Hw as <-. unfold read_answer. by destruct (is_file (nd d k)).
    + assert (Hcne : comps (z' :: q') <> []) by (intros E; by apply comps_nil in E).
      assert (Hex : exists c, last (comps (z' :: q')) = Some c /\ c <> [])
        by eauto using last_cons_some.
      rewrite (walk_dir d k _ _ Hwf Hw Hex). cbn [negb]. apply IH; auto. lia.
Qed.

(** [fs_read_path] of an absolute path whose components lead from the root
    to node [j] (empty components are skipped, the last one is not empty)
    returns [j]'s bytes and length when it is a file and the is-a-directory
    error otherwise. *)
Theorem fs_read_path_spec path p d j :
  wf d -> cstr path = 47 :: p -> walk d 0 (comps p) = Some j ->
  (exists c, last (comps p) = Some c /\ c <> []) ->
  fs_read_path (Some path) d = Ret (read_answer d j).
Proof.
  intros Hwf Hp Hw Hl. unfold fs_read_path.
  change (cstr (default [] (Some path))) with (cstr path).
  pose proof (cstr_no_nul path) as Hnn. rewrite Hp in *.
  apply (read_path_loop_spec _ d 0); auto; [by inversion Hnn | cbn [skip_slash Z.eqb]; simpl; lia].
Qed.

Lemma fs_read_path_spec_witness :
  walk (data booted) 0 [$"usr"; $"lib"] = Some 4%nat /\
  fs_read_path (Some $"/usr/lib") (data booted) = Ret (FS_ERR_IS_A_DIRECTORY, None).
Proof.
  assert (Hw : walk (data booted) 0 (comps $"usr/lib") = Some 4%nat) by (vm_compute; reflexivity).
  split; [exact Hw|].
  rewrite (fs_read_path_spec $"/usr/lib" $"usr/lib" (data booted) 4 (proj1 booted_idle) eq_refl Hw).
  - vm_compute. reflexivity.
  - exists $"lib". split; [reflexivity | discriminate].
Defined.

End FsSpec.
