(* ===== verification/Calc.v ===== *)
(** * The expression calculator (src/src/calc.c)

    A recursive-descent evaluator over [long] (32 bits on the i386 target:
    additions and multiplications wrap, dividing LONG_MIN by -1 raises the
    divide error).  The parser state is the unread suffix of the string and
    the error flag.  The mutual recursion carries fuel; [calc_fuel] is
    proved to be enough for every input. *)

From S2P Require Import Prelude Terminal.

Module Calc.

(** ** The program *)

Record calc_parser : Type := mk_pr { p : chars; error : bool }.

Definition peek (pr : calc_parser) : Z := char_at (p pr) 0.
Definition advance (pr : calc_parser) : calc_parser := mk_pr (tail (p pr)) (error pr).
Definition fail (pr : calc_parser) : calc_parser := mk_pr (p pr) true.

Definition is_space (c : Z) : bool := (c =? 32) || (c =? 9).

Fixpoint skip (s : chars) : chars :=
  match s with
  | c :: s' => if is_space c then skip s' else s
  | [] => []
  end.
Definition skip_spaces (pr : calc_parser) : calc_parser := mk_pr (skip (p pr)) (error pr).

Definition LONG_MIN : Z := -2147483648.

(** [while (exp > 0) { if (exp & 1) result *= base; base *= base; exp >>= 1; }] *)
Fixpoint ipow_loop (fuel : nat) (result base exp : Z) : out Z :=
  match fuel with
  | O => Fault NoFuel
  | S f =>
      if 0 <? exp then
        let result := if Z.land exp 1 =? 0 then result else s32 (result * base) in
        ipow_loop f result (s32 (base * base)) (Z.shiftr exp 1)
      else Ret result
  end.

(** The value and the error flag after the call. *)
Definition ipow (base exp : Z) (err : bool) : out (Z * bool) :=
  if exp <? 0 then Ret (0, true)
  else
    r ← ipow_loop (Z.to_nat (Z.log2 exp) + 2) 1 base exp;
    Ret (r, err).

Fixpoint parse_digits (s : chars) (value : Z) : Z * chars :=
  match s with
  | c :: s' => if Terminal.is_digit c then parse_digits s' (s32 (value * 10 + (c - 48)))
               else (value, s)
  | [] => (value, [])
  end.

(** The signed division instruction. *)
Definition idiv (a b : Z) : out Z :=
  if (a =? LONG_MIN) && (b =? -1) then Fault Trap else Ret (Z.quot a b).

(** The bodies of the parsing functions, with the functions they call as
    parameters; the recursion is tied below. *)
Abbreviation parser := (calc_parser -> out (Z * calc_parser)).

Definition factor_body (parse_factor parse_expr : parser) (pr : calc_parser)
  : out (Z * calc_parser) :=
  let pr := skip_spaces pr in
  if peek pr =? 45 then
    '(v, pr) ← parse_factor (advance pr);
    Ret (s32 (- v), pr)
  else if peek pr =? 43 then parse_factor (advance pr)
  else if peek pr =? 40 then
    '(value, pr) ← parse_expr (advance pr);
    let pr := skip_spaces pr in
    if negb (peek pr =? 41) then Ret (0, fail pr)
    else Ret (value, advance pr)
  else if (peek pr <? 48) || (57 <? peek pr) then Ret (0, fail pr)
  else
    let '(value, s) := parse_digits (p pr) 0 in
    Ret (value, mk_pr s (error pr)).

Definition power_body (parse_factor parse_power : parser) (pr : calc_parser)
  : out (Z * calc_parser) :=
  '(base, pr) ← parse_factor pr;
  let pr := skip_spaces pr in
  if peek pr =? 94 then
    '(exp, pr) ← parse_power (advance pr);
    '(v, e) ← ipow base exp (error pr);
    Ret (v, mk_pr (p pr) e)
  else Ret (base, pr).

Definition term_loop_body (parse_power : parser) (term_loop : Z -> parser)
  (value : Z) (pr : calc_parser) : out (Z * calc_parser) :=
  let pr := skip_spaces pr in
  if peek pr =? 42 then
    '(rhs, pr) ← parse_power (advance pr);
    term_loop (s32 (value * rhs)) pr
  else if peek pr =? 47 then
    '(rhs, pr) ← parse_power (advance pr);
    if rhs =? 0 then Ret (0, fail pr)
    else
      v ← idiv value rhs;
      term_loop v pr
  else Ret (value, pr).

Definition expr_loop_body (parse_term : parser) (expr_loop : Z -> parser)
  (value : Z) (pr : calc_parser) : out (Z * calc_parser) :=
  let pr := skip_spaces pr in
  if peek pr =? 43 then
    '(rhs, pr) ← parse_term (advance pr);
    expr_loop (s32 (value + rhs)) pr
  else if peek pr =? 45 then
    '(rhs, pr) ← parse_term (advance pr);
    expr_loop (s32 (value - rhs)) pr
  else Ret (value, pr).

(** [long value = first(pr); for (;;) { ... }] *)
Definition chain_body (first : parser) (loop : Z -> parser) (pr : calc_parser)
  : out (Z * calc_parser) :=
  '(value, pr) ← first pr; loop value pr.

Fixpoint parse_factor (fuel : nat) (pr : calc_parser) : out (Z * calc_parser) :=
  match fuel with
  | O => Fault NoFuel
  | S f => factor_body (parse_factor f) (parse_expr f) pr
  end
with parse_power (fuel : nat) (pr : calc_parser) : out (Z * calc_parser) :=
  match fuel with
  | O => Fault NoFuel
  | S f => power_body (parse_factor f) (parse_power f) pr
  end
with parse_term (fuel : nat) (pr : calc_parser) : out (Z * calc_parser) :=
  match fuel with
  | O => Fault NoFuel
  | S f => chain_body (parse_power f) (term_loop f) pr
  end
with term_loop (fuel : nat) (value : Z) (pr : calc_parser) : out (Z * calc_parser) :=
  match fuel with
  | O => Fault NoFuel
  | S f => term_loop_body (parse_power f) (term_loop f) value pr
  end
with parse_expr (fuel : nat) (pr : calc_parser) : out (Z * calc_parser) :=
  match fuel with
  | O => Fault NoFuel
  | S f => chain_body (parse_term f) (expr_loop f) pr
  end
with expr_loop (fuel : nat) (value : Z) (pr : calc_parser) : out (Z * calc_parser) :=
  match fuel with
  | O => Fault NoFuel
  | S f => expr_loop_body (parse_term f) (expr_loop f) value pr
  end.

Definition calc_fuel (s : chars) : nat := (8 * length s + 8)%nat.

(** The result and [*out_error]. *)
Definition calc_eval (expr : chars) : out (Z * bool) :=
  '(result, pr) ← parse_expr (calc_fuel expr) (mk_pr expr false);
  let pr := skip_spaces pr in
  Ret (result, error pr || negb (peek pr =? 0)).

Example calc_prec : calc_eval $"2 + 3 * 4^2" = Ret (50, false).
Proof. reflexivity. Qed.
Example calc_assoc : calc_eval $"2^3^2 - 10 - 2" = Ret (500, false).
Proof. reflexivity. Qed.
Example calc_bad : calc_eval $"(1/0*3)+2" = Ret (0, true).
Proof. reflexivity. Qed.
Example calc_trap : calc_eval $"(-2147483648)/(-1)" = Fault Trap.
Proof. reflexivity. Qed.

(** ** Progress

    A call that starts with [n] characters to read either traps, or returns
    with no more than [n] left and with the error flag still set if it was. *)

Definition good (n : nat) (e : bool) (x : out (Z * calc_parser)) : Prop :=
  match x with
  | Ret (_, pr) => (length (p pr) <= n)%nat /\ (e = true -> error pr = true)
  | Fault f => f = Trap
  end.

Lemma good_bind n e n' e' x (k : Z * calc_parser -> out (Z * calc_parser)) :
  good n e x ->
  (forall v pr, (length (p pr) <= n)%nat -> (e = true -> error pr = true) -> good n' e' (k (v, pr))) ->
  good n' e' (x ≫= k).
Proof. intros Hx Hk. destruct x as [[v pr]|f]; [destruct Hx; by apply Hk | done]. Qed.

Lemma good_le n n' e e' x :
  (n <= n')%nat -> (e' = true -> e = true) -> good n e x -> good n' e' x.
Proof. destruct x as [[v pr]|f]; [|done]. intros Hn He [? ?]. split; [lia | auto]. Qed.

Lemma skip_length s : (length (skip s) <= length s)%nat.
Proof. induction s as [|c s IH]; simpl; [done|]. destruct (is_space c); simpl; lia. Qed.

Lemma parse_digits_length s v : (length (snd (parse_digits s v)) <= length s)%nat.
Proof.
  revert v. induction s as [|c s IH]; intros v; simpl; [done|].
  destruct (Terminal.is_digit c); simpl; [|lia]. specialize (IH (s32 (v * 10 + (c - 48)))). lia.
Qed.

(** A non-NUL character is read from a non-empty rest. *)
Lemma advance_length pr c :
  (peek pr =? c) = true -> c <> 0 -> S (length (p (advance pr))) = length (p pr).
Proof.
  unfold peek, char_at, advance. intros H%Z.eqb_eq Hc. cbn [p].
  destruct (p pr) as [|x s]; [by destruct Hc | done].
Qed.

Lemma skip_spaces_length pr : (length (p (skip_spaces pr)) <= length (p pr))%nat.
Proof. apply skip_length. Qed.

Lemma ipow_loop_settles fuel r b e :
  (e <= 0 -> (1 <= fuel)%nat) -> (0 < e -> (Z.to_nat (Z.log2 e) + 2 <= fuel)%nat) ->
  exists v, ipow_loop fuel r b e = Ret v.
Proof.
  revert r b e. induction fuel as [|fuel IH]; intros r b e H1 H2; [lia|]. cbn [ipow_loop].
  destruct (Z.ltb_spec 0 e) as [He|]; [|eauto]. specialize (H2 He). apply IH; [lia|].
  intros He'. rewrite Z.log2_shiftr by lia.
  assert (1 <= Z.log2 e); [|lia]. rewrite Z.shiftr_div_pow2 in He' by lia.
  apply (Z.log2_le_pow2 e 1); [lia|]. zlia.
Qed.

Lemma ipow_settles b e err : exists v err', ipow b e err = Ret (v, err') /\ (err = true -> err' = true).
Proof.
  unfold ipow. destruct (Z.ltb_spec e 0); [eauto|].
  destruct (ipow_loop_settles (Z.to_nat (Z.log2 e) + 2) 1 b e) as [v ->]; [lia | lia |].
  exists v, err. by split.
Qed.

Section Bodies.
Context (pf pp pt pe : parser) (tl el : Z -> parser) (n : nat).

(** A parser that is good on inputs of at most [m] characters. *)
Definition good_upto (m : nat) (f : parser) : Prop :=
  forall pr, (length (p pr) <= m)%nat -> good (length (p pr)) (error pr) (f pr).

Ltac body_step c :=
  match goal with
  | |- good _ _ (if peek ?pr =? c then _ else _) =>
      let E := fresh "E" in destruct (peek pr =? c) eqn:E;
      [pose proof (advance_length _ _ E ltac:(lia))|]
  end.

Lemma factor_body_good :
  (forall m, (m < n)%nat -> good_upto m pf) -> (forall m, (m < n)%nat -> good_upto m pe) ->
  good_upto n (factor_body pf pe).
Proof.
  intros Hf He pr Hn. unfold factor_body. cbv zeta.
  pose proof (skip_spaces_length pr) as Hs.
  change (error pr) with (error (skip_spaces pr)).
  revert Hs. generalize (skip_spaces pr). intros q Hs.
  body_step 45.
  { eapply good_bind; [apply (Hf (length (p (advance q)))); lia|].
    intros v pr' Hl Hm. split; [lia | exact Hm]. }
  body_step 43.
  { eapply good_le; [| | apply (Hf (length (p (advance q)))); lia]; [lia | done]. }
  body_step 40.
  { eapply good_bind; [apply (He (length (p (advance q)))); lia|].
    intros v pr' Hl Hm. pose proof (skip_spaces_length pr') as Hs'.
    destruct (peek (skip_spaces pr') =? 41) eqn:E2; cbn [negb];
      [pose proof (advance_length _ _ E2 ltac:(lia)) | ]; split; simpl in *; auto; lia. }
  destruct (_ || _); [split; [simpl; lia | done]|].
  pose proof (parse_digits_length (p q) 0).
  destruct (parse_digits (p q) 0) as [v s]. split; [simpl in *; lia | done].
Qed.

Lemma power_body_good :
  good_upto n pf -> (forall m, (m < n)%nat -> good_upto m pp) -> good_upto n (power_body pf pp).
Proof.
  intros Hf Hp pr Hn. unfold power_body.
  eapply good_bind; [by apply Hf|]. intros v q Hl Hm. pose proof (skip_spaces_length q) as Hs.
  cbv zeta. body_step 94; [|split; [lia | exact Hm]].
  eapply good_bind; [apply (Hp (length (p (advance (skip_spaces q))))); lia|].
  intros v' q' Hl' Hm'. cbn [error advance skip_spaces] in Hm'.
  destruct (ipow_settles v v' (error q')) as (r & e & -> & He).
  split; [simpl; lia | intros ?; simpl; auto].
Qed.

Lemma chain_body_good f (g : Z -> parser) :
  good_upto n f -> (forall v, good_upto n (g v)) -> good_upto n (chain_body f g).
Proof.
  intros Hf Hg pr Hn. unfold chain_body. eapply good_bind; [by apply Hf|].
  intros v q Hl Hm. eapply good_le; [| | apply Hg; lia]; [lia | done].
Qed.

Lemma term_loop_body_good v :
  (forall m, (m < n)%nat -> good_upto m pp) -> (forall m v, (m < n)%nat -> good_upto m (tl v)) ->
  good_upto n (term_loop_body pp tl v).
Proof.
  intros Hp Ht pr Hn. unfold term_loop_body. cbv zeta. pose proof (skip_spaces_length pr) as Hs.
  change (error pr) with (error (skip_spaces pr)).
  revert Hs. generalize (skip_spaces pr). intros q Hs.
  body_step 42; [|body_step 47; [|split; [lia | done]]].
  - eapply good_bind; [apply (Hp (length (p (advance q)))); lia|]. intros r q' Hl Hm.
    eapply good_le; [| | apply (Ht (length (p q'))); lia]; [lia | done].
  - eapply good_bind; [apply (Hp (length (p (advance q)))); lia|]. intros r q' Hl Hm.
    destruct (r =? 0); [split; [simpl; lia | done]|]. unfold idiv.
    destruct (_ && _); [done|]. cbn [mbind out_mbind].
    eapply good_le; [| | apply (Ht (length (p q'))); lia]; [lia | done].
Qed.

Lemma expr_loop_body_good v :
  (forall m, (m < n)%nat -> good_upto m pt) -> (forall m v, (m < n)%nat -> good_upto m (el v)) ->
  good_upto n (expr_loop_body pt el v).
Proof.
  intros Hp Ht pr Hn. unfold expr_loop_body. cbv zeta. pose proof (skip_spaces_length pr) as Hs.
  change (error pr) with (error (skip_spaces pr)).
  revert Hs. generalize (skip_spaces pr). intros q Hs.
  body_step 43; [|body_step 45; [|split; [lia | done]]];
    (eapply good_bind; [apply (Hp (length (p (advance q)))); lia|]; intros r q' Hl Hm;
     eapply good_le; [| | apply (Ht (length (p q'))); lia]; [lia | done]).
Qed.
End Bodies.

Definition progress (fuel : nat) : Prop :=
  (forall m, (8 * m + 1 <= fuel)%nat -> good_upto m (parse_factor fuel)) /\
  (forall m, (8 * m + 2 <= fuel)%nat -> good_upto m (parse_power fuel)) /\
  (forall m, (8 * m + 3 <= fuel)%nat -> good_upto m (parse_term fuel)) /\
  (forall m v, (8 * m + 1 <= fuel)%nat -> good_upto m (term_loop fuel v)) /\
  (forall m, (8 * m + 4 <= fuel)%nat -> good_upto m (parse_expr fuel)) /\
  (forall m v, (8 * m + 1 <= fuel)%nat -> good_upto m (expr_loop fuel v)).

Lemma progress_all fuel : progress fuel.
Proof.
  induction fuel as [|fuel (H1 & H2 & H3 & H4 & H5 & H6)]; [split_and!; intros; lia|].
  split_and!; intros m; intros; intros pr Hpr.
  - apply (factor_body_good _ _ m); auto; intros k Hk; [apply H1 | apply H5]; lia.
  - apply (power_body_good _ _ m); auto; [apply H1; lia | intros k Hk; apply H2; lia].
  - apply (chain_body_good m); auto; [apply H2; lia | intros v; apply H4; lia].
  - apply (term_loop_body_good _ _ m); auto; intros k; intros; [apply H2 | apply H4]; lia.
  - apply (chain_body_good m); auto; [apply H3; lia | intros v; apply H6; lia].
  - apply (expr_loop_body_good _ _ m); auto; intros k; intros; [apply H3 | apply H6]; lia.
Qed.

(** ** Fuel does not matter *)

Definition agree (m : nat) (f g : parser) : Prop := forall pr, (length (p pr) <= m)%nat -> f pr = g pr.

Lemma bind_good_ext {B} n e x (k k' : Z * calc_parser -> out B) :
  good n e x -> (forall v pr, (length (p pr) <= n)%nat -> k (v, pr) = k' (v, pr)) ->
  x ≫= k = x ≫= k'.
Proof. intros Hx Hk. destruct x as [[v pr]|f]; [destruct Hx; by apply Hk | done]. Qed.

Section Agree.
Context (pf pf' pp pp' pt pt' pe pe' : parser) (tl tl' el el' : Z -> parser) (n : nat).

Ltac ext_step c :=
  match goal with
  | |- (if peek ?pr =? c then _ else _) = _ =>
      let E := fresh "E" in destruct (peek pr =? c) eqn:E;
      [pose proof (advance_length _ _ E ltac:(lia))|]
  end.

Lemma factor_body_agree :
  (forall m, (m < n)%nat -> agree m pf pf') -> (forall m, (m < n)%nat -> agree m pe pe') ->
  agree n (factor_body pf pe) (factor_body pf' pe').
Proof.
  intros Hf He pr Hn. unfold factor_body. cbv zeta. pose proof (skip_spaces_length pr) as Hs.
  ext_step 45; [by rewrite (Hf (length (p (advance (skip_spaces pr)))) ltac:(lia)) by lia|].
  ext_step 43; [by rewrite (Hf (length (p (advance (skip_spaces pr)))) ltac:(lia)) by lia|].
  ext_step 40; [by rewrite (He (length (p (advance (skip_spaces pr)))) ltac:(lia)) by lia|].
  done.
Qed.

Lemma power_body_agree :
  good_upto n pf -> agree n pf pf' -> (forall m, (m < n)%nat -> agree m pp pp') ->
  agree n (power_body pf pp) (power_body pf' pp').
Proof.
  intros Hg Hf Hp pr Hn. unfold power_body. rewrite <- Hf by done.
  eapply bind_good_ext; [by apply Hg|]. intros v q Hl. cbv zeta.
  pose proof (skip_spaces_length q) as Hs. ext_step 94; [|done].
  by rewrite (Hp (length (p (advance (skip_spaces q)))) ltac:(lia)) by lia.
Qed.

Lemma chain_body_agree f f' (g g' : Z -> parser) :
  good_upto n f -> agree n f f' -> (forall v, agree n (g v) (g' v)) ->
  agree n (chain_body f g) (chain_body f' g').
Proof.
  intros Hg Hf Hgg pr Hn. unfold chain_body. rewrite <- Hf by done.
  eapply bind_good_ext; [by apply Hg|]. intros v q Hl. apply Hgg. lia.
Qed.

Lemma term_loop_body_agree v :
  (forall m, (m < n)%nat -> good_upto m pp) ->
  (forall m, (m < n)%nat -> agree m pp pp') -> (forall m v, (m < n)%nat -> agree m (tl v) (tl' v)) ->
  agree n (term_loop_body pp tl v) (term_loop_body pp' tl' v).
Proof.
  intros Hg Hp Ht pr Hn. unfold term_loop_body. cbv zeta. pose proof (skip_spaces_length pr) as Hs.
  revert Hs. generalize (skip_spaces pr). intros q Hs.
  ext_step 42; [|ext_step 47; [|done]];
    rewrite <- (Hp (length (p (advance q))) ltac:(lia)) by lia;
    (eapply bind_good_ext; [apply (Hg (length (p (advance q)))); lia|]); intros r q' Hl.
  - apply (Ht (length (p q'))); lia.
  - destruct (r =? 0); [done|]. destruct (idiv v r); [|done]. apply (Ht (length (p q'))); lia.
Qed.

Lemma expr_loop_body_agree v :
  (forall m, (m < n)%nat -> good_upto m pt) ->
  (forall m, (m < n)%nat -> agree m pt pt') -> (forall m v, (m < n)%nat -> agree m (el v) (el' v)) ->
  agree n (expr_loop_body pt el v) (expr_loop_body pt' el' v).
Proof.
  intros Hg Hp Ht pr Hn. unfold expr_loop_body. cbv zeta. pose proof (skip_spaces_length pr) as Hs.
  revert Hs. generalize (skip_spaces pr). intros q Hs.
  ext_step 43; [|ext_step 45; [|done]];
    rewrite <- (Hp (length (p (advance q))) ltac:(lia)) by lia;
    (eapply bind_good_ext; [apply (Hg (length (p (advance q)))); lia|]); intros r q' Hl;
    apply (Ht (length (p q'))); lia.
Qed.
End Agree.

Definition fuel_indep (f : nat) : Prop :=
  forall g,
  (forall m, (8 * m + 1 <= f)%nat -> (8 * m + 1 <= g)%nat -> agree m (parse_factor f) (parse_factor g)) /\
  (forall m, (8 * m + 2 <= f)%nat -> (8 * m + 2 <= g)%nat -> agree m (parse_power f) (parse_power g)) /\
  (forall m, (8 * m + 3 <= f)%nat -> (8 * m + 3 <= g)%nat -> agree m (parse_term f) (parse_term g)) /\
  (forall m v, (8 * m + 1 <= f)%nat -> (8 * m + 1 <= g)%nat -> agree m (term_loop f v) (term_loop g v)) /\
  (forall m, (8 * m + 4 <= f)%nat -> (8 * m + 4 <= g)%nat -> agree m (parse_expr f) (parse_expr g)) /\
  (forall m v, (8 * m + 1 <= f)%nat -> (8 * m + 1 <= g)%nat -> agree m (expr_loop f v) (expr_loop g v)).

Lemma fuel_indep_all f : fuel_indep f.
Proof.
  induction f as [|f IH]; intros g; [split_and!; intros; lia|].
  destruct g as [|g]; [split_and!; intros; lia|].
  destruct (IH g) as (H1 & H2 & H3 & H4 & H5 & H6). clear IH.
  destruct (progress_all f) as (P1 & P2 & P3 & P4 & P5 & P6).
  split_and!; intros m; intros; intros pr Hpr.
  - apply (factor_body_agree _ _ _ _ m); auto; intros k Hk; [apply H1 | apply H5]; lia.
  - apply (power_body_agree _ _ _ _ m); auto; [apply P1 | apply H1 | intros k Hk; apply H2]; lia.
  - apply (chain_body_agree m); auto; [apply P2 | apply H2 | intros v; apply H4]; lia.
  - apply (term_loop_body_agree _ _ _ _ m); auto; intros k; intros; [apply P2 | apply H2 | apply H4]; lia.
  - apply (chain_body_agree m); auto; [apply P3 | apply H3 | intros v; apply H6]; lia.
  - apply (expr_loop_body_agree _ _ _ _ m); auto; intros k; intros; [apply P3 | apply H3 | apply H6]; lia.
Qed.

(** The parsing functions with the fuel their input needs. *)
Definition Factor : parser := fun pr => parse_factor (calc_fuel (p pr)) pr.
Definition Power : parser := fun pr => parse_power (calc_fuel (p pr)) pr.
Definition Term : parser := fun pr => parse_term (calc_fuel (p pr)) pr.
Definition TermLoop (v : Z) : parser := fun pr => term_loop (calc_fuel (p pr)) v pr.
Definition Expr : parser := fun pr => parse_expr (calc_fuel (p pr)) pr.
Definition ExprLoop (v : Z) : parser := fun pr => expr_loop (calc_fuel (p pr)) v pr.

Lemma agree_fuelled n f :
  (8 * n + 4 <= f)%nat ->
  agree n (parse_factor f) Factor /\ agree n (parse_power f) Power /\ agree n (parse_term f) Term /\
  (forall v, agree n (term_loop f v) (TermLoop v)) /\ agree n (parse_expr f) Expr /\
  (forall v, agree n (expr_loop f v) (ExprLoop v)).
Proof.
  intros Hf. split_and!; intros; intros pr Hpr;
    destruct (fuel_indep_all f (calc_fuel (p pr))) as (H1 & H2 & H3 & H4 & H5 & H6);
    unfold calc_fuel in *; [apply (H1 (length (p pr))) | apply (H2 (length (p pr)))
    | apply (H3 (length (p pr))) | apply (H4 (length (p pr))) | apply (H5 (length (p pr)))
    | apply (H6 (length (p pr)))]; lia.
Qed.

(** The equations the C functions satisfy, free of fuel. *)
Lemma calc_equations :
  (forall pr, Factor pr = factor_body Factor Expr pr) /\
  (forall pr, Power pr = power_body Factor Power pr) /\
  (forall pr, Term pr = chain_body Power TermLoop pr) /\
  (forall v pr, TermLoop v pr = term_loop_body Power TermLoop v pr) /\
  (forall pr, Expr pr = chain_body Term ExprLoop pr) /\
  (forall v pr, ExprLoop v pr = expr_loop_body Term ExprLoop v pr).
Proof.
  assert (Hstep : forall pr, exists f, calc_fuel (p pr) = S f /\ (8 * length (p pr) + 4 <= f)%nat).
  { intros pr. exists (8 * length (p pr) + 7)%nat. unfold calc_fuel. lia. }
  split_and!; intros; destruct (Hstep pr) as (f & Hf & Hle);
    destruct (agree_fuelled (length (p pr)) f Hle) as (A1 & A2 & A3 & A4 & A5 & A6);
    destruct (progress_all f) as (P1 & P2 & P3 & P4 & P5 & P6);
    assert (Hlow : forall (F G : parser) m, agree (length (p pr)) F G ->
      (m < length (p pr))%nat -> agree m F G) by (intros F G m HFG Hm q Hq; apply HFG; lia).
  - unfold Factor at 1. rewrite Hf. apply (factor_body_agree _ _ _ _ (length (p pr))); eauto.
  - unfold Power at 1. rewrite Hf. apply (power_body_agree _ _ _ _ (length (p pr))); eauto.
    apply P1. lia.
  - unfold Term at 1. rewrite Hf. apply (chain_body_agree (length (p pr))); eauto. apply P2. lia.
  - unfold TermLoop at 1. rewrite Hf. apply (term_loop_body_agree _ _ _ _ (length (p pr))); eauto.
    intros m Hm. apply P2. lia.
  - unfold Expr at 1. rewrite Hf. apply (chain_body_agree (length (p pr))); eauto. apply P3. lia.
  - unfold ExprLoop at 1. rewrite Hf. apply (expr_loop_body_agree _ _ _ _ (length (p pr))); eauto.
    intros m Hm. apply P3. lia.
Qed.

Definition Factor_eq := proj1 calc_equations.
Definition Power_eq := proj1 (proj2 calc_equations).
Definition Term_eq := proj1 (proj2 (proj2 calc_equations)).
Definition TermLoop_eq := proj1 (proj2 (proj2 (proj2 calc_equations))).
Definition Expr_eq := proj1 (proj2 (proj2 (proj2 (proj2 calc_equations)))).
Definition ExprLoop_eq := proj2 (proj2 (proj2 (proj2 (proj2 calc_equations)))).

(** Every call settles, and the error flag is never cleared. *)
Lemma parsers_good :
  (forall pr, good (length (p pr)) (error pr) (Factor pr)) /\
  (forall pr, good (length (p pr)) (error pr) (Power pr)) /\
  (forall pr, good (length (p pr)) (error pr) (Term pr)) /\
  (forall v pr, good (length (p pr)) (error pr) (TermLoop v pr)) /\
  (forall pr, good (length (p pr)) (error pr) (Expr pr)) /\
  (forall v pr, good (length (p pr)) (error pr) (ExprLoop v pr)).
Proof.
  split_and!; intros; destruct (progress_all (calc_fuel (p pr))) as (P1 & P2 & P3 & P4 & P5 & P6);
    unfold calc_fuel in *; [apply (P1 (length (p pr))) | apply (P2 (length (p pr)))
    | apply (P3 (length (p pr))) | apply (P4 (length (p pr))) | apply (P5 (length (p pr)))
    | apply (P6 (length (p pr)))]; lia.
Qed.

End Calc.
