(* ===== verification/CalcSpec.v ===== *)
(** * The calculator against its grammar

    The grammar that calc.c's header describes, as an inductive relation
    between strings and expression trees, and the value of a tree with
    32-bit wrap-around.  [calc_eval] accepts exactly the strings of the
    grammar and returns the value of their tree. *)

From S2P Require Import Prelude Terminal Calc.
Import Calc.

Module CalcSpec.

(** ** Exponentiation *)

Lemma s32_mul_pow r b k : s32 (r * s32 b ^ Z.of_nat k) = s32 (r * b ^ Z.of_nat k).
Proof.
  revert r. induction k as [|k IH]; intros r; [done|].
  rewrite Nat2Z.inj_succ, !Z.pow_succ_r by lia.
  rewrite (Z.mul_assoc r (s32 b)), IH, (Z.mul_comm r (s32 b)), <- Z.mul_assoc, s32_mul_l.
  f_equal. ring.
Qed.

Lemma ipow_loop_correct fuel r b e v :
  0 <= e -> s32 r = r -> ipow_loop fuel r b e = Ret v -> v = s32 (r * b ^ e).
Proof.
  revert r b e. induction fuel as [|fuel IH]; intros r b e He Hr H; [done|]. cbn [ipow_loop] in H.
  destruct (Z.ltb_spec 0 e) as [Hp|Hz].
  - assert (Hdec : e = 2 * Z.shiftr e 1 + Z.land e 1).
    { rewrite Z.shiftr_div_pow2 by lia. change (Z.land e 1) with (Z.land e (Z.ones 1)).
      rewrite Z.land_ones by lia. change (2 ^ 1) with 2. zlia. }
    assert (Hbit : 0 <= Z.land e 1 <= 1).
    { change (Z.land e 1) with (Z.land e (Z.ones 1)). rewrite Z.land_ones by lia.
      change (2 ^ 1) with 2. zlia. }
    set (h := Z.shiftr e 1) in *. assert (Hh : 0 <= h) by lia.
    apply IH in H; [|done|by destruct (_ =? 0); [|rewrite s32_s32]].
    rewrite H. rewrite <- (Z2Nat.id h) by done. rewrite s32_mul_pow, Z2Nat.id by done.
    assert (Hsq : (b * b) ^ h = b ^ (2 * h)).
    { rewrite Z.pow_mul_r by lia. f_equal. lia. }
    destruct (Z.eqb_spec (Z.land e 1) 0) as [E|E].
    + rewrite Hsq. f_equal. f_equal. f_equal. lia.
    + rewrite s32_mul_l, Hsq. f_equal. rewrite Hdec at 1.
      replace (Z.land e 1) with 1 by lia. rewrite Z.pow_add_r by lia. ring.
  - injection H as <-. replace e with 0 by lia. rewrite Z.pow_0_r, Z.mul_1_r. done.
Qed.

(** [ipow] is exponentiation modulo 2^32. *)
Lemma ipow_correct b e err : 0 <= e -> ipow b e err = Ret (s32 (b ^ e), err).
Proof.
  intros He. unfold ipow. rewrite (proj2 (Z.ltb_ge _ _)) by done.
  destruct (ipow_loop_settles (Z.to_nat (Z.log2 e) + 2) 1 b e) as [v Hv]; [lia | lia |].
  rewrite Hv. apply ipow_loop_correct in Hv; [|done|done]. rewrite Z.mul_1_l in Hv. by subst.
Qed.

(** ** Trees and their values *)

Inductive exp : Type :=
| Num (digits : chars) | Neg (a : exp) | Pos (a : exp)
| Pow (a b : exp) | Mul (a b : exp) | Div (a b : exp) | Add (a b : exp) | Sub (a b : exp).

(** [Err]: division by zero or a negative exponent; [ETrap]: LONG_MIN / -1. *)
Inductive value : Type := Val (z : Z) | Err | ETrap.

Definition vbind (x : value) (k : Z -> value) : value :=
  match x with Val z => k z | Err => Err | ETrap => ETrap end.

Fixpoint eval (e : exp) : value :=
  match e with
  | Num ds => Val (s32 (Terminal.dec_value ds))
  | Neg a => vbind (eval a) (fun x => Val (s32 (- x)))
  | Pos a => eval a
  | Pow a b => vbind (eval a) (fun x => vbind (eval b) (fun y =>
      if y <? 0 then Err else Val (s32 (x ^ y))))
  | Mul a b => vbind (eval a) (fun x => vbind (eval b) (fun y => Val (s32 (x * y))))
  | Div a b => vbind (eval a) (fun x => vbind (eval b) (fun y =>
      if y =? 0 then Err
      else if (x =? LONG_MIN) && (y =? -1) then ETrap else Val (Z.quot x y)))
  | Add a b => vbind (eval a) (fun x => vbind (eval b) (fun y => Val (s32 (x + y))))
  | Sub a b => vbind (eval a) (fun x => vbind (eval b) (fun y => Val (s32 (x - y))))
  end.

(** ** The grammar: [reads l e s], with [l] = 0 factor, 1 power, 2 term, 3 expression *)

Definition spaces (w : chars) : Prop := Forall (fun c => is_space c = true) w.
Definition digits (s : chars) : Prop := Forall (fun c => Terminal.is_digit c = true) s.

Inductive reads : nat -> exp -> chars -> Prop :=
| r_num ds : ds <> [] -> digits ds -> reads 0 (Num ds) ds
| r_sp c e s : is_space c = true -> reads 0 e s -> reads 0 e (c :: s)
| r_neg e s : reads 0 e s -> reads 0 (Neg e) (45 :: s)
| r_pos e s : reads 0 e s -> reads 0 (Pos e) (43 :: s)
| r_paren e s w : reads 3 e s -> spaces w -> reads 0 e (40 :: s ++ w ++ [41])
| r_power e s : reads 0 e s -> reads 1 e s
| r_pow a s w b t : reads 0 a s -> spaces w -> reads 1 b t -> reads 1 (Pow a b) (s ++ w ++ 94 :: t)
| r_term e s : reads 1 e s -> reads 2 e s
| r_mul a s w b t : reads 2 a s -> spaces w -> reads 1 b t -> reads 2 (Mul a b) (s ++ w ++ 42 :: t)
| r_div a s w b t : reads 2 a s -> spaces w -> reads 1 b t -> reads 2 (Div a b) (s ++ w ++ 47 :: t)
| r_expr e s : reads 2 e s -> reads 3 e s
| r_add a s w b t : reads 3 a s -> spaces w -> reads 2 b t -> reads 3 (Add a b) (s ++ w ++ 43 :: t)
| r_sub a s w b t : reads 3 a s -> spaces w -> reads 2 b t -> reads 3 (Sub a b) (s ++ w ++ 45 :: t).

(** ** Lexical lemmas *)

Lemma skip_spaces_app w s : spaces w -> skip (w ++ s) = skip s.
Proof. induction 1 as [|c w Hc _ IH]; simpl; [done|]. by rewrite Hc. Qed.

Lemma skip_skip s : skip (skip s) = skip s.
Proof.
  induction s as [|c s IH]; [done|]. simpl. destruct (is_space c) eqn:E; [done|]. simpl. by rewrite E.
Qed.

Lemma skip_cons c s : is_space c = false -> skip (c :: s) = c :: s.
Proof. intros H. simpl. by rewrite H. Qed.

Lemma skip_split s : exists w, spaces w /\ s = w ++ skip s.
Proof.
  induction s as [|c s (w & Hw & IH)]; [by exists []; split; [constructor|]|].
  simpl. destruct (is_space c) eqn:E.
  - exists (c :: w). split; [by constructor|]. simpl. by rewrite <- IH.
  - exists []. split; [constructor | done].
Qed.

Lemma parse_digits_app ds rest v :
  digits ds -> Terminal.is_digit (char_at rest 0) = false -> s32 v = v ->
  parse_digits (ds ++ rest) v = (s32 (foldl (fun v c => v * 10 + (c - 48)) v ds), rest).
Proof.
  intros Hd Hr. revert v. induction Hd as [|c ds Hc _ IH]; intros v Hv.
  - simpl. rewrite Hv. destruct rest as [|c r]; [done|]. simpl.
    change (char_at (c :: r) 0) with c in Hr. by rewrite Hr.
  - simpl. rewrite Hc, IH by apply s32_s32. f_equal.
    enough (H : forall x, s32 (foldl (fun v c => v * 10 + (c - 48)) (s32 x) ds) =
                          s32 (foldl (fun v c => v * 10 + (c - 48)) x ds)) by apply H.
    clear. induction ds as [|d ds IH]; intros x; simpl; [apply s32_s32|].
    rewrite <- (IH (s32 x * 10 + (d - 48))), <- (IH (x * 10 + (d - 48))). do 2 f_equal.
    by rewrite <- (s32_add_l (s32 x * 10)), s32_mul_l, s32_add_l.
Qed.

Lemma parse_digits_split s v :
  exists ds, digits ds /\ s = ds ++ snd (parse_digits s v) /\
    Terminal.is_digit (char_at (snd (parse_digits s v)) 0) = false /\
    (Terminal.is_digit (char_at s 0) = true -> ds <> []).
Proof.
  revert v. induction s as [|c s IH]; intros v; simpl.
  - exists []. split_and!; done || constructor.
  - destruct (Terminal.is_digit c) eqn:E.
    + destruct (IH (s32 (v * 10 + (c - 48)))) as (ds & H1 & H2 & H3 & _). exists (c :: ds).
      split_and!; [by constructor | simpl; by rewrite <- H2 | done | done].
    + exists []. split_and!; [constructor | done | done |]. intros H. change (char_at (c :: s) 0) with c in H.
      congruence.
Qed.

(** ** Strings of the grammar are evaluated *)

(** A result that reports an error (or a trap). *)
Definition bad (x : out (Z * calc_parser)) : Prop :=
  match x with Ret (_, pr) => error pr = true | Fault f => f = Trap end.

Lemma good_bad n x : good n true x -> bad x.
Proof. destruct x as [[v pr]|f]; [|done]. intros [_ H]. by apply H. Qed.

Lemma bad_bind x (k : Z * calc_parser -> out (Z * calc_parser)) :
  bad x -> (forall v pr, error pr = true -> bad (k (v, pr))) -> bad (x ≫= k).
Proof. destruct x as [[v pr]|f]; [|done]. intros H Hk. by apply Hk. Qed.

(** With the error flag already set, every parsing function is bad. *)
Lemma parsers_bad pr v :
  error pr = true ->
  bad (Factor pr) /\ bad (Power pr) /\ bad (Term pr) /\ bad (TermLoop v pr) /\ bad (Expr pr) /\
  bad (ExprLoop v pr).
Proof.
  intros He. destruct parsers_good as (H1 & H2 & H3 & H4 & H5 & H6).
  specialize (H1 pr); specialize (H2 pr); specialize (H3 pr); specialize (H4 v pr);
  specialize (H5 pr); specialize (H6 v pr). rewrite He in *.
  split_and!; eapply good_bad; eauto.
Qed.

Definition at_ (s : chars) : calc_parser := mk_pr s false.

(** What follows does not extend a number, nor continue at level [l]. *)
Definition stops (l : nat) (rest : chars) : Prop :=
  Terminal.is_digit (char_at rest 0) = false /\
  ((1 <= l)%nat -> char_at (skip rest) 0 <> 94) /\
  ((2 <= l)%nat -> char_at (skip rest) 0 <> 42 /\ char_at (skip rest) 0 <> 47) /\
  ((3 <= l)%nat -> char_at (skip rest) 0 <> 43 /\ char_at (skip rest) 0 <> 45).

(** The parser outcome [x] agrees with the value [r], [k] being what it is
    for a proper value. *)
Definition outcome (r : value) (x : out (Z * calc_parser)) (k : Z -> out (Z * calc_parser)) : Prop :=
  match r with Val v => x = k v | ETrap => x = Fault Trap | Err => bad x end.

Definition parses (l : nat) (e : exp) (s : chars) : Prop :=
  forall rest,
  match l with
  | 0%nat => stops 0 rest ->
      outcome (eval e) (Factor (at_ (s ++ rest))) (fun v => Ret (v, at_ rest))
  | 1%nat => stops 1 rest ->
      outcome (eval e) (Power (at_ (s ++ rest))) (fun v => Ret (v, at_ (skip rest)))
  | 2%nat => stops 1 rest ->
      outcome (eval e) (Term (at_ (s ++ rest))) (fun v => TermLoop v (at_ (skip rest)))
  | _ => stops 2 rest ->
      outcome (eval e) (Expr (at_ (s ++ rest))) (fun v => ExprLoop v (at_ (skip rest)))
  end.

Lemma stops_le l l' rest : (l' <= l)%nat -> stops l rest -> stops l' rest.
Proof.
  intros H (H1 & H2 & H3 & H4). split_and!; auto; intros; [apply H2 | apply H3 | apply H4]; lia.
Qed.

(** A space-separated operator [c] ends what precedes it. *)
Lemma stops_op l w c t :
  spaces w -> is_space c = false -> Terminal.is_digit c = false ->
  ((1 <= l)%nat -> c <> 94) -> ((2 <= l)%nat -> c <> 42 /\ c <> 47) -> ((3 <= l)%nat -> c <> 43 /\ c <> 45) ->
  stops l (w ++ c :: t) /\ skip (w ++ c :: t) = c :: t.
Proof.
  intros Hw Hs Hd H1 H2 H3. rewrite skip_spaces_app, skip_cons by done. split; [|done].
  split.
  - destruct Hw as [|x w Hx _]; [exact Hd|]. change (char_at ((x :: w) ++ c :: t) 0) with x.
    unfold is_space in Hx. unfold Terminal.is_digit. lia.
  - rewrite skip_spaces_app, skip_cons by done. by split_and!.
Qed.

Lemma TermLoop_stop v rest : stops 2 rest -> TermLoop v (at_ (skip rest)) = Ret (v, at_ (skip rest)).
Proof.
  intros (_ & _ & H & _). destruct (H ltac:(lia)) as [H1 H2].
  rewrite TermLoop_eq. unfold term_loop_body, skip_spaces, at_, peek. cbn [p error].
  rewrite skip_skip, (proj2 (Z.eqb_neq _ 42)), (proj2 (Z.eqb_neq _ 47)) by done. done.
Qed.

Lemma ExprLoop_stop v rest : stops 3 rest -> ExprLoop v (at_ (skip rest)) = Ret (v, at_ (skip rest)).
Proof.
  intros (_ & _ & _ & H). destruct (H ltac:(lia)) as [H1 H2].
  rewrite ExprLoop_eq. unfold expr_loop_body, skip_spaces, at_, peek. cbn [p error].
  rewrite skip_skip, (proj2 (Z.eqb_neq _ 43)), (proj2 (Z.eqb_neq _ 45)) by done. done.
Qed.

(** The first step of each function at a given character. *)
Lemma factor_at c s :
  is_space c = false ->
  Factor (at_ (c :: s)) =
  if c =? 45 then '(v, pr) ← Factor (at_ s); Ret (s32 (- v), pr)
  else if c =? 43 then Factor (at_ s)
  else if c =? 40 then
    '(value, pr) ← Expr (at_ s);
    let pr := skip_spaces pr in
    if negb (peek pr =? 41) then Ret (0, fail pr) else Ret (value, advance pr)
  else if (c <? 48) || (57 <? c) then Ret (0, fail (at_ (c :: s)))
  else let '(value, r) := parse_digits (c :: s) 0 in Ret (value, at_ r).
Proof.
  intros Hc. rewrite Factor_eq. unfold factor_body, skip_spaces, at_. cbn [p error].
  rewrite skip_cons by done. reflexivity.
Qed.

Lemma factor_space c s : is_space c = true -> Factor (at_ (c :: s)) = Factor (at_ s).
Proof.
  intros Hc. rewrite !Factor_eq. unfold factor_body, skip_spaces, at_. cbn [p error skip].
  by rewrite Hc.
Qed.

Lemma parses_num ds : ds <> [] -> digits ds -> parses 0 (Num ds) ds.
Proof.
  intros Hne Hd rest (Hr & _). cbn [eval outcome]. destruct ds as [|c ds]; [done|].
  pose proof Hd as Hd'. inversion Hd' as [|? ? Hc _]; subst. cbn [app].
  unfold Terminal.is_digit in Hc.
  rewrite factor_at by (unfold is_space; lia).
  rewrite (proj2 (Z.eqb_neq c 45)), (proj2 (Z.eqb_neq c 43)), (proj2 (Z.eqb_neq c 40)) by lia.
  replace ((c <? 48) || (57 <? c)) with false by lia.
  rewrite app_comm_cons, parse_digits_app by done. done.
Qed.

Lemma parses_neg e s : parses 0 e s -> parses 0 (Neg e) (45 :: s).
Proof.
  intros IH rest Hr. cbn [app]. rewrite factor_at by done. cbn [Z.eqb Pos.eqb].
  specialize (IH rest Hr). cbn [eval]. destruct (eval e); cbn [vbind outcome] in *.
  - by rewrite IH.
  - eapply bad_bind; [done|]. by intros.
  - by rewrite IH.
Qed.

Lemma parses_paren e s w : parses 3 e s -> spaces w -> parses 0 e (40 :: s ++ w ++ [41]).
Proof.
  intros IH Hw rest Hr. cbn [app]. rewrite factor_at by done. cbn [Z.eqb Pos.eqb].
  replace ((s ++ w ++ [41]) ++ rest) with (s ++ (w ++ 41 :: rest)) by (by rewrite <- !app_assoc).
  destruct (stops_op 3 w 41 rest Hw) as [Hst Hsk]; try done.
  specialize (IH (w ++ 41 :: rest) (stops_le 3 2 _ ltac:(lia) Hst)). cbv beta iota in IH.
  destruct (eval e) as [v| |]; cbn [outcome] in *.
  - rewrite IH, ExprLoop_stop by done. rewrite Hsk. reflexivity.
  - eapply bad_bind; [done|]. intros v pr He. cbv zeta. destruct (negb _); [done|]. exact He.
  - by rewrite IH.
Qed.

Lemma parses_power e s : parses 0 e s -> parses 1 e s.
Proof.
  intros IH rest Hr. specialize (IH rest (stops_le 1 0 _ ltac:(lia) Hr)). cbv beta iota in IH.
  rewrite Power_eq. unfold power_body. destruct (eval e) as [v| |]; cbn [outcome] in *.
  - rewrite IH. cbn [mbind out_mbind]. unfold peek, skip_spaces, at_. cbn [p error].
    destruct Hr as (_ & H & _). by rewrite (proj2 (Z.eqb_neq _ 94)) by auto.
  - eapply bad_bind; [done|]. intros v pr He. cbv zeta. destruct (_ =? _); [|done].
    eapply bad_bind; [by apply (parsers_bad _ 0)|]. intros x q Hq.
    destruct (ipow_settles v x (error q)) as (r & e' & -> & Hm). cbn. auto.
  - by rewrite IH.
Qed.

Lemma parses_pow a s w b t :
  parses 0 a s -> spaces w -> parses 1 b t -> parses 1 (Pow a b) (s ++ w ++ 94 :: t).
Proof.
  intros IHa Hw IHb rest Hr.
  replace ((s ++ w ++ 94 :: t) ++ rest) with (s ++ (w ++ 94 :: (t ++ rest)))
    by (rewrite <- !app_assoc; done).
  destruct (stops_op 0 w 94 (t ++ rest) Hw) as [Hst Hsk]; try done; try lia.
  specialize (IHa _ Hst). specialize (IHb rest Hr). cbv beta iota in IHa, IHb.
  rewrite Power_eq. unfold power_body. cbn [eval]. destruct (eval a) as [x| |]; cbn [vbind outcome] in *.
  - rewrite IHa. cbn [mbind out_mbind]. unfold skip_spaces. cbn [p error at_]. rewrite Hsk.
    change (peek _ =? 94) with true. cbv iota zeta. change (advance _) with (at_ (t ++ rest)).
    destruct (eval b) as [y| |]; cbn [vbind outcome] in *.
    + rewrite IHb. cbn [mbind out_mbind error at_]. destruct (Z.ltb_spec y 0) as [Hy|Hy].
      * unfold ipow. rewrite (proj2 (Z.ltb_lt _ _)) by done. done.
      * rewrite ipow_correct by done. done.
    + eapply bad_bind; [done|]. intros y q Hq.
      destruct (ipow_settles x y (error q)) as (r & e' & -> & Hm). cbn. auto.
    + by rewrite IHb.
  - eapply bad_bind; [done|]. intros v pr He. cbv zeta. destruct (_ =? _); [|done].
    eapply bad_bind; [by apply (parsers_bad _ 0)|]. intros y q Hq.
    destruct (ipow_settles v y (error q)) as (r & e' & -> & Hm). cbn. auto.
  - by rewrite IHa.
Qed.

Lemma parses_term e s : parses 1 e s -> parses 2 e s.
Proof.
  intros IH rest Hr. specialize (IH rest Hr). cbv beta iota in IH. rewrite Term_eq. unfold chain_body.
  destruct (eval e) as [v| |]; cbn [outcome] in *; [by rewrite IH | | by rewrite IH].
  eapply bad_bind; [done|]. intros v pr He. by apply parsers_bad.
Qed.

Lemma parses_expr e s : parses 2 e s -> parses 3 e s.
Proof.
  intros IH rest Hr. specialize (IH rest (stops_le 2 1 _ ltac:(lia) Hr)). cbv beta iota in IH.
  rewrite Expr_eq. unfold chain_body. destruct (eval e) as [v| |]; cbn [outcome] in *.
  - rewrite IH, TermLoop_stop by done. done.
  - eapply bad_bind; [done|]. intros v pr He. by apply parsers_bad.
  - by rewrite IH.
Qed.

Lemma app_op s w (c : Z) t rest : (s ++ w ++ c :: t) ++ rest = s ++ (w ++ c :: (t ++ rest)).
Proof. by rewrite <- !app_assoc. Qed.

Lemma parses_mul a s w b t :
  parses 2 a s -> spaces w -> parses 1 b t -> parses 2 (Mul a b) (s ++ w ++ 42 :: t).
Proof.
  intros IHa Hw IHb rest Hr. rewrite app_op.
  destruct (stops_op 1 w 42 (t ++ rest) Hw) as [Hst Hsk]; try done; try lia.
  specialize (IHa _ Hst). specialize (IHb rest Hr). cbv beta iota in IHa, IHb. rewrite Hsk in IHa.
  cbn [eval]. destruct (eval a) as [x| |]; cbn [vbind outcome] in *; try done.
  rewrite IHa, TermLoop_eq. unfold term_loop_body. change (peek _ =? 42) with true. cbv iota zeta.
  change (advance _) with (at_ (t ++ rest)).
  destruct (eval b) as [y| |]; cbn [vbind outcome] in *; [by rewrite IHb | | by rewrite IHb].
  eapply bad_bind; [done|]. intros y q Hq. by apply parsers_bad.
Qed.

Lemma parses_div a s w b t :
  parses 2 a s -> spaces w -> parses 1 b t -> parses 2 (Div a b) (s ++ w ++ 47 :: t).
Proof.
  intros IHa Hw IHb rest Hr. rewrite app_op.
  destruct (stops_op 1 w 47 (t ++ rest) Hw) as [Hst Hsk]; try done; try lia.
  specialize (IHa _ Hst). specialize (IHb rest Hr). cbv beta iota in IHa, IHb. rewrite Hsk in IHa.
  cbn [eval]. destruct (eval a) as [x| |]; cbn [vbind outcome] in *; try done.
  rewrite IHa, TermLoop_eq. unfold term_loop_body. change (peek _ =? 42) with false.
  change (peek _ =? 47) with true. cbv iota zeta. change (advance _) with (at_ (t ++ rest)).
  destruct (eval b) as [y| |]; cbn [vbind outcome] in *; [| | by rewrite IHb].
  - rewrite IHb. cbn [mbind out_mbind]. destruct (y =? 0); [done|]. unfold idiv.
    by destruct (_ && _).
  - eapply bad_bind; [done|]. intros y q Hq. cbv beta iota. destruct (y =? 0); [done|].
    unfold idiv. destruct (_ && _); [done|]. by apply parsers_bad.
Qed.

Lemma parses_addsub op c a s w b t :
  (c = 43 /\ op = Add \/ c = 45 /\ op = Sub) ->
  parses 3 a s -> spaces w -> parses 2 b t -> parses 3 (op a b) (s ++ w ++ c :: t).
Proof.
  intros Hop IHa Hw IHb rest Hr. rewrite app_op.
  destruct (stops_op 2 w c (t ++ rest) Hw) as [Hst Hsk];
    try (by destruct Hop as [[-> _]|[-> _]]); try (destruct Hop as [[-> _]|[-> _]]; lia).
  specialize (IHa _ Hst). specialize (IHb rest (stops_le 2 1 _ ltac:(lia) Hr)).
  cbv beta iota in IHa, IHb. rewrite Hsk in IHa.
  destruct Hop as [[-> ->]|[-> ->]]; cbn [eval];
    (destruct (eval a) as [x| |]; cbn [vbind outcome] in *; try done);
    rewrite IHa, ExprLoop_eq; unfold expr_loop_body; [change (peek _ =? 43) with true |
      change (peek _ =? 43) with false; change (peek _ =? 45) with true];
    cbv iota zeta; change (advance _) with (at_ (t ++ rest));
    (destruct (eval b) as [y| |]; cbn [vbind outcome] in *;
      [by rewrite IHb, TermLoop_stop | | by rewrite IHb]);
    (eapply bad_bind; [done|]); intros y q Hq; by apply parsers_bad.
Qed.

Lemma reads_parses l e s : reads l e s -> parses l e s.
Proof.
  induction 1; auto using parses_num, parses_neg, parses_paren, parses_power, parses_pow,
    parses_term, parses_mul, parses_div, parses_expr.
  - intros rest Hr. cbn [app]. rewrite factor_space by done. by apply IHreads.
  - intros rest Hr. cbn [app eval]. rewrite factor_at by done. cbn [Z.eqb Pos.eqb].
    by apply IHreads.
  - apply (parses_addsub Add 43); auto.
  - apply (parses_addsub Sub 45); auto.
Qed.

(** ** Accepted strings are in the grammar *)

(** A call of [f] that returns without error has read a phrase of level [l];
    [tr] says whether it also skips the spaces behind it. *)
Definition sound (l : nat) (tr : bool) (f : parser) (pr : calc_parser) : Prop :=
  forall v pr', f pr = Ret (v, pr') -> error pr' = false ->
  error pr = false /\ exists e s w, p pr = s ++ w ++ p pr' /\ spaces w /\
    (tr = false -> w = []) /\ reads l e s /\ eval e = Val v.

(** A loop that has read [e0] so far with value [x]. *)
Definition loop_sound (l : nat) (loop : Z -> parser) (pr : calc_parser) : Prop :=
  forall x v pr', loop x pr = Ret (v, pr') -> error pr' = false ->
  error pr = false /\ forall e0 s0 w0, spaces w0 -> reads l e0 s0 -> eval e0 = Val x ->
    exists e s w, s0 ++ w0 ++ p pr = s ++ w ++ p pr' /\ spaces w /\ reads l e s /\ eval e = Val v.

Lemma calc_good_ret (f : parser) pr v pr' :
  (forall pr, good (length (p pr)) (error pr) (f pr)) -> f pr = Ret (v, pr') ->
  (length (p pr') <= length (p pr))%nat.
Proof. intros Hg H. specialize (Hg pr). rewrite H in Hg. apply Hg. Qed.

Lemma peek_cons pr c : (peek pr =? c) = true -> c <> 0 -> p pr = c :: p (advance pr).
Proof.
  unfold peek, char_at, advance. intros H%Z.eqb_eq Hc. cbn [p].
  destruct (p pr) as [|x s]; [by destruct Hc | by rewrite <- H].
Qed.

(** Split the leading spaces off and name the character under the cursor. *)
Lemma skip_peek pr c :
  (peek (skip_spaces pr) =? c) = true -> c <> 0 ->
  exists w, spaces w /\ p pr = w ++ c :: p (advance (skip_spaces pr)) /\
    (length (p (advance (skip_spaces pr))) < length (p pr))%nat.
Proof.
  intros H Hc. pose proof (peek_cons _ _ H Hc) as Hp. destruct (skip_split (p pr)) as (w & Hw & E).
  exists w. change (p (skip_spaces pr)) with (skip (p pr)) in Hp. rewrite Hp in E.
  split_and!; [done | done |]. rewrite E, length_app. simpl. lia.
Qed.

Lemma reads_spaces w e s : spaces w -> reads 0 e s -> reads 0 e (w ++ s).
Proof. induction 1; simpl; [done|]. intros. apply r_sp; auto. Qed.

Lemma spaces_app w w' : spaces w -> spaces w' -> spaces (w ++ w').
Proof. intros. by apply Forall_app. Qed.

Lemma factor_sound pr :
  (forall q, (length (p q) < length (p pr))%nat -> sound 0 false Factor q /\ sound 3 true Expr q) ->
  sound 0 false Factor pr.
Proof.
  intros IH v pr' H He. rewrite Factor_eq in H. unfold factor_body in H. cbv zeta in H.
  destruct (peek (skip_spaces pr) =? 45) eqn:E1.
  { destruct (skip_peek pr 45 E1) as (w & Hw & Hp & Hl); [done|].
    inv_ret. destruct r as [x q]. injection H as <- <-.
    destruct (proj1 (IH _ Hl) _ _ Hr He) as (He' & e & s & w' & Hs & _ & Hw' & Hrd & Hev).
    split; [done|]. exists (Neg e), (w ++ 45 :: s), []. rewrite Hp, Hs, Hw' by done.
    split_and!; [by rewrite <- !app_assoc | constructor | done | | cbn; by rewrite Hev].
    apply reads_spaces; [done|]. by apply r_neg. }
  destruct (peek (skip_spaces pr) =? 43) eqn:E2.
  { destruct (skip_peek pr 43 E2) as (w & Hw & Hp & Hl); [done|].
    destruct (proj1 (IH _ Hl) _ _ H He) as (He' & e & s & w' & Hs & _ & Hw' & Hrd & Hev).
    split; [done|]. exists (Pos e), (w ++ 43 :: s), []. rewrite Hp, Hs, Hw' by done.
    split_and!; [by rewrite <- !app_assoc | constructor | done | | cbn; by rewrite Hev].
    apply reads_spaces; [done|]. by apply r_pos. }
  destruct (peek (skip_spaces pr) =? 40) eqn:E3.
  { destruct (skip_peek pr 40 E3) as (w & Hw & Hp & Hl); [done|].
    inv_ret. destruct r as [x q]. destruct (peek (skip_spaces q) =? 41) eqn:E4; cbn [negb] in H;
      injection H as <- <-; [|done].
    destruct (skip_peek q 41 E4) as (w2 & Hw2 & Hq & _); [done|].
    destruct (proj2 (IH _ Hl) _ _ Hr He) as (He' & e & s & w' & Hs & Hw' & _ & Hrd & Hev).
    split; [done|]. exists e, (w ++ 40 :: s ++ (w' ++ w2) ++ [41]), []. rewrite Hp, Hs, Hq.
    split_and!; [by rewrite <- ?app_assoc; cbn [app]; rewrite <- ?app_assoc | constructor | done | | done].
    apply reads_spaces; [done|]. apply r_paren; [done|]. by apply spaces_app. }
  destruct (_ || _) eqn:E5; [injection H as <- <-; done|].
  destruct (skip_split (p pr)) as (w & Hw & Hp).
  destruct (parse_digits_split (p (skip_spaces pr)) 0) as (ds & Hd & Hs & Hnd & Hne).
  assert (Hne' : ds <> []). { apply Hne. fold (peek (skip_spaces pr)). unfold Terminal.is_digit. lia. }
  pose proof (parse_digits_app ds _ 0 Hd Hnd eq_refl) as Hpd. rewrite <- Hs in Hpd.
  rewrite Hpd in H. injection H as <- <-. split; [done|].
  exists (Num ds), (w ++ ds), []. cbn [p] in *. split_and!; [| constructor | done | | done].
  - rewrite <- app_assoc. etransitivity; [exact Hp|]. f_equal. exact Hs.
  - apply reads_spaces; [done|]. by apply r_num.
Qed.

Lemma power_sound pr :
  sound 0 false Factor pr ->
  (forall q, (length (p q) < length (p pr))%nat -> sound 1 true Power q) -> sound 1 true Power pr.
Proof.
  intros IHf IHp v pr' H He. rewrite Power_eq in H. unfold power_body in H. inv_ret.
  destruct r as [x q]. cbv zeta in H.
  pose proof (calc_good_ret Factor pr x q (proj1 parsers_good) Hr) as Hlq.
  destruct (peek (skip_spaces q) =? 94) eqn:E.
  - destruct (skip_peek q 94 E) as (w & Hw & Hq & Hl); [done|]. inv_ret. destruct r as [y q2].
    destruct (ipow_settles x y (error q2)) as (z & er & Hip & Hmono). rewrite Hip in H.
    cbn in H. injection H as <- <-. cbn [error p] in *. subst er.
    assert (He2 : error q2 = false) by (destruct (error q2); [by destruct Hmono | done]).
    destruct (IHp (advance (skip_spaces q)) ltac:(lia) _ _ Hr0 He2) as (He1 & b & t & w2 & Ht & Hw2 & _ & Hrb & Hvb).
    destruct (IHf _ _ Hr He1) as (He0 & a & s & w1 & Hs & _ & Hw1 & Hra & Hva).
    split; [done|]. rewrite (Hw1 eq_refl) in Hs. exists (Pow a b), (s ++ w ++ 94 :: t), w2.
    split_and!; [| done | done | by apply r_pow |].
    + rewrite Hs, Hq, Ht. cbn [app]. by rewrite <- !app_assoc.
    + cbn [eval]. rewrite Hva, Hvb. cbn [vbind]. unfold ipow in Hip.
      destruct (Z.ltb_spec y 0); [congruence|].
      pose proof (ipow_correct x y (error q2) ltac:(lia)) as Hc. unfold ipow in Hc.
      rewrite (proj2 (Z.ltb_ge _ _)) in Hc by done. rewrite Hip in Hc. by injection Hc as <-.
  - injection H as <- <-. destruct (IHf _ _ Hr He) as (He0 & a & s & w1 & Hs & _ & Hw1 & Hra & Hva).
    split; [done|]. destruct (skip_split (p q)) as (w & Hw & Hq). rewrite (Hw1 eq_refl) in Hs.
    exists a, s, w. split_and!; [| done | done | by apply r_power | done].
    rewrite Hs. cbn [app]. f_equal. exact Hq.
Qed.

Lemma term_loop_sound pr :
  (forall q, (length (p q) < length (p pr))%nat -> sound 1 true Power q /\ loop_sound 2 TermLoop q) ->
  loop_sound 2 TermLoop pr.
Proof.
  intros IH x v pr' H He. rewrite TermLoop_eq in H. unfold term_loop_body in H. cbv zeta in H.
  assert (Hop : forall c op z y q2, (c = 42 /\ op = Mul \/ c = 47 /\ op = Div) ->
    (peek (skip_spaces pr) =? c) = true -> Power (advance (skip_spaces pr)) = Ret (y, q2) ->
    (forall a b, eval a = Val x -> eval b = Val y -> eval (op a b) = Val z) ->
    TermLoop z q2 = Ret (v, pr') ->
    error pr = false /\ forall e0 s0 w0, spaces w0 -> reads 2 e0 s0 -> eval e0 = Val x ->
    exists e s w, s0 ++ w0 ++ p pr = s ++ w ++ p pr' /\ spaces w /\ reads 2 e s /\ eval e = Val v).
  { intros c op z y q2 Hc E Hpw Hev Hloop.
    destruct (skip_peek pr c E) as (w & Hw & Hp & Hl); [lia|].
    pose proof (calc_good_ret Power _ _ _ (proj1 (proj2 parsers_good)) Hpw) as Hl2.
    destruct (proj2 (IH q2 ltac:(lia)) _ _ _ Hloop He) as [He2 Hfin].
    destruct (proj1 (IH _ Hl) _ _ Hpw He2) as (He1 & b & t & w2 & Ht & Hw2 & _ & Hrb & Hvb).
    split; [done|]. intros e0 s0 w0 Hw0 Hr0 Hv0.
    destruct (Hfin (op e0 b) (s0 ++ (w0 ++ w) ++ c :: t) w2) as (e & s & w3 & Heq & Hw3 & Hr3 & Hv3);
      [done | | by apply Hev |].
    { pose proof (spaces_app _ _ Hw0 Hw). destruct Hc as [[-> ->]|[-> ->]]; by constructor. }
    exists e, s, w3. split_and!; auto. rewrite <- Heq, Hp, Ht.
    by rewrite <- ?app_assoc; cbn [app]; rewrite <- ?app_assoc. }
  destruct (peek (skip_spaces pr) =? 42) eqn:E1.
  { inv_ret. destruct r as [y q2]. apply (Hop 42 Mul (s32 (x * y)) y q2); auto.
    intros a b Ha Hb. cbn. by rewrite Ha, Hb. }
  destruct (peek (skip_spaces pr) =? 47) eqn:E2.
  { inv_ret. destruct r as [y q2]. destruct (y =? 0) eqn:Ey; [injection H as <- <-; done|].
    unfold idiv in H. destruct (_ && _) eqn:Et; [done|]. cbn [mbind out_mbind] in H.
    apply (Hop 47 Div (Z.quot x y) y q2); auto.
    intros a b Ha Hb. cbn [eval]. rewrite Ha, Hb. cbn [vbind]. by rewrite Ey, Et. }
  injection H as <- <-. split; [done|]. intros e0 s0 w0 Hw0 Hr0 Hv0.
  destruct (skip_split (p pr)) as (w & Hw & Hp). exists e0, s0, (w0 ++ w).
  split_and!; [|by apply spaces_app | done | done].
  rewrite <- app_assoc. do 2 f_equal. exact Hp.
Qed.

Lemma expr_loop_sound pr :
  (forall q, (length (p q) < length (p pr))%nat -> sound 2 true Term q /\ loop_sound 3 ExprLoop q) ->
  loop_sound 3 ExprLoop pr.
Proof.
  intros IH x v pr' H He. rewrite ExprLoop_eq in H. unfold expr_loop_body in H. cbv zeta in H.
  assert (Hop : forall c op z y q2, (c = 43 /\ op = Add \/ c = 45 /\ op = Sub) ->
    (peek (skip_spaces pr) =? c) = true -> Term (advance (skip_spaces pr)) = Ret (y, q2) ->
    (forall a b, eval a = Val x -> eval b = Val y -> eval (op a b) = Val z) ->
    ExprLoop z q2 = Ret (v, pr') ->
    error pr = false /\ forall e0 s0 w0, spaces w0 -> reads 3 e0 s0 -> eval e0 = Val x ->
    exists e s w, s0 ++ w0 ++ p pr = s ++ w ++ p pr' /\ spaces w /\ reads 3 e s /\ eval e = Val v).
  { intros c op z y q2 Hc E Hpw Hev Hloop.
    destruct (skip_peek pr c E) as (w & Hw & Hp & Hl); [lia|].
    pose proof (calc_good_ret Term _ _ _ (proj1 (proj2 (proj2 parsers_good))) Hpw) as Hl2.
    destruct (proj2 (IH q2 ltac:(lia)) _ _ _ Hloop He) as [He2 Hfin].
    destruct (proj1 (IH _ Hl) _ _ Hpw He2) as (He1 & b & t & w2 & Ht & Hw2 & _ & Hrb & Hvb).
    split; [done|]. intros e0 s0 w0 Hw0 Hr0 Hv0.
    destruct (Hfin (op e0 b) (s0 ++ (w0 ++ w) ++ c :: t) w2) as (e & s & w3 & Heq & Hw3 & Hr3 & Hv3);
      [done | | by apply Hev |].
    { pose proof (spaces_app _ _ Hw0 Hw). destruct Hc as [[-> ->]|[-> ->]]; by constructor. }
    exists e, s, w3. split_and!; auto. rewrite <- Heq, Hp, Ht.
    by rewrite <- ?app_assoc; cbn [app]; rewrite <- ?app_assoc. }
  destruct (peek (skip_spaces pr) =? 43) eqn:E1.
  { inv_ret. destruct r as [y q2]. apply (Hop 43 Add (s32 (x + y)) y q2); auto.
    intros a b Ha Hb. cbn. by rewrite Ha, Hb. }
  destruct (peek (skip_spaces pr) =? 45) eqn:E2.
  { inv_ret. destruct r as [y q2]. apply (Hop 45 Sub (s32 (x - y)) y q2); auto.
    intros a b Ha Hb. cbn. by rewrite Ha, Hb. }
  injection H as <- <-. split; [done|]. intros e0 s0 w0 Hw0 Hr0 Hv0.
  destruct (skip_split (p pr)) as (w & Hw & Hp). exists e0, s0, (w0 ++ w).
  split_and!; [|by apply spaces_app | done | done].
  rewrite <- app_assoc. do 2 f_equal. exact Hp.
Qed.

(** A first operand followed by its loop. *)
Lemma chain_sound l f (loop : Z -> parser) g pr :
  (forall e s, reads l e s -> reads (S l) e s) ->
  (forall pr, good (length (p pr)) (error pr) (f pr)) ->
  (forall q, g q = chain_body f loop q) -> sound l true f pr ->
  (forall q, (length (p q) <= length (p pr))%nat -> loop_sound (S l) loop q) -> sound (S l) true g pr.
Proof.
  intros Hup Hgood Hg Hf Hl v pr' H He. rewrite Hg in H. unfold chain_body in H. inv_ret.
  destruct r as [x q]. pose proof (calc_good_ret f pr x q Hgood Hr) as Hlq.
  destruct (Hl q Hlq _ _ _ H He) as [He1 Hfin].
  destruct (Hf _ _ Hr He1) as (He0 & e & s & w & Hs & Hw & _ & Hrd & Hev).
  split; [done|]. destruct (Hfin e s w) as (e' & s' & w' & Heq & Hw' & Hr' & Hv'); auto.
  exists e', s', w'. split_and!; [by rewrite Hs | done | done | done | done].
Qed.

Lemma sound_all n pr :
  (length (p pr) <= n)%nat ->
  sound 0 false Factor pr /\ sound 1 true Power pr /\ sound 2 true Term pr /\
  loop_sound 2 TermLoop pr /\ sound 3 true Expr pr /\ loop_sound 3 ExprLoop pr.
Proof.
  revert pr. induction n as [n IH] using lt_wf_ind. intros pr Hn.
  assert (Hlt : forall q, (length (p q) < length (p pr))%nat ->
    sound 0 false Factor q /\ sound 1 true Power q /\ sound 2 true Term q /\
    loop_sound 2 TermLoop q /\ sound 3 true Expr q /\ loop_sound 3 ExprLoop q).
  { intros q Hq. apply (IH (length (p q))); lia. }
  assert (H0 : sound 0 false Factor pr) by (apply factor_sound; intros q Hq; split; by apply Hlt).
  assert (H1 : sound 1 true Power pr) by (apply power_sound; [done | intros q Hq; by apply Hlt]).
  assert (H2 : forall q, (length (p q) <= length (p pr))%nat -> loop_sound 2 TermLoop q).
  { intros q Hq. apply term_loop_sound. intros q' Hq'. split; apply Hlt; lia. }
  destruct parsers_good as (_ & Gp & Gt & _).
  assert (H3 : sound 2 true Term pr)
    by (apply (chain_sound 1 Power TermLoop); auto using r_term, Term_eq).
  assert (H4 : forall q, (length (p q) <= length (p pr))%nat -> loop_sound 3 ExprLoop q).
  { intros q Hq. apply expr_loop_sound. intros q' Hq'. split; apply Hlt; lia. }
  split_and!; auto.
  apply (chain_sound 2 Term ExprLoop); auto using r_expr, Expr_eq.
Qed.

(** An accepted string is a phrase of the grammar, up to spaces at its end. *)
Lemma calc_eval_sound s v :
  no_nul s -> calc_eval s = Ret (v, false) ->
  exists e t w, s = t ++ w /\ spaces w /\ reads 3 e t /\ eval e = Val v.
Proof.
  intros Hs. unfold calc_eval. fold (at_ s). change (parse_expr (calc_fuel s) (at_ s)) with (Expr (at_ s)).
  intros H. inv_ret. destruct r as [x pr]. injection H as <- H.
  apply orb_false_iff in H as [He Hz]. apply negb_false_iff, Z.eqb_eq in Hz.
  destruct (sound_all (length s) (at_ s)) as (_ & _ & _ & _ & Hx & _); [done|].
  destruct (Hx _ _ Hr He) as (_ & e & t & w & Ht & Hw & _ & Hrd & Hev). cbn [p at_] in Ht.
  destruct (skip_split (p pr)) as (w2 & Hw2 & Hp).
  assert (Hnil : skip (p pr) = []).
  { unfold peek in Hz. cbn [p skip_spaces] in Hz. destruct (skip (p pr)) as [|c r] eqn:E; [done|].
    change (char_at (c :: r) 0) with c in Hz. subst c. exfalso.
    rewrite Ht, Hp in Hs. apply Forall_app in Hs as [_ Hs]. apply Forall_app in Hs as [_ Hs].
    apply Forall_app in Hs as [_ Hs]. by inversion Hs. }
  rewrite Hnil, app_nil_r in Hp. exists e, t, (w ++ w2). rewrite Hp in Ht.
  split_and!; [done | by apply spaces_app | done | done].
Qed.

Lemma spaces_stop w : spaces w -> stops 3 w /\ skip w = [].
Proof.
  intros Hw. assert (Hsk : skip w = []) by (rewrite <- (app_nil_r w), skip_spaces_app by done; done).
  split; [|done]. split.
  - destruct Hw as [|c w Hc _]; [done|]. change (char_at (c :: w) 0) with c.
    unfold is_space in Hc. unfold Terminal.is_digit. lia.
  - rewrite Hsk. by split_and!.
Qed.

(** What [calc_eval] does on a phrase whose tree has the value [r]. *)
Definition calc_agrees (r : value) (x : out (Z * bool)) : Prop :=
  match r with
  | Val v => x = Ret (v, false)
  | ETrap => x = Fault Trap
  | Err => (exists v, x = Ret (v, true)) \/ x = Fault Trap
  end.

Lemma calc_eval_reads e t w : spaces w -> reads 3 e t -> calc_agrees (eval e) (calc_eval (t ++ w)).
Proof.
  intros Hw Hrd. destruct (spaces_stop w Hw) as [Hst Hsk]. unfold calc_eval. fold (at_ (t ++ w)).
  change (parse_expr (calc_fuel (t ++ w)) (at_ (t ++ w))) with (Expr (at_ (t ++ w))).
  pose proof (reads_parses _ _ _ Hrd w (stops_le 3 2 w ltac:(lia) Hst)) as H. cbv beta iota in H.
  destruct (eval e) as [v| |]; cbn [outcome calc_agrees] in *.
  - rewrite H, ExprLoop_stop, Hsk by done. reflexivity.
  - destruct (Expr (at_ (t ++ w))) as [[v pr]|f]; cbn in H; [left|right].
    + exists v. cbn. by rewrite H.
    + cbn. congruence.
  - by rewrite H.
Qed.

(** The recursion ends on every string. *)
Lemma calc_eval_ends s : (exists v err, calc_eval s = Ret (v, err)) \/ calc_eval s = Fault Trap.
Proof.
  unfold calc_eval. change (parse_expr (calc_fuel s) (mk_pr s false)) with (Expr (at_ s)).
  destruct parsers_good as (_ & _ & _ & _ & H & _). specialize (H (at_ s)).
  destruct (Expr (at_ s)) as [[v pr]|f]; [left; eauto | right; by rewrite H].
Qed.

(** ** Claims *)

(** C16. The calculator is a correct parser and evaluator: it reports success
    with value [v] exactly on the strings that the grammar derives (operators
    by precedence, '^' to the right, '+ - * /' to the left, unary signs,
    parentheses, spaces and tabs between tokens) with a tree whose value in
    wrapping 32-bit arithmetic is [v]. *)
Theorem calc_eval_correct s v :
  no_nul s ->
  (calc_eval s = Ret (v, false) <->
   exists e t w, s = t ++ w /\ spaces w /\ reads 3 e t /\ eval e = Val v).
Proof.
  intros Hs. split; [by apply calc_eval_sound|]. intros (e & t & w & -> & Hw & Hrd & Hev).
  pose proof (calc_eval_reads e t w Hw Hrd) as H. by rewrite Hev in H.
Qed.

(** "2*(1+3) " *)
Lemma calc_eval_correct_witness :
  no_nul $"2*(1+3) " /\ calc_eval $"2*(1+3) " = Ret (8, false).
Proof.
  assert (Hn : no_nul $"2*(1+3) ") by (repeat constructor; discriminate).
  split; [exact Hn|]. apply (calc_eval_correct _ 8 Hn).
  assert (Hd : forall c, Terminal.is_digit c = true -> reads 0 (Num [c]) [c]).
  { intros c Hc. apply r_num; [discriminate | by repeat constructor]. }
  exists (Mul (Num $"2") (Add (Num $"1") (Num $"3"))), ($"2" ++ [] ++ 42 :: (40 :: ($"1" ++ [] ++ 43 :: $"3") ++ [] ++ [41])), $" ".
  split_and!; [reflexivity | by repeat constructor | | reflexivity].
  apply r_expr, r_mul; [by apply r_term, r_power, Hd | constructor |].
  apply r_power, r_paren; [|constructor]. apply r_add; [by apply r_expr, r_term, r_power, Hd | constructor |].
  by apply r_term, r_power, Hd.
Defined.

(** The calculator always terminates: for every string (balanced or not)
    the recursion ends, with a value and an error flag or with the divide
    error that LONG_MIN / -1 raises. *)
Theorem calc_eval_total s :
  (exists v err, calc_eval s = Ret (v, err)) \/ calc_eval s = Fault Trap.
Proof. apply calc_eval_ends. Qed.

End CalcSpec.
