(* ===== verification/Mlang.v ===== *)
(** * The script language (src/src/mlang.c)

    MyLang: assignments, [print], [if] and [while] blocks closed by [end],
    over 32 integer variables; expressions are handed to the calculator
    after the variable names have been replaced by numbers.  Lines are the
    strings of [lines[k]] without their terminator.  A [while] runs at most
    10000 times; a nested block inside an [if] is run as a script of its
    own, which is the only recursion ([mlang_exec_script_n]). *)

From S2P Require Import Prelude Terminal Calc.

Module Mlang.

Definition MAX_VARS : nat := 32.
Definition MAX_NAME : nat := 16.
Definition MAX_LINE : nat := 128.
Definition MAX_LINES : nat := 64.

Record var : Type := mk_var { name : chars; value : Z; used : bool }.
#[export] Instance var_inhabited : Inhabited var := populate (mk_var (replicate MAX_NAME 0) 0 false).

Record mlst : Type := mk_ml { vars : list var; tty : Terminal.term }.

Definition set_vars (v : list var) (s : mlst) : mlst := mk_ml v (tty s).
Definition say (c : chars) (s : mlst) : mlst := mk_ml (vars s) (Terminal.terminal_writestring c (tty s)).
Definition putchar (c : Z) (s : mlst) : mlst := mk_ml (vars s) (Terminal.terminal_putchar c (tty s)).

Definition str_eq (a b : chars) : bool := c_streq a b.
Definition str_copy (d s : chars) (max : nat) : chars := c_strcpy_truncate d s max.

Fixpoint skip_ws (p : chars) : chars :=
  match p with
  | c :: p' => if (c =? 32) || (c =? 9) then skip_ws p' else p
  | [] => []
  end.

Definition is_ident_start (c : Z) : bool :=
  ((97 <=? c) && (c <=? 122)) || ((65 <=? c) && (c <=? 90)) || (c =? 95).
Definition is_ident (c : Z) : bool := is_ident_start c || ((48 <=? c) && (c <=? 57)).

(** ** Variables *)

Definition mlang_reset (s : mlst) : mlst :=
  set_vars (map (fun v => mk_var (name v) (value v) false) (vars s)) s.

Definition var_find (nm : chars) (s : mlst) : option nat :=
  for_find (fun i => used (vars s !!! i) && str_eq (name (vars s !!! i)) nm) 0 MAX_VARS.

Definition var_set (nm : chars) (v : Z) (s : mlst) : option nat * mlst :=
  match var_find nm s with
  | Some i => (Some i, set_vars (alter (fun x => mk_var (name x) v (used x)) i (vars s)) s)
  | None =>
      match for_find (fun i => negb (used (vars s !!! i))) 0 MAX_VARS with
      | Some i => (Some i, set_vars (alter (fun x => mk_var (str_copy (name x) nm MAX_NAME) v true) i (vars s)) s)
      | None => (None, s)
      end
  end.

(** ** Expressions *)

(** [while (is_ident( *p) && n < MAX_NAME - 1) name[n++] = *p++;] *)
Fixpoint take_ident (n : nat) (p : chars) : chars * chars :=
  match n, p with
  | S n', c :: p' =>
      if is_ident c then let '(w, r) := take_ident n' p' in (c :: w, r) else ([], p)
  | _, _ => ([], p)
  end.

(** [if (o + 1 >= out_sz) return -1; out[o++] = c;] for each character. *)
Fixpoint emit (out_sz : nat) (cs o : chars) : option chars :=
  match cs with
  | [] => Some o
  | c :: cs' => if (out_sz <=? length o + 1)%nat then None else emit out_sz cs' (o ++ [c])
  end.

(** The sign and the digits [expand_expr] writes for a value. *)
Definition value_chars (val : Z) : chars :=
  let u := if val <? 0 then u32 (- (val + 1)) + 1 else val in
  (if val <? 0 then [45] else []) ++ (if u =? 0 then [48] else Terminal.uint_digits 20 u []).

Definition var_value (nm : chars) (s : mlst) : Z :=
  match var_find nm s with Some i => value (vars s !!! i) | None => 0 end.

(** The loop of [expand_expr]: the rest of the expression, the text so far. *)
Fixpoint expand_loop (fuel : nat) (out_sz : nat) (s : mlst) (p o : chars) : out (option chars) :=
  match fuel with
  | O => Fault NoFuel
  | S f =>
      match p with
      | [] => Ret (Some o)
      | c :: p' =>
          if c =? 0 then Ret (Some o)
          else if is_ident_start c then
            let '(nm, rest) := take_ident (MAX_NAME - 1) p in
            match emit out_sz (value_chars (var_value nm s)) o with
            | None => Ret None
            | Some o => expand_loop f out_sz s rest o
            end
          else
            match emit out_sz [c] o with
            | None => Ret None
            | Some o => expand_loop f out_sz s p' o
            end
      end
  end.

Definition expand_expr (expr : chars) (out_sz : nat) (s : mlst) : out (option chars) :=
  expand_loop (S (length expr)) out_sz s expr [].

(** [None] is the return value -1. *)
Definition eval_expr (expr : chars) (s : mlst) : out (option Z) :=
  b ← expand_expr expr 128 s;
  match b with
  | None => Ret None
  | Some buf =>
      '(v, err) ← Calc.calc_eval buf;
      Ret (if err : bool then None else Some v)
  end.

(** ** Conditions *)

Inductive cmp : Type := CEq | CNe | CLe | CGe | CLt | CGt.

(** The operator at the head of [q], if there is one. *)
Definition op_at (q : chars) : option (cmp * nat) :=
  let c := char_at q 0 in
  let d := char_at q 1 in
  if (c =? 61) && (d =? 61) then Some (CEq, 2%nat)
  else if (c =? 33) && (d =? 61) then Some (CNe, 2%nat)
  else if (c =? 60) && (d =? 61) then Some (CLe, 2%nat)
  else if (c =? 62) && (d =? 61) then Some (CGe, 2%nat)
  else if c =? 60 then Some (CLt, 1%nat)
  else if c =? 62 then Some (CGt, 1%nat)
  else None.

(** [for (q = p; *q; q++)]: what is before the operator, the operator, what
    follows it. *)
Fixpoint find_op (p : chars) : option (chars * cmp * chars) :=
  match p with
  | [] => None
  | c :: p' =>
      if c =? 0 then None
      else match op_at p with
           | Some (o, n) => Some ([], o, drop n p)
           | None =>
               match find_op p' with
               | Some (l, o, r) => Some (c :: l, o, r)
               | None => None
               end
           end
  end.

Definition compare (o : cmp) (a b : Z) : bool :=
  match o with
  | CEq => a =? b | CNe => negb (a =? b) | CLe => a <=? b
  | CGe => b <=? a | CLt => a <? b | CGt => b <? a
  end.

Definition eval_condition (cond : chars) (s : mlst) : out (option bool) :=
  let p := skip_ws cond in
  match find_op p with
  | None =>
      v ← eval_expr p s;
      Ret (match v with None => None | Some v => Some (negb (v =? 0)) end)
  | Some (l, o, r) =>
      a ← eval_expr (take 63 l) s;
      match a with
      | None => Ret None
      | Some a =>
          b ← eval_expr (take 63 (cstr r)) s;
          Ret (match b with None => None | Some b => Some (compare o a b) end)
      end
  end.

(** ** Lines *)

Definition print_long (v : Z) (s : mlst) : mlst :=
  mk_ml (vars s) (Terminal.terminal_write_int (s32 v) (tty s)).

(** [while ( *p && *p != quote) { terminal_putchar( *p); p++; }] *)
Fixpoint put_quoted (p : chars) (s : mlst) : mlst :=
  match p with
  | c :: p' => if (c =? 0) || (c =? 34) then s else put_quoted p' (putchar c s)
  | [] => s
  end.

Definition is_blank (c : Z) : bool := (c =? 32) || (c =? 9).
Definition is_print (p : chars) : bool :=
  bool_decide (take 5 p = $"print") && (is_blank (char_at p 5) || (char_at p 5 =? 0)).

Definition exec_print (p : chars) (s : mlst) : out (Z * mlst) :=
  let p := skip_ws (drop 5 p) in
  if char_at p 0 =? 34 then Ret (0, putchar 10 (put_quoted (tail p) s))
  else
    v ← eval_expr p s;
    match v with
    | None => Ret (-1, say $"mlang: bad expression
" s)
    | Some v => Ret (0, putchar 10 (print_long v s))
    end.

(** [x = expr], for the [q] that starts at the equals sign. *)
Definition exec_assign (nm q : chars) (s : mlst) : out (Z * mlst) :=
  v ← eval_expr (skip_ws (tail q)) s;
  match v with
  | None => Ret (-1, say $"mlang: bad expression
" s)
  | Some v =>
      match var_set nm v s with
      | (None, s) => Ret (-1, say $"mlang: too many variables
" s)
      | (Some _, s) => Ret (0, s)
      end
  end.

Definition mlang_exec_line (line : chars) (s : mlst) : out (Z * mlst) :=
  let p := skip_ws line in
  if (char_at p 0 =? 0) || (char_at p 0 =? 35) then Ret (0, s)
  else if is_print p then exec_print p s
  else
    let '(nm, q) := take_ident (MAX_NAME - 1) p in
    let q := skip_ws q in
    if is_ident_start (char_at p 0) && (char_at q 0 =? 61) then exec_assign nm q s
    else Ret (-1, say $"mlang: syntax error
" s).

(** ** Scripts *)

(** [while (text[i] && text[i] != newline && j < n) lines[k][j++] = text[i++];] *)
Fixpoint take_line (n : nat) (text : chars) : chars * chars :=
  match n, text with
  | S n', c :: text' =>
      if (c =? 0) || (c =? 10) then ([], text)
      else let '(l, r) := take_line n' text' in (c :: l, r)
  | _, _ => ([], text)
  end.

Fixpoint split_lines (n : nat) (text : chars) : list chars :=
  match n with
  | O => []
  | S n' =>
      if char_at text 0 =? 0 then []
      else
        let '(l, r) := take_line (MAX_LINE - 1) text in
        l :: split_lines n' (if char_at r 0 =? 10 then tail r else r)
  end.

Definition starts_if (t : chars) : bool :=
  bool_decide (take 2 t = $"if") && is_blank (char_at t 2).
Definition says_while (t : chars) : bool := bool_decide (take 5 t = $"while").
Definition starts_while (t : chars) : bool := says_while t && is_blank (char_at t 5).

(** The search for the matching [end]: [ls] are the lines from [k] on. *)
Fixpoint find_end (ls : list chars) (k depth : nat) : option nat :=
  match ls with
  | [] => None
  | l :: ls' =>
      let t := skip_ws l in
      if starts_if t || starts_while t then find_end ls' (S k) (S depth)
      else if str_eq t $"end" then
        match depth with
        | S (S d) => find_end ls' (S k) (S d)
        | _ => Some k
        end
      else find_end ls' (S k) depth
  end.

(** The body of a [while]: simple lines only. *)
Fixpoint exec_body (ls : list chars) (s : mlst) : out (Z * mlst) :=
  match ls with
  | [] => Ret (0, s)
  | l :: ls' =>
      '(r, s) ← mlang_exec_line l s;
      if negb (r =? 0) then Ret (-1, s) else exec_body ls' s
  end.

Definition WHILE_MAX : nat := Z.to_nat 10000.

(** [for (iter = 0; iter < 10000; iter++)], [n] iterations left. *)
Fixpoint while_loop (n : nat) (cond : chars) (body : list chars) (s : mlst) : out (Z * mlst) :=
  match n with
  | O => Ret (0, s)
  | S n' =>
      c ← eval_condition cond s;
      match c with
      | None => Ret (-1, say $"mlang: bad condition
" s)
      | Some false => Ret (0, s)
      | Some true =>
          '(r, s) ← exec_body body s;
          if negb (r =? 0) then Ret (-1, s) else while_loop n' cond body s
      end
  end.

(** The lines from [k] to the end of the body, joined into [sub]. *)
Fixpoint join_lines (ls : list chars) (sub : chars) : chars :=
  match ls with
  | [] => sub
  | l :: ls' =>
      if (MAX_LINES * MAX_LINE <=? length sub + length l + 2)%nat then sub
      else join_lines ls' (sub ++ l ++ [10])
  end.

Section Script.

(** The recursive call. *)
Context (script : chars -> mlst -> out (Z * mlst)).

(** The body of an [if] whose condition holds. *)
Fixpoint if_body (ls : list chars) (s : mlst) : out (Z * mlst) :=
  match ls with
  | [] => Ret (0, s)
  | l :: ls' =>
      let t := skip_ws l in
      if starts_if t || says_while t then
        '(r, s) ← script (join_lines ls []) s;
        Ret (if negb (r =? 0) then -1 else 0, s)
      else
        '(r, s) ← mlang_exec_line l s;
        if negb (r =? 0) then Ret (-1, s) else if_body ls' s
  end.

(** [while (pc < nlines)] *)
Fixpoint run_lines (fuel : nat) (lines : list chars) (pc : nat) (s : mlst) : out (Z * mlst) :=
  match fuel with
  | O => Fault NoFuel
  | S f =>
      match lines !! pc with
      | None => Ret (0, s)
      | Some line =>
          let p := skip_ws line in
          if (char_at p 0 =? 0) || (char_at p 0 =? 35) then run_lines f lines (S pc) s
          else if str_eq p $"end" then Ret (-1, say $"mlang: unexpected end
" s)
          else if starts_if p then
            c ← eval_condition (skip_ws (drop 2 p)) s;
            match c with
            | None => Ret (-1, say $"mlang: bad condition
" s)
            | Some c =>
                match find_end (drop (S pc) lines) (S pc) 1 with
                | None => Ret (-1, say $"mlang: if without end
" s)
                | Some body_end =>
                    '(r, s) ← (if c : bool
                               then if_body (take (body_end - S pc) (drop (S pc) lines)) s
                               else Ret (0, s));
                    if negb (r =? 0) then Ret (-1, s) else run_lines f lines (S body_end) s
                end
            end
          else if starts_while p then
            match find_end (drop (S pc) lines) (S pc) 1 with
            | None => Ret (-1, say $"mlang: while without end
" s)
            | Some body_end =>
                '(r, s) ← while_loop WHILE_MAX (skip_ws (drop 5 p))
                            (take (body_end - S pc) (drop (S pc) lines)) s;
                if negb (r =? 0) then Ret (-1, s) else run_lines f lines (S body_end) s
            end
          else
            '(r, s) ← mlang_exec_line line s;
            if negb (r =? 0) then Ret (-1, s) else run_lines f lines (S pc) s
      end
  end.

End Script.

(** [depth] bounds the nesting of scripts: a nested script has fewer lines. *)
Fixpoint mlang_exec_script_n (depth : nat) (text : chars) (s : mlst) : out (Z * mlst) :=
  match depth with
  | O => Fault NoFuel
  | S d =>
      let lines := split_lines MAX_LINES text in
      run_lines (mlang_exec_script_n d) (S (length lines)) lines 0 s
  end.

Definition mlang_exec_script (text : chars) (s : mlst) : out (Z * mlst) :=
  mlang_exec_script_n (S MAX_LINES) text s.

End Mlang.
