(* ===== verification/MlangSpec.v ===== *)
(** * The script language: expressions, blocks and termination

    Expressions with variables get a grammar and a value of their own
    ([vreads], [veval]); replacing names by numbers and calling the
    calculator computes that value, and an assignment stores it.  Programs
    are trees of commands with a big-step semantics of their own ([runs])
    and a relation to the lines they are written with ([lays]); a script
    does what the program it writes down means, and every script comes to
    an end. *)

From S2P Require Import Prelude Terminal Calc CalcSpec Mlang.
Import Calc CalcSpec Mlang.

Module MlangSpec.

(** ** Expressions with variables *)

Inductive vexp : Type :=
| VNum (ds : chars) | VVar (nm : chars) | VNeg (a : vexp) | VPos (a : vexp)
| VPow (a b : vexp) | VMul (a b : vexp) | VDiv (a b : vexp) | VAdd (a b : vexp) | VSub (a b : vexp).

(** The tree the calculator sees: a negative number is a sign and digits. *)
Definition num_exp (v : Z) : exp :=
  if v <? 0 then Neg (Num (Terminal.uint_chars (- v))) else Num (Terminal.uint_chars v).

Fixpoint vclose (r : chars -> Z) (e : vexp) : exp :=
  match e with
  | VNum ds => Num ds | VVar nm => num_exp (r nm) | VNeg a => Neg (vclose r a) | VPos a => Pos (vclose r a)
  | VPow a b => Pow (vclose r a) (vclose r b) | VMul a b => Mul (vclose r a) (vclose r b)
  | VDiv a b => Div (vclose r a) (vclose r b) | VAdd a b => Add (vclose r a) (vclose r b)
  | VSub a b => Sub (vclose r a) (vclose r b)
  end.

(** The value of an expression in an environment, in 32-bit arithmetic. *)
Fixpoint veval (r : chars -> Z) (e : vexp) : CalcSpec.value :=
  match e with
  | VNum ds => Val (s32 (Terminal.dec_value ds))
  | VVar nm => Val (r nm)
  | VNeg a => vbind (veval r a) (fun x => Val (s32 (- x)))
  | VPos a => veval r a
  | VPow a b => vbind (veval r a) (fun x => vbind (veval r b) (fun y =>
      if y <? 0 then Err else Val (s32 (x ^ y))))
  | VMul a b => vbind (veval r a) (fun x => vbind (veval r b) (fun y => Val (s32 (x * y))))
  | VDiv a b => vbind (veval r a) (fun x => vbind (veval r b) (fun y =>
      if y =? 0 then Err
      else if (x =? LONG_MIN) && (y =? -1) then ETrap else Val (Z.quot x y)))
  | VAdd a b => vbind (veval r a) (fun x => vbind (veval r b) (fun y => Val (s32 (x + y))))
  | VSub a b => vbind (veval r a) (fun x => vbind (veval r b) (fun y => Val (s32 (x - y))))
  end.

Definition name_ok (nm : chars) : Prop :=
  is_ident_start (char_at nm 0) = true /\ Forall (fun c => is_ident c = true) nm /\
  (length nm < MAX_NAME)%nat.

(** The calculator's grammar with names as factors. *)
Inductive vreads : nat -> vexp -> chars -> Prop :=
| v_num ds : ds <> [] -> digits ds -> vreads 0 (VNum ds) ds
| v_var nm : name_ok nm -> vreads 0 (VVar nm) nm
| v_sp c e s : is_space c = true -> vreads 0 e s -> vreads 0 e (c :: s)
| v_neg e s : vreads 0 e s -> vreads 0 (VNeg e) (45 :: s)
| v_pos e s : vreads 0 e s -> vreads 0 (VPos e) (43 :: s)
| v_paren e s w : vreads 3 e s -> spaces w -> vreads 0 e (40 :: s ++ w ++ [41])
| v_power e s : vreads 0 e s -> vreads 1 e s
| v_pow a s w b t : vreads 0 a s -> spaces w -> vreads 1 b t -> vreads 1 (VPow a b) (s ++ w ++ 94 :: t)
| v_term e s : vreads 1 e s -> vreads 2 e s
| v_mul a s w b t : vreads 2 a s -> spaces w -> vreads 1 b t -> vreads 2 (VMul a b) (s ++ w ++ 42 :: t)
| v_div a s w b t : vreads 2 a s -> spaces w -> vreads 1 b t -> vreads 2 (VDiv a b) (s ++ w ++ 47 :: t)
| v_expr e s : vreads 2 e s -> vreads 3 e s
| v_add a s w b t : vreads 3 a s -> spaces w -> vreads 2 b t -> vreads 3 (VAdd a b) (s ++ w ++ 43 :: t)
| v_sub a s w b t : vreads 3 a s -> spaces w -> vreads 2 b t -> vreads 3 (VSub a b) (s ++ w ++ 45 :: t).

Lemma num_exp_eval v : in_s32 v -> eval (num_exp v) = Val v.
Proof.
  unfold in_s32, num_exp. intros Hv. destruct (Z.ltb_spec v 0); cbn [eval vbind].
  - destruct (Terminal.uint_chars_spec (- v)) as (-> & _); [lia|].
    f_equal. rewrite <- (s32_small v) at 2 by done. apply s32_eqm.
    rewrite <- Z.sub_0_l, Zminus_mod, s32_mod, <- Zminus_mod. f_equal. lia.
  - destruct (Terminal.uint_chars_spec v) as (-> & _); [lia|]. by rewrite s32_small.
Qed.

Lemma vclose_eval r e : (forall nm, in_s32 (r nm)) -> eval (vclose r e) = veval r e.
Proof.
  intros Hr. induction e; cbn [vclose eval veval];
    rewrite ?IHe, ?IHe1, ?IHe2, ?num_exp_eval; auto.
Qed.

(** ** What [expand_expr] writes *)

Inductive expands (s : mlst) : chars -> chars -> Prop :=
| ex_nil : expands s [] []
| ex_id c p nm rest t :
    is_ident_start c = true -> take_ident (MAX_NAME - 1) (c :: p) = (nm, rest) -> expands s rest t ->
    expands s (c :: p) (value_chars (var_value nm s) ++ t)
| ex_ch c p t : is_ident_start c = false -> c <> 0 -> expands s p t -> expands s (c :: p) (c :: t).

Lemma take_ident_split n p nm rest :
  take_ident n p = (nm, rest) -> p = nm ++ rest /\ (length nm <= n)%nat.
Proof.
  revert p nm. induction n as [|n IH]; intros [|c p] nm H; cbn [take_ident] in H;
    try (injection H as <- <-; split; [done | simpl; lia]).
  destruct (is_ident c); [|injection H as <- <-; split; [done | simpl; lia]].
  destruct (take_ident n p) as [w r] eqn:E. injection H as <- <-.
  apply IH in E as [-> Hl]. split; [done | simpl; lia].
Qed.

Lemma take_ident_app n p nm rest q :
  take_ident n p = (nm, rest) -> is_ident (char_at q 0) = false -> take_ident n (p ++ q) = (nm, rest ++ q).
Proof.
  intros H Hq. revert p nm H. induction n as [|n IH]; intros [|c p] nm H; cbn [take_ident app] in *.
  - injection H as <- <-. destruct q; done.
  - by injection H as <- <-.
  - injection H as <- <-. destruct q as [|d q]; [done|]. cbn [take_ident app].
    change (char_at (d :: q) 0) with d in Hq. by rewrite Hq.
  - destruct (is_ident c); [|by injection H as <- <-].
    destruct (take_ident n p) as [w r] eqn:E. injection H as <- <-. by rewrite (IH p w) by done.
Qed.

Lemma take_ident_rest n p nm rest c :
  take_ident n (c :: p) = (nm, rest) -> is_ident c = true -> (0 < n)%nat ->
  (length rest < length (c :: p))%nat.
Proof.
  intros H Hc Hn. destruct n as [|n]; [lia|]. cbn [take_ident] in H. rewrite Hc in H.
  destruct (take_ident n p) as [w r] eqn:E. injection H as <- <-.
  apply take_ident_split in E as [-> _]. simpl. rewrite length_app. lia.
Qed.

Lemma ident_start_ident c : is_ident_start c = true -> is_ident c = true.
Proof. unfold is_ident. by intros ->. Qed.

Lemma take_ident_name nm :
  name_ok nm -> forall n, (length nm <= n)%nat -> take_ident n nm = (nm, []).
Proof.
  intros (_ & Hall & _). induction Hall as [|c nm Hc _ IH]; intros [|n] Hn; simpl in *; try done; try lia.
  rewrite Hc, IH by lia. done.
Qed.

Lemma expands_app s p t q u :
  expands s p t -> is_ident (char_at q 0) = false -> expands s q u -> expands s (p ++ q) (t ++ u).
Proof.
  intros Hp Hq Hu. induction Hp as [|c p nm rest t Hc Ht _ IH|c p t Hc H0 _ IH]; [done| |].
  - rewrite <- app_assoc. cbn [app]. eapply ex_id; [done | | exact IH].
    by apply (take_ident_app _ (c :: p)).
  - cbn [app]. by apply ex_ch.
Qed.

Lemma expands_plain s p :
  Forall (fun c => is_ident_start c = false /\ c <> 0) p -> expands s p p.
Proof. induction 1 as [|c p [Hc H0] _ IH]; by constructor. Qed.

Lemma expands_ex s p : no_nul p -> exists t, expands s p t.
Proof.
  induction p as [p IH] using (well_founded_induction (Wf_nat.well_founded_ltof _ (@length Z))).
  unfold Wf_nat.ltof in IH. intros Hn. destruct p as [|c p]; [exists []; constructor|].
  inversion Hn as [|? ? H0 Hp]; subst. destruct (is_ident_start c) eqn:Hc.
  - destruct (take_ident (MAX_NAME - 1) (c :: p)) as [nm rest] eqn:E.
    pose proof (take_ident_rest _ _ _ _ _ E (ident_start_ident _ Hc) ltac:(unfold MAX_NAME; lia)).
    destruct (IH rest) as [t Ht]; [done| |].
    { apply take_ident_split in E as [E _]. rewrite E in Hn. by apply Forall_app in Hn as [_ ?]. }
    eexists. by eapply ex_id.
  - destruct (IH p) as [t Ht]; [simpl; lia | done |]. exists (c :: t). by apply ex_ch.
Qed.

Lemma emit_spec sz cs o :
  (length o < sz)%nat ->
  emit sz cs o = if (length o + length cs <? sz)%nat then Some (o ++ cs) else None.
Proof.
  revert o. induction cs as [|c cs IH]; intros o Ho; cbn [emit length].
  - rewrite app_nil_r. destruct (Nat.ltb_spec (length o + 0) sz); [done | lia].
  - destruct (Nat.leb_spec sz (length o + 1)).
    + destruct (Nat.ltb_spec (length o + S (length cs)) sz); [lia | done].
    + rewrite IH by (rewrite length_app; simpl; lia). rewrite length_app, <- app_assoc. simpl.
      replace (length o + 1 + length cs)%nat with (length o + S (length cs))%nat by lia. done.
Qed.

Lemma expand_loop_spec s p t fuel sz o :
  expands s p t -> (length p < fuel)%nat -> (length o < sz)%nat ->
  expand_loop fuel sz s p o = Ret (if (length o + length t <? sz)%nat then Some (o ++ t) else None).
Proof.
  intros H. revert fuel o. induction H as [|c p nm rest t Hc Ht _ IH|c p t Hc H0 _ IH];
    intros [|fuel] o Hf Ho; try lia; cbn [expand_loop].
  - rewrite app_nil_r. simpl. destruct (Nat.ltb_spec (length o + 0) sz); [done | lia].
  - rewrite (proj2 (Z.eqb_neq c 0)) by (intros ->; done). rewrite Hc, Ht, emit_spec by done.
    pose proof (take_ident_rest _ _ _ _ _ Ht (ident_start_ident _ Hc) ltac:(unfold MAX_NAME; lia)).
    rewrite length_app. destruct (Nat.ltb_spec (length o + length (value_chars (var_value nm s))) sz).
    + rewrite IH by (simpl in *; rewrite ?length_app; lia). rewrite length_app, <- app_assoc.
      by rewrite Nat.add_assoc.
    + destruct (Nat.ltb_spec (length o + (length (value_chars (var_value nm s)) + length t)) sz); [lia | done].
  - rewrite (proj2 (Z.eqb_neq c 0)), Hc, emit_spec by done. simpl length.
    destruct (Nat.ltb_spec (length o + 1) sz).
    + rewrite IH by (simpl in *; rewrite ?length_app; simpl; lia). rewrite length_app, <- app_assoc. simpl.
      replace (length o + 1 + length t)%nat with (length o + S (length t))%nat by lia. done.
    + destruct (Nat.ltb_spec (length o + S (length t)) sz); [lia | done].
Qed.

(** ** Names become numbers, phrases stay phrases *)

Definition env_ok (s : mlst) : Prop := Forall (fun v => in_s32 (value v)) (vars s).

Definition env (s : mlst) (nm : chars) : Z := var_value nm s.

Lemma uint_digits_20 v : 0 <= v < 4294967296 -> Terminal.uint_digits 20 v [] = Terminal.uint_digits 10 v [].
Proof.
  enough (H : forall i v acc, 0 <= v < 10 ^ Z.of_nat i -> forall j, (i <= j)%nat ->
    Terminal.uint_digits j v acc = Terminal.uint_digits i v acc).
  { intros Hv. apply (H 10%nat); [simpl; lia | lia]. }
  induction i as [|i IH]; intros x acc Hx j Hj.
  - change (10 ^ Z.of_nat 0) with 1 in Hx. replace x with 0 by lia. by destruct j.
  - destruct j as [|j]; [lia|]. cbn [Terminal.uint_digits]. destruct (Z.leb_spec x 0); [done|].
    apply IH; [|lia]. rewrite Nat2Z.inj_succ, Z.pow_succ_r in Hx by lia.
    split; [apply Z.div_pos; lia | apply Z.div_lt_upper_bound; lia].
Qed.

Lemma value_chars_eq v :
  in_s32 v -> value_chars v = (if v <? 0 then [45] else []) ++ Terminal.uint_chars (Z.abs v).
Proof.
  unfold in_s32, value_chars, Terminal.uint_chars. intros Hv.
  destruct (Z.ltb_spec v 0).
  - rewrite u32_small by (unfold in_u32; lia). replace (- (v + 1) + 1) with (Z.abs v) by lia.
    destruct (Z.eqb_spec (Z.abs v) 0); [lia|]. by rewrite uint_digits_20 by lia.
  - replace (Z.abs v) with v by lia. destruct (Z.eqb_spec v 0); [done|]. by rewrite uint_digits_20 by lia.
Qed.

Lemma num_reads v : in_s32 v -> reads 0 (num_exp v) (value_chars v).
Proof.
  intros Hv. rewrite value_chars_eq by done. unfold in_s32 in Hv.
  destruct (Terminal.uint_chars_spec (Z.abs v)) as (_ & Hd & Hne & _); [lia|]. unfold num_exp.
  destruct (Z.ltb_spec v 0); cbn [app].
  - apply r_neg. replace (- v) with (Z.abs v) by lia. by apply r_num.
  - replace v with (Z.abs v) at 1 by lia. by apply r_num.
Qed.

Lemma env_range s nm : env_ok s -> in_s32 (env s nm).
Proof.
  unfold env_ok, env, var_value. intros H. destruct (var_find nm s) as [i|]; [|by split].
  rewrite list_lookup_total_alt. destruct (vars s !! i) as [v|] eqn:E; simpl; [|by split].
  by apply (Forall_lookup_1 _ _ _ _ H E).
Qed.

Lemma space_plain c : is_space c = true -> is_ident_start c = false /\ is_ident c = false /\ c <> 0.
Proof. unfold is_space, is_ident, is_ident_start. lia. Qed.

Lemma digit_plain c : Terminal.is_digit c = true -> is_ident_start c = false /\ c <> 0.
Proof. unfold Terminal.is_digit, is_ident_start. lia. Qed.

Lemma spaces_expand s w : spaces w -> expands s w w.
Proof.
  intros Hw. apply expands_plain. eapply Forall_impl; [exact Hw|]. intros c Hc.
  by destruct (space_plain c Hc) as (? & ? & ?).
Qed.

Lemma spaces_no_ident w q : spaces w -> is_ident (char_at q 0) = false -> is_ident (char_at (w ++ q) 0) = false.
Proof. intros [|c r Hc _] Hq; [done|]. by apply space_plain. Qed.

(** [s ++ w ++ op :: t] expands piecewise. *)
Lemma expands_op st s w c t s' t' :
  spaces w -> is_ident c = false -> c <> 0 -> expands st s s' -> expands st t t' ->
  expands st (s ++ w ++ c :: t) (s' ++ w ++ c :: t').
Proof.
  intros Hw Hc H0 Hs Ht. apply expands_app; [done | by apply spaces_no_ident |].
  apply expands_app; [by apply spaces_expand | done |].
  apply ex_ch; [|done|done]. unfold is_ident in Hc. by apply orb_false_iff in Hc as [? _].
Qed.

Lemma expands_cons st c s t :
  is_ident_start c = false -> c <> 0 -> expands st s t -> expands st (c :: s) (c :: t).
Proof. intros; by apply ex_ch. Qed.

Lemma vreads_expand st l e x :
  env_ok st -> vreads l e x -> exists t, expands st x t /\ reads l (vclose (env st) e) t.
Proof.
  intros He. induction 1; cbn [vclose];
    repeat match goal with H : exists _, _ |- _ => destruct H as (? & ? & ?) end;
    try (eexists; split; [eassumption | by constructor]);
    try (eexists; split; [by apply expands_op; eauto | by constructor]).
  - exists ds. split; [|by constructor]. apply expands_plain. eapply Forall_impl; [done|].
    intros c Hc. by apply digit_plain.
  - exists (value_chars (env st nm)). split; [|by apply num_reads, env_range].
    destruct nm as [|c p] eqn:E; [by destruct H|]. rewrite <- E in *.
    rewrite <- (app_nil_r (value_chars _)). rewrite E at 1. eapply ex_id; [| |constructor].
    + subst nm. by destruct H.
    + subst nm. apply take_ident_name; [done|]. destruct H as (_ & _ & H). lia.
  - eexists. split; [apply expands_cons; [| |eassumption] | by constructor];
      by apply space_plain.
  - eexists. split; [by apply expands_cons | by constructor].
  - eexists. split; [by apply expands_cons | by constructor].
  - eexists. split; [|by constructor; eassumption].
    apply expands_cons; [done | done |]. apply (expands_op _ _ _ 41 [] _ []); auto. constructor.
Qed.

Lemma expands_trail st x t w :
  spaces w -> expands st x t -> expands st (x ++ w) (t ++ w).
Proof.
  intros Hw Ht. apply expands_app; [done | | by apply spaces_expand].
  rewrite <- (app_nil_r w). by apply spaces_no_ident.
Qed.

(** [eval_expr] on an expression with variables. *)
Definition expr_agrees (r : CalcSpec.value) (x : out (option Z)) : Prop :=
  match r with
  | Val v => x = Ret (Some v)
  | ETrap => x = Fault Trap
  | Err => x = Ret None \/ x = Fault Trap
  end.

Lemma eval_expr_reads st e x w :
  env_ok st -> vreads 3 e x -> spaces w ->
  exists t, expands st (x ++ w) t /\
    if (length t <? 128)%nat then expr_agrees (veval (env st) e) (eval_expr (x ++ w) st)
    else eval_expr (x ++ w) st = Ret None.
Proof.
  intros He Hx Hw. destruct (vreads_expand st _ _ _ He Hx) as (t & Ht & Hr).
  exists (t ++ w). split; [by apply expands_trail|]. unfold eval_expr, expand_expr.
  rewrite (expand_loop_spec st (x ++ w) (t ++ w)); [| by apply expands_trail | lia | simpl; lia].
  simpl length. rewrite Nat.add_0_l. cbn [app].
  destruct (length (t ++ w) <? 128)%nat; [|done]. unfold mbind, out_mbind.
  pose proof (calc_eval_reads _ _ _ Hw Hr) as Hc.
  rewrite vclose_eval in Hc by (intros; by apply env_range).
  destruct (veval (env st) e) as [v| |]; cbn [calc_agrees expr_agrees] in *.
  - by rewrite Hc.
  - destruct Hc as [[v ->] | ->]; [by left | by right].
  - by rewrite Hc.
Qed.

(** ** Variables *)

Definition mlst_wf (s : mlst) : Prop := length (vars s) = MAX_VARS /\ env_ok s.

Definition var_full (s : mlst) : Prop := forall i, (i < MAX_VARS)%nat -> used (vars s !!! i) = true.

Lemma vars_alter f i s j :
  (i < length (vars s))%nat ->
  alter f i (vars s) !!! j = if decide (i = j) then f (vars s !!! j) else vars s !!! j.
Proof.
  intros Hi. rewrite !list_lookup_total_alt, list_lookup_alter.
  destruct (decide (i = j)) as [->|]; [|done].
  destruct (lookup_lt_is_Some_2 (vars s) j Hi) as [v ->]. done.
Qed.

(** Changing slot [i] changes the value of the names that are found there. *)
Lemma var_find_alter f i s nm :
  (i < length (vars s))%nat -> length (vars s) = MAX_VARS ->
  let s' := set_vars (alter f i (vars s)) s in
  (used (f (vars s !!! i)) && str_eq (name (f (vars s !!! i))) nm =
   used (vars s !!! i) && str_eq (name (vars s !!! i)) nm) ->
  var_find nm s' = var_find nm s.
Proof.
  intros Hi Hl s' He. apply for_find_ext. intros k Hk. unfold s'. cbn [vars set_vars].
  rewrite vars_alter by done. destruct (decide (i = k)) as [->|]; done.
Qed.

Lemma var_set_some nm v s i s' :
  mlst_wf s -> in_s32 v -> (length (cstr nm) < MAX_NAME)%nat -> var_set nm v s = (Some i, s') ->
  tty s' = tty s /\ mlst_wf s' /\ env s' nm = v /\
  forall nm', cstr nm' <> cstr nm -> env s' nm' = env s nm'.
Proof.
  intros [Hl He] Hv Hn. unfold var_set.
  assert (Hwf : forall f i, (forall x, value (f x) = v) ->
    mlst_wf (set_vars (alter f i (vars s)) s)).
  { intros f k Hf. split; cbn [vars set_vars]; [by rewrite length_alter|].
    apply Forall_alter; [done|]. intros x _ _. by rewrite Hf. }
  destruct (var_find nm s) as [k|] eqn:E.
  - intros [= <- <-]. pose proof E as E'. apply for_find_Some in E' as (Hk & Hp & _).
    apply andb_true_iff in Hp as [Hu Hs]. split_and!; [done | by apply Hwf | |].
    + unfold env, var_value. rewrite var_find_alter, E by (rewrite ?Hl; simpl; done || lia).
      cbn [vars set_vars]. rewrite vars_alter, decide_True by (rewrite ?Hl; done || lia). done.
    + intros nm' Hne. unfold env, var_value. rewrite var_find_alter by (rewrite ?Hl; simpl; done || lia).
      destruct (var_find nm' s) as [j|] eqn:E'; [|done]. cbn [vars set_vars].
      rewrite vars_alter by (rewrite Hl; lia). case_decide as Hkj; [|done]. subst j.
      apply for_find_Some in E' as (_ & Hp' & _). apply andb_true_iff in Hp' as [_ Hs'].
      apply c_streq_spec in Hs, Hs'. congruence.
  - destruct (for_find _ 0 MAX_VARS) as [k|] eqn:E2; [|done]. intros [= <- <-].
    apply for_find_Some in E2 as (Hk & Hp & _). apply negb_true_iff in Hp.
    set (s' := set_vars _ s).
    assert (Hname : forall x, cstr (str_copy x nm MAX_NAME) = cstr nm)
      by (intros x; by apply cstr_strcpy_fits).
    split_and!; [done | by apply Hwf | |].
    + unfold env, var_value. replace (var_find nm s') with (Some k).
      { unfold s'. cbn [vars set_vars]. rewrite vars_alter, decide_True by (rewrite ?Hl; done || lia). done. }
      symmetry. apply for_find_Some. unfold s'. cbn [vars set_vars].
      rewrite vars_alter, decide_True by (rewrite ?Hl; done || lia). split_and!; [lia | lia | |].
      * cbn [used name]. apply andb_true_iff. split; [done|]. apply c_streq_spec. apply Hname.
      * intros j Hj. rewrite vars_alter, decide_False by (rewrite ?Hl; lia).
        eapply for_find_None in E; [exact E | lia].
    + intros nm' Hne. unfold env, var_value. unfold s'.
      rewrite var_find_alter; [|rewrite Hl; lia|done|].
      * destruct (var_find nm' s) as [j|] eqn:E'; [|done]. cbn [vars set_vars].
        rewrite vars_alter, decide_False by (try (rewrite Hl; lia); intros ->;
          apply for_find_Some in E' as (_ & Hp' & _); by rewrite Hp in Hp'). done.
      * cbn [used name]. rewrite Hp, andb_true_l, andb_false_l. apply c_streq_false. rewrite Hname. congruence.
Qed.

Lemma var_set_none nm v s s' :
  var_set nm v s = (None, s') -> s' = s /\ var_full s /\ var_find nm s = None.
Proof.
  unfold var_set. destruct (var_find nm s); [done|].
  destruct (for_find _ 0 MAX_VARS) eqn:E; [done|]. intros [= <-]. split_and!; [done | | done].
  intros i Hi. eapply for_find_None in E; [|split; [apply Nat.le_0_l | exact Hi]].
  by apply negb_false_iff in E.
Qed.

Lemma quot_range x y :
  in_s32 x -> in_s32 y -> y <> 0 -> (x =? LONG_MIN) && (y =? -1) = false -> in_s32 (Z.quot x y).
Proof.
  unfold in_s32, LONG_MIN. intros Hx Hy H0 Hm. destruct (decide (Z.abs y = 1)) as [H1|H1].
  - assert (y = 1 \/ y = -1) as [-> | ->] by lia; [rewrite Z.quot_1_r; lia|].
    change (-1) with (Z.opp 1). rewrite Z.quot_opp_r, Z.quot_1_r by lia. lia.
  - pose proof (Z.quot_abs x y H0) as Ha. destruct (decide (x = 0)) as [->|Hx0]; [rewrite Z.quot_0_l by lia; lia|].
    pose proof (Z.quot_lt (Z.abs x) (Z.abs y) ltac:(lia) ltac:(lia)).
    pose proof (Z.quot_pos (Z.abs x) (Z.abs y) ltac:(lia) ltac:(lia)). lia.
Qed.

Lemma veval_range r e v : (forall nm, in_s32 (r nm)) -> veval r e = Val v -> in_s32 v.
Proof.
  intros Hr. revert v. induction e; intros v; cbn [veval]; intros H;
    try (injection H as <-; auto using s32_range; done);
    repeat match goal with
    | H : vbind ?x _ = Val _ |- _ => destruct x eqn:?; cbn [vbind] in H; try discriminate
    | H : (if ?b then _ else _) = Val _ |- _ => destruct b eqn:?; try discriminate
    end; try (injection H as <-; auto using s32_range; done); auto.
  injection H as <-. apply quot_range; auto. lia.
Qed.

(** ** Lines *)

Lemma skip_ws_skip p : skip_ws p = Calc.skip p.
Proof. induction p as [|c p IH]; [done|]. cbn [skip_ws Calc.skip]. by rewrite IH. Qed.

Lemma skip_ws_app w p : spaces w -> is_space (char_at p 0) = false -> skip_ws (w ++ p) = p.
Proof.
  intros Hw Hp. rewrite skip_ws_skip, skip_spaces_app by done. destruct p as [|c p]; [done|]. by apply skip_cons.
Qed.

Lemma ident_not_space c : is_ident c = true -> is_space c = false /\ c <> 0 /\ c <> 35 /\ c <> 61.
Proof. unfold is_ident, is_ident_start, is_space. lia. Qed.

Lemma name_not_print nm q :
  name_ok nm -> nm <> $"print" -> is_ident (char_at q 0) = false -> char_at q 0 <> 0 -> is_print (nm ++ q) = false.
Proof.
  intros (_ & Hall & _) Hne Hq H0. unfold is_print. case_bool_decide as Ht; [|done]. simpl.
  destruct (lt_eq_lt_dec (length nm) 5) as [[Hlt|Heq]|Hgt].
  - exfalso. assert (Hc : take 5 (nm ++ q) !! length nm = q !! 0%nat).
    { rewrite lookup_take by lia. rewrite decide_True by lia. rewrite lookup_app_r by lia. f_equal. lia. }
    destruct q as [|c q]; [done|]. change (char_at (c :: q) 0) with c in Hq. rewrite Ht in Hc.
    cbn [lookup] in Hc. assert (Hin : c ∈ $"print") by (by eapply list_elem_of_lookup_2).
    revert Hq. enough (is_ident c = true) by congruence.
    assert (Hf : Forall (fun c => is_ident c = true) $"print") by (by repeat constructor).
    by apply (proj1 (Forall_forall _ _) Hf).
  - exfalso. apply Hne. rewrite <- Ht, take_app_length'; done.
  - apply orb_false_iff. destruct (lookup_lt_is_Some_2 nm 5 Hgt) as [c Hc].
    assert (Hcc : char_at (nm ++ q) 5 = c) by (unfold char_at; by rewrite (lookup_app_l_Some _ _ _ _ Hc)).
    rewrite Hcc. pose proof (Forall_lookup_1 _ _ _ _ Hall Hc) as Hi. cbv beta in Hi.
    apply ident_not_space in Hi as (Hs & Hz & _). split; [|by apply Z.eqb_neq].
    exact Hs.
Qed.

(** The line [nm = q]: the name is recognised and the right-hand side is
    what [exec_assign] evaluates. *)
Lemma exec_line_assign ind nm w1 q s :
  spaces ind -> name_ok nm -> nm <> $"print" -> spaces w1 ->
  mlang_exec_line (ind ++ nm ++ w1 ++ 61 :: q) s = exec_assign nm (61 :: q) s.
Proof.
  intros Hi Hn Hp Hw. unfold mlang_exec_line.
  assert (Hq : is_ident (char_at (w1 ++ 61 :: q) 0) = false) by (by apply spaces_no_ident).
  assert (Hq0 : char_at (w1 ++ 61 :: q) 0 <> 0).
  { destruct Hw as [|c r Hc _]; [done|]. by apply space_plain. }
  pose proof Hn as (Hs & _ & Hl). destruct nm as [|c nm1] eqn:E; [done|]. rewrite <- E in *.
  assert (Hc : char_at (nm ++ w1 ++ 61 :: q) 0 = c /\ is_ident c = true).
  { rewrite E in *. split; [done|]. by apply ident_start_ident. }
  pose proof (ident_not_space _ (proj2 Hc)) as (Hsp & H0 & H35 & _).
  rewrite skip_ws_app by (try done; by rewrite (proj1 Hc)). rewrite (proj1 Hc).
  rewrite (proj2 (Z.eqb_neq c 0)), (proj2 (Z.eqb_neq c 35)) by done. cbn [orb].
  rewrite name_not_print by done.
  rewrite (take_ident_app _ nm nm []); [|apply take_ident_name; [done | lia] | done].
  cbn [app]. rewrite skip_ws_app by done. rewrite E in Hs. change (char_at (c :: _) 0) with c in Hs.
  by rewrite Hs.
Qed.

Lemma vreads_nonempty l e x : vreads l e x -> x <> [].
Proof. induction 1; try done; try (by intros ->; destruct H as (? & _)); by intros [? ?]%app_nil. Qed.

(** The state a successful assignment leaves. *)
Definition assigned (nm : chars) (v : Z) (s s' : mlst) : Prop :=
  tty s' = tty s /\ mlst_wf s' /\ env s' nm = v /\
  forall nm', name_ok nm' -> nm' <> nm -> env s' nm' = env s nm'.

Definition bad_expression (s : mlst) : out (Z * mlst) := Ret (-1, say $"mlang: bad expression
" s).

Definition assign_agrees (nm : chars) (r : CalcSpec.value) (s : mlst) (x : out (Z * mlst)) : Prop :=
  match r with
  | Val v =>
      (exists s', x = Ret (0, s') /\ assigned nm v s s') \/
      (x = Ret (-1, say $"mlang: too many variables
" s) /\ var_full s /\ var_find nm s = None)
  | ETrap => x = Fault Trap
  | Err => x = bad_expression s \/ x = Fault Trap
  end.

Lemma name_no_nul nm : name_ok nm -> no_nul nm.
Proof.
  intros (_ & H & _). eapply Forall_impl; [exact H|]. intros c Hc. by apply ident_not_space in Hc as (_ & ? & _).
Qed.

Lemma exec_assign_agrees nm q s r :
  mlst_wf s -> name_ok nm -> (forall v, r = Val v -> in_s32 v) ->
  expr_agrees r (eval_expr (skip_ws q) s) -> assign_agrees nm r s (exec_assign nm (61 :: q) s).
Proof.
  intros Hwf Hn Hv Hr. unfold exec_assign. cbn [tail]. destruct r as [v| |]; cbn [expr_agrees assign_agrees] in *.
  - rewrite Hr. cbn. destruct (var_set nm v s) as [[i|] s'] eqn:E.
    + left. exists s'. split; [done|].
      apply var_set_some in E as (Ht & Hw & He & Ho); auto.
      * split_and!; auto. intros nm' Hn' Hne. apply Ho. rewrite !cstr_id by (by apply name_no_nul). done.
      * rewrite cstr_id by (by apply name_no_nul). apply Hn.
    + right. apply var_set_none in E as (-> & Hf & Hnone). done.
  - destruct Hr as [-> | ->]; [left | right]; done.
  - by rewrite Hr.
Qed.

(** An assignment [name = expression]: the right-hand side may use
    variables, operators by precedence, parentheses and spaces anywhere
    between tokens.  It is given the value of the expression in the current
    variables, in wrapping 32-bit arithmetic; exactly that variable changes
    (a full table is reported), and nothing is printed.  A text that exceeds the
    127 characters of the expansion buffer, a division by zero and a negative
    exponent are reported as bad expressions; LONG_MIN / -1 traps. *)
Theorem mlang_assign_correct ind nm w1 w2 e x w3 s :
  mlst_wf s -> spaces ind -> name_ok nm -> nm <> $"print" -> spaces w1 -> spaces w2 ->
  vreads 3 e x -> is_space (char_at x 0) = false -> spaces w3 ->
  exists t, expands s (x ++ w3) t /\
    let r := mlang_exec_line (ind ++ nm ++ w1 ++ 61 :: w2 ++ x ++ w3) s in
    if (length t <? 128)%nat then assign_agrees nm (veval (env s) e) s r else r = bad_expression s.
Proof.
  intros Hwf Hi Hn Hp Hw1 Hw2 Hx Hx0 Hw3.
  destruct (eval_expr_reads s e x w3 (proj2 Hwf) Hx Hw3) as (t & Ht & Hr). exists t. split; [done|].
  cbv zeta. rewrite exec_line_assign by done.
  assert (Hsk : skip_ws (w2 ++ x ++ w3) = x ++ w3).
  { apply skip_ws_app; [done|]. apply vreads_nonempty in Hx. by destruct x. }
  destruct (length t <? 128)%nat.
  - apply exec_assign_agrees; [done | done | |by rewrite Hsk].
    intros v Hv. eapply veval_range; [|exact Hv]. intros; apply env_range, Hwf.
  - unfold exec_assign. cbn [tail]. by rewrite Hsk, Hr.
Qed.

(** ** Everything ends *)

Definition settles {A} (x : out A) : Prop := (exists a, x = Ret a) \/ x = Fault Trap.

Lemma settles_ret {A} (a : A) : settles (Ret a).
Proof. left. by exists a. Qed.
Lemma settles_bind {A B} (x : out A) (k : A -> out B) :
  settles x -> (forall a, settles (k a)) -> settles (x ≫= k).
Proof. intros [[a ->] | ->] Hk; [apply Hk | by right]. Qed.
Lemma settles_then (x : out (Z * mlst)) (k : Z -> mlst -> out (Z * mlst)) :
  settles x -> (forall r s, settles (k r s)) -> settles (x ≫= fun '(r, s) => k r s).
Proof. intros Hx Hk. apply settles_bind; [done|]. intros [r s]. apply Hk. Qed.

Create HintDb settles.
#[local] Hint Resolve settles_ret : settles.

(** Case analysis on a computation that has to settle. *)
Ltac settle :=
  repeat first
    [ solve [simple apply settles_ret | auto 1 with settles nocore]
    | match goal with |- settles (_ ≫= fun '(_, _) => _) => apply settles_then; [|intros ? ?] end
    | apply settles_bind; [|intros ?]
    | assumption
    | case_match ].

Lemma expand_loop_settles fuel sz s p o : (length p < fuel)%nat -> settles (expand_loop fuel sz s p o).
Proof.
  revert p o. induction fuel as [|fuel IH]; intros p o Hf; [lia|]. cbn [expand_loop].
  destruct p as [|c p]; [apply settles_ret|]. simpl in Hf.
  destruct (c =? 0); [apply settles_ret|]. destruct (is_ident_start c) eqn:Hc.
  - destruct (take_ident (MAX_NAME - 1) (c :: p)) as [nm rest] eqn:E.
    pose proof (take_ident_rest _ _ _ _ _ E (ident_start_ident _ Hc) ltac:(unfold MAX_NAME; lia)).
    destruct (emit _ _ o); [apply IH; simpl in *; lia | apply settles_ret].
  - destruct (emit _ _ o); [apply IH; lia | apply settles_ret].
Qed.

Lemma eval_expr_settles x s : settles (eval_expr x s).
Proof.
  unfold eval_expr. apply settles_bind; [apply expand_loop_settles; lia|]. intros [b|]; [|apply settles_ret].
  destruct (calc_eval_ends b) as [(v & err & ->) | ->]; [apply settles_ret | by right].
Qed.

#[local] Hint Resolve eval_expr_settles : settles.

Lemma eval_condition_settles c s : settles (eval_condition c s).
Proof. unfold eval_condition. settle. Qed.
#[local] Hint Resolve eval_condition_settles : settles.

Lemma exec_line_settles l s : settles (mlang_exec_line l s).
Proof. unfold mlang_exec_line, exec_print, exec_assign. settle. Qed.
#[local] Hint Resolve exec_line_settles : settles.

Lemma exec_body_settles ls s : settles (exec_body ls s).
Proof.
  revert s. induction ls as [|l ls IH]; intros s; cbn [exec_body]; settle.
Qed.
#[local] Hint Resolve exec_body_settles : settles.

Lemma while_loop_settles n c b s : settles (while_loop n c b s).
Proof.
  revert s. induction n as [|n IH]; intros s; cbn [while_loop]; settle.
Qed.

(** ** Lines and their joined text *)

Definition line_ok (l : chars) : Prop :=
  (length l < MAX_LINE)%nat /\ Forall (fun c => c <> 0 /\ c <> 10) l.

Definition unlines (ls : list chars) : chars := concat (map (fun l => l ++ [10]) ls).

Lemma take_line_ok n text l r :
  take_line n text = (l, r) -> (length l <= n)%nat /\ Forall (fun c => c <> 0 /\ c <> 10) l.
Proof.
  revert text l. induction n as [|n IH]; intros [|c text] l H; cbn [take_line] in H;
    try (injection H as <- <-; split; [simpl; lia | constructor]).
  destruct ((c =? 0) || (c =? 10)) eqn:E; [injection H as <- <-; split; [simpl; lia | constructor]|].
  destruct (take_line n text) as [w q] eqn:E2. injection H as <- <-. apply IH in E2 as [Hl Hf].
  split; [simpl; lia|]. constructor; [lia | done].
Qed.

Lemma split_lines_ok n text : Forall line_ok (split_lines n text) /\ (length (split_lines n text) <= n)%nat.
Proof.
  revert text. induction n as [|n IH]; intros text; cbn [split_lines]; [split; [constructor | done]|].
  destruct (char_at text 0 =? 0); [split; [constructor | simpl; lia]|].
  destruct (take_line (MAX_LINE - 1) text) as [l r] eqn:E.
  destruct (IH (if char_at r 0 =? 10 then tail r else r)) as [H1 H2].
  split; [|simpl; lia]. constructor; [|done]. apply take_line_ok in E as [Hl Hf].
  split; [unfold MAX_LINE in *; lia | done].
Qed.

Lemma take_line_line n l rest :
  Forall (fun c => c <> 0 /\ c <> 10) l -> (length l <= n)%nat -> take_line n (l ++ 10 :: rest) = (l, 10 :: rest).
Proof.
  intros Hl. revert n. induction Hl as [|c l [H0 H10] _ IH]; intros n Hn; [by destruct n|].
  destruct n as [|n]; simpl in Hn; [lia|]. cbn [take_line app].
  rewrite (proj2 (Z.eqb_neq c 0)), (proj2 (Z.eqb_neq c 10)) by done. cbn [orb]. by rewrite IH by lia.
Qed.

Lemma split_unlines n ls : Forall line_ok ls -> (length ls <= n)%nat -> split_lines n (unlines ls) = ls.
Proof.
  intros H. revert n. induction H as [|l ls [Hl Hf] _ IH]; intros n Hn; [by destruct n|].
  destruct n as [|n]; simpl in Hn; [lia|]. cbn [split_lines].
  change (unlines (l :: ls)) with ((l ++ [10]) ++ unlines ls). rewrite <- app_assoc. cbn [app].
  assert (H0 : (char_at (l ++ 10 :: unlines ls) 0 =? 0) = false).
  { destruct Hf as [|c l' [H0 _] _]; [done|]. by apply Z.eqb_neq. }
  rewrite H0, take_line_line by (done || unfold MAX_LINE in *; lia).
  change (char_at (10 :: unlines ls) 0 =? 10) with true. cbn [tail]. by rewrite IH by lia.
Qed.

Lemma join_unlines ls sub :
  Forall line_ok ls -> (length sub + MAX_LINE * length ls <= MAX_LINE * (MAX_LINES - 1))%nat ->
  join_lines ls sub = sub ++ unlines ls.
Proof.
  intros H. revert sub. induction H as [|l ls [Hl _] _ IH]; intros sub Hs; cbn [join_lines].
  - by rewrite app_nil_r.
  - unfold MAX_LINE, MAX_LINES in *. cbn [length] in Hs.
    destruct (Nat.leb_spec (64 * 128) (length sub + length l + 2)); [lia|].
    rewrite IH by (rewrite !length_app; simpl; lia).
    change (unlines (l :: ls)) with ((l ++ [10]) ++ unlines ls). by rewrite <- !app_assoc.
Qed.

Lemma join_unlines_nil ls :
  Forall line_ok ls -> (length ls < MAX_LINES)%nat -> join_lines ls [] = unlines ls.
Proof. intros H Hl. apply join_unlines; [done|]. unfold MAX_LINE, MAX_LINES in *. simpl length. lia. Qed.

Lemma find_end_range ls k d e : find_end ls k d = Some e -> (k <= e < k + length ls)%nat.
Proof.
  revert k d. induction ls as [|l ls IH]; intros k d; cbn [find_end]; [done|]. simpl length.
  repeat case_match; intros He; try (apply IH in He; lia); injection He as <-; lia.
Qed.

Section Ends.

Context (script : chars -> mlst -> out (Z * mlst)) (n : nat).
Context (Hn : (n <= MAX_LINES)%nat).
Context (Hscript : forall ls s, Forall line_ok ls -> (length ls < n)%nat -> settles (script (unlines ls) s)).

Lemma if_body_settles ls s : Forall line_ok ls -> (length ls < n)%nat -> settles (if_body script ls s).
Proof.
  intros H. revert s. induction H as [|l ls Hl Hls IH]; intros s Hlen; cbn [if_body]; [apply settles_ret|].
  destruct (starts_if _ || says_while _).
  - rewrite join_unlines_nil by (try (by constructor); lia). settle. apply Hscript; [by constructor | done].
  - settle. apply IH. simpl in Hlen. lia.
Qed.

Lemma run_lines_settles fuel lines pc s :
  Forall line_ok lines -> (length lines <= n)%nat -> (length lines - pc < fuel)%nat ->
  settles (run_lines script fuel lines pc s).
Proof.
  intros Hl Hlen. revert pc s. induction fuel as [|fuel IH]; intros pc s Hf; [lia|]. cbn [run_lines].
  destruct (lines !! pc) as [l|] eqn:E; [|apply settles_ret]. apply lookup_lt_Some in E.
  assert (Hend : forall e, find_end (drop (S pc) lines) (S pc) 1 = Some e ->
    (length lines - S e < fuel)%nat /\
    Forall line_ok (take (e - S pc) (drop (S pc) lines)) /\ (length (take (e - S pc) (drop (S pc) lines)) < n)%nat).
  { intros e He. apply find_end_range in He. rewrite length_drop in He. split_and!; [lia | |].
    - by apply Forall_take, Forall_drop.
    - rewrite length_take, length_drop. lia. }
  destruct (_ || _); [apply IH; lia|]. destruct (str_eq _ _); [apply settles_ret|].
  destruct (starts_if _); [|destruct (starts_while _)].
  - apply settles_bind; [apply eval_condition_settles|]. intros [c|]; [|apply settles_ret].
    destruct (find_end _ _ 1) as [e|] eqn:Ee; [|apply settles_ret]. destruct (Hend e eq_refl) as (H1 & H2 & H3).
    apply settles_then; [destruct c; [by apply if_body_settles | apply settles_ret]|].
    intros r s'. destruct (negb _); [apply settles_ret | by apply IH].
  - destruct (find_end _ _ 1) as [e|] eqn:Ee; [|apply settles_ret]. destruct (Hend e eq_refl) as (H1 & _).
    apply settles_then; [apply while_loop_settles|].
    intros r s'. destruct (negb _); [apply settles_ret | by apply IH].
  - apply settles_then; [apply exec_line_settles|].
    intros r s'. destruct (negb _); [apply settles_ret | apply IH; lia].
Qed.

End Ends.

Lemma exec_script_settles n text s :
  (length (split_lines MAX_LINES text) <= n <= MAX_LINES)%nat -> settles (mlang_exec_script_n (S n) text s).
Proof.
  revert text s. induction n as [|n IH]; intros text s Hn; cbn [mlang_exec_script_n].
  - destruct (split_lines MAX_LINES text) eqn:E; [apply settles_ret | simpl in Hn; lia].
  - apply (run_lines_settles _ (S n)); [lia | | apply split_lines_ok | lia | lia].
    intros ls s' Hls Hlen. apply IH. rewrite split_unlines by (done || lia). lia.
Qed.

(** Every script ends, whatever its text: unbalanced blocks, overlong
    lines, nested blocks and loops that never become false included (a
    [while] is cut off after 10000 rounds, a nested block has fewer lines
    than the script around it).  The only other outcome is the divide error of the
    calculator. *)
Theorem mlang_script_total text s :
  (exists r s', mlang_exec_script text s = Ret (r, s')) \/ mlang_exec_script text s = Fault Trap.
Proof.
  destruct (exec_script_settles MAX_LINES text s) as [[[r s'] H] | H]; [|left; eauto | by right].
  split; [apply split_lines_ok | done].
Qed.

(** ** The block structure of lines

    An intermediate step: the lines of a script gathered into blocks, still
    run line by line with the interpreter's own routines.  [Programs as
    trees] below gives them their meaning. *)

(** A block keeps the lines it is written with: the header (with its
    condition) and the closing line. *)
Inductive stmt : Type :=
| SLine (l : chars)
| SIf (h : chars) (b : list stmt) (e : chars)
| SWhile (h : chars) (b : list chars) (e : chars).

Fixpoint layout (p : stmt) : list chars :=
  match p with
  | SLine l => [l]
  | SIf h b e => h :: concat (map layout b) ++ [e]
  | SWhile h b e => h :: b ++ [e]
  end.
Definition layouts (ps : list stmt) : list chars := concat (map layout ps).

Definition simple (l : chars) : Prop :=
  line_ok l /\ starts_if (skip_ws l) = false /\ starts_while (skip_ws l) = false /\
  str_eq (skip_ws l) $"end" = false.
Definition is_end (l : chars) : Prop := line_ok l /\ str_eq (skip_ws l) $"end" = true.

(** Blocks may be nested inside an [if]; the body of a [while] has simple
    lines only. *)
Inductive wf_stmt : stmt -> Prop :=
| wf_line l : simple l -> wf_stmt (SLine l)
| wf_if h b e : line_ok h -> starts_if (skip_ws h) = true -> Forall wf_stmt b -> is_end e ->
    wf_stmt (SIf h b e)
| wf_while h b e : line_ok h -> starts_while (skip_ws h) = true -> Forall simple b -> is_end e ->
    wf_stmt (SWhile h b e).

(** Sequential composition that stops at the first error. *)
Definition seq_run {A} (f : A -> mlst -> out (Z * mlst)) : list A -> mlst -> out (Z * mlst) :=
  fix go (ps : list A) (s : mlst) {struct ps} :=
    match ps with
    | [] => Ret (0, s)
    | p :: ps' =>
        '(r, s) ← f p s;
        if negb (r =? 0) then Ret (-1, s) else go ps' s
    end.

Fixpoint run_stmt (p : stmt) (s : mlst) : out (Z * mlst) :=
  match p with
  | SLine l => mlang_exec_line l s
  | SIf h b _ =>
      c ← eval_condition (skip_ws (drop 2 (skip_ws h))) s;
      match c with
      | None => Ret (-1, say $"mlang: bad condition
" s)
      | Some true => seq_run run_stmt b s
      | Some false => Ret (0, s)
      end
  | SWhile h b _ => while_loop WHILE_MAX (skip_ws (drop 5 (skip_ws h))) b s
  end.
Definition run_all : list stmt -> mlst -> out (Z * mlst) := seq_run run_stmt.

(** Induction over statements and the statements in their blocks. *)
Lemma stmt_nested_ind (P : stmt -> Prop) :
  (forall l, P (SLine l)) -> (forall h b e, Forall P b -> P (SIf h b e)) ->
  (forall h b e, P (SWhile h b e)) -> forall p, P p.
Proof.
  intros H1 H2 H3. fix IH 1. intros [l|h b e|h b e]; [apply H1 | | apply H3].
  apply H2. induction b as [|p b IHb]; constructor; [apply IH | exact IHb].
Qed.

Lemma wf_line_inv l : wf_stmt (SLine l) -> simple l.
Proof. by inversion 1. Qed.
Lemma wf_if_inv h b e :
  wf_stmt (SIf h b e) -> line_ok h /\ starts_if (skip_ws h) = true /\ Forall wf_stmt b /\ is_end e.
Proof. by inversion 1. Qed.
Lemma wf_while_inv h b e :
  wf_stmt (SWhile h b e) -> line_ok h /\ starts_while (skip_ws h) = true /\ Forall simple b /\ is_end e.
Proof. by inversion 1. Qed.

Lemma layout_ok p : wf_stmt p -> Forall line_ok (layout p).
Proof.
  induction p as [l|h b e IH|h b e] using stmt_nested_ind; intros H; cbn [layout].
  - apply wf_line_inv in H as (Hl & _). by apply Forall_singleton.
  - apply wf_if_inv in H as (Hh & _ & Hb & He & _). constructor; [done|]. apply Forall_app.
    split; [|by apply Forall_singleton]. induction IH as [|p b Hp _ IHb]; [constructor|].
    inversion Hb; subst. cbn [map concat]. apply Forall_app. split; auto.
  - apply wf_while_inv in H as (Hh & _ & Hb & He & _). constructor; [done|]. apply Forall_app.
    split; [|by apply Forall_singleton]. eapply Forall_impl; [exact Hb|]. by intros l (? & _).
Qed.

Lemma layouts_ok ps : Forall wf_stmt ps -> Forall line_ok (layouts ps).
Proof.
  induction 1 as [|p ps Hp _ IH]; [constructor|]. unfold layouts. cbn [map concat].
  apply Forall_app. split; [by apply layout_ok | done].
Qed.

(** *** Reading the first character of a keyword line *)

Lemma starts_if_head t : starts_if t = true ->
  char_at t 0 = 105 /\ str_eq t $"end" = false /\ starts_while t = false.
Proof.
  unfold starts_if, starts_while, says_while. intros H. apply andb_true_iff in H as [H _].
  apply bool_decide_eq_true in H. destruct t as [|c [|d t]]; try done. injection H as -> ->.
  split_and!; [done | done |]. apply andb_false_iff. left. apply bool_decide_eq_false. done.
Qed.

Lemma starts_while_head t : starts_while t = true ->
  char_at t 0 = 119 /\ str_eq t $"end" = false /\ starts_if t = false /\ says_while t = true.
Proof.
  unfold starts_while. intros H. apply andb_true_iff in H as [H _]. pose proof H as H'.
  unfold says_while in H. apply bool_decide_eq_true in H. destruct t as [|c t]; [done|].
  assert (c = 119) as -> by (by injection H as ->).
  split_and!; [done | done | | done]. unfold starts_if. apply andb_false_iff. left.
  apply bool_decide_eq_false. by destruct t.
Qed.

Lemma is_end_head e : is_end e -> starts_if (skip_ws e) = false /\ starts_while (skip_ws e) = false.
Proof.
  intros [_ H]. split.
  - destruct (starts_if (skip_ws e)) eqn:E; [|done]. apply starts_if_head in E as (_ & ? & _). congruence.
  - destruct (starts_while (skip_ws e)) eqn:E; [|done]. apply starts_while_head in E as (_ & ? & _). congruence.
Qed.

(** *** The matching [end] *)

Lemma find_end_simple ls rest k d :
  Forall simple ls -> find_end (ls ++ rest) k (S d) = find_end rest (k + length ls) (S d).
Proof.
  intros H. revert k. induction H as [|l ls (_ & H1 & H2 & H3) _ IH]; intros k; cbn [app find_end length].
  - by rewrite Nat.add_0_r.
  - rewrite H1, H2, H3. cbn [orb]. rewrite IH. f_equal. lia.
Qed.

Lemma find_end_close e rest k d :
  is_end e -> find_end (e :: rest) k (S d) = match d with O => Some k | S _ => find_end rest (S k) d end.
Proof.
  intros He. destruct (is_end_head e He) as [H1 H2]. cbn [find_end]. rewrite H1, H2, (proj2 He). by destruct d.
Qed.

Lemma find_end_layout p rest k d :
  wf_stmt p -> find_end (layout p ++ rest) k (S d) = find_end rest (k + length (layout p)) (S d).
Proof.
  revert rest k d. induction p as [l|h b e IH|h b e] using stmt_nested_ind; intros rest k d H; cbn [layout].
  - apply wf_line_inv in H. by apply (find_end_simple [l]); constructor.
  - apply wf_if_inv in H as (_ & Hh & Hb & He). cbn [app find_end]. rewrite Hh. cbn [orb].
    rewrite <- app_assoc. cbn [app].
    enough (Hgo : forall k, find_end (concat (map layout b) ++ e :: rest) k (S (S d)) =
                  find_end (e :: rest) (k + length (concat (map layout b))) (S (S d))).
    { rewrite Hgo, find_end_close by done. f_equal. simpl. rewrite length_app. simpl. lia. }
    induction IH as [|p b Hp _ IHb]; intros k'; cbn [map concat app].
    + by rewrite Nat.add_0_r.
    + inversion Hb; subst. rewrite <- app_assoc, Hp, IHb, length_app by done. f_equal. lia.
  - apply wf_while_inv in H as (_ & Hh & Hb & He). cbn [app find_end].
    rewrite Hh, orb_true_r, <- app_assoc. cbn [app].
    rewrite find_end_simple, find_end_close by done. f_equal. simpl. rewrite length_app. simpl. lia.
Qed.

Lemma find_end_layouts ps rest k d :
  Forall wf_stmt ps -> find_end (layouts ps ++ rest) k (S d) = find_end rest (k + length (layouts ps)) (S d).
Proof.
  intros H. revert k. induction H as [|p ps Hp _ IH]; intros k; unfold layouts; cbn [map concat app].
  - by rewrite Nat.add_0_r.
  - rewrite <- app_assoc, find_end_layout by done. fold (layouts ps). rewrite IH, length_app. f_equal. lia.
Qed.

(** *** Running lines is running statements *)

Lemma seq_run_code {A} (f : A -> mlst -> out (Z * mlst)) ps s r s' :
  seq_run f ps s = Ret (r, s') -> (if negb (r =? 0) then -1 else 0) = r.
Proof.
  revert s. induction ps as [|p ps IH]; intros s; cbn [seq_run].
  - by intros [= <- _].
  - destruct (f p s) as [[q s1]|]; cbn; [|done]. destruct (q =? 0); cbn; [apply IH | by intros [= <- _]].
Qed.

Lemma seq_run_body ls s : exec_body ls s = seq_run mlang_exec_line ls s.
Proof.
  revert s. induction ls as [|l ls IH]; intros s; [done|]. cbn [exec_body seq_run].
  destruct (mlang_exec_line l s) as [[r s1]|]; cbn; [|done]. destruct (r =? 0); cbn; auto.
Qed.

Lemma layout_head p : wf_stmt p -> exists l ls, layout p = l :: ls.
Proof. destruct p; cbn [layout]; eauto. Qed.

Section Running.

Context (script : chars -> mlst -> out (Z * mlst)) (n : nat).
Context (Hn : (n <= MAX_LINES)%nat).
Context (Hscript : forall ps s, Forall wf_stmt ps -> (length (layouts ps) < n)%nat ->
  script (unlines (layouts ps)) s = run_all ps s).

(** A block that starts at the head of the lines is handed to the script
    call with everything that follows. *)
Lemma if_body_nested ps l ls s :
  Forall wf_stmt ps -> layouts ps = l :: ls -> (length (layouts ps) < n)%nat ->
  starts_if (skip_ws l) || says_while (skip_ws l) = true -> if_body script (l :: ls) s = run_all ps s.
Proof.
  intros Hps Hl Hlen Hk. cbn [if_body]. rewrite Hk, <- Hl.
  rewrite join_unlines_nil, Hscript by (try (by apply layouts_ok); try done; lia).
  destruct (run_all ps s) as [[r s1]|] eqn:E; [|done]. cbn. by rewrite (seq_run_code _ _ _ _ _ E).
Qed.

Lemma if_body_stmts ps s :
  Forall wf_stmt ps -> (length (layouts ps) < n)%nat -> if_body script (layouts ps) s = run_all ps s.
Proof.
  intros H. revert s. induction H as [|p ps Hp Hps IH]; intros s Hlen; [done|].
  assert (Hall : Forall wf_stmt (p :: ps)) by (by constructor).
  destruct p as [l|h b e|h b e]; unfold layouts; cbn [map concat layout app].
  - destruct (starts_if (skip_ws l) || says_while (skip_ws l)) eqn:Hk;
      [by apply (if_body_nested (SLine l :: ps))|].
    cbn [if_body]. rewrite Hk. unfold run_all. cbn [seq_run run_stmt].
    destruct (mlang_exec_line l s) as [[r s1]|]; cbn; [|done]. destruct (r =? 0); cbn; [|done].
    apply IH. unfold layouts in Hlen. cbn in Hlen. unfold layouts. lia.
  - apply (if_body_nested (SIf h b e :: ps)); [done | done | done |].
    apply wf_if_inv in Hp as (_ & -> & _). done.
  - apply (if_body_nested (SWhile h b e :: ps)); [done | done | done |].
    apply wf_while_inv in Hp as (_ & Hw & _). apply starts_while_head in Hw as (_ & _ & _ & ->).
    by rewrite orb_true_r.
Qed.

(** The lines of a block inside [lines]: where it ends and what is in it. *)
Lemma block_lines (pre : list chars) (h : chars) (body : list chars) (e : chars) (post : list chars) :
  let lines : list chars := pre ++ h :: body ++ e :: post in
  lines !! length pre = Some h /\
  drop (S (length pre)) lines = body ++ e :: post /\
  take (S (length pre) + length body - S (length pre)) (body ++ e :: post) = body /\
  lines = (pre ++ h :: body ++ [e]) ++ post /\
  S (S (length pre) + length body) = length (pre ++ h :: body ++ [e]).
Proof.
  intros lines. unfold lines. split_and!.
  - by rewrite list_lookup_middle.
  - rewrite drop_app_ge by lia. replace (S (length pre) - length pre)%nat with 1%nat by lia. done.
  - replace (S (length pre) + length body - S (length pre))%nat with (length body) by lia.
    by rewrite take_app_length.
  - rewrite <- !app_assoc. cbn [app]. by rewrite <- app_assoc.
  - rewrite length_app. simpl. rewrite length_app. simpl. lia.
Qed.

Lemma run_lines_stmts ps pre fuel s :
  Forall wf_stmt ps -> (length (pre ++ layouts ps) <= n)%nat -> (length (layouts ps) < fuel)%nat ->
  run_lines script fuel (pre ++ layouts ps) (length pre) s = run_all ps s.
Proof.
  intros H. revert pre fuel s. induction H as [|p ps Hp Hps IH]; intros pre fuel s Hlen Hf;
    (destruct fuel as [|fuel]; [lia|]).
  { cbn [layouts map concat run_lines]. change (layouts []) with (@nil chars). rewrite app_nil_r.
    by rewrite lookup_ge_None_2 by lia. }
  unfold layouts in *. destruct p as [l|h b e|h b e]; cbn [map concat layout app] in *.
  - cbn [run_lines]. rewrite list_lookup_middle by done.
    apply wf_line_inv in Hp as (_ & H1 & H2 & H3).
    replace (pre ++ l :: concat (map layout ps)) with ((pre ++ [l]) ++ concat (map layout ps)) in *
      by (by rewrite <- app_assoc).
    replace (S (length pre)) with (length (pre ++ [l])) by (rewrite length_app; simpl; lia).
    unfold run_all. cbn [seq_run run_stmt].
    destruct ((char_at (skip_ws l) 0 =? 0) || (char_at (skip_ws l) 0 =? 35)) eqn:Hc.
    + unfold mlang_exec_line. rewrite Hc. cbn. apply IH; [lia | simpl in Hf; lia].
    + rewrite H3, H1, H2. destruct (mlang_exec_line l s) as [[r s1]|]; cbn; [|done].
      destruct (r =? 0); cbn; [|done]. apply IH; [lia | simpl in Hf; lia].
  - apply wf_if_inv in Hp as (_ & Hh & Hb & He). fold (layouts b) in *. fold (layouts ps) in *.
    rewrite <- app_assoc in *. cbn [app] in *.
    destruct (block_lines pre h (layouts b) e (layouts ps)) as (B1 & B2 & B3 & B4 & B5).
    cbn [run_lines]. rewrite B1. destruct (starts_if_head _ Hh) as (-> & -> & _). rewrite Hh, B2. cbn [orb Z.eqb].
    rewrite find_end_layouts, find_end_close by done. cbv beta iota. rewrite B3, B5. unfold run_all. cbn [seq_run run_stmt].
    destruct (eval_condition _ s) as [[c|]|]; cbn; [|done|done].
    assert (Hl : (length (pre ++ h :: layouts b ++ e :: layouts ps) =
                  length pre + S (length (layouts b) + S (length (layouts ps))))%nat)
      by (rewrite length_app; simpl; rewrite length_app; simpl; lia).
    replace (if c then if_body script (layouts b) s else Ret (0, s))
      with (if c then run_all b s else Ret (0, s)) by (destruct c; [symmetry; apply if_body_stmts; [done | lia] | done]).
    destruct c; [destruct (run_all b s) as [[r s1]|] eqn:Er; cbn; [|unfold run_all in Er; by rewrite Er]|].
    + unfold run_all in Er. rewrite Er. cbn. destruct (r =? 0); cbn; [|done].
      rewrite B4 at 1. apply IH; [by rewrite <- B4 | simpl in Hf; rewrite length_app in Hf; simpl in Hf; lia].
    + cbn. rewrite B4 at 1. apply IH; [by rewrite <- B4 | simpl in Hf; rewrite length_app in Hf; simpl in Hf; lia].
  - apply wf_while_inv in Hp as (_ & Hh & Hb & He). fold (layouts ps) in *.
    rewrite <- app_assoc in *. cbn [app] in *.
    destruct (block_lines pre h b e (layouts ps)) as (B1 & B2 & B3 & B4 & B5).
    cbn [run_lines]. rewrite B1. destruct (starts_while_head _ Hh) as (-> & -> & -> & _). rewrite Hh, B2. cbn [orb Z.eqb].
    rewrite find_end_simple, find_end_close by done. cbv beta iota. rewrite B3, B5. unfold run_all. cbn [seq_run run_stmt].
    destruct (while_loop _ _ _ s) as [[r s1]|]; cbn; [|done]. destruct (r =? 0); cbn; [|done].
    rewrite B4 at 1. apply IH; [by rewrite <- B4 | simpl in Hf; rewrite length_app in Hf; simpl in Hf; lia].
Qed.

End Running.

Lemma exec_script_stmts n ps s :
  (length (layouts ps) <= n <= MAX_LINES)%nat -> Forall wf_stmt ps ->
  mlang_exec_script_n (S n) (unlines (layouts ps)) s = run_all ps s.
Proof.
  revert ps s. induction n as [|n IH]; intros ps s Hn Hps; cbn [mlang_exec_script_n];
    rewrite split_unlines by (try (by apply layouts_ok); lia).
  - assert (Hnil : layouts ps = []) by (destruct (layouts ps); [done | simpl in Hn; lia]).
    destruct ps as [|p ps]; [done|]. inversion Hps; subst.
    destruct (layout_head p) as (l & ls & E); [done|]. unfold layouts in Hnil. cbn in Hnil. by rewrite E in Hnil.
  - apply (run_lines_stmts _ (S n)) with (pre := []); [lia | | done | simpl; lia | lia].
    intros qs s' Hqs Hlen. apply IH; [lia | done].
Qed.

(** ** Programs as trees

    The meaning of the language on its own: commands over expression trees,
    with their ways of being written as lines on one side and a big-step
    semantics on the other.  Neither mentions the interpreter's routines. *)

(** An expression with the text that is written for it, which may have
    blanks on either side. *)
Record expr : Type := mk_expr { tree : vexp; text : chars }.
Definition expr_ok (x : expr) : Prop :=
  exists u w, text x = u ++ w /\ vreads 3 (tree x) u /\ spaces w.
Definition no_indent (cs : chars) : Prop := is_space (char_at cs 0) = false.

Definition op_text (o : cmp) : chars :=
  match o with
  | CEq => $"==" | CNe => $"!=" | CLe => $"<=" | CGe => $">=" | CLt => $"<" | CGt => $">"
  end.
Definition op_holds (o : cmp) (a b : Z) : Prop :=
  match o with
  | CEq => a = b | CNe => a <> b | CLe => a <= b | CGe => b <= a | CLt => a < b | CGt => b < a
  end.
#[export] Instance op_holds_dec o a b : Decision (op_holds o a b).
Proof. destruct o; simpl; apply _. Defined.

Inductive cond : Type := Truth (x : expr) | Test (o : cmp) (x y : expr).
Definition cond_text (c : cond) : chars :=
  match c with Truth x => text x | Test o x y => text x ++ op_text o ++ text y end.
(** Either side of a comparison is copied into 64 bytes. *)
Definition cond_ok (c : cond) : Prop :=
  match c with
  | Truth x => expr_ok x /\ no_indent (text x)
  | Test o x y => expr_ok x /\ expr_ok y /\ no_indent (text x) /\
      (length (text x) <= 63)%nat /\ (length (text y) <= 63)%nat
  end.

Inductive cmd : Type :=
| Skip | Assign (nm : chars) (x : expr) | Print (x : expr) | PrintText (t : chars)
| If (c : cond) (b : list cmd) | While (c : cond) (b : list cmd).

(** How a command that is no block is written. *)
Inductive simple_line : cmd -> chars -> Prop :=
| sl_blank w : spaces w -> simple_line Skip w
| sl_comment w t : spaces w -> simple_line Skip (w ++ 35 :: t)
| sl_assign ind nm w1 w2 x :
    spaces ind -> name_ok nm -> nm ∉ [$"if"; $"while"; $"print"] -> spaces w1 -> spaces w2 ->
    expr_ok x -> no_indent (text x) -> simple_line (Assign nm x) (ind ++ nm ++ w1 ++ 61 :: w2 ++ text x)
| sl_print ind w x :
    spaces ind -> spaces w -> w <> [] -> expr_ok x -> no_indent (text x) ->
    simple_line (Print x) (ind ++ $"print" ++ w ++ text x)
| sl_text ind w t r :
    spaces ind -> spaces w -> w <> [] -> Forall (fun c => c <> 0 /\ c <> 34) t ->
    simple_line (PrintText t) (ind ++ $"print" ++ w ++ 34 :: t ++ 34 :: r).

Definition line_of (c : cmd) (l : chars) : Prop := simple_line c l /\ line_ok l.

(** How a program is written: one line per command, a block between its
    header and [end].  Blocks may be nested inside an [if]; the body of a
    [while] has no blocks. *)
Inductive lays : list cmd -> list chars -> Prop :=
| ly_nil : lays [] []
| ly_line c l ps ls : line_of c l -> lays ps ls -> lays (c :: ps) (l :: ls)
| ly_if ind w c b bl ind' ps ls :
    spaces ind -> spaces w -> w <> [] -> cond_ok c -> line_ok (ind ++ $"if" ++ w ++ cond_text c) ->
    lays b bl -> spaces ind' -> line_ok (ind' ++ $"end") -> lays ps ls ->
    lays (If c b :: ps) ((ind ++ $"if" ++ w ++ cond_text c) :: bl ++ (ind' ++ $"end") :: ls)
| ly_while ind w c b bl ind' ps ls :
    spaces ind -> spaces w -> w <> [] -> cond_ok c -> line_ok (ind ++ $"while" ++ w ++ cond_text c) ->
    Forall2 line_of b bl -> spaces ind' -> line_ok (ind' ++ $"end") -> lays ps ls ->
    lays (While c b :: ps) ((ind ++ $"while" ++ w ++ cond_text c) :: bl ++ (ind' ++ $"end") :: ls).

(** *** The meaning *)

(** The value of an expression in the current variables; a text that does
    not fit the expansion buffer with numbers for names has none. *)
Definition expr_result (s : mlst) (x : expr) (o : out (option Z)) : Prop :=
  exists t, expands s (text x) t /\
    if (length t <? 128)%nat then expr_agrees (veval (env s) (tree x)) o else o = Ret None.

(** What becomes of a failed evaluation. *)
Definition fails {A} (msg : chars) (s : mlst) (o : out (option A)) (r : out (Z * mlst)) : Prop :=
  (o = Ret None /\ r = Ret (-1, say (msg ++ [10]) s)) \/ (o = Fault Trap /\ r = Fault Trap).

Inductive cond_result (s : mlst) : cond -> out (option bool) -> Prop :=
| cr_truth x v : expr_result s x (Ret (Some v)) -> cond_result s (Truth x) (Ret (Some (bool_decide (v <> 0))))
| cr_truth_none x : expr_result s x (Ret None) -> cond_result s (Truth x) (Ret None)
| cr_truth_trap x : expr_result s x (Fault Trap) -> cond_result s (Truth x) (Fault Trap)
| cr_test o x y a b :
    expr_result s x (Ret (Some a)) -> expr_result s y (Ret (Some b)) ->
    cond_result s (Test o x y) (Ret (Some (bool_decide (op_holds o a b))))
| cr_left_none o x y : expr_result s x (Ret None) -> cond_result s (Test o x y) (Ret None)
| cr_left_trap o x y : expr_result s x (Fault Trap) -> cond_result s (Test o x y) (Fault Trap)
| cr_right_none o x y a :
    expr_result s x (Ret (Some a)) -> expr_result s y (Ret None) -> cond_result s (Test o x y) (Ret None)
| cr_right_trap o x y a :
    expr_result s x (Ret (Some a)) -> expr_result s y (Fault Trap) -> cond_result s (Test o x y) (Fault Trap).

(** Characters typed on the console. *)
Definition typed (cs : chars) (s : mlst) : mlst :=
  mk_ml (vars s) (foldl (fun t c => Terminal.terminal_putchar c t) (tty s) cs).

(** No variable has that name. *)
Definition unknown (nm : chars) (s : mlst) : Prop :=
  forall i, (i < MAX_VARS)%nat -> used (vars s !!! i) = true -> cstr (name (vars s !!! i)) <> nm.

(** [does c s o]: the command ends with [o]: 0 and a state, -1 after an
    error was reported, or the divide error of the processor.  [loops n]: a
    [while] with [n] rounds left. *)
Inductive does : cmd -> mlst -> out (Z * mlst) -> Prop :=
| do_skip s : does Skip s (Ret (0, s))
| do_assign nm x s v s' :
    expr_result s x (Ret (Some v)) -> assigned nm v s s' -> does (Assign nm x) s (Ret (0, s'))
| do_assign_full nm x s v :
    expr_result s x (Ret (Some v)) -> var_full s -> unknown nm s ->
    does (Assign nm x) s (Ret (-1, say ($"mlang: too many variables" ++ [10]) s))
| do_assign_fails nm x s o r :
    expr_result s x o -> fails $"mlang: bad expression" s o r -> does (Assign nm x) s r
| do_print x s v :
    expr_result s x (Ret (Some v)) -> does (Print x) s (Ret (0, typed (Terminal.int_chars v ++ [10]) s))
| do_print_fails x s o r :
    expr_result s x o -> fails $"mlang: bad expression" s o r -> does (Print x) s r
| do_text t s : does (PrintText t) s (Ret (0, typed (t ++ [10]) s))
| do_if_true c b s o : cond_result s c (Ret (Some true)) -> runs b s o -> does (If c b) s o
| do_if_false c b s : cond_result s c (Ret (Some false)) -> does (If c b) s (Ret (0, s))
| do_if_fails c b s o r : cond_result s c o -> fails $"mlang: bad condition" s o r -> does (If c b) s r
| do_while c b s o : loops (Z.to_nat 10000) c b s o -> does (While c b) s o
with runs : list cmd -> mlst -> out (Z * mlst) -> Prop :=
| run_done s : runs [] s (Ret (0, s))
| run_next c ps s s1 o : does c s (Ret (0, s1)) -> runs ps s1 o -> runs (c :: ps) s o
| run_error c ps s s1 : does c s (Ret (-1, s1)) -> runs (c :: ps) s (Ret (-1, s1))
| run_trap c ps s : does c s (Fault Trap) -> runs (c :: ps) s (Fault Trap)
with loops : nat -> cond -> list cmd -> mlst -> out (Z * mlst) -> Prop :=
| loop_cut c b s : loops 0 c b s (Ret (0, s))
| loop_end n c b s : cond_result s c (Ret (Some false)) -> loops (S n) c b s (Ret (0, s))
| loop_fails n c b s o r : cond_result s c o -> fails $"mlang: bad condition" s o r -> loops (S n) c b s r
| loop_round n c b s s1 o :
    cond_result s c (Ret (Some true)) -> runs b s (Ret (0, s1)) -> loops n c b s1 o -> loops (S n) c b s o
| loop_error n c b s s1 :
    cond_result s c (Ret (Some true)) -> runs b s (Ret (-1, s1)) -> loops (S n) c b s (Ret (-1, s1))
| loop_trap n c b s :
    cond_result s c (Ret (Some true)) -> runs b s (Fault Trap) -> loops (S n) c b s (Fault Trap).

(** *** Reading a condition *)

Definition plain (c : Z) : Prop := c <> 0 /\ c <> 33 /\ c <> 60 /\ c <> 61 /\ c <> 62 /\ c <> 34.

Lemma spaces_plain w : spaces w -> Forall plain w.
Proof. intros H. eapply Forall_impl; [exact H|]. unfold is_space, plain. intros c Hc. cbv beta in Hc. lia. Qed.

Lemma vreads_plain l e x : vreads l e x -> Forall plain x.
Proof.
  induction 1; repeat first [apply Forall_app; split | apply Forall_cons; split | assumption | by apply spaces_plain | by constructor];
    try (unfold plain; lia).
  - eapply Forall_impl; [done|]. unfold Terminal.is_digit, plain. intros c Hc. cbv beta in Hc. lia.
  - destruct H as (_ & Hn & _). eapply Forall_impl; [exact Hn|].
    unfold is_ident, is_ident_start, plain. intros c Hc. cbv beta in Hc. lia.
  - unfold is_space, plain in *. lia.
Qed.

Lemma expr_plain x : expr_ok x -> Forall plain (text x).
Proof.
  intros (u & w & -> & Hr & Hw). apply Forall_app. split; [by eapply vreads_plain | by apply spaces_plain].
Qed.
Lemma plain_no_nul cs : Forall plain cs -> no_nul cs.
Proof. intros H. eapply Forall_impl; [exact H|]. by intros c (? & _). Qed.

Lemma op_at_plain c p : plain c -> op_at (c :: p) = None.
Proof.
  unfold plain, op_at. intros (H0 & H1 & H2 & H3 & H4 & _). change (char_at (c :: p) 0) with c.
  by rewrite (proj2 (Z.eqb_neq c 61)), (proj2 (Z.eqb_neq c 33)), (proj2 (Z.eqb_neq c 60)), (proj2 (Z.eqb_neq c 62)) by done.
Qed.

Lemma find_op_plain p : Forall plain p -> find_op p = None.
Proof.
  induction 1 as [|c p Hc _ IH]; [done|]. cbn [find_op]. rewrite op_at_plain, IH by done.
  destruct Hc as (H0 & _). by rewrite (proj2 (Z.eqb_neq c 0)).
Qed.

Lemma op_at_angle c d r :
  c = 60 \/ c = 62 -> d <> 61 -> op_at (c :: d :: r) = Some (if c =? 60 then CLt else CGt, 1%nat).
Proof.
  intros Hc Hd. unfold op_at. change (char_at (c :: d :: r) 0) with c. change (char_at (c :: d :: r) 1) with d.
  rewrite (proj2 (Z.eqb_neq d 61)) by done. by destruct Hc as [-> | ->].
Qed.

Lemma find_op_text l o r : Forall plain l -> Forall plain r -> find_op (l ++ op_text o ++ r) = Some (l, o, r).
Proof.
  intros Hl Hr. induction Hl as [|c l Hc _ IH]; cbn [app].
  - destruct o; try reflexivity; (destruct Hr as [|d r (_ & _ & _ & Hd & _)]; [reflexivity|]);
      [change (find_op (60 :: d :: r) = Some ([], CLt, d :: r)) | change (find_op (62 :: d :: r) = Some ([], CGt, d :: r))];
      cbn [find_op]; by rewrite op_at_angle by auto.
  - cbn [find_op]. rewrite op_at_plain, IH by done. destruct Hc as (H0 & _). by rewrite (proj2 (Z.eqb_neq c 0)).
Qed.

Lemma eval_expr_result x s : mlst_wf s -> expr_ok x -> expr_result s x (eval_expr (text x) s).
Proof.
  intros Hwf (u & w & Ht & Hr & Hw). rewrite Ht. unfold expr_result. rewrite Ht.
  exact (eval_expr_reads s (tree x) u w (proj2 Hwf) Hr Hw).
Qed.

Lemma no_indent_skip cs : no_indent cs -> skip_ws cs = cs.
Proof. intros H. by apply (skip_ws_app []); [constructor|]. Qed.

Lemma eval_condition_result c s :
  mlst_wf s -> cond_ok c -> cond_result s c (eval_condition (cond_text c) s).
Proof.
  intros Hwf Hc. unfold eval_condition. destruct c as [x|o x y]; cbn [cond_text cond_ok] in *.
  - destruct Hc as [Hx Hi]. rewrite no_indent_skip by done. rewrite find_op_plain by (by apply expr_plain).
    pose proof (eval_expr_result x s Hwf Hx) as Hr.
    destruct (eval_expr_settles (text x) s) as [[[v|] E]|E]; rewrite E in *; cbn; [|by constructor..].
    replace (negb (v =? 0)) with (bool_decide (v <> 0)); [by constructor|].
    by destruct (Z.eqb_spec v 0); case_bool_decide.
  - destruct Hc as (Hx & Hy & Hi & Hlx & Hly).
    assert (Hi' : skip_ws (text x ++ op_text o ++ text y) = text x ++ op_text o ++ text y).
    { apply no_indent_skip. unfold no_indent in *. destruct (text x); [by destruct o | exact Hi]. }
    rewrite Hi', find_op_text by (by apply expr_plain).
    rewrite (take_ge (text x)), cstr_id, (take_ge (text y)) by (lia || by apply plain_no_nul, expr_plain).
    pose proof (eval_expr_result x s Hwf Hx) as Hrx. pose proof (eval_expr_result y s Hwf Hy) as Hry.
    destruct (eval_expr_settles (text x) s) as [[[a|] E]|E]; rewrite E in *; cbn [mbind out_mbind]; [|by constructor..].
    destruct (eval_expr_settles (text y) s) as [[[b|] E2]|E2]; rewrite E2 in *; cbn [mbind out_mbind];
      [|by eapply cr_right_none | by eapply cr_right_trap].
    replace (compare o a b) with (bool_decide (op_holds o a b)); [by constructor|].
    destruct o; cbn [compare op_holds]; case_bool_decide; lia.
Qed.

(** *** Lines *)

(** What a command leaves: a code and a state in order, or the trap. *)
Definition outcome_ok (o : out (Z * mlst)) : Prop :=
  match o with Ret (r, s) => (r = 0 \/ r = -1) /\ mlst_wf s | Fault f => f = Trap end.

Lemma say_wf c s : mlst_wf s -> mlst_wf (say c s).
Proof. done. Qed.

Lemma skip_spaces w : spaces w -> skip_ws w = [].
Proof. intros Hw. rewrite <- (app_nil_r w). by apply skip_ws_app. Qed.

(** A word that begins with a keyword and is not the keyword goes on. *)
Lemma name_past_keyword kw nm q :
  Forall (fun c => is_ident c = true) kw -> name_ok nm -> nm <> kw -> q <> [] -> is_ident (char_at q 0) = false ->
  take (length kw) (nm ++ q) = kw -> is_ident (char_at (nm ++ q) (length kw)) = true.
Proof.
  intros Hkw (_ & Hall & _) Hne Hq0 Hq Ht.
  destruct (lt_eq_lt_dec (length nm) (length kw)) as [[Hlt|Heq]|Hgt].
  - exfalso. assert (Hc : take (length kw) (nm ++ q) !! length nm = q !! 0%nat).
    { rewrite lookup_take by lia. rewrite decide_True by lia. rewrite lookup_app_r by lia. f_equal. lia. }
    destruct q as [|c q]; [done|]. change (char_at (c :: q) 0) with c in Hq. rewrite Ht in Hc.
    pose proof (Forall_lookup_1 _ _ _ _ Hkw Hc) as Hi. cbv beta in Hi. congruence.
  - exfalso. apply Hne. by rewrite <- Ht, take_app_length'.
  - destruct (lookup_lt_is_Some_2 nm _ Hgt) as [c Hc]. unfold char_at. rewrite (lookup_app_l_Some _ _ _ _ Hc).
    exact (Forall_lookup_1 _ _ _ _ Hall Hc).
Qed.

Lemma ident_not_blank c : is_ident c = true -> is_blank c = false.
Proof. intros H. by apply ident_not_space in H as (? & _). Qed.

Lemma assign_head ind nm w1 q :
  spaces ind -> name_ok nm -> spaces w1 ->
  skip_ws (ind ++ nm ++ w1 ++ 61 :: q) = nm ++ w1 ++ 61 :: q /\ is_ident (char_at (w1 ++ 61 :: q) 0) = false.
Proof.
  intros Hi Hn Hw. split; [|by apply spaces_no_ident]. apply skip_ws_app; [done|].
  destruct Hn as (Hs & _). destruct nm as [|c nm]; [done|]. apply ident_start_ident in Hs.
  by apply ident_not_space in Hs as (? & _).
Qed.

Lemma cstr_app_no_nul a b : no_nul a -> cstr (a ++ b) = a ++ cstr b.
Proof.
  induction 1 as [|c a Hc _ IH]; [done|]. cbn [app cstr]. by rewrite (proj2 (Z.eqb_neq c 0)), IH.
Qed.

(** The lines of simple commands are no block lines. *)
Lemma simple_line_simple c l : line_of c l -> simple l.
Proof.
  intros [Hs Hl]. split; [done|]. destruct Hs as [w Hw|w t Hw|ind nm w1 w2 x Hi Hn Hk Hw1 Hw2 Hx Hx0
    |ind w x Hi Hw Hne Hx Hx0|ind w t r Hi Hw Hne Ht].
  - by rewrite skip_spaces.
  - by rewrite skip_ws_app.
  - destruct (assign_head ind nm w1 (w2 ++ text x) Hi Hn Hw1) as [-> Hid].
    apply not_elem_of_cons in Hk as [K1 Hk]. apply not_elem_of_cons in Hk as [K2 _].
    assert (Hq : w1 ++ 61 :: w2 ++ text x <> []) by (by destruct w1).
    split_and!.
    + unfold starts_if. case_bool_decide as Ht; [|done].
      apply (name_past_keyword $"if") in Ht; [|by repeat constructor | done..]. by apply ident_not_blank in Ht.
    + unfold starts_while, says_while. case_bool_decide as Ht; [|done].
      apply (name_past_keyword $"while") in Ht; [|by repeat constructor | done..]. by apply ident_not_blank in Ht.
    + apply c_streq_false. intros He. rewrite app_assoc in He.
      assert (Hnn : no_nul ((nm ++ w1) ++ [61])).
      { apply Forall_app. split; [apply Forall_app; split; [by apply name_no_nul | by apply plain_no_nul, spaces_plain]|].
        by repeat constructor. }
      replace ((nm ++ w1) ++ 61 :: w2 ++ text x) with (((nm ++ w1) ++ [61]) ++ w2 ++ text x) in He
        by (by rewrite <- !app_assoc).
      rewrite cstr_app_no_nul in He by done. assert (Hin : 61 ∈ cstr $"end").
      { rewrite <- He. apply elem_of_app. left. apply elem_of_app. right. by apply list_elem_of_singleton. }
      revert Hin. apply (bool_decide_unpack _). by vm_compute.
  - rewrite skip_ws_app by done. done.
  - rewrite skip_ws_app by done. done.
Qed.

(** [print], up to its argument. *)
Lemma exec_line_print ind w q s :
  spaces ind -> spaces w -> w <> [] -> no_indent q ->
  mlang_exec_line (ind ++ $"print" ++ w ++ q) s =
  if char_at q 0 =? 34 then Ret (0, putchar 10 (put_quoted (tail q) s))
  else v ← eval_expr q s;
       match v with
       | None => Ret (-1, say ($"mlang: bad expression" ++ [10]) s)
       | Some v => Ret (0, putchar 10 (print_long v s))
       end.
Proof.
  intros Hi Hw Hne Hq. unfold mlang_exec_line. rewrite skip_ws_app by done.
  destruct w as [|c w]; [done|]. assert (Hp : is_print ($"print" ++ (c :: w) ++ q) = true).
  { apply Forall_cons in Hw as [Hc _]. unfold is_print. apply andb_true_iff. split; [done|].
    change (char_at _ 5) with c. unfold is_blank. unfold is_space in Hc. by rewrite Hc. }
  cbv zeta. rewrite Hp. change (char_at ($"print" ++ _) 0) with 112. cbn [Z.eqb Pos.eqb orb].
  unfold exec_print. change (drop 5 ($"print" ++ (c :: w) ++ q)) with ((c :: w) ++ q).
  by rewrite skip_ws_app.
Qed.

Lemma put_quoted_typed t r s :
  Forall (fun c => c <> 0 /\ c <> 34) t -> put_quoted (t ++ 34 :: r) s = typed t s.
Proof.
  intros H. revert s. induction H as [|c t [H0 H34] _ IH]; intros s; cbn [app put_quoted].
  - by destruct s.
  - rewrite (proj2 (Z.eqb_neq c 0)), (proj2 (Z.eqb_neq c 34)) by done. cbn [orb]. by rewrite IH.
Qed.

Lemma typed_newline t s : putchar 10 (typed t s) = typed (t ++ [10]) s.
Proof. unfold putchar, typed. cbn [vars tty]. by rewrite foldl_app. Qed.

Lemma print_long_typed v s : in_s32 v -> print_long v s = typed (Terminal.int_chars v) s.
Proof.
  intros Hv. unfold print_long, typed, Terminal.terminal_write_int, Terminal.terminal_writestring.
  rewrite s32_small by done. rewrite cstr_id; [done|].
  unfold in_s32 in Hv. unfold Terminal.int_chars.
  assert (Hd : forall u, 0 <= u < 4294967296 -> no_nul (Terminal.uint_chars u)).
  { intros u Hu. destruct (Terminal.uint_chars_spec u Hu) as (_ & Hd & _). eapply Forall_impl; [exact Hd|].
    intros c Hc. by apply digit_plain in Hc as [_ ?]. }
  destruct (Z.ltb_spec v 0); [|apply Hd; lia]. apply Forall_app. split; [by repeat constructor | apply Hd, u32_range].
Qed.

Lemma expr_value_range s x v : mlst_wf s -> expr_result s x (Ret (Some v)) -> in_s32 v.
Proof.
  intros [_ He] (t & _ & H). destruct (_ <? _)%nat; [|discriminate].
  destruct (veval (env s) (tree x)) as [v'| |] eqn:E; cbn [expr_agrees] in H.
  - injection H as ->. eapply veval_range; [|exact E]. intros nm. by apply env_range.
  - by destruct H.
  - discriminate.
Qed.

Lemma var_find_unknown nm s : no_nul nm -> var_find nm s = None -> unknown nm s.
Proof.
  intros Hn H i Hi Hu E. eapply for_find_None in H; [|split; [apply Nat.le_0_l | exact Hi]].
  rewrite Hu, andb_true_l in H. apply c_streq_false in H. apply H. by rewrite E, cstr_id.
Qed.

Lemma line_does c l s :
  simple_line c l -> mlst_wf s -> does c s (mlang_exec_line l s) /\ outcome_ok (mlang_exec_line l s).
Proof.
  intros Hs Hwf. destruct Hs as [w Hw|w t Hw|ind nm w1 w2 x Hi Hn Hk Hw1 Hw2 Hx Hx0
    |ind w x Hi Hw Hne Hx Hx0|ind w t r Hi Hw Hne Ht].
  - unfold mlang_exec_line. rewrite skip_spaces by done. split; [constructor | split; [by left | done]].
  - unfold mlang_exec_line. rewrite skip_ws_app by done. split; [constructor | split; [by left | done]].
  - rewrite !not_elem_of_cons in Hk. destruct Hk as (_ & _ & K3 & _).
    rewrite exec_line_assign by done. unfold exec_assign. cbn [tail]. rewrite skip_ws_app by done.
    pose proof (eval_expr_result x s Hwf Hx) as Hr.
    destruct (eval_expr_settles (text x) s) as [[[v|] E]|E]; rewrite E in *; cbn [mbind out_mbind].
    + pose proof (expr_value_range _ _ _ Hwf Hr) as Hv. destruct (var_set nm v s) as [[i|] s'] eqn:Es.
      * apply var_set_some in Es as (Ht & Hw & He & Ho);
          [|done | done | rewrite cstr_id by (by apply name_no_nul); apply Hn].
        split; [|split; [by left | done]]. apply (do_assign nm x s v); [done|].
        split; [done|]. split; [exact Hw|]. split; [done|]. intros nm' Hn' Hd.
        apply Ho. by rewrite !cstr_id by (by apply name_no_nul).
      * apply var_set_none in Es as (-> & Hf & Hnone). split; [|split; [by right | done]].
        apply (do_assign_full nm x s v); [done | done |]. by apply var_find_unknown; [apply name_no_nul|].
    + split; [|split; [by right | done]]. eapply do_assign_fails; [exact Hr | by left].
    + split; [|done]. eapply do_assign_fails; [exact Hr | by right].
  - rewrite exec_line_print by done.
    assert (H34 : (char_at (text x) 0 =? 34) = false).
    { apply expr_plain in Hx. destruct (text x) as [|c p]; [done|]. apply Forall_cons in Hx as [Hc _].
      apply Z.eqb_neq. unfold plain in Hc. change (char_at (c :: p) 0) with c. lia. }
    rewrite H34. pose proof (eval_expr_result x s Hwf Hx) as Hr.
    destruct (eval_expr_settles (text x) s) as [[[v|] E]|E]; rewrite E in *; cbn [mbind out_mbind].
    + pose proof (expr_value_range _ _ _ Hwf Hr) as Hv. rewrite print_long_typed, typed_newline by done.
      split; [by apply do_print | split; [by left | done]].
    + split; [|split; [by right | done]]. eapply do_print_fails; [exact Hr | by left].
    + split; [|done]. eapply do_print_fails; [exact Hr | by right].
  - rewrite exec_line_print by done. change (char_at (34 :: _) 0) with 34. cbn [Z.eqb Pos.eqb tail].
    rewrite put_quoted_typed, typed_newline by done. split; [constructor | split; [by left | done]].
Qed.

(** *** Running lines is running commands *)

(** Commands and the block structure of their lines. *)
Inductive elab : list cmd -> list stmt -> Prop :=
| el_nil : elab [] []
| el_line c l ps qs : line_of c l -> elab ps qs -> elab (c :: ps) (SLine l :: qs)
| el_if h c b qb e ps qs :
    skip_ws (drop 2 (skip_ws h)) = cond_text c -> cond_ok c -> elab b qb -> elab ps qs ->
    elab (If c b :: ps) (SIf h qb e :: qs)
| el_while h c b bl e ps qs :
    skip_ws (drop 5 (skip_ws h)) = cond_text c -> cond_ok c -> Forall2 line_of b bl -> elab ps qs ->
    elab (While c b :: ps) (SWhile h bl e :: qs).

Lemma cond_no_indent c : cond_ok c -> no_indent (cond_text c).
Proof.
  destruct c as [x|o x y]; cbn [cond_ok cond_text]; [by intros [_ ?]|]. intros (_ & _ & Hi & _).
  unfold no_indent in *. destruct (text x); [by destruct o | exact Hi].
Qed.

(** The header of a block, taken apart as the interpreter does. *)
Lemma header_parts kw ind w c :
  kw = $"if" \/ kw = $"while" -> spaces ind -> spaces w -> w <> [] -> cond_ok c ->
  skip_ws (ind ++ kw ++ w ++ cond_text c) = kw ++ w ++ cond_text c /\
  skip_ws (drop (length kw) (kw ++ w ++ cond_text c)) = cond_text c /\
  is_blank (char_at (kw ++ w ++ cond_text c) (length kw)) = true.
Proof.
  intros Hk Hi Hw Hne Hc. split_and!.
  - apply skip_ws_app; [done|]. by destruct Hk as [-> | ->].
  - rewrite drop_app_length. apply skip_ws_app; [done | by apply cond_no_indent].
  - destruct w as [|a w]; [done|]. apply Forall_cons in Hw as [Ha _].
    unfold char_at. rewrite lookup_app_r by done. rewrite Nat.sub_diag. exact Ha.
Qed.

Lemma end_line ind : spaces ind -> line_ok (ind ++ $"end") -> is_end (ind ++ $"end").
Proof. intros Hi Hl. split; [done|]. by rewrite skip_ws_app. Qed.

Lemma lays_elab ps ls :
  lays ps ls -> exists qs, elab ps qs /\ layouts qs = ls /\ Forall wf_stmt qs.
Proof.
  induction 1 as [|c l ps ls Hl _ (qs & H1 & <- & H3)
    |ind w c b bl ind' ps ls Hi Hw Hne Hc Hh _ (qb & B1 & <- & B3) Hi' He _ (qs & H1 & <- & H3)
    |ind w c b bl ind' ps ls Hi Hw Hne Hc Hh Hb Hi' He _ (qs & H1 & <- & H3)].
  - exists []. split_and!; constructor.
  - exists (SLine l :: qs). split_and!; [by constructor | done |].
    constructor; [|done]. by apply wf_line, (simple_line_simple c).
  - destruct (header_parts $"if" ind w c) as (P1 & P2 & P3); auto.
    exists (SIf (ind ++ $"if" ++ w ++ cond_text c) qb (ind' ++ $"end") :: qs). split_and!.
    + apply el_if; [by rewrite P1 | done..].
    + unfold layouts. cbn [map concat layout app]. by rewrite <- app_assoc.
    + constructor; [|done]. apply wf_if; [done | | done | by apply end_line].
      rewrite P1. unfold starts_if. apply andb_true_iff. split; [done | exact P3].
  - destruct (header_parts $"while" ind w c) as (P1 & P2 & P3); auto.
    exists (SWhile (ind ++ $"while" ++ w ++ cond_text c) bl (ind' ++ $"end") :: qs). split_and!.
    + apply el_while; [by rewrite P1 | done..].
    + unfold layouts. cbn [map concat layout app]. by rewrite <- app_assoc.
    + constructor; [|done]. apply wf_while; [done | | | by apply end_line].
      * rewrite P1. unfold starts_while, says_while. apply andb_true_iff. split; [done | exact P3].
      * clear -Hb. induction Hb as [|p l b bl Hl _ IH]; constructor; [by apply (simple_line_simple p) | done].
Qed.

Definition meets (P : mlst -> out (Z * mlst) -> Prop) (f : mlst -> out (Z * mlst)) : Prop :=
  forall s, mlst_wf s -> P s (f s) /\ outcome_ok (f s).

(** A command, then the rest of its block. *)
Lemma meets_seq c ps (f g : mlst -> out (Z * mlst)) :
  meets (does c) f -> meets (runs ps) g ->
  meets (runs (c :: ps)) (fun s => '(r, s) ← f s; if negb (r =? 0) then Ret (-1, s) else g s).
Proof.
  intros Hf Hg s Hwf. destruct (Hf s Hwf) as [Hd Ho].
  destruct (f s) as [[r s1]|ft]; cbn [outcome_ok mbind out_mbind] in *.
  - destruct Ho as [[-> | ->] Hw]; cbn [Z.eqb negb].
    + destruct (Hg s1 Hw) as [H1 H2]. split; [by eapply run_next | done].
    + split; [by apply run_error | split; [by right | done]].
  - subst ft. split; [by apply run_trap | done].
Qed.

Lemma body_runs b bl : Forall2 line_of b bl -> meets (runs b) (exec_body bl).
Proof.
  induction 1 as [|c l b bl [Hl _] _ IH]; [intros s Hwf; split; [constructor | split; [by left | done]]|].
  cbn [exec_body]. apply (meets_seq c b (mlang_exec_line l)); [|done]. intros s Hwf. by apply line_does.
Qed.

Lemma while_loops n c b bl :
  cond_ok c -> Forall2 line_of b bl -> meets (loops n c b) (while_loop n (cond_text c) bl).
Proof.
  intros Hc Hb. induction n as [|n IH]; intros s Hwf; cbn [while_loop];
    [split; [constructor | split; [by left | done]]|].
  pose proof (eval_condition_result c s Hwf Hc) as Hr.
  destruct (eval_condition_settles (cond_text c) s) as [[[[]|] E]|E]; rewrite E in *; cbn [mbind out_mbind].
  - destruct (body_runs b bl Hb s Hwf) as [H1 H2].
    destruct (exec_body bl s) as [[r s1]|ft]; cbn [outcome_ok mbind out_mbind] in *.
    + destruct H2 as [[-> | ->] Hw]; cbn [Z.eqb negb].
      * destruct (IH s1 Hw) as [G1 G2]. split; [by eapply loop_round | done].
      * split; [by apply loop_error | split; [by right | done]].
    + subst ft. split; [by apply loop_trap | done].
  - split; [by apply loop_end | split; [by left | done]].
  - split; [eapply loop_fails; [exact Hr | by left] | split; [by right | done]].
  - split; [eapply loop_fails; [exact Hr | by right] | done].
Qed.

Lemma elab_runs ps qs : elab ps qs -> meets (runs ps) (run_all qs).
Proof.
  induction 1 as [|c l ps qs [Hl _] _ IH|h c b qb e ps qs Hh Hc _ IHb _ IH|h c b bl e ps qs Hh Hc Hb _ IH].
  - intros s Hwf. split; [constructor | split; [by left | done]].
  - apply (meets_seq c ps (run_stmt (SLine l))); [|done]. intros s Hwf. by apply line_does.
  - apply (meets_seq (If c b) ps (run_stmt (SIf h qb e))); [|done]. intros s Hwf. cbn [run_stmt]. rewrite Hh.
    pose proof (eval_condition_result c s Hwf Hc) as Hr.
    destruct (eval_condition_settles (cond_text c) s) as [[[[]|] E]|E]; rewrite E in *; cbn [mbind out_mbind].
    + destruct (IHb s Hwf) as [H1 H2]. split; [by apply do_if_true | done].
    + split; [by apply do_if_false | split; [by left | done]].
    + split; [eapply do_if_fails; [exact Hr | by left] | split; [by right | done]].
    + split; [eapply do_if_fails; [exact Hr | by right] | done].
  - apply (meets_seq (While c b) ps (run_stmt (SWhile h bl e))); [|done]. intros s Hwf. cbn [run_stmt]. rewrite Hh.
    destruct (while_loops WHILE_MAX c b bl Hc Hb s Hwf) as [H1 H2]. split; [by apply do_while | done].
Qed.

(** C15. Scripts implement programs.  A program is a tree of commands with
    expression trees; [lays] says how it is written down (blanks, comments,
    nested [if] blocks; a [while] body holds simple lines only, a comparison
    has at most 63 characters on either side, a line at most 127), and [runs]
    what it means, with expressions valued in wrapping 32-bit arithmetic, a
    body repeated while its condition holds and at most 10000 times, and the
    first error reported and ending everything with -1.  Running any such
    text of at most 64 lines with [mlang_exec_script] ends the way the
    program means: with the same console output and variables, or with the
    same error, or with the divide error of the processor for LONG_MIN / -1
    (or for a division whose value is already an error). *)
Theorem mlang_script_refines ps ls s :
  lays ps ls -> (length ls <= MAX_LINES)%nat -> mlst_wf s ->
  runs ps s (mlang_exec_script (unlines ls) s).
Proof.
  intros Hl Hn Hwf. destruct (lays_elab _ _ Hl) as (qs & He & <- & Hq).
  unfold mlang_exec_script. rewrite exec_script_stmts by (done || lia). by apply elab_runs.
Qed.

(** ** Concrete runs *)

Definition blank_tty : Terminal.term := Terminal.terminal_initialize (Terminal.mk_term 0 0 0 [] []).

(** The interpreter with [y = -3]. *)
Definition demo : mlst :=
  mk_ml (mk_var ($"y" ++ replicate 15 0) (-3) true :: replicate 31 (mk_var (replicate 16 0) 0 false)) blank_tty.

Lemma demo_wf : mlst_wf demo.
Proof.
  split; [reflexivity|]. unfold env_ok. cbn [vars demo].
  constructor; [by split|]. apply Forall_replicate. by split.
Qed.

Lemma mlang_assign_correct_witness :
  exists t, expands demo ($"y^2 + 1" ++ []) t /\
    let r := mlang_exec_line ($"  " ++ $"x" ++ $" " ++ 61 :: $" " ++ $"y^2 + 1" ++ []) demo in
    if (length t <? 128)%nat
    then assign_agrees $"x" (veval (env demo) (VAdd (VPow (VVar $"y") (VNum $"2")) (VNum $"1"))) demo r
    else r = bad_expression demo.
Proof.
  assert (Hn : forall c, is_ident_start c = true -> name_ok [c]).
  { intros c Hc. split_and!; [done | by apply Forall_singleton, ident_start_ident | by vm_compute; lia]. }
  assert (Hd : forall c, Terminal.is_digit c = true -> vreads 0 (VNum [c]) [c]).
  { intros c Hc. apply v_num; [discriminate | by repeat constructor]. }
  apply (mlang_assign_correct $"  " $"x" $" " $" "
           (VAdd (VPow (VVar $"y") (VNum $"2")) (VNum $"1")) $"y^2 + 1" [] demo);
    [exact demo_wf | by repeat constructor | by apply Hn | discriminate | by repeat constructor
    | by repeat constructor | | reflexivity | constructor].
  apply (v_add (VPow (VVar $"y") (VNum $"2")) $"y^2" $" " (VNum $"1") $" 1").
  - apply v_expr, v_term. apply (v_pow (VVar $"y") $"y" [] (VNum $"2") $"2"); [| constructor |].
    + by apply v_var, Hn.
    + by apply v_power, Hd.
  - by repeat constructor.
  - apply v_term, v_power, v_sp; [done | by apply Hd].
Defined.

Example mlang_assign_run :
  match mlang_exec_line $"  x = y^2 + 1" demo with
  | Ret (r, s) => r = 0 /\ env s $"x" = 10 /\ env s $"y" = -3
  | Fault _ => False
  end.
Proof. vm_compute. done. Qed.

(** [x = 3] / [while x > 0] / [ x = x - 1] / [end] / [if x == 0] / [print x] / [end] *)
Definition letter (c : Z) : expr := mk_expr (VVar [c]) [c].
Definition digit (c : Z) : expr := mk_expr (VNum [c]) [c].
Definition minus_one : expr := mk_expr (VSub (VVar $"x") (VNum $"1")) $"x - 1".
Definition spaced (x : expr) : expr := mk_expr (tree x) (32 :: text x).
Definition trailed (x : expr) : expr := mk_expr (tree x) (text x ++ [32]).

Definition countdown : list cmd :=
  [Assign $"x" (digit 51);
   While (Test CGt (trailed (letter 120)) (spaced (digit 48))) [Assign $"x" minus_one];
   If (Test CEq (trailed (letter 120)) (spaced (digit 48))) [Print (letter 120)]].
Definition countdown_lines : list chars :=
  [$"x = 3"; $"while x > 0"; $" x = x - 1"; $"end"; $"if x == 0"; $"print x"; $"end"].

Lemma line_ok_dec l :
  (length l <? MAX_LINE)%nat && forallb (fun c => negb (c =? 0) && negb (c =? 10)) l = true -> line_ok l.
Proof.
  intros H. apply andb_true_iff in H as [H1 H2]. split; [by apply Nat.ltb_lt|].
  apply Forall_forall. intros c Hc. rewrite forallb_forall in H2.
  specialize (H2 c (proj1 (list_elem_of_In _ _) Hc)). cbv beta in H2. lia.
Qed.

Lemma letter_reads c : is_ident_start c = true -> name_ok [c].
Proof. intros Hc. split_and!; [done | by apply Forall_singleton, ident_start_ident | by vm_compute; lia]. Qed.
Lemma digit_reads c : Terminal.is_digit c = true -> vreads 0 (VNum [c]) [c].
Proof. intros Hc. apply v_num; [discriminate | by repeat constructor]. Qed.

Lemma letter_ok c w : is_ident_start c = true -> spaces w -> expr_ok (mk_expr (VVar [c]) ([c] ++ w)).
Proof. intros Hc Hw. exists [c], w. split_and!; [done | by apply v_expr, v_term, v_power, v_var, letter_reads | done]. Qed.
Lemma digit_ok c : Terminal.is_digit c = true -> expr_ok (digit c) /\ expr_ok (spaced (digit c)).
Proof.
  intros Hc. split; [exists [c], [] | exists [32; c], []]; split_and!; try done; try constructor;
    apply v_term, v_power; [by apply digit_reads | by apply v_sp, digit_reads].
Qed.
Lemma minus_one_ok : expr_ok minus_one.
Proof.
  exists $"x - 1", []. split_and!; [done | | constructor].
  apply (v_sub (VVar $"x") $"x" $" " (VNum $"1") $" 1").
  - by apply v_expr, v_term, v_power, v_var, letter_reads.
  - by repeat constructor.
  - by apply v_term, v_power, v_sp, digit_reads.
Qed.
Lemma test_ok o : cond_ok (Test o (trailed (letter 120)) (spaced (digit 48))).
Proof.
  split_and!; [apply letter_ok; [done | by repeat constructor] | by apply digit_ok | reflexivity | vm_compute; lia | vm_compute; lia].
Qed.

Lemma assign_line ind x l :
  spaces ind -> expr_ok x -> no_indent (text x) -> l = ind ++ $"x" ++ $" " ++ 61 :: $" " ++ text x -> line_ok l ->
  line_of (Assign $"x" x) l.
Proof.
  intros Hi Hx Hn -> Hl. split; [|done].
  apply sl_assign; [done | by apply letter_reads | | by repeat constructor | by repeat constructor | done | done].
  apply (bool_decide_unpack _). by vm_compute.
Qed.

Lemma countdown_lays : lays countdown countdown_lines.
Proof.
  apply ly_line. { apply (assign_line []); [constructor | by apply digit_ok | done | done | by apply line_ok_dec]. }
  apply (ly_while [] $" " (Test CGt (trailed (letter 120)) (spaced (digit 48))) _ [$" x = x - 1"] [] _
           [$"if x == 0"; $"print x"; $"end"]);
    [constructor | by repeat constructor | discriminate | apply test_ok | by apply line_ok_dec | | constructor
    | by apply line_ok_dec |].
  { constructor; [|constructor]. apply (assign_line $" "); [by repeat constructor | exact minus_one_ok | done | done | by apply line_ok_dec]. }
  apply (ly_if [] $" " (Test CEq (trailed (letter 120)) (spaced (digit 48))) _ [$"print x"] [] [] []);
    [constructor | by repeat constructor | discriminate | apply test_ok | by apply line_ok_dec | | constructor
    | by apply line_ok_dec | constructor].
  apply ly_line; [|constructor]. split; [|by apply line_ok_dec].
  apply (sl_print [] $" " (letter 120)); [constructor | by repeat constructor | discriminate
    | apply (letter_ok 120 []); [done | constructor] | done].
Qed.

Lemma mlang_script_refines_witness :
  runs countdown demo (mlang_exec_script (unlines countdown_lines) demo).
Proof.
  apply (mlang_script_refines countdown countdown_lines demo); [exact countdown_lays | vm_compute; lia | exact demo_wf].
Defined.

Example countdown_run :
  match mlang_exec_script (unlines countdown_lines) demo with
  | Ret (r, s) => r = 0 /\ env s $"x" = 0
  | Fault _ => False
  end.
Proof. vm_compute. done. Qed.

(** A block inside a [while] body is not supported: its header is taken for a
    simple line and reported as a syntax error. *)
Example while_nested_block_fails :
  match mlang_exec_script $"while 1
if 1
end
end
" demo with
  | Ret (r, s) => r = -1
  | Fault _ => False
  end.
Proof. vm_compute. done. Qed.

(** A digit directly followed by a name makes one number of the two. *)
Example juxtaposition_merges :
  match mlang_exec_script $"x = 5
z = 2x
" demo with
  | Ret (r, s) => r = 0 /\ env s $"z" = 25
  | Fault _ => False
  end.
Proof. vm_compute. done. Qed.

End MlangSpec.
