(* ===== verification/Alloc.v ===== *)
(** * What the kernel heap promises to its clients

    The scheduler, the drivers and the loaders use [kmalloc] and [kfree]
    only through these laws.  [kmalloc_allocator] shows that the allocator
    of kmalloc.c keeps them. *)

From S2P Require Import Prelude Memory Kmalloc.

(** An allocator over the kernel's flat memory.  [a_inv h l]: the heap is
    consistent and [l] lists its live blocks (address, length). *)
Class Allocator (H : Type) : Type := {
  a_mem : H -> mem;
  a_set_mem : mem -> H -> H;
  a_alloc : H -> Z -> out (Z * H);
  a_free : H -> Z -> out H;
  a_inv : H -> list (Z * Z) -> Prop;
  a_mem_set m h : a_mem (a_set_mem m h) = m;
  a_set_set m m' h : a_set_mem m' (a_set_mem m h) = a_set_mem m' h;
  a_set_same h : a_set_mem (a_mem h) h = h;
  a_inv_perm h l l' : l ≡ₚ l' -> a_inv h l -> a_inv h l';
  a_block h l p k : a_inv h l -> (p, k) ∈ l -> 0x200000 < p /\ 0 <= k /\ p + k <= 0x300000;
  a_disjoint h l p k q j : a_inv h l -> (p, k) ∈ l -> (q, j) ∈ l -> p <> q -> p + k <= q \/ q + j <= p;
  a_alloc_ok h l n : a_inv h l -> 0 < n <= 0xFFFFFFF8 ->
    exists p h', a_alloc h n = Ret (p, h') /\
      (p = 0 -> h' = h) /\
      (p <> 0 -> exists k, n <= k /\ p mod 4 = 0 /\ a_inv h' ((p, k) :: l) /\
         (forall q j, (q, j) ∈ l -> q + j <= p \/ p + k <= q) /\
         (forall q j i, (q, j) ∈ l -> q <= i < q + j -> ld8 (a_mem h') i = ld8 (a_mem h) i) /\
         (forall i, i < 0x200000 \/ 0x300000 <= i -> ld8 (a_mem h') i = ld8 (a_mem h) i));
  a_free_ok h l p k : a_inv h ((p, k) :: l) ->
    exists h', a_free h p = Ret h' /\ a_inv h' l /\
      (forall q j i, (q, j) ∈ l -> q <= i < q + j -> ld8 (a_mem h') i = ld8 (a_mem h) i) /\
      (forall i, i < 0x200000 \/ 0x300000 <= i -> ld8 (a_mem h') i = ld8 (a_mem h) i);
  a_write_in h l p k m' : a_inv h l -> (p, k) ∈ l ->
    (forall i, i < p \/ p + k <= i -> ld8 m' i = ld8 (a_mem h) i) -> a_inv (a_set_mem m' h) l;
  a_write_out h l m' : a_inv h l ->
    (forall i, 0x200000 <= i < 0x300000 -> ld8 m' i = ld8 (a_mem h) i) -> a_inv (a_set_mem m' h) l;
}.

(** The order of the live blocks does not matter. *)
#[export] Instance a_inv_proper {H} `{!Allocator H} : Proper ((=) ==> (≡ₚ) ==> iff) (a_inv (H := H)).
Proof. intros h ? <- l l' Hl. split; apply a_inv_perm; [done | by symmetry]. Qed.

Import Kmalloc.

(** [kmalloc] writes only inside the heap window. *)
Lemma kmalloc_outside s bs size p s' i :
  heap_rep s bs -> 0 < size <= 0xFFFFFFF8 -> kmalloc s size = Ret (p, s') ->
  i < KHEAP_START \/ HEAP_END <= i -> ld8 (kmem s') i = ld8 (kmem s) i.
Proof.
  intros (Hhd & Hne & Hc & Hu) Hsz Hk Hi.
  destruct (align_up_spec size) as [Hal Hmod]; [lia|].
  assert (Hmod4 : align_up size mod 4 = 0) by (clear -Hmod; zlia).
  unfold kmalloc in Hk. rewrite (proj2 (Z.eqb_neq size 0)) in Hk by lia. rewrite Hhd in Hk.
  pose proof (find_fit_refines (kmem s) KHEAP_START (align_up size) bs heap_fuel Hc
    ltac:(lia) (heap_fuel_enough _ _ Hc) ltac:(lia) Hmod4) as Hff.
  assert (Hcp : chain_ptr KHEAP_START bs = KHEAP_START) by (by destruct bs).
  rewrite Hcp in Hff.
  destruct spec_alloc as [[q bs']|] eqn:Hspec;
    [|rewrite Hff in Hk; cbn in Hk; by injection Hk as _ <-].
  destruct Hff as (Hfind & _). rewrite Hfind in Hk. cbn [mbind out_mbind] in Hk.
  injection Hk as _ <-. cbn [kmem].
  apply spec_alloc_inv in Hspec as (pre & b & r & -> & -> & Hfree & Hfit & Hp & _).
  destruct (chain_suffix _ _ _ _ Hc) as (Hsuf & Hsp & _).
  pose proof Hsuf as (_ & _ & _ & Hb & _ & Hr). pose proof (chain_bounds _ _ _ Hr).
  replace (q - SIZEOF_BLOCK) with (KHEAP_START + span pre) by (rewrite Hp; ring).
  destruct (take_block_chain (kmem s) _ b r (align_up size) Hsuf) as [_ Hfar]; [klia | lia | done |].
  apply Hfar. klia.
Qed.

(** Two allocated extents at different addresses do not overlap. *)
Lemma allocs_disjoint m a bs p k q j :
  chain m a bs -> (p, k) ∈ allocs a bs -> (q, j) ∈ allocs a bs -> p <> q -> p + k <= q \/ q + j <= p.
Proof.
  intros Hc Hp Hq Hne. apply allocs_inv in Hp as (pre & r & -> & ->).
  rewrite allocs_app in Hq. apply elem_of_app in Hq as [Hq|Hq].
  - right. pose proof (allocs_prefix_below _ _ _ _ _ _ Hc Hq). klia.
  - cbn [allocs bfree bsz] in Hq. apply elem_of_cons in Hq as [[= -> ->]|Hq]; [lia|].
    apply chain_suffix in Hc as (Hc & _ & _). destruct Hc as (_ & _ & _ & _ & _ & Hr).
    pose proof (allocs_bounds _ _ _ _ _ Hr Hq). cbn [bsz] in *. klia.
Qed.

Definition kmalloc_inv (s : kstate) (l : list (Z * Z)) : Prop :=
  exists bs, heap_rep s bs /\ allocs KHEAP_START bs ≡ₚ l.

Definition set_kmem (m : mem) (s : kstate) : kstate := mk_kstate m (head s) (heap_used s).

Lemma kmalloc_alloc_ok s l n :
  kmalloc_inv s l -> 0 < n <= 0xFFFFFFF8 ->
  exists p s', kmalloc s n = Ret (p, s') /\ (p = 0 -> s' = s) /\
    (p <> 0 -> exists k, n <= k /\ p mod 4 = 0 /\ kmalloc_inv s' ((p, k) :: l) /\
       (forall q j, (q, j) ∈ l -> q + j <= p \/ p + k <= q) /\
       (forall q j i, (q, j) ∈ l -> q <= i < q + j -> ld8 (kmem s') i = ld8 (kmem s) i) /\
       (forall i, i < 0x200000 \/ 0x300000 <= i -> ld8 (kmem s') i = ld8 (kmem s) i)).
Proof.
  intros (bs & Hrep & Hl) Hn. pose proof (kmalloc_step s bs n Hrep ltac:(lia)) as Hstep.
  destruct (align_up_spec n) as [Hal _]; [lia|]. pose proof Hrep as (_ & _ & Hc & _).
  destruct spec_alloc as [[p bs']|] eqn:Hs; [|exists 0, s; by split_and!].
  destruct Hstep as (s' & Hk & Hrep' & Hp & Hpay). exists p, s'. split_and!; [done | done |]. intros _.
  destruct (spec_alloc_allocs _ KHEAP_START (align_up n) _ _ _ Hc ltac:(lia) eq_refl Hs)
    as (k & Hk' & Hperm & Hp4 & _ & _ & Hdis).
  assert (Hin : forall q j, (q, j) ∈ l -> (q, j) ∈ allocs KHEAP_START bs)
    by (intros q j Hq; by rewrite Hl).
  exists k. split_and!; [lia | done | | | |].
  - exists bs'. split; [done|]. by rewrite Hperm, Hl.
  - intros q j Hq. by apply Hdis, Hin.
  - intros q j i Hq Hi. by apply (Hpay q j), Hi; apply Hin.
  - intros i Hi. apply (kmalloc_outside s bs n p s'); auto; lia.
Qed.

Lemma kmalloc_free_ok s l p k :
  kmalloc_inv s ((p, k) :: l) ->
  exists s', kfree s p = Ret s' /\ kmalloc_inv s' l /\
    (forall q j i, (q, j) ∈ l -> q <= i < q + j -> ld8 (kmem s') i = ld8 (kmem s) i) /\
    (forall i, i < 0x200000 \/ 0x300000 <= i -> ld8 (kmem s') i = ld8 (kmem s) i).
Proof.
  intros (bs & Hrep & Hl). assert (Hin : (p, k) ∈ allocs KHEAP_START bs) by (rewrite Hl; constructor).
  destruct (kfree_step s bs p k Hrep Hin) as (s' & Hk & Hrep' & Hpay & Hfar). pose proof Hrep as (_ & _ & Hc & _).
  pose proof (mark_free_allocs _ _ _ _ _ Hc Hin) as Hperm. rewrite Hl in Hperm. apply Permutation_cons_inv in Hperm.
  exists s'. split_and!; [done | | |].
  - exists (merge_all (mark_free KHEAP_START p bs)). split; [done|]. rewrite Hperm. unfold merge_all.
    destruct (mark_free KHEAP_START p bs); [done | by rewrite merge_from_allocs].
  - intros q j i Hq Hi. apply (Hpay q j i); [by rewrite <- Hperm | done].
  - intros i Hi. apply Hfar. klia.
Qed.

#[export] Instance kmalloc_allocator : Allocator kstate.
Proof.
  refine {| a_mem := kmem; a_set_mem := set_kmem; a_alloc := kmalloc; a_free := kfree;
            a_inv := kmalloc_inv; a_alloc_ok := kmalloc_alloc_ok; a_free_ok := kmalloc_free_ok |}.
  - done.
  - done.
  - by intros [].
  - intros h l l' Hp (bs & Hrep & Hl). exists bs. split; [done|]. by rewrite Hl.
  - intros h l p k (bs & (_ & _ & Hc & _) & Hl) Hin. rewrite <- Hl in Hin.
    pose proof (allocs_bounds _ _ _ _ _ Hc Hin). klia.
  - intros h l p k q j (bs & (_ & _ & Hc & _) & Hl) Hp Hq. rewrite <- Hl in Hp, Hq.
    by eapply allocs_disjoint.
  - intros h l p k m' (bs & (Hh & Hne & Hc & Hu) & Hl) Hin Hw. exists bs. split; [|done].
    split_and!; [done | done | | done]. rewrite <- Hl in Hin.
    eapply chain_payload_write; [exact Hc | exact Hin | exact Hw].
  - intros h l m' (bs & (Hh & Hne & Hc & Hu) & Hl) Hw. exists bs. split; [|done].
    split_and!; [done | done | | done]. eapply chain_frame; [exact Hc | exact Hw].
Defined.
