(* ===== verification/Sched.v ===== *)
(** * The preemptive scheduler (src/src/sched.c, src/src/context_switch.s)

    Eight task slots, a round-robin choice, a time slice of ten ticks and
    the register-level context switch.  The machine state has the task
    table, the kernel heap (through the allocator interface), the register
    file, EFLAGS.IF and the PIC's in-service bit of IRQ 0.

    A call that switches stacks does not return to its caller but to the
    code at which the next task is suspended; each task therefore carries
    that continuation ([susp]), and [resume] is what runs there: [sti] for a
    task inside [sched_yield], end-of-interrupt and [iret] for one that was
    preempted by the timer, and nothing for a task that has never run. *)

From S2P Require Import Prelude Memory Alloc Terminal.

Module Sched.

Definition SCHED_MAX_TASKS : nat := 8.
Definition SCHED_STACK_SIZE : Z := 4096.

Inductive task_state : Type :=
| TASK_FREE | TASK_READY | TASK_RUNNING | TASK_BLOCKED | TASK_ZOMBIE.

#[export] Instance task_state_eq_dec : EqDecision task_state.
Proof. solve_decision. Defined.

Inductive continuation : Type := Fresh | InYield | InTick.

Record task : Type := mk_task {
  id : Z;
  state : task_state;
  name : chars;
  sp : Z;
  stack_base : Z;
  entry : Z;
  arg : Z;
  ticks_ran : Z;
  susp : continuation;
}.

Definition bss_task : task := mk_task 0 TASK_FREE (replicate 16 0) 0 0 0 0 0 Fresh.
#[export] Instance task_inhabited : Inhabited task := populate bss_task.

Definition set_state (x : task_state) (t : task) : task :=
  mk_task (id t) x (name t) (sp t) (stack_base t) (entry t) (arg t) (ticks_ran t) (susp t).
Definition set_sp (x : Z) (t : task) : task :=
  mk_task (id t) (state t) (name t) x (stack_base t) (entry t) (arg t) (ticks_ran t) (susp t).
Definition set_stack_base (x : Z) (t : task) : task :=
  mk_task (id t) (state t) (name t) (sp t) x (entry t) (arg t) (ticks_ran t) (susp t).
Definition set_ticks (x : Z) (t : task) : task :=
  mk_task (id t) (state t) (name t) (sp t) (stack_base t) (entry t) (arg t) x (susp t).
Definition set_susp (x : continuation) (t : task) : task :=
  mk_task (id t) (state t) (name t) (sp t) (stack_base t) (entry t) (arg t) (ticks_ran t) x.

(** The registers [pusha]/[popa] move, the stack pointer and the program counter. *)
Record regs : Type := mk_regs { eax : Z; ecx : Z; edx : Z; ebx : Z; ebp : Z; esi : Z; edi : Z }.
Record cpu : Type := mk_cpu { gpr : regs; esp : Z; eip : Z }.

Section Machine.
Context {H : Type} `{!Allocator H}.

Record sys : Type := mk_sys {
  tasks : list task;
  current : nat;
  sched_enabled : bool;
  ticks_slice : Z;
  g_worker_counter : Z;
  heap : H;
  core : cpu;
  cpu_if : bool;
  in_service : bool;
}.

Definition set_task (i : nat) (f : task -> task) (s : sys) : sys :=
  mk_sys (alter f i (tasks s)) (current s) (sched_enabled s) (ticks_slice s) (g_worker_counter s)
    (heap s) (core s) (cpu_if s) (in_service s).
Definition set_current (i : nat) (s : sys) : sys :=
  mk_sys (tasks s) i (sched_enabled s) (ticks_slice s) (g_worker_counter s)
    (heap s) (core s) (cpu_if s) (in_service s).
Definition set_slice (x : Z) (s : sys) : sys :=
  mk_sys (tasks s) (current s) (sched_enabled s) x (g_worker_counter s)
    (heap s) (core s) (cpu_if s) (in_service s).
Definition set_heap (h : H) (s : sys) : sys :=
  mk_sys (tasks s) (current s) (sched_enabled s) (ticks_slice s) (g_worker_counter s)
    h (core s) (cpu_if s) (in_service s).
Definition set_core (c : cpu) (s : sys) : sys :=
  mk_sys (tasks s) (current s) (sched_enabled s) (ticks_slice s) (g_worker_counter s)
    (heap s) c (cpu_if s) (in_service s).
Definition set_if (b : bool) (s : sys) : sys :=
  mk_sys (tasks s) (current s) (sched_enabled s) (ticks_slice s) (g_worker_counter s)
    (heap s) (core s) b (in_service s).
Definition set_service (b : bool) (s : sys) : sys :=
  mk_sys (tasks s) (current s) (sched_enabled s) (ticks_slice s) (g_worker_counter s)
    (heap s) (core s) (cpu_if s) b.

Abbreviation task_at s i := (tasks s !!! i).

(** ** context_switch.s *)

(** [pusha] at stack pointer [a]. *)
Definition pusha (r : regs) (a : Z) (m : mem) : mem :=
  let m := st32 m (a - 4) (eax r) in
  let m := st32 m (a - 8) (ecx r) in
  let m := st32 m (a - 12) (edx r) in
  let m := st32 m (a - 16) (ebx r) in
  let m := st32 m (a - 20) a in
  let m := st32 m (a - 24) (ebp r) in
  let m := st32 m (a - 28) (esi r) in
  st32 m (a - 32) (edi r).

(** [popa; ret] at stack pointer [a]; the saved ESP is skipped. *)
Definition popa_ret (m : mem) (a : Z) : cpu :=
  mk_cpu (mk_regs (ld32 m (a + 28)) (ld32 m (a + 24)) (ld32 m (a + 20)) (ld32 m (a + 16))
            (ld32 m (a + 8)) (ld32 m (a + 4)) (ld32 m a))
    (a + 36) (ld32 m (a + 32)).

(** On entry ESP points at the return address. *)
Definition context_switch (prev : nat) (new_sp : Z) (s : sys) : sys :=
  let a := esp (core s) in
  let m := pusha (gpr (core s)) a (a_mem (heap s)) in
  let s := set_heap (a_set_mem m (heap s)) s in
  let s := set_task prev (set_sp (a - 32)) s in
  set_core (popa_ret m new_sp) s.

(** What runs when [context_switch] has returned into the current task. *)
Definition resume (s : sys) : sys :=
  match susp (task_at s (current s)) with
  | Fresh => s
  | InYield => set_if true s
  | InTick => set_if true (set_service false s)
  end.

(** ** sched.c *)

Definition str_copy16 (d s : chars) : chars := c_strcpy_truncate d s 16.

Definition sched_init (s : sys) : sys :=
  let ts := imap (fun i t => mk_task (Z.of_nat i) TASK_FREE (<[0%nat := 0]> (name t)) 0 0
                               (entry t) (arg t) 0 (susp t)) (tasks s) in
  let ts := alter (fun t => mk_task (id t) TASK_RUNNING (str_copy16 (name t) $"shell") 0 0 0 0
                              (ticks_ran t) (susp t)) 0%nat ts in
  mk_sys ts 0 true 0 0 (heap s) (core s) (cpu_if s) (in_service s).

Definition is_ready (t : task) : bool := bool_decide (state t = TASK_READY).
Definition is_free (t : task) : bool := bool_decide (state t = TASK_FREE).

Definition pick_next (s : sys) : nat :=
  let start := Z.to_nat (id (task_at s (current s))) in
  match for_find (fun i => is_ready (task_at s ((start + i) mod SCHED_MAX_TASKS)%nat)) 1 SCHED_MAX_TASKS with
  | Some i => ((start + i) mod SCHED_MAX_TASKS)%nat
  | None => current s
  end.

(** [if (t->state == TASK_RUNNING) t->state = TASK_READY;] *)
Definition preempted (t : task) : task :=
  if bool_decide (state t = TASK_RUNNING) then set_state TASK_READY t else t.

Definition schedule (s : sys) : sys :=
  if negb (sched_enabled s) then s
  else
    let next := pick_next s in
    if bool_decide (next = current s) then s
    else
      let prev := current s in
      let s := set_task prev preempted s in
      let s := set_task next (set_state TASK_RUNNING) s in
      let s := set_current next s in
      let s := set_slice 0 s in
      context_switch prev (sp (task_at s next)) s.

Definition sched_yield (s : sys) : sys :=
  if negb (sched_enabled s) then s
  else resume (schedule (set_task (current s) (set_susp InYield) (set_if false s))).

Definition sched_on_tick (s : sys) : sys :=
  if negb (sched_enabled s) then s
  else
    let s := set_task (current s) (fun t => set_ticks (u32 (ticks_ran t + 1)) t) s in
    let s := set_slice (ticks_slice s + 1) s in
    if 10 <=? ticks_slice s then
      let s := set_slice 0 s in
      let next := pick_next s in
      if bool_decide (next = current s) then s
      else
        let prev := current s in
        let s := set_task prev preempted s in
        let s := set_task next (set_state TASK_RUNNING) s in
        let s := set_current next s in
        context_switch prev (sp (task_at s next)) s
    else s.

(** IRQ 0: the gate clears IF and the PIC marks the line in service; the
    end-of-interrupt comes after the handler (irq.c, [irq_handler]). *)
Definition timer_irq (s : sys) : sys :=
  resume (sched_on_tick (set_task (current s) (set_susp InTick) (set_service true (set_if false s)))).

Definition sched_exit (s : sys) : sys :=
  let s := set_if false s in
  if id (task_at s (current s)) =? 0 then set_if true s
  else
    let s := set_task (current s) (set_state TASK_FREE) s in
    let s := set_task (current s) (set_stack_base 0) s in
    let next := pick_next s in
    let prev := current s in
    let s := set_current next s in
    let s := set_task next (set_state TASK_RUNNING) s in
    resume (context_switch prev (sp (task_at s next)) s).

(** The initial stack of a task: the address of [task_bootstrap] and eight
    zero words below it.  [task_bootstrap] is a link-time address. *)
Definition first_frame (task_bootstrap : Z) (top : Z) (m : mem) : mem :=
  let m := st32 m (top - 4) task_bootstrap in
  let m := st32 m (top - 8) 0 in let m := st32 m (top - 12) 0 in
  let m := st32 m (top - 16) 0 in let m := st32 m (top - 20) 0 in
  let m := st32 m (top - 24) 0 in let m := st32 m (top - 28) 0 in
  let m := st32 m (top - 32) 0 in st32 m (top - 36) 0.

Definition sched_spawn (task_bootstrap : Z) (nm : option chars) (fn ar : Z) (s : sys)
  : out (Z * sys) :=
  match for_find (fun i => is_free (task_at s i)) 1 (SCHED_MAX_TASKS - 1) with
  | None => Ret (-1, s)
  | Some i =>
      '(stack, h) ← a_alloc (heap s) SCHED_STACK_SIZE;
      let s := set_heap h s in
      if stack =? 0 then Ret (-1, s)
      else
        let top := Z.land (u32 (stack + SCHED_STACK_SIZE)) (u32 (Z.lnot 0xF)) in
        let s := set_heap (a_set_mem (first_frame task_bootstrap top (a_mem (heap s))) (heap s)) s in
        let s := set_task i (fun t => mk_task (id t) TASK_READY
                   (str_copy16 (name t) (default $"task" nm)) (top - 36) stack fn ar 0 Fresh) s in
        Ret (id (task_at s i), s)
  end.

Definition sched_task_count (s : sys) : nat :=
  length (filter (fun i => is_free (task_at s i) = false) (seq 0 SCHED_MAX_TASKS)).

Definition sched_spawn_worker (task_bootstrap worker_entry : Z) (s : sys) : out (Z * sys) :=
  sched_spawn task_bootstrap (Some $"worker") worker_entry 0 s.

(** One turn of the loop of [worker_entry]. *)
Definition worker_turn (s : sys) : sys :=
  sched_yield (mk_sys (tasks s) (current s) (sched_enabled s) (ticks_slice s)
    (u32 (g_worker_counter s + 1)) (heap s) (core s) (cpu_if s) (in_service s)).

(** The characters [sched_list] prints. *)
Definition state_label (x : task_state) : chars :=
  match x with
  | TASK_READY => $"READY  "
  | TASK_RUNNING => $"RUN    "
  | TASK_BLOCKED => $"BLOCK  "
  | TASK_ZOMBIE => $"ZOMBIE "
  | TASK_FREE => $"?      "
  end.

Definition list_line (s : sys) (i : nat) : chars :=
  let t := task_at s i in
  if is_free t then []
  else Terminal.uint_chars (u32 (id t)) ++ $"   " ++ state_label (state t) ++
       Terminal.uint_chars (ticks_ran t) ++ $"  " ++ cstr (name t) ++
       (if bool_decide (i = current s) then $" *" else []) ++ [10].

Definition sched_list (s : sys) : chars :=
  $"ID  STATE    TICKS  NAME" ++ [10] ++
  concat (map (list_line s) (seq 0 SCHED_MAX_TASKS)) ++
  $"worker counter: " ++ Terminal.uint_chars (g_worker_counter s) ++ [10].

End Machine.
End Sched.
