(* ===== verification/SchedInv.v ===== *)
(** * The scheduler: invariant, isolation and fairness

    The system is a step relation over the machine state and a ghost map
    that records, for each suspended task, the registers it was suspended
    with.  The invariant says which task runs, where each stack lives and
    that every suspended task's frame is intact. *)

From S2P Require Import Prelude Memory Alloc Sched.
Import Sched.

Module SchedInv.

(** ** The register frame *)

Definition regs_ok (r : regs) : Prop :=
  in_u32 (eax r) /\ in_u32 (ecx r) /\ in_u32 (edx r) /\ in_u32 (ebx r) /\
  in_u32 (ebp r) /\ in_u32 (esi r) /\ in_u32 (edi r).

Lemma pusha_outside r a m i : i < a - 32 \/ a <= i -> ld8 (pusha r a m) i = ld8 m i.
Proof. intros Hi. unfold pusha. by rewrite !ld8_st32_ne by lia. Qed.

(** What was pushed is popped; the return address above it is untouched. *)
Lemma pusha_popa r a m :
  regs_ok r -> popa_ret (pusha r a m) (a - 32) = mk_cpu r (a + 4) (ld32 m a).
Proof.
  intros (H1 & H2 & H3 & H4 & H5 & H6 & H7). unfold popa_ret.
  assert (Hret : ld32 (pusha r a m) (a - 32 + 32) = ld32 m a).
  { replace (a - 32 + 32) with a by lia. apply ld32_ext. intros i Hi. apply pusha_outside. lia. }
  rewrite Hret. unfold pusha.
  replace (a - 32 + 28) with (a - 4) by lia. replace (a - 32 + 24) with (a - 8) by lia.
  replace (a - 32 + 20) with (a - 12) by lia. replace (a - 32 + 16) with (a - 16) by lia.
  replace (a - 32 + 8) with (a - 24) by lia. replace (a - 32 + 4) with (a - 28) by lia.
  replace (a - 32 + 36) with (a + 4) by lia.
  repeat first [rewrite ld32_st32_eq | rewrite ld32_st32_ne by lia].
  rewrite !u32_small by done. by destruct r.
Qed.

Lemma popa_ret_ext m m' a :
  (forall i, a <= i < a + 36 -> ld8 m' i = ld8 m i) -> popa_ret m' a = popa_ret m a.
Proof.
  intros Hi. unfold popa_ret.
  rewrite !(ld32_ext m' m) by (intros; apply Hi; lia). done.
Qed.

Lemma popa_ret_ok m a : regs_ok (gpr (popa_ret m a)).
Proof. unfold regs_ok. cbn. split_and!; apply ld32_range. Qed.

(** The registers of a task that has never run. *)
Definition fresh_cpu (task_bootstrap top : Z) : cpu :=
  mk_cpu (mk_regs 0 0 0 0 0 0 0) top task_bootstrap.

Lemma first_frame_popa tb top m :
  in_u32 tb -> popa_ret (first_frame tb top m) (top - 36) = fresh_cpu tb top.
Proof.
  intros Htb. unfold popa_ret, first_frame, fresh_cpu.
  replace (top - 36 + 28) with (top - 8) by lia. replace (top - 36 + 24) with (top - 12) by lia.
  replace (top - 36 + 20) with (top - 16) by lia. replace (top - 36 + 16) with (top - 20) by lia.
  replace (top - 36 + 8) with (top - 28) by lia. replace (top - 36 + 4) with (top - 32) by lia.
  replace (top - 36 + 32) with (top - 4) by lia. replace (top - 36 + 36) with top by lia.
  repeat first [rewrite ld32_st32_eq | rewrite ld32_st32_ne by lia].
  by rewrite !u32_small by done.
Qed.

Lemma first_frame_outside tb top m i :
  i < top - 36 \/ top <= i -> ld8 (first_frame tb top m) i = ld8 m i.
Proof. intros Hi. unfold first_frame. by rewrite !ld8_st32_ne by lia. Qed.

Section Inv.
Context {H : Type} `{!Allocator H}.
Abbreviation sys := (@sys H).
Abbreviation task_at s i := (tasks s !!! i).

(** The boot stack of task 0, below the heap window, and the link-time
    address of [task_bootstrap]. *)
Context (bs_lo bs_hi tb : Z).
Hypothesis boot_stack : bs_lo + 36 <= bs_hi <= 0x200000.
Hypothesis tb_u32 : in_u32 tb.

Definition stack_lo (s : sys) (i : nat) : Z :=
  if decide (i = 0%nat) then bs_lo else stack_base (task_at s i).
Definition stack_hi (s : sys) (i : nat) : Z :=
  if decide (i = 0%nat) then bs_hi else stack_base (task_at s i) + SCHED_STACK_SIZE.

Definition live (s : sys) (i : nat) : Prop :=
  (i < SCHED_MAX_TASKS)%nat /\ state (task_at s i) <> TASK_FREE.

(** The stacks of the live tasks are live heap blocks, one each. *)
Definition stacks_ok (s : sys) (l : list (Z * Z)) : Prop :=
  a_inv (heap s) l /\
  (forall i, live s i -> i <> 0%nat ->
     exists k, SCHED_STACK_SIZE <= k /\ (stack_base (task_at s i), k) ∈ l) /\
  (forall i j, live s i -> live s j -> i <> 0%nat -> j <> 0%nat -> i <> j ->
     stack_base (task_at s i) <> stack_base (task_at s j)).

Record ok (s : sys) (g : nat -> cpu) : Prop := mk_ok {
  ok_len : length (tasks s) = SCHED_MAX_TASKS;
  ok_id : forall i, (i < SCHED_MAX_TASKS)%nat -> id (task_at s i) = Z.of_nat i;
  ok_cur : (current s < SCHED_MAX_TASKS)%nat;
  ok_running : forall i, (i < SCHED_MAX_TASKS)%nat ->
    state (task_at s i) = TASK_RUNNING <-> i = current s;
  ok_states : forall i, (i < SCHED_MAX_TASKS)%nat -> state (task_at s i) ∈ [TASK_FREE; TASK_READY; TASK_RUNNING];
  ok_shell : state (task_at s 0%nat) <> TASK_FREE;
  ok_enabled : sched_enabled s = true;
  ok_slice : 0 <= ticks_slice s < 10;
  ok_regs : regs_ok (gpr (core s));
  ok_stacks : exists l, stacks_ok s l;
  ok_frames : forall i, (i < SCHED_MAX_TASKS)%nat -> state (task_at s i) = TASK_READY ->
    stack_lo s i <= sp (task_at s i) /\ sp (task_at s i) + 36 <= stack_hi s i /\
    popa_ret (a_mem (heap s)) (sp (task_at s i)) = g i;
}.

(** The stack pointer of the running task leaves room for a frame. *)
Definition esp_ok (s : sys) : Prop :=
  stack_lo s (current s) + 32 <= esp (core s) /\ esp (core s) + 4 <= stack_hi s (current s).

(** The registers a task resumes with after being suspended now. *)
Definition snapshot (s : sys) : cpu :=
  mk_cpu (gpr (core s)) (esp (core s) + 4) (ld32 (a_mem (heap s)) (esp (core s))).

(** ** Stacks are disjoint *)

Lemma stacks_disjoint s l i j :
  stacks_ok s l -> live s i -> live s j -> i <> j ->
  stack_hi s i <= stack_lo s j \/ stack_hi s j <= stack_lo s i.
Proof.
  intros (Ha & Hb & Hd) Hi Hj Hij. unfold stack_lo, stack_hi.
  destruct (decide (i = 0%nat)) as [->|Hi0], (decide (j = 0%nat)) as [->|Hj0]; [done | | |].
  - destruct (Hb j Hj Hj0) as (k & _ & Hin). pose proof (a_block _ _ _ _ Ha Hin). lia.
  - destruct (Hb i Hi Hi0) as (k & _ & Hin). pose proof (a_block _ _ _ _ Ha Hin). lia.
  - destruct (Hb i Hi Hi0) as (k & Hk & Hin), (Hb j Hj Hj0) as (k' & Hk' & Hin').
    pose proof (a_disjoint _ _ _ _ _ _ Ha Hin Hin' (Hd i j Hi Hj Hi0 Hj0 Hij)). lia.
Qed.

(** Writing inside the stack of a live task keeps the heap consistent. *)
Lemma stack_write s l i m' :
  stacks_ok s l -> live s i ->
  (forall x, x < stack_lo s i \/ stack_hi s i <= x -> ld8 m' x = ld8 (a_mem (heap s)) x) ->
  a_inv (a_set_mem m' (heap s)) l.
Proof.
  intros (Ha & Hb & _) Hi Hw. unfold stack_lo, stack_hi in Hw.
  destruct (decide (i = 0%nat)) as [->|Hi0].
  - eapply a_write_out; [done|]. intros x Hx. apply Hw. lia.
  - destruct (Hb i Hi Hi0) as (k & Hk & Hin). eapply a_write_in; [done | done |].
    intros x Hx. apply Hw. lia.
Qed.

Lemma set_task_at i f (s : sys) j :
  (i < length (tasks s))%nat ->
  task_at (set_task i f s) j = if decide (j = i) then f (task_at s i) else task_at s j.
Proof.
  intros Hi. unfold set_task. cbn [tasks]. rewrite list_lookup_total_alter.
  destruct (decide (j = i)) as [->|]; [by rewrite decide_True|].
  rewrite decide_False; [done|]. intros [? _]. congruence.
Qed.

Lemma set_task_len i f (s : sys) : length (tasks (set_task i f s)) = length (tasks s).
Proof. apply length_alter. Qed.

(** ** The round-robin choice *)

(** How many slots after the current one [j] comes. *)
Definition dist (c j : nat) : nat := ((j + SCHED_MAX_TASKS - c) mod SCHED_MAX_TASKS)%nat.

(** A table with a task 0..7 in every slot and a valid current index. *)
Definition shape (s : sys) : Prop :=
  length (tasks s) = SCHED_MAX_TASKS /\ (current s < SCHED_MAX_TASKS)%nat /\
  forall i, (i < SCHED_MAX_TASKS)%nat -> id (task_at s i) = Z.of_nat i.

Lemma mod8 x : (x mod SCHED_MAX_TASKS < SCHED_MAX_TASKS)%nat.
Proof. apply Nat.mod_upper_bound. unfold SCHED_MAX_TASKS. lia. Qed.

Lemma dist_sum c j :
  (c < SCHED_MAX_TASKS)%nat -> (j < SCHED_MAX_TASKS)%nat -> j <> c ->
  (1 <= dist c j < SCHED_MAX_TASKS)%nat /\ ((c + dist c j) mod SCHED_MAX_TASKS)%nat = j.
Proof.
  intros Hc Hj Hne. unfold dist, SCHED_MAX_TASKS in *.
  destruct (decide (c <= j)%nat).
  - replace (j + 8 - c)%nat with ((j - c) + 1 * 8)%nat by lia. rewrite Nat.Div0.mod_add.
    rewrite Nat.mod_small by lia. split; [lia|]. rewrite Nat.mod_small; lia.
  - rewrite Nat.mod_small by lia. split; [lia|].
    replace (c + (j + 8 - c))%nat with (j + 1 * 8)%nat by lia. rewrite Nat.Div0.mod_add.
    apply Nat.mod_small. lia.
Qed.

Lemma dist_add c d :
  (c < SCHED_MAX_TASKS)%nat -> (1 <= d < SCHED_MAX_TASKS)%nat ->
  dist c ((c + d) mod SCHED_MAX_TASKS) = d.
Proof.
  intros Hc Hd. unfold dist, SCHED_MAX_TASKS in *. destruct (decide (c + d < 8)%nat).
  - rewrite (Nat.mod_small (c + d)) by lia. replace (c + d + 8 - c)%nat with (d + 1 * 8)%nat by lia.
    rewrite Nat.Div0.mod_add. apply Nat.mod_small. lia.
  - replace (c + d)%nat with (c + d - 8 + 1 * 8)%nat at 1 by lia. rewrite Nat.Div0.mod_add.
    rewrite (Nat.mod_small (c + d - 8)) by lia. replace (c + d - 8 + 8 - c)%nat with d by lia.
    apply Nat.mod_small. lia.
Qed.

(** The next task is the first ready one after the current slot. *)
Lemma pick_next_spec s :
  shape s -> state (task_at s (current s)) <> TASK_READY ->
  (pick_next s = current s /\
   (forall j, (j < SCHED_MAX_TASKS)%nat -> state (task_at s j) <> TASK_READY)) \/
  ((pick_next s < SCHED_MAX_TASKS)%nat /\ pick_next s <> current s /\
   state (task_at s (pick_next s)) = TASK_READY /\
   (forall j, (j < SCHED_MAX_TASKS)%nat -> state (task_at s j) = TASK_READY ->
      (dist (current s) (pick_next s) <= dist (current s) j)%nat)).
Proof.
  intros (Hlen & Hc & Hid) Hcur. unfold pick_next. rewrite Hid by done. rewrite Nat2Z.id.
  destruct (for_find _ _ _) as [d|] eqn:E.
  - apply for_find_Some in E as (Hd & Hr & Hmin). apply bool_decide_eq_true in Hr. right.
    assert (Hne : ((current s + d) mod SCHED_MAX_TASKS)%nat <> current s) by (intros Heq; by rewrite Heq in Hr).
    assert (Hd8 : (d < SCHED_MAX_TASKS)%nat).
    { destruct (decide (d = SCHED_MAX_TASKS)) as [->|]; [|lia]. exfalso. apply Hne.
      replace (current s + SCHED_MAX_TASKS)%nat with (current s + 1 * SCHED_MAX_TASKS)%nat by lia.
      rewrite Nat.Div0.mod_add. by apply Nat.mod_small. }
    split_and!; [apply mod8 | done | done |]. intros j Hj Hjr. rewrite dist_add by lia.
    assert (Hjc : j <> current s) by (intros ->; done).
    destruct (dist_sum (current s) j Hc Hj Hjc) as [Hb Hs].
    destruct (decide (d <= dist (current s) j)%nat); [done|]. exfalso.
    specialize (Hmin (dist (current s) j) ltac:(lia)). rewrite Hs in Hmin.
    apply bool_decide_eq_false in Hmin. done.
  - left. split; [done|]. intros j Hj Hjr.
    assert (Hjc : j <> current s) by (intros ->; done).
    destruct (dist_sum (current s) j Hc Hj Hjc) as [Hb Hs].
    pose proof (proj1 (for_find_None _ _ _) E (dist (current s) j) ltac:(lia)) as Hx.
    cbv beta in Hx. rewrite Hs in Hx. by apply bool_decide_eq_false in Hx.
Qed.

(** ** One context switch *)

(** [s'] is [s] after a switch to [next]; [dead] when the old task exits. *)
Record switches (s s' : sys) (next : nat) (dead : bool) : Prop := mk_switches {
  sw_next : (next < SCHED_MAX_TASKS)%nat /\ next <> current s /\ state (task_at s next) = TASK_READY;
  sw_len : length (tasks s') = SCHED_MAX_TASKS;
  sw_cur : current s' = next;
  sw_en : sched_enabled s' = sched_enabled s;
  sw_slice : 0 <= ticks_slice s' < 10;
  sw_heap : heap s' = a_set_mem (pusha (gpr (core s)) (esp (core s)) (a_mem (heap s))) (heap s);
  sw_core : core s' = popa_ret (a_mem (heap s')) (sp (task_at s next));
  sw_other : forall i, i <> current s -> i <> next -> task_at s' i = task_at s i;
  sw_new : task_at s' next = set_state TASK_RUNNING (task_at s next);
  sw_old_id : id (task_at s' (current s)) = id (task_at s (current s));
  sw_old : if dead then state (task_at s' (current s)) = TASK_FREE /\ current s <> 0%nat
           else state (task_at s' (current s)) = TASK_READY /\
                sp (task_at s' (current s)) = esp (core s) - 32 /\
                stack_base (task_at s' (current s)) = stack_base (task_at s (current s));
}.

Definition upd (g : nat -> cpu) (i : nat) (c : cpu) : nat -> cpu :=
  fun j => if decide (j = i) then c else g j.

(** The parts of the invariant that speak about the task table alone. *)
Lemma switch_table s s' g next dead :
  ok s g -> switches s s' next dead ->
  (forall i, (i < SCHED_MAX_TASKS)%nat -> id (task_at s' i) = Z.of_nat i) /\
  (forall i, (i < SCHED_MAX_TASKS)%nat -> state (task_at s' i) = TASK_RUNNING <-> i = next) /\
  (forall i, (i < SCHED_MAX_TASKS)%nat -> state (task_at s' i) ∈ [TASK_FREE; TASK_READY; TASK_RUNNING]) /\
  state (task_at s' 0%nat) <> TASK_FREE.
Proof.
  intros Hok [(Hn & Hnc & Hrdy) _ _ _ _ _ _ Hoth Hnew Hoid Hold].
  assert (Hcases : forall i, i = current s \/ i = next \/ (i <> current s /\ i <> next)) by (intros; lia).
  assert (Hst : forall i, (i < SCHED_MAX_TASKS)%nat -> i <> current s -> i <> next ->
    state (task_at s i) = TASK_FREE \/ state (task_at s i) = TASK_READY).
  { intros i Hi Hic Hin. pose proof (ok_states s g Hok i Hi) as Hs.
    pose proof (proj1 (ok_running s g Hok i Hi)) as Hr.
    rewrite !elem_of_cons, elem_of_nil in Hs. destruct Hs as [?|[?|[Hx|[]]]]; auto. by apply Hr in Hx. }
  split_and!.
  - intros i Hi. destruct (Hcases i) as [->|[->|[H1 H2]]].
    + rewrite Hoid. by apply (ok_id s g Hok).
    + rewrite Hnew. by apply (ok_id s g Hok).
    + rewrite Hoth by done. by apply (ok_id s g Hok).
  - intros i Hi. destruct (Hcases i) as [->|[->|[H1 H2]]].
    + split; [|intros; congruence]. destruct dead; destruct Hold as [-> _]; done.
    + rewrite Hnew. done.
    + rewrite Hoth by done. destruct (Hst i Hi H1 H2) as [-> | ->]; done.
  - intros i Hi. rewrite !elem_of_cons. destruct (Hcases i) as [->|[->|[H1 H2]]].
    + destruct dead; destruct Hold as [-> _]; auto.
    + rewrite Hnew. auto.
    + rewrite Hoth by done. destruct (Hst i Hi H1 H2) as [-> | ->]; auto.
  - destruct (Hcases 0%nat) as [E|[E|[H1 H2]]].
    + rewrite E. destruct dead; destruct Hold as [-> ?]; congruence.
    + rewrite E. by rewrite Hnew.
    + rewrite Hoth by done. apply (ok_shell s g Hok).
Qed.

(** Other tasks keep their stacks; the frames of suspended tasks survive the
    push on the current one. *)
Lemma switch_ok s s' g next dead :
  ok s g -> esp_ok s -> switches s s' next dead -> ok s' (upd g (current s) (snapshot s)).
Proof.
  intros Hok Hesp Hsw. destruct (switch_table s s' g next dead Hok Hsw) as (Hid & Hrun & Hsts & Hsh).
  destruct Hsw as [(Hn & Hnc & Hrdy) Hlen Hcur Hen Hslice Hheap Hcore Hoth Hnew Hoid Hold].
  destruct (ok_stacks s g Hok) as (l & Hst). pose proof (ok_cur s g Hok) as Hc.
  assert (Hcl : live s (current s)).
  { split; [done|]. rewrite (proj2 (ok_running s g Hok _ Hc) eq_refl). done. }
  set (m' := pusha (gpr (core s)) (esp (core s)) (a_mem (heap s))) in *.
  assert (Hm' : forall x, x < stack_lo s (current s) \/ stack_hi s (current s) <= x ->
    ld8 m' x = ld8 (a_mem (heap s)) x).
  { intros x Hx. apply pusha_outside. destruct Hesp. lia. }
  assert (Hmem : a_mem (heap s') = m') by (rewrite Hheap; apply a_mem_set).
  assert (Hlive : forall i, live s' i -> live s i /\ (i <> 0%nat -> stack_base (task_at s' i) = stack_base (task_at s i))).
  { intros i [Hi Hf]. destruct (decide (i = current s)) as [->|H1].
    - split; [done|]. intros _. destruct dead; [by destruct Hold | by destruct Hold as (_ & _ & ->)].
    - destruct (decide (i = next)) as [->|H2].
      + rewrite Hnew. split; [|done]. split; [done|]. by rewrite Hrdy.
      + rewrite Hoth in Hf |- * by done. by split. }
  constructor; auto.
  - rewrite Hcur. done.
  - intros i Hi. rewrite Hrun by done. by rewrite Hcur.
  - rewrite Hen. apply (ok_enabled s g Hok).
  - rewrite Hcore. apply popa_ret_ok.
  - exists l. destruct Hst as (Ha & Hb & Hd). split_and!.
    + rewrite Hheap. apply (stack_write s l (current s)); done.
    + intros i Hi Hi0. destruct (Hlive i Hi) as [Hi' E]. rewrite E by done. by apply Hb.
    + intros i j Hi Hj Hi0 Hj0 Hij. destruct (Hlive i Hi) as [Hi' ->]; [|done].
      destruct (Hlive j Hj) as [Hj' ->]; [|done]. by apply Hd.
  - intros i Hi Hr. rewrite Hmem. unfold upd. destruct (decide (i = current s)) as [->|H1].
    + destruct dead; [destruct Hold; congruence|]. destruct Hold as (_ & Hsp & Hsb).
      unfold stack_lo, stack_hi. rewrite Hsp, Hsb. destruct Hesp as [He1 He2].
      unfold stack_lo, stack_hi in He1, He2. split_and!; [lia | lia |].
      apply pusha_popa, (ok_regs s g Hok).
    + assert (H2 : i <> next) by (intros ->; by rewrite Hnew in Hr).
      unfold stack_lo, stack_hi. rewrite Hoth in Hr |- * by done.
      destruct (ok_frames s g Hok i Hi Hr) as (Hlo & Hhi & Hfr). split_and!; [done | done |].
      rewrite <- Hfr. apply popa_ret_ext. intros x Hx. apply Hm'.
      destruct (stacks_disjoint s l i (current s) Hst) as [?|?]; [by split; [|congruence] | done | done | lia | lia].
Qed.

(** ** The operations *)

(** [s1] is [s] up to the flags, the slice and private fields of the current task. *)
Definition same_but_current (s s1 : sys) : Prop :=
  length (tasks s1) = length (tasks s) /\ current s1 = current s /\ heap s1 = heap s /\
  core s1 = core s /\ sched_enabled s1 = sched_enabled s /\
  (forall i, i <> current s -> task_at s1 i = task_at s i) /\
  id (task_at s1 (current s)) = id (task_at s (current s)) /\
  sp (task_at s1 (current s)) = sp (task_at s (current s)) /\
  stack_base (task_at s1 (current s)) = stack_base (task_at s (current s)) /\
  state (task_at s1 (current s)) = state (task_at s (current s)).

Lemma ok_same s s1 g :
  ok s g -> same_but_current s s1 -> 0 <= ticks_slice s1 < 10 -> ok s1 g.
Proof.
  intros Hok (Hl & Hc & Hh & Hco & He & Ho & Hi & Hsp & Hb & Hs) Hsl.
  assert (HS : forall i, state (task_at s1 i) = state (task_at s i) /\
    id (task_at s1 i) = id (task_at s i) /\ sp (task_at s1 i) = sp (task_at s i) /\
    stack_base (task_at s1 i) = stack_base (task_at s i)).
  { intros i. destruct (decide (i = current s)) as [->|]; [done | by rewrite Ho]. }
  assert (HL : forall i, live s1 i <-> live s i).
  { intros i. unfold live. by destruct (HS i) as (-> & _). }
  destruct Hok as [O1 O2 O3 O4 O5 O6 O7 O8 O9 (l & Ha & Hb1 & Hb2) O11].
  constructor; auto.
  - congruence.
  - intros i Hi'. destruct (HS i) as (_ & -> & _). auto.
  - by rewrite Hc.
  - intros i Hi'. destruct (HS i) as (-> & _). rewrite Hc. auto.
  - intros i Hi'. destruct (HS i) as (-> & _). auto.
  - destruct (HS 0%nat) as (-> & _). done.
  - congruence.
  - by rewrite Hco.
  - exists l. unfold stacks_ok. rewrite Hh. split_and!; [done | |].
    + intros i Hli Hi0. destruct (HS i) as (_ & _ & _ & ->). apply Hb1; [by apply HL | done].
    + intros i j Hli Hlj. destruct (HS i) as (_ & _ & _ & ->), (HS j) as (_ & _ & _ & ->).
      apply Hb2; by apply HL.
  - intros i Hi' Hr. unfold stack_lo, stack_hi.
    destruct (HS i) as (E1 & _ & -> & ->). rewrite E1 in Hr. rewrite Hh. by apply O11.
Qed.

(** The table after the stores and the context switch that every switching
    operation ends with; [P] is what happens to the old task's slot. *)
Lemma switch_build s s1 next P sl dead :
  length (tasks s) = SCHED_MAX_TASKS -> (current s < SCHED_MAX_TASKS)%nat ->
  same_but_current s s1 ->
  (next < SCHED_MAX_TASKS)%nat -> next <> current s -> state (task_at s next) = TASK_READY ->
  0 <= sl < 10 ->
  (let t := P (task_at s1 (current s)) in id t = id (task_at s1 (current s)) /\
     if dead : bool then state t = TASK_FREE /\ current s <> 0%nat
     else state t = TASK_READY /\ stack_base t = stack_base (task_at s1 (current s))) ->
  forall s2, length (tasks s2) = length (tasks s1) -> current s2 = next -> ticks_slice s2 = sl ->
  heap s2 = heap s1 -> core s2 = core s1 -> sched_enabled s2 = sched_enabled s1 ->
  (forall i, task_at s2 i = if decide (i = next) then set_state TASK_RUNNING (task_at s1 next)
     else if decide (i = current s) then P (task_at s1 (current s)) else task_at s1 i) ->
  switches s (context_switch (current s) (sp (task_at s2 next)) s2) next dead.
Proof.
  intros Hlen Hc (Hl & Hcu & Hh & Hco & He & Ho & Hid & _ & Hb & _) Hn Hnc Hr Hsl HP
    s2 Hl2 Hc2 Hs2 Hh2 Hco2 He2 Ht2.
  assert (Hsp : sp (task_at s2 next) = sp (task_at s next)).
  { rewrite Ht2, decide_True by done. cbn. by rewrite Ho. }
  unfold context_switch. rewrite Hco2, Hh2, Hco, Hh.
  set (m := pusha _ _ _). set (s3 := set_heap _ s2).
  assert (Ht : forall i, task_at (set_task (current s) (set_sp (esp (core s) - 32)) s3) i =
    if decide (i = current s) then set_sp (esp (core s) - 32) (task_at s2 (current s)) else task_at s2 i).
  { intros i. refine (set_task_at (current s) _ s3 i _). cbn. lia. }
  constructor; auto.
  - cbn. rewrite length_alter. congruence.
  - cbn. congruence.
  - cbn. lia.
  - cbn [heap core set_core set_task set_heap s3]. rewrite a_mem_set, Hsp. done.
  - intros i H1 H2. rewrite Ht, decide_False by done. rewrite Ht2, !decide_False by done. auto.
  - rewrite Ht, decide_False by done. rewrite Ht2, decide_True by done. by rewrite Ho.
  - rewrite Ht, decide_True by done. cbn. rewrite Ht2, decide_False, decide_True by done.
    destruct HP as [-> _]. done.
  - rewrite Ht, decide_True by done. cbn. rewrite Ht2, decide_False, decide_True by done.
    destruct HP as [_ HP]. destruct dead; [done|]. destruct HP as [? HP]. split_and!; auto. congruence.
Qed.

Lemma resume_same (s : sys) :
  tasks (resume s) = tasks s /\ current (resume s) = current s /\ heap (resume s) = heap s /\
  core (resume s) = core s /\ sched_enabled (resume s) = sched_enabled s /\
  ticks_slice (resume s) = ticks_slice s.
Proof. unfold resume. by destruct (susp _). Qed.

Lemma switches_resume s s' next dead :
  switches s s' next dead -> switches s (resume s') next dead.
Proof.
  intros [H1 H2 H3 H4 H5 H6 H7 H8 H9 H10 H11]. destruct (resume_same s') as (R1 & R2 & R3 & R4 & R5 & R6).
  constructor; rewrite ?R1, ?R2, ?R3, ?R4, ?R5, ?R6; auto.
Qed.

Lemma same_set_susp (s : sys) c : (current s < length (tasks s))%nat -> forall b,
  same_but_current s (set_task (current s) (set_susp c) (set_if b s)).
Proof.
  intros Hc b. unfold same_but_current.
  assert (E : forall i, task_at (set_task (current s) (set_susp c) (set_if b s)) i =
    if decide (i = current s) then set_susp c (task_at s (current s)) else task_at s i)
    by (intros i; by apply (set_task_at _ _ (set_if b s))).
  split_and!; try done; [by rewrite set_task_len | | rewrite E; by rewrite decide_True ..].
  intros i Hi. rewrite E. by rewrite decide_False.
Qed.

(** A running task that can be preempted is put back as ready. *)
Lemma preempted_ready (s s1 : sys) :
  state (task_at s (current s)) = TASK_RUNNING -> same_but_current s s1 ->
  let t := preempted (task_at s1 (current s)) in
  id t = id (task_at s1 (current s)) /\ state t = TASK_READY /\
  stack_base t = stack_base (task_at s1 (current s)).
Proof.
  intros Hr (_ & _ & _ & _ & _ & _ & _ & _ & _ & Hs). unfold preempted.
  rewrite bool_decide_true by congruence. done.
Qed.

Lemma set_two (s1 : sys) prev next P (s3 : sys) :
  (prev < length (tasks s1))%nat -> (next < length (tasks s1))%nat -> next <> prev ->
  tasks s3 = tasks (set_task next (set_state TASK_RUNNING) (set_task prev P s1)) ->
  forall i, task_at s3 i = if decide (i = next) then set_state TASK_RUNNING (task_at s1 next)
     else if decide (i = prev) then P (task_at s1 prev) else task_at s1 i.
Proof.
  intros Hp Hn Hne -> i. rewrite set_task_at by (by rewrite set_task_len).
  rewrite !set_task_at by done. destruct (decide (i = next)); [by rewrite decide_False | done].
Qed.

Lemma ok_shape s g s1 : ok s g -> same_but_current s s1 -> shape s1 /\
  state (task_at s1 (current s1)) = TASK_RUNNING /\
  (forall i, state (task_at s1 i) = TASK_READY <-> state (task_at s i) = TASK_READY).
Proof.
  intros Hok (Hl & Hc & _ & _ & _ & Ho & Hid & _ & _ & Hs). split_and!.
  - split_and!; [rewrite Hl; apply Hok | rewrite Hc; apply Hok |]. intros i Hi.
    destruct (decide (i = current s)) as [->|]; [rewrite Hid | rewrite Ho by done]; by apply (ok_id s g Hok).
  - rewrite Hc, Hs. apply (ok_running s g Hok); [apply Hok | done].
  - intros i. destruct (decide (i = current s)) as [->|]; [by rewrite Hs | by rewrite Ho].
Qed.

(** The choice made from [s1] instead of [s]. *)
Lemma pick_next_same s g s1 :
  ok s g -> same_but_current s s1 ->
  (pick_next s1 = current s /\
   (forall j, (j < SCHED_MAX_TASKS)%nat -> state (task_at s j) <> TASK_READY)) \/
  ((pick_next s1 < SCHED_MAX_TASKS)%nat /\ pick_next s1 <> current s /\
   state (task_at s (pick_next s1)) = TASK_READY /\
   (forall j, (j < SCHED_MAX_TASKS)%nat -> state (task_at s j) = TASK_READY ->
      (dist (current s) (pick_next s1) <= dist (current s) j)%nat)).
Proof.
  intros Hok Hsame. destruct (ok_shape s g s1 Hok Hsame) as (Hsh & Hrun & Hrdy).
  destruct Hsame as (_ & Hc & _). destruct (pick_next_spec s1 Hsh) as [[H1 H2]|(H1 & H2 & H3 & H4)];
    [congruence | left | right].
  - split; [congruence|]. intros j Hj Hr. apply (H2 j Hj). by apply Hrdy.
  - rewrite Hc in *. split_and!; auto; [by apply Hrdy|]. intros j Hj Hr. apply H4; [done | by apply Hrdy].
Qed.

Definition nearest (s : sys) (next : nat) : Prop :=
  forall j, (j < SCHED_MAX_TASKS)%nat -> state (task_at s j) = TASK_READY ->
    (dist (current s) next <= dist (current s) j)%nat.

Definition none_ready (s : sys) : Prop :=
  forall j, (j < SCHED_MAX_TASKS)%nat -> state (task_at s j) <> TASK_READY.

Lemma yield_cases s g :
  ok s g ->
  (none_ready s /\ same_but_current s (sched_yield s) /\ ticks_slice (sched_yield s) = ticks_slice s) \/
  (exists next, switches s (sched_yield s) next false /\ nearest s next /\
     ticks_slice (sched_yield s) = 0).
Proof.
  intros Hok. unfold sched_yield. rewrite (ok_enabled s g Hok). cbn [negb].
  pose proof (ok_len s g Hok) as Hlen. pose proof (ok_cur s g Hok) as Hc.
  set (s1 := set_task _ _ _).
  assert (Hs1 : same_but_current s s1) by (apply (same_set_susp s); lia).
  assert (Hrun : state (task_at s (current s)) = TASK_RUNNING) by (by apply (ok_running s g Hok)).
  unfold schedule. change (sched_enabled s1) with (sched_enabled s).
  change (current s1) with (current s). rewrite (ok_enabled s g Hok). cbn [negb].
  destruct (pick_next_same s g s1 Hok Hs1) as [[Hp Hnone]|(Hn & Hne & Hr & Hmin)].
  - left. rewrite bool_decide_true by done. split; [done|].
    destruct (resume_same s1) as (R1 & R2 & R3 & R4 & R5 & R6). rewrite R6. split; [|done].
    unfold same_but_current. rewrite R1, R2, R3, R4, R5. exact Hs1.
  - right. exists (pick_next s1). rewrite bool_decide_false by done.
    destruct (resume_same (context_switch (current s) (sp (task_at (set_slice 0 (set_current (pick_next s1)
      (set_task (pick_next s1) (set_state TASK_RUNNING) (set_task (current s) preempted s1)))) (pick_next s1)))
      (set_slice 0 (set_current (pick_next s1)
      (set_task (pick_next s1) (set_state TASK_RUNNING) (set_task (current s) preempted s1))))))
      as (_ & _ & _ & _ & _ & R6).
    split_and!; [|exact Hmin | rewrite R6; done].
    apply switches_resume, (switch_build s s1 _ preempted 0 false); auto; [lia | | cbn; by rewrite !length_alter |].
    + by apply preempted_ready.
    + apply set_two; [| | done | done]; destruct Hs1 as (-> & _); lia.
Qed.

Lemma tick_cases s g :
  ok s g ->
  (same_but_current s (timer_irq s) /\
   ((ticks_slice s < 9 /\ ticks_slice (timer_irq s) = ticks_slice s + 1) \/
    (none_ready s /\ ticks_slice (timer_irq s) = 0))) \/
  (ticks_slice s = 9 /\ exists next, switches s (timer_irq s) next false /\ nearest s next /\
     ticks_slice (timer_irq s) = 0).
Proof.
  intros Hok. unfold timer_irq. pose proof (ok_len s g Hok) as Hlen. pose proof (ok_cur s g Hok) as Hc.
  pose proof (ok_slice s g Hok) as Hsl.
  assert (Hrun : state (task_at s (current s)) = TASK_RUNNING) by (by apply (ok_running s g Hok)).
  unfold sched_on_tick.
  set (s0 := set_task (current s) (set_susp InTick) (set_service true (set_if false s))).
  change (sched_enabled s0) with (sched_enabled s). rewrite (ok_enabled s g Hok). cbn [negb].
  set (f := fun t => set_ticks _ t).
  assert (Hs1 : forall sl, same_but_current s (set_slice sl (set_task (current s0) f s0))).
  { intros sl. unfold same_but_current.
    assert (E : forall i, task_at (set_slice sl (set_task (current s0) f s0)) i =
      if decide (i = current s) then f (set_susp InTick (task_at s (current s))) else task_at s i).
    { intros i. etransitivity; [refine (set_task_at (current s) f s0 i _); cbn; rewrite length_alter; lia|].
      unfold s0. rewrite !(set_task_at (current s) _ (set_service true (set_if false s))) by (cbn; lia).
      rewrite (decide_True (P := current s = current s)) by done.
      by case_decide. }
    split_and!; try done; [cbn; by rewrite !length_alter | | rewrite E; by rewrite decide_True ..].
    intros i Hi. rewrite E. by rewrite decide_False. }
  cbn [ticks_slice set_slice set_task]. change (ticks_slice s0) with (ticks_slice s).
  destruct (Z.leb_spec 10 (ticks_slice s + 1)) as [H10|H10].
  2: { left. specialize (Hs1 (ticks_slice s + 1)).
       match goal with |- context [resume ?x] => destruct (resume_same x) as (R1 & R2 & R3 & R4 & R5 & R6) end.
       split; [|left; rewrite R6; split; [lia | done]].
       unfold same_but_current. rewrite R1, R2, R3, R4, R5. exact Hs1. }
  specialize (Hs1 0). set (s1 := set_slice 0 (set_task (current s0) f s0)) in *.
  match goal with |- context [set_slice 0 (set_slice ?z ?x)] => change (set_slice 0 (set_slice z x)) with s1 end.
  change (current s1) with (current s).
  destruct (pick_next_same s g s1 Hok Hs1) as [[Hp Hnone]|(Hn & Hne & Hr & Hmin)].
  - left. rewrite bool_decide_true by done.
    destruct (resume_same s1) as (R1 & R2 & R3 & R4 & R5 & R6).
    split; [|right; by rewrite R6]. unfold same_but_current. rewrite R1, R2, R3, R4, R5. exact Hs1.
  - right. rewrite bool_decide_false by done. split; [lia|]. exists (pick_next s1).
    match goal with |- context [resume ?x] => destruct (resume_same x) as (_ & _ & _ & _ & _ & R6) end.
    split_and!; [|exact Hmin | rewrite R6; done].
    apply switches_resume, (switch_build s s1 _ preempted 0 false); auto; [lia | | cbn; by rewrite !length_alter |].
    + by apply preempted_ready.
    + apply set_two; [| | done | done]; destruct Hs1 as (-> & _); lia.
Qed.

Lemma exit_cases s g :
  ok s g ->
  (current s = 0%nat /\ sched_exit s = set_if true (set_if false s)) \/
  (exists next, switches s (sched_exit s) next true /\ nearest s next /\
     ticks_slice (sched_exit s) = ticks_slice s).
Proof.
  intros Hok. unfold sched_exit. pose proof (ok_len s g Hok) as Hlen. pose proof (ok_cur s g Hok) as Hc.
  change (task_at (set_if false s) (current (set_if false s))) with (task_at s (current s)).
  rewrite (ok_id s g Hok) by done.
  destruct (Z.eqb_spec (Z.of_nat (current s)) 0) as [E|E]; [left; split; [lia | done]|]. right.
  set (s0 := set_if false s). change (current s0) with (current s).
  set (P := fun t => set_stack_base 0 (set_state TASK_FREE t)).
  set (s1 := set_task _ (set_stack_base 0) _). cbv zeta. change (current s1) with (current s).
  assert (Ht1 : forall i, task_at s1 i = if decide (i = current s) then P (task_at s (current s)) else task_at s i).
  { intros i. unfold s1. change (current (set_task _ _ s0)) with (current s).
    rewrite set_task_at by (rewrite set_task_len; cbn; lia).
    rewrite !(set_task_at (current s) _ s0) by (cbn; lia).
    rewrite (decide_True (P := current s = current s)) by done. by case_decide. }
  assert (Hsh : shape s1).
  { split_and!; [unfold s1; by rewrite !set_task_len | done |]. intros i Hi. rewrite Ht1.
    case_decide; [subst; cbn|]; by apply (ok_id s g Hok). }
  destruct (pick_next_spec s1 Hsh) as [[_ Hnone]|(Hn & Hne & Hr & Hmin)].
  { change (current s1) with (current s). rewrite Ht1, decide_True by done. done. }
  { exfalso. apply (Hnone 0%nat); [unfold SCHED_MAX_TASKS; lia|]. rewrite Ht1, decide_False by lia.
    pose proof (ok_states s g Hok 0%nat ltac:(unfold SCHED_MAX_TASKS; lia)) as Hst.
    rewrite !elem_of_cons, elem_of_nil in Hst. destruct Hst as [Hst|[Hst|[Hst|[]]]]; [|done|].
    - by apply (ok_shell s g Hok) in Hst.
    - apply (ok_running s g Hok) in Hst; [lia | unfold SCHED_MAX_TASKS; lia]. }
  change (current s1) with (current s) in *. exists (pick_next s1).
  rewrite Ht1, decide_False in Hr by done.
  match goal with |- context [resume ?x] => destruct (resume_same x) as (_ & _ & _ & _ & _ & R6) end.
  split_and!; [| | rewrite R6; done].
  - apply switches_resume, (switch_build s s0 _ P (ticks_slice s) true); auto.
    + unfold same_but_current. by split_and!.
    + apply (ok_slice s g Hok).
    + split; [done|]. split; [done | lia].
    + cbn. by rewrite !length_alter.
    + intros i. unfold s0 at 1. etransitivity;
        [refine (set_task_at (pick_next s1) _ (set_current (pick_next s1) s1) i _); cbn; rewrite !length_alter; lia|].
      change (tasks (set_current (pick_next s1) s1)) with (tasks s1). rewrite !Ht1.
      rewrite (decide_False (P := pick_next s1 = current s)) by done. done.
  - intros j Hj Hjr. apply Hmin; [done|]. rewrite Ht1. case_decide; [|done]. subst.
    pose proof (proj2 (ok_running s g Hok _ Hc) eq_refl). congruence.
Qed.

(** ** Spawning *)

(** A table in which only the free slot [i] has been filled with a ready
    task on a fresh stack. *)
Lemma spawn_ok s g l i (h : H) stack k top t' :
  ok s g -> stacks_ok s l -> (0 < i < SCHED_MAX_TASKS)%nat -> state (task_at s i) = TASK_FREE ->
  SCHED_STACK_SIZE <= k -> a_inv h ((stack, k) :: l) ->
  (forall q j, (q, j) ∈ l -> q + j <= stack \/ stack + k <= q) ->
  (forall q j x, (q, j) ∈ l -> q <= x < q + j -> ld8 (a_mem h) x = ld8 (a_mem (heap s)) x) ->
  (forall x, x < 0x200000 \/ 0x300000 <= x -> ld8 (a_mem h) x = ld8 (a_mem (heap s)) x) ->
  stack + 36 <= top <= stack + SCHED_STACK_SIZE ->
  id t' = id (task_at s i) -> state t' = TASK_READY -> sp t' = top - 36 -> stack_base t' = stack ->
  ok (set_task i (fun _ => t') (set_heap (a_set_mem (first_frame tb top (a_mem h)) h) s))
     (upd g i (fresh_cpu tb top)).
Proof.
  intros Hok Hst Hi Hfree Hk Hinv Hdis Hmem Hlow Htop Hid Hs Hsp Hsb.
  set (m' := first_frame tb top (a_mem h)). set (s' := set_task _ _ _).
  assert (Ht : forall j, task_at s' j = if decide (j = i) then t' else task_at s j).
  { intros j. refine (set_task_at i _ (set_heap _ s) j _). cbn. rewrite (ok_len s g Hok). lia. }
  assert (Hother : forall j, j <> i -> task_at s' j = task_at s j) by (intros; rewrite Ht; by rewrite decide_False).
  assert (Hself : task_at s' i = t') by (rewrite Ht; by rewrite decide_True).
  assert (Hci : current s <> i).
  { intros E. pose proof (proj2 (ok_running s g Hok _ (ok_cur s g Hok)) eq_refl). congruence. }
  assert (Hm' : forall x, x < stack \/ stack + SCHED_STACK_SIZE <= x -> ld8 m' x = ld8 (a_mem h) x).
  { intros x Hx. apply first_frame_outside. lia. }
  assert (Hlive : forall j, live s' j -> j = i \/ (j <> i /\ live s j)).
  { intros j [Hj Hf]. destruct (decide (j = i)) as [->|Hne]; [by left | right].
    rewrite Hother in Hf by done. by split. }
  pose proof Hst as (Ha & Hb & Hd).
  assert (Hbase : forall j, live s j -> j <> 0%nat -> stack_base (task_at s j) <> stack).
  { intros j Hj Hj0 E. destruct (Hb j Hj Hj0) as (kj & Hkj & Hin). rewrite E in Hin.
    destruct (Hdis _ _ Hin); unfold SCHED_STACK_SIZE in *; lia. }
  constructor.
  - unfold s'. rewrite set_task_len. apply (ok_len s g Hok).
  - intros j Hj. destruct (decide (j = i)) as [->|Hne]; [rewrite Hself, Hid | rewrite Hother by done];
      by apply (ok_id s g Hok).
  - apply (ok_cur s g Hok).
  - intros j Hj. change (current s') with (current s). destruct (decide (j = i)) as [->|Hne].
    + rewrite Hself, Hs. split; congruence.
    + rewrite Hother by done. by apply (ok_running s g Hok).
  - intros j Hj. destruct (decide (j = i)) as [->|Hne].
    + rewrite Hself, Hs. rewrite !elem_of_cons. auto.
    + rewrite Hother by done. by apply (ok_states s g Hok).
  - rewrite Hother by lia. apply (ok_shell s g Hok).
  - apply (ok_enabled s g Hok).
  - apply (ok_slice s g Hok).
  - apply (ok_regs s g Hok).
  - exists ((stack, k) :: l). split_and!.
    + eapply (a_write_in h _ stack k); [done | by left |]. intros x Hx. apply Hm'. lia.
    + intros j Hj Hj0. destruct (Hlive j Hj) as [->|[Hne Hlj]].
      * rewrite Hself, Hsb. exists k. split; [done | by left].
      * rewrite Hother by done. destruct (Hb j Hlj Hj0) as (kj & ? & ?). exists kj. split; [done | by right].
    + intros j j' Hj Hj' Hj0 Hj0' Hjj. destruct (Hlive j Hj) as [->|[Hne Hlj]], (Hlive j' Hj') as [->|[Hne' Hlj']];
        [done | | |]; rewrite ?Hself, ?Hsb, ?Hother by done; auto.
      intros E. by apply (Hbase j').
  - intros j Hj Hr. change (heap s') with (a_set_mem m' h). rewrite a_mem_set. unfold upd.
    destruct (decide (j = i)) as [->|Hne].
    + unfold stack_lo, stack_hi. rewrite !decide_False by lia. rewrite Hself, Hsp, Hsb.
      split_and!; [lia | lia | by apply first_frame_popa].
    + unfold stack_lo, stack_hi. rewrite Hother in Hr |- * by done.
      destruct (ok_frames s g Hok j Hj Hr) as (Hlo & Hhi & Hfr). split_and!; [done | done |].
      rewrite <- Hfr. apply popa_ret_ext. intros x Hx.
      assert (Hlj : live s j) by (split; [done | congruence]).
      unfold stack_lo, stack_hi in Hlo, Hhi. destruct (decide (j = 0%nat)) as [->|Hj0].
      * assert (Hblk : 0x200000 < stack) by (eapply (a_block h _ stack k); [done | by left]).
        rewrite Hm' by lia. apply Hlow. lia.
      * destruct (Hb j Hlj Hj0) as (kj & Hkj & Hin).
        destruct (Hdis _ _ Hin); (rewrite Hm' by lia; apply (Hmem _ _ _ Hin); lia).
Qed.

Lemma spawn_top stack :
  0x200000 < stack -> stack + SCHED_STACK_SIZE <= 0x300000 ->
  stack + 36 <= Z.land (u32 (stack + SCHED_STACK_SIZE)) (u32 (Z.lnot 0xF)) <= stack + SCHED_STACK_SIZE.
Proof.
  intros H1 H2. unfold SCHED_STACK_SIZE in *. change 0xF with (2 ^ 4 - 1).
  rewrite land_clear_low, u32_small by (apply u32_range || unfold in_u32; lia).
  change (2 ^ 4) with 16. zlia.
Qed.

Lemma spawn_cases nm fn ar s g :
  ok s g ->
  exists r s', sched_spawn tb nm fn ar s = Ret (r, s') /\
    ((r = -1 /\ s' = s) \/
     (exists i top, r = Z.of_nat i /\ (0 < i < SCHED_MAX_TASKS)%nat /\
        state (task_at s i) = TASK_FREE /\ ok s' (upd g i (fresh_cpu tb top)) /\
        state (task_at s' i) = TASK_READY /\ susp (task_at s' i) = Fresh /\
        current s' = current s /\ ticks_slice s' = ticks_slice s /\
        (forall j, j <> i -> task_at s' j = task_at s j))).
Proof.
  intros Hok. unfold sched_spawn.
  destruct (for_find _ _ _) as [i|] eqn:Ef; [|exists (-1), s; auto].
  apply for_find_Some in Ef as (Hi & Hfree & _). apply bool_decide_eq_true in Hfree.
  assert (Hi8 : (0 < i < SCHED_MAX_TASKS)%nat) by (unfold SCHED_MAX_TASKS in *; lia).
  destruct (ok_stacks s g Hok) as (l & Hst).
  destruct (a_alloc_ok (heap s) l SCHED_STACK_SIZE (proj1 Hst) ltac:(unfold SCHED_STACK_SIZE; lia))
    as (p & h & -> & Hz & Hnz). cbn [mbind out_mbind].
  destruct (Z.eqb_spec p 0) as [E|E].
  { exists (-1), s. rewrite (Hz E). split; [by destruct s | auto]. }
  destruct (Hnz E) as (k & Hk & _ & Hinv & Hdis & Hmem & Hlow).
  pose proof (a_block h _ p k Hinv ltac:(by left)) as Hblk.
  destruct (spawn_top p) as [Ht1 Ht2]; [lia | lia |].
  set (top := Z.land _ _) in *. cbv zeta. cbn [heap set_heap].
  set (F := fun t => mk_task _ _ _ _ _ _ _ _ _).
  set (s2 := set_heap (a_set_mem _ h) (set_heap h s)).
  assert (Heq : set_task i F s2 = set_task i (fun _ => F (task_at s i))
    (set_heap (a_set_mem (first_frame tb top (a_mem h)) h) s)).
  { unfold set_task. f_equal. cbn [tasks s2 set_heap]. apply list_eq. intros j.
    rewrite !list_lookup_alter. case_decide; [subst|done].
    destruct (tasks s !! j) eqn:Ej; [|done]. cbn. by rewrite (list_lookup_total_correct _ _ _ Ej). }
  rewrite Heq. set (s' := set_task i _ _).
  assert (Ht : forall j, task_at s' j = if decide (j = i) then F (task_at s i) else task_at s j).
  { intros j. refine (set_task_at i _ (set_heap _ s) j _). cbn. rewrite (ok_len s g Hok). lia. }
  assert (Hself : task_at s' i = F (task_at s i)) by (rewrite Ht; by rewrite decide_True).
  eexists _, s'. split; [reflexivity|]. right. exists i, top. rewrite Hself.
  split_and!; auto.
  - rewrite <- (ok_id s g Hok i) by lia. by rewrite ?Hself.
  - lia.
  - lia.
  - by apply (spawn_ok s g l i h p k top (F (task_at s i))).
  - intros j Hj. rewrite Ht. by rewrite decide_False.
Qed.

(** ** The system *)

(** The running task computes: it may change its registers, its own stack,
    and use the heap, but not the stacks of the other tasks. *)
Definition runs (s s' : sys) : Prop :=
  exists c h, s' = set_core c (set_heap h s) /\ regs_ok (gpr c) /\
    (exists l, stacks_ok (set_heap h s) l) /\
    (forall i, live s i -> i <> current s -> forall x, stack_lo s i <= x < stack_hi s i ->
       ld8 (a_mem h) x = ld8 (a_mem (heap s)) x).

Inductive label : Type := LRun | LSpawn | LYield | LTick | LExit.

Inductive step : label -> sys * (nat -> cpu) -> sys * (nat -> cpu) -> Prop :=
| step_run s s' g : runs s s' -> step LRun (s, g) (s', g)
| step_spawn s g nm fn ar r s' i top :
    sched_spawn tb nm fn ar s = Ret (r, s') ->
    (r = -1 /\ i = 0%nat \/ r = Z.of_nat i /\ sp (task_at s' i) = top - 36) ->
    step LSpawn (s, g) (s', if decide (r = -1) then g else upd g i (fresh_cpu tb top))
| step_yield s g : esp_ok s ->
    step LYield (s, g) (sched_yield s,
                 if decide (current (sched_yield s) = current s) then g else upd g (current s) (snapshot s))
| step_tick s g : esp_ok s -> cpu_if s = true -> in_service s = false ->
    step LTick (s, g) (timer_irq s,
                 if decide (current (timer_irq s) = current s) then g else upd g (current s) (snapshot s))
| step_exit s g : esp_ok s ->
    step LExit (s, g) (sched_exit s,
                 if decide (current (sched_exit s) = current s) then g else upd g (current s) (snapshot s)).

Inductive reach (c0 : sys * (nat -> cpu)) : sys * (nat -> cpu) -> Prop :=
| reach_refl : reach c0 c0
| reach_step lb c c' : reach c0 c -> step lb c c' -> reach c0 c'.

Lemma runs_ok s s' g : ok s g -> runs s s' -> ok s' g.
Proof.
  intros Hok (c & h & -> & Hr & (l & Hst) & Hmem).
  destruct Hok as [O1 O2 O3 O4 O5 O6 O7 O8 O9 O10 O11]. constructor; auto; [by exists l|].
  intros i Hi Hrd. assert (Hrd' : state (task_at s i) = TASK_READY) by exact Hrd.
  destruct (O11 i Hi Hrd) as (Hlo & Hhi & Hfr). split_and!; [done | done |].
  rewrite <- Hfr. apply popa_ret_ext. intros x Hx. apply (Hmem i); [| |cbn [tasks set_core set_heap] in Hx; lia].
  - split; [done | congruence].
  - intros ->. pose proof (proj2 (O4 _ Hi) eq_refl). congruence.
Qed.

(** A switch moves to another task, a non-switch stays. *)
Lemma after_switch s s' g next dead :
  ok s g -> esp_ok s -> switches s s' next dead ->
  ok s' (if decide (current s' = current s) then g else upd g (current s) (snapshot s)).
Proof.
  intros Hok He Hsw. pose proof (sw_next _ _ _ _ Hsw) as (_ & Hne & _).
  rewrite (sw_cur _ _ _ _ Hsw), decide_False by done. by eapply switch_ok.
Qed.

Lemma step_ok lb c c' : step lb c c' -> ok (fst c) (snd c) -> ok (fst c') (snd c').
Proof.
  destruct 1 as [s s' g Hr|s g nm fn ar r s' i top Hsp Htop|s g He|s g He Hif Hsv|s g He];
    cbn [fst snd]; intros Hok.
  - by eapply runs_ok.
  - destruct (spawn_cases nm fn ar s g Hok) as (r' & s2 & Hrun & Hc). rewrite Hrun in Hsp.
    injection Hsp as -> ->. destruct Hc as [[-> ->]|(j & top' & -> & Hj & Hfr & Hok' & Hrd & _)].
    + by rewrite decide_True.
    + rewrite decide_False by lia. destruct Htop as [[? _]|[Hij Hsp]]; [lia|].
      apply Nat2Z.inj in Hij as ->. destruct (ok_frames _ _ Hok' i) as (_ & _ & Hfr'); [lia | done |].
      enough (top = top') as -> by done.
      unfold upd in Hfr'. rewrite decide_True in Hfr' by done.
      injection Hfr' as _ _ _ _ _ _ _ Hesp _. rewrite Hsp in Hesp. lia.
  - destruct (yield_cases s g Hok) as [(_ & Hs & Hsl)|(next & Hsw & _)]; [|by eapply after_switch].
    pose proof Hs as (_ & Hc & _). rewrite decide_True by done.
    apply (ok_same s); [done | done |]. rewrite Hsl. apply Hok.
  - destruct (tick_cases s g Hok) as [(Hs & Hsl)|(_ & next & Hsw & _)]; [|by eapply after_switch].
    pose proof Hs as (_ & Hc & _). rewrite decide_True by done.
    apply (ok_same s); [done | done |]. pose proof (ok_slice s g Hok). lia.
  - destruct (exit_cases s g Hok) as [(Hc & ->)|(next & Hsw & _)]; [|by eapply after_switch].
    rewrite decide_True by done. apply (ok_same s); [done | | apply Hok].
    unfold same_but_current. by split_and!.
Qed.

Lemma reach_ok c0 c : reach c0 c -> ok (fst c0) (snd c0) -> ok (fst c) (snd c).
Proof. induction 1; auto. intros. eapply step_ok; eauto. Qed.

(** ** Start-up *)

Lemma init_ok s g l :
  length (tasks s) = SCHED_MAX_TASKS -> a_inv (heap s) l -> regs_ok (gpr (core s)) ->
  ok (sched_init s) g.
Proof.
  intros Hlen Ha Hr.
  assert (Ht : forall i, (i < SCHED_MAX_TASKS)%nat ->
    id (task_at (sched_init s) i) = Z.of_nat i /\
    state (task_at (sched_init s) i) = if decide (i = 0%nat) then TASK_RUNNING else TASK_FREE).
  { intros i Hi. unfold sched_init. cbn [tasks]. rewrite list_lookup_total_alter.
    destruct (lookup_lt_is_Some_2 (tasks s) i) as [t Et]; [lia|].
    assert (Em : forall f : nat -> task -> task, imap f (tasks s) !!! i = f i t).
    { intros f. rewrite list_lookup_total_alt, list_lookup_imap, Et. done. }
    case_decide as E.
    - destruct E as [<- _]. rewrite Em. by rewrite decide_True.
    - rewrite Em. rewrite decide_False; [done|]. intros ->. apply E. split; [done|].
      rewrite length_imap. lia. }
  assert (H0 : (0 < SCHED_MAX_TASKS)%nat) by (unfold SCHED_MAX_TASKS; lia).
  assert (Hstate : forall i, (i < SCHED_MAX_TASKS)%nat -> i <> 0%nat -> state (task_at (sched_init s) i) = TASK_FREE).
  { intros i Hi Hne. destruct (Ht i Hi) as [_ ->]. by rewrite decide_False. }
  constructor; auto.
  - unfold sched_init. cbn [tasks]. by rewrite length_alter, length_imap.
  - intros i Hi. by apply Ht.
  - intros i Hi. destruct (Ht i Hi) as [_ ->]. change (current (sched_init s)) with 0%nat. by case_decide.
  - intros i Hi. rewrite !elem_of_cons. destruct (Ht i Hi) as [_ ->]. case_decide; auto.
  - destruct (Ht 0%nat H0) as [_ ->]. by rewrite decide_True.
  - cbn. lia.
  - exists l. split_and!; [done | |].
    + intros i [Hi Hf] Hi0. by rewrite Hstate in Hf.
    + intros i j [Hi Hf] _ Hi0. by rewrite Hstate in Hf.
  - intros i Hi Hrd. destruct (Ht i Hi) as [_ E]. rewrite E in Hrd. by case_decide.
Qed.

(** ** Waiting *)

(** [j] is ready and does not run. *)
Definition waiting (s : sys) (j : nat) : Prop :=
  (j < SCHED_MAX_TASKS)%nat /\ j <> current s /\ state (task_at s j) = TASK_READY.

(** An upper bound on the ticks and yields [j] still has to wait for. *)
Definition patience (s : sys) (j : nat) : Z :=
  10 * Z.of_nat (dist (current s) j) - ticks_slice s.

Lemma patience_bounds s g j : ok s g -> waiting s j -> 1 <= patience s j <= 70.
Proof.
  intros Hok (Hj & Hne & _). destruct (dist_sum (current s) j (ok_cur s g Hok) Hj Hne) as [Hd _].
  pose proof (ok_slice s g Hok). unfold patience, SCHED_MAX_TASKS in *. lia.
Qed.

(** Moving on to a task that is not further than [j] brings [j] closer. *)
Lemma dist_closer c n j :
  (c < SCHED_MAX_TASKS)%nat -> (n < SCHED_MAX_TASKS)%nat -> (j < SCHED_MAX_TASKS)%nat ->
  n <> c -> j <> c -> j <> n -> (dist c n <= dist c j)%nat -> (dist n j < dist c j)%nat.
Proof.
  intros Hc Hn Hj H1 H2 H3 Hd. unfold dist, SCHED_MAX_TASKS in *.
  assert (Hm : forall a b, (a < 8)%nat -> (b < 8)%nat ->
    ((b + 8 - a) mod 8 = if decide (a <= b) then b - a else b + 8 - a)%nat).
  { intros a b Ha Hb. case_decide.
    - replace (b + 8 - a)%nat with ((b - a) + 1 * 8)%nat by lia. rewrite Nat.Div0.mod_add.
      apply Nat.mod_small. lia.
    - apply Nat.mod_small. lia. }
  rewrite !Hm in * by done. repeat case_decide; lia.
Qed.

Lemma switch_waiting s s' g next dead j :
  ok s g -> switches s s' next dead -> nearest s next -> waiting s j -> j <> current s' ->
  waiting s' j /\ (dist (current s') j < dist (current s) j)%nat.
Proof.
  intros Hok Hsw Hnear (Hj & Hne & Hr) Hj'. destruct Hsw as [(Hn & Hnc & Hrdy) _ Hcur _ _ _ _ Hoth _ _ _].
  rewrite Hcur in *. split; [split_and!; [done | congruence |]; by rewrite Hoth|].
  apply dist_closer; auto. apply (ok_cur s g Hok).
Qed.

(** Every step that does not run [j] keeps it waiting; yields and ticks use
    up patience. *)
Lemma step_patience lb c c' j :
  ok (fst c) (snd c) -> step lb c c' -> waiting (fst c) j -> j <> current (fst c') ->
  waiting (fst c') j /\
  patience (fst c') j <= patience (fst c) j - (match lb with LYield | LTick => 1 | _ => 0 end).
Proof.
  destruct 2 as [s s' g Hr|s g nm fn ar r s' i top Hsp Htop|s g He|s g He Hif Hsv|s g He];
    cbn [fst snd] in *; intros Hw Hj'; pose proof (ok_slice _ _ H0) as Hsl; unfold patience.
  - destruct Hr as (c & h & -> & _). split; [exact Hw|]. cbn. lia.
  - destruct (spawn_cases nm fn ar s g H0) as (r' & s2 & Hrun & Hc). rewrite Hrun in Hsp.
    injection Hsp as -> ->. destruct Hc as [[_ ->]|(k & top' & _ & Hk & Hfr & _ & _ & _ & Hc & Hs & Ho)];
      [split; [done | lia]|].
    destruct Hw as (Hj & Hne & Hrd). assert (j <> k) by (intros ->; congruence).
    rewrite Hc, Hs. split; [|lia]. split_and!; [done | congruence | by rewrite Ho].
  - destruct (yield_cases s g H0) as [(Hnone & _)|(next & Hsw & Hnear & Hz)].
    { destruct Hw as (Hj & _ & Hrd). by apply Hnone in Hrd. }
    destruct (switch_waiting s _ g next false j H0 Hsw Hnear Hw Hj') as [Hw' Hd]. split; [done|].
    rewrite Hz. lia.
  - destruct (tick_cases s g H0) as [(Hs & [[Hlt Hz]|[Hnone Hz]])|(H9 & next & Hsw & Hnear & Hz)].
    + destruct Hs as (_ & Hc & _ & _ & _ & Ho & _). destruct Hw as (Hj & Hne & Hrd).
      rewrite Hc, Hz. split; [|lia]. split_and!; [done | congruence | by rewrite Ho].
    + destruct Hw as (Hj & _ & Hrd). by apply Hnone in Hrd.
    + destruct (switch_waiting s _ g next false j H0 Hsw Hnear Hw Hj') as [Hw' Hd]. split; [done|].
      rewrite Hz. lia.
  - destruct (exit_cases s g H0) as [(Hc & ->)|(next & Hsw & Hnear & Hz)]; [split; [exact Hw | cbn; lia]|].
    destruct (switch_waiting s _ g next true j H0 Hsw Hnear Hw Hj') as [Hw' Hd]. split; [done|].
    rewrite Hz. lia.
Qed.

(** A run from [c] to [c'] with [n] yields and ticks in which [j] never runs. *)
Inductive avoids (j : nat) (c : sys * (nat -> cpu)) : nat -> sys * (nat -> cpu) -> Prop :=
| avoids_refl : j <> current (fst c) -> avoids j c 0 c
| avoids_sched n lb c1 c2 : avoids j c n c1 -> step lb c1 c2 -> (lb = LYield \/ lb = LTick) ->
    j <> current (fst c2) -> avoids j c (S n) c2
| avoids_other n lb c1 c2 : avoids j c n c1 -> step lb c1 c2 -> lb <> LYield -> lb <> LTick ->
    j <> current (fst c2) -> avoids j c n c2.

Lemma avoids_patience j c n c' :
  ok (fst c) (snd c) -> waiting (fst c) j -> avoids j c n c' ->
  ok (fst c') (snd c') /\ waiting (fst c') j /\ patience (fst c') j + Z.of_nat n <= patience (fst c) j.
Proof.
  intros Hok Hw. induction 1 as [Hne|n lb c1 c2 _ IH Hst Hlb Hne|n lb c1 c2 _ IH Hst Hl1 Hl2 Hne].
  - split_and!; [done | done | lia].
  - destruct IH as (Hok1 & Hw1 & Hp). destruct (step_patience lb c1 c2 j Hok1 Hst Hw1 Hne) as [Hw2 Hp2].
    split_and!; [by eapply step_ok | done |]. destruct Hlb as [-> | ->]; lia.
  - destruct IH as (Hok1 & Hw1 & Hp). destruct (step_patience lb c1 c2 j Hok1 Hst Hw1 Hne) as [Hw2 Hp2].
    split_and!; [by eapply step_ok | done |]. destruct lb; try done; lia.
Qed.

End Inv.
End SchedInv.
