(* ===== verification/SchedSpec.v ===== *)
(** * The scheduler: what it guarantees

    Claims about every execution of the scheduler from [sched_init]: one
    running task, suspended tasks resume exactly where they stopped, ready
    tasks wait a bounded time, and what happens in the first slice of a
    task.  They are stated for any allocator that keeps the laws of
    [Allocator]; the witnesses use the kernel's own heap. *)

From S2P Require Import Prelude Memory Kmalloc Alloc Sched SchedInv.
Import Sched SchedInv.

Module SchedSpec.

Section Claims.
Context {H : Type} `{!Allocator H}.
Context (bs_lo bs_hi tb : Z).
Hypothesis boot_stack : bs_lo + 36 <= bs_hi <= 0x200000.
Hypothesis tb_u32 : in_u32 tb.

(** A machine before [sched_init]: a table of eight slots, a sound heap. *)
Definition startable (s : @sys H) : Prop :=
  length (tasks s) = SCHED_MAX_TASKS /\ (exists l, a_inv (heap s) l) /\ regs_ok (gpr (core s)).

(** The state and recorded frames after any sequence of steps. *)
Definition reachable (s0 : @sys H) (g0 : nat -> cpu) (s : @sys H) (g : nat -> cpu) : Prop :=
  startable s0 /\ reach bs_lo bs_hi tb (sched_init s0, g0) (s, g).

Lemma reachable_ok s0 g0 s g : reachable s0 g0 s g -> ok bs_lo bs_hi s g.
Proof.
  intros [(Hlen & (l & Hl) & Hr) Hre]. apply (reach_ok bs_lo bs_hi tb boot_stack tb_u32) in Hre; [done|].
  by eapply init_ok.
Qed.

(** C5. In every reachable state exactly the current task is RUNNING, the
    shell (task 0) is never free, and the stack of each ready task still holds
    the registers and the return address recorded when it was suspended, so
    stacks never interfere. *)
Theorem sched_invariant s0 g0 s g :
  reachable s0 g0 s g ->
  (forall i, (i < SCHED_MAX_TASKS)%nat -> state (tasks s !!! i) = TASK_RUNNING <-> i = current s) /\
  state (tasks s !!! 0%nat) <> TASK_FREE /\
  (forall i, (i < SCHED_MAX_TASKS)%nat -> state (tasks s !!! i) = TASK_READY ->
     popa_ret (a_mem (heap s)) (sp (tasks s !!! i)) = g i).
Proof.
  intros Hre. pose proof (reachable_ok _ _ _ _ Hre) as Hok. split_and!; [apply Hok | apply Hok |].
  intros i Hi Hr. apply (ok_frames _ _ s g Hok i Hi Hr).
Qed.

Lemma switch_core s s' g next dead :
  ok bs_lo bs_hi s g -> esp_ok bs_lo bs_hi s -> switches s s' next dead -> core s' = g next.
Proof.
  intros Hok He Hsw. pose proof (switch_ok bs_lo bs_hi boot_stack s s' g next dead Hok He Hsw) as Hok'.
  destruct (sw_next _ _ _ _ Hsw) as (Hn & Hnc & Hr).
  rewrite (sw_core _ _ _ _ Hsw), (sw_heap _ _ _ _ Hsw), a_mem_set.
  destruct (ok_stacks _ _ s g Hok) as (l & Hst). destruct (ok_frames _ _ s g Hok next Hn Hr) as (Hlo & Hhi & <-).
  apply popa_ret_ext. intros x Hx. apply pusha_outside.
  assert (Hcl : live s (current s)).
  { split; [apply Hok|]. rewrite (proj2 (ok_running _ _ s g Hok _ (ok_cur _ _ s g Hok)) eq_refl). done. }
  destruct (stacks_disjoint bs_lo bs_hi boot_stack s l next (current s) Hst); auto;
    [split; [done | congruence] | destruct He; lia | destruct He; lia].
Qed.

(** C9. A context switch restores the task it switches to exactly: whatever
    happened in between, after a yield, a timer tick or an exit that selects
    another task the general registers, the stack pointer and the program
    counter are the ones recorded when that task was suspended (for a new task:
    cleared registers, the top of its stack and [task_bootstrap]). *)
Theorem sched_switch_restores s0 g0 s g :
  reachable s0 g0 s g -> esp_ok bs_lo bs_hi s ->
  (current (sched_yield s) <> current s -> core (sched_yield s) = g (current (sched_yield s))) /\
  (current (timer_irq s) <> current s -> core (timer_irq s) = g (current (timer_irq s))) /\
  (current (sched_exit s) <> current s -> core (sched_exit s) = g (current (sched_exit s))).
Proof.
  intros Hre He. pose proof (reachable_ok _ _ _ _ Hre) as Hok. split_and!; intros Hne.
  - destruct (yield_cases _ _ s g Hok) as [(_ & (_ & Hc & _) & _)|(n & Hsw & _)]; [done|].
    rewrite (sw_cur _ _ _ _ Hsw). by eapply switch_core.
  - destruct (tick_cases _ _ s g Hok) as [((_ & Hc & _) & _)|(_ & n & Hsw & _)]; [done|].
    rewrite (sw_cur _ _ _ _ Hsw). by eapply switch_core.
  - destruct (exit_cases _ _ s g Hok) as [(Hc & Hx)|(n & Hsw & _)]; [by rewrite Hx in Hne|].
    rewrite (sw_cur _ _ _ _ Hsw). by eapply switch_core.
Qed.

(** C10. Round-robin is starvation free: however spawns, exits and computation
    interleave, a ready task runs before the 70th timer tick or yield (seven
    slots of ten ticks). *)
Theorem sched_bounded_waiting s0 g0 s g j n c' :
  reachable s0 g0 s g -> waiting s j -> avoids bs_lo bs_hi tb j (s, g) n c' -> (n < 70)%nat.
Proof.
  intros Hre Hw Hav. pose proof (reachable_ok _ _ _ _ Hre) as Hok.
  destruct (avoids_patience bs_lo bs_hi tb boot_stack tb_u32 j (s, g) n c' Hok Hw Hav) as (Hok' & Hw' & Hp).
  pose proof (patience_bounds _ _ _ _ _ Hok' Hw'). pose proof (patience_bounds _ _ _ _ _ Hok Hw).
  cbn [fst] in *. lia.
Qed.

Lemma resume_fresh (s : @sys H) : susp (tasks s !!! current s) = Fresh -> resume s = s.
Proof. unfold resume. by intros ->. Qed.

Lemma switch_susp s s' next dead :
  switches s s' next dead -> susp (tasks s' !!! current s') = susp (tasks s !!! current s').
Proof. intros Hsw. by rewrite (sw_cur _ _ _ _ Hsw), (sw_new _ _ _ _ Hsw). Qed.

(** The first slice of a task is not preemptible: when a yield or a timer
    tick selects a task that has never run, it starts with interrupts disabled
    ([context_switch] does not restore EFLAGS and [task_bootstrap] has no
    [sti]), and after a tick the interrupt controller has not been
    acknowledged either, so no further tick can arrive until the task gives up
    the CPU by itself. *)
Theorem sched_first_slice_masked s0 g0 s g :
  reachable s0 g0 s g ->
  (current (sched_yield s) <> current s ->
   susp (tasks s !!! current (sched_yield s)) = Fresh -> cpu_if (sched_yield s) = false) /\
  (current (timer_irq s) <> current s ->
   susp (tasks s !!! current (timer_irq s)) = Fresh ->
   cpu_if (timer_irq s) = false /\ in_service (timer_irq s) = true /\
   forall g1 c', ~ step bs_lo bs_hi tb LTick (timer_irq s, g1) c').
Proof.
  intros Hre. pose proof (reachable_ok _ _ _ _ Hre) as Hok. split; intros Hne Hf.
  - destruct (yield_cases _ _ s g Hok) as [(_ & (_ & Hc & _) & _)|(n & Hsw & _)]; [done|].
    rewrite <- (switch_susp _ _ _ _ Hsw) in Hf. unfold sched_yield in *.
    rewrite (ok_enabled _ _ s g Hok) in *. cbn [negb] in *.
    destruct (resume_same (schedule (set_task (current s) (set_susp InYield) (set_if false s))))
      as (R1 & R2 & _). rewrite R1, R2 in Hf. rewrite resume_fresh by done.
    unfold schedule. destruct (negb _); [done|]. by destruct (bool_decide _).
  - destruct (tick_cases _ _ s g Hok) as [((_ & Hc & _) & _)|(_ & n & Hsw & _)]; [done|].
    rewrite <- (switch_susp _ _ _ _ Hsw) in Hf.
    assert (Hif : cpu_if (timer_irq s) = false /\ in_service (timer_irq s) = true).
    { unfold timer_irq in *. match goal with |- context [resume ?x] =>
        destruct (resume_same x) as (R1 & R2 & _) end. rewrite R1, R2 in Hf.
      rewrite resume_fresh by done. unfold sched_on_tick. destruct (negb _); [done|]. cbv zeta.
      destruct (10 <=? _); [|done]. by destruct (bool_decide _). }
    destruct Hif as [Hif Hsv]. split_and!; auto. intros g1 c' Hst. inversion Hst. congruence.
Qed.

End Claims.

(** ** A concrete machine *)

Definition demo_cpu : cpu := mk_cpu (mk_regs 1 2 3 4 5 6 7) 0x158000 0x100000.
Definition power_on : @sys Kmalloc.kstate :=
  mk_sys (replicate SCHED_MAX_TASKS bss_task) 0 false 0 0 Kmalloc.boot_heap demo_cpu true false.
Definition g0 : nat -> cpu := fun _ => demo_cpu.

(** The shell has spawned the worker. *)
Definition spawned : @sys Kmalloc.kstate :=
  match sched_spawn_worker 0x101000 0x102000 (sched_init power_on) with
  | Ret (_, s) => s
  | Fault _ => power_on
  end.
Definition g1 : nat -> cpu := upd g0 1 (fresh_cpu 0x101000 (sp (tasks spawned !!! 1%nat) + 36)).

Lemma power_on_startable : startable power_on.
Proof.
  split_and!; [reflexivity | | unfold regs_ok, in_u32; cbn; lia].
  exists []. exists Kmalloc.boot_blocks. split; [apply Kmalloc.kmalloc_init_rep | reflexivity].
Qed.

Lemma spawned_reachable : reachable 0x150000 0x160000 0x101000 power_on g0 spawned g1.
Proof.
  split; [apply power_on_startable|]. eapply reach_step; [apply reach_refl|].
  pose proof (step_spawn 0x150000 0x160000 0x101000 (sched_init power_on) g0 (Some $"worker") 0x102000 0
    1 spawned 1 (sp (tasks spawned !!! 1%nat) + 36)) as Hs.
  apply Hs; [vm_compute; reflexivity|]. right. split; [done | lia].
Qed.

Lemma spawned_esp : esp_ok 0x150000 0x160000 spawned.
Proof. vm_compute. by split. Qed.

Lemma sched_invariant_witness :
  (forall i, (i < SCHED_MAX_TASKS)%nat ->
     state (tasks spawned !!! i) = TASK_RUNNING <-> i = current spawned) /\
  state (tasks spawned !!! 0%nat) <> TASK_FREE.
Proof.
  destruct (sched_invariant 0x150000 0x160000 0x101000 ltac:(lia) ltac:(unfold in_u32; lia)
    power_on g0 spawned g1 spawned_reachable) as (H1 & H2 & _). split; assumption.
Defined.

Lemma sched_switch_restores_witness :
  current (sched_yield spawned) <> current spawned /\
  eip (core (sched_yield spawned)) = 0x101000.
Proof.
  assert (Hne : current (sched_yield spawned) <> current spawned) by (vm_compute; discriminate).
  split; [exact Hne|].
  rewrite (proj1 (sched_switch_restores 0x150000 0x160000 0x101000 ltac:(lia) ltac:(unfold in_u32; lia)
    power_on g0 spawned g1 spawned_reachable spawned_esp) Hne).
  vm_compute. reflexivity.
Defined.

Lemma sched_bounded_waiting_witness : waiting spawned 1 /\ (0 < 70)%nat.
Proof.
  assert (Hw : waiting spawned 1)
    by (split_and!; [unfold SCHED_MAX_TASKS; lia | vm_compute; discriminate | vm_compute; reflexivity]).
  split; [exact Hw|].
  apply (sched_bounded_waiting 0x150000 0x160000 0x101000 ltac:(lia) ltac:(unfold in_u32; lia)
    power_on g0 spawned g1 1 0 (spawned, g1) spawned_reachable Hw).
  apply avoids_refl. vm_compute. discriminate.
Defined.

Lemma sched_first_slice_masked_witness :
  susp (tasks spawned !!! current (sched_yield spawned)) = Fresh /\
  cpu_if (sched_yield spawned) = false.
Proof.
  assert (Hf : susp (tasks spawned !!! current (sched_yield spawned)) = Fresh) by (vm_compute; reflexivity).
  split; [exact Hf|].
  apply (sched_first_slice_masked 0x150000 0x160000 0x101000 ltac:(lia) ltac:(unfold in_u32; lia)
    power_on g0 spawned g1 spawned_reachable);
    [vm_compute; discriminate | exact Hf].
Defined.

End SchedSpec.
