(* ===== verification/Ring.v ===== *)
(** * Ring buffers (keyboard.c: kbd_buffer, mouse.c: evq)

    Both drivers keep an array, a head index written by the interrupt
    handler and a tail index written by the reader; one slot stays empty.
    [ring_rep n r q] says that the ring of capacity [n] holds the queue [q]. *)

From S2P Require Import Prelude.

Module Ring.
Section Ring.
Context {A : Type} `{!Inhabited A}.

Record ring : Type := mk_ring { buf : list A; head : nat; tail : nat }.

(** [next = (head + 1) % n; if (next == tail) return; buf[head] = c; head = next;] *)
Definition push (n : nat) (c : A) (r : ring) : ring :=
  let next := ((head r + 1) mod n)%nat in
  if bool_decide (next = tail r) then r
  else mk_ring (<[head r := c]> (buf r)) next (tail r).

(** [if (head == tail) return 0; c = buf[tail]; tail = (tail + 1) % n;] *)
Definition pop (n : nat) (r : ring) : option (A * ring) :=
  if bool_decide (head r = tail r) then None
  else Some (buf r !!! tail r, mk_ring (buf r) (head r) ((tail r + 1) mod n)).

Definition ring_rep (n : nat) (r : ring) (q : list A) : Prop :=
  (1 < n)%nat /\ length (buf r) = n /\ (tail r < n)%nat /\ (length q < n)%nat /\
  head r = ((tail r + length q) mod n)%nat /\
  forall k, (k < length q)%nat -> buf r !! ((tail r + k) mod n)%nat = q !! k.

Lemma mod_add_r n a b : (0 < n)%nat -> ((a mod n + b) mod n = (a + b) mod n)%nat.
Proof. intros. rewrite Nat.Div0.add_mod_idemp_l. done. Qed.

(** Two offsets below [n] reach the same slot only when they are equal. *)
Lemma offset_inj n t a b :
  (0 < n)%nat -> (a < n)%nat -> (b < n)%nat -> ((t + a) mod n = (t + b) mod n)%nat -> a = b.
Proof.
  intros Hn Ha Hb E.
  assert (H : forall x y, (x <= y)%nat -> (y < n)%nat -> ((t + x) mod n = (t + y) mod n)%nat -> x = y).
  { intros x y Hxy Hy Heq.
    pose proof (Nat.div_mod_eq (t + x) n). pose proof (Nat.div_mod_eq (t + y) n). rewrite Heq in *.
    assert (Hq : ((t + x) / n = (t + y) / n)%nat); [|rewrite Hq in *; lia].
    assert ((t + x) / n <= (t + y) / n)%nat by (apply Nat.Div0.div_le_mono; lia). nia. }
  destruct (Nat.le_ge_cases a b); [by apply H | symmetry; by apply H].
Qed.

Lemma ring_full n r q :
  ring_rep n r q -> ((head r + 1) mod n = tail r)%nat <-> length q = (n - 1)%nat.
Proof.
  intros (Hn & _ & Ht & Hq & -> & _). rewrite mod_add_r by lia.
  replace (tail r + length q + 1)%nat with (tail r + S (length q))%nat by lia. split.
  - intros E. destruct (decide (S (length q) = n)) as [|Hne]; [lia|].
    assert (Ht0 : ((tail r + 0) mod n = tail r)%nat) by (rewrite Nat.add_0_r; by apply Nat.mod_small).
    rewrite <- Ht0 in E at 2. apply offset_inj in E; lia.
  - intros E. replace (tail r + S (length q))%nat with (tail r + 1 * n)%nat by lia.
    rewrite Nat.Div0.mod_add. by apply Nat.mod_small.
Qed.

Lemma ring_empty n r q : ring_rep n r q -> head r = tail r <-> q = [].
Proof.
  intros (Hn & _ & Ht & Hq & -> & _). split; [|intros ->].
  - intros E. assert (Ht0 : ((tail r + 0) mod n = tail r)%nat) by (rewrite Nat.add_0_r; by apply Nat.mod_small).
    rewrite <- Ht0 in E at 2. apply offset_inj in E; [|lia..]. by apply nil_length_inv.
  - rewrite Nat.add_0_r. by apply Nat.mod_small.
Qed.

Lemma push_spec n c r q :
  ring_rep n r q -> ring_rep n (push n c r) (if decide (length q < n - 1)%nat then q ++ [c] else q).
Proof.
  intros Hrep. pose proof (ring_full n r q Hrep) as Hfull. unfold push.
  case_bool_decide as E; [|].
  - apply Hfull in E. rewrite decide_False by lia. done.
  - destruct Hrep as (Hn & Hb & Ht & Hq & Hh & Hk).
    assert (Hlt : (length q < n - 1)%nat).
    { destruct (decide (length q = n - 1)%nat) as [H|]; [by apply Hfull in H | lia]. }
    rewrite decide_True by done. unfold ring_rep. cbn [buf head tail]. rewrite length_app. cbn [length].
    assert (Hhn : (head r < n)%nat) by (rewrite Hh; apply Nat.mod_upper_bound; lia).
    split_and!; [done | by rewrite length_insert | done | lia | |].
    + rewrite Hh, mod_add_r by lia. f_equal. lia.
    + intros k Hlk. destruct (decide (k = length q)) as [->|Hne].
      * rewrite <- Hh, list_lookup_insert_eq by lia. by rewrite lookup_app_r, Nat.sub_diag by lia.
      * rewrite list_lookup_insert_ne; [rewrite lookup_app_l by lia; apply Hk; lia|].
        rewrite Hh. intros E'. apply offset_inj in E'; lia.
Qed.

Lemma pop_spec n r q :
  ring_rep n r q ->
  match q with
  | [] => pop n r = None
  | c :: q' => exists r', pop n r = Some (c, r') /\ ring_rep n r' q'
  end.
Proof.
  intros Hrep. pose proof (ring_empty n r q Hrep) as He. unfold pop.
  destruct q as [|c q]; [by rewrite bool_decide_true by (by apply He)|].
  rewrite bool_decide_false by (intros E; by apply He in E).
  destruct Hrep as (Hn & Hb & Ht & Hq & Hh & Hk).
  assert (Hc : buf r !!! tail r = c).
  { specialize (Hk 0%nat ltac:(simpl; lia)). rewrite Nat.add_0_r, Nat.mod_small in Hk by done.
    by apply list_lookup_total_correct. }
  rewrite Hc. eexists. split; [reflexivity|]. unfold ring_rep. cbn [buf head tail length] in *.
  split_and!; [done | done | apply Nat.mod_upper_bound; lia | lia | |].
  - rewrite mod_add_r by lia. rewrite Hh. f_equal. lia.
  - intros k Hlk. rewrite mod_add_r by lia.
    replace (tail r + 1 + k)%nat with (tail r + S k)%nat by lia. rewrite Hk by lia. done.
Qed.

Lemma ring_new n (b : list A) : (1 < n)%nat -> length b = n -> ring_rep n (mk_ring b 0 0) [].
Proof.
  intros Hn Hb. unfold ring_rep. cbn. split_and!; [done | done | lia | lia | | intros; lia].
  by rewrite Nat.Div0.mod_0_l.
Qed.

End Ring.
Arguments ring : clear implicits.
End Ring.
