(* ===== verification/Keyboard.v ===== *)
(** * The keyboard driver (src/src/keyboard.c)

    The PS/2 interrupt handler decodes scan codes (shift, the 0xE0 prefix)
    into a 256-slot ring; the reader drains the ring and then the serial
    line.  The serial receiver (serial.c) is the list of bytes it has
    received and not delivered. *)

From S2P Require Import Prelude Ring.

Module Keyboard.

Definition KBD_BUFFER_SIZE : nat := 256.

Definition KEY_BACKSPACE : Z := 8.
Definition KEY_ENTER : Z := 10.
Definition KEY_UP : Z := 0x11.
Definition KEY_DOWN : Z := 0x12.
Definition KEY_LEFT : Z := 0x13.
Definition KEY_RIGHT : Z := 0x14.

(** The initialisers of the two tables; the rest of the 128 entries is zero. *)
Definition table (row : chars) : chars := row ++ replicate (128 - length row) 0.

Definition scancode_to_ascii : chars := table (
  [0; 27] ++ $"1234567890-=" ++ [8; 9] ++ $"qwertyuiop[]" ++ [10; 0] ++ $"asdfghjkl;'`" ++
  [0; 92] ++ $"zxcvbnm,./" ++ [0] ++ $"*" ++ [0] ++ $" " ++ [0]).

Definition scancode_to_ascii_shift : chars := table (
  [0; 27] ++ $"!@#$%^&*()_+" ++ [8; 9] ++ $"QWERTYUIOP{}" ++ [10; 0] ++ $"ASDFGHJKL:" ++ [34; 126] ++
  [0] ++ $"|ZXCVBNM<>?" ++ [0] ++ $"*" ++ [0] ++ $" " ++ [0]).

Record kbd : Type := mk_kbd {
  shift_pressed : bool;
  extended : bool;
  ring : Ring.ring Z;
  serial : chars;
}.

Definition set_shift (b : bool) (k : kbd) : kbd := mk_kbd b (extended k) (ring k) (serial k).
Definition set_extended (b : bool) (k : kbd) : kbd := mk_kbd (shift_pressed k) b (ring k) (serial k).
Definition set_serial (s : chars) (k : kbd) : kbd := mk_kbd (shift_pressed k) (extended k) (ring k) s.

Definition kbd_buffer_push (c : Z) (k : kbd) : kbd :=
  mk_kbd (shift_pressed k) (extended k) (Ring.push KBD_BUFFER_SIZE c (ring k)) (serial k).

Definition SC_LSHIFT : Z := 0x2A.
Definition SC_RSHIFT : Z := 0x36.

Definition is_shift (sc : Z) : bool := (sc =? SC_LSHIFT) || (sc =? SC_RSHIFT).

(** [scancode] is the byte read from port 0x60. *)
Definition keyboard_irq_handler (scancode : Z) (k : kbd) : kbd :=
  if scancode =? 0xE0 then set_extended true k
  else
    let is_extended := extended k in
    let k := set_extended false k in
    if negb (Z.land scancode 0x80 =? 0) then
      let released := Z.land scancode 0x7F in
      if negb is_extended && is_shift released then set_shift false k else k
    else if is_extended then
      if scancode =? 0x48 then kbd_buffer_push KEY_UP k
      else if scancode =? 0x50 then kbd_buffer_push KEY_DOWN k
      else if scancode =? 0x4B then kbd_buffer_push KEY_LEFT k
      else if scancode =? 0x4D then kbd_buffer_push KEY_RIGHT k
      else k
    else if is_shift scancode then set_shift true k
    else if 128 <=? scancode then k
    else
      let c := char_at (if shift_pressed k then scancode_to_ascii_shift else scancode_to_ascii)
                 (Z.to_nat scancode) in
      if c =? 0 then k else kbd_buffer_push c k.

(** The serial half of [keyboard_trygetchar]: the result and what is left. *)
Definition serial_key (s : chars) : option Z * chars :=
  match s with
  | [] => (None, [])
  | c :: s1 =>
      if c =? 13 then (Some KEY_ENTER, s1)
      else if c =? 0x7F then (Some KEY_BACKSPACE, s1)
      else if c =? 0x1B then
        match s1 with
        | [] => (None, [])
        | c2 :: s2 =>
            if negb (c2 =? 91) then (None, s2)
            else match s2 with
            | [] => (None, [])
            | c3 :: s3 =>
                (if c3 =? 65 then Some KEY_UP else if c3 =? 66 then Some KEY_DOWN
                 else if c3 =? 67 then Some KEY_RIGHT else if c3 =? 68 then Some KEY_LEFT
                 else None, s3)
            end
        end
      else (Some c, s1)
  end.

(** The result 1 with [*out], or 0. *)
Definition keyboard_trygetchar (k : kbd) : option Z * kbd :=
  match Ring.pop KBD_BUFFER_SIZE (ring k) with
  | Some (c, r) => (Some c, mk_kbd (shift_pressed k) (extended k) r (serial k))
  | None => let '(c, s) := serial_key (serial k) in (c, set_serial s k)
  end.

Definition kbd_boot : kbd := mk_kbd false false (Ring.mk_ring (replicate KBD_BUFFER_SIZE 0) 0 0) [].

Example type_Hi : fst (keyboard_trygetchar (keyboard_irq_handler 0x23 (keyboard_irq_handler 0x2A kbd_boot)))
  = Some 72.
Proof. reflexivity. Qed.

(** ** Decoding

    The keys a sequence of scan codes stands for, from a given modifier
    state: what the handler would deliver with an unbounded buffer. *)

Definition arrow (sc : Z) : list Z :=
  if sc =? 0x48 then [KEY_UP] else if sc =? 0x50 then [KEY_DOWN]
  else if sc =? 0x4B then [KEY_LEFT] else if sc =? 0x4D then [KEY_RIGHT] else [].

Definition plain (shift : bool) (sc : Z) : list Z :=
  let c := char_at (if shift then scancode_to_ascii_shift else scancode_to_ascii) (Z.to_nat sc) in
  if c =? 0 then [] else [c].

Fixpoint decode (shift ext : bool) (codes : list Z) : list Z :=
  match codes with
  | [] => []
  | sc :: r =>
      if sc =? 0xE0 then decode shift true r
      else if 0x80 <=? sc then
        decode (if negb ext && is_shift (sc - 0x80) then false else shift) false r
      else if ext then arrow sc ++ decode shift false r
      else if is_shift sc then decode true false r
      else plain shift sc ++ decode shift false r
  end.

(** Modifier state after the codes. *)
Fixpoint modifiers (shift ext : bool) (codes : list Z) : bool * bool :=
  match codes with
  | [] => (shift, ext)
  | sc :: r =>
      if sc =? 0xE0 then modifiers shift true r
      else if 0x80 <=? sc then
        modifiers (if negb ext && is_shift (sc - 0x80) then false else shift) false r
      else if ext then modifiers shift false r
      else if is_shift sc then modifiers true false r
      else modifiers shift false r
  end.

Lemma decode_app sh ex a b :
  decode sh ex (a ++ b) = decode sh ex a ++ decode (fst (modifiers sh ex a)) (snd (modifiers sh ex a)) b.
Proof.
  revert sh ex. induction a as [|sc a IH]; intros sh ex; cbn [app decode modifiers]; [done|].
  repeat case_match; rewrite ?IH; rewrite ?app_assoc; done.
Qed.

Lemma modifiers_app sh ex a b :
  modifiers sh ex (a ++ b) = modifiers (fst (modifiers sh ex a)) (snd (modifiers sh ex a)) b.
Proof.
  revert sh ex. induction a as [|sc a IH]; intros sh ex; cbn [app modifiers]; [done|].
  repeat case_match; apply IH.
Qed.

(** ** Interrupts and the reader

    The reader takes a key in three steps (test, load, store of the tail
    index) and an interrupt can arrive between any two of them. *)

Inductive reader : Type := AtTest | AtLoad | AtStore (c : Z).

Record conf : Type := mk_conf {
  dev : kbd;
  pc : reader;
  codes : list Z;      (** scan codes handled so far *)
  got : list Z;        (** keys the reader has returned *)
}.

Definition set_ring (r : Ring.ring Z) (k : kbd) : kbd :=
  mk_kbd (shift_pressed k) (extended k) r (serial k).

Inductive kstep : conf -> conf -> Prop :=
| k_irq k pc cs g sc : 0 <= sc < 256 ->
    kstep (mk_conf k pc cs g) (mk_conf (keyboard_irq_handler sc k) pc (cs ++ [sc]) g)
| k_test k cs g : Ring.head (ring k) <> Ring.tail (ring k) ->
    kstep (mk_conf k AtTest cs g) (mk_conf k AtLoad cs g)
| k_load k cs g :
    kstep (mk_conf k AtLoad cs g) (mk_conf k (AtStore (Ring.buf (ring k) !!! Ring.tail (ring k))) cs g)
| k_store k c cs g :
    kstep (mk_conf k (AtStore c) cs g)
      (mk_conf (set_ring (Ring.mk_ring (Ring.buf (ring k)) (Ring.head (ring k))
                            ((Ring.tail (ring k) + 1) mod KBD_BUFFER_SIZE)) k) AtTest cs (g ++ [c])).

Inductive kreach : conf -> Prop :=
| kreach_boot : kreach (mk_conf kbd_boot AtTest [] [])
| kreach_step c c' : kreach c -> kstep c c' -> kreach c'.

(** [q] is in the ring; the keys accepted so far are those returned followed
    by [q]; they are the decoded keys, less the ones that met a full ring. *)
Definition kinv (c : conf) : Prop :=
  exists q lost,
    Ring.ring_rep KBD_BUFFER_SIZE (ring (dev c)) q /\
    (shift_pressed (dev c), extended (dev c)) = modifiers false false (codes c) /\
    sublist (got c ++ q) (decode false false (codes c)) /\
    (length (got c ++ q) + lost = length (decode false false (codes c)))%nat /\
    (length (decode false false (codes c)) < KBD_BUFFER_SIZE -> lost = 0)%nat /\
    match pc c with
    | AtTest => True
    | AtLoad => q <> []
    | AtStore x => exists q', q = x :: q'
    end.

(** The effect of one scan code on modifiers and ring. *)
Lemma handler_decode sc k :
  0 <= sc < 256 ->
  let k' := keyboard_irq_handler sc k in
  (shift_pressed k', extended k') = modifiers (shift_pressed k) (extended k) [sc] /\
  ring k' = foldl (fun r c => Ring.push KBD_BUFFER_SIZE c r) (ring k)
              (decode (shift_pressed k) (extended k) [sc]) /\
  (length (decode (shift_pressed k) (extended k) [sc]) <= 1)%nat.
Proof.
  intros Hsc. unfold keyboard_irq_handler. cbn [modifiers decode].
  destruct (Z.eqb_spec sc 0xE0); [split_and!; done || (cbn; lia)|]. cbv zeta.
  assert (Hbit : negb (Z.land sc 0x80 =? 0) = (0x80 <=? sc)).
  { assert (Hall : forallb (fun x => Bool.eqb (negb (Z.land x 0x80 =? 0)) (0x80 <=? x))
      (seqZ 0 256) = true) by (vm_compute; reflexivity).
    rewrite forallb_forall in Hall. apply eqb_prop, Hall. apply list_elem_of_In, elem_of_seqZ. lia. }
  rewrite Hbit. destruct (Z.leb_spec 0x80 sc) as [Hge|Hlt].
  - assert (Hlow : Z.land sc 0x7F = sc - 0x80).
    { change 0x7F with (Z.ones 7). rewrite Z.land_ones by lia. change (2 ^ 7) with 128. zlia. }
    rewrite Hlow. cbn [extended]. destruct (negb (extended k) && is_shift (sc - 0x80)); split_and!; done || (cbn; lia).
  - destruct (extended k) eqn:Ex.
    + rewrite !app_nil_r. unfold arrow. repeat case_match; split_and!; done || (cbn; lia).
    + destruct (is_shift sc); [split_and!; done || (cbn; lia)|].
      rewrite !app_nil_r. unfold plain. cbn [shift_pressed set_extended]. case_match; split_and!; done || (cbn; lia).
Qed.

Lemma sublist_same_length {A} (l1 l2 : list A) :
  sublist l1 l2 -> length l1 = length l2 -> l1 = l2.
Proof.
  induction 1 as [|x l1 l2 _ IH|x l1 l2 Hs _]; cbn [length]; intros Hl; [done | f_equal; auto |].
  apply sublist_length in Hs. lia.
Qed.

(** Taking an element of the queue out between load and store. *)
Lemma ring_advance (r : Ring.ring Z) c q :
  Ring.ring_rep KBD_BUFFER_SIZE r (c :: q) ->
  Ring.buf r !!! Ring.tail r = c /\
  Ring.ring_rep KBD_BUFFER_SIZE
    (Ring.mk_ring (Ring.buf r) (Ring.head r) ((Ring.tail r + 1) mod KBD_BUFFER_SIZE)) q.
Proof.
  intros Hrep. destruct (Ring.pop_spec _ _ _ Hrep) as (r' & Hp & Hr'). unfold Ring.pop in Hp.
  destruct (bool_decide _); [done|]. injection Hp as <- <-. done.
Qed.

Lemma kstep_inv c c' : kinv c -> kstep c c' -> kinv c'.
Proof.
  intros (q & lost & Hrep & Hmod & Hsub & Hlen & Hlost & Hpc) Hstep.
  destruct Hstep as [k pc cs g sc Hsc|k cs g Hne|k cs g|k x cs g];
    unfold kinv in *; cbn [dev codes got Keyboard.pc] in *.
  - destruct (handler_decode sc k Hsc) as (Hm & Hr & Hd1).
    set (ds := decode (shift_pressed k) (extended k) [sc]) in *.
    assert (Hdec : decode false false (cs ++ [sc]) = decode false false cs ++ ds)
      by (rewrite decode_app, <- Hmod; done).
    assert (Hmods : (shift_pressed (keyboard_irq_handler sc k), extended (keyboard_irq_handler sc k)) =
      modifiers false false (cs ++ [sc])) by (rewrite modifiers_app, <- Hmod; exact Hm).
    rewrite Hdec, Hr. destruct ds as [|d ds]; [|destruct ds; [|cbn in Hd1; lia]].
    + exists q, lost. rewrite !app_nil_r. cbn [foldl]. by split_and!.
    + cbn [foldl]. pose proof (Ring.push_spec KBD_BUFFER_SIZE d (ring k) q Hrep) as Hp.
      case_decide as Hroom.
      * exists (q ++ [d]), lost. rewrite !app_assoc, !length_app in *. cbn [length] in *.
        split_and!; [done | done | by apply sublist_app | lia | intros; apply Hlost; lia |].
        destruct pc as [| |x]; [done | by destruct q | destruct Hpc as [q' ->]; by exists (q' ++ [d])].
      * exists q, (S lost). rewrite !length_app in *. cbn [length] in *.
        split_and!; [done | done | by apply sublist_inserts_r | lia | lia | done].
  - exists q, lost. split_and!; auto. intros ->. apply Hne. by apply (Ring.ring_empty _ _ _ Hrep).
  - destruct q as [|x q]; [done|]. destruct (ring_advance _ _ _ Hrep) as [Hx _].
    exists (x :: q), lost. rewrite Hx. split_and!; eauto.
  - destruct Hpc as [q' ->]. destruct (ring_advance _ _ _ Hrep) as [_ Hr'].
    exists q', lost. cbn [ring set_ring shift_pressed extended].
    replace ((g ++ [x]) ++ q') with (g ++ x :: q') by (by rewrite <- app_assoc). by split_and!.
Qed.

(** C25. The keyboard buffer is a queue also under preemption: however
    interrupts interleave with the steps of the reader, the keys returned so
    far followed by the keys still buffered are, in order, the decoded scan
    codes less those that arrived when 255 keys were pending; in particular,
    while fewer than 256 keys have been typed nothing is lost. *)
Theorem keyboard_fifo c :
  kreach c ->
  exists q, Ring.ring_rep KBD_BUFFER_SIZE (ring (dev c)) q /\
    sublist (got c ++ q) (decode false false (codes c)) /\
    ((length (decode false false (codes c)) < KBD_BUFFER_SIZE)%nat ->
     got c ++ q = decode false false (codes c)).
Proof.
  intros Hr. assert (Hinv : kinv c).
  { induction Hr as [|c c' _ IH Hst]; [|by eapply kstep_inv].
    exists [], 0%nat. split_and!; try done. apply Ring.ring_new; [unfold KBD_BUFFER_SIZE; lia|].
    apply length_replicate. }
  destruct Hinv as (q & lost & Hrep & _ & Hsub & Hlen & Hlost & _). exists q. split_and!; auto.
  intros Hlt. specialize (Hlost Hlt). apply sublist_same_length; [done | lia].
Qed.

(** The key "a" has been typed. *)
Lemma keyboard_fifo_witness :
  exists q, Ring.ring_rep KBD_BUFFER_SIZE (ring (keyboard_irq_handler 0x1E kbd_boot)) q /\ [] ++ q = $"a".
Proof.
  destruct (keyboard_fifo (mk_conf (keyboard_irq_handler 0x1E kbd_boot) AtTest ([] ++ [0x1E]) []))
    as (q & Hq & _ & Heq).
  - eapply kreach_step; [apply kreach_boot | apply k_irq; lia].
  - exists q. split; [exact Hq|]. apply Heq. vm_compute. lia.
Defined.

End Keyboard.
