(* ===== verification/Mouse.v ===== *)
(** * The PS/2 mouse driver (src/src/mouse.c)

    A three-byte packet machine with resynchronisation, the clamped
    pointer position, the accumulated motion and a ring of 32 events. *)

From S2P Require Import Prelude Ring.

Module Mouse.

Definition EVQ : nat := 32.

Record mouse_event : Type := mk_event {
  ev_type : Z; ev_x : Z; ev_y : Z; ev_button : Z; ev_pressed : Z; ev_buttons : Z }.
Definition bss_event : mouse_event := mk_event 0 0 0 0 0 0.
#[export] Instance mouse_event_inhabited : Inhabited mouse_event := populate bss_event.

Record mouse : Type := mk_mouse {
  mx : Z; my : Z;
  mbuttons : Z;
  mdx : Z; mdy : Z;
  bound_w : Z; bound_h : Z;
  evq : Ring.ring mouse_event;
  prev_buttons : Z;
  cycle : Z;
  packet : list Z;
}.

Definition set_evq (q : Ring.ring mouse_event) (m : mouse) : mouse :=
  mk_mouse (mx m) (my m) (mbuttons m) (mdx m) (mdy m) (bound_w m) (bound_h m) q
    (prev_buttons m) (cycle m) (packet m).
Definition set_packet (c : Z) (p : list Z) (m : mouse) : mouse :=
  mk_mouse (mx m) (my m) (mbuttons m) (mdx m) (mdy m) (bound_w m) (bound_h m) (evq m)
    (prev_buttons m) c p.
Definition set_prev (b : Z) (m : mouse) : mouse :=
  mk_mouse (mx m) (my m) (mbuttons m) (mdx m) (mdy m) (bound_w m) (bound_h m) (evq m)
    b (cycle m) (packet m).

Definition ev_push (e : mouse_event) (m : mouse) : mouse := set_evq (Ring.push EVQ e (evq m)) m.

(** [if (v < 0) v = 0; if (v >= bound) v = bound - 1;] *)
Definition clamp (bound v : Z) : Z :=
  let v := if v <? 0 then 0 else v in
  if bound <=? v then bound - 1 else v.

(** The loop over the three buttons. *)
Definition button_events (x y buttons changed : Z) (m : mouse) : mouse :=
  foldl (fun m b =>
    if Z.testbit changed b
    then ev_push (mk_event 1 x y b (if Z.testbit buttons b then 1 else 0) buttons) m
    else m) m [0; 1; 2].

(** A complete packet has been received. *)
Definition on_packet (m : mouse) : mouse :=
  let dx := s8 (packet m !!! 1%nat) in
  let dy := - s8 (packet m !!! 2%nat) in
  let buttons := Z.land (packet m !!! 0%nat) 7 in
  let x := clamp (bound_w m) (s32 (mx m + dx)) in
  let y := clamp (bound_h m) (s32 (my m + dy)) in
  let m := mk_mouse x y buttons (s32 (mdx m + dx)) (s32 (mdy m + dy)) (bound_w m) (bound_h m)
             (evq m) (prev_buttons m) (cycle m) (packet m) in
  let m := if negb (dx =? 0) || negb (dy =? 0) then ev_push (mk_event 0 x y 0 0 buttons) m else m in
  let changed := Z.lxor buttons (prev_buttons m) in
  if negb (changed =? 0) then set_prev buttons (button_events x y buttons changed m) else m.

(** [data] is the byte read from port 0x60. *)
Definition mouse_irq_handler (data : Z) (m : mouse) : mouse :=
  if (cycle m =? 0) && (Z.land data 8 =? 0) then m
  else
    let m := set_packet (cycle m + 1) (<[Z.to_nat (cycle m) := data]> (packet m)) m in
    if cycle m <? 3 then m
    else on_packet (set_packet 0 (packet m) m).

(** [mouse_init]'s variables; the port traffic is in [Devices]. *)
Definition mouse_init (m : mouse) : mouse :=
  mk_mouse 160 100 0 0 0 (bound_w m) (bound_h m) (Ring.mk_ring (Ring.buf (evq m)) 0 0) 0
    (cycle m) (packet m).

Definition mouse_get (m : mouse) : (Z * Z * Z * Z * Z) * mouse :=
  ((mx m, my m, mdx m, mdy m, mbuttons m),
   mk_mouse (mx m) (my m) (mbuttons m) 0 0 (bound_w m) (bound_h m) (evq m) (prev_buttons m)
     (cycle m) (packet m)).

Definition mouse_poll_event (m : mouse) : option mouse_event * mouse :=
  match Ring.pop EVQ (evq m) with
  | Some (e, q) => (Some e, set_evq q m)
  | None => (None, m)
  end.

Definition mouse_set_bounds (w h : Z) (m : mouse) : mouse :=
  mk_mouse (if w <=? mx m then w - 1 else mx m) (if h <=? my m then h - 1 else my m)
    (mbuttons m) (mdx m) (mdy m) w h (evq m) (prev_buttons m) (cycle m) (packet m).

Definition bss_mouse : mouse :=
  mk_mouse 0 0 0 0 0 320 200 (Ring.mk_ring (replicate EVQ bss_event) 0 0) 0 0 [0; 0; 0].

(** ** Invariant *)

(** The driver state with the queue [q] of undelivered events. *)
Definition mouse_wf (m : mouse) (q : list mouse_event) : Prop :=
  1 <= bound_w m <= 65536 /\ 1 <= bound_h m <= 65536 /\
  0 <= mx m < bound_w m /\ 0 <= my m < bound_h m /\
  0 <= cycle m < 3 /\ length (packet m) = 3%nat /\ 0 <= mbuttons m < 8 /\
  prev_buttons m = mbuttons m /\ Ring.ring_rep EVQ (evq m) q.

Inductive mouse_op : Type :=
| Irq (data : Z) | Get | Poll | SetBounds (w h : Z).

Definition op_ok (o : mouse_op) : Prop :=
  match o with SetBounds w h => 1 <= w <= 65536 /\ 1 <= h <= 65536 | _ => True end.

Definition exec (m : mouse) (o : mouse_op) : mouse :=
  match o with
  | Irq data => mouse_irq_handler (u8 data) m
  | Get => snd (mouse_get m)
  | Poll => snd (mouse_poll_event m)
  | SetBounds w h => mouse_set_bounds w h m
  end.

Lemma clamp_range b v : 1 <= b -> 0 <= clamp b v < b.
Proof. intros. unfold clamp. repeat case_match; lia. Qed.

Lemma land7_range d : 0 <= Z.land d 7 < 8.
Proof. change 7 with (Z.ones 3). rewrite Z.land_ones by lia. change (2 ^ 3) with 8. zlia. Qed.

Lemma s8_range z : -128 <= s8 z <= 127.
Proof. unfold s8. zlia. Qed.

(** Queueing a list of events, dropping those that find the ring full. *)
Definition enqueue (q es : list mouse_event) : list mouse_event :=
  foldl (fun q e => if decide (length q < EVQ - 1)%nat then q ++ [e] else q) q es.

Lemma ev_push_rep e m q :
  Ring.ring_rep EVQ (evq m) q -> Ring.ring_rep EVQ (evq (ev_push e m)) (enqueue q [e]).
Proof. apply Ring.push_spec. Qed.

Definition changed_events (x y buttons changed : Z) : list mouse_event :=
  concat (map (fun b => if Z.testbit changed b
                        then [mk_event 1 x y b (if Z.testbit buttons b then 1 else 0) buttons] else [])
            [0; 1; 2]).

(** The events of one packet: a move first, then the changed buttons. *)
Definition packet_events (m : mouse) (dx dy buttons : Z) : list mouse_event :=
  let x := clamp (bound_w m) (mx m + dx) in
  let y := clamp (bound_h m) (my m + dy) in
  (if negb (dx =? 0) || negb (dy =? 0) then [mk_event 0 x y 0 0 buttons] else []) ++
  changed_events x y buttons (Z.lxor buttons (prev_buttons m)).

Lemma button_events_rep x y bt ch m q :
  Ring.ring_rep EVQ (evq m) q ->
  exists r, button_events x y bt ch m = set_evq r m /\
    Ring.ring_rep EVQ r (enqueue q (changed_events x y bt ch)).
Proof.
  intros Hr. unfold button_events, changed_events.
  assert (Hgen : forall bs m q, Ring.ring_rep EVQ (evq m) q ->
    exists r, foldl (fun m b => if Z.testbit ch b then ev_push (mk_event 1 x y b
        (if Z.testbit bt b then 1 else 0) bt) m else m) m bs = set_evq r m /\
      Ring.ring_rep EVQ r (enqueue q (concat (map (fun b => if Z.testbit ch b
        then [mk_event 1 x y b (if Z.testbit bt b then 1 else 0) bt] else []) bs)))).
  { clear. induction bs as [|b bs IH]; intros m q Hr; cbn [foldl map concat].
    - exists (evq m). split; [by destruct m | done].
    - destruct (Z.testbit ch b).
      + destruct (IH _ _ (ev_push_rep (mk_event 1 x y b (if Z.testbit bt b then 1 else 0) bt) m q Hr))
          as (r & -> & Hr'). exists r. split; [done|]. exact Hr'.
      + by apply IH. }
  by apply Hgen.
Qed.

(** The state after a packet with motion [dx], [dy] and button bits. *)
Lemma on_packet_spec m q b0 b1 b2 :
  mouse_wf m q -> packet m = [b0; b1; b2] -> cycle m = 0 ->
  let dx := s8 b1 in let dy := - s8 b2 in let bt := Z.land b0 7 in
  let m' := on_packet m in
  mouse_wf m' (enqueue q (packet_events m dx dy bt)) /\
  mx m' = clamp (bound_w m) (mx m + dx) /\ my m' = clamp (bound_h m) (my m + dy) /\
  mdx m' = s32 (mdx m + dx) /\ mdy m' = s32 (mdy m + dy) /\ mbuttons m' = bt /\
  cycle m' = 0 /\ bound_w m' = bound_w m /\ bound_h m' = bound_h m.
Proof.
  intros (Hw & Hh & Hx & Hy & Hc & Hp & Hb & Hpv & Hr) Hpk Hc0 dx dy bt m'.
  pose proof (s8_range b1). pose proof (s8_range b2).
  assert (Esx : s32 (mx m + dx) = mx m + dx) by (apply s32_small; unfold in_s32, dx; lia).
  assert (Esy : s32 (my m + dy) = my m + dy) by (apply s32_small; unfold in_s32, dy; lia).
  unfold m', on_packet. rewrite Hpk. change ([b0; b1; b2] !!! 1%nat) with b1.
  change ([b0; b1; b2] !!! 2%nat) with b2. change ([b0; b1; b2] !!! 0%nat) with b0.
  fold dx bt. change (- s8 b2) with dy. rewrite Esx, Esy.
  set (x := clamp (bound_w m) (mx m + dx)). set (y := clamp (bound_h m) (my m + dy)).
  set (m1 := mk_mouse x y bt _ _ _ _ _ _ _ _).
  unfold packet_events. fold x y.
  set (mv := negb (dx =? 0) || negb (dy =? 0)).
  set (m2 := if mv then _ else m1).
  assert (H2 : m2 = set_evq (evq m2) m1 /\
    Ring.ring_rep EVQ (evq m2) (enqueue q (if mv then [mk_event 0 x y 0 0 bt] else []))).
  { unfold m2. destruct mv; split; [reflexivity | by apply (ev_push_rep _ m1) | reflexivity | done]. }
  destruct H2 as [E2 R2]. unfold enqueue. rewrite foldl_app. fold (enqueue q (if mv then [mk_event 0 x y 0 0 bt] else [])).
  set (q2 := enqueue q _) in *.
  assert (Epv : prev_buttons m2 = prev_buttons m) by (rewrite E2; done). rewrite Epv.
  set (ch := Z.lxor bt (prev_buttons m)).
  pose proof (land7_range b0) as Hbt. fold bt in Hbt.
  pose proof (clamp_range (bound_w m) (mx m + dx) ltac:(lia)) as Hcx.
  pose proof (clamp_range (bound_h m) (my m + dy) ltac:(lia)) as Hcy. fold x in Hcx. fold y in Hcy.
  destruct (Z.eqb_spec ch 0) as [E0|E0]; cbn [negb].
  - assert (Hsame : bt = prev_buttons m) by (by apply Z.lxor_eq).
    assert (Hnil : changed_events x y bt ch = []) by (rewrite E0; done).
    rewrite Hnil. cbn [foldl]. rewrite E2. unfold mouse_wf, set_evq, m1. cbn.
    split_and!; try done; try lia; congruence.
  - destruct (button_events_rep x y bt ch m2 q2 R2) as (r & -> & Rr).
    rewrite E2. unfold mouse_wf, set_evq, set_prev, m1. cbn. split_and!; try done; lia.
Qed.

Lemma irq_wf data m q : mouse_wf m q -> exists q', mouse_wf (mouse_irq_handler data m) q'.
Proof.
  intros Hwf. pose proof Hwf as (Hw & Hh & Hx & Hy & Hc & Hp & Hb & Hpv & Hr). unfold mouse_irq_handler.
  destruct (_ && _); [eauto|]. cbn [cycle packet set_packet].
  set (pk := <[Z.to_nat (cycle m) := data]> (packet m)).
  assert (Hpl : length pk = 3%nat) by (unfold pk; by rewrite length_insert).
  destruct (Z.ltb_spec (cycle m + 1) 3).
  - exists q. unfold mouse_wf. cbn. split_and!; auto; lia.
  - destruct pk as [|b0 [|b1 [|b2 [|]]]] eqn:Epk; try done.
    assert (Hwf' : mouse_wf (set_packet 0 pk m) q) by (unfold mouse_wf; rewrite Epk; cbn; split_and!; auto; lia).
    rewrite Epk in Hwf'.
    destruct (on_packet_spec (set_packet 0 [b0; b1; b2] m) q b0 b1 b2 Hwf') as [H' _]; [done | done |].
    eexists. exact H'.
Qed.

Lemma exec_wf o m q : mouse_wf m q -> op_ok o -> exists q', mouse_wf (exec m o) q'.
Proof.
  intros Hwf Ho. destruct o as [d| | |w h]; cbn [exec].
  - by apply (irq_wf _ m q).
  - exists q. exact Hwf.
  - destruct Hwf as (Hw & Hh & Hx & Hy & Hc & Hp & Hb & Hpv & Hr). unfold mouse_poll_event.
    pose proof (Ring.pop_spec _ _ _ Hr) as Hpop. destruct q as [|e q].
    + rewrite Hpop. exists []. unfold mouse_wf. cbn. split_and!; done || lia.
    + destruct Hpop as (r & -> & Hr'). exists q. unfold mouse_wf. cbn. split_and!; done || lia.
  - destruct Hwf as (Hw & Hh & Hx & Hy & Hc & Hp & Hb & Hpv & Hr). exists q.
    unfold mouse_wf, mouse_set_bounds. cbn in *. split_and!; auto; repeat case_match; lia.
Qed.

Lemma exec_all_wf ops m q : mouse_wf m q -> Forall op_ok ops -> exists q', mouse_wf (foldl exec m ops) q'.
Proof.
  intros Hwf Hok. revert m q Hwf. induction Hok as [|o ops Ho _ IH]; intros m q Hwf; [eauto|].
  cbn [foldl]. destruct (exec_wf o m q Hwf Ho) as [q' Hwf']. eauto.
Qed.

Lemma init_wf : mouse_wf (mouse_init bss_mouse) [].
Proof.
  unfold mouse_wf. cbn. split_and!; try lia; try done.
  apply Ring.ring_new; [unfold EVQ; lia | reflexivity].
Qed.

(** The pointer never leaves the screen: after [mouse_init], any bytes
    from the device (however out of step), reads and bound changes keep the
    position inside the bounds, the packet index inside the 3-byte buffer and
    the event ring consistent; and a packet that arrives in step moves the
    pointer by its signed deltas (Y inverted), clamps it, and queues a move
    event followed by one event per changed button. *)
Theorem mouse_on_screen ops b0 b1 b2 :
  Forall op_ok ops ->
  let m := foldl exec (mouse_init bss_mouse) ops in
  (0 <= mx m < bound_w m /\ 0 <= my m < bound_h m /\ 0 <= cycle m < 3) /\
  exists q, mouse_wf m q /\
    (cycle m = 0 -> Z.testbit b0 3 = true ->
     let m' := foldl (fun m d => mouse_irq_handler d m) m [b0; b1; b2] in
     mx m' = clamp (bound_w m) (mx m + s8 b1) /\ my m' = clamp (bound_h m) (my m - s8 b2) /\
     mbuttons m' = Z.land b0 7 /\
     mouse_wf m' (enqueue q (packet_events m (s8 b1) (- s8 b2) (Z.land b0 7)))).
Proof.
  intros Hok m. destruct (exec_all_wf ops _ _ init_wf Hok) as [q Hwf]. fold m in Hwf.
  pose proof Hwf as (Hw & Hh & Hx & Hy & Hc & Hp & Hb & Hpv & Hr).
  split; [done|]. exists q. split; [done|]. intros Hc0 Hbit. cbn [foldl].
  assert (H8 : (Z.land b0 8 =? 0) = false).
  { apply Z.eqb_neq. intros E. assert (Ht : Z.testbit (Z.land b0 8) 3 = true)
      by (rewrite Z.land_spec, Hbit; done). rewrite E in Ht. done. }
  destruct (packet m) as [|p0 [|p1 [|p2 [|]]]] eqn:Epk; try done.
  assert (E1 : mouse_irq_handler b0 m = set_packet 1 [b0; p1; p2] m)
    by (unfold mouse_irq_handler; rewrite Hc0, H8, Epk; done).
  assert (E3 : mouse_irq_handler b2 (mouse_irq_handler b1 (mouse_irq_handler b0 m)) =
    on_packet (set_packet 0 [b0; b1; b2] m)) by (rewrite E1; done).
  rewrite E3.
  assert (Hwf' : mouse_wf (set_packet 0 [b0; b1; b2] m) q)
    by (unfold mouse_wf; cbn; split_and!; done || lia).
  destruct (on_packet_spec _ q b0 b1 b2 Hwf' eq_refl eq_refl) as (H1 & H2 & H3 & _ & _ & H4 & _).
  split_and!; [exact H2 | exact H3 | exact H4 | exact H1].
Qed.

Lemma mouse_on_screen_witness :
  let m := foldl exec (mouse_init bss_mouse) [Irq 0; Irq 9; Irq 200; Irq 5; SetBounds 80 60; Poll] in
  0 <= mx m < bound_w m /\ 0 <= my m < bound_h m /\ 0 <= cycle m < 3.
Proof.
  apply (mouse_on_screen [Irq 0; Irq 9; Irq 200; Irq 5; SetBounds 80 60; Poll] 8 0 0).
  repeat constructor; lia.
Defined.

End Mouse.
