(* ===== verification/Vfs.v ===== *)
(** * The mount table (src/src/vfs.c)

    Four mount slots; the first one is the RAM file system at "/".  Path
    resolution picks the longest mount point that is a path prefix.  The
    FAT32 driver is reached through the operations of [FatDriver]. *)

From S2P Require Import Prelude Atomic Fs FsInv FsProps.
Import Fs FsInv FsProps.

(** What the mount table uses of the FAT32 driver (fat32.c), and what it
    relies on: in a state the driver accepts, mounting returns. *)
Class FatDriver (F : Type) : Type := {
  fat_ready : F -> Prop;
  fat32_is_mounted : F -> bool;
  fat32_mount : F -> out (Z * F);            (** result code, 0 for success *)
  fat32_ls : chars -> F -> out (chars * F);  (** printed text *)
  fat32_cat : chars -> F -> out (chars * F);
  fat32_mount_ret : forall f, fat_ready f ->
    exists r f', fat32_mount f = Ret (r, f') /\ fat_ready f';
}.

Module Vfs.

Definition VFS_MAX_MOUNTS : nat := 4.
Definition VFS_MP_NAME_MAX : nat := 16.

Inductive vfs_fs_type : Type := VFS_FS_NONE | VFS_FS_RAM | VFS_FS_FAT32.
#[export] Instance vfs_fs_type_eq_dec : EqDecision vfs_fs_type.
Proof. solve_decision. Defined.

Record mount : Type := mk_mount { used : bool; path : chars; mtype : vfs_fs_type }.
Definition bss_mount : mount := mk_mount false (replicate VFS_MP_NAME_MAX 0) VFS_FS_NONE.
#[export] Instance mount_inhabited : Inhabited mount := populate bss_mount.

(** Advance both pointers while the characters agree and are not NUL, then compare. *)
Fixpoint str_eq (a b : chars) : bool :=
  match a, b with
  | [], [] => true
  | [], y :: _ => y =? 0
  | x :: _, [] => x =? 0
  | x :: a', y :: b' =>
      if negb (x =? 0) && negb (y =? 0) && (x =? y) then str_eq a' b' else x =? y
  end.

Definition str_copy (d s : chars) (max : nat) : chars := c_strcpy_truncate d s max.

Section Vfs.
Context {F : Type} `{!FatDriver F}.

Record vfs : Type := mk_vfs { mounts : list mount; vfs_lock : Z; ram : fs_state; fat : F }.

Definition set_mounts (ms : list mount) (s : vfs) : vfs := mk_vfs ms (vfs_lock s) (ram s) (fat s).
Definition set_lock (l : Z) (s : vfs) : vfs := mk_vfs (mounts s) l (ram s) (fat s).
Definition set_ram (r : fs_state) (s : vfs) : vfs := mk_vfs (mounts s) (vfs_lock s) r (fat s).
Definition set_fat (f : F) (s : vfs) : vfs := mk_vfs (mounts s) (vfs_lock s) (ram s) f.

Definition vfs_init (s : vfs) : vfs :=
  let ms := map (fun m => mk_mount false (path m) (mtype m)) (mounts s) in
  let ms := alter (fun m => mk_mount true (str_copy (path m) $"/" VFS_MP_NAME_MAX) VFS_FS_RAM) 0%nat ms in
  set_lock Atomic.spin_init (set_mounts ms s).

Definition find_mount (p : chars) (s : vfs) : option nat :=
  for_find (fun i => let m := mounts s !!! i in used m && str_eq (path m) p) 0 VFS_MAX_MOUNTS.

Definition lock (s : vfs) : out vfs := l ← Atomic.spin_lock (vfs_lock s); Ret (set_lock l s).
Definition unlock (s : vfs) : vfs := set_lock (Atomic.spin_unlock (vfs_lock s)) s.

(** Take the FAT32 volume if it is not mounted yet; [true] on success. *)
Definition attach_fat (s : vfs) : out (bool * vfs) :=
  if fat32_is_mounted (fat s) then Ret (true, s)
  else
    '(r, f) ← fat32_mount (fat s);
    Ret (r =? 0, set_fat f s).

Definition vfs_mount (p : option chars) (type : vfs_fs_type) (s : vfs) : out (fs_result * vfs) :=
  let p := default [] p in
  if negb (char_at p 0 =? 47) then Ret (FS_ERR_INVALID_NAME, s)
  else if bool_decide (type = VFS_FS_NONE) then Ret (FS_ERR_INVALID_NAME, s)
  else if str_eq p $"/" then Ret (FS_ERR_ALREADY_EXISTS, s)
  else
    s ← lock s;
    if bool_decide (is_Some (find_mount p s)) then Ret (FS_ERR_ALREADY_EXISTS, unlock s)
    else
      '(ok, s) ← (if bool_decide (type = VFS_FS_FAT32) then attach_fat s else Ret (true, s));
      if negb (ok : bool) then Ret (FS_ERR_NOT_FOUND, unlock s)
      else match for_find (fun i => negb (used (mounts s !!! i))) 0 VFS_MAX_MOUNTS with
      | None => Ret (FS_ERR_NO_SPACE, unlock s)
      | Some slot =>
          let s := set_mounts (alter (fun m =>
                     mk_mount true (str_copy (path m) p VFS_MP_NAME_MAX) type) slot (mounts s)) s in
          let s := unlock s in
          if bool_decide (type = VFS_FS_FAT32) then
            '(_, r) ← fs_mkdir_p (Some p) (ram s);
            Ret (FS_OK, set_ram r s)
          else Ret (FS_OK, s)
      end.

Definition vfs_umount (p : option chars) (s : vfs) : out (fs_result * vfs) :=
  match p with
  | None => Ret (FS_ERR_INVALID_NAME, s)
  | Some p =>
      if str_eq p $"/" then Ret (FS_ERR_INVALID_NAME, s)
      else
        s ← lock s;
        match find_mount p s with
        | None => Ret (FS_ERR_NOT_FOUND, unlock s)
        | Some idx =>
            Ret (FS_OK, unlock (set_mounts (alter (fun m =>
              mk_mount false (<[0%nat := 0]> (path m)) VFS_FS_NONE) idx (mounts s)) s))
        end
  end.

(** [path[0..len) == mp[0..len)] *)
Definition has_prefix (p mp : chars) : bool :=
  forallb (fun k => char_at p k =? char_at mp k) (seq 0 (c_strlen mp)).

(** The conditions of the loop of [vfs_resolve] for one mount point. *)
Definition mount_matches (p : chars) (m : mount) : bool :=
  let len := c_strlen (path m) in
  used m && has_prefix p (path m) &&
  negb (negb (char_at p len =? 0) && negb (char_at p len =? 47) &&
        negb ((len =? 1)%nat && (char_at (path m) 0 =? 47))).

(** The loop: the best slot so far; [None] is [best = -1]. *)
Definition resolve_loop (p : chars) (s : vfs) : option nat :=
  foldl (fun best i =>
    let m := mounts s !!! i in
    if mount_matches p m then
      match best with
      | None => Some i
      | Some b => if (c_strlen (path (mounts s !!! b)) <? c_strlen (path m))%nat then Some i else best
      end
    else best) None (seq 0 VFS_MAX_MOUNTS).

(** The type and the string left in [rest_out]. *)
Definition vfs_resolve (p : option chars) (rest_max : nat) (s : vfs)
  : out ((vfs_fs_type * chars) * vfs) :=
  let p := default [] p in
  if char_at p 0 =? 0 then Ret ((VFS_FS_RAM, []), s)
  else
    s ← lock s;
    let cut r := take (rest_max - 1) (cstr r) in
    let answer :=
      match resolve_loop p s with
      | Some b =>
          let m := mounts s !!! b in
          let rest := drop (c_strlen (path m)) p in
          (mtype m, cut (if char_at rest 0 =? 47 then tail rest else rest))
      | None => (VFS_FS_RAM, cut p)
      end in
    Ret (answer, unlock s).

Definition vfs_is_mounted (type : vfs_fs_type) (s : vfs) : out (bool * vfs) :=
  s ← lock s;
  let r := for_find (fun i => let m := mounts s !!! i in used m && bool_decide (mtype m = type))
             0 VFS_MAX_MOUNTS in
  Ret (bool_decide (is_Some r), unlock s).

(** The characters [vfs_list] prints. *)
Definition mount_line (m : mount) : chars :=
  if used m then
    $"  " ++ cstr (path m) ++ $"  ->  " ++
    match mtype m with VFS_FS_RAM => $"ramfs" | VFS_FS_FAT32 => $"fat32" | VFS_FS_NONE => $"?" end ++ [10]
  else [].

Definition vfs_list (s : vfs) : out (chars * vfs) :=
  s ← lock s;
  Ret ($"Mount table:" ++ [10] ++ concat (map mount_line (take VFS_MAX_MOUNTS (mounts s))), unlock s).

(** Printed text and the state afterwards. *)
Definition vfs_ls_path (p : option chars) (s : vfs) : out (chars * vfs) :=
  '((ty, rest), s) ← vfs_resolve (Some (default $"/" p)) 64 s;
  match ty with
  | VFS_FS_FAT32 =>
      if negb (fat32_is_mounted (fat s)) then Ret ($"FAT32 not mounted" ++ [10], s)
      else
        '(o, f) ← fat32_ls (if char_at rest 0 =? 0 then $"/" else rest) (fat s);
        Ret (o, set_fat f s)
  | _ =>
      Ret ((if char_at rest 0 =? 0 then [] else $"(ramfs) use: cd + ls  or absolute under /" ++ [10]) ++
           fs_ls (data (ram s)), s)
  end.

Definition vfs_cat_path (p : option chars) (s : vfs) : out (chars * vfs) :=
  '((ty, rest), s) ← vfs_resolve (Some (default [] p)) 64 s;
  match ty with
  | VFS_FS_FAT32 =>
      '(o, f) ← fat32_cat rest (fat s);
      Ret (o, set_fat f s)
  | _ =>
      r1 ← fs_read_path p (data (ram s));
      let found := match r1 with
                   | (FS_OK, Some (i, _)) => Some i
                   | _ => match fs_read rest (data (ram s)) with
                          | (FS_OK, Some (i, _)) => Some i
                          | _ => None
                          end
                   end in
      match found with
      | Some i => Ret (cstr (content (nodes (data (ram s)) !!! i)) ++ [10], s)
      | None => Ret ($"not found" ++ [10], s)
      end
  end.

End Vfs.
Arguments vfs : clear implicits.
End Vfs.
