(* ===== verification/VfsSpec.v ===== *)
(** * The mount table: resolution and lifecycle

    [vfs_resolve] finds the longest mount point that is a path prefix;
    mounting and unmounting are inverse for paths that fit the 15
    characters of a slot, and go wrong for longer ones. *)

From S2P Require Import Prelude Atomic Fs FsInv FsProps Vfs.
Import Fs FsInv FsProps Vfs.

Module VfsSpec.

(** ** Strings *)

Lemma str_eq_c a b : str_eq a b = c_streq a b.
Proof.
  revert b. induction a as [|x a IH]; intros [|y b]; cbn [str_eq c_streq]; try done.
  destruct (Z.eqb_spec x 0), (Z.eqb_spec y 0), (Z.eqb_spec x y); cbn; auto; congruence.
Qed.

Lemma str_eq_spec a b : str_eq a b = true <-> cstr a = cstr b.
Proof. rewrite str_eq_c. apply c_streq_spec. Qed.

Lemma forallb_shift (f : nat -> bool) i n : forallb f (seq (S i) n) = forallb (fun k => f (S k)) (seq i n).
Proof. revert i. induction n as [|n IH]; intros i; cbn [seq forallb]; [done|]. by rewrite IH. Qed.

Lemma has_prefix_cons p x mp :
  x <> 0 -> has_prefix p (x :: mp) = (char_at p 0 =? x) && has_prefix (tail p) mp.
Proof.
  intros Hx. unfold has_prefix. cbn [c_strlen]. rewrite (proj2 (Z.eqb_neq x 0)) by done.
  cbn [seq forallb]. f_equal. rewrite forallb_shift. by destruct p.
Qed.

Lemma has_prefix_spec p mp : has_prefix p mp = true <-> exists r, cstr p = cstr mp ++ r.
Proof.
  revert p. induction mp as [|x mp IH]; intros p.
  - split; [|done]. intros _. by exists (cstr p).
  - destruct (Z.eqb_spec x 0) as [->|Hx].
    + split; [|done]. intros _. by exists (cstr p).
    + rewrite has_prefix_cons by done. cbn [cstr]. rewrite (proj2 (Z.eqb_neq x 0)) by done.
      rewrite andb_true_iff, Z.eqb_eq. destruct p as [|y p].
      * split; [intros [E _]; done|]. intros (r & E). done.
      * change (char_at (y :: p) 0) with y. cbn [tail cstr]. rewrite IH. split.
        -- intros [-> (r & H1)]. rewrite (proj2 (Z.eqb_neq x 0)) by done. exists r. cbn. by rewrite H1.
        -- intros (r & H1). destruct (Z.eqb_spec y 0); [done|]. injection H1 as -> H1. eauto.
Qed.

(** Skipping a prefix that the string starts with. *)
Lemma drop_prefix p mp r : cstr p = cstr mp ++ r -> cstr (drop (c_strlen mp) p) = r.
Proof.
  revert p. induction mp as [|x mp IH]; intros p H; [done|]. cbn [cstr c_strlen] in *.
  destruct (Z.eqb_spec x 0); [done|]. destruct p as [|y p]; [done|]. cbn [cstr drop] in *.
  destruct (Z.eqb_spec y 0); [done|]. injection H as -> H. by apply IH.
Qed.

Lemma cstr_head s : cstr s = [] <-> char_at s 0 = 0.
Proof.
  destruct s as [|c s]; [done|]. change (char_at (c :: s) 0) with c. cbn [cstr].
  destruct (Z.eqb_spec c 0); split; congruence.
Qed.

Lemma cstr_cons_char s c r : cstr s = c :: r -> char_at s 0 = c /\ cstr (tail s) = r.
Proof.
  destruct s as [|x s]; [done|]. cbn. destruct (Z.eqb_spec x 0); [done|]. by intros [= -> ->].
Qed.

(** Path [p] lies at or below the mount point [mp]; [r] is what follows it. *)
Definition covers (mp p r : chars) : Prop :=
  p = mp ++ r /\ (r = [] \/ (exists r', r = 47 :: r') \/ mp = $"/").

Lemma mount_matches_spec p m :
  mount_matches p m = true <->
  used m = true /\ exists r, covers (cstr (path m)) (cstr p) r.
Proof.
  unfold mount_matches. rewrite !andb_true_iff, has_prefix_spec.
  assert (Hd : char_at p (c_strlen (path m)) = char_at (drop (c_strlen (path m)) p) 0).
  { unfold char_at. rewrite lookup_drop, Nat.add_0_r. done. }
  rewrite Hd. set (d := drop (c_strlen (path m)) p).
  assert (Hroot : ((c_strlen (path m) =? 1)%nat && (char_at (path m) 0 =? 47)) = true <-> cstr (path m) = $"/").
  { rewrite andb_true_iff, Nat.eqb_eq, Z.eqb_eq, c_strlen_cstr. split.
    - intros [H1 H2]. destruct (cstr (path m)) as [|c [|]] eqn:E; try done.
      apply cstr_cons_char in E as [<- _]. by rewrite H2.
    - intros E. rewrite E. apply cstr_cons_char in E as [-> _]. done. }
  assert (Hb : negb (negb (char_at d 0 =? 0) && negb (char_at d 0 =? 47) &&
      negb ((c_strlen (path m) =? 1)%nat && (char_at (path m) 0 =? 47))) = true <->
    cstr d = [] \/ (exists r', cstr d = 47 :: r') \/ cstr (path m) = $"/").
  { rewrite negb_true_iff, !andb_false_iff, !negb_false_iff, !Z.eqb_eq, Hroot, cstr_head.
    split; [intros [[?|H]|?]; auto | intros [?|[(r' & H)|?]]; auto].
    - destruct d as [|c d']; [done|]. change (char_at (c :: d') 0) with c in H. subst c. eauto.
    - apply cstr_cons_char in H as [-> _]. auto. }
  rewrite Hb. unfold covers. split.
  - intros [[Hu (r & H1)] H2]. pose proof (drop_prefix _ _ _ H1) as E. fold d in E. rewrite E in H2. eauto.
  - intros (Hu & r & H1 & H2). pose proof (drop_prefix _ _ _ H1) as E. fold d in E. rewrite E. eauto.
Qed.

Section Spec.
Context {F : Type} `{!FatDriver F}.
Abbreviation mnt s i := (mounts s !!! i).

Definition unlocked_vfs (s : vfs F) : Prop := vfs_lock s = 0.

Lemma vfs_lock_free (s : vfs F) : unlocked_vfs s -> lock s = Ret (set_lock 1 s).
Proof. unfold unlocked_vfs, lock. intros ->. done. Qed.

Lemma unlock_lock (s : vfs F) : unlocked_vfs s -> unlock (set_lock 1 s) = s.
Proof. unfold unlocked_vfs. intros H. destruct s. cbn in H. by subst. Qed.

(** ** The longest prefix *)

(** [b] is the answer of the loop over the first [n] slots. *)
Definition best_of (p : chars) (s : vfs F) (n : nat) (b : option nat) : Prop :=
  match b with
  | None => forall i, (i < n)%nat -> mount_matches p (mnt s i) = false
  | Some b => (b < n)%nat /\ mount_matches p (mnt s b) = true /\
      forall i, (i < n)%nat -> mount_matches p (mnt s i) = true ->
        (c_strlen (path (mnt s i)) <= c_strlen (path (mnt s b)))%nat
  end.

Lemma resolve_loop_spec p s : best_of p s VFS_MAX_MOUNTS (resolve_loop p s).
Proof.
  unfold resolve_loop.
  enough (Hgen : forall n, best_of p s n (foldl (fun best i =>
    if mount_matches p (mnt s i) then
      match best with
      | None => Some i
      | Some b => if (c_strlen (path (mnt s b)) <? c_strlen (path (mnt s i)))%nat then Some i else best
      end
    else best) None (seq 0 n))) by apply Hgen.
  induction n as [|n IH]; [intros i Hi; lia|]. rewrite seq_S, foldl_app. cbn [foldl Nat.add].
  assert (Hlt : forall i, (i < S n)%nat -> (i < n)%nat \/ i = n) by lia.
  destruct (mount_matches p (mnt s n)) eqn:E.
  - destruct (foldl _ None (seq 0 n)) as [b|].
    + destruct IH as (Hb & Hm & Hmax). destruct (Nat.ltb_spec (c_strlen (path (mnt s b))) (c_strlen (path (mnt s n)))).
      * split_and!; [lia | done |]. intros i Hi Hi'. destruct (Hlt i Hi) as [?| ->]; [|done].
        specialize (Hmax i ltac:(lia) Hi'). lia.
      * split_and!; [lia | done |]. intros i Hi Hi'. destruct (Hlt i Hi) as [?| ->]; [by apply Hmax | lia].
    + split_and!; [lia | done |]. intros i Hi Hi'. destruct (Hlt i Hi) as [H| ->]; [|done].
      rewrite (IH i H) in Hi'. done.
  - destruct (foldl _ None (seq 0 n)) as [b|].
    + destruct IH as (Hb & Hm & Hmax). split_and!; [lia | done |]. intros i Hi Hi'.
      destruct (Hlt i Hi) as [?| ->]; [by apply Hmax | congruence].
    + intros i Hi. destruct (Hlt i Hi) as [H| ->]; [by apply IH | done].
Qed.

(** ** The table invariant *)

Record vwf (s : vfs F) : Prop := mk_vwf {
  vwf_len : length (mounts s) = VFS_MAX_MOUNTS;
  vwf_lock : unlocked_vfs s;
  vwf_arr : forall i, (i < VFS_MAX_MOUNTS)%nat -> length (path (mnt s i)) = VFS_MP_NAME_MAX;
  vwf_root : used (mnt s 0%nat) = true /\ cstr (path (mnt s 0%nat)) = $"/" /\ mtype (mnt s 0%nat) = VFS_FS_RAM;
  vwf_path : forall i, (i < VFS_MAX_MOUNTS)%nat -> used (mnt s i) = true -> i <> 0%nat ->
    char_at (path (mnt s i)) 0 = 47 /\ mtype (mnt s i) <> VFS_FS_NONE;
  vwf_uniq : forall i j, (i < VFS_MAX_MOUNTS)%nat -> (j < VFS_MAX_MOUNTS)%nat ->
    used (mnt s i) = true -> used (mnt s j) = true ->
    cstr (path (mnt s i)) = cstr (path (mnt s j)) -> i = j;
  vwf_short : forall i, (i < VFS_MAX_MOUNTS)%nat -> used (mnt s i) = true ->
    (length (cstr (path (mnt s i))) < VFS_MP_NAME_MAX)%nat;
}.

Lemma find_mount_Some p (s : vfs F) i :
  find_mount p s = Some i ->
  (i < VFS_MAX_MOUNTS)%nat /\ used (mnt s i) = true /\ cstr (path (mnt s i)) = cstr p.
Proof.
  unfold find_mount. rewrite for_find_Some. intros (Hi & Hb & _). cbv zeta in Hb.
  apply andb_true_iff in Hb as [Hu He]. apply str_eq_spec in He. split_and!; auto. lia.
Qed.

Lemma find_mount_None p (s : vfs F) :
  find_mount p s = None <->
  forall i, (i < VFS_MAX_MOUNTS)%nat -> used (mnt s i) = true -> cstr (path (mnt s i)) <> cstr p.
Proof.
  unfold find_mount. rewrite for_find_None. split.
  - intros H i Hi Hu He. specialize (H i ltac:(lia)). cbv zeta in H. rewrite Hu in H. cbn in H.
    apply str_eq_spec in He. congruence.
  - intros H i Hi. cbv zeta. destruct (used (mnt s i)) eqn:Hu; [|done]. cbn.
    destruct (str_eq (path (mnt s i)) p) eqn:He; [|done]. apply str_eq_spec in He.
    exfalso. apply (H i); auto. lia.
Qed.

Lemma set_mnt i f (s : vfs F) j :
  (i < length (mounts s))%nat ->
  mounts (set_mounts (alter f i (mounts s)) s) !!! j = if decide (j = i) then f (mnt s i) else mnt s j.
Proof.
  intros Hi. cbn [mounts set_mounts]. rewrite list_lookup_total_alter.
  destruct (decide (j = i)) as [->|]; [by rewrite decide_True|].
  rewrite decide_False; [done|]. intros [? _]. congruence.
Qed.

(** ** Changing one slot *)

Definition mount_at (p : chars) (ty : vfs_fs_type) (m : mount) : mount :=
  mk_mount true (str_copy (path m) p VFS_MP_NAME_MAX) ty.
Definition unmounted (m : mount) : mount := mk_mount false (<[0%nat := 0]> (path m)) VFS_FS_NONE.

Lemma vwf_mount s p ty i :
  vwf s -> (i < VFS_MAX_MOUNTS)%nat -> used (mnt s i) = false ->
  char_at p 0 = 47 -> (length (cstr p) < VFS_MP_NAME_MAX)%nat -> ty <> VFS_FS_NONE ->
  find_mount p s = None ->
  vwf (set_mounts (alter (mount_at p ty) i (mounts s)) s) /\ cstr (path (mount_at p ty (mnt s i))) = cstr p.
Proof.
  intros Hwf Hi Hu Hp Hl Hty Hnone. pose proof (vwf_len s Hwf) as Hlen.
  assert (Hc : cstr (path (mount_at p ty (mnt s i))) = cstr p) by (by apply cstr_strcpy_fits).
  split; [|done]. pose proof (proj1 (find_mount_None p s) Hnone) as Hfresh.
  assert (Hi0 : i <> 0%nat) by (intros ->; destruct (vwf_root s Hwf); congruence).
  assert (Hm : forall j, mounts (set_mounts (alter (mount_at p ty) i (mounts s)) s) !!! j =
    if decide (j = i) then mount_at p ty (mnt s i) else mnt s j) by (intros; apply set_mnt; lia).
  constructor.
  - cbn. by rewrite length_alter.
  - apply (vwf_lock s Hwf).
  - intros j Hj. rewrite Hm. case_decide; [|by apply (vwf_arr s Hwf)].
    apply c_strcpy_truncate_length; [unfold VFS_MP_NAME_MAX; lia | by apply (vwf_arr s Hwf)].
  - rewrite Hm, decide_False by done. apply (vwf_root s Hwf).
  - intros j Hj. rewrite Hm. case_decide; [|by apply (vwf_path s Hwf)]. intros _ _. split; [|done].
    destruct (cstr p) as [|c r] eqn:E; [apply cstr_head in E; lia|].
    apply cstr_cons_char in E as [E _]. rewrite Hp in E. subst c.
    by apply cstr_cons_char in Hc as [-> _].
  - intros j k Hj Hk. rewrite !Hm. repeat case_decide; subst; auto; rewrite ?Hc.
    + intros _ Hu' E. exfalso. by apply (Hfresh k).
    + intros Hu' _ E. exfalso. by apply (Hfresh j).
    + by apply (vwf_uniq s Hwf).
  - intros j Hj. rewrite Hm. case_decide; [by rewrite Hc | by apply (vwf_short s Hwf)].
Qed.

Lemma vwf_umount s i :
  vwf s -> (0 < i < VFS_MAX_MOUNTS)%nat -> vwf (set_mounts (alter unmounted i (mounts s)) s).
Proof.
  intros Hwf Hi. pose proof (vwf_len s Hwf) as Hlen.
  assert (Hm : forall j, mounts (set_mounts (alter unmounted i (mounts s)) s) !!! j =
    if decide (j = i) then unmounted (mnt s i) else mnt s j) by (intros; apply set_mnt; lia).
  constructor.
  - cbn. by rewrite length_alter.
  - apply (vwf_lock s Hwf).
  - intros j Hj. rewrite Hm. case_decide; [|by apply (vwf_arr s Hwf)]. subst.
    cbn [unmounted path]. rewrite length_insert. by apply (vwf_arr s Hwf).
  - rewrite Hm, decide_False by lia. apply (vwf_root s Hwf).
  - intros j Hj. rewrite Hm. case_decide; [done | by apply (vwf_path s Hwf)].
  - intros j k Hj Hk. rewrite !Hm. repeat case_decide; subst; try done. by apply (vwf_uniq s Hwf).
  - intros j Hj. rewrite Hm. case_decide; [done | by apply (vwf_short s Hwf)].
Qed.

Lemma resolve_longest p n (s : vfs F) :
  unlocked_vfs s -> cstr p <> [] ->
  exists ty rest, vfs_resolve (Some p) n s = Ret ((ty, rest), s) /\
    ((exists b r, (b < VFS_MAX_MOUNTS)%nat /\ used (mnt s b) = true /\ ty = mtype (mnt s b) /\
        covers (cstr (path (mnt s b))) (cstr p) r /\
        rest = take (n - 1) (match r with 47 :: r' => r' | _ => r end) /\
        forall j r', (j < VFS_MAX_MOUNTS)%nat -> used (mnt s j) = true ->
          covers (cstr (path (mnt s j))) (cstr p) r' ->
          (length (cstr (path (mnt s j))) <= length (cstr (path (mnt s b))))%nat) \/
     (ty = VFS_FS_RAM /\ rest = take (n - 1) (cstr p) /\
        forall j r', (j < VFS_MAX_MOUNTS)%nat -> used (mnt s j) = true ->
          ~ covers (cstr (path (mnt s j))) (cstr p) r')).
Proof.
  intros Hul Hp. unfold vfs_resolve. change (default [] (Some p)) with p. cbv zeta.
  rewrite (proj2 (Z.eqb_neq _ 0)) by (intros E; by apply Hp, cstr_head).
  rewrite vfs_lock_free by done. cbn [mbind out_mbind]. rewrite unlock_lock by done.
  eexists _, _. split; [by rewrite <- surjective_pairing|].
  pose proof (resolve_loop_spec p s) as Hbest. change (resolve_loop p (set_lock 1 s)) with (resolve_loop p s).
  change (mounts (set_lock 1 s)) with (mounts s).
  assert (Hcov : forall j r', used (mnt s j) = true -> covers (cstr (path (mnt s j))) (cstr p) r' ->
    mount_matches p (mnt s j) = true) by (intros; apply mount_matches_spec; eauto).
  destruct (resolve_loop p s) as [b|]; cbn [fst snd]; [left | right].
  - destruct Hbest as (Hb & Hm & Hmax). apply mount_matches_spec in Hm as (Hu & r & Hc).
    exists b, r. pose proof Hc as [Hpre _]. pose proof (drop_prefix _ _ _ Hpre) as Hdrop.
    split_and!; auto.
    + cbn [mounts set_lock]. f_equal. set (d := drop (c_strlen (path (mnt s b))) p) in *. destruct r as [|c r].
      * apply cstr_head in Hdrop as Hz. rewrite Hz. done.
      * pose proof (cstr_cons_char _ _ _ Hdrop) as [Hc1 Hc2]. rewrite Hc1.
        destruct (Z.eqb_spec c 47) as [->|Hne]; [done|]. rewrite Hdrop.
        destruct c as [|c|c]; try done. do 6 (destruct c as [c|c|]; try done).
    + intros j r' Hj Huj Hcj. rewrite <- !c_strlen_cstr. apply Hmax; eauto.
  - split_and!; auto. intros j r' Hj Huj Hcj. pose proof (Hbest j Hj) as Hf.
    rewrite (Hcov j r' Huj Hcj) in Hf. done.
Qed.

(** ** Lifecycle *)

Lemma comps_short n p : (length p <= n)%nat -> Forall (fun x => (length x <= n)%nat) (comps p).
Proof.
  revert n. induction p as [|c p IH]; intros n Hn; cbn [comps length] in *; [constructor|].
  destruct (c =? 47); [constructor; [cbn; lia | apply IH; lia]|].
  destruct n as [|n]; [lia|]. specialize (IH n ltac:(lia)). destruct (comps p) as [|h t].
  - constructor; [cbn; lia | constructor].
  - inversion IH as [|? ? Hh Ht]; subst. constructor; [cbn; lia|].
    eapply Forall_impl; [exact Ht|]. cbn. lia.
Qed.

Lemma short_path_16 p : (length (cstr p) < VFS_MP_NAME_MAX)%nat -> short_path (Some p).
Proof.
  intros H. unfold short_path. change (default [] (Some p)) with p.
  eapply Forall_impl; [apply (comps_short 16)|].
  - destruct (cstr p); cbn in *; unfold VFS_MP_NAME_MAX in H; lia.
  - cbn. unfold FS_NAME_MAX. lia.
Qed.

(** Attaching the volume does not touch table, lock or RAM file system. *)
Lemma attach_fat_same (s : vfs F) :
  fat_ready (fat s) ->
  exists b s', attach_fat s = Ret (b, s') /\ mounts s' = mounts s /\ ram s' = ram s /\
    fat_ready (fat s').
Proof.
  intros Hr. unfold attach_fat. destruct (fat32_is_mounted _); [by eexists _, _|].
  destruct (fat32_mount_ret (fat s) Hr) as (r & f & -> & Hf). cbn [mbind out_mbind]. by eexists _, _.
Qed.

Lemma vwf_ext (s s' : vfs F) :
  vwf s -> mounts s' = mounts s -> unlocked_vfs s' -> vwf s'.
Proof. intros [H1 H2 H3 H4 H5 H6 H7] E Hl. constructor; rewrite ?E; auto. Qed.

(** What a mount does to the table: nothing, or one free slot is filled. *)
Definition mounted_at (p : chars) (ty : vfs_fs_type) (s s1 : vfs F) : Prop :=
  find_mount p s = None /\ ty <> VFS_FS_NONE /\
  exists i, (0 < i < VFS_MAX_MOUNTS)%nat /\ used (mnt s i) = false /\
    mounts s1 = alter (mount_at p ty) i (mounts s) /\ cstr (path (mnt s1 i)) = cstr p.

Lemma mount_step p ty s :
  vwf s -> idle (ram s) -> fat_ready (fat s) -> (length (cstr p) < VFS_MP_NAME_MAX)%nat ->
  exists r s1, vfs_mount (Some p) ty s = Ret (r, s1) /\ vwf s1 /\ idle (ram s1) /\ fat_ready (fat s1) /\
    ((r = FS_OK /\ mounted_at p ty s s1) \/ (r <> FS_OK /\ mounts s1 = mounts s)).
Proof.
  intros Hwf Hid Hfr Hlen. pose proof (vwf_lock s Hwf) as Hul. unfold vfs_mount.
  change (default [] (Some p)) with p. cbv zeta.
  assert (Hstop : forall r s1, r <> FS_OK -> mounts s1 = mounts s -> ram s1 = ram s -> unlocked_vfs s1 ->
    fat_ready (fat s1) ->
    exists r' s', Ret (r, s1) = Ret (r', s') /\ vwf s' /\ idle (ram s') /\ fat_ready (fat s') /\
    ((r' = FS_OK /\ mounted_at p ty s s') \/ (r' <> FS_OK /\ mounts s' = mounts s))).
  { intros r s1 Hr Hm Hra Hl Hf1. exists r, s1.
    split_and!; [done | by eapply vwf_ext | by rewrite Hra | done | auto]. }
  destruct (Z.eqb_spec (char_at p 0) 47) as [Hp|]; cbn [negb]; [|by apply Hstop].
  case_bool_decide as Hty; [by apply Hstop|].
  destruct (str_eq p $"/"); [by apply Hstop|].
  rewrite vfs_lock_free by done. cbn [mbind out_mbind].
  change (find_mount p (set_lock 1 s)) with (find_mount p s).
  case_bool_decide as Hfm; [by apply Hstop|].
  apply eq_None_not_Some in Hfm.
  assert (exists okb s2, (if bool_decide (ty = VFS_FS_FAT32) then attach_fat (set_lock 1 s)
      else Ret (true, set_lock 1 s)) = Ret (okb, s2) /\ mounts s2 = mounts s /\ ram s2 = ram s /\
      fat_ready (fat s2)) as (okb & s2 & -> & Hm & Hra & Hfr2).
  { case_bool_decide; [by apply (attach_fat_same (set_lock 1 s)) | by eexists _, _]. }
  cbn [mbind out_mbind].
  destruct okb; cbn [negb]; [|by apply Hstop]. rewrite Hm.
  destruct (for_find _ _ _) as [i|] eqn:Ef; [|by apply Hstop].
  apply for_find_Some in Ef as (Hi & Hu & _). apply negb_true_iff in Hu.
  destruct (vwf_mount s p ty i) as [Hwf1 Hc]; auto; [lia|].
  assert (Hi0 : i <> 0%nat) by (intros ->; destruct (vwf_root s Hwf); congruence).
  set (s3 := unlock _).
  assert (Hm3 : mounts s3 = alter (mount_at p ty) i (mounts s)) by done.
  assert (Hwf3 : vwf s3) by (by eapply vwf_ext; [exact Hwf1 | |]).
  assert (Hat : forall s4, mounts s4 = mounts s3 -> mounted_at p ty s s4).
  { intros s4 E. split_and!; auto. exists i. rewrite E, Hm3. split_and!; auto; try lia.
    rewrite list_lookup_total_alter, decide_True by (split; [done | rewrite (vwf_len s Hwf); lia]). done. }
  case_bool_decide.
  - destruct (mkdir_p_ret (Some p) (ram s3)) as (r & rs & Hmk & Hidr & _);
      [unfold s3; cbn; by rewrite Hra | by apply short_path_16 |].
    rewrite Hmk. cbn [mbind out_mbind]. exists FS_OK, (set_ram rs s3).
    split_and!; [done | by eapply vwf_ext; [exact Hwf3 | |] | done | exact Hfr2 | left; split; [done | by apply Hat]].
  - exists FS_OK, s3.
    split_and!; [done | done | unfold s3; cbn; by rewrite Hra | exact Hfr2 | left; split; [done | by apply Hat]].
Qed.

(** ** Claims *)

(** [vfs_resolve] of a non-empty path returns and leaves the table
    unchanged: the answer is the type of a mounted file system whose mount
    point is the path or a directory prefix of it, no other mounted prefix is
    longer, and the rest string is what follows it (without the separating
    slash, cut to the caller's buffer); without any covering mount point the
    answer is the RAM file system and the whole path. *)
Theorem vfs_resolve_longest p n (s : vfs F) :
  unlocked_vfs s -> cstr p <> [] ->
  exists ty rest, vfs_resolve (Some p) n s = Ret ((ty, rest), s) /\
    ((exists b r, (b < VFS_MAX_MOUNTS)%nat /\ used (mnt s b) = true /\ ty = mtype (mnt s b) /\
        covers (cstr (path (mnt s b))) (cstr p) r /\
        rest = take (n - 1) (match r with 47 :: r' => r' | _ => r end) /\
        forall j r', (j < VFS_MAX_MOUNTS)%nat -> used (mnt s j) = true ->
          covers (cstr (path (mnt s j))) (cstr p) r' ->
          (length (cstr (path (mnt s j))) <= length (cstr (path (mnt s b))))%nat) \/
     (ty = VFS_FS_RAM /\ rest = take (n - 1) (cstr p) /\
        forall j r', (j < VFS_MAX_MOUNTS)%nat -> used (mnt s j) = true ->
          ~ covers (cstr (path (mnt s j))) (cstr p) r')).
Proof. apply resolve_longest. Qed.

(** A path that is itself a mount point resolves to that mount, with nothing
    left of the path. *)
Lemma resolve_own p i n (s : vfs F) :
  vwf s -> (i < VFS_MAX_MOUNTS)%nat -> used (mnt s i) = true -> cstr (path (mnt s i)) = cstr p ->
  cstr p <> [] -> vfs_resolve (Some p) n s = Ret ((mtype (mnt s i), []), s).
Proof.
  intros Hwf Hi Hu Hc Hpne.
  destruct (resolve_longest p n s (vwf_lock s Hwf) Hpne) as (ty' & rest & -> & Hans).
  assert (Hcov : covers (cstr (path (mnt s i))) (cstr p) []).
  { rewrite Hc. split; [by rewrite app_nil_r | auto]. }
  destruct Hans as [(b & r0 & Hb & Hub & -> & [Hcb Hcr] & -> & Hmax)|(_ & _ & Hno)];
    [|by destruct (Hno i [] Hi Hu Hcov)].
  specialize (Hmax i [] Hi Hu Hcov). rewrite Hc in Hmax.
  assert (Hr0 : r0 = []). { rewrite Hcb, length_app in Hmax. apply nil_length_inv. lia. }
  rewrite Hr0, app_nil_r in Hcb.
  assert (b = i) as -> by (apply (vwf_uniq s Hwf); auto; congruence).
  rewrite Hr0. by rewrite take_nil.
Qed.

(** Unmounting a mount point other than the root clears its slot. *)
Lemma umount_own p i (s : vfs F) :
  vwf s -> (0 < i < VFS_MAX_MOUNTS)%nat -> used (mnt s i) = true ->
  cstr (path (mnt s i)) = cstr p ->
  exists s2, vfs_umount (Some p) s = Ret (FS_OK, s2) /\ vwf s2 /\
    forall k, mnt s2 k = if decide (k = i) then unmounted (mnt s i) else mnt s k.
Proof.
  intros Hwf Hi Hu Hc. unfold vfs_umount. pose proof (vwf_len s Hwf) as Hl.
  assert (Hroot : str_eq p $"/" = false).
  { destruct (str_eq p $"/") eqn:E; [|done]. apply str_eq_spec in E. exfalso.
    destruct (vwf_root s Hwf) as (Hu0 & Hc0 & _).
    assert (i = 0%nat); [|lia]. apply (vwf_uniq s Hwf); auto; try lia; by rewrite Hc, Hc0. }
  rewrite Hroot, vfs_lock_free by apply (vwf_lock s Hwf). cbn [mbind out_mbind].
  change (find_mount p (set_lock 1 s)) with (find_mount p s).
  destruct (find_mount p s) as [j|] eqn:Ef.
  2: { exfalso. apply (proj1 (find_mount_None p s) Ef i); [lia | done | done]. }
  apply find_mount_Some in Ef as (Hj & Huj & Hcj).
  assert (j = i) as -> by (apply (vwf_uniq s Hwf); auto; [lia | congruence]).
  eexists. split; [reflexivity|]. split; [eapply vwf_ext; [apply (vwf_umount s i Hwf); lia | done | done]|].
  intros k. etransitivity; [apply (set_mnt i unmounted s k); lia | done].
Qed.

(** With a FAT driver in a state it accepts, mounting at a path of at
    most 15 characters always returns and keeps
    the table well formed (the root stays, mount points stay distinct, the
    lock is released).  When it succeeds the path resolves to the new file
    system, unmounting it succeeds, and afterwards every path is mounted or
    not exactly as before. *)
Theorem vfs_mount_roundtrip p ty (s : vfs F) :
  vwf s -> idle (ram s) -> fat_ready (fat s) -> (length (cstr p) < VFS_MP_NAME_MAX)%nat ->
  exists r s1, vfs_mount (Some p) ty s = Ret (r, s1) /\ vwf s1 /\ idle (ram s1) /\
    fat_ready (fat s1) /\
    (r <> FS_OK -> mounts s1 = mounts s) /\
    (r = FS_OK ->
       (forall n, vfs_resolve (Some p) n s1 = Ret ((ty, []), s1)) /\
       exists s2, vfs_umount (Some p) s1 = Ret (FS_OK, s2) /\ vwf s2 /\
         forall q, is_Some (find_mount q s2) <-> is_Some (find_mount q s)).
Proof.
  intros Hwf Hid Hfr Hlen.
  destruct (mount_step p ty s Hwf Hid Hfr Hlen) as (r & s1 & Hrun & Hwf1 & Hid1 & Hfr1 & Hcase).
  exists r, s1. split_and!; auto; [by intros Hr; destruct Hcase as [[? _]|[_ ?]]|].
  intros Hr. destruct Hcase as [[_ (Hnone & Hty & i & Hi & Hu & Hm & Hc)]|[? _]]; [|done].
  pose proof (vwf_len s Hwf) as Hl.
  assert (Hmi : forall j, mnt s1 j = if decide (j = i) then mount_at p ty (mnt s i) else mnt s j).
  { intros j. rewrite Hm. apply (set_mnt i (mount_at p ty) s j). lia. }
  assert (Hself : mnt s1 i = mount_at p ty (mnt s i)) by (rewrite Hmi; by rewrite decide_True).
  assert (Hpne : cstr p <> []).
  { intros E. destruct (vwf_path s1 Hwf1 i) as [Hc1 _]; [lia | by rewrite Hself | lia |].
    rewrite E in Hc. apply cstr_head in Hc. lia. }
  split.
  { intros n. rewrite (resolve_own p i n s1); auto; [by rewrite Hself | lia | by rewrite Hself]. }
  destruct (umount_own p i s1) as (s2 & Hum & Hwf2 & Hmi2); auto; [by rewrite Hself|].
  exists s2. split_and!; [done | done |].
  intros q. rewrite <- !not_eq_None_Some, !find_mount_None.
  split; intros H1 H2; apply H1; intros k Hk Huk.
  - rewrite Hmi2 in Huk |- *. case_decide; [done|].
    rewrite Hmi, decide_False in Huk |- * by done. by apply H2.
  - destruct (decide (k = i)) as [->|Hne]; [congruence|].
    specialize (H2 k Hk). rewrite Hmi2, decide_False, Hmi, decide_False in H2 by done. auto.
Qed.


(** Mount points are cut to 15 characters: mounting at a longer path
    reports success, but the path itself is then unknown to the table, so
    unmounting it fails. *)
Theorem vfs_long_path_lost p (s : vfs F) i :
  vwf s -> char_at p 0 = 47 -> (VFS_MP_NAME_MAX <= length (cstr p))%nat ->
  (i < VFS_MAX_MOUNTS)%nat -> used (mnt s i) = false ->
  exists s1 s2, vfs_mount (Some p) VFS_FS_RAM s = Ret (FS_OK, s1) /\ find_mount p s1 = None /\
    vfs_umount (Some p) s1 = Ret (FS_ERR_NOT_FOUND, s2).
Proof.
  intros Hwf Hp Hlen Hi Hu. pose proof (vwf_lock s Hwf) as Hul. unfold vfs_mount.
  change (default [] (Some p)) with p. cbv zeta. rewrite Hp. cbn [Z.eqb Pos.eqb negb].
  rewrite bool_decide_false by done.
  assert (Hroot : str_eq p $"/" = false).
  { destruct (str_eq p $"/") eqn:E; [|done]. apply str_eq_spec in E. rewrite E in Hlen.
    change (length (cstr $"/")) with 1%nat in Hlen. unfold VFS_MP_NAME_MAX in Hlen. lia. }
  rewrite Hroot, vfs_lock_free by done. cbn [mbind out_mbind].
  assert (Hf : forall s' : vfs F, (forall j, (j < VFS_MAX_MOUNTS)%nat -> used (mnt s' j) = true ->
    (length (cstr (path (mnt s' j))) < VFS_MP_NAME_MAX)%nat) -> find_mount p s' = None).
  { intros s' Hs'. apply find_mount_None. intros j Hj Huj E. specialize (Hs' j Hj Huj).
    rewrite E in Hs'. lia. }
  rewrite (Hf (set_lock 1 s)) by apply (vwf_short s Hwf). rewrite bool_decide_false by (by intros [? ?]).
  rewrite bool_decide_false by done. cbn [mbind out_mbind negb mounts set_lock].
  destruct (for_find _ _ _) as [k|] eqn:Ef.
  2: { pose proof (proj1 (for_find_None _ _ _) Ef i ltac:(lia)) as Hx. cbv beta in Hx. by rewrite Hu in Hx. }
  apply for_find_Some in Ef as (Hk & _ & _). set (s1 := unlock _).
  assert (Hm1 : forall j, mnt s1 j = if decide (j = k) then mount_at p VFS_FS_RAM (mnt s k) else mnt s j).
  { intros j. apply (set_mnt k (mount_at p VFS_FS_RAM) s j). rewrite (vwf_len s Hwf). lia. }
  assert (Hf1 : find_mount p s1 = None).
  { apply Hf. intros j Hj. rewrite Hm1. case_decide; [|by apply (vwf_short s Hwf)]. intros _.
    cbn [mount_at path]. unfold str_copy. rewrite cstr_strcpy_truncate, length_take.
    unfold VFS_MP_NAME_MAX. lia. }
  exists s1, s1. split_and!; [done | done |]. unfold vfs_umount. rewrite Hroot.
  assert (Hul1 : unlocked_vfs s1) by done. rewrite (vfs_lock_free s1) by done. cbn [mbind out_mbind].
  change (find_mount p (set_lock 1 s1)) with (find_mount p s1). rewrite Hf1. by rewrite unlock_lock.
Qed.

End Spec.

(** ** A machine without a disk *)

#[local] Instance no_disk : FatDriver unit :=
  {| fat_ready := fun _ => True; fat32_is_mounted := fun _ => false; fat32_mount := fun f => Ret (-1, f);
     fat32_ls := fun _ f => Ret ([], f); fat32_cat := fun _ f => Ret ([], f);
     fat32_mount_ret := fun f _ => ex_intro _ (-1) (ex_intro _ f (conj eq_refl I)) |}.

Definition fresh_ram : fs_state :=
  match fs_init bss_fs with Ret s => s | Fault _ => bss_fs end.
Lemma fresh_ram_idle : idle fresh_ram.
Proof. unfold fresh_ram. destruct (fs_init_ret bss_fs bss_table_ok) as (s & -> & H & _). done. Qed.

Definition booted_vfs : vfs unit :=
  vfs_init (mk_vfs (replicate VFS_MAX_MOUNTS bss_mount) 0 fresh_ram tt).

(** Case analysis on a slot number. *)
Ltac slots i H := unfold VFS_MAX_MOUNTS in H; destruct i as [|[|[|[|i]]]]; [| | | |exfalso; lia].

Lemma booted_vwf : vwf booted_vfs.
Proof.
  constructor; try done.
  - intros i Hi. by slots i Hi.
  - intros i Hi. by slots i Hi.
  - intros i j Hi Hj. slots i Hi; by slots j Hj.
  - intros i Hi. slots i Hi; try done. intros _.
    change (length (cstr (path (mounts booted_vfs !!! 0%nat)))) with 1%nat. unfold VFS_MP_NAME_MAX. lia.
Qed.

Lemma vfs_resolve_longest_witness :
  unlocked_vfs booted_vfs /\ exists ty rest,
  vfs_resolve (Some $"/etc/motd") 64 booted_vfs = Ret ((ty, rest), booted_vfs).
Proof.
  split; [reflexivity|].
  destruct (vfs_resolve_longest $"/etc/motd" 64 booted_vfs) as (ty & rest & H & _);
    [reflexivity | discriminate | eauto].
Defined.

Lemma vfs_mount_roundtrip_witness :
  exists r s1, vfs_mount (Some $"/tmp") VFS_FS_RAM booted_vfs = Ret (r, s1) /\ vwf s1.
Proof.
  destruct (vfs_mount_roundtrip $"/tmp" VFS_FS_RAM booted_vfs booted_vwf fresh_ram_idle) as (r & s1 & H & Hw & _);
    [exact I | vm_compute; lia | eauto].
Defined.

Lemma vfs_long_path_lost_witness :
  exists s1 s2, vfs_mount (Some $"/mnt/a-very-long-name") VFS_FS_RAM booted_vfs = Ret (FS_OK, s1) /\
    find_mount $"/mnt/a-very-long-name" s1 = None /\
    vfs_umount (Some $"/mnt/a-very-long-name") s1 = Ret (FS_ERR_NOT_FOUND, s2).
Proof.
  apply (vfs_long_path_lost _ booted_vfs 1 booted_vwf);
    [reflexivity | vm_compute; lia | unfold VFS_MAX_MOUNTS; lia | reflexivity].
Defined.

End VfsSpec.
