(* ===== verification/Syscall.v ===== *)
(** * System calls (src/src/syscall.c): state and operations

    The descriptor table, the user heap and mmap arena, the small pieces of
    per-system state, and every call the int 0x80 handler dispatches.
    Pointers are 32-bit addresses of the flat memory the kernel heap also
    lives in ([kmem (heap s)]); address arithmetic wraps.  The data pointer
    of an open file is the index of the file-system node whose buffer it
    points into, so later writes to that node are seen through it.  Calls
    that leave the component (exit, yield, sleep, power) are reported as a
    [kcall]; the gate is an interrupt gate, so [ticks] is constant during
    a call. *)

From S2P Require Import Prelude Memory Kmalloc Terminal Fs.
Import Fs.

Module Syscall.

Definition USER_HEAP_BASE : Z := 0x500000.
Definition USER_HEAP_MAX : Z := 0x600000.
Definition MMAP_BASE : Z := 0x01000000.
Definition MMAP_END : Z := 0x02000000.
Definition PAGE_SIZE : Z := 4096.
Definition FD_MAX : Z := 32.

Definition ENOENT : Z := 2.
Definition EINTR : Z := 4.
Definition EBADF : Z := 9.
Definition ENOMEM : Z := 12.
Definition EFAULT : Z := 14.
Definition EEXIST : Z := 17.
Definition ENOTDIR : Z := 20.
Definition EINVAL : Z := 22.
Definition EMFILE : Z := 24.
Definition ENOSPC : Z := 28.
Definition ESPIPE : Z := 29.
Definition ERANGE : Z := 34.
Definition ENOSYS : Z := 38.
Definition ENOTEMPTY : Z := 39.

Definition O_WRONLY : Z := 1.
Definition O_RDWR : Z := 2.
Definition O_CREAT : Z := 64.
Definition O_TRUNC : Z := 512.
Definition O_APPEND : Z := 1024.
Definition SEEK_SET : Z := 0.
Definition SEEK_CUR : Z := 1.
Definition SEEK_END : Z := 2.
Definition MAP_FIXED : Z := 0x10.
Definition MAP_ANONYMOUS : Z := 0x20.

(** ** State *)

Inductive fd_type : Type := FD_NONE | FD_CONSOLE | FD_RAMFILE.
#[global] Instance fd_type_eq_dec : EqDecision fd_type.
Proof. solve_decision. Defined.

Record fd_entry : Type := mk_fd {
  ftype : fd_type;
  used : bool;
  fdata : option nat;   (** the node whose [content] is pointed to; NULL is [None] *)
  len : Z;
  pos : Z;
  writable : bool;
  fname : chars;        (** [char name[48]] *)
}.

Definition bss_fd : fd_entry := mk_fd FD_NONE false None 0 0 false (replicate 48 0).
#[global] Instance fd_entry_inhabited : Inhabited fd_entry := populate bss_fd.

Record sysst : Type := mk_sys {
  heap : Kmalloc.kstate;       (** the flat memory and the kernel heap in it *)
  fds : list fd_entry;
  user_brk : Z;
  mmap_bump : Z;
  g_umask : Z;
  tls_base : Z;
  g_hostname : chars;
  rng : Z;
  fsys : fs_state;
  tty : Terminal.term;
  ticks : Z;                   (** [timer_ticks()] *)
  current_id : option Z;       (** [sched_current()->id], [None] for NULL *)
}.

Definition tls_entry : Z := 6.
Definition g_boot_epoch : Z := 1700000000.

Definition umem (s : sysst) : mem := Kmalloc.kmem (heap s).
Definition set_umem (m : mem) (s : sysst) : sysst :=
  mk_sys (Kmalloc.mk_kstate m (Kmalloc.head (heap s)) (Kmalloc.heap_used (heap s)))
    (fds s) (user_brk s) (mmap_bump s) (g_umask s) (tls_base s) (g_hostname s) (rng s)
    (fsys s) (tty s) (ticks s) (current_id s).
Definition set_fds (f : list fd_entry) (s : sysst) : sysst :=
  mk_sys (heap s) f (user_brk s) (mmap_bump s) (g_umask s) (tls_base s) (g_hostname s) (rng s)
    (fsys s) (tty s) (ticks s) (current_id s).
Definition set_brk (b m : Z) (s : sysst) : sysst :=
  mk_sys (heap s) (fds s) b m (g_umask s) (tls_base s) (g_hostname s) (rng s)
    (fsys s) (tty s) (ticks s) (current_id s).
Definition set_misc (um tb : Z) (h : chars) (r : Z) (s : sysst) : sysst :=
  mk_sys (heap s) (fds s) (user_brk s) (mmap_bump s) um tb h r
    (fsys s) (tty s) (ticks s) (current_id s).
Definition set_fsys (f : fs_state) (s : sysst) : sysst :=
  mk_sys (heap s) (fds s) (user_brk s) (mmap_bump s) (g_umask s) (tls_base s) (g_hostname s)
    (rng s) f (tty s) (ticks s) (current_id s).
Definition set_tty (t : Terminal.term) (s : sysst) : sysst :=
  mk_sys (heap s) (fds s) (user_brk s) (mmap_bump s) (g_umask s) (tls_base s) (g_hostname s)
    (rng s) (fsys s) t (ticks s) (current_id s).

(** [fds[i]], for an [i] the code has checked. *)
Definition fd_at (s : sysst) (i : Z) : fd_entry := fds s !!! Z.to_nat i.
Definition upd_fd (i : Z) (f : fd_entry -> fd_entry) (s : sysst) : sysst :=
  set_fds (alter f (Z.to_nat i) (fds s)) s.

(** ** Descriptors *)

Definition user_heap_reset (s : sysst) : sysst := set_brk USER_HEAP_BASE MMAP_BASE s.

Definition fd_cleared (e : fd_entry) : fd_entry :=
  mk_fd FD_NONE false None 0 0 false (<[0%nat := 0]> (fname e)).
Definition fd_console (w : bool) (e : fd_entry) : fd_entry :=
  mk_fd FD_CONSOLE true (fdata e) (len e) (pos e) w (fname e).

Definition fd_table_reset (s : sysst) : sysst :=
  let s := set_fds (map fd_cleared (fds s)) s in
  upd_fd 2 (fd_console true) (upd_fd 1 (fd_console true) (upd_fd 0 (fd_console false) s)).

Definition fd_alloc (s : sysst) : Z :=
  match for_find (fun i => negb (used (fds s !!! i))) 3 (Z.to_nat FD_MAX - 3) with
  | Some i => Z.of_nat i
  | None => - EMFILE
  end.

Definition name_copy (d s : chars) (n : nat) : chars := c_strcpy_truncate d s n.

(** [fd < 0 || fd >= FD_MAX || !fds[fd].used] *)
Definition bad_fd (fd : Z) (s : sysst) : bool :=
  (fd <? 0) || (FD_MAX <=? fd) || negb (used (fd_at s fd)).

Definition sys_write (fd buf count : Z) (s : sysst) : out (Z * sysst) :=
  if count <? 0 then Ret (- EINVAL, s)
  else if buf =? 0 then Ret (- EFAULT, s)
  else if bad_fd fd s then Ret (- EBADF, s)
  else if bool_decide (ftype (fd_at s fd) = FD_CONSOLE) then
    Ret (count, set_tty (foldl (fun t c => Terminal.terminal_putchar c t) (tty s)
                           (get (umem s) buf (Z.to_nat count))) s)
  else Ret (- EBADF, s).

(** [data[pos .. pos + n)] through the pointer; leaving the node's buffer is
    an out-of-bounds read. *)
Definition read_data (e : fd_entry) (n : Z) (s : sysst) : out chars :=
  match fdata e with
  | Some i =>
      let c := content (nodes (data (fsys s)) !!! i) in
      if pos e + n <=? Z.of_nat (length c)
      then Ret (take (Z.to_nat n) (drop (Z.to_nat (pos e)) c)) else Fault OutOfBounds
  | None => if n =? 0 then Ret [] else Fault OutOfBounds
  end.

Definition set_fpos (p : Z) (e : fd_entry) : fd_entry :=
  mk_fd (ftype e) (used e) (fdata e) (len e) p (writable e) (fname e).

Definition sys_read (fd buf count : Z) (s : sysst) : out (Z * sysst) :=
  if count <? 0 then Ret (- EINVAL, s)
  else if buf =? 0 then Ret (- EFAULT, s)
  else if bad_fd fd s then Ret (- EBADF, s)
  else
    let e := fd_at s fd in
    match ftype e with
    | FD_CONSOLE => Ret (0, s)
    | FD_RAMFILE =>
        let left := u32 (len e - pos e) in
        let count := if left <? count then s32 left else count in
        bs ← read_data e count s;
        Ret (count, upd_fd fd (set_fpos (u32 (pos e + count)))
                      (set_umem (put (umem s) buf bs) s))
    | FD_NONE => Ret (- EBADF, s)
    end.

(** The calls of [sys_open] that find or create the file: the node and its
    length, or nothing for -ENOENT. *)
Definition open_file (path : chars) (flags : Z) (s : sysst) : out (option (nat * Z) * sysst) :=
  match fs_read path (data (fsys s)) with
  | (FS_OK, r) => Ret (r, s)
  | _ =>
      if Z.land flags O_CREAT =? 0 then Ret (None, s)
      else
        '(r, f) ← fs_touch path (fsys s);
        '(r, f) ← (if bool_decide (r = FS_OK) then Ret (r, f) else fs_write path [] f);
        let s := set_fsys f s in
        if bool_decide (r = FS_OK) then Ret (snd (fs_read path (data f)), s) else Ret (None, s)
  end.

Definition sys_open (path flags : Z) (s : sysst) : out (Z * sysst) :=
  if path =? 0 then Ret (- ENOENT, s)
  else
    let p := cstr_at (umem s) path in
    if char_at p 0 =? 0 then Ret (- ENOENT, s)
    else
      '(r, s) ← open_file p flags s;
      match r with
      | None => Ret (- ENOENT, s)
      | Some (content, len) =>
          let fd := fd_alloc s in
          if fd <? 0 then Ret (fd, s)
          else Ret (fd, upd_fd fd (fun e =>
                 mk_fd FD_RAMFILE true (Some content) len
                   (if Z.land flags O_APPEND =? 0 then 0 else len)
                   (negb (Z.land flags (Z.lor O_WRONLY O_RDWR) =? 0))
                   (name_copy (fname e) p 48)) s)
      end.

Definition set_used (u : bool) (e : fd_entry) : fd_entry :=
  mk_fd (ftype e) u (fdata e) (len e) (pos e) (writable e) (fname e).
Definition set_ftype (t : fd_type) (e : fd_entry) : fd_entry :=
  mk_fd t (used e) (fdata e) (len e) (pos e) (writable e) (fname e).

Definition sys_close (fd : Z) (s : sysst) : out (Z * sysst) :=
  if (fd <? 3) || (FD_MAX <=? fd) || negb (used (fd_at s fd)) then Ret (- EBADF, s)
  else Ret (0, upd_fd fd (set_ftype FD_NONE) (upd_fd fd (set_used false) s)).

Definition sys_lseek (fd offset whence : Z) (s : sysst) : out (Z * sysst) :=
  if bad_fd fd s then Ret (- EBADF, s)
  else
    let e := fd_at s fd in
    if negb (bool_decide (ftype e = FD_RAMFILE)) then Ret (- ESPIPE, s)
    else
      let base :=
        if whence =? SEEK_SET then Some 0
        else if whence =? SEEK_CUR then Some (s32 (pos e))
        else if whence =? SEEK_END then Some (s32 (len e)) else None in
      match base with
      | None => Ret (- EINVAL, s)
      | Some base =>
          let neu := s32 (base + offset) in
          if neu <? 0 then Ret (- EINVAL, s)
          else
            let neu := if len e <? neu then s32 (len e) else neu in
            Ret (neu, upd_fd fd (set_fpos neu) s)
      end.

Definition sys_dup (fd : Z) (s : sysst) : out (Z * sysst) :=
  if bad_fd fd s then Ret (- EBADF, s)
  else
    let n := fd_alloc s in
    if n <? 0 then Ret (n, s)
    else Ret (n, upd_fd n (set_used true) (upd_fd n (fun _ => fd_at s fd) s)).

Definition sys_dup2 (oldfd newfd : Z) (s : sysst) : out (Z * sysst) :=
  if bad_fd oldfd s then Ret (- EBADF, s)
  else if (newfd <? 0) || (FD_MAX <=? newfd) then Ret (- EBADF, s)
  else if oldfd =? newfd then Ret (newfd, s)
  else
    let s := if used (fd_at s newfd) && (3 <=? newfd) then upd_fd newfd (set_used false) s else s in
    Ret (newfd, upd_fd newfd (set_used true) (upd_fd newfd (fun _ => fd_at s oldfd) s)).

(** ** User heap *)

Definition sys_brk (new_brk : Z) (s : sysst) : Z * sysst :=
  if new_brk =? 0 then (user_brk s, s)
  else if (new_brk <? USER_HEAP_BASE) || (USER_HEAP_MAX <? new_brk) then (user_brk s, s)
  else (new_brk, set_brk new_brk (mmap_bump s) s).

(** ** Names *)

Definition sys_chdir (path : Z) (s : sysst) : out (Z * sysst) :=
  if path =? 0 then Ret (- EFAULT, s)
  else
    '(r, f) ← fs_cd (cstr_at (umem s) path) (fsys s);
    Ret (match r with
         | FS_OK => 0
         | FS_ERR_NOT_FOUND => - ENOENT
         | FS_ERR_NOT_A_DIRECTORY => - ENOTDIR
         | _ => - EINVAL
         end, set_fsys f s).

Definition sys_mkdir (path mode : Z) (s : sysst) : out (Z * sysst) :=
  if path =? 0 then Ret (- EFAULT, s)
  else
    '(r, f) ← fs_mkdir (cstr_at (umem s) path) (fsys s);
    Ret (match r with
         | FS_OK => 0
         | FS_ERR_ALREADY_EXISTS => - EEXIST
         | FS_ERR_NO_SPACE => - ENOSPC
         | _ => - EINVAL
         end, set_fsys f s).

Definition sys_unlink (path : Z) (s : sysst) : out (Z * sysst) :=
  if path =? 0 then Ret (- EFAULT, s)
  else
    '(r, f) ← fs_rm (Some (cstr_at (umem s) path)) (fsys s);
    Ret (match r with
         | FS_OK => 0
         | FS_ERR_NOT_FOUND => - ENOENT
         | FS_ERR_DIR_NOT_EMPTY => - ENOTEMPTY
         | _ => - EINVAL
         end, set_fsys f s).

Definition sys_rename (oldp newp : Z) (s : sysst) : out (Z * sysst) :=
  if (oldp =? 0) || (newp =? 0) then Ret (- EFAULT, s)
  else
    '(r, f) ← fs_mv (cstr_at (umem s) oldp) (cstr_at (umem s) newp) (fsys s);
    Ret (match r with
         | FS_OK => 0
         | FS_ERR_NOT_FOUND => - ENOENT
         | _ => - EINVAL
         end, set_fsys f s).

Definition sys_access (path mode : Z) (s : sysst) : out (Z * sysst) :=
  if path =? 0 then Ret (- EFAULT, s)
  else match fs_read (cstr_at (umem s) path) (data (fsys s)) with
       | (FS_OK, _) => Ret (0, s)
       | _ => Ret (- ENOENT, s)
       end.

Definition sys_getcwd (buf size : Z) (s : sysst) : out (Z * sysst) :=
  if (buf =? 0) || (size =? 0) then Ret (- EINVAL, s)
  else
    let tmp := fs_pwd 128 (data (fsys s)) in
    let w := take (Z.to_nat (Z.min (size - 1) (Z.of_nat (length tmp)))) tmp in
    let s := set_umem (put (umem s) buf (w ++ [0])) s in
    if char_at tmp (length w) =? 0 then Ret (Z.of_nat (length w) + 1, s) else Ret (- ERANGE, s).

(** ** File status *)

Definition SIZEOF_STAT : nat := 72.

(** The zeroed structure, then the fields at their offsets in [struct kernel_stat]. *)
Definition fill_stat_file (m : mem) (st size : Z) : mem :=
  let m := put m st (replicate SIZEOF_STAT 0) in
  let m := put m (st + 12) (le16 0x81A4) in       (* S_IFREG | 0644 *)
  let m := put m (st + 14) (le16 1) in
  let m := put m (st + 28) (le32 (u32 size)) in
  let m := put m (st + 32) (le32 512) in
  put m (st + 36) (le32 (u32 (size + 511) / 512)).

Definition sys_stat (path st : Z) (s : sysst) : out (Z * sysst) :=
  if (path =? 0) || (st =? 0) then Ret (- EFAULT, s)
  else match fs_read (cstr_at (umem s) path) (data (fsys s)) with
       | (FS_OK, Some (_, n)) => Ret (0, set_umem (fill_stat_file (umem s) st n) s)
       | _ => Ret (- ENOENT, s)
       end.

Definition sys_fstat (fd st : Z) (s : sysst) : out (Z * sysst) :=
  if st =? 0 then Ret (- EFAULT, s)
  else if bad_fd fd s then Ret (- EBADF, s)
  else match ftype (fd_at s fd) with
       | FD_CONSOLE => Ret (0, set_umem (fill_stat_file (umem s) st 0) s)
       | FD_RAMFILE => Ret (0, set_umem (fill_stat_file (umem s) st (len (fd_at s fd))) s)
       | FD_NONE => Ret (- EBADF, s)
       end.

(** ** Time, identification, statistics *)

Definition now (s : sysst) : Z := u32 (g_boot_epoch + ticks s / 100).

Definition sys_time (tloc : Z) (s : sysst) : out (Z * sysst) :=
  let t := now s in
  Ret (s32 t, if tloc =? 0 then s else set_umem (put (umem s) tloc (le32 t)) s).

(** The [n] bytes [cpy_str] leaves at its destination. *)
Definition cpy_str (s : chars) (n : nat) : chars :=
  let w := take (n - 1) (cstr s) in w ++ replicate (n - length w) 0.

Definition sys_uname (u : Z) (s : sysst) : out (Z * sysst) :=
  if u =? 0 then Ret (- EFAULT, s)
  else
    let m := put (umem s) u (cpy_str $"MyKernel" 65) in
    let m := put m (u + 65) (cpy_str (g_hostname s) 65) in
    let m := put m (u + 130) (cpy_str $"0.2.0" 65) in
    let m := put m (u + 195) (cpy_str $"hobby" 65) in
    let m := put m (u + 260) (cpy_str $"i686" 65) in
    Ret (0, set_umem m s).

Definition sys_gettimeofday (tv tz : Z) (s : sysst) : out (Z * sysst) :=
  if tv =? 0 then Ret (- EFAULT, s)
  else
    let m := put (umem s) tv (le32 (now s)) in
    Ret (0, set_umem (put m (tv + 4) (le32 (u32 (ticks s mod 100 * 10000)))) s).

Definition sys_sysinfo (info : Z) (s : sysst) : out (Z * sysst) :=
  if info =? 0 then Ret (- EFAULT, s)
  else
    '((used_b, total), free_b) ← Kmalloc.kmalloc_stats (heap s);
    let m := put (umem s) info (le32 (ticks s / 100)) in
    let m := put m (info + 4) (replicate 12 0) in
    let m := put m (info + 16) (le32 total) in
    let m := put m (info + 20) (le32 free_b) in
    let m := put m (info + 24) (replicate 16 0) in
    let m := put m (info + 40) (le16 1 ++ le16 0) in
    let m := put m (info + 44) (replicate 8 0) in
    Ret (0, set_umem (put m (info + 52) (le32 1)) s).

(** ** Vectored input and output *)

(** [for (i = 0; i < iovcnt; i++)] with [n] iterations left; [op] is
    [sys_write] or [sys_read]. *)
Fixpoint iov_loop (op : Z -> Z -> Z -> sysst -> out (Z * sysst)) (fd : Z) (n : nat) (iov total : Z)
  (s : sysst) : out (Z * sysst) :=
  match n with
  | O => Ret (total, s)
  | S n' =>
      let iov_base := get32 (umem s) iov in
      let iov_len := get32 (umem s) (iov + 4) in
      if (iov_base =? 0) && negb (iov_len =? 0) then Ret (- EFAULT, s)
      else
        '(k, s) ← op fd iov_base (s32 iov_len) s;
        if k <? 0 then Ret (k, s)
        else
          let total := s32 (total + k) in
          (* iov[i].iov_len is read again after the call *)
          if u32 k <? get32 (umem s) (iov + 4) then Ret (total, s)
          else iov_loop op fd n' (iov + 8) total s
  end.

Definition sys_iov (op : Z -> Z -> Z -> sysst -> out (Z * sysst)) (fd iov iovcnt : Z) (s : sysst)
  : out (Z * sysst) :=
  if (iovcnt <? 0) || (64 <? iovcnt) then Ret (- EINVAL, s)
  else if (iov =? 0) && negb (iovcnt =? 0) then Ret (- EFAULT, s)
  else iov_loop op fd (Z.to_nat iovcnt) iov 0 s.

Definition sys_writev (fd iov iovcnt : Z) (s : sysst) : out (Z * sysst) := sys_iov sys_write fd iov iovcnt s.
Definition sys_readv (fd iov iovcnt : Z) (s : sysst) : out (Z * sysst) := sys_iov sys_read fd iov iovcnt s.

(** ** Anonymous memory *)

Definition align_up_page (n : Z) : Z :=
  Z.land (u32 (n + PAGE_SIZE - 1)) (u32 (Z.lnot (PAGE_SIZE - 1))).

Definition sys_mmap2 (addr len prot flags fd pgoff : Z) (s : sysst) : out (Z * sysst) :=
  if len =? 0 then Ret (- EINVAL, s)
  else
    let len := align_up_page len in
    if MMAP_END - MMAP_BASE <? len then Ret (- ENOMEM, s)
    else if Z.land flags MAP_ANONYMOUS =? 0 then Ret (- ENOSYS, s)
    else
      let zeroed base s := Ret (s32 base, set_umem (put (umem s) base (replicate (Z.to_nat len) 0)) s) in
      if negb (Z.land flags MAP_FIXED =? 0) && negb (addr =? 0) then
        if (addr <? MMAP_BASE) || (MMAP_END <? u32 (addr + len)) then Ret (- EINVAL, s)
        else zeroed addr s
      else if MMAP_END <? u32 (mmap_bump s + len) then Ret (- ENOMEM, s)
      else zeroed (mmap_bump s) (set_brk (user_brk s) (u32 (mmap_bump s + len)) s).

Definition sys_munmap (addr len : Z) (s : sysst) : out (Z * sysst) := Ret (0, s).
Definition sys_mprotect (addr len prot : Z) (s : sysst) : out (Z * sysst) := Ret (0, s).
Definition sys_madvise (addr len advice : Z) (s : sysst) : out (Z * sysst) := Ret (0, s).

(** ** Threads, limits and the calls that pretend *)

Definition sys_set_thread_area (u : Z) (s : sysst) : out (Z * sysst) :=
  if u =? 0 then Ret (- EFAULT, s)
  else
    let m := if get32 (umem s) u =? 0xFFFFFFFF then put (umem s) u (le32 tls_entry) else umem s in
    Ret (0, set_misc (g_umask s) (get32 m (u + 4)) (g_hostname s) (rng s) (set_umem m s)).

Definition sys_get_thread_area (u : Z) (s : sysst) : out (Z * sysst) :=
  if u =? 0 then Ret (- EFAULT, s)
  else
    let m := put (umem s) (u + 4) (le32 (tls_base s)) in
    let m := put m u (le32 tls_entry) in
    Ret (0, set_umem (put m (u + 8) (le32 0xFFFFF)) s).

Definition sys_pipe (pipefd : Z) (s : sysst) : out (Z * sysst) :=
  Ret (if pipefd =? 0 then - EFAULT else - ENOSYS, s).

Definition sys_futex (uaddr op val timeout uaddr2 val3 : Z) (s : sysst) : out (Z * sysst) :=
  let cmd := Z.land op 0x7f in
  Ret (if cmd =? 0 then 0 else if cmd =? 1 then 0 else - ENOSYS, s).

Definition sys_getrlimit (resource rlim : Z) (s : sysst) : out (Z * sysst) :=
  if rlim =? 0 then Ret (- EFAULT, s)
  else Ret (0, set_umem (put (umem s) rlim (le32 0xFFFFFFFF ++ le32 0xFFFFFFFF)) s).

Definition sys_prctl (option a2 a3 a4 a5 : Z) (s : sysst) : out (Z * sysst) :=
  Ret (if (option =? 15) || (option =? 4) then 0 else - ENOSYS, s).

Definition sys_clock_getres (clk ts : Z) (s : sysst) : out (Z * sysst) :=
  if ts =? 0 then Ret (- EFAULT, s)
  else Ret (0, set_umem (put (umem s) ts (le32 0 ++ le32 10000000)) s).

Definition sys_clock_gettime (ts : Z) (s : sysst) : out (Z * sysst) :=
  if ts =? 0 then Ret (- EFAULT, s)
  else
    let m := put (umem s) ts (le32 (now s)) in
    Ret (0, set_umem (put m (ts + 4) (le32 (u32 (ticks s mod 100 * 10000000)))) s).

Definition sys_getdents64 (fd dirp count : Z) (s : sysst) : out (Z * sysst) := Ret (- ENOSYS, s).

(** One turn of the generator; [i] is the index of the byte. *)
Definition rng_step (tk i r : Z) : Z :=
  let r := Z.lxor r (u32 (Z.shiftl r 13)) in
  let r := Z.lxor r (Z.shiftr r 17) in
  let r := Z.lxor r (u32 (Z.shiftl r 5)) in
  u32 (r + (tk + i)).

Fixpoint random_bytes (n : nat) (tk i r : Z) : list Z * Z :=
  match n with
  | O => ([], r)
  | S n' =>
      let r := rng_step tk i r in
      let '(bs, r') := random_bytes n' tk (i + 1) r in (Z.shiftr r 16 :: bs, r')
  end.

Definition sys_getrandom (buf buflen flags : Z) (s : sysst) : out (Z * sysst) :=
  if (buf =? 0) || (buflen =? 0) then Ret (- EINVAL, s)
  else
    let '(bs, r) := random_bytes (Z.to_nat buflen) (ticks s) 0 (rng s) in
    Ret (s32 buflen, set_umem (put (umem s) buf bs)
                       (set_misc (g_umask s) (tls_base s) (g_hostname s) r s)).

Definition sys_sethostname (name len : Z) (s : sysst) : out (Z * sysst) :=
  if (name =? 0) || (len <=? 0) || (64 <=? len) then Ret (- EINVAL, s)
  else
    let h := c_strcpy_truncate (g_hostname s) (cstr_at (umem s) name) (Z.to_nat len + 1) in
    Ret (0, set_misc (g_umask s) (tls_base s) h (rng s) s).

Definition sys_gethostname (buf len : Z) (s : sysst) : out (Z * sysst) :=
  if (buf =? 0) || (len <=? 0) then Ret (- EINVAL, s)
  else Ret (0, set_umem (put (umem s) buf
                 (take (Z.to_nat (len - 1)) (cstr (g_hostname s)) ++ [0])) s).

Definition sys_umask (mask : Z) (s : sysst) : out (Z * sysst) :=
  Ret (s32 (g_umask s),
       if mask =? 0xFFFFFFFF then s
       else set_misc (Z.land mask 0x1FF) (tls_base s) (g_hostname s) (rng s) s).

(** ** The handler *)

Definition SYS_EXIT : Z := 1.
Definition SYS_EXIT_GROUP : Z := 252.
Definition SYS_READ : Z := 3.
Definition SYS_WRITE : Z := 4.
Definition SYS_OPEN : Z := 5.
Definition SYS_CLOSE : Z := 6.
Definition SYS_CREAT : Z := 8.
Definition SYS_LSEEK : Z := 19.
Definition SYS_DUP : Z := 41.
Definition SYS_DUP2 : Z := 63.
Definition SYS_BRK : Z := 45.
Definition SYS_GETPID : Z := 20.
Definition SYS_GETTID : Z := 224.
Definition SYS_GETPPID : Z := 64.
Definition SYS_CHDIR : Z := 12.
Definition SYS_MKDIR : Z := 39.
Definition SYS_RMDIR : Z := 40.
Definition SYS_UNLINK : Z := 10.
Definition SYS_RENAME : Z := 38.
Definition SYS_ACCESS : Z := 33.
Definition SYS_GETCWD : Z := 183.
Definition SYS_STAT : Z := 106.
Definition SYS_LSTAT : Z := 107.
Definition SYS_FSTAT : Z := 108.
Definition SYS_TIME : Z := 13.
Definition SYS_CLOCK_GETTIME : Z := 265.
Definition SYS_YIELD : Z := 158.
Definition SYS_NANOSLEEP : Z := 162.
Definition SYS_IOCTL : Z := 54.
Definition SYS_FCNTL : Z := 55.
Definition SYS_CHMOD : Z := 15.
Definition SYS_SETSID : Z := 66.
Definition SYS_FORK : Z := 2.
Definition SYS_WAITPID : Z := 7.
Definition SYS_EXECVE : Z := 11.
Definition SYS_PIPE : Z := 42.
Definition SYS_LINK : Z := 9.
Definition SYS_SYMLINK : Z := 83.
Definition SYS_READLINK : Z := 85.
Definition SYS_MMAP : Z := 90.
Definition SYS_MMAP2 : Z := 192.
Definition SYS_MUNMAP : Z := 91.
Definition SYS_MPROTECT : Z := 125.
Definition SYS_MADVISE : Z := 219.
Definition SYS_MREMAP : Z := 163.
Definition SYS_MSYNC : Z := 144.
Definition SYS_MLOCK : Z := 150.
Definition SYS_MUNLOCK : Z := 151.
Definition SYS_MLOCKALL : Z := 152.
Definition SYS_MUNLOCKALL : Z := 153.
Definition SYS_UNAME : Z := 122.
Definition SYS_GETTIMEOFDAY : Z := 78.
Definition SYS_SYSINFO : Z := 116.
Definition SYS_WRITEV : Z := 146.
Definition SYS_READV : Z := 145.
Definition SYS_SYNC : Z := 36.
Definition SYS_CLOCK_NANOSLEEP : Z := 267.
Definition SYS_SET_THREAD_AREA : Z := 243.
Definition SYS_GET_THREAD_AREA : Z := 244.
Definition SYS_FUTEX : Z := 240.
Definition SYS_PIPE2 : Z := 331.
Definition SYS_GETRLIMIT : Z := 76.
Definition SYS_UGETRLIMIT : Z := 191.
Definition SYS_SETRLIMIT : Z := 75.
Definition SYS_PRCTL : Z := 172.
Definition SYS_CLOCK_GETRES : Z := 266.
Definition SYS_GETDENTS64 : Z := 220.
Definition SYS_GETDENTS : Z := 141.
Definition SYS_RT_SIGPROCMASK : Z := 175.
Definition SYS_SIGPROCMASK : Z := 126.
Definition SYS_RT_SIGACTION : Z := 174.
Definition SYS_SIGACTION : Z := 67.
Definition SYS_UMASK : Z := 60.
Definition SYS_PAUSE : Z := 29.
Definition SYS_ALARM : Z := 27.
Definition SYS_TIMES : Z := 43.
Definition SYS_GETPGID : Z := 132.
Definition SYS_GETSID : Z := 147.
Definition SYS_TGKILL : Z := 270.
Definition SYS_KILL : Z := 37.
Definition SYS_OPENAT : Z := 295.
Definition SYS_POLL : Z := 168.
Definition SYS_SELECT : Z := 142.
Definition SYS_REBOOT : Z := 88.
Definition SYS_GETRANDOM : Z := 355.
Definition SYS_NICE : Z := 34.
Definition SYS_SETHOSTNAME : Z := 74.

Record registers : Type := mk_regs { eax : Z; ebx : Z; ecx : Z; edx : Z; esi : Z; edi : Z; ebp : Z }.

(** Calls into the process, scheduler, timer and power components. *)
Inductive kcall : Type :=
| process_exit_to_kernel (code : Z)
| sched_yield
| timer_busy_ms (ms : Z)
| machine_shutdown
| machine_reboot.

Definition one_of (num : Z) (l : list Z) : bool := existsb (Z.eqb num) l.

(** The id [getpid], [gettid] and [setsid] report. *)
Definition own_id (s : sysst) : Z := default 1 (current_id s).

Abbreviation result := (out ((Z * option kcall) * sysst)).
Definition ret (c : out (Z * sysst)) : result := '(v, s') ← c; Ret ((v, None), s').
Definition val (v : Z) (s : sysst) : result := Ret ((v, None), s).
Definition call (k : kcall) (v : Z) (s : sysst) : result := Ret ((v, Some k), s).
Definition int (z : Z) : Z := s32 z.

(** The switch of [syscall_handler] from [SYS_SET_THREAD_AREA] to [default]. *)
Definition dispatch_tail (num : Z) (r : registers) (s : sysst) : result :=
  if one_of num [SYS_SET_THREAD_AREA] then ret (sys_set_thread_area (ebx r) s)
  else if one_of num [SYS_GET_THREAD_AREA] then ret (sys_get_thread_area (ebx r) s)
  else if one_of num [SYS_FUTEX] then
    ret (sys_futex (ebx r) (int (ecx r)) (edx r) (esi r) (edi r) (ebp r) s)
  else if one_of num [SYS_PIPE2] then ret (sys_pipe (ebx r) s)
  else if one_of num [SYS_GETRLIMIT; SYS_UGETRLIMIT] then ret (sys_getrlimit (ebx r) (ecx r) s)
  else if one_of num [SYS_SETRLIMIT] then val 0 s
  else if one_of num [SYS_PRCTL] then
    ret (sys_prctl (int (ebx r)) (ecx r) (edx r) (esi r) (edi r) s)
  else if one_of num [SYS_CLOCK_GETRES] then ret (sys_clock_getres (int (ebx r)) (ecx r) s)
  else if one_of num [SYS_GETDENTS64; SYS_GETDENTS] then
    ret (sys_getdents64 (int (ebx r)) (ecx r) (edx r) s)
  else if one_of num [SYS_RT_SIGPROCMASK; SYS_SIGPROCMASK; SYS_RT_SIGACTION; SYS_SIGACTION] then val 0 s
  else if one_of num [SYS_UMASK] then ret (sys_umask (ebx r) s)
  else if one_of num [SYS_PAUSE] then val (- EINTR) s
  else if one_of num [SYS_ALARM] then val 0 s
  else if one_of num [SYS_TIMES] then val (int (ticks s)) s
  else if one_of num [SYS_GETPGID; SYS_GETSID] then val 1 s
  else if one_of num [SYS_TGKILL; SYS_KILL] then val (- ENOSYS) s
  else if one_of num [SYS_OPENAT] then ret (sys_open (ecx r) (int (edx r)) s)
  else if one_of num [SYS_POLL; SYS_SELECT] then val 0 s
  else if one_of num [SYS_REBOOT] then
    call (if (edx r =? 0x4321FEDC) || (edx r =? 0xCDEF0123) then machine_shutdown
          else machine_reboot) 0 s
  else if one_of num [SYS_GETRANDOM] then ret (sys_getrandom (ebx r) (ecx r) (edx r) s)
  else if one_of num [SYS_NICE] then val 0 s
  else if one_of num [SYS_SETHOSTNAME] then ret (sys_sethostname (ebx r) (int (ecx r)) s)
  else val (- ENOSYS) s.

(** The switch: the value left in [eax], the call made into another
    component, the new state.  [process_exit_to_kernel] does not return on
    the machine; the value next to it is never seen. *)
Definition dispatch (r : registers) (s : sysst) : result :=
  let num := eax r in
  if one_of num [SYS_EXIT; SYS_EXIT_GROUP] then call (process_exit_to_kernel (int (ebx r))) (- ENOSYS) s
  else if one_of num [SYS_READ] then ret (sys_read (int (ebx r)) (ecx r) (int (edx r)) s)
  else if one_of num [SYS_WRITE] then ret (sys_write (int (ebx r)) (ecx r) (int (edx r)) s)
  else if one_of num [SYS_OPEN] then ret (sys_open (ebx r) (int (ecx r)) s)
  else if one_of num [SYS_CLOSE] then ret (sys_close (int (ebx r)) s)
  else if one_of num [SYS_CREAT] then
    ret (sys_open (ebx r) (Z.lor (Z.lor O_CREAT O_WRONLY) O_TRUNC) s)
  else if one_of num [SYS_LSEEK] then ret (sys_lseek (int (ebx r)) (int (ecx r)) (int (edx r)) s)
  else if one_of num [SYS_DUP] then ret (sys_dup (int (ebx r)) s)
  else if one_of num [SYS_DUP2] then ret (sys_dup2 (int (ebx r)) (int (ecx r)) s)
  else if one_of num [SYS_BRK] then
    ret (let '(v, s') := sys_brk (ebx r) s in Ret (int v, s'))
  else if one_of num [SYS_GETPID; SYS_GETTID] then val (own_id s) s
  else if one_of num [SYS_GETPPID] then val 0 s
  else if one_of num [24; 47; 49; 50; 199; 200; 201; 202] then val 0 s
  else if one_of num [SYS_CHDIR] then ret (sys_chdir (ebx r) s)
  else if one_of num [SYS_MKDIR] then ret (sys_mkdir (ebx r) (int (ecx r)) s)
  else if one_of num [SYS_RMDIR; SYS_UNLINK] then ret (sys_unlink (ebx r) s)
  else if one_of num [SYS_RENAME] then ret (sys_rename (ebx r) (ecx r) s)
  else if one_of num [SYS_ACCESS] then ret (sys_access (ebx r) (int (ecx r)) s)
  else if one_of num [SYS_GETCWD] then ret (sys_getcwd (ebx r) (ecx r) s)
  else if one_of num [SYS_STAT; SYS_LSTAT] then ret (sys_stat (ebx r) (ecx r) s)
  else if one_of num [SYS_FSTAT] then ret (sys_fstat (int (ebx r)) (ecx r) s)
  else if one_of num [SYS_TIME] then ret (sys_time (ebx r) s)
  else if one_of num [SYS_CLOCK_GETTIME] then ret (sys_clock_gettime (ecx r) s)
  else if one_of num [SYS_YIELD; SYS_NANOSLEEP] then call sched_yield 0 s
  else if one_of num [SYS_IOCTL; SYS_FCNTL; SYS_CHMOD] then val 0 s
  else if one_of num [SYS_SETSID] then val (own_id s) s
  else if one_of num [SYS_FORK; SYS_WAITPID; SYS_EXECVE; SYS_PIPE; SYS_LINK; SYS_SYMLINK;
                      SYS_READLINK; SYS_MMAP] then
    ret (sys_mmap2 (ebx r) (ecx r) (edx r) (esi r) (int (edi r)) (ebp r / 4096) s)
  else if one_of num [SYS_MMAP2] then
    ret (sys_mmap2 (ebx r) (ecx r) (edx r) (esi r) (int (edi r)) (ebp r) s)
  else if one_of num [SYS_MUNMAP] then ret (sys_munmap (ebx r) (ecx r) s)
  else if one_of num [SYS_MPROTECT] then ret (sys_mprotect (ebx r) (ecx r) (edx r) s)
  else if one_of num [SYS_MADVISE; SYS_MREMAP] then ret (sys_madvise (ebx r) (ecx r) (int (edx r)) s)
  else if one_of num [SYS_MSYNC; SYS_MLOCK; SYS_MUNLOCK; SYS_MLOCKALL; SYS_MUNLOCKALL] then val 0 s
  else if one_of num [SYS_UNAME] then ret (sys_uname (ebx r) s)
  else if one_of num [SYS_GETTIMEOFDAY] then ret (sys_gettimeofday (ebx r) (ecx r) s)
  else if one_of num [SYS_SYSINFO] then ret (sys_sysinfo (ebx r) s)
  else if one_of num [SYS_WRITEV] then ret (sys_writev (int (ebx r)) (ecx r) (int (edx r)) s)
  else if one_of num [SYS_READV] then ret (sys_readv (int (ebx r)) (ecx r) (int (edx r)) s)
  else if one_of num [SYS_SYNC] then val 0 s
  else if one_of num [SYS_CLOCK_NANOSLEEP] then call (timer_busy_ms 10) 0 s
  else dispatch_tail num r s.

(** [syscall_handler]: dispatch, then [regs->eax = (uint32_t)ret]. *)
Definition syscall_handler (r : registers) (s : sysst) : out ((registers * option kcall) * sysst) :=
  '((v, k), s') ← dispatch r s;
  Ret ((mk_regs (u32 v) (ebx r) (ecx r) (edx r) (esi r) (edi r) (ebp r), k), s').

(** ** Power on *)

Definition power_on (f : fs_state) (t : Terminal.term) : sysst :=
  mk_sys (Kmalloc.mk_kstate ∅ 0 0) (replicate 32 bss_fd) USER_HEAP_BASE MMAP_BASE 0x12 0
    ($"mykernel" ++ replicate 56 0) 0xA5A5A5A5 f t 0 None.

End Syscall.
