(* ===== verification/SyscallSpec.v ===== *)
(** * System calls: what the int 0x80 interface promises

    The invariant every call keeps ([sys_wf]), the memory a call may store to
    ([writes_of]), reading files through descriptors, seeking, and the mmap
    arena. *)

From S2P Require Import Prelude Memory Kmalloc Terminal Fs FsInv FsProps FsSpec Syscall.
Import Fs FsInv FsProps Syscall.

Module SyscallSpec.

(** ** The invariant *)

Definition fd_ok (e : fd_entry) : Prop :=
  used e = true ->
  ftype e = FD_CONSOLE \/
  (ftype e = FD_RAMFILE /\ 0 <= pos e <= len e /\ len e < FS_FILE_MAX /\
   exists i, fdata e = Some i /\ (i < FS_MAX_NODES)%nat).

Record sys_wf (s : sysst) : Prop := mk_sys_wf {
  sw_fs : idle (fsys s);
  sw_tty : Terminal.term_wf (tty s);
  sw_len : length (fds s) = 32%nat;
  sw_fds : forall i, (i < 32)%nat -> fd_ok (fds s !!! i);
  sw_std : forall i, (i < 3)%nat -> used (fds s !!! i) = true;
  sw_brk : USER_HEAP_BASE <= user_brk s <= USER_HEAP_MAX;
  sw_bump : MMAP_BASE <= mmap_bump s <= MMAP_END /\ (PAGE_SIZE | mmap_bump s);
  sw_umask : 0 <= g_umask s < 512;
  sw_host : length (g_hostname s) = 64%nat /\ (length (cstr (g_hostname s)) < 64)%nat;
}.

(** The call returns, keeps the invariant, and the mmap arena only grows. *)
Definition good {A} (s : sysst) (c : out (A * sysst)) : Prop :=
  exists v s', c = Ret (v, s') /\ sys_wf s' /\ mmap_bump s <= mmap_bump s'.

Lemma good_ret {A} s (v : A) s' :
  sys_wf s' -> mmap_bump s <= mmap_bump s' -> good s (Ret (v, s')).
Proof. intros H1 H2. exists v, s'. auto. Qed.

Lemma good_if {A} s (b : bool) (x y : out (A * sysst)) :
  (b = true -> good s x) -> (b = false -> good s y) -> good s (if b then x else y).
Proof. destruct b; auto. Qed.

Lemma wf_umem m s : sys_wf s -> sys_wf (set_umem m s).
Proof. by intros []. Qed.
Lemma wf_tty t s : Terminal.term_wf t -> sys_wf s -> sys_wf (set_tty t s).
Proof. by intros ? []. Qed.
Lemma wf_fsys f s : idle f -> sys_wf s -> sys_wf (set_fsys f s).
Proof. by intros ? []. Qed.
Lemma wf_set_brk b m s :
  USER_HEAP_BASE <= b <= USER_HEAP_MAX -> MMAP_BASE <= m <= MMAP_END -> (PAGE_SIZE | m) ->
  sys_wf s -> sys_wf (set_brk b m s).
Proof. intros ? ? ? []. by constructor. Qed.
Lemma wf_misc um tb h r s :
  0 <= um < 512 -> length h = 64%nat -> (length (cstr h) < 64)%nat ->
  sys_wf s -> sys_wf (set_misc um tb h r s).
Proof. intros ? ? ? []. by constructor. Qed.

Lemma fds_upd i f s (j : nat) :
  length (fds s) = 32%nat -> 0 <= i < 32 ->
  fds (upd_fd i f s) !!! j = if decide (j = Z.to_nat i) then f (fd_at s i) else fds s !!! j.
Proof.
  intros Hl Hi. unfold upd_fd. cbn [fds set_fds]. rewrite list_lookup_total_alter.
  destruct (decide (j = Z.to_nat i)) as [->|]; case_decide; try done; lia.
Qed.

Lemma wf_upd_fd i f s :
  0 <= i < 32 -> fd_ok (f (fd_at s i)) -> (i < 3 -> used (f (fd_at s i)) = true) ->
  sys_wf s -> sys_wf (upd_fd i f s).
Proof.
  intros Hi Hf Hu [? ? Hl Hfd Hst ? ? ? ?]. constructor; auto.
  - unfold upd_fd. cbn [fds set_fds]. by rewrite length_alter.
  - intros j Hj. rewrite fds_upd by done. case_decide; auto.
  - intros j Hj. rewrite fds_upd by done. case_decide; [apply Hu; lia | auto].
Qed.

Lemma fd_at_upd i f s :
  sys_wf s -> 0 <= i < 32 -> fd_at (upd_fd i f s) i = f (fd_at s i).
Proof. intros Hwf Hi. unfold fd_at at 1. rewrite fds_upd by (by try apply sw_len). by rewrite decide_True. Qed.

#[export] Hint Resolve wf_umem wf_tty wf_fsys : kernel.

(** ** Every call keeps it *)

Lemma good_fd fd s :
  sys_wf s -> bad_fd fd s = false -> 0 <= fd < 32 /\ used (fd_at s fd) = true /\ fd_ok (fd_at s fd).
Proof.
  unfold bad_fd, FD_MAX. intros Hwf H. apply orb_false_iff in H as [H Hu].
  apply orb_false_iff in H as [H1 H2]. apply negb_false_iff in Hu.
  split_and!; [lia | lia | done | apply sw_fds; [done | lia]].
Qed.

Lemma fd_alloc_spec s :
  fd_alloc s = - EMFILE \/ (3 <= fd_alloc s < 32 /\ used (fd_at s (fd_alloc s)) = false).
Proof.
  unfold fd_alloc. destruct for_find as [i|] eqn:E; [right | by left].
  apply for_find_Some in E as (Hi & Hu & _). change (Z.to_nat FD_MAX - 3)%nat with 29%nat in Hi.
  apply negb_true_iff in Hu. unfold fd_at. rewrite Nat2Z.id. split; [lia | done].
Qed.

(** A call that ends without touching the arena. *)
Ltac settle :=
  apply good_ret; [repeat (apply wf_umem || apply wf_tty || apply wf_fsys); auto
                  | cbn [mmap_bump set_umem set_tty set_fsys set_misc set_fds upd_fd]; lia].
(** Walk through the guards of a call. *)
Ltac guards := repeat (apply good_if; intros ?; [settle; fail|]).

Lemma good_write fd buf count s : sys_wf s -> good s (sys_write fd buf count s).
Proof.
  intros Hwf. unfold sys_write. guards. apply good_if; intros _; [|settle]. settle.
  generalize (get (umem s) buf (Z.to_nat count)). intros l.
  assert (Ht : Terminal.term_wf (tty s)) by apply Hwf. revert Ht. generalize (tty s).
  induction l as [|c l IH]; intros t Ht; simpl; [done|]. apply IH, Terminal.terminal_putchar_wf, Ht.
Qed.

Lemma node_content s i :
  sys_wf s -> (i < FS_MAX_NODES)%nat ->
  length (content (nodes (data (fsys s)) !!! i)) = Z.to_nat FS_FILE_MAX.
Proof. intros Hwf Hi. destruct (sw_fs s Hwf) as [Hd _]. by destruct (wf_arr _ Hd i Hi). Qed.

(** Reading an open file never faults: what comes back is the part of the
    node's buffer at the current position. *)
Lemma read_file fd buf count s e i :
  sys_wf s -> 0 <= count < 2147483648 -> buf <> 0 -> bad_fd fd s = false ->
  e = fd_at s fd -> ftype e = FD_RAMFILE -> fdata e = Some i ->
  let n := Z.min count (len e - pos e) in
  sys_read fd buf count s =
  Ret (n, upd_fd fd (set_fpos (pos e + n)) (set_umem (put (umem s) buf
    (take (Z.to_nat n) (drop (Z.to_nat (pos e)) (content (nodes (data (fsys s)) !!! i))))) s)).
Proof.
  intros Hwf Hc Hb Hfd -> Ht Hi n. unfold sys_read.
  rewrite (proj2 (Z.ltb_ge count 0)), (proj2 (Z.eqb_neq buf 0)), Hfd, Ht by lia.
  destruct (good_fd fd s Hwf Hfd) as (Hr & Hu & Hok).
  destruct (Hok Hu) as [?|(_ & Hp & Hl & j & Hj & Hjb)]; [congruence|]. rewrite Hi in Hj. injection Hj as ->.
  unfold FS_FILE_MAX in Hl. rewrite u32_small by (unfold in_u32; lia).
  assert ((if len (fd_at s fd) - pos (fd_at s fd) <? count
           then s32 (len (fd_at s fd) - pos (fd_at s fd)) else count) = n) as ->.
  { unfold n. destruct (Z.ltb_spec (len (fd_at s fd) - pos (fd_at s fd)) count); [|lia].
    rewrite s32_small by (unfold in_s32; lia). lia. }
  unfold read_data. rewrite Hi, node_content by done. unfold FS_FILE_MAX.
  rewrite (proj2 (Z.leb_le _ _)) by lia. cbn [mbind out_mbind].
  rewrite u32_small by (unfold in_u32; lia). done.
Qed.

Lemma good_read fd buf count s :
  in_s32 count -> sys_wf s -> good s (sys_read fd buf count s).
Proof.
  intros Hs Hwf. unfold in_s32 in Hs. destruct (Z.ltb_spec count 0).
  { unfold sys_read. rewrite (proj2 (Z.ltb_lt count 0)) by lia. settle. }
  destruct (Z.eqb_spec buf 0) as [->|Hb].
  { unfold sys_read. rewrite (proj2 (Z.ltb_ge count 0)) by lia. settle. }
  destruct (bad_fd fd s) eqn:Hfd.
  { unfold sys_read. rewrite (proj2 (Z.ltb_ge count 0)), (proj2 (Z.eqb_neq buf 0)), Hfd by lia. settle. }
  destruct (good_fd fd s Hwf Hfd) as (Hr & Hu & Hok).
  destruct (Hok Hu) as [Ht|(Ht & Hp & Hl & i & Hi & Hib)].
  { unfold sys_read. rewrite (proj2 (Z.ltb_ge count 0)), (proj2 (Z.eqb_neq buf 0)), Hfd, Ht by lia. settle. }
  rewrite (read_file fd buf count s (fd_at s fd) i) by (done || lia).
  apply good_ret; [|done]. apply wf_upd_fd; auto; [|by apply wf_umem].
  intros _. right. cbn [set_fpos ftype pos len fdata]. change (fd_at (set_umem _ s) fd) with (fd_at s fd).
  split_and!; [done | lia | lia | done | eauto].
Qed.

Lemma fs_read_ok p d :
  wf d -> match fs_read p d with
          | (FS_OK, Some (i, n)) => (i < FS_MAX_NODES)%nat /\ 0 <= n < FS_FILE_MAX
          | (FS_OK, None) => False
          | (_, r) => r = None
          end.
Proof.
  intros Hwf. unfold fs_read. destruct fs_find_child as [i|] eqn:E; [|done].
  destruct is_file eqn:Ef; simpl; [|done].
  apply find_child_Some in E as ((Hi & Hlive) & _). split; [done|].
  destruct (wf_file _ Hwf i) as [Hl _]; [by split | by apply is_file_true | exact Hl].
Qed.

Lemma good_open_file p flags s :
  sys_wf s -> exists r s1, open_file p flags s = Ret (r, s1) /\ sys_wf s1 /\
    mmap_bump s1 = mmap_bump s /\ umem s1 = umem s /\
    match r with Some (i, n) => (i < FS_MAX_NODES)%nat /\ 0 <= n < FS_FILE_MAX | None => True end.
Proof.
  intros Hwf. unfold open_file. pose proof (fs_read_ok p _ (proj1 (sw_fs s Hwf))) as Hr.
  destruct fs_read as [r0 o]. destruct (decide (r0 = FS_OK)) as [->|Hne].
  { eexists _, _. split; [reflexivity|]. split_and!; auto. by destruct o as [[]|]. }
  assert (forall (A : Type) (x y : A), match r0 with FS_OK => x | _ => y end = y) as -> by (by destruct r0).
  destruct (_ =? 0). { eexists _, _. split; [reflexivity|]. by split_and!. }
  destruct (exec_ret (OpTouch p) (fsys s)) as (r & f & Hex & Hid & _); [apply Hwf | done |].
  cbn [exec] in Hex. rewrite Hex. cbn [mbind out_mbind].
  assert (exists r2 f2, (if bool_decide (r = FS_OK) then Ret (r, f) else fs_write p [] f) = Ret (r2, f2) /\ idle f2)
    as (r2 & f2 & -> & Hid2).
  { case_bool_decide; [by eexists _, _|].
    destruct (exec_ret (OpWrite p []) f) as (r2 & f2 & Hex2 & Hid2 & _); [done | done |]. eauto. }
  cbn [mbind out_mbind]. pose proof (fs_read_ok p _ (proj1 Hid2)) as Hr2.
  case_bool_decide; eexists _, _; (split; [reflexivity|]); split_and!; auto with kernel.
  destruct fs_read as [r3 [[]|]]; simpl; [|done]. by destruct r3.
Qed.

Lemma good_open path flags s : sys_wf s -> good s (sys_open path flags s).
Proof.
  intros Hwf. unfold sys_open. guards.
  destruct (good_open_file (cstr_at (umem s) path) flags s Hwf) as (r & s1 & -> & Hwf1 & Hb & _ & Hr).
  cbn [mbind out_mbind]. destruct r as [[i n]|]; [|apply good_ret; [done | lia]].
  apply good_if; intros Hfd; [apply good_ret; [done | lia]|].
  destruct (fd_alloc_spec s1) as [E|[Hfd1 _]]; [rewrite E in Hfd; done|].
  apply good_ret; [|cbn [mmap_bump upd_fd set_fds]; lia]. apply wf_upd_fd; auto; [lia|].
  intros _. right. cbn [ftype pos len fdata]. destruct Hr as [Hi Hn].
  split; [done|]. destruct (Z.land flags O_APPEND =? 0); (split_and!; [lia | lia | lia | eauto]).
Qed.

Lemma good_close fd s : sys_wf s -> good s (sys_close fd s).
Proof.
  intros Hwf. unfold sys_close. apply good_if; intros H; [settle|].
  apply orb_false_iff in H as [H _]. apply orb_false_iff in H as [H1 H2]. unfold FD_MAX in H2.
  settle. apply wf_upd_fd; [lia | | lia | apply wf_upd_fd; [lia | done | lia | done]].
  rewrite fd_at_upd by (done || lia). done.
Qed.

Lemma good_lseek fd offset whence s :
  sys_wf s -> good s (sys_lseek fd offset whence s).
Proof.
  intros Hwf. unfold sys_lseek. apply good_if; intros Hfd; [settle|].
  destruct (good_fd fd s Hwf Hfd) as (Hr & Hu & Hok).
  apply good_if; intros Ht; [settle|]. apply negb_false_iff, bool_decide_eq_true in Ht.
  destruct (Hok Hu) as [?|(_ & Hp & Hl & i & Hi & Hib)]; [congruence|]. unfold FS_FILE_MAX in Hl.
  destruct (if whence =? SEEK_SET then Some 0 else _) as [base|]; [|settle].
  apply good_if; intros Hn; [settle|]. settle. apply wf_upd_fd; auto. intros _. right.
  cbn [set_fpos ftype pos len fdata]. apply Z.ltb_ge in Hn.
  split_and!; [done | | | done | eauto];
    destruct (Z.ltb_spec (len (fd_at s fd)) (s32 (base + offset))); try lia;
    rewrite s32_small by (unfold in_s32; lia); lia.
Qed.

(** [fds[n] = fds[fd]; fds[n].used = 1] *)
Lemma wf_copy_fd n e s :
  sys_wf s -> 0 <= n < 32 -> used e = true -> fd_ok e ->
  sys_wf (upd_fd n (set_used true) (upd_fd n (fun _ => e) s)).
Proof.
  intros Hwf Hn Hu Hok. assert (sys_wf (upd_fd n (fun _ => e) s)) by (apply wf_upd_fd; auto).
  apply wf_upd_fd; auto. rewrite fd_at_upd by done. intros _. by apply Hok.
Qed.

Lemma good_dup fd s : sys_wf s -> good s (sys_dup fd s).
Proof.
  intros Hwf. unfold sys_dup. apply good_if; intros Hfd; [settle|].
  destruct (good_fd fd s Hwf Hfd) as (Hr & Hu & Hok). apply good_if; intros Hn; [settle|].
  destruct (fd_alloc_spec s) as [E|[Hfd1 _]]; [rewrite E in Hn; done|].
  settle. apply wf_copy_fd; auto. lia.
Qed.

Lemma good_dup2 oldfd newfd s : sys_wf s -> good s (sys_dup2 oldfd newfd s).
Proof.
  intros Hwf. unfold sys_dup2. apply good_if; intros Hfd; [settle|].
  destruct (good_fd oldfd s Hwf Hfd) as (Hr & Hu & Hok).
  apply good_if; intros Hn; [settle|]. apply orb_false_iff in Hn as [H1 H2]. unfold FD_MAX in H2.
  apply good_if; intros Hne; [settle|].
  set (s1 := if _ && _ then _ else _).
  assert (Hs1 : sys_wf s1 /\ fd_at s1 oldfd = fd_at s oldfd /\ mmap_bump s1 = mmap_bump s).
  { unfold s1. destruct (_ && _) eqn:Eb; [|done]. apply andb_true_iff in Eb as [_ Eb].
    split_and!; [apply wf_upd_fd; [lia | done | lia | done] | | done].
    unfold fd_at at 1. rewrite fds_upd by (lia || by apply sw_len). by rewrite decide_False by lia. }
  destruct Hs1 as (Hwf1 & He & Hb). apply good_ret; [|cbn [mmap_bump upd_fd set_fds]; lia].
  rewrite He. apply wf_copy_fd; auto. lia.
Qed.

(** A call that runs one file-system operation and maps its result. *)
Lemma good_fs_op op (k : fs_result -> Z) s :
  op_ok op -> sys_wf s -> good s ('(r, f) ← exec op (fsys s); Ret (k r, set_fsys f s)).
Proof.
  intros Hop Hwf. destruct (exec_ret op (fsys s) (sw_fs s Hwf) Hop) as (r & f & -> & Hid & _).
  cbn [mbind out_mbind]. settle.
Qed.

Lemma good_names path mode newp s :
  sys_wf s -> good s (sys_chdir path s) /\ good s (sys_mkdir path mode s) /\
  good s (sys_unlink path s) /\ good s (sys_rename path newp s) /\ good s (sys_access path mode s).
Proof.
  intros Hwf. split_and!.
  - unfold sys_chdir. guards. by apply (good_fs_op (OpCd _)).
  - unfold sys_mkdir. guards. by apply (good_fs_op (OpMkdir _)).
  - unfold sys_unlink. guards. by apply (good_fs_op (OpRm _)).
  - unfold sys_rename. guards. by apply (good_fs_op (OpMv _ _)).
  - unfold sys_access. guards. destruct fs_read as [[] ?]; settle.
Qed.

Lemma good_status path fd st buf size s :
  sys_wf s -> good s (sys_stat path st s) /\ good s (sys_fstat fd st s) /\ good s (sys_getcwd buf size s).
Proof.
  intros Hwf. split_and!.
  - unfold sys_stat. guards. destruct fs_read as [[] [[]|]]; settle.
  - unfold sys_fstat. guards. destruct ftype; settle.
  - unfold sys_getcwd. guards. settle.
Qed.

Lemma good_info a b s :
  sys_wf s -> good s (sys_time a s) /\ good s (sys_uname a s) /\ good s (sys_gettimeofday a b s) /\
  good s (sys_clock_gettime a s) /\ good s (sys_clock_getres b a s) /\ good s (sys_getrlimit b a s).
Proof.
  intros Hwf. split_and!;
    unfold sys_time, sys_uname, sys_gettimeofday, sys_clock_gettime, sys_clock_getres, sys_getrlimit;
    cbv zeta; guards; try settle.
  all: destruct (a =? 0); settle.
Qed.

Lemma good_sysinfo info s bs :
  sys_wf s -> Kmalloc.heap_rep (heap s) bs -> good s (sys_sysinfo info s).
Proof.
  intros Hwf Hh. unfold sys_sysinfo. guards.
  rewrite (Kmalloc.stats_run _ _ Hh). cbn [mbind out_mbind]. settle.
Qed.

Lemma good_iov op fd iov cnt s :
  (forall fd buf k s, in_s32 k -> sys_wf s -> good s (op fd buf k s)) ->
  sys_wf s -> good s (sys_iov op fd iov cnt s).
Proof.
  intros Hop Hwf. unfold sys_iov. guards. generalize 0 as total. generalize iov as io.
  assert (Hm : mmap_bump s <= mmap_bump s) by lia. revert Hm.
  generalize s at 1 3 as s0. revert s Hwf.
  induction (Z.to_nat cnt) as [|n IH]; intros s Hwf s0 Hm io total; cbn [iov_loop];
    [by apply good_ret|]. cbv zeta.
  apply good_if; intros _; [by apply good_ret|].
  destruct (Hop fd (get32 (umem s) io) (s32 (get32 (umem s) (io + 4))) s (s32_range _) Hwf)
    as (v & s1 & -> & Hwf1 & Hm1). cbn [mbind out_mbind].
  apply good_if; intros _; [apply good_ret; [done | lia]|].
  apply good_if; intros _; [apply good_ret; [done | lia]|]. apply IH; [done | lia].
Qed.

(** ** The mmap arena *)

Lemma align_up_page_eq n : align_up_page n = 4096 * (u32 (n + 4095) / 4096).
Proof.
  unfold align_up_page, PAGE_SIZE. replace (n + 4096 - 1) with (n + 4095) by lia.
  apply (land_clear_low _ 12); [apply u32_range | lia].
Qed.

Lemma align_up_page_spec n :
  0 < n <= 0xFFFFF000 -> n <= align_up_page n < n + 4096 /\ (4096 | align_up_page n).
Proof.
  intros H. rewrite align_up_page_eq, u32_small by (unfold in_u32; lia).
  split; [zlia | apply Z.divide_factor_l].
Qed.

Lemma align_up_page_range n : 0 <= align_up_page n <= 0xFFFFF000 /\ (4096 | align_up_page n).
Proof.
  rewrite align_up_page_eq. pose proof (u32_range (n + 4095)).
  split; [zlia | apply Z.divide_factor_l].
Qed.

Lemma good_mmap2 addr n prot flags fd pgoff s :
  sys_wf s -> good s (sys_mmap2 addr n prot flags fd pgoff s).
Proof.
  intros Hwf. unfold sys_mmap2. cbv zeta. pose proof (align_up_page_range n) as [Hr Hd].
  destruct (sw_bump s Hwf) as [Hb Hbd]. unfold MMAP_BASE, MMAP_END in *.
  apply good_if; intros _; [settle|]. apply good_if; intros Hl; [settle|].
  apply good_if; intros _; [settle|].
  apply good_if; intros _; [apply good_if; intros _; settle|].
  apply good_if; intros He; [settle|].
  rewrite u32_small in He |- * by (unfold in_u32; lia).
  apply good_ret; [|cbn [mmap_bump set_umem set_brk]; lia]. apply wf_umem, wf_set_brk; auto.
  - apply Hwf.
  - unfold MMAP_BASE, MMAP_END. lia.
  - by apply Z.divide_add_r.
Qed.

Lemma good_rest a b c s :
  sys_wf s -> good s (sys_set_thread_area a s) /\ good s (sys_get_thread_area a s) /\
  good s (sys_getrandom a b c s) /\ good s (sys_sethostname a b s) /\ good s (sys_umask a s).
Proof.
  intros Hwf. destruct (sw_host s Hwf) as [Hh1 Hh2]. pose proof (sw_umask s Hwf) as Hu. split_and!.
  - unfold sys_set_thread_area. guards. cbv zeta. settle. apply wf_misc; auto with kernel.
  - unfold sys_get_thread_area. guards. settle.
  - unfold sys_getrandom. guards. destruct random_bytes as [bs r]. settle. by apply wf_misc.
  - unfold sys_sethostname. apply good_if; intros Hg; [settle|].
    apply orb_false_iff in Hg as [Hg Hg2]. apply orb_false_iff in Hg as [_ Hg1]. settle.
    assert (Hl : (length (take (Z.to_nat b + 1 - 1) (cstr (cstr_at (umem s) a))) <= Z.to_nat b)%nat)
      by (rewrite length_take; lia).
    apply wf_misc; auto; [|rewrite cstr_strcpy_truncate; lia].
    unfold c_strcpy_truncate. rewrite length_app. cbn [length]. rewrite length_drop. lia.
  - unfold sys_umask. destruct (a =? _); [settle|]. settle. apply wf_misc; auto.
    change 0x1FF with (Z.ones 9). rewrite Z.land_ones by lia. apply Z.mod_pos_bound. lia.
Qed.

Lemma good_brk b s : sys_wf s -> good s (let '(v, s') := sys_brk b s in Ret (s32 v, s')).
Proof.
  intros Hwf. unfold sys_brk. destruct (b =? 0); [settle|].
  destruct (_ || _) eqn:E; [settle|]. apply orb_false_iff in E as [E1 E2].
  apply good_ret; [|done]. apply wf_set_brk; auto; [lia | apply Hwf | apply Hwf].
Qed.

Lemma good_dispatch r s :
  sys_wf s -> (eax r = SYS_SYSINFO -> exists bs, Kmalloc.heap_rep (heap s) bs) ->
  good s (dispatch r s).
Proof.
  intros Hwf Hinfo.
  assert (Hret : forall c, good s c -> good s (ret c)).
  { intros c (v & s' & -> & ? & ?). by apply good_ret. }
  pose proof (good_names (ebx r) (s32 (ecx r)) (ecx r) s Hwf) as (? & ? & ? & ? & ?).
  pose proof (good_status (ebx r) (s32 (ebx r)) (ecx r) (ebx r) (ecx r) s Hwf) as (? & ? & ?).
  pose proof (good_info (ebx r) (ecx r) s Hwf) as (? & ? & ? & _).
  pose proof (good_info (ecx r) (ebx r) s Hwf) as (_ & _ & _ & ? & _ & ?).
  pose proof (good_info (ecx r) (s32 (ebx r)) s Hwf) as (_ & _ & _ & _ & ? & _).
  pose proof (good_rest (ebx r) (ecx r) (edx r) s Hwf) as (? & ? & ? & _ & ?).
  pose proof (good_rest (ebx r) (s32 (ecx r)) (edx r) s Hwf) as (_ & _ & _ & ? & _).
  unfold dispatch, dispatch_tail, val, call, int. cbv zeta.
  repeat (apply good_if; [intros Hn; first [apply Hret | by apply good_ret] | intros _]);
    auto using good_read, good_write, good_open, good_close, good_lseek, good_dup, good_dup2,
      good_mmap2, good_brk, s32_range; try (by apply good_ret).
  - destruct Hinfo as [bs Hbs]; [|by eapply good_sysinfo].
    unfold one_of in Hn. cbn [existsb] in Hn. rewrite orb_false_r in Hn. by apply Z.eqb_eq.
  - apply good_iov; [|done]. intros. by apply good_write.
  - apply good_iov; [|done]. intros. by apply good_read.
Qed.

(** ** What a call may write through its pointers

    The kernel does not check the pointers a program passes: a call stores
    through them wherever they point.  [writes_of] lists, for the registers
    of a call, the memory it may store to. *)

(** [readv]: the buffers of the vector, as long as reads fill them. *)
Fixpoint iov_writes (fd : Z) (n : nat) (iov : Z) (s : sysst) : list (Z * Z) :=
  match n with
  | O => []
  | S n' =>
      let base := get32 (umem s) iov in
      let len := s32 (get32 (umem s) (iov + 4)) in
      if base =? 0 then []
      else (base, len) ::
        match sys_read fd base len s with
        | Ret (k, s') =>
            if (k <? 0) || (u32 k <? get32 (umem s') (iov + 4)) then []
            else iov_writes fd n' (iov + 8) s'
        | Fault _ => []
        end
  end.

(** [mmap] clears the pages it hands out. *)
Definition mmap_writes (addr len flags : Z) (s : sysst) : list (Z * Z) :=
  let len := align_up_page len in
  if (MMAP_END - MMAP_BASE <? len) || (Z.land flags MAP_ANONYMOUS =? 0) then []
  else if negb (Z.land flags MAP_FIXED =? 0) && negb (addr =? 0) then
    if (addr <? MMAP_BASE) || (MMAP_END <? u32 (addr + len)) then [] else [(addr, len)]
  else if MMAP_END <? u32 (mmap_bump s + len) then [] else [(mmap_bump s, len)].

Definition writes_of (r : registers) (s : sysst) : list (Z * Z) :=
  let num := eax r in
  if one_of num [SYS_READ] then [(ecx r, s32 (edx r))]
  else if one_of num [SYS_READV] then
    if (s32 (edx r) <? 0) || (64 <? s32 (edx r)) then []
    else iov_writes (s32 (ebx r)) (Z.to_nat (s32 (edx r))) (ecx r) s
  else if one_of num [SYS_GETCWD] then [(ebx r, Z.max 1 (ecx r))]
  else if one_of num [SYS_STAT; SYS_LSTAT; SYS_FSTAT] then [(ecx r, 72)]
  else if one_of num [SYS_TIME] then if ebx r =? 0 then [] else [(ebx r, 4)]
  else if one_of num [SYS_CLOCK_GETTIME; SYS_CLOCK_GETRES; SYS_GETRLIMIT; SYS_UGETRLIMIT] then
    if ecx r =? 0 then [] else [(ecx r, 8)]
  else if one_of num [SYS_FORK; SYS_WAITPID; SYS_EXECVE; SYS_PIPE; SYS_LINK; SYS_SYMLINK;
                      SYS_READLINK; SYS_MMAP; SYS_MMAP2] then
    mmap_writes (ebx r) (ecx r) (esi r) s
  else if one_of num [SYS_UNAME] then if ebx r =? 0 then [] else [(ebx r, 325)]
  else if one_of num [SYS_GETTIMEOFDAY] then if ebx r =? 0 then [] else [(ebx r, 8)]
  else if one_of num [SYS_SYSINFO] then if ebx r =? 0 then [] else [(ebx r, 56)]
  else if one_of num [SYS_SET_THREAD_AREA] then if ebx r =? 0 then [] else [(ebx r, 4)]
  else if one_of num [SYS_GET_THREAD_AREA] then if ebx r =? 0 then [] else [(ebx r, 12)]
  else if one_of num [SYS_GETRANDOM] then if ebx r =? 0 then [] else [(ebx r, ecx r)]
  else [].

(** From [s] to [s'] the kernel stores inside [w] only, and its heap
    bookkeeping stays. *)
Definition stored (w : list (Z * Z)) (s s' : sysst) : Prop :=
  fp_same w (umem s) (umem s') /\ Kmalloc.head (heap s') = Kmalloc.head (heap s) /\
  Kmalloc.heap_used (heap s') = Kmalloc.heap_used (heap s).

Lemma stored_heap w s s' : heap s' = heap s -> stored w s s'.
Proof. intros H. unfold stored, umem. rewrite H. split_and!; [apply fp_refl | done | done]. Qed.
Lemma stored_at w s s' m :
  heap s' = Kmalloc.mk_kstate m (Kmalloc.head (heap s)) (Kmalloc.heap_used (heap s)) ->
  fp_same w (umem s) m -> stored w s s'.
Proof. intros H Hm. unfold stored, umem. by rewrite H. Qed.
Lemma stored_trans w s1 s2 s3 : stored w s1 s2 -> stored w s2 s3 -> stored w s1 s3.
Proof.
  intros (H1 & H2 & H3) (G1 & G2 & G3).
  split_and!; [by eapply fp_trans | by rewrite G2 | by rewrite G3].
Qed.
Lemma stored_app_l w w' s s' : stored w s s' -> stored (w ++ w') s s'.
Proof. intros (H1 & H2). split; [by apply fp_app_l | done]. Qed.
Lemma stored_app_r w w' s s' : stored w' s s' -> stored (w ++ w') s s'.
Proof. intros (H1 & H2). split; [by apply fp_app_r | done]. Qed.

(** A call stores inside [w] only. *)
Definition frames {A} (w : list (Z * Z)) (s : sysst) (c : out (A * sysst)) : Prop :=
  forall v s', c = Ret (v, s') -> stored w s s'.

Lemma frames_ret {A} w s (v : A) s' : stored w s s' -> frames w s (Ret (v, s')).
Proof. intros H v0 s0 E. apply ret_pair_inj in E as [_ E]. by rewrite <- E. Qed.
Lemma frames_keep {A} w s (v : A) s' : heap s' = heap s -> frames w s (Ret (v, s')).
Proof. intros H. by apply frames_ret, stored_heap. Qed.
Lemma frames_if {A} w s (b : bool) (x y : out (A * sysst)) :
  (b = true -> frames w s x) -> (b = false -> frames w s y) -> frames w s (if b then x else y).
Proof. destruct b; auto. Qed.
Lemma frames_bind {A B} w s (x : out B) (k : B -> out (A * sysst)) :
  (forall b, x = Ret b -> frames w s (k b)) -> frames w s (x ≫= k).
Proof. intros H. destruct x as [b|f]; [by apply H | intros v s' E; discriminate E]. Qed.
Lemma frames_retv w s (c : out (Z * sysst)) : frames w s c -> frames w s (ret c).
Proof.
  intros H. apply frames_bind. intros [v s1] ->. apply frames_ret. by eapply H.
Qed.

(** Walk through a call: its guards, and the stores at its end. *)
Ltac frames_walk :=
  repeat first
    [ apply frames_if; intros ?
    | match goal with |- frames _ _ (match ?x with _ => _ end) => destruct x end
    | apply frames_bind; intros ? ? ];
  try (apply frames_keep; reflexivity).

Lemma frames_write fd buf count w s : frames w s (sys_write fd buf count s).
Proof. unfold sys_write. frames_walk. Qed.

Lemma frames_read fd buf count s :
  in_s32 count -> frames [(buf, count)] s (sys_read fd buf count s).
Proof.
  unfold in_s32. intros Hc. unfold sys_read. apply frames_if; intros H0; [by apply frames_keep|].
  apply frames_if; intros _; [by apply frames_keep|]. apply frames_if; intros _; [by apply frames_keep|].
  cbv zeta. destruct (ftype _); [by apply frames_keep..|]. apply Z.ltb_ge in H0.
  pose proof (u32_range (len (fd_at s fd) - pos (fd_at s fd))) as Hl. unfold in_u32 in Hl.
  revert Hl. generalize (u32 (len (fd_at s fd) - pos (fd_at s fd))) as avail. intros avail Hl.
  set (n := if avail <? count then s32 avail else count).
  assert (Hn : 0 <= n <= count).
  { unfold n. destruct (Z.ltb_spec avail count); [|lia]. rewrite s32_small by (unfold in_s32; lia). lia. }
  apply frames_bind. intros bs Hbs. apply frames_ret. eapply stored_at; [reflexivity|].
  apply fp_put0; [apply fp_refl|]. unfold read_data in Hbs. cbv zeta in Hbs.
  destruct (fdata _).
  - destruct (_ <=? _); [|discriminate]. injection Hbs as <-. rewrite length_take. lia.
  - destruct (n =? 0); [|discriminate]. injection Hbs as <-. simpl. lia.
Qed.

Lemma frames_iov_read fd n iov total s : frames (iov_writes fd n iov s) s (iov_loop sys_read fd n iov total s).
Proof.
  revert iov total s. induction n as [|n IH]; intros iov total s; cbn [iov_loop iov_writes]; [by apply frames_keep|].
  cbv zeta. set (base := get32 (umem s) iov). set (l := get32 (umem s) (iov + 4)).
  destruct (Z.eqb_spec base 0) as [E|E]; cbn [andb].
  - apply frames_if; intros _; [by apply frames_keep|]. rewrite E. apply frames_bind. intros [k s1] Hr.
    assert (k < 0 /\ s1 = s) as [Hk ->].
    { unfold sys_read in Hr. destruct (_ <? 0); [by injection Hr as <- <-|]. by injection Hr as <- <-. }
    rewrite (proj2 (Z.ltb_lt k 0) Hk). by apply frames_keep.
  - apply frames_bind. intros [k s1] Hr. rewrite Hr.
    pose proof (frames_read fd base (s32 l) s (s32_range _) k s1 Hr) as H1.
    destruct (k <? 0); cbn [orb]; [by apply frames_ret|].
    destruct (u32 k <? _); [by apply frames_ret|].
    intros v s' Hl. apply (stored_trans _ _ s1).
    + by apply (stored_app_l [_]).
    + apply (stored_app_r [_]). by eapply IH.
Qed.

Lemma frames_iov_write fd n iov total w s : frames w s (iov_loop sys_write fd n iov total s).
Proof.
  revert iov total s. induction n as [|n IH]; intros iov total s; cbn [iov_loop]; [by apply frames_keep|].
  cbv zeta. apply frames_if; intros _; [by apply frames_keep|]. apply frames_bind. intros [k s1] Hr.
  pose proof (frames_write _ _ _ w _ _ _ Hr) as H1.
  apply frames_if; intros _; [by apply frames_ret|]. apply frames_if; intros _; [by apply frames_ret|].
  intros v s' Hl. by apply (stored_trans _ _ _ _ H1), (IH _ _ _ _ _ Hl).
Qed.

Lemma frames_open_file p flags w s : frames w s (open_file p flags s).
Proof. unfold open_file. cbv zeta. frames_walk. Qed.

Lemma frames_open path flags w s : frames w s (sys_open path flags s).
Proof.
  unfold sys_open. apply frames_if; intros _; [by apply frames_keep|].
  apply frames_if; intros _; [by apply frames_keep|]. apply frames_bind. intros [r s1] Hr.
  pose proof (frames_open_file _ _ w _ _ _ Hr) as Hm.
  destruct r as [[i n]|]; [|by apply frames_ret]. apply frames_if; intros _; by apply frames_ret.
Qed.

(** The calls that return a structure. *)
Ltac frames_put :=
  apply frames_ret; eapply stored_at; [reflexivity|]; unfold le32, le16;
  repeat first [apply fp_put0 | apply fp_put; [|lia|] | apply fp_refl];
  rewrite ?length_app, ?length_replicate; cbn [length]; try lia.

Lemma frames_fill_stat m st size : fp_same [(st, 72)] m (fill_stat_file m st size).
Proof.
  unfold fill_stat_file. do 5 (apply fp_put; [|lia|cbn; lia]). apply fp_put0; [apply fp_refl | cbn; lia].
Qed.

Lemma frames_status path fd st buf size s :
  frames [(st, 72)] s (sys_stat path st s) /\ frames [(st, 72)] s (sys_fstat fd st s) /\
  frames [(buf, Z.max 1 size)] s (sys_getcwd buf size s).
Proof.
  split_and!.
  - unfold sys_stat. frames_walk. apply frames_ret; eapply stored_at; [reflexivity|]; apply frames_fill_stat.
  - unfold sys_fstat. frames_walk; apply frames_ret; (eapply stored_at; [reflexivity|]); apply frames_fill_stat.
  - unfold sys_getcwd. apply frames_if; intros _; [by apply frames_keep|]. cbv zeta.
    set (w := take _ _). assert (Hw : (length w <= Z.to_nat (size - 1))%nat) by (unfold w; rewrite length_take; lia).
    apply frames_if; intros _; frames_put.
Qed.

Lemma length_cpy_str c n : (1 <= n)%nat -> length (cpy_str c n) = n.
Proof. intros Hn. unfold cpy_str. rewrite length_app, length_replicate, length_take. lia. Qed.

Lemma frames_info a s :
  frames (if a =? 0 then [] else [(a, 4)]) s (sys_time a s) /\
  frames (if a =? 0 then [] else [(a, 325)]) s (sys_uname a s) /\
  frames (if a =? 0 then [] else [(a, 56)]) s (sys_sysinfo a s).
Proof.
  split_and!.
  - unfold sys_time. cbv zeta. destruct (a =? 0); [by apply frames_keep|]. frames_put.
  - unfold sys_uname. destruct (a =? 0); [by apply frames_keep|]. cbv zeta.
    apply frames_ret. eapply stored_at; [reflexivity|].
    do 4 (apply fp_put; [|lia|rewrite length_cpy_str by lia; lia]).
    apply fp_put0; [apply fp_refl | rewrite length_cpy_str by lia; lia].
  - unfold sys_sysinfo. destruct (a =? 0); [by apply frames_keep|]. apply frames_bind. intros [[u t] f] _.
    cbv zeta. frames_put.
Qed.

Lemma frames_info8 a b s :
  let w := if a =? 0 then [] else [(a, 8)] in
  frames w s (sys_gettimeofday a b s) /\ frames w s (sys_clock_gettime a s) /\
  frames w s (sys_clock_getres b a s) /\ frames w s (sys_getrlimit b a s).
Proof.
  cbv zeta. split_and!;
    unfold sys_gettimeofday, sys_clock_gettime, sys_clock_getres, sys_getrlimit;
    (destruct (a =? 0); [by apply frames_keep|]); cbv zeta; frames_put.
Qed.

Lemma length_random_bytes n tk i r : length (fst (random_bytes n tk i r)) = n.
Proof.
  revert i r. induction n as [|n IH]; intros i r; cbn [random_bytes]; [done|].
  specialize (IH (i + 1) (rng_step tk i r)). destruct (random_bytes _ _ _ _). cbn in *. lia.
Qed.

Lemma frames_rest a b c s :
  frames (if a =? 0 then [] else [(a, 4)]) s (sys_set_thread_area a s) /\
  frames (if a =? 0 then [] else [(a, 12)]) s (sys_get_thread_area a s) /\
  frames (if a =? 0 then [] else [(a, b)]) s (sys_getrandom a b c s).
Proof.
  split_and!.
  - unfold sys_set_thread_area. destruct (a =? 0); [by apply frames_keep|]. cbv zeta.
    apply frames_ret. eapply stored_at; [reflexivity|].
    destruct (get32 _ a =? _); [|apply fp_refl]. apply fp_put0; [apply fp_refl | cbn; lia].
  - unfold sys_get_thread_area. destruct (a =? 0); [by apply frames_keep|]. cbv zeta. frames_put.
  - unfold sys_getrandom. destruct (a =? 0); cbn [orb]; [by apply frames_keep|].
    destruct (Z.eqb_spec b 0); [by apply frames_keep|].
    pose proof (length_random_bytes (Z.to_nat b) (ticks s) 0 (rng s)) as Hl.
    destruct random_bytes as [bs r]. cbn in Hl. apply frames_ret. eapply stored_at; [reflexivity|].
    destruct (Z.ltb_spec b 0); [|apply fp_put0; [apply fp_refl | lia]].
    assert (bs = []) as -> by (destruct bs; [done | cbn in Hl; lia]). apply fp_refl.
Qed.

Lemma frames_mmap2 addr n prot flags fd pgoff s :
  frames (mmap_writes addr n flags s) s (sys_mmap2 addr n prot flags fd pgoff s).
Proof.
  unfold sys_mmap2, mmap_writes. cbv zeta. pose proof (align_up_page_range n) as [Hr _].
  apply frames_if; intros _; [by apply frames_keep|].
  destruct (_ <? align_up_page n); cbn [orb]; [by apply frames_keep|].
  destruct (Z.land flags MAP_ANONYMOUS =? 0); [by apply frames_keep|].
  destruct (_ && _); [destruct (_ || _)|destruct (_ <? _)]; try (by apply frames_keep).
  all: apply frames_ret; (eapply stored_at; [reflexivity|]).
  all: apply fp_put0; [apply fp_refl | rewrite length_replicate; lia].
Qed.

(** The calls that store nothing. *)
Lemma frames_none w r s :
  frames w s (sys_close (s32 (ebx r)) s) /\ frames w s (sys_lseek (s32 (ebx r)) (s32 (ecx r)) (s32 (edx r)) s) /\
  frames w s (sys_dup (s32 (ebx r)) s) /\ frames w s (sys_dup2 (s32 (ebx r)) (s32 (ecx r)) s) /\
  frames w s (let '(v, s') := sys_brk (ebx r) s in Ret (s32 v, s')) /\
  frames w s (sys_chdir (ebx r) s) /\ frames w s (sys_mkdir (ebx r) (s32 (ecx r)) s) /\
  frames w s (sys_unlink (ebx r) s) /\ frames w s (sys_rename (ebx r) (ecx r) s) /\
  frames w s (sys_access (ebx r) (s32 (ecx r)) s) /\
  frames w s (sys_sethostname (ebx r) (s32 (ecx r)) s) /\ frames w s (sys_umask (ebx r) s).
Proof.
  split_and!.
  - unfold sys_close. frames_walk.
  - unfold sys_lseek. frames_walk.
  - unfold sys_dup. frames_walk.
  - unfold sys_dup2. frames_walk. cbv zeta. apply frames_keep. destruct (_ && _); reflexivity.
  - unfold sys_brk. destruct (_ =? 0); [by apply frames_keep|]. destruct (_ || _); by apply frames_keep.
  - unfold sys_chdir. frames_walk.
  - unfold sys_mkdir. frames_walk.
  - unfold sys_unlink. frames_walk.
  - unfold sys_rename. frames_walk.
  - unfold sys_access. frames_walk.
  - unfold sys_sethostname. frames_walk.
  - unfold sys_umask. destruct (_ =? _); by apply frames_keep.
Qed.

Lemma one_of_In num l : one_of num l = true -> In num l.
Proof. unfold one_of. rewrite existsb_exists. intros (x & Hx & E). apply Z.eqb_eq in E. by subst. Qed.

(** [writes_of] at a known call number. *)
Ltac at_call Hn :=
  apply one_of_In in Hn; cbn [In] in Hn;
  repeat match type of Hn with
  | _ \/ _ => destruct Hn as [Hn|Hn]
  | False => destruct Hn
  end;
  unfold writes_of; rewrite <- Hn; cbn -[Z.max iov_writes mmap_writes s32 Z.to_nat].

Lemma frames_dispatch r s : frames (writes_of r s) s (dispatch r s).
Proof.
  pose proof (frames_status (ebx r) (s32 (ebx r)) (ecx r) (ebx r) (ecx r) s) as (F1 & F2 & F3).
  pose proof (frames_info (ebx r) s) as (F4 & F5 & F6).
  pose proof (frames_info8 (ebx r) (ecx r) s) as (F7 & _).
  pose proof (frames_info8 (ecx r) (s32 (ebx r)) s) as (_ & F8 & F9 & _).
  pose proof (frames_info8 (ecx r) (ebx r) s) as (_ & _ & _ & F10).
  pose proof (frames_rest (ebx r) (ecx r) (edx r) s) as (F11 & F12 & F13).
  pose proof (fun w => frames_none w r s) as Fn.
  unfold dispatch, dispatch_tail, val, call. cbv zeta.
  repeat (apply frames_if; [intros Hn; try (apply frames_keep; reflexivity); try apply frames_retv | intros _]);
    try (apply frames_keep; reflexivity); try (apply (Fn _)).
  all: try (unfold sys_munmap, sys_mprotect, sys_madvise, sys_futex, sys_pipe, sys_prctl, sys_getdents64;
    by apply frames_keep).
  all: try apply frames_open; try apply frames_write.
  all: at_call Hn; try assumption; try apply frames_mmap2; try (apply frames_read, s32_range).
  - unfold sys_writev, sys_iov. frames_walk. apply frames_iov_write.
  - unfold sys_readv, sys_iov. destruct (_ || _); [by apply frames_keep|].
    apply frames_if; intros _; [by apply frames_keep | apply frames_iov_read].
Qed.

(** A system call changes no byte outside the memory it is given to write. *)
Lemma handler_frame r s r' k s' :
  syscall_handler r s = Ret ((r', k), s') -> stored (writes_of r s) s s'.
Proof.
  intros H. unfold syscall_handler in H.
  destruct (dispatch r s) as [[[v kc] s1]|f] eqn:E; [|discriminate].
  apply ret_pair_inj in H as [_ H]. rewrite <- H. by eapply frames_dispatch.
Qed.

(** The kernel's own memory: everything below the address programs are linked
    at ([ELF_LOAD_BASE], elf.h:9), with the interrupt vectors and the screen
    in the first megabyte, the kernel image with its variables and stacks
    from 1 MiB on (linker.ld), and the kernel heap. *)
Definition kernel_mem (x : Z) : Prop := 0 <= x < 0x400000.

(** The footprint stays out of it. *)
Definition spares_kernel (w : list (Z * Z)) : Prop := forall x, kernel_mem x -> fp_hits w x = false.

Definition same_kernel_mem (m m' : mem) : Prop := forall x, kernel_mem x -> ld8 m' x = ld8 m x.

Lemma spares_same w m m' : spares_kernel w -> fp_same w m m' -> same_kernel_mem m m'.
Proof. intros Hw Hs x Hx. apply Hs; [unfold kernel_mem, in_u32 in *; lia | by apply Hw]. Qed.

(** [spares_kernel] for a list of windows, as a test. *)
Definition window_clear (e : Z * Z) : bool :=
  (snd e <=? 0) || ((0x400000 <=? fst e) && (fst e + snd e <=? 0x100000000)).
Lemma windows_clear w : forallb window_clear w = true -> spares_kernel w.
Proof.
  intros H x Hx. unfold kernel_mem in Hx. unfold fp_hits. induction w as [|[a n] w IH]; [done|].
  cbn [forallb existsb] in *. apply andb_true_iff in H as [H1 H2]. rewrite (IH H2), orb_false_r.
  unfold window_clear in H1. cbn [fst snd] in *. apply Z.ltb_ge. pose proof (u32_range (x - a)).
  apply orb_true_iff in H1 as [H1|H1]; [lia|]. unfold u32 in *. zlia.
Qed.

Lemma heap_same s s' bs :
  Kmalloc.heap_rep (heap s) bs -> Kmalloc.head (heap s') = Kmalloc.head (heap s) ->
  Kmalloc.heap_used (heap s') = Kmalloc.heap_used (heap s) ->
  same_kernel_mem (umem s) (umem s') -> Kmalloc.heap_rep (heap s') bs.
Proof.
  unfold umem. intros (H1 & H2 & H3 & H4) Hh Hu Hm. split_and!; [congruence | done | | congruence].
  eapply Kmalloc.chain_frame; [exact H3|]. intros i Hi. apply Hm.
  unfold kernel_mem, Kmalloc.KHEAP_START, Kmalloc.HEAP_END, Kmalloc.KHEAP_START, Kmalloc.KHEAP_SIZE in *. lia.
Qed.

(** The calls that do not return to the program. *)
Definition leaves (k : option kcall) : bool :=
  match k with
  | Some (process_exit_to_kernel _) | Some machine_shutdown | Some machine_reboot => true
  | _ => false
  end.
Definition leaving_calls : list Z := [SYS_EXIT; SYS_EXIT_GROUP; SYS_REBOOT].


(** Which calls leave, and with which hand-over; they change no state. *)
Definition hand_over (r : registers) : kcall :=
  if one_of (eax r) [SYS_REBOOT]
  then if (edx r =? 0x4321FEDC) || (edx r =? 0xCDEF0123) then machine_shutdown else machine_reboot
  else process_exit_to_kernel (s32 (ebx r)).

Lemma dispatch_leaving r s :
  one_of (eax r) leaving_calls = true -> exists v, dispatch r s = Ret ((v, Some (hand_over r)), s).
Proof.
  intros H. apply one_of_In in H. unfold hand_over, dispatch, dispatch_tail, call, int.
  destruct H as [<-|[<-|[<-|[]]]]; eauto.
Qed.

(** No other call leaves. *)
Definition stays_in {A} (c : out ((A * option kcall) * sysst)) : Prop :=
  forall v k s', c = Ret ((v, k), s') -> leaves k = false.

Lemma stays_in_if {A} (b : bool) (x y : out ((A * option kcall) * sysst)) :
  (b = true -> stays_in x) -> (b = false -> stays_in y) -> stays_in (if b then x else y).
Proof. destruct b; auto. Qed.
Lemma stays_in_ret c : stays_in (ret c).
Proof. intros v k s' E. unfold ret in E. destruct c as [[w s1]|]; [|discriminate]. by injection E as <- <- <-. Qed.
Lemma stays_in_now {A} (v : A) k s : leaves k = false -> stays_in (Ret ((v, k), s)).
Proof. intros H v' k' s' [= <- <- <-]. done. Qed.

Lemma dispatch_stays r s : one_of (eax r) leaving_calls = false -> stays_in (dispatch r s).
Proof.
  intros H. unfold dispatch, dispatch_tail, val, call. cbv zeta.
  repeat (apply stays_in_if; [intros Hn; try apply stays_in_ret; try (by apply stays_in_now)|intros _]);
    try (by apply stays_in_now); exfalso; apply one_of_In in Hn; cbn [In] in Hn;
    repeat (destruct Hn as [Hn|Hn]; [by rewrite <- Hn in H|]); done.
Qed.

(** A state of the whole component: its variables in order, the kernel heap
    consistent. *)
Definition sys_ok (s : sysst) (bs : list Kmalloc.blk) : Prop := sys_wf s /\ Kmalloc.heap_rep (heap s) bs.

(** One call, from a state in order. *)
Lemma call_run r s bs :
  sys_ok s bs -> spares_kernel (writes_of r s) ->
  exists r' k s', syscall_handler r s = Ret ((r', k), s') /\
    same_kernel_mem (umem s) (umem s') /\ fp_same (writes_of r s) (umem s) (umem s') /\
    (if one_of (eax r) leaving_calls then k = Some (hand_over r) /\ s' = s
     else leaves k = false /\ sys_ok s' bs /\ mmap_bump s <= mmap_bump s' /\ in_u32 (eax r') /\
       (ebx r', ecx r', edx r', esi r', edi r', ebp r') = (ebx r, ecx r, edx r, esi r, edi r, ebp r)).
Proof.
  intros [Hwf Hh] Hw. destruct (good_dispatch r s Hwf) as ([v k] & s' & Hd & Hwf' & Hm); [eauto|].
  assert (Hrun : syscall_handler r s =
    Ret ((mk_regs (u32 v) (ebx r) (ecx r) (edx r) (esi r) (edi r) (ebp r), k), s'))
    by (unfold syscall_handler; by rewrite Hd).
  destruct (handler_frame _ _ _ _ _ Hrun) as (Hf & Hhd & Hu). pose proof (spares_same _ _ _ Hw Hf) as Hk.
  eexists _, k, s'. split_and!; [exact Hrun | done | done |].
  destruct (one_of (eax r) leaving_calls) eqn:El.
  - destruct (dispatch_leaving r s El) as [v' Hl]. rewrite Hl in Hd. by injection Hd as _ <- <-.
  - split; [by eapply dispatch_stays|]. split; [split; [done | by eapply heap_same]|].
    split; [done|]. split; [apply u32_range | done].
Qed.


(** What a program starts from: a booted file system, a cleared screen, the
    descriptor table as [process_exec] resets it. *)
Definition started (f : fs_state) : sysst :=
  user_heap_reset (fd_table_reset (power_on f (Terminal.terminal_initialize
    (Terminal.mk_term 0 0 0 [] [])))).

Lemma started_wf f : idle f -> sys_wf (started f).
Proof.
  intros Hf. constructor.
  - exact Hf.
  - split_and!; vm_compute; lia.
  - reflexivity.
  - intros i Hi Hu. left. do 32 (destruct i as [|i]; [vm_compute in Hu |- *; congruence|]). lia.
  - intros i Hi. do 3 (destruct i as [|i]; [reflexivity|]). lia.
  - by vm_compute.
  - split; [by vm_compute | by exists 4096].
  - by vm_compute.
  - split; [reflexivity | vm_compute; lia].
Qed.

(** The same with the kernel heap as [kmalloc_init] leaves it. *)
Definition running (f : fs_state) : sysst :=
  let s := started f in
  mk_sys Kmalloc.boot_heap (fds s) (user_brk s) (mmap_bump s) (g_umask s) (tls_base s) (g_hostname s)
    (rng s) (fsys s) (tty s) (ticks s) (current_id s).

Lemma running_ok f : idle f -> sys_ok (running f) Kmalloc.boot_blocks.
Proof. intros Hf. split; [by destruct (started_wf f Hf) | apply Kmalloc.kmalloc_init_rep]. Qed.


(** Nothing stops a program from passing a pointer into the kernel:
    [time(0x200000)] writes the clock over the size of the first block of the
    kernel heap, which then hands out memory far outside its window. *)
Example unchecked_pointer :
  match syscall_handler (mk_regs SYS_TIME 0x200000 0 0 0 0 0) (running FsSpec.booted) with
  | Ret (_, s') =>
      match Kmalloc.kmalloc (heap s') 0x10000000 with
      | Ret (p, _) => p = 0x20000C
      | Fault _ => False
      end
  | Fault _ => False
  end.
Proof. vm_compute. reflexivity. Qed.

(** ** Reading a file *)

(** The descriptor [fd] is open on the first [n] bytes of node [i], at position [p]. *)
Definition reading (fd : Z) (i : nat) (n p : Z) (s : sysst) : Prop :=
  bad_fd fd s = false /\ ftype (fd_at s fd) = FD_RAMFILE /\ fdata (fd_at s fd) = Some i /\
  len (fd_at s fd) = n /\ pos (fd_at s fd) = p.

(** Successive [read] calls into one buffer, with the bytes each delivers. *)
Fixpoint reads (fd buf : Z) (counts : list Z) (s : sysst) : out (list chars * sysst) :=
  match counts with
  | [] => Ret ([], s)
  | c :: cs =>
      '(n, s) ← sys_read fd buf c s;
      let chunk := get (umem s) buf (Z.to_nat n) in
      '(l, s) ← reads fd buf cs s;
      Ret (chunk :: l, s)
  end.

Lemma bad_fd_upd fd f s :
  sys_wf s -> bad_fd fd s = false -> used (f (fd_at s fd)) = true -> bad_fd fd (upd_fd fd f s) = false.
Proof.
  intros Hwf Hb Hu. destruct (good_fd fd s Hwf Hb) as (Hr & _ & _).
  unfold bad_fd, FD_MAX in *. rewrite fd_at_upd by done. rewrite Hu.
  rewrite (proj2 (Z.ltb_ge fd 0)), (proj2 (Z.leb_gt 32 fd)) by lia. done.
Qed.

Lemma reading_seek fd i n p p' s :
  sys_wf s -> reading fd i n p s -> reading fd i n p' (upd_fd fd (set_fpos p') s).
Proof.
  intros Hwf (Hb & Ht & Hi & Hl & _). destruct (good_fd fd s Hwf Hb) as (Hr & Hu & _).
  split; [by apply bad_fd_upd|]. rewrite fd_at_upd by done. by split_and!.
Qed.

(** One read, as seen by the descriptor and by user memory. *)
Lemma read_step fd buf c i n p s :
  sys_wf s -> reading fd i n p s -> 0 <= c < 2147483648 -> 0 < buf -> buf + n <= 4294967296 ->
  let k := Z.min c (n - p) in
  exists s', sys_read fd buf c s = Ret (k, s') /\ sys_wf s' /\ reading fd i n (p + k) s' /\
    fsys s' = fsys s /\ 0 <= p <= n /\ n < FS_FILE_MAX /\
    get (umem s') buf (Z.to_nat k) =
      map u8 (take (Z.to_nat k) (drop (Z.to_nat p) (file_bytes (data (fsys s)) i n))).
Proof.
  intros Hwf (Hb & Ht & Hi & Hl & Hp) Hc Hb0 Hb1 k.
  destruct (good_fd fd s Hwf Hb) as (Hr & Hu & Hok).
  destruct (Hok Hu) as [?|(_ & Hp1 & Hl1 & j & Hj & Hjb)]; [congruence|].
  rewrite Hi in Hj. injection Hj as <-. rewrite Hl, Hp in *.
  destruct (good_read fd buf c s) as (v & s' & Hrun & Hwf' & _); [unfold in_s32; lia | done |].
  pose proof Hrun as Hrun'.
  rewrite (read_file fd buf c s (fd_at s fd) i) in Hrun by (done || lia). rewrite Hl, Hp in Hrun.
  fold k in Hrun. injection Hrun as <- <-. eexists. split; [exact Hrun'|].
  split_and!; auto; try lia.
  - apply (reading_seek fd i n p); [by apply wf_umem | by split_and!].
  - set (w := take _ _). assert (Hw : length w = Z.to_nat k).
    { unfold w. rewrite length_take, length_drop, node_content by done.
      unfold FS_FILE_MAX in *. lia. }
    unfold upd_fd, umem, set_umem. cbn [heap set_fds Kmalloc.kmem]. rewrite <- Hw, get_put by lia.
    f_equal. rewrite Hw. unfold w, file_bytes. rewrite skipn_firstn_comm, take_take. f_equal. lia.
Qed.

Lemma reads_stream counts fd buf i n p s :
  sys_wf s -> reading fd i n p s -> Forall (fun c => 0 <= c < 2147483648) counts ->
  0 < buf -> buf + n <= 4294967296 ->
  exists l s', reads fd buf counts s = Ret (l, s') /\ sys_wf s' /\ fsys s' = fsys s /\
    concat l = map u8 (take (Z.to_nat (foldr Z.add 0 counts))
                         (drop (Z.to_nat p) (file_bytes (data (fsys s)) i n))).
Proof.
  intros Hwf Hrd Hcs Hb0 Hb1. revert p s Hwf Hrd. induction Hcs as [|c cs Hc Hcs IH]; intros p s Hwf Hrd.
  { exists [], s. cbn [reads foldr]. by rewrite take_0. }
  cbn [reads foldr].
  destruct (read_step fd buf c i n p s) as (s1 & -> & Hwf1 & Hrd1 & Hfs & Hp & Hn & Hg); auto.
  cbn [mbind out_mbind]. destruct (IH _ s1 Hwf1 Hrd1) as (l & s2 & -> & Hwf2 & Hfs2 & Hl).
  cbn [mbind out_mbind]. eexists _, s2. split; [reflexivity|]. split_and!; auto; [congruence|].
  cbn [concat]. rewrite Hl, Hg, Hfs, <- map_app. f_equal.
  assert (0 <= foldr Z.add 0 cs).
  { clear -Hcs. induction Hcs as [|x l ? ? ?]; simpl; lia. }
  set (w := file_bytes _ _ _).
  assert (Hw : (length w <= Z.to_nat n)%nat) by (unfold w, file_bytes; rewrite length_take; lia).
  rewrite (Z2Nat.inj_add c) by lia. destruct (Z.le_gt_cases c (n - p)).
  - rewrite Z.min_l by lia. rewrite Z2Nat.inj_add, <- drop_drop by lia.
    by rewrite take_take_drop.
  - rewrite Z.min_r by lia. replace (p + (n - p)) with n by lia.
    rewrite (drop_ge w (Z.to_nat n)) by done. rewrite take_nil, app_nil_r.
    rewrite !take_ge; [done | |]; rewrite length_drop; lia.
Qed.

Lemma open_reads path flags i n s :
  sys_wf s -> path <> 0 -> cstr_at (umem s) path <> [] -> 0 <= fd_alloc s ->
  fs_read (cstr_at (umem s) path) (data (fsys s)) = (FS_OK, Some (i, n)) ->
  exists s1, sys_open path flags s = Ret (fd_alloc s, s1) /\ sys_wf s1 /\
    reading (fd_alloc s) i n (if Z.land flags O_APPEND =? 0 then 0 else n) s1 /\
    fsys s1 = fsys s /\ umem s1 = umem s.
Proof.
  intros Hwf Hp Hne Hfd Hr.
  destruct (good_open path flags s Hwf) as (v & s1 & Hrun & Hwf1 & _). pose proof Hrun as Hrun'.
  unfold sys_open, open_file in Hrun. rewrite (proj2 (Z.eqb_neq path 0)), Hr in Hrun by done.
  assert (Hc : (char_at (cstr_at (umem s) path) 0 =? 0) = false).
  { pose proof (cstr_from_no_nul (size (umem s)) (umem s) path) as Hn. fold (cstr_at (umem s) path) in Hn.
    destruct (cstr_at (umem s) path) as [|c p]; [done|]. apply Forall_cons in Hn as [Hn _].
    by apply Z.eqb_neq. }
  rewrite Hc in Hrun. cbn [mbind out_mbind] in Hrun. rewrite (proj2 (Z.ltb_ge _ 0)) in Hrun by lia.
  injection Hrun as <- <-. eexists. split; [exact Hrun'|].
  destruct (fd_alloc_spec s) as [E|[Hfd1 _]]; [rewrite E in Hfd; done|].
  assert (0 <= fd_alloc s < 32) by lia. split_and!; auto.
  unfold reading, bad_fd, FD_MAX. rewrite fd_at_upd by done.
  rewrite (proj2 (Z.ltb_ge _ 0)), (proj2 (Z.leb_gt 32 _)) by lia. by split_and!.
Qed.

(** C21. Opening an existing file and reading it: whatever sizes a program
    passes to [read], the chunks that arrive in its buffer, put end to end,
    are the contents of the file from the start, cut at the sum of the sizes:
    no byte is lost, repeated or taken from outside the file. *)
Theorem open_read_stream path flags buf counts i n s :
  sys_wf s -> path <> 0 -> cstr_at (umem s) path <> [] -> 0 <= fd_alloc s ->
  fs_read (cstr_at (umem s) path) (data (fsys s)) = (FS_OK, Some (i, n)) ->
  Z.land flags O_APPEND = 0 -> Forall (fun c => 0 <= c < 2147483648) counts ->
  0 < buf -> buf + n <= 4294967296 ->
  exists fd s1 l s2, sys_open path flags s = Ret (fd, s1) /\ 3 <= fd < 32 /\
    reads fd buf counts s1 = Ret (l, s2) /\ sys_wf s2 /\ fsys s2 = fsys s /\
    concat l = map u8 (take (Z.to_nat (foldr Z.add 0 counts)) (file_bytes (data (fsys s)) i n)).
Proof.
  intros Hwf Hp Hne Hfd Hr Hfl Hcs Hb0 Hb1.
  destruct (open_reads path flags i n s) as (s1 & Hop & Hwf1 & Hrd & Hfs & _); auto.
  rewrite Hfl in Hrd. cbn [Z.eqb] in Hrd.
  destruct (reads_stream counts (fd_alloc s) buf i n 0 s1) as (l & s2 & Hl & Hwf2 & Hfs2 & Hc); auto.
  exists (fd_alloc s), s1, l, s2. rewrite Hfs in *. split_and!; auto; try congruence;
    destruct (fd_alloc_spec s) as [E|[Hfd1 _]]; try lia; rewrite E in Hfd; done.
Qed.

(** [lseek] on an open file: the new position is the requested one (from
    the start, the current position or the end), cut at the end of the file;
    a negative target and an unknown origin are refused without a change.  The
    next [read] delivers the file's bytes at that position. *)
Theorem lseek_read_spec fd offset whence buf c i n p s :
  sys_wf s -> reading fd i n p s -> -1000000000 <= offset <= 1000000000 ->
  0 <= c < 2147483648 -> 0 < buf -> buf + n <= 4294967296 ->
  let base := if whence =? SEEK_SET then Some 0 else if whence =? SEEK_CUR then Some p
              else if whence =? SEEK_END then Some n else None in
  match base with
  | Some b =>
      if b + offset <? 0 then sys_lseek fd offset whence s = Ret (- EINVAL, s)
      else
        let q := Z.min (b + offset) n in
        exists s1 s2, sys_lseek fd offset whence s = Ret (q, s1) /\ reading fd i n q s1 /\
          sys_read fd buf c s1 = Ret (Z.min c (n - q), s2) /\
          get (umem s2) buf (Z.to_nat (Z.min c (n - q))) =
            map u8 (take (Z.to_nat c) (drop (Z.to_nat q) (file_bytes (data (fsys s)) i n)))
  | None => sys_lseek fd offset whence s = Ret (- EINVAL, s)
  end.
Proof.
  intros Hwf Hrd Ho Hc Hb0 Hb1 base. pose proof Hrd as (Hb & Ht & Hi & Hl & Hp).
  destruct (good_fd fd s Hwf Hb) as (Hr & Hu & Hok).
  destruct (Hok Hu) as [?|(_ & Hp1 & Hl1 & _)]; [congruence|]. rewrite Hl, Hp in *. unfold FS_FILE_MAX in Hl1.
  destruct (good_lseek fd offset whence s Hwf) as (v & s1 & Hrun & Hwf1 & _). pose proof Hrun as Hrun'.
  unfold sys_lseek in Hrun. rewrite Hb, Ht, bool_decide_true, Hl, Hp in Hrun by done. cbn [negb] in Hrun.
  rewrite !s32_small in Hrun by (unfold in_s32; lia).
  assert (Hbase : (if whence =? SEEK_SET then Some 0 else if whence =? SEEK_CUR then Some p
    else if whence =? SEEK_END then Some n else None) = base) by done. rewrite Hbase in Hrun.
  destruct base as [b|] eqn:Eb; [|by rewrite Hrun', <- Hrun].
  assert (0 <= b < 8192) by (revert Hbase; clear -Hp1 Hl1; repeat case_match; intros [= <-]; lia).
  rewrite (s32_small (b + offset)) in Hrun by (unfold in_s32; lia).
  destruct (Z.ltb_spec (b + offset) 0); [by rewrite Hrun', <- Hrun|]. cbv zeta.
  assert ((if n <? b + offset then n else b + offset) = Z.min (b + offset) n) as Hq
    by (destruct (Z.ltb_spec n (b + offset)); lia).
  rewrite Hq in Hrun. injection Hrun as <- <-.
  assert (Hrd1 := reading_seek fd i n p (Z.min (b + offset) n) s Hwf Hrd).
  destruct (read_step fd buf c i n _ _ Hwf1 Hrd1) as (s2 & Hread & _ & _ & _ & _ & _ & Hg); auto.
  eexists _, s2. split_and!; [exact Hrun' | done | exact Hread |].
  rewrite Hg. f_equal. set (q := Z.min (b + offset) n). unfold file_bytes.
  cbn [fsys upd_fd set_fds]. rewrite skipn_firstn_comm, !take_take. f_equal. lia.
Qed.

(** ** Fresh memory *)

(** Anonymous, and the kernel chooses the address. *)
Definition fresh_map (addr flags : Z) : Prop :=
  Z.land flags MAP_ANONYMOUS <> 0 /\ (Z.land flags MAP_FIXED = 0 \/ addr = 0).

Lemma mmap_fresh addr n prot flags fd pgoff s :
  sys_wf s -> fresh_map addr flags -> 0 < n <= 0xFFFFF000 ->
  let k := align_up_page n in
  (sys_mmap2 addr n prot flags fd pgoff s = Ret (- ENOMEM, s) /\ MMAP_END < mmap_bump s + k) \/
  exists s', sys_mmap2 addr n prot flags fd pgoff s = Ret (mmap_bump s, s') /\ sys_wf s' /\
    mmap_bump s' = mmap_bump s + k /\ mmap_bump s + k <= MMAP_END /\
    (forall x, mmap_bump s <= x < mmap_bump s + k -> ld8 (umem s') x = 0) /\
    (forall x, x < mmap_bump s \/ mmap_bump s + k <= x -> ld8 (umem s') x = ld8 (umem s) x).
Proof.
  intros Hwf [Ha Hf] Hn k. destruct (align_up_page_spec n Hn) as [Hk _]. fold k in Hk.
  destruct (sw_bump s Hwf) as [Hb _]. destruct (good_mmap2 addr n prot flags fd pgoff s Hwf) as (v & s' & Hrun & Hwf' & _).
  pose proof Hrun as Hrun'. unfold sys_mmap2 in Hrun. cbv zeta in Hrun. fold k in Hrun.
  rewrite (proj2 (Z.eqb_neq n 0)) in Hrun by lia. unfold MMAP_BASE, MMAP_END in *.
  change (0x2000000 - 0x1000000) with 0x1000000 in Hrun.
  destruct (Z.ltb_spec 0x1000000 k).
  { left. injection Hrun as <- <-. split; [done | lia]. }
  rewrite (proj2 (Z.eqb_neq _ 0) Ha) in Hrun.
  assert (negb (Z.land flags MAP_FIXED =? 0) && negb (addr =? 0) = false) as E.
  { destruct Hf as [-> | ->]; [done | by rewrite andb_false_r]. }
  rewrite E, (u32_small (mmap_bump s + k)) in Hrun by (unfold in_u32; lia).
  destruct (Z.ltb_spec 0x2000000 (mmap_bump s + k)).
  { left. injection Hrun as <- <-. split; [done | lia]. }
  right. exists s'. rewrite (s32_small (mmap_bump s)) in Hrun by (unfold in_s32; lia).
  injection Hrun as <- Hs'. split_and!; auto; subst s'.
  - done.
  - intros x Hx. apply (ld8_put_zeros _ _ _ (Z.to_nat (x - mmap_bump s))); [lia|].
    rewrite u32_small; unfold in_u32; lia.
  - intros x Hx. apply ld8_put_out; rewrite ?length_replicate; lia.
Qed.

(** Calls one after the other. *)
Fixpoint run_calls (rs : list registers) (s : sysst) : out sysst :=
  match rs with
  | [] => Ret s
  | r :: rs' => '(_, s') ← syscall_handler r s; run_calls rs' s'
  end.

(** None of them leaves the program or points into the kernel's memory. *)
Fixpoint calls_apart (rs : list registers) (s : sysst) : Prop :=
  match rs with
  | [] => True
  | r :: rs' =>
      one_of (eax r) leaving_calls = false /\ spares_kernel (writes_of r s) /\
      forall x s', syscall_handler r s = Ret (x, s') -> calls_apart rs' s'
  end.

Lemma run_calls_good rs s bs :
  sys_ok s bs -> calls_apart rs s -> exists s', run_calls rs s = Ret s' /\ sys_ok s' bs /\ mmap_bump s <= mmap_bump s'.
Proof.
  revert s. induction rs as [|r rs IH]; intros s Hok Hrs; cbn [run_calls].
  { exists s. split_and!; [done | done | lia]. }
  destruct Hrs as (Hl & Hw & Hrs). destruct (call_run r s bs Hok Hw) as (r' & k & s1 & E & _ & _ & H).
  rewrite Hl in H. destruct H as (_ & Hok1 & Hm1 & _). rewrite E. cbn [mbind out_mbind].
  destruct (IH s1 Hok1 (Hrs _ _ E)) as (s' & Hrun & Hok' & Hm'). exists s'. split_and!; [done | done | lia].
Qed.

Lemma mmap_fresh_ok addr n prot flags fd pgoff s bs :
  sys_ok s bs -> fresh_map addr flags -> 0 < n <= 0xFFFFF000 ->
  forall v s', sys_mmap2 addr n prot flags fd pgoff s = Ret (v, s') -> sys_ok s' bs.
Proof.
  intros [Hwf Hh] Hf Hn v s' E. destruct (frames_mmap2 addr n prot flags fd pgoff s v s' E) as (_ & Hhd & Hu).
  destruct (mmap_fresh addr n prot flags fd pgoff s Hwf Hf Hn) as [[E1 _]|(s1 & E1 & Hwf1 & _ & _ & _ & Ho)];
    rewrite E1 in E; injection E as _ <-; [done|]. split; [done|]. eapply heap_same; [exact Hh | done | done |].
  intros x Hx. apply Ho. left. destruct (sw_bump s Hwf) as [Hb _]. unfold kernel_mem, MMAP_BASE in *. lia.
Qed.

(** C22. Anonymous memory: two successful requests, without MAP_FIXED, of
    sizes [n1] and [n2] of at most 0xFFFFF000 bytes, with any calls in
    between that do not end the program or point into the kernel's memory,
    get page-aligned regions inside the arena that do not overlap; the second
    region is all zeros and nothing outside it changes when it is handed out.
    A request fails only when the arena is exhausted, and then changes
    nothing. *)
Theorem mmap_regions_disjoint a1 n1 p1 f1 d1 o1 a2 n2 p2 f2 d2 o2 rs s bs v1 s1 :
  sys_ok s bs -> fresh_map a1 f1 -> fresh_map a2 f2 ->
  0 < n1 <= 0xFFFFF000 -> 0 < n2 <= 0xFFFFF000 ->
  sys_mmap2 a1 n1 p1 f1 d1 o1 s = Ret (v1, s1) -> 0 <= v1 -> calls_apart rs s1 ->
  exists s2, run_calls rs s1 = Ret s2 /\
    ((sys_mmap2 a2 n2 p2 f2 d2 o2 s2 = Ret (- ENOMEM, s2) /\
      MMAP_END < mmap_bump s2 + align_up_page n2) \/
     exists v2 s3, sys_mmap2 a2 n2 p2 f2 d2 o2 s2 = Ret (v2, s3) /\
       (PAGE_SIZE | v1) /\ (PAGE_SIZE | v2) /\
       MMAP_BASE <= v1 /\ v1 + n1 <= v2 /\ v2 + n2 <= MMAP_END /\
       (forall x, v2 <= x < v2 + n2 -> ld8 (umem s3) x = 0) /\
       (forall x, x < v2 \/ v2 + align_up_page n2 <= x -> ld8 (umem s3) x = ld8 (umem s2) x)).
Proof.
  intros Hok Hf1 Hf2 Hn1 Hn2 Hm1 Hv1 Hrs.
  pose proof (align_up_page_spec n1 Hn1) as [Hk1 _]. pose proof (align_up_page_spec n2 Hn2) as [Hk2 _].
  pose proof (mmap_fresh_ok _ _ _ _ _ _ _ _ Hok Hf1 Hn1 _ _ Hm1) as Hok1. destruct Hok as [Hwf _].
  destruct (sw_bump s Hwf) as [Hb Hd].
  destruct (mmap_fresh a1 n1 p1 f1 d1 o1 s) as [[E _]|(s' & E & _ & Hb1 & He1 & _ & _)]; auto.
  { rewrite E in Hm1. injection Hm1 as <- _. unfold ENOMEM in Hv1. lia. }
  rewrite E in Hm1. injection Hm1 as <- <-.
  destruct (run_calls_good rs s' bs Hok1 Hrs) as (s2 & Hrun & [Hwf2 _] & Hmono). exists s2. split; [done|].
  destruct (sw_bump s2 Hwf2) as [_ Hd2].
  destruct (mmap_fresh a2 n2 p2 f2 d2 o2 s2) as [[E2 H2]|(s3 & E2 & _ & _ & He2 & Hz & Ho)]; auto.
  right. exists (mmap_bump s2), s3. split_and!; auto; try lia. intros x Hx. apply Hz. lia.
Qed.

(** Two requests that escape the arena checks.  A fixed mapping whose end
    passes 2^32 wraps to a small number, so the upper bound never fires: the
    call succeeds, returns an address outside the arena and clears the low
    memory from address 0 up to the wrapped end.  A
    length above 0xFFFFF000 rounds to zero, so a request for almost 4 GiB
    succeeds with nothing reserved. *)
Theorem mmap_wraps :
  (forall addr n prot fd pgoff s x,
     0 < n -> align_up_page n <= MMAP_END - MMAP_BASE -> MMAP_BASE <= addr < 4294967296 ->
     4294967296 <= addr + align_up_page n -> 0 <= x < addr + align_up_page n - 4294967296 ->
     exists s', sys_mmap2 addr n prot (Z.lor MAP_ANONYMOUS MAP_FIXED) fd pgoff s = Ret (s32 addr, s') /\
       ld8 (umem s') x = 0) /\
  (forall addr n prot fd pgoff s,
     sys_wf s -> 0xFFFFF000 < n < 4294967296 ->
     exists s', sys_mmap2 addr n prot MAP_ANONYMOUS fd pgoff s = Ret (mmap_bump s, s') /\
       mmap_bump s' = mmap_bump s).
Proof.
  split.
  - intros addr n prot fd pgoff s x Hn Hk Ha Hw Hx. unfold sys_mmap2. cbv zeta.
    rewrite (proj2 (Z.eqb_neq n 0)), (proj2 (Z.ltb_ge _ (align_up_page n))) by lia.
    change (Z.land (Z.lor MAP_ANONYMOUS MAP_FIXED) MAP_ANONYMOUS =? 0) with false.
    change (Z.land (Z.lor MAP_ANONYMOUS MAP_FIXED) MAP_FIXED =? 0) with false. cbv iota.
    unfold MMAP_BASE, MMAP_END in *.
    rewrite (proj2 (Z.eqb_neq addr 0)) by lia. cbn [negb andb].
    assert (u32 (addr + align_up_page n) = addr + align_up_page n - 4294967296) as ->
      by (unfold u32; symmetry; apply (Z.mod_unique _ _ 1); lia).
    rewrite (proj2 (Z.ltb_ge addr _)), (proj2 (Z.ltb_ge 0x2000000 _)) by lia. cbn [orb].
    eexists. split; [reflexivity|]. apply (ld8_put_zeros _ _ _ (Z.to_nat (x + 4294967296 - addr))); [lia|].
    unfold u32. symmetry. apply (Z.mod_unique _ _ 1); lia.
  - intros addr n prot fd pgoff s Hwf Hn. unfold sys_mmap2. cbv zeta.
    destruct (sw_bump s Hwf) as [Hb _]. unfold MMAP_BASE, MMAP_END in *.
    assert (align_up_page n = 0) as ->.
    { rewrite align_up_page_eq. unfold u32. rewrite <- (Z.mod_unique (n + 4095) 4294967296 1 (n - 4294963201)) by lia.
      rewrite Z.div_small; lia. }
    rewrite (proj2 (Z.eqb_neq n 0)) by lia.
    change (Z.land MAP_ANONYMOUS MAP_ANONYMOUS =? 0) with false.
    change (Z.land MAP_ANONYMOUS MAP_FIXED =? 0) with true. cbn [negb andb].
    rewrite (proj2 (Z.ltb_ge _ 0)), Z.add_0_r, (u32_small (mmap_bump s)) by (unfold in_u32; lia).
    rewrite (proj2 (Z.ltb_ge 0x2000000 _)), s32_small by (unfold in_s32; lia).
    eexists. by split.
Qed.

(** The switch has no [break] after the labels of the calls that are not
    implemented, so they run [mmap] on whatever the registers hold. *)
Lemma unimplemented_calls_map r s :
  eax r ∈ [SYS_FORK; SYS_WAITPID; SYS_EXECVE; SYS_PIPE; SYS_LINK; SYS_SYMLINK; SYS_READLINK] ->
  dispatch r s =
  dispatch (mk_regs SYS_MMAP (ebx r) (ecx r) (edx r) (esi r) (edi r) (ebp r)) s.
Proof.
  destruct r as [n b c d si di bp]. cbn [eax ebx ecx edx esi edi ebp].
  intros H. repeat (apply elem_of_cons in H as [->|H]; [reflexivity|]). by apply not_elem_of_nil in H.
Qed.

(** ** A running program: a file [a.txt] and its name at 0x500000 *)

Definition hello_fs : fs_state :=
  match fs_write $"a.txt" $"hello" FsSpec.booted with Ret (_, s) => s | _ => FsSpec.booted end.
Definition hello : sysst := set_umem (put ∅ 0x500000 $"a.txt") (started hello_fs).

Lemma hello_wf : sys_wf hello.
Proof.
  apply wf_umem, started_wf. unfold hello_fs.
  destruct (exec_ret (OpWrite $"a.txt" $"hello") FsSpec.booted) as (r & s & E & Hid & _);
    [apply FsSpec.booted_idle | done |]. cbn [exec] in E. by rewrite E.
Qed.

Lemma open_read_stream_witness :
  exists fd s1 l s2, sys_open 0x500000 0 hello = Ret (fd, s1) /\
    reads fd 0x500100 [2; 10; 10] s1 = Ret (l, s2) /\ concat l = $"hello".
Proof.
  destruct (open_read_stream 0x500000 0 0x500100 [2; 10; 10] 5 5 hello)
    as (fd & s1 & l & s2 & H1 & _ & H2 & _ & _ & H3);
    [apply hello_wf | done | by vm_compute | by vm_compute | by vm_compute | done
    | repeat constructor; lia | lia | lia |].
  exists fd, s1, l, s2. split_and!; [exact H1 | exact H2 |].
  rewrite H3. by vm_compute.
Defined.

Definition hello_open : sysst :=
  match sys_open 0x500000 0 hello with Ret (_, s) => s | _ => hello end.

Lemma hello_open_wf : sys_wf hello_open /\ reading 3 5 5 0 hello_open.
Proof.
  destruct (open_reads 0x500000 0 5 5 hello) as (s1 & H1 & Hwf & Hr & _);
    [apply hello_wf | done | by vm_compute | by vm_compute | by vm_compute |].
  unfold hello_open. rewrite H1. split; [exact Hwf|].
  replace 3 with (fd_alloc hello) by (by vm_compute). exact Hr.
Qed.

Lemma lseek_read_spec_witness :
  exists s1 s2, sys_lseek 3 (-2) SEEK_END hello_open = Ret (3, s1) /\
    sys_read 3 0x500100 10 s1 = Ret (2, s2) /\ get (umem s2) 0x500100 2 = $"lo".
Proof.
  destruct (lseek_read_spec 3 (-2) SEEK_END 0x500100 10 5 5 0 hello_open) as (s1 & s2 & H1 & _ & H2 & H3);
    [apply hello_open_wf | apply hello_open_wf | lia | lia | lia | lia |].
  exists s1, s2. split_and!; [exact H1 | exact H2 |]. etransitivity; [exact H3|]. by vm_compute.
Defined.

Lemma mmap_regions_disjoint_witness :
  let s := running FsSpec.booted in
  exists v1 s1 s2, sys_mmap2 0 100 3 0x22 0 0 s = Ret (v1, s1) /\
    run_calls [mk_regs SYS_READ 0 0x500000 64 4 5 6; mk_regs SYS_SYSINFO 0x500000 0 0 0 0 0] s1 = Ret s2 /\
    exists v2 s3, sys_mmap2 0 200 3 0x22 0 0 s2 = Ret (v2, s3) /\ v1 + 100 <= v2.
Proof.
  pose proof (running_ok FsSpec.booted FsSpec.booted_idle) as Hok. cbv zeta.
  destruct (mmap_fresh 0 100 3 0x22 0 0 (running FsSpec.booted)) as [[_ H]|(s1 & H1 & _ & Hb & _)];
    [apply Hok | by split; [|left] | lia | by vm_compute in H |].
  destruct (mmap_regions_disjoint 0 100 3 0x22 0 0 0 200 3 0x22 0 0
      [mk_regs SYS_READ 0 0x500000 64 4 5 6; mk_regs SYS_SYSINFO 0x500000 0 0 0 0 0] (running FsSpec.booted) Kmalloc.boot_blocks
      (mmap_bump (running FsSpec.booted)) s1)
    as (s2 & H2 & [[H3 _]|(v2 & s3 & H3 & _ & _ & _ & H4 & _)]);
    [exact Hok | by split; [|left] | by split; [|left] | lia | lia | exact H1 | by vm_compute | | |].
  - cbn [calls_apart]. split_and!; [reflexivity | apply windows_clear; reflexivity |].
    intros x s' _. split_and!; [reflexivity | apply windows_clear; reflexivity | done].
  - exfalso. assert (match sys_mmap2 0 100 3 0x22 0 0 (running FsSpec.booted) with
      | Ret (_, s1) => match run_calls [mk_regs SYS_READ 0 0x500000 64 4 5 6; mk_regs SYS_SYSINFO 0x500000 0 0 0 0 0] s1 with
        | Ret s2 => match sys_mmap2 0 200 3 0x22 0 0 s2 with Ret (v, _) => 0 <=? v | Fault _ => false end
        | Fault _ => false end | Fault _ => false end = true) as B by (vm_compute; reflexivity).
    rewrite H1, H2, H3 in B. discriminate B.
  - exists (mmap_bump (running FsSpec.booted)), s1, s2. split_and!; [exact H1 | exact H2 |]. by exists v2, s3.
Defined.

Lemma mmap_wraps_witness :
  exists s', sys_mmap2 0xFFFFF000 0x2000 0 (Z.lor MAP_ANONYMOUS MAP_FIXED) 0 0 hello
             = Ret (s32 0xFFFFF000, s') /\ ld8 (umem s') 0xFFF = 0.
Proof. apply (proj1 mmap_wraps); vm_compute; try split; congruence. Defined.

End SyscallSpec.
