(* ===== verification/Elf.v ===== *)
(** * The ELF loader (src/src/elf.c)

    Checks an ELF32 image and copies its PT_LOAD segments to the addresses
    they name.  The image is a byte list of length [size]; reading a header
    or segment bytes outside it is an [OutOfBounds] fault.  All sums of the
    source are 32-bit and wrap; so do the addresses written. *)

From S2P Require Import Prelude Memory.

Module Elf.

Definition PT_LOAD : Z := 1.
Definition ET_EXEC : Z := 2.
Definition EM_386 : Z := 3.
Definition SIZEOF_EHDR : Z := 52.
Definition SIZEOF_PHDR : Z := 32.
Definition WINDOW_LO : Z := 0x00100000.
Definition WINDOW_HI : Z := 0x04000000.

Inductive elf_result : Type :=
| ELF_OK | ELF_ERR_BAD_MAGIC | ELF_ERR_NOT_32 | ELF_ERR_NOT_EXEC | ELF_ERR_BAD_ARCH
| ELF_ERR_NO_LOAD | ELF_ERR_TOO_BIG.
#[global] Instance elf_result_eq_dec : EqDecision elf_result.
Proof. solve_decision. Defined.

Record elf32_ehdr : Type := mk_ehdr {
  e_type : Z; e_machine : Z; e_entry : Z; e_phoff : Z; e_phentsize : Z; e_phnum : Z }.
Record elf32_phdr : Type := mk_phdr {
  p_type : Z; p_offset : Z; p_vaddr : Z; p_filesz : Z; p_memsz : Z }.

(** The fields at their offsets in the packed structures. *)
Definition ehdr_at (image : list Z) : elf32_ehdr :=
  mk_ehdr (im16 image 16) (im16 image 18) (im32 image 24) (im32 image 28)
    (im16 image 42) (im16 image 44).
Definition phdr_at (image : list Z) (off : Z) : elf32_phdr :=
  mk_phdr (im32 image off) (im32 image (off + 4)) (im32 image (off + 8))
    (im32 image (off + 16)) (im32 image (off + 20)).

Definition slice (image : list Z) (off n : Z) : list Z :=
  take (Z.to_nat n) (drop (Z.to_nat off) image).

(** [mem_copy(dest, image + p_offset, p_filesz)], then [mem_zero] of the rest. *)
Definition load_segment (image : list Z) (ph : elf32_phdr) (m : mem) : out mem :=
  if Z.of_nat (length image) <? p_offset ph + p_filesz ph then Fault OutOfBounds
  else
    let m := put m (p_vaddr ph) (slice image (p_offset ph) (p_filesz ph)) in
    Ret (if p_filesz ph <? p_memsz ph
         then put m (p_vaddr ph + p_filesz ph) (replicate (Z.to_nat (p_memsz ph - p_filesz ph)) 0)
         else m).

(** The loop over the program headers, [n] of them left from index [i]. *)
Fixpoint load_loop (image : list Z) (eh : elf32_ehdr) (i : Z) (n : nat) (loaded : bool) (m : mem)
  : out (elf_result * mem) :=
  match n with
  | O => Ret (if loaded then ELF_OK else ELF_ERR_NO_LOAD, m)
  | S n' =>
      let size := Z.of_nat (length image) in
      let off := e_phoff eh + i * e_phentsize eh in
      if size <? off + SIZEOF_PHDR then Fault OutOfBounds
      else
        let ph := phdr_at image off in
        if negb (p_type ph =? PT_LOAD) then load_loop image eh (i + 1) n' loaded m
        else if size <? u32 (p_offset ph + p_filesz ph) then Ret (ELF_ERR_NO_LOAD, m)
        else
          let vend := u32 (p_vaddr ph + p_memsz ph) in
          if (p_vaddr ph <? WINDOW_LO) || (WINDOW_HI <? vend) then Ret (ELF_ERR_TOO_BIG, m)
          else
            m ← load_segment image ph m;
            load_loop image eh (i + 1) n' true m
  end.

Definition is_elf_magic (image : list Z) : bool :=
  (im8 image 0 =? 0x7F) && (im8 image 1 =? 69) && (im8 image 2 =? 76) && (im8 image 3 =? 70).

(** The result, the value stored through [entry] on success, the memory. *)
Definition elf_load (image : list Z) (m : mem) : out ((elf_result * option Z) * mem) :=
  let size := Z.of_nat (length image) in
  let err r := Ret ((r, None), m) in
  if size <? SIZEOF_EHDR then err ELF_ERR_BAD_MAGIC
  else
    let eh := ehdr_at image in
    if negb (is_elf_magic image) then err ELF_ERR_BAD_MAGIC
    else if negb (im8 image 4 =? 1) then err ELF_ERR_NOT_32
    else if negb (im8 image 5 =? 1) then err ELF_ERR_BAD_MAGIC
    else if negb (e_type eh =? ET_EXEC) then err ELF_ERR_NOT_EXEC
    else if negb (e_machine eh =? EM_386) then err ELF_ERR_BAD_ARCH
    else if size <? u32 (e_phoff eh + u32 (e_phnum eh * e_phentsize eh)) then err ELF_ERR_NO_LOAD
    else
      '(r, m) ← load_loop image eh 0 (Z.to_nat (e_phnum eh)) false m;
      Ret ((r, if bool_decide (r = ELF_OK) then Some (e_entry eh) else None), m).

Definition elf_strerror (r : elf_result) : chars :=
  match r with
  | ELF_OK => $"OK"
  | ELF_ERR_BAD_MAGIC => $"not an ELF file"
  | ELF_ERR_NOT_32 => $"not ELF32"
  | ELF_ERR_NOT_EXEC => $"not an executable (ET_EXEC)"
  | ELF_ERR_BAD_ARCH => $"not i386"
  | ELF_ERR_NO_LOAD => $"no loadable segments"
  | ELF_ERR_TOO_BIG => $"segment outside allowed load window"
  end.

(** ** Loading a sane image *)

Definition nth_phdr (image : list Z) (i : Z) : elf32_phdr :=
  let eh := ehdr_at image in phdr_at image (e_phoff eh + i * e_phentsize eh).

(** The loadable segments from header [i] on, in table order. *)
Fixpoint segments (image : list Z) (i : Z) (n : nat) : list elf32_phdr :=
  match n with
  | O => []
  | S n' =>
      let ph := nth_phdr image i in
      if p_type ph =? PT_LOAD then ph :: segments image (i + 1) n' else segments image (i + 1) n'
  end.

Definition header_ok (image : list Z) : Prop :=
  let eh := ehdr_at image in
  SIZEOF_EHDR <= Z.of_nat (length image) /\ is_elf_magic image = true /\
  im8 image 4 = 1 /\ im8 image 5 = 1 /\ e_type eh = ET_EXEC /\ e_machine eh = EM_386 /\
  e_phoff eh + e_phnum eh * e_phentsize eh <= Z.of_nat (length image) /\
  SIZEOF_PHDR <= e_phentsize eh.

Definition segment_ok (image : list Z) (ph : elf32_phdr) : Prop :=
  p_offset ph + p_filesz ph <= Z.of_nat (length image) /\ p_filesz ph <= p_memsz ph /\
  WINDOW_LO <= p_vaddr ph /\ p_vaddr ph + p_memsz ph <= WINDOW_HI.

(** The byte the segment puts at [x]. *)
Definition segment_byte (image : list Z) (ph : elf32_phdr) (x : Z) : Z :=
  if x <? p_vaddr ph + p_filesz ph then im8 image (p_offset ph + (x - p_vaddr ph)) else 0.

Definition covers (ph : elf32_phdr) (x : Z) : Prop := p_vaddr ph <= x < p_vaddr ph + p_memsz ph.

(** The byte at [x] once the segments have been loaded over [old]. *)
Definition loaded_byte (image : list Z) (segs : list elf32_phdr) (x old : Z) : Z :=
  foldl (fun b ph => if (p_vaddr ph <=? x) && (x <? p_vaddr ph + p_memsz ph)
                     then segment_byte image ph x else b) old segs.

Lemma phdr_range image off :
  let ph := phdr_at image off in
  in_u32 (p_offset ph) /\ in_u32 (p_vaddr ph) /\ in_u32 (p_filesz ph) /\ in_u32 (p_memsz ph).
Proof. cbn [phdr_at p_offset p_vaddr p_filesz p_memsz]. split_and!; apply im32_range. Qed.

Lemma load_segment_spec image off m :
  let ph := phdr_at image off in
  segment_ok image ph ->
  exists m', load_segment image ph m = Ret m' /\
    forall x, ld8 m' x = loaded_byte image [ph] x (ld8 m x).
Proof.
  intros ph (Ho & Hf & Hlo & Hhi). destruct (phdr_range image off) as (R1 & R2 & R3 & R4). fold ph in R1, R2, R3, R4.
  unfold in_u32, WINDOW_LO, WINDOW_HI in *. unfold load_segment.
  rewrite (proj2 (Z.ltb_ge _ _)) by lia. eexists. split; [reflexivity|]. intros x.
  set (w := slice image (p_offset ph) (p_filesz ph)).
  assert (Hw : length w = Z.to_nat (p_filesz ph)).
  { unfold w, slice. rewrite length_take, length_drop. lia. }
  set (m1 := put m (p_vaddr ph) w). unfold loaded_byte, segment_byte. cbn [foldl].
  assert (H1 : ld8 m1 x = if (p_vaddr ph <=? x) && (x <? p_vaddr ph + p_filesz ph)
    then im8 image (p_offset ph + (x - p_vaddr ph)) else ld8 m x).
  { unfold m1. destruct (Z.leb_spec (p_vaddr ph) x), (Z.ltb_spec x (p_vaddr ph + p_filesz ph)); cbn [andb];
      try (apply ld8_put_out; lia).
    destruct (lookup_lt_is_Some_2 w (Z.to_nat (x - p_vaddr ph))) as [b Hb]; [lia|].
    pose proof (ld8_put_in m (p_vaddr ph) w _ b ltac:(lia) ltac:(lia) Hb) as E.
    replace (p_vaddr ph + Z.of_nat (Z.to_nat (x - p_vaddr ph))) with x in E by lia. rewrite E.
    unfold w, slice in Hb. rewrite lookup_take_lt, lookup_drop in Hb by lia.
    unfold im8. f_equal. symmetry. apply list_lookup_total_correct. rewrite <- Hb. f_equal. lia. }
  destruct (Z.ltb_spec (p_filesz ph) (p_memsz ph)).
  - destruct (decide (p_vaddr ph + p_filesz ph <= x < p_vaddr ph + p_memsz ph)).
    + rewrite (proj2 (Z.leb_le _ _)), (proj2 (Z.ltb_lt x (_ + p_memsz ph))), (proj2 (Z.ltb_ge x _)) by lia.
      apply (ld8_put_zeros _ _ _ (Z.to_nat (x - p_vaddr ph - p_filesz ph))); [lia|].
      rewrite u32_small; unfold in_u32; lia.
    + rewrite ld8_put_out by (rewrite ?length_replicate; lia). rewrite H1.
      destruct (Z.leb_spec (p_vaddr ph) x), (Z.ltb_spec x (p_vaddr ph + p_filesz ph)),
        (Z.ltb_spec x (p_vaddr ph + p_memsz ph)); cbn [andb]; try done; lia.
  - rewrite H1. replace (p_memsz ph) with (p_filesz ph) by lia.
    destruct (Z.leb_spec (p_vaddr ph) x), (Z.ltb_spec x (p_vaddr ph + p_filesz ph)); done.
Qed.

Lemma loaded_byte_cons image ph segs x old :
  loaded_byte image (ph :: segs) x old = loaded_byte image segs x (loaded_byte image [ph] x old).
Proof. done. Qed.

Lemma load_loop_spec image i n loaded m :
  Z.of_nat (length image) < 4294967296 -> 0 <= i -> SIZEOF_PHDR <= e_phentsize (ehdr_at image) ->
  e_phoff (ehdr_at image) + (i + Z.of_nat n) * e_phentsize (ehdr_at image) <= Z.of_nat (length image) ->
  Forall (segment_ok image) (segments image i n) ->
  exists m', load_loop image (ehdr_at image) i n loaded m =
    Ret (if loaded || negb (bool_decide (segments image i n = [])) then ELF_OK else ELF_ERR_NO_LOAD, m') /\
    forall x, ld8 m' x = loaded_byte image (segments image i n) x (ld8 m x).
Proof.
  intros Hsz Hi Hent. revert i loaded m Hi. induction n as [|n IH]; intros i loaded m Hi Ht Hok; cbn [load_loop segments].
  { exists m. rewrite bool_decide_true by done. by rewrite orb_false_r. }
  unfold SIZEOF_PHDR in *. cbv zeta.
  rewrite (proj2 (Z.ltb_ge _ _)) by nia. cbn [segments] in Hok. fold (nth_phdr image i) in *.
  change (phdr_at image (e_phoff (ehdr_at image) + i * e_phentsize (ehdr_at image))) with (nth_phdr image i).
  set (ph := nth_phdr image i) in *. destruct (Z.eqb_spec (p_type ph) PT_LOAD) as [Hp|Hp]; cbn [negb].
  - apply Forall_cons in Hok as [Hph Hok].
    destruct (load_segment_spec image (e_phoff (ehdr_at image) + i * e_phentsize (ehdr_at image)) m) as (m1 & Hl & Hb1);
      [exact Hph|].
    destruct (phdr_range image (e_phoff (ehdr_at image) + i * e_phentsize (ehdr_at image))) as (R1 & R2 & R3 & R4).
    change (phdr_at image _) with ph in Hl, Hb1, R1, R2, R3, R4.
    destruct Hph as (Ho & Hf & Hlo & Hhi). unfold in_u32, WINDOW_LO, WINDOW_HI in *.
    rewrite !u32_small by (unfold in_u32; lia).
    rewrite (proj2 (Z.ltb_ge _ (p_offset ph + _))), (proj2 (Z.ltb_ge (p_vaddr ph) _)),
      (proj2 (Z.ltb_ge _ (p_vaddr ph + _))) by lia. cbn [orb]. rewrite Hl. cbn [mbind out_mbind].
    destruct (IH (i + 1) true m1) as (m' & -> & Hb); [lia | lia | done |]. exists m'.
    rewrite (bool_decide_false (_ :: _ = [])) by done. cbn [negb]. rewrite orb_true_r. split; [done|].
    intros x. rewrite loaded_byte_cons, Hb. f_equal. apply Hb1.
  - destruct (IH (i + 1) loaded m) as (m' & -> & Hb); [lia | lia | done |]. by exists m'.
Qed.

(** The last segment that covers an address decides its byte. *)
Lemma loaded_byte_last image l1 ph l2 x old :
  covers ph x -> (forall q, q ∈ l2 -> ~ covers q x) ->
  loaded_byte image (l1 ++ ph :: l2) x old = segment_byte image ph x.
Proof.
  unfold covers, loaded_byte. intros Hc Hl. rewrite foldl_app. cbn [foldl].
  rewrite (proj2 (Z.leb_le _ _)), (proj2 (Z.ltb_lt x _)) by lia. cbn [andb].
  generalize (segment_byte image ph x). induction l2 as [|q l2 IH]; intros b; cbn [foldl]; [done|].
  assert (Hq : ~ (p_vaddr q <= x < p_vaddr q + p_memsz q)) by (apply Hl; by left).
  destruct (_ && _) eqn:E; [apply andb_true_iff in E; lia|]. apply IH. intros q' Hq'. apply Hl. by right.
Qed.

Lemma loaded_byte_none image segs x old :
  (forall q, q ∈ segs -> ~ covers q x) -> loaded_byte image segs x old = old.
Proof.
  unfold covers, loaded_byte. revert old. induction segs as [|q l IH]; intros old Hl; cbn [foldl]; [done|].
  assert (Hq : ~ (p_vaddr q <= x < p_vaddr q + p_memsz q)) by (apply Hl; by left).
  destruct (_ && _) eqn:E; [apply andb_true_iff in E; lia|]. apply IH. intros q' Hq'. apply Hl. by right.
Qed.

Definition entry_of (image : list Z) : Z := e_entry (ehdr_at image).
Definition all_segments (image : list Z) : list elf32_phdr :=
  segments image 0 (Z.to_nat (e_phnum (ehdr_at image))).

(** C17. Loading a well-formed executable whose segments lie in the user
    window: [elf_load] succeeds with the header's entry point, every address
    a segment covers holds the segment's file byte, or zero past its file
    part (the last segment wins where they overlap), and no other byte of
    memory changes. *)
Theorem elf_load_spec image m :
  Z.of_nat (length image) < 4294967296 -> header_ok image -> all_segments image <> [] ->
  Forall (segment_ok image) (all_segments image) ->
  exists m', elf_load image m = Ret ((ELF_OK, Some (entry_of image)), m') /\
    (forall l1 ph l2 x, all_segments image = l1 ++ ph :: l2 -> covers ph x ->
       (forall q, q ∈ l2 -> ~ covers q x) -> ld8 m' x = segment_byte image ph x) /\
    (forall x, (forall q, q ∈ all_segments image -> ~ covers q x) -> ld8 m' x = ld8 m x).
Proof.
  intros Hsz (H1 & H2 & H3 & H4 & H5 & H6 & H7 & H8) Hne Hok.
  pose proof (im16_range image 44) as Rn. pose proof (im16_range image 42) as Re.
  pose proof (im32_range image 28) as Ro. unfold in_u32 in Ro.
  destruct (load_loop_spec image 0 (Z.to_nat (e_phnum (ehdr_at image))) false m) as (m' & Hl & Hb);
    [done | lia | done | | done |].
  { cbn [ehdr_at e_phnum e_phoff e_phentsize] in *. rewrite Z2Nat.id by lia. lia. }
  exists m'. split.
  - unfold elf_load. cbv zeta. rewrite (proj2 (Z.ltb_ge _ _)), H2, H3, H4, H5, H6 by lia. cbn [negb Z.eqb].
    rewrite !Z.eqb_refl. cbn [negb].
    rewrite (u32_small (e_phnum _ * _)), u32_small, (proj2 (Z.ltb_ge _ (e_phoff _ + _))), Hl
      by (unfold in_u32; cbn [ehdr_at e_phnum e_phoff e_phentsize] in *; nia).
    rewrite bool_decide_false by done. cbn [mbind out_mbind negb orb].
    by rewrite bool_decide_true by done.
  - split.
    + intros l1 ph l2 x E Hc Hl2. rewrite Hb. fold (all_segments image). rewrite E. by apply loaded_byte_last.
    + intros x Hn. rewrite Hb. by apply loaded_byte_none.
Qed.

(** ** A tiny executable: one segment, two file bytes, four bytes of memory *)

Definition tiny (filesz memsz vaddr : Z) : list Z :=
  [0x7F; 69; 76; 70; 1; 1; 1; 0] ++ replicate 8 0 ++ le16 2 ++ le16 3 ++ le32 1 ++ le32 vaddr ++
  le32 52 ++ le32 0 ++ le32 0 ++ le16 52 ++ le16 32 ++ le16 1 ++ le16 0 ++ le16 0 ++ le16 0 ++
  le32 1 ++ le32 84 ++ le32 vaddr ++ le32 vaddr ++ le32 filesz ++ le32 memsz ++ le32 5 ++ le32 4096 ++
  replicate (Z.to_nat filesz) 0x90.

Lemma elf_load_spec_witness :
  exists m', elf_load (tiny 2 4 0x400000) ∅ = Ret ((ELF_OK, Some 0x400000), m') /\ ld8 m' 0x400001 = 0x90.
Proof.
  destruct (elf_load_spec (tiny 2 4 0x400000) ∅) as (m' & H1 & H2 & _).
  - by vm_compute.
  - unfold header_ok, SIZEOF_EHDR, SIZEOF_PHDR. split_and!; vm_compute; congruence.
  - by vm_compute.
  - assert (all_segments (tiny 2 4 0x400000) = [mk_phdr 1 84 0x400000 2 4]) as -> by reflexivity.
    repeat constructor; vm_compute; congruence.
  - exists m'. split; [exact H1|]. rewrite (H2 [] (mk_phdr 1 84 0x400000 2 4) []).
    + reflexivity.
    + reflexivity.
    + split; cbn [p_vaddr p_memsz]; lia.
    + intros q Hq. by apply not_elem_of_nil in Hq.
Defined.

(** The window is checked against [p_memsz] but [p_filesz] bytes are copied:
    a segment with more file bytes than memory bytes is written past the end
    of the window, and the loader reports success. *)
Example elf_load_escapes :
  match elf_load (tiny 16 8 (WINDOW_HI - 8)) ∅ with
  | Ret ((r, _), m) => r = ELF_OK /\ ld8 m WINDOW_HI = 0x90
  | Fault _ => False
  end.
Proof. vm_compute. by split. Qed.

End Elf.
