(* ===== verification/Dyld.v ===== *)
(** * The dynamic loader (src/src/dyld.c)

    Loads an ELF program and the libraries it names, looks symbols up and
    applies the relocations, all in the flat memory.  Images are byte lists
    (the file in the RAM file system, or a blob linked into the kernel);
    reading one outside its size is an [OutOfBounds] fault.  Tables that
    have been loaded (dynamic section, symbols, strings, relocations) are
    read from memory through 32-bit pointers that wrap.  The two blobs the
    build embeds are parameters. *)

From S2P Require Import Prelude Memory Terminal Fs Elf.
Import Fs Elf.

Module Dyld.

Definition ET_DYN : Z := 3.
Definition PT_DYNAMIC : Z := 2.
Definition PT_INTERP : Z := 3.

Definition DT_NULL : Z := 0.
Definition DT_NEEDED : Z := 1.
Definition DT_PLTRELS : Z := 2.
Definition DT_STRTAB : Z := 5.
Definition DT_SYMTAB : Z := 6.
Definition DT_RELA : Z := 7.
Definition DT_RELASZ : Z := 8.
Definition DT_REL : Z := 17.
Definition DT_RELSZ : Z := 18.
Definition DT_PLTREL : Z := 20.
Definition DT_JMPREL : Z := 23.

Definition STB_GLOBAL : Z := 1.
Definition STB_WEAK : Z := 2.
Definition SHN_UNDEF : Z := 0.

Definition R_386_NONE : Z := 0.
Definition R_386_32 : Z := 1.
Definition R_386_PC32 : Z := 2.
Definition R_386_GLOB_DAT : Z := 6.
Definition R_386_JMP_SLOT : Z := 7.
Definition R_386_RELATIVE : Z := 8.

Definition DYLD_MAX_MODS : nat := 8.
Definition DYLD_LIB_BASE : Z := 0x600000.
Definition DYLD_LIB_STRIDE : Z := 0x100000.
Definition DYLD_MAIN_BASE : Z := 0x400000.

Inductive dyld_result : Type :=
| DYLD_OK | DYLD_ERR_ELF | DYLD_ERR_INTERP | DYLD_ERR_NEEDED | DYLD_ERR_RELOC
| DYLD_ERR_NOSYM | DYLD_ERR_NOMEM.
#[global] Instance dyld_result_eq_dec : EqDecision dyld_result.
Proof. solve_decision. Defined.

(** A loaded module; pointers are addresses, 0 is NULL. *)
Record module : Type := mk_mod {
  mname : chars;       (** [char name[48]] *)
  base : Z;
  mimage : list Z;     (** [image] and [size] *)
  symtab : Z;
  strtab : Z;
  symcount : Z;
  dynamic : Z;
  entry : Z;
  is_pie : bool;
}.

(** The slots in use, [mods[0 .. mod_count)], with the memory, the files
    and the console. *)
Record dyst : Type := mk_dy {
  dmem : mem;
  dfs : ramfs;
  dtty : Terminal.term;
  mods : list module;
}.

Definition set_dmem (m : mem) (s : dyst) : dyst := mk_dy m (dfs s) (dtty s) (mods s).
Definition set_mods (ms : list module) (s : dyst) : dyst := mk_dy (dmem s) (dfs s) (dtty s) ms.
Definition dsay (c : chars) (s : dyst) : dyst :=
  mk_dy (dmem s) (dfs s) (Terminal.terminal_writestring c (dtty s)) (mods s).

(** [m->is_pie ? m->base : 0] *)
Definition bias_of (m : module) : Z := if is_pie m then base m else 0.

(** ** Image headers *)

Definition parse_ehdr (image : list Z) : option elf32_ehdr :=
  let eh := ehdr_at image in
  if Z.of_nat (length image) <? SIZEOF_EHDR then None
  else if negb (is_elf_magic image) then None
  else if negb (im8 image 4 =? 1) then None
  else if negb (im8 image 5 =? 1) then None
  else if negb (e_machine eh =? EM_386) then None
  else if negb (e_type eh =? ET_EXEC) && negb (e_type eh =? ET_DYN) then None
  else Some eh.

(** [(struct elf32_phdr* )(image + e_phoff + i * e_phentsize)], which the code
    does not check against the size. *)
Definition read_phdr (image : list Z) (eh : elf32_ehdr) (i : Z) : out elf32_phdr :=
  let off := e_phoff eh + i * e_phentsize eh in
  if Z.of_nat (length image) <? off + SIZEOF_PHDR then Fault OutOfBounds else Ret (phdr_at image off).

(** The first program header of type [ty], [n] headers left from [i]. *)
Fixpoint find_phdr (image : list Z) (eh : elf32_ehdr) (ty i : Z) (n : nat) : out (option elf32_phdr) :=
  match n with
  | O => Ret None
  | S n' =>
      ph ← read_phdr image eh i;
      if p_type ph =? ty then Ret (Some ph) else find_phdr image eh ty (i + 1) n'
  end.

(** A string inside the image; one without terminator is read past its end. *)
Definition image_str (image : list Z) (off : Z) : out chars :=
  let s := drop (Z.to_nat off) image in
  if bool_decide (0 ∈ s) then Ret (cstr s) else Fault OutOfBounds.

Definition find_interp (image : list Z) (eh : elf32_ehdr) : out (option chars) :=
  ph ← find_phdr image eh PT_INTERP 0 (Z.to_nat (e_phnum eh));
  match ph with
  | None => Ret None
  | Some ph =>
      if Z.of_nat (length image) <? u32 (p_offset ph + p_filesz ph) then Ret None
      else s ← image_str image (p_offset ph); Ret (Some s)
  end.

(** The address of the dynamic section, 0 without one. *)
Definition find_dynamic (image : list Z) (eh : elf32_ehdr) (bias : Z) : out Z :=
  ph ← find_phdr image eh PT_DYNAMIC 0 (Z.to_nat (e_phnum eh));
  Ret (match ph with None => 0 | Some ph => u32 (p_vaddr ph + bias) end).

(** ** Segments *)

Fixpoint load_segments_loop (image : list Z) (eh : elf32_ehdr) (bias : Z) (check_main_window : bool)
  (i : Z) (n : nat) (loaded : bool) (m : mem) : out (dyld_result * mem) :=
  match n with
  | O => Ret (if loaded then DYLD_OK else DYLD_ERR_ELF, m)
  | S n' =>
      ph ← read_phdr image eh i;
      if negb (p_type ph =? PT_LOAD)
      then load_segments_loop image eh bias check_main_window (i + 1) n' loaded m
      else if Z.of_nat (length image) <? u32 (p_offset ph + p_filesz ph) then Ret (DYLD_ERR_ELF, m)
      else
        let addr := u32 (p_vaddr ph + bias) in
        let vend := u32 (addr + p_memsz ph) in
        if check_main_window && ((addr <? WINDOW_LO) || (WINDOW_HI <? vend)) then Ret (DYLD_ERR_ELF, m)
        else
          m ← load_segment image (mk_phdr (p_type ph) (p_offset ph) addr (p_filesz ph) (p_memsz ph)) m;
          load_segments_loop image eh bias check_main_window (i + 1) n' true m
  end.

Definition load_segments (image : list Z) (eh : elf32_ehdr) (bias : Z) (check_main_window : bool)
  (m : mem) : out (dyld_result * mem) :=
  load_segments_loop image eh bias check_main_window 0 (Z.to_nat (e_phnum eh)) false m.

(** ** The dynamic section *)

(** [d->d_tag] and [d->d_val] *)
Definition d_tag (m : mem) (d : Z) : Z := s32 (get32 m d).
Definition d_val (m : mem) (d : Z) : Z := get32 m (d + 4).

(** The entries before DT_NULL.  Each has a stored byte, so a table that
    ends has at most as many entries as memory has. *)
Fixpoint dyn_entries (fuel : nat) (m : mem) (d : Z) : out (list (Z * Z)) :=
  match fuel with
  | O => Fault NoFuel
  | S f =>
      if d_tag m d =? DT_NULL then Ret []
      else r ← dyn_entries f m (u32 (d + 8)); Ret ((d_tag m d, d_val m d) :: r)
  end.
Definition dyn_fuel (m : mem) : nat := S (size m).

(** The value of the last entry with a tag, or [v]. *)
Definition last_val (tag v : Z) (es : list (Z * Z)) : Z :=
  foldl (fun v e => if fst e =? tag then snd e else v) v es.

Definition has_tag (tag : Z) (es : list (Z * Z)) : bool := existsb (fun e => fst e =? tag) es.

Definition scan_dynamic (m : mem) (md : module) : out module :=
  let upd st str n :=
    mk_mod (mname md) (base md) (mimage md) st str n (dynamic md) (entry md) (is_pie md) in
  if dynamic md =? 0 then Ret (upd 0 0 0)
  else
    es ← dyn_entries (dyn_fuel m) m (dynamic md);
    let ptr tag := if has_tag tag es then u32 (last_val tag 0 es + bias_of md) else 0 in
    Ret (upd (ptr DT_SYMTAB) (ptr DT_STRTAB) 256).

(** ** Symbols *)

Record elf32_sym : Type := mk_sym { st_name : Z; st_value : Z; st_info : Z; st_shndx : Z }.

(** [&m->symtab[i]] *)
Definition sym_at (m : mem) (md : module) (i : Z) : elf32_sym :=
  let a := symtab md + 16 * i in
  mk_sym (get32 m a) (get32 m (a + 4)) (ld8 m (u32 (a + 12)))
    (ld8 m (u32 (a + 14)) + 256 * ld8 m (u32 (a + 15))).
Definition st_bind (sy : elf32_sym) : Z := Z.shiftr (st_info sy) 4.
Definition sym_name (m : mem) (md : module) (sy : elf32_sym) : chars :=
  cstr_at m (u32 (strtab md + st_name sy)).

(** The tests of the inner loop of [lookup_symbol]. *)
Definition sym_matches (m : mem) (md : module) (nm : chars) (i : nat) : bool :=
  let sy := sym_at m md (Z.of_nat i) in
  negb (st_name sy =? 0) && negb (st_shndx sy =? SHN_UNDEF) &&
  c_streq (sym_name m md sy) nm && ((st_bind sy =? STB_GLOBAL) || (st_bind sy =? STB_WEAK)).

Definition lookup_in (m : mem) (md : module) (nm : chars) : option Z :=
  if (symtab md =? 0) || (strtab md =? 0) then None
  else match for_find (sym_matches m md nm) 0 (Z.to_nat (symcount md)) with
       | Some i => Some (u32 (st_value (sym_at m md (Z.of_nat i)) + bias_of md))
       | None => None
       end.

Fixpoint lookup_symbol (m : mem) (ms : list module) (nm : chars) : option Z :=
  match ms with
  | [] => None
  | md :: ms' => match lookup_in m md nm with Some v => Some v | None => lookup_symbol m ms' nm end
  end.

(** ** Relocations *)

Record rel_entry : Type := mk_rel { r_offset : Z; r_info : Z; r_addend : option Z }.

(** The entry at [p]; the addend is there in a RELA table. *)
Definition rel_at (m : mem) (is_rela : bool) (p : Z) : rel_entry :=
  mk_rel (get32 m p) (get32 m (p + 4)) (if is_rela then Some (s32 (get32 m (p + 8))) else None).
Definition rel_size (is_rela : bool) : Z := if is_rela then 12 else 8.
Definition rel_type (r : rel_entry) : Z := u8 (r_info r).
Definition rel_sym (r : rel_entry) : Z := Z.shiftr (r_info r) 8.

Definition rel_where (md : module) (r : rel_entry) : Z := u32 (r_offset r + bias_of md).

(** [addend], as the code computes it. *)
Definition addend_of (m : mem) (md : module) (r : rel_entry) : Z :=
  match r_addend r with
  | Some a => a
  | None => if rel_type r =? R_386_RELATIVE then 0 else s32 (get32 m (rel_where md r))
  end.

(** [sym_val], or the name of an undefined symbol. *)
Definition sym_val (m : mem) (ms : list module) (md : module) (r : rel_entry) : Z + chars :=
  if (rel_sym r =? 0) || (symtab md =? 0) || (strtab md =? 0) then inl 0
  else
    let sy := sym_at m md (rel_sym r) in
    let sname := sym_name m md sy in
    if st_shndx sy =? SHN_UNDEF then
      match lookup_symbol m ms sname with
      | Some v => inl v
      | None => if st_bind sy =? STB_WEAK then inl 0 else inr sname
      end
    else inl (u32 (st_value sy + bias_of md)).

(** What is stored at [where], if anything is. *)
Definition rel_store (m : mem) (md : module) (r : rel_entry) (sym_val : Z) : option Z :=
  let a := addend_of m md r in
  let ty := rel_type r in
  if ty =? R_386_NONE then None
  else if ty =? R_386_RELATIVE then Some (u32 (base md + a))
  else if ty =? R_386_32 then Some (u32 (sym_val + a))
  else if ty =? R_386_PC32 then Some (u32 (sym_val + a - rel_where md r))
  else if (ty =? R_386_GLOB_DAT) || (ty =? R_386_JMP_SLOT) then Some sym_val
  else None.

(** The line printed for a resolved JMP_SLOT; the name is read after the
    store. *)
Definition jmp_slot_line (m : mem) (md : module) (r : rel_entry) (sym_val : Z) : chars :=
  if (rel_type r =? R_386_JMP_SLOT) && negb (rel_sym r =? 0) && negb (symtab md =? 0) && negb (strtab md =? 0)
  then $"dyld: JMP_SLOT " ++ sym_name m md (sym_at m md (rel_sym r)) ++ $" -> " ++
       Terminal.hex_chars sym_val ++ [10]
  else [].

Fixpoint apply_rel_loop (fuel : nat) (md : module) (is_rela : bool) (p pend : Z) (s : dyst)
  : out (dyld_result * dyst) :=
  match fuel with
  | O => Fault NoFuel
  | S f =>
      if pend <=? p then Ret (DYLD_OK, s)
      else
        let r := rel_at (dmem s) is_rela p in
        match sym_val (dmem s) (mods s) md r with
        | inr sname => Ret (DYLD_ERR_NOSYM, dsay ($"dyld: undefined " ++ sname ++ [10]) s)
        | inl v =>
            let s :=
              match rel_store (dmem s) md r v with
              | None => s
              | Some w =>
                  let s := set_dmem (put (dmem s) (rel_where md r) (le32 w)) s in
                  dsay (jmp_slot_line (dmem s) md r v) s
              end in
            apply_rel_loop f md is_rela (u32 (p + rel_size is_rela)) pend s
        end
  end.

(** The number of rounds: one per entry, and one to see the end. *)
Definition rel_fuel (relsz : Z) : nat := Z.to_nat (relsz / 8 + 2).

Definition apply_rel (md : module) (rel_va relsz : Z) (is_rela : bool) (s : dyst)
  : out (dyld_result * dyst) :=
  let addr := u32 (rel_va + bias_of md) in
  apply_rel_loop (rel_fuel relsz) md is_rela addr (u32 (addr + relsz)) s.

(** [if (rel && relsz) { r = apply_rel(...); if (r != DYLD_OK) return r; }] *)
Definition rel_part (md : module) (rel relsz : Z) (is_rela : bool) (s : dyst) : out (dyld_result * dyst) :=
  if (rel =? 0) || (relsz =? 0) then Ret (DYLD_OK, s) else apply_rel md rel relsz is_rela s.

Definition relocate_module (md : module) (s : dyst) : out (dyld_result * dyst) :=
  if dynamic md =? 0 then Ret (DYLD_OK, s)
  else
    es ← dyn_entries (dyn_fuel (dmem s)) (dmem s) (dynamic md);
    let v tag := last_val tag 0 es in
    '(r, s) ← rel_part md (v DT_REL) (v DT_RELSZ) false s;
    if negb (bool_decide (r = DYLD_OK)) then Ret (r, s)
    else
      '(r, s) ← rel_part md (v DT_RELA) (v DT_RELASZ) true s;
      if negb (bool_decide (r = DYLD_OK)) then Ret (r, s)
      else rel_part md (v DT_JMPREL) (v DT_PLTRELS) (last_val DT_PLTREL DT_REL es =? DT_RELA) s.

(** ** Modules *)

(** The segments of [load_one]: a position-independent main program that
    does not fit is tried again at its default base. *)
Definition load_at (image : list Z) (eh : elf32_ehdr) (bias : Z) (is_main pie : bool) (m : mem)
  : out (dyld_result * Z * mem) :=
  let load_bias := if pie then bias else 0 in
  '(r, m) ← load_segments image eh load_bias (is_main && negb pie) m;
  if negb (bool_decide (r = DYLD_OK)) && is_main && pie then
    '(r, m) ← load_segments image eh DYLD_MAIN_BASE true m;
    Ret (r, DYLD_MAIN_BASE, m)
  else Ret (r, load_bias, m).

Definition load_one (name : chars) (image : list Z) (bias : Z) (is_main : bool) (s : dyst)
  : out (dyld_result * dyst) :=
  if (DYLD_MAX_MODS <=? length (mods s))%nat then Ret (DYLD_ERR_NOMEM, s)
  else match parse_ehdr image with
  | None => Ret (DYLD_ERR_ELF, s)
  | Some eh =>
      let pie := e_type eh =? ET_DYN in
      '(r, load_bias, m) ← load_at image eh bias is_main pie (dmem s);
      let s := set_dmem m s in
      if negb (bool_decide (r = DYLD_OK)) then Ret (r, s)
      else
        dyn ← find_dynamic image eh load_bias;
        md ← scan_dynamic (dmem s)
               (mk_mod (c_strcpy_truncate (replicate 48 0) name 48) load_bias image 0 0 0 dyn
                  (if pie then u32 (e_entry eh + load_bias) else e_entry eh) pie);
        Ret (DYLD_OK, set_mods (mods s ++ [md]) s)
  end.

(** The part of a path after its last slash. *)
Fixpoint basename_from (p b : chars) : chars :=
  match p with
  | [] => b
  | c :: p' => basename_from p' (if c =? 47 then p' else b)
  end.
Definition basename (p : chars) : chars := basename_from p p.

(** The bytes of the file [fs_read_path] found. *)
Definition file_image (d : ramfs) (r : fs_result * option (nat * Z)) : list Z :=
  match r with
  | (FS_OK, Some (i, n)) => take (Z.to_nat n) (content (nodes d !!! i))
  | _ => []
  end.

Section Loader.

(** The blobs the build links into the kernel. *)
Context (libhello_so dynhello_elf : list Z).

(** The contents of a library: empty when it is missing. *)
Definition find_library (lib : chars) (s : dyst) : out (list Z * dyst) :=
  let path := $"/lib/" ++ take 57 lib in
  let s := if c_streq lib $"libhello.so"
           then dsay ($"dyld: libhello.so from kernel blob (" ++
                      Terminal.uint_chars (Z.of_nat (length libhello_so)) ++ $" bytes)
") s else s in
  if c_streq lib $"libhello.so" && negb (length libhello_so =? 0)%nat then Ret (libhello_so, s)
  else
    r ← fs_read_path (Some path) (dfs s);
    if bool_decide (fst r = FS_OK) then Ret (file_image (dfs s) r, s)
    else
      r ← fs_read_path (Some lib) (dfs s);
      Ret (file_image (dfs s) r, s).

(** [for (d = m->dynamic; d->d_tag != DT_NULL; d++)]: the entries are read
    as the loop goes, from the memory the loaded libraries have changed. *)
Fixpoint load_needed_loop (fuel : nat) (md : module) (d : Z) (s : dyst) : out (dyld_result * dyst) :=
  match fuel with
  | O => Fault NoFuel
  | S f =>
      if d_tag (dmem s) d =? DT_NULL then Ret (DYLD_OK, s)
      else if negb (d_tag (dmem s) d =? DT_NEEDED) then load_needed_loop f md (u32 (d + 8)) s
      else
        let lib := basename (cstr_at (dmem s) (u32 (strtab md + d_val (dmem s) d))) in
        if existsb (fun m => c_streq (mname m) lib) (mods s) then load_needed_loop f md (u32 (d + 8)) s
        else
          let s := dsay ($"dyld: load " ++ lib ++ [10]) s in
          '(content, s) ← find_library lib s;
          match content with
          | [] => Ret (DYLD_ERR_NEEDED, dsay ($"dyld: missing /lib/" ++ take 57 lib ++ [10]) s)
          | _ =>
              let bias := u32 (DYLD_LIB_BASE + Z.of_nat (length (mods s) - 1) * DYLD_LIB_STRIDE) in
              '(r, s) ← load_one lib content bias false s;
              if negb (bool_decide (r = DYLD_OK)) then Ret (r, s)
              else load_needed_loop f md (u32 (d + 8)) s
          end
  end.

Definition load_needed (md : module) (s : dyst) : out (dyld_result * dyst) :=
  if (dynamic md =? 0) || (strtab md =? 0) then Ret (DYLD_OK, s)
  else load_needed_loop (dyn_fuel (dmem s)) md (dynamic md) s.

Fixpoint relocate_all (ms : list module) (s : dyst) : out (dyld_result * dyst) :=
  match ms with
  | [] => Ret (DYLD_OK, s)
  | md :: ms' =>
      '(r, s) ← relocate_module md s;
      if negb (bool_decide (r = DYLD_OK)) then Ret (r, s) else relocate_all ms' s
  end.

(** The result, [*entry_out] on success, the state. *)
Definition dyld_load (image : list Z) (s : dyst) : out ((dyld_result * option Z) * dyst) :=
  let s := set_mods [] s in
  match parse_ehdr image with
  | None => Ret ((DYLD_ERR_ELF, None), s)
  | Some eh =>
      interp ← find_interp image eh;
      let s := match interp with
               | Some i => dsay ($"dyld: PT_INTERP=" ++ i ++ $" (using in-kernel dyld)
") s
               | None => s
               end in
      '(r, s) ← load_one $"main" image DYLD_MAIN_BASE true s;
      if negb (bool_decide (r = DYLD_OK)) then Ret ((r, None), s)
      else match mods s with
      | [] => Fault OutOfBounds
      | main_mod :: _ =>
          '(r, s) ← load_needed main_mod s;
          if negb (bool_decide (r = DYLD_OK)) then Ret ((r, None), s)
          else
            '(r, s) ← relocate_all (tail (mods s) ++ [main_mod]) s;
            if negb (bool_decide (r = DYLD_OK)) then Ret ((r, None), s)
            else
              Ret ((DYLD_OK, Some (entry main_mod)),
                   dsay ($"dyld: modules=" ++ Terminal.uint_chars (Z.of_nat (length (mods s))) ++
                         $" entry=" ++ Terminal.hex_chars (entry main_mod) ++ [10]) s)
      end
  end.

Definition dyld_strerror (r : dyld_result) : chars :=
  match r with
  | DYLD_OK => $"OK"
  | DYLD_ERR_ELF => $"bad ELF"
  | DYLD_ERR_INTERP => $"interpreter error"
  | DYLD_ERR_NEEDED => $"missing shared library"
  | DYLD_ERR_RELOC => $"relocation failed"
  | DYLD_ERR_NOSYM => $"undefined symbol"
  | DYLD_ERR_NOMEM => $"too many modules"
  end.

(** Files and console of [dyld_install_lib_tree]. *)
Definition dyld_install_lib_tree (s : fs_state) (t : Terminal.term) : out (fs_state * Terminal.term) :=
  let lib_sz := Z.of_nat (length libhello_so) in
  let dh := Z.of_nat (length dynhello_elf) in
  let fits n := (0 <? n) && (n <? FS_FILE_MAX) in
  '(_, s) ← fs_mkdir_p (Some $"/lib") s;
  '(_, s) ← fs_cd $"/" s;
  '(_, s) ← fs_cd $"lib" s;
  '(_, s) ← fs_write $"ld-mykernel.so" $"MyKernel in-kernel dyld (not a real userspace ld)
" s;
  '(_, s) ← (if fits lib_sz then fs_write_bin $"libhello.so" libhello_so s else Ret (FS_OK, s));
  let t := if fits lib_sz
           then Terminal.terminal_writestring ($"dyld: installed /lib/libhello.so (" ++
                  Terminal.uint_chars lib_sz ++ $" bytes)
") t else t in
  '(_, s) ← (if fits lib_sz then fs_write_bin $"libc.so.6" libhello_so s else Ret (FS_OK, s));
  '(_, s) ← fs_cd $"/" s;
  if fits dh then
    '(_, s) ← fs_cd $"bin" s;
    '(_, s) ← fs_write_bin $"dynhello" dynhello_elf s;
    '(_, s) ← fs_cd $"/" s;
    Ret (s, Terminal.terminal_writestring $"dyld: installed /bin/dynhello
" t)
  else Ret (s, t).

End Loader.

End Dyld.
