(* ===== verification/DyldSpec.v ===== *)
(** * The dynamic loader: symbols and relocations

    [lookup_symbol] finds the first definition in load order, and a
    relocation table whose targets are apart from the tables it uses is
    applied entry by entry with the values of the i386 ELF ABI.  The one
    exception, the implicit addend of R_386_RELATIVE in a REL table, is
    stated on its own. *)

From S2P Require Import Prelude Memory Terminal Fs Elf Dyld.
Import Dyld.

Module DyldSpec.

(** ** Which definition a name is bound to *)

(** The module exports [nm] with value [v]: its first defined global or weak
    symbol of that name. *)
Definition defines (m : mem) (md : module) (nm : chars) (v : Z) : Prop :=
  symtab md <> 0 /\ strtab md <> 0 /\
  exists i, (i < Z.to_nat (symcount md))%nat /\ sym_matches m md nm i = true /\
    (forall j, (j < i)%nat -> sym_matches m md nm j = false) /\
    v = u32 (st_value (sym_at m md (Z.of_nat i)) + bias_of md).

Definition exports (m : mem) (md : module) (nm : chars) : Prop := exists v, defines m md nm v.

(** The first module in load order that exports the name decides. *)
Definition first_definition (m : mem) (ms : list module) (nm : chars) (v : Z) : Prop :=
  exists ms1 md ms2, ms = ms1 ++ md :: ms2 /\ defines m md nm v /\ Forall (fun d => ~ exports m d nm) ms1.

Lemma lookup_in_spec m md nm v : lookup_in m md nm = Some v <-> defines m md nm v.
Proof.
  unfold lookup_in, defines. destruct (Z.eqb_spec (symtab md) 0), (Z.eqb_spec (strtab md) 0); cbn [orb];
    try (split; [done | intros (? & ? & _); done]).
  destruct (for_find _ 0 _) as [i|] eqn:E.
  - apply for_find_Some in E as (Hi & Hm & Hmin). split.
    + intros [= <-]. split_and!; [done | done |]. exists i. split_and!; [lia | done | intros; apply Hmin; lia | done].
    + intros (_ & _ & j & Hj & Hjm & Hjmin & ->). f_equal.
      destruct (lt_eq_lt_dec i j) as [[Hlt | ->] | Hlt]; [| done |].
      * rewrite Hjmin in Hm by done. done.
      * rewrite Hmin in Hjm by lia. done.
  - split; [done|]. intros (_ & _ & j & Hj & Hjm & _). rewrite for_find_None in E.
    rewrite E in Hjm by lia. done.
Qed.

Lemma lookup_symbol_spec m ms nm v : lookup_symbol m ms nm = Some v <-> first_definition m ms nm v.
Proof.
  induction ms as [|md ms IH]; cbn [lookup_symbol].
  - split; [done|]. intros (ms1 & md & ms2 & E & _). by destruct ms1.
  - destruct (lookup_in m md nm) as [w|] eqn:E.
    + apply lookup_in_spec in E. split.
      * intros [= <-]. exists [], md, ms. split_and!; [done | done | constructor].
      * intros (ms1 & md' & ms2 & Heq & Hd & Hno). destruct ms1 as [|d ms1]; injection Heq as <- ->.
        -- apply lookup_in_spec in E, Hd. congruence.
        -- inversion Hno; subst. destruct H1. by exists w.
    + rewrite IH. split.
      * intros (ms1 & md' & ms2 & -> & Hd & Hno). exists (md :: ms1), md', ms2. split_and!; [done | done |].
        constructor; [|done]. intros [w Hw]. apply lookup_in_spec in Hw. congruence.
      * intros (ms1 & md' & ms2 & Heq & Hd & Hno). destruct ms1 as [|d ms1]; injection Heq as <- ->.
        -- apply lookup_in_spec in Hd. congruence.
        -- exists ms1, md', ms2. inversion Hno. done.
Qed.

(** The value of the symbol a relocation names: nothing for index 0, the
    module's own definition, or the first definition in load order; a weak
    symbol nobody defines is 0. *)
Definition resolves (m : mem) (ms : list module) (md : module) (r : rel_entry) (v : Z) : Prop :=
  if (rel_sym r =? 0) || (symtab md =? 0) || (strtab md =? 0) then v = 0
  else
    let sy := sym_at m md (rel_sym r) in
    let nm := sym_name m md sy in
    if st_shndx sy =? SHN_UNDEF then
      first_definition m ms nm v \/
      (Forall (fun d => ~ exports m d nm) ms /\ st_bind sy = STB_WEAK /\ v = 0)
    else v = u32 (st_value sy + bias_of md).

Lemma lookup_symbol_none m ms nm :
  Forall (fun d => ~ exports m d nm) ms -> lookup_symbol m ms nm = None.
Proof.
  intros H. destruct (lookup_symbol m ms nm) as [v|] eqn:E; [|done].
  apply lookup_symbol_spec in E as (ms1 & md & ms2 & -> & Hd & _).
  apply Forall_app in H as [_ H]. inversion H; subst. destruct H2. by exists v.
Qed.

Lemma resolves_sym_val m ms md r v : resolves m ms md r v -> sym_val m ms md r = inl v.
Proof.
  unfold resolves, sym_val. destruct (_ || _); [by intros ->|].
  destruct (_ =? SHN_UNDEF); [|by intros ->]. intros [H | (H & Hw & ->)].
  - apply lookup_symbol_spec in H. by rewrite H.
  - rewrite lookup_symbol_none by done. by rewrite Hw.
Qed.

(** ** Reading tables that do not change *)

Section Tables.

(** The addresses of the tables. *)
Context (tab : Z -> Prop).

Definition agree (m m' : mem) : Prop := forall x, tab x -> ld8 m' x = ld8 m x.

Definition sym_in (md : module) (i : Z) : Prop :=
  forall k, 0 <= k < 16 -> tab (u32 (symtab md + 16 * i + k)).

(** A terminated string, all of it in the tables. *)
Definition str_in (m : mem) (a : Z) : Prop :=
  exists w, no_nul w /\ Z.of_nat (length w) < 4294967296 /\ get m a (S (length w)) = w ++ [0] /\
    forall k, (k <= length w)%nat -> tab (u32 (a + Z.of_nat k)).

Definition mod_in (m : mem) (md : module) : Prop :=
  forall i, 0 <= i < symcount md -> sym_in md i /\ str_in m (u32 (strtab md + st_name (sym_at m md i))).

Lemma sym_at_agree m m' md i : agree m m' -> sym_in md i -> sym_at m' md i = sym_at m md i.
Proof.
  intros Ha Hi. unfold sym_at.
  assert (H : forall k, 0 <= k < 16 -> ld8 m' (u32 (symtab md + 16 * i + k)) = ld8 m (u32 (symtab md + 16 * i + k)))
    by (intros k Hk; by apply Ha, Hi).
  f_equal.
  - apply get32_ext. intros k Hk. apply H. lia.
  - apply get32_ext. intros k Hk. rewrite <- Z.add_assoc. apply H. lia.
  - apply H. lia.
  - f_equal; [apply H; lia|]. f_equal. apply H. lia.
Qed.

Lemma cstr_agree m m' a : agree m m' -> str_in m a -> cstr_at m' a = cstr_at m a.
Proof.
  intros Ha (w & Hn & Hl & Hg & Ht). rewrite (cstr_at_stored m a w) by done. apply cstr_at_stored; [done | done |].
  rewrite <- Hg. apply get_ext. intros k Hk. apply Ha, Ht. lia.
Qed.

Lemma sym_name_agree m m' md i :
  agree m m' -> mod_in m md -> 0 <= i < symcount md ->
  sym_name m' md (sym_at m' md i) = sym_name m md (sym_at m md i).
Proof.
  intros Ha Hm Hi. destruct (Hm i Hi) as [H1 H2]. rewrite (sym_at_agree m m') by done. by apply cstr_agree.
Qed.

Lemma lookup_symbol_agree m m' ms nm :
  agree m m' -> Forall (mod_in m) ms -> lookup_symbol m' ms nm = lookup_symbol m ms nm.
Proof.
  intros Ha. induction 1 as [|md ms Hmd _ IH]; [done|]. cbn [lookup_symbol].
  replace (lookup_in m' md nm) with (lookup_in m md nm); [by rewrite IH|].
  unfold lookup_in. destruct (_ || _); [done|].
  assert (E : for_find (sym_matches m' md nm) 0 (Z.to_nat (symcount md)) =
              for_find (sym_matches m md nm) 0 (Z.to_nat (symcount md))).
  { apply for_find_ext. intros k Hk. unfold sym_matches.
    rewrite (sym_name_agree m m' md (Z.of_nat k)), (sym_at_agree m m' md (Z.of_nat k)); try done; try lia.
    apply Hmd. lia. }
  rewrite E. clear E. destruct (for_find _ 0 _) as [i|] eqn:F; [|done]. apply for_find_Some in F as (Hi & _).
  rewrite (sym_at_agree m m' md (Z.of_nat i)); [done | done |]. apply Hmd. lia.
Qed.

Lemma sym_val_agree m m' ms md r :
  agree m m' -> Forall (mod_in m) ms -> mod_in m md -> 0 <= rel_sym r < symcount md ->
  sym_val m' ms md r = sym_val m ms md r.
Proof.
  intros Ha Hms Hmd Hr. unfold sym_val. destruct (_ || _); [done|].
  rewrite (sym_name_agree m m' md (rel_sym r)), (sym_at_agree m m' md (rel_sym r)); try done; [|by apply Hmd].
  by rewrite (lookup_symbol_agree m m').
Qed.

End Tables.

(** ** One relocation and a table of them *)

(** The addend: in the entry (RELA), or in the place that is relocated (REL). *)
Definition abi_addend (m : mem) (md : module) (r : rel_entry) : Z :=
  match r_addend r with Some a => a | None => s32 (get32 m (rel_where md r)) end.

(** What the ABI says is stored, for symbol value S, addend A, place P and
    base B: S + A, S + A - P, S, or B + A. *)
Definition abi_value (ty S A P B : Z) : option Z :=
  if ty =? R_386_NONE then None
  else if ty =? R_386_RELATIVE then Some (u32 (B + A))
  else if ty =? R_386_32 then Some (u32 (S + A))
  else if ty =? R_386_PC32 then Some (u32 (S + A - P))
  else if (ty =? R_386_GLOB_DAT) || (ty =? R_386_JMP_SLOT) then Some S
  else None.

Definition abi_store (m : mem) (md : module) (r : rel_entry) (v : Z) : option Z :=
  abi_value (rel_type r) v (abi_addend m md r) (rel_where md r) (base md).

Lemma rel_store_abi m md r v :
  r_addend r <> None \/ rel_type r <> R_386_RELATIVE -> rel_store m md r v = abi_store m md r v.
Proof.
  intros H. unfold rel_store, abi_store, abi_value, addend_of, abi_addend.
  destruct (r_addend r); [done|]. destruct H as [H|H]; [done|].
  by rewrite (proj2 (Z.eqb_neq (rel_type r) R_386_RELATIVE)) by done.
Qed.

Section Table.

Context (tab : Z -> Prop) (md : module) (rela : bool) (addr : Z) (n : nat) (s0 : dyst).

(** Entry [i] as it is before anything is relocated, and its place. *)
Definition ent (i : nat) : rel_entry := rel_at (dmem s0) rela (addr + Z.of_nat i * rel_size rela).
Definition place (i : nat) : Z := rel_where md (ent i).

(** The table and the tables of all modules lie in [tab]; the places to
    relocate lie outside it, are apart from each other, and do not wrap. *)
Record table_ok : Prop := mk_table_ok {
  t_addr : 0 <= addr /\ addr + Z.of_nat n * rel_size rela < 4294967296;
  t_tab : forall x, addr <= x < addr + Z.of_nat n * rel_size rela -> tab x;
  t_mods : Forall (mod_in tab (dmem s0)) (mods s0);
  t_md : mod_in tab (dmem s0) md;
  t_sym : forall i, (i < n)%nat -> 0 <= rel_sym (ent i) < symcount md;
  t_place : forall i, (i < n)%nat -> place i + 4 <= 4294967296;
  t_out : forall i x, (i < n)%nat -> place i <= x < place i + 4 -> ~ tab x;
  t_apart : forall i j, (i < n)%nat -> (j < n)%nat -> i <> j -> place i + 4 <= place j \/ place j + 4 <= place i;
  t_type : forall i, (i < n)%nat -> r_addend (ent i) <> None \/ rel_type (ent i) <> R_386_RELATIVE;
}.

(** What has been done after [j] entries, with [v i] the symbol of entry [i]. *)
Record after (v : nat -> Z) (j : nat) (s : dyst) : Prop := mk_after {
  a_mods : mods s = mods s0;
  a_same : forall x, (forall i, (i < j)%nat -> ~ place i <= x < place i + 4) -> ld8 (dmem s) x = ld8 (dmem s0) x;
  a_done : forall i w, (i < j)%nat -> abi_store (dmem s0) md (ent i) (v i) = Some w ->
             get32 (dmem s) (place i) = u32 w;
}.

Lemma place_range i : 0 <= place i.
Proof. apply u32_range. Qed.

(** Memory as it was at the addresses of entry [i >= j]. *)
Lemma after_agree v j s : table_ok -> (j <= n)%nat -> after v j s -> agree tab (dmem s0) (dmem s).
Proof.
  intros T Hj A x Hx. apply (a_same _ _ _ A). intros i Hi Hp. by apply (t_out T i x ltac:(lia) Hp).
Qed.

Lemma ent_agree v j s i :
  table_ok -> (j <= n)%nat -> after v j s -> (i < n)%nat ->
  rel_at (dmem s) rela (addr + Z.of_nat i * rel_size rela) = ent i.
Proof.
  intros T Hj A Hi. pose proof (after_agree v j s T Hj A) as Ha. pose proof (t_addr T) as [H0 H1].
  assert (Hb : forall o k, 0 <= o -> o + 4 <= rel_size rela -> (k < 4)%nat ->
    ld8 (dmem s) (u32 (addr + Z.of_nat i * rel_size rela + o + Z.of_nat k)) =
    ld8 (dmem s0) (u32 (addr + Z.of_nat i * rel_size rela + o + Z.of_nat k))).
  { intros o k Ho1 Ho2 Hk. apply Ha. assert (8 <= rel_size rela <= 12) by (destruct rela; cbn; lia).
    rewrite u32_small by (unfold in_u32; nia). apply (t_tab T). nia. }
  unfold ent, rel_at. f_equal.
  - apply get32_ext. intros k Hk. specialize (Hb 0 k). rewrite Z.add_0_r in Hb. apply Hb; destruct rela; cbn; lia.
  - apply get32_ext. intros k Hk. apply Hb; destruct rela; cbn; lia.
  - destruct rela eqn:E; [|done]. do 2 f_equal. apply get32_ext. intros k Hk. apply Hb; cbn; lia.
Qed.

Lemma addend_after v j s :
  table_ok -> (j < n)%nat -> after v j s -> abi_addend (dmem s) md (ent j) = abi_addend (dmem s0) md (ent j).
Proof.
  intros T Hj A. unfold abi_addend. destruct (r_addend _); [done|]. f_equal. fold (place j).
  apply get32_ext. intros k Hk. apply (a_same _ _ _ A). intros i Hi.
  pose proof (t_apart T i j ltac:(lia) Hj ltac:(lia)). pose proof (t_place T j Hj). pose proof (place_range j).
  rewrite u32_small by (unfold in_u32; lia). lia.
Qed.

(** One round of the loop. *)
Lemma after_step v j s :
  table_ok -> (j < n)%nat -> after v j s ->
  let s' := match abi_store (dmem s0) md (ent j) (v j) with
            | None => s
            | Some w =>
                let s := set_dmem (put (dmem s) (place j) (le32 w)) s in
                dsay (jmp_slot_line (dmem s) md (ent j) (v j)) s
            end in
  after v (S j) s'.
Proof.
  intros T Hj A. pose proof (t_place T j Hj) as Hp. pose proof (place_range j) as Hp0.
  destruct (abi_store _ md (ent j) (v j)) as [w|] eqn:E; cbv zeta.
  - constructor; cbn [mods dsay set_dmem dmem].
    + apply A.
    + intros x Hx. rewrite ld8_put_out; cbn [length le32]; [|lia|lia|].
      * apply (a_same _ _ _ A). intros i Hi. apply Hx. lia.
      * specialize (Hx j ltac:(lia)). lia.
    + intros i w' Hi E'. destruct (decide (i = j)) as [->|Hne].
      * rewrite E in E'. injection E' as <-. by apply get32_put.
      * rewrite <- (a_done _ _ _ A i w') by (done || lia). apply get32_ext. intros k Hk.
        pose proof (t_place T i ltac:(lia)). pose proof (place_range i).
        pose proof (t_apart T i j ltac:(lia) Hj Hne).
        rewrite u32_small by (unfold in_u32; lia). apply ld8_put_out; cbn [length le32]; lia.
  - constructor; [apply A | |].
    + intros x Hx. apply (a_same _ _ _ A). intros i Hi. apply Hx. lia.
    + intros i w' Hi E'. destruct (decide (i = j)) as [->|Hne]; [congruence|].
      apply (a_done _ _ _ A i w'); [lia | done].
Qed.

Lemma apply_rel_loop_spec v :
  table_ok -> (forall i, (i < n)%nat -> resolves (dmem s0) (mods s0) md (ent i) (v i)) ->
  forall k j s fuel, (j + k = n)%nat -> (k < fuel)%nat -> after v j s ->
  exists s', apply_rel_loop fuel md rela (addr + Z.of_nat j * rel_size rela)
               (addr + Z.of_nat n * rel_size rela) s = Ret (DYLD_OK, s') /\ after v n s'.
Proof.
  intros T Hv. pose proof (t_addr T) as [H0 H1]. assert (Hsz : 8 <= rel_size rela <= 12) by (destruct rela; cbn; lia).
  induction k as [|k IH]; intros j s fuel Hj Hf A; (destruct fuel as [|fuel]; [lia|]); cbn [apply_rel_loop].
  - replace j with n by lia. rewrite Z.leb_refl. exists s. split; [done|]. by replace n with j by lia.
  - rewrite (proj2 (Z.leb_gt _ _)) by nia.
    rewrite (ent_agree v j s j) by (done || lia). pose proof (Hv j ltac:(lia)) as Hr.
    apply resolves_sym_val in Hr. rewrite (a_mods _ _ _ A).
    rewrite (sym_val_agree tab (dmem s0)), Hr; [| apply (after_agree v j s); [done | lia | done] | apply T | apply T | apply (t_sym T); lia].
    rewrite rel_store_abi by (apply (t_type T); lia).
    unfold abi_store at 1. rewrite (addend_after v j s) by (done || lia). fold (abi_store (dmem s0) md (ent j) (v j)).
    pose proof (after_step v j s T ltac:(lia) A) as A'. cbv zeta in A'. fold (place j).
    rewrite u32_small by (unfold in_u32; nia).
    replace (addr + Z.of_nat j * rel_size rela + rel_size rela) with (addr + Z.of_nat (S j) * rel_size rela) by (rewrite Nat2Z.inj_succ; ring).
    apply IH; [lia | lia | exact A'].
Qed.

End Table.

(** C18. Relocating: for a REL or RELA table whose places are apart from each
    other and from the tables, and whose symbols resolve (to the module's own
    definition, else to the first definition in load order, else to 0 for a
    weak symbol), [apply_rel] succeeds.  Every place then holds the value
    the i386 ABI prescribes for its entry, computed from the symbol and the
    addend as they were before, and no other byte of memory changes.
    R_386_RELATIVE is covered in RELA tables. *)
Theorem apply_rel_abi tab md rela rel_va n s v :
  let addr := u32 (rel_va + bias_of md) in
  table_ok tab md rela addr n s ->
  (forall i, (i < n)%nat -> resolves (dmem s) (mods s) md (ent rela addr s i) (v i)) ->
  exists s', apply_rel md rel_va (Z.of_nat n * rel_size rela) rela s = Ret (DYLD_OK, s') /\ mods s' = mods s /\
    (forall i w, (i < n)%nat ->
       abi_store (dmem s) md (ent rela addr s i) (v i) = Some w ->
       get32 (dmem s') (place md rela addr s i) = u32 w) /\
    (forall x, (forall i, (i < n)%nat -> ~ place md rela addr s i <= x < place md rela addr s i + 4) ->
       ld8 (dmem s') x = ld8 (dmem s) x).
Proof.
  intros addr T Hv. pose proof (t_addr _ _ _ _ _ _ T) as [H0 H1].
  destruct (apply_rel_loop_spec tab md rela addr n s v T Hv n 0 s (rel_fuel (Z.of_nat n * rel_size rela)))
    as (s' & Hs & A).
  - lia.
  - unfold rel_fuel. assert (8 <= rel_size rela) by (destruct rela; cbn; lia).
    pose proof (Z.div_le_mono (Z.of_nat n * 8) (Z.of_nat n * rel_size rela) 8 ltac:(lia) ltac:(nia)) as Hd.
    rewrite Z.div_mul in Hd by lia. lia.
  - by constructor; [| |lia].
  - exists s'. rewrite Z.mul_0_l, Z.add_0_r in Hs. unfold apply_rel. fold addr.
    assert (0 <= Z.of_nat n * rel_size rela) by (destruct rela; cbn; lia).
    rewrite (u32_small (addr + _)) by (unfold in_u32; lia). rewrite Hs. destruct A. split_and!; auto.
Qed.

(** ** A small library: one exported function, two places to relocate *)

Definition lib_base : Z := 0x600000.
Definition lib_mod : module :=
  mk_mod $"libf.so" lib_base [] (lib_base + 0x100) (lib_base + 0x200) 2 (lib_base + 0x80) lib_base true.

(** Symbol 1 is the global function [f] at 0x40; the RELA table at 0x300 has
    an R_386_32 for it with addend 4 and an R_386_RELATIVE with addend 0x10;
    the REL table at 0x400 has an R_386_RELATIVE for a word that holds 0x20. *)
Definition lib_mem : mem :=
  let m := put ∅ (lib_base + 0x110) (le32 1 ++ le32 0x40 ++ le32 8 ++ [0x12; 0] ++ le16 1) in
  let m := put m (lib_base + 0x200) (0 :: $"f" ++ [0]) in
  let m := put m (lib_base + 0x300) (le32 0x500 ++ le32 0x101 ++ le32 4 ++ le32 0x504 ++ le32 8 ++ le32 0x10) in
  let m := put m (lib_base + 0x400) (le32 0x508 ++ le32 8) in
  put m (lib_base + 0x508) (le32 0x20).

Definition lib_state : dyst :=
  mk_dy lib_mem (Fs.mk_ramfs [] 0) (Terminal.mk_term 0 0 0 [] []) [lib_mod].

(** Everything but the two places. *)
Definition lib_tab (x : Z) : Prop := x < 0x600500 \/ 0x600508 <= x.

Lemma lib_mod_in : mod_in lib_tab lib_mem lib_mod.
Proof.
  intros i Hi. cbn [symcount lib_mod] in Hi. assert (i = 0 \/ i = 1) as [-> | ->] by lia; split.
  - intros k Hk. rewrite u32_small by (cbn; unfold in_u32, lib_base; lia). cbn. unfold lib_tab, lib_base. lia.
  - exists []. split_and!; [constructor | done | by vm_compute |]. intros k Hk. cbn in Hk.
    replace k with 0%nat by lia. left. by vm_compute.
  - intros k Hk. rewrite u32_small by (cbn; unfold in_u32, lib_base; lia). cbn. unfold lib_tab, lib_base. lia.
  - exists $"f". split_and!; [by repeat constructor | done | by vm_compute |]. intros k Hk. cbn in Hk.
    assert (k = 0 \/ k = 1)%nat as [-> | ->] by lia; left; by vm_compute.
Qed.

Lemma lib_table_ok : table_ok lib_tab lib_mod true 0x600300 2 lib_state.
Proof.
  assert (P : forall i, (i < 2)%nat -> place lib_mod true 0x600300 lib_state i = 0x600500 + 4 * Z.of_nat i)
    by (intros [|[|i]] Hi; [by vm_compute | by vm_compute | lia]).
  constructor.
  - by vm_compute.
  - intros x Hx. cbn in Hx. left. lia.
  - constructor; [apply lib_mod_in | constructor].
  - apply lib_mod_in.
  - intros [|[|i]] Hi; [vm_compute; by split | vm_compute; by split | lia].
  - intros i Hi. rewrite P by done. lia.
  - intros i x Hi. rewrite P by done. unfold lib_tab. lia.
  - intros i j Hi Hj Hne. rewrite !P by done. lia.
  - intros [|[|i]] Hi; [by left | by left | lia].
Qed.

Lemma apply_rel_abi_witness :
  exists s', apply_rel lib_mod 0x300 24 true lib_state = Ret (DYLD_OK, s') /\
    get32 (dmem s') 0x600500 = 0x600044 /\ get32 (dmem s') 0x600504 = 0x600010.
Proof.
  destruct (apply_rel_abi lib_tab lib_mod true 0x300 2 lib_state (fun i => match i with O => 0x600040 | _ => 0 end))
    as (s' & H1 & _ & H2 & _).
  - exact lib_table_ok.
  - intros [|[|i]] Hi; [by vm_compute | by vm_compute | lia].
  - exists s'. split_and!; [exact H1 | |].
    + exact (H2 0%nat 0x600044 ltac:(lia) ltac:(by vm_compute)).
    + exact (H2 1%nat 0x600010 ltac:(lia) ltac:(by vm_compute)).
Defined.

(** In a REL table the addend of R_386_RELATIVE is the word at the place;
    the code takes 0 for it, so the word becomes the load address instead of
    the load address plus 0x20. *)
Example rel_relative_drops_addend :
  abi_store lib_mem lib_mod (rel_at lib_mem false 0x600400) 0 = Some 0x600020 /\
  match apply_rel lib_mod 0x400 8 false lib_state with
  | Ret (DYLD_OK, s') => get32 (dmem s') 0x600508 = 0x600000
  | _ => False
  end.
Proof. by vm_compute. Qed.

End DyldSpec.
