(* ===== verification/Process.v ===== *)
(** * Running a program (src/src/process.c, src/src/setjmp.s)

    [process_exec] loads an image (through the dynamic loader, or the plain
    ELF loader as a fallback), resets the user heap and the descriptors,
    saves the kernel context and leaves for ring 3; [exit] comes back
    through the saved context.  The variables of process.c that decide where
    it comes back to - [g_jmpbuf], [g_exit_code], [g_have_jmp] - are words of
    the flat memory at their link addresses ([statics]), the memory the
    program and the system calls write to as well.  The register part is that
    of the two assembly routines: callee-saved registers, stack pointer and
    return address. *)

From S2P Require Import Prelude Memory Terminal Fs Elf Dyld Syscall.

Module Process.

Definition ELF_LOAD_BASE : Z := 0x400000.
Definition ELF_LOAD_MAX : Z := 0x4000000.

Record cpu : Type := mk_cpu {
  c_eax : Z; c_ebx : Z; c_esi : Z; c_edi : Z; c_ebp : Z; c_esp : Z; c_eip : Z;
  c_cs : Z; c_ss : Z; c_if : bool }.

(** Where the linker puts the variables of process.c. *)
Record statics : Type := mk_statics {
  at_jmpbuf : Z;        (** [uint32_t g_jmpbuf[6]]: ebx, esi, edi, ebp, esp, eip *)
  at_exit_code : Z;     (** [int g_exit_code] *)
  at_have_jmp : Z;      (** [int g_have_jmp] *)
}.

Record procst : Type := mk_proc {
  sys : Syscall.sysst;
  pmods : list Dyld.module;
  tss_esp0 : Z;             (** [tss.esp0] *)
  pcpu : cpu;
}.

Definition set_sys (x : Syscall.sysst) (s : procst) : procst := mk_proc x (pmods s) (tss_esp0 s) (pcpu s).
Definition set_cpu (c : cpu) (s : procst) : procst := mk_proc (sys s) (pmods s) (tss_esp0 s) c.
Definition pmem (s : procst) : mem := Syscall.umem (sys s).
Definition set_pmem (m : mem) (s : procst) : procst := set_sys (Syscall.set_umem m (sys s)) s.
Definition psay (c : chars) (s : procst) : procst :=
  set_sys (Syscall.set_tty (Terminal.terminal_writestring c (Syscall.tty (sys s))) (sys s)) s.

(** ** Context save and restore *)

(** [process_setjmp(buf)], entered with the return address at the top of the
    stack: the memory and the registers after its [ret]. *)
Definition process_setjmp (buf : Z) (m : mem) (c : cpu) : mem * cpu :=
  let esp := u32 (c_esp c + 4) in
  let m := st32 (st32 (st32 (st32 (st32 m buf (c_ebx c)) (buf + 4) (c_esi c)) (buf + 8) (c_edi c))
             (buf + 12) (c_ebp c)) (buf + 16) esp in
  let m := st32 m (buf + 20) (ld32 m (c_esp c)) in
  (m, mk_cpu 0 (c_ebx c) (c_esi c) (c_edi c) (c_ebp c) esp (ld32 m (c_esp c)) (c_cs c) (c_ss c) (c_if c)).

Definition process_longjmp (buf val : Z) (m : mem) (c : cpu) : cpu :=
  mk_cpu (if val =? 0 then 1 else val) (ld32 m buf) (ld32 m (buf + 4)) (ld32 m (buf + 8))
    (ld32 m (buf + 12)) (ld32 m (buf + 16)) (ld32 m (buf + 20)) (c_cs c) (c_ss c) (c_if c).

(** ** Starting *)

Fixpoint dynamic_loop (image : list Z) (phoff phentsize i : Z) (n : nat) : out bool :=
  match n with
  | O => Ret false
  | S n' =>
      let off := phoff + i * phentsize in
      if Z.of_nat (length image) <? off + 4 then Fault OutOfBounds
      else if (im32 image off =? 3) || (im32 image off =? 2) then Ret true
      else dynamic_loop image phoff phentsize (i + 1) n'
  end.

Definition elf_is_dynamic (image : list Z) : out bool :=
  if Z.of_nat (length image) <? 52 then Ret false
  else if negb (Elf.is_elf_magic image) then Ret false
  else dynamic_loop image (im32 image 28) (im16 image 42) 0 (Z.to_nat (im16 image 44)).

Section Exec.

(** The library blob of the kernel image, the variables, and the top of
    [ring0_stack]. *)
Context (libhello_so : list Z) (st : statics) (ring0_top : Z).

(** The loader works on the memory, the files and the console of the system. *)
Definition dyld_state (s : procst) : Dyld.dyst :=
  Dyld.mk_dy (Syscall.umem (sys s)) (Fs.data (Syscall.fsys (sys s))) (Syscall.tty (sys s)) (pmods s).
Definition after_dyld (d : Dyld.dyst) (s : procst) : procst :=
  mk_proc (Syscall.set_tty (Dyld.dtty d) (Syscall.set_umem (Dyld.dmem d) (sys s))) (Dyld.mods d)
    (tss_esp0 s) (pcpu s).

(** The entry point, or nothing when [process_exec] returns -1. *)
Definition process_load (image : list Z) (s : procst) : out (option Z * procst) :=
  is_dyn ← elf_is_dynamic image;
  '((dr, e), d) ← Dyld.dyld_load libhello_so image (dyld_state s);
  let s := after_dyld d s in
  if bool_decide (dr = Dyld.DYLD_OK) then Ret (e, s)
  else if is_dyn : bool then
    Ret (None, psay ($"dyld failed: " ++ Dyld.dyld_strerror dr ++ [10]) s)
  else
    '((er, e), m) ← Elf.elf_load image (Syscall.umem (sys s));
    let s := set_sys (Syscall.set_umem m (sys s)) s in
    if bool_decide (er = Elf.ELF_OK) then Ret (e, s)
    else Ret (None, psay ($"dyld: " ++ Dyld.dyld_strerror dr ++ $" / elf: " ++
                          Elf.elf_strerror er ++ [10]) s).

(** From [user_heap_reset] to the [iret]; [c] is the CPU on entry to
    [process_setjmp]. *)
Definition process_enter (entry : Z) (c : cpu) (s : procst) : procst :=
  let s := set_sys (Syscall.fd_table_reset (Syscall.user_heap_reset (sys s))) s in
  let s := psay ($"exec: entry=" ++ Terminal.hex_chars entry ++ [10]) s in
  let m := st32 (st32 (pmem s) (at_exit_code st) 0) (at_have_jmp st) 1 in
  let '(m, c) := process_setjmp (at_jmpbuf st) m c in
  let user_stack := ELF_LOAD_BASE + ELF_LOAD_MAX - 16 in
  mk_proc (Syscall.set_umem m (sys s)) (pmods s) ring0_top
    (mk_cpu (c_eax c) (c_ebx c) (c_esi c) (c_edi c) (c_ebp c) user_stack entry 0x1B 0x23 true).

(** [None]: the load failed and -1 is returned; [Some entry]: the program
    has been entered. *)
Definition process_exec (image : list Z) (c : cpu) (s : procst) : out (option Z * procst) :=
  '(e, s) ← process_load image s;
  match e with
  | None => Ret (None, s)
  | Some entry => Ret (Some entry, process_enter entry c s)
  end.

(** ** Coming back *)

(** Without a saved context the code prints and halts for ever. *)
Definition process_exit_to_kernel (code : Z) (s : procst) : out procst :=
  let s := set_pmem (st32 (pmem s) (at_exit_code st) code) s in
  if ld32 (pmem s) (at_have_jmp st) =? 0 then Fault Hang
  else Ret (set_cpu (process_longjmp (at_jmpbuf st) 1 (pmem s) (pcpu s)) s).

Definition process_last_exit_code (s : procst) : Z := s32 (ld32 (pmem s) (at_exit_code st)).

(** The second return of [process_setjmp]: what [process_exec] returns. *)
Definition process_resume (s : procst) : Z * procst :=
  let s := set_pmem (st32 (pmem s) (at_have_jmp st) 0) s in
  let c := pcpu s in
  let s := set_cpu (mk_cpu (c_eax c) (c_ebx c) (c_esi c) (c_edi c) (c_ebp c) (c_esp c) (c_eip c)
                (c_cs c) (c_ss c) true) s in
  let code := process_last_exit_code s in
  (code, psay ($"exec: done, code=" ++ Terminal.int_chars code ++ [10]) s).

End Exec.

End Process.
