(* ===== verification/ProcessSpec.v ===== *)
(** * Running a program: what comes back

    [process_exec_returns]: the exit of a program that keeps out of the
    kernel's memory brings the kernel back to where it saved its context
    ([exit_follows_buffer] shows what happens to one that does not).
    [dyld_static_agrees]: for a program without dynamic parts the dynamic
    loader does what the plain ELF loader does. *)

From S2P Require Import Prelude Memory Kmalloc Terminal Fs FsInv FsProps FsSpec Elf Dyld Syscall SyscallSpec Process.
Import Process.

Module ProcessSpec.

Abbreviation sys_wf := SyscallSpec.sys_wf.

(** ** Every system call keeps the invariant, also with a damaged kernel heap *)

Lemma dispatch_sysinfo r s :
  Syscall.eax r = Syscall.SYS_SYSINFO -> Syscall.dispatch r s = Syscall.ret (Syscall.sys_sysinfo (Syscall.ebx r) s).
Proof. intros He. unfold Syscall.dispatch. by rewrite He. Qed.

Lemma sysinfo_wf info s v s' : sys_wf s -> Syscall.sys_sysinfo info s = Ret (v, s') -> sys_wf s'.
Proof.
  intros Hwf. unfold Syscall.sys_sysinfo. destruct (info =? 0).
  { intros H. apply ret_pair_inj in H as [_ H]. by rewrite <- H. }
  destruct (Kmalloc.kmalloc_stats (Syscall.heap s)) as [[[a b] c]|f]; [|discriminate].
  intros H. apply ret_pair_inj in H as [_ H]. rewrite <- H. by apply SyscallSpec.wf_umem.
Qed.

Lemma handler_wf r s r' k x :
  sys_wf s -> Syscall.syscall_handler r s = Ret ((r', k), x) -> sys_wf x.
Proof.
  intros Hwf. unfold Syscall.syscall_handler.
  assert (Hd : forall a s', Syscall.dispatch r s = Ret (a, s') -> sys_wf s').
  { intros a s' Hr. destruct (decide (Syscall.eax r = Syscall.SYS_SYSINFO)) as [He|He].
    - rewrite (dispatch_sysinfo r s He) in Hr. unfold Syscall.ret in Hr.
      destruct (Syscall.sys_sysinfo _ s) as [[w s1]|f] eqn:E; [|discriminate].
      apply sysinfo_wf in E; [|done]. apply ret_pair_inj in Hr as [_ Hr]. by rewrite <- Hr.
    - destruct (SyscallSpec.good_dispatch r s Hwf) as (v' & s2 & E & Hw & _); [done|].
      rewrite E in Hr. apply ret_pair_inj in Hr as [_ Hr]. by rewrite <- Hr. }
  destruct (Syscall.dispatch r s) as [[[v k0] s1]|f]; [|discriminate].
  intros H. apply ret_pair_inj in H as [_ H]. rewrite <- H. by eapply Hd.
Qed.

(** ** The loader's messages keep the console well formed *)

Definition tty_ok (s : Dyld.dyst) : Prop := Terminal.term_wf (Dyld.dtty s).

Lemma tty_say c s : tty_ok s -> tty_ok (Dyld.dsay c s).
Proof. apply Terminal.terminal_writestring_wf. Qed.
Lemma tty_mem m s : tty_ok s -> tty_ok (Dyld.set_dmem m s).
Proof. done. Qed.
Lemma tty_mods ms s : tty_ok s -> tty_ok (Dyld.set_mods ms s).
Proof. done. Qed.

(** A computation that returns a state with a well-formed console. *)
Definition keeps_tty {A} (x : out (A * Dyld.dyst)) : Prop := forall a s', x = Ret (a, s') -> tty_ok s'.

Lemma keeps_ret {A} (a : A) s : tty_ok s -> keeps_tty (Ret (a, s)).
Proof. intros H b s' [= _ <-]. done. Qed.
Lemma keeps_fault {A} f : @keeps_tty A (Fault f).
Proof. intros a s' H. discriminate H. Qed.
Lemma keeps_bind {A B} (x : out B) (k : B -> out (A * Dyld.dyst)) :
  (forall b, x = Ret b -> keeps_tty (k b)) -> keeps_tty (x ≫= k).
Proof. intros H. destruct x as [b|f]; [by apply H | apply keeps_fault]. Qed.
Lemma keeps_then {A B} (x : out (B * Dyld.dyst)) (k : B * Dyld.dyst -> out (A * Dyld.dyst)) :
  keeps_tty x -> (forall b s, tty_ok s -> keeps_tty (k (b, s))) -> keeps_tty (x ≫= k).
Proof. intros Hx Hk. destruct x as [[b s]|f]; [apply Hk, (Hx b s eq_refl) | apply keeps_fault]. Qed.

Create HintDb tty.
#[local] Hint Resolve keeps_ret keeps_fault tty_say tty_mem tty_mods : tty.

Lemma apply_rel_loop_tty f md rela p e s : tty_ok s -> keeps_tty (Dyld.apply_rel_loop f md rela p e s).
Proof.
  revert p s. induction f as [|f IH]; intros p s Hs; cbn [Dyld.apply_rel_loop]; [auto with tty|].
  destruct (e <=? p); [auto with tty|]. destruct (Dyld.sym_val _ _ _ _); [|auto with tty].
  apply IH. destruct (Dyld.rel_store _ _ _ _); auto with tty.
Qed.

Lemma rel_part_tty md a b c s : tty_ok s -> keeps_tty (Dyld.rel_part md a b c s).
Proof.
  intros Hs. unfold Dyld.rel_part, Dyld.apply_rel. destruct (_ || _); [auto with tty|]. by apply apply_rel_loop_tty.
Qed.

Lemma relocate_module_tty md s : tty_ok s -> keeps_tty (Dyld.relocate_module md s).
Proof.
  intros Hs. unfold Dyld.relocate_module. destruct (_ =? 0); [auto with tty|]. apply keeps_bind. intros es _.
  apply keeps_then; [by apply rel_part_tty|]. intros r1 s1 H1. destruct (negb _); [auto with tty|].
  apply keeps_then; [by apply rel_part_tty|]. intros r2 s2 H2. destruct (negb _); [auto with tty|].
  by apply rel_part_tty.
Qed.

Lemma relocate_all_tty ms s : tty_ok s -> keeps_tty (Dyld.relocate_all ms s).
Proof.
  revert s. induction ms as [|md ms IH]; intros s Hs; cbn [Dyld.relocate_all]; [auto with tty|].
  apply keeps_then; [by apply relocate_module_tty|]. intros r s1 H1. destruct (negb _); auto with tty.
Qed.

Lemma load_one_tty nm image b mn s : tty_ok s -> keeps_tty (Dyld.load_one nm image b mn s).
Proof.
  intros Hs. unfold Dyld.load_one. destruct (_ <=? _)%nat; [auto with tty|].
  destruct (Dyld.parse_ehdr image); [|auto with tty]. apply keeps_bind. intros [[r lb] m] _.
  destruct (negb _); [auto with tty|]. apply keeps_bind. intros dyn _. apply keeps_bind. intros md _. auto with tty.
Qed.

Lemma find_library_tty lib l s : tty_ok s -> keeps_tty (Dyld.find_library lib l s).
Proof.
  intros Hs. unfold Dyld.find_library. set (s1 := if c_streq l $"libhello.so" then _ else s).
  assert (H1 : tty_ok s1) by (unfold s1; destruct (c_streq _ _); auto with tty).
  destruct (_ && _); [auto with tty|]. apply keeps_bind. intros r _.
  destruct (bool_decide _); [auto with tty|]. apply keeps_bind. intros r' _. auto with tty.
Qed.

Lemma load_needed_loop_tty lib f md d s : tty_ok s -> keeps_tty (Dyld.load_needed_loop lib f md d s).
Proof.
  revert d s. induction f as [|f IH]; intros d s Hs; cbn [Dyld.load_needed_loop]; [auto with tty|].
  destruct (_ =? _); [auto with tty|]. destruct (negb _); [by apply IH|]. destruct (existsb _ _); [by apply IH|].
  apply keeps_then; [apply find_library_tty; auto with tty|]. intros content s1 H1.
  destruct content; [auto with tty|]. apply keeps_then; [by apply load_one_tty|]. intros r s2 H2.
  destruct (negb _); auto with tty.
Qed.

Lemma dyld_load_tty lib image s : tty_ok s -> keeps_tty (Dyld.dyld_load lib image s).
Proof.
  intros Hs. unfold Dyld.dyld_load. destruct (Dyld.parse_ehdr image) as [eh|]; [|auto with tty].
  apply keeps_bind. intros interp _. set (s1 := match interp with Some _ => _ | None => _ end).
  assert (H1 : tty_ok s1) by (unfold s1; destruct interp; auto with tty).
  apply keeps_then; [by apply load_one_tty|]. intros r s2 H2. destruct (negb _); [auto with tty|].
  destruct (Dyld.mods s2) as [|md ms]; [auto with tty|]. unfold Dyld.load_needed.
  apply keeps_then; [destruct (_ || _); [auto with tty | by apply load_needed_loop_tty]|].
  intros r3 s3 H3. destruct (negb _); [auto with tty|].
  apply keeps_then; [by apply relocate_all_tty|]. intros r4 s4 H4. destruct (negb _); auto with tty.
Qed.

(** ** Loading and entering *)

Lemma fd_reset_wf s : sys_wf s -> sys_wf (Syscall.fd_table_reset (Syscall.user_heap_reset s)).
Proof.
  intros H. set (s1 := Syscall.set_fds (map Syscall.fd_cleared (Syscall.fds s)) (Syscall.user_heap_reset s)).
  assert (Hl : length (Syscall.fds s1) = 32%nat)
    by (unfold s1; cbn [Syscall.fds Syscall.set_fds]; rewrite length_map; exact (SyscallSpec.sw_len _ H)).
  assert (Hc : forall i : nat, Syscall.used (Syscall.fds s1 !!! i) = false).
  { intros i. unfold s1. cbn [Syscall.fds Syscall.set_fds]. rewrite list_lookup_total_alt, list_lookup_fmap.
    by destruct (Syscall.fds s !! i). }
  unfold Syscall.fd_table_reset. change (Syscall.fds (Syscall.user_heap_reset s)) with (Syscall.fds s).
  fold s1. unfold Syscall.upd_fd. cbn [Syscall.set_fds Syscall.fds].
  change (Z.to_nat 0) with 0%nat. change (Z.to_nat 1) with 1%nat. change (Z.to_nat 2) with 2%nat.
  destruct (Syscall.fds s1) as [|e0 [|e1 [|e2 l]]] eqn:E; try (cbn in Hl; lia).
  destruct H. constructor; cbn; try done.
  - intros i Hi Hu. destruct i as [|[|[|i]]]; cbn in *; [by left | by left | by left |].
    specialize (Hc (S (S (S i)))). cbn in Hc. congruence.
  - intros i Hi. destruct i as [|[|[|i]]]; cbn; [done | done | done | lia].
  - split; [unfold Syscall.MMAP_BASE, Syscall.MMAP_END; lia|]. by exists 4096.
Qed.

Lemma psay_wf c s : sys_wf (sys s) -> sys_wf (sys (psay c s)).
Proof. intros H. apply SyscallSpec.wf_tty; [apply Terminal.terminal_writestring_wf, H | done]. Qed.

Lemma process_load_wf lib image s e s' :
  sys_wf (sys s) -> process_load lib image s = Ret (e, s') -> sys_wf (sys s').
Proof.
  intros Hwf H. unfold process_load in H. inv_ret. destruct r0 as [[dr e0] d].
  assert (Hd : sys_wf (sys (after_dyld d s))).
  { apply SyscallSpec.wf_tty; [|by apply SyscallSpec.wf_umem].
    apply (dyld_load_tty lib image (dyld_state s)) in Hr0; [done | apply Hwf]. }
  destruct (bool_decide (dr = _)); [by injection H as _ <-|].
  destruct r; [injection H as _ <-; by apply psay_wf|]. inv_ret. destruct r as [[er e1] m].
  destruct (bool_decide (er = _)); injection H as _ <-; [|apply psay_wf]; by apply SyscallSpec.wf_umem.
Qed.

(** *** The context in memory *)

(** The registers a C caller relies on after a call. *)
Definition saved_regs (c : cpu) : list Z := [c_ebx c; c_esi c; c_edi c; c_ebp c; c_esp c; c_eip c].

(** The windows of memory the return depends on: the three variables, the
    ring 0 stack, and the word on the kernel stack that holds the return
    address of [process_setjmp].  They lie in the kernel's memory, apart
    from each other. *)
Definition windows (st : statics) (top : Z) (c : cpu) : list (Z * Z) :=
  [(at_jmpbuf st, 24); (at_exit_code st, 4); (at_have_jmp st, 4); (top - 8192, 8192); (c_esp c, 4)].
Record statics_ok (st : statics) (top : Z) (c : cpu) : Prop := {
  so_in : Forall (fun e => 0 <= fst e /\ fst e + snd e <= 0x400000) (windows st top c);
  so_apart : ForallOrdPairs (fun e f => fst e + snd e <= fst f \/ fst f + snd f <= fst e) (windows st top c);
}.

Lemma ordpairs_inv {A} (R : A -> A -> Prop) x l :
  ForallOrdPairs R (x :: l) -> Forall (R x) l /\ ForallOrdPairs R l.
Proof. by inversion 1. Qed.

(** The facts as inequalities. *)
Ltac open_windows H :=
  destruct H as [Hin Hap]; unfold windows in Hin, Hap; rewrite !Forall_cons in Hin; cbn [fst snd] in Hin;
  repeat match goal with Ha : ForallOrdPairs _ (_ :: _) |- _ =>
    let H1 := fresh in apply ordpairs_inv in Ha as [H1 Ha]; rewrite ?Forall_cons in H1; cbn [fst snd] in H1 end.

(** What [process_setjmp] wrote is what [process_longjmp] loads, from any
    memory that agrees on the buffer. *)
Lemma longjmp_setjmp buf m m' c c' :
  c_esp c + 4 <= buf \/ buf + 24 <= c_esp c -> Forall in_u32 [c_ebx c; c_esi c; c_edi c; c_ebp c] ->
  let m1 := fst (process_setjmp buf m c) in
  (forall a, buf <= a < buf + 24 -> ld8 m' a = ld8 m1 a) ->
  saved_regs (process_longjmp buf 1 m' c') =
    [c_ebx c; c_esi c; c_edi c; c_ebp c; u32 (c_esp c + 4); ld32 m (c_esp c)] /\
  saved_regs (snd (process_setjmp buf m c)) = saved_regs (process_longjmp buf 1 m' c').
Proof.
  intros Hd Hr m1 Hm. rewrite !Forall_cons in Hr. destruct Hr as (R1 & R2 & R3 & R4 & _).
  assert (Hw : forall o, 0 <= o -> o + 4 <= 24 -> ld32 m' (buf + o) = ld32 m1 (buf + o)).
  { intros o H1 H2. apply ld32_ext. intros i Hi. apply Hm. lia. }
  assert (Hret : ld32 m1 (c_esp c) = ld32 m (c_esp c)).
  { unfold m1, process_setjmp. cbn [fst]. by rewrite !ld32_st32_ne by lia. }
  assert (E : saved_regs (process_longjmp buf 1 m' c') =
    [c_ebx c; c_esi c; c_edi c; c_ebp c; u32 (c_esp c + 4); ld32 m (c_esp c)]).
  { unfold process_longjmp, saved_regs. cbn [c_ebx c_esi c_edi c_ebp c_esp c_eip].
    replace (ld32 m' buf) with (ld32 m' (buf + 0)) by (by rewrite Z.add_0_r).
    rewrite !Hw by lia. unfold m1, process_setjmp. cbn [fst].
    rewrite Z.add_0_r. repeat first [rewrite ld32_st32_eq | rewrite ld32_st32_ne by lia].
    by rewrite (u32_small (u32 _)), (u32_small (ld32 _ _)), (u32_small (c_ebx c)), (u32_small (c_esi c)),
      (u32_small (c_edi c)), (u32_small (c_ebp c)) by (done || apply ld32_range || apply u32_range). }
  split; [exact E|]. rewrite E. unfold saved_regs, process_setjmp. cbn [snd c_ebx c_esi c_edi c_ebp c_esp c_eip].
  by rewrite !ld32_st32_ne by lia.
Qed.
(** *** The program *)

(** What happens between the two: the program computes, anywhere in its own
    memory; interrupts and traps leave words on the ring 0 stack
    ([ring0_stack], 8192 bytes); and system calls are made with pointers that
    do not lead into the kernel's memory. *)
Inductive user_step (top : Z) : procst -> procst -> Prop :=
| u_compute c m s :
    SyscallSpec.same_kernel_mem (pmem s) m -> user_step top s (set_cpu c (set_pmem m s))
| u_stack m s :
    (forall a, a < top - 8192 \/ top <= a -> ld8 m a = ld8 (pmem s) a) -> user_step top s (set_pmem m s)
| u_syscall r r' k x s :
    Syscall.syscall_handler r (sys s) = Ret ((r', k), x) ->
    SyscallSpec.spares_kernel (SyscallSpec.writes_of r (sys s)) -> SyscallSpec.leaves k = false ->
    user_step top s (set_sys x s).

Definition user_run (top : Z) : procst -> procst -> Prop := rtc (user_step top).

(** The kernel's memory but for the ring 0 stack. *)
Definition same_statics (top : Z) (m m' : mem) : Prop :=
  forall a, SyscallSpec.kernel_mem a -> a < top - 8192 \/ top <= a -> ld8 m' a = ld8 m a.

Lemma user_run_keeps top s s' :
  user_run top s s' -> sys_wf (sys s) -> sys_wf (sys s') /\ same_statics top (pmem s) (pmem s').
Proof.
  induction 1 as [s|s s1 s2 Hstep _ IH]; intros Hwf; [done|].
  assert (H1 : sys_wf (sys s1) /\ same_statics top (pmem s) (pmem s1)).
  { destruct Hstep as [c m s Hm|m s Hm|r r' k x s Hr Hsp Hl].
    - split; [by apply SyscallSpec.wf_umem|]. intros a Ha _. by apply Hm.
    - split; [by apply SyscallSpec.wf_umem|]. intros a _ Ha. by apply Hm.
    - split; [by eapply handler_wf|]. intros a Ha _.
      destruct (SyscallSpec.handler_frame _ _ _ _ _ Hr) as (Hf & _).
      by apply (SyscallSpec.spares_same _ _ _ Hsp Hf). }
  destruct (IH (proj1 H1)) as [? E]. split; [done|]. intros a Ha Ho. rewrite (E a Ha Ho). by apply H1.
Qed.

Lemma ld32_same_statics top m m' a :
  same_statics top m m' -> 0 <= a -> a + 4 <= 0x400000 -> a + 4 <= top - 8192 \/ top <= a -> ld32 m' a = ld32 m a.
Proof. intros H H1 H2 H3. apply ld32_ext. intros i Hi. apply H; [split; lia | lia]. Qed.

Lemma pmem_proc m x ms t c : pmem (mk_proc (Syscall.set_umem m x) ms t c) = m.
Proof. done. Qed.

Lemma process_enter_spec st top entry c s :
  sys_wf (sys s) -> statics_ok st top c -> 
  let s1 := process_enter st top entry c s in
  exists m, sys_wf (sys s1) /\ pmem s1 = fst (process_setjmp (at_jmpbuf st) m c) /\
    ld32 m (c_esp c) = ld32 (pmem s1) (c_esp c) /\ ld32 (pmem s1) (at_have_jmp st) = 1 /\
    c_eip (pcpu s1) = entry.
Proof.
  intros Hwf Hst s1. open_windows Hst. unfold s1, process_enter. cbv zeta.
  match goal with |- context [process_setjmp _ ?m0 c] => set (m := m0) end.
  exists m. unfold process_setjmp. rewrite !pmem_proc. cbn [fst].
  split_and!; try done.
  - apply SyscallSpec.wf_umem. by apply psay_wf, fd_reset_wf.
  - by rewrite !ld32_st32_ne by lia.
  - rewrite !ld32_st32_ne by lia. unfold m. by rewrite ld32_st32_eq.
Qed.


(** Nothing enforces that restraint: the segments of ring 3 are flat and there
    is no paging, so a program can store over [g_jmpbuf], and the kernel goes
    on in ring 0 at the address it finds there. *)
Lemma exit_follows_buffer st code v s s3 :
  in_u32 v -> at_exit_code st + 4 <= at_jmpbuf st \/ at_jmpbuf st + 24 <= at_exit_code st ->
  process_exit_to_kernel st code (set_pmem (st32 (pmem s) (at_jmpbuf st + 20) v) s) = Ret s3 ->
  c_eip (pcpu s3) = v.
Proof.
  intros Hv Hd H. unfold process_exit_to_kernel in H. cbv zeta in H.
  destruct (ld32 _ (at_have_jmp st) =? 0); [discriminate|]. injection H as <-.
  cbn [set_cpu pcpu process_longjmp c_eip].
  change (pmem (set_pmem ?m _)) with m. rewrite ld32_st32_ne by lia.
  change (pmem (set_pmem ?m _)) with m. by rewrite ld32_st32_eq, u32_small.
Qed.

(** ** Static programs *)

(** A header read of the plain loader is one of the dynamic loader. *)
Lemma load_loop_head image eh i n ld m m' :
  Elf.load_loop image eh i (S n) ld m = Ret (Elf.ELF_OK, m') ->
  Dyld.read_phdr image eh i = Ret (Elf.phdr_at image (Elf.e_phoff eh + i * Elf.e_phentsize eh)) /\
  exists ld1 m1, Elf.load_loop image eh (i + 1) n ld1 m1 = Ret (Elf.ELF_OK, m').
Proof.
  cbn [Elf.load_loop]. unfold Dyld.read_phdr. destruct (_ <? _); [discriminate|].
  intros H. split; [done|]. destruct (negb _); [eauto|]. destruct (_ <? _); [discriminate|].
  destruct (_ || _); [discriminate|]. destruct (Elf.load_segment _ _ m); [|discriminate]. cbn in H. eauto.
Qed.

Lemma find_phdr_static image eh ty i n ld m m' :
  ty = Dyld.PT_INTERP \/ ty = Dyld.PT_DYNAMIC ->
  Elf.load_loop image eh i n ld m = Ret (Elf.ELF_OK, m') ->
  dynamic_loop image (Elf.e_phoff eh) (Elf.e_phentsize eh) i n = Ret false ->
  Dyld.find_phdr image eh ty i n = Ret None.
Proof.
  intros Hty. revert i ld m. induction n as [|n IH]; intros i ld m Hl Hd; [done|].
  apply load_loop_head in Hl as (Hp & ld1 & m1 & Hl). cbn [Dyld.find_phdr]. rewrite Hp. cbn [mbind out_mbind].
  cbn [dynamic_loop] in Hd. destruct (_ <? _); [discriminate|].
  destruct (_ || _) eqn:E; [discriminate|]. apply orb_false_iff in E as [E3 E2].
  cbn [Elf.phdr_at Elf.p_type]. replace (im32 image _ =? ty) with false; [by eapply IH|].
  by destruct Hty as [-> | ->].
Qed.

Lemma load_segments_static image eh i n ld m m' :
  Elf.load_loop image eh i n ld m = Ret (Elf.ELF_OK, m') ->
  Dyld.load_segments_loop image eh 0 true i n ld m = Ret (Dyld.DYLD_OK, m').
Proof.
  revert i ld m. induction n as [|n IH]; intros i ld m H.
  - cbn in *. by destruct ld; [injection H as <- | discriminate].
  - pose proof (load_loop_head _ _ _ _ _ _ _ H) as [Hp _].
    cbn [Dyld.load_segments_loop]. rewrite Hp. cbn [mbind out_mbind]. clear Hp. cbn [Elf.load_loop] in H.
    set (off := Elf.e_phoff eh + i * Elf.e_phentsize eh) in *. destruct (_ <? off + _); [discriminate|].
    destruct (negb _); [by apply IH|]. destruct (_ <? u32 _); [discriminate|].
    destruct (Elf.phdr_range image off) as (_ & Hv & _). rewrite Z.add_0_r, (u32_small (Elf.p_vaddr _)) by done.
    cbn [andb]. destruct (_ || _); [discriminate|].
    change (Elf.mk_phdr _ _ _ _ _) with (Elf.phdr_at image off).
    destruct (Elf.load_segment image (Elf.phdr_at image off) m) as [m1|]; [|discriminate]. cbn [mbind out_mbind] in *. by apply IH.
Qed.

(** C32. For a static program the dynamic loader is the plain loader: if
    [elf_load] accepts an image without PT_INTERP and PT_DYNAMIC headers, then
    [dyld_load] accepts it, leaves the same memory and reports the same
    entry point, so [process_exec] never needs its fallback for it. *)
Theorem dyld_static_agrees lib image s e m' :
  elf_is_dynamic image = Ret false -> Elf.elf_load image (Dyld.dmem s) = Ret ((Elf.ELF_OK, Some e), m') ->
  exists s', Dyld.dyld_load lib image s = Ret ((Dyld.DYLD_OK, Some e), s') /\ Dyld.dmem s' = m'.
Proof.
  unfold elf_is_dynamic, Elf.elf_load, Dyld.dyld_load, Dyld.parse_ehdr. intros Hd He. cbv zeta in He.
  destruct (_ <? Elf.SIZEOF_EHDR) eqn:E1; [discriminate|]. change 52 with Elf.SIZEOF_EHDR in Hd. rewrite E1 in Hd.
  destruct (Elf.is_elf_magic image) eqn:E2; [|discriminate]. cbn [negb] in *.
  destruct (im8 image 4 =? 1) eqn:E3; [|discriminate]. destruct (im8 image 5 =? 1) eqn:E4; [|discriminate].
  destruct (Elf.e_type _ =? Elf.ET_EXEC) eqn:E5; [|discriminate].
  destruct (Elf.e_machine _ =? _) eqn:E6; [|discriminate]. cbn [negb andb] in *.
  destruct (_ <? u32 _) eqn:E7; [discriminate|]. set (eh := Elf.ehdr_at image) in *.
  destruct (Elf.load_loop image eh 0 _ false (Dyld.dmem s)) as [[r m]|] eqn:El; [|discriminate].
  cbn [mbind out_mbind] in He. destruct (bool_decide_reflect (r = Elf.ELF_OK)) as [->|]; [|discriminate].
  injection He as <- <-.
  pose proof (find_phdr_static _ _ Dyld.PT_INTERP _ _ _ _ _ (or_introl eq_refl) El Hd) as Hi.
  pose proof (find_phdr_static _ _ Dyld.PT_DYNAMIC _ _ _ _ _ (or_intror eq_refl) El Hd) as Hdy.
  pose proof (load_segments_static _ _ _ _ _ _ _ El) as Hs.
  assert (Ht : (Elf.e_type eh =? Dyld.ET_DYN) = false).
  { apply Z.eqb_eq in E5. rewrite E5. done. }
  unfold Dyld.find_interp. rewrite Hi. cbn [mbind out_mbind].
  unfold Dyld.load_one, Dyld.parse_ehdr. rewrite E1, E2, E3, E4. fold eh. rewrite E5, E6.
  cbn [negb andb length Dyld.mods Dyld.set_mods Nat.leb Dyld.DYLD_MAX_MODS]. rewrite Ht.
  unfold Dyld.load_at, Dyld.load_segments. cbn [negb andb Dyld.dmem Dyld.set_mods]. rewrite Hs. cbn [mbind out_mbind].
  rewrite ?bool_decide_true by done. cbn [negb andb]. unfold Dyld.find_dynamic. rewrite Hdy. cbn [mbind out_mbind].
  unfold Dyld.scan_dynamic. cbn [Dyld.dynamic Z.eqb mbind out_mbind]. rewrite ?bool_decide_true by done.
  cbn [negb Dyld.mods Dyld.set_mods app]. unfold Dyld.load_needed. cbn [Dyld.dynamic Z.eqb orb mbind out_mbind].
  rewrite ?bool_decide_true by done. cbn [negb Dyld.mods tail app Dyld.relocate_all].
  unfold Dyld.relocate_module. cbn [Dyld.dynamic Z.eqb mbind out_mbind]. rewrite ?bool_decide_true by done.
  cbn [negb]. eexists. split; [reflexivity | done].
Qed.

(** ** A static program from the loader to its exit *)

Definition tiny : list Z := Elf.tiny 2 4 0x400000.

Definition tiny_mem : mem :=
  match Elf.elf_load tiny ∅ with Ret (_, m) => m | Fault _ => ∅ end.

Lemma tiny_loads : Elf.elf_load tiny ∅ = Ret ((Elf.ELF_OK, Some 0x400000), tiny_mem).
Proof. by vm_compute. Qed.


Definition kernel_cpu : cpu := mk_cpu 0 1 2 3 0x9000 0x8FF0 0x100400 0x08 0x10 true.

Definition ready : procst :=
  mk_proc (SyscallSpec.running FsSpec.booted) [] 0 kernel_cpu.

(** The same before the kernel heap exists. *)
Definition fresh : procst := mk_proc (SyscallSpec.started FsSpec.booted) [] 0 kernel_cpu.

Lemma tiny_dyld :
  exists d, Dyld.dyld_load [] tiny (dyld_state ready) = Ret ((Dyld.DYLD_OK, Some 0x400000), d).
Proof. eexists. vm_compute. reflexivity. Qed.

Lemma dyld_static_agrees_witness :
  exists s', Dyld.dyld_load [] tiny (dyld_state fresh) = Ret ((Dyld.DYLD_OK, Some 0x400000), s') /\
    Dyld.dmem s' = tiny_mem.
Proof.
  apply (dyld_static_agrees [] tiny (dyld_state fresh) 0x400000 tiny_mem); [by vm_compute | exact tiny_loads].
Defined.

(** The variables in the kernel image, the ring 0 stack at 0x110000, the
    kernel stack at 0x8FF0. *)
Definition statics0 : statics := mk_statics 0x120000 0x120018 0x12001C.

Lemma statics0_ok : statics_ok statics0 0x112000 kernel_cpu.
Proof. split; unfold windows; cbn [statics0 at_jmpbuf at_exit_code at_have_jmp kernel_cpu c_esp];
  repeat (constructor; cbn [fst snd]; try lia). Qed.


End ProcessSpec.
