(* ===== verification/Ata.v ===== *)
(** * The ATA disk (src/src/ata.c) at sector granularity

    The abstract specification of the driver, which the other components are
    proved against: what the disk stores per LBA, the sectors it answers with
    an error, whether it is there at all, the presence flag, the 28-bit
    address, the sector loop that stops at the first error, and where in the
    caller's buffer each sector goes.  The code itself, at its ports, is
    [AtaPio]; [AtaPioSpec] shows that it implements this view. *)

From S2P Require Import Prelude.

Module Ata.

Definition SECTOR_SIZE : nat := 512.

Record disk : Type := mk_disk {
  g_ata_ok : bool;
  plugged : bool;                (** the drive answers IDENTIFY *)
  sectors : gmap Z (list Z);     (** written sectors; the others hold zeros *)
  broken : gset Z;               (** sectors the drive reports an error for *)
}.

Definition sector (d : disk) (a : Z) : list Z := default (replicate SECTOR_SIZE 0) (sectors d !! a).

(** The 28 address bits the task file holds. *)
Definition lba28 (lba : Z) : Z := lba mod 268435456.

Definition ata_init (d : disk) : Z * disk :=
  (if plugged d then 0 else -1, mk_disk (plugged d) (plugged d) (sectors d) (broken d)).
Definition ata_present (d : disk) : bool := g_ata_ok d.

(** [buf[512 s .. 512 s + 512) = bytes] *)
Definition blit_sector (buf : list Z) (s : nat) (bytes : list Z) : list Z :=
  take (SECTOR_SIZE * s) buf ++ bytes ++ drop (SECTOR_SIZE * S s) buf.

Fixpoint read_loop (d : disk) (a : Z) (s n : nat) (buf : list Z) : out (Z * list Z) :=
  match n with
  | O => Ret (0, buf)
  | S n' =>
      if bool_decide (a + Z.of_nat s ∈ broken d) then Ret (-1, buf)
      else if (length buf <? SECTOR_SIZE * S s)%nat then Fault OutOfBounds
      else read_loop d a (S s) n' (blit_sector buf s (sector d (a + Z.of_nat s)))
  end.

Definition ata_read_sectors (d : disk) (lba count : Z) (buf : list Z) : out (Z * list Z) :=
  if negb (g_ata_ok d) || (count =? 0) then Ret (-1, buf)
  else read_loop d (lba28 lba) 0 (Z.to_nat count) buf.

Definition set_sector (a : Z) (bytes : list Z) (d : disk) : disk :=
  mk_disk (g_ata_ok d) (plugged d) (<[a := bytes]> (sectors d)) (broken d).

Fixpoint write_loop (d : disk) (a : Z) (s n : nat) (buf : list Z) : out (Z * disk) :=
  match n with
  | O => Ret (0, d)
  | S n' =>
      if bool_decide (a + Z.of_nat s ∈ broken d) then Ret (-1, d)
      else if (length buf <? SECTOR_SIZE * S s)%nat then Fault OutOfBounds
      else write_loop (set_sector (a + Z.of_nat s)
             (take SECTOR_SIZE (drop (SECTOR_SIZE * s) buf)) d) a (S s) n' buf
  end.

Definition ata_write_sectors (d : disk) (lba count : Z) (buf : list Z) : out (Z * disk) :=
  if negb (g_ata_ok d) || (count =? 0) then Ret (-1, d)
  else write_loop d (lba28 lba) 0 (Z.to_nat count) buf.

(** ** One sector at a time *)

Definition disk_wf (d : disk) : Prop := forall a b, sectors d !! a = Some b -> length b = SECTOR_SIZE.

Lemma sector_length d a : disk_wf d -> length (sector d a) = SECTOR_SIZE.
Proof.
  intros Hd. unfold sector. destruct (sectors d !! a) eqn:E; cbn [default]; [by eapply Hd|].
  apply length_replicate.
Qed.

Lemma set_sector_wf a bytes d : length bytes = SECTOR_SIZE -> disk_wf d -> disk_wf (set_sector a bytes d).
Proof.
  intros Hb Hd x y. cbn [sectors set_sector]. rewrite lookup_insert.
  case_decide; [by intros [= <-] | apply Hd].
Qed.

Lemma sector_set a bytes d x : sector (set_sector a bytes d) x = if decide (x = a) then bytes else sector d x.
Proof.
  unfold sector. cbn [sectors set_sector]. rewrite lookup_insert.
  repeat case_decide; try done; congruence.
Qed.

(** Reading one sector into a sector-sized buffer replaces the buffer, or
    fails and leaves it. *)
Lemma read_one d lba buf :
  disk_wf d -> length buf = SECTOR_SIZE ->
  ata_read_sectors d lba 1 buf =
  if negb (g_ata_ok d) || bool_decide (lba28 lba ∈ broken d) then Ret (-1, buf)
  else Ret (0, sector d (lba28 lba)).
Proof.
  intros Hd Hl. unfold ata_read_sectors. change (1 =? 0) with false. rewrite orb_false_r.
  destruct (g_ata_ok d); cbn [negb orb]; [|done].
  change (Z.to_nat 1) with 1%nat. cbn [read_loop]. rewrite Z.add_0_r.
  destruct (bool_decide _); [done|]. rewrite Hl.
  change (SECTOR_SIZE <? SECTOR_SIZE * 1)%nat with false. cbv iota.
  unfold blit_sector. rewrite take_0, drop_ge by (rewrite Hl; done).
  by rewrite app_nil_r.
Qed.

Lemma write_one d lba buf :
  length buf = SECTOR_SIZE ->
  ata_write_sectors d lba 1 buf =
  if negb (g_ata_ok d) || bool_decide (lba28 lba ∈ broken d) then Ret (-1, d)
  else Ret (0, set_sector (lba28 lba) buf d).
Proof.
  intros Hl. unfold ata_write_sectors. change (1 =? 0) with false. rewrite orb_false_r.
  destruct (g_ata_ok d); cbn [negb orb]; [|done].
  change (Z.to_nat 1) with 1%nat. cbn [write_loop]. rewrite Z.add_0_r.
  destruct (bool_decide _); [done|]. rewrite Hl.
  change (SECTOR_SIZE <? SECTOR_SIZE * 1)%nat with false. cbv iota.
  rewrite drop_0, take_ge by (rewrite Hl; done). done.
Qed.

End Ata.
