(* ===== verification/AtaPio.v ===== *)
(** * The ATA driver at its ports (src/src/ata.c)

    [Ata] gives the driver's sector view of the disk.  Here is the code below
    it: the registers it writes, the status polls with their bound of a
    million, and the words it moves.  The drive on the other side of the
    ports is the environment: a task file, a command in progress and the
    time it stays busy, as the ATA standard describes programmed input and
    output.  It reports an error of a sector instead of asking for data or,
    when writing, after it has taken the data ([late]).  [AtaPioSpec] shows
    that the code does with the first kind of drive what [Ata] says, and
    that it overlooks errors of the second. *)

From S2P Require Import Prelude Ata.
Import Ata.

Module AtaPio.

(** ** The drive *)

(** A command in progress: the sector at hand, how many are left with it, and
    the words still to come or already taken. *)
Inductive phase : Type :=
| Idle
| Failed
| DataIn (a : Z) (todo : nat) (words : list Z)
| DataOut (a : Z) (todo : nat) (got : list Z)
| Ident (words : list Z).
#[export] Instance phase_eq_dec : EqDecision phase.
Proof. solve_decision. Defined.

Record drive : Type := mk_drive {
  r_sel : Z; r_count : Z; r_lo : Z; r_mid : Z; r_hi : Z;
  ph : phase;
  wait : nat;        (** status reads until the drive is no longer busy *)
  latency : nat;     (** what [wait] is set to by each sector and command *)
  late : bool;       (** write errors are found out after the data was taken *)
  med : disk;
}.

Definition set_ph (p : phase) (w : nat) (d : drive) : drive :=
  mk_drive (r_sel d) (r_count d) (r_lo d) (r_mid d) (r_hi d) p w (latency d) (late d) (med d).
Definition set_med (m : disk) (d : drive) : drive :=
  mk_drive (r_sel d) (r_count d) (r_lo d) (r_mid d) (r_hi d) (ph d) (wait d) (latency d) (late d) m.

(** Little-endian words of a byte array, and back. *)
Fixpoint words_of (b : list Z) : list Z :=
  match b with
  | x :: y :: b' => (x + 256 * y) :: words_of b'
  | _ => []
  end.
Definition word_bytes (w : Z) : list Z := [u8 w; u8 (w / 256)].
Definition bytes_of (ws : list Z) : list Z := ws ≫= word_bytes.

(** The drive turns to a sector. *)
Definition begin_in (a : Z) (todo : nat) (d : drive) : drive :=
  match todo with
  | O => set_ph Idle (wait d) d
  | _ => if bool_decide (a ∈ broken (med d)) then set_ph Failed (latency d) d
         else set_ph (DataIn a todo (words_of (sector (med d) a))) (latency d) d
  end.
Definition begin_out (a : Z) (todo : nat) (d : drive) : drive :=
  match todo with
  | O => set_ph Idle (latency d) d
  | _ => if bool_decide (a ∈ broken (med d)) && negb (late d) then set_ph Failed (latency d) d
         else set_ph (DataOut a todo []) (latency d) d
  end.

Definition address (d : drive) : Z := r_lo d + 256 * r_mid d + 65536 * r_hi d + 16777216 * (r_sel d mod 16).
Definition sector_count (d : drive) : nat := if r_count d =? 0 then 256%nat else Z.to_nat (r_count d).

Definition command (v : Z) (d : drive) : drive :=
  if negb (plugged (med d)) then d
  else if v =? 0x20 then begin_in (address d) (sector_count d) d
  else if v =? 0x30 then begin_out (address d) (sector_count d) d
  else if v =? 0xEC then set_ph (Ident (replicate 256 0)) (latency d) d
  else set_ph Failed (latency d) d.

(** [outb] and, for the data register, [outw]. *)
Definition port_out (port v : Z) (d : drive) : drive :=
  let '(mk_drive s n l m h p w t e x) := d in
  if port =? 0x1F2 then mk_drive s v l m h p w t e x
  else if port =? 0x1F3 then mk_drive s n v m h p w t e x
  else if port =? 0x1F4 then mk_drive s n l v h p w t e x
  else if port =? 0x1F5 then mk_drive s n l m v p w t e x
  else if port =? 0x1F6 then mk_drive v n l m h p w t e x
  else if port =? 0x1F7 then command v d
  else if port =? 0x1F0 then
    match p with
    | DataOut a todo got =>
        let got := got ++ [v] in
        if negb (length got =? 256)%nat then set_ph (DataOut a todo got) w d
        else if bool_decide (a ∈ broken x) then set_ph Failed t d
        else begin_out (a + 1) (todo - 1) (set_med (set_sector a (bytes_of got) x) d)
    | _ => d
    end
  else d.

Definition status (d : drive) : Z :=
  match ph d with
  | Idle => 0x50
  | Failed => 0x51
  | _ => 0x58
  end.

(** [inb] and, for the data register, [inw].  No drive: the bus reads 0. *)
Definition port_in (port : Z) (d : drive) : Z * drive :=
  if negb (plugged (med d)) then (0, d)
  else if port =? 0x1F7 then
    match wait d with
    | S w => (0x80, set_ph (ph d) w d)
    | O => (status d, d)
    end
  else if port =? 0x1F4 then (r_mid d, d)
  else if port =? 0x1F5 then (r_hi d, d)
  else if port =? 0x1F0 then
    match ph d with
    | DataIn a todo (w :: ws) =>
        (w, match ws with
            | [] => begin_in (a + 1) (todo - 1) d
            | _ => set_ph (DataIn a todo ws) (wait d) d
            end)
    | Ident (w :: ws) => (w, set_ph (match ws with [] => Idle | _ => Ident ws end) (wait d) d)
    | _ => (0, d)
    end
  else (0, d).

(** ** The driver *)

Definition ATA_DATA : Z := 0x1F0.
Definition ATA_SECCOUNT : Z := 0x1F2.
Definition ATA_LBA_LO : Z := 0x1F3.
Definition ATA_LBA_MID : Z := 0x1F4.
Definition ATA_LBA_HI : Z := 0x1F5.
Definition ATA_DRIVE : Z := 0x1F6.
Definition ATA_STATUS : Z := 0x1F7.
Definition ATA_CMD : Z := 0x1F7.
Definition ATA_STATUS_ERR : Z := 0x01.
Definition ATA_STATUS_DRQ : Z := 0x08.
Definition ATA_STATUS_DF : Z := 0x20.
Definition ATA_STATUS_BSY : Z := 0x80.
Definition ATA_CMD_READ_PIO : Z := 0x20.
Definition ATA_CMD_WRITE_PIO : Z := 0x30.
Definition ATA_CMD_IDENTIFY : Z := 0xEC.

(** The bound of the two polls. *)
Definition POLLS : Z := 1000000.

Definition bit (s mask : Z) : bool := negb (Z.land s mask =? 0).

(** Four reads of the alternate status, which change nothing. *)
Definition ata_delay (d : drive) : drive :=
  let '(_, d) := port_in 0x3F6 d in
  let '(_, d) := port_in 0x3F6 d in
  let '(_, d) := port_in 0x3F6 d in
  let '(_, d) := port_in 0x3F6 d in d.

Fixpoint not_busy_loop (n : nat) (d : drive) : Z * drive :=
  match n with
  | O => (-1, d)
  | S n' =>
      let '(s, d) := port_in ATA_STATUS d in
      if negb (bit s ATA_STATUS_BSY) then (0, d) else not_busy_loop n' d
  end.
Definition ata_wait_not_busy (d : drive) : Z * drive := not_busy_loop (Z.to_nat POLLS) d.

Fixpoint drq_loop (n : nat) (d : drive) : Z * drive :=
  match n with
  | O => (-1, d)
  | S n' =>
      let '(s, d) := port_in ATA_STATUS d in
      if bit s ATA_STATUS_ERR then (-1, d)
      else if bit s ATA_STATUS_DF then (-1, d)
      else if bit s ATA_STATUS_DRQ then (0, d)
      else drq_loop n' d
  end.
Definition ata_wait_drq (d : drive) : Z * drive := drq_loop (Z.to_nat POLLS) d.

(** [for (i = 0; i < n; i++) (void)inw(ATA_DATA);] *)
Fixpoint discard (n : nat) (d : drive) : drive :=
  match n with
  | O => d
  | S n' => discard n' (snd (port_in ATA_DATA d))
  end.

(** The flag [g_ata_ok] is that of the disk. *)
Definition set_ok (b : bool) (d : drive) : drive :=
  set_med (mk_disk b (plugged (med d)) (sectors (med d)) (broken (med d))) d.

Definition ata_init (d : drive) : Z * drive :=
  let d := set_ok false d in
  let d := port_out ATA_DRIVE 0xA0 d in
  let d := ata_delay d in
  let d := port_out ATA_SECCOUNT 0 d in
  let d := port_out ATA_LBA_LO 0 d in
  let d := port_out ATA_LBA_MID 0 d in
  let d := port_out ATA_LBA_HI 0 d in
  let d := port_out ATA_CMD ATA_CMD_IDENTIFY d in
  let d := ata_delay d in
  let '(s, d) := port_in ATA_STATUS d in
  if s =? 0 then (-1, d)
  else
    let '(r, d) := ata_wait_not_busy d in
    if negb (r =? 0) then (-1, d)
    else
      let '(m, d) := port_in ATA_LBA_MID d in
      let '(h, d) := if negb (m =? 0) then (0, d) else port_in ATA_LBA_HI d in
      if negb (m =? 0) || negb (h =? 0) then (-1, d)
      else
        let '(r, d) := ata_wait_drq d in
        if negb (r =? 0) then (-1, d)
        else (0, set_ok true (discard 256 d)).

Definition ata_present (d : drive) : bool := g_ata_ok (med d).

(** The six register writes of a transfer. *)
Definition send_command (cmd lba count : Z) (d : drive) : drive :=
  let d := port_out ATA_DRIVE (u8 (Z.lor 0xE0 (Z.land (Z.shiftr lba 24) 0x0F))) d in
  let d := port_out ATA_SECCOUNT (u8 count) d in
  let d := port_out ATA_LBA_LO (u8 (Z.land lba 0xFF)) d in
  let d := port_out ATA_LBA_MID (u8 (Z.land (Z.shiftr lba 8) 0xFF)) d in
  let d := port_out ATA_LBA_HI (u8 (Z.land (Z.shiftr lba 16) 0xFF)) d in
  port_out ATA_CMD cmd d.

(** [out[k] = w] for a [uint16_t* out] over the bytes [b]. *)
Definition store_word (b : list Z) (k : nat) (w : Z) : out (list Z) :=
  if (length b <? 2 * k + 2)%nat then Fault OutOfBounds
  else Ret (take (2 * k) b ++ word_bytes w ++ drop (2 * k + 2) b).
(** [in[k]] *)
Definition fetch_word (b : list Z) (k : nat) : out Z :=
  if (length b <? 2 * k + 2)%nat then Fault OutOfBounds
  else Ret (b !!! (2 * k)%nat + 256 * b !!! (2 * k + 1)%nat).

(** [for (i = ...; n rounds; i++) out[s * 256 + i] = inw(ATA_DATA);] from [k] on *)
Fixpoint words_in (n k : nat) (b : list Z) (d : drive) : out (list Z * drive) :=
  match n with
  | O => Ret (b, d)
  | S n' =>
      let '(w, d) := port_in ATA_DATA d in
      b ← store_word b k (u16 w);
      words_in n' (S k) b d
  end.
Fixpoint words_out (n k : nat) (b : list Z) (d : drive) : out drive :=
  match n with
  | O => Ret d
  | S n' =>
      w ← fetch_word b k;
      words_out n' (S k) b (port_out ATA_DATA (u16 w) d)
  end.

(** The sector loops, [n] sectors from [s] on. *)
Fixpoint read_sectors (n s : nat) (b : list Z) (d : drive) : out (Z * list Z * drive) :=
  match n with
  | O => Ret (0, b, d)
  | S n' =>
      let '(r, d) := ata_wait_not_busy d in
      if negb (r =? 0) then Ret (-1, b, d)
      else
        let '(r, d) := ata_wait_drq d in
        if negb (r =? 0) then Ret (-1, b, d)
        else
          '(b, d) ← words_in 256 (s * 256) b d;
          read_sectors n' (S s) b d
  end.

Fixpoint write_sectors (n s : nat) (b : list Z) (d : drive) : out (Z * drive) :=
  match n with
  | O => Ret (0, d)
  | S n' =>
      let '(r, d) := ata_wait_not_busy d in
      if negb (r =? 0) then Ret (-1, d)
      else
        let '(r, d) := ata_wait_drq d in
        if negb (r =? 0) then Ret (-1, d)
        else
          d ← words_out 256 (s * 256) b d;
          let '(r, d) := ata_wait_not_busy d in
          if negb (r =? 0) then Ret (-1, d) else write_sectors n' (S s) b d
  end.

Definition ata_read_sectors (lba count : Z) (buf : option (list Z)) (d : drive)
  : out (Z * option (list Z) * drive) :=
  match buf with
  | Some b =>
      if negb (g_ata_ok (med d)) || (count =? 0) then Ret (-1, buf, d)
      else
        let '(r, d) := ata_wait_not_busy d in
        if negb (r =? 0) then Ret (-1, buf, d)
        else
          '(r, b, d) ← read_sectors (Z.to_nat count) 0 b (send_command ATA_CMD_READ_PIO lba count d);
          Ret (r, Some b, d)
  | None => Ret (-1, buf, d)
  end.

Definition ata_write_sectors (lba count : Z) (buf : option (list Z)) (d : drive) : out (Z * drive) :=
  match buf with
  | Some b =>
      if negb (g_ata_ok (med d)) || (count =? 0) then Ret (-1, d)
      else
        let '(r, d) := ata_wait_not_busy d in
        if negb (r =? 0) then Ret (-1, d)
        else write_sectors (Z.to_nat count) 0 b (send_command ATA_CMD_WRITE_PIO lba count d)
  | None => Ret (-1, d)
  end.

End AtaPio.

(** ** The driver implements the sector view

    The claim [ata_pio_refines]: with a drive that becomes ready within the
    bound of the polls, the code of ata.c returns, moves and stores exactly
    what [Ata] says. *)
Import Ata AtaPio.

Module AtaPioSpec.

(** ** Words and bytes *)

Definition byte (c : Z) : Prop := 0 <= c < 256.
Definition word (c : Z) : Prop := 0 <= c < 65536.

Lemma words_bytes n b :
  length b = (2 * n)%nat -> Forall byte b ->
  bytes_of (words_of b) = b /\ length (words_of b) = n /\ Forall word (words_of b).
Proof.
  revert b. induction n as [|n IH]; intros b Hl Hb; [by destruct b|].
  destruct b as [|x [|y b]]; cbn [length] in Hl; try lia.
  apply Forall_cons in Hb as [Hx Hb]. apply Forall_cons in Hb as [Hy Hb].
  destruct (IH b) as (E & Hn & Hw); [lia | done |]. unfold byte in *. cbn [words_of]. unfold bytes_of. cbn [mbind list_bind].
  fold (bytes_of (words_of b)). rewrite E. cbn [length]. split_and!; [|lia | constructor; [unfold word; lia | done]].
  unfold word_bytes, u8. cbn [app]. f_equal; [zlia | f_equal; zlia].
Qed.

Lemma length_bytes_of ws : length (bytes_of ws) = (2 * length ws)%nat.
Proof. induction ws as [|w ws IH]; [done|]. unfold bytes_of in *. cbn [mbind list_bind length app word_bytes]. lia. Qed.

Lemma bytes_of_app a b : bytes_of (a ++ b) = bytes_of a ++ bytes_of b.
Proof. unfold bytes_of. apply bind_app. Qed.

(** ** The drive *)

(** It answers within the bound and reports errors before the data. *)
Definition prompt (d : drive) : Prop :=
  plugged (med d) = true /\ (wait d <= latency d)%nat /\ Z.of_nat (latency d) < POLLS /\ late d = false.
Definition resting (d : drive) : Prop := ph d = Idle \/ ph d = Failed.
Definition ready (d : drive) : Prop := prompt d /\ resting d.

Lemma set_ph_twice p w p' w' d : set_ph p w (set_ph p' w' d) = set_ph p w d.
Proof. done. Qed.

Lemma set_ph_id d : set_ph (ph d) (wait d) d = d.
Proof. by destruct d. Qed.

Lemma status_read d : plugged (med d) = true ->
  port_in ATA_STATUS d = match wait d with S w => (0x80, set_ph (ph d) w d) | O => (status d, d) end.
Proof. intros H. unfold port_in. by rewrite H. Qed.

Lemma status_bits d :
  bit (status d) ATA_STATUS_BSY = false /\ bit (status d) ATA_STATUS_DF = false /\
  bit (status d) ATA_STATUS_ERR = bool_decide (ph d = Failed) /\
  bit (status d) ATA_STATUS_DRQ = match ph d with Idle | Failed => false | _ => true end.
Proof. unfold status. destruct (ph d); by vm_compute. Qed.

Lemma not_busy_loop_spec n d :
  plugged (med d) = true -> (wait d < n)%nat -> not_busy_loop n d = (0, set_ph (ph d) 0 d).
Proof.
  revert d. induction n as [|n IH]; intros d Hp Hw; [lia|]. cbn [not_busy_loop]. rewrite status_read by done.
  destruct (wait d) as [|w] eqn:E.
  - destruct (status_bits d) as [-> _]. cbn [negb]. by rewrite <- E, set_ph_id.
  - change (negb (bit 0x80 ATA_STATUS_BSY)) with false. cbv iota. rewrite IH; [done | done | cbn; lia].
Qed.

Lemma not_busy_spec d : prompt d -> ata_wait_not_busy d = (0, set_ph (ph d) 0 d).
Proof. intros (Hp & Hw & Hl & _). apply not_busy_loop_spec; [done|]. lia. Qed.

(** Without a busy drive one look at the status settles it. *)
Lemma drq_spec d :
  plugged (med d) = true -> wait d = 0%nat -> ph d <> Idle ->
  ata_wait_drq d = (if bool_decide (ph d = Failed) then -1 else 0, d).
Proof.
  intros Hp Hw Hi. unfold ata_wait_drq. destruct (Z.to_nat POLLS) as [|n] eqn:E; [unfold POLLS in E; lia|]. cbn [drq_loop].
  rewrite status_read, Hw by done. destruct (status_bits d) as (_ & -> & -> & ->).
  destruct (bool_decide_reflect (ph d = Failed)); [done|]. by destruct (ph d).
Qed.

(** Register writes leave the rest of the drive. *)
Lemma lba_parts lba :
  u8 (Z.land lba 0xFF) + 256 * u8 (Z.land (Z.shiftr lba 8) 0xFF) + 65536 * u8 (Z.land (Z.shiftr lba 16) 0xFF) +
  16777216 * (u8 (Z.lor 0xE0 (Z.land (Z.shiftr lba 24) 0x0F)) mod 16) = lba28 lba.
Proof.
  assert (E4 : u8 (Z.lor 0xE0 (Z.land (Z.shiftr lba 24) 0x0F)) mod 16 = (lba / 16777216) mod 16).
  { unfold u8. change 16 with (2 ^ 4). change 256 with (2 ^ 8). rewrite <- !Z.land_ones by lia.
    rewrite <- Z.land_assoc. change (Z.land (Z.ones 8) (Z.ones 4)) with 15. rewrite Z.land_lor_distr_l.
    change (Z.land 0xE0 15) with 0. rewrite Z.lor_0_l, <- Z.land_assoc. change (Z.land 0x0F 15) with (Z.ones 4).
    by rewrite Z.shiftr_div_pow2 by lia. }
  rewrite E4. change 0xFF with (Z.ones 8). rewrite !Z.land_ones, !Z.shiftr_div_pow2 by lia.
  change (2 ^ 8) with 256. change (2 ^ 16) with 65536. unfold u8, lba28. rewrite !Z.mod_mod by lia.
  assert (E1 : lba / 65536 = lba / 256 / 256) by (rewrite Z.div_div by lia; done).
  assert (E2 : lba / 16777216 = lba / 256 / 256 / 256) by (rewrite !Z.div_div by lia; done).
  assert (E3 : lba / 268435456 = lba / 256 / 256 / 256 / 16) by (rewrite !Z.div_div by lia; done).
  pose proof (Z.div_mod lba 268435456 ltac:(lia)) as H4. rewrite E3 in H4. rewrite E1, E2.
  pose proof (Z.div_mod lba 256 ltac:(lia)). pose proof (Z.div_mod (lba / 256) 256 ltac:(lia)).
  pose proof (Z.div_mod (lba / 256 / 256) 256 ltac:(lia)). pose proof (Z.div_mod (lba / 256 / 256 / 256) 16 ltac:(lia)). lia.
Qed.

(** A transfer command starts at the 28-bit address with the count. *)
Lemma send_command_spec cmd lba count d :
  prompt d -> 0 < count < 256 -> cmd = ATA_CMD_READ_PIO \/ cmd = ATA_CMD_WRITE_PIO ->
  exists d1, prompt d1 /\ med d1 = med d /\
    send_command cmd lba count d =
      (if cmd =? ATA_CMD_READ_PIO then begin_in else begin_out) (lba28 lba) (Z.to_nat count) d1.
Proof.
  intros Hp Hc Hcmd. pose proof Hp as (Hpl & _). rewrite <- lba_parts.
  destruct d as [s n l m h p w t e x]. cbn [med] in Hpl.
  set (d1 := mk_drive (u8 (Z.lor 0xE0 (Z.land (Z.shiftr lba 24) 0x0F))) (u8 count) (u8 (Z.land lba 0xFF))
    (u8 (Z.land (Z.shiftr lba 8) 0xFF)) (u8 (Z.land (Z.shiftr lba 16) 0xFF)) p w t e x).
  exists d1. split; [exact Hp|]. split; [done|].
  assert (Es : send_command cmd lba count (mk_drive s n l m h p w t e x) = command cmd d1) by reflexivity.
  assert (Ec : sector_count d1 = Z.to_nat count).
  { unfold sector_count. cbn [r_count d1]. rewrite u8_small by lia. by rewrite (proj2 (Z.eqb_neq _ _)) by lia. }
  rewrite Es. unfold command. cbn [med d1]. rewrite Hpl. cbn [negb].
  destruct Hcmd as [-> | ->]; cbn [Z.eqb Pos.eqb ATA_CMD_READ_PIO ATA_CMD_WRITE_PIO]; by rewrite Ec.
Qed.

(** ** Moving the words of a sector *)

Lemma begin_in_ph a n p d : begin_in a n (set_ph p (wait d) d) = begin_in a n d.
Proof. by destruct n. Qed.
Lemma begin_out_ph a n p w m d : begin_out a n (set_med m (set_ph p w d)) = begin_out a n (set_med m d).
Proof. by destruct n. Qed.

Lemma data_in d a n w ws :
  plugged (med d) = true -> ph d = DataIn a n (w :: ws) ->
  port_in ATA_DATA d =
    (w, match ws with [] => begin_in (a + 1) (n - 1) d | _ => set_ph (DataIn a n ws) (wait d) d end).
Proof. intros Hp E. unfold port_in. rewrite Hp, E. done. Qed.

Lemma words_in_spec ws k b d a n :
  plugged (med d) = true -> ph d = DataIn a n ws -> ws <> [] -> Forall word ws ->
  (2 * (k + length ws) <= length b)%nat ->
  words_in (length ws) k b d =
  Ret (take (2 * k) b ++ bytes_of ws ++ drop (2 * (k + length ws)) b, begin_in (a + 1) (n - 1) d).
Proof.
  revert k b d. induction ws as [|w ws IH]; intros k b d Hp E Hne Hw Hl; [done|]. apply Forall_cons in Hw as [Hw Hws].
  cbn [length words_in] in *. rewrite (data_in d a n w ws) by done. unfold store_word.
  rewrite (proj2 (Nat.ltb_ge _ _)) by lia. cbn [mbind out_mbind].
  assert (Eu : u16 w = w) by (apply u16_small; apply Hw). rewrite Eu.
  destruct ws as [|w' ws].
  { cbn [length words_in]. do 2 f_equal. unfold bytes_of. cbn [mbind list_bind]. rewrite app_nil_r. do 3 f_equal. lia. }
  set (ws2 := w' :: ws) in *. set (b1 := take (2 * k) b ++ word_bytes w ++ drop (2 * k + 2) b).
  assert (Hl1 : length b1 = length b) by (unfold b1; rewrite !length_app, length_take, length_drop; cbn [length word_bytes]; lia).
  rewrite IH; [| done | done | done | done | lia].
  rewrite begin_in_ph. do 2 f_equal.
  assert (E1 : take (2 * S k) b1 = take (2 * k) b ++ word_bytes w).
  { unfold b1. rewrite app_assoc. apply take_app_length'. rewrite length_app, length_take. cbn [length word_bytes]. lia. }
  assert (E2 : drop (2 * (S k + length ws2)) b1 = drop (2 * (k + S (length ws2))) b).
  { unfold b1. rewrite app_assoc, drop_app_ge by (rewrite length_app, length_take; cbn [length word_bytes]; lia).
    rewrite drop_drop, length_app, length_take. cbn [length word_bytes]. f_equal. lia. }
  rewrite E1, E2. change (bytes_of (w :: ws2)) with (word_bytes w ++ bytes_of ws2). by rewrite <- !app_assoc.
Qed.

Lemma data_out d v a n got :
  ph d = DataOut a n got ->
  port_out ATA_DATA v d =
    let got := got ++ [v] in
    if negb (length got =? 256)%nat then set_ph (DataOut a n got) (wait d) d
    else if bool_decide (a ∈ broken (med d)) then set_ph Failed (latency d) d
    else begin_out (a + 1) (n - 1) (set_med (set_sector a (bytes_of got) (med d)) d).
Proof. destruct d. cbn [ph]. intros ->. done. Qed.

Lemma fetch_bytes b k :
  Forall byte b -> (2 * k + 2 <= length b)%nat ->
  exists w, fetch_word b k = Ret w /\ u16 w = w /\ word_bytes w = take 2 (drop (2 * k) b).
Proof.
  intros Hb Hl. unfold fetch_word. rewrite (proj2 (Nat.ltb_ge _ _)) by lia.
  destruct (lookup_lt_is_Some_2 b (2 * k)) as [x Hx]; [lia|]. destruct (lookup_lt_is_Some_2 b (2 * k + 1)) as [y Hy]; [lia|].
  rewrite Forall_lookup in Hb. pose proof (Hb _ _ Hx) as Bx. pose proof (Hb _ _ Hy) as By. unfold byte in *.
  rewrite !list_lookup_total_alt, Hx, Hy. cbn [default from_option id]. eexists. split; [done|]. split; [apply u16_small; lia|].
  rewrite (drop_S b x (2 * k)) by done. replace (S (2 * k)) with (2 * k + 1)%nat by lia. rewrite (drop_S b y (2 * k + 1)) by done.
  cbn [take]. unfold word_bytes, u8. f_equal; [zlia | f_equal; zlia].
Qed.

Lemma words_out_spec n k b d a m got :
  ph d = DataOut a m got -> (length got + S n = 256)%nat -> Forall byte b -> (2 * (k + S n) <= length b)%nat ->
  a ∉ broken (med d) ->
  words_out (S n) k b d =
  Ret (begin_out (a + 1) (m - 1) (set_med (set_sector a (bytes_of got ++ take (2 * S n) (drop (2 * k) b)) (med d)) d)).
Proof.
  revert k d got. induction n as [|n IH]; intros k d got E Hn Hb Hl Ha;
    destruct (fetch_bytes b k Hb) as (w & Ew & Hu & Hwb); try lia.
  - cbn [words_out]. rewrite Ew. cbn [mbind out_mbind]. rewrite Hu, (data_out d w a m got) by done. cbv zeta.
    rewrite length_app. cbn [length]. rewrite (proj2 (Nat.eqb_eq _ _)) by lia. cbn [negb]. rewrite bool_decide_false by done.
    rewrite bytes_of_app. change (bytes_of [w]) with (word_bytes w ++ []). by rewrite app_nil_r, Hwb.
  - change (words_out (S (S n)) k b d) with
      (w ← fetch_word b k; words_out (S n) (S k) b (port_out ATA_DATA (u16 w) d)).
    rewrite Ew. cbn [mbind out_mbind]. rewrite Hu, (data_out d w a m got) by done. cbv zeta.
    rewrite length_app. cbn [length]. rewrite (proj2 (Nat.eqb_neq _ _)) by lia. cbn [negb].
    rewrite (IH (S k) _ (got ++ [w])); [|done | rewrite length_app; cbn [length]; lia | done | lia | done].
    rewrite begin_out_ph. cbn [med set_ph]. do 4 f_equal. rewrite bytes_of_app. change (bytes_of [w]) with (word_bytes w ++ []).
    rewrite app_nil_r, Hwb, <- app_assoc. f_equal.
    replace (2 * S k)%nat with (2 * k + 2)%nat by lia. rewrite <- drop_drop, take_take_drop. f_equal. lia.
Qed.

(** ** The sector loops *)

(** The drive is about to move [n] sectors from [a] on. *)
Definition at_in (d : drive) (a : Z) (n : nat) : Prop :=
  prompt d /\
  match n with
  | O => resting d
  | _ => ph d = if bool_decide (a ∈ broken (med d)) then Failed else DataIn a n (words_of (sector (med d) a))
  end.
Definition at_out (d : drive) (a : Z) (n : nat) : Prop :=
  prompt d /\
  match n with
  | O => resting d
  | _ => ph d = if bool_decide (a ∈ broken (med d)) then Failed else DataOut a n []
  end.

Lemma prompt_ph d p w : prompt d -> (w <= latency d)%nat -> prompt (set_ph p w d).
Proof. intros (H1 & _ & H3 & H4) Hw. by split_and!. Qed.

Lemma begin_in_at a n d : prompt d -> at_in (begin_in a n d) a n /\ med (begin_in a n d) = med d.
Proof.
  intros Hp. pose proof Hp as (_ & Hw & _). unfold begin_in, at_in. destruct n as [|n].
  - split; [|done]. split; [by apply prompt_ph | by left].
  - destruct (bool_decide (a ∈ broken (med d))) eqn:E; (split; [|done]); (split; [by apply prompt_ph|]);
      cbn [ph med set_ph]; by rewrite E.
Qed.
Lemma begin_out_at a n d : prompt d -> at_out (begin_out a n d) a n /\ med (begin_out a n d) = med d.
Proof.
  intros Hp. pose proof Hp as (_ & _ & _ & Hlate). unfold begin_out, at_out. destruct n as [|n].
  - split; [|done]. split; [by apply prompt_ph | by left].
  - rewrite Hlate. cbn [negb]. rewrite andb_true_r.
    destruct (bool_decide (a ∈ broken (med d))) eqn:E; (split; [|done]); (split; [by apply prompt_ph|]);
      cbn [ph med set_ph]; by rewrite E.
Qed.

(** Sectors of bytes. *)
Definition byte_disk (m : disk) : Prop := disk_wf m /\ forall a, Forall byte (sector m a).

Lemma sector_words m a :
  byte_disk m -> bytes_of (words_of (sector m a)) = sector m a /\ length (words_of (sector m a)) = 256%nat /\
    Forall word (words_of (sector m a)).
Proof. intros [Hw Hb]. apply words_bytes; [by apply sector_length | done]. Qed.

Lemma read_sectors_spec n s b d a :
  at_in d (a + Z.of_nat s) n -> byte_disk (med d) -> (SECTOR_SIZE * (s + n) <= length b)%nat ->
  exists r b' d', read_sectors n s b d = Ret (r, b', d') /\ Ata.read_loop (med d) a s n b = Ret (r, b') /\
    ready d' /\ med d' = med d.
Proof.
  revert s b d. induction n as [|n IH]; intros s b d [Hp Hph] Hbd Hl; cbn [read_sectors Ata.read_loop].
  { exists 0, b, d. by split_and!. }
  rewrite not_busy_spec by done. change (negb (0 =? 0)) with false. cbv iota.
  assert (Hp0 : prompt (set_ph (ph d) 0 d)) by (apply prompt_ph; [done | lia]).
  pose proof Hp as (Hpl & _).
  destruct (bool_decide (a + Z.of_nat s ∈ broken (med d))) eqn:Eb; rewrite Hph.
  - rewrite drq_spec by done. rewrite bool_decide_true by done. change (negb (-1 =? 0)) with true. cbv iota.
    eexists (-1), b, _. split; [done|]. split; [done|]. split; [|done]. split; [by rewrite <- Hph | by right].
  - rewrite drq_spec by done. rewrite bool_decide_false by done. change (negb (0 =? 0)) with false. cbv iota.
    destruct (sector_words (med d) (a + Z.of_nat s) Hbd) as (E1 & E2 & E3).
    unfold SECTOR_SIZE in Hl. rewrite (proj2 (Nat.ltb_ge _ _)) by (unfold SECTOR_SIZE; lia).
    match goal with |- context [words_in 256 _ _ ?x] => set (d1 := x) in * end.
    assert (Ew : words_in 256 (s * 256) b d1 = words_in (length (words_of (sector (med d) (a + Z.of_nat s)))) (s * 256) b d1)
      by by rewrite E2.
    rewrite Ew, (words_in_spec _ _ _ d1 (a + Z.of_nat s) (S n)); [| done | done | by intros E; rewrite E in E2 | done | lia].
    cbn [mbind out_mbind]. rewrite E1, E2. replace (S n - 1)%nat with n by lia.
    assert (Eblit : take (2 * (s * 256)) b ++ sector (med d) (a + Z.of_nat s) ++ drop (2 * (s * 256 + 256)) b =
      blit_sector b s (sector (med d) (a + Z.of_nat s))).
    { unfold blit_sector, SECTOR_SIZE. replace (2 * (s * 256))%nat with (512 * s)%nat by lia.
      by replace (2 * (s * 256 + 256))%nat with (512 * S s)%nat by lia. }
    rewrite Eblit. assert (Hp1 : prompt d1) by (apply prompt_ph; [done | lia]).
    destruct (begin_in_at (a + Z.of_nat s + 1) n d1 Hp1) as [Hat Hm].
    replace (a + Z.of_nat s + 1) with (a + Z.of_nat (S s)) in * by lia.
    destruct (IH (S s) (blit_sector b s (sector (med d) (a + Z.of_nat s))) _ Hat) as (r & b' & d' & -> & Hr & Hrd & Hmd).
    + by rewrite Hm.
    + unfold blit_sector, SECTOR_SIZE. rewrite !length_app, length_take, length_drop, (sector_length _ _ (proj1 Hbd)).
      unfold SECTOR_SIZE. lia.
    + rewrite Hm in Hr, Hmd. by exists r, b', d'.
Qed.

Lemma byte_disk_set m a b : byte_disk m -> length b = SECTOR_SIZE -> Forall byte b -> byte_disk (set_sector a b m).
Proof.
  intros [Hw Hb] Hl Hf. split; [by apply set_sector_wf|]. intros x. rewrite sector_set. by case_decide.
Qed.

Lemma write_sectors_spec n s b d a :
  at_out d (a + Z.of_nat s) n -> Forall byte b -> (SECTOR_SIZE * (s + n) <= length b)%nat ->
  exists r d', write_sectors n s b d = Ret (r, d') /\ Ata.write_loop (med d) a s n b = Ret (r, med d') /\ ready d'.
Proof.
  revert s d. induction n as [|n IH]; intros s d [Hp Hph] Hb Hl; cbn [write_sectors Ata.write_loop].
  { exists 0, d. by split_and!. }
  rewrite not_busy_spec by done. change (negb (0 =? 0)) with false. cbv iota.
  pose proof Hp as (Hpl & _).
  destruct (bool_decide_reflect (a + Z.of_nat s ∈ broken (med d))) as [Eb|Eb]; rewrite Hph.
  - rewrite drq_spec by done. rewrite bool_decide_true by done. change (negb (-1 =? 0)) with true. cbv iota.
    eexists (-1), _. split; [done|]. split; [done|]. split; [apply prompt_ph; [done | lia] | by right].
  - rewrite drq_spec by done. rewrite bool_decide_false by done. change (negb (0 =? 0)) with false. cbv iota.
    unfold SECTOR_SIZE in Hl. rewrite (proj2 (Nat.ltb_ge _ _)) by (unfold SECTOR_SIZE; lia).
    match goal with |- context [words_out 256 _ _ ?x] => set (d1 := x) in * end.
    rewrite (words_out_spec 255 (s * 256) b d1 (a + Z.of_nat s) (S n) []); [| done | done | done | lia | done].
    cbn [mbind out_mbind]. change (bytes_of []) with (@nil Z). cbn [app]. replace (S n - 1)%nat with n by lia.
    assert (Eb1 : take (2 * 256) (drop (2 * (s * 256)) b) = take SECTOR_SIZE (drop (SECTOR_SIZE * s) b)).
    { unfold SECTOR_SIZE. f_equal. f_equal. lia. }
    rewrite Eb1. set (m1 := set_sector _ _ (med d1)). assert (Hp1 : prompt (set_med m1 d1)) by (destruct Hp as (? & ? & ? & ?); by split_and!; [| cbn; lia| |]).
    destruct (begin_out_at (a + Z.of_nat s + 1) n (set_med m1 d1) Hp1) as [Hat Hm].
    rewrite not_busy_spec by apply Hat. change (negb (0 =? 0)) with false. cbv iota.
    set (d2 := begin_out _ _ _) in *. set (d3 := set_ph (ph d2) 0 d2).
    assert (Hat3 : at_out d3 (a + Z.of_nat (S s)) n).
    { replace (a + Z.of_nat (S s)) with (a + Z.of_nat s + 1) by lia. destruct Hat as [H1 H2].
      split; [apply prompt_ph; [done | lia] | done]. }
    destruct (IH (S s) d3 Hat3 Hb) as (r & d' & -> & Hr & Hrd); [unfold SECTOR_SIZE; lia|].
    exists r, d'. split; [done|]. split; [|done]. change (med d3) with (med d2) in Hr. rewrite Hm in Hr. exact Hr.
Qed.

(** ** Detection *)

Lemma delay_same d : ata_delay d = d.
Proof.
  assert (E : port_in 0x3F6 d = (0, d)) by (unfold port_in; by destruct (plugged (med d))).
  unfold ata_delay. by rewrite !E.
Qed.

Lemma discard_ident ws d :
  plugged (med d) = true -> ph d = Ident ws -> ws <> [] -> discard (length ws) d = set_ph Idle (wait d) d.
Proof.
  revert d. induction ws as [|w ws IH]; intros d Hp E Hne; [done|]. cbn [length discard].
  assert (Ein : port_in ATA_DATA d = (w, set_ph (match ws with [] => Idle | _ => Ident ws end) (wait d) d))
    by (unfold port_in; by rewrite Hp, E).
  rewrite Ein. cbn [snd]. destruct ws as [|w' ws]; [done|]. by rewrite IH.
Qed.

(** The state after the IDENTIFY command. *)
Definition identified (d : drive) : drive :=
  mk_drive 0xA0 0 0 0 0 (Ident (replicate 256 0)) (latency d) (latency d) (late d)
    (mk_disk false (plugged (med d)) (sectors (med d)) (broken (med d))).

Lemma init_sends d :
  plugged (med d) = true ->
  ata_init d =
    let d := identified d in
    let '(s, d) := port_in ATA_STATUS d in
    if s =? 0 then (-1, d)
    else
      let '(r, d) := ata_wait_not_busy d in
      if negb (r =? 0) then (-1, d)
      else
        let '(m, d) := port_in ATA_LBA_MID d in
        let '(h, d) := if negb (m =? 0) then (0, d) else port_in ATA_LBA_HI d in
        if negb (m =? 0) || negb (h =? 0) then (-1, d)
        else
          let '(r, d) := ata_wait_drq d in
          if negb (r =? 0) then (-1, d)
          else (0, set_ok true (discard 256 d)).
Proof.
  intros Hp. unfold ata_init. cbv zeta. rewrite !delay_same.
  assert (E : port_out ATA_CMD ATA_CMD_IDENTIFY (port_out ATA_LBA_HI 0 (port_out ATA_LBA_MID 0 (port_out ATA_LBA_LO 0
    (port_out ATA_SECCOUNT 0 (port_out ATA_DRIVE 0xA0 (set_ok false d)))))) = identified d).
  { destruct d as [s n l m h p w t e [ok pl sc br]]. cbn [med plugged] in Hp. by rewrite Hp. }
  by rewrite E.
Qed.

Lemma init_spec d :
  ready d -> exists r d', ata_init d = (r, d') /\ Ata.ata_init (med d) = (r, med d') /\ ready d'.
Proof.
  intros [(Hp & Hw & Hl & Hlate) _]. rewrite init_sends by done. cbv zeta.
  assert (Hpi : prompt (identified d)) by (split_and!; [exact Hp | apply Nat.le_refl | exact Hl | exact Hlate]).
  assert (exists s w, port_in ATA_STATUS (identified d) = (s, set_ph (Ident (replicate 256 0)) w (identified d)) /\ s <> 0 /\
    (w <= latency d)%nat) as (s & w & -> & Hs & Hwl).
  { rewrite status_read by done. cbn [wait identified].
    destruct (latency d) as [|t] eqn:E; [exists 0x58, 0%nat | exists 0x80, t]; (split; [|by split; [|lia]]); [|done].
    unfold identified. by rewrite E. }
  rewrite (proj2 (Z.eqb_neq s 0)) by done.
  rewrite not_busy_spec by (apply prompt_ph; [done | exact Hwl]). change (negb (0 =? 0)) with false. cbv iota.
  rewrite set_ph_twice. cbn [ph set_ph]. set (d1 := set_ph (Ident _) 0 (identified d)).
  assert (Em : port_in ATA_LBA_MID d1 = (0, d1)) by (unfold port_in; cbn [med d1 set_ph identified plugged]; by rewrite Hp).
  assert (Eh : port_in ATA_LBA_HI d1 = (0, d1)) by (unfold port_in; cbn [med d1 set_ph identified plugged]; by rewrite Hp).
  rewrite Em. change (negb (0 =? 0)) with false. cbv iota. rewrite Eh. change (false || negb (0 =? 0)) with false. cbv iota.
  rewrite drq_spec by done. rewrite bool_decide_false by done. change (negb (0 =? 0)) with false. cbv iota.
  change (discard 256 d1) with (discard (length (replicate 256 0)) d1).
  rewrite (discard_ident (replicate 256 0)) by done. eexists 0, _. split; [done|].
  unfold Ata.ata_init. cbn [med set_ok set_med set_ph d1 identified plugged]. rewrite Hp. split; [done|].
  split; [|by left]. split_and!; cbn; [done | lia | done | done].
Qed.

(** No drive: not found. *)
Lemma init_absent d :
  plugged (med d) = false -> exists d', ata_init d = (-1, d') /\ Ata.ata_init (med d) = (-1, med d').
Proof.
  intros Hp. destruct d as [s n l m h p w t e x]. cbn [med] in Hp.
  assert (E : ata_init (mk_drive s n l m h p w t e x) =
    (-1, mk_drive 0xA0 0 0 0 0 p w t e (mk_disk false (plugged x) (sectors x) (broken x)))).
  { destruct x as [ok pl sc br]. cbn [plugged] in Hp. by rewrite Hp. }
  rewrite E. eexists. split; [done|]. unfold Ata.ata_init. cbn [med]. by rewrite Hp.
Qed.

(** ** The driver *)

(** C30. The code of ata.c at its ports implements the sector view of the disk:
    with a drive that becomes ready within the million polls and reports
    errors before data, reading and writing up to 255 sectors and the
    detection return what the sector model returns, for every address, every
    set of unreadable sectors and every contents; the words moved are the
    bytes of the right sectors, an error ends the transfer at the sector
    where it happens, and the drive is left ready for the next command. *)
Theorem ata_pio_refines lba count b d :
  ready d -> byte_disk (med d) -> 0 <= count < 256 -> Forall byte b -> 512 * count <= Z.of_nat (length b) ->
  (exists r b' d', ata_read_sectors lba count (Some b) d = Ret (r, Some b', d') /\
     Ata.ata_read_sectors (med d) lba count b = Ret (r, b') /\ ready d' /\ med d' = med d) /\
  (exists r d', ata_write_sectors lba count (Some b) d = Ret (r, d') /\
     Ata.ata_write_sectors (med d) lba count b = Ret (r, med d') /\ ready d') /\
  (exists r d', ata_init d = (r, d') /\ Ata.ata_init (med d) = (r, med d') /\ ready d').
Proof.
  intros Hd Hbd Hc Hb Hl. pose proof Hd as [Hp Hr]. split_and!; [| |by apply init_spec].
  - unfold ata_read_sectors, Ata.ata_read_sectors. destruct (g_ata_ok (med d)); cbn [negb orb]; [|by eexists _, _, d].
    destruct (Z.eqb_spec count 0) as [->|Hne]; [by eexists _, _, d|].
    rewrite not_busy_spec by done. change (negb (0 =? 0)) with false. cbv iota.
    destruct (send_command_spec ATA_CMD_READ_PIO lba count (set_ph (ph d) 0 d)) as (d1 & Hp1 & Hm1 & ->);
      [apply prompt_ph; [done | lia] | lia | by left |]. change (ATA_CMD_READ_PIO =? ATA_CMD_READ_PIO) with true. cbv iota.
    destruct (begin_in_at (lba28 lba) (Z.to_nat count) d1 Hp1) as [Hat Hm].
    destruct (read_sectors_spec (Z.to_nat count) 0 b (begin_in (lba28 lba) (Z.to_nat count) d1) (lba28 lba))
      as (r & b' & d' & -> & E & Hrd & Hmd); [by rewrite Z.add_0_r | by rewrite Hm, Hm1 | unfold SECTOR_SIZE; lia |].
    cbn [mbind out_mbind]. rewrite Hm, Hm1 in E, Hmd. by exists r, b', d'.
  - unfold ata_write_sectors, Ata.ata_write_sectors. destruct (g_ata_ok (med d)); cbn [negb orb]; [|by eexists _, d].
    destruct (Z.eqb_spec count 0) as [->|Hne]; [by eexists _, d|].
    rewrite not_busy_spec by done. change (negb (0 =? 0)) with false. cbv iota.
    destruct (send_command_spec ATA_CMD_WRITE_PIO lba count (set_ph (ph d) 0 d)) as (d1 & Hp1 & Hm1 & ->);
      [apply prompt_ph; [done | lia] | lia | by right |]. change (ATA_CMD_WRITE_PIO =? ATA_CMD_READ_PIO) with false. cbv iota.
    destruct (begin_out_at (lba28 lba) (Z.to_nat count) d1 Hp1) as [Hat Hm].
    destruct (write_sectors_spec (Z.to_nat count) 0 b (begin_out (lba28 lba) (Z.to_nat count) d1) (lba28 lba))
      as (r & d' & -> & E & Hrd); [by rewrite Z.add_0_r | done | unfold SECTOR_SIZE; lia |].
    rewrite Hm, Hm1 in E. by exists r, d'.
Qed.

(** A drive with one written and one unreadable sector, busy for three looks. *)
Definition sample (late : bool) : drive :=
  mk_drive 0 0 0 0 0 Idle 2 3 late (mk_disk true true {[ 7 := replicate 512 9 ]} {[ 8 ]}).

Lemma sample_ready : ready (sample false).
Proof. split; [split_and!; vm_compute; done || lia | by left]. Qed.

Lemma ata_pio_refines_witness :
  exists r b' d', ata_read_sectors 7 2 (Some (replicate 1024 0)) (sample false) = Ret (r, Some b', d') /\
    Ata.ata_read_sectors (med (sample false)) 7 2 (replicate 1024 0) = Ret (r, b') /\ ready d' /\
    med d' = med (sample false).
Proof.
  refine (proj1 (ata_pio_refines 7 2 (replicate 1024 0) (sample false) _ _ _ _ _)).
  - exact sample_ready.
  - split.
    + intros a b. cbn [sectors sample med]. rewrite lookup_singleton_Some. intros [_ <-]. done.
    + intros a. unfold sector. cbn [sectors sample med]. destruct (decide (a = 7)) as [->|Hne].
      * rewrite lookup_singleton_eq. cbn [default from_option id]. apply Forall_replicate. unfold byte. lia.
      * rewrite lookup_singleton_ne by done. cbn [default from_option id]. apply Forall_replicate. unfold byte. lia.
  - lia.
  - apply Forall_replicate. unfold byte. lia.
  - rewrite length_replicate. lia.
Defined.

(** A drive that finds a write error after it has taken the data: the
    status is not looked at again after the last sector, so the write is
    reported as done and nothing is stored. *)
Example late_error_overlooked :
  match ata_write_sectors 8 1 (Some (replicate 512 7)) (sample true) with
  | Ret (r, d) => r = 0 /\ ph d = Failed /\ sector (med d) 8 = replicate 512 0
  | _ => False
  end.
Proof. by vm_compute. Qed.

End AtaPioSpec.
