(* ===== verification/Fat32.v ===== *)
(** * The FAT32 driver (src/src/fat32.c): state and operations

    The mounted geometry, the two static buffers (one sector, one cluster of
    at most eight sectors) and the disk.  The C code overruns [cluster_buf]
    when a volume has more than eight sectors per cluster: in the model that
    is an [OutOfBounds] fault of [Ata.ata_read_sectors].  Chains are followed
    with a fuel that exceeds the number of FAT slots with a non-zero value;
    only a cyclic directory chain, on which the source loops for ever,
    exhausts it. *)

From S2P Require Import Prelude Memory Terminal Ata.
Import Ata.

Module Fat32.

Definition CAT_MAX_BYTES : nat := 4096.
Definition WRITE_MAX_BYTES : nat := 4096.
Definition ATTR_VOLUME_ID : Z := 0x08.
Definition ATTR_DIRECTORY : Z := 0x10.
Definition ATTR_ARCHIVE : Z := 0x20.
Definition ATTR_LFN : Z := 0x0F.
Definition EOC_MIN : Z := 0x0FFFFFF8.

Inductive fat_result : Type :=
| FAT_OK | FAT_ERR_NO_DISK | FAT_ERR_NOT_FAT32 | FAT_ERR_IO | FAT_ERR_NOT_FOUND | FAT_ERR_IS_DIR
| FAT_ERR_NOT_DIR | FAT_ERR_TOO_BIG | FAT_ERR_NOT_MOUNTED | FAT_ERR_NO_SPACE | FAT_ERR_EXISTS
| FAT_ERR_NOT_EMPTY.
#[export] Instance fat_result_eq_dec : EqDecision fat_result.
Proof. solve_decision. Defined.

Record geometry : Type := mk_geom {
  fat_start : Z;
  data_start : Z;
  root_cluster : Z;
  sectors_per_cluster : Z;
  fat_size_sectors : Z;
  num_fats : Z;
  total_clusters : Z;
}.

Record fatst : Type := mk_fat {
  mounted : bool;
  partition_lba : Z;
  geom : geometry;
  sector_buf : list Z;    (** 512 bytes *)
  cluster_buf : list Z;   (** 4096 bytes *)
  dsk : disk;
}.

Definition set_sbuf (b : list Z) (s : fatst) : fatst :=
  mk_fat (mounted s) (partition_lba s) (geom s) b (cluster_buf s) (dsk s).
Definition set_cbuf (b : list Z) (s : fatst) : fatst :=
  mk_fat (mounted s) (partition_lba s) (geom s) (sector_buf s) b (dsk s).
Definition set_dsk (d : disk) (s : fatst) : fatst :=
  mk_fat (mounted s) (partition_lba s) (geom s) (sector_buf s) (cluster_buf s) d.
Definition set_part (p : Z) (s : fatst) : fatst :=
  mk_fat (mounted s) p (geom s) (sector_buf s) (cluster_buf s) (dsk s).
Definition set_mounted (b : bool) (s : fatst) : fatst :=
  mk_fat b (partition_lba s) (geom s) (sector_buf s) (cluster_buf s) (dsk s).
Definition set_geom (g : geometry) (s : fatst) : fatst :=
  mk_fat (mounted s) (partition_lba s) g (sector_buf s) (cluster_buf s) (dsk s).

(** ** Sectors *)

(** [ata_read_sectors(lba, 1, sector_buf)] and [ata_write_sectors(lba, 1, sector_buf)] *)
Definition load_sector (lba : Z) (s : fatst) : out (Z * fatst) :=
  '(r, b) ← ata_read_sectors (dsk s) (u32 lba) 1 (sector_buf s);
  Ret (r, set_sbuf b s).
Definition store_sector (lba : Z) (s : fatst) : out (Z * fatst) :=
  '(r, d) ← ata_write_sectors (dsk s) (u32 lba) 1 (sector_buf s);
  Ret (r, set_dsk d s).

Definition read_sector (lba : Z) (s : fatst) : out (Z * fatst) := load_sector (partition_lba s + lba) s.
Definition write_sector (lba : Z) (s : fatst) : out (Z * fatst) := store_sector (partition_lba s + lba) s.

(** The four primary entries of the partition table. *)
Definition mbr_fat_entry (b : list Z) : option Z :=
  let type i := im8 b (446 + Z.of_nat i * 16 + 4) in
  match for_find (fun i => (type i =? 0x0B) || (type i =? 0x0C) || (type i =? 0x0E)) 0 4 with
  | Some i => Some (im32 b (446 + Z.of_nat i * 16 + 8))
  | None => None
  end.

Definition find_fat_partition (s : fatst) : out (Z * fatst) :=
  '(r, s) ← load_sector 0 s;
  let b := sector_buf s in
  if negb (r =? 0) then Ret (-1, s)
  else if (im16 b 11 =? 512) && (1 <=? im8 b 13) && (1 <=? im8 b 16) && negb (im32 b 36 =? 0) &&
          ((im8 b 82 =? 70) || (im8 b 66 =? 0x29))
  then Ret (0, set_part 0 s)
  else if negb (im8 b 510 =? 0x55) || negb (im8 b 511 =? 0xAA) then Ret (-1, s)
  else match mbr_fat_entry b with
  | Some lba => Ret (0, set_part lba s)
  | None =>
      '(r, s) ← load_sector 2048 s;
      let b := sector_buf s in
      if (r =? 0) && (im16 b 11 =? 512) && negb (im32 b 36 =? 0) && (1 <=? im8 b 13) &&
         (im8 b 13 <=? 64) &&
         ((im8 b 82 =? 70) || (im8 b 66 =? 0x29) || ((im8 b 510 =? 0x55) && (im8 b 511 =? 0xAA)))
      then Ret (0, set_part 2048 s) else Ret (-1, s)
  end.

(** ** The allocation table *)

Definition cluster_to_lba (cluster : Z) (s : fatst) : Z :=
  u32 (data_start (geom s) + (cluster - 2) * sectors_per_cluster (geom s)).

Definition fat_get (cluster : Z) (s : fatst) : out (Z * fatst) :=
  let fat_offset := u32 (cluster * 4) in
  let fat_sector := u32 (fat_start (geom s) + fat_offset / 512) in
  let ent_offset := fat_offset mod 512 in
  '(r, s) ← load_sector (partition_lba s + fat_sector) s;
  if negb (r =? 0) then Ret (0x0FFFFFF7, s)
  else Ret (Z.land (im32 (sector_buf s) ent_offset) 0x0FFFFFFF, s).

(** The new entry keeps the four reserved bits of the old one. *)
Definition fat_entry (old value : Z) : Z :=
  Z.lor (Z.land old 0xF0000000) (Z.land value 0x0FFFFFFF).

(** The copies [f], [f + 1], ...; [n] of them. *)
Fixpoint fat_set_loop (n : nat) (f fat_sector ent_offset value : Z) (s : fatst) : out (Z * fatst) :=
  match n with
  | O => Ret (0, s)
  | S n' =>
      let sec := u32 (fat_sector + f * fat_size_sectors (geom s)) in
      '(r, s) ← load_sector (partition_lba s + sec) s;
      if negb (r =? 0) then Ret (-1, s)
      else
        let neu := fat_entry (im32 (sector_buf s) ent_offset) value in
        let s := set_sbuf (wr (sector_buf s) ent_offset (map u8 (le32 neu))) s in
        '(r, s) ← store_sector (partition_lba s + sec) s;
        if negb (r =? 0) then Ret (-1, s)
        else fat_set_loop n' (f + 1) fat_sector ent_offset value s
  end.

Definition fat_set (cluster value : Z) (s : fatst) : out (Z * fatst) :=
  let fat_offset := u32 (cluster * 4) in
  let fat_sector := u32 (fat_start (geom s) + fat_offset / 512) in
  let ent_offset := fat_offset mod 512 in
  fat_set_loop (Z.to_nat (num_fats (geom s))) 0 fat_sector ent_offset value s.

(** [for (c = 2; c < total_clusters + 2; c++)], [n] candidates left. *)
Fixpoint alloc_loop (n : nat) (c : Z) (s : fatst) : out (Z * fatst) :=
  match n with
  | O => Ret (0, s)
  | S n' =>
      '(v, s) ← fat_get c s;
      if v =? 0 then
        '(r, s) ← fat_set c 0x0FFFFFFF s;
        Ret (if r =? 0 then c else 0, s)
      else alloc_loop n' (c + 1) s
  end.
Definition fat_alloc_cluster (s : fatst) : out (Z * fatst) :=
  alloc_loop (Z.to_nat (u32 (total_clusters (geom s) + 2) - 2)) 2 s.

Definition chain_cluster (c : Z) : bool := (2 <=? c) && (c <? EOC_MIN).

(** More than the FAT slots that can hold a non-zero value. *)
Definition chain_fuel (s : fatst) : nat := S (S (128 * size (sectors (dsk s)))).

Fixpoint free_loop (fuel : nat) (cluster : Z) (s : fatst) : out (Z * fatst) :=
  match fuel with
  | O => Fault NoFuel
  | S n =>
      if chain_cluster cluster then
        '(next, s) ← fat_get cluster s;
        '(r, s) ← fat_set cluster 0 s;
        if negb (r =? 0) then Ret (-1, s) else free_loop n next s
      else Ret (0, s)
  end.
Definition fat_free_chain (cluster : Z) (s : fatst) : out (Z * fatst) :=
  free_loop (chain_fuel s) cluster s.

(** ** Clusters *)

Definition read_cluster (cluster : Z) (s : fatst) : out (Z * fatst) :=
  '(r, b) ← ata_read_sectors (dsk s) (u32 (partition_lba s + cluster_to_lba cluster s))
              (sectors_per_cluster (geom s)) (cluster_buf s);
  Ret (r, set_cbuf b s).
Definition write_cluster (cluster : Z) (s : fatst) : out (Z * fatst) :=
  '(r, d) ← ata_write_sectors (dsk s) (u32 (partition_lba s + cluster_to_lba cluster s))
              (sectors_per_cluster (geom s)) (cluster_buf s);
  Ret (r, set_dsk d s).

Definition cluster_bytes (s : fatst) : Z := sectors_per_cluster (geom s) * 512.

(** [mem_set(cluster_buf, 0, cluster_bytes)] *)
Definition clear_cluster (s : fatst) : out fatst :=
  if Z.of_nat (length (cluster_buf s)) <? cluster_bytes s then Fault OutOfBounds
  else Ret (set_cbuf (wr (cluster_buf s) 0 (replicate (Z.to_nat (cluster_bytes s)) 0)) s).

(** ** Names *)

Definition to_upper (c : Z) : Z := if (97 <=? c) && (c <=? 122) then c - 32 else c.

(** Up to [n] characters before a dot (or the end), and the rest. *)
Fixpoint base_part (n : nat) (name : chars) : chars * chars :=
  match n, name with
  | S n', c :: name' =>
      if c =? 46 then ([], name)
      else let '(a, b) := base_part n' name' in (to_upper c :: a, b)
  | _, _ => ([], name)
  end.
Definition pad (n : nat) (w : chars) : chars := w ++ replicate (n - length w) 32.

Definition name_to_83 (name : chars) : chars :=
  let '(base, rest) := base_part 8 (cstr name) in
  match rest with
  | c :: ext => if c =? 46 then pad 8 base ++ pad 3 (map to_upper (take 3 ext)) else pad 8 base ++ pad 3 []
  | [] => pad 8 base ++ pad 3 []
  end.

Fixpoint until_space (w : chars) : chars :=
  match w with
  | [] => []
  | c :: w' => if c =? 32 then [] else c :: until_space w'
  end.
(** The string left in [out]. *)
Definition name_from_83 (nm : chars) : chars :=
  until_space (take 8 nm) ++
  (if char_at nm 8 =? 32 then [] else 46 :: until_space (take 3 (drop 8 nm))).

(** ** Directory entries *)

Record fat_dirent : Type := mk_dirent {
  de_name : chars; attr : Z; first_cluster_hi : Z; first_cluster_lo : Z; file_size : Z }.

Definition dirent_at (b : list Z) (off : Z) : fat_dirent :=
  mk_dirent (map u8 (take 11 (drop (Z.to_nat off) b))) (im8 b (off + 11)) (im16 b (off + 20))
    (im16 b (off + 26)) (im32 b (off + 28)).
(** The 32 bytes of an entry whose other fields are zero. *)
Definition dirent_bytes (de : fat_dirent) : list Z :=
  de_name de ++ [attr de] ++ replicate 8 0 ++ map u8 (le16 (first_cluster_hi de)) ++
  replicate 4 0 ++ map u8 (le16 (first_cluster_lo de)) ++ map u8 (le32 (file_size de)).

Definition first_byte (de : fat_dirent) : Z := char_at (de_name de) 0.
Definition first_cluster (de : fat_dirent) : Z :=
  Z.lor (Z.shiftl (first_cluster_hi de) 16) (first_cluster_lo de).
Definition is_directory (de : fat_dirent) : bool := negb (Z.land (attr de) ATTR_DIRECTORY =? 0).
(** Deleted entries, long names and volume labels are skipped. *)
Definition skipped (de : fat_dirent) : bool :=
  (first_byte de =? 0xE5) || (attr de =? ATTR_LFN) || negb (Z.land (attr de) ATTR_VOLUME_ID =? 0).

Definition dirent_match (de : fat_dirent) (name : chars) : bool :=
  bool_decide (de_name de = name_to_83 name).

(** The entries of one cluster; [inl] is a [return] from the walk. *)
Fixpoint scan_dir {C} (fn : fat_dirent -> C -> Z * C) (b : list Z) (off : Z) (n : nat) (ctx : C)
  : (Z * C) + C :=
  match n with
  | O => inr ctx
  | S n' =>
      let de := dirent_at b off in
      if first_byte de =? 0 then inl (0, ctx)
      else if skipped de then scan_dir fn b (off + 32) n' ctx
      else let '(r, ctx) := fn de ctx in
           if negb (r =? 0) then inl (r, ctx) else scan_dir fn b (off + 32) n' ctx
  end.

Definition entries_per_cluster (s : fatst) : nat := Z.to_nat (cluster_bytes s / 32).

Fixpoint iterate_loop {C} (fuel : nat) (cluster : Z) (fn : fat_dirent -> C -> Z * C) (ctx : C)
  (s : fatst) : out ((Z * C) * fatst) :=
  match fuel with
  | O => Fault NoFuel
  | S f =>
      if chain_cluster cluster then
        '(r, s) ← read_cluster cluster s;
        if negb (r =? 0) then Ret ((-1, ctx), s)
        else match scan_dir fn (cluster_buf s) 0 (entries_per_cluster s) ctx with
        | inl res => Ret (res, s)
        | inr ctx =>
            '(next, s) ← fat_get cluster s;
            iterate_loop f next fn ctx s
        end
      else Ret ((0, ctx), s)
  end.
Definition iterate_dir {C} (start : Z) (fn : fat_dirent -> C -> Z * C) (ctx : C) (s : fatst)
  : out ((Z * C) * fatst) := iterate_loop (chain_fuel s) start fn ctx s.

(** [fc.found] once [fc.ok] is set. *)
Definition find_cb (name : chars) (de : fat_dirent) (fc : option fat_dirent)
  : Z * option fat_dirent :=
  if dirent_match de name then (1, Some de) else (0, fc).
Definition find_in_root (name : chars) (s : fatst) : out ((Z * option fat_dirent) * fatst) :=
  iterate_dir (root_cluster (geom s)) (find_cb name) None s.

(** ** Slots of the root directory *)

Record slot_ctx : Type := mk_slot {
  want : chars; scluster : Z; soffset : Z; found : bool; existing : option fat_dirent }.

(** The entries of one cluster; [true]: the search is over. *)
Fixpoint scan_slots (cluster : Z) (b : list Z) (off : Z) (n : nat) (sc : slot_ctx) : bool * slot_ctx :=
  match n with
  | O => (false, sc)
  | S n' =>
      let de := dirent_at b off in
      let first := first_byte de in
      if negb (first =? 0) && negb (skipped de) && bool_decide (de_name de = want sc)
      then (true, mk_slot (want sc) cluster off true (Some de))
      else if negb (found sc) && ((first =? 0) || (first =? 0xE5)) then
        let sc := mk_slot (want sc) cluster off true (existing sc) in
        if first =? 0 then (true, sc) else scan_slots cluster b (off + 32) n' sc
      else scan_slots cluster b (off + 32) n' sc
  end.

(** The end of the chain with no slot found: one more cluster. *)
Definition extend_root (cluster : Z) (sc : slot_ctx) (s : fatst) : out ((Z * slot_ctx) * fatst) :=
  '(nc, s) ← fat_alloc_cluster s;
  if nc =? 0 then Ret ((-2, sc), s)
  else
    '(r, s) ← fat_set cluster nc s;
    if negb (r =? 0) then Ret ((-1, sc), s)
    else
      s ← clear_cluster s;
      '(r, s) ← write_cluster nc s;
      if negb (r =? 0) then Ret ((-1, sc), s)
      else Ret ((0, mk_slot (want sc) nc 0 true (existing sc)), s).

Fixpoint slot_loop (fuel : nat) (cluster : Z) (sc : slot_ctx) (s : fatst)
  : out ((Z * slot_ctx) * fatst) :=
  match fuel with
  | O => Fault NoFuel
  | S f =>
      if chain_cluster cluster then
        '(r, s) ← read_cluster cluster s;
        if negb (r =? 0) then Ret ((-1, sc), s)
        else
          let '(stop, sc) := scan_slots cluster (cluster_buf s) 0 (entries_per_cluster s) sc in
          if stop : bool then Ret ((0, sc), s)
          else
            '(next, s) ← fat_get cluster s;
            if EOC_MIN <=? next then
              if found sc then Ret ((0, sc), s) else extend_root cluster sc s
            else slot_loop f next sc s
      else Ret ((if found sc then 0 else -2, sc), s)
  end.
Definition find_slot_in_root (name83 : chars) (s : fatst) : out ((Z * slot_ctx) * fatst) :=
  slot_loop (chain_fuel s) (root_cluster (geom s)) (mk_slot name83 0 0 false None) s.

(** Read the slot's cluster, replace the entry, write the cluster back. *)
Definition store_entry (sc : slot_ctx) (f : list Z -> list Z) (s : fatst) : out (fat_result * fatst) :=
  '(r, s) ← read_cluster (scluster sc) s;
  if negb (r =? 0) then Ret (FAT_ERR_IO, s)
  else
    '(r, s) ← write_cluster (scluster sc) (set_cbuf (f (cluster_buf s)) s);
    Ret (if negb (r =? 0) then FAT_ERR_IO else FAT_OK, s).

(** ** Mounting *)

Definition fat32_set_partition_lba (lba : Z) (s : fatst) : fatst := set_mounted false (set_part lba s).

Definition bpb_geometry (b : list Z) : geometry :=
  let fats := if im8 b 16 =? 0 then 2 else im8 b 16 in
  let dstart := u32 (im16 b 14 + u32 (fats * im32 b 36)) in
  let total := if im16 b 19 =? 0 then im32 b 32 else im16 b 19 in
  mk_geom (im16 b 14) dstart (if im32 b 44 =? 0 then 2 else im32 b 44) (im8 b 13) (im32 b 36) fats
    (if dstart <? total then (total - dstart) / im8 b 13 else 0x10000).

Definition try_mount_at (lba : Z) (s : fatst) : out (Z * fatst) :=
  let s := set_part lba s in
  '(r, s) ← read_sector 0 s;
  let b := sector_buf s in
  if negb (r =? 0) then Ret (-1, s)
  else if negb (im16 b 11 =? 512) || (im32 b 36 =? 0) then Ret (-1, s)
  else if (im8 b 13 =? 0) || (64 <? im8 b 13) then Ret (-1, s)
  else Ret (0, set_geom (bpb_geometry b) s).

(** MBR or probe, then the volume found there. *)
Definition mount_probe (s : fatst) : out (fat_result * fatst) :=
  '(r, s) ← find_fat_partition s;
  if negb (r =? 0) then Ret (FAT_ERR_NOT_FAT32, s)
  else
    '(r, s) ← try_mount_at (partition_lba s) s;
    Ret (if negb (r =? 0) then (FAT_ERR_NOT_FAT32, s) else (FAT_OK, set_mounted true s)).

Definition fat32_mount (s : fatst) : out (fat_result * fatst) :=
  let s := set_mounted false s in
  let '(ok, s) :=
    if ata_present (dsk s) then (true, s)
    else let '(r, d) := ata_init (dsk s) in (r =? 0, set_dsk d s) in
  if negb ok then Ret (FAT_ERR_NO_DISK, s)
  else
    let prefer := partition_lba s in
    if prefer =? 0 then mount_probe s
    else
      '(r, s) ← try_mount_at prefer s;
      if r =? 0 then Ret (FAT_OK, set_mounted true s) else mount_probe s.

Definition fat32_is_mounted (s : fatst) : bool := mounted s.

(** The text [fat32_info] prints. *)
Definition fat32_info (s : fatst) : chars :=
  if negb (mounted s) then $"FAT32 not mounted. Use: fatmount" ++ [10]
  else $"FAT32 mounted (R/W)" ++ [10] ++
       $"  partition LBA: " ++ Terminal.uint_chars (partition_lba s) ++ [10] ++
       $"  sectors/cluster: " ++ Terminal.uint_chars (sectors_per_cluster (geom s)) ++ [10] ++
       $"  root cluster: " ++ Terminal.uint_chars (root_cluster (geom s)) ++ [10].

(** ** Listing and printing: the result and the text printed *)

Definition ls_cb (de : fat_dirent) (text : chars) : Z * chars :=
  let name := cstr (name_from_83 (de_name de)) in
  (0, text ++ if is_directory de then $"  [DIR]  " ++ name ++ [10]
              else $"  [FILE] " ++ name ++ $"  " ++ Terminal.uint_chars (file_size de) ++
                   $" bytes" ++ [10]).

Definition fat32_ls (s : fatst) : out ((fat_result * chars) * fatst) :=
  if negb (mounted s) then Ret ((FAT_ERR_NOT_MOUNTED, []), s)
  else
    '((r, text), s) ← iterate_dir (root_cluster (geom s)) ls_cb [] s;
    Ret ((if r <? 0 then FAT_ERR_IO else FAT_OK, text), s).

(** A chunk is printed up to the limit of [CAT_MAX_BYTES] in all; at most
    nine clusters are visited. *)
Fixpoint cat_loop (fuel : nat) (cluster remaining : Z) (text : chars) (s : fatst)
  : out ((fat_result * chars) * fatst) :=
  match fuel with
  | O => Fault NoFuel
  | S f =>
      if chain_cluster cluster && (0 <? remaining) then
        '(r, s) ← read_cluster cluster s;
        if negb (r =? 0) then Ret ((FAT_ERR_IO, text), s)
        else
          let chunk := Z.min (cluster_bytes s) remaining in
          let room := (CAT_MAX_BYTES - length text)%nat in
          let text := text ++ take (Z.to_nat chunk `min` room) (cluster_buf s) in
          if (room <? Z.to_nat chunk)%nat then
            Ret ((FAT_OK, text ++ [10] ++ $"... (truncated)" ++ [10]), s)
          else
            '(next, s) ← fat_get cluster s;
            cat_loop f next (remaining - chunk) text s
      else Ret ((FAT_OK, text ++ [10]), s)
  end.

(** The file a name denotes, for reading. *)
Definition lookup_file (name : chars) (s : fatst) : out ((fat_result * option fat_dirent) * fatst) :=
  '((r, fc), s) ← find_in_root name s;
  Ret ((if r <? 0 then (FAT_ERR_IO, None)
        else match fc with
        | None => (FAT_ERR_NOT_FOUND, None)
        | Some de => if is_directory de then (FAT_ERR_IS_DIR, None) else (FAT_OK, Some de)
        end), s).

(** The guard [!name || !name[0]]. *)
Definition no_name (name : option chars) : bool :=
  match name with None => true | Some n => char_at n 0 =? 0 end.

Definition fat32_cat (path : option chars) (s : fatst) : out ((fat_result * chars) * fatst) :=
  if negb (mounted s) then Ret ((FAT_ERR_NOT_MOUNTED, []), s)
  else if no_name path then Ret ((FAT_ERR_NOT_FOUND, []), s)
  else
    '((r, fc), s) ← lookup_file (default [] path) s;
    match fc with
    | None => Ret ((r, []), s)
    | Some de => cat_loop 10 (first_cluster de) (file_size de) [] s
    end.

(** ** Writing *)

(** [while (pos < len)]: allocate, link, fill and write one cluster at a
    time; the result is the first cluster and the last one. *)
Fixpoint write_loop (fuel : nat) (text : chars) (first prev : Z) (s : fatst)
  : out ((fat_result * (Z * Z)) * fatst) :=
  match fuel with
  | O => Fault NoFuel
  | S f =>
      match text with
      | [] => Ret ((FAT_OK, (first, prev)), s)
      | _ =>
          '(c, s) ← fat_alloc_cluster s;
          if c =? 0 then Ret ((FAT_ERR_NO_SPACE, (first, prev)), s)
          else
            let first := if first =? 0 then c else first in
            '(r, s) ← (if prev =? 0 then Ret (0, s) else fat_set prev c s);
            if negb (r =? 0) then Ret ((FAT_ERR_IO, (first, prev)), s)
            else
              s ← clear_cluster s;
              let chunk := take (Z.to_nat (cluster_bytes s)) text in
              '(r, s) ← write_cluster c (set_cbuf (wr (cluster_buf s) 0 chunk) s);
              if negb (r =? 0) then Ret ((FAT_ERR_IO, (first, c)), s)
              else write_loop f (drop (Z.to_nat (cluster_bytes s)) text) first c s
      end
  end.

(** The data clusters of a file of contents [w]: 0 for an empty file. *)
Definition write_data (w : chars) (s : fatst) : out ((fat_result * Z) * fatst) :=
  '((r, (first, prev)), s) ← write_loop (S (length w)) w 0 0 s;
  if bool_decide (r = FAT_OK) then
    if prev =? 0 then Ret ((FAT_OK, first), s)
    else
      '(e, s) ← fat_set prev 0x0FFFFFFF s;
      Ret ((if negb (e =? 0) then FAT_ERR_IO else FAT_OK, first), s)
  else Ret ((r, first), s).

Definition new_dirent (nm : chars) (a cluster len : Z) : fat_dirent :=
  mk_dirent nm a (u16 (Z.shiftr cluster 16)) (Z.land cluster 0xFFFF) len.
Definition put_dirent (sc : slot_ctx) (de : fat_dirent) (b : list Z) : list Z :=
  wr b (soffset sc) (dirent_bytes de).

Definition fat32_write (name text : option chars) (s : fatst) : out (fat_result * fatst) :=
  if negb (mounted s) then Ret (FAT_ERR_NOT_MOUNTED, s)
  else match text with
  | None => Ret (FAT_ERR_NOT_FOUND, s)
  | Some text =>
      if no_name name then Ret (FAT_ERR_NOT_FOUND, s)
      else
        let w := cstr text in
        if (WRITE_MAX_BYTES <? length w)%nat then Ret (FAT_ERR_TOO_BIG, s)
        else
          '((sr, sc), s) ← find_slot_in_root (name_to_83 (default [] name)) s;
          if sr =? -2 then Ret (FAT_ERR_NO_SPACE, s)
          else if sr <? 0 then Ret (FAT_ERR_IO, s)
          else if (match existing sc with Some de => is_directory de | None => false end)
          then Ret (FAT_ERR_IS_DIR, s)
          else
            '(_, s) ← (match existing sc with
                       | Some de => if 2 <=? first_cluster de
                                    then fat_free_chain (first_cluster de) s else Ret (0, s)
                       | None => Ret (0, s)
                       end);
            '((r, first), s) ← write_data w s;
            if bool_decide (r = FAT_OK) then
              store_entry sc (put_dirent sc (new_dirent (want sc) ATTR_ARCHIVE first
                                               (Z.of_nat (length w)))) s
            else Ret (r, s)
  end.

(** ** Reading into a buffer: the bytes stored in [buf] *)

Fixpoint read_loop (fuel : nat) (cluster remaining : Z) (buf_size : Z) (acc : chars) (s : fatst)
  : out ((fat_result * chars) * fatst) :=
  match fuel with
  | O => Fault NoFuel
  | S f =>
      if chain_cluster cluster && (0 <? remaining) && (Z.of_nat (length acc) <? buf_size) then
        '(r, s) ← read_cluster cluster s;
        if negb (r =? 0) then Ret ((FAT_ERR_IO, acc), s)
        else
          let chunk := Z.min (Z.min (cluster_bytes s) remaining) (buf_size - Z.of_nat (length acc)) in
          let acc := acc ++ take (Z.to_nat chunk) (cluster_buf s) in
          '(next, s) ← fat_get cluster s;
          read_loop f next (remaining - chunk) buf_size acc s
      else Ret ((FAT_OK, acc), s)
  end.

(** Every turn but the last stores a whole cluster, so the size of the
    buffer and the size of the file both bound the number of turns. *)
Definition fat32_read_file (name : option chars) (buf_ok : bool) (buf_size : Z) (s : fatst)
  : out ((fat_result * chars) * fatst) :=
  if negb (mounted s) then Ret ((FAT_ERR_NOT_MOUNTED, []), s)
  else if no_name name || negb buf_ok || (buf_size =? 0) then Ret ((FAT_ERR_NOT_FOUND, []), s)
  else
    '((r, fc), s) ← lookup_file (default [] name) s;
    match fc with
    | None => Ret ((r, []), s)
    | Some de =>
        read_loop (S (S (Z.to_nat (Z.min buf_size (file_size de) / 512)))) (first_cluster de)
          (file_size de) buf_size [] s
    end.

(** ** Directories *)

(** The first cluster of a new directory: "." and "..". *)
Definition dot_entries (dir_cl : Z) (s : fatst) : list Z :=
  dirent_bytes (new_dirent (pad 11 [46]) ATTR_DIRECTORY dir_cl 0) ++
  dirent_bytes (new_dirent (pad 11 [46; 46]) ATTR_DIRECTORY (root_cluster (geom s)) 0).

Definition fat32_mkdir (name : option chars) (s : fatst) : out (fat_result * fatst) :=
  if negb (mounted s) then Ret (FAT_ERR_NOT_MOUNTED, s)
  else if no_name name then Ret (FAT_ERR_NOT_FOUND, s)
  else
    '((r, fc), s) ← find_in_root (default [] name) s;
    if r <? 0 then Ret (FAT_ERR_IO, s)
    else match fc with
    | Some _ => Ret (FAT_ERR_EXISTS, s)
    | None =>
        '(dir_cl, s) ← fat_alloc_cluster s;
        if dir_cl =? 0 then Ret (FAT_ERR_NO_SPACE, s)
        else
          s ← clear_cluster s;
          '(r, s) ← write_cluster dir_cl (set_cbuf (wr (cluster_buf s) 0 (dot_entries dir_cl s)) s);
          if negb (r =? 0) then
            '(_, s) ← fat_set dir_cl 0 s;
            Ret (FAT_ERR_IO, s)
          else
            '((sr, sc), s) ← find_slot_in_root (name_to_83 (default [] name)) s;
            if sr <? 0 then
              '(_, s) ← fat_free_chain dir_cl s;
              Ret (if sr =? -2 then FAT_ERR_NO_SPACE else FAT_ERR_IO, s)
            else match existing sc with
            | Some _ =>
                '(_, s) ← fat_free_chain dir_cl s;
                Ret (FAT_ERR_EXISTS, s)
            | None => store_entry sc (put_dirent sc (new_dirent (want sc) ATTR_DIRECTORY dir_cl 0)) s
            end
    end.

(** The emptiness scan of [fat32_unlink]: only free entries, long names, "."
    and "..", up to the end mark. *)
Fixpoint dir_empty (b : list Z) (off : Z) (n : nat) : bool :=
  match n with
  | O => true
  | S n' =>
      let de := dirent_at b off in
      let c i := char_at (de_name de) i in
      if c 0%nat =? 0 then true
      else if (c 0%nat =? 0xE5) || (attr de =? ATTR_LFN) then dir_empty b (off + 32) n'
      else if (c 0%nat =? 46) && (c 1%nat =? 32) then dir_empty b (off + 32) n'
      else if (c 0%nat =? 46) && (c 1%nat =? 46) && (c 2%nat =? 32) then dir_empty b (off + 32) n'
      else false
  end.

Definition fat32_unlink (name : option chars) (s : fatst) : out (fat_result * fatst) :=
  if negb (mounted s) then Ret (FAT_ERR_NOT_MOUNTED, s)
  else if no_name name then Ret (FAT_ERR_NOT_FOUND, s)
  else
    '((sr, sc), s) ← find_slot_in_root (name_to_83 (default [] name)) s;
    if sr <? 0 then Ret (FAT_ERR_IO, s)
    else match existing sc with
    | None => Ret (FAT_ERR_NOT_FOUND, s)
    | Some de =>
        let cl := first_cluster de in
        '(chk, s) ← (if is_directory de && (2 <=? cl) then
                       '(r, s) ← read_cluster cl s;
                       Ret (if negb (r =? 0) then FAT_ERR_IO
                            else if dir_empty (cluster_buf s) 0 (entries_per_cluster s) then FAT_OK
                            else FAT_ERR_NOT_EMPTY, s)
                     else Ret (FAT_OK, s));
        if bool_decide (chk = FAT_OK) then
          '(r, s) ← store_entry sc (fun b => wr b (soffset sc) [0xE5]) s;
          if bool_decide (r = FAT_OK) then
            '(_, s) ← (if 2 <=? cl then fat_free_chain cl s else Ret (0, s));
            Ret (FAT_OK, s)
          else Ret (r, s)
        else Ret (chk, s)
    end.

(** ** Formatting *)

(** The FAT size [fat32_mkfs] settles on: one estimate, one correction. *)
Definition mkfs_fat_sz (size_sectors : Z) : Z :=
  let clusters := u32 (size_sectors - 32) / 8 in
  let fat_sz := u32 (u32 (clusters * 4) + 511) / 512 in
  let fat_sz := if fat_sz <? 1 then 1 else fat_sz in
  let clusters := u32 (size_sectors - 32 - u32 (2 * fat_sz)) / 8 in
  u32 (u32 (clusters * 4) + 511) / 512.

Definition bytes32 (v : Z) : list Z := map u8 (le32 v).

(** The boot sector, field by field. *)
Definition mkfs_bpb (part_lba size_sectors fat_sz : Z) : list Z :=
  let head :=
    [0xEB; 0x58; 0x90] ++ $"MSWIN4.1" ++ [0; 2] ++ [8] ++ [32; 0] ++ [2] ++ [0; 0] ++ [0; 0] ++
    [0xF8] ++ [0; 0] ++ [63; 0] ++ [255; 0] ++ bytes32 part_lba ++ bytes32 size_sectors ++
    bytes32 fat_sz ++ [0; 0] ++ [0; 0] ++ bytes32 2 ++ [1; 0] ++ [6; 0] ++ replicate 12 0 ++
    [0x80] ++ [0] ++ [0x29] ++ bytes32 0x12345678 ++ $"MYKERNEL   " ++ $"FAT32   " in
  head ++ replicate 420 0 ++ [0x55; 0xAA].

Definition mkfs_fsinfo : list Z :=
  [0x52; 0x52; 0x61; 0x41] ++ replicate 480 0 ++ [0x72; 0x72; 0x41; 0x61] ++
  [0xFF; 0xFF; 0xFF; 0xFF] ++ [2] ++ replicate 17 0 ++ [0x55; 0xAA].

(** Entries 0, 1 (media, end of chain) and 2 (the root directory). *)
Definition fat_head : list Z := [0xF8; 0xFF; 0xFF; 0x0F; 0xFF; 0xFF; 0xFF; 0x0F; 0xFF; 0xFF; 0xFF; 0x0F].

(** [for (s = 0; s < fat_sz; s++)] over zeroed sectors. *)
Fixpoint zero_sectors (n : nat) (lba : Z) (s : fatst) : out (Z * fatst) :=
  match n with
  | O => Ret (0, s)
  | S n' =>
      '(r, s) ← store_sector lba s;
      if negb (r =? 0) then Ret (-1, s) else zero_sectors n' (lba + 1) s
  end.

(** One copy of the FAT.  The buffer holds zeros only for the first copy:
    the second is filled with the sector the first copy's head was built in. *)
Definition mkfs_fat (fat_lba fat_sz : Z) (s : fatst) : out (Z * fatst) :=
  '(r, s) ← zero_sectors (Z.to_nat fat_sz) fat_lba s;
  if negb (r =? 0) then Ret (-1, s)
  else
    '(r, s) ← load_sector fat_lba s;
    if negb (r =? 0) then Ret (-1, s)
    else
      let s := set_sbuf (wr (sector_buf s) 0 fat_head) s in
      store_sector fat_lba s.

Definition fat32_mkfs (part_lba size_sectors : Z) (s : fatst) : out (fat_result * fatst) :=
  if negb (ata_present (dsk s)) then Ret (FAT_ERR_NO_DISK, s)
  else
    let size_sectors := if size_sectors <? 2048 then 65536 else size_sectors in
    let fat_sz := mkfs_fat_sz size_sectors in
    '(r, s) ← store_sector part_lba (set_sbuf (mkfs_bpb part_lba size_sectors fat_sz) s);
    if negb (r =? 0) then Ret (FAT_ERR_IO, s)
    else
      '(r, s) ← store_sector (part_lba + 1) (set_sbuf mkfs_fsinfo s);
      if negb (r =? 0) then Ret (FAT_ERR_IO, s)
      else
        let s := set_sbuf (replicate 512 0) s in
        '(r, s) ← mkfs_fat (u32 (part_lba + 32)) fat_sz s;
        if negb (r =? 0) then Ret (FAT_ERR_IO, s)
        else
          '(r, s) ← mkfs_fat (u32 (part_lba + 32 + fat_sz)) fat_sz s;
          if negb (r =? 0) then Ret (FAT_ERR_IO, s)
          else
            let s := set_cbuf (replicate 4096 0) s in
            '(r, d) ← ata_write_sectors (dsk s) (u32 (part_lba + 32 + 2 * fat_sz)) 8 (cluster_buf s);
            let s := set_dsk d s in
            if negb (r =? 0) then Ret (FAT_ERR_IO, s)
            else Ret (FAT_OK, set_mounted false (set_part part_lba s)).

Definition fat_strerror (r : fat_result) : chars :=
  match r with
  | FAT_OK => $"OK"
  | FAT_ERR_NO_DISK => $"no ATA disk"
  | FAT_ERR_NOT_FAT32 => $"no FAT32 partition"
  | FAT_ERR_IO => $"disk I/O error"
  | FAT_ERR_NOT_FOUND => $"not found"
  | FAT_ERR_IS_DIR => $"is a directory"
  | FAT_ERR_NOT_DIR => $"not a directory"
  | FAT_ERR_TOO_BIG => $"file too big (max 4K)"
  | FAT_ERR_NOT_MOUNTED => $"not mounted (fatmount)"
  | FAT_ERR_NO_SPACE => $"no space"
  | FAT_ERR_EXISTS => $"already exists"
  | FAT_ERR_NOT_EMPTY => $"directory not empty"
  end.

(** ** A blank disk *)

Definition bss_fat (d : disk) : fatst :=
  mk_fat false 0 (mk_geom 0 0 0 0 0 0 0) (replicate 512 0) (replicate 4096 0) d.
Definition blank_disk : disk := mk_disk true true ∅ ∅.

End Fat32.
