(* ===== verification/Fat32Spec.v ===== *)
(** * The FAT32 driver: what its table operations and names guarantee

    Setting a FAT entry ([fat_set_spec]), freeing chains of any shape
    ([fat_free_chain_total]) and the 8.3 name conversion
    ([name83_roundtrip]). *)

From S2P Require Import Prelude Memory Ata Vfs Fat32.
Import Ata Fat32.

Module Fat32Spec.

(** ** Byte arrays *)

Lemma length_wr b off w :
  0 <= off -> off + Z.of_nat (length w) <= Z.of_nat (length b) -> length (wr b off w) = length b.
Proof.
  intros H0 H1. unfold wr. rewrite !length_app, length_take, length_drop. lia.
Qed.

Lemma im8_wr b off w i :
  0 <= off -> off + Z.of_nat (length w) <= Z.of_nat (length b) -> 0 <= i ->
  im8 (wr b off w) i =
  if decide (off <= i < off + Z.of_nat (length w)) then u8 (w !!! Z.to_nat (i - off)) else im8 b i.
Proof.
  intros H0 H1 Hi. unfold im8, wr. case_decide; f_equal.
  - rewrite lookup_total_app_r by (rewrite length_take; lia).
    rewrite lookup_total_app_l by (rewrite length_take; lia). rewrite length_take. f_equal. lia.
  - destruct (Z.lt_ge_cases i off).
    + rewrite lookup_total_app_l by (rewrite length_take; lia).
      rewrite !list_lookup_total_alt, lookup_take_lt by lia. done.
    + rewrite lookup_total_app_r by (rewrite length_take; lia).
      rewrite lookup_total_app_r by (rewrite length_take; lia).
      rewrite length_take, !list_lookup_total_alt, lookup_drop. do 2 f_equal. lia.
Qed.

(** A stored 32-bit field reads back; fields that do not overlap it are kept. *)
Lemma im32_wr b off v i :
  0 <= off -> off + 4 <= Z.of_nat (length b) -> 0 <= i -> i = off \/ i + 4 <= off \/ off + 4 <= i ->
  im32 (wr b off (map u8 (le32 v))) i = if decide (i = off) then u32 v else im32 b i.
Proof.
  intros H0 H1 Hi Hd. unfold im32, im16. rewrite !im8_wr by (cbn [length le32 map]; lia).
  cbn [length le32 map]. destruct (decide (i = off)) as [->|E].
  - rewrite <- bytes_u32.
    repeat (rewrite decide_True by lia).
    replace (off - off) with 0 by lia. replace (off + 1 - off) with 1 by lia.
    replace (off + 2 - off) with 2 by lia. replace (off + 2 + 1 - off) with 3 by lia.
    change (Z.to_nat 0) with 0%nat. change (Z.to_nat 1) with 1%nat.
    change (Z.to_nat 2) with 2%nat. change (Z.to_nat 3) with 3%nat.
    cbn [lookup_total list_lookup_total]. rewrite !u8_u8. lia.
  - repeat (rewrite decide_False by lia). done.
Qed.

(** ** FAT entries *)

Definition mask28 (v : Z) : Z := Z.land v 0x0FFFFFFF.

Lemma mask28_mod v : mask28 v = v mod 268435456.
Proof. unfold mask28. change 0x0FFFFFFF with (Z.ones 28). by rewrite Z.land_ones by lia. Qed.

Lemma fat_entry_u32 old v : in_u32 old -> in_u32 (fat_entry old v) /\ mask28 (fat_entry old v) = mask28 v.
Proof.
  intros Ho. unfold fat_entry. fold (mask28 v).
  assert (H28 : forall z, 0 <= mask28 z < 268435456) by (intros z; rewrite mask28_mod; apply Z.mod_pos_bound; lia).
  assert (Hhi : Z.land old 0xF0000000 = 268435456 * (old / 268435456)).
  { change 0xF0000000 with (u32 (Z.lnot (2 ^ 28 - 1))). change 268435456 with (2 ^ 28).
    apply land_clear_low; [done | lia]. }
  assert (Hlor : Z.lor (Z.land old 0xF0000000) (mask28 v) = Z.land old 0xF0000000 + mask28 v).
  { rewrite <- Z.lxor_lor, Z.add_nocarry_lxor; try done;
      unfold mask28; rewrite Z.land_assoc, <- (Z.land_assoc old), (Z.land_comm 0xF0000000 v), Z.land_assoc,
        <- (Z.land_assoc _ 0xF0000000); change (Z.land 0xF0000000 0x0FFFFFFF) with 0; apply Z.land_0_r. }
  rewrite Hlor, Hhi. specialize (H28 v). unfold in_u32 in *. split; [zlia|].
  rewrite mask28_mod. rewrite Z.mul_comm, Z.add_comm, Z.mod_add by lia. apply Z.mod_small. lia.
Qed.

(** The sector of copy [f] that holds the entry of cluster [c], and its offset. *)
Definition fat_lba (s : fatst) (f c : Z) : Z :=
  partition_lba s + fat_start (geom s) + f * fat_size_sectors (geom s) + c / 128.
Definition fat_off (c : Z) : Z := 4 * (c mod 128).
(** A cluster number the table has an entry for. *)
Definition in_fat (s : fatst) (c : Z) : Prop := 0 <= c < 128 * fat_size_sectors (geom s) /\ c < EOC_MIN.
(** The link stored for [c] in copy [f]. *)
Definition fat_link (s : fatst) (f c : Z) : Z := mask28 (im32 (sector (dsk s) (fat_lba s f c)) (fat_off c)).

Record healthy (s : fatst) : Prop := mk_healthy {
  h_disk : disk_wf (dsk s);
  h_ok : g_ata_ok (dsk s) = true;
  h_fine : broken (dsk s) = ∅;
  h_sbuf : length (sector_buf s) = SECTOR_SIZE;
  h_part : 0 <= partition_lba s /\ 0 <= fat_start (geom s);
  h_fats : 1 <= num_fats (geom s) <= 255 /\ 1 <= fat_size_sectors (geom s);
  h_fit : partition_lba s + fat_start (geom s) + num_fats (geom s) * fat_size_sectors (geom s) <= 268435456;
}.

Lemma load_healthy s lba :
  healthy s -> 0 <= lba < 268435456 -> load_sector lba s = Ret (0, set_sbuf (sector (dsk s) lba) s).
Proof.
  intros [Hd Hok Hf Hb _ _ _] Hl. unfold load_sector. rewrite read_one by done.
  rewrite Hok, Hf, bool_decide_false by set_solver. cbn [negb orb mbind out_mbind].
  unfold lba28. by rewrite u32_small, Z.mod_small by (unfold in_u32; lia).
Qed.

Lemma store_healthy s lba :
  healthy s -> 0 <= lba < 268435456 -> store_sector lba s = Ret (0, set_dsk (set_sector lba (sector_buf s) (dsk s)) s).
Proof.
  intros [Hd Hok Hf Hb _ _ _] Hl. unfold store_sector. rewrite write_one by done.
  rewrite Hok, Hf, bool_decide_false by set_solver. cbn [negb orb mbind out_mbind].
  unfold lba28. by rewrite u32_small, Z.mod_small by (unfold in_u32; lia).
Qed.

Lemma healthy_sbuf s b : healthy s -> length b = SECTOR_SIZE -> healthy (set_sbuf b s).
Proof. intros [] ?. by constructor. Qed.
Lemma healthy_store s a b : healthy s -> length b = SECTOR_SIZE -> healthy (set_dsk (set_sector a b (dsk s)) s).
Proof. intros [Hd] ?. constructor; auto. by apply set_sector_wf. Qed.

(** The address of an entry as [fat_get] and [fat_set] compute it. *)
Lemma fat_address s f c :
  healthy s -> 0 <= f < num_fats (geom s) -> in_fat s c ->
  u32 (c * 4) = 4 * c /\ (4 * c) / 512 = c / 128 /\ (4 * c) mod 512 = fat_off c /\
  u32 (fat_start (geom s) + c / 128) = fat_start (geom s) + c / 128 /\
  partition_lba s + u32 (fat_start (geom s) + c / 128 + f * fat_size_sectors (geom s)) = fat_lba s f c /\
  0 <= fat_lba s f c < 268435456 /\ 0 <= fat_off c <= 508.
Proof.
  intros [_ _ _ _ Hp Hf Hfit] Hf1 [Hc Hce]. unfold EOC_MIN in Hce.
  assert (Hq : 0 <= c / 128 < fat_size_sectors (geom s)) by (split; [apply Z.div_pos | apply Z.div_lt_upper_bound]; lia).
  assert (Hfs : 0 <= f * fat_size_sectors (geom s) <= (num_fats (geom s) - 1) * fat_size_sectors (geom s)) by nia.
  unfold fat_lba, fat_off. rewrite !u32_small by (unfold in_u32; nia).
  split_and!; try zlia; nia.
Qed.

Lemma fat_get_healthy s c :
  healthy s -> in_fat s c ->
  exists s', fat_get c s = Ret (fat_link s 0 c, s') /\ healthy s' /\ dsk s' = dsk s /\
    geom s' = geom s /\ partition_lba s' = partition_lba s.
Proof.
  intros Hs Hc. assert (0 <= 0 < num_fats (geom s)) by (destruct Hs as [_ _ _ _ _ [] _]; lia).
  destruct (fat_address s 0 c Hs) as (E1 & E2 & E3 & E4 & E5 & Hl & Ho); auto.
  rewrite Z.mul_0_l, Z.add_0_r, E4 in E5.
  unfold fat_get. rewrite E1, E2, E3, E4, E5, load_healthy by done. cbn [mbind out_mbind].
  change (0 =? 0) with true. cbn [negb]. eexists. split; [reflexivity|].
  split_and!; auto. apply healthy_sbuf; [done|]. apply sector_length, Hs.
Qed.

(** What [fat_set] writes over a sector. *)
Definition set_entry (c v : Z) (b : list Z) : list Z :=
  wr b (fat_off c) (map u8 (le32 (fat_entry (im32 b (fat_off c)) v))).

Lemma length_set_entry c v b : length b = SECTOR_SIZE -> length (set_entry c v b) = SECTOR_SIZE.
Proof.
  intros Hb. unfold set_entry. unfold SECTOR_SIZE in *. rewrite length_wr; [done | |];
    unfold fat_off; cbn [length le32 map]; zlia.
Qed.

Lemma fat_set_loop_healthy n s f c v :
  healthy s -> 0 <= f -> f + Z.of_nat n <= num_fats (geom s) ->
  in_fat s c ->
  exists s', fat_set_loop n f (fat_start (geom s) + c / 128) (fat_off c) v s = Ret (0, s') /\
    healthy s' /\ geom s' = geom s /\ partition_lba s' = partition_lba s /\
    (forall k, f <= k < f + Z.of_nat n ->
       sector (dsk s') (fat_lba s k c) = set_entry c v (sector (dsk s) (fat_lba s k c))) /\
    (forall a, (forall k, f <= k < f + Z.of_nat n -> a <> fat_lba s k c) ->
       sector (dsk s') a = sector (dsk s) a).
Proof.
  revert f s. induction n as [|n IH]; intros f s Hs Hf Hn Hc; cbn [fat_set_loop].
  { exists s. split_and!; auto. intros k Hk. lia. }
  destruct (fat_address s f c Hs) as (_ & _ & _ & _ & E5 & Hl & Ho); auto; [lia|].
  rewrite E5, load_healthy by done. cbn [mbind out_mbind]. change (0 =? 0) with true. cbn [negb].
  set (b := sector (dsk s) (fat_lba s f c)).
  assert (Hb : length b = SECTOR_SIZE) by apply sector_length, Hs.
  cbn [sector_buf set_sbuf partition_lba geom]. rewrite E5. fold (set_entry c v b).
  rewrite store_healthy;
    [|apply (healthy_sbuf (set_sbuf b s)); [by apply healthy_sbuf | by apply length_set_entry] | done].
  cbn [mbind out_mbind]. change (0 =? 0) with true. cbn [negb sector_buf set_sbuf dsk].
  set (s1 := set_dsk _ _).
  assert (Hs1 : healthy s1).
  { apply (healthy_store (set_sbuf (set_entry c v b) (set_sbuf b s)));
      [apply healthy_sbuf; [by apply healthy_sbuf | by apply length_set_entry] | by apply length_set_entry]. }
  assert (Hx : forall a, sector (dsk s1) a = if decide (a = fat_lba s f c) then set_entry c v b else sector (dsk s) a).
  { intros a. apply sector_set. }
  destruct (IH (f + 1) s1 Hs1) as (s' & E & Hs' & Hg & Hp & Hin & Hout); [lia | cbn; lia | done |].
  change (geom s1) with (geom s) in *. change (partition_lba s1) with (partition_lba s) in *.
  rewrite E. exists s'.
  assert (Hlba : forall k, fat_lba s1 k c = fat_lba s k c) by done.
  assert (Hne : forall k, k <> f -> fat_lba s k c <> fat_lba s f c).
  { intros k Hk. unfold fat_lba. destruct Hs as [_ _ _ _ _ [_ ?] _]. nia. }
  split_and!; auto.
  - intros k Hk. destruct (decide (k = f)) as [->|Hkf].
    + rewrite Hout; [rewrite Hx; by rewrite decide_True|]. intros k Hk'. rewrite Hlba. apply not_eq_sym, Hne. lia.
    + rewrite <- Hlba, Hin by lia. rewrite Hlba, Hx. by rewrite decide_False by auto.
  - intros a Ha. rewrite Hout.
    + rewrite Hx. rewrite decide_False; [done|]. apply Ha. lia.
    + intros k Hk. rewrite Hlba. apply Ha. lia.
Qed.

(** [fat_set] on a healthy volume: it succeeds, every copy of the FAT gets
    the new link for the cluster (28 bits), every other link of every copy is
    unchanged, and no sector outside the entry's sectors changes.  A
    following [fat_get] returns the value. *)
Theorem fat_set_spec s c v :
  healthy s -> in_fat s c ->
  exists s', fat_set c v s = Ret (0, s') /\ healthy s' /\ geom s' = geom s /\
    (forall f c', 0 <= f < num_fats (geom s) -> in_fat s c' ->
       fat_link s' f c' = if decide (c' = c) then mask28 v else fat_link s f c') /\
    (forall a, (forall f, 0 <= f < num_fats (geom s) -> a <> fat_lba s f c) ->
       sector (dsk s') a = sector (dsk s) a) /\
    exists s2, fat_get c s' = Ret (mask28 v, s2).
Proof.
  intros Hs Hc. pose proof (h_fats s Hs) as [Hn Hfs].
  destruct (fat_address s 0 c Hs) as (E1 & E2 & E3 & E4 & _ & _ & Ho); auto; [lia|].
  destruct (fat_set_loop_healthy (Z.to_nat (num_fats (geom s))) s 0 c v) as (s' & E & Hs' & Hg & Hp & Hin & Hout);
    auto; [lia | lia |].
  assert (Hlba : forall f x, fat_lba s' f x = fat_lba s f x) by (intros; unfold fat_lba; by rewrite Hp, Hg).
  assert (Hlink : forall f c', 0 <= f < num_fats (geom s) -> in_fat s c' ->
    fat_link s' f c' = if decide (c' = c) then mask28 v else fat_link s f c').
  { intros f c' Hf Hc'. unfold fat_link. rewrite Hlba.
    assert (Hb : length (sector (dsk s) (fat_lba s f c)) = SECTOR_SIZE) by apply sector_length, Hs.
    destruct (decide (fat_lba s f c' = fat_lba s f c)) as [El|El].
    - rewrite El, Hin by lia. unfold set_entry.
      assert (Hdiv : c' / 128 = c / 128) by (unfold fat_lba in El; lia).
      rewrite im32_wr; [| unfold fat_off; zlia | rewrite Hb; unfold SECTOR_SIZE, fat_off; zlia | unfold fat_off; zlia | unfold fat_off; zlia].
      destruct (decide (c' = c)) as [->|Hne].
      + rewrite decide_True by done. destruct (fat_entry_u32 (im32 (sector (dsk s) (fat_lba s f c)) (fat_off c)) v) as [H1 H2];
          [apply im32_range|]. by rewrite u32_small.
      + rewrite decide_False; [done|]. unfold fat_off. zlia.
    - rewrite decide_False by congruence. rewrite Hout; [done|]. intros k Hk Ek. apply El.
      destruct (decide (k = f)) as [->|Hkf]; [done|]. exfalso. unfold fat_lba in Ek.
      assert (0 <= c / 128 < fat_size_sectors (geom s)) by (destruct Hc; split; [apply Z.div_pos | apply Z.div_lt_upper_bound]; lia).
      assert (0 <= c' / 128 < fat_size_sectors (geom s)) by (destruct Hc'; split; [apply Z.div_pos | apply Z.div_lt_upper_bound]; lia).
      destruct (Z.lt_ge_cases k f); nia. }
  exists s'. split; [by unfold fat_set; rewrite E1, E2, E3, E4|]. split_and!; auto.
  - intros a Ha. apply Hout. intros k Hk. apply Ha. lia.
  - destruct (fat_get_healthy s' c Hs') as (s2 & E' & _); [by unfold in_fat; rewrite Hg|]. exists s2. rewrite E'.
    by rewrite Hlink, decide_True by (done || lia).
Qed.

(** ** Freeing chains *)

(** FAT slots of a sector, and of the whole disk, whose link is not zero. *)
Definition live_slot (b : list Z) (i : nat) : Prop := mask28 (im32 b (4 * Z.of_nat i)) <> 0.
Definition live_slots (b : list Z) : nat := length (filter (live_slot b) (seq 0 128)).
Definition add_live (_ : Z) (b : list Z) (n : nat) : nat := (live_slots b + n)%nat.
Definition weight (d : disk) : nat := map_fold add_live 0%nat (sectors d).

Lemma live_slots_bound b : (live_slots b <= 128)%nat.
Proof. unfold live_slots. etransitivity; [apply length_filter|]. by rewrite length_seq. Qed.

Lemma live_slots_zero : live_slots (replicate SECTOR_SIZE 0) = 0%nat.
Proof. by vm_compute. Qed.

Lemma weight_bound d : (weight d <= 128 * size (sectors d))%nat.
Proof.
  unfold weight. generalize (sectors d). intros m.
  apply (map_fold_weak_ind (fun n m => (n <= 128 * size m)%nat)); [lia|].
  intros i x m' r Hi IH. unfold add_live. rewrite map_size_insert_None by done. pose proof (live_slots_bound x). lia.
Qed.

Lemma weight_insert (m : gmap Z (list Z)) a b :
  map_fold add_live 0%nat (<[a := b]> m) = (live_slots b + map_fold add_live 0%nat (delete a m))%nat.
Proof.
  rewrite <- insert_delete_eq.
  apply (map_fold_insert_L add_live); [unfold add_live; intros; lia | apply lookup_delete_eq].
Qed.

(** Storing a sector moves the weight by the difference of the two sectors. *)
Lemma weight_store d a b :
  (weight (set_sector a b d) + live_slots (sector d a) = weight d + live_slots b)%nat.
Proof.
  unfold weight, sector. cbn [sectors set_sector]. rewrite weight_insert.
  destruct (sectors d !! a) as [b0|] eqn:E; unfold default; cbn [from_option id].
  - pose proof (weight_insert (sectors d) a b0) as Hw. rewrite insert_id in Hw by done. lia.
  - rewrite live_slots_zero, delete_id by done. lia.
Qed.

Lemma length_filter_le {A} (P Q : A -> Prop) `{!forall x, Decision (P x), !forall x, Decision (Q x)} l :
  (forall x, x ∈ l -> P x -> Q x) -> (length (filter P l) <= length (filter Q l))%nat.
Proof.
  induction l as [|x l IH]; intros Hs; [done|]. rewrite !filter_cons.
  assert (length (filter P l) <= length (filter Q l))%nat by (apply IH; intros y Hy; apply Hs; by right).
  repeat case_decide; cbn [length]; try lia. exfalso. eauto using list_elem_of_here.
Qed.

Lemma length_filter_lt {A} (P Q : A -> Prop) `{!forall x, Decision (P x), !forall x, Decision (Q x)} l x :
  (forall y, y ∈ l -> P y -> Q y) -> x ∈ l -> Q x -> ~ P x ->
  (length (filter P l) < length (filter Q l))%nat.
Proof.
  intros Hs Hx Hq Hp. induction l as [|y l IH]; [by apply not_elem_of_nil in Hx|].
  assert (Hle : (length (filter P l) <= length (filter Q l))%nat)
    by (apply length_filter_le; intros z Hz; apply Hs; by right).
  rewrite !filter_cons. apply elem_of_cons in Hx as [->|Hx].
  - rewrite decide_False, decide_True by done. cbn [length]. lia.
  - assert (length (filter P l) < length (filter Q l))%nat by (apply IH; [intros z Hz; apply Hs; by right | done]).
    repeat case_decide; cbn [length]; try lia. exfalso. eauto using list_elem_of_here.
Qed.

(** Zeroing a link removes at most its own slot from the live ones. *)
Lemma zero_entry_live c b :
  length b = SECTOR_SIZE ->
  (live_slots (set_entry c 0 b) <= live_slots b)%nat /\
  (mask28 (im32 b (fat_off c)) <> 0 -> (live_slots (set_entry c 0 b) < live_slots b)%nat).
Proof.
  intros Hb.
  assert (Hs : forall i, i ∈ seq 0 128 -> mask28 (im32 (set_entry c 0 b) (4 * Z.of_nat i)) =
    if decide (4 * Z.of_nat i = fat_off c) then 0 else mask28 (im32 b (4 * Z.of_nat i))).
  { intros i Hi. apply elem_of_seq in Hi. unfold set_entry.
    rewrite im32_wr; [| unfold fat_off; zlia | rewrite Hb; unfold SECTOR_SIZE, fat_off; zlia | lia | unfold fat_off; zlia].
    case_decide; [|done]. destruct (fat_entry_u32 (im32 b (fat_off c)) 0) as [H1 H2]; [apply im32_range|].
    rewrite u32_small by done. exact H2. }
  assert (Hsub : forall i, i ∈ seq 0 128 -> live_slot (set_entry c 0 b) i -> live_slot b i).
  { intros i Hi. unfold live_slot. rewrite Hs by done. case_decide; [done | auto]. }
  split; [by apply length_filter_le|]. intros Hne.
  assert (Hc : 0 <= c mod 128 < 128) by (apply Z.mod_pos_bound; lia).
  assert (Hi : Z.to_nat (c mod 128) ∈ seq 0 128) by (apply elem_of_seq; lia).
  apply (length_filter_lt _ _ _ (Z.to_nat (c mod 128))); auto; unfold live_slot.
  - rewrite Z2Nat.id by lia. exact Hne.
  - rewrite Hs by done. rewrite Z2Nat.id, decide_True by (done || lia). auto.
Qed.

(** The state the table operations need: whole sectors. *)
Definition tidy (s : fatst) : Prop := disk_wf (dsk s) /\ length (sector_buf s) = SECTOR_SIZE.

(** The drive refuses the sector. *)
Definition refused (d : disk) (lba : Z) : bool :=
  negb (g_ata_ok d) || bool_decide (lba28 (u32 lba) ∈ broken d).

Lemma load_tidy s lba :
  tidy s -> exists r s', load_sector lba s = Ret (r, s') /\ tidy s' /\ dsk s' = dsk s /\ geom s' = geom s /\
    partition_lba s' = partition_lba s /\
    (refused (dsk s) lba = false /\ r = 0 /\ sector_buf s' = sector (dsk s) (lba28 (u32 lba)) \/
     refused (dsk s) lba = true /\ r = -1).
Proof.
  intros [Hd Hb]. unfold load_sector. rewrite read_one by done. fold (refused (dsk s) lba).
  destruct (refused _ _); cbn [mbind out_mbind]; eexists _, _; (split; [reflexivity|]); split_and!; auto.
  - by split.
  - split; [done|]. by apply sector_length.
Qed.

Lemma store_tidy s lba :
  tidy s -> exists r s', store_sector lba s = Ret (r, s') /\ tidy s' /\ geom s' = geom s /\
    partition_lba s' = partition_lba s /\
    (r = 0 /\ dsk s' = set_sector (lba28 (u32 lba)) (sector_buf s) (dsk s) \/ r = -1 /\ dsk s' = dsk s).
Proof.
  intros [Hd Hb]. unfold store_sector. rewrite write_one by done.
  destruct (_ || _); cbn [mbind out_mbind]; eexists _, _; (split; [reflexivity|]);
    (split_and!; [split; [|done] | done | done | auto]); [done | by apply set_sector_wf].
Qed.

Lemma fat_off_u32 c : u32 (c * 4) mod 512 = fat_off c.
Proof. unfold u32, fat_off. zlia. Qed.

(** Freeing an entry in all copies never makes a dead slot live, and kills
    the slot of the first copy it visits. *)
Lemma zero_copies n s f sec c :
  tidy s ->
  exists r s', fat_set_loop n f sec (fat_off c) 0 s = Ret (r, s') /\ tidy s' /\ geom s' = geom s /\
    partition_lba s' = partition_lba s /\ (weight (dsk s') <= weight (dsk s))%nat /\
    let lba := partition_lba s + u32 (sec + f * fat_size_sectors (geom s)) in
    (r = 0 -> (0 < n)%nat -> refused (dsk s) lba = false /\
       (mask28 (im32 (sector (dsk s) (lba28 (u32 lba))) (fat_off c)) <> 0 ->
        (weight (dsk s') < weight (dsk s))%nat)).
Proof.
  revert f s. induction n as [|n IH]; intros f s Ht; cbn [fat_set_loop].
  { exists 0, s. split_and!; auto. intros _ ?. lia. }
  set (lba := partition_lba s + _).
  destruct (load_tidy s lba Ht) as (r1 & s1 & -> & Ht1 & Hd1 & Hg1 & Hp1 & H1). cbn [mbind out_mbind].
  destruct H1 as [(Hok & -> & Hb1)|[_ ->]]; cbn [Z.eqb negb].
  2: { exists (-1), s1. rewrite Hd1. split_and!; auto; congruence. }
  set (b := sector (dsk s) (lba28 (u32 lba))) in *.
  assert (Hb : length b = SECTOR_SIZE) by apply sector_length, Ht.
  cbn [partition_lba geom set_sbuf sector_buf]. rewrite Hb1, Hp1. fold lba (set_entry c 0 b).
  assert (Ht2 : tidy (set_sbuf (set_entry c 0 b) s1)) by (split; [apply Ht1 | by apply length_set_entry]).
  destruct (store_tidy _ lba Ht2) as (r2 & s2 & -> & Ht3 & Hg2 & Hp2 & H2). cbn [mbind out_mbind].
  cbn [dsk geom partition_lba sector_buf set_sbuf] in H2, Hg2, Hp2. rewrite Hd1 in H2. rewrite Hg1 in Hg2. rewrite Hp1 in Hp2.
  destruct H2 as [[-> Hd2]|[-> Hd2]]; cbn [Z.eqb negb].
  2: { exists (-1), s2. rewrite Hd2. split_and!; auto. congruence. }
  destruct (IH (f + 1) s2 Ht3) as (r & s' & -> & Ht' & Hg' & Hp' & Hw & _).
  pose proof (weight_store (dsk s) (lba28 (u32 lba)) (set_entry c 0 b)) as Hst. rewrite <- Hd2 in Hst. fold b in Hst.
  destruct (zero_entry_live c b Hb) as [Hle Hlt].
  exists r, s'. split_and!; auto; try congruence; [lia|].
  intros _ _. split; [done|]. intros Hne. specialize (Hlt Hne). lia.
Qed.

Lemma free_loop_total fuel c s :
  tidy s -> 1 <= num_fats (geom s) -> (weight (dsk s) + 2 <= fuel)%nat ->
  exists r s', free_loop fuel c s = Ret (r, s') /\ tidy s' /\ (weight (dsk s') <= weight (dsk s))%nat.
Proof.
  revert c s. induction fuel as [|fuel IH]; intros c s Ht Hn Hf; [lia|]. cbn [free_loop].
  destruct (chain_cluster c) eqn:Hc; [|by eexists _, _].
  unfold fat_get, fat_set. rewrite fat_off_u32. cbv zeta.
  set (sec := u32 (fat_start (geom s) + u32 (c * 4) / 512)).
  destruct (load_tidy s (partition_lba s + sec) Ht) as (r1 & s1 & -> & Ht1 & Hd1 & Hg1 & Hp1 & H1).
  cbn [mbind out_mbind].
  set (next := if negb (r1 =? 0) then 0x0FFFFFF7 else Z.land (im32 (sector_buf s1) (fat_off c)) 0x0FFFFFFF).
  replace (if negb (r1 =? 0) then Ret (0x0FFFFFF7, s1)
    else Ret (Z.land (im32 (sector_buf s1) (fat_off c)) 0x0FFFFFFF, s1)) with (Ret (next, s1))
    by (unfold next; by destruct (r1 =? 0)).
  cbn [mbind out_mbind]. rewrite Hg1. fold sec.
  destruct (zero_copies (Z.to_nat (num_fats (geom s))) s1 0 sec c Ht1) as (r & s2 & -> & Ht2 & Hg2 & Hp2 & Hw & Hlt).
  cbn [mbind out_mbind]. rewrite Hd1, Hp1, Hg1, Z.mul_0_l, Z.add_0_r in Hlt. rewrite Hd1 in Hw.
  destruct (r =? 0) eqn:Er; cbn [negb]; [|exists (-1), s2; by split_and!]. apply Z.eqb_eq in Er. subst r.
  destruct (decide (weight (dsk s2) < weight (dsk s))%nat) as [Hless|Hmore].
  { destruct (IH next s2 Ht2) as (r & s' & -> & Ht' & Hw'); [by rewrite Hg2, Hg1 | lia |].
    exists r, s'. split_and!; auto. lia. }
  (* the entry was zero already: the next turn stops *)
  assert (Hz : next = 0).
  { assert (0 < Z.to_nat (num_fats (geom s)))%nat as Hpos by lia. unfold sec in Hlt. rewrite u32_u32 in Hlt. fold sec in Hlt.
    destruct (Hlt eq_refl Hpos) as [Hok Hless]. destruct H1 as [(_ & -> & Hb1)|[? _]]; [|congruence].
    unfold next. cbn [Z.eqb negb]. rewrite Hb1. apply dec_stable. intros Hne. by apply Hmore, Hless. }
  rewrite Hz. destruct fuel as [|fuel]; [lia|]. cbn [free_loop]. by eexists _, _.
Qed.

(** [fat_free_chain] always returns, whatever the table contains: chains
    that loop, cross other chains or run through unreadable sectors
    included.  Every turn that goes on has turned a non-zero link of the disk
    into zero, so the fuel of the model is never exhausted; no slot that was
    free becomes used. *)
Theorem fat_free_chain_total c s :
  tidy s -> 1 <= num_fats (geom s) ->
  exists r s', fat_free_chain c s = Ret (r, s') /\ tidy s' /\ (weight (dsk s') <= weight (dsk s))%nat.
Proof.
  intros Ht Hn. apply free_loop_total; auto. unfold chain_fuel. pose proof (weight_bound (dsk s)). lia.
Qed.

(** ** Names *)

(** A character of an 8.3 name: not NUL, not a space, not a dot. *)
Definition plain (c : Z) : Prop := c <> 0 /\ c <> 32 /\ c <> 46.

(** A base of one to eight characters, then possibly a dot and an extension
    of one to three. *)
Definition name83 (base ext : chars) : chars := base ++ match ext with [] => [] | _ => 46 :: ext end.
Definition valid83 (base ext : chars) : Prop :=
  Forall plain base /\ Forall plain ext /\ (1 <= length base <= 8)%nat /\ (length ext <= 3)%nat.

Lemma to_upper_plain c : plain c -> plain (to_upper c).
Proof.
  unfold plain, to_upper. intros (H1 & H2 & H3).
  destruct (Z.leb_spec 97 c), (Z.leb_spec c 122); cbn [andb]; split_and!; lia.
Qed.
Lemma upper_plain w : Forall plain w -> Forall plain (map to_upper w).
Proof. intros H. apply Forall_map. eapply Forall_impl; [exact H|]. apply to_upper_plain. Qed.

Lemma base_part_spec base ext n :
  Forall plain base -> (length base <= n)%nat ->
  base_part n (name83 base ext) = (map to_upper base, match ext with [] => [] | _ => 46 :: ext end).
Proof.
  unfold name83. revert n. induction base as [|c base IH]; intros n Hp Hn; cbn [app map length] in *.
  - by destruct n, ext.
  - destruct n as [|n]; [lia|]. apply Forall_cons in Hp as [(_ & _ & Hc) Hp]. cbn [base_part].
    rewrite (proj2 (Z.eqb_neq c 46)) by done. by rewrite IH by (done || lia).
Qed.

Lemma until_space_pad w n : Forall plain w -> until_space (pad n w) = w.
Proof.
  unfold pad. generalize (n - length w)%nat. intros k.
  induction 1 as [|c w (_ & Hc & _) _ IH]; cbn [app until_space].
  - by destruct k.
  - rewrite (proj2 (Z.eqb_neq c 32)) by done. by rewrite IH.
Qed.

Lemma length_pad n w : (length w <= n)%nat -> length (pad n w) = n.
Proof. unfold pad. rewrite length_app, length_replicate. lia. Qed.

Lemma name_to_83_spec base ext :
  valid83 base ext -> name_to_83 (name83 base ext) = pad 8 (map to_upper base) ++ pad 3 (map to_upper ext).
Proof.
  intros (Hb & He & Hlb & Hle). unfold name_to_83.
  assert (cstr (name83 base ext) = name83 base ext) as ->.
  { apply cstr_id. unfold name83, no_nul. apply Forall_app. split; [by eapply Forall_impl; [exact Hb|]; intros c []|].
    destruct ext; [constructor|]. constructor; [done|]. eapply Forall_impl; [exact He|]. by intros x []. }
  rewrite base_part_spec by (done || lia). destruct ext as [|e ext]; [done|].
  change (46 =? 46) with true. cbv iota. by rewrite take_ge by done.
Qed.

Lemma name_from_83_spec b e :
  Forall plain b -> Forall plain e -> (1 <= length b <= 8)%nat -> (length e <= 3)%nat ->
  name_from_83 (pad 8 b ++ pad 3 e) = name83 b e.
Proof.
  intros Hb He Hlb Hle. unfold name_from_83, name83.
  rewrite take_app_length', drop_app_length', until_space_pad by (done || by rewrite length_pad by lia).
  assert (char_at (pad 8 b ++ pad 3 e) 8 = char_at (pad 3 e) 0) as ->.
  { unfold char_at. rewrite lookup_app_r by (rewrite length_pad by lia; lia). by rewrite length_pad by lia. }
  rewrite take_ge by (rewrite length_pad by lia; lia). rewrite until_space_pad by done.
  destruct e as [|c e]; [by change (char_at (pad 3 []) 0 =? 32) with true|]. apply Forall_cons in He as [(_ & Hc & _) _].
  change (char_at (pad 3 (c :: e)) 0) with c. by rewrite (proj2 (Z.eqb_neq c 32)) by done.
Qed.

Lemma name83_inj b1 e1 b2 e2 :
  Forall plain b1 -> Forall plain b2 -> name83 b1 e1 = name83 b2 e2 -> b1 = b2 /\ e1 = e2.
Proof.
  unfold name83. intros H1. revert b2.
  induction H1 as [|c1 b1 (_ & _ & Hc1) _ IH]; intros b2 H2 E; destruct H2 as [|c2 b2 (_ & _ & Hc2) H2]; cbn [app] in E.
  - split; [done|]. destruct e1, e2; congruence.
  - by destruct e1; simplify_eq.
  - by destruct e2; simplify_eq.
  - injection E as <- E. destruct (IH b2 H2 E) as [-> ->]. done.
Qed.

(** 8.3 names: converting a valid name to the 11 bytes of a directory entry
    and back gives the name in capitals, so two valid names reach the same
    entry exactly when they are equal up to case. *)
Theorem name83_roundtrip b1 e1 b2 e2 de :
  valid83 b1 e1 -> valid83 b2 e2 -> de_name de = name_to_83 (name83 b1 e1) ->
  length (de_name de) = 11%nat /\
  name_from_83 (de_name de) = map to_upper (name83 b1 e1) /\
  (dirent_match de (name83 b2 e2) = true <->
   map to_upper (name83 b1 e1) = map to_upper (name83 b2 e2)).
Proof.
  intros H1 H2 Hde. unfold dirent_match. rewrite Hde. pose proof H1 as (Hb1 & He1 & Hl1 & Hk1). pose proof H2 as (Hb2 & He2 & Hl2 & Hk2).
  assert (Hup : forall b e, map to_upper (name83 b e) = name83 (map to_upper b) (map to_upper e)).
  { intros b e. unfold name83. rewrite map_app. by destruct e. }
  assert (Hfrom : forall b e, valid83 b e -> name_from_83 (name_to_83 (name83 b e)) = map to_upper (name83 b e)).
  { intros b e H. rewrite name_to_83_spec, Hup by done. destruct H as (? & ? & ? & ?).
    apply name_from_83_spec; rewrite ?length_map; auto using upper_plain. }
  split_and!; [| by apply Hfrom |].
  { rewrite name_to_83_spec, length_app, !length_pad by (rewrite ?length_map; done || lia). done. }
  rewrite bool_decide_eq_true. split.
  - intros E. rewrite <- (Hfrom b1 e1), <- (Hfrom b2 e2) by done. by rewrite E.
  - intros E. rewrite !name_to_83_spec by done. rewrite !Hup in E.
    apply name83_inj in E as [-> ->]; auto using upper_plain.
Qed.

(** ** The driver behind the mount table *)

Lemma try_mount_ret lba s :
  tidy s -> exists r s', try_mount_at lba s = Ret (r, s') /\ tidy s'.
Proof.
  intros Ht. unfold try_mount_at, read_sector. cbv zeta.
  destruct (load_tidy (set_part lba s) (partition_lba (set_part lba s) + 0)) as (r & s1 & -> & Ht1 & _); [exact Ht|].
  cbn [mbind out_mbind]. repeat case_match; eexists _, _; (split; [reflexivity|]); exact Ht1.
Qed.

Lemma find_fat_ret s : tidy s -> exists r s', find_fat_partition s = Ret (r, s') /\ tidy s'.
Proof.
  intros Ht. unfold find_fat_partition.
  destruct (load_tidy s 0 Ht) as (r & s1 & -> & Ht1 & _). cbn [mbind out_mbind].
  destruct (load_tidy s1 2048 Ht1) as (r2 & s2 & E & Ht2 & _).
  destruct (negb _); [by eexists _, _|]. destruct (_ && _); [by eexists _, _|].
  destruct (_ || _); [by eexists _, _|]. destruct (mbr_fat_entry _); [by eexists _, _|].
  rewrite E. cbn [mbind out_mbind]. destruct (_ && _); by eexists _, _.
Qed.

Lemma mount_probe_ret s : tidy s -> exists r s', mount_probe s = Ret (r, s') /\ tidy s'.
Proof.
  intros Ht. unfold mount_probe. destruct (find_fat_ret s Ht) as (r & s1 & -> & Ht1). cbn [mbind out_mbind].
  destruct (negb _); [by eexists _, _|].
  destruct (try_mount_ret (partition_lba s1) s1 Ht1) as (r2 & s2 & -> & Ht2). cbn [mbind out_mbind].
  destruct (negb _); by eexists _, _.
Qed.

Lemma mount_ret s : tidy s -> exists r s', Fat32.fat32_mount s = Ret (r, s') /\ tidy s'.
Proof.
  intros Ht. unfold Fat32.fat32_mount. cbv zeta.
  set (a := if ata_present _ then _ else _).
  assert (Ha : tidy (snd a)) by (unfold a; by destruct (ata_present _)).
  destruct a as [ok s1]. cbn [snd] in Ha. destruct (negb ok); [by eexists _, _|].
  destruct (_ =? 0); [by apply mount_probe_ret|].
  destruct (try_mount_ret (partition_lba s1) s1 Ha) as (r2 & s2 & -> & Ht2). cbn [mbind out_mbind].
  destruct (r2 =? 0); [by eexists _, _ | by apply mount_probe_ret].
Qed.

(** fat32.c as the driver vfs.c calls; the enum value of [FAT_OK] is 0. *)
Definition drv_mount (s : fatst) : out (Z * fatst) :=
  '(r, s) ← Fat32.fat32_mount s;
  Ret (if bool_decide (r = FAT_OK) then 0 else 1, s).
Definition drv_ls (_ : chars) (s : fatst) : out (chars * fatst) :=
  '((_, text), s) ← Fat32.fat32_ls s;
  Ret (text, s).
Definition drv_cat (p : chars) (s : fatst) : out (chars * fatst) :=
  '((_, text), s) ← Fat32.fat32_cat (Some p) s;
  Ret (text, s).

Lemma drv_mount_ret s : tidy s -> exists r s', drv_mount s = Ret (r, s') /\ tidy s'.
Proof.
  intros Ht. unfold drv_mount. destruct (mount_ret s Ht) as (r & s' & -> & Ht').
  cbn [mbind out_mbind]. by eexists _, _.
Qed.

#[export] Instance fat32_driver : FatDriver fatst :=
  {| fat_ready := tidy; Vfs.fat32_is_mounted := mounted; Vfs.fat32_mount := drv_mount;
     Vfs.fat32_ls := drv_ls; Vfs.fat32_cat := drv_cat; fat32_mount_ret := drv_mount_ret |}.

(** ** A formatted volume of 4096 sectors at LBA 2048 *)

Definition formatted : fatst :=
  match fat32_mkfs 2048 4096 (bss_fat blank_disk) with Ret (_, s) => s | _ => bss_fat blank_disk end.
Definition volume : fatst :=
  match fat32_mount formatted with Ret (_, s) => s | _ => formatted end.

Lemma volume_disk : disk_wf (dsk volume).
Proof.
  assert (H : map_Forall (fun (_ : Z) b => length b = SECTOR_SIZE) (sectors (dsk volume)));
    [|intros a b; apply H].
  apply (bool_decide_unpack _). by vm_compute.
Qed.

Lemma volume_healthy : healthy volume.
Proof. constructor; try (by vm_compute). apply volume_disk. Qed.

Lemma fat_set_spec_witness :
  exists s', fat_set 3 0x0FFFFFFF volume = Ret (0, s') /\ healthy s' /\
    exists s2, fat_get 3 s' = Ret (0x0FFFFFFF, s2).
Proof.
  destruct (fat_set_spec volume 3 0x0FFFFFFF) as (s' & H1 & H2 & _ & _ & _ & H3);
    [apply volume_healthy | split; by vm_compute |].
  change (mask28 0x0FFFFFFF) with 0x0FFFFFFF in H3.
  exists s'. split; [exact H1|]. split; [exact H2 | exact H3].
Defined.

Lemma fat_free_chain_total_witness :
  exists r s', fat_free_chain 2 volume = Ret (r, s') /\ tidy s'.
Proof.
  destruct (fat_free_chain_total 2 volume) as (r & s' & H1 & H2 & _);
    [split; [apply volume_disk | by vm_compute] | by vm_compute |].
  exists r, s'. split; [exact H1 | exact H2].
Defined.

Lemma name83_roundtrip_witness :
  name_from_83 (name_to_83 $"readme.txt") = $"README.TXT".
Proof.
  refine (proj1 (proj2 (name83_roundtrip $"readme" $"txt" $"readme" $"txt"
    (mk_dirent (name_to_83 $"readme.txt") 0 0 0 0) _ _ _))).
  - repeat split; try (vm_compute; lia); repeat (constructor; [split_and!; vm_compute; congruence|]); constructor.
  - repeat split; try (vm_compute; lia); repeat (constructor; [split_and!; vm_compute; congruence|]); constructor.
  - reflexivity.
Defined.

(** A file written to the volume is read back, in capitals or not. *)
Example write_then_read :
  match fat32_write (Some $"readme.txt") (Some $"hello") volume with
  | Ret (FAT_OK, s) =>
      match fat32_read_file (Some $"README.TXT") true 4096 s with
      | Ret ((FAT_OK, w), _) => w = $"hello"
      | _ => False
      end
  | _ => False
  end.
Proof. by vm_compute. Qed.

(** [fat32_mkfs] clears [sector_buf] once, before the first copy of the FAT,
    and the head of that copy is still in it when the second copy is
    cleared: every sector of the second copy starts with three used
    entries. *)
Example mkfs_second_fat_dirty :
  fat_link volume 0 128 = 0 /\ fat_link volume 1 128 = 0x0FFFFFF8.
Proof. by vm_compute. Qed.

(** A volume with sixteen sectors per cluster is mounted, but listing it
    overruns the 4096-byte cluster buffer. *)
Definition wide_bpb : list Z := wr (mkfs_bpb 2048 4096 4) 13 [16].
Definition wide : fatst :=
  bss_fat (set_sector 2048 wide_bpb blank_disk).
Example wide_cluster_overruns :
  match fat32_mount (fat32_set_partition_lba 2048 wide) with
  | Ret (FAT_OK, s) => fat32_ls s = Fault OutOfBounds
  | _ => False
  end.
Proof. by vm_compute. Qed.

End Fat32Spec.
