(* ===== verification/Fat32Vol.v ===== *)
(** * The FAT32 driver: a mounted volume as links and clusters

    A mounted volume seen through its allocation table (the link of each
    cluster, first copy) and the bytes of its data clusters.  [vol_is] ties a
    driver state to such a view, and the operations of fat32.c on one table
    entry or one cluster are one lemma each: what they return and how the view
    changes.  Everything built on them (chains, the root directory, files) is
    then proved on the view. *)

From S2P Require Import Prelude Memory Ata Fat32 Fat32Spec.
Import Ata Fat32 Fat32Spec.

Module Fat32Vol.

(** ** Several sectors at once *)

Definition sectors_at (d : disk) (a : Z) (n : nat) : list Z :=
  concat (map (fun k => sector d (a + Z.of_nat k)) (seq 0 n)).

Lemma sectors_at_S d a n : sectors_at d a (S n) = sector d a ++ sectors_at d (a + 1) n.
Proof.
  unfold sectors_at. cbn [seq map concat]. rewrite Z.add_0_r. f_equal. f_equal.
  rewrite <- seq_shift, map_map. apply map_ext. intros k. f_equal. lia.
Qed.

Lemma length_sectors_at d a n : disk_wf d -> length (sectors_at d a n) = (SECTOR_SIZE * n)%nat.
Proof.
  intros Hd. revert a. induction n as [|n IH]; intros a; [by rewrite Nat.mul_0_r|].
  rewrite sectors_at_S, length_app, IH, sector_length by done. lia.
Qed.

Lemma sectors_at_ext d d' a n :
  (forall k, a <= k < a + Z.of_nat n -> sector d k = sector d' k) -> sectors_at d a n = sectors_at d' a n.
Proof.
  intros H. unfold sectors_at. f_equal. apply map_ext_in. intros k Hk. apply in_seq in Hk. apply H. lia.
Qed.

Lemma read_loop_fine d a s n buf :
  disk_wf d -> broken d = ∅ -> (SECTOR_SIZE * (s + n) <= length buf)%nat ->
  Ata.read_loop d a s n buf =
  Ret (0, take (SECTOR_SIZE * s) buf ++ sectors_at d (a + Z.of_nat s) n ++ drop (SECTOR_SIZE * (s + n)) buf).
Proof.
  intros Hd Hb. revert s buf. induction n as [|n IH]; intros s buf Hl; cbn [Ata.read_loop].
  { unfold sectors_at. cbn [seq map concat app]. by rewrite Nat.add_0_r, take_drop. }
  rewrite Hb, bool_decide_false by set_solver.
  rewrite (proj2 (Nat.ltb_ge _ _)) by lia.
  assert (Hs : length (sector d (a + Z.of_nat s)) = SECTOR_SIZE) by by apply sector_length.
  assert (Hlb : length (blit_sector buf s (sector d (a + Z.of_nat s))) = length buf)
    by (unfold blit_sector; rewrite !length_app, length_take, length_drop, Hs; lia).
  rewrite IH by (rewrite Hlb; lia). rewrite sectors_at_S.
  assert (blit_sector buf s (sector d (a + Z.of_nat s)) =
    (take (SECTOR_SIZE * s) buf ++ sector d (a + Z.of_nat s)) ++ drop (SECTOR_SIZE * S s) buf) as ->
    by (unfold blit_sector; by rewrite app_assoc).
  replace (a + Z.of_nat s + 1) with (a + Z.of_nat (S s)) by lia.
  rewrite take_app_length' by (rewrite length_app, length_take, Hs; lia).
  rewrite drop_app_ge by (rewrite length_app, length_take, Hs; lia).
  rewrite drop_drop, length_app, length_take, Hs, <- !app_assoc. do 6 f_equal. lia.
Qed.

Lemma write_loop_fine d a s n buf :
  disk_wf d -> broken d = ∅ -> (SECTOR_SIZE * (s + n) <= length buf)%nat ->
  exists d', Ata.write_loop d a s n buf = Ret (0, d') /\ disk_wf d' /\ broken d' = ∅ /\ g_ata_ok d' = g_ata_ok d /\
    (forall k, (s <= k < s + n)%nat ->
       sector d' (a + Z.of_nat k) = take SECTOR_SIZE (drop (SECTOR_SIZE * k) buf)) /\
    (forall x, ~ a + Z.of_nat s <= x < a + Z.of_nat (s + n) -> sector d' x = sector d x).
Proof.
  revert s d. induction n as [|n IH]; intros s d Hd Hb Hl; cbn [Ata.write_loop].
  { exists d. split_and!; auto. intros k Hk. lia. }
  rewrite Hb, bool_decide_false by set_solver.
  rewrite (proj2 (Nat.ltb_ge _ _)) by lia.
  set (bytes := take SECTOR_SIZE (drop (SECTOR_SIZE * s) buf)).
  set (d1 := set_sector (a + Z.of_nat s) bytes d).
  assert (Hd1 : disk_wf d1)
    by (apply set_sector_wf; [unfold bytes; rewrite length_take, length_drop; lia | done]).
  destruct (IH (S s) d1 Hd1) as (d' & -> & Hd' & Hb' & Ho' & Hin & Hout); [done | lia |].
  exists d'. split_and!; auto.
  - intros k Hk. destruct (decide (k = s)) as [->|]; [|apply Hin; lia].
    rewrite Hout by lia. unfold d1. by rewrite sector_set, decide_True.
  - intros x Hx. rewrite Hout by lia. unfold d1. rewrite sector_set, decide_False; [done | lia].
Qed.

Lemma blocks_take (buf : list Z) n m :
  (SECTOR_SIZE * (m + n) <= length buf)%nat ->
  concat (map (fun k => take SECTOR_SIZE (drop (SECTOR_SIZE * k) buf)) (seq m n)) =
  take (SECTOR_SIZE * n) (drop (SECTOR_SIZE * m) buf).
Proof.
  revert m. induction n as [|n IH]; intros m Hl; cbn [seq map concat]; [by rewrite Nat.mul_0_r|].
  rewrite IH by lia. replace (SECTOR_SIZE * S m)%nat with (SECTOR_SIZE * m + SECTOR_SIZE)%nat by lia.
  rewrite <- drop_drop, take_take_drop. f_equal. lia.
Qed.

(** ** The view *)

(** [f] with [c] mapped to [v]. *)
Definition upd {A} (c : Z) (v : A) (f : Z -> A) (x : Z) : A := if decide (x = c) then v else f x.
Lemma upd_eq {A} c (v : A) f : upd c v f c = v.
Proof. unfold upd. by rewrite decide_True. Qed.
Lemma upd_ne {A} c (v : A) f x : x <> c -> upd c v f x = f x.
Proof. intros. unfold upd. by rewrite decide_False. Qed.

(** A data cluster of the volume. *)
Definition valid (g : geometry) (c : Z) : Prop := 2 <= c < total_clusters g + 2.
Definition csize (g : geometry) : nat := Z.to_nat (sectors_per_cluster g * 512).

Definition cluster_lba (s : fatst) (c : Z) : Z :=
  partition_lba s + data_start (geom s) + (c - 2) * sectors_per_cluster (geom s).
Definition cdata (s : fatst) (c : Z) : list Z :=
  sectors_at (dsk s) (cluster_lba s c) (Z.to_nat (sectors_per_cluster (geom s))).

(** A mounted volume on a drive without errors, whose table has an entry for
    every data cluster, whose data area follows the copies of the table, and
    whose clusters fit the cluster buffer. *)
Record sound (s : fatst) : Prop := mk_sound {
  v_healthy : healthy s;
  v_mounted : mounted s = true;
  v_cbuf : length (cluster_buf s) = 4096%nat;
  v_spc : 1 <= sectors_per_cluster (geom s) <= 8;
  v_total : 0 <= total_clusters (geom s) /\ total_clusters (geom s) + 2 <= 128 * fat_size_sectors (geom s) /\
    total_clusters (geom s) + 2 <= EOC_MIN;
  v_data : fat_start (geom s) + num_fats (geom s) * fat_size_sectors (geom s) <= data_start (geom s);
  v_fit : partition_lba s + data_start (geom s) +
    total_clusters (geom s) * sectors_per_cluster (geom s) <= 268435456;
}.

Record vol_is (s : fatst) (g : geometry) (L : Z -> Z) (D : Z -> list Z) : Prop := mk_vol {
  vi_sound : sound s;
  vi_geom : geom s = g;
  vi_link : forall c, valid g c -> fat_link s 0 c = L c;
  vi_data : forall c, valid g c -> cdata s c = D c;
}.

Lemma valid_in_fat s c : sound s -> valid (geom s) c -> in_fat s c.
Proof. intros Hs [Hl Hh]. destruct (v_total s Hs) as (H1 & H2 & H3). split; lia. Qed.

Lemma vol_ext s g L D L' D' :
  (forall c, valid g c -> L c = L' c) -> (forall c, valid g c -> D c = D' c) ->
  vol_is s g L D -> vol_is s g L' D'.
Proof.
  intros HL HD [H1 H2 H3 H4]. constructor; auto; intros c Hc; [rewrite <- HL by done | rewrite <- HD by done]; auto.
Qed.

Lemma cdata_length s g L D c : vol_is s g L D -> valid g c -> length (D c) = csize g.
Proof.
  intros [Hs <- _ HD] Hc. rewrite <- HD by done. unfold cdata, csize. rewrite length_sectors_at by apply Hs.
  destruct (v_spc _ Hs). unfold SECTOR_SIZE. lia.
Qed.

Lemma link_range s g L D c : vol_is s g L D -> valid g c -> 0 <= L c < 268435456.
Proof.
  intros [_ _ HL _] Hc. rewrite <- HL by done. unfold fat_link. rewrite mask28_mod. apply Z.mod_pos_bound. lia.
Qed.

(** The address of a cluster as the driver computes it. *)
Lemma cluster_address s c :
  sound s -> valid (geom s) c ->
  lba28 (u32 (partition_lba s + cluster_to_lba c s)) = cluster_lba s c /\
  0 <= cluster_lba s c /\ cluster_lba s c + sectors_per_cluster (geom s) <= 268435456 /\
  partition_lba s + fat_start (geom s) + num_fats (geom s) * fat_size_sectors (geom s) <= cluster_lba s c.
Proof.
  intros Hs [Hl Hh]. destruct (v_spc s Hs), (v_total s Hs) as (? & _), (h_part s (v_healthy s Hs)).
  pose proof (v_fit s Hs). pose proof (v_data s Hs). destruct (h_fats s (v_healthy s Hs)).
  assert (0 <= (c - 2) * sectors_per_cluster (geom s) <=
    (total_clusters (geom s) - 1) * sectors_per_cluster (geom s)) by nia.
  assert (0 <= num_fats (geom s) * fat_size_sectors (geom s)) by nia.
  unfold cluster_to_lba, cluster_lba, lba28.
  rewrite (u32_small (data_start _ + _)) by (unfold in_u32; nia).
  rewrite u32_small by (unfold in_u32; nia). rewrite Z.mod_small by nia. split_and!; nia.
Qed.

(** Clusters do not overlap each other ... *)
Lemma cluster_apart s c c' x x' :
  sound s -> c <> c' -> cluster_lba s c <= x < cluster_lba s c + sectors_per_cluster (geom s) ->
  cluster_lba s c' <= x' < cluster_lba s c' + sectors_per_cluster (geom s) -> x <> x'.
Proof. intros Hs Hc. destruct (v_spc s Hs). unfold cluster_lba. nia. Qed.

(** ... nor the table. *)
Lemma cluster_fat_apart s f c c' x :
  sound s -> valid (geom s) c -> valid (geom s) c' -> 0 <= f < num_fats (geom s) ->
  cluster_lba s c <= x -> x <> fat_lba s f c'.
Proof.
  intros Hs Hc Hc' Hf Hx. destruct (cluster_address s c Hs Hc) as (_ & _ & _ & Hb).
  destruct (valid_in_fat s c' Hs Hc') as [Hi _]. unfold fat_lba.
  assert (c' / 128 < fat_size_sectors (geom s)) by (apply Z.div_lt_upper_bound; lia). nia.
Qed.

(** ** The operations on the view *)

Lemma vol_get s g L D c :
  vol_is s g L D -> valid g c -> exists s', fat_get c s = Ret (L c, s') /\ vol_is s' g L D.
Proof.
  intros [Hs <- HL HD] Hc. pose proof (valid_in_fat s c Hs Hc) as Hin.
  destruct (fat_address s 0 c (v_healthy s Hs)) as (E1 & E2 & E3 & E4 & E5 & Hl & Ho); auto.
  { destruct (h_fats s (v_healthy s Hs)). lia. }
  rewrite Z.mul_0_l, Z.add_0_r, E4 in E5.
  unfold fat_get. rewrite E1, E2, E3, E4, E5, load_healthy by (apply Hs || done).
  cbn [mbind out_mbind]. change (0 =? 0) with true. cbn [negb]. eexists. split.
  - rewrite <- HL by done. reflexivity.
  - constructor; auto. destruct Hs. constructor; auto.
    apply healthy_sbuf; [done|]. by apply sector_length, v_healthy0.
Qed.

Lemma fat_set_keeps n f sec o v s r s' :
  fat_set_loop n f sec o v s = Ret (r, s') -> mounted s' = mounted s /\ cluster_buf s' = cluster_buf s.
Proof.
  revert f s. induction n as [|n IH]; intros f s E; cbn [fat_set_loop] in E; [by simplify_eq|].
  unfold load_sector in E. destruct (ata_read_sectors _ _ _ _) as [[r1 b]|]; cbn [mbind out_mbind] in E; [|done].
  destruct (negb (r1 =? 0)); [by simplify_eq|].
  unfold store_sector in E. destruct (ata_write_sectors _ _ _ _) as [[r2 d]|]; cbn [mbind out_mbind] in E; [|done].
  destruct (negb (r2 =? 0)); [by simplify_eq|]. by apply IH in E.
Qed.

Lemma vol_set s g L D c v :
  vol_is s g L D -> valid g c ->
  exists s', fat_set c v s = Ret (0, s') /\ vol_is s' g (upd c (mask28 v) L) D /\ cluster_buf s' = cluster_buf s.
Proof.
  intros [Hs <- HL HD] Hc. pose proof (valid_in_fat s c Hs Hc) as Hin.
  destruct (fat_set_loop_healthy (Z.to_nat (num_fats (geom s))) s 0 c v) as (s1 & E1 & _ & _ & Hp & _);
    [apply Hs | lia | destruct (h_fats s (v_healthy s Hs)); lia | done |].
  destruct (fat_set_spec s c v (v_healthy s Hs) Hin) as (s' & E & Hh & Hg & Hlink & Hsec & _).
  destruct (fat_address s 0 c (v_healthy s Hs)) as (A1 & A2 & A3 & A4 & _); auto.
  { destruct (h_fats s (v_healthy s Hs)). lia. }
  pose proof E as E'. unfold fat_set in E'. rewrite A1, A2, A3, A4 in E'.
  assert (s1 = s') as -> by congruence.
  destruct (fat_set_keeps _ _ _ _ _ _ _ _ E') as [Hm Hcb].
  assert (Hlba : forall x, cluster_lba s' x = cluster_lba s x) by (intros; unfold cluster_lba; by rewrite Hp, Hg).
  exists s'. split; [done|]. split; [|done]. constructor; auto.
  - destruct Hs. constructor; rewrite ?Hg, ?Hp, ?Hm, ?Hcb; auto.
  - intros x Hx. rewrite Hlink; [|destruct (h_fats s (v_healthy s Hs)); lia | by apply valid_in_fat].
    unfold upd. case_decide; [done | auto].
  - intros x Hx. rewrite <- HD by done. unfold cdata. rewrite Hlba, Hg. apply sectors_at_ext.
    intros k Hk. apply Hsec. intros f Hf. apply (cluster_fat_apart s f x c); auto. lia.
Qed.

Lemma vol_read s g L D c :
  vol_is s g L D -> valid g c ->
  exists s', read_cluster c s = Ret (0, s') /\ vol_is s' g L D /\
    take (csize g) (cluster_buf s') = D c.
Proof.
  intros [Hs <- HL HD] Hc. destruct (cluster_address s c Hs Hc) as (Ea & Ha & Hb & _). destruct (v_spc s Hs).
  unfold read_cluster, ata_read_sectors. rewrite (h_ok s (v_healthy s Hs)).
  rewrite (proj2 (Z.eqb_neq _ 0)) by lia. cbn [negb orb]. rewrite Ea.
  rewrite read_loop_fine; [|apply Hs | apply Hs | rewrite (v_cbuf s Hs); unfold SECTOR_SIZE; lia].
  rewrite Z.add_0_r. cbn [mbind out_mbind]. fold (cdata s c).
  assert (Hlen : length (cdata s c) = csize (geom s)).
  { unfold cdata, csize. rewrite length_sectors_at by apply Hs. unfold SECTOR_SIZE. lia. }
  eexists. split; [reflexivity|]. split.
  - constructor; auto. pose proof Hs as [Hh]. constructor; auto.
    + by destruct Hh.
    + cbn [cluster_buf set_cbuf]. rewrite !length_app, Hlen, length_drop, v_cbuf0.
      rewrite Nat.mul_0_r, take_0. cbn [length]. unfold csize, SECTOR_SIZE. lia.
  - cbn [cluster_buf set_cbuf]. rewrite Nat.mul_0_r, take_0. cbn [app]. rewrite take_app_length' by done. auto.
Qed.

Lemma vol_write s g L D c :
  vol_is s g L D -> valid g c ->
  exists s', write_cluster c s = Ret (0, s') /\ vol_is s' g L (upd c (take (csize g) (cluster_buf s)) D) /\
    cluster_buf s' = cluster_buf s.
Proof.
  intros [Hs <- HL HD] Hc. destruct (cluster_address s c Hs Hc) as (Ea & Ha & Hb & _). destruct (v_spc s Hs).
  unfold write_cluster, ata_write_sectors. rewrite (h_ok s (v_healthy s Hs)).
  rewrite (proj2 (Z.eqb_neq _ 0)) by lia. cbn [negb orb]. rewrite Ea.
  destruct (write_loop_fine (dsk s) (cluster_lba s c) 0 (Z.to_nat (sectors_per_cluster (geom s))) (cluster_buf s))
    as (d' & -> & Hd' & Hb' & Ho' & Hin & Hout);
    [apply Hs | apply Hs | rewrite (v_cbuf s Hs); unfold SECTOR_SIZE; lia |].
  cbn [mbind out_mbind]. rewrite Z.add_0_r in Hout. eexists. split; [reflexivity|]. split; [|done]. constructor; auto.
  - pose proof Hs as [Hh]. constructor; auto. destruct Hh. constructor; auto. cbn [dsk set_dsk]. by rewrite Ho'.
  - intros x Hx. rewrite <- HL by done. unfold fat_link. cbn [dsk set_dsk]. rewrite Hout; [done|].
    change (fat_lba (set_dsk d' s) 0 x) with (fat_lba s 0 x).
    intros [Hge _]. apply (cluster_fat_apart s 0 c x) in Hge; auto. destruct (h_fats s (v_healthy s Hs)). lia.
  - intros x Hx. unfold upd, cdata. cbn [dsk set_dsk geom].
    change (cluster_lba (set_dsk d' s) x) with (cluster_lba s x). case_decide as Hxc.
    + subst x. unfold sectors_at. rewrite (map_ext_in _ (fun k => take SECTOR_SIZE (drop (SECTOR_SIZE * k) (cluster_buf s)))).
      * rewrite blocks_take by (rewrite (v_cbuf s Hs); unfold SECTOR_SIZE; lia).
        rewrite Nat.mul_0_r, drop_0. unfold csize, SECTOR_SIZE. f_equal. lia.
      * intros k Hk. apply in_seq in Hk. apply Hin. lia.
    + rewrite <- HD by done. apply sectors_at_ext. intros k Hk. apply Hout. intros Hk'.
      apply (cluster_apart s x c k k); auto; lia.
Qed.

(** Filling the cluster buffer before a write. *)
Lemma vol_fill s g L D (f : list Z -> list Z) :
  vol_is s g L D -> (forall b, length b = 4096%nat -> length (f b) = 4096%nat) ->
  vol_is (set_cbuf (f (cluster_buf s)) s) g L D.
Proof.
  intros [Hs Hg HL HD] Hf. constructor; auto. pose proof Hs as [Hh]. constructor; auto.
  - by destruct Hh.
  - by apply Hf, v_cbuf.
Qed.

Lemma csize_bound s g L D : vol_is s g L D -> (512 <= csize g <= 4096)%nat.
Proof. intros [Hs <- _ _]. unfold csize. destruct (v_spc s Hs). lia. Qed.

Lemma vol_bytes s g L D : vol_is s g L D -> cluster_bytes s = Z.of_nat (csize g).
Proof. intros [Hs <- _ _]. unfold csize, cluster_bytes. destruct (v_spc s Hs). lia. Qed.

Lemma vol_clear s g L D :
  vol_is s g L D ->
  exists s', clear_cluster s = Ret s' /\ vol_is s' g L D /\
    take (csize g) (cluster_buf s') = replicate (csize g) 0.
Proof.
  intros Hv. pose proof (csize_bound _ _ _ _ Hv) as Hc. pose proof (vi_sound _ _ _ _ Hv) as Hs.
  unfold clear_cluster. rewrite (vol_bytes _ _ _ _ Hv), (v_cbuf s Hs), (proj2 (Z.ltb_ge _ _)) by lia.
  rewrite Nat2Z.id. eexists. split; [reflexivity|]. split.
  - apply (vol_fill s g L D (fun b => wr b 0 (replicate (csize g) 0))); [done|].
    intros b Hb. rewrite length_wr; rewrite ?length_replicate; lia.
  - cbn [cluster_buf set_cbuf]. unfold wr. change (Z.to_nat 0) with 0%nat. rewrite take_0. cbn [app].
    apply take_app_length'. by rewrite length_replicate.
Qed.

End Fat32Vol.
