(* ===== verification/Fat32Chain.v ===== *)
(** * The FAT32 driver: cluster chains

    A chain is the list of clusters met by following links to the end mark.
    Allocation takes the lowest free cluster ([alloc_spec]), freeing a chain
    zeroes exactly its links ([free_chain_spec]), writing data builds a chain
    of fresh clusters that holds the bytes ([write_data_spec]), and following
    a chain reads them ([read_loop_spec]). *)

From S2P Require Import Prelude Memory Ata Fat32 Fat32Spec Fat32Vol.
Import Ata Fat32 Fat32Spec Fat32Vol.

Module Fat32Chain.

Definition EOC : Z := 0x0FFFFFFF.

(** ** Chains *)

Fixpoint chain (g : geometry) (L : Z -> Z) (c : Z) (l : list Z) : Prop :=
  match l with
  | [] => EOC_MIN <= c
  | x :: l' => c = x /\ valid g x /\ chain g L (L x) l'
  end.

(** The view [L] agrees with [L'] on [l]. *)
Definition agree {A} (l : list Z) (f f' : Z -> A) : Prop := forall x, x ∈ l -> f x = f' x.

Lemma agree_sub {A} l l' (f f' : Z -> A) : l' ⊆ l -> agree l f f' -> agree l' f f'.
Proof. intros Hs H x Hx. auto. Qed.

Lemma agree_app {A} l1 l2 (f f' : Z -> A) : agree (l1 ++ l2) f f' <-> agree l1 f f' /\ agree l2 f f'.
Proof.
  unfold agree. setoid_rewrite elem_of_app. split; [intros H; split; intros x Hx; apply H; auto|].
  intros [H1 H2] x [Hx|Hx]; auto.
Qed.

Lemma agree_upd {A} l c v (f : Z -> A) : c ∉ l -> agree l f (upd c v f).
Proof. intros Hc x Hx. rewrite upd_ne; [done|]. by intros ->. Qed.

Lemma agree_trans {A} l (f f' f'' : Z -> A) : agree l f f' -> agree l f' f'' -> agree l f f''.
Proof. intros H1 H2 x Hx. rewrite H1 by done. auto. Qed.

Lemma agree_sym {A} l (f f' : Z -> A) : agree l f f' -> agree l f' f.
Proof. intros H x Hx. symmetry. auto. Qed.

Lemma chain_ext g L L' c l : agree l L L' -> chain g L c l -> chain g L' c l.
Proof.
  revert c. induction l as [|x l IH]; intros c Ha; cbn [chain]; [done|].
  intros (-> & Hx & Hc). split_and!; auto. rewrite <- Ha by set_solver.
  apply IH; [|done]. eapply agree_sub; [|exact Ha]. set_solver.
Qed.

Lemma chain_valid g L c l x : chain g L c l -> x ∈ l -> valid g x.
Proof.
  revert c. induction l as [|y l IH]; intros c Hc Hx; [by apply not_elem_of_nil in Hx|].
  destruct Hc as (-> & Hy & Hc). apply elem_of_cons in Hx as [->|Hx]; eauto.
Qed.

(** Used clusters have a link. *)
Lemma chain_live g L c l x : chain g L c l -> x ∈ l -> L x <> 0.
Proof.
  revert c. induction l as [|y l IH]; intros c Hc Hx; [by apply not_elem_of_nil in Hx|].
  destruct Hc as (-> & Hy & Hc). apply elem_of_cons in Hx as [->|Hx]; [|eauto].
  destruct l as [|z l]; cbn [chain] in Hc; unfold EOC_MIN in Hc; [lia|].
  destruct Hc as (-> & [Hz _] & _). lia.
Qed.

Section Det.
Context (g : geometry) (Hg : total_clusters g + 2 <= EOC_MIN).

Lemma chain_det L c l l' : chain g L c l -> chain g L c l' -> l = l'.
Proof.
  revert c l'. induction l as [|x l IH]; intros c [|y l']; cbn [chain]; intros H1 H2; try done.
  - destruct H2 as (-> & [_ Hy] & _). lia.
  - destruct H1 as (-> & [_ Hx] & _). lia.
  - destruct H1 as (-> & _ & H1), H2 as (<- & _ & H2). f_equal. eauto.
Qed.

Lemma chain_from L c l1 x l2 : chain g L c (l1 ++ x :: l2) -> chain g L x (x :: l2).
Proof.
  revert c. induction l1 as [|y l1 IH]; intros c; cbn [app].
  - intros Hc. pose proof Hc as (-> & _). done.
  - intros (_ & _ & Hc). eauto.
Qed.

(** A chain that ends has no repetition. *)
Lemma chain_nodup L c l : chain g L c l -> NoDup l.
Proof.
  revert c. induction l as [|x l IH]; intros c Hc; [constructor|]. constructor; [|destruct Hc as (_ & _ & Hc); eauto].
  intros Hx. apply list_elem_of_split in Hx as (l1 & l2 & ->).
  pose proof (chain_from L c (x :: l1) x l2 Hc) as H1. pose proof Hc as (-> & _).
  pose proof (chain_det L x _ _ H1 Hc) as E. apply (f_equal length) in E. cbn [length] in E.
  rewrite length_app in E. cbn [length] in E. lia.
Qed.
End Det.

Lemma vol_total s g L D : vol_is s g L D -> 0 <= total_clusters g /\ total_clusters g + 2 <= EOC_MIN.
Proof. intros [Hs <- _ _]. destruct (v_total s Hs) as (? & _ & ?). done. Qed.

Lemma valid_chain_cluster s g L D c : vol_is s g L D -> valid g c -> chain_cluster c = true.
Proof.
  intros Hv [Hl Hh]. destruct (vol_total _ _ _ _ Hv). unfold chain_cluster.
  rewrite (proj2 (Z.leb_le _ _)), (proj2 (Z.ltb_lt _ _)) by lia. done.
Qed.

Lemma end_not_cluster c : EOC_MIN <= c -> chain_cluster c = false.
Proof. intros H. unfold chain_cluster. rewrite (proj2 (Z.ltb_ge _ _)) by lia. apply andb_false_r. Qed.

(** ** The fuel of the walks is enough for every chain *)

Definition slots_of (d : disk) : list (Z * Z) :=
  a ← elements (dom (sectors d)); i ← seqZ 0 128; [(a, 4 * i)].

Lemma length_slots_of d : length (slots_of d) = (128 * size (sectors d))%nat.
Proof.
  unfold slots_of. rewrite <- size_dom. change (size (dom (sectors d))) with (length (elements (dom (sectors d)))).
  induction (elements (dom (sectors d))) as [|a l IH]; [done|]. cbn [mbind list_bind length] in *.
  rewrite length_app, IH. change (length (i ← seqZ 0 128; [(a, 4 * i)])) with 128%nat. lia.
Qed.

Lemma live_in_slots s c : fat_link s 0 c <> 0 -> (fat_lba s 0 c, fat_off c) ∈ slots_of (dsk s).
Proof.
  intros Hne. unfold slots_of. apply list_elem_of_bind. exists (fat_lba s 0 c). split.
  - apply list_elem_of_bind. exists (c mod 128). split; [unfold fat_off; by apply list_elem_of_singleton|].
    apply elem_of_seqZ. zlia.
  - apply elem_of_elements, elem_of_dom. unfold fat_link, sector in Hne.
    destruct (sectors (dsk s) !! fat_lba s 0 c) as [b|]; [by exists b|]. exfalso. apply Hne.
    unfold default. cbn [from_option id]. unfold im32, im16, im8.
    assert (H0 : forall i, (i < SECTOR_SIZE)%nat -> replicate SECTOR_SIZE 0 !!! i = 0).
    { intros i Hi. rewrite list_lookup_total_alt. by rewrite lookup_replicate_2. }
    assert (Ho : 0 <= fat_off c <= 508) by (unfold fat_off; zlia).
    rewrite !H0 by (unfold SECTOR_SIZE; lia). reflexivity.
Qed.

Lemma chain_fuel_enough s g L D c l :
  vol_is s g L D -> chain g L c l -> (length l + 2 <= chain_fuel s)%nat.
Proof.
  intros Hv Hc. pose proof (vol_total _ _ _ _ Hv) as [_ Ht]. unfold chain_fuel. rewrite <- length_slots_of.
  assert (Hn : NoDup (map (fun c => (fat_lba s 0 c, fat_off c)) l)).
  { apply NoDup_fmap_2_strong; [|by eapply chain_nodup]. intros x y _ _ [= E1 E2].
    unfold fat_lba, fat_off in *. zlia. }
  assert (Hi : forall p, p ∈ map (fun c => (fat_lba s 0 c, fat_off c)) l -> p ∈ slots_of (dsk s)).
  { intros p (x & -> & Hx)%list_elem_of_fmap. apply live_in_slots.
    rewrite (vi_link _ _ _ _ Hv) by (by eapply chain_valid). by eapply chain_live. }
  pose proof (submseteq_length _ _ (NoDup_submseteq _ _ Hn Hi)) as Hlen. rewrite length_map in Hlen. lia.
Qed.

(** ** Allocation *)

Definition all_free_in (g : geometry) (L : Z -> Z) (cs : list Z) : Prop :=
  forall x, valid g x -> L x = 0 -> x ∈ cs.

Lemma alloc_loop_spec n c s g L D :
  vol_is s g L D -> 2 <= c -> c + Z.of_nat n = total_clusters g + 2 ->
  (exists x s', alloc_loop n c s = Ret (x, s') /\ c <= x /\ valid g x /\ L x = 0 /\
     (forall y, c <= y < x -> L y <> 0) /\ vol_is s' g (upd x EOC L) D) \/
  (exists s', alloc_loop n c s = Ret (0, s') /\ (forall y, c <= y < total_clusters g + 2 -> L y <> 0) /\
     vol_is s' g L D).
Proof.
  revert c s. induction n as [|n IH]; intros c s Hv Hc Hn; cbn [alloc_loop].
  { right. exists s. split_and!; auto. intros y Hy. lia. }
  assert (Hvc : valid g c) by (unfold valid; lia).
  destruct (vol_get s g L D c Hv Hvc) as (s1 & -> & Hv1). cbn [mbind out_mbind].
  destruct (Z.eqb_spec (L c) 0) as [E|E].
  - destruct (vol_set s1 g L D c EOC Hv1 Hvc) as (s2 & E2 & Hv2 & _). left. exists c, s2.
    unfold EOC in E2 at 1. rewrite E2. cbn [mbind out_mbind]. split_and!; auto; [lia|]. intros y Hy. lia.
  - destruct (IH (c + 1) s1 Hv1) as [(x & s2 & -> & Hx & Hvx & HL & Hy & Hv2)|(s2 & -> & Hy & Hv2)]; try lia.
    + left. exists x, s2. split_and!; auto; [lia|]. intros y Hyx. destruct (decide (y = c)) as [->|]; [done|]. apply Hy. lia.
    + right. exists s2. split_and!; auto. intros y Hyx. destruct (decide (y = c)) as [->|]; [done|]. apply Hy. lia.
Qed.

(** [fat_alloc_cluster] takes the lowest free cluster and marks it as the
    end of a chain, or returns 0 when no cluster is free. *)
Lemma alloc_spec s g L D :
  vol_is s g L D ->
  (exists x s', fat_alloc_cluster s = Ret (x, s') /\ valid g x /\ L x = 0 /\
     (forall y, 2 <= y < x -> L y <> 0) /\ vol_is s' g (upd x EOC L) D) \/
  (exists s', fat_alloc_cluster s = Ret (0, s') /\ all_free_in g L [] /\ vol_is s' g L D).
Proof.
  intros Hv. destruct (vol_total _ _ _ _ Hv) as [H0 Ht]. unfold EOC_MIN in Ht. unfold fat_alloc_cluster.
  rewrite (vi_geom _ _ _ _ Hv), u32_small by (unfold in_u32; lia).
  destruct (alloc_loop_spec (Z.to_nat (total_clusters g + 2 - 2)) 2 s g L D Hv)
    as [(x & s2 & -> & Hx & Hvx & HL & Hy & Hv2)|(s2 & -> & Hy & Hv2)]; try lia.
  - left. by exists x, s2.
  - right. exists s2. split_and!; auto. intros x Hx Hl. by apply Hy in Hx.
Qed.

(** ** Freeing *)

(** The links of [l] zeroed. *)
Definition clear_links (l : list Z) (L : Z -> Z) (x : Z) : Z := if decide (x ∈ l) then 0 else L x.

Lemma clear_links_cons x l L y : clear_links l (upd x 0 L) y = clear_links (x :: l) L y.
Proof.
  unfold clear_links, upd. destruct (decide (y = x)) as [->|Hne].
  - rewrite (decide_True (P := x ∈ x :: l)) by set_solver. by case_decide.
  - apply decide_ext. rewrite elem_of_cons. intuition.
Qed.

Lemma free_loop_spec fuel c l s g L D :
  vol_is s g L D -> chain g L c l -> (length l < fuel)%nat ->
  exists s', free_loop fuel c s = Ret (0, s') /\ vol_is s' g (clear_links l L) D.
Proof.
  revert c l s L. induction fuel as [|fuel IH]; intros c l s L Hv Hc Hf; [lia|]. cbn [free_loop].
  destruct l as [|x l].
  { rewrite end_not_cluster by done. exists s. split; [done|]. eapply vol_ext; [| |exact Hv]; [|done].
    intros y _. unfold clear_links. by rewrite decide_False by apply not_elem_of_nil. }
  pose proof (vol_total _ _ _ _ Hv) as [_ Ht]. pose proof (chain_nodup g Ht _ _ _ Hc) as Hn.
  destruct Hc as (-> & Hx & Hc). apply NoDup_cons in Hn as [Hxl Hn].
  rewrite (valid_chain_cluster _ _ _ _ _ Hv Hx).
  destruct (vol_get s g L D x Hv Hx) as (s1 & -> & Hv1). cbn [mbind out_mbind].
  destruct (vol_set s1 g L D x 0 Hv1 Hx) as (s2 & -> & Hv2 & _). cbn [mbind out_mbind].
  change (0 =? 0) with true. cbn [negb]. change (mask28 0) with 0 in Hv2.
  destruct (IH (L x) l s2 (upd x 0 L) Hv2) as (s3 & -> & Hv3).
  { eapply chain_ext; [|exact Hc]. by apply agree_upd. }
  { cbn [length] in Hf. lia. }
  exists s3. split; [done|]. eapply vol_ext; [| |exact Hv3]; [|done]. intros y _. apply clear_links_cons.
Qed.

(** [fat_free_chain] zeroes the links of the chain and no other link. *)
Lemma free_chain_spec c l s g L D :
  vol_is s g L D -> chain g L c l ->
  exists s', fat_free_chain c s = Ret (0, s') /\ vol_is s' g (clear_links l L) D.
Proof.
  intros Hv Hc. apply free_loop_spec; auto. pose proof (chain_fuel_enough _ _ _ _ _ _ Hv Hc). lia.
Qed.

(** ** Writing data *)

(** Clusters needed for [n] bytes. *)
Definition needed (g : geometry) (n : nat) : nat := ((n + csize g - 1) / csize g)%nat.

Lemma needed_S g n : (0 < csize g)%nat -> (0 < n)%nat -> needed g n = S (needed g (n - csize g)).
Proof.
  intros Hc Hn. unfold needed. destruct (Nat.lt_ge_cases (csize g) n).
  - replace (n + csize g - 1)%nat with ((n - csize g + csize g - 1) + 1 * csize g)%nat by lia.
    rewrite Nat.div_add by lia. lia.
  - replace (n - csize g)%nat with 0%nat by lia. rewrite (Nat.div_small (0 + csize g - 1)) by lia.
    symmetry. apply (Nat.div_unique _ _ 1 (n - 1)); lia.
Qed.

(** The bytes of a chain. *)
Definition content (D : Z -> list Z) (l : list Z) : list Z := concat (map D l).

Lemma content_ext D D' l : agree l D D' -> content D l = content D' l.
Proof. intros H. unfold content. f_equal. apply map_ext_in. intros x Hx. by apply H, list_elem_of_In. Qed.

(** Fresh clusters: distinct, valid and free. *)
Definition fresh_in (g : geometry) (L : Z -> Z) (cs : list Z) : Prop :=
  NoDup cs /\ Forall (fun c => valid g c /\ L c = 0) cs.

(** What does not change while [cs] is written: the used clusters, but for
    the link of [prev]. *)
Definition outside {A} (g : geometry) (cs : list Z) (f f' : Z -> A) : Prop :=
  forall x, valid g x -> x ∉ cs -> f' x = f x.

Definition head_or (v : Z) (l : list Z) : Z := match l with [] => v | x :: _ => x end.

Record written (g : geometry) (L : Z -> Z) (D : Z -> list Z) (w : chars) (cs : list Z)
    (L' : Z -> Z) (D' : Z -> list Z) : Prop := mk_written {
  w_fresh : fresh_in g L cs;
  w_chain : chain g L' (head_or EOC cs) cs;
  w_bytes : exists z, content D' cs = w ++ replicate z 0;
  w_count : length cs = needed g (length w);
  w_data : outside g cs D D';
}.

(** The disk is full after the clusters [cs]. *)
Record ran_out (g : geometry) (L : Z -> Z) (D : Z -> list Z) (w : chars) (cs : list Z)
    (D' : Z -> list Z) : Prop := mk_ran_out {
  o_fresh : fresh_in g L cs;
  o_short : (length cs < needed g (length w))%nat;
  o_full : all_free_in g L cs;
  o_data : outside g cs D D';
}.

(** One turn of the write loop after a successful allocation of [c]. *)
Lemma write_turn g L D s c prev w :
  vol_is s g (upd c EOC L) D -> valid g c -> L c = 0 -> w <> [] -> prev = 0 \/ valid g prev /\ L prev = EOC ->
  exists s1 s2 s3 : fatst,
    (if prev =? 0 then Ret (0, s) else fat_set prev c s) = Ret (0, s1) /\
    clear_cluster s1 = Ret s2 /\
    cluster_bytes s2 = Z.of_nat (csize g) /\
    write_cluster c (set_cbuf (wr (cluster_buf s2) 0 (take (csize g) w)) s2) = Ret (0, s3) /\
    cluster_bytes s3 = Z.of_nat (csize g) /\
    vol_is s3 g (if prev =? 0 then upd c EOC L else upd prev c (upd c EOC L))
      (upd c (take (csize g) w ++ replicate (csize g - length w) 0) D).
Proof.
  intros Hv Hc H0 Hw Hp.
  assert (exists s1, (if prev =? 0 then Ret (0, s) else fat_set prev c s) = Ret (0, s1) /\
    vol_is s1 g (if prev =? 0 then upd c EOC L else upd prev c (upd c EOC L)) D) as (s1 & E1 & Hv1).
  { destruct (Z.eqb_spec prev 0) as [->|Hne]; [by exists s|]. destruct Hp as [?|[Hp _]]; [done|].
    destruct (vol_set s g _ D prev c Hv Hp) as (s1 & E & Hv1 & _). exists s1. split; [done|].
    replace (mask28 c) with c in Hv1; [done|]. rewrite mask28_mod, Z.mod_small; [done|].
    destruct (vol_total _ _ _ _ Hv). destruct Hc. unfold EOC_MIN in *. lia. }
  destruct (vol_clear _ _ _ _ Hv1) as (s2 & E2 & Hv2 & Hz).
  pose proof (csize_bound _ _ _ _ Hv2) as Hcs.
  pose proof (v_cbuf _ (vi_sound _ _ _ _ Hv2)) as Hcb.
  assert (Hv2' : vol_is (set_cbuf (wr (cluster_buf s2) 0 (take (csize g) w)) s2) g
    (if prev =? 0 then upd c EOC L else upd prev c (upd c EOC L)) D).
  { apply (vol_fill s2 g _ D (fun b => wr b 0 (take (csize g) w))); [done|].
    intros b Hb. rewrite length_wr; rewrite ?length_take; lia. }
  destruct (vol_write _ _ _ _ c Hv2' Hc) as (s3 & E3 & Hv3 & _).
  exists s1, s2, s3. split_and!; [done | done | by eapply vol_bytes | done | by eapply vol_bytes |].
  eapply vol_ext; [| |exact Hv3]; [done|]. intros x _. unfold upd. case_decide; [|done].
  cbn [cluster_buf set_cbuf]. unfold wr. change (Z.to_nat 0) with 0%nat. rewrite take_0. cbn [app Nat.add].
  rewrite take_app, length_take, take_take, Nat.min_id. f_equal.
  rewrite take_drop_commute. replace (csize g `min` length w + (csize g - csize g `min` length w))%nat with (csize g) by lia.
  rewrite Hz, drop_replicate. f_equal. lia.
Qed.

Lemma needed_0 g : (0 < csize g)%nat -> needed g 0 = 0%nat.
Proof. intros Hc. unfold needed. apply Nat.div_small. lia. Qed.

Lemma valid_nonzero g c : valid g c -> c <> 0.
Proof. unfold valid. lia. Qed.

Lemma fresh_cons g L c prev cs :
  valid g c -> L c = 0 -> prev <> c ->
  fresh_in g (if prev =? 0 then upd c EOC L else upd prev c (upd c EOC L)) cs -> fresh_in g L (c :: cs) /\ prev ∉ cs.
Proof.
  intros Hc H0 Hp [Hn Hf]. rewrite Forall_forall in Hf.
  assert (Hne : forall x, x ∈ cs -> x <> c /\ x <> prev /\ L x = 0).
  { intros x Hx. destruct (Hf x Hx) as [Hvx Hx0]. pose proof (valid_nonzero _ _ Hc). pose proof (valid_nonzero _ _ Hvx).
    unfold upd in Hx0. destruct (Z.eqb_spec prev 0); repeat case_decide; subst; try done. }
  split.
  - split.
    + constructor; [|done]. intros Hx. by destruct (Hne c Hx).
    + constructor; [done|]. rewrite Forall_forall. intros x Hx. split; [by apply Hf | by apply Hne].
  - intros Hx. by destruct (Hne prev Hx) as (_ & ? & _).
Qed.

Lemma not_cons2 (x a b : Z) l : x ∉ a :: b :: l -> x <> a /\ x <> b /\ x ∉ l.
Proof. rewrite !not_elem_of_cons. tauto. Qed.

Lemma write_loop_spec fuel w first prev s g L D :
  vol_is s g L D -> (length w < fuel)%nat -> prev = 0 \/ valid g prev /\ L prev = EOC ->
  exists s' cs L' D', vol_is s' g L' D' /\ outside g (prev :: cs) L L' /\
  ((write_loop fuel w first prev s =
      Ret ((FAT_OK, (if first =? 0 then head_or 0 cs else first, default prev (last cs))), s') /\
    written g L D w cs L' D' /\
    (default prev (last cs) = 0 \/ valid g (default prev (last cs)) /\ L' (default prev (last cs)) = EOC) /\
    (prev <> 0 -> L' prev = head_or EOC cs)) \/
   (exists p, write_loop fuel w first prev s = Ret ((FAT_ERR_NO_SPACE, p), s')) /\ ran_out g L D w cs D').
Proof.
  revert w first prev s L D. induction fuel as [|fuel IH]; intros w first prev s L D Hv Hf Hp; [lia|].
  pose proof (csize_bound _ _ _ _ Hv) as Hcs. cbn [write_loop]. destruct w as [|b w].
  { exists s, [], L, D. split_and!; [done | by intros x |]. left. cbn [head_or last default from_option id].
    split_and!; [by destruct (Z.eqb_spec first 0) as [->|] | | done |].
    - constructor; [by split; constructor | cbn [chain head_or]; unfold EOC, EOC_MIN; lia | by exists 0%nat |
        by rewrite needed_0 by lia | by intros x].
    - intros Hne. destruct Hp as [?|[_ ?]]; done. }
  set (W := b :: w) in *. assert (HW : (0 < length W)%nat) by (unfold W; cbn [length]; lia).
  destruct (alloc_spec s g L D Hv) as [(c & s0 & -> & Hc & H0 & _ & Hv0)|(s0 & -> & Hfull & Hv0)]; cbn [mbind out_mbind].
  2: { change (0 =? 0) with true. cbv iota. exists s0, [], L, D. split_and!; [done | by intros x |]. right.
       split; [by eexists|]. constructor; [by split; constructor | | done | by intros x].
       rewrite needed_S by lia. cbn [length]. lia. }
  pose proof (valid_nonzero _ _ Hc) as Hcne. rewrite (proj2 (Z.eqb_neq c 0)) by done.
  destruct (write_turn g L D s0 c prev W Hv0 Hc H0) as (s1 & s2 & s3 & -> & E2 & Eb & E3 & Eb3 & Hv3); [done | done |].
  cbn [mbind out_mbind]. change (0 =? 0) with true. cbn [negb]. rewrite E2. cbn [mbind out_mbind].
  rewrite Eb, Nat2Z.id, E3. cbn [mbind out_mbind]. change (0 =? 0) with true. cbn [negb]. rewrite Eb3, Nat2Z.id.
  set (L1 := if prev =? 0 then _ else _) in *. set (chunk := take (csize g) W ++ _) in *.
  assert (Hpc : prev <> c) by (intros ->; destruct Hp as [?|[_ Hp]]; [done | rewrite H0 in Hp; done]).
  assert (HL1c : L1 c = EOC) by (unfold L1; destruct (prev =? 0); rewrite ?(upd_ne prev) by auto; apply upd_eq).
  destruct (IH (drop (csize g) W) (if first =? 0 then c else first) c s3 L1 (upd c chunk D) Hv3)
    as (s' & cs & L' & D' & Hv' & Hout & Hres); [rewrite length_drop; lia | by right |].
  assert (HfN : ((if first =? 0 then c else first) =? 0) = false)
    by (destruct (Z.eqb_spec first 0); apply Z.eqb_neq; done).
  rewrite HfN in Hres.
  assert (Hfr : fresh_in g L1 cs) by (destruct Hres as [(_ & [] & _)|(_ & [])]; done).
  destruct (fresh_cons g L c prev cs Hc H0 Hpc Hfr) as [Hfr' Hpcs].
  assert (Hout' : outside g (prev :: c :: cs) L L').
  { intros x Hx (Hxp & Hxc & Hxcs)%not_cons2. rewrite Hout by (done || by rewrite not_elem_of_cons).
    unfold L1. destruct (prev =? 0); by rewrite ?upd_ne. }
  assert (Hlst : default prev (last (c :: cs)) = default c (last cs)) by (rewrite last_cons; by destruct (last cs)).
  exists s', (c :: cs), L', D'. split_and!; [done | done |].
  assert (Hccs : c ∉ cs) by (destruct Hfr' as [Hn _]; by apply NoDup_cons in Hn as [? _]).
  destruct Hres as [(E & Hw & Hlast & Hlink)|([p E] & Ho)].
  - left. split_and!.
    + rewrite E, Hlst. cbn [head_or]. by destruct (first =? 0).
    + destruct Hw as [_ Hch [z Hb] Hn Hd]. constructor; auto.
      * cbn [head_or chain]. split_and!; auto. rewrite Hlink by done. done.
      * unfold content in *. cbn [map concat]. rewrite Hb, Hd by done. rewrite upd_eq.
        unfold chunk. destruct (Nat.le_gt_cases (length W) (csize g)).
        -- rewrite take_ge, drop_ge by lia. exists (csize g - length W + z)%nat. cbn [app].
           by rewrite <- app_assoc, <- replicate_add.
        -- replace (csize g - length W)%nat with 0%nat by lia. cbn [replicate]. exists z.
           by rewrite app_nil_r, app_assoc, take_drop.
      * cbn [length]. rewrite Hn, length_drop. change (length (b :: w)) with (length W).
        rewrite (needed_S g (length W)) by lia. done.
      * intros x Hx [Hxc Hxcs]%not_elem_of_cons. rewrite Hd by done. by apply upd_ne.
    + by rewrite Hlst.
    + intros Hne. cbn [head_or]. rewrite Hout; [|by destruct Hp as [?|[? _]] | by rewrite not_elem_of_cons].
      unfold L1. rewrite (proj2 (Z.eqb_neq prev 0)) by done. apply upd_eq.
  - right. split; [by exists p|]. destruct Ho as [_ Hs Hfu Hd]. constructor; auto.
    + cbn [length]. rewrite length_drop in Hs. rewrite (needed_S g (length W)) by lia. lia.
    + intros x Hx Hx0. destruct (decide (x = c)) as [->|]; [apply list_elem_of_here|]. apply list_elem_of_further, Hfu; [done|].
      assert (x <> prev) by (intros ->; destruct Hp as [->|[_ Hp]]; [destruct Hx; lia | rewrite Hx0 in Hp; done]).
      unfold L1. by destruct (prev =? 0); rewrite ?upd_ne by auto.
    + intros x Hx [Hxc Hxcs]%not_elem_of_cons. rewrite Hd by done. by apply upd_ne.
Qed.

(** [write_data] builds a chain of fresh clusters that holds the bytes,
    padded with zeros, and touches no used cluster; or it runs out of free
    clusters. *)
Lemma write_data_spec w s g L D :
  vol_is s g L D ->
  exists s' cs L' D', vol_is s' g L' D' /\ outside g cs L L' /\
  ((write_data w s = Ret ((FAT_OK, head_or 0 cs), s') /\ written g L D w cs L' D') \/
   (exists f, write_data w s = Ret ((FAT_ERR_NO_SPACE, f), s')) /\ ran_out g L D w cs D').
Proof.
  intros Hv. unfold write_data.
  destruct (write_loop_spec (S (length w)) w 0 0 s g L D Hv) as (s1 & cs & L1 & D1 & Hv1 & Hout & Hres);
    [lia | by left |].
  assert (Hout' : outside g cs L L1).
  { intros x Hx Hni. apply Hout; [done|]. apply not_elem_of_cons. split; [by apply valid_nonzero in Hx | done]. }
  destruct Hres as [(-> & Hw & Hlast & _)|([[a b] ->] & Ho)]; cbn [mbind out_mbind].
  2: { rewrite bool_decide_false by done. exists s1, cs, L1, D1. split_and!; auto. right. split; [by eexists | done]. }
  rewrite bool_decide_true by done. change (0 =? 0) with true. cbv iota.
  destruct (Z.eqb_spec (default 0 (last cs)) 0) as [E|E].
  { exists s1, cs, L1, D1. split_and!; auto. }
  destruct Hlast as [?|[Hvl Hl]]; [done|].
  destruct (vol_set s1 g L1 D1 _ EOC Hv1 Hvl) as (s2 & E2 & Hv2 & _). unfold EOC in E2 at 1. rewrite E2.
  cbn [mbind out_mbind]. change (negb (0 =? 0)) with false. cbv iota.
  exists s2, cs, L1, D1. split_and!; auto. eapply vol_ext; [| |exact Hv2]; [|done].
  intros x _. unfold upd. case_decide; [|done]. subst x. by rewrite Hl.
Qed.

(** ** Reading *)

(** The clusters of a directory entry: none when it names no cluster. *)
Definition fchain (g : geometry) (L : Z -> Z) (c : Z) (l : list Z) : Prop :=
  (l = [] /\ 0 <= c < 2) \/ (l <> [] /\ chain g L c l).

Lemma fchain_ext g L L' c l : agree l L L' -> fchain g L c l -> fchain g L' c l.
Proof. intros Ha [H|[Hn H]]; [by left | right]. split; [done | by eapply chain_ext]. Qed.
Lemma fchain_live g L c l x : fchain g L c l -> x ∈ l -> valid g x /\ L x <> 0.
Proof.
  intros [[-> _]|[_ H]] Hx; [by apply not_elem_of_nil in Hx|]. split; [by eapply chain_valid | by eapply chain_live].
Qed.

(** A walk stands at the clusters [l]. *)
Definition at_chain (g : geometry) (L : Z -> Z) (c : Z) (l : list Z) : Prop :=
  (l = [] /\ chain_cluster c = false) \/ chain g L c l.

Lemma fchain_at g L c l : fchain g L c l -> at_chain g L c l.
Proof.
  intros [[-> H]|[_ H]]; [left | by right]. split; [done|]. unfold chain_cluster. by rewrite (proj2 (Z.leb_gt _ _)) by lia.
Qed.

Lemma at_nil g L c : at_chain g L c [] -> chain_cluster c = false.
Proof. intros [[_ H]|H]; [done | by apply end_not_cluster]. Qed.
Lemma at_cons g L c x l : at_chain g L c (x :: l) -> c = x /\ valid g x /\ at_chain g L (L x) l.
Proof. intros [[? _]|(-> & Hx & H)]; [done|]. split_and!; auto. by right. Qed.

(** The first [k] bytes of a chain, a cluster and the rest. *)
Lemma take_content D x l n k :
  length (D x) = n ->
  take k (content D (x :: l)) = take (k `min` n) (D x) ++ take (k - n) (content D l).
Proof.
  intros Hl. unfold content. cbn [map concat]. rewrite take_app, Hl. f_equal.
  destruct (Nat.le_gt_cases k n); [by rewrite Nat.min_l by lia | by rewrite !take_ge by lia].
Qed.

Lemma read_loop_spec fuel c l rem bs acc s g L D :
  vol_is s g L D -> at_chain g L c l -> 0 <= rem -> Z.of_nat (length acc) <= bs ->
  (0 < fuel)%nat -> (0 < Z.min rem (bs - Z.of_nat (length acc)) ->
    Z.min rem (bs - Z.of_nat (length acc)) / 512 + 2 <= Z.of_nat fuel) ->
  exists s', read_loop fuel c rem bs acc s =
    Ret ((FAT_OK, acc ++ take (Z.to_nat (Z.min rem (bs - Z.of_nat (length acc)))) (content D l)), s') /\
    vol_is s' g L D.
Proof.
  revert c l rem acc s. induction fuel as [|fuel IH]; intros c l rem acc s Hv Hc Hr Ha Hf0 Hf; [lia|].
  cbn [read_loop]. destruct l as [|x l].
  { rewrite (at_nil _ _ _ Hc). cbn [andb]. exists s. change (content D []) with (@nil Z). by rewrite take_nil, app_nil_r. }
  destruct (at_cons _ _ _ _ _ Hc) as (-> & Hx & Hc'). rewrite (valid_chain_cluster _ _ _ _ _ Hv Hx). cbn [andb].
  set (m := Z.min rem (bs - Z.of_nat (length acc))) in *.
  destruct (Z.ltb_spec 0 rem); cbn [andb].
  2: { exists s. replace (Z.to_nat m) with 0%nat by lia. by rewrite take_0, app_nil_r. }
  destruct (Z.ltb_spec (Z.of_nat (length acc)) bs).
  2: { exists s. replace (Z.to_nat m) with 0%nat by lia. by rewrite take_0, app_nil_r. }
  destruct (vol_read _ _ _ _ x Hv Hx) as (s1 & -> & Hv1 & Hb). cbn [mbind out_mbind].
  change (negb (0 =? 0)) with false. cbv iota. rewrite (vol_bytes _ _ _ _ Hv1).
  pose proof (csize_bound _ _ _ _ Hv) as Hcs. pose proof (cdata_length _ _ _ _ x Hv Hx) as Hlen.
  set (chunk := Z.min (Z.min _ _) _).
  assert (Hm : chunk = Z.min m (Z.of_nat (csize g))) by lia. clearbody chunk.
  destruct (vol_get _ _ _ _ x Hv1 Hx) as (s2 & -> & Hv2). cbn [mbind out_mbind].
  assert (Hcb : take (Z.to_nat chunk) (cluster_buf s1) = take (Z.to_nat m `min` csize g) (D x)).
  { rewrite <- Hb, take_take. f_equal. lia. }
  assert (Hl' : length (acc ++ take (Z.to_nat chunk) (cluster_buf s1)) = (length acc + Z.to_nat chunk)%nat).
  { rewrite length_app, Hcb, length_take, Hlen. lia. }
  assert (Hm' : Z.min (rem - chunk) (bs - Z.of_nat (length acc + Z.to_nat chunk)) = m - chunk) by lia.
  destruct (IH (L x) l (rem - chunk) (acc ++ take (Z.to_nat chunk) (cluster_buf s1)) s2 Hv2 Hc') as (s3 & -> & Hv3);
    rewrite ?Hl', ?Hm'; try lia.
  { assert (0 <= m / 512) by (apply Z.div_pos; lia). lia. }
  { intros Hpos. assert ((m - chunk) / 512 <= (m - 512) / 512) by (apply Z.div_le_mono; lia).
    assert ((m - 512) / 512 = m / 512 - 1) by (replace (m - 512) with (m + (-1) * 512) by lia; rewrite Z.div_add; lia).
    lia. }
  exists s3. split; [|done]. rewrite (take_content D x l (csize g)) by done. rewrite <- app_assoc, Hcb. by replace (Z.to_nat (m - chunk)) with (Z.to_nat m - csize g)%nat by lia.
Qed.

End Fat32Chain.
