(* ===== verification/Fat32Dir.v ===== *)
(** * The FAT32 driver: the root directory as one list of entries

    The entries of the clusters of the root directory, in order, with the
    place of each ([dslots]).  The walks of fat32.c over clusters and offsets
    are scans of that list ([iterate_spec], [slot_loop_spec]), and storing an
    entry replaces one element of it ([dslots_put]). *)

From S2P Require Import Prelude Memory Ata Fat32 Fat32Spec Fat32Vol Fat32Chain.
Import Ata Fat32 Fat32Spec Fat32Vol Fat32Chain.

Module Fat32Dir.

Definition slot : Type := Z * Z * fat_dirent.
Definition entry (x : slot) : fat_dirent := snd x.
Definition place (x : slot) : Z * Z := fst x.
Definition lead (x : slot) : Z := first_byte (entry x).

Fixpoint slots_from (c : Z) (b : list Z) (off : Z) (n : nat) : list slot :=
  match n with
  | O => []
  | S n' => (c, off, dirent_at b off) :: slots_from c b (off + 32) n'
  end.

Definition epc (g : geometry) : nat := (csize g / 32)%nat.
Definition cslots (g : geometry) (c : Z) (b : list Z) : list slot := slots_from c b 0 (epc g).
Definition dslots (g : geometry) (D : Z -> list Z) (rl : list Z) : list slot :=
  concat (map (fun c => cslots g c (D c)) rl).

(** ** Entries of a cluster *)

Lemma char_at_take (l : chars) n i : (i < n)%nat -> char_at (take n l) i = char_at l i.
Proof. intros H. unfold char_at. by rewrite lookup_take_lt. Qed.

Lemma im8_take b n i : 0 <= i < Z.of_nat n -> im8 (take n b) i = im8 b i.
Proof. intros H. unfold im8. by rewrite !list_lookup_total_alt, lookup_take_lt by lia. Qed.

Lemma dirent_at_take b n off :
  0 <= off -> off + 32 <= Z.of_nat n -> dirent_at (take n b) off = dirent_at b off.
Proof.
  intros H0 H1. unfold dirent_at, im32, im16. rewrite !im8_take by lia. f_equal.
  replace n with (Z.to_nat off + (n - Z.to_nat off))%nat at 1 by lia.
  rewrite <- take_drop_commute, take_take. do 2 f_equal. lia.
Qed.

Lemma slots_from_take c b m off n :
  0 <= off -> off + 32 * Z.of_nat n <= Z.of_nat m -> slots_from c (take m b) off n = slots_from c b off n.
Proof.
  revert off. induction n as [|n IH]; intros off H0 H1; cbn [slots_from]; [done|].
  rewrite dirent_at_take, IH by lia. done.
Qed.

Lemma epc_bound g : 32 * Z.of_nat (epc g) <= Z.of_nat (csize g).
Proof. unfold epc. pose proof (Nat.Div0.mul_div_le (csize g) 32). lia. Qed.

Lemma epc_least g : (512 <= csize g)%nat -> (16 <= epc g)%nat.
Proof. intros H. unfold epc. change 16%nat with (512 / 32)%nat. apply Nat.Div0.div_le_mono. lia. Qed.

Lemma cslots_take g c b : cslots g c (take (csize g) b) = cslots g c b.
Proof. unfold cslots. apply slots_from_take; [done|]. pose proof (epc_bound g). lia. Qed.

Lemma vol_entries s g L D : vol_is s g L D -> entries_per_cluster s = epc g.
Proof.
  intros Hv. unfold entries_per_cluster, epc. rewrite (vol_bytes _ _ _ _ Hv).
  change 32 with (Z.of_nat 32). by rewrite <- Nat2Z.inj_div, Nat2Z.id.
Qed.

Lemma slots_from_elem c b off n x :
  x ∈ slots_from c b off n -> exists i, (i < n)%nat /\ x = (c, off + 32 * Z.of_nat i, dirent_at b (off + 32 * Z.of_nat i)).
Proof.
  revert off. induction n as [|n IH]; intros off; cbn [slots_from]; [by intros ?%not_elem_of_nil|].
  intros [->|Hx]%elem_of_cons.
  - exists 0%nat. split; [lia|]. by rewrite Z.add_0_r.
  - destruct (IH _ Hx) as (i & Hi & ->). exists (S i). split; [lia|].
    by replace (off + 32 + 32 * Z.of_nat i) with (off + 32 * Z.of_nat (S i)) by lia.
Qed.

(** ** The scans on the list *)

Fixpoint dscan {C} (fn : fat_dirent -> C -> Z * C) (l : list slot) (ctx : C) : (Z * C) + C :=
  match l with
  | [] => inr ctx
  | x :: l' =>
      if lead x =? 0 then inl (0, ctx)
      else if skipped (entry x) then dscan fn l' ctx
      else let '(r, ctx) := fn (entry x) ctx in
           if negb (r =? 0) then inl (r, ctx) else dscan fn l' ctx
  end.

Lemma scan_dir_list {C} (fn : fat_dirent -> C -> Z * C) c b off n ctx :
  scan_dir fn b off n ctx = dscan fn (slots_from c b off n) ctx.
Proof.
  revert off ctx. induction n as [|n IH]; intros off ctx; cbn [scan_dir slots_from dscan]; [done|].
  unfold lead, entry. cbn [snd]. destruct (_ =? 0); [done|]. destruct (skipped _); [apply IH|].
  destruct (fn _ ctx) as [r ctx']. by destruct (negb _).
Qed.

Lemma dscan_app {C} (fn : fat_dirent -> C -> Z * C) l1 l2 ctx :
  dscan fn (l1 ++ l2) ctx = match dscan fn l1 ctx with inl r => inl r | inr ctx => dscan fn l2 ctx end.
Proof.
  revert ctx. induction l1 as [|x l1 IH]; intros ctx; cbn [app dscan]; [done|].
  destruct (_ =? 0); [done|]. destruct (skipped _); [apply IH|].
  destruct (fn _ ctx) as [r ctx']. by destruct (negb _).
Qed.

(** A walk over a whole chain scans the entries of its clusters in order. *)
Lemma iterate_spec {C} fuel c l (fn : fat_dirent -> C -> Z * C) ctx s g L D :
  vol_is s g L D -> chain g L c l -> (length l < fuel)%nat ->
  exists s', iterate_loop fuel c fn ctx s =
    Ret (match dscan fn (dslots g D l) ctx with inl r => r | inr ctx => (0, ctx) end, s') /\ vol_is s' g L D.
Proof.
  revert c l ctx s. induction fuel as [|fuel IH]; intros c l ctx s Hv Hc Hf; [lia|]. cbn [iterate_loop].
  destruct l as [|x l].
  { rewrite end_not_cluster by done. by exists s. }
  destruct Hc as (-> & Hx & Hc). rewrite (valid_chain_cluster _ _ _ _ _ Hv Hx).
  destruct (vol_read _ _ _ _ x Hv Hx) as (s1 & -> & Hv1 & Hb). cbn [mbind out_mbind].
  change (negb (0 =? 0)) with false. cbv iota.
  rewrite (vol_entries _ _ _ _ Hv1), (scan_dir_list _ x). fold (cslots g x (cluster_buf s1)).
  rewrite <- cslots_take, Hb. unfold dslots. cbn [map concat]. rewrite dscan_app.
  destruct (dscan fn (cslots g x (D x)) ctx) as [r|ctx']; [by exists s1|].
  destruct (vol_get _ _ _ _ x Hv1 Hx) as (s2 & -> & Hv2). cbn [mbind out_mbind].
  apply IH; auto. cbn [length] in Hf. lia.
Qed.

(** ** Looking a name up *)

(** [x] is an entry in use with the name [nm]. *)
Definition hit (nm : chars) (x : slot) : Prop := skipped (entry x) = false /\ de_name (entry x) = nm.
#[export] Instance hit_dec nm x : Decision (hit nm x).
Proof. unfold hit. apply _. Defined.

Definition in_use (x : slot) : Prop := lead x <> 0.
Definition unused (x : slot) : Prop := lead x = 0.

(** The first element with a property, if any. *)
Lemma first_split {A} (P : A -> Prop) `{!forall x, Decision (P x)} (l : list A) :
  (exists pre x post, l = pre ++ x :: post /\ P x /\ Forall (fun y => ~ P y) pre) \/ Forall (fun y => ~ P y) l.
Proof.
  induction l as [|x l [(pre & y & post & -> & Hy & Hp)|Hl]]; [by right | |].
  - destruct (decide (P x)); [left; by exists [], x, (pre ++ y :: post) | left].
    exists (x :: pre), y, post. split_and!; auto.
  - destruct (decide (P x)); [left; by exists [], x, l | right; by constructor].
Qed.

Lemma dscan_miss name l :
  Forall in_use l -> Forall (fun y => ~ hit (name_to_83 name) y) l -> dscan (find_cb name) l None = inr None.
Proof.
  induction 1 as [|x l Hx _ IH]; intros Hm; [done|]. apply Forall_cons in Hm as [Hxm Hm]. cbn [dscan].
  rewrite (proj2 (Z.eqb_neq (lead x) 0)) by done. destruct (skipped (entry x)) eqn:Es; [auto|].
  unfold find_cb at 1, dirent_match. rewrite bool_decide_false; [change (negb (0 =? 0)) with false; auto|].
  intros E. by apply Hxm.
Qed.

Lemma dscan_unused name l (fc : option fat_dirent) :
  Forall unused l -> match dscan (find_cb name) l fc with inl r => r | inr ctx => (0, ctx) end = (0, fc).
Proof. intros [|x l' Hx _]; cbn [dscan]; [done|]. unfold unused in Hx. by rewrite Hx. Qed.

Lemma dscan_hit name pre x post :
  Forall in_use (pre ++ [x]) -> Forall (fun y => ~ hit (name_to_83 name) y) pre -> hit (name_to_83 name) x ->
  dscan (find_cb name) (pre ++ x :: post) None = inl (1, Some (entry x)).
Proof.
  intros [Hu Hx]%Forall_app Hm [Hs Hn]. apply Forall_cons in Hx as [Hx _]. rewrite dscan_app, dscan_miss by done. cbn [dscan].
  rewrite (proj2 (Z.eqb_neq (lead x) 0)) by exact Hx. rewrite Hs. unfold find_cb at 1, dirent_match.
  by rewrite bool_decide_true.
Qed.

(** ** Looking for a slot *)

Fixpoint sscan (l : list slot) (sc : slot_ctx) : bool * slot_ctx :=
  match l with
  | [] => (false, sc)
  | x :: l' =>
      if negb (lead x =? 0) && negb (skipped (entry x)) && bool_decide (de_name (entry x) = want sc)
      then (true, mk_slot (want sc) (fst (place x)) (snd (place x)) true (Some (entry x)))
      else if negb (found sc) && ((lead x =? 0) || (lead x =? 0xE5)) then
        let sc := mk_slot (want sc) (fst (place x)) (snd (place x)) true (existing sc) in
        if lead x =? 0 then (true, sc) else sscan l' sc
      else sscan l' sc
  end.

Lemma scan_slots_list c b off n sc : scan_slots c b off n sc = sscan (slots_from c b off n) sc.
Proof.
  revert off sc. induction n as [|n IH]; intros off sc; cbn [scan_slots slots_from sscan]; [done|].
  unfold lead, entry, place. cbn [snd fst]. destruct (_ && _); [done|]. destruct (_ && _); [|apply IH].
  destruct (_ =? 0); [done | apply IH].
Qed.

Lemma sscan_app l1 l2 sc :
  sscan (l1 ++ l2) sc = let '(stop, sc) := sscan l1 sc in if stop : bool then (true, sc) else sscan l2 sc.
Proof.
  revert sc. induction l1 as [|x l1 IH]; intros sc; cbn [app sscan]; [done|].
  destruct (_ && _); [done|]. destruct (_ && _); [|apply IH]. destruct (_ =? 0); [done | apply IH].
Qed.

(** The loop over the clusters: the scan of all entries, and at the end of
    the chain, with no slot found, a new cluster. *)
Lemma slot_loop_spec fuel c l sc s g L D :
  vol_is s g L D -> chain g L c l -> l <> [] -> (length l < fuel)%nat ->
  exists s', vol_is s' g L D /\
    slot_loop fuel c sc s =
    let '(stop, sc) := sscan (dslots g D l) sc in
    if stop || found sc then Ret ((0, sc), s') else extend_root (default 0 (last l)) sc s'.
Proof.
  revert c l sc s. induction fuel as [|fuel IH]; intros c l sc s Hv Hc Hne Hf; [lia|]. cbn [slot_loop].
  destruct l as [|x l]; [done|]. destruct Hc as (-> & Hx & Hc). rewrite (valid_chain_cluster _ _ _ _ _ Hv Hx).
  destruct (vol_read _ _ _ _ x Hv Hx) as (s1 & -> & Hv1 & Hb). cbn [mbind out_mbind].
  change (negb (0 =? 0)) with false. cbv iota.
  rewrite (vol_entries _ _ _ _ Hv1), scan_slots_list. fold (cslots g x (cluster_buf s1)).
  rewrite <- cslots_take, Hb. unfold dslots. cbn [map concat]. rewrite sscan_app.
  destruct (sscan (cslots g x (D x)) sc) as [stop sc1]. destruct stop; [by exists s1|].
  destruct (vol_get _ _ _ _ x Hv1 Hx) as (s2 & -> & Hv2). cbn [mbind out_mbind].
  destruct l as [|y l].
  - cbn [chain] in Hc. rewrite (proj2 (Z.leb_le _ _)) by done. exists s2. split; [done|].
    cbn [map concat sscan last]. by destruct (found sc1).
  - pose proof Hc as (Hy & Hvy & _). destruct (vol_total _ _ _ _ Hv). rewrite (proj2 (Z.leb_gt _ _))
      by (rewrite Hy; destruct Hvy; lia).
    destruct (IH (L x) (y :: l) sc1 s2 Hv2 Hc) as (s3 & Hv3 & ->); [done | cbn [length] in *; lia |].
    exists s3. split; [done|]. done.
Qed.

(** A hit is taken where it is. *)
Lemma sscan_hit pre x post sc :
  Forall in_use (pre ++ [x]) -> Forall (fun y => ~ hit (want sc) y) pre -> hit (want sc) x ->
  sscan (pre ++ x :: post) sc =
  (true, mk_slot (want sc) (fst (place x)) (snd (place x)) true (Some (entry x))).
Proof.
  revert sc. induction pre as [|y pre IH]; intros sc Hu Hm [Hs Hn]; cbn [app sscan].
  - apply Forall_cons in Hu as [Hu _]. rewrite (proj2 (Z.eqb_neq (lead x) 0)) by done. by rewrite Hs, bool_decide_true.
  - cbn [app] in Hu. apply Forall_cons in Hu as [Hy Hu]. apply Forall_cons in Hm as [Hym Hm].
    rewrite (proj2 (Z.eqb_neq (lead y) 0)) by done. cbn [negb andb orb].
    assert (negb (skipped (entry y)) && bool_decide (de_name (entry y) = want sc) = false) as ->.
    { destruct (skipped (entry y)) eqn:Es; [done|]. cbn [negb andb]. apply bool_decide_false. intros E. by apply Hym. }
    destruct (_ && _); [|by apply IH]. by rewrite IH.
Qed.

(** Past the slot there is nothing to find. *)
Lemma sscan_found l sc :
  found sc = true -> Forall (fun y => unused y \/ ~ hit (want sc) y) l -> sscan l sc = (false, sc).
Proof.
  intros Hf. induction 1 as [|y l Hy _ IH]; cbn [sscan]; [done|].
  assert (negb (lead y =? 0) && negb (skipped (entry y)) && bool_decide (de_name (entry y) = want sc) = false) as ->.
  { destruct (Z.eqb_spec (lead y) 0); [done|]. destruct Hy as [?|Hy]; [done|].
    destruct (skipped (entry y)) eqn:Es; [done|]. cbn [negb andb]. apply bool_decide_false. intros E. by apply Hy. }
  rewrite Hf. exact IH.
Qed.

(** An entry that can be reused: never used or deleted. *)
Definition reusable (x : slot) : Prop := lead x = 0 \/ lead x = 0xE5.
#[export] Instance reusable_dec x : Decision (reusable x).
Proof. unfold reusable. apply _. Defined.

Lemma sscan_busy l sc :
  Forall (fun y => ~ reusable y /\ ~ hit (want sc) y) l -> sscan l sc = (false, sc).
Proof.
  induction 1 as [|y l [Hr Hy] _ IH]; cbn [sscan]; [done|]. unfold reusable in Hr.
  rewrite (proj2 (Z.eqb_neq (lead y) 0)), (proj2 (Z.eqb_neq (lead y) 0xE5)) by tauto. cbn [orb negb andb].
  rewrite andb_false_r.
  assert (negb (skipped (entry y)) && bool_decide (de_name (entry y) = want sc) = false) as ->; [|done].
  destruct (skipped (entry y)) eqn:Es; [done|]. cbn [negb andb]. apply bool_decide_false. intros E. by apply Hy.
Qed.

(** Without a hit the first reusable entry is taken. *)
Lemma sscan_reuse pre x post sc :
  Forall (fun y => ~ reusable y /\ ~ hit (want sc) y) pre -> reusable x ->
  Forall (fun y => unused y \/ ~ hit (want sc) y) (x :: post) -> found sc = false ->
  exists stop, sscan (pre ++ x :: post) sc =
    (stop, mk_slot (want sc) (fst (place x)) (snd (place x)) true (existing sc)).
Proof.
  intros Hp Hx Hpost Hf. rewrite sscan_app, sscan_busy by done. apply Forall_cons in Hpost as [Hxh Hpost]. cbn [sscan].
  assert (negb (lead x =? 0) && negb (skipped (entry x)) && bool_decide (de_name (entry x) = want sc) = false) as ->.
  { destruct (Z.eqb_spec (lead x) 0); [done|]. destruct Hxh as [?|Hxh]; [done|].
    destruct (skipped (entry x)) eqn:Es; [done|]. cbn [negb andb]. apply bool_decide_false. intros E. by apply Hxh. }
  rewrite Hf. cbn [negb andb]. destruct Hx as [E|E]; rewrite E; cbn [Z.eqb orb Pos.eqb]; [by exists true|].
  exists false. by apply sscan_found.
Qed.

(** ** Storing an entry *)

Lemma name_bytes b off :
  0 <= off -> off + 11 <= Z.of_nat (length b) ->
  map u8 (take 11 (drop (Z.to_nat off) b)) = map (fun i => im8 b (off + i)) [0; 1; 2; 3; 4; 5; 6; 7; 8; 9; 10].
Proof.
  intros H0 H1. apply list_eq. intros i. destruct (Nat.lt_ge_cases i 11) as [Hi|Hi].
  - rewrite !list_lookup_fmap, lookup_take_lt, lookup_drop by done.
    assert ([0; 1; 2; 3; 4; 5; 6; 7; 8; 9; 10] !! i = Some (Z.of_nat i)) as -> by (do 11 (destruct i as [|i]; [done|]); lia).
    cbn [fmap option_fmap option_map]. unfold im8. rewrite list_lookup_total_alt.
    replace (Z.to_nat (off + Z.of_nat i)) with (Z.to_nat off + i)%nat by lia.
    destruct (lookup_lt_is_Some_2 b (Z.to_nat off + i)) as [x ->]; [lia|]. done.
  - rewrite !lookup_ge_None_2; [done | |]; rewrite ?length_map, ?length_take; cbn [length]; lia.
Qed.

(** The bytes from [off'] on are the same in both arrays. *)
Lemma dirent_at_ext b b' off :
  0 <= off -> off + 32 <= Z.of_nat (length b) -> off + 32 <= Z.of_nat (length b') ->
  (forall i, off <= i < off + 32 -> im8 b' i = im8 b i) -> dirent_at b' off = dirent_at b off.
Proof.
  intros H0 H1 H2 H. unfold dirent_at. rewrite !name_bytes by lia. unfold im32, im16. rewrite !H by lia. f_equal.
  apply map_ext_in. intros i Hi. apply H. cbn [In] in Hi. lia.
Qed.

Lemma dirent_at_wr_ne b off w off' :
  0 <= off -> off + Z.of_nat (length w) <= Z.of_nat (length b) -> 0 <= off' -> off' + 32 <= Z.of_nat (length b) ->
  off' + 32 <= off \/ off + Z.of_nat (length w) <= off' -> dirent_at (wr b off w) off' = dirent_at b off'.
Proof.
  intros H0 H1 H2 H3 Hd. apply dirent_at_ext; rewrite ?length_wr by done; try done.
  intros i Hi. rewrite im8_wr by lia. by rewrite decide_False by lia.
Qed.

(** An entry with fields in range. *)
Definition dirent_ok (de : fat_dirent) : Prop :=
  length (de_name de) = 11%nat /\ Forall (fun c => 0 <= c < 256) (de_name de) /\ 0 <= attr de < 256 /\
  0 <= first_cluster_hi de < 65536 /\ 0 <= first_cluster_lo de < 65536 /\ in_u32 (file_size de).

Lemma dirent_bytes_length de : length (de_name de) = 11%nat -> length (dirent_bytes de) = 32%nat.
Proof. intros H. unfold dirent_bytes. rewrite !length_app, H. done. Qed.

Lemma dirent_at_wr_eq b off de :
  dirent_ok de -> 0 <= off -> off + 32 <= Z.of_nat (length b) -> dirent_at (wr b off (dirent_bytes de)) off = de.
Proof.
  intros (Hl & Hn & Ha & Hh & Hlo & Hf) H0 H1. pose proof (dirent_bytes_length de Hl) as Hb.
  assert (Hi : forall k, 0 <= k < 32 -> im8 (wr b off (dirent_bytes de)) (off + k) = u8 (dirent_bytes de !!! Z.to_nat k)).
  { intros k Hk. rewrite im8_wr by lia. rewrite decide_True by lia. do 2 f_equal. lia. }
  unfold dirent_at. rewrite name_bytes by (rewrite ?length_wr by lia; lia).
  unfold im32, im16. rewrite <- !Z.add_assoc. rewrite !Hi by lia. cbn [map]. rewrite !Hi by lia.
  destruct de as [nm a hi lo sz]. cbn [de_name attr first_cluster_hi first_cluster_lo file_size] in *.
  do 11 (destruct nm as [|? nm]; [done|]). destruct nm; [|done].
  unfold dirent_bytes. cbn [de_name attr first_cluster_hi first_cluster_lo file_size app replicate map le16 le32].
  repeat match goal with |- context [Z.to_nat ?e] => let n := eval cbv in (Z.to_nat e) in change (Z.to_nat e) with n end.
  cbn [lookup_total list_lookup_total].
  rewrite !u8_u8. repeat (apply Forall_cons in Hn as [? Hn]). rewrite !u8_small by done.
  f_equal.
  - unfold u8. zlia.
  - unfold u8. zlia.
  - rewrite <- (u32_small sz Hf) at 5. rewrite <- bytes_u32. lia.
Qed.

(** The element at [p] replaced. *)
Definition put (p : Z * Z) (de : fat_dirent) (x : slot) : slot := if decide (place x = p) then (p, de) else x.

Lemma slots_from_put c b b' o de off n :
  (forall i, (i < n)%nat -> dirent_at b' (off + 32 * Z.of_nat i) =
     if decide (off + 32 * Z.of_nat i = o) then de else dirent_at b (off + 32 * Z.of_nat i)) ->
  slots_from c b' off n = map (put (c, o) de) (slots_from c b off n).
Proof.
  revert off. induction n as [|n IH]; intros off H; cbn [slots_from map]; [done|]. f_equal.
  - specialize (H 0%nat ltac:(lia)). rewrite Z.add_0_r in H. rewrite H. unfold put. cbn [place fst].
    destruct (decide (off = o)) as [->|Hne]; [by rewrite decide_True | by rewrite decide_False by congruence].
  - apply IH. intros i Hi. specialize (H (S i) ltac:(lia)).
    by replace (off + 32 + 32 * Z.of_nat i) with (off + 32 * Z.of_nat (S i)) by lia.
Qed.

Lemma map_put_ne p de l : Forall (fun x => place x <> p) l -> map (put p de) l = l.
Proof. induction 1 as [|x l Hx _ IH]; cbn [map]; [done|]. rewrite IH. unfold put. by rewrite decide_False. Qed.

Lemma dslots_map g D c b o de rl :
  (forall i, (i < epc g)%nat -> dirent_at b (32 * Z.of_nat i) =
     if decide (32 * Z.of_nat i = o) then de else dirent_at (D c) (32 * Z.of_nat i)) ->
  dslots g (upd c b D) rl = map (put (c, o) de) (dslots g D rl).
Proof.
  intros H. unfold dslots. induction rl as [|x rl IH]; cbn [map concat]; [done|]. rewrite map_app, <- IH. f_equal.
  unfold cslots. destruct (decide (x = c)) as [->|Hne].
  - rewrite upd_eq. by apply slots_from_put.
  - rewrite upd_ne by done. symmetry. apply map_put_ne, Forall_forall. intros y (i & _ & ->)%slots_from_elem.
    cbn [place fst]. congruence.
Qed.

Lemma dslots_elem g D rl x :
  x ∈ dslots g D rl -> exists c i, c ∈ rl /\ (i < epc g)%nat /\ x = (c, 32 * Z.of_nat i, dirent_at (D c) (32 * Z.of_nat i)).
Proof.
  unfold dslots. induction rl as [|c rl IH]; cbn [map concat]; [by intros ?%not_elem_of_nil|].
  intros [Hx|Hx]%elem_of_app.
  - apply slots_from_elem in Hx as (i & Hi & ->). exists c, i. split_and!; auto using list_elem_of_here.
  - destruct (IH Hx) as (c' & i & Hc & Hi & ->). exists c', i. split_and!; auto using list_elem_of_further.
Qed.

Lemma slots_from_nodup c b off n : NoDup (map place (slots_from c b off n)).
Proof.
  revert off. induction n as [|n IH]; intros off; cbn [slots_from map]; constructor; [|apply IH].
  intros (x & Hx & (i & _ & ->)%slots_from_elem)%list_elem_of_fmap. cbn [place fst] in Hx. simplify_eq. lia.
Qed.

Lemma places_nodup g D rl : NoDup rl -> NoDup (map place (dslots g D rl)).
Proof.
  induction 1 as [|c rl Hc _ IH]; [constructor|]. unfold dslots. cbn [map concat]. rewrite map_app.
  apply NoDup_app. split_and!; [apply slots_from_nodup | | exact IH].
  intros p (x & -> & (i & _ & ->)%slots_from_elem)%list_elem_of_fmap (y & Hy & Hin)%list_elem_of_fmap.
  apply dslots_elem in Hin as (c' & j & Hc' & _ & ->). cbn [place fst] in Hy. by simplify_eq.
Qed.

(** Replacing one entry of the directory. *)
Lemma dslots_put g D rl pre x post b de :
  NoDup rl -> dslots g D rl = pre ++ x :: post ->
  (forall i, (i < epc g)%nat -> dirent_at b (32 * Z.of_nat i) =
     if decide (32 * Z.of_nat i = snd (place x)) then de else dirent_at (D (fst (place x))) (32 * Z.of_nat i)) ->
  dslots g (upd (fst (place x)) b D) rl = pre ++ (place x, de) :: post.
Proof.
  intros Hn E Hb. rewrite (dslots_map g D _ _ _ _ rl Hb), E, map_app. cbn [map].
  pose proof (places_nodup g D rl Hn) as Hp. rewrite E, map_app in Hp. cbn [map] in Hp.
  apply NoDup_app in Hp as (_ & H1 & [H2 _]%NoDup_cons).
  replace (fst (place x), snd (place x)) with (place x) by by destruct (place x).
  rewrite !map_put_ne.
  - f_equal. f_equal. unfold put. by rewrite decide_True.
  - apply Forall_forall. intros y Hy Ey. apply H2. rewrite <- Ey. by apply list_elem_of_fmap_2.
  - apply Forall_forall. intros y Hy Ey. apply (H1 (place y)); [by apply list_elem_of_fmap_2|]. rewrite Ey. left.
Qed.

Lemma dslots_ext g D D' rl : agree rl D D' -> dslots g D rl = dslots g D' rl.
Proof. intros H. unfold dslots. f_equal. apply map_ext_in. intros x Hx. f_equal. by apply H, list_elem_of_In. Qed.

Lemma dslots_snoc g D rl c : dslots g D (rl ++ [c]) = dslots g D rl ++ cslots g c (D c).
Proof. unfold dslots. rewrite map_app, concat_app. cbn [map concat]. by rewrite app_nil_r. Qed.

(** A cluster of zeros holds unused entries only. *)
Lemma zero_slots g c : Forall unused (cslots g c (replicate (csize g) 0)).
Proof.
  apply Forall_forall. intros x (i & Hi & ->)%slots_from_elem.
  unfold unused, lead, entry, first_byte, dirent_at, char_at. cbn [snd de_name].
  rewrite list_lookup_fmap, lookup_take_lt, lookup_drop by lia. pose proof (epc_bound g).
  by rewrite lookup_replicate_2 by lia.
Qed.

(** ** The entries the driver stores *)

Lemma first_cluster_new nm a c len :
  in_u32 c -> first_cluster (new_dirent nm a c len) = c.
Proof.
  intros Hc. unfold first_cluster, new_dirent, u16. cbn [first_cluster_hi first_cluster_lo].
  rewrite Z.shiftr_div_pow2 by lia. change (2 ^ 16) with 65536. change 0xFFFF with (Z.ones 16).
  rewrite Z.land_ones by lia. change (2 ^ 16) with 65536. unfold in_u32 in Hc.
  rewrite Z.mod_small by zlia. rewrite Z.shiftl_mul_pow2 by lia. change (2 ^ 16) with 65536.
  rewrite <- Z.lxor_lor, <- Z.add_nocarry_lxor; [zlia | |].
  all: change 65536 with (2 ^ 16); rewrite <- Z.shiftl_mul_pow2, <- Z.land_ones by lia;
    rewrite (Z.land_comm c), Z.land_assoc, Z.land_ones, Z.shiftl_mul_pow2, Z.mod_mul by lia; apply Z.land_0_l.
Qed.

Lemma new_dirent_ok nm a c len :
  length nm = 11%nat -> Forall (fun c => 0 <= c < 256) nm -> 0 <= a < 256 -> in_u32 len ->
  dirent_ok (new_dirent nm a c len).
Proof.
  intros Hl Hn Ha Hlen. unfold dirent_ok, new_dirent. cbn [de_name attr first_cluster_hi first_cluster_lo file_size].
  split_and!; auto; try apply u16_range; try apply Hlen; try lia;
    change 0xFFFF with (Z.ones 16); rewrite Z.land_ones by lia; apply Z.mod_pos_bound; lia.
Qed.

(** The 11 bytes of a name. *)
Lemma base_part_length n w : (length (fst (base_part n w)) <= n)%nat.
Proof.
  revert w. induction n as [|n IH]; intros [|c w]; cbn [base_part]; try (cbn; lia).
  destruct (c =? 46); [cbn; lia|]. specialize (IH w). destruct (base_part n w). cbn [fst length] in *. lia.
Qed.
Lemma name_to_83_length nm : length (name_to_83 nm) = 11%nat.
Proof.
  unfold name_to_83. pose proof (base_part_length 8 (cstr nm)). destruct (base_part 8 (cstr nm)) as [b r]. cbn [fst] in *.
  destruct r as [|c r]; [by rewrite length_app, !length_pad by (cbn [length]; lia)|].
  destruct (c =? 46); rewrite length_app, !length_pad by (rewrite ?length_map, ?length_take; cbn [length]; lia); done.
Qed.

Definition byte (c : Z) : Prop := 0 <= c < 256.

Lemma to_upper_byte c : byte c -> byte (to_upper c).
Proof. unfold byte, to_upper. intros H. destruct (Z.leb_spec 97 c), (Z.leb_spec c 122); cbn [andb]; lia. Qed.
Lemma pad_bytes n w : Forall byte w -> Forall byte (pad n w).
Proof.
  intros H. unfold pad. apply Forall_app. split; [done|]. apply Forall_replicate. unfold byte. lia.
Qed.
Lemma cstr_bytes w : Forall byte w -> Forall byte (cstr w).
Proof. induction 1 as [|c w Hc _ IH]; cbn [cstr]; [done|]. destruct (c =? 0); by constructor. Qed.
Lemma base_part_bytes n w : Forall byte w -> Forall byte (fst (base_part n w)) /\ Forall byte (snd (base_part n w)).
Proof.
  revert w. induction n as [|n IH]; intros [|c w] Hw; cbn [base_part]; try (by split).
  destruct (c =? 46); [by split|]. apply Forall_cons in Hw as [Hc Hw]. destruct (IH w Hw) as [H1 H2].
  destruct (base_part n w) as [a b]. split; [constructor; [by apply to_upper_byte | done] | done].
Qed.
Lemma name_to_83_bytes nm : Forall byte nm -> Forall byte (name_to_83 nm).
Proof.
  intros H. unfold name_to_83. destruct (base_part_bytes 8 (cstr nm)) as [H1 H2]; [by apply cstr_bytes|].
  destruct (base_part 8 (cstr nm)) as [b r]. cbn [fst snd] in *.
  destruct r as [|c r]; [apply Forall_app; split; apply pad_bytes; by auto|].
  apply Forall_cons in H2 as [_ H2].
  destruct (c =? 46); apply Forall_app; (split; apply pad_bytes; [done|]); [|by constructor].
  apply Forall_map. apply Forall_take with (n := 3%nat) in H2. eapply Forall_impl; [exact H2 | apply to_upper_byte].
Qed.

(** The first byte: the first character in capitals, a space for a name that
    starts with a dot. *)
Lemma name_to_83_head nm :
  char_at nm 0 <> 0 -> char_at (name_to_83 nm) 0 = if char_at nm 0 =? 46 then 32 else to_upper (char_at nm 0).
Proof.
  unfold char_at at 1 3 4. destruct nm as [|c nm]; [done|]. cbn [lookup list_lookup default from_option id]. intros Hc.
  unfold name_to_83. cbn [cstr]. rewrite (proj2 (Z.eqb_neq c 0)) by done.
  change (base_part 8 (c :: cstr nm)) with
    (if c =? 46 then ([], c :: cstr nm) else let '(a, b) := base_part 7 (cstr nm) in (to_upper c :: a, b)).
  destruct (Z.eqb_spec c 46) as [->|Hd]; [done|]. destruct (base_part 7 (cstr nm)) as [b r].
  destruct r as [|e r]; [done|]. by destruct (e =? 46).
Qed.

(** A name the driver stores in an entry that is in use: not empty, and
    not with the mark of deleted entries as its first byte. *)
Definition good_name (nm : chars) : Prop :=
  Forall byte nm /\ char_at nm 0 <> 0 /\ char_at nm 0 <> 0xE5.

Lemma good_name_head nm :
  good_name nm -> char_at (name_to_83 nm) 0 <> 0 /\ char_at (name_to_83 nm) 0 <> 0xE5.
Proof.
  intros (_ & H0 & H5). rewrite name_to_83_head by done. destruct (_ =? 46); [done|].
  unfold to_upper. destruct (Z.leb_spec 97 (char_at nm 0)), (Z.leb_spec (char_at nm 0) 122); cbn [andb]; lia.
Qed.

(** A fresh entry with such a name is in use and not skipped. *)
Lemma new_dirent_live nm a c len :
  good_name nm -> a = ATTR_ARCHIVE \/ a = ATTR_DIRECTORY ->
  first_byte (new_dirent (name_to_83 nm) a c len) <> 0 /\ skipped (new_dirent (name_to_83 nm) a c len) = false.
Proof.
  intros [H0 H5]%good_name_head Ha. unfold first_byte, skipped. cbn [de_name new_dirent attr]. split; [done|].
  unfold first_byte. cbn [de_name]. rewrite (proj2 (Z.eqb_neq _ 0xE5)) by done. by destruct Ha as [-> | ->].
Qed.

(** The deletion mark. *)
Lemma deleted_entry b off :
  0 <= off -> off + 32 <= Z.of_nat (length b) ->
  first_byte (dirent_at (wr b off [0xE5]) off) = 0xE5 /\ skipped (dirent_at (wr b off [0xE5]) off) = true.
Proof.
  intros H0 H1. assert (E : first_byte (dirent_at (wr b off [0xE5]) off) = 0xE5).
  { unfold first_byte, dirent_at. cbn [de_name]. rewrite name_bytes by (rewrite ?length_wr by (cbn [length]; lia); lia).
    cbn [map]. unfold char_at. cbn [lookup list_lookup default from_option id]. rewrite Z.add_0_r, im8_wr by (cbn [length]; lia).
    cbn [length]. rewrite decide_True by lia. by replace (off - off) with 0 by lia. }
  split; [done|]. unfold skipped. by rewrite E.
Qed.

End Fat32Dir.
