(* ===== verification/Fat32Tree.v ===== *)
(** * The FAT32 driver: the volume invariant

    [tree]: the root directory is a chain, its entries are used ones followed
    by never used ones, every live entry owns a chain, and no cluster belongs
    to two of them.  A volume with one entry about to be replaced is a [hole];
    filling or deleting it gives a [tree] again.  [find_slot_spec] is the
    search of [find_slot_in_root] in these terms. *)

From S2P Require Import Prelude Memory Ata Fat32 Fat32Spec Fat32Vol Fat32Chain Fat32Dir.
Import Ata Fat32 Fat32Spec Fat32Vol Fat32Chain Fat32Dir.

Module Fat32Tree.

(** ** What an entry stands for *)

Inductive node : Type :=
| File (w : chars)
| Dir (empty : bool).
#[export] Instance node_eq_dec : EqDecision node.
Proof. solve_decision. Defined.

Definition live (l : list slot) : list slot := filter (fun x => skipped (entry x) = false) l.
Definition name_of (x : slot) : chars := de_name (entry x).
Definition node_of (g : geometry) (D : Z -> list Z) (x : slot) (l : list Z) : node :=
  if is_directory (entry x)
  then Dir (match l with [] => true | c :: _ => dir_empty (D c) 0 (epc g) end)
  else File (take (Z.to_nat (file_size (entry x))) (content D l)).

Definition files (g : geometry) (D : Z -> list Z) (xs : list slot) (ls : list (list Z)) : list (chars * node) :=
  zip_with (fun x l => (name_of x, node_of g D x l)) xs ls.
Definition dir_map (g : geometry) (D : Z -> list Z) (xs : list slot) (ls : list (list Z)) : gmap chars node :=
  list_to_map (files g D xs ls).

(** ** The invariant *)

(** The directory's clusters [rl] and the clusters [ls] of the entries [xs]. *)
Record owned (g : geometry) (L : Z -> Z) (rl : list Z) (xs : list slot) (ls : list (list Z)) : Prop := mk_owned {
  ow_root : chain g L (root_cluster g) rl;
  ow_ne : rl <> [];
  ow_files : Forall2 (fun x l => fchain g L (first_cluster (entry x)) l) xs ls;
  ow_nodup : NoDup (rl ++ concat ls);
  ow_names : NoDup (map name_of xs);
}.

Record tree (g : geometry) (L : Z -> Z) (D : Z -> list Z) (rl : list Z) (used free : list slot)
    (ls : list (list Z)) : Prop := mk_tree {
  tr_slots : dslots g D rl = used ++ free;
  tr_used : Forall in_use used;
  tr_free : Forall unused free;
  tr_owned : owned g L rl (live used) ls;
}.

(** The entry [x] is out of consideration. *)
Record hole (g : geometry) (L : Z -> Z) (D : Z -> list Z) (rl : list Z) (pre : list slot) (x : slot)
    (post free : list slot) (ls : list (list Z)) : Prop := mk_hole {
  ho_slots : dslots g D rl = pre ++ x :: post ++ free;
  ho_used : Forall in_use (pre ++ post);
  ho_free : Forall unused free;
  ho_owned : owned g L rl (live (pre ++ post)) ls;
}.

(** ** Frames *)

Lemma node_of_ext g D D' x l : agree l D D' -> node_of g D x l = node_of g D' x l.
Proof.
  intros H. unfold node_of. rewrite (content_ext D D') by done. destruct l as [|c l]; [done|].
  by rewrite H by apply list_elem_of_here.
Qed.

Lemma files_ext g D D' xs ls : agree (concat ls) D D' -> files g D xs ls = files g D' xs ls.
Proof.
  revert xs. induction ls as [|l ls IH]; intros [|x xs] H; unfold files; cbn [zip_with]; auto.
  cbn [concat] in H. apply agree_app in H as [H1 H2]. f_equal; [|by apply IH]. f_equal. by apply node_of_ext.
Qed.

Lemma owned_live g L rl xs ls y : owned g L rl xs ls -> y ∈ rl ++ concat ls -> valid g y /\ L y <> 0.
Proof.
  intros [Hr _ Hf _ _] [Hy|Hy]%elem_of_app.
  - split; [by eapply chain_valid | by eapply chain_live].
  - induction Hf as [|x l xs ls Hx Hf IH]; cbn [concat] in Hy; [by apply not_elem_of_nil in Hy|].
    apply elem_of_app in Hy as [Hy|Hy]; [by eapply fchain_live | auto].
Qed.

Lemma fchains_mono g L L' xs ls :
  agree (concat ls) L L' -> Forall2 (fun x l => fchain g L (first_cluster (entry x)) l) xs ls ->
  Forall2 (fun x l => fchain g L' (first_cluster (entry x)) l) xs ls.
Proof.
  intros Ha Hf. induction Hf as [|x l xs ls Hx Hf IH]; constructor; cbn [concat] in Ha; apply agree_app in Ha as [H1 H2]; auto.
  by eapply fchain_ext.
Qed.

Lemma owned_mono g L L' rl xs ls : agree (rl ++ concat ls) L L' -> owned g L rl xs ls -> owned g L' rl xs ls.
Proof.
  intros [Ha Hb]%agree_app [Hr Hne Hf Hn Hm]. constructor; auto; [by eapply chain_ext | by eapply fchains_mono].
Qed.

(** Changes outside the clusters in use keep the tree and the hole. *)
Definition frame (l : list Z) (L L' : Z -> Z) (D D' : Z -> list Z) : Prop := agree l L L' /\ agree l D D'.

Lemma tree_mono g L L' D D' rl used free ls :
  frame (rl ++ concat ls) L L' D D' -> tree g L D rl used free ls ->
  tree g L' D' rl used free ls /\ dir_map g D' (live used) ls = dir_map g D (live used) ls.
Proof.
  intros [Hl Hd] [Hs Hu Hf Ho]. pose proof Hd as [Hd1 Hd2]%agree_app. split; [constructor; auto|].
  - rewrite <- Hs. symmetry. by apply dslots_ext.
  - by eapply owned_mono.
  - unfold dir_map. f_equal. symmetry. by apply files_ext.
Qed.

Lemma hole_mono g L L' D D' rl pre x post free ls :
  frame (rl ++ concat ls) L L' D D' -> hole g L D rl pre x post free ls ->
  hole g L' D' rl pre x post free ls /\ dir_map g D' (live (pre ++ post)) ls = dir_map g D (live (pre ++ post)) ls.
Proof.
  intros [Hl Hd] [Hs Hu Hf Ho]. pose proof Hd as [Hd1 Hd2]%agree_app. split; [constructor; auto|].
  - rewrite <- Hs. symmetry. by apply dslots_ext.
  - by eapply owned_mono.
  - unfold dir_map. f_equal. symmetry. by apply files_ext.
Qed.

(** ** Opening and closing a hole *)

Lemma files_app g D xs1 xs2 ls1 ls2 :
  length xs1 = length ls1 -> files g D (xs1 ++ xs2) (ls1 ++ ls2) = files g D xs1 ls1 ++ files g D xs2 ls2.
Proof. intros H. unfold files. by apply zip_with_app. Qed.

Lemma files_names g D xs ls : length xs = length ls -> (files g D xs ls).*1 = map name_of xs.
Proof.
  revert ls. induction xs as [|x xs IH]; intros [|l ls] H; try done. unfold files in *. cbn [zip_with fmap list_fmap fst map].
  f_equal. apply IH. by injection H.
Qed.

Lemma dir_map_insert g D xs1 x xs2 ls1 l ls2 :
  length xs1 = length ls1 -> name_of x ∉ map name_of xs1 ->
  dir_map g D (xs1 ++ x :: xs2) (ls1 ++ l :: ls2) =
  <[name_of x := node_of g D x l]> (dir_map g D (xs1 ++ xs2) (ls1 ++ ls2)).
Proof.
  intros Hl Hn. unfold dir_map. rewrite !files_app, !list_to_map_app by done.
  unfold files at 2. cbn [zip_with list_to_map foldr fst snd]. fold (files g D xs2 ls2).
  rewrite <- insert_union_r; [done|]. apply not_elem_of_list_to_map_1. by rewrite files_names.
Qed.

Lemma live_both l1 l2 : live (l1 ++ l2) = live l1 ++ live l2.
Proof. apply filter_app. Qed.
Lemma live_cons_yes x l : skipped (entry x) = false -> live (x :: l) = x :: live l.
Proof. intros H. unfold live. by rewrite filter_cons_True. Qed.
Lemma live_cons_no x l : skipped (entry x) = true -> live (x :: l) = live l.
Proof. intros H. unfold live. rewrite filter_cons_False; [done|]. by rewrite H. Qed.

(** A live entry and its clusters taken out of the tree. *)
Lemma tree_open g L D rl pre x post free ls :
  tree g L D rl (pre ++ x :: post) free ls -> skipped (entry x) = false ->
  exists lx ls', hole g L D rl pre x post free ls' /\ fchain g L (first_cluster (entry x)) lx /\
    (forall y, y ∈ lx -> y ∉ rl ++ concat ls') /\ (name_of x ∉ map name_of (live (pre ++ post))) /\
    dir_map g D (live (pre ++ x :: post)) ls =
      <[name_of x := node_of g D x lx]> (dir_map g D (live (pre ++ post)) ls').
Proof.
  intros [Hs Hu Hf Ho] Hx. rewrite (live_both pre (x :: post)), (live_cons_yes x post) in Ho |- * by done.
  destruct Ho as [Hr Hne Hfl Hn Hm].
  apply Forall2_app_inv_l in Hfl as (ls1 & lt & H1 & H2 & ->).
  apply Forall2_cons_inv_l in H2 as (lx & ls2 & Hlx & H2 & ->).
  rewrite map_app in Hm. cbn [map] in Hm.
  assert (Hm' : NoDup (name_of x :: map name_of (live pre) ++ map name_of (live post)))
    by by rewrite Permutation_middle.
  apply NoDup_cons in Hm' as [Hnx Hm']. rewrite <- map_app, <- live_both in Hnx, Hm'.
  rewrite concat_app in Hn. cbn [concat] in Hn.
  assert (Hn' : NoDup (lx ++ rl ++ concat (ls1 ++ ls2))).
  { rewrite concat_app. eapply NoDup_Permutation_proper; [|exact Hn]. solve_Permutation. }
  apply NoDup_app in Hn' as (_ & Hd & Hn').
  exists lx, (ls1 ++ ls2). split_and!; auto.
  - constructor; auto; [by rewrite Hs, <- app_assoc | apply Forall_app in Hu as [? [_ ?]%Forall_cons]; by apply Forall_app | ].
    constructor; auto. rewrite live_both. by apply Forall2_app.
  - rewrite live_both. apply dir_map_insert; [by eapply Forall2_length|].
    intros Hin. apply Hnx. rewrite live_both, map_app. apply elem_of_app. by left.
Qed.

(** A new entry [x'] with the clusters [cs] in the place of the hole. *)
Lemma hole_fill g L D D' rl pre x post free ls x' cs :
  hole g L D rl pre x post free ls -> dslots g D' rl = pre ++ x' :: post ++ free -> agree (concat ls) D D' ->
  in_use x' -> skipped (entry x') = false -> fchain g L (first_cluster (entry x')) cs -> NoDup cs ->
  (forall y, y ∈ cs -> y ∉ rl ++ concat ls) -> name_of x' ∉ map name_of (live (pre ++ post)) ->
  exists ls', tree g L D' rl (pre ++ x' :: post) free ls' /\
    dir_map g D' (live (pre ++ x' :: post)) ls' =
      <[name_of x' := node_of g D' x' cs]> (dir_map g D (live (pre ++ post)) ls).
Proof.
  intros [_ Hu Hf [Hr Hne Hfl Hn Hm]] Hs Ha Hux Hx Hcs Hnc Hd Hnm.
  rewrite live_both in Hfl, Hm, Hnm. pose proof Hfl as Hfl0.
  apply Forall2_app_inv_l in Hfl as (ls1 & ls2 & H1 & H2 & ->).
  assert (Hl : live (pre ++ x' :: post) = live pre ++ x' :: live post) by by rewrite live_both, live_cons_yes.
  exists (ls1 ++ cs :: ls2). rewrite Hl. split.
  - constructor; [by rewrite Hs, <- app_assoc | | done |].
    + apply Forall_app in Hu as [? ?]. apply Forall_app. split; [done | by constructor].
    + rewrite Hl. constructor; auto; [by apply Forall2_app; [|constructor] | |].
      * assert (Hn' : NoDup (cs ++ rl ++ concat (ls1 ++ ls2))) by (apply NoDup_app; auto).
        rewrite concat_app in *. cbn [concat]. eapply NoDup_Permutation_proper; [|exact Hn']. solve_Permutation.
      * rewrite map_app in *. cbn [map]. rewrite <- Permutation_middle. by constructor.
  - rewrite dir_map_insert; [| by eapply Forall2_length |].
    + f_equal. rewrite live_both. unfold dir_map. f_equal. symmetry. by apply files_ext.
    + intros Hin. apply Hnm. rewrite map_app. apply elem_of_app. by left.
Qed.

(** A skipped entry in the place of the hole. *)
Lemma hole_delete g L D D' rl pre x post free ls x' :
  hole g L D rl pre x post free ls -> dslots g D' rl = pre ++ x' :: post ++ free -> agree (concat ls) D D' ->
  in_use x' -> skipped (entry x') = true ->
  tree g L D' rl (pre ++ x' :: post) free ls /\
  dir_map g D' (live (pre ++ x' :: post)) ls = dir_map g D (live (pre ++ post)) ls.
Proof.
  intros [_ Hu Hf Ho] Hs Ha Hux Hx.
  assert (Hl : live (pre ++ x' :: post) = live (pre ++ post)) by by rewrite !live_both, live_cons_no.
  rewrite Hl. split.
  - constructor; [by rewrite Hs, <- app_assoc | | done | by rewrite Hl].
    apply Forall_app in Hu as [? ?]. apply Forall_app. split; [done | by constructor].
  - unfold dir_map. f_equal. symmetry. by apply files_ext.
Qed.

(** A skipped entry, or the first unused one, as the hole. *)
Lemma tree_skipped g L D rl pre x post free ls :
  tree g L D rl (pre ++ x :: post) free ls -> skipped (entry x) = true ->
  hole g L D rl pre x post free ls /\ live (pre ++ post) = live (pre ++ x :: post).
Proof.
  intros [Hs Hu Hf Ho] Hx.
  assert (Hl : live (pre ++ post) = live (pre ++ x :: post)) by by rewrite !live_both, live_cons_no.
  split; [|done]. constructor; [by rewrite Hs, <- app_assoc | | done | by rewrite Hl].
  apply Forall_app in Hu as [? [_ ?]%Forall_cons]. by apply Forall_app.
Qed.
Lemma tree_unused g L D rl used x free ls :
  tree g L D rl used (x :: free) ls -> hole g L D rl used x [] free ls.
Proof.
  intros [Hs Hu Hf Ho]. apply Forall_cons in Hf as [_ Hf]. constructor; [by rewrite Hs | by rewrite app_nil_r | done |].
  by rewrite app_nil_r.
Qed.

(** ** One more cluster for the directory *)

Lemma chain_snoc g L c l y n :
  chain g L c l -> last l = Some y -> NoDup l -> n ∉ l -> valid g n -> chain g (upd y n (upd n EOC L)) c (l ++ [n]).
Proof.
  revert c. induction l as [|x l IH]; intros c Hc Hl Hn Hnl Hv; [done|]. destruct Hc as (-> & Hx & Hc).
  apply NoDup_cons in Hn as [Hxl Hn]. apply not_elem_of_cons in Hnl as [Hnx Hnl]. cbn [app chain]. split_and!; auto.
  destruct l as [|z l].
  - injection Hl as <-. rewrite upd_eq. cbn [app chain]. split_and!; auto. rewrite upd_ne, upd_eq by done.
    unfold EOC, EOC_MIN. lia.
  - assert (Hyx : x <> y).
    { intros ->. apply Hxl. apply last_Some_elem_of. by rewrite last_cons_cons in Hl. }
    rewrite !upd_ne by auto. apply IH; auto.
Qed.

Lemma live_used_skipped_E5 x : lead x = 0xE5 -> skipped (entry x) = true.
Proof. unfold lead, skipped. intros ->. done. Qed.

(** The directory may have grown by the cluster [nc], which was free. *)
Record grown (g : geometry) (L : Z -> Z) (D : Z -> list Z) (rl : list Z) (L' : Z -> Z) (D' : Z -> list Z)
    (rl' : list Z) (nc : Z) : Prop := mk_grown {
  gr_free : forall y, valid g y -> L y = 0 -> L' y = 0 \/ y = nc;
  gr_keep : forall y, valid g y -> L y <> 0 -> y ∉ rl -> L' y = L y /\ D' y = D y;
  gr_root : forall y, y ∈ rl' -> y ∈ rl \/ L y = 0;
}.

Lemma grown_refl g L D rl nc : grown g L D rl L D rl nc.
Proof. constructor; auto. Qed.

(** The end of the chain was reached with no entry to reuse. *)
Lemma extend_root_spec s g L D rl used ls y sc :
  vol_is s g L D -> tree g L D rl used [] ls -> last rl = Some y ->
  (exists s', extend_root y sc s = Ret ((-2, sc), s') /\ vol_is s' g L D /\ all_free_in g L []) \/
  (exists s' nc L' D' free, extend_root y sc s = Ret ((0, mk_slot (want sc) nc 0 true (existing sc)), s') /\
    vol_is s' g L' D' /\ tree g L' D' (rl ++ [nc]) used free ls /\
    (exists de free', free = (nc, 0, de) :: free') /\
    dir_map g D' (live used) ls = dir_map g D (live used) ls /\
    grown g L D rl L' D' (rl ++ [nc]) nc).
Proof.
  intros Hv Ht Hy. unfold extend_root. pose proof Ht as [Hs Hu _ Ho]. rewrite app_nil_r in Hs.
  assert (Hyr : y ∈ rl) by by apply last_Some_elem_of.
  assert (Hyv : valid g y /\ L y <> 0) by (eapply owned_live; [exact Ho|]; apply elem_of_app; by left).
  destruct (alloc_spec s g L D Hv) as [(nc & s1 & -> & Hn & H0 & _ & Hv1)|(s1 & -> & Hfull & Hv1)]; cbn [mbind out_mbind].
  2: { left. change (0 =? 0) with true. by exists s1. }
  right. rewrite (proj2 (Z.eqb_neq nc 0)) by by apply valid_nonzero in Hn.
  assert (Hni : nc ∉ rl ++ concat ls) by (intros Hin; by destruct (owned_live _ _ _ _ _ _ Ho Hin)).
  assert (Hnr : nc ∉ rl) by (intros Hin; apply Hni, elem_of_app; by left).
  destruct (vol_set s1 g _ D y nc Hv1 (proj1 Hyv)) as (s2 & -> & Hv2 & _). cbn [mbind out_mbind].
  change (negb (0 =? 0)) with false. cbv iota.
  replace (mask28 nc) with nc in Hv2.
  2: { rewrite mask28_mod, Z.mod_small; [done|]. destruct (vol_total _ _ _ _ Hv). destruct Hn. unfold EOC_MIN in *. lia. }
  destruct (vol_clear _ _ _ _ Hv2) as (s3 & -> & Hv3 & Hz). cbn [mbind out_mbind].
  destruct (vol_write _ _ _ _ nc Hv3 Hn) as (s4 & -> & Hv4 & _). cbn [mbind out_mbind].
  change (negb (0 =? 0)) with false. cbv iota. rewrite Hz in Hv4.
  set (L' := upd y nc (upd nc EOC L)) in *. set (D' := upd nc _ D) in *.
  assert (HD : agree (rl ++ concat ls) D D') by by apply agree_upd.
  pose proof HD as [HD1 HD2]%agree_app.
  pose proof (csize_bound _ _ _ _ Hv) as Hcs.
  exists s4, nc, L', D', (cslots g nc (D' nc)). split_and!; auto.
  - constructor; auto.
    + by rewrite dslots_snoc, <- (dslots_ext g D D'), Hs.
    + unfold D'. rewrite upd_eq. apply zero_slots.
    + destruct Ho as [Hr Hne Hfl Hnd Hm]. pose proof Hnd as (Hnd1 & Hnd2 & Hnd3)%NoDup_app. constructor; auto.
      * by apply chain_snoc.
      * by destruct rl.
      * eapply fchains_mono; [|exact Hfl]. intros x Hx. unfold L'. rewrite !upd_ne; [done | |]; intros ->;
          [apply Hni, elem_of_app; by right | by apply (Hnd2 y)].
      * assert (Hn' : NoDup (nc :: rl ++ concat ls)) by by constructor.
        eapply NoDup_Permutation_proper; [|exact Hn']. solve_Permutation.
  - unfold cslots. pose proof (epc_least g) as He. destruct (epc g) as [|n]; [lia|].
    cbn [slots_from]. by eexists _, _.
  - unfold dir_map. f_equal. symmetry. by apply files_ext.
  - constructor.
    + intros x Hx Hx0. destruct (decide (x = nc)) as [|Hne]; [by right | left]. unfold L'.
      rewrite !upd_ne; [done | done |]. intros ->. by destruct Hyv.
    + intros x Hx Hx0 Hxr. unfold L', D'. rewrite !upd_ne; [done | | |]; by intros ->.
    + intros x [?|Hx]%elem_of_app; [by left | right]. by apply list_elem_of_singleton in Hx as ->.
Qed.

(** ** Searching a slot *)

(** The three outcomes of [find_slot_in_root]: the entry with the name; a
    reusable place, in a cluster added to the directory if need be; or no
    place and no free cluster. *)
Lemma find_slot_spec s g L D rl used free ls nm :
  vol_is s g L D -> tree g L D rl used free ls ->
  (exists s' pre x post, used = pre ++ x :: post /\ hit nm x /\ vol_is s' g L D /\
     find_slot_in_root nm s =
       Ret ((0, mk_slot nm (fst (place x)) (snd (place x)) true (Some (entry x))), s')) \/
  Forall (fun y => ~ hit nm y) used /\
  ((exists s' sc, find_slot_in_root nm s = Ret ((-2, sc), s') /\ vol_is s' g L D /\ all_free_in g L []) \/
   (exists s' L' D' rl' pre x post free' free2 nc,
      find_slot_in_root nm s = Ret ((0, mk_slot nm (fst (place x)) (snd (place x)) true None), s') /\
      vol_is s' g L' D' /\ hole g L' D' rl' pre x post free' ls /\ tree g L' D' rl' used free2 ls /\
      live (pre ++ post) = live used /\
      dir_map g D' (live used) ls = dir_map g D (live used) ls /\
      grown g L D rl L' D' rl' nc)).
Proof.
  intros Hv Ht. pose proof Ht as [Hs Hu Hf Ho]. unfold find_slot_in_root. rewrite (vi_geom _ _ _ _ Hv).
  set (sc0 := mk_slot nm 0 0 false None).
  destruct (slot_loop_spec (chain_fuel s) (root_cluster g) rl sc0 s g L D Hv) as (s1 & Hv1 & E);
    [apply Ho | apply Ho | pose proof (chain_fuel_enough _ _ _ _ _ _ Hv (ow_root _ _ _ _ _ Ho)); lia |].
  rewrite E, Hs. clear E.
  destruct (first_split (hit nm) used) as [(pre & x & post & -> & Hx & Hp)|Hmiss].
  { left. exists s1, pre, x, post. split_and!; auto. rewrite <- app_assoc. cbn [app].
    rewrite (sscan_hit pre x (post ++ free) sc0); auto.
    apply Forall_app in Hu as [? [? _]%Forall_cons]. apply Forall_app. split; [done | by repeat constructor]. }
  right. split; [done|].
  assert (Hrest : Forall (fun y => unused y \/ ~ hit nm y) (used ++ free)).
  { apply Forall_app. split; [eapply Forall_impl; [exact Hmiss|]; by right | eapply Forall_impl; [exact Hf|]; by left]. }
  destruct (first_split reusable used) as [(pre & x & post & -> & Hx & Hp)|Hbusy].
  { (* a deleted entry *)
    right. pose proof Hu as (Hu1 & Hu2)%Forall_app. apply Forall_cons in Hu2 as [Hxu _].
    assert (Hx5 : lead x = 0xE5) by by destruct Hx.
    destruct (tree_skipped g L D rl pre x post free ls Ht (live_used_skipped_E5 x Hx5)) as [Hh Hl].
    rewrite <- app_assoc in Hrest |- *. cbn [app] in Hrest |- *. apply Forall_app in Hrest as [_ Hrest].
    destruct (sscan_reuse pre x (post ++ free) sc0) as [stop ->]; auto.
    { apply Forall_app in Hmiss as [Hm _]. rewrite Forall_forall in *. intros y Hy. split; [by apply Hp | by apply Hm]. }
    cbn [found]. rewrite orb_true_r. exists s1, L, D, rl, pre, x, post, free, free, 0. split_and!; auto using grown_refl. }
  assert (Hbusy' : Forall (fun y => ~ reusable y /\ ~ hit nm y) used)
    by (rewrite Forall_forall in *; intros y Hy; split; [by apply Hbusy | by apply Hmiss]).
  destruct free as [|x free].
  - rewrite app_nil_r, (sscan_busy used sc0) by done. cbn [orb found sc0].
    destruct (last rl) as [y|] eqn:Hy; [|apply last_None in Hy; by destruct (ow_ne _ _ _ _ _ Ho)].
    cbn [default from_option id].
    destruct (extend_root_spec s1 g L D rl used ls y sc0 Hv1 Ht Hy)
      as [(s2 & -> & Hv2 & Hfull)|(s2 & nc & L' & D' & fr & -> & Hv2 & Ht2 & (de & fr' & ->) & Hm & H0)].
    + left. by exists s2, sc0.
    + right. exists s2, L', D', (rl ++ [nc]), used, (nc, 0, de), [], fr', ((nc, 0, de) :: fr'), nc.
      rewrite app_nil_r. split_and!; auto using tree_unused, grown_refl.
  - right. pose proof Hf as [Hxu _]%Forall_cons.
    destruct (sscan_reuse used x free sc0) as [stop ->]; auto; [by left | by apply Forall_app in Hrest as [_ ?] |].
    cbn [found]. rewrite orb_true_r.
    exists s1, L, D, rl, used, x, [], free, (x :: free), 0. rewrite app_nil_r. split_and!; auto using tree_unused, grown_refl.
Qed.

End Fat32Tree.
