(* ===== verification/Fat32Refine.v ===== *)
(** * The FAT32 driver refines a map from names to files

    [fat_holds s m]: the mounted volume [s] satisfies the invariant of
    Fat32Tree.v and its root directory holds the files and directories [m].
    [fat32_refines] shows that [fat32_write], [fat32_read_file],
    [fat32_mkdir] and [fat32_unlink] act on [m] as [fstep] says. *)

From S2P Require Import Prelude Memory Ata Fat32 Fat32Spec Fat32Vol Fat32Chain Fat32Dir Fat32Tree.
Import Ata Fat32 Fat32Spec Fat32Vol Fat32Chain Fat32Dir Fat32Tree.

Module Fat32Refine.

(** ** The contract *)

Inductive fop : Type :=
| FWrite (nm text : chars)
| FRead (nm : chars) (buf_size : Z)
| FMkdir (nm : chars)
| FUnlink (nm : chars).

Definition run (op : fop) (s : fatst) : out ((fat_result * chars) * fatst) :=
  match op with
  | FWrite nm text => '(r, s) ← fat32_write (Some nm) (Some text) s; Ret ((r, []), s)
  | FRead nm n => fat32_read_file (Some nm) true n s
  | FMkdir nm => '(r, s) ← fat32_mkdir (Some nm) s; Ret ((r, []), s)
  | FUnlink nm => '(r, s) ← fat32_unlink (Some nm) s; Ret ((r, []), s)
  end.

Definition good_op (op : fop) : Prop :=
  match op with
  | FWrite nm _ | FMkdir nm | FUnlink nm => good_name nm
  | FRead nm n => good_name nm /\ 0 < n
  end.

Abbreviation vol := (gmap chars node).

(** One call on a volume with [room] free clusters of [csize g] bytes: the
    result and the files afterwards; [None] when the volume is left with an
    entry that names freed clusters. *)
Inductive fstep (g : geometry) (room : nat) (m : vol) : fop -> fat_result * chars -> option vol -> Prop :=
| st_big nm text :
    (WRITE_MAX_BYTES < length (cstr text))%nat -> fstep g room m (FWrite nm text) (FAT_ERR_TOO_BIG, []) (Some m)
| st_write nm text :
    (length (cstr text) <= WRITE_MAX_BYTES)%nat -> (forall b, m !! name_to_83 nm <> Some (Dir b)) ->
    fstep g room m (FWrite nm text) (FAT_OK, []) (Some (<[name_to_83 nm := File (cstr text)]> m))
| st_write_dir nm text b :
    (length (cstr text) <= WRITE_MAX_BYTES)%nat -> m !! name_to_83 nm = Some (Dir b) ->
    fstep g room m (FWrite nm text) (FAT_ERR_IS_DIR, []) (Some m)
| st_write_full nm text :
    (length (cstr text) <= WRITE_MAX_BYTES)%nat -> m !! name_to_83 nm = None ->
    (room <= needed g (length (cstr text)))%nat ->
    fstep g room m (FWrite nm text) (FAT_ERR_NO_SPACE, []) (Some m)
| st_overwrite_full nm text w :
    (length (cstr text) <= WRITE_MAX_BYTES)%nat -> m !! name_to_83 nm = Some (File w) ->
    (room < needed g (length (cstr text)))%nat ->
    fstep g room m (FWrite nm text) (FAT_ERR_NO_SPACE, []) None
| st_read nm n w :
    m !! name_to_83 nm = Some (File w) -> fstep g room m (FRead nm n) (FAT_OK, take (Z.to_nat n) w) (Some m)
| st_read_dir nm n b :
    m !! name_to_83 nm = Some (Dir b) -> fstep g room m (FRead nm n) (FAT_ERR_IS_DIR, []) (Some m)
| st_read_none nm n :
    m !! name_to_83 nm = None -> fstep g room m (FRead nm n) (FAT_ERR_NOT_FOUND, []) (Some m)
| st_mkdir nm :
    m !! name_to_83 nm = None -> fstep g room m (FMkdir nm) (FAT_OK, []) (Some (<[name_to_83 nm := Dir true]> m))
| st_mkdir_exists nm x :
    m !! name_to_83 nm = Some x -> fstep g room m (FMkdir nm) (FAT_ERR_EXISTS, []) (Some m)
| st_mkdir_full nm :
    m !! name_to_83 nm = None -> (room <= 1)%nat -> fstep g room m (FMkdir nm) (FAT_ERR_NO_SPACE, []) (Some m)
| st_unlink nm x :
    m !! name_to_83 nm = Some x -> x <> Dir false ->
    fstep g room m (FUnlink nm) (FAT_OK, []) (Some (delete (name_to_83 nm) m))
| st_unlink_busy nm :
    m !! name_to_83 nm = Some (Dir false) -> fstep g room m (FUnlink nm) (FAT_ERR_NOT_EMPTY, []) (Some m)
| st_unlink_none nm :
    m !! name_to_83 nm = None -> fstep g room m (FUnlink nm) (FAT_ERR_NOT_FOUND, []) (Some m)
| st_unlink_full nm :
    m !! name_to_83 nm = None -> room = 0%nat -> fstep g room m (FUnlink nm) (FAT_ERR_IO, []) (Some m).

(** The view, the invariant and the files of a volume. *)
Definition represents (s : fatst) (g : geometry) (m : vol) : Prop :=
  exists L D rl used free ls, vol_is s g L D /\ tree g L D rl used free ls /\ m = dir_map g D (live used) ls.
Definition fat_holds (s : fatst) (m : vol) : Prop := represents s (geom s) m.

Lemma represents_holds s g m : represents s g m -> fat_holds s m /\ geom s = g.
Proof.
  intros (L & D & rl & used & free & ls & Hv & Ht & ->). pose proof (vi_geom _ _ _ _ Hv) as <-. split; [|done].
  by exists L, D, rl, used, free, ls.
Qed.

Definition free_clusters (s : fatst) : nat :=
  length (filter (fun c => fat_link s 0 c = 0) (seqZ 2 (total_clusters (geom s)))).

Lemma room_bound s g L D cs : vol_is s g L D -> all_free_in g L cs -> (free_clusters s <= length cs)%nat.
Proof.
  intros Hv Ha. unfold free_clusters. apply submseteq_length, NoDup_submseteq; [apply NoDup_filter, NoDup_seqZ|].
  intros x [Hx Hin]%list_elem_of_filter. apply elem_of_seqZ in Hin. rewrite (vi_geom _ _ _ _ Hv) in Hin.
  assert (Hvx : valid g x) by (unfold valid; lia). apply Ha; [done|]. by rewrite <- (vi_link _ _ _ _ Hv).
Qed.

(** ** Looking up *)

Lemma dir_map_hit g L D rl pre x post free ls nm :
  tree g L D rl (pre ++ x :: post) free ls -> hit nm x ->
  exists lx, fchain g L (first_cluster (entry x)) lx /\
    dir_map g D (live (pre ++ x :: post)) ls !! nm = Some (node_of g D x lx).
Proof.
  intros Ht [Hs Hn]. destruct (tree_open _ _ _ _ _ _ _ _ _ Ht Hs) as (lx & ls' & _ & Hc & _ & _ & Hm).
  exists lx. split; [done|]. rewrite Hm. unfold name_of. rewrite Hn. apply lookup_insert_eq.
Qed.

Lemma dir_map_miss g L D rl used free ls nm :
  tree g L D rl used free ls -> Forall (fun y => ~ hit nm y) used -> dir_map g D (live used) ls !! nm = None.
Proof.
  intros Ht Hm. unfold dir_map. apply not_elem_of_list_to_map_1.
  rewrite files_names by (eapply Forall2_length, (ow_files _ _ _ _ _ (tr_owned _ _ _ _ _ _ _ Ht))).
  intros (x & Hx & Hin)%list_elem_of_fmap. apply list_elem_of_filter in Hin as [Hs Hin].
  rewrite Forall_forall in Hm. by apply (Hm x).
Qed.

Lemma find_in_root_spec s g L D rl used free ls name :
  vol_is s g L D -> tree g L D rl used free ls ->
  (exists s' pre x post, used = pre ++ x :: post /\ hit (name_to_83 name) x /\
     find_in_root name s = Ret ((1, Some (entry x)), s') /\ vol_is s' g L D) \/
  (Forall (fun y => ~ hit (name_to_83 name) y) used /\
   exists s', find_in_root name s = Ret ((0, None), s') /\ vol_is s' g L D).
Proof.
  intros Hv Ht. pose proof Ht as [Hs Hu Hf Ho]. unfold find_in_root, iterate_dir. rewrite (vi_geom _ _ _ _ Hv).
  destruct (iterate_spec (chain_fuel s) (root_cluster g) rl (find_cb name) None s g L D Hv) as (s1 & -> & Hv1);
    [apply Ho | pose proof (chain_fuel_enough _ _ _ _ _ _ Hv (ow_root _ _ _ _ _ Ho)); lia |].
  rewrite Hs. destruct (first_split (hit (name_to_83 name)) used) as [(pre & x & post & -> & Hx & Hp)|Hm].
  - left. exists s1, pre, x, post. split_and!; auto. rewrite <- app_assoc. cbn [app]. rewrite dscan_hit; auto.
    apply Forall_app in Hu as [? [? _]%Forall_cons]. apply Forall_app. split; [done | by repeat constructor].
  - right. split; [done|]. exists s1. split; [|done]. rewrite dscan_app, dscan_miss by done. by rewrite dscan_unused.
Qed.

Lemma entry_size g D rl x : x ∈ dslots g D rl -> 0 <= file_size (entry x).
Proof. intros (c & i & _ & _ & ->)%dslots_elem. apply im32_range. Qed.

Lemma good_name_some nm : good_name nm -> no_name (Some nm) = false.
Proof. intros (_ & H & _). by apply Z.eqb_neq. Qed.

Lemma vol_mounted s g L D : vol_is s g L D -> mounted s = true.
Proof. intros Hv. apply (vi_sound _ _ _ _ Hv). Qed.

Lemma read_refines s g m nm n :
  represents s g m -> good_name nm -> 0 < n ->
  exists r s', run (FRead nm n) s = Ret (r, s') /\ fstep g (free_clusters s) m (FRead nm n) r (Some m) /\
    represents s' g m.
Proof.
  intros (L & D & rl & used & free & ls & Hv & Ht & Em) Hg Hn. subst m. cbn [run]. unfold fat32_read_file.
  rewrite (vol_mounted _ _ _ _ Hv), good_name_some, (proj2 (Z.eqb_neq n 0)) by (done || lia). cbn [negb orb default from_option id].
  unfold lookup_file.
  destruct (find_in_root_spec s g L D rl used free ls nm Hv Ht)
    as [(s1 & pre & x & post & -> & Hx & -> & Hv1)|(Hm & s1 & -> & Hv1)]; cbn [mbind out_mbind].
  - change (1 <? 0) with false. cbv iota.
    destruct (dir_map_hit _ _ _ _ _ _ _ _ _ _ Ht Hx) as (lx & Hc & Hl).
    unfold node_of in Hl. destruct (is_directory (entry x)) eqn:Ed.
    + eexists _, s1. split; [done|]. split; [by eapply st_read_dir | by exists L, D, rl, (pre ++ x :: post), free, ls].
    + assert (Hsz : 0 <= file_size (entry x)).
      { apply (entry_size g D rl). rewrite (tr_slots _ _ _ _ _ _ _ Ht). apply elem_of_app. left.
        apply elem_of_app. right. apply list_elem_of_here. }
      destruct (read_loop_spec (S (S (Z.to_nat (Z.min n (file_size (entry x)) / 512)))) (first_cluster (entry x)) lx
        (file_size (entry x)) n [] s1 g L D Hv1) as (s2 & -> & Hv2).
      * by apply fchain_at.
      * done.
      * cbn [length]. lia.
      * lia.
      * cbn [length]. intros _. rewrite Z.sub_0_r, (Z.min_comm n).
        assert (0 <= Z.min (file_size (entry x)) n / 512) by (apply Z.div_pos; lia). lia.
      * eexists _, s2. split; [done|]. split; [|by exists L, D, rl, (pre ++ x :: post), free, ls].
        cbn [app length]. rewrite Z.sub_0_r. apply (st_read g (free_clusters s) _ nm n) in Hl.
        rewrite take_take in Hl. by replace (Z.to_nat (Z.min (file_size (entry x)) n)) with
          (Z.to_nat n `min` Z.to_nat (file_size (entry x)))%nat by lia.
  - eexists _, s1. split; [done|]. split; [|by exists L, D, rl, used, free, ls].
    apply st_read_none. by eapply dir_map_miss.
Qed.

(** ** Storing an entry *)

Lemma hole_place g L D rl pre x post free ls :
  hole g L D rl pre x post free ls ->
  exists i, (i < epc g)%nat /\ place x = (fst (place x), 32 * Z.of_nat i) /\ fst (place x) ∈ rl /\
    valid g (fst (place x)) /\ L (fst (place x)) <> 0.
Proof.
  intros [Hs _ _ Ho].
  assert (Hx : x ∈ dslots g D rl) by (rewrite Hs; apply elem_of_app; right; apply list_elem_of_here).
  apply dslots_elem in Hx as (c & i & Hc & Hi & ->). exists i. cbn [place fst]. split_and!; auto;
    eapply owned_live; try exact Ho; apply elem_of_app; by left.
Qed.

(** Bytes stored at the place of the hole: the directory with one element
    replaced, and no other cluster changed. *)
Lemma store_entry_spec s g L D rl pre x post free ls sc w :
  vol_is s g L D -> hole g L D rl pre x post free ls ->
  scluster sc = fst (place x) -> soffset sc = snd (place x) -> (length w <= 32)%nat ->
  exists s' D' buf, store_entry sc (fun b => wr b (soffset sc) w) s = Ret (FAT_OK, s') /\ vol_is s' g L D' /\
    dslots g D' rl = pre ++ (place x, dirent_at (wr buf (snd (place x)) w) (snd (place x))) :: post ++ free /\
    agree (concat ls) D D' /\ (forall y, y ∉ rl -> D' y = D y) /\
    0 <= snd (place x) /\ snd (place x) + 32 <= Z.of_nat (length buf).
Proof.
  intros Hv Hh Ec Eo Hw. destruct (hole_place _ _ _ _ _ _ _ _ _ Hh) as (i & Hi & Ep & Hc & Hvc & _).
  pose proof (epc_bound g) as He. pose proof (csize_bound _ _ _ _ Hv) as Hcs.
  destruct Hh as [Hs _ _ [_ _ _ Hn _]]. pose proof Hn as (Hnr & Hd & _)%NoDup_app.
  unfold store_entry. rewrite Ec. destruct (vol_read _ _ _ _ _ Hv Hvc) as (s1 & -> & Hv1 & Hb). cbn [mbind out_mbind].
  change (negb (0 =? 0)) with false. cbv iota.
  pose proof (v_cbuf _ (vi_sound _ _ _ _ Hv1)) as Hl. set (buf := cluster_buf s1) in *.
  assert (Ho : snd (place x) = 32 * Z.of_nat i) by by rewrite Ep.
  assert (Hv1' : vol_is (set_cbuf (wr buf (soffset sc) w) s1) g L D).
  { apply (vol_fill s1 g L D (fun b => wr b (soffset sc) w)); [done|].
    intros b Hlb. rewrite length_wr; rewrite ?Eo, ?Ho; lia. }
  destruct (vol_write _ _ _ _ _ Hv1' Hvc) as (s2 & -> & Hv2 & _). cbn [mbind out_mbind cluster_buf set_cbuf] in *.
  change (negb (0 =? 0)) with false. cbv iota. rewrite Eo in *.
  exists s2, (upd (fst (place x)) (take (csize g) (wr buf (snd (place x)) w)) D), buf. split_and!; auto; try lia.
  - apply (dslots_put g D rl pre x (post ++ free)); auto. intros j Hj.
    rewrite dirent_at_take by lia. rewrite Ho. case_decide as Hij; [by rewrite Hij|].
    rewrite dirent_at_wr_ne by lia. rewrite <- Hb. by rewrite dirent_at_take by lia.
  - apply agree_upd. intros Hin. by apply (Hd (fst (place x))).
  - intros y Hy. apply upd_ne. by intros ->.
Qed.

(** ** Writing *)

(** Fresh clusters are outside what the directory owns. *)
Lemma written_frame g L L' D D' rl xs ls cs :
  owned g L rl xs ls -> fresh_in g L cs -> outside g cs L L' -> outside g cs D D' ->
  frame (rl ++ concat ls) L L' D D' /\ (forall y, y ∈ cs -> y ∉ rl ++ concat ls).
Proof.
  intros Ho [_ Hf] HL HD. rewrite Forall_forall in Hf.
  assert (Hd : forall y, y ∈ cs -> y ∉ rl ++ concat ls).
  { intros y Hy Hin. destruct (owned_live _ _ _ _ _ _ Ho Hin) as [_ Hl]. by destruct (Hf y Hy). }
  split; [split; intros y Hy; destruct (owned_live _ _ _ _ _ _ Ho Hy) as [Hvy _]; symmetry; [apply HL | apply HD];
    try done; intros Hin; by apply (Hd y) | done].
Qed.

Lemma head_fchain g L' cs : chain g L' (head_or EOC cs) cs -> fchain g L' (head_or 0 cs) cs.
Proof. destruct cs as [|c cs]; intros H; [left; cbn [head_or]; split; [done | lia] | by right]. Qed.

Lemma head_u32 g cs : total_clusters g + 2 <= EOC_MIN -> Forall (valid g) cs -> in_u32 (head_or 0 cs).
Proof.
  unfold in_u32, EOC_MIN. intros Ht Hf. destruct Hf as [|c cs [H1 H2] _]; cbn [head_or]; lia.
Qed.

(** A new entry in the hole, for the clusters [cs]. *)
Lemma store_new_spec s g L D rl pre x post free ls sc nm a cs len :
  vol_is s g L D -> hole g L D rl pre x post free ls ->
  scluster sc = fst (place x) -> soffset sc = snd (place x) -> good_name nm ->
  name_to_83 nm ∉ map name_of (live (pre ++ post)) -> a = ATTR_ARCHIVE \/ a = ATTR_DIRECTORY -> in_u32 len ->
  fchain g L (head_or 0 cs) cs -> NoDup cs -> (forall y, y ∈ cs -> y ∉ rl ++ concat ls) ->
  let de := new_dirent (name_to_83 nm) a (head_or 0 cs) len in
  exists s', store_entry sc (put_dirent sc de) s = Ret (FAT_OK, s') /\
    represents s' g (<[name_to_83 nm := node_of g D (place x, de) cs]> (dir_map g D (live (pre ++ post)) ls)).
Proof.
  intros Hv Hh Ec Eo Hg Hnm Ha Hlen Hcs Hnd Hdis de.
  destruct (new_dirent_live nm a (head_or 0 cs) len Hg Ha) as [Hfb Hsk]. fold de in Hfb, Hsk.
  assert (Hok : dirent_ok de).
  { apply new_dirent_ok; auto; [apply name_to_83_length | apply name_to_83_bytes, Hg | by destruct Ha as [-> | ->]]. }
  change (put_dirent sc de) with (fun b => wr b (soffset sc) (dirent_bytes de)).
  destruct (store_entry_spec s g L D rl pre x post free ls sc (dirent_bytes de) Hv Hh Ec Eo)
    as (s2 & D2 & buf & -> & Hv2 & Hs2 & Ha2 & Hr2 & Hp0 & Hp1); [rewrite dirent_bytes_length; [lia | apply Hok]|].
  rewrite dirent_at_wr_eq in Hs2 by done.
  assert (Hfc : first_cluster de = head_or 0 cs).
  { apply first_cluster_new. eapply head_u32; [by destruct (vol_total _ _ _ _ Hv)|]. apply Forall_forall. intros y Hy.
    by eapply fchain_live. }
  destruct (hole_fill g L D D2 rl pre x post free ls (place x, de) cs Hh Hs2 Ha2) as (ls' & Ht & Hm); auto.
  { cbn [entry snd]. by rewrite Hfc. }
  exists s2. split; [done|]. exists L, D2, rl, (pre ++ (place x, de) :: post), free, ls'. split_and!; auto.
  etransitivity; [|symmetry; exact Hm]. f_equal. apply node_of_ext. intros y Hy. symmetry. apply Hr2.
  intros Hin. apply (Hdis y Hy), elem_of_app. by left.
Qed.

Definition write_rest (sc : slot_ctx) (w : chars) (s : fatst) : out (fat_result * fatst) :=
  '((r, first), s) ← write_data w s;
  if bool_decide (r = FAT_OK) then
    store_entry sc (put_dirent sc (new_dirent (want sc) ATTR_ARCHIVE first (Z.of_nat (length w)))) s
  else Ret (r, s).

Lemma write_rest_spec s g L D rl pre x post free ls sc nm w :
  vol_is s g L D -> hole g L D rl pre x post free ls ->
  scluster sc = fst (place x) -> soffset sc = snd (place x) -> want sc = name_to_83 nm -> good_name nm ->
  name_to_83 nm ∉ map name_of (live (pre ++ post)) -> (length w <= WRITE_MAX_BYTES)%nat ->
  exists s',
  (write_rest sc w s = Ret (FAT_OK, s') /\
   represents s' g (<[name_to_83 nm := File w]> (dir_map g D (live (pre ++ post)) ls))) \/
  (write_rest sc w s = Ret (FAT_ERR_NO_SPACE, s') /\
   exists L' D' cs, vol_is s' g L' D' /\ frame (rl ++ concat ls) L L' D D' /\
     (length cs < needed g (length w))%nat /\ all_free_in g L cs).
Proof.
  intros Hv Hh Ec Eo Ew Hg Hnm Hw. unfold write_rest.
  destruct (write_data_spec w s g L D Hv) as (s1 & cs & L1 & D1 & Hv1 & Hout & [[-> Hwr]|[[f ->] Hro]]);
    cbn [mbind out_mbind].
  2: { rewrite bool_decide_false by done. exists s1. right. split; [done|]. exists L1, D1, cs. destruct Hro as [Hf Hs Hfu Hd].
       split_and!; auto; by eapply written_frame; [apply Hh| | |]. }
  rewrite bool_decide_true by done. destruct Hwr as [Hf Hch [z Hb] Hcnt Hd].
  destruct (written_frame g L L1 D D1 rl _ ls cs (ho_owned _ _ _ _ _ _ _ _ _ Hh) Hf Hout Hd) as [Hfr Hdis].
  destruct (hole_mono _ _ _ _ _ _ _ _ _ _ _ Hfr Hh) as [Hh1 Hm1]. unfold WRITE_MAX_BYTES in Hw.
  destruct (store_new_spec s1 g L1 D1 rl pre x post free ls sc nm ATTR_ARCHIVE cs (Z.of_nat (length w)) Hv1 Hh1 Ec Eo)
    as (s2 & E2 & Hr2); auto; [unfold in_u32; lia | by apply head_fchain | apply Hf |].
  rewrite Ew, E2. exists s2. left. split; [done|]. rewrite Hm1 in Hr2. unfold node_of in Hr2. cbn [entry snd] in Hr2.
  set (de := new_dirent _ _ _ _) in Hr2. change (is_directory de) with false in Hr2.
  change (file_size de) with (Z.of_nat (length w)) in Hr2. cbv iota in Hr2.
  by rewrite Nat2Z.id, Hb, take_app_length' in Hr2.
Qed.

Lemma clear_links_frame l kept L D :
  (forall y, y ∈ l -> y ∉ kept) -> frame kept L (clear_links l L) D D.
Proof.
  intros Hd. split; [|done]. intros y Hy. unfold clear_links. rewrite decide_False; [done|].
  intros Hin. by apply (Hd y).
Qed.

(** Freeing the clusters of an entry. *)
Lemma free_entry_spec s g L D c lx :
  vol_is s g L D -> fchain g L c lx ->
  exists s', (if 2 <=? c then fat_free_chain c s else Ret (0, s)) = Ret (0, s') /\ vol_is s' g (clear_links lx L) D.
Proof.
  intros Hv [[-> Hc]|[Hne Hc]].
  - rewrite (proj2 (Z.leb_gt _ _)) by lia. exists s. split; [done|]. eapply vol_ext; [| |exact Hv]; [|done].
    intros y _. unfold clear_links. by rewrite decide_False by apply not_elem_of_nil.
  - destruct lx as [|y lx]; [done|]. pose proof Hc as (-> & [Hy _] & _).
    rewrite (proj2 (Z.leb_le _ _)) by lia. by apply free_chain_spec.
Qed.

(** Overwriting: the old clusters are freed first. *)
Lemma overwrite_spec s g L D rl pre x post free ls sc nm w :
  vol_is s g L D -> tree g L D rl (pre ++ x :: post) free ls -> hit (name_to_83 nm) x -> good_name nm ->
  scluster sc = fst (place x) -> soffset sc = snd (place x) -> want sc = name_to_83 nm ->
  (length w <= WRITE_MAX_BYTES)%nat ->
  let free_old := if 2 <=? first_cluster (entry x) then fat_free_chain (first_cluster (entry x)) s else Ret (0, s) in
  exists s' r, ('(_, s) ← free_old; write_rest sc w s) = Ret (r, s') /\
    (r = FAT_OK /\ represents s' g (<[name_to_83 nm := File w]> (dir_map g D (live (pre ++ x :: post)) ls)) \/
     r = FAT_ERR_NO_SPACE /\ exists cs, (length cs < needed g (length w))%nat /\ all_free_in g L cs).
Proof.
  intros Hv Ht Hx Hg Ec Eo Ew Hw free_old. unfold free_old.
  destruct (tree_open _ _ _ _ _ _ _ _ _ Ht (proj1 Hx)) as (lx & ls' & Hh & Hc & Hdis & Hnx & Hmx).
  change (name_of x) with (de_name (entry x)) in Hmx, Hnx. rewrite (proj2 Hx) in Hmx, Hnx.
  destruct (free_entry_spec s g L D _ lx Hv Hc) as (s2 & -> & Hv2). cbn [mbind out_mbind].
  destruct (hole_mono g L (clear_links lx L) D D rl pre x post free ls') as [Hh2 _];
    [by apply clear_links_frame | done |].
  destruct (write_rest_spec s2 g _ D rl pre x post free ls' sc nm w Hv2 Hh2) as
    (s3 & [[-> Hrep3]|(-> & L3 & D3 & cs & _ & _ & Hlen & Hall)]); try done; exists s3; eexists; (split; [done|]).
  - left. split; [done|]. by rewrite Hmx, insert_insert_eq.
  - right. split; [done|]. exists cs. split; [done|].
    intros y Hy H0. apply Hall; [done|]. unfold clear_links. by case_decide.
Qed.

(** No entry of a missed name has it. *)
Lemma miss_names nm used : Forall (fun y => ~ hit nm y) used -> nm ∉ map name_of (live used).
Proof.
  intros Hm (y & Hy & [Hs Hin]%list_elem_of_filter)%list_elem_of_fmap. rewrite Forall_forall in Hm. by apply (Hm y).
Qed.

Lemma write_refines s g m nm text :
  represents s g m -> good_name nm ->
  exists r s' om, run (FWrite nm text) s = Ret (r, s') /\ fstep g (free_clusters s) m (FWrite nm text) r om /\
    (forall m', om = Some m' -> represents s' g m').
Proof.
  intros Hrep Hg. pose proof Hrep as (L & D & rl & used & free & ls & Hv & Ht & Em). cbn [run]. unfold fat32_write.
  rewrite (vol_mounted _ _ _ _ Hv), good_name_some by done. cbn [negb]. set (w := cstr text).
  destruct (Nat.ltb_spec WRITE_MAX_BYTES (length w)) as [Hbig|Hw].
  { eexists _, s, (Some m). split; [done|]. split; [by apply st_big | by intros ? [= <-]]. }
  cbn [default from_option id].
  destruct (find_slot_spec s g L D rl used free ls (name_to_83 nm) Hv Ht)
    as [(s1 & pre & x & post & -> & Hx & Hv1 & ->)|(Hmiss & [(s1 & sc & -> & Hv1 & Hfull)|
        (s1 & L1 & D1 & rl1 & pre & x & post & free' & free2 & nc & -> & Hv1 & Hh & Ht1 & Hl & Hm1 & Hnc)])];
    cbn [mbind out_mbind].
  - (* the name exists *)
    change (0 =? -2) with false. change (0 <? 0) with false. cbn [existing].
    destruct (dir_map_hit _ _ _ _ _ _ _ _ _ _ Ht Hx) as (lx & _ & Hl). rewrite <- Em in Hl. unfold node_of in Hl.
    destruct (is_directory (entry x)) eqn:Ed.
    { eexists _, s1, (Some m). split; [done|]. split; [by eapply st_write_dir|]. intros ? [= <-].
      by exists L, D, rl, (pre ++ x :: post), free, ls. }
    set (sc := mk_slot _ _ _ _ _).
    destruct (overwrite_spec s1 g L D rl pre x post free ls sc nm w Hv1 Ht Hx Hg) as (s3 & r & E & Hres); try done.
    unfold write_rest in E. rewrite E. cbn [mbind out_mbind]. rewrite <- Em in Hres.
    destruct Hres as [[-> Hrep3]|(-> & cs & Hlen & Hall)].
    + eexists _, s3, (Some _). split; [done|]. split; [apply st_write; [done | by rewrite Hl] | by intros ? [= <-]].
    + eexists _, s3, None. split; [done|]. split; [|done].
      eapply st_overwrite_full; [done | done|]. eapply Nat.le_lt_trans; [|exact Hlen]. by eapply room_bound.
  - (* no place for a new entry *)
    change (-2 =? -2) with true. cbv iota. cbn [mbind out_mbind]. eexists _, s1, (Some m). split; [done|]. split.
    + apply st_write_full; [done | rewrite Em; by eapply dir_map_miss |].
      pose proof (room_bound s g L D [] Hv Hfull). cbn [length] in *. lia.
    + intros ? [= <-]. by exists L, D, rl, used, free, ls.
  - (* a new entry *)
    change (0 =? -2) with false. change (0 <? 0) with false. cbn [existing mbind out_mbind].
    set (sc := mk_slot _ _ _ _ _). fold (write_rest sc w s1).
    assert (Hnone : m !! name_to_83 nm = None) by (rewrite Em; by eapply dir_map_miss).
    destruct (write_rest_spec s1 g _ D1 rl1 pre x post free' ls sc nm w Hv1 Hh) as
      (s3 & [[-> Hrep3]|(-> & L3 & D3 & cs & Hv3 & Hfr & Hlen & Hall)]); try done.
    + rewrite Hl. by apply miss_names.
    + cbn [mbind out_mbind]. rewrite Hl, Hm1, <- Em in Hrep3. eexists _, s3, (Some _). split; [done|].
      split; [apply st_write; [done | by rewrite Hnone] | by intros ? [= <-]].
    + cbn [mbind out_mbind]. eexists _, s3, (Some m). split; [done|]. split.
      * apply st_write_full; [done | done |].
        assert (free_clusters s <= length (nc :: cs))%nat; [|fold w; cbn [length] in *; lia].
        apply (room_bound s g L D _ Hv). intros y Hy H0. destruct (gr_free _ _ _ _ _ _ _ _ Hnc y Hy H0) as [H1| ->];
          [apply list_elem_of_further; by apply Hall | apply list_elem_of_here].
      * intros ? [= <-]. destruct (tree_mono _ _ _ _ _ _ _ _ _ Hfr Ht1) as [Ht3 Hm3].
        exists L3, D3, rl1, used, free2, ls. split_and!; auto. by rewrite Hm3, Hm1.
Qed.

(** ** Removing *)

Lemma dir_empty_take b m off n :
  0 <= off -> off + 32 * Z.of_nat n <= Z.of_nat m -> dir_empty (take m b) off n = dir_empty b off n.
Proof.
  revert off. induction n as [|n IH]; intros off H0 H1; cbn [dir_empty]; [done|].
  by rewrite dirent_at_take, IH by lia.
Qed.

(** The emptiness check of a directory entry. *)
Lemma check_dir_spec s g L D x lx :
  vol_is s g L D -> fchain g L (first_cluster (entry x)) lx ->
  exists s', vol_is s' g L D /\
    (if is_directory (entry x) && (2 <=? first_cluster (entry x)) then
       '(r, s) ← read_cluster (first_cluster (entry x)) s;
       Ret (if negb (r =? 0) then FAT_ERR_IO
            else if dir_empty (cluster_buf s) 0 (entries_per_cluster s) then FAT_OK else FAT_ERR_NOT_EMPTY, s)
     else Ret (FAT_OK, s)) =
    Ret (if bool_decide (node_of g D x lx = Dir false) then FAT_ERR_NOT_EMPTY else FAT_OK, s').
Proof.
  intros Hv Hc. unfold node_of. destruct (is_directory (entry x)); cbn [andb].
  2: { exists s. split; [done|]. by rewrite bool_decide_false. }
  destruct Hc as [[-> Hc]|[Hne Hc]].
  - rewrite (proj2 (Z.leb_gt _ _)) by lia. exists s. split; [done|]. by rewrite bool_decide_false.
  - destruct lx as [|c lx]; [done|]. destruct Hc as (-> & Hvc & _). rewrite (proj2 (Z.leb_le _ _)) by (destruct Hvc; lia).
    destruct (vol_read _ _ _ _ c Hv Hvc) as (s1 & -> & Hv1 & Hb). cbn [mbind out_mbind].
    change (negb (0 =? 0)) with false. cbv iota. exists s1. split; [done|].
    rewrite (vol_entries _ _ _ _ Hv1), <- Hb, dir_empty_take by (pose proof (epc_bound g); lia).
    by destruct (dir_empty (cluster_buf s1) 0 (epc g)).
Qed.

Lemma dir_map_none g D xs ls nm :
  length xs = length ls -> nm ∉ map name_of xs -> dir_map g D xs ls !! nm = None.
Proof. intros Hl Hn. unfold dir_map. apply not_elem_of_list_to_map_1. by rewrite files_names. Qed.

Lemma hole_length g L D rl pre x post free ls :
  hole g L D rl pre x post free ls -> length (live (pre ++ post)) = length ls.
Proof. intros [_ _ _ [_ _ Hf _ _]]. by eapply Forall2_length. Qed.

Lemma unlink_refines s g m nm :
  represents s g m -> good_name nm ->
  exists r s' m', run (FUnlink nm) s = Ret (r, s') /\ fstep g (free_clusters s) m (FUnlink nm) r (Some m') /\
    represents s' g m'.
Proof.
  intros (L & D & rl & used & free & ls & Hv & Ht & Em) Hg. cbn [run]. unfold fat32_unlink.
  rewrite (vol_mounted _ _ _ _ Hv), good_name_some by done. cbn [negb default from_option id].
  destruct (find_slot_spec s g L D rl used free ls (name_to_83 nm) Hv Ht)
    as [(s1 & pre & x & post & -> & Hx & Hv1 & ->)|(Hmiss & [(s1 & sc & -> & Hv1 & Hfull)|
        (s1 & L1 & D1 & rl1 & pre & x & post & free' & free2 & nc & -> & Hv1 & Hh & Ht1 & Hl & Hm1 & Hnc)])];
    cbn [mbind out_mbind].
  - change (0 <? 0) with false. cbn [existing soffset].
    destruct (tree_open _ _ _ _ _ _ _ _ _ Ht (proj1 Hx)) as (lx & ls' & Hh & Hc & Hdis & Hnx & Hmx).
    change (name_of x) with (de_name (entry x)) in Hmx, Hnx. rewrite (proj2 Hx) in Hmx, Hnx.
    assert (Hl : m !! name_to_83 nm = Some (node_of g D x lx)) by (rewrite Em, Hmx; apply lookup_insert_eq).
    destruct (check_dir_spec s1 g L D x lx Hv1 Hc) as (s2 & Hv2 & ->). cbn [mbind out_mbind].
    destruct (bool_decide_reflect (node_of g D x lx = Dir false)) as [En|En].
    { cbn. rewrite En in Hl. eexists _, s2, m. split; [done|]. split; [by apply st_unlink_busy|].
      by exists L, D, rl, (pre ++ x :: post), free, ls. }
    rewrite bool_decide_true by done. set (sc := mk_slot _ _ _ _ _).
    destruct (store_entry_spec s2 g L D rl pre x post free ls' sc [0xE5] Hv2 Hh)
      as (s3 & D3 & buf & E3 & Hv3 & Hs3 & Ha3 & _ & Hp0 & Hp1); [done | done | cbn [length]; lia |].
    cbn [soffset sc] in E3. rewrite E3. cbn [mbind out_mbind]. rewrite bool_decide_true by done.
    destruct (deleted_entry buf (snd (place x)) Hp0 Hp1) as [Hlead Hskip].
    destruct (hole_delete g L D D3 rl pre x post free ls' _ Hh Hs3 Ha3) as [Ht3 Hm3];
      [unfold in_use, lead; cbn [entry snd]; by rewrite Hlead | done |].
    destruct (free_entry_spec s3 g L D3 _ lx Hv3 Hc) as (s4 & -> & Hv4). cbn [mbind out_mbind].
    destruct (tree_mono g L (clear_links lx L) D3 D3 rl _ free ls' (clear_links_frame _ _ _ _ Hdis) Ht3) as [Ht4 Hm4].
    eexists _, s4, (delete (name_to_83 nm) m). split; [done|]. split; [by eapply st_unlink|].
    eexists _, D3, rl, _, free, ls'. split; [exact Hv4|]. split; [exact Ht4|].
    rewrite Em, Hmx, delete_insert_id; [by rewrite Hm3|]. apply dir_map_none; [by eapply hole_length | done].
  - change (-2 <? 0) with true. cbn [mbind out_mbind]. eexists _, s1, m. split; [done|]. split.
    + apply st_unlink_full; [rewrite Em; by eapply dir_map_miss|].
      pose proof (room_bound s g L D [] Hv Hfull). cbn [length] in *. lia.
    + by exists L, D, rl, used, free, ls.
  - change (0 <? 0) with false. cbn [existing mbind out_mbind]. eexists _, s1, m. split; [done|]. split.
    + apply st_unlink_none. rewrite Em. by eapply dir_map_miss.
    + exists L1, D1, rl1, used, free2, ls. split_and!; auto. by rewrite Em, Hm1.
Qed.

(** ** Making a directory *)

Lemma wr_app (b x y : list Z) :
  (length x <= length b)%nat -> wr b 0 (x ++ y) = wr (wr b 0 x) (Z.of_nat (length x)) y.
Proof.
  intros H. unfold wr. change (Z.to_nat 0) with 0%nat. rewrite !take_0, Nat2Z.id. cbn [app Nat.add].
  rewrite take_app_length, length_app, drop_app_ge by lia. rewrite drop_drop, <- app_assoc. do 3 f_equal. lia.
Qed.

(** The first cluster of a new directory is empty: ".", ".." and the end
    mark. *)
Lemma dots_empty buf g dcl s n :
  take (csize g) buf = replicate (csize g) 0 -> (512 <= csize g)%nat -> length buf = 4096%nat ->
  dir_empty (wr buf 0 (dot_entries dcl s)) 0 (S (S (S n))) = true.
Proof.
  intros Hz Hc Hl. unfold dot_entries.
  set (d1 := new_dirent (pad 11 [46]) _ _ _). set (d2 := new_dirent (pad 11 [46; 46]) _ _ _).
  assert (Hok : forall w c, w = pad 11 [46] \/ w = pad 11 [46; 46] -> dirent_ok (new_dirent w ATTR_DIRECTORY c 0)).
  { intros w c Hw. apply new_dirent_ok; [by destruct Hw as [-> | ->] | | unfold ATTR_DIRECTORY; lia | unfold in_u32; lia].
    destruct Hw as [-> | ->]; repeat constructor; lia. }
  assert (L1 : length (dirent_bytes d1) = 32%nat) by by apply dirent_bytes_length.
  assert (L2 : length (dirent_bytes d2) = 32%nat) by by apply dirent_bytes_length.
  rewrite wr_app by lia. rewrite L1. change (Z.of_nat 32) with 32.
  assert (Hlw : length (wr buf 0 (dirent_bytes d1)) = 4096%nat) by (rewrite length_wr; lia).
  cbn [dir_empty]. rewrite !Z.add_0_l. change (32 + 32) with 64.
  rewrite (dirent_at_wr_ne _ 32 _ 0), (dirent_at_wr_ne _ 32 _ 64), (dirent_at_wr_ne _ 0 _ 64) by lia.
  rewrite !dirent_at_wr_eq by (lia || (apply Hok; auto)).
  assert (E : char_at (de_name (dirent_at buf 64)) 0 = 0).
  { rewrite <- (dirent_at_take buf (csize g)), Hz by lia. unfold dirent_at, char_at. cbn [de_name].
    rewrite list_lookup_fmap, lookup_take_lt, lookup_drop by lia. by rewrite lookup_replicate_2 by lia. }
  rewrite E. done.
Qed.

(** What [fat32_mkdir] does once the new cluster is written. *)
Definition mkdir_rest (dir_cl : Z) (nm : chars) (s : fatst) : out (fat_result * fatst) :=
  '((sr, sc), s) ← find_slot_in_root (name_to_83 nm) s;
  if sr <? 0 then
    '(_, s) ← fat_free_chain dir_cl s;
    Ret (if sr =? -2 then FAT_ERR_NO_SPACE else FAT_ERR_IO, s)
  else match existing sc with
  | Some _ =>
      '(_, s) ← fat_free_chain dir_cl s;
      Ret (FAT_ERR_EXISTS, s)
  | None => store_entry sc (put_dirent sc (new_dirent (want sc) ATTR_DIRECTORY dir_cl 0)) s
  end.

Lemma mkdir_rest_spec s g L D rl used free ls c nm :
  vol_is s g L D -> tree g L D rl used free ls -> Forall (fun y => ~ hit (name_to_83 nm) y) used -> good_name nm ->
  valid g c -> L c = EOC -> c ∉ rl ++ concat ls -> dir_empty (D c) 0 (epc g) = true ->
  exists r s', mkdir_rest c nm s = Ret (r, s') /\
    (r = FAT_OK /\ represents s' g (<[name_to_83 nm := Dir true]> (dir_map g D (live used) ls)) \/
     r = FAT_ERR_NO_SPACE /\ represents s' g (dir_map g D (live used) ls) /\ all_free_in g L []).
Proof.
  intros Hv Ht Hmiss Hg Hc HLc Hni Hdots. unfold mkdir_rest.
  assert (Hcr : c ∉ rl) by (intros Hin; apply Hni, elem_of_app; by left).
  destruct (find_slot_spec s g L D rl used free ls (name_to_83 nm) Hv Ht)
    as [(s5 & pre & x & post & -> & Hx & _)|(_ & [(s5 & sc & -> & Hv5 & Hfull)|
        (s5 & L2 & D2 & rl2 & pre & x & post & free' & free2 & nc & -> & Hv5 & Hh & Ht2 & Hl & Hm2 & Hgr)])].
  { apply Forall_app in Hmiss as [_ [Hmx _]%Forall_cons]. by destruct Hmx. }
  - cbn [mbind out_mbind]. change (-2 <? 0) with true. change (-2 =? -2) with true. cbv iota.
    destruct (free_chain_spec c [c] s5 g L D Hv5) as (s6 & -> & Hv6).
    { cbn [chain]. split_and!; auto. rewrite HLc. unfold EOC, EOC_MIN. lia. }
    cbn [mbind out_mbind]. eexists _, s6. split; [done|]. right. split_and!; auto.
    destruct (tree_mono g L (clear_links [c] L) D D rl used free ls) as [Ht6 _]; [|done|].
    { apply clear_links_frame. by intros y ->%list_elem_of_singleton. }
    by exists (clear_links [c] L), D, rl, used, free, ls.
  - cbn [mbind out_mbind existing want]. change (0 <? 0) with false. cbv iota. set (sc := mk_slot _ _ _ _ _).
    destruct (gr_keep _ _ _ _ _ _ _ _ Hgr c Hc) as [HL2 HD2]; [by rewrite HLc | done |].
    destruct (store_new_spec s5 g L2 D2 rl2 pre x post free' ls sc nm ATTR_DIRECTORY [c] 0 Hv5 Hh) as (s6 & E6 & Hr6); auto.
    + rewrite Hl. by apply miss_names.
    + done.
    + right. split; [done|]. cbn [chain head_or]. split_and!; auto. rewrite HL2, HLc. unfold EOC, EOC_MIN. lia.
    + apply NoDup_singleton.
    + intros y ->%list_elem_of_singleton [Hin|Hin]%elem_of_app; [|apply Hni, elem_of_app; by right].
      destruct (gr_root _ _ _ _ _ _ _ _ Hgr c Hin) as [|E]; [done|]. by rewrite HLc in E.
    + cbn [head_or] in E6. rewrite E6. eexists _, s6. split; [done|]. left. split; [done|].
      rewrite Hl, Hm2 in Hr6. unfold node_of in Hr6. cbn [entry snd head_or] in Hr6.
      rewrite HD2, Hdots in Hr6. exact Hr6.
Qed.

Lemma mkdir_refines s g m nm :
  represents s g m -> good_name nm ->
  exists r s' m', run (FMkdir nm) s = Ret (r, s') /\ fstep g (free_clusters s) m (FMkdir nm) r (Some m') /\
    represents s' g m'.
Proof.
  intros (L & D & rl & used & free & ls & Hv & Ht & Em) Hg. cbn [run]. unfold fat32_mkdir.
  rewrite (vol_mounted _ _ _ _ Hv), good_name_some by done. cbn [negb default from_option id].
  destruct (find_in_root_spec s g L D rl used free ls nm Hv Ht)
    as [(s1 & pre & x & post & -> & Hx & -> & Hv1)|(Hmiss & s1 & -> & Hv1)]; cbn [mbind out_mbind].
  { change (1 <? 0) with false. cbv iota. cbn [mbind out_mbind].
    destruct (dir_map_hit _ _ _ _ _ _ _ _ _ _ Ht Hx) as (lx & _ & Hl). rewrite <- Em in Hl.
    eexists _, s1, m. split; [done|]. split; [by eapply st_mkdir_exists | by exists L, D, rl, (pre ++ x :: post), free, ls]. }
  change (0 <? 0) with false. cbv iota.
  assert (Hnone : m !! name_to_83 nm = None) by (rewrite Em; by eapply dir_map_miss).
  destruct (alloc_spec s1 g L D Hv1) as [(c & s2 & -> & Hc & H0 & _ & Hv2)|(s2 & -> & Hfull & Hv2)]; cbn [mbind out_mbind].
  2: { change (0 =? 0) with true. cbv iota. cbn [mbind out_mbind]. eexists _, s2, m. split; [done|]. split.
       - apply st_mkdir_full; [done|]. pose proof (room_bound s g L D [] Hv Hfull). cbn [length] in *. lia.
       - by exists L, D, rl, used, free, ls. }
  rewrite (proj2 (Z.eqb_neq c 0)) by by apply valid_nonzero in Hc.
  destruct (vol_clear _ _ _ _ Hv2) as (s3 & -> & Hv3 & Hz). cbn [mbind out_mbind].
  pose proof (csize_bound _ _ _ _ Hv) as Hcs. pose proof (v_cbuf _ (vi_sound _ _ _ _ Hv3)) as Hcb.
  assert (Hlen : length (dot_entries c s3) = 64%nat) by done.
  assert (Hv3' : vol_is (set_cbuf (wr (cluster_buf s3) 0 (dot_entries c s3)) s3) g (upd c EOC L) D).
  { apply (vol_fill s3 g _ D (fun b => wr b 0 (dot_entries c s3))); [done|]. intros b Hb. rewrite length_wr; lia. }
  destruct (vol_write _ _ _ _ c Hv3' Hc) as (s4 & -> & Hv4 & _). cbn [mbind out_mbind cluster_buf set_cbuf] in *.
  change (negb (0 =? 0)) with false. cbv iota.
  set (L1 := upd c EOC L) in *. set (D1 := upd c _ D) in *.
  assert (Hni : c ∉ rl ++ concat ls).
  { intros Hin. by destruct (owned_live _ _ _ _ _ _ (tr_owned _ _ _ _ _ _ _ Ht) Hin). }
  assert (Hfr : frame (rl ++ concat ls) L L1 D D1) by (split; by apply agree_upd).
  destruct (tree_mono _ _ _ _ _ _ _ _ _ Hfr Ht) as [Ht1 Hm1].
  assert (HLc : L1 c = EOC) by apply upd_eq.
  assert (Hdots : dir_empty (D1 c) 0 (epc g) = true).
  { unfold D1. rewrite upd_eq, dir_empty_take by (pose proof (epc_bound g); lia). pose proof (epc_least g).
    destruct (epc g) as [|[|[|n]]]; try lia. by rewrite (dots_empty _ g) by (done || lia). }
  fold (mkdir_rest c nm s4).
  destruct (mkdir_rest_spec s4 g L1 D1 rl used free ls c nm) as (r & s5 & -> & Hres); auto.
  cbn [mbind out_mbind]. rewrite Hm1, <- Em in Hres. destruct Hres as [[-> Hrep]|(-> & Hrep & Hfull)].
  - eexists _, s5, _. split; [done|]. split; [by apply st_mkdir | done].
  - eexists _, s5, m. split; [done|]. split; [|done].
    apply st_mkdir_full; [done|]. pose proof (room_bound s g L D [c] Hv) as Hb. cbn [length] in Hb. apply Hb.
    intros y Hy Hy0. destruct (decide (y = c)) as [->|]; [apply list_elem_of_here|]. exfalso.
    apply (not_elem_of_nil y), Hfull; [done|]. unfold L1. by rewrite upd_ne.
Qed.

(** ** The refinement *)

(** C4. On a volume whose root directory holds the files [m] (consistent
    table, chains that do not share clusters, no drive errors), a write, read,
    directory creation or removal with a non-empty name that does not start
    with the byte 0xE5 returns, with the result and the new files the contract
    [fstep] allows: a file written is the map updated (whatever its old length
    was, with a new directory cluster when the directory is full), a read
    gives the first bytes of the file, a directory is removed only when empty,
    every other file is untouched.  Running out of space is reported only when
    fewer clusters are free than the call may need.  The volume stays
    consistent, except after an overwrite of an existing file that ran out of
    space, of which nothing is claimed. *)
Theorem fat32_refines s m op :
  fat_holds s m -> good_op op ->
  exists r s' om, run op s = Ret (r, s') /\ fstep (geom s) (free_clusters s) m op r om /\
    (forall m', om = Some m' -> fat_holds s' m' /\ geom s' = geom s).
Proof.
  intros Hs Hop. unfold fat_holds in Hs.
  assert (H : exists r s' om, run op s = Ret (r, s') /\ fstep (geom s) (free_clusters s) m op r om /\
    (forall m', om = Some m' -> represents s' (geom s) m')).
  { destruct op as [nm text|nm n|nm|nm]; cbn [good_op] in Hop.
    - by apply write_refines.
    - destruct Hop as [Hg Hn]. destruct (read_refines s (geom s) m nm n Hs Hg Hn) as (r & s' & E & Hst & Hr).
      exists r, s', (Some m). split_and!; auto. by intros ? [= <-].
    - destruct (mkdir_refines s (geom s) m nm Hs Hop) as (r & s' & m' & E & Hst & Hr).
      exists r, s', (Some m'). split_and!; auto. by intros ? [= <-].
    - destruct (unlink_refines s (geom s) m nm Hs Hop) as (r & s' & m' & E & Hst & Hr).
      exists r, s', (Some m'). split_and!; auto. by intros ? [= <-]. }
  destruct H as (r & s' & om & E & Hst & Hr). exists r, s', om. split_and!; auto. intros m' Em.
  by apply represents_holds, Hr.
Qed.

(** ** The formatted volume of Fat32Spec.v *)

Lemma volume_sound : sound volume.
Proof. constructor; [apply volume_healthy|..]; by vm_compute. Qed.

Lemma volume_holds : fat_holds volume ∅.
Proof.
  exists (fat_link volume 0), (cdata volume), [2], [], (dslots (geom volume) (cdata volume) [2]), [].
  split; [by constructor; [apply volume_sound|..]|]. split; [|done]. constructor; [done | done | |].
  - apply (bool_decide_unpack _). by vm_compute.
  - constructor; [by vm_compute | done | constructor | by apply NoDup_singleton | constructor].
Qed.

Lemma fat32_refines_witness :
  exists s', run (FWrite $"readme.txt" $"hello") volume = Ret ((FAT_OK, []), s') /\
    fat_holds s' {[ $"README  TXT" := File $"hello" ]}.
Proof.
  destruct (fat32_refines volume ∅ (FWrite $"readme.txt" $"hello")) as (r & s' & om & E & Hst & Hm).
  - apply volume_holds.
  - split_and!; [|by vm_compute..]. apply (bool_decide_unpack _). by vm_compute.
  - assert (Hr : r = (FAT_OK, [])).
    { apply (f_equal (fun o => match o with Ret (r, _) => Some r | Fault _ => None end)) in E. vm_compute in E. by injection E. }
    rewrite Hr in E, Hst. exists s'. split; [exact E|]. inversion Hst; subst. by apply Hm.
Defined.

(** ** Where the code departs from the contract *)

(** An overwrite that runs out of space has already freed the old clusters
    and reused the first: the old contents are lost and the entry names the
    new bytes.  (One sector per cluster, one free cluster.) *)
Definition tiny : fatst :=
  set_geom (mk_geom (fat_start (geom volume)) (data_start (geom volume)) 2 1 (fat_size_sectors (geom volume)) 2 2) volume.
Example overwrite_full_loses :
  match run (FWrite $"a" $"x") tiny with
  | Ret ((FAT_OK, _), s) =>
      match run (FWrite $"a" (replicate 600 121)) s with
      | Ret ((FAT_ERR_NO_SPACE, _), s) =>
          match run (FRead $"a" 10) s with Ret ((FAT_OK, w), _) => w = $"y" | _ => False end
      | _ => False
      end
  | _ => False
  end.
Proof. by vm_compute. Qed.

(** A name that starts with the byte of deleted entries is stored as it is,
    so the file is lost at once. *)
Example deleted_name_lost :
  match run (FWrite [0xE5; 65] $"x") volume with
  | Ret ((FAT_OK, _), s) =>
      match run (FRead [0xE5; 65] 10) s with Ret ((r, _), _) => r = FAT_ERR_NOT_FOUND | _ => False end
  | _ => False
  end.
Proof. by vm_compute. Qed.

(** [fat32_mkfs] sizes the table for the data clusters without the two
    reserved entries: on a volume of 65696 sectors the last two clusters have
    no entry, and the place [fat_set] uses for them in the second copy is the
    root directory. *)
Definition short_table : fatst :=
  match fat32_mkfs 2048 65696 (bss_fat blank_disk) with
  | Ret (_, s) => match fat32_mount s with Ret (_, s) => s | _ => s end
  | _ => bss_fat blank_disk
  end.
Example mkfs_table_too_short :
  mounted short_table = true /\ total_clusters (geom short_table) + 2 = 128 * fat_size_sectors (geom short_table) + 2 /\
  valid (geom short_table) 8192 /\ fat_lba short_table 1 8192 = cluster_lba short_table (root_cluster (geom short_table)).
Proof. by vm_compute. Qed.

End Fat32Refine.
