(* ===== verification/Fat32Mkfs.v ===== *)
(** * The FAT32 driver: formatting and mounting

    [fat32_mkfs] followed by [fat32_mount] on a working drive gives an empty
    consistent volume ([mkfs_mount_empty]): the state from which the
    refinement of Fat32Refine.v starts. *)

From S2P Require Import Prelude Memory Ata Fat32 Fat32Spec Fat32Vol Fat32Chain Fat32Dir Fat32Tree Fat32Refine.
Import Ata Fat32 Fat32Spec Fat32Vol Fat32Chain Fat32Dir Fat32Tree Fat32Refine.

Module Fat32Mkfs.

(** A drive that answers and reports no error. *)
Record working (d : disk) : Prop := mk_working {
  wk_wf : disk_wf d;
  wk_ok : g_ata_ok d = true;
  wk_fine : broken d = ∅;
}.

Lemma working_set d a b : working d -> length b = SECTOR_SIZE -> working (set_sector a b d).
Proof. intros [] Hb. constructor; auto. by apply set_sector_wf. Qed.

Lemma store_working s lba :
  working (dsk s) -> length (sector_buf s) = SECTOR_SIZE -> 0 <= lba < 268435456 ->
  store_sector lba s = Ret (0, set_dsk (set_sector lba (sector_buf s) (dsk s)) s).
Proof.
  intros [Hd Hok Hf] Hb Hl. unfold store_sector. rewrite write_one, Hok, Hf, bool_decide_false by (done || set_solver).
  cbn [negb orb mbind out_mbind]. unfold lba28. by rewrite u32_small, Z.mod_small by (unfold in_u32; lia).
Qed.

Lemma load_working s lba :
  working (dsk s) -> length (sector_buf s) = SECTOR_SIZE -> 0 <= lba < 268435456 ->
  load_sector lba s = Ret (0, set_sbuf (sector (dsk s) lba) s).
Proof.
  intros [Hd Hok Hf] Hb Hl. unfold load_sector. rewrite read_one, Hok, Hf, bool_decide_false by (done || set_solver).
  cbn [negb orb mbind out_mbind]. unfold lba28. by rewrite u32_small, Z.mod_small by (unfold in_u32; lia).
Qed.

(** ** Filling the table *)

Lemma zero_sectors_spec n lba s :
  working (dsk s) -> length (sector_buf s) = SECTOR_SIZE -> 0 <= lba -> lba + Z.of_nat n <= 268435456 ->
  exists d, zero_sectors n lba s = Ret (0, set_dsk d s) /\ working d /\
    (forall a, sector d a = if decide (lba <= a < lba + Z.of_nat n) then sector_buf s else sector (dsk s) a).
Proof.
  revert lba s. induction n as [|n IH]; intros lba s Hw Hb H0 H1; cbn [zero_sectors].
  { exists (dsk s). split; [by destruct s|]. split; [done|]. intros a. by rewrite decide_False by lia. }
  rewrite store_working by (done || lia). cbn [mbind out_mbind]. change (negb (0 =? 0)) with false. cbv iota.
  set (s1 := set_dsk _ s).
  destruct (IH (lba + 1) s1) as (d & -> & Hwd & Hd); [by apply working_set | done | lia | lia |].
  exists d. split; [done|]. split; [done|]. intros a. rewrite Hd. change (sector_buf s1) with (sector_buf s).
  change (dsk s1) with (set_sector lba (sector_buf s) (dsk s)). rewrite sector_set. repeat case_decide; try done; lia.
Qed.

(** The first sector of a copy. *)
Definition fat_first (b : list Z) : list Z := wr b 0 fat_head.

Lemma mkfs_fat_spec lba n s :
  working (dsk s) -> length (sector_buf s) = SECTOR_SIZE -> 0 <= lba -> 1 <= n -> lba + n <= 268435456 ->
  exists d, mkfs_fat lba n s = Ret (0, set_dsk d (set_sbuf (fat_first (sector_buf s)) s)) /\ working d /\
    (forall a, sector d a = if decide (a = lba) then fat_first (sector_buf s)
                            else if decide (lba <= a < lba + n) then sector_buf s else sector (dsk s) a).
Proof.
  intros Hw Hb H0 Hn H1. unfold mkfs_fat.
  destruct (zero_sectors_spec (Z.to_nat n) lba s) as (d & -> & Hwd & Hd); [done | done | lia | lia |].
  rewrite Z2Nat.id in Hd by lia. cbn [mbind out_mbind]. change (negb (0 =? 0)) with false. cbv iota.
  rewrite load_working by (done || lia). cbn [mbind out_mbind]. change (negb (0 =? 0)) with false. cbv iota.
  cbn [sector_buf set_sbuf dsk set_dsk]. rewrite (Hd lba), decide_True by lia. fold (fat_first (sector_buf s)).
  assert (Hl : length (fat_first (sector_buf s)) = SECTOR_SIZE).
  { unfold fat_first. rewrite length_wr; rewrite ?Hb; unfold SECTOR_SIZE; done. }
  rewrite store_working by (done || lia). eexists. split; [reflexivity|]. split; [by apply working_set|].
  intros a. cbn [sector_buf set_sbuf dsk set_dsk]. rewrite sector_set, Hd. done.
Qed.

(** ** The geometry *)

(** A partition whose table has an entry for every cluster. *)
Definition table_fits (size : Z) : Prop :=
  (size - (32 + 2 * mkfs_fat_sz size)) / 8 + 2 <= 128 * mkfs_fat_sz size.

Lemma fat_sz_bound size :
  2048 <= size < 268435456 -> 1 <= mkfs_fat_sz size /\ 32 + 2 * mkfs_fat_sz size + 8 < size.
Proof.
  intros Hs. unfold mkfs_fat_sz.
  rewrite (u32_small (size - 32)) by (unfold in_u32; lia).
  assert (H1 : 252 <= (size - 32) / 8 <= size / 8) by zlia. set (c1 := (size - 32) / 8) in *.
  rewrite (u32_small (c1 * 4)) by (unfold in_u32; zlia). rewrite (u32_small (c1 * 4 + 511)) by (unfold in_u32; zlia).
  assert (H2 : 1 <= (c1 * 4 + 511) / 512 <= size / 1024 + 1) by zlia. set (f1 := (c1 * 4 + 511) / 512) in *.
  rewrite (proj2 (Z.ltb_ge f1 1)) by lia. rewrite (u32_small (2 * f1)) by (unfold in_u32; zlia).
  rewrite (u32_small (size - 32 - _)) by (unfold in_u32; zlia).
  assert (H3 : 1 <= (size - 32 - 2 * f1) / 8 <= size / 8) by zlia. set (c2 := (size - 32 - 2 * f1) / 8) in *.
  rewrite (u32_small (c2 * 4)) by (unfold in_u32; zlia). rewrite (u32_small (c2 * 4 + 511)) by (unfold in_u32; zlia).
  zlia.
Qed.

(** The boot sector holds the geometry. *)
Lemma bpb_fields p size f :
  im16 (mkfs_bpb p size f) 11 = 512 /\ im8 (mkfs_bpb p size f) 13 = 8 /\ im16 (mkfs_bpb p size f) 14 = 32 /\
  im8 (mkfs_bpb p size f) 16 = 2 /\ im16 (mkfs_bpb p size f) 19 = 0 /\ im32 (mkfs_bpb p size f) 32 = u32 size /\
  im32 (mkfs_bpb p size f) 36 = u32 f /\ im32 (mkfs_bpb p size f) 44 = 2 /\
  length (mkfs_bpb p size f) = SECTOR_SIZE.
Proof.
  split_and!; try reflexivity.
  - rewrite <- bytes_u32. unfold im32, im16.
    change (im8 (mkfs_bpb p size f) 32) with (u8 (u8 size)). change (im8 (mkfs_bpb p size f) (32 + 1)) with (u8 (u8 (size / 256))).
    change (im8 (mkfs_bpb p size f) (32 + 2)) with (u8 (u8 (size / 65536))).
    change (im8 (mkfs_bpb p size f) (32 + 2 + 1)) with (u8 (u8 (size / 16777216))). rewrite !u8_u8. lia.
  - rewrite <- bytes_u32. unfold im32, im16.
    change (im8 (mkfs_bpb p size f) 36) with (u8 (u8 f)). change (im8 (mkfs_bpb p size f) (36 + 1)) with (u8 (u8 (f / 256))).
    change (im8 (mkfs_bpb p size f) (36 + 2)) with (u8 (u8 (f / 65536))).
    change (im8 (mkfs_bpb p size f) (36 + 2 + 1)) with (u8 (u8 (f / 16777216))). rewrite !u8_u8. lia.
Qed.

Definition mkfs_geometry (size : Z) : geometry :=
  let f := mkfs_fat_sz size in
  mk_geom 32 (32 + 2 * f) 2 8 f 2 ((size - (32 + 2 * f)) / 8).

Lemma bpb_geometry_mkfs p size :
  2048 <= size < 268435456 -> bpb_geometry (mkfs_bpb p size (mkfs_fat_sz size)) = mkfs_geometry size.
Proof.
  intros Hs. destruct (fat_sz_bound size Hs) as [H1 H2]. set (f := mkfs_fat_sz size) in *.
  destruct (bpb_fields p size f) as (_ & E13 & E14 & E16 & E19 & E32 & E36 & E44 & _).
  unfold bpb_geometry, mkfs_geometry. fold f. rewrite E13, E14, E16, E19, E32, E36, E44.
  change (2 =? 0) with false. change (0 =? 0) with true. cbv iota.
  rewrite (u32_small f), (u32_small size) by (unfold in_u32; lia).
  rewrite (u32_small (2 * f)) by (unfold in_u32; lia). rewrite (u32_small (32 + 2 * f)) by (unfold in_u32; lia).
  by rewrite (proj2 (Z.ltb_lt _ _)) by lia.
Qed.

(** What formatting leaves on the disk: the boot sector, the head of the
    first table and a directory of zeros. *)
Record formatted_disk (d : disk) (p size : Z) : Prop := mk_fd {
  fd_working : working d;
  fd_boot : sector d p = mkfs_bpb p size (mkfs_fat_sz size);
  fd_table : sector d (p + 32) = fat_first (replicate 512 0);
  fd_root : forall k, 0 <= k < 8 -> sector d (p + 32 + 2 * mkfs_fat_sz size + k) = replicate 512 0;
}.

Lemma mkfs_formats p size s :
  working (dsk s) -> 0 <= p -> 2048 <= size -> p + size <= 268435456 -> size < 268435456 ->
  exists s', fat32_mkfs p size s = Ret (FAT_OK, s') /\ formatted_disk (dsk s') p size /\
    partition_lba s' = p /\ length (sector_buf s') = SECTOR_SIZE /\ length (cluster_buf s') = 4096%nat.
Proof.
  intros Hw Hp Hs Hfit Hs2. destruct (fat_sz_bound size) as [Hf1 Hf2]; [lia|]. unfold fat32_mkfs, ata_present.
  rewrite (wk_ok _ Hw). cbn [negb]. rewrite (proj2 (Z.ltb_ge size 2048)) by lia. set (f := mkfs_fat_sz size) in *.
  destruct (bpb_fields p size f) as (_ & _ & _ & _ & _ & _ & _ & _ & Hlb).
  rewrite store_working by (done || lia). cbn [mbind out_mbind]. change (negb (0 =? 0)) with false. cbv iota.
  cbn [sector_buf set_sbuf dsk]. set (d1 := set_sector p _ (dsk s)).
  assert (Hw1 : working d1) by by apply working_set.
  rewrite store_working by (done || lia). cbn [mbind out_mbind]. change (negb (0 =? 0)) with false. cbv iota.
  cbn [sector_buf set_sbuf dsk set_dsk]. set (d2 := set_sector (p + 1) _ d1).
  assert (Hw2 : working d2) by by apply working_set.
  rewrite (u32_small (p + 32)), (u32_small (p + 32 + f)), (u32_small (p + 32 + 2 * f)) by (unfold in_u32; lia).
  match goal with |- context [mkfs_fat (p + 32) f ?s] => destruct (mkfs_fat_spec (p + 32) f s) as (d3 & -> & Hw3 & Hd3) end;
    [done | done | lia | lia | lia |].
  cbn [mbind out_mbind]. change (negb (0 =? 0)) with false. cbv iota. cbn [sector_buf set_sbuf dsk set_dsk] in *.
  match goal with |- context [mkfs_fat (p + 32 + f) f ?s] => destruct (mkfs_fat_spec (p + 32 + f) f s) as (d4 & -> & Hw4 & Hd4) end;
    [done | done | lia | lia | lia |].
  cbn [mbind out_mbind]. change (negb (0 =? 0)) with false. cbv iota. cbn [sector_buf set_sbuf dsk set_dsk set_cbuf cluster_buf] in *.
  unfold ata_write_sectors. rewrite (wk_ok _ Hw4). change (8 =? 0) with false. cbn [negb orb].
  unfold lba28. rewrite Z.mod_small by lia. change (Z.to_nat 8) with 8%nat.
  destruct (write_loop_fine d4 (p + 32 + 2 * f) 0 8 (replicate 4096 0)) as (d5 & -> & Hd5 & Hb5 & Ho5 & Hin & Hout);
    [apply Hw4 | apply Hw4 | rewrite length_replicate; unfold SECTOR_SIZE; lia |].
  cbn [mbind out_mbind]. change (negb (0 =? 0)) with false. cbv iota. eexists. split; [reflexivity|].
  cbn [dsk set_dsk set_mounted set_part partition_lba sector_buf set_sbuf cluster_buf set_cbuf].
  split_and!; [|done | done | done].
  assert (Hout' : forall a, a < p + 32 + 2 * f -> sector d5 a = sector d4 a) by (intros a Ha; apply Hout; lia).
  constructor.
  - constructor; [done | by rewrite Ho5; apply Hw4 | done].
  - rewrite Hout', Hd4 by lia. rewrite !decide_False by lia. rewrite Hd3. rewrite !decide_False by lia.
    unfold d2, d1. rewrite !sector_set. rewrite decide_False by lia. by rewrite decide_True.
  - rewrite Hout', Hd4 by lia. rewrite !decide_False by lia. rewrite Hd3. by rewrite decide_True.
  - intros k Hk. fold f. replace (p + 32 + 2 * f + k) with (p + 32 + 2 * f + Z.of_nat (Z.to_nat k)) by lia.
    rewrite Hin by lia. rewrite drop_replicate, take_replicate. f_equal. unfold SECTOR_SIZE. lia.
Qed.

Lemma mount_formatted p size s :
  formatted_disk (dsk s) p size -> partition_lba s = p -> length (sector_buf s) = SECTOR_SIZE ->
  length (cluster_buf s) = 4096%nat -> 0 < p -> 2048 <= size -> p + size <= 268435456 ->
  exists s', fat32_mount s = Ret (FAT_OK, s') /\ dsk s' = dsk s /\ geom s' = mkfs_geometry size /\
    partition_lba s' = p /\ mounted s' = true /\ length (sector_buf s') = SECTOR_SIZE /\
    length (cluster_buf s') = 4096%nat.
Proof.
  intros [Hw Hb _ _] Hp Hsb Hcb Hp0 Hs Hfit. destruct (fat_sz_bound size) as [Hf1 Hf2]; [lia|].
  unfold fat32_mount, ata_present. cbv zeta. change (dsk (set_mounted false s)) with (dsk s). rewrite (wk_ok _ Hw).
  cbn [negb]. change (partition_lba (set_mounted false s)) with (partition_lba s). rewrite Hp.
  rewrite (proj2 (Z.eqb_neq p 0)) by lia. unfold try_mount_at, read_sector.
  rewrite load_working by (try done; cbn [partition_lba set_part]; lia). cbn [mbind out_mbind partition_lba set_part].
  cbn [dsk set_part set_mounted sector_buf set_sbuf]. rewrite Z.add_0_r, Hb. change (negb (0 =? 0)) with false. cbv iota.
  destruct (bpb_fields p size (mkfs_fat_sz size)) as (E11 & E13 & _ & _ & _ & _ & E36 & _ & Hl).
  rewrite E11, E13, E36, (u32_small (mkfs_fat_sz size)) by (unfold in_u32; lia).
  change (512 =? 512) with true. rewrite (proj2 (Z.eqb_neq (mkfs_fat_sz size) 0)) by lia. cbn [negb orb].
  change ((8 =? 0) || (64 <? 8)) with false. cbv iota. change (0 =? 0) with true. cbv iota.
  rewrite bpb_geometry_mkfs by lia. eexists. split; [reflexivity|].
  cbn [dsk geom set_geom set_mounted partition_lba mounted sector_buf cluster_buf set_sbuf set_part]. split_and!; auto.
Qed.

(** C39. Formatting a partition of a working drive and mounting it succeeds and
    gives an empty volume with the invariant the file operations need ([fat_holds]:
    of the first copy of the table, the only one the driver reads), whatever was on
    the disk before, for a partition that starts after sector 0, has at least
    2048 sectors (for fewer the code formats 65536) and ends within the 28-bit
    sector numbers, if the table [fat32_mkfs] sizes has an entry for every
    cluster. *)
Theorem mkfs_mount_empty p size s :
  working (dsk s) -> 0 < p -> 2048 <= size -> p + size <= 268435456 -> table_fits size ->
  exists s1 s2, fat32_mkfs p size s = Ret (FAT_OK, s1) /\ fat32_mount s1 = Ret (FAT_OK, s2) /\
    fat_holds s2 ∅ /\ geom s2 = mkfs_geometry size.
Proof.
  intros Hw Hp Hs Hfit Ht. destruct (fat_sz_bound size) as [Hf1 Hf2]; [lia|].
  destruct (mkfs_formats p size s) as (s1 & E1 & Hfd & Hp1 & Hsb & Hcb); auto; try lia.
  destruct (mount_formatted p size s1) as (s2 & E2 & Hd & Hg & Hp2 & Hm & Hsb2 & Hcb2); auto.
  exists s1, s2. split_and!; auto. unfold table_fits in Ht. set (f := mkfs_fat_sz size) in *.
  destruct Hfd as [[Hwf Hok Hfine] _ Htab Hroot]. fold f in Hroot.
  assert (Hsound : sound s2).
  { constructor; rewrite ?Hg, ?Hp2; auto; cbn [mkfs_geometry sectors_per_cluster total_clusters fat_size_sectors fat_start
      num_fats data_start]; fold f; try (unfold EOC_MIN; zlia).
    constructor; rewrite ?Hg, ?Hp2, ?Hd; auto; cbn [mkfs_geometry fat_size_sectors fat_start num_fats]; fold f; lia. }
  assert (Hv2 : valid (geom s2) 2) by (rewrite Hg; unfold valid; cbn [mkfs_geometry total_clusters]; fold f; zlia).
  assert (Hlink : fat_link s2 0 2 = EOC).
  { unfold fat_link, fat_lba. rewrite Hg, Hp2, Hd. cbn [mkfs_geometry fat_start fat_size_sectors]. change (2 / 128) with 0.
    rewrite Z.mul_0_l, !Z.add_0_r, Htab. by vm_compute. }
  assert (Hdata : cdata s2 2 = replicate (csize (geom s2)) 0).
  { unfold cdata, sectors_at, cluster_lba. rewrite Hg, Hp2, Hd. cbn [mkfs_geometry sectors_per_cluster data_start]. fold f.
    rewrite (map_ext_in _ (fun _ => replicate 512 0)); [by vm_compute|]. intros k Hk. apply in_seq in Hk.
    rewrite <- (Hroot (Z.of_nat k)) by lia. f_equal. lia. }
  exists (fat_link s2 0), (cdata s2), [2], [], (dslots (geom s2) (cdata s2) [2]), [].
  split; [by constructor|]. split; [|done]. constructor; [done | done | |].
  - unfold dslots. cbn [map concat]. rewrite app_nil_r, Hdata. apply zero_slots.
  - constructor; [|done | constructor | by apply NoDup_singleton | constructor].
    cbn [chain]. split_and!; [by rewrite Hg | done |]. rewrite Hlink. unfold EOC, EOC_MIN. lia.
Qed.

Lemma mkfs_mount_empty_witness :
  exists s1 s2, fat32_mkfs 2048 65536 (bss_fat blank_disk) = Ret (FAT_OK, s1) /\ fat32_mount s1 = Ret (FAT_OK, s2) /\
    fat_holds s2 ∅ /\ geom s2 = mkfs_geometry 65536.
Proof.
  apply (mkfs_mount_empty 2048 65536 (bss_fat blank_disk)); try lia.
  - constructor; [|done | done]. intros a b Hab. exfalso. exact (lookup_empty_Some a b Hab).
  - by vm_compute.
Defined.

End Fat32Mkfs.
