(* ===== verification/Part.v ===== *)
(** * Partition tables (src/src/part.c)

    Writing an MBR or a GPT with one FAT32 partition, and printing what is
    there.  [sec] is the static sector buffer; the disk is that of [Ata]. *)

From S2P Require Import Prelude Memory Terminal Ata Vfs Fat32 Fat32Spec.
Import Ata.

Module Part.

Record partst : Type := mk_part { sec : list Z; pdisk : disk }.
Definition set_sec (b : list Z) (s : partst) : partst := mk_part b (pdisk s).

Definition read_sec (lba : Z) (s : partst) : out (Z * partst) :=
  '(r, b) ← ata_read_sectors (pdisk s) lba 1 (sec s);
  Ret (r, set_sec b s).
Definition write_sec (lba : Z) (s : partst) : out (Z * partst) :=
  '(r, d) ← ata_write_sectors (pdisk s) lba 1 (sec s);
  Ret (r, mk_part (sec s) d).

Definition set32 (b : list Z) (off v : Z) : list Z := wr b off (map u8 (le32 v)).
Definition set64 (b : list Z) (off lo hi : Z) : list Z := set32 (set32 b off lo) (off + 4) hi.
Definition set8 (b : list Z) (off v : Z) : list Z := wr b off [u8 v].
Definition zero_sector : list Z := replicate 512 0.

(** One bit of the CRC: [(c >> 1) ^ (0xEDB88320 & -(int)(c & 1))]. *)
Definition crc_bit (c : Z) : Z :=
  Z.lxor (Z.shiftr c 1) (Z.land 0xEDB88320 (u32 (- Z.land c 1))).
Definition crc_byte (c b : Z) : Z := Nat.iter 8 crc_bit (Z.lxor c b).
Definition crc32 (data : list Z) : Z := u32 (Z.lnot (foldl crc_byte 0xFFFFFFFF data)).

(** The boot code kept, or the halt stub when the first three bytes are 0. *)
Definition mbr_code (b : list Z) : list Z :=
  if (im8 b 0 =? 0) && (im8 b 1 =? 0) && (im8 b 2 =? 0)
  then wr zero_sector 0 [0xFA; 0xF4; 0xEB; 0xFD] else b.

Definition mbr_table (start_lba size_sectors : Z) (b : list Z) : list Z :=
  let b := wr b 446 (replicate 64 0) in
  let b := set8 b 446 0x80 in
  let b := set8 b (446 + 4) 0x0C in
  let b := set32 b (446 + 8) start_lba in
  let b := set32 b (446 + 12) size_sectors in
  set8 (set8 b 510 0x55) 511 0xAA.

Definition part_create_mbr_fat32 (start_lba size_sectors : Z) (s : partst) : out (Z * partst) :=
  if negb (ata_present (pdisk s)) then Ret (-1, s)
  else
    let start_lba := if start_lba <? 1 then 2048 else start_lba in
    let size_sectors := if size_sectors =? 0 then 262144 else size_sectors in
    '(r, s) ← read_sec 0 s;
    let b := if negb (r =? 0) then zero_sector else sec s in
    write_sec 0 (set_sec (mbr_table start_lba size_sectors (mbr_code b)) s).

Definition type_guid : list Z :=
  [0xA2; 0xA0; 0xD0; 0xEB; 0xE5; 0xB9; 0x33; 0x44; 0x87; 0xC0; 0x68; 0xB6; 0xB7; 0x26; 0x99; 0xC7].
Definition uniq_guid : list Z :=
  [0x11; 0x22; 0x33; 0x44; 0x55; 0x66; 0x77; 0x88; 0x99; 0xAA; 0xBB; 0xCC; 0xDD; 0xEE; 0xFF; 0x01].

Definition protective_mbr : list Z :=
  let b := set8 zero_sector (446 + 4) 0xEE in
  let b := set32 (set32 b (446 + 8) 1) (446 + 12) 0xFFFFFFFF in
  set8 (set8 b 510 0x55) 511 0xAA.

Definition gpt_entry (start_lba last : Z) : list Z :=
  let b := wr (wr zero_sector 0 type_guid) 16 uniq_guid in
  let b := set64 (set64 b 32 start_lba 0) 40 last 0 in
  wr b 56 (concat (map (fun c => [c; 0]) $"MYKERNEL")).

(** The header with a zero checksum field, then with the checksum in it. *)
Definition gpt_header0 (start_lba size_sectors last part_crc : Z) : list Z :=
  let b := wr zero_sector 0 $"EFI PART" in
  let b := set32 (set32 (set32 b 8 0x00010000) 12 92) 16 0 in
  let b := set64 (set64 b 24 1 0) 32 (u32 (size_sectors + start_lba + 100)) 0 in
  let b := set64 (set64 b 40 34 0) 48 last 0 in
  let b := wr b 56 (map (fun i => 0xA0 + Z.of_nat i) (seq 0 16)) in
  let b := set32 (set32 (set64 b 72 2 0) 80 128) 84 128 in
  set32 b 88 part_crc.
Definition gpt_header (start_lba size_sectors last part_crc : Z) : list Z :=
  let b := gpt_header0 start_lba size_sectors last part_crc in
  set32 b 16 (crc32 (take 92 b)).

Definition part_create_gpt_fat32 (start_lba size_sectors : Z) (s : partst) : out (Z * partst) :=
  if negb (ata_present (pdisk s)) then Ret (-1, s)
  else
    let start_lba := if start_lba <? 34 then 2048 else start_lba in
    let size_sectors := if size_sectors =? 0 then 262144 else size_sectors in
    let last := u32 (start_lba + size_sectors - 1) in
    '(r, s) ← write_sec 0 (set_sec protective_mbr s);
    if negb (r =? 0) then Ret (-1, s)
    else
      let s := set_sec (gpt_entry start_lba last) s in
      let part_crc := crc32 (take 128 (sec s)) in
      '(r, s) ← write_sec 2 s;
      if negb (r =? 0) then Ret (-1, s)
      else
        '(r, s) ← write_sec 1 (set_sec (gpt_header start_lba size_sectors last part_crc) s);
        Ret (if negb (r =? 0) then -1 else 0, s).

(** ** Printing: the text *)

Definition mbr_line (b : list Z) (i : nat) : chars :=
  let e := 446 + Z.of_nat i * 16 in
  if im8 b (e + 4) =? 0 then []
  else $"  #" ++ Terminal.uint_chars (Z.of_nat i) ++ $" type=" ++ Terminal.uint_chars (im8 b (e + 4)) ++
       $" LBA=" ++ Terminal.uint_chars (im32 b (e + 8)) ++
       $" size=" ++ Terminal.uint_chars (im32 b (e + 12)) ++ [10].

Definition part_print_mbr (s : partst) : out (chars * partst) :=
  if negb (ata_present (pdisk s)) then Ret ($"No ATA disk" ++ [10], s)
  else
    '(r, s) ← read_sec 0 s;
    let b := sec s in
    if negb (r =? 0) then Ret ($"MBR read fail" ++ [10], s)
    else if negb (im8 b 510 =? 0x55) || negb (im8 b 511 =? 0xAA) then
      Ret ($"No MBR signature" ++ [10], s)
    else Ret ($"MBR partitions:" ++ [10] ++ concat (map (mbr_line b) (seq 0 4)), s).

Definition part_print_gpt (s : partst) : out (chars * partst) :=
  if negb (ata_present (pdisk s)) then Ret ($"No ATA disk" ++ [10], s)
  else
    '(r, s) ← read_sec 1 s;
    let b := sec s in
    if negb (r =? 0) then Ret ($"GPT read fail" ++ [10], s)
    else if negb (im8 b 0 =? 69) || negb (im8 b 1 =? 70) || negb (im8 b 2 =? 73) then
      Ret ($"No GPT header at LBA1" ++ [10], s)
    else
      let head := $"GPT header OK (EFI PART)" ++ [10] in
      '(r, s) ← read_sec (im32 b 72) s;
      let b := sec s in
      if negb (r =? 0) then Ret (head, s)
      else Ret (head ++ $"  Part0 start=" ++ Terminal.uint_chars (im32 b 32) ++
                $" end=" ++ Terminal.uint_chars (im32 b 40) ++ [10], s).

(** ** What the next boot finds *)

(** Whole sectors: lengths and bytes after stores at known offsets. *)
Lemma wr512_length b off w :
  length b = 512%nat -> 0 <= off -> off + Z.of_nat (length w) <= 512 -> length (wr b off w) = 512%nat.
Proof. intros Hb H0 H1. rewrite Fat32Spec.length_wr; [done | done | lia]. Qed.

Ltac sector_length :=
  unfold set8, set32; repeat (apply wr512_length; [|lia|cbn [length le32 map]; rewrite ?length_replicate; lia]);
  try assumption; try reflexivity.

Lemma wr512_byte b off w i :
  length b = 512%nat -> 0 <= off -> off + Z.of_nat (length w) <= 512 -> 0 <= i ->
  im8 (wr b off w) i =
  if decide (off <= i < off + Z.of_nat (length w)) then u8 (w !!! Z.to_nat (i - off)) else im8 b i.
Proof. intros Hb H0 H1 Hi. apply Fat32Spec.im8_wr; [done | lia | done]. Qed.

(** Skip a store that does not touch byte [i]. *)
Lemma wr512_skip b off w i :
  length b = 512%nat -> 0 <= off -> off + Z.of_nat (length w) <= 512 -> 0 <= i ->
  i < off \/ off + Z.of_nat (length w) <= i -> im8 (wr b off w) i = im8 b i.
Proof. intros Hb H0 H1 Hi Hd. rewrite wr512_byte by done. by rewrite decide_False by lia. Qed.

Ltac skip_store :=
  rewrite wr512_skip; [| sector_length | lia | cbn [length le32 map]; rewrite ?length_replicate; lia | lia
                       | cbn [length le32 map]; rewrite ?length_replicate; lia].

Lemma wr512_skip32 b off w i :
  length b = 512%nat -> 0 <= off -> off + Z.of_nat (length w) <= 512 -> 0 <= i ->
  i + 4 <= off \/ off + Z.of_nat (length w) <= i -> im32 (wr b off w) i = im32 b i.
Proof. intros Hb H0 H1 Hi Hd. unfold im32, im16. by rewrite !wr512_skip by (done || lia). Qed.

Ltac skip_store32 :=
  rewrite wr512_skip32; [| sector_length | lia | cbn [length le32 map]; rewrite ?length_replicate; lia | lia
                         | cbn [length le32 map]; rewrite ?length_replicate; lia].

Lemma mbr_table_code st sz b i :
  length b = 512%nat -> 0 <= i < 446 -> im8 (mbr_table st sz b) i = im8 b i.
Proof. intros Hb Hi. unfold mbr_table, set8, set32. cbv zeta. by repeat skip_store. Qed.

Lemma mbr_table_length st sz b : length b = 512%nat -> length (mbr_table st sz b) = 512%nat.
Proof. intros Hb. unfold mbr_table. cbv zeta. sector_length. Qed.

(** The fields of the first entry and the signature. *)
Lemma mbr_table_fields st sz b :
  length b = 512%nat -> in_u32 st -> in_u32 sz ->
  im8 (mbr_table st sz b) 450 = 0x0C /\ im32 (mbr_table st sz b) 454 = st /\
  im32 (mbr_table st sz b) 458 = sz /\ im8 (mbr_table st sz b) 510 = 0x55 /\
  im8 (mbr_table st sz b) 511 = 0xAA.
Proof.
  intros Hb Hst Hsz. unfold mbr_table, set8, set32. cbv zeta.
  assert (Hbyte : forall c off v, length c = 512%nat -> 0 <= off < 512 -> im8 (wr c off [u8 v]) off = u8 v).
  { intros c off v Hc Ho. rewrite wr512_byte by (done || cbn [length]; lia).
    rewrite decide_True by (cbn [length]; lia). replace (off - off) with 0 by lia. apply u8_u8. }
  assert (Hword : forall c off v, length c = 512%nat -> 0 <= off <= 508 -> in_u32 v ->
    im32 (wr c off (map u8 (le32 v))) off = v).
  { intros c off v Hc Ho Hv. rewrite Fat32Spec.im32_wr, decide_True, u32_small by (done || lia). done. }
  split_and!.
  - repeat skip_store. rewrite (Hbyte _ 450 0x0C); [done | sector_length | lia].
  - repeat skip_store32. rewrite (Hword _ 454 st); [done | sector_length | lia | done].
  - repeat skip_store32. rewrite (Hword _ 458 sz); [done | sector_length | lia | done].
  - skip_store. rewrite Hbyte; [done | sector_length | lia].
  - rewrite Hbyte; [done | sector_length | lia].
Qed.

(** Partitioning a disk for FAT32: on a working drive the call succeeds and
    rewrites sector 0 only.  The new sector keeps the boot code (or holds the
    halt stub when there was none), carries the signature, and its first
    entry is a FAT32 partition with the requested start and size, which is
    where the FAT32 driver's table search looks next. *)
Theorem part_mbr_roundtrip start size s :
  disk_wf (pdisk s) -> g_ata_ok (pdisk s) = true -> 0 ∉ broken (pdisk s) -> length (sec s) = 512%nat ->
  1 <= start < 4294967296 -> 1 <= size < 4294967296 ->
  let old := sector (pdisk s) 0 in
  exists s', part_create_mbr_fat32 start size s = Ret (0, s') /\
    let b := sector (pdisk s') 0 in
    Fat32.mbr_fat_entry b = Some start /\ im32 b (446 + 12) = size /\
    im8 b 510 = 0x55 /\ im8 b 511 = 0xAA /\
    (forall i, 0 <= i < 446 -> im8 b i = im8 (mbr_code old) i) /\
    (im8 old 0 <> 0 \/ im8 old 1 <> 0 \/ im8 old 2 <> 0 -> mbr_code old = old) /\
    (forall a, a <> 0 -> sector (pdisk s') a = sector (pdisk s) a).
Proof.
  intros Hd Hok Hbr Hl Hst Hsz old. unfold part_create_mbr_fat32, read_sec, ata_present. cbv zeta.
  rewrite Hok, read_one by done. unfold lba28. change (0 mod 268435456) with 0.
  rewrite bool_decide_false, Hok by done. cbn [negb orb mbind out_mbind]. change (0 =? 0) with true. cbn [negb].
  cbn [sec set_sec]. fold old. rewrite (proj2 (Z.ltb_ge start 1)), (proj2 (Z.eqb_neq size 0)) by lia.
  assert (Ho : length old = 512%nat) by apply (sector_length _ _ Hd).
  assert (Hc : length (mbr_code old) = 512%nat) by (unfold mbr_code; destruct (_ && _); [done | exact Ho]).
  unfold write_sec. cbn [pdisk sec set_sec]. rewrite write_one by (by apply mbr_table_length).
  unfold lba28. change (0 mod 268435456) with 0. rewrite bool_decide_false, Hok by done. cbn [negb orb mbind out_mbind].
  eexists. split; [reflexivity|]. cbn [pdisk sec]. rewrite sector_set, decide_True by done.
  destruct (mbr_table_fields start size (mbr_code old)) as (F1 & F2 & F3 & F4 & F5); [done | unfold in_u32; lia | unfold in_u32; lia |].
  split_and!; auto.
  - unfold Fat32.mbr_fat_entry. cbn [for_find]. change (446 + Z.of_nat 0 * 16 + 4) with 450.
    rewrite F1. cbn [Z.eqb Pos.eqb orb]. change (446 + Z.of_nat 0 * 16 + 8) with 454. by rewrite F2.
  - intros i Hi. by apply mbr_table_code.
  - unfold mbr_code. intros Hcode.
    destruct (Z.eqb_spec (im8 old 0) 0), (Z.eqb_spec (im8 old 1) 0), (Z.eqb_spec (im8 old 2) 0); cbn [andb]; try done.
    exfalso. tauto.
  - intros a Ha. rewrite sector_set. by rewrite decide_False.
Qed.

Lemma part_mbr_roundtrip_witness :
  exists s', part_create_mbr_fat32 2048 65536 (mk_part zero_sector Fat32.blank_disk) = Ret (0, s') /\
    Fat32.mbr_fat_entry (sector (pdisk s') 0) = Some 2048.
Proof.
  destruct (part_mbr_roundtrip 2048 65536 (mk_part zero_sector Fat32.blank_disk)) as (s' & H1 & H2 & _);
    [done | done | done | done | lia | lia |].
  exists s'. split; [exact H1 | exact H2].
Defined.

(** The check value of CRC-32 on the nine digits. *)
Example crc32_check : crc32 $"123456789" = 0xCBF43926.
Proof. by vm_compute. Qed.

End Part.
