(* ===== verification/Paging64.v ===== *)
(** * The 64-bit kernel (src/src64/paging64.c, kernel64.c)

    The four-level walk and the replacement of the 2 MiB kernel page by
    4 KiB pages that are writable or executable but not both.  Physical
    memory is a map from addresses to 64-bit words; a table reached through
    [KERNEL_VMA + phys] is read at [phys].  The addresses the linker assigns
    and the processor's answer to CPUID are fields of [layout].
    [boot_tables] are the tables the boot assembly (src/src64/boot64.s) builds,
    from which the claim starts; they do not map the link addresses, so that
    reading a pointer at its physical address is what the source means and not
    what the processor would do under these tables.  Module
    [Kernel64] is the main function with its two consoles: it prints what
    the boot loader passed and ends halted, with the tables changed and
    nothing outside the screen written. *)

From S2P Require Import Prelude Memory.

Module Paging64.

Definition KERNEL_VMA : Z := 0xFFFFFFFF80000000.
Definition PAGE_SIZE_4K : Z := 0x1000.
Definition PAGE_PRESENT : Z := 1.
Definition PAGE_WRITE : Z := 2.
Definition PAGE_LARGE : Z := 0x80.
Definition PAGE_NX : Z := 0x8000000000000000.
Definition PTE_ADDR_MASK : Z := 0x000FFFFFFFFFF000.

Record layout : Type := mk_layout {
  text_start : Z; text_end : Z;
  rodata_start : Z; rodata_end : Z;
  data_start : Z; bss_end : Z;
  kernel_virtual_start : Z; kernel_virtual_end : Z;
  pml4 : Z; pd_hh : Z; pt_hh0 : Z;     (** virtual addresses of the tables *)
  nx_available : bool;                 (** CPUID *)
  g_nx_enabled : bool;
}.

Abbreviation words := (gmap Z Z).
Definition word (m : words) (a : Z) : Z := default 0 (m !! a).

Definition pml4_index (va : Z) : Z := Z.land (Z.shiftr va 39) 0x1FF.
Definition pdpt_index (va : Z) : Z := Z.land (Z.shiftr va 30) 0x1FF.
Definition pd_index (va : Z) : Z := Z.land (Z.shiftr va 21) 0x1FF.
Definition pt_index (va : Z) : Z := Z.land (Z.shiftr va 12) 0x1FF.

Definition paging_pte_set_nx (pte : Z) : Z := Z.lor pte PAGE_NX.
Definition paging_pte_clear_nx (pte : Z) : Z := Z.land pte (u64 (Z.lnot PAGE_NX)).
Definition paging_pte_is_nx (pte : Z) : bool := negb (Z.land pte PAGE_NX =? 0).

Definition is_present (e : Z) : bool := negb (Z.land e PAGE_PRESENT =? 0).
Definition is_large (e : Z) : bool := negb (Z.land e PAGE_LARGE =? 0).
(** Entry [i] of the table whose physical address an entry holds. *)
Definition table_entry (m : words) (e i : Z) : Z := word m (Z.land e PTE_ADDR_MASK + 8 * i).

(** 0 stands for "not mapped". *)
Definition paging_virt_to_phys (l : layout) (m : words) (va : Z) : Z :=
  let e := word m (pml4 l - KERNEL_VMA + 8 * pml4_index va) in
  if negb (is_present e) then 0
  else
    let e := table_entry m e (pdpt_index va) in
    if negb (is_present e) then 0
    else if is_large e then Z.lor (Z.land e 0x000FFFFFC0000000) (Z.land va 0x3FFFFFFF)
    else
      let e := table_entry m e (pd_index va) in
      if negb (is_present e) then 0
      else if is_large e then Z.lor (Z.land e 0x000FFFFFFFE00000) (Z.land va 0x1FFFFF)
      else
        let e := table_entry m e (pt_index va) in
        if negb (is_present e) then 0
        else Z.lor (Z.land e PTE_ADDR_MASK) (Z.land va 0xFFF).

Definition in_range (va a b : Z) : bool := (a <=? va) && (va <? b).
Definition nx_flag (nx : bool) : Z := if nx then PAGE_NX else 0.

Definition flags_for_va (l : layout) (va : Z) (nx : bool) : Z :=
  if in_range va (text_start l) (text_end l) then PAGE_PRESENT
  else if in_range va (rodata_start l) (rodata_end l) then Z.lor PAGE_PRESENT (nx_flag nx)
  else Z.lor (Z.lor PAGE_PRESENT PAGE_WRITE) (nx_flag nx).

(** The flags of page [i] in the first pass. *)
Definition first_flags (l : layout) (nx : bool) (i : Z) : Z :=
  let phys := i * PAGE_SIZE_4K in
  let va := u64 (KERNEL_VMA + phys) in
  if (va <? kernel_virtual_start l) || (kernel_virtual_end l <=? va) then
    if (0x100000 <=? phys) && (phys <? 0x101000) && negb nx then PAGE_PRESENT
    else Z.lor (Z.lor PAGE_PRESENT PAGE_WRITE) (nx_flag nx)
  else flags_for_va l va nx.

Definition pte (phys flags : Z) : Z := Z.lor (Z.land phys PTE_ADDR_MASK) flags.
Definition set_pt (l : layout) (i e : Z) (m : words) : words := <[pt_hh0 l - KERNEL_VMA + 8 * i := e]> m.

(** [for (i = 0; i < 512; i++)], from [i] on. *)
Fixpoint first_pass (n : nat) (l : layout) (nx : bool) (i : Z) (m : words) : words :=
  match n with
  | O => m
  | S n' => first_pass n' l nx (i + 1) (set_pt l i (pte (i * PAGE_SIZE_4K) (first_flags l nx i)) m)
  end.

(** [for (va = start & ~0xFFF; va < end; va += 4096)] with the flags of a section. *)
Fixpoint section_pass (fuel : nat) (l : layout) (flags va vend : Z) (m : words) : out words :=
  match fuel with
  | O => if va <? vend then Fault NoFuel else Ret m
  | S f =>
      if va <? vend then
        let phys := u64 (va - KERNEL_VMA) in
        let idx := u32 (phys / PAGE_SIZE_4K) in
        let m := if idx <? 512 then set_pt l idx (pte phys flags) m else m in
        section_pass f l flags (u64 (va + PAGE_SIZE_4K)) vend m
      else Ret m
  end.
Definition page_of (va : Z) : Z := Z.land va (u64 (Z.lnot (PAGE_SIZE_4K - 1))).
Definition section (l : layout) (flags start vend : Z) (m : words) : out words :=
  section_pass (Z.to_nat ((vend - page_of start) / PAGE_SIZE_4K + 1)) l flags (page_of start) vend m.

(** The tables afterwards; CR3 is reloaded with the same root. *)
Definition paging_apply_w_xor_x (l : layout) (m : words) : out words :=
  let nx := nx_available l && g_nx_enabled l in
  let m := first_pass 512 l nx 0 m in
  m ← section l PAGE_PRESENT (text_start l) (text_end l) m;
  m ← section l (Z.lor PAGE_PRESENT (nx_flag nx)) (rodata_start l) (rodata_end l) m;
  m ← section l (Z.lor (Z.lor PAGE_PRESENT PAGE_WRITE) (nx_flag nx)) (data_start l) (bss_end l) m;
  let pt_phys := u64 (pt_hh0 l - KERNEL_VMA) in
  Ret (<[pd_hh l - KERNEL_VMA := Z.lor (Z.lor (Z.land pt_phys PTE_ADDR_MASK) PAGE_PRESENT) PAGE_WRITE]> m).

(** ** Pages *)

Definition va_of (i : Z) : Z := KERNEL_VMA + 4096 * i.
(** Page [i] lies in a section that starts in or before it. *)
Definition touches (start vend i : Z) : bool := (page_of start <=? va_of i) && (va_of i <? vend).

(** The entry of page [i] after the four passes: the last writer wins. *)
Definition final_flags (l : layout) (nx : bool) (i : Z) : Z :=
  if touches (data_start l) (bss_end l) i then Z.lor (Z.lor PAGE_PRESENT PAGE_WRITE) (nx_flag nx)
  else if touches (rodata_start l) (rodata_end l) i then Z.lor PAGE_PRESENT (nx_flag nx)
  else if touches (text_start l) (text_end l) i then PAGE_PRESENT
  else first_flags l nx i.

Lemma page_of_eq va : 0 <= va < 2 ^ 64 -> page_of va = 4096 * (va / 4096).
Proof.
  intros H. unfold page_of, u64, PAGE_SIZE_4K. change 18446744073709551616 with (2 ^ 64).
  rewrite <- Z.land_ones, (Z.land_comm (Z.lnot _)), Z.land_assoc, Z.land_ones, Z.mod_small by lia.
  change (0x1000 - 1) with (Z.ones 12).
  rewrite <- Z.ldiff_land, Z.ldiff_ones_r, Z.shiftl_mul_pow2, Z.shiftr_div_pow2 by lia.
  change (2 ^ 12) with 4096. lia.
Qed.

(** The sections lie in the top 2 GiB, in this order, and the table itself is apart. *)
Record layout_ok (l : layout) : Prop := mk_layout_ok {
  lo_text : KERNEL_VMA <= text_start l <= text_end l;
  lo_rodata : text_end l <= rodata_start l <= rodata_end l;
  lo_data : rodata_end l <= data_start l <= bss_end l;
  lo_end : bss_end l <= 2 ^ 64 - 4096;
}.

Lemma word_set_pt l i e m a :
  word (set_pt l i e m) a = if decide (a = pt_hh0 l - KERNEL_VMA + 8 * i) then e else word m a.
Proof.
  unfold word, set_pt. rewrite lookup_insert. repeat case_decide; try done; congruence.
Qed.

(** The word of entry [i]. *)
Definition pt_word (l : layout) (m : words) (i : Z) : Z := word m (pt_hh0 l - KERNEL_VMA + 8 * i).
(** Memory outside the table is the same. *)
Definition same_outside (l : layout) (m m' : words) : Prop :=
  forall a, (forall i, 0 <= i < 512 -> a <> pt_hh0 l - KERNEL_VMA + 8 * i) -> word m' a = word m a.

Lemma first_pass_spec n l nx i m :
  0 <= i -> i + Z.of_nat n <= 512 ->
  (forall k, 0 <= k < 512 -> pt_word l (first_pass n l nx i m) k =
     if decide (i <= k < i + Z.of_nat n) then pte (k * PAGE_SIZE_4K) (first_flags l nx k) else pt_word l m k) /\
  same_outside l m (first_pass n l nx i m).
Proof.
  revert i m. induction n as [|n IH]; intros i m Hi Hn; cbn [first_pass].
  { split; [|done]. intros k Hk. by rewrite decide_False by lia. }
  destruct (IH (i + 1) (set_pt l i (pte (i * PAGE_SIZE_4K) (first_flags l nx i)) m)) as [H1 H2]; [lia | lia |].
  split.
  - intros k Hk. rewrite H1 by done. unfold pt_word. rewrite word_set_pt.
    destruct (decide (i + 1 <= k < i + 1 + Z.of_nat n)); [by rewrite decide_True by lia|].
    destruct (decide (k = i)) as [->|]; [by rewrite !decide_True by lia | by rewrite !decide_False by lia].
  - intros a Ha. rewrite H2 by done. rewrite word_set_pt, decide_False; [done|]. apply Ha. lia.
Qed.

Lemma section_pass_spec fuel l flags va vend m :
  (4096 | va) -> KERNEL_VMA <= va -> va <= 2 ^ 64 - 4096 -> vend <= 2 ^ 64 - 4096 ->
  vend - va <= 4096 * Z.of_nat fuel ->
  exists m', section_pass fuel l flags va vend m = Ret m' /\
    (forall k, 0 <= k < 512 -> pt_word l m' k =
       if decide (va <= va_of k < vend) then pte (4096 * k) flags else pt_word l m k) /\
    same_outside l m m'.
Proof.
  intros Hd Hv Hv2 He. unfold KERNEL_VMA in Hv. revert va m Hd Hv Hv2.
  induction fuel as [|f IH]; intros va m [q Hq] Hv Hv2 Hf; cbn [section_pass].
  - rewrite (proj2 (Z.ltb_ge va vend)) by lia. exists m. split_and!; auto; [|done].
    intros k Hk. by rewrite decide_False by lia.
  - destruct (Z.ltb_spec va vend) as [Hlt|Hge].
    2: { exists m. split_and!; auto; [|done]. intros k Hk. by rewrite decide_False by lia. }
    unfold KERNEL_VMA, PAGE_SIZE_4K, u64. rewrite (Z.mod_small (va - _)) by lia.
    set (p := va - 0xFFFFFFFF80000000). assert (Hp : p = 4096 * (p / 4096)) by (unfold p; subst va; zlia).
    rewrite u32_small by (unfold in_u32, p; zlia).
    set (m1 := if p / 4096 <? 512 then _ else _).
    assert (H1 : forall k, 0 <= k < 512 -> pt_word l m1 k = if decide (k = p / 4096) then pte p flags else pt_word l m k).
    { intros k Hk. unfold m1, pt_word. destruct (Z.ltb_spec (p / 4096) 512).
      - rewrite word_set_pt. destruct (decide (k = p / 4096)) as [->|]; [by rewrite decide_True | by rewrite decide_False by lia].
      - by rewrite decide_False by lia. }
    assert (H2 : same_outside l m m1).
    { intros a Ha. unfold m1. destruct (Z.ltb_spec (p / 4096) 512); [|done].
      rewrite word_set_pt, decide_False; [done|]. apply Ha. unfold p. zlia. }
    destruct (decide (va + 4096 < 2 ^ 64)) as [Hs|Hs].
    + rewrite (Z.mod_small (va + 0x1000)) by lia.
      destruct (IH (va + 0x1000) m1) as (m' & -> & Hk' & Ho'); [exists (q + 1); lia | lia | lia | lia |].
      exists m'. split_and!; [done | | intros a Ha; rewrite Ho' by done; by apply H2].
      intros k Hk. rewrite Hk', H1 by done. unfold va_of, KERNEL_VMA in *.
      destruct (decide (k = p / 4096)) as [->|Hne].
      * rewrite decide_False, decide_True by (unfold p in *; lia). by rewrite <- Hp.
      * destruct (decide (va + 4096 <= 0xFFFFFFFF80000000 + 4096 * k < vend)).
        -- by rewrite decide_True by lia.
        -- rewrite decide_False; [done|]. unfold p in *. lia.
    + exfalso. lia.
Qed.

Lemma section_spec l flags start vend m :
  KERNEL_VMA <= start <= vend -> vend <= 2 ^ 64 - 4096 ->
  exists m', section l flags start vend m = Ret m' /\
    (forall k, 0 <= k < 512 -> pt_word l m' k =
       if touches start vend k then pte (4096 * k) flags else pt_word l m k) /\
    same_outside l m m'.
Proof.
  intros Hs He. assert (Hp : page_of start = 4096 * (start / 4096)).
  { apply page_of_eq. unfold KERNEL_VMA in Hs. lia. }
  unfold section. unfold KERNEL_VMA, PAGE_SIZE_4K in *.
  destruct (section_pass_spec (Z.to_nat ((vend - page_of start) / 0x1000 + 1)) l flags (page_of start) vend m)
    as (m' & -> & Hk & Ho); [rewrite Hp; apply Z.divide_factor_l | unfold KERNEL_VMA; rewrite Hp; zlia | rewrite Hp; zlia
                            | done | rewrite Hp; zlia |].
  exists m'. split_and!; [done | | done]. intros k Hk0. rewrite Hk by done. unfold touches.
  destruct (Z.leb_spec (page_of start) (va_of k)), (Z.ltb_spec (va_of k) vend); cbn [andb]; case_decide; try done; lia.
Qed.

Lemma apply_spec l m :
  layout_ok l ->
  let nx := nx_available l && g_nx_enabled l in
  let pd := Z.lor (Z.lor (Z.land (u64 (pt_hh0 l - KERNEL_VMA)) PTE_ADDR_MASK) PAGE_PRESENT) PAGE_WRITE in
  exists m1, paging_apply_w_xor_x l m = Ret (<[pd_hh l - KERNEL_VMA := pd]> m1) /\
    (forall k, 0 <= k < 512 -> pt_word l m1 k = pte (4096 * k) (final_flags l nx k)) /\
    same_outside l m m1.
Proof.
  intros [H1 H2 H3 H4] nx pd. unfold paging_apply_w_xor_x. fold nx pd. cbv zeta.
  destruct (first_pass_spec 512 l nx 0 m) as [F1 F2]; [lia | lia |]. set (m0 := first_pass 512 l nx 0 m) in *.
  destruct (section_spec l PAGE_PRESENT (text_start l) (text_end l) m0) as (m2 & -> & S1 & O1); [lia | lia |].
  cbn [mbind out_mbind].
  destruct (section_spec l (Z.lor PAGE_PRESENT (nx_flag nx)) (rodata_start l) (rodata_end l) m2) as (m3 & -> & S2 & O2); [lia | lia |].
  cbn [mbind out_mbind].
  destruct (section_spec l (Z.lor (Z.lor PAGE_PRESENT PAGE_WRITE) (nx_flag nx)) (data_start l) (bss_end l) m3) as (m4 & -> & S3 & O3); [lia | lia |].
  cbn [mbind out_mbind]. exists m4. split_and!; [done | |].
  - intros k Hk. unfold final_flags. rewrite S3, S2, S1, F1, decide_True by lia.
    replace (k * PAGE_SIZE_4K) with (4096 * k) by (unfold PAGE_SIZE_4K; lia).
    repeat (destruct (touches _ _ _); [done|]). done.
  - intros a Ha. rewrite O3, O2, O1, F2 by done. done.
Qed.

(** ** Entries *)

Lemma pte_flag phys f k : Z.land PTE_ADDR_MASK k = 0 -> Z.land (pte phys f) k = Z.land f k.
Proof.
  intros H. unfold pte. rewrite Z.land_lor_distr_l, <- Z.land_assoc, H, Z.land_0_r. apply Z.lor_0_l.
Qed.

Lemma pte_addr phys f : Z.land f PTE_ADDR_MASK = 0 -> Z.land (pte phys f) PTE_ADDR_MASK = Z.land phys PTE_ADDR_MASK.
Proof.
  intros H. unfold pte. rewrite Z.land_lor_distr_l, H, Z.lor_0_r, <- Z.land_assoc. by rewrite Z.land_diag.
Qed.

(** A page number below 2^40 survives the address mask. *)
Lemma land_addr q : 0 <= q < 2 ^ 40 -> Z.land (4096 * q) PTE_ADDR_MASK = 4096 * q.
Proof.
  intros H. replace (4096 * q) with (Z.shiftl q 12) by (rewrite Z.shiftl_mul_pow2 by lia; lia).
  change PTE_ADDR_MASK with (Z.shiftl (Z.ones 40) 12).
  by rewrite <- Z.shiftl_land, Z.land_ones, Z.mod_small by lia.
Qed.

Lemma lor_offset q r : 0 <= r < 4096 -> Z.lor (4096 * q) r = 4096 * q + r.
Proof.
  intros H. rewrite <- Z.lxor_lor, Z.add_nocarry_lxor; try done;
    (replace (4096 * q) with (Z.shiftl q 12) by (rewrite Z.shiftl_mul_pow2 by lia; lia);
     rewrite <- (Z.mod_small r (2 ^ 12)) by lia; rewrite <- Z.land_ones by lia;
     rewrite (Z.land_comm r), Z.land_assoc, Z.land_ones, Z.shiftl_mul_pow2, Z.mod_mul by lia; apply Z.land_0_l).
Qed.

(** Every page is code (RX), read-only data or data. *)
Lemma final_flags_cases l nx i :
  final_flags l nx i = PAGE_PRESENT \/ final_flags l nx i = Z.lor PAGE_PRESENT (nx_flag nx) \/
  final_flags l nx i = Z.lor (Z.lor PAGE_PRESENT PAGE_WRITE) (nx_flag nx).
Proof.
  unfold final_flags, first_flags, flags_for_va. cbv zeta. destruct nx; rewrite ?andb_false_r; cbn [nx_flag];
    repeat (case_match; auto).
Qed.
Lemma final_flags_present l nx i : Z.land (final_flags l nx i) PAGE_PRESENT <> 0.
Proof. destruct nx, (final_flags_cases l true i) as [E|[E|E]], (final_flags_cases l false i) as [E'|[E'|E']]; rewrite ?E, ?E'; done. Qed.
Lemma final_flags_addr l nx i : Z.land (final_flags l nx i) PTE_ADDR_MASK = 0.
Proof. destruct nx, (final_flags_cases l true i) as [E|[E|E]], (final_flags_cases l false i) as [E'|[E'|E']]; rewrite ?E, ?E'; done. Qed.

(** ** The tables boot64.s builds *)

(** [hh_pd_loop], [id_pd_loop]: [n] entries from [a] on, for 2 MiB pages, all
    but the first non-executable. *)
Fixpoint pd_loop (n : nat) (a eax : Z) (first : bool) (m : words) : words :=
  match n with
  | O => m
  | S n' => pd_loop n' (a + 8) (u32 (eax + 0x200000)) false
              (<[a := eax + 2 ^ 32 * (if first then 0 else 0x80000000)]> m)
  end.

(** [pml4], [pdpt], [pdpt_hh], [pd0] to [pd3] and [pd_hh] follow each other in
    .bss, from physical address [b] on; all but the last are cleared first. *)
Definition boot_tables (b : Z) : words :=
  let m : words := ∅ in
  let m := <[b := Z.lor (b + 0x1000) 3]> m in
  let m := <[b + 511 * 8 := Z.lor (b + 0x2000) 3]> m in
  let m := <[b + 0x1000 := Z.lor (b + 0x3000) 3]> m in
  let m := <[b + 0x1008 := Z.lor (b + 0x4000) 3]> m in
  let m := <[b + 0x1010 := Z.lor (b + 0x5000) 3]> m in
  let m := <[b + 0x1018 := Z.lor (b + 0x6000) 3]> m in
  let m := <[b + 0x2000 := Z.lor (b + 0x7000) 3]> m in
  let m := pd_loop (512 * 4) (b + 0x3000) 0x83 true m in
  pd_loop 512 (b + 0x7000) 0x83 true m.

(** The tables at their places: pages of the first 4 GiB, and the page table
    of paging64.c another such page. *)
Record placed (l : layout) (b : Z) : Prop := mk_placed {
  pl_base : exists q, b = 4096 * q /\ 0 <= q /\ b + 0x8000 <= 2 ^ 32;
  pl_pml4 : pml4 l = KERNEL_VMA + b;
  pl_pd : pd_hh l = KERNEL_VMA + b + 0x7000;
  pl_pt : exists q, pt_hh0 l = KERNEL_VMA + 4096 * q /\ 0 <= q < 2 ^ 20 /\ (4096 * q + 4096 <= b \/ b + 0x8000 <= 4096 * q);
}.

Lemma pd_loop_out n a eax f m x : x < a \/ a + 8 * Z.of_nat n <= x -> word (pd_loop n a eax f m) x = word m x.
Proof.
  revert a eax f m. induction n as [|n IH]; intros a eax f m Hx; cbn [pd_loop]; [done|].
  rewrite IH by lia. unfold word. by rewrite lookup_insert_ne by lia.
Qed.

Lemma word_insert m a v x : word (<[a := v]> m) x = if decide (a = x) then v else word m x.
Proof. unfold word. rewrite lookup_insert. by case_decide. Qed.

(** The upper tables: what each entry outside the page directories holds. *)
Lemma boot_word b x :
  x < b + 0x3000 \/ b + 0x8000 <= x ->
  word (boot_tables b) x =
    if decide (x = b) then Z.lor (b + 0x1000) 3
    else if decide (x = b + 511 * 8) then Z.lor (b + 0x2000) 3
    else if decide (x = b + 0x1000) then Z.lor (b + 0x3000) 3
    else if decide (x = b + 0x1008) then Z.lor (b + 0x4000) 3
    else if decide (x = b + 0x1010) then Z.lor (b + 0x5000) 3
    else if decide (x = b + 0x1018) then Z.lor (b + 0x6000) 3
    else if decide (x = b + 0x2000) then Z.lor (b + 0x7000) 3 else 0.
Proof.
  intros Hx. unfold boot_tables. cbv zeta.
  assert (H1 : Z.of_nat 512 = 512) by done. assert (H2 : Z.of_nat (512 * 4) = 2048) by done.
  rewrite (pd_loop_out 512), (pd_loop_out (512 * 4)) by lia.
  rewrite !word_insert. unfold word at 1. rewrite lookup_empty. cbn [default from_option id].
  repeat case_decide; try lia; done.
Qed.

(** Where boot64.s maps the first GiB once more: entry 511 of the PML4, entry
    0 of [pdpt_hh]. *)
Definition BOOT_WINDOW : Z := 0xFFFFFF8000000000.

(** An address by its indices. *)
Lemma indices x :
  0 <= x < 2 ^ 30 ->
  pml4_index (KERNEL_VMA + x) = 511 /\ pdpt_index (KERNEL_VMA + x) = 510 /\
  pml4_index (BOOT_WINDOW + x) = 511 /\ pdpt_index (BOOT_WINDOW + x) = 0.
Proof.
  intros H. unfold pml4_index, pdpt_index, KERNEL_VMA, BOOT_WINDOW.
  change 0x1FF with (Z.ones 9).
  rewrite !Z.land_ones, !Z.shiftr_div_pow2 by lia.
  change (2 ^ 39) with 549755813888. change (2 ^ 30) with 1073741824 in *. change (2 ^ 9) with 512.
  change (Z.ones 9) with 511. split_and!; zlia.
Qed.
Lemma low_indices x :
  0 <= x < 0x200000 ->
  pd_index (BOOT_WINDOW + x) = 0 /\ pt_index (BOOT_WINDOW + x) = x / 4096 /\
  Z.land (BOOT_WINDOW + x) 0xFFF = x mod 4096 /\ Z.land (BOOT_WINDOW + x) 0x1FFFFF = x.
Proof.
  intros H. unfold pd_index, pt_index, BOOT_WINDOW.
  change 0x1FF with (Z.ones 9). change 0xFFF with (Z.ones 12). change 0x1FFFFF with (Z.ones 21).
  rewrite !Z.land_ones, !Z.shiftr_div_pow2 by lia.
  change (2 ^ 21) with 2097152. change (2 ^ 12) with 4096. change (2 ^ 9) with 512. split_and!; zlia.
Qed.

(** The walk through the window of boot64.s, down to the page directory. *)
Lemma walk_window l b m x :
  placed l b -> 0 <= x < 0x200000 -> (forall a, a = b + 511 * 8 \/ a = b + 0x2000 -> word m a = word (boot_tables b) a) ->
  paging_virt_to_phys l m (BOOT_WINDOW + x) =
  let e := word m (b + 0x7000) in
  if negb (is_present e) then 0
  else if is_large e then Z.lor (Z.land e 0x000FFFFFFFE00000) x
  else let e := table_entry m e (x / 4096) in
       if negb (is_present e) then 0 else Z.lor (Z.land e PTE_ADDR_MASK) (x mod 4096).
Proof.
  intros [(q & Hq & Hq0 & Hb) P1 P2 _] Hx Hw. destruct (indices x) as (_ & _ & I1 & I2); [lia|].
  destruct (low_indices x Hx) as (I3 & I4 & I5 & I6).
  assert (T : forall k, 0 <= k -> b + k + 0x1000 <= 2 ^ 32 -> (4096 | k) ->
    is_present (Z.lor (b + k) 3) = true /\ is_large (Z.lor (b + k) 3) = false /\
    Z.land (Z.lor (b + k) 3) PTE_ADDR_MASK = b + k).
  { intros k Hk Hk2 [j Hj]. replace (b + k) with (4096 * (q + j)) by lia.
    pose proof (pte_addr (4096 * (q + j)) 3 eq_refl) as Ha.
    pose proof (fun c => pte_flag (4096 * (q + j)) 3 c) as Hf. unfold pte in Ha, Hf. rewrite land_addr in Ha, Hf by lia.
    unfold is_present, is_large. rewrite (Hf PAGE_PRESENT), (Hf PAGE_LARGE) by done. split_and!; [done | done | exact Ha]. }
  unfold paging_virt_to_phys. cbv zeta. rewrite I1, I2, I3, I4, I5, I6, P1.
  replace (KERNEL_VMA + b - KERNEL_VMA + 8 * 511) with (b + 511 * 8) by lia.
  destruct (T 0x2000) as (T1 & _ & T3); [lia | lia | by exists 2 |].
  destruct (T 0x7000) as (T4 & T5 & T6); [lia | lia | by exists 7 |].
  rewrite Hw, boot_word by (auto; lia). rewrite decide_False, decide_True, T1 by lia. cbn [negb].
  unfold table_entry. rewrite T3, Z.add_0_r, Hw, boot_word by (auto; lia).
  rewrite !decide_False, decide_True, T4, T5, T6, !Z.add_0_r by lia. done.
Qed.

Lemma pd_loop_first n a eax m : word (pd_loop (S n) a eax true m) a = eax.
Proof. cbn [pd_loop]. rewrite pd_loop_out, word_insert, decide_True by lia. lia. Qed.

(** The first entry of [pd_hh]: the 2 MiB page at 0. *)
Lemma boot_pd0 b : word (boot_tables b) (b + 0x7000) = 0x83.
Proof. exact (pd_loop_first 511 _ _ _). Qed.

(** The kernel's link address selects entry 510 of [pdpt_hh], which is absent. *)
Lemma link_address_unmapped l b m x :
  placed l b -> 0 <= x < 2 ^ 30 ->
  (forall a, a = b + 511 * 8 \/ a = b + 0x2000 + 8 * 510 -> word m a = word (boot_tables b) a) ->
  paging_virt_to_phys l m (KERNEL_VMA + x) = 0.
Proof.
  intros [(q & Hq & Hq0 & Hb) P1 P2 _] Hx Hw. destruct (indices x Hx) as (I1 & I2 & _).
  unfold paging_virt_to_phys. cbv zeta. rewrite I1, I2, P1.
  replace (KERNEL_VMA + b - KERNEL_VMA + 8 * 511) with (b + 511 * 8) by lia.
  rewrite Hw, boot_word by (auto; lia). rewrite decide_False, decide_True by lia.
  replace (b + 0x2000) with (4096 * (q + 2)) by lia.
  pose proof (pte_addr (4096 * (q + 2)) 3 eq_refl) as Ha. unfold pte in Ha. rewrite land_addr in Ha by lia.
  destruct (negb _); [done|]. unfold table_entry. rewrite Ha.
  replace (4096 * (q + 2)) with (b + 0x2000) by lia. rewrite Hw, boot_word by (auto; lia).
  by rewrite !decide_False by lia.
Qed.


(** ** A small kernel image *)

(** Code and read-only data from 1 MiB on, data up to the tables. *)
Definition image (rodata : Z) : layout :=
  mk_layout (KERNEL_VMA + 0x100000) rodata rodata (KERNEL_VMA + 0x104000)
    (KERNEL_VMA + 0x104000) (KERNEL_VMA + 0x1A0000) (KERNEL_VMA + 0x100000) (KERNEL_VMA + 0x1A0000)
    (KERNEL_VMA + 0x180000) (KERNEL_VMA + 0x187000) (KERNEL_VMA + 0x190000) true true.
Lemma image_placed r : placed (image r) 0x180000.
Proof.
  constructor; cbn [pd_hh pt_hh0 pml4 image].
  - exists 0x180. lia.
  - done.
  - done.
  - exists 0x190. lia.
Qed.


(** The linker script does not align the sections: when .rodata starts in the
    last page of .text, that page is made non-executable, code included. *)
Lemma shared_page_not_executable l m i :
  layout_ok l -> nx_available l = true -> g_nx_enabled l = true -> 0 <= i < 512 ->
  pd_hh l <> pt_hh0 l + 8 * i -> touches (text_start l) (text_end l) i = true ->
  touches (rodata_start l) (rodata_end l) i = true ->
  exists m', paging_apply_w_xor_x l m = Ret m' /\ paging_pte_is_nx (pt_word l m' i) = true.
Proof.
  intros Hl Hn1 Hn2 Hi Hpd _ Hro. destruct (apply_spec l m Hl) as (m1 & -> & Hpt & _).
  rewrite Hn1, Hn2 in Hpt. cbn [andb] in Hpt. eexists. split; [reflexivity|].
  assert (Hw : pt_word l (<[pd_hh l - KERNEL_VMA := Z.lor (Z.lor (Z.land (u64 (pt_hh0 l - KERNEL_VMA)) PTE_ADDR_MASK)
      PAGE_PRESENT) PAGE_WRITE]> m1) i = pt_word l m1 i).
  { unfold pt_word, word. rewrite lookup_insert_ne by lia. done. }
  rewrite Hw, Hpt by done. unfold paging_pte_is_nx. rewrite pte_flag by done. unfold final_flags. rewrite Hro.
  by destruct (touches (data_start l) (bss_end l) i).
Qed.

(** boot64.s links [pd_hh] at entry 0 of the upper PDPT; the kernel's address
    selects entry 510, so nothing is mapped there. *)
Example boot_window_unmapped :
  paging_virt_to_phys (image (KERNEL_VMA + 0x102000)) (boot_tables 0x180000) (KERNEL_VMA + 0x100000) = 0 /\
  pdpt_index KERNEL_VMA = 510.
Proof. by vm_compute. Qed.

End Paging64.

(** ** kernel64.c *)

Module Kernel64.
Import Paging64.

Definition EFER_LME : Z := 0x100.
Definition EFER_NXE : Z := 0x800.
Definition MB2_MAGIC : Z := 0x36d76289.

(** The text screen, and the cursors of kernel64.c and of paging64.c. *)
Record con : Type := mk_con { cells : list Z; row : Z; col : Z; prow : Z; pcol : Z }.
Definition bss_con (screen : list Z) : con := mk_con screen 0 0 18 0.

Definition SCREEN : Z := 80 * 25.
(** [VGA[i] = v]; the screen has 2000 cells. *)
Definition vga_store (i v : Z) (c : list Z) : out (list Z) :=
  if (0 <=? i) && (i <? SCREEN) then Ret (<[Z.to_nat i := u16 v]> c) else Fault OutOfBounds.

Definition clear (s : con) : con := mk_con (replicate (Z.to_nat SCREEN) (Z.lor 0x0F00 32)) 0 0 (prow s) (pcol s).

(** [if (++row >= 25) row = 0;] *)
Definition next_row (r : Z) : Z := if 25 <=? r + 1 then 0 else r + 1.

Definition putc (c : Z) (s : con) : out con :=
  if c =? 10 then Ret (mk_con (cells s) (next_row (row s)) 0 (prow s) (pcol s))
  else
    cs ← vga_store (row s * 80 + col s) (Z.lor 0x0F00 (u8 c)) (cells s);
    Ret (if 80 <=? col s + 1 then mk_con cs (next_row (row s)) 0 (prow s) (pcol s)
         else mk_con cs (row s) (col s + 1) (prow s) (pcol s)).

(** The characters of a string, one by one, on one of the two consoles. *)
Fixpoint put_all (put : Z -> con -> out con) (t : chars) (s : con) : out con :=
  match t with
  | [] => Ret s
  | c :: t' => s ← put c s; put_all put t' s
  end.
Definition puts (t : chars) : con -> out con := put_all putc (cstr t).

(** [h[(v >> i) & 0xF]] for [i = 60, 56, ..., 0] *)
Definition hex_digit (v i : Z) : Z := char_at $"0123456789ABCDEF" (Z.to_nat (Z.land (Z.shiftr v i) 0xF)).
Definition hex64 (v : Z) : chars := $"0x" ++ map (fun k => hex_digit v (60 - 4 * k)) (seqZ 0 16).
Definition put_hex64 (v : Z) : con -> out con := puts (hex64 v).

(** [tag = info + 8; while (tag->type != 0 && n < 32) ...], [n] rounds left. *)
Fixpoint tag_loop (n : nat) (m : mem) (tag : Z) (s : con) : out con :=
  match n with
  | O => Ret s
  | S n' =>
      let type := ld32 m tag in
      let size := ld32 m (tag + 4) in
      if type =? 0 then Ret s
      else
        s ← puts $"  tag type=" s;
        s ← put_hex64 type s;
        s ← puts $" size=" s;
        s ← put_hex64 size s;
        s ← putc 10 s;
        let sz := Z.land (u32 (size + 7)) (u32 (Z.lnot 7)) in
        if sz <? 8 then Ret s else tag_loop n' m (u64 (tag + sz)) s
  end.

(** *** The console of paging64.c *)

Definition pputc (c : Z) (s : con) : out con :=
  if c =? 10 then Ret (mk_con (cells s) (row s) (col s) (if 25 <=? prow s + 1 then 14 else prow s + 1) 0)
  else if (prow s <? 25) && (pcol s <? 80) then
    cs ← vga_store (prow s * 80 + pcol s) (Z.lor 0x0E00 (u8 c)) (cells s);
    Ret (mk_con cs (row s) (col s) (prow s) (pcol s + 1))
  else Ret s.
Definition pputs (t : chars) : con -> out con := put_all pputc (cstr t).
Definition phex (v : Z) : con -> out con := pputs (hex64 v).
Definition flag (b : bool) : Z := if b then 1 else 0.

(** One round of the loop over the PML4. *)
Definition dump_entry (l : layout) (w : words) (i : Z) (s : con) : out con :=
  let e := word w (pml4 l - KERNEL_VMA + 8 * i) in
  if negb (is_present e) then Ret s
  else
    s ← pputs $" [" s; s ← phex i s; s ← pputs $"]->" s; s ← phex (Z.land e PTE_ADDR_MASK) s;
    s ← (if i =? 0 then pputs $" id" s else Ret s);
    s ← (if i =? 511 then pputs $" HH" s else Ret s);
    pputc 10 s.
Fixpoint dump_loop (n : nat) (l : layout) (w : words) (i : Z) (s : con) : out con :=
  match n with
  | O => Ret s
  | S n' => s ← dump_entry l w i s; dump_loop n' l w (i + 1) s
  end.

(** The line for one sampled entry of the new table. *)
Definition dump_pte (name : chars) (e : Z) (s : con) : out con :=
  s ← pputs (name ++ $" PTE NX=") s; s ← phex (flag (paging_pte_is_nx e)) s;
  s ← pputs $" W=" s; s ← phex (flag (negb (Z.land e PAGE_WRITE =? 0))) s;
  pputc 10 s.

(** [efer] is what [rdmsr] gives. *)
Definition paging_dump_pml4 (l : layout) (efer : Z) (w : words) (s : con) : out con :=
  s ← pputs ($"PML4 present:" ++ [10]) s;
  s ← dump_loop 512 l w 0 s;
  s ← pputs $"EFER=" s; s ← phex efer s;
  s ← pputs $" NXE=" s; s ← phex (flag (negb (Z.land efer EFER_NXE =? 0))) s;
  s ← pputs $" LME=" s; s ← phex (flag (negb (Z.land efer EFER_LME =? 0))) s;
  s ← pputc 10 s;
  s ← pputs $"CPUID.NX=" s; s ← phex (flag (nx_available l)) s;
  s ← pputs $" g_nx=" s; s ← phex (flag (g_nx_enabled l)) s;
  s ← pputc 10 s;
  let ti := u32 (u64 (text_start l - KERNEL_VMA) / PAGE_SIZE_4K) in
  let di := u32 (u64 (data_start l - KERNEL_VMA) / PAGE_SIZE_4K) in
  if (ti <? 512) && (di <? 512) then
    s ← dump_pte $"text" (pt_word l w ti) s;
    dump_pte $"data" (pt_word l w di) s
  else Ret s.

(** The state in which the processor is halted.  [m] is the memory the boot
    loader left, [phys_start] the address [_kernel_physical_start]. *)
Definition kernel_main64 (l : layout) (m : mem) (phys_start efer magic info : Z) (w : words) (s : con)
    : out (words * con) :=
  let s := clear s in
  s ← puts ($"MyKernel x86_64 / Multiboot2" ++ [10]) s;
  if negb (magic =? MB2_MAGIC) then
    s ← puts ($"BAD MAGIC (not Multiboot2)" ++ [10]) s;
    s ← puts $"EAX was: " s; s ← put_hex64 magic s; s ← putc 10 s;
    Ret (w, s)
  else
    s ← puts ($"Multiboot2 magic OK" ++ [10]) s;
    s ← puts $"Higher-half VMA start " s; s ← put_hex64 (kernel_virtual_start l) s; s ← putc 10 s;
    s ← puts $"Phys load start      " s; s ← put_hex64 phys_start s; s ← putc 10 s;
    s ← puts $"Info @ " s; s ← put_hex64 info s; s ← putc 10 s;
    s ← (if info =? 0 then Ret s
         else
           s ← puts $"Info size " s; s ← put_hex64 (ld32 m info) s; s ← putc 10 s;
           tag_loop 32 m (info + 8) s);
    w ← paging_apply_w_xor_x l w;
    s ← paging_dump_pml4 l efer w s;
    s ← puts ([10] ++ $"Long mode + PML4 OK. 32-bit tree: make" ++ [10]) s;
    s ← puts ($"Build: make kernel64 && qemu-system-x86_64 -kernel build64/mykernel64.bin" ++ [10]) s;
    Ret (w, s).

(** *** The consoles stay on the screen *)

Record con_ok (s : con) : Prop := mk_con_ok {
  c_cells : length (cells s) = 2000%nat;
  c_row : 0 <= row s < 25;
  c_col : 0 <= col s < 80;
  c_prow : 14 <= prow s < 25;
  c_pcol : 0 <= pcol s <= 80;
}.

(** The call returns and keeps the consoles sound. *)
Definition fine (f : con -> out con) : Prop := forall s, con_ok s -> exists s', f s = Ret s' /\ con_ok s'.

Lemma fine_bind f g : fine f -> fine g -> fine (fun s => s ← f s; g s).
Proof. intros Hf Hg s Hs. destruct (Hf s Hs) as (s1 & -> & H1). cbn [mbind out_mbind]. by apply Hg. Qed.
Lemma fine_ret : fine Ret.
Proof. intros s Hs. by exists s. Qed.
Lemma fine_if (b : bool) f g : fine f -> fine g -> fine (fun s => if b then f s else g s).
Proof. by destruct b. Qed.

Lemma store_ok i v c :
  0 <= i < 2000 -> length c = 2000%nat -> exists c', vga_store i v c = Ret c' /\ length c' = 2000%nat.
Proof.
  intros Hi Hl. unfold vga_store, SCREEN. destruct (Z.leb_spec 0 i), (Z.ltb_spec i (80 * 25)); cbn [andb]; try lia.
  eexists. split; [done|]. by rewrite length_insert.
Qed.

Lemma fine_putc c : fine (putc c).
Proof.
  intros s [H1 H2 H3 H4 H5]. unfold putc, next_row. destruct (c =? 10).
  - eexists. split; [done|]. constructor; cbn; try done; repeat case_match; lia.
  - destruct (store_ok (row s * 80 + col s) (Z.lor 0x0F00 (u8 c)) (cells s)) as (cs & -> & Hl); [lia | done |].
    cbn [mbind out_mbind]. eexists. split; [done|].
    destruct (Z.leb_spec 80 (col s + 1)), (Z.leb_spec 25 (row s + 1)); constructor; cbn; try done; lia.
Qed.

Lemma fine_pputc c : fine (pputc c).
Proof.
  intros s [H1 H2 H3 H4 H5]. unfold pputc. destruct (c =? 10).
  - eexists. split; [done|]. destruct (Z.leb_spec 25 (prow s + 1)); constructor; cbn; try done; lia.
  - destruct (Z.ltb_spec (prow s) 25), (Z.ltb_spec (pcol s) 80); cbn [andb]; try (by exists s).
    destruct (store_ok (prow s * 80 + pcol s) (Z.lor 0x0E00 (u8 c)) (cells s)) as (cs & -> & Hl); [lia | done |].
    cbn [mbind out_mbind]. eexists. split; [done|]. constructor; cbn; try done; lia.
Qed.

Lemma fine_all put t : (forall c, fine (put c)) -> fine (put_all put t).
Proof. intros H. induction t as [|c t IH]; cbn [put_all]; [apply fine_ret | by apply fine_bind]. Qed.
Lemma fine_puts t : fine (puts t).
Proof. apply fine_all, fine_putc. Qed.
Lemma fine_pputs t : fine (pputs t).
Proof. apply fine_all, fine_pputc. Qed.
#[local] Hint Resolve fine_putc fine_pputc fine_puts fine_pputs fine_ret : kernel.

(** Through a sequence of console calls. *)
Ltac console := repeat first [progress auto with kernel | apply fine_puts | apply fine_pputs | apply fine_bind | apply fine_if].

Lemma fine_tags n m tag : fine (tag_loop n m tag).
Proof. revert tag. induction n as [|n IH]; intros tag; cbn [tag_loop]; console. Qed.

Lemma fine_dump l efer w : fine (paging_dump_pml4 l efer w).
Proof.
  assert (He : forall i, fine (dump_entry l w i)) by (intros i; unfold dump_entry; console).
  assert (Hl : forall n i, fine (dump_loop n l w i)).
  { induction n as [|n IH]; intros i; cbn [dump_loop]; console. }
  assert (Hp : forall name e, fine (dump_pte name e)) by (intros; unfold dump_pte; console).
  unfold paging_dump_pml4. console.
Qed.

(** *** What the walk prints *)

(** The tags the walk visits, with type and size. *)
Fixpoint tags (n : nat) (m : mem) (tag : Z) : list (Z * Z) :=
  match n with
  | O => []
  | S n' =>
      if ld32 m tag =? 0 then []
      else
        let sz := Z.land (u32 (ld32 m (tag + 4) + 7)) (u32 (Z.lnot 7)) in
        (ld32 m tag, ld32 m (tag + 4)) :: if sz <? 8 then [] else tags n' m (u64 (tag + sz))
  end.

Definition tag_line (x : Z * Z) : chars :=
  $"  tag type=" ++ hex64 (fst x) ++ $" size=" ++ hex64 (snd x) ++ [10].

Lemma put_all_app put a b s : put_all put (a ++ b) s = (s ← put_all put a s; put_all put b s).
Proof.
  revert s. induction a as [|c a IH]; intros s; cbn [app put_all]; [done|].
  destruct (put c s) as [s1|]; cbn [mbind out_mbind]; [apply IH | done].
Qed.

Lemma puts_hex v : puts (hex64 v) = put_all putc (hex64 v).
Proof.
  unfold puts. f_equal. apply cstr_id. unfold hex64. apply Forall_app. split; [by repeat constructor|].
  apply Forall_map, Forall_forall. intros k _. unfold hex_digit.
  assert (Hr : 0 <= Z.land (Z.shiftr v (60 - 4 * k)) 15 < 16) by (change 15 with (Z.ones 4); rewrite Z.land_ones by lia; apply Z.mod_pos_bound; lia).
  assert (Hall : forallb (fun n => negb (char_at $"0123456789ABCDEF" (Z.to_nat n) =? 0)) (seqZ 0 16) = true) by reflexivity.
  rewrite forallb_forall in Hall. apply Z.eqb_neq, negb_true_iff, Hall. apply list_elem_of_In, elem_of_seqZ. lia.
Qed.

Lemma tag_printed ty sz (k : con -> out con) s :
  (s ← puts $"  tag type=" s; s ← put_hex64 ty s; s ← puts $" size=" s; s ← put_hex64 sz s; s ← putc 10 s; k s) =
  (s ← put_all putc (tag_line (ty, sz)) s; k s).
Proof.
  unfold tag_line, put_hex64. cbn [fst snd]. rewrite !puts_hex.
  change (puts $"  tag type=") with (put_all putc $"  tag type="). change (puts $" size=") with (put_all putc $" size=").
  rewrite put_all_app. destruct (put_all putc _ s) as [s1|]; [|done]. change (Ret s1 ≫= ?f) with (f s1). cbv beta.
  rewrite put_all_app. destruct (put_all putc (hex64 ty) s1) as [s2|]; [|done]. change (Ret s2 ≫= ?f) with (f s2). cbv beta.
  rewrite put_all_app. destruct (put_all putc _ s2) as [s3|]; [|done]. change (Ret s3 ≫= ?f) with (f s3). cbv beta.
  rewrite put_all_app. destruct (put_all putc _ s3) as [s4|]; [|done]. change (Ret s4 ≫= ?f) with (f s4). cbv beta.
  cbn [put_all]. by destruct (putc 10 s4).
Qed.

(** The walk prints one line for each tag it visits, at most 32. *)
Theorem tag_loop_prints n m tag s :
  tag_loop n m tag s = put_all putc (concat (map tag_line (tags n m tag))) s /\ (length (tags n m tag) <= n)%nat.
Proof.
  revert tag s. induction n as [|n IH]; intros tag s; cbn [tag_loop tags]; [done|].
  destruct (ld32 m tag =? 0); [split; [done | cbn; lia]|]. rewrite tag_printed. cbn [map concat]. rewrite put_all_app.
  destruct (_ <? 8).
  - split; [by destruct (put_all _ _ s) | cbn; lia].
  - split; [|cbn [length]; destruct (IH (u64 (tag + Z.land (u32 (ld32 m (tag + 4) + 7)) (u32 (Z.lnot 7)))) s); lia].
    destruct (put_all _ _ s) as [s1|]; [|done]. apply IH.
Qed.

(** The same with the tables in the result. *)
Definition fine_with (w : words) (f : con -> out (words * con)) : Prop :=
  forall s, con_ok s -> exists s', f s = Ret (w, s') /\ con_ok s'.
Lemma fine_then w f g : fine f -> fine_with w g -> fine_with w (fun s => s ← f s; g s).
Proof. intros Hf Hg s Hs. destruct (Hf s Hs) as (s1 & -> & H1). cbn [mbind out_mbind]. by apply Hg. Qed.
Lemma fine_end w : fine_with w (fun s => Ret (w, s)).
Proof. intros s Hs. by exists s. Qed.

Lemma cleared_ok s : 14 <= prow s < 25 -> 0 <= pcol s <= 80 -> con_ok (clear s).
Proof. intros H1 H2. constructor; cbn [clear cells row col prow pcol]; [apply length_replicate | lia | lia | done | done]. Qed.

(** [kernel_main64] ends, halted, whatever the boot loader passed: every
    character it writes is inside the screen, and the page tables are those
    of [paging_apply_w_xor_x] if the magic number is right and untouched
    otherwise. *)
Theorem kernel64_halts l m phys_start efer magic info w screen :
  layout_ok l ->
  exists w' s', kernel_main64 l m phys_start efer magic info w (bss_con screen) = Ret (w', s') /\ con_ok s' /\
    if magic =? MB2_MAGIC then paging_apply_w_xor_x l w = Ret w' else w' = w.
Proof.
  intros Hl. destruct (apply_spec l w Hl) as (w1 & Ew & _). set (w2 := <[_ := _]> w1) in *. clearbody w2.
  pose proof (cleared_ok (bss_con screen)) as H0. unfold kernel_main64. rewrite Ew.
  assert (H1 : con_ok (clear (bss_con screen))) by (apply H0; cbn; lia).
  assert (Hi : fine (fun s => if info =? 0 then Ret s else s ← puts $"Info size " s; s ← put_hex64 (ld32 m info) s; s ← putc 10 s;
    tag_loop 32 m (info + 8) s)).
  { apply fine_if; [apply fine_ret|]. do 3 (apply fine_bind; [console|]). apply fine_tags. }
  assert (Hgo : forall w' f g (X : Prop), fine f -> fine_with w' g -> X ->
    exists s', (s ← f (clear (bss_con screen)); g s) = Ret (w', s') /\ con_ok s' /\ X).
  { intros w' f g X Hf Hg HX. destruct (fine_then w' f g Hf Hg _ H1) as (s' & E & Hs). by exists s'. }
  destruct (magic =? MB2_MAGIC); cbn [negb]; [exists w2 | exists w]; (apply Hgo; [apply fine_puts | | reflexivity]);
    cbn [mbind out_mbind].
  - do 10 (apply fine_then; [console|]). apply fine_then; [exact Hi|]. apply fine_then; [apply fine_dump|].
    do 2 (apply fine_then; [console|]). apply fine_end.
  - do 4 (apply fine_then; [console|]). apply fine_end.
Qed.

Lemma kernel64_halts_witness :
  exists w' s', kernel_main64 (image (KERNEL_VMA + 0x102000)) ∅ 0x100000 0xD00 MB2_MAGIC 0 (boot_tables 0x180000) (bss_con []) = Ret (w', s')
    /\ con_ok s'.
Proof.
  destruct (kernel64_halts (image (KERNEL_VMA + 0x102000)) ∅ 0x100000 0xD00 MB2_MAGIC 0 (boot_tables 0x180000) []) as (w' & s' & E & H & _);
    [constructor; by vm_compute | exists w', s'; split; [exact E | exact H]].
Defined.

(** Two tags and the end tag. *)
Example tags_walked :
  tags 32 (mem_write ∅ 0x9508 ([6; 0; 0; 0; 12; 0; 0; 0; 1; 2; 3; 4] ++ [0; 0; 0; 0] ++ [4; 0; 0; 0; 16; 0; 0; 0] ++ replicate 8 9)) 0x9508
  = [(6, 12); (4, 16)].
Proof. vm_compute. reflexivity. Qed.

End Kernel64.
