(* ===== verification/Ports.v ===== *)
(** * Port input and output (src/src/io.h)

    Drivers talk to devices through [in] and [out] instructions.  The model
    keeps the log of what has been sent and received, newest first; what a
    device answers is a function of that log and of the port, a parameter of
    the code that reads ports. *)

From S2P Require Import Prelude.

Module Ports.

(** Width in bits, port, value. *)
Inductive io_event : Type :=
| Out (width port value : Z)
| In (width port value : Z).

Abbreviation log := (list io_event).
Definition device : Type := log -> Z -> Z.

Definition outb (port value : Z) (l : log) : log := Out 8 port (u8 value) :: l.
Definition outw (port value : Z) (l : log) : log := Out 16 port (u16 value) :: l.
Definition outl (port value : Z) (l : log) : log := Out 32 port (u32 value) :: l.

Definition inb (dev : device) (port : Z) (l : log) : Z * log :=
  let v := u8 (dev l port) in (v, In 8 port v :: l).
Definition inw (dev : device) (port : Z) (l : log) : Z * log :=
  let v := u16 (dev l port) in (v, In 16 port v :: l).
Definition inl (dev : device) (port : Z) (l : log) : Z * log :=
  let v := u32 (dev l port) in (v, In 32 port v :: l).

Definition io_wait (l : log) : log := outb 0x80 0 l.

(** A sequence of [outb(port, value)]. *)
Definition outs (ps : list (Z * Z)) (l : log) : log := foldl (fun l p => outb (fst p) (snd p) l) l ps.

End Ports.
