(* ===== verification/Pci.v ===== *)
(** * The PCI bus (src/src/pci.c)

    Configuration space through the ports 0xCF8 and 0xCFC, the scan over
    all buses, devices and functions with a visitor, and the searches. *)

From S2P Require Import Prelude Terminal Ports.
Import Ports.

Module Pci.

Definition PCI_CONFIG_ADDRESS : Z := 0xCF8.
Definition PCI_CONFIG_DATA : Z := 0xCFC.

Record pci_device : Type := mk_pci {
  bus : Z; device : Z; function : Z;
  vendor_id : Z; device_id : Z;
  class_code : Z; subclass : Z; prog_if : Z; header_type : Z;
  bar : list Z;
  interrupt_line : Z;
}.

Definition pci_make_address (bus device function offset : Z) : Z :=
  Z.lor (Z.lor (Z.lor (Z.lor 0x80000000 (Z.shiftl bus 16)) (Z.shiftl (Z.land device 0x1F) 11))
    (Z.shiftl (Z.land function 0x07) 8)) (Z.land offset 0xFC).

Section Bus.

Context (dev : Ports.device).

Definition pci_config_read32 (bus device function offset : Z) (l : log) : Z * log :=
  inl dev PCI_CONFIG_DATA (outl PCI_CONFIG_ADDRESS (pci_make_address bus device function offset) l).

Definition pci_config_write32 (bus device function offset value : Z) (l : log) : log :=
  outl PCI_CONFIG_DATA value (outl PCI_CONFIG_ADDRESS (pci_make_address bus device function offset) l).

Definition pci_config_read16 (bus device function offset : Z) (l : log) : Z * log :=
  let '(word, l) := pci_config_read32 bus device function (Z.land offset 0xFC) l in
  (if Z.testbit offset 1 then u16 (Z.shiftr word 16) else u16 (Z.land word 0xFFFF), l).

Definition pci_config_write16 (bus device function offset value : Z) (l : log) : log :=
  let '(word, l) := pci_config_read32 bus device function (Z.land offset 0xFC) l in
  let word := if Z.testbit offset 1 then Z.lor (Z.land word 0x0000FFFF) (Z.shiftl value 16)
              else Z.lor (Z.land word 0xFFFF0000) value in
  pci_config_write32 bus device function (Z.land offset 0xFC) word l.

(** [for (i = 0; i < n; i++) bar[k + i] = ...;] *)
Fixpoint read_bars (bus device function : Z) (n : nat) (i : Z) (l : log) : list Z * log :=
  match n with
  | O => ([], l)
  | S n' =>
      let '(b, l) := pci_config_read32 bus device function (0x10 + i * 4) l in
      let '(bs, l) := read_bars bus device function n' (i + 1) l in
      (b :: bs, l)
  end.

Definition pci_fill_device (bus device function : Z) (l : log) : pci_device * log :=
  let '(id_word, l) := pci_config_read32 bus device function 0x00 l in
  let '(class_word, l) := pci_config_read32 bus device function 0x08 l in
  let '(header_word, l) := pci_config_read32 bus device function 0x0C l in
  let '(bars, l) := read_bars bus device function 6 0 l in
  let '(irq_word, l) := pci_config_read32 bus device function 0x3C l in
  (mk_pci bus device function (u16 (Z.land id_word 0xFFFF)) (u16 (Z.shiftr id_word 16))
     (u8 (Z.shiftr class_word 24)) (u8 (Z.shiftr class_word 16)) (u8 (Z.shiftr class_word 8))
     (u8 (Z.shiftr header_word 16)) bars (u8 (Z.land irq_word 0xFF)), l).

Definition pci_device_exists (bus device function : Z) (l : log) : bool * log :=
  let '(vendor, l) := pci_config_read16 bus device function 0x00 l in
  (negb (vendor =? 0xFFFF), l).

Section Visit.

(** The visitor and what it accumulates in [userdata]. *)
Context {A : Type} (visit : pci_device -> A -> A).

(** One round of the innermost loop. *)
Definition visit_function (bus device function : Z) (s : A * log) : A * log :=
  let '(a, l) := s in
  let '(ex, l) := pci_device_exists bus device function l in
  if ex : bool then
    let '(d, l) := pci_fill_device bus device function l in (visit d a, l)
  else (a, l).

Definition visit_device (bus device : Z) (s : A * log) : A * log :=
  let '(a, l) := s in
  let '(ex, l) := pci_device_exists bus device 0 l in
  if ex : bool then
    let '(d, l) := pci_fill_device bus device 0 l in
    let s := (visit d a, l) in
    if Z.testbit (header_type d) 7 then for_up 7 1 (visit_function bus device) s else s
  else (a, l).

Definition pci_for_each_device (s : A * log) : A * log :=
  for_up 256 0 (fun bus => for_up 32 0 (visit_device bus)) s.

End Visit.

Definition print_visitor (d : pci_device) (t : Terminal.term) : Terminal.term :=
  Terminal.terminal_writestring
    ($"  " ++ Terminal.uint_chars (bus d) ++ $":" ++ Terminal.uint_chars (device d) ++ $"." ++
     Terminal.uint_chars (function d) ++ $"  vendor=" ++ Terminal.hex_chars (vendor_id d) ++
     $" device=" ++ Terminal.hex_chars (device_id d) ++ $" class=" ++ Terminal.hex_chars (class_code d) ++
     $" subclass=" ++ Terminal.hex_chars (subclass d) ++ [10]) t.

Definition pci_scan_and_print (t : Terminal.term) (l : log) : Terminal.term * log :=
  pci_for_each_device print_visitor (Terminal.terminal_writestring ($"PCI devices:" ++ [10]) t, l).

(** [ctx->found] and [*ctx->out]. *)
Definition find_visitor (p : pci_device -> bool) (d : pci_device) (found : option pci_device)
  : option pci_device :=
  match found with
  | Some _ => found
  | None => if p d then Some d else None
  end.

Definition find_by_id_visitor (vendor dev_id : Z) : pci_device -> option pci_device -> option pci_device :=
  find_visitor (fun d => (vendor_id d =? vendor) && (device_id d =? dev_id)).
Definition pci_find_device (vendor dev_id : Z) (l : log) : option pci_device * log :=
  pci_for_each_device (find_by_id_visitor vendor dev_id) (None, l).

Definition find_by_class_visitor (cls sub : Z) : pci_device -> option pci_device -> option pci_device :=
  find_visitor (fun d => (class_code d =? cls) && (subclass d =? sub)).
Definition pci_find_by_class (cls sub : Z) (l : log) : option pci_device * log :=
  pci_for_each_device (find_by_class_visitor cls sub) (None, l).

Definition pci_enable_bus_mastering (d : pci_device) (l : log) : log :=
  let '(command, l) := pci_config_read16 (bus d) (device d) (function d) 0x04 l in
  pci_config_write16 (bus d) (device d) (function d) 0x04 (Z.lor command 0x0004) l.

End Bus.

(** ** What a scan finds *)

Section Scan.

(** A configuration space that reads do not change: after a write of an
    address to 0xCF8, a read of 0xCFC gives the word at that address. *)
Context (dev : Ports.device) (cfg : Z -> Z).
Context (config_reads : forall l a, dev (Out 32 PCI_CONFIG_ADDRESS a :: l) PCI_CONFIG_DATA = cfg a).

(** The word of a function at an offset. *)
Definition conf (b d f off : Z) : Z := u32 (cfg (u32 (pci_make_address b d f off))).

Definition device_at (b d f : Z) : pci_device :=
  mk_pci b d f (u16 (Z.land (conf b d f 0x00) 0xFFFF)) (u16 (Z.shiftr (conf b d f 0x00) 16))
    (u8 (Z.shiftr (conf b d f 0x08) 24)) (u8 (Z.shiftr (conf b d f 0x08) 16)) (u8 (Z.shiftr (conf b d f 0x08) 8))
    (u8 (Z.shiftr (conf b d f 0x0C) 16)) (map (fun i => conf b d f (0x10 + i * 4)) (seqZ 0 6))
    (u8 (Z.land (conf b d f 0x3C) 0xFF)).

(** A function answers when its vendor is not 0xFFFF. *)
Definition answers (b d f : Z) : bool := negb (vendor_id (device_at b d f) =? 0xFFFF).

(** The functions of one device in the order of the scan: function 0, and the
    others only when function 0 says that there are some. *)
Definition functions (b d : Z) : list pci_device :=
  if answers b d 0 then
    device_at b d 0 ::
      (if Z.testbit (header_type (device_at b d 0)) 7
       then map (device_at b d) (filter (fun f => Is_true (answers b d f)) (seqZ 1 7)) else [])
  else [].

Definition present : list pci_device :=
  concat (map (fun b => concat (map (functions b) (seqZ 0 32))) (seqZ 0 256)).

Lemma read32_spec b d f off l : fst (pci_config_read32 dev b d f off l) = conf b d f off.
Proof. unfold pci_config_read32, inl, outl. cbn [fst]. by rewrite config_reads. Qed.

Lemma read32_pair b d f off l :
  exists l', pci_config_read32 dev b d f off l = (conf b d f off, l').
Proof.
  destruct (pci_config_read32 dev b d f off l) as [v l'] eqn:E. exists l'. f_equal.
  rewrite <- (read32_spec b d f off l). by rewrite E.
Qed.

(** Replace the next configuration read by its value. *)
Ltac read_conf :=
  match goal with
  | |- context [pci_config_read32 dev ?b ?d ?f ?off ?l] =>
      let l' := fresh "l" in let E := fresh "E" in destruct (read32_pair b d f off l) as [l' E]; rewrite E; clear E
  end.

Lemma fill_spec b d f l : exists l', pci_fill_device dev b d f l = (device_at b d f, l').
Proof. unfold pci_fill_device. cbn [read_bars]. repeat read_conf. eexists. reflexivity. Qed.

Lemma exists_spec b d f l : exists l', pci_device_exists dev b d f l = (answers b d f, l').
Proof. unfold pci_device_exists, pci_config_read16. cbn [Z.land Z.testbit]. read_conf. eexists. reflexivity. Qed.

Section Visitor.

Context {A : Type} (visit : pci_device -> A -> A).

Definition visit_all (ds : list pci_device) (a : A) : A := foldl (fun a d => visit d a) a ds.

Lemma for_up_visit (F : Z -> A * log -> A * log) (g : Z -> list pci_device) n i :
  (forall k a l, exists l', F k (a, l) = (visit_all (g k) a, l')) ->
  forall a l, exists l', for_up n i F (a, l) = (visit_all (concat (map g (seqZ i (Z.of_nat n)))) a, l').
Proof.
  intros HF. revert i. induction n as [|n IH]; intros i a l; [by exists l|].
  rewrite Nat2Z.inj_succ, seqZ_cons by lia. cbn [for_up map concat]. destruct (HF i a l) as [l1 ->].
  destruct (IH (i + 1) (visit_all (g i) a) l1) as [l2 E]. rewrite Z.pred_succ, <- Z.add_1_r. exists l2. rewrite E. f_equal.
  unfold visit_all. by rewrite foldl_app.
Qed.

Lemma visit_function_spec b d f a l :
  exists l', visit_function dev visit b d f (a, l) =
    (visit_all (if answers b d f then [device_at b d f] else []) a, l').
Proof.
  unfold visit_function. destruct (exists_spec b d f l) as [l1 ->]. destruct (answers b d f); [|by exists l1].
  destruct (fill_spec b d f l1) as [l2 ->]. by exists l2.
Qed.

Lemma concat_filter b d l :
  concat (map (fun f => if answers b d f then [device_at b d f] else []) l) =
  map (device_at b d) (filter (fun f => Is_true (answers b d f)) l).
Proof.
  induction l as [|f l IH]; [done|]. cbn [map concat]. rewrite filter_cons, IH.
  destruct (answers b d f); [rewrite decide_True by done | rewrite decide_False by tauto]; done.
Qed.

Lemma visit_device_spec b d a l :
  exists l', visit_device dev visit b d (a, l) = (visit_all (functions b d) a, l').
Proof.
  unfold visit_device, functions. destruct (exists_spec b d 0 l) as [l1 ->]. destruct (answers b d 0); [|by exists l1].
  destruct (fill_spec b d 0 l1) as [l2 ->]. destruct (Z.testbit _ 7); [|by exists l2].
  destruct (for_up_visit (visit_function dev visit b d) (fun f => if answers b d f then [device_at b d f] else []) 7 1
    (visit_function_spec b d) (visit (device_at b d 0) a) l2) as [l3 E].
  exists l3. rewrite E. rewrite concat_filter. done.
Qed.

(** The scan is a fold over the functions that are present. *)
Lemma for_each_spec a l : exists l', pci_for_each_device dev visit (a, l) = (visit_all present a, l').
Proof.
  unfold pci_for_each_device, present.
  apply (for_up_visit (fun bus => for_up 32 0 (visit_device dev visit bus))
           (fun b => concat (map (functions b) (seqZ 0 32))) 256 0).
  intros b a' l'. apply (for_up_visit (visit_device dev visit b) (functions b) 32 0). intros d. apply visit_device_spec.
Qed.

End Visitor.

Lemma find_visitor_some p ds d : visit_all (find_visitor p) ds (Some d) = Some d.
Proof. induction ds as [|e ds IH]; [done|]. exact IH. Qed.

Lemma find_visitor_spec p ds :
  match visit_all (find_visitor p) ds None with
  | Some d => exists ds1 ds2, ds = ds1 ++ d :: ds2 /\ p d = true /\ Forall (fun e => p e = false) ds1
  | None => Forall (fun e => p e = false) ds
  end.
Proof.
  induction ds as [|e ds IH]; [constructor|].
  change (visit_all (find_visitor p) (e :: ds) None) with (visit_all (find_visitor p) ds (find_visitor p e None)).
  cbn [find_visitor]. destruct (p e) eqn:Ep.
  - rewrite find_visitor_some. exists [], ds. split_and!; [done | done | constructor].
  - destruct (visit_all _ ds None) as [d|]; [|by constructor].
    destruct IH as (ds1 & ds2 & -> & Hd & Hno). exists (e :: ds1), ds2. split_and!; [done | done | by constructor].
Qed.

(** The bus search finds the first device: on a configuration space that
    answers as PCI prescribes, [pci_find_device] returns the first function,
    in the order of bus, device and function numbers, with the given vendor
    and device id, and nothing exactly when no function has them.  Functions
    1 to 7 are looked at only behind a multi-function header. *)
Theorem pci_find_first vendor dev_id l :
  exists l',
    (pci_find_device dev vendor dev_id l = (None, l') /\
     Forall (fun e => vendor_id e <> vendor \/ device_id e <> dev_id) present) \/
    (exists d ds1 ds2, pci_find_device dev vendor dev_id l = (Some d, l') /\ present = ds1 ++ d :: ds2 /\
       vendor_id d = vendor /\ device_id d = dev_id /\
       Forall (fun e => vendor_id e <> vendor \/ device_id e <> dev_id) ds1).
Proof.
  unfold pci_find_device, find_by_id_visitor. set (p := fun d => _ && _).
  destruct (for_each_spec (find_visitor p) None l) as [l' E]. exists l'. rewrite E.
  pose proof (find_visitor_spec p present) as Hf. unfold p in Hf.
  assert (Hp : forall e, (vendor_id e =? vendor) && (device_id e =? dev_id) = false ->
    vendor_id e <> vendor \/ device_id e <> dev_id) by (intros e; lia).
  fold p in Hf. destruct (visit_all (find_visitor p) present None) as [d|].
  - right. destruct Hf as (ds1 & ds2 & Hds & Hd & Hno). exists d, ds1, ds2. unfold p in Hd. split_and!; [done | done | lia | lia |].
    eapply Forall_impl; [exact Hno | exact Hp].
  - left. split; [done|]. eapply Forall_impl; [exact Hf | exact Hp].
Qed.

End Scan.

(** ** A bus with one display adapter *)

Definition demo_cfg (a : Z) : Z :=
  if a =? pci_make_address 0 2 0 0x00 then 0x11111234
  else if a =? pci_make_address 0 2 0 0x08 then 0x03000002
  else if a =? pci_make_address 0 2 0 0x10 then 0xFD000008
  else if Z.land a 0xFFFFFF00 =? pci_make_address 0 2 0 0 then 0 else 0xFFFFFFFF.

Definition demo_dev : Ports.device :=
  fun l port => match l with Out _ _ a :: _ => demo_cfg a | _ => 0 end.

Lemma pci_find_first_witness :
  exists d l', pci_find_device demo_dev 0x1234 0x1111 [] = (Some d, l') /\ vendor_id d = 0x1234 /\ device_id d = 0x1111.
Proof.
  destruct (pci_find_first demo_dev demo_cfg (fun l a => eq_refl) 0x1234 0x1111 [])
    as (l' & [[_ Hno] | (d & ds1 & ds2 & E & _ & Hv & Hd & _)]).
  - exfalso. assert (Hin : device_at demo_cfg 0 2 0 ∈ present demo_cfg).
    { assert (Hp : present demo_cfg = [device_at demo_cfg 0 2 0]) by (vm_compute; reflexivity). rewrite Hp. constructor. }
    rewrite Forall_forall in Hno. specialize (Hno _ Hin). vm_compute in Hno. destruct Hno as [Hno|Hno]; by apply Hno.
  - exists d, l'. split_and!; [exact E | exact Hv | exact Hd].
Defined.

End Pci.
