(* ===== verification/Gfx.v ===== *)
(** * VGA mode 13h (src/src/gfx.c)

    The register programs of the two mode switches as port output, the 8x16
    font, and the clipped raster operations on the 320x200 frame at 0xA0000,
    which is part of the flat memory (one byte per pixel). *)

From S2P Require Import Prelude Memory Terminal Ports.
Import Ports.

Module Gfx.

Definition GFX_WIDTH : Z := 320.
Definition GFX_HEIGHT : Z := 200.
Definition GFX_BLACK : Z := 0.
Definition GFX_GREEN : Z := 2.
Definition GFX_RED : Z := 4.
Definition GFX_LGRAY : Z := 7.
Definition GFX_DGRAY : Z := 8.
Definition GFX_LGREEN : Z := 10.
Definition GFX_LRED : Z := 12.
Definition GFX_YELLOW : Z := 14.
Definition GFX_WHITE : Z := 15.

Definition VGA_VRAM : Z := 0xA0000.

(** ** Raster operations *)

Definition gfx_clear (color : Z) (m : mem) : mem :=
  for_up (Z.to_nat (GFX_WIDTH * GFX_HEIGHT)) 0 (fun i m => st8 m (VGA_VRAM + i) color) m.

Definition gfx_putpixel (x y color : Z) (m : mem) : mem :=
  if (GFX_WIDTH <=? u32 x) || (GFX_HEIGHT <=? u32 y) then m
  else st8 m (VGA_VRAM + y * GFX_WIDTH + x) color.

Definition gfx_getpixel (x y : Z) (m : mem) : Z :=
  if (GFX_WIDTH <=? u32 x) || (GFX_HEIGHT <=? u32 y) then 0
  else ld8 m (VGA_VRAM + y * GFX_WIDTH + x).

Definition gfx_fill_rect (x y w h color : Z) (m : mem) : mem :=
  if (w <=? 0) || (h <=? 0) then m
  else
    for_up (Z.to_nat h) 0 (fun j m =>
      let yy := s32 (y + j) in
      if GFX_HEIGHT <=? u32 yy then m
      else
        for_up (Z.to_nat w) 0 (fun i m =>
          let xx := s32 (x + i) in
          if GFX_WIDTH <=? u32 xx then m else st8 m (VGA_VRAM + yy * GFX_WIDTH + xx) color) m) m.

Definition gfx_hline (x y w color : Z) (m : mem) : mem := gfx_fill_rect x y w 1 color m.
Definition gfx_vline (x y h color : Z) (m : mem) : mem := gfx_fill_rect x y 1 h color m.

(** ** Font *)

(** The characters with ink; all other rows of [font8x16] are zero. *)
Definition font_rows : list (Z * list Z) :=
  [
   (33, [0; 0; 0x18; 0x3C; 0x3C; 0x18; 0x18; 0x18; 0x18; 0; 0x18; 0x18; 0; 0; 0; 0]);
   (34, [0; 0x66; 0x66; 0x66; 0x24; 0; 0; 0; 0; 0; 0; 0; 0; 0; 0; 0]);
   (35, [0; 0; 0x6C; 0x6C; 0xFE; 0x6C; 0x6C; 0xFE; 0x6C; 0x6C; 0; 0; 0; 0; 0; 0]);
   (36, [0x18; 0x18; 0x7C; 0xC6; 0xC0; 0x7C; 0x06; 0xC6; 0x7C; 0x18; 0x18; 0; 0; 0; 0; 0]);
   (37, [0; 0; 0; 0xC2; 0xC6; 0x0C; 0x18; 0x30; 0x60; 0xC6; 0x86; 0; 0; 0; 0; 0]);
   (38, [0; 0; 0x38; 0x6C; 0x6C; 0x38; 0x76; 0xDC; 0xCC; 0xCC; 0x76; 0; 0; 0; 0; 0]);
   (39, [0; 0x30; 0x30; 0x30; 0x60; 0; 0; 0; 0; 0; 0; 0; 0; 0; 0; 0]);
   (40, [0; 0; 0x0C; 0x18; 0x30; 0x30; 0x30; 0x30; 0x30; 0x18; 0x0C; 0; 0; 0; 0; 0]);
   (41, [0; 0; 0x30; 0x18; 0x0C; 0x0C; 0x0C; 0x0C; 0x0C; 0x18; 0x30; 0; 0; 0; 0; 0]);
   (42, [0; 0; 0; 0x66; 0x3C; 0xFF; 0x3C; 0x66; 0; 0; 0; 0; 0; 0; 0; 0]);
   (43, [0; 0; 0; 0x18; 0x18; 0x7E; 0x18; 0x18; 0; 0; 0; 0; 0; 0; 0; 0]);
   (44, [0; 0; 0; 0; 0; 0; 0; 0; 0; 0x18; 0x18; 0x30; 0; 0; 0; 0]);
   (45, [0; 0; 0; 0; 0; 0x7E; 0; 0; 0; 0; 0; 0; 0; 0; 0; 0]);
   (46, [0; 0; 0; 0; 0; 0; 0; 0; 0; 0x18; 0x18; 0; 0; 0; 0; 0]);
   (47, [0; 0; 0x02; 0x06; 0x0C; 0x18; 0x30; 0x60; 0xC0; 0x80; 0; 0; 0; 0; 0; 0]);
   (48, [0; 0; 0x7C; 0xC6; 0xCE; 0xDE; 0xF6; 0xE6; 0xC6; 0xC6; 0x7C; 0; 0; 0; 0; 0]);
   (49, [0; 0; 0x18; 0x38; 0x78; 0x18; 0x18; 0x18; 0x18; 0x18; 0x7E; 0; 0; 0; 0; 0]);
   (50, [0; 0; 0x7C; 0xC6; 0x06; 0x0C; 0x18; 0x30; 0x60; 0xC6; 0xFE; 0; 0; 0; 0; 0]);
   (51, [0; 0; 0x7C; 0xC6; 0x06; 0x06; 0x3C; 0x06; 0x06; 0xC6; 0x7C; 0; 0; 0; 0; 0]);
   (52, [0; 0; 0x0C; 0x1C; 0x3C; 0x6C; 0xCC; 0xFE; 0x0C; 0x0C; 0x1E; 0; 0; 0; 0; 0]);
   (53, [0; 0; 0xFE; 0xC0; 0xC0; 0xC0; 0xFC; 0x06; 0x06; 0xC6; 0x7C; 0; 0; 0; 0; 0]);
   (54, [0; 0; 0x38; 0x60; 0xC0; 0xC0; 0xFC; 0xC6; 0xC6; 0xC6; 0x7C; 0; 0; 0; 0; 0]);
   (55, [0; 0; 0xFE; 0xC6; 0x06; 0x0C; 0x18; 0x30; 0x30; 0x30; 0x30; 0; 0; 0; 0; 0]);
   (56, [0; 0; 0x7C; 0xC6; 0xC6; 0xC6; 0x7C; 0xC6; 0xC6; 0xC6; 0x7C; 0; 0; 0; 0; 0]);
   (57, [0; 0; 0x7C; 0xC6; 0xC6; 0xC6; 0x7E; 0x06; 0x06; 0x0C; 0x78; 0; 0; 0; 0; 0]);
   (58, [0; 0; 0; 0x18; 0x18; 0; 0; 0; 0x18; 0x18; 0; 0; 0; 0; 0; 0]);
   (59, [0; 0; 0; 0x18; 0x18; 0; 0; 0; 0x18; 0x18; 0x30; 0; 0; 0; 0; 0]);
   (60, [0; 0; 0x06; 0x0C; 0x18; 0x30; 0x60; 0x30; 0x18; 0x0C; 0x06; 0; 0; 0; 0; 0]);
   (61, [0; 0; 0; 0; 0x7E; 0; 0; 0x7E; 0; 0; 0; 0; 0; 0; 0; 0]);
   (62, [0; 0; 0x60; 0x30; 0x18; 0x0C; 0x06; 0x0C; 0x18; 0x30; 0x60; 0; 0; 0; 0; 0]);
   (63, [0; 0; 0x7C; 0xC6; 0x0C; 0x18; 0x18; 0x18; 0; 0x18; 0x18; 0; 0; 0; 0; 0]);
   (64, [0; 0; 0x7C; 0xC6; 0xC6; 0xDE; 0xDE; 0xDE; 0xDC; 0xC0; 0x7C; 0; 0; 0; 0; 0]);
   (65, [0; 0; 0x10; 0x38; 0x6C; 0xC6; 0xC6; 0xFE; 0xC6; 0xC6; 0xC6; 0; 0; 0; 0; 0]);
   (66, [0; 0; 0xFC; 0x66; 0x66; 0x66; 0x7C; 0x66; 0x66; 0x66; 0xFC; 0; 0; 0; 0; 0]);
   (67, [0; 0; 0x3C; 0x66; 0xC0; 0xC0; 0xC0; 0xC0; 0xC0; 0x66; 0x3C; 0; 0; 0; 0; 0]);
   (68, [0; 0; 0xF8; 0x6C; 0x66; 0x66; 0x66; 0x66; 0x66; 0x6C; 0xF8; 0; 0; 0; 0; 0]);
   (69, [0; 0; 0xFE; 0x62; 0x60; 0x68; 0x78; 0x68; 0x60; 0x62; 0xFE; 0; 0; 0; 0; 0]);
   (70, [0; 0; 0xFE; 0x62; 0x60; 0x68; 0x78; 0x68; 0x60; 0x60; 0xF0; 0; 0; 0; 0; 0]);
   (71, [0; 0; 0x3C; 0x66; 0xC0; 0xC0; 0xCE; 0xC6; 0xC6; 0x66; 0x3C; 0; 0; 0; 0; 0]);
   (72, [0; 0; 0xC6; 0xC6; 0xC6; 0xC6; 0xFE; 0xC6; 0xC6; 0xC6; 0xC6; 0; 0; 0; 0; 0]);
   (73, [0; 0; 0x3C; 0x18; 0x18; 0x18; 0x18; 0x18; 0x18; 0x18; 0x3C; 0; 0; 0; 0; 0]);
   (74, [0; 0; 0x1E; 0x0C; 0x0C; 0x0C; 0x0C; 0x0C; 0xCC; 0xCC; 0x78; 0; 0; 0; 0; 0]);
   (75, [0; 0; 0xE6; 0x66; 0x6C; 0x6C; 0x78; 0x6C; 0x6C; 0x66; 0xE6; 0; 0; 0; 0; 0]);
   (76, [0; 0; 0xF0; 0x60; 0x60; 0x60; 0x60; 0x60; 0x62; 0x66; 0xFE; 0; 0; 0; 0; 0]);
   (77, [0; 0; 0xC6; 0xEE; 0xFE; 0xFE; 0xD6; 0xC6; 0xC6; 0xC6; 0xC6; 0; 0; 0; 0; 0]);
   (78, [0; 0; 0xC6; 0xE6; 0xF6; 0xFE; 0xDE; 0xCE; 0xC6; 0xC6; 0xC6; 0; 0; 0; 0; 0]);
   (79, [0; 0; 0x7C; 0xC6; 0xC6; 0xC6; 0xC6; 0xC6; 0xC6; 0xC6; 0x7C; 0; 0; 0; 0; 0]);
   (80, [0; 0; 0xFC; 0x66; 0x66; 0x66; 0x7C; 0x60; 0x60; 0x60; 0xF0; 0; 0; 0; 0; 0]);
   (81, [0; 0; 0x7C; 0xC6; 0xC6; 0xC6; 0xC6; 0xD6; 0xDE; 0x7C; 0x0C; 0x0E; 0; 0; 0; 0]);
   (82, [0; 0; 0xFC; 0x66; 0x66; 0x66; 0x7C; 0x6C; 0x66; 0x66; 0xE6; 0; 0; 0; 0; 0]);
   (83, [0; 0; 0x7C; 0xC6; 0xC0; 0x60; 0x38; 0x0C; 0x06; 0xC6; 0x7C; 0; 0; 0; 0; 0]);
   (84, [0; 0; 0x7E; 0x7E; 0x5A; 0x18; 0x18; 0x18; 0x18; 0x18; 0x3C; 0; 0; 0; 0; 0]);
   (85, [0; 0; 0xC6; 0xC6; 0xC6; 0xC6; 0xC6; 0xC6; 0xC6; 0xC6; 0x7C; 0; 0; 0; 0; 0]);
   (86, [0; 0; 0xC6; 0xC6; 0xC6; 0xC6; 0xC6; 0xC6; 0x6C; 0x38; 0x10; 0; 0; 0; 0; 0]);
   (87, [0; 0; 0xC6; 0xC6; 0xC6; 0xC6; 0xD6; 0xD6; 0xFE; 0xEE; 0xC6; 0; 0; 0; 0; 0]);
   (88, [0; 0; 0xC6; 0xC6; 0x6C; 0x38; 0x38; 0x38; 0x6C; 0xC6; 0xC6; 0; 0; 0; 0; 0]);
   (89, [0; 0; 0x66; 0x66; 0x66; 0x66; 0x3C; 0x18; 0x18; 0x18; 0x3C; 0; 0; 0; 0; 0]);
   (90, [0; 0; 0xFE; 0xC6; 0x8C; 0x18; 0x30; 0x60; 0xC2; 0xC6; 0xFE; 0; 0; 0; 0; 0]);
   (91, [0; 0; 0x3C; 0x30; 0x30; 0x30; 0x30; 0x30; 0x30; 0x30; 0x3C; 0; 0; 0; 0; 0]);
   (92, [0; 0; 0x80; 0xC0; 0x60; 0x30; 0x18; 0x0C; 0x06; 0x02; 0; 0; 0; 0; 0; 0]);
   (93, [0; 0; 0x3C; 0x0C; 0x0C; 0x0C; 0x0C; 0x0C; 0x0C; 0x0C; 0x3C; 0; 0; 0; 0; 0]);
   (94, [0x10; 0x38; 0x6C; 0xC6; 0; 0; 0; 0; 0; 0; 0; 0; 0; 0; 0; 0]);
   (95, [0; 0; 0; 0; 0; 0; 0; 0; 0; 0; 0; 0; 0; 0xFE; 0; 0]);
   (96, [0; 0x30; 0x18; 0x0C; 0; 0; 0; 0; 0; 0; 0; 0; 0; 0; 0; 0]);
   (97, [0; 0; 0; 0; 0; 0x78; 0x0C; 0x7C; 0xCC; 0xCC; 0x76; 0; 0; 0; 0; 0]);
   (98, [0; 0; 0xE0; 0x60; 0x60; 0x7C; 0x66; 0x66; 0x66; 0x66; 0xDC; 0; 0; 0; 0; 0]);
   (99, [0; 0; 0; 0; 0; 0x7C; 0xC6; 0xC0; 0xC0; 0xC6; 0x7C; 0; 0; 0; 0; 0]);
   (100, [0; 0; 0x1C; 0x0C; 0x0C; 0x7C; 0xCC; 0xCC; 0xCC; 0xCC; 0x76; 0; 0; 0; 0; 0]);
   (101, [0; 0; 0; 0; 0; 0x7C; 0xC6; 0xFE; 0xC0; 0xC6; 0x7C; 0; 0; 0; 0; 0]);
   (102, [0; 0; 0x1C; 0x36; 0x30; 0x78; 0x30; 0x30; 0x30; 0x30; 0x78; 0; 0; 0; 0; 0]);
   (103, [0; 0; 0; 0; 0; 0x76; 0xCC; 0xCC; 0xCC; 0x7C; 0x0C; 0xCC; 0x78; 0; 0; 0]);
   (104, [0; 0; 0xE0; 0x60; 0x60; 0x6C; 0x76; 0x66; 0x66; 0x66; 0xE6; 0; 0; 0; 0; 0]);
   (105, [0; 0; 0x18; 0x18; 0; 0x38; 0x18; 0x18; 0x18; 0x18; 0x3C; 0; 0; 0; 0; 0]);
   (106, [0; 0; 0x06; 0x06; 0; 0x0E; 0x06; 0x06; 0x06; 0x06; 0x66; 0x66; 0x3C; 0; 0; 0]);
   (107, [0; 0; 0xE0; 0x60; 0x60; 0x66; 0x6C; 0x78; 0x6C; 0x66; 0xE6; 0; 0; 0; 0; 0]);
   (108, [0; 0; 0x38; 0x18; 0x18; 0x18; 0x18; 0x18; 0x18; 0x18; 0x3C; 0; 0; 0; 0; 0]);
   (109, [0; 0; 0; 0; 0; 0xEC; 0xFE; 0xD6; 0xD6; 0xD6; 0xC6; 0; 0; 0; 0; 0]);
   (110, [0; 0; 0; 0; 0; 0xDC; 0x66; 0x66; 0x66; 0x66; 0x66; 0; 0; 0; 0; 0]);
   (111, [0; 0; 0; 0; 0; 0x7C; 0xC6; 0xC6; 0xC6; 0xC6; 0x7C; 0; 0; 0; 0; 0]);
   (112, [0; 0; 0; 0; 0; 0xDC; 0x66; 0x66; 0x66; 0x7C; 0x60; 0x60; 0xF0; 0; 0; 0]);
   (113, [0; 0; 0; 0; 0; 0x76; 0xCC; 0xCC; 0xCC; 0x7C; 0x0C; 0x0C; 0x1E; 0; 0; 0]);
   (114, [0; 0; 0; 0; 0; 0xDC; 0x76; 0x60; 0x60; 0x60; 0xF0; 0; 0; 0; 0; 0]);
   (115, [0; 0; 0; 0; 0; 0x7C; 0xC6; 0x70; 0x1C; 0xC6; 0x7C; 0; 0; 0; 0; 0]);
   (116, [0; 0; 0x10; 0x30; 0x30; 0xFC; 0x30; 0x30; 0x30; 0x36; 0x1C; 0; 0; 0; 0; 0]);
   (117, [0; 0; 0; 0; 0; 0xCC; 0xCC; 0xCC; 0xCC; 0xCC; 0x76; 0; 0; 0; 0; 0]);
   (118, [0; 0; 0; 0; 0; 0xC6; 0xC6; 0xC6; 0x6C; 0x38; 0x10; 0; 0; 0; 0; 0]);
   (119, [0; 0; 0; 0; 0; 0xC6; 0xC6; 0xD6; 0xD6; 0xFE; 0x6C; 0; 0; 0; 0; 0]);
   (120, [0; 0; 0; 0; 0; 0xC6; 0x6C; 0x38; 0x38; 0x6C; 0xC6; 0; 0; 0; 0; 0]);
   (121, [0; 0; 0; 0; 0; 0xC6; 0xC6; 0xC6; 0xC6; 0x7E; 0x06; 0x0C; 0xF8; 0; 0; 0]);
   (122, [0; 0; 0; 0; 0; 0xFE; 0x8C; 0x18; 0x30; 0x62; 0xFE; 0; 0; 0; 0; 0]);
   (123, [0; 0; 0x0E; 0x18; 0x18; 0x18; 0x70; 0x18; 0x18; 0x18; 0x0E; 0; 0; 0; 0; 0]);
   (124, [0; 0; 0x18; 0x18; 0x18; 0x18; 0; 0x18; 0x18; 0x18; 0x18; 0; 0; 0; 0; 0]);
   (125, [0; 0; 0x70; 0x18; 0x18; 0x18; 0x0E; 0x18; 0x18; 0x18; 0x70; 0; 0; 0; 0; 0]);
   (126, [0; 0; 0x76; 0xDC; 0; 0; 0; 0; 0; 0; 0; 0; 0; 0; 0; 0])
  ].

Definition font8x16 (c : Z) : list Z :=
  match filter (fun r => fst r = c) font_rows with
  | r :: _ => snd r
  | [] => replicate 16 0
  end.

Definition gfx_font_glyph (c : Z) : list Z := font8x16 (if 128 <=? c then 63 else c).

(** [bits & (0x80 >> col)] of row [row]. *)
Definition glyph_bit (c row col : Z) : bool :=
  Z.testbit (gfx_font_glyph c !!! Z.to_nat row) (7 - col).

(** ** Mode switches *)

Record gfxst : Type := mk_gfx {
  gio : log;
  gmem : mem;
  g_graphics : bool;
  gtty : Terminal.term;
}.

Definition set_gio (l : log) (s : gfxst) : gfxst := mk_gfx l (gmem s) (g_graphics s) (gtty s).

Definition pal : list (list Z) :=
  [[0; 0; 0]; [0; 0; 42]; [0; 42; 0]; [0; 42; 42]; [42; 0; 0]; [42; 0; 42]; [42; 21; 0]; [42; 42; 42];
   [21; 21; 21]; [21; 21; 63]; [21; 63; 21]; [21; 63; 63]; [63; 21; 21]; [63; 21; 63]; [63; 63; 21]; [63; 63; 63]].

(** The same table is sent by both palette routines. *)
Definition gfx_set_default_palette (l : log) : log :=
  outs ((0x3C8, 0) :: map (fun v => (0x3C9, v)) (concat pal)) l.
Definition gfx_set_text_palette (l : log) : log :=
  outs ((0x3C8, 0) :: map (fun v => (0x3C9, v)) (concat pal)) l.

(** Index and data port, for each register and value. *)
Definition indexed (ix data : Z) (rs : list (Z * Z)) : list (Z * Z) :=
  concat (map (fun r => [(ix, fst r); (data, snd r)]) rs).

(** [for (i = 0; i < 25; i++) { outb(0x3D4, i); outb(0x3D5, crtc[i]); }] *)
Definition numbered (vs : list Z) : list (Z * Z) := imap (fun i v => (Z.of_nat i, v)) vs.

Definition mode13_crtc : list Z :=
  [0x5F; 0x4F; 0x50; 0x82; 0x54; 0x80; 0xBF; 0x1F; 0x00; 0x41; 0x00; 0x00; 0x00; 0x00; 0x00; 0x00;
   0x9C; 0x0E; 0x8F; 0x28; 0x40; 0x96; 0xB9; 0xA3; 0xFF].
Definition text_crtc : list Z :=
  [0x5F; 0x4F; 0x50; 0x82; 0x55; 0x81; 0xBF; 0x1F; 0x00; 0x4F; 0x0D; 0x0E; 0x00; 0x00; 0x00; 0x50;
   0x9C; 0x0E; 0x8F; 0x28; 0x1F; 0x96; 0xB9; 0xA3; 0xFF].

Section Modes.

Context (dev : Ports.device).

(** [for (i = 0; i < n; i++) if (...) break;]: until bit 3 of 0x3DA is [b]. *)
Fixpoint wait_retrace (n : nat) (b : bool) (l : log) : log :=
  match n with
  | O => l
  | S n' =>
      let '(v, l) := inb dev 0x3DA l in
      if eqb (Z.testbit v 3) b then l else wait_retrace n' b l
  end.

Definition gfx_wait_vsync (l : log) : log :=
  wait_retrace (Z.to_nat 50000) true (wait_retrace (Z.to_nat 50000) false l).

(** The common shape of the two switches: miscellaneous output, sequencer,
    unlocking of the CRTC, CRTC, graphics and attribute controller. *)
Definition set_registers (misc : Z) (seq crtc gc ac : list (Z * Z)) (l : log) : log :=
  let l := outs ((0x3C2, misc) :: indexed 0x3C4 0x3C5 seq ++ [(0x3D4, 0x11)]) l in
  let '(v, l) := inb dev 0x3D5 l in
  let l := outb 0x3D5 (Z.land v 0x7F) l in
  let l := outs (indexed 0x3D4 0x3D5 crtc ++ indexed 0x3CE 0x3CF gc) l in
  let '(_, l) := inb dev 0x3DA l in
  outs (indexed 0x3C0 0x3C0 ac ++ [(0x3C0, 0x20)]) l.

(** [for (i = 0; i < 16; i++) { outb(0x3C0, i); outb(0x3C0, i); }] *)
Definition attr_identity : list (Z * Z) := map (fun i => (i, i)) (seqZ 0 16).

Definition gfx_init_mode13 (s : gfxst) : gfxst :=
  let l := set_registers 0x63 [(0, 0x03); (1, 0x01); (2, 0x0F); (3, 0x00); (4, 0x0E)] (numbered mode13_crtc)
             [(0, 0); (1, 0); (2, 0); (3, 0); (4, 0); (5, 0x40); (6, 0x05); (7, 0x0F); (8, 0xFF)]
             (attr_identity ++ [(0x10, 0x41); (0x11, 0); (0x12, 0x0F); (0x13, 0); (0x14, 0)]) (gio s) in
  mk_gfx (gfx_set_default_palette l) (gfx_clear GFX_BLACK (gmem s)) true (gtty s).

(** The stores of [gfx_load_font]: 32 bytes for each of 256 characters. *)
Definition font_store (m : mem) : mem :=
  let m := for_up 128 0 (fun ch m =>
    let m := for_up 16 0 (fun row m => st8 m (0xA0000 + ch * 32 + row) (font8x16 ch !!! Z.to_nat row)) m in
    for_up 16 16 (fun row m => st8 m (0xA0000 + ch * 32 + row) 0) m) m in
  for_up 128 128 (fun ch m => for_up 32 0 (fun row m => st8 m (0xA0000 + ch * 32 + row) 0) m) m.

Definition gfx_load_font (s : gfxst) : gfxst :=
  let l := outs (indexed 0x3C4 0x3C5 [(2, 0x04); (4, 0x07)] ++
                 indexed 0x3CE 0x3CF [(4, 0x02); (5, 0x00); (6, 0x00)]) (gio s) in
  let m := font_store (gmem s) in
  let l := outs (indexed 0x3C4 0x3C5 [(2, 0x03); (4, 0x02)] ++
                 indexed 0x3CE 0x3CF [(4, 0x00); (5, 0x10); (6, 0x0E)]) l in
  mk_gfx l m (g_graphics s) (gtty s).

Definition gfx_restore_text (s : gfxst) : gfxst :=
  let l := set_registers 0x67 [(0, 0x03); (1, 0x00); (2, 0x03); (3, 0x00); (4, 0x02)] (numbered text_crtc)
             [(0, 0); (1, 0); (2, 0); (3, 0); (4, 0); (5, 0x10); (6, 0x0E); (7, 0x00); (8, 0xFF)]
             (attr_identity ++ [(0x10, 0x0C); (0x11, 0); (0x12, 0x0F); (0x13, 0x08); (0x14, 0)]) (gio s) in
  let s := gfx_load_font (set_gio l s) in
  mk_gfx (gfx_set_text_palette (gio s)) (gmem s) false (Terminal.terminal_initialize (gtty s)).

Definition gfx_is_graphics (s : gfxst) : bool := g_graphics s.

End Modes.

End Gfx.
