(* ===== verification/Vbe.v ===== *)
(** * The linear framebuffer (src/src/vbe.c, src/src/vbe.h)

    Detection and mode setting of the Bochs display interface through its
    index and data port, with the framebuffer address from PCI, and the
    clipped pixel operations on the frame of 32-bit pixels. *)

From S2P Require Import Prelude Memory Ports Pci.
Import Ports.

Module Vbe.

Definition VBE_DISPI_IOPORT_INDEX : Z := 0x01CE.
Definition VBE_DISPI_IOPORT_DATA : Z := 0x01CF.
Definition VBE_DISPI_INDEX_ID : Z := 0.
Definition VBE_DISPI_INDEX_XRES : Z := 1.
Definition VBE_DISPI_INDEX_YRES : Z := 2.
Definition VBE_DISPI_INDEX_BPP : Z := 3.
Definition VBE_DISPI_INDEX_ENABLE : Z := 4.
Definition VBE_DISPI_INDEX_VIRT_WIDTH : Z := 6.
Definition VBE_DISPI_INDEX_VIRT_HEIGHT : Z := 7.
Definition VBE_DISPI_INDEX_X_OFFSET : Z := 8.
Definition VBE_DISPI_INDEX_Y_OFFSET : Z := 9.
Definition VBE_DISPI_DISABLED : Z := 0.
Definition VBE_DISPI_ENABLED : Z := 1.
Definition VBE_DISPI_LFB_ENABLED : Z := 0x40.
Definition VBE_DISPI_ID0 : Z := 0xB0C0.
Definition VBE_DISPI_ID5 : Z := 0xB0C5.

Record vbe_info : Type := mk_info {
  lfb : Z; width : Z; height : Z; bpp : Z; pitch : Z; active : bool }.

Record vbest : Type := mk_vbe {
  vio : log;
  g_vbe : vbe_info;
  g_probed : bool;
  g_dispi_ok : bool;
}.

Definition set_vio (l : log) (s : vbest) : vbest := mk_vbe l (g_vbe s) (g_probed s) (g_dispi_ok s).
Definition set_info (v : vbe_info) (s : vbest) : vbest := mk_vbe (vio s) v (g_probed s) (g_dispi_ok s).
Definition set_lfb (a : Z) (v : vbe_info) : vbe_info :=
  mk_info a (width v) (height v) (bpp v) (pitch v) (active v).
Definition set_active (b : bool) (v : vbe_info) : vbe_info :=
  mk_info (lfb v) (width v) (height v) (bpp v) (pitch v) b.

(** ** Mode setting *)

Section Modes.

Context (dev : Ports.device).

Definition dispi_write (index value : Z) (l : log) : log :=
  outw VBE_DISPI_IOPORT_DATA value (outw VBE_DISPI_IOPORT_INDEX index l).

Definition dispi_read (index : Z) (l : log) : Z * log :=
  inw dev VBE_DISPI_IOPORT_DATA (outw VBE_DISPI_IOPORT_INDEX index l).

(** [dev.bar[0] & ~0xFu] of a device that was found. *)
Definition bar0 (d : option Pci.pci_device) : Z :=
  match d with
  | Some d => Z.land (Pci.bar d !!! 0%nat) (u32 (Z.lnot 0xF))
  | None => 0
  end.

Definition find_lfb_pci (l : log) : Z * log :=
  let '(d, l) := Pci.pci_find_device dev 0x1234 0x1111 l in
  if negb (bar0 d =? 0) then (bar0 d, l)
  else
    let '(d, l) := Pci.pci_find_by_class dev 0x03 0x00 l in
    (bar0 d, l).

Definition vbe_probe (s : vbest) : bool * vbest :=
  let l := dispi_write VBE_DISPI_INDEX_ID VBE_DISPI_ID5 (vio s) in
  let '(id, l) := dispi_read VBE_DISPI_INDEX_ID l in
  let s0 := mk_vbe l (mk_info 0 0 0 32 0 false) true false in
  if (id <? VBE_DISPI_ID0) || (VBE_DISPI_ID5 <? id) then (false, s0)
  else
    let '(a, l) := find_lfb_pci l in
    let s1 := mk_vbe l (mk_info a 0 0 32 0 false) true (negb (a =? 0)) in
    (negb (a =? 0), s1).

(** The width and height of a mode. *)
Definition mode_size (mode_id : Z) : Z * Z :=
  if mode_id =? 0 then (640, 480) else if mode_id =? 1 then (800, 600)
  else if mode_id =? 2 then (1024, 768) else (800, 600).

(** [if (!g_probed && !vbe_probe()) return -1;] and the second attempt. *)
Definition ensure_probed (s : vbest) : bool * vbest :=
  let '(ok, s) := if negb (g_probed s) then vbe_probe s else (true, s) in
  if negb ok then (false, s)
  else if negb (g_dispi_ok s) then vbe_probe s else (true, s).

(** From the first register write to the return value. *)
Definition program_mode (w h : Z) (s : vbest) : Z * vbest :=
  let l := dispi_write VBE_DISPI_INDEX_ENABLE VBE_DISPI_DISABLED (vio s) in
  let l := dispi_write VBE_DISPI_INDEX_XRES w l in
  let l := dispi_write VBE_DISPI_INDEX_YRES h l in
  let l := dispi_write VBE_DISPI_INDEX_BPP 32 l in
  let l := dispi_write VBE_DISPI_INDEX_VIRT_WIDTH w l in
  let l := dispi_write VBE_DISPI_INDEX_VIRT_HEIGHT h l in
  let l := dispi_write VBE_DISPI_INDEX_X_OFFSET 0 l in
  let l := dispi_write VBE_DISPI_INDEX_Y_OFFSET 0 l in
  let l := dispi_write VBE_DISPI_INDEX_ENABLE (Z.lor VBE_DISPI_ENABLED VBE_DISPI_LFB_ENABLED) l in
  let '(rw, l) := dispi_read VBE_DISPI_INDEX_XRES l in
  let '(rh, l) := dispi_read VBE_DISPI_INDEX_YRES l in
  let '(en, l) := dispi_read VBE_DISPI_INDEX_ENABLE l in
  if negb (rw =? u16 w) || negb (rh =? u16 h) || negb (Z.testbit en 0) then
    (-1, set_info (set_active false (g_vbe s))
           (set_vio (dispi_write VBE_DISPI_INDEX_ENABLE VBE_DISPI_DISABLED l) s))
  else (0, set_info (mk_info (lfb (g_vbe s)) w h 32 (w * 4) true) (set_vio l s)).

Definition vbe_set_mode (mode_id : Z) (s : vbest) : Z * vbest :=
  let '(w, h) := mode_size mode_id in
  let '(ok, s) := ensure_probed s in
  if negb ok then (-1, s)
  else
    let s := if lfb (g_vbe s) =? 0
             then let '(a, l) := find_lfb_pci (vio s) in set_info (set_lfb a (g_vbe s)) (set_vio l s)
             else s in
    if (lfb (g_vbe s) =? 0) || negb (g_dispi_ok s) then (-1, s) else program_mode w h s.

Definition vbe_disable (s : vbest) : vbest :=
  let s := if g_dispi_ok s
           then set_vio (dispi_write VBE_DISPI_INDEX_ENABLE VBE_DISPI_DISABLED (vio s)) s else s in
  set_info (set_active false (g_vbe s)) s.

End Modes.

Definition vbe_get_info (s : vbest) : vbe_info := g_vbe s.
Definition vbe_is_active (s : vbest) : bool := active (g_vbe s).

Definition vbe_rgb (r g b : Z) : Z := Z.lor (Z.lor (Z.shiftl r 16) (Z.shiftl g 8)) b.

(** ** Pixels *)

(** The address of element [i] of an array of 32-bit pixels. *)
Definition px_addr (base i : Z) : Z := u32 (base + 4 * i).

Definition vbe_clear (color : Z) (v : vbe_info) (m : mem) : mem :=
  if negb (active v) || (lfb v =? 0) then m
  else for_up (Z.to_nat (u32 (width v * height v))) 0 (fun i m => st32 m (px_addr (lfb v) i) color) m.

Definition vbe_putpixel (x y color : Z) (v : vbe_info) (m : mem) : mem :=
  if negb (active v) || (lfb v =? 0) then m
  else if (width v <=? u32 x) || (height v <=? u32 y) then m
  else st32 m (px_addr (lfb v) (u32 (y * width v + x))) color.

Definition vbe_fill_rect (x y w h color : Z) (v : vbe_info) (m : mem) : mem :=
  if (w <=? 0) || (h <=? 0) || negb (active v) then m
  else
    for_up (Z.to_nat h) 0 (fun j m =>
      let yy := s32 (y + j) in
      if height v <=? u32 yy then m
      else
        for_up (Z.to_nat w) 0 (fun i m =>
          let xx := s32 (x + i) in
          if width v <=? u32 xx then m else vbe_putpixel xx yy color v m) m) m.

End Vbe.
