(* ===== verification/Mkdraw.v ===== *)
(** * Drawing into pixel buffers (src/src/mkdraw.c)

    Arrays of 32-bit pixels in the flat memory, given by their address and
    their width and height; text in the 8x16 font of [Gfx]. *)

From S2P Require Import Prelude Memory Gfx Vbe.
Import Vbe.

Module Mkdraw.

(** [if (in range) pix[y * w + x] = c;] *)
Definition put (pix w h x y c : Z) (m : mem) : mem :=
  if (u32 w <=? u32 x) || (u32 h <=? u32 y) then m
  else st32 m (px_addr pix (s32 (y * w + x))) c.

Definition mk_buf_fill (pix w h color : Z) (m : mem) : mem :=
  for_up (Z.to_nat (s32 (w * h))) 0 (fun i m => st32 m (px_addr pix i) color) m.

Definition mk_buf_rect (pix w h x y rw rh color : Z) (m : mem) : mem :=
  if (rw <=? 0) || (rh <=? 0) then m
  else
    for_up (Z.to_nat rh) 0 (fun j m =>
      for_up (Z.to_nat rw) 0 (fun i m => put pix w h (s32 (x + i)) (s32 (y + j)) color m) m) m.

Definition mk_buf_hline (pix w h x y len color : Z) (m : mem) : mem :=
  mk_buf_rect pix w h x y len 1 color m.
Definition mk_buf_vline (pix w h x y len color : Z) (m : mem) : mem :=
  mk_buf_rect pix w h x y 1 len color m.

Section Text.

(** [for (row) for (col) plot(x + col, y + row, bit ? fg : bg)], for the
    three places that have this loop. *)
Context {A : Type} (plot : Z -> Z -> Z -> A -> A).

Definition draw_char (x y c fg bg : Z) (a : A) : A :=
  for_up 16 0 (fun row a =>
    for_up 8 0 (fun col a =>
      plot (s32 (x + col)) (s32 (y + row)) (if Gfx.glyph_bit (u8 c) row col then fg else bg) a) a) a.

(** [while (s && *s)]: a newline goes back to [x] and down by 16. *)
Fixpoint draw_text_from (x cx y : Z) (s : chars) (fg bg : Z) (a : A) : A :=
  match s with
  | [] => a
  | c :: s' =>
      if c =? 0 then a
      else if c =? 10 then draw_text_from x x (s32 (y + 16)) s' fg bg a
      else draw_text_from x (s32 (cx + 8)) y s' fg bg (draw_char cx y c fg bg a)
  end.
Definition draw_text (x y : Z) (s : chars) (fg bg : Z) (a : A) : A := draw_text_from x x y s fg bg a.

End Text.

Definition mk_buf_char (pix w h x y c fg bg : Z) (m : mem) : mem := draw_char (put pix w h) x y c fg bg m.
Definition mk_buf_text (pix w h x y : Z) (s : chars) (fg bg : Z) (m : mem) : mem :=
  draw_text (put pix w h) x y s fg bg m.

Definition mk_fb_char (v : vbe_info) (x y c fg bg : Z) (m : mem) : mem :=
  draw_char (fun x y c => vbe_putpixel x y c v) x y c fg bg m.
Definition mk_fb_text (v : vbe_info) (x y : Z) (s : chars) (fg bg : Z) (m : mem) : mem :=
  draw_text (fun x y c => vbe_putpixel x y c v) x y s fg bg m.

End Mkdraw.
