(* ===== verification/Mkdisp.v ===== *)
(** * The compositor (src/src/mkdisp.c)

    Surfaces with pixels from the kernel heap, the off-screen frame at a
    fixed address, the frame buffer, and the mouse cursor with the pixels it
    hides.  All pixels are in the flat memory, which the heap owns
    ([a_mem]).  The two desktop hooks draw with [mk_bb_fill] and
    [mk_bb_text] only; a frame is composed with the drawing they do. *)

From S2P Require Import Prelude Memory Kmalloc Alloc Ports Mouse Gfx Vbe Mkdraw.
Import Vbe.

Module Mkdisp.

Definition MK_MAX_SURFACES : nat := 8.
Definition MK_TITLE_H : Z := 24.
Definition MK_PANEL_H : Z := 28.
Definition MK_CURSOR_W : Z := 12.
Definition MK_CURSOR_H : Z := 20.
Definition MK_BACK_BASE : Z := 0x00700000.
Definition MK_BACK_MAX : Z := 1024 * 768 * 4.
Definition PANEL_BTN_W : Z := 80.
Definition PANEL_BTN_H : Z := 20.

Record mk_surface : Type := mk_surf {
  used : bool;
  sx : Z; sy : Z; sw : Z; sh : Z;
  mapped : bool;
  title : chars;     (** [char title[40]] *)
  pixels : Z;        (** address, 0 is NULL *)
  dirty : bool;
}.
Definition bss_surface : mk_surface := mk_surf false 0 0 0 0 false (replicate 40 0) 0 false.
#[export] Instance mk_surface_inhabited : Inhabited mk_surface := populate bss_surface.

Definition cursor_mask : list (list Z) :=
  [[1;0;0;0;0;0;0;0;0;0;0;0];
   [1;1;0;0;0;0;0;0;0;0;0;0];
   [1;2;1;0;0;0;0;0;0;0;0;0];
   [1;2;2;1;0;0;0;0;0;0;0;0];
   [1;2;2;2;1;0;0;0;0;0;0;0];
   [1;2;2;2;2;1;0;0;0;0;0;0];
   [1;2;2;2;2;2;1;0;0;0;0;0];
   [1;2;2;2;2;2;2;1;0;0;0;0];
   [1;2;2;2;2;2;2;2;1;0;0;0];
   [1;2;2;2;2;2;1;1;1;1;0;0];
   [1;2;2;1;2;2;1;0;0;0;0;0];
   [1;2;1;0;1;2;2;1;0;0;0;0];
   [1;1;0;0;1;2;2;1;0;0;0;0];
   [1;0;0;0;0;1;2;2;1;0;0;0];
   [0;0;0;0;0;1;2;2;1;0;0;0];
   [0;0;0;0;0;0;1;2;2;1;0;0];
   [0;0;0;0;0;0;1;2;2;1;0;0];
   [0;0;0;0;0;0;0;1;1;0;0;0];
   [0;0;0;0;0;0;0;0;0;0;0;0];
   [0;0;0;0;0;0;0;0;0;0;0;0]].
Definition mask_at (row col : Z) : Z := (cursor_mask !!! Z.to_nat row) !!! Z.to_nat col.

(** What a desktop hook draws. *)
Inductive draw_op : Type :=
| DFill (x y w h color : Z)
| DText (x y : Z) (s : chars) (fg bg : Z).

Section Disp.

Context {H : Type} `{!Allocator H} (dev : Ports.device).

Record dispst : Type := mk_disp {
  dheap : H;
  dvbe : vbest;
  dmouse : Mouse.mouse;
  g_surf : list mk_surface;
  g_active : bool;
  g_wallpaper : Z;
  g_sw : Z; g_sh : Z;
  g_back : Z; g_back_ok : bool;
  cursor_under : list Z;
  cursor_ux : Z; cursor_uy : Z;
  cursor_under_valid : bool;
}.

Definition vinfo (s : dispst) : vbe_info := vbe_get_info (dvbe s).
Definition pmem (s : dispst) : mem := a_mem (dheap s).

Definition set_heap (h : H) (s : dispst) : dispst :=
  mk_disp h (dvbe s) (dmouse s) (g_surf s) (g_active s) (g_wallpaper s) (g_sw s) (g_sh s)
    (g_back s) (g_back_ok s) (cursor_under s) (cursor_ux s) (cursor_uy s) (cursor_under_valid s).
Definition set_pmem (m : mem) (s : dispst) : dispst := set_heap (a_set_mem m (dheap s)) s.
Definition set_vbe (v : vbest) (s : dispst) : dispst :=
  mk_disp (dheap s) v (dmouse s) (g_surf s) (g_active s) (g_wallpaper s) (g_sw s) (g_sh s)
    (g_back s) (g_back_ok s) (cursor_under s) (cursor_ux s) (cursor_uy s) (cursor_under_valid s).
Definition set_mouse (m : Mouse.mouse) (s : dispst) : dispst :=
  mk_disp (dheap s) (dvbe s) m (g_surf s) (g_active s) (g_wallpaper s) (g_sw s) (g_sh s)
    (g_back s) (g_back_ok s) (cursor_under s) (cursor_ux s) (cursor_uy s) (cursor_under_valid s).
Definition set_surf (l : list mk_surface) (s : dispst) : dispst :=
  mk_disp (dheap s) (dvbe s) (dmouse s) l (g_active s) (g_wallpaper s) (g_sw s) (g_sh s)
    (g_back s) (g_back_ok s) (cursor_under s) (cursor_ux s) (cursor_uy s) (cursor_under_valid s).
Definition set_gactive (b : bool) (s : dispst) : dispst :=
  mk_disp (dheap s) (dvbe s) (dmouse s) (g_surf s) b (g_wallpaper s) (g_sw s) (g_sh s)
    (g_back s) (g_back_ok s) (cursor_under s) (cursor_ux s) (cursor_uy s) (cursor_under_valid s).
Definition set_under (l : list Z) (x y : Z) (v : bool) (s : dispst) : dispst :=
  mk_disp (dheap s) (dvbe s) (dmouse s) (g_surf s) (g_active s) (g_wallpaper s) (g_sw s) (g_sh s)
    (g_back s) (g_back_ok s) l x y v.
Definition set_under_valid (v : bool) (s : dispst) : dispst :=
  set_under (cursor_under s) (cursor_ux s) (cursor_uy s) v s.

Definition surf_at (s : dispst) (id : Z) : mk_surface := g_surf s !!! Z.to_nat id.
Definition upd_surf (id : Z) (f : mk_surface -> mk_surface) (s : dispst) : dispst :=
  set_surf (alter f (Z.to_nat id) (g_surf s)) s.

Definition mk_screen_w (s : dispst) : Z := g_sw s.
Definition mk_screen_h (s : dispst) : Z := g_sh s.
Definition mk_is_active (s : dispst) : bool := g_active s.

Definition mk_set_wallpaper_color (c : Z) (s : dispst) : dispst :=
  mk_disp (dheap s) (dvbe s) (dmouse s) (g_surf s) (g_active s) c (g_sw s) (g_sh s)
    (g_back s) (g_back_ok s) (cursor_under s) (cursor_ux s) (cursor_uy s) (cursor_under_valid s).

(** ** Start and stop *)

Definition surf_reset (f : mk_surface) : mk_surface :=
  mk_surf false (sx f) (sy f) (sw f) (sh f) (mapped f) (title f) 0 (dirty f).

Definition mk_init (vbe_mode_id : Z) (s : dispst) : Z * dispst :=
  let '(r, v) := vbe_set_mode dev vbe_mode_id (dvbe s) in
  let s := set_vbe v s in
  if negb (r =? 0) then (-1, s)
  else if negb (active (vinfo s)) then (-1, s)
  else
    let w := width (vinfo s) in
    let h := height (vinfo s) in
    let s := set_mouse (Mouse.mouse_set_bounds (w - 1) (h - 1) (dmouse s)) s in
    let s := set_surf (map surf_reset (g_surf s)) s in
    let need := u32 (w * h * 4) in
    let ok := (0 <? need) && (need <=? MK_BACK_MAX) in
    let s := if ok
             then set_pmem (for_up (Z.to_nat (need / 4)) 0 (fun i m => st32 m (px_addr MK_BACK_BASE i) 0) (pmem s)) s
             else s in
    (0, mk_disp (dheap s) (dvbe s) (dmouse s) (g_surf s) true (g_wallpaper s) w h
          (if ok then MK_BACK_BASE else 0) ok (cursor_under s) (cursor_ux s) (cursor_uy s) (cursor_under_valid s)).

(** One round of the loop of [mk_shutdown]. *)
Definition release_surface (i : Z) (s : out dispst) : out dispst :=
  s ← s;
  let f := surf_at s i in
  s ← (if used f && negb (pixels f =? 0)
       then h ← a_free (dheap s) (pixels f);
            Ret (upd_surf i (fun f => mk_surf (used f) (sx f) (sy f) (sw f) (sh f) (mapped f) (title f) 0 (dirty f))
                   (set_heap h s))
       else Ret s);
  Ret (upd_surf i (fun f => mk_surf false (sx f) (sy f) (sw f) (sh f) (mapped f) (title f) (pixels f) (dirty f)) s).

Definition mk_shutdown (s : dispst) : out dispst :=
  s ← for_up MK_MAX_SURFACES 0 release_surface (Ret s);
  let s := set_gactive false s in
  Ret (set_vbe (vbe_disable (dvbe s)) s).

(** ** Surfaces *)

(** A NULL title is the empty string. *)
Definition copy_title (dst : chars) (src : option chars) : chars :=
  match src with
  | None => <[0%nat := 0]> dst
  | Some t => c_strcpy_truncate dst t 40
  end.

Definition mk_surface_create (w h : Z) (t : option chars) (s : dispst) : out (Z * dispst) :=
  if (w <? 40) || (h <? 20) || (g_sw s <? w) || (g_sh s - MK_TITLE_H - MK_PANEL_H <? h) then Ret (-1, s)
  else match for_find (fun i => negb (used (g_surf s !!! i))) 0 MK_MAX_SURFACES with
  | None => Ret (-1, s)
  | Some i =>
      let id := Z.of_nat i in
      let bytes := u32 (w * h * 4) in
      '(pix, hp) ← a_alloc (dheap s) bytes;
      let s := set_heap hp s in
      if pix =? 0 then Ret (-1, s)
      else
        let s := upd_surf id (fun f =>
          mk_surf true (40 + id * 24) (40 + id * 24) w h true
            (copy_title (title f) (Some (match t with Some t => t | None => $"Window" end))) pix true) s in
        Ret (id, set_pmem (Mkdraw.mk_buf_fill pix w h 0x00C0C0C0 (pmem s)) s)
  end.

(** [id < 0 || id >= MK_MAX_SURFACES || !g_surf[id].used] *)
Definition bad_id (id : Z) (s : dispst) : bool :=
  (id <? 0) || (Z.of_nat MK_MAX_SURFACES <=? id) || negb (used (surf_at s id)).

Definition mk_surface_destroy (id : Z) (s : dispst) : out dispst :=
  if bad_id id s then Ret s
  else
    let f := surf_at s id in
    s ← (if negb (pixels f =? 0) then h ← a_free (dheap s) (pixels f); Ret (set_heap h s) else Ret s);
    Ret (upd_surf id (fun f => mk_surf false (sx f) (sy f) (sw f) (sh f) false (title f) 0 (dirty f)) s).

Definition mk_surface_move (id x y : Z) (s : dispst) : dispst :=
  if bad_id id s then s
  else
    let f := surf_at s id in
    let x := if x <? 0 then 0 else x in
    let y := if y <? 0 then 0 else y in
    let x := if g_sw s <? s32 (x + sw f) then g_sw s - sw f else x in
    let y := if g_sh s - MK_PANEL_H <? s32 (y + MK_TITLE_H + sh f)
             then g_sh s - MK_PANEL_H - MK_TITLE_H - sh f else y in
    let y := if y <? 0 then 0 else y in
    upd_surf id (fun f => mk_surf (used f) x y (sw f) (sh f) (mapped f) (title f) (pixels f) true) s.

Definition mk_surface_set_title (id : Z) (t : option chars) (s : dispst) : dispst :=
  if bad_id id s then s
  else upd_surf id (fun f =>
         mk_surf (used f) (sx f) (sy f) (sw f) (sh f) (mapped f) (copy_title (title f) t) (pixels f) (dirty f)) s.

Definition mk_surface_commit (id : Z) (s : dispst) : dispst :=
  if bad_id id s then s
  else upd_surf id (fun f =>
         mk_surf (used f) (sx f) (sy f) (sw f) (sh f) (mapped f) (title f) (pixels f) true) s.

Definition mk_surface_get (id : Z) (s : dispst) : option mk_surface :=
  if bad_id id s then None else Some (surf_at s id).

(** ** Drawing into the off-screen frame *)

Definition bb_put (x y c : Z) (s : dispst) : dispst :=
  if (u32 (g_sw s) <=? u32 x) || (u32 (g_sh s) <=? u32 y) then s
  else if g_back_ok s then set_pmem (st32 (pmem s) (px_addr (g_back s) (s32 (y * g_sw s + x))) c) s
  else set_pmem (vbe_putpixel x y c (vinfo s) (pmem s)) s.

Definition bb_fill (x y w h c : Z) (s : dispst) : dispst :=
  if (w <=? 0) || (h <=? 0) then s
  else
    for_up (Z.to_nat h) 0 (fun j s =>
      let yy := s32 (y + j) in
      if u32 (g_sh s) <=? u32 yy then s
      else
        for_up (Z.to_nat w) 0 (fun i s =>
          let xx := s32 (x + i) in
          if u32 (g_sw s) <=? u32 xx then s else bb_put xx yy c s) s) s.

Definition bb_char (x y ch fg bg : Z) (s : dispst) : dispst := Mkdraw.draw_char bb_put x y ch fg bg s.
Definition bb_text (x y : Z) (t : chars) (fg bg : Z) (s : dispst) : dispst :=
  Mkdraw.draw_text bb_put x y t fg bg s.

Definition mk_bb_fill (x y w h c : Z) (s : dispst) : dispst := bb_fill x y w h c s.
Definition mk_bb_text (x y : Z) (t : chars) (fg bg : Z) (s : dispst) : dispst := bb_text x y t fg bg s.

Definition flip_to_lfb (s : dispst) : dispst :=
  if negb (g_back_ok s) || negb (g_active s) then s
  else if negb (active (vinfo s)) || (lfb (vinfo s) =? 0) then s
  else
    set_pmem (for_up (Z.to_nat (u32 (g_sw s * g_sh s))) 0
      (fun i m => st32 m (px_addr (lfb (vinfo s)) i) (ld32 m (px_addr (g_back s) i))) (pmem s)) s.

(** The pixels of the surface, below its title bar. *)
Definition blit_surface (f : mk_surface) (s : dispst) : dispst :=
  for_up (Z.to_nat (sh f)) 0 (fun row s =>
    let yy := s32 (sy f + MK_TITLE_H + row) in
    if u32 (g_sh s) <=? u32 yy then s
    else
      for_up (Z.to_nat (sw f)) 0 (fun col s =>
        let xx := s32 (sx f + col) in
        if u32 (g_sw s) <=? u32 xx then s
        else bb_put xx yy (ld32 (pmem s) (px_addr (pixels f) (s32 (row * sw f + col)))) s) s) s.

Definition draw_window (f : mk_surface) (focused : bool) (s : dispst) : dispst :=
  let fx := sx f in
  let fy := sy f in
  let fw := sw f in
  let fh := sh f + MK_TITLE_H in
  let title_bg := if focused then 0x00007ACC else 0x00666666 in
  let s := bb_fill (fx - 1) (fy - 1) (fw + 2) (fh + 2) 0x00222222 s in
  let s := bb_fill fx fy fw MK_TITLE_H title_bg s in
  let cx := fx + fw - 22 in
  let cy := fy + 4 in
  let s := bb_fill cx cy 16 16 0x00E81123 s in
  let s := bb_text (cx + 4) cy $"X" 0x00FFFFFF 0x00E81123 s in
  let s := bb_text (fx + 8) (fy + 4) (title f) 0x00FFFFFF title_bg s in
  if pixels f =? 0 then s else blit_surface f s.

(** [*reboot_x], [*shut_x], [*by], [*bw], [*bh] *)
Definition mk_panel_power_rects (s : dispst) : Z * Z * Z * Z * Z :=
  (g_sw s - (PANEL_BTN_W * 2 + 16), g_sw s - (PANEL_BTN_W + 8), g_sh s - MK_PANEL_H + 4, PANEL_BTN_W, PANEL_BTN_H).

Definition draw_panel (s : dispst) : dispst :=
  let y := g_sh s - MK_PANEL_H in
  let '(rx, shx, by_, bw, bh) := mk_panel_power_rects s in
  let s := bb_fill 0 y (g_sw s) MK_PANEL_H 0x001F1F1F s in
  let s := bb_fill 0 y (g_sw s) 1 0x00444444 s in
  let s := bb_fill 4 (y + 3) 88 (MK_PANEL_H - 6) 0x00005A9E s in
  let s := bb_fill 6 (y + 5) 84 (MK_PANEL_H - 10) 0x000078D7 s in
  let s := bb_text 22 (y + 6) $"Start" 0x00FFFFFF 0x000078D7 s in
  let s := bb_fill rx by_ bw bh 0x00C19C00 s in
  let s := bb_text (rx + 12) (by_ + 2) $"Reboot" 0x00FFFFFF 0x00C19C00 s in
  let s := bb_fill shx by_ bw bh 0x00C42B1C s in
  bb_text (shx + 4) (by_ + 2) $"Shutdown" 0x00FFFFFF 0x00C42B1C s.

(** ** The cursor *)

Definition lfb_get (x y : Z) (s : dispst) : Z :=
  let v := vinfo s in
  if negb (active v) || (lfb v =? 0) then 0
  else if (width v <=? u32 x) || (height v <=? u32 y) then 0
  else ld32 (pmem s) (px_addr (lfb v) (u32 (y * width v + x))).

Definition lfb_put (x y c : Z) (s : dispst) : dispst := set_pmem (vbe_putpixel x y c (vinfo s) (pmem s)) s.

Definition cursor_restore_under (s : dispst) : dispst :=
  if negb (cursor_under_valid s) || negb (g_active s) then s
  else
    set_under_valid false
      (for_up (Z.to_nat MK_CURSOR_H) 0 (fun row s =>
         for_up (Z.to_nat MK_CURSOR_W) 0 (fun col s =>
           if mask_at row col =? 0 then s
           else lfb_put (s32 (cursor_ux s + col)) (s32 (cursor_uy s + row))
                  (cursor_under s !!! Z.to_nat (row * MK_CURSOR_W + col)) s) s) s).

Definition cursor_save_under (x y : Z) (s : dispst) : dispst :=
  if negb (g_active s) then s
  else
    let u := for_up (Z.to_nat MK_CURSOR_H) 0 (fun row u =>
               for_up (Z.to_nat MK_CURSOR_W) 0 (fun col u =>
                 <[Z.to_nat (row * MK_CURSOR_W + col) := lfb_get (s32 (x + col)) (s32 (y + row)) s]> u) u)
               (cursor_under s) in
    set_under u x y true s.

Definition cursor_paint_at (x y : Z) (s : dispst) : dispst :=
  for_up (Z.to_nat MK_CURSOR_H) 0 (fun row s =>
    for_up (Z.to_nat MK_CURSOR_W) 0 (fun col s =>
      let v := mask_at row col in
      if v =? 0 then s
      else lfb_put (s32 (x + col)) (s32 (y + row)) (if v =? 1 then 0x00FFFFFF else 0x00000000) s) s) s.

(** The position [mouse_get] reports. *)
Definition get_mouse (s : dispst) : Z * Z * dispst :=
  let '((x, y, _, _, _), m) := Mouse.mouse_get (dmouse s) in (x, y, set_mouse m s).

Definition mk_draw_cursor (s : dispst) : dispst :=
  let '(x, y, s) := get_mouse s in
  cursor_paint_at x y (cursor_save_under x y (cursor_restore_under s)).

Definition mk_cursor_invalidate (s : dispst) : dispst := set_under_valid false s.

Definition mk_cursor_move (x y : Z) (s : dispst) : dispst :=
  if negb (g_active s) then s
  else if cursor_under_valid s && (cursor_ux s =? x) && (cursor_uy s =? y) then s
  else cursor_paint_at x y (cursor_save_under x y (cursor_restore_under s)).

(** ** A frame *)

Definition run_op (o : draw_op) (s : dispst) : dispst :=
  match o with
  | DFill x y w h c => mk_bb_fill x y w h c s
  | DText x y t fg bg => mk_bb_text x y t fg bg s
  end.

(** A hook that is not set draws nothing. *)
Definition run_hook (hook : option (list draw_op)) (s : dispst) : dispst :=
  match hook with
  | Some ops => foldl (fun s o => run_op o s) s ops
  | None => s
  end.

Definition shown (f : mk_surface) : bool := used f && mapped f.

(** The index of the last shown surface, -1 without one. *)
Definition top_surface (s : dispst) : Z :=
  for_up MK_MAX_SURFACES 0 (fun i top => if shown (surf_at s i) then i else top) (-1).

Definition wallpaper (s : dispst) : dispst :=
  let s := bb_fill 0 0 (g_sw s) (g_sh s) (g_wallpaper s) s in
  for_up (Z.to_nat (Z.min 100 (g_sh s))) 0 (fun y s =>
    let shade := u8 (40 + y / 2) in
    bb_fill 0 y (g_sw s) 1 (vbe_rgb 20 (u8 (60 + shade / 3)) (u8 (120 + shade / 2))) s) s.

Definition draw_windows (s : dispst) : dispst :=
  let top := top_surface s in
  for_up MK_MAX_SURFACES 0 (fun i s =>
    let f := surf_at s i in
    if negb (shown f) then s
    else upd_surf i (fun f => mk_surf (used f) (sx f) (sy f) (sw f) (sh f) (mapped f) (title f) (pixels f) false)
           (draw_window f (i =? top) s)) s.

Definition mk_compose (layer overlay : option (list draw_op)) (s : dispst) : dispst :=
  if negb (g_active s) then s
  else
    let s := set_under_valid false s in
    let s := wallpaper s in
    let s := run_hook layer s in
    let s := draw_windows s in
    let s := draw_panel s in
    let s := run_hook overlay s in
    let s := if g_back_ok s then flip_to_lfb s else s in
    let '(x, y, s) := get_mouse s in
    cursor_paint_at x y (cursor_save_under x y s).

(** ** Hit test *)

Record hit : Type := mk_hit { hit_id : Z; local_x : Z; local_y : Z; on_title : bool; on_close : bool }.

(** [sx < x0 || sx >= x1 || sy < y0 || sy >= y1] does not hold. *)
Definition covers (f : mk_surface) (x y : Z) : bool :=
  negb ((x <? sx f) || (sx f + sw f <=? x) || (y <? sy f) || (sy f + MK_TITLE_H + sh f <=? y)).

(** What the loop returns for the surface it has found. *)
Definition hit_in (f : mk_surface) (i x y : Z) : hit :=
  if y <? sy f + MK_TITLE_H then
    let cx := sx f + sw f - 22 in
    let cy := sy f + 4 in
    mk_hit i 0 0 true ((cx <=? x) && (x <? cx + 16) && (cy <=? y) && (y <? cy + 16))
  else mk_hit i (x - sx f) (y - (sy f + MK_TITLE_H)) false false.

(** [for (i = n - 1; i >= 0; i--)] *)
Fixpoint hit_loop (n : nat) (x y : Z) (s : dispst) : hit :=
  match n with
  | O => mk_hit (-1) 0 0 false false
  | S n' =>
      let f := surf_at s (Z.of_nat n') in
      if shown f && covers f x y then hit_in f (Z.of_nat n') x y else hit_loop n' x y s
  end.

Definition mk_hit_test (x y : Z) (s : dispst) : hit := hit_loop MK_MAX_SURFACES x y s.

End Disp.

Arguments dispst : clear implicits.

End Mkdisp.
