(* ===== verification/MkdispSpec.v ===== *)
(** * The compositor: what is on the screen

    A paint says what a drawing routine does to one pixel.  Every routine of
    mkdisp.c that draws into the off-screen frame is shown to be its paint at
    every pixel of the screen and to leave the rest of memory alone
    ([draws]); the frame [mk_compose] builds is then the painter's
    composition of wallpaper, icons, windows, panel and menu ([scene]). *)

From S2P Require Import Prelude Memory Kmalloc Alloc Ports Mouse Gfx Vbe Mkdraw Mkdisp.
Import Vbe Mkdisp.

Module MkdispSpec.

(** ** Paints *)

(** Position, colour before, colour after. *)
Definition paint : Type := Z -> Z -> Z -> Z.

(** One pixel. *)
Definition pointp (x y c : Z) : paint := fun a b v => if (a =? x) && (b =? y) then u32 c else v.

(** A filled rectangle. *)
Definition inside (x y w h a b : Z) : bool := (x <=? a) && (a <? x + w) && (y <=? b) && (b <? y + h).
Lemma inside_true x y w h a b : inside x y w h a b = true <-> x <= a < x + w /\ y <= b < y + h.
Proof. unfold inside. rewrite !andb_true_iff, !Z.leb_le, !Z.ltb_lt. tauto. Qed.
Lemma inside_false x y w h a b : inside x y w h a b = false <-> ~ (x <= a < x + w /\ y <= b < y + h).
Proof. rewrite <- inside_true. by rewrite not_true_iff_false. Qed.

Definition fillp (x y w h c : Z) : paint := fun a b v => if inside x y w h a b then u32 c else v.

(** One character: a box of 8 by 16 pixels. *)
Definition charp (x y c fg bg : Z) : paint :=
  fun a b v => if inside x y 8 16 a b then u32 (if Gfx.glyph_bit (u8 c) (b - y) (a - x) then fg else bg) else v.

Definition thenp (f g : paint) : paint := fun a b v => g a b (f a b v).
Definition allp (fs : list paint) : paint := fun a b v => foldl (fun v (f : paint) => f a b v) v fs.

(** Text: boxes to the right of each other, a newline starts 16 pixels below. *)
Fixpoint textp_from (x cx y : Z) (t : chars) (fg bg : Z) : paint :=
  match t with
  | [] => fun _ _ v => v
  | c :: t' =>
      if c =? 0 then fun _ _ v => v
      else if c =? 10 then textp_from x x (s32 (y + 16)) t' fg bg
      else thenp (charp cx y c fg bg) (textp_from x (s32 (cx + 8)) y t' fg bg)
  end.
Definition textp (x y : Z) (t : chars) (fg bg : Z) : paint := textp_from x x y t fg bg.

Definition opp (o : draw_op) : paint :=
  match o with
  | DFill x y w h c => fillp x y w h c
  | DText x y t fg bg => textp x y t fg bg
  end.
Definition hookp (hook : option (list draw_op)) : paint :=
  match hook with Some ops => allp (map opp ops) | None => fun _ _ v => v end.

(** The arguments the hooks pass are C [int]s. *)
Definition op_ok (o : draw_op) : Prop :=
  match o with
  | DFill x y w h _ => in_s32 x /\ in_s32 y /\ in_s32 w /\ in_s32 h
  | DText x y _ _ _ => in_s32 x /\ in_s32 y
  end.
Definition hook_ok (hook : option (list draw_op)) : Prop :=
  match hook with Some ops => Forall op_ok ops | None => True end.

(** The shading of the upper hundred rows over the plain wallpaper. *)
Definition shade_at (y : Z) : Z :=
  let shade := u8 (40 + y / 2) in vbe_rgb 20 (u8 (60 + shade / 3)) (u8 (120 + shade / 2)).
Definition wallp (color : Z) : paint := fun a b v => u32 (if b <? 100 then shade_at b else color).

(** The pixels of a surface, in the memory [m], below its title bar. *)
Definition client_px (m : mem) (f : mk_surface) (lx ly : Z) : Z := ld32 m (pixels f + 4 * (ly * sw f + lx)).
Definition blitp (m : mem) (f : mk_surface) : paint :=
  fun a b v => if inside (sx f) (sy f + MK_TITLE_H) (sw f) (sh f) a b
               then client_px m f (a - sx f) (b - (sy f + MK_TITLE_H)) else v.

Definition windowp (m : mem) (f : mk_surface) (focused : bool) : paint :=
  let bg := if focused then 0x00007ACC else 0x00666666 in
  let cx := sx f + sw f - 22 in
  let cy := sy f + 4 in
  allp [fillp (sx f - 1) (sy f - 1) (sw f + 2) (sh f + MK_TITLE_H + 2) 0x00222222;
        fillp (sx f) (sy f) (sw f) MK_TITLE_H bg;
        fillp cx cy 16 16 0x00E81123;
        textp (cx + 4) cy $"X" 0x00FFFFFF 0x00E81123;
        textp (sx f + 8) (sy f + 4) (title f) 0x00FFFFFF bg;
        blitp m f].

Definition panelp (w h : Z) : paint :=
  let y := h - MK_PANEL_H in
  let rx := w - (PANEL_BTN_W * 2 + 16) in
  let ox := w - (PANEL_BTN_W + 8) in
  allp [fillp 0 y w MK_PANEL_H 0x001F1F1F; fillp 0 y w 1 0x00444444;
        fillp 4 (y + 3) 88 (MK_PANEL_H - 6) 0x00005A9E; fillp 6 (y + 5) 84 (MK_PANEL_H - 10) 0x000078D7;
        textp 22 (y + 6) $"Start" 0x00FFFFFF 0x000078D7;
        fillp rx (y + 4) PANEL_BTN_W PANEL_BTN_H 0x00C19C00;
        textp (rx + 12) (y + 6) $"Reboot" 0x00FFFFFF 0x00C19C00;
        fillp ox (y + 4) PANEL_BTN_W PANEL_BTN_H 0x00C42B1C;
        textp (ox + 4) (y + 6) $"Shutdown" 0x00FFFFFF 0x00C42B1C].

(** ** Loops at one pixel *)

Lemma for_up_miss {A} n i (f : Z -> A -> A) v :
  (forall k v, i <= k < i + Z.of_nat n -> f k v = v) -> for_up n i f v = v.
Proof.
  revert i v. induction n as [|n IH]; intros i v H; cbn [for_up]; [done|].
  rewrite H by lia. apply IH. intros k w Hk. apply H. lia.
Qed.

(** Exactly one round has an effect. *)
Lemma for_up_once {A} n i k (f : Z -> A -> A) v :
  i <= k < i + Z.of_nat n -> (forall j v, i <= j < i + Z.of_nat n -> j <> k -> f j v = v) ->
  for_up n i f v = f k v.
Proof.
  revert i v. induction n as [|n IH]; intros i v Hk H; [lia|]. cbn [for_up].
  destruct (decide (i = k)) as [->|Hne].
  - apply for_up_miss. intros j w Hj. apply H; lia.
  - rewrite (H i) by lia. apply IH; [lia|]. intros j w Hj Hjk. apply H; lia.
Qed.

(** A loop of two nested counters where one pixel is meant. *)
Lemma for_up_grid {A} n m k l (f : Z -> Z -> A -> A) v :
  (forall j i v, 0 <= j < Z.of_nat n -> 0 <= i < Z.of_nat m -> j <> k \/ i <> l -> f j i v = v) ->
  for_up n 0 (fun j => for_up m 0 (f j)) v =
  if (0 <=? k) && (k <? Z.of_nat n) && (0 <=? l) && (l <? Z.of_nat m) then f k l v else v.
Proof.
  intros H. destruct ((0 <=? k) && (k <? Z.of_nat n)) eqn:Ek; cbn [andb].
  - apply andb_true_iff in Ek as [Ek1 Ek2].
    rewrite (for_up_once n 0 k) by (try lia; intros j w Hj Hne; apply for_up_miss; intros i u Hi; apply H; lia).
    destruct ((0 <=? l) && (l <? Z.of_nat m)) eqn:El; cbn [andb].
    + apply for_up_once; [lia|]. intros i w Hi Hne. apply H; lia.
    + apply for_up_miss. intros i w Hi. apply H; [lia | lia |]. right. intros ->.
      apply andb_false_iff in El. lia.
  - apply for_up_miss. intros j w Hj. apply for_up_miss. intros i u Hi. apply H; [lia | lia |].
    left. intros ->. apply andb_false_iff in Ek. lia.
Qed.

(** A C [int] whose unsigned value is below a screen size. *)
Lemma on_axis x n : in_s32 x -> 0 <= n <= 0x7FFFFFFF -> (n <=? u32 x) = negb ((0 <=? x) && (x <? n)).
Proof.
  unfold in_s32. intros Hx Hn. unfold u32.
  destruct (Z.leb_spec 0 x).
  - rewrite Z.mod_small by lia. destruct (Z.leb_spec n x), (Z.ltb_spec x n); cbn; try done; lia.
  - replace (x mod 4294967296) with (x + 4294967296) by zlia.
    destruct (Z.leb_spec n (x + 4294967296)); [done | lia].
Qed.

(** The wrapped sum of an [int] and a counter meets a screen coordinate
    exactly when the sum itself does. *)
Lemma s32_hits x i a :
  in_s32 x -> 0 <= i <= 0x7FFFFFFF -> 0 <= a < 0x10000 -> (a =? s32 (x + i)) = (a =? x + i).
Proof.
  unfold in_s32. intros Hx Hi Ha.
  destruct (decide (in_s32 (x + i))) as [Hs|Hs]; [by rewrite s32_small|].
  unfold in_s32 in Hs. replace (s32 (x + i)) with (x + i - 4294967296) by (unfold s32; zlia).
  destruct (Z.eqb_spec a (x + i - 4294967296)), (Z.eqb_spec a (x + i)); try done; lia.
Qed.

(** ** Drawing routines *)

Section Draw.

Context {H : Type} `{!Allocator H}.

(** The mode is set and the off-screen frame is in use; the frame buffer is
    an aligned region above it. *)
Record screen_ok (s : dispst H) : Prop := mk_screen_ok {
  so_active : g_active s = true;
  so_vactive : active (vinfo s) = true;
  so_width : width (vinfo s) = g_sw s;
  so_height : height (vinfo s) = g_sh s;
  so_sw : 640 <= g_sw s <= 1024;
  so_sh : 480 <= g_sh s <= 768;
  so_back_ok : g_back_ok s = true;
  so_back : g_back s = MK_BACK_BASE;
  so_lfb : 0xA00000 <= lfb (vinfo s) /\ lfb (vinfo s) mod 4 = 0 /\
           lfb (vinfo s) + 4 * (g_sw s * g_sh s) <= 4294967296;
}.

Definition on_screen (s : dispst H) (a b : Z) : Prop := 0 <= a < g_sw s /\ 0 <= b < g_sh s.

(** A pixel of the frame at [B]: the off-screen frame or the frame buffer. *)
Definition frame (B : Z) (s : dispst H) (m : mem) (a b : Z) : Z := ld32 m (B + 4 * (b * g_sw s + a)).

(** Memory apart from that frame. *)
Definition same_outside (B : Z) (s : dispst H) (m m' : mem) : Prop :=
  forall i, i < B \/ B + 4 * (g_sw s * g_sh s) <= i -> ld8 m' i = ld8 m i.

Context (B : Z) (s : dispst H) (m0 : mem).

(** [F] is a drawing with paint [f] into the frame at [B], as long as memory
    outside the frame is that of [m0]. *)
Definition draws (f : paint) (F : dispst H -> dispst H) : Prop :=
  forall m, same_outside B s m0 m -> exists m', F (set_pmem m s) = set_pmem m' s /\ same_outside B s m0 m' /\
    forall a b, on_screen s a b -> frame B s m' a b = f a b (frame B s m a b).

Lemma set_set_pmem m m' t : set_pmem m' (set_pmem m t) = set_pmem m' t.
Proof. unfold set_pmem, set_heap. cbn. by rewrite a_set_set. Qed.
Lemma pmem_set m t : pmem (set_pmem m t) = m.
Proof. apply a_mem_set. Qed.
Lemma set_pmem_same t : set_pmem (pmem t) t = t.
Proof. unfold set_pmem, pmem. rewrite a_set_same. by destruct t. Qed.

Lemma draws_ext f g F :
  (forall a b v, on_screen s a b -> f a b v = g a b v) -> draws f F -> draws g F.
Proof.
  intros E D m Hm. destruct (D m Hm) as (m' & H1 & H2 & H3). exists m'. split_and!; [done | done |].
  intros a b Hab. rewrite <- E by done. by apply H3.
Qed.

(** Two routines that agree on the states that can occur. *)
Lemma draws_cong f F G :
  (forall m, same_outside B s m0 m -> F (set_pmem m s) = G (set_pmem m s)) -> draws f G -> draws f F.
Proof. intros E D m Hm. rewrite E by done. by apply D. Qed.

Lemma draws_id : draws (fun _ _ v => v) (fun t => t).
Proof. intros m Hm. by exists m. Qed.

Lemma draws_then f g F G : draws f F -> draws g G -> draws (thenp f g) (fun t => G (F t)).
Proof.
  intros D E m Hm. destruct (D m Hm) as (m1 & H1 & H2 & H3). destruct (E m1 H2) as (m2 & H4 & H5 & H6).
  exists m2. rewrite H1. split_and!; [done | done |]. intros a b Hab. unfold thenp. by rewrite H6, H3.
Qed.

Lemma draws_for f F n i :
  (forall k, i <= k < i + Z.of_nat n -> draws (f k) (F k)) ->
  draws (fun a b v => for_up n i (fun k => f k a b) v) (fun t => for_up n i F t).
Proof.
  revert i. induction n as [|n IH]; intros i D; cbn [for_up]; [apply draws_id|].
  apply (draws_then (f i) (fun a b v => for_up n (i + 1) (fun k => f k a b) v) (F i) (fun t => for_up n (i + 1) F t));
    [apply D; lia|]. apply IH. intros k Hk. apply D. lia.
Qed.

(** A guard that only looks at the geometry. *)
Lemma draws_guard (c : bool) (C : dispst H -> bool) f F :
  (forall m, C (set_pmem m s) = c) -> (c = false -> draws f F) ->
  draws (fun a b v => if c then v else f a b v) (fun t => if C t then t else F t).
Proof.
  intros E D m Hm. rewrite E. destruct c; [by exists m|]. by apply D.
Qed.

Context (Hs : screen_ok s).

(** The index of a pixel in a frame. *)
Lemma px_index a b : on_screen s a b -> 0 <= b * g_sw s + a < g_sw s * g_sh s /\ g_sw s * g_sh s <= 1024 * 768.
Proof. intros [Ha Hb]. destruct Hs as [_ _ _ _ Hw Hh _ _ _]. nia. Qed.

(** A store to one pixel of the frame. *)
Lemma store_point x y c m :
  on_screen s x y -> same_outside B s m0 m ->
  let m' := st32 m (B + 4 * (y * g_sw s + x)) c in
  same_outside B s m0 m' /\ forall a b, on_screen s a b -> frame B s m' a b = pointp x y c a b (frame B s m a b).
Proof.
  intros Hxy Hm m'. destruct (px_index x y Hxy) as [Hr _]. split.
  - intros i Hi. unfold m'. rewrite ld8_st32_ne by lia. by apply Hm.
  - intros a b Hab. unfold m', frame, pointp. destruct ((a =? x) && (b =? y)) eqn:E2.
    + apply andb_true_iff in E2 as [->%Z.eqb_eq ->%Z.eqb_eq]. apply ld32_st32_eq.
    + apply ld32_st32_ne. assert (b * g_sw s + a <> y * g_sw s + x); [|lia].
      intros Heq. destruct Hab, Hxy, Hs as [_ _ _ _ Hw _ _ _ _].
      assert (b = y) by (destruct (Z.lt_trichotomy b y) as [|[|]]; nia). subst b.
      assert (a = x) by lia. subst a. by rewrite !Z.eqb_refl in E2.
Qed.

(** A pixel routine that stores to the frame where the guard of the C code
    lets it. *)
Lemma draws_point x y c F :
  in_s32 x -> in_s32 y ->
  (forall m, ~ on_screen s x y -> F (set_pmem m s) = set_pmem m s) ->
  (forall m, on_screen s x y -> F (set_pmem m s) = set_pmem (st32 m (B + 4 * (y * g_sw s + x)) c) s) ->
  draws (pointp x y c) F.
Proof.
  intros Hx Hy Hoff Hon m Hm. destruct (decide (0 <= x < g_sw s /\ 0 <= y < g_sh s)) as [Hxy|Hxy].
  - destruct (store_point x y c m Hxy Hm). eexists. by rewrite Hon.
  - exists m. rewrite Hoff by done. split_and!; [done | done |]. intros a b Hab. unfold pointp.
    destruct ((a =? x) && (b =? y)) eqn:E; [|done]. apply andb_true_iff in E as [->%Z.eqb_eq ->%Z.eqb_eq]. done.
Qed.

(** The guards of the C code, for C [int]s. *)
Lemma screen_guard x y :
  in_s32 x -> in_s32 y ->
  (g_sw s <=? u32 x) || (g_sh s <=? u32 y) = negb (bool_decide (on_screen s x y)).
Proof.
  intros Hx Hy. destruct Hs as [_ _ _ _ Hw Hh _ _ _]. rewrite !on_axis by (done || lia).
  case_bool_decide as E; unfold on_screen in E; lia.
Qed.

End Draw.

Section Back.

Context {H : Type} `{!Allocator H} (s : dispst H) (m0 : mem) (Hs : screen_ok s).

Abbreviation draws_back := (draws MK_BACK_BASE s m0).

Lemma u32_size : u32 (g_sw s) = g_sw s /\ u32 (g_sh s) = g_sh s.
Proof. destruct Hs as [_ _ _ _ Hw Hh _ _ _]. rewrite !u32_small by (unfold in_u32; lia). done. Qed.

Lemma draws_put x y c : in_s32 x -> in_s32 y -> draws_back (pointp x y c) (bb_put x y c).
Proof.
  intros Hx Hy. pose proof Hs as [_ _ _ _ _ _ Hbk Hba _]. destruct u32_size as [E1 E2].
  apply draws_point; [done | done | done | |]; intros m Hxy; unfold bb_put;
    change (g_sw (set_pmem m s)) with (g_sw s); change (g_sh (set_pmem m s)) with (g_sh s);
    rewrite E1, E2, screen_guard by done.
  - by rewrite bool_decide_false.
  - rewrite bool_decide_true by done. cbn [negb]. change (g_back_ok (set_pmem m s)) with (g_back_ok s).
    change (g_back (set_pmem m s)) with (g_back s). rewrite Hbk, Hba, pmem_set, set_set_pmem.
    destruct (px_index s Hs x y Hxy). rewrite s32_small by (unfold in_s32; lia). unfold px_addr.
    rewrite u32_small by (unfold in_u32, MK_BACK_BASE; lia). done.
Qed.

(** The clipped double loop of the rectangle routines at one pixel. *)
Lemma rect_paint x y w h (c : Z -> Z -> Z) a b v :
  in_s32 x -> in_s32 y -> 0 <= w <= 0x7FFFFFFF -> 0 <= h <= 0x7FFFFFFF -> on_screen s a b ->
  for_up (Z.to_nat h) 0 (fun j v =>
    if u32 (g_sh s) <=? u32 (s32 (y + j)) then v
    else for_up (Z.to_nat w) 0 (fun i v =>
           if u32 (g_sw s) <=? u32 (s32 (x + i)) then v
           else pointp (s32 (x + i)) (s32 (y + j)) (c j i) a b v) v) v =
  if inside x y w h a b then u32 (c (b - y) (a - x)) else v.
Proof.
  intros Hx Hy Hw Hh [Ha Hb]. pose proof Hs as [_ _ _ _ Hsw Hsh _ _ _]. destruct u32_size as [E1 E2]. rewrite E1, E2.
  set (P := fun j i v => if g_sh s <=? u32 (s32 (y + j)) then v else
                         if g_sw s <=? u32 (s32 (x + i)) then v
                         else pointp (s32 (x + i)) (s32 (y + j)) (c j i) a b v).
  transitivity (for_up (Z.to_nat h) 0 (fun j => for_up (Z.to_nat w) 0 (P j)) v).
  { apply for_up_ext. intros j u Hj. unfold P. cbv beta. destruct (g_sh s <=? _); [|done].
    symmetry. by apply for_up_miss. }
  rewrite (for_up_grid _ _ (b - y) (a - x)).
  - unfold inside. rewrite !Z2Nat.id by lia.
    replace ((0 <=? b - y) && (b - y <? h) && (0 <=? a - x) && (a - x <? w)) with
      ((x <=? a) && (a <? x + w) && (y <=? b) && (b <? y + h)) by lia.
    destruct ((x <=? a) && _ && _ && _) eqn:E; [|done]. unfold P.
    rewrite !on_axis by (try apply s32_range; lia). unfold pointp.
    rewrite !s32_small by (unfold in_s32; lia).
    replace (x + (a - x)) with a by lia. replace (y + (b - y)) with b by lia.
    rewrite !Z.eqb_refl. replace ((0 <=? b) && (b <? g_sh s)) with true by lia.
    replace ((0 <=? a) && (a <? g_sw s)) with true by lia. done.
  - intros j i u Hj Hi Hne. unfold P. destruct (g_sh s <=? _); [done|]. destruct (g_sw s <=? _); [done|].
    unfold pointp. rewrite !s32_hits by (done || lia). destruct ((a =? _) && _) eqn:E; [lia | done].
Qed.

Lemma draws_fill x y w h c :
  in_s32 x -> in_s32 y -> in_s32 w -> in_s32 h -> draws_back (fillp x y w h c) (bb_fill x y w h c).
Proof.
  intros Hx Hy Hw Hh. unfold bb_fill. destruct ((w <=? 0) || (h <=? 0)) eqn:E0.
  { apply (draws_ext _ _ _ (fun _ _ v => v)); [|apply draws_id]. intros a b v _. unfold fillp, inside.
    destruct (_ && _) eqn:E; [lia | done]. }
  unfold in_s32 in Hw, Hh.
  eapply draws_ext; [|apply draws_for; intros j Hj; apply (draws_guard _ _ _ (u32 (g_sh s) <=? u32 (s32 (y + j))));
    [done|]; intros _; apply draws_for; intros i Hi; apply (draws_guard _ _ _ (u32 (g_sw s) <=? u32 (s32 (x + i))));
    [done|]; intros _; apply draws_put; apply s32_range].
  intros a b v Hab. cbv beta. rewrite (rect_paint x y w h (fun _ _ => c)) by (done || lia). done.
Qed.

Lemma draws_char x y c fg bg :
  in_s32 x -> in_s32 y -> draws_back (charp x y c fg bg) (Mkdraw.draw_char bb_put x y c fg bg).
Proof.
  intros Hx Hy. unfold Mkdraw.draw_char. pose proof Hs as [_ _ _ _ Hsw Hsh _ _ _]. destruct u32_size as [E1 E2].
  eapply draws_ext; [|apply draws_for; intros row Hr; apply draws_for; intros col Hc;
    apply draws_put; apply s32_range].
  intros a b v [Ha Hb]. cbv beta. rewrite (for_up_grid 16 8 (b - y) (a - x)).
  - unfold charp, inside. change (Z.of_nat 16) with 16. change (Z.of_nat 8) with 8.
    replace ((0 <=? b - y) && (b - y <? 16) && (0 <=? a - x) && (a - x <? 8)) with
      ((x <=? a) && (a <? x + 8) && (y <=? b) && (b <? y + 16)) by lia.
    destruct ((x <=? a) && _ && _ && _) eqn:E; [|done]. unfold pointp.
    rewrite !s32_small by (unfold in_s32; lia).
    replace (x + (a - x)) with a by lia. replace (y + (b - y)) with b by lia. by rewrite !Z.eqb_refl.
  - intros j i u Hj Hi Hne. unfold pointp. rewrite !s32_hits by (done || lia).
    destruct ((a =? _) && _) eqn:E; [lia | done].
Qed.

Lemma draws_text x y t fg bg : in_s32 x -> in_s32 y -> draws_back (textp x y t fg bg) (bb_text x y t fg bg).
Proof.
  intros Hx. unfold bb_text, textp, Mkdraw.draw_text. assert (Hcx : in_s32 x) by done.
  revert Hcx. generalize x at 1 3 5. intros cx. revert cx y.
  induction t as [|c t IH]; intros cx y Hcx Hy; cbn [Mkdraw.draw_text_from textp_from]; [apply draws_id|].
  destruct (c =? 0); [apply draws_id|]. destruct (c =? 10); [apply IH; [done | apply s32_range]|].
  apply (draws_then _ _ _ _ _ (Mkdraw.draw_char bb_put cx y c fg bg)); [by apply draws_char|].
  apply IH; [apply s32_range | done].
Qed.

(** A surface whose pixels are in the heap. *)
Record surf_ok (f : mk_surface) : Prop := mk_surf_ok {
  f_w : 40 <= sw f <= g_sw s;
  f_h : 20 <= sh f <= g_sh s - MK_TITLE_H - MK_PANEL_H;
  f_x : 0 <= sx f < 0x10000;
  f_y : 0 <= sy f < 0x10000;
  f_px : 0x200000 < pixels f /\ pixels f + 4 * (sw f * sh f) <= 0x300000;
}.

Lemma draws_all fs Fs :
  Forall2 draws_back fs Fs -> draws_back (allp fs) (fun t => foldl (fun t (F : dispst H -> dispst H) => F t) t Fs).
Proof.
  induction 1 as [|f F fs Fs Hf _ IH]; [apply draws_id|].
  exact (draws_then _ _ _ f (allp fs) F _ Hf IH).
Qed.

Lemma draws_wallpaper : draws_back (wallp (g_wallpaper s)) wallpaper.
Proof.
  pose proof Hs as [_ _ _ _ Hsw Hsh _ _ _].
  eapply (draws_ext _ _ _ (thenp (fillp 0 0 (g_sw s) (g_sh s) (g_wallpaper s))
           (fun a b v => for_up (Z.to_nat (Z.min 100 (g_sh s))) 0 (fun y => fillp 0 y (g_sw s) 1 (shade_at y) a b) v))).
  - intros a b v [Ha Hb]. unfold thenp, wallp, fillp at 2, inside. replace (_ && _) with true by lia.
    destruct (Z.ltb_spec b 100).
    + rewrite (for_up_once _ _ b).
      * unfold fillp, inside. by replace (_ && _) with true by lia.
      * lia.
      * intros j u Hj Hne. unfold fillp, inside. by replace (_ && _) with false by lia.
    + apply for_up_miss. intros k u Hk. unfold fillp, inside. by replace (_ && _) with false by lia.
  - intros m Hm. unfold wallpaper.
    destruct (draws_fill 0 0 (g_sw s) (g_sh s) (g_wallpaper s) ltac:(done) ltac:(done)
      ltac:(unfold in_s32; lia) ltac:(unfold in_s32; lia) m Hm) as (m1 & E1 & Ho1 & P1).
    change (g_sw (set_pmem m s)) with (g_sw s). change (g_sh (set_pmem m s)) with (g_sh s).
    change (g_wallpaper (set_pmem m s)) with (g_wallpaper s). rewrite E1.
    change (g_sh (set_pmem m1 s)) with (g_sh s).
    destruct (draws_for MK_BACK_BASE s m0 (fun y => fillp 0 y (g_sw s) 1 (shade_at y))
      (fun y t => bb_fill 0 y (g_sw t) 1 (shade_at y) t) (Z.to_nat (Z.min 100 (g_sh s))) 0) with (m := m1)
      as (m2 & E2 & Ho2 & P2).
    + intros k Hk m' Hm'. change (g_sw (set_pmem m' s)) with (g_sw s).
      apply draws_fill; [done | unfold in_s32; lia | unfold in_s32; lia | done | done].
    + done.
    + exists m2. split_and!; [exact E2 | done |]. intros a b Hab. rewrite P2, P1 by done. done.
Qed.

Lemma draws_hook hook : hook_ok hook -> draws_back (hookp hook) (run_hook hook).
Proof.
  intros Hok. destruct hook as [ops|]; [|apply draws_id]. cbn [hook_ok] in Hok. unfold run_hook, hookp.
  induction ops as [|o ops IH]; [apply draws_id|]. inversion Hok as [|? ? Ho Hops]; subst.
  refine (draws_then _ _ _ (opp o) (allp (map opp ops)) (run_op o) _ _ (IH Hops)).
  destruct o as [x y w h c | x y t fg bg]; cbn [run_op opp].
  - destruct Ho as (? & ? & ? & ?). by apply draws_fill.
  - destruct Ho. by apply draws_text.
Qed.

Lemma draws_panel : draws_back (panelp (g_sw s) (g_sh s)) draw_panel.
Proof.
  pose proof Hs as [_ _ _ _ Hsw Hsh _ _ _].
  assert (D : draws_back (panelp (g_sw s) (g_sh s)) (fun t => foldl (fun t (F : dispst H -> dispst H) => F t) t
    [bb_fill 0 (g_sh s - MK_PANEL_H) (g_sw s) MK_PANEL_H 0x001F1F1F; bb_fill 0 (g_sh s - MK_PANEL_H) (g_sw s) 1 0x00444444;
     bb_fill 4 (g_sh s - MK_PANEL_H + 3) 88 (MK_PANEL_H - 6) 0x00005A9E;
     bb_fill 6 (g_sh s - MK_PANEL_H + 5) 84 (MK_PANEL_H - 10) 0x000078D7;
     bb_text 22 (g_sh s - MK_PANEL_H + 6) $"Start" 0x00FFFFFF 0x000078D7;
     bb_fill (g_sw s - (PANEL_BTN_W * 2 + 16)) (g_sh s - MK_PANEL_H + 4) PANEL_BTN_W PANEL_BTN_H 0x00C19C00;
     bb_text (g_sw s - (PANEL_BTN_W * 2 + 16) + 12) (g_sh s - MK_PANEL_H + 6) $"Reboot" 0x00FFFFFF 0x00C19C00;
     bb_fill (g_sw s - (PANEL_BTN_W + 8)) (g_sh s - MK_PANEL_H + 4) PANEL_BTN_W PANEL_BTN_H 0x00C42B1C;
     bb_text (g_sw s - (PANEL_BTN_W + 8) + 4) (g_sh s - MK_PANEL_H + 6) $"Shutdown" 0x00FFFFFF 0x00C42B1C])).
  { apply draws_all. unfold panelp, PANEL_BTN_W, PANEL_BTN_H, MK_PANEL_H.
    repeat (constructor; [first [apply draws_fill | apply draws_text]; unfold in_s32; lia|]). constructor. }
  intros m Hm. destruct (D m Hm) as (m' & E & R). exists m'. split; [|exact R]. rewrite <- E.
  unfold draw_panel, mk_panel_power_rects. cbn [foldl].
  change (g_sw (set_pmem m s)) with (g_sw s). change (g_sh (set_pmem m s)) with (g_sh s).
  replace (g_sh s - MK_PANEL_H + 4 + 2) with (g_sh s - MK_PANEL_H + 6) by lia.
  destruct (draws_fill 0 (g_sh s - MK_PANEL_H) (g_sw s) MK_PANEL_H 0x001F1F1F) with (m := m) as (m1 & E1 & _);
    [done | unfold in_s32, MK_PANEL_H; lia | unfold in_s32; lia | done | done |].
  rewrite E1. done.
Qed.

(** The pixels of a surface are not in the frame. *)
Lemma draws_blit f : surf_ok f -> draws_back (blitp m0 f) (blit_surface f).
Proof.
  intros [Hw Hh Hx Hy Hp]. pose proof Hs as [_ _ _ _ Hsw Hsh _ _ _]. unfold MK_TITLE_H, MK_PANEL_H in Hh.
  set (c := fun row col => ld32 m0 (px_addr (pixels f) (s32 (row * sw f + col)))).
  assert (Ha : forall row col, 0 <= row < sh f -> 0 <= col < sw f ->
    px_addr (pixels f) (s32 (row * sw f + col)) = pixels f + 4 * (row * sw f + col) /\
    0 <= row * sw f + col < sw f * sh f).
  { intros row col Hr Hc. assert (0 <= row * sw f + col < sw f * sh f) by nia. split; [|done].
    rewrite s32_small by (unfold in_s32; lia). unfold px_addr. apply u32_small. unfold in_u32. lia. }
  eapply draws_ext; [|apply draws_for; intros j Hj;
    apply (draws_guard _ _ _ (u32 (g_sh s) <=? u32 (s32 (sy f + MK_TITLE_H + j)))); [done|]; intros _;
    apply draws_for; intros i Hi; apply (draws_guard _ _ _ (u32 (g_sw s) <=? u32 (s32 (sx f + i)))); [done|]; intros _;
    apply (draws_cong _ _ _ _ _ (bb_put (s32 (sx f + i)) (s32 (sy f + MK_TITLE_H + j)) (c j i)));
    [|apply draws_put; apply s32_range]].
  - intros a b v Hab. cbv beta.
    rewrite (rect_paint (sx f) (sy f + MK_TITLE_H) (sw f) (sh f) c); try (unfold in_s32, MK_TITLE_H; lia); [|done].
    unfold blitp. destruct (inside _ _ _ _ a b) eqn:E; [|done]. unfold inside in E. unfold c, client_px.
    rewrite u32_small by apply ld32_range. f_equal. apply Ha; lia.
  - intros m Hm. cbv beta. rewrite pmem_set. f_equal. unfold c.
    destruct (Ha j i) as [-> Hr]; [lia | lia |]. apply ld32_ext. intros k Hk. apply Hm.
    unfold MK_BACK_BASE. lia.
Qed.

Lemma draws_window f focused : surf_ok f -> draws_back (windowp m0 f focused) (draw_window f focused).
Proof.
  intros Hf. pose proof Hf as [Hw Hh Hx Hy Hp]. pose proof Hs as [_ _ _ _ Hsw Hsh _ _ _].
  unfold MK_TITLE_H, MK_PANEL_H in Hh. unfold draw_window. rewrite (proj2 (Z.eqb_neq (pixels f) 0)) by lia.
  refine (draws_all _ [bb_fill (sx f - 1) (sy f - 1) (sw f + 2) (sh f + MK_TITLE_H + 2) 0x00222222;
    bb_fill (sx f) (sy f) (sw f) MK_TITLE_H (if focused then 0x00007ACC else 0x00666666);
    bb_fill (sx f + sw f - 22) (sy f + 4) 16 16 0x00E81123;
    bb_text (sx f + sw f - 22 + 4) (sy f + 4) $"X" 0x00FFFFFF 0x00E81123;
    bb_text (sx f + 8) (sy f + 4) (title f) 0x00FFFFFF (if focused then 0x00007ACC else 0x00666666);
    blit_surface f] _). unfold MK_TITLE_H.
  repeat (constructor; [first [apply draws_fill | apply draws_text | by apply draws_blit]; unfold in_s32; lia|]).
  constructor.
Qed.

End Back.

(** ** The frame *)

Section Compose.

Context {H : Type} `{!Allocator H}.

(** The windows in drawing order; the last one shown has the focus. *)
Definition windowsp (m : mem) (s : dispst H) : paint :=
  fun a b v => for_up MK_MAX_SURFACES 0 (fun i v =>
    if shown (surf_at s i) then windowp m (surf_at s i) (i =? top_surface s) a b v else v) v.

(** What a frame shows: wallpaper, icons, windows with the pixels they have
    in [m], panel, menu, each over what was painted before. *)
Definition scene (layer overlay : option (list draw_op)) (m : mem) (s : dispst H) : paint :=
  allp [wallp (g_wallpaper s); hookp layer; windowsp m s; panelp (g_sw s) (g_sh s); hookp overlay].

Definition surfaces_ok (s : dispst H) : Prop :=
  length (g_surf s) = MK_MAX_SURFACES /\
  forall i, 0 <= i < 8 -> shown (surf_at s i) = true -> surf_ok s (surf_at s i).

Definition clean (f : mk_surface) : mk_surface :=
  mk_surf (used f) (sx f) (sy f) (sw f) (sh f) (mapped f) (title f) (pixels f) false.

(** The surfaces after the first [i] have been drawn. *)
Definition cleaned (i : Z) (l : list mk_surface) : list mk_surface :=
  imap (fun j f => if (Z.of_nat j <? i) && shown f then clean f else f) l.

Lemma screen_ok_surf l (s : dispst H) : screen_ok s -> screen_ok (set_surf l s).
Proof. intros []. by constructor. Qed.

Lemma screen_ok_under u x y v (s : dispst H) : screen_ok s -> screen_ok (set_under u x y v s).
Proof. intros []. by constructor. Qed.

Lemma screen_ok_mem m (s : dispst H) : screen_ok s -> screen_ok (set_pmem m s).
Proof. intros []. by constructor. Qed.

Lemma surf_ok_surf l (s : dispst H) f : surf_ok s f -> surf_ok (set_surf l s) f.
Proof. intros []. by constructor. Qed.

Lemma cleaned_lookup i l (j : nat) :
  (i <= Z.of_nat j) -> cleaned i l !!! j = l !!! j.
Proof.
  intros Hj. rewrite !list_lookup_total_alt. unfold cleaned. rewrite list_lookup_imap.
  destruct (l !! j) as [f|]; [|done]. cbn. by rewrite (proj2 (Z.ltb_ge (Z.of_nat j) i)).
Qed.

Lemma cleaned_step i l :
  0 <= i ->
  cleaned (i + 1) l = if shown (l !!! Z.to_nat i) then alter clean (Z.to_nat i) (cleaned i l) else cleaned i l.
Proof.
  intros Hi. apply list_eq. intros j. unfold cleaned at 1. rewrite list_lookup_imap.
  assert (E : (if shown (l !!! Z.to_nat i) then alter clean (Z.to_nat i) (cleaned i l) else cleaned i l) !! j =
    (fun f => if bool_decide (Z.to_nat i = j) && shown (l !!! Z.to_nat i) then clean f else f) <$> (cleaned i l !! j)).
  { destruct (shown (l !!! Z.to_nat i)); [|rewrite andb_false_r; by destruct (cleaned i l !! j)].
    rewrite andb_true_r. case_bool_decide as Hij; [subst j; by rewrite list_lookup_alter_eq|].
    rewrite list_lookup_alter_ne by done. by destruct (cleaned i l !! j). }
  rewrite E. unfold cleaned. rewrite list_lookup_imap. destruct (l !! j) as [f|] eqn:Ej; [|done]. cbn. f_equal.
  case_bool_decide as Hij.
  - subst j. rewrite list_lookup_total_alt, Ej. cbn. rewrite Z2Nat.id by lia.
    rewrite (proj2 (Z.ltb_lt i (i + 1))), (proj2 (Z.ltb_ge i i)) by lia. cbn. by destruct (shown f).
  - cbn. destruct (Z.ltb_spec (Z.of_nat j) (i + 1)), (Z.ltb_spec (Z.of_nat j) i); try done; lia.
Qed.

Lemma draw_windows_spec m0 m (s : dispst H) :
  screen_ok s -> surfaces_ok s -> same_outside MK_BACK_BASE s m0 m ->
  exists m', draw_windows (set_pmem m s) = set_pmem m' (set_surf (cleaned 8 (g_surf s)) s) /\
    same_outside MK_BACK_BASE s m0 m' /\
    forall a b, on_screen s a b ->
      frame MK_BACK_BASE s m' a b = windowsp m0 s a b (frame MK_BACK_BASE s m a b).
Proof.
  intros Hs [Hl Hok] Hm. unfold draw_windows, windowsp.
  change (top_surface (set_pmem m s)) with (top_surface s). set (top := top_surface s).
  set (P := fun i t => exists m', t = set_pmem m' (set_surf (cleaned i (g_surf s)) s) /\
    same_outside MK_BACK_BASE s m0 m' /\ forall a b, on_screen s a b ->
      frame MK_BACK_BASE s m' a b = for_up (Z.to_nat i) 0 (fun i v =>
        if shown (surf_at s i) then windowp m0 (surf_at s i) (i =? top) a b v else v) (frame MK_BACK_BASE s m a b)).
  enough (HP : P 8 (for_up MK_MAX_SURFACES 0 (fun i s => let f := surf_at s i in
    if negb (shown f) then s else upd_surf i clean (draw_window f (i =? top) s)) (set_pmem m s))) by exact HP.
  apply (for_up_inv P MK_MAX_SURFACES 0).
  { exists m. split_and!; [|done|done]. unfold cleaned. destruct s; cbn. unfold set_pmem, set_heap, set_surf. cbn. f_equal.
    symmetry. apply list_eq. intros j. rewrite list_lookup_imap. destruct (_ !! j); [|done]. cbn.
    by rewrite (proj2 (Z.ltb_ge (Z.of_nat j) 0)) by lia. }
  intros i t Hi (m' & -> & Ho & Hp). cbv zeta. change (Z.of_nat MK_MAX_SURFACES) with 8 in Hi.
  assert (Ef : surf_at (set_pmem m' (set_surf (cleaned i (g_surf s)) s)) i = surf_at s i).
  { unfold surf_at. cbn. apply cleaned_lookup. lia. }
  rewrite Ef. pose proof (cleaned_step i (g_surf s) ltac:(lia)) as Ec. fold (surf_at s i) in Ec.
  assert (Eu : forall a b v, for_up (Z.to_nat (i + 1)) 0 (fun i v =>
        if shown (surf_at s i) then windowp m0 (surf_at s i) (i =? top) a b v else v) v =
      (fun v => if shown (surf_at s i) then windowp m0 (surf_at s i) (i =? top) a b v else v)
        (for_up (Z.to_nat i) 0 (fun i v =>
          if shown (surf_at s i) then windowp m0 (surf_at s i) (i =? top) a b v else v) v)).
  { intros a b v. replace (Z.to_nat (i + 1)) with (S (Z.to_nat i)) by lia. rewrite for_up_last.
    by replace (0 + Z.of_nat (Z.to_nat i)) with i by lia. }
  destruct (shown (surf_at s i)) eqn:Esh; cbn [negb].
  - destruct (draws_window (set_surf (cleaned i (g_surf s)) s) m0 (screen_ok_surf _ _ Hs) (surf_at s i) (i =? top)
      (surf_ok_surf _ _ _ (Hok i ltac:(lia) Esh)) m' Ho) as (m2 & E2 & Ho2 & Hp2).
    rewrite E2. exists m2. split_and!; [|done|].
    + unfold upd_surf. rewrite Ec. done.
    + intros a b Hab. rewrite Eu. cbv beta. rewrite <- Hp by done. by apply Hp2.
  - exists m'. split_and!; [by rewrite Ec | done |]. intros a b Hab. rewrite Eu. cbv beta. by apply Hp.
Qed.

(** ** The frame buffer and the cursor *)

Definition lfbase (s : dispst H) : Z := lfb (vinfo s).

(** The pixels of the cursor at [x], [y]. *)
Definition in_cursor (x y a b : Z) : bool :=
  inside x y MK_CURSOR_W MK_CURSOR_H a b && negb (mask_at (b - y) (a - x) =? 0).
Definition cursorp (x y : Z) : paint :=
  fun a b v => if in_cursor x y a b then (if mask_at (b - y) (a - x) =? 1 then 0x00FFFFFF else 0) else v.

Lemma vbe_guard (s : dispst H) : screen_ok s -> negb (active (vinfo s)) || (lfb (vinfo s) =? 0) = false.
Proof. intros []. rewrite so_vactive0, (proj2 (Z.eqb_neq _ 0)) by lia. done. Qed.

(** The address of a pixel of the frame buffer. *)
Lemma lfb_addr (s : dispst H) a b :
  screen_ok s -> on_screen s a b ->
  px_addr (lfb (vinfo s)) (u32 (b * width (vinfo s) + a)) = lfbase s + 4 * (b * g_sw s + a).
Proof.
  intros Hs Hab. destruct (px_index s Hs a b Hab). destruct Hs. rewrite so_width0.
  rewrite (u32_small (_ + _)) by (unfold in_u32; lia). unfold px_addr, lfbase. apply u32_small. unfold in_u32. lia.
Qed.

Lemma draws_lfb (s : dispst H) m0 x y c :
  screen_ok s -> in_s32 x -> in_s32 y -> draws (lfbase s) s m0 (pointp x y c) (lfb_put x y c).
Proof.
  intros Hs Hx Hy. apply draws_point; [done | done | done | |]; intros m Hxy; unfold lfb_put, vbe_putpixel;
    change (vinfo (set_pmem m s)) with (vinfo s); rewrite vbe_guard, pmem_set, set_set_pmem by done;
    rewrite (so_width s Hs), (so_height s Hs), screen_guard by done.
  - by rewrite bool_decide_false.
  - rewrite bool_decide_true by done. cbn [negb]. rewrite <- (so_width s Hs), lfb_addr by done.
    by rewrite (so_width s Hs).
Qed.

Lemma draws_cursor (s : dispst H) m0 x y :
  screen_ok s -> in_s32 x -> in_s32 y -> draws (lfbase s) s m0 (cursorp x y) (cursor_paint_at x y).
Proof.
  intros Hs Hx Hy. unfold cursor_paint_at. pose proof (so_sw s Hs). pose proof (so_sh s Hs).
  eapply draws_ext; [|apply draws_for; intros row Hr; apply draws_for; intros col Hc;
    apply (draws_guard _ _ _ (mask_at row col =? 0)); [done|]; intros _; apply draws_lfb; [done | apply s32_range..]].
  intros a b v [Ha Hb]. cbv beta.
  change (Z.to_nat MK_CURSOR_H) with 20%nat. change (Z.to_nat MK_CURSOR_W) with 12%nat.
  rewrite (for_up_grid 20 12 (b - y) (a - x)).
  - unfold cursorp, in_cursor, inside, MK_CURSOR_W, MK_CURSOR_H.
    change (Z.of_nat 20) with 20. change (Z.of_nat 12) with 12.
    replace ((0 <=? b - y) && (b - y <? 20) && (0 <=? a - x) && (a - x <? 12)) with
      ((x <=? a) && (a <? x + 12) && (y <=? b) && (b <? y + 20)) by lia.
    destruct ((x <=? a) && _ && _ && _) eqn:E; [|done]. cbn [andb].
    destruct (mask_at (b - y) (a - x) =? 0); [done|]. cbn [negb]. unfold pointp.
    rewrite !s32_small by (unfold in_s32; lia).
    replace (x + (a - x)) with a by lia. replace (y + (b - y)) with b by lia. rewrite !Z.eqb_refl. cbn [andb].
    by destruct (mask_at _ _ =? 1).
  - intros j i u Hj Hi Hne. destruct (mask_at j i =? 0); [done|]. unfold pointp. rewrite !s32_hits by (done || lia).
    destruct ((a =? _) && _) eqn:E; [lia | done].
Qed.

(** The copy of the finished frame. *)
Lemma flip_spec (s : dispst H) m :
  screen_ok s ->
  exists m', flip_to_lfb (set_pmem m s) = set_pmem m' s /\ same_outside (lfbase s) s m m' /\
    forall a b, on_screen s a b -> frame (lfbase s) s m' a b = frame MK_BACK_BASE s m a b.
Proof.
  intros Hs. pose proof Hs as [Ha _ _ _ Hw Hh Hk Hb (Hl & Hl4 & Hle)]. unfold flip_to_lfb.
  change (g_back_ok (set_pmem m s)) with (g_back_ok s). change (g_active (set_pmem m s)) with (g_active s).
  change (vinfo (set_pmem m s)) with (vinfo s). change (g_back (set_pmem m s)) with (g_back s).
  change (g_sw (set_pmem m s)) with (g_sw s). change (g_sh (set_pmem m s)) with (g_sh s).
  rewrite Hk, Ha, Hb. cbn [negb orb]. rewrite vbe_guard, pmem_set, set_set_pmem by done.
  assert (Hn : 0 <= g_sw s * g_sh s <= 786432) by nia. rewrite u32_small by (unfold in_u32; lia).
  eexists. split; [reflexivity|]. set (n := g_sw s * g_sh s) in *.
  pose proof (for_up_inv (fun i m' => same_outside (lfbase s) s m m' /\ forall j, 0 <= j < i ->
    ld32 m' (lfbase s + 4 * j) = ld32 m (MK_BACK_BASE + 4 * j)) (Z.to_nat n) 0
    (fun i m => st32 m (px_addr (lfb (vinfo s)) i) (ld32 m (px_addr MK_BACK_BASE i))) m) as Hinv.
  destruct Hinv as [Ho Hp].
  - split; [done | lia].
  - intros k m' Hk' [Ho Hp]. unfold px_addr. rewrite !u32_small by (unfold in_u32, MK_BACK_BASE; lia).
    fold (lfbase s) in *. split.
    + intros i Hi. fold n in Hi. rewrite ld8_st32_ne by lia. by apply Ho.
    + intros j Hj. destruct (decide (j = k)) as [->|Hne].
      * rewrite ld32_st32_eq, u32_small by apply ld32_range. apply ld32_ext. intros i Hi.
        apply Ho. left. unfold MK_BACK_BASE in Hi. lia.
      * rewrite ld32_st32_ne by lia. apply Hp. lia.
  - split; [done|]. intros a b Hab. unfold frame. apply Hp. destruct (px_index s Hs a b Hab). lia.
Qed.

(** The frame buffer shows [fr] with the cursor at [x], [y], and the hidden
    pixels of [fr] are saved. *)
Record showing (fr : Z -> Z -> Z) (x y : Z) (s : dispst H) : Prop := mk_showing {
  sh_screen : screen_ok s;
  sh_pos : in_s32 x /\ in_s32 y;
  sh_px : forall a b, on_screen s a b -> frame (lfbase s) s (pmem s) a b = cursorp x y a b (fr a b);
  sh_valid : cursor_under_valid s = true /\ cursor_ux s = x /\ cursor_uy s = y;
  sh_len : length (cursor_under s) = 240%nat;
  sh_range : forall a b, on_screen s a b -> in_u32 (fr a b);
  sh_under : forall row col, 0 <= row < 20 -> 0 <= col < 12 -> on_screen s (x + col) (y + row) ->
     cursor_under s !!! Z.to_nat (row * 12 + col) = fr (x + col) (y + row);
}.

(** The frame buffer shows [fr] and no cursor. *)
Definition bare (fr : Z -> Z -> Z) (s : dispst H) : Prop :=
  screen_ok s /\ length (cursor_under s) = 240%nat /\
  forall a b, on_screen s a b -> frame (lfbase s) s (pmem s) a b = fr a b.

(** Only the frame buffer and the cursor's variables change. *)
Definition cursor_step (s s' : dispst H) : Prop :=
  exists m u x y v, s' = set_under u x y v (set_pmem m s) /\ same_outside (lfbase s) s (pmem s) m.

Lemma cursor_step_trans s1 s2 s3 : cursor_step s1 s2 -> cursor_step s2 s3 -> cursor_step s1 s3.
Proof.
  intros (m & u & x & y & v & -> & H1) (m' & u' & x' & y' & v' & -> & H2).
  change (pmem (set_under u x y v (set_pmem m s1))) with (pmem (set_pmem m s1)) in H2. rewrite pmem_set in H2.
  exists m', u', x', y', v'. split.
  - change (set_pmem m' (set_under u x y v (set_pmem m s1))) with (set_under u x y v (set_pmem m' (set_pmem m s1))).
    by rewrite set_set_pmem.
  - intros i Hi. rewrite H2 by done. by apply H1.
Qed.

(** The double loop that fills the saved pixels, at one index. *)
Lemma save_lookup (g : Z -> Z -> Z) (l : list Z) row col :
  length l = 240%nat -> 0 <= row < 20 -> 0 <= col < 12 ->
  let u := for_up 20 0 (fun r u => for_up 12 0 (fun c u => <[Z.to_nat (r * 12 + c) := g r c]> u) u) l in
  length u = 240%nat /\ u !!! Z.to_nat (row * 12 + col) = g row col.
Proof.
  intros Hl Hr Hc u. set (k := Z.to_nat (row * 12 + col)).
  assert (HR : length u = 240%nat /\ u !!! k = for_up 20 0 (fun r => for_up 12 0 (fun c v =>
      if (Z.to_nat (r * 12 + c) =? k)%nat then g r c else v)) (l !!! k)).
  { apply (for_up_rel (fun u v => length u = 240%nat /\ u !!! k = v)); [done|].
    intros r u1 v1 Hr1 HR1. apply (for_up_rel (fun u v => length u = 240%nat /\ u !!! k = v)); [done|].
    intros c u2 v2 Hc2 [Hl2 <-]. split; [by rewrite length_insert|].
    destruct (Nat.eqb_spec (Z.to_nat (r * 12 + c)) k) as [<-|Hne].
    - apply list_lookup_total_insert_eq. lia.
    - by apply list_lookup_total_insert_ne. }
  destruct HR as [H1 H2]. split; [done|]. rewrite H2, (for_up_grid 20 12 row col).
  - change (Z.of_nat 20) with 20. change (Z.of_nat 12) with 12.
    replace (_ && _ && _ && _) with true by lia. by rewrite Nat.eqb_refl.
  - intros j i v Hj Hi Hne. change (Z.of_nat 20) with 20 in Hj. change (Z.of_nat 12) with 12 in Hi.
    rewrite (proj2 (Nat.eqb_neq _ _)); [done|]. unfold k. lia.
Qed.

Lemma lfb_get_spec (s : dispst H) x y :
  screen_ok s -> in_s32 x -> in_s32 y -> on_screen s x y -> lfb_get x y s = frame (lfbase s) s (pmem s) x y.
Proof.
  intros Hs Hx Hy Hxy. unfold lfb_get. rewrite vbe_guard by done.
  rewrite (so_width s Hs), (so_height s Hs), screen_guard by done. rewrite bool_decide_true by done. cbn [negb].
  rewrite <- (so_width s Hs), lfb_addr by done. done.
Qed.

Lemma save_paint fr (s : dispst H) x y :
  bare fr s -> in_s32 x -> in_s32 y ->
  let s' := cursor_paint_at x y (cursor_save_under x y s) in showing fr x y s' /\ cursor_step s s'.
Proof.
  intros (Hs & Hl & Hp) Hx Hy. unfold cursor_save_under. rewrite (so_active s Hs). cbn [negb].
  change (Z.to_nat MK_CURSOR_H) with 20%nat. change (Z.to_nat MK_CURSOR_W) with 12%nat. unfold MK_CURSOR_W.
  set (g := fun row col => lfb_get (s32 (x + col)) (s32 (y + row)) s).
  set (u := for_up 20 0 _ (cursor_under s)).
  pose proof (save_lookup g (cursor_under s)) as Hu.
  set (t := set_under u x y true s).
  destruct (draws_cursor t (pmem t) x y (screen_ok_under _ _ _ _ _ Hs) Hx Hy (pmem t)) as (m' & E & Ho & Hd); [done|].
  rewrite set_pmem_same in E. rewrite E.
  change (set_pmem m' t) with (set_under u x y true (set_pmem m' s)). split.
  - constructor.
    + apply screen_ok_under, screen_ok_mem, Hs.
    + done.
    + intros a b Hab. change (pmem (set_under u x y true (set_pmem m' s))) with (pmem (set_pmem m' s)).
      rewrite pmem_set. rewrite <- Hp by done. by apply Hd.
    + done.
    + cbn. exact (proj1 (Hu 0 0 Hl ltac:(lia) ltac:(lia))).
    + intros a b Hab. rewrite <- Hp by done. apply ld32_range.
    + intros row col Hr Hc Hab. rewrite <- Hp by done. cbn.
      etransitivity; [exact (proj2 (Hu row col Hl Hr Hc))|]. unfold g.
      destruct Hab as [Ha Hb]. pose proof (so_sw s Hs). pose proof (so_sh s Hs). cbn in Ha, Hb.
      rewrite !s32_small by (unfold in_s32; lia). apply lfb_get_spec; [done | unfold in_s32; lia.. | done].
  - exists m', u, x, y, true. split; [done|]. exact Ho.
Qed.

Lemma restore_bare fr x y (s : dispst H) :
  showing fr x y s -> bare fr (cursor_restore_under s) /\ cursor_step s (cursor_restore_under s).
Proof.
  intros [Hs [Hx Hy] Hp (Hv & Hux & Huy) Hl Hrg Hu]. unfold cursor_restore_under.
  rewrite Hv, (so_active s Hs). cbn [negb orb].
  change (Z.to_nat MK_CURSOR_H) with 20%nat. change (Z.to_nat MK_CURSOR_W) with 12%nat. unfold MK_CURSOR_W.
  pose proof (so_sw s Hs). pose proof (so_sh s Hs).
  assert (D : draws (lfbase s) s (pmem s) (fun a b v => if in_cursor x y a b then fr a b else v)
    (fun t => for_up 20 0 (fun row t => for_up 12 0 (fun col t => if mask_at row col =? 0 then t else
       lfb_put (s32 (cursor_ux t + col)) (s32 (cursor_uy t + row)) (cursor_under t !!! Z.to_nat (row * 12 + col)) t) t) t)).
  { eapply draws_ext; [|apply draws_for; intros row Hr; apply draws_for; intros col Hc;
      apply (draws_guard _ _ _ (mask_at row col =? 0)); [done|]; intros _;
      apply (draws_cong _ _ _ _ _ (lfb_put (s32 (x + col)) (s32 (y + row)) (cursor_under s !!! Z.to_nat (row * 12 + col))));
      [|apply draws_lfb; [done | apply s32_range..]]].
    - intros a b v [Ha Hb]. cbv beta. rewrite (for_up_grid 20 12 (b - y) (a - x)).
      + unfold in_cursor, inside, MK_CURSOR_W, MK_CURSOR_H.
        change (Z.of_nat 20) with 20. change (Z.of_nat 12) with 12.
        replace ((0 <=? b - y) && (b - y <? 20) && (0 <=? a - x) && (a - x <? 12)) with
          ((x <=? a) && (a <? x + 12) && (y <=? b) && (b <? y + 20)) by lia.
        destruct ((x <=? a) && _ && _ && _) eqn:E; [|done]. cbn [andb].
        destruct (mask_at (b - y) (a - x) =? 0); [done|]. cbn [negb]. unfold pointp.
        rewrite !s32_small by (unfold in_s32; lia).
        rewrite (Hu (b - y) (a - x)); [| lia | lia | split; lia].
        replace (x + (a - x)) with a by lia. replace (y + (b - y)) with b by lia. rewrite !Z.eqb_refl. cbn [andb].
        apply u32_small, Hrg. by split.
      + intros j i w Hj Hi Hne. destruct (mask_at j i =? 0); [done|]. unfold pointp. rewrite !s32_hits by (done || lia).
        destruct ((a =? _) && _) eqn:E; [lia | done].
    - intros m Hm. cbv beta. change (cursor_ux (set_pmem m s)) with (cursor_ux s).
      change (cursor_uy (set_pmem m s)) with (cursor_uy s). by rewrite Hux, Huy. }
  destruct (D (pmem s)) as (m' & E & Ho & Hd); [done|]. rewrite set_pmem_same in E. rewrite E. split.
  - split; [apply screen_ok_under, screen_ok_mem, Hs|]. split; [done|]. intros a b Hab.
    change (pmem (set_under_valid false (set_pmem m' s))) with (pmem (set_pmem m' s)). rewrite pmem_set.
    etransitivity; [by apply Hd|]. change (frame (lfbase s) s (pmem s) a b) with (frame (lfbase s) s (pmem s) a b).
    rewrite Hp by done. unfold cursorp. by destruct (in_cursor x y a b).
  - exists m'. eexists _, _, _, false. split; [reflexivity | done].
Qed.

Lemma cursor_move_showing fr x y x' y' (s : dispst H) :
  showing fr x y s -> in_s32 x' -> in_s32 y' ->
  showing fr x' y' (mk_cursor_move x' y' s) /\ cursor_step s (mk_cursor_move x' y' s).
Proof.
  intros Hsh Hx Hy. unfold mk_cursor_move. rewrite (so_active s (sh_screen _ _ _ _ Hsh)). cbn [negb].
  pose proof (sh_valid _ _ _ _ Hsh) as (Hv & Hux & Huy). rewrite Hv, Hux, Huy. cbn [andb].
  destruct ((x =? x') && (y =? y')) eqn:E.
  - apply andb_true_iff in E as [->%Z.eqb_eq ->%Z.eqb_eq]. split; [done|].
    exists (pmem s), (cursor_under s), (cursor_ux s), (cursor_uy s), (cursor_under_valid s).
    rewrite set_pmem_same. by destruct s.
  - destruct (restore_bare fr x y s Hsh) as [Hb Hst]. destruct (save_paint fr _ x' y' Hb Hx Hy) as [Hsh' Hst'].
    split; [done|]. by eapply cursor_step_trans.
Qed.

(** Whatever the frame buffer shows, moving the cursor changes only it. *)
Lemma move_step x y (s : dispst H) :
  screen_ok s -> length (cursor_under s) = 240%nat -> in_s32 x -> in_s32 y ->
  exists m u x' y' v, mk_cursor_move x y s = set_under u x' y' v (set_pmem m s) /\
    same_outside (lfbase s) s (pmem s) m /\ length u = 240%nat.
Proof.
  intros Hs Hl Hx Hy. unfold mk_cursor_move. rewrite (so_active s Hs). cbn [negb].
  destruct (_ && _ && _).
  { exists (pmem s), (cursor_under s), (cursor_ux s), (cursor_uy s), (cursor_under_valid s).
    rewrite set_pmem_same. by destruct s. }
  assert (Hr : exists m v, cursor_restore_under s = set_under (cursor_under s) (cursor_ux s) (cursor_uy s) v (set_pmem m s) /\
                same_outside (lfbase s) s (pmem s) m).
  { unfold cursor_restore_under. destruct (_ || _).
    - exists (pmem s), (cursor_under_valid s). rewrite set_pmem_same. by destruct s.
    - assert (D : exists f, draws (lfbase s) s (pmem s) f (fun t => for_up 20 0 (fun row t => for_up 12 0 (fun col t =>
        if mask_at row col =? 0 then t else lfb_put (s32 (cursor_ux t + col)) (s32 (cursor_uy t + row))
          (cursor_under t !!! Z.to_nat (row * 12 + col)) t) t) t)).
      { eexists. apply draws_for. intros row Hr. apply draws_for. intros col Hc.
        apply (draws_guard _ _ _ (mask_at row col =? 0)); [done|]. intros _.
        apply (draws_cong _ _ _ _ _ (lfb_put (s32 (cursor_ux s + col)) (s32 (cursor_uy s + row))
          (cursor_under s !!! Z.to_nat (row * 12 + col)))); [done|]. apply draws_lfb; [done | apply s32_range..]. }
      destruct D as [f D]. destruct (D (pmem s)) as (m' & E & Ho & _); [done|].
      rewrite set_pmem_same in E. exists m', false. split; [|done].
      etransitivity; [exact (f_equal (set_under_valid false) E)|]. done. }
  destruct Hr as (m & v & -> & Ho). set (t := set_under _ _ _ v (set_pmem m s)).
  assert (Hb : bare (fun a b => frame (lfbase s) s m a b) t).
  { split; [by apply screen_ok_under, screen_ok_mem|]. split; [done|]. intros a b _.
    change (pmem t) with (pmem (set_pmem m s)). by rewrite pmem_set. }
  destruct (save_paint _ t x y Hb Hx Hy) as [Hsh (m2 & u2 & x2 & y2 & v2 & E & Ho2)]. rewrite E in Hsh |- *.
  exists m2, u2, x2, y2, v2. split_and!.
  - change (set_pmem m2 t) with (set_under (cursor_under s) (cursor_ux s) (cursor_uy s) v (set_pmem m2 (set_pmem m s))).
    by rewrite set_set_pmem.
  - intros i Hi. rewrite Ho2 by done. change (pmem t) with (pmem (set_pmem m s)). rewrite pmem_set. by apply Ho.
  - exact (sh_len _ _ _ _ Hsh).
Qed.

(** ** Composing *)

(** What the compositor needs: a mode that is set, surfaces in the heap, the
    array of the saved pixels, and a mouse position that is a C [int]. *)
Record disp_ok (s : dispst H) : Prop := mk_disp_ok {
  do_screen : screen_ok s;
  do_surf : surfaces_ok s;
  do_under : length (cursor_under s) = 240%nat;
  do_mouse : in_s32 (Mouse.mx (dmouse s)) /\ in_s32 (Mouse.my (dmouse s));
}.

(** Memory outside both frames. *)
Definition same_rest (s : dispst H) (m m' : mem) : Prop :=
  forall i, (i < MK_BACK_BASE \/ MK_BACK_BASE + 4 * (g_sw s * g_sh s) <= i) ->
            (i < lfbase s \/ lfbase s + 4 * (g_sw s * g_sh s) <= i) -> ld8 m' i = ld8 m i.

Lemma surf_ok_geo (s s' : dispst H) f : g_sw s' = g_sw s -> g_sh s' = g_sh s -> surf_ok s f -> surf_ok s' f.
Proof. intros E1 E2 []. constructor; rewrite ?E1, ?E2; done. Qed.

Lemma surfaces_ok_geo (s s' : dispst H) :
  g_surf s' = g_surf s -> g_sw s' = g_sw s -> g_sh s' = g_sh s -> surfaces_ok s -> surfaces_ok s'.
Proof.
  intros E0 E1 E2 [Hl Hf]. unfold surfaces_ok, surf_at in *. rewrite E0. split; [done|]. intros i Hi Hi2.
  apply (surf_ok_geo s); [done | done |]. by apply Hf.
Qed.

(** The drawing part, up to the overlay. *)
Lemma paint_frame layer overlay (s : dispst H) :
  screen_ok s -> surfaces_ok s -> hook_ok layer -> hook_ok overlay ->
  exists m', run_hook overlay (draw_panel (draw_windows (run_hook layer (wallpaper s)))) =
      set_pmem m' (set_surf (cleaned 8 (g_surf s)) s) /\
    same_outside MK_BACK_BASE s (pmem s) m' /\
    forall a b, on_screen s a b -> frame MK_BACK_BASE s m' a b = scene layer overlay (pmem s) s a b 0.
Proof.
  intros Hs Hf Hla Hov. set (m0 := pmem s).
  destruct (draws_wallpaper s m0 Hs m0) as (m1 & E1 & O1 & P1); [done|]. unfold m0 in E1 at 1.
  rewrite set_pmem_same in E1. rewrite E1.
  destruct (draws_hook s m0 Hs layer Hla m1 O1) as (m2 & E2 & O2 & P2). rewrite E2.
  destruct (draw_windows_spec m0 m2 s Hs Hf O2) as (m3 & E3 & O3 & P3). rewrite E3.
  set (t := set_surf (cleaned 8 (g_surf s)) s). assert (Ht : screen_ok t) by (by apply screen_ok_surf).
  destruct (draws_panel t m0 Ht m3 O3) as (m4 & E4 & O4 & P4). rewrite E4.
  destruct (draws_hook t m0 Ht overlay Hov m4 O4) as (m5 & E5 & O5 & P5). rewrite E5.
  exists m5. split_and!; [done | done |]. intros a b Hab. unfold scene, allp. cbn [foldl].
  etransitivity; [by apply P5|]. f_equal. etransitivity; [by apply P4|]. f_equal.
  etransitivity; [by apply P3|]. f_equal. rewrite P2 by done. f_equal. by rewrite P1.
Qed.

Lemma compose_spec layer overlay (s : dispst H) :
  disp_ok s -> hook_ok layer -> hook_ok overlay ->
  let s' := mk_compose layer overlay s in
  showing (fun a b => scene layer overlay (pmem s) s a b 0) (Mouse.mx (dmouse s)) (Mouse.my (dmouse s)) s' /\
  (exists m u x y v ms, s' = set_under u x y v (set_mouse ms (set_surf (cleaned 8 (g_surf s)) (set_pmem m s))) /\
     ms = snd (Mouse.mouse_get (dmouse s)) /\ same_rest s (pmem s) m).
Proof.
  intros [Hs Hf Hu [Hmx Hmy]] Hla Hov. cbv zeta. unfold mk_compose. rewrite (so_active s Hs). cbn [negb].
  set (s1 := set_under_valid false s). assert (Hs1 : screen_ok s1) by (by apply screen_ok_under).
  destruct (paint_frame layer overlay s1 Hs1 (surfaces_ok_geo s s1 eq_refl eq_refl eq_refl Hf) Hla Hov) as (m1 & -> & O1 & P1).
  set (t := set_surf (cleaned 8 (g_surf s1)) s1). assert (Ht : screen_ok t) by (by apply screen_ok_surf).
  change (g_back_ok (set_pmem m1 t)) with (g_back_ok s). rewrite (so_back_ok s Hs).
  destruct (flip_spec t m1 Ht) as (m2 & -> & O2 & P2).
  unfold get_mouse. change (dmouse (set_pmem m2 t)) with (dmouse s). cbn [Mouse.mouse_get].
  set (ms := Mouse.mk_mouse _ _ _ _ _ _ _ _ _ _ _). set (t2 := set_mouse ms (set_pmem m2 t)).
  set (fr := fun a b => scene layer overlay (pmem s) s a b 0).
  assert (Hb : bare fr t2).
  { split; [destruct Ht; by constructor|]. split; [done|]. intros a b Hab.
    change (pmem t2) with (pmem (set_pmem m2 t)). rewrite pmem_set. etransitivity; [by apply P2|]. by apply P1. }
  destruct (save_paint fr t2 _ _ Hb Hmx Hmy) as [Hsh (m & u & x & y & v & E & Ho)]. rewrite E in Hsh |- *.
  split; [exact Hsh|]. exists m, u, x, y, v, ms. split; [|split; [done|]].
  - change (set_pmem m t2) with (set_mouse ms (set_pmem m (set_pmem m2 t))). by rewrite set_set_pmem.
  - intros i Hi1 Hi2. rewrite Ho by done. change (pmem t2) with (pmem (set_pmem m2 t)). rewrite pmem_set.
    rewrite O2 by done. by apply O1.
Qed.

End Compose.

End MkdispSpec.
