(* ===== verification/MkdispProps.v ===== *)
(** * The compositor: claims

    What a frame shows, that the cursor leaves no trail, that the hit test
    agrees with what is visible, and that no sequence of calls breaks the
    windows' memory. *)

From S2P Require Import Prelude Memory Kmalloc Alloc Ports Mouse Gfx Vbe Mkdraw Mkdisp MkdispSpec.
Import Vbe Mkdisp MkdispSpec.

Module MkdispProps.

Section Claims.

Context {H : Type} `{!Allocator H}.

(** C13. A composed frame is the scene: after [mk_compose] every pixel of the
    frame buffer is the one the painter's order gives (wallpaper with its
    shading, desktop icons, the windows from the first to the last with the
    pixels their owners have drawn, the panel, the open menu), with the
    cursor at the mouse position on top; memory outside the two frames is
    unchanged, so no drawing routine writes past its buffer, whatever the
    coordinates. *)
Theorem mk_compose_refines layer overlay (s : dispst H) :
  disp_ok s -> hook_ok layer -> hook_ok overlay ->
  let s' := mk_compose layer overlay s in
  (forall a b, on_screen s a b ->
     frame (lfbase s) s (pmem s') a b =
     cursorp (Mouse.mx (dmouse s)) (Mouse.my (dmouse s)) a b (scene layer overlay (pmem s) s a b 0)) /\
  same_rest s (pmem s) (pmem s').
Proof.
  intros Hs Hla Hov s'. destruct (compose_spec layer overlay s Hs Hla Hov) as (Hsh & m & u & x & y & v & ms & E & _ & Hr).
  fold s' in Hsh, E. split.
  - intros a b Hab. pose proof (sh_px _ _ _ _ Hsh a b) as Hp. rewrite E in Hp. rewrite E. by apply Hp.
  - rewrite E. change (same_rest s (pmem s) (pmem (set_pmem m s))). by rewrite pmem_set.
Qed.

(** Where the cursor is after a sequence of moves. *)
Definition final (p : Z * Z) (ps : list (Z * Z)) : Z * Z := default p (last ps).

Lemma moves_showing fr p ps (s : dispst H) :
  showing fr (fst p) (snd p) s -> Forall (fun q => in_s32 (fst q) /\ in_s32 (snd q)) ps ->
  let s' := foldl (fun s q => mk_cursor_move (fst q) (snd q) s) s ps in
  showing fr (fst (final p ps)) (snd (final p ps)) s' /\ cursor_step s s'.
Proof.
  intros Hs Hps. revert p s Hs. induction Hps as [|q ps [Hx Hy] _ IH]; intros p s Hs; cbn [foldl].
  - split; [exact Hs|]. exists (pmem s), (cursor_under s), (cursor_ux s), (cursor_uy s), (cursor_under_valid s).
    rewrite set_pmem_same. by destruct s.
  - destruct (cursor_move_showing fr _ _ (fst q) (snd q) s Hs Hx Hy) as [H1 H2].
    destruct (IH q _ H1) as [H3 H4]. split; [|by eapply cursor_step_trans].
    replace (final p (q :: ps)) with (final q ps); [exact H3|]. unfold final. destruct ps as [|r ps]; [done|].
    change (last (q :: r :: ps)) with (last (r :: ps)). destruct (last (r :: ps)) eqn:El; [done|].
    by apply last_None in El.
Qed.

(** The cursor leaves no trail: after a frame has been composed, however
    often and wherever the cursor is moved (over the edges of the screen, onto
    itself), the frame buffer shows the composed scene with the cursor at its
    last position and nothing else. *)
Theorem cursor_never_trails layer overlay (s : dispst H) ps :
  disp_ok s -> hook_ok layer -> hook_ok overlay -> Forall (fun q => in_s32 (fst q) /\ in_s32 (snd q)) ps ->
  let s' := foldl (fun s q => mk_cursor_move (fst q) (snd q) s) (mk_compose layer overlay s) ps in
  let p := final (Mouse.mx (dmouse s), Mouse.my (dmouse s)) ps in
  forall a b, on_screen s a b ->
    frame (lfbase s) s (pmem s') a b = cursorp (fst p) (snd p) a b (scene layer overlay (pmem s) s a b 0).
Proof.
  intros Hs Hla Hov Hps s' p a b Hab.
  destruct (compose_spec layer overlay s Hs Hla Hov) as (Hsh & m & u & x & y & v & ms & E & _).
  destruct (moves_showing _ (Mouse.mx (dmouse s), Mouse.my (dmouse s)) ps _ Hsh Hps)
    as [Hsh' (m' & u' & x' & y' & v' & E' & _)].
  pose proof (sh_px _ _ _ _ Hsh' a b) as Hp. rewrite E', E in Hp. unfold s'. rewrite E', E. by apply Hp.
Qed.

(** ** What is under a position *)

(** The frame of a window, border and title bar included. *)
Definition in_border (f : mk_surface) (a b : Z) : bool :=
  inside (sx f - 1) (sy f - 1) (sw f + 2) (sh f + MK_TITLE_H + 2) a b.

(** The title is one line that fits the title bar. *)
Definition title_fits (f : mk_surface) : Prop :=
  Forall (fun c => c <> 10) (cstr (title f)) /\ 8 + 8 * Z.of_nat (length (cstr (title f))) <= sw f.

Lemma hit_loop_inv n x y (s : dispst H) i lx ly ti cl :
  hit_loop n x y s = mk_hit i lx ly ti cl -> 0 <= i ->
  0 <= i < Z.of_nat n /\ shown (surf_at s i) = true /\ covers (surf_at s i) x y = true /\
  hit_in (surf_at s i) i x y = mk_hit i lx ly ti cl /\
  forall j, i < j < Z.of_nat n -> shown (surf_at s j) && covers (surf_at s j) x y = false.
Proof.
  induction n as [|n IH]; intros E Hi; cbn [hit_loop] in E; [injection E; lia|].
  destruct (shown (surf_at s (Z.of_nat n)) && covers (surf_at s (Z.of_nat n)) x y) eqn:Ec.
  - assert (hit_id (hit_in (surf_at s (Z.of_nat n)) (Z.of_nat n) x y) = i) as Hid by (by rewrite E).
    assert (Z.of_nat n = i) by (revert Hid; unfold hit_in; destruct (_ <? _); done). clear Hid. subst i.
    apply andb_true_iff in Ec as [H1 H2]. split_and!; [lia | lia | done | done | exact E | intros j Hj; lia].
  - destruct (IH E Hi) as (H1 & H2 & H3 & H4 & H5). split_and!; try done; try lia.
    intros j Hj. destruct (decide (j = Z.of_nat n)) as [->|]; [done | apply H5; lia].
Qed.

Lemma textp_from_out x cx y t fg bg a b v :
  Forall (fun c => c <> 10) (cstr t) -> 0 <= cx -> cx + 8 * Z.of_nat (length (cstr t)) < 0x20000 ->
  inside cx y (8 * Z.of_nat (length (cstr t))) 16 a b = false ->
  textp_from x cx y t fg bg a b v = v.
Proof.
  revert cx v. induction t as [|c t IH]; intros cx v Hn Hcx Hl Hi; cbn [textp_from cstr] in *; [done|].
  destruct (c =? 0); [done|]. inversion Hn as [|? ? Hc Ht]; subst. rewrite (proj2 (Z.eqb_neq c 10)) by done.
  cbn [length] in Hl, Hi. rewrite Nat2Z.inj_succ in Hl, Hi. unfold thenp. rewrite s32_small by (unfold in_s32; lia).
  apply inside_false in Hi. rewrite IH; [| done | lia | lia | apply inside_false; lia].
  unfold charp. by rewrite (proj2 (inside_false _ _ _ _ _ _)) by lia.
Qed.

Lemma one_line t : forallb (fun c => negb (c =? 10)) (cstr t) = true -> Forall (fun c => c <> 10) (cstr t).
Proof.
  intros E. apply Forall_forall. intros c Hc. rewrite forallb_forall in E. specialize (E c).
  rewrite <- list_elem_of_In in E. specialize (E Hc). lia.
Qed.

Lemma textp_out x y t fg bg a b v :
  Forall (fun c => c <> 10) (cstr t) -> 0 <= x -> x + 8 * Z.of_nat (length (cstr t)) < 0x20000 ->
  inside x y (8 * Z.of_nat (length (cstr t))) 16 a b = false -> textp x y t fg bg a b v = v.
Proof. apply textp_from_out. Qed.

Lemma fillp_out x y w h c a b v : inside x y w h a b = false -> fillp x y w h c a b v = v.
Proof. intros E. unfold fillp. by rewrite E. Qed.

(** The length of a literal. *)
Ltac literal_length :=
  match goal with
  | |- context [length (cstr (lit ?t))] =>
      let n := eval vm_compute in (length (cstr (lit t))) in change (length (cstr (lit t))) with n
  end.

(** A window paints inside its border only, when its title fits. *)
Lemma windowp_out (s : dispst H) m f focused a b v :
  screen_ok s -> surf_ok s f -> title_fits f -> in_border f a b = false -> windowp m f focused a b v = v.
Proof.
  intros Hs [Hw Hh Hx Hy Hp] [Ht1 Ht2] Hb. pose proof (so_sw s Hs). pose proof (so_sh s Hs).
  unfold in_border in Hb. apply inside_false in Hb. unfold MK_TITLE_H, MK_PANEL_H in *. unfold windowp, allp. cbn [foldl].
  rewrite !fillp_out by (apply inside_false; unfold MK_TITLE_H; lia).
  rewrite (textp_out (sx f + sw f - 22 + 4)); [| by apply one_line | lia | literal_length; lia | apply inside_false; literal_length; lia].
  rewrite (textp_out (sx f + 8)); [| done | lia | lia | apply inside_false; lia].
  unfold blitp. by rewrite (proj2 (inside_false _ _ _ _ _ _)) by (unfold MK_TITLE_H; lia).
Qed.

Lemma panelp_out w h a b v :
  640 <= w <= 1024 -> 480 <= h <= 768 -> b < h - MK_PANEL_H -> panelp w h a b v = v.
Proof.
  unfold MK_PANEL_H. intros Hw Hh Hb. unfold panelp, allp, PANEL_BTN_W, PANEL_BTN_H, MK_PANEL_H. cbn [foldl].
  rewrite !fillp_out by (apply inside_false; lia).
  rewrite !textp_out; try (by apply one_line); try lia; try (literal_length; lia); apply inside_false; literal_length; lia.
Qed.

(** The hit test agrees with the screen: where [mk_hit_test] reports a
    position in the contents of a window, the composed frame shows exactly the
    pixel of that window at the reported local coordinates, which are within
    its buffer.  (No menu is open; positions on the panel, under the cursor,
    on the one-pixel border of a window above, and under a title that is too
    long for its window are left out.) *)
Theorem hit_test_shows layer (s : dispst H) x y i lx ly :
  disp_ok s -> hook_ok layer -> on_screen s x y -> y < g_sh s - MK_PANEL_H ->
  mk_hit_test x y s = mk_hit i lx ly false false -> 0 <= i ->
  (forall j, i < j < 8 -> shown (surf_at s j) = true ->
     title_fits (surf_at s j) /\ in_border (surf_at s j) x y = false) ->
  in_cursor (Mouse.mx (dmouse s)) (Mouse.my (dmouse s)) x y = false ->
  frame (lfbase s) s (pmem (mk_compose layer None s)) x y = client_px (pmem s) (surf_at s i) lx ly /\
  0 <= lx < sw (surf_at s i) /\ 0 <= ly < sh (surf_at s i).
Proof.
  intros Hs Hla Hxy Hy Hh Hi Habove Hcur.
  apply hit_loop_inv in Hh as (Hi8 & Hsh & Hcov & Hin & Hno); [|done]. change (Z.of_nat MK_MAX_SURFACES) with 8 in *.
  assert (Hc : sy (surf_at s i) + MK_TITLE_H <= y /\ lx = x - sx (surf_at s i) /\ ly = y - (sy (surf_at s i) + MK_TITLE_H)).
  { unfold hit_in in Hin. destruct (Z.ltb_spec y (sy (surf_at s i) + MK_TITLE_H)); [discriminate|].
    injection Hin as <- <-. lia. }
  destruct Hc as (Hc & -> & ->). unfold covers in Hcov.
  destruct (compose_spec layer None s Hs Hla I) as (Hshow & m & u & x' & y' & v & ms & E & _).
  pose proof (sh_px _ _ _ _ Hshow x y) as Hp. rewrite E in Hp. rewrite E. split; [|lia].
  etransitivity; [by apply Hp|]. unfold cursorp. rewrite Hcur.
  destruct Hs as [Hs [_ Hok] _ _]. unfold scene, allp. cbn [foldl hookp].
  rewrite panelp_out by (try apply Hs; done). unfold windowsp.
  set (f := fun k v => if shown (surf_at s k) then windowp (pmem s) (surf_at s k) (k =? top_surface s) x y v else v).
  set (w := hookp layer x y _). clearbody w.
  assert (Hlast : for_up MK_MAX_SURFACES 0 f w = for_up (Z.to_nat (i + 1)) 0 f w).
  { replace MK_MAX_SURFACES with (Z.to_nat (i + 1) + Z.to_nat (7 - i))%nat by (unfold MK_MAX_SURFACES; lia).
    rewrite for_up_app. apply for_up_miss. intros k u' Hk. unfold f. destruct (shown (surf_at s k)) eqn:Ek; [|done].
    destruct (Habove k ltac:(lia) Ek). apply (windowp_out s); [done | | done | done]. apply Hok; [lia | done]. }
  rewrite Hlast. replace (Z.to_nat (i + 1)) with (S (Z.to_nat i)) by lia. rewrite for_up_last.
  replace (0 + Z.of_nat (Z.to_nat i)) with i by lia. unfold f at 1. rewrite Hsh. unfold windowp, allp. cbn [foldl].
  unfold blitp. by rewrite (proj2 (inside_true _ _ _ _ _ _)) by lia.
Qed.

End Claims.

(** ** Calls of the compositor *)

Section Ops.

Context {H : Type} `{!Allocator H}.

(** Drawing of an owner into the pixels of its window. *)
Inductive buf_op : Type :=
| BFill (color : Z)
| BRect (x y w h color : Z)
| BText (x y : Z) (t : chars) (fg bg : Z).

Inductive disp_op : Type :=
| OCreate (w h : Z) (t : option chars)
| ODestroy (id : Z)
| OMove (id x y : Z)
| OTitle (id : Z) (t : option chars)
| OCommit (id : Z)
| ODraw (id : Z) (d : buf_op)
| OCompose (layer overlay : option (list draw_op))
| OCursor (x y : Z).

Definition run_buf (d : buf_op) (f : mk_surface) (m : mem) : mem :=
  match d with
  | BFill c => Mkdraw.mk_buf_fill (pixels f) (sw f) (sh f) c m
  | BRect x y w h c => Mkdraw.mk_buf_rect (pixels f) (sw f) (sh f) x y w h c m
  | BText x y t fg bg => Mkdraw.mk_buf_text (pixels f) (sw f) (sh f) x y t fg bg m
  end.

Definition exec (o : disp_op) (s : dispst H) : out (dispst H) :=
  match o with
  | OCreate w h t => '(_, s) ← mk_surface_create w h t s; Ret s
  | ODestroy id => mk_surface_destroy id s
  | OMove id x y => Ret (mk_surface_move id x y s)
  | OTitle id t => Ret (mk_surface_set_title id t s)
  | OCommit id => Ret (mk_surface_commit id s)
  | ODraw id d => Ret (match mk_surface_get id s with
                       | Some f => set_pmem (run_buf d f (pmem s)) s
                       | None => s
                       end)
  | OCompose layer overlay => Ret (mk_compose layer overlay s)
  | OCursor x y => Ret (mk_cursor_move x y s)
  end.

Fixpoint run (ops : list disp_op) (s : dispst H) : out (dispst H) :=
  match ops with
  | [] => Ret s
  | o :: ops' => s ← exec o s; run ops' s
  end.

(** Arguments are C [int]s; a window is moved to coordinates far from the
    overflow of [x + w]. *)
Definition op_fine (o : disp_op) : Prop :=
  match o with
  | OMove _ x y => -0x40000000 <= x <= 0x40000000 /\ -0x40000000 <= y <= 0x40000000
  | OCompose layer overlay => hook_ok layer /\ hook_ok overlay
  | OCursor x y => in_s32 x /\ in_s32 y
  | _ => True
  end.

(** The calls of the owner of window [i]. *)
Definition owned (i : Z) (o : disp_op) : Prop :=
  match o with
  | ODestroy id | ODraw id _ => id = i
  | _ => False
  end.

Record disp_wf (l : list (Z * Z)) (s : dispst H) : Prop := mk_disp_wf {
  w_screen : screen_ok s;
  w_len : length (g_surf s) = 8%nat;
  w_under : length (cursor_under s) = 240%nat;
  w_mouse : in_s32 (Mouse.mx (dmouse s)) /\ in_s32 (Mouse.my (dmouse s));
  w_inv : a_inv (dheap s) l;
  w_used : forall i, 0 <= i < 8 -> used (surf_at s i) = true ->
    surf_ok s (surf_at s i) /\
    exists k, (pixels (surf_at s i), k) ∈ l /\ 4 * (sw (surf_at s i) * sh (surf_at s i)) <= k;
  w_apart : forall i j, 0 <= i < 8 -> 0 <= j < 8 -> i <> j ->
    used (surf_at s i) = true -> used (surf_at s j) = true -> pixels (surf_at s i) <> pixels (surf_at s j);
}.

(** The window is still there with the same contents. *)
Definition keeps (i : Z) (s s' : dispst H) : Prop :=
  used (surf_at s' i) = true /\ sw (surf_at s' i) = sw (surf_at s i) /\ sh (surf_at s' i) = sh (surf_at s i) /\
  pixels (surf_at s' i) = pixels (surf_at s i) /\
  forall lx ly, 0 <= lx < sw (surf_at s i) -> 0 <= ly < sh (surf_at s i) ->
    client_px (pmem s') (surf_at s' i) lx ly = client_px (pmem s) (surf_at s i) lx ly.

Lemma disp_wf_ok l s : disp_wf l s -> disp_ok s.
Proof.
  intros []. constructor; [done | | done | done]. split; [done|]. intros i Hi Hsh. apply w_used0; [done|].
  unfold shown in Hsh. by apply andb_true_iff in Hsh as [? _].
Qed.

(** *** One surface *)

Lemma surf_upd id g (s : dispst H) i :
  length (g_surf s) = 8%nat -> 0 <= id < 8 -> 0 <= i < 8 ->
  surf_at (upd_surf id g s) i = if decide (i = id) then g (surf_at s i) else surf_at s i.
Proof.
  intros Hl Hid Hi. unfold surf_at, upd_surf. cbn. rewrite !list_lookup_total_alt, list_lookup_alter.
  case_decide; case_decide; subst; try lia; [|done].
  destruct (lookup_lt_is_Some_2 (g_surf s) (Z.to_nat id)) as [f E]; [lia|]. by rewrite E.
Qed.

Lemma good_id id (s : dispst H) : bad_id id s = false -> 0 <= id < 8 /\ used (surf_at s id) = true.
Proof.
  unfold bad_id. change (Z.of_nat MK_MAX_SURFACES) with 8. destruct (used (surf_at s id)); lia.
Qed.

(** A change of position, title or flags only. *)
Lemma wf_upd l s id g :
  disp_wf l s -> 0 <= id < 8 ->
  (forall f, used (g f) = used f /\ sw (g f) = sw f /\ sh (g f) = sh f /\ pixels (g f) = pixels f) ->
  (surf_ok s (surf_at s id) -> surf_ok s (g (surf_at s id))) ->
  disp_wf l (upd_surf id g s) /\
  forall i, 0 <= i < 8 -> used (surf_at s i) = true -> keeps i s (upd_surf id g s).
Proof.
  intros [Hs Hl Hu Hm Hi Huse Hap] Hid Hg Hok.
  assert (E : forall i, 0 <= i < 8 -> used (surf_at (upd_surf id g s) i) = used (surf_at s i) /\
    sw (surf_at (upd_surf id g s) i) = sw (surf_at s i) /\ sh (surf_at (upd_surf id g s) i) = sh (surf_at s i) /\
    pixels (surf_at (upd_surf id g s) i) = pixels (surf_at s i)).
  { intros i Hi'. rewrite surf_upd by done. case_decide; [apply Hg | done]. }
  split.
  - constructor; try done.
    + by apply screen_ok_surf.
    + cbn. by rewrite length_alter.
    + intros i Hi' Hui. destruct (E i Hi') as (E1 & E2 & E3 & E4). rewrite E1 in Hui.
      destruct (Huse i Hi' Hui) as [Hf Hk]. rewrite E2, E3, E4. split; [|done].
      apply (surf_ok_geo s); [done | done |]. rewrite surf_upd by done. case_decide; [subst; by apply Hok | done].
    + intros i j Hi' Hj Hne Hui Huj. destruct (E i Hi') as (E1 & _ & _ & ->). destruct (E j Hj) as (E2 & _ & _ & ->).
      rewrite E1 in Hui. rewrite E2 in Huj. by apply Hap.
  - intros i Hi' Hui. destruct (E i Hi') as (E1 & E2 & E3 & E4). split_and!; [by rewrite E1 | done..|].
    intros lx ly _ _. unfold client_px. by rewrite E2, E4.
Qed.

(** *** Memory *)

Definition writes_in (p n : Z) (m m' : mem) : Prop := forall i, i < p \/ p + n <= i -> ld8 m' i = ld8 m i.

Lemma writes_trans p n m1 m2 m3 : writes_in p n m1 m2 -> writes_in p n m2 m3 -> writes_in p n m1 m3.
Proof. intros H1 H2 i Hi. rewrite H2 by done. by apply H1. Qed.

Lemma writes_for p n k i f m :
  (forall j m, i <= j < i + Z.of_nat k -> writes_in p n m (f j m)) -> writes_in p n m (for_up k i f m).
Proof.
  intros Hf. apply (for_up_inv (fun _ m' => writes_in p n m m')); [done|].
  intros j m' Hj Hm'. eapply writes_trans; [done | by apply Hf].
Qed.

(** The routines of mkdraw.c stay inside the buffer, whatever the coordinates. *)
Section Buffer.

Context (p w h : Z) (Hw : 0 < w <= 0x10000) (Hh : 0 < h <= 0x7FFF) (Hp : 0 <= p /\ p + 4 * (w * h) <= 4294967296).

Lemma writes_put x y c m : in_s32 x -> in_s32 y -> writes_in p (4 * (w * h)) m (Mkdraw.put p w h x y c m).
Proof.
  intros Hx Hy. unfold Mkdraw.put. rewrite (u32_small w), (u32_small h) by (unfold in_u32; lia).
  rewrite !on_axis by (done || lia). destruct (_ || _) eqn:E; [done|].
  assert (0 <= x < w /\ 0 <= y < h) as [Hx' Hy'] by lia. assert (0 <= y * w + x < w * h) by nia.
  rewrite s32_small by (unfold in_s32; nia). unfold px_addr. rewrite u32_small by (unfold in_u32; lia).
  intros i Hi. apply ld8_st32_ne. lia.
Qed.

Lemma writes_fill c m : writes_in p (4 * (w * h)) m (Mkdraw.mk_buf_fill p w h c m).
Proof.
  unfold Mkdraw.mk_buf_fill. apply writes_for. intros j m' Hj. assert (0 <= w * h <= 0x7FFFFFFF) by nia.
  rewrite s32_small in Hj by (unfold in_s32; lia). unfold px_addr. rewrite u32_small by (unfold in_u32; lia).
  intros i Hi. apply ld8_st32_ne. lia.
Qed.

Lemma writes_rect x y rw rh c m : writes_in p (4 * (w * h)) m (Mkdraw.mk_buf_rect p w h x y rw rh c m).
Proof.
  unfold Mkdraw.mk_buf_rect. destruct (_ || _); [done|]. apply writes_for. intros j m' _. apply writes_for.
  intros i m2 _. apply writes_put; apply s32_range.
Qed.

Lemma writes_text x y t fg bg m : writes_in p (4 * (w * h)) m (Mkdraw.mk_buf_text p w h x y t fg bg m).
Proof.
  unfold Mkdraw.mk_buf_text, Mkdraw.draw_text. generalize x at 2. intros cx. revert cx y m.
  induction t as [|c t IH]; intros cx y m; cbn [Mkdraw.draw_text_from]; [done|].
  destruct (c =? 0); [done|]. destruct (c =? 10); [apply IH|]. eapply writes_trans; [|apply IH].
  unfold Mkdraw.draw_char. apply writes_for. intros row m1 _. apply writes_for. intros col m2 _.
  apply writes_put; apply s32_range.
Qed.

End Buffer.

Lemma writes_buf d (s : dispst H) f m :
  screen_ok s -> surf_ok s f -> writes_in (pixels f) (4 * (sw f * sh f)) m (run_buf d f m).
Proof.
  intros Hs [Hw Hh _ _ Hp]. pose proof (so_sw s Hs). pose proof (so_sh s Hs). unfold MK_TITLE_H, MK_PANEL_H in Hh.
  destruct d; cbn [run_buf]; [apply writes_fill | apply writes_rect | apply writes_text]; lia.
Qed.

(** The contents of a window depend on its pixels only. *)
Lemma client_same m m' f lx ly :
  0 <= lx < sw f -> 0 <= ly < sh f ->
  (forall i, pixels f <= i < pixels f + 4 * (sw f * sh f) -> ld8 m' i = ld8 m i) ->
  client_px m' f lx ly = client_px m f lx ly.
Proof.
  intros Hx Hy Hm. unfold client_px. apply ld32_ext. intros i Hi. apply Hm.
  assert (0 <= ly * sw f + lx < sw f * sh f) by nia. lia.
Qed.

(** A change of memory that the heap tolerates. *)
Lemma wf_mem l s m' :
  disp_wf l s -> a_inv (a_set_mem m' (dheap s)) l -> disp_wf l (set_pmem m' s).
Proof.
  intros [] Hi. constructor; try done; [by apply screen_ok_mem|].
  intros i Hi' Hu. destruct (w_used0 i Hi' Hu) as [Hf Hk]. split; [|done]. by apply (surf_ok_geo s).
Qed.

(** A change of the pixels of one window. *)
Lemma wf_write l s id m' :
  disp_wf l s -> 0 <= id < 8 -> used (surf_at s id) = true ->
  writes_in (pixels (surf_at s id)) (4 * (sw (surf_at s id) * sh (surf_at s id))) (pmem s) m' ->
  disp_wf l (set_pmem m' s) /\ forall i, 0 <= i < 8 -> i <> id -> used (surf_at s i) = true -> keeps i s (set_pmem m' s).
Proof.
  intros Hwf Hid Hu Hw. pose proof Hwf as [Hs _ _ _ Hi Huse Hap]. destruct (Huse id Hid Hu) as (Hf & k & Hk & Hsz). split.
  - apply wf_mem; [done|]. apply (a_write_in _ l (pixels (surf_at s id)) k); [done | done |].
    intros i Hi'. apply Hw. lia.
  - intros i Hi' Hne Hui. split_and!; [done..|]. intros lx ly Hx Hy. rewrite pmem_set.
    apply client_same; [done | done |]. intros a Ha. apply Hw. destruct (Huse i Hi' Hui) as (_ & k' & Hk' & Hsz').
    pose proof (a_disjoint _ l _ _ _ _ Hi Hk Hk' (not_eq_sym (Hap i id Hi' Hid Hne Hui Hu))). cbn in *. lia.
Qed.

Lemma wf_draw l s id d :
  disp_wf l s -> 0 <= id < 8 -> used (surf_at s id) = true ->
  let s' := set_pmem (run_buf d (surf_at s id) (pmem s)) s in
  disp_wf l s' /\ forall i, 0 <= i < 8 -> i <> id -> used (surf_at s i) = true -> keeps i s s'.
Proof.
  intros Hwf Hid Hu. apply (wf_write l s id); [done..|]. apply (writes_buf d s); [apply Hwf | by apply Hwf].
Qed.

(** Changes outside the heap window, of the frames and of the cursor. *)
Lemma wf_frames l s s' :
  disp_wf l s -> screen_ok s' ->
  g_sw s' = g_sw s -> g_sh s' = g_sh s -> length (g_surf s') = 8%nat -> length (cursor_under s') = 240%nat ->
  in_s32 (Mouse.mx (dmouse s')) /\ in_s32 (Mouse.my (dmouse s')) ->
  dheap s' = a_set_mem (pmem s') (dheap s) ->
  (forall i, 0x200000 <= i < 0x300000 -> ld8 (pmem s') i = ld8 (pmem s) i) ->
  (forall i, 0 <= i < 8 -> surf_at s' i = surf_at s i \/ surf_at s' i = clean (surf_at s i)) ->
  disp_wf l s' /\ forall i, 0 <= i < 8 -> used (surf_at s i) = true -> keeps i s s'.
Proof.
  intros [Hs Hl Hu Hm Hi Huse Hap] Hs' Ew Eh Hl' Hu' Hm' Eheap Hmem Hsf.
  assert (E : forall i, 0 <= i < 8 -> used (surf_at s' i) = used (surf_at s i) /\
    sw (surf_at s' i) = sw (surf_at s i) /\ sh (surf_at s' i) = sh (surf_at s i) /\
    pixels (surf_at s' i) = pixels (surf_at s i) /\ (surf_ok s (surf_at s i) -> surf_ok s (surf_at s' i))).
  { intros i Hi'. destruct (Hsf i Hi') as [-> | ->]; [done|]. split_and!; try done. intros []. by constructor. }
  split.
  - constructor; try done.
    + rewrite Eheap. by apply a_write_out.
    + intros i Hi' Hui. destruct (E i Hi') as (E1 & E2 & E3 & E4 & E5). rewrite E1 in Hui. rewrite E2, E3, E4.
      destruct (Huse i Hi' Hui) as [Hf Hk]. split; [|done]. apply (surf_ok_geo s); [done | done |]. by apply E5.
    + intros i j Hi' Hj Hne Hui Huj. destruct (E i Hi') as (E1 & _ & _ & -> & _).
      destruct (E j Hj) as (E2 & _ & _ & -> & _). rewrite E1 in Hui. rewrite E2 in Huj. by apply Hap.
  - intros i Hi' Hui. destruct (E i Hi') as (E1 & E2 & E3 & E4 & _). split_and!; [by rewrite E1 | done..|].
    intros lx ly Hx Hy. unfold client_px. rewrite E2, E4. apply (client_same _ _ (surf_at s i)); [done | done |].
    intros a Ha. apply Hmem. destruct (Huse i Hi' Hui) as [[_ _ _ _ Hp] _]. lia.
Qed.

(** *** The calls *)

Lemma compose_wf layer overlay l s :
  disp_wf l s -> hook_ok layer -> hook_ok overlay ->
  let s' := mk_compose layer overlay s in
  disp_wf l s' /\ forall i, 0 <= i < 8 -> used (surf_at s i) = true -> keeps i s s'.
Proof.
  intros Hwf Hla Hov. cbv zeta. pose proof (w_screen _ _ Hwf) as Hs.
  destruct (compose_spec layer overlay s (disp_wf_ok _ _ Hwf) Hla Hov)
    as (Hsh & m & u & x & y & v & ms & E & Ems & Hr). rewrite E in Hsh |- *.
  assert (Hlc : length (cleaned 8 (g_surf s)) = 8%nat)
    by (unfold cleaned; rewrite length_imap; apply Hwf).
  apply wf_frames; try done.
  - apply Hsh.
  - apply Hsh.
  - rewrite Ems. apply Hwf.
  - change (a_set_mem m (dheap s) = a_set_mem (pmem (set_pmem m s)) (dheap s)). by rewrite pmem_set.
  - intros i Hi. change (ld8 (pmem (set_pmem m s)) i = ld8 (pmem s) i). rewrite pmem_set.
    pose proof (so_lfb s Hs). apply Hr; unfold MK_BACK_BASE, lfbase; lia.
  - intros i Hi. unfold surf_at. cbn. unfold cleaned. rewrite !list_lookup_total_alt, list_lookup_imap.
    destruct (g_surf s !! Z.to_nat i) as [f|]; [|by left]. cbn. destruct (_ && _); [by right | by left].
Qed.

Lemma cursor_wf x y l s :
  disp_wf l s -> in_s32 x -> in_s32 y ->
  let s' := mk_cursor_move x y s in
  disp_wf l s' /\ forall i, 0 <= i < 8 -> used (surf_at s i) = true -> keeps i s s'.
Proof.
  intros Hwf Hx Hy. cbv zeta. pose proof (w_screen _ _ Hwf) as Hs. pose proof (so_lfb s Hs) as Hl.
  destruct (move_step x y s Hs (w_under _ _ Hwf)) as (m & u & x' & y' & v & E & Ho & Hu); [done | done |]. rewrite E.
  apply wf_frames; try done.
  - by apply screen_ok_under, screen_ok_mem.
  - apply Hwf.
  - apply Hwf.
  - change (a_set_mem m (dheap s) = a_set_mem (pmem (set_pmem m s)) (dheap s)). by rewrite pmem_set.
  - intros i Hi. change (ld8 (pmem (set_pmem m s)) i = ld8 (pmem s) i). rewrite pmem_set. apply Ho. unfold lfbase. lia.
  - by left.
Qed.

Lemma destroy_wf id l s :
  disp_wf l s -> exists l' s', mk_surface_destroy id s = Ret s' /\ disp_wf l' s' /\
    forall i, 0 <= i < 8 -> i <> id -> used (surf_at s i) = true -> keeps i s s'.
Proof.
  intros Hwf. unfold mk_surface_destroy. destruct (bad_id id s) eqn:Eb; [by exists l, s|].
  apply good_id in Eb as [Hid Hu]. pose proof Hwf as [Hs Hl Hun Hm Hi Huse Hap].
  destruct (Huse id Hid Hu) as (Hf & k & Hk & Hsz). pose proof (f_px _ _ Hf). rewrite (proj2 (Z.eqb_neq _ 0)) by lia.
  apply elem_of_Permutation in Hk as [l' Hp]. rewrite Hp in Hi.
  destruct (a_free_ok _ _ _ _ Hi) as (h' & E & Hi' & Hpay & _). cbn [negb]. rewrite E. cbn [mbind out_mbind].
  exists l'. eexists. split; [reflexivity|].
  set (g := fun f => mk_surf false (sx f) (sy f) (sw f) (sh f) false (title f) 0 (dirty f)).
  assert (Hat : forall i, 0 <= i < 8 -> i <> id -> surf_at (upd_surf id g (set_heap h' s)) i = surf_at s i).
  { intros i Hi2 Hne. rewrite surf_upd by done. by rewrite decide_False. }
  assert (Hin : forall i, 0 <= i < 8 -> i <> id -> used (surf_at s i) = true ->
    exists k, (pixels (surf_at s i), k) ∈ l' /\ 4 * (sw (surf_at s i) * sh (surf_at s i)) <= k).
  { intros i Hi2 Hne Hui. destruct (Huse i Hi2 Hui) as (_ & k2 & Hk2 & Hs2). exists k2. split; [|done].
    rewrite Hp in Hk2. apply elem_of_cons in Hk2 as [[= E2 _]|]; [|done]. by apply Hap in E2. }
  split.
  - constructor; try done.
    + destruct Hs. by constructor.
    + cbn. by rewrite length_alter.
    + intros i Hi2 Hui. destruct (decide (i = id)) as [->|Hne]; [rewrite surf_upd in Hui by done; by rewrite decide_True in Hui|].
      rewrite Hat in Hui |- * by done. split; [|by apply Hin]. apply (surf_ok_geo s); [done | done |]. by apply Huse.
    + intros i j Hi2 Hj Hne Hui Huj.
      assert (i <> id) by (intros ->; rewrite surf_upd in Hui by done; by rewrite decide_True in Hui).
      assert (j <> id) by (intros ->; rewrite surf_upd in Huj by done; by rewrite decide_True in Huj).
      rewrite !Hat in * by done. by apply Hap.
  - intros i Hi2 Hne Hui. unfold keeps. rewrite Hat by done. split_and!; [done..|]. intros lx ly Hx Hy.
    apply client_same; [done | done |]. intros a Ha. destruct (Hin i Hi2 Hne Hui) as (k2 & Hk2 & Hs2).
    apply (Hpay _ k2 a Hk2). lia.
Qed.

Lemma surface_create_wf w h t l s :
  disp_wf l s -> exists l' r s', mk_surface_create w h t s = Ret (r, s') /\ disp_wf l' s' /\
    forall i, 0 <= i < 8 -> used (surf_at s i) = true -> keeps i s s'.
Proof.
  intros Hwf. unfold mk_surface_create. destruct (_ || _ || _ || _) eqn:Eg; [by exists l, (-1), s|].
  destruct (for_find _ 0 _) as [n|] eqn:Ef; [|by exists l, (-1), s].
  apply for_find_Some in Ef as (Hn & Hfree & _). unfold MK_MAX_SURFACES in Hn.
  pose proof Hwf as [Hs Hl Hun Hm Hi Huse Hap]. pose proof (so_sw s Hs). pose proof (so_sh s Hs).
  unfold MK_TITLE_H, MK_PANEL_H in Eg.
  assert (Hwh : 40 <= w <= g_sw s /\ 20 <= h <= g_sh s - 24 - 28) by lia. destruct Hwh as [Hw Hh].
  assert (Hb : 3200 <= w * h * 4 <= 4194304) by nia. rewrite u32_small by (unfold in_u32; lia).
  destruct (a_alloc_ok _ _ (w * h * 4) Hi ltac:(lia)) as (p & h' & E & Hz & Hnz). rewrite E. cbn [mbind out_mbind].
  destruct (Z.eqb_spec p 0) as [->|Hp].
  { rewrite Hz by done. exists l, (-1). eexists. split; [reflexivity|]. unfold set_heap. by destruct s. }
  destruct (Hnz Hp) as (k & Hk & _ & Hi' & Hdis & Hpay & _). pose proof (a_block _ _ p k Hi' ltac:(by constructor)) as Hblk.
  set (id := Z.of_nat n). set (g := fun f => mk_surf true (40 + id * 24) (40 + id * 24) w h true
            (copy_title (title f) (Some match t with Some t => t | None => $"Window" end)) p true).
  set (s1 := upd_surf id g (set_heap h' s)).
  assert (Hid : used (surf_at s id) = false).
  { unfold surf_at, id. rewrite Nat2Z.id. by destruct (used _). }
  assert (Hat : forall i, 0 <= i < 8 -> surf_at s1 i = if decide (i = id) then g (surf_at s i) else surf_at s i).
  { intros i Hi2. unfold s1. rewrite surf_upd; [done | done | unfold id; lia | done]. }
  pose proof (writes_fill p w h ltac:(lia) ltac:(lia) ltac:(lia) 0x00C0C0C0 (pmem s1)) as Hwr.
  set (m := Mkdraw.mk_buf_fill p w h 0x00C0C0C0 (pmem s1)) in *.
  exists ((p, k) :: l). eexists _, _. split; [reflexivity|].
  assert (Hwf1 : disp_wf ((p, k) :: l) s1).
  { assert (Hg : forall i, 0 <= i < 8 -> i <> id -> used (surf_at s i) = true -> pixels (surf_at s i) <> p).
    { intros i Hi2 Hne Hui Epx. destruct (Huse i Hi2 Hui) as ([] & k2 & Hk2 & Hs2).
      destruct (Hdis _ _ Hk2); rewrite Epx in *; nia. }
    constructor; try done.
    - destruct Hs. by constructor.
    - unfold s1. cbn. by rewrite length_alter.
    - intros i Hi2. rewrite Hat by done. case_decide as Hc.
      + intros _. cbn. split; [|exists k; split; [by constructor | lia]].
        constructor; cbn; unfold MK_TITLE_H, MK_PANEL_H, id; lia.
      + intros Hui. destruct (Huse i Hi2 Hui) as (Hf & k2 & Hk2 & Hs2). split; [by apply (surf_ok_geo s)|].
        exists k2. split; [by constructor | done].
    - intros i j Hi2 Hj Hne. rewrite !Hat by done. case_decide as Hc1; case_decide as Hc2; subst; try done; cbn.
      + intros _ Huj. apply not_eq_sym. by apply Hg.
      + intros Hui _. by apply Hg.
      + by apply Hap. }
  split.
  - apply wf_mem; [done|]. apply (a_write_in _ _ p k); [apply Hwf1 | by constructor |].
    intros i Hi2. apply Hwr. lia.
  - intros i Hi2 Hui. assert (Hne : i <> id) by (intros ->; congruence).
    assert (E2 : surf_at (set_pmem m s1) i = surf_at s i).
    { change (surf_at (set_pmem m s1) i) with (surf_at s1 i). rewrite Hat by done. by rewrite decide_False. }
    unfold keeps. rewrite E2. split_and!; [done..|]. intros lx ly Hx Hy. rewrite pmem_set.
    apply client_same; [done | done |]. intros a Ha. destruct (Huse i Hi2 Hui) as (Hf & k2 & Hk2 & Hs2).
    rewrite Hwr; [apply (Hpay _ k2 a Hk2); lia|]. destruct (Hdis _ _ Hk2); lia.
Qed.

Ltac cases_ltb := repeat match goal with |- context [Z.ltb ?a ?b] => destruct (Z.ltb_spec a b) end.

Lemma move_wf id x y l s :
  disp_wf l s -> -0x40000000 <= x <= 0x40000000 -> -0x40000000 <= y <= 0x40000000 ->
  let s' := mk_surface_move id x y s in
  disp_wf l s' /\ forall i, 0 <= i < 8 -> used (surf_at s i) = true -> keeps i s s'.
Proof.
  intros Hwf Hx Hy. cbv zeta. unfold mk_surface_move. destruct (bad_id id s) eqn:Eb; [done|].
  apply good_id in Eb as [Hid Hu]. pose proof (w_screen _ _ Hwf) as Hs. pose proof (so_sw s Hs). pose proof (so_sh s Hs).
  destruct (w_used _ _ Hwf id Hid Hu) as [[Hw Hh _ _ _] _]. unfold MK_TITLE_H, MK_PANEL_H in *.
  apply wf_upd; [done | done | done |]. intros []. constructor; cbn; try done.
  - destruct (Z.ltb_spec x 0); rewrite s32_small by (unfold in_s32; lia); cases_ltb; lia.
  - destruct (Z.ltb_spec y 0); rewrite s32_small by (unfold in_s32; lia); cases_ltb; lia.
Qed.

(** Every call keeps the windows' memory apart. *)
Lemma op_wf o l s :
  disp_wf l s -> op_fine o -> exists l' s', exec o s = Ret s' /\ disp_wf l' s' /\
    forall i, 0 <= i < 8 -> used (surf_at s i) = true -> ~ owned i o -> keeps i s s'.
Proof.
  intros Hwf Ho. destruct o as [w h t|id|id x y|id t|id|id d|layer overlay|x y]; cbn [exec op_fine owned] in *.
  - destruct (surface_create_wf w h t l s Hwf) as (l' & r & s' & E & H1 & H2). exists l', s'. rewrite E. split_and!; auto.
  - destruct (destroy_wf id l s Hwf) as (l' & s' & E & H1 & H2). exists l', s'. split_and!; auto.
  - destruct (move_wf id x y l s Hwf (proj1 Ho) (proj2 Ho)). eexists l, _. split_and!; auto.
  - unfold mk_surface_set_title. destruct (bad_id id s) eqn:Eb; [by exists l, s|].
    apply good_id in Eb as [Hid Hu].
    exists l. eexists. split; [reflexivity|]. edestruct wf_upd as [H1 H2]; [exact Hwf | exact Hid | | |
      split; [exact H1 | auto]]; [done|]. intros []. by constructor.
  - unfold mk_surface_commit. destruct (bad_id id s) eqn:Eb; [by exists l, s|].
    apply good_id in Eb as [Hid Hu].
    exists l. eexists. split; [reflexivity|]. edestruct wf_upd as [H1 H2]; [exact Hwf | exact Hid | | |
      split; [exact H1 | auto]]; [done|]. intros []. by constructor.
  - unfold mk_surface_get. destruct (bad_id id s) eqn:Eb; [by exists l, s|].
    apply good_id in Eb as [Hid Hu]. destruct (wf_draw l s id d Hwf Hid Hu). eexists l, _. split_and!; auto.
  - destruct (compose_wf layer overlay l s Hwf (proj1 Ho) (proj2 Ho)). eexists l, _. split_and!; auto.
  - destruct (cursor_wf x y l s Hwf (proj1 Ho) (proj2 Ho)). eexists l, _. split_and!; auto.
Qed.

Lemma keeps_refl i s : used (surf_at s i) = true -> keeps i s s.
Proof. intros Hu. by split_and!. Qed.

Lemma keeps_trans i s1 s2 s3 : keeps i s1 s2 -> keeps i s2 s3 -> keeps i s1 s3.
Proof.
  intros (U1 & W1 & H1 & P1 & C1) (U2 & W2 & H2 & P2 & C2). split_and!; [done | congruence.. |].
  intros lx ly Hx Hy. rewrite C2 by (rewrite ?W1, ?H1; done). by apply C1.
Qed.

(** C34. Windows are safe from each other: no sequence of calls (creating,
    destroying, moving and drawing windows, composing frames and moving the
    cursor, with any coordinates and any texts) faults or breaks the heap
    or the frames; the pixel buffers of the open windows stay apart, and the
    contents of a window change only when it is drawn into or destroyed. *)
Theorem disp_calls_safe l s ops :
  disp_wf l s -> Forall op_fine ops ->
  exists l' s', run ops s = Ret s' /\ disp_wf l' s' /\
    forall i, 0 <= i < 8 -> used (surf_at s i) = true -> Forall (fun o => ~ owned i o) ops -> keeps i s s'.
Proof.
  intros Hwf Hops. revert l s Hwf. induction Hops as [|o ops Ho _ IH]; intros l s Hwf.
  - exists l, s. split_and!; [done | done |]. intros i _ Hu _. by apply keeps_refl.
  - destruct (op_wf o l s Hwf Ho) as (l1 & s1 & E1 & Hwf1 & K1).
    destruct (IH l1 s1 Hwf1) as (l2 & s2 & E2 & Hwf2 & K2). exists l2, s2. split_and!; [|done|].
    + cbn [run]. by rewrite E1.
    + intros i Hi Hu Hno. inversion Hno as [|? ? Hno1 Hno2]; subst. pose proof (K1 i Hi Hu Hno1) as Hk.
      eapply keeps_trans; [exact Hk|]. apply K2; [done | apply Hk | done].
Qed.

End Ops.

(** ** Starting the compositor *)

Lemma program_mode_ok dev w h v r v' :
  program_mode dev w h v = (r, v') -> r = 0 -> g_vbe v' = mk_info (lfb (g_vbe v)) w h 32 (w * 4) true.
Proof.
  unfold program_mode. destruct (dispi_read dev VBE_DISPI_INDEX_XRES _) as [rw l1].
  destruct (dispi_read dev VBE_DISPI_INDEX_YRES _) as [rh l2]. destruct (dispi_read dev VBE_DISPI_INDEX_ENABLE _) as [en l3].
  destruct (_ || _ || _); intros [= <- <-] Hr; [lia | done].
Qed.

Lemma set_mode_ok dev mode v r v' :
  vbe_set_mode dev mode v = (r, v') -> r = 0 ->
  active (g_vbe v') = true /\ (width (g_vbe v'), height (g_vbe v')) = mode_size mode /\ lfb (g_vbe v') <> 0.
Proof.
  unfold vbe_set_mode. destruct (mode_size mode) as [w h]. destruct (ensure_probed dev v) as [ok v1].
  destruct ok; cbn [negb]; [|intros [= <- <-]; lia].
  set (v2 := if lfb (g_vbe v1) =? 0 then _ else v1). destruct (Z.eqb_spec (lfb (g_vbe v2)) 0); cbn [orb];
    [intros [= <- <-]; lia|]. destruct (negb (g_dispi_ok v2)); [intros [= <- <-]; lia|].
  intros E Hr. by rewrite (program_mode_ok _ _ _ _ _ _ E Hr).
Qed.

(** When the mode is accepted the compositor starts well formed, with all
    windows closed. *)
Lemma mk_init_wf {H} `{!Allocator H} dev mode (s s' : dispst H) l :
  mk_init dev mode s = (0, s') -> a_inv (dheap s) l -> length (g_surf s) = 8%nat ->
  length (cursor_under s) = 240%nat -> in_s32 (Mouse.mx (dmouse s)) /\ in_s32 (Mouse.my (dmouse s)) ->
  0xA00000 <= lfb (vinfo s') <= 0xFF000000 -> lfb (vinfo s') mod 4 = 0 ->
  disp_wf l s' /\ forall i, 0 <= i < 8 -> used (surf_at s' i) = false.
Proof.
  unfold mk_init. intros E Hi Hl Hu Hm Hlfb Hl4. destruct (vbe_set_mode dev mode (dvbe s)) as [r v] eqn:Ev.
  destruct (Z.eqb_spec r 0) as [->|]; cbn [negb] in E; [|injection E; lia].
  destruct (set_mode_ok _ _ _ _ _ Ev eq_refl) as (Ha & Hwh & _).
  change (vinfo (set_vbe v s)) with (g_vbe v) in E. rewrite Ha in E. cbn [negb] in E.
  assert (Hsz : 640 <= width (g_vbe v) <= 1024 /\ 480 <= height (g_vbe v) <= 768).
  { revert Hwh. unfold mode_size. repeat destruct (_ =? _); intros [= -> ->]; lia. }
  destruct Hsz as [Hw Hh]. assert (Hn : 0 < width (g_vbe v) * height (g_vbe v) * 4 <= MK_BACK_MAX) by (unfold MK_BACK_MAX; nia).
  rewrite u32_small in E by (unfold in_u32, MK_BACK_MAX in *; lia).
  replace (_ && _) with true in E by (symmetry; apply andb_true_iff; rewrite Z.ltb_lt, Z.leb_le; lia).
  set (m := for_up _ 0 _ _) in E. apply (f_equal snd) in E. cbn [snd] in E. subst s'.
  assert (Hnone : forall i, 0 <= i < 8 -> used ((surf_reset <$> g_surf s) !!! Z.to_nat i) = false).
  { intros i Hi'. rewrite list_lookup_total_alt, list_lookup_fmap. by destruct (g_surf s !! Z.to_nat i). }
  split; [|exact Hnone]. constructor; cbn [g_surf cursor_under dmouse dheap]; try done.
  - constructor; cbn; try done. split_and!; [apply Hlfb | done |]. cbn in Hlfb. nia.
  - cbn. by rewrite length_map.
  - cbn. unfold in_s32 in *. destruct (_ <=? _), (_ <=? _); lia.
  - apply a_write_out; [done|]. intros i Hi'. unfold m.
    apply (for_up_inv (fun _ m' => ld8 m' i = ld8 (a_mem (dheap s)) i)); [done|]. intros k m' Hk Hm'.
    unfold px_addr. rewrite u32_small; [rewrite ld8_st32_ne; [done|]; unfold MK_BACK_BASE; lia|].
    assert (width (g_vbe v) * height (g_vbe v) * 4 / 4 <= 786432) by (unfold MK_BACK_MAX in Hn; zlia).
    unfold in_u32, MK_BACK_BASE. lia.
  - intros i Hi' Hui. unfold surf_at in Hui. cbn in Hui. rewrite Hnone in Hui by done. done.
  - intros i j Hi' Hj _ Hui. unfold surf_at in Hui. cbn in Hui. rewrite Hnone in Hui by done. done.
Qed.

(** ** A concrete screen *)

Definition demo0 : dispst Kmalloc.kstate :=
  mk_disp Kmalloc.boot_heap (mk_vbe [] (mk_info 0xFD000000 640 480 32 2560 true) true true)
    Mouse.bss_mouse (replicate 8 bss_surface) true 0x002B579A 640 480 MK_BACK_BASE true (replicate 240 0) (-1) (-1) false.

(** A window of 100 by 60 with one pixel set. *)
Definition demo_window : mk_surface := mk_surf true 40 40 100 60 true ($"Demo" ++ replicate 36 0) 0x20000C true.
Definition demo1 : dispst Kmalloc.kstate :=
  set_pmem (st32 (pmem demo0) (0x20000C + 4 * (6 * 100 + 10)) 0xABCDEF)
    (set_surf (demo_window :: replicate 7 bss_surface) demo0).

Lemma demo0_screen : screen_ok demo0.
Proof. by constructor. Qed.

Lemma demo0_wf : disp_wf [] demo0.
Proof.
  assert (Hno : forall i, 0 <= i < 8 -> used (surf_at demo0 i) = false).
  { intros i Hi. unfold surf_at. cbn [g_surf demo0]. rewrite lookup_total_replicate_2 by lia. done. }
  constructor; [apply demo0_screen | done | done | done | ..].
  - exists Kmalloc.boot_blocks. split; [apply Kmalloc.kmalloc_init_rep | done].
  - intros i Hi. rewrite Hno by done. done.
  - intros i j Hi Hj _. rewrite Hno by done. done.
Qed.

Lemma demo1_rest j : 0 < j < 8 -> shown (surf_at demo1 j) = false.
Proof.
  intros Hj. assert (j = 1 \/ j = 2 \/ j = 3 \/ j = 4 \/ j = 5 \/ j = 6 \/ j = 7) as Hc by lia.
  by repeat destruct Hc as [-> | Hc]; [..| subst].
Qed.

Lemma demo1_ok : disp_ok demo1.
Proof.
  constructor; [apply screen_ok_mem, screen_ok_surf, demo0_screen | | done | done].
  - split; [done|]. intros i Hi Hsh. destruct (decide (i = 0)) as [->|Hne].
    + change (surf_at demo1 0) with demo_window.
      constructor; unfold demo_window, MK_TITLE_H, MK_PANEL_H; cbn [sw sh sx sy pixels g_sw g_sh demo1 set_pmem set_heap set_surf demo0]; lia.
    + rewrite demo1_rest in Hsh by lia. done.
Qed.

Lemma mk_compose_refines_witness :
  frame (lfbase demo1) demo1 (pmem (mk_compose None None demo1)) 300 300 = 0x002B579A.
Proof.
  destruct (mk_compose_refines None None demo1 demo1_ok I I) as [Hp _].
  etransitivity; [apply (Hp 300 300); by vm_compute|]. by vm_compute.
Defined.

Lemma cursor_never_trails_witness :
  let s' := foldl (fun s q => mk_cursor_move (fst q) (snd q) s) (mk_compose None None demo1) [(300, 300); (200, 200)] in
  frame (lfbase demo1) demo1 (pmem s') 300 300 = 0x002B579A /\ frame (lfbase demo1) demo1 (pmem s') 200 200 = 0x00FFFFFF.
Proof.
  assert (Hps : Forall (fun q => in_s32 (fst q) /\ in_s32 (snd q)) [(300, 300); (200, 200)])
    by (refine (Forall_cons_2 _ _ _ _ (Forall_cons_2 _ _ _ _ (Forall_nil_2 _))); unfold in_s32; cbn; lia).
  pose proof (cursor_never_trails None None demo1 [(300, 300); (200, 200)] demo1_ok I I Hps) as Hp. cbv zeta in Hp |- *.
  split; (etransitivity; [apply Hp; by vm_compute|]; by vm_compute).
Defined.

Lemma demo1_pixel : client_px (pmem demo1) (surf_at demo1 0) 10 6 = 0xABCDEF.
Proof. change (surf_at demo1 0) with demo_window. unfold client_px, demo1. rewrite pmem_set. apply ld32_st32_eq. Qed.

Lemma hit_test_shows_witness :
  mk_hit_test 50 70 demo1 = mk_hit 0 10 6 false false /\
  frame (lfbase demo1) demo1 (pmem (mk_compose None None demo1)) 50 70 = 0xABCDEF.
Proof.
  split; [by vm_compute|].
  destruct (hit_test_shows None demo1 50 70 0 10 6) as [Hp _].
  - exact demo1_ok.
  - done.
  - by vm_compute.
  - by vm_compute.
  - by vm_compute.
  - done.
  - intros j Hj Hsh. rewrite demo1_rest in Hsh by lia. done.
  - by vm_compute.
  - etransitivity; [exact Hp | exact demo1_pixel].
Defined.

Lemma disp_calls_safe_witness :
  exists l' s', run [OCreate 100 60 None; ODraw 0 (BRect (-5) 3 1000 2 7); OCompose None None; OCursor 5 5] demo0 = Ret s' /\
    disp_wf l' s'.
Proof.
  destruct (disp_calls_safe [] demo0 [OCreate 100 60 None; ODraw 0 (BRect (-5) 3 1000 2 7); OCompose None None; OCursor 5 5])
    as (l' & s' & H1 & H2 & _).
  - exact demo0_wf.
  - refine (Forall_cons_2 _ _ _ _ (Forall_cons_2 _ _ _ _ (Forall_cons_2 _ _ _ _ (Forall_cons_2 _ _ _ _ (Forall_nil_2 _)))));
      [done | done | done | unfold in_s32; cbn; unfold in_s32; lia].
  - exists l', s'. split; [exact H1 | exact H2].
Defined.

End MkdispProps.
