(* ===== verification/Platform.v ===== *)
(** * Platform detection and the PC speaker (src/src/platform.c, src/src/sound.c)

    VirtualBox is recognised by its PCI vendor number; the answer is kept.
    A beep is the port traffic that starts and stops the speaker; the wait
    between the two, a delay on the tick counter, leaves no trace. *)

From S2P Require Import Prelude Ports Pci Vbe.
Import Ports.

Module Platform.

Record platst : Type := mk_plat { g_vbox : bool; g_inited : bool }.

Section Detect.

Context (dev : Ports.device).

(** The functions of one device from [fn] on; the first one may end the loop. *)
Fixpoint has_vendor_fn (n : nat) (vendor bus d fn : Z) (l : log) : bool * log :=
  match n with
  | O => (false, l)
  | S n' =>
      let '(v, l) := Pci.pci_config_read16 dev bus d fn 0x00 l in
      if v =? vendor then (true, l)
      else if fn =? 0 then
        let '(w, l) := Pci.pci_config_read16 dev bus d fn 0x0E l in
        let ht := u8 (Z.land w 0xFF) in
        if negb (Z.testbit ht 7) then (false, l) else has_vendor_fn n' vendor bus d (fn + 1) l
      else has_vendor_fn n' vendor bus d (fn + 1) l
  end.

Fixpoint has_vendor_dev (n : nat) (vendor bus d : Z) (l : log) : bool * log :=
  match n with
  | O => (false, l)
  | S n' =>
      let '(b, l) := has_vendor_fn 8 vendor bus d 0 l in
      if b : bool then (true, l) else has_vendor_dev n' vendor bus (d + 1) l
  end.

Fixpoint has_vendor_bus (n : nat) (vendor bus : Z) (l : log) : bool * log :=
  match n with
  | O => (false, l)
  | S n' =>
      let '(b, l) := has_vendor_dev 32 vendor bus 0 l in
      if b : bool then (true, l) else has_vendor_bus n' vendor (bus + 1) l
  end.

Definition pci_has_vendor (vendor : Z) (l : log) : bool * log := has_vendor_bus 2 vendor 0 l.

Definition platform_init (p : platst) (l : log) : platst * log :=
  let '(b, l) := pci_has_vendor 0x80EE l in (mk_plat b true, l).

Definition platform_is_virtualbox (p : platst) (l : log) : bool * platst * log :=
  let '(p, l) := if negb (g_inited p) then platform_init p l else (p, l) in
  (g_vbox p, p, l).

Definition platform_has_vbe (p : platst) (v : Vbe.vbest) : bool * platst * Vbe.vbest :=
  let '(b, p, l) := platform_is_virtualbox p (Vbe.vio v) in
  let v := Vbe.set_vio l v in
  if b : bool then (false, p, v) else let '(r, v) := Vbe.vbe_probe dev v in (r, p, v).

End Detect.

(** ** Sound *)

Section Speaker.

Context (dev : Ports.device).

Definition PIT_CH2 : Z := 0x42.
Definition PIT_CMD : Z := 0x43.
Definition PIT_BASE_HZ : Z := 1193182.
Definition SPEAKER_PORT : Z := 0x61.

Definition sound_divisor (freq_hz : Z) : Z :=
  let f := if freq_hz <? 20 then 20 else freq_hz in
  let f := if 20000 <? f then 20000 else f in
  let div := PIT_BASE_HZ / f in
  let div := if div =? 0 then 1 else div in
  if 65535 <? div then 65535 else div.

Definition sound_play (freq_hz : Z) (l : log) : log :=
  let div := sound_divisor freq_hz in
  let l := outs [(PIT_CMD, 0xB6); (PIT_CH2, Z.land div 0xFF); (PIT_CH2, Z.land (Z.shiftr div 8) 0xFF)] l in
  let '(t, l) := inb dev SPEAKER_PORT l in
  if negb (Z.land t 3 =? 3) then outb SPEAKER_PORT (Z.lor t 3) l else l.

Definition sound_stop (l : log) : log :=
  let '(t, l) := inb dev SPEAKER_PORT l in outb SPEAKER_PORT (Z.land t 0xFC) l.

Definition sound_beep (freq_hz duration_ms : Z) (l : log) : log :=
  if duration_ms =? 0 then l else sound_stop (sound_play freq_hz l).

Definition sound_beep_ok (l : log) : log := sound_beep 880 80 l.
Definition sound_beep_err (l : log) : log := sound_beep 220 150 l.
Definition sound_beep_coin (l : log) : log := sound_beep 1319 80 (sound_beep 988 40 l).

End Speaker.

End Platform.
