(* ===== verification/Settings.v ===== *)
(** * System settings (src/src/settings.c)

    The settings record, its text form in SETTINGS.CFG, and loading and
    saving it through the FAT32 driver.  Text that is built reads back as the
    settings it came from, and no text can select a video mode that does not
    exist.  Module [SettingsSpec] puts the text over the refinement of
    [Fat32Refine]: settings saved to the disk are the ones loaded from it.
    The menu is in [Menu]. *)

From S2P Require Import Prelude Ata Fat32 Fat32Spec Fat32Vol Fat32Chain Fat32Dir Fat32Tree Fat32Refine Fat32Mkfs.

Module Settings.

Record system_settings : Type := mk_cfg { sound_enabled : bool; gfx_mode : Z; gfx_use_vbe : bool }.

Definition settings_init : system_settings := mk_cfg true 1 true.

(** [while (key[i] && line[i] == key[i]) i++;]: the length of the common part. *)
Fixpoint common (line key : chars) : nat :=
  match line, key with
  | c :: line', k :: key' => if c =? k then S (common line' key') else O
  | _, _ => O
  end.

(** [while (line[i] is a digit) ...]: the value and whether there was one. *)
Fixpoint digits (s : chars) (v : Z) (any : bool) : Z * bool :=
  match s with
  | c :: s' => if (48 <=? c) && (c <=? 57) then digits s' (s32 (s32 (v * 10) + (c - 48))) true else (v, any)
  | [] => (v, any)
  end.

Definition parse_int_after (line key : chars) : option Z :=
  let i := common line key in
  if negb (i =? length key)%nat || negb (char_at line i =? 61) then None
  else
    let i := S i in
    let neg := char_at line i =? 45 in
    let i := if neg then S i else i in
    let '(v, any) := digits (drop i line) 0 false in
    if negb any then None else Some (if neg then s32 (- v) else v).

Definition apply_line (line : chars) (g : system_settings) : system_settings :=
  match parse_int_after line $"sound" with
  | Some v => mk_cfg (negb (v =? 0)) (gfx_mode g) (gfx_use_vbe g)
  | None =>
      match parse_int_after line $"gfx_mode" with
      | Some v => if (0 <=? v) && (v <=? 2) then mk_cfg (sound_enabled g) v (gfx_use_vbe g) else g
      | None =>
          match parse_int_after line $"use_vbe" with
          | Some v => mk_cfg (sound_enabled g) (gfx_mode g) (negb (v =? 0))
          | None => g
          end
      end
  end.

(** The characters of one line, at most [n], and the rest of the text. *)
Fixpoint take_line (n : nat) (p : chars) : chars * chars :=
  match n, p with
  | S n', c :: p' =>
      if (c =? 0) || (c =? 10) then ([], p)
      else let '(l, r) := take_line n' p' in (c :: l, r)
  | _, _ => ([], p)
  end.

(** A round consumes a character, so the length of the text bounds them. *)
Fixpoint apply_loop (fuel : nat) (p : chars) (g : system_settings) : system_settings :=
  match fuel with
  | O => g
  | S f =>
      if char_at p 0 =? 0 then g
      else
        let '(line, r) := take_line 63 p in
        let r := if char_at r 0 =? 10 then tail r else r in
        apply_loop f r (apply_line line g)
  end.
Definition apply_cfg_text (text : chars) (g : system_settings) : system_settings :=
  apply_loop (length text) text g.

(** [PUT(s)]: as much as leaves room for the terminator. *)
Definition PUT (max : nat) (s buf : chars) : chars := buf ++ take (max - 1 - length buf) s.

(** The characters before the terminator. *)
Definition build_cfg_text (max : nat) (g : system_settings) : chars :=
  let b := PUT max $"sound=" [] in
  let b := PUT max [if sound_enabled g then 49 else 48] b in
  let b := PUT max (10 :: $"gfx_mode=") b in
  let b := PUT max [u8 (48 + Z.rem (gfx_mode g) 10)] b in
  let b := PUT max (10 :: $"use_vbe=") b in
  let b := PUT max [if gfx_use_vbe g then 49 else 48] b in
  PUT max [10] b.

(** ** Loading and saving *)

Definition fat_failed (r : Fat32.fat_result) : bool := match r with Fat32.FAT_OK => false | _ => true end.

(** The result, what is printed, the settings and the volume. *)
Definition settings_load_fat (g : system_settings) (f : Fat32.fatst) : out (Z * chars * system_settings * Fat32.fatst) :=
  if negb (Fat32.mounted f) then Ret (-1, $"settings: FAT not mounted (fatmount first)" ++ [10], g, f)
  else
    '((r, buf), f) ← Fat32.fat32_read_file (Some $"SETTINGS.CFG") true 511 f;
    if fat_failed r then Ret (-1, $"settings: SETTINGS.CFG not found (save first)" ++ [10], g, f)
    else Ret (0, $"settings: loaded from SETTINGS.CFG" ++ [10], apply_cfg_text buf g, f).

Definition settings_save_fat (g : system_settings) (f : Fat32.fatst) : out (Z * chars * Fat32.fatst) :=
  if negb (Fat32.mounted f) then Ret (-1, $"settings: FAT not mounted. Run: fatmount" ++ [10], f)
  else
    '(r, f) ← Fat32.fat32_write (Some $"SETTINGS.CFG") (Some (build_cfg_text 256 g)) f;
    if fat_failed r
    then Ret (-1, $"settings: FAT write failed: " ++ Fat32.fat_strerror r ++ [10], f)
    else Ret (0, $"settings: saved to SETTINGS.CFG on FAT" ++ [10], f).

(** ** Properties *)

(** The mode numbers vbe.h knows. *)
Definition cfg_ok (g : system_settings) : Prop := 0 <= gfx_mode g <= 2.

Lemma apply_line_ok l g : cfg_ok g -> cfg_ok (apply_line l g).
Proof. intros H. unfold apply_line. repeat case_match; unfold cfg_ok in *; cbn; (done || lia). Qed.

(** No text selects a mode that does not exist. *)
Lemma apply_loop_ok f p g : cfg_ok g -> cfg_ok (apply_loop f p g).
Proof.
  revert p g. induction f as [|f IH]; intros p g H; [done|]. cbn [apply_loop]. destruct (_ =? 0); [done|].
  destruct (take_line 63 p) as [line r]. by apply IH, apply_line_ok.
Qed.

(** The settings file: the text written for valid settings reads back as
    the same settings, whatever was set before; and no text at all, however
    damaged, selects a video mode that does not exist. *)
Theorem settings_text_roundtrip g g0 text :
  cfg_ok g -> cfg_ok g0 ->
  apply_cfg_text (build_cfg_text 256 g) g0 = g /\ cfg_ok (apply_cfg_text text g0).
Proof.
  intros Hg H0. split; [|by apply apply_loop_ok]. destruct g as [sd md vb]. unfold cfg_ok in Hg. cbn in Hg.
  assert (md = 0 \/ md = 1 \/ md = 2) as [->|[->| ->]] by lia; destruct sd, vb; vm_compute; reflexivity.
Qed.

Lemma settings_text_roundtrip_witness :
  apply_cfg_text (build_cfg_text 256 (mk_cfg false 2 true)) settings_init = mk_cfg false 2 true /\
  cfg_ok (apply_cfg_text $"gfx_mode=77" settings_init).
Proof. apply settings_text_roundtrip; unfold cfg_ok; cbn; lia. Defined.

End Settings.

(** ** Settings kept on the disk *)
Import Fat32Tree Fat32Refine Settings.

Module SettingsSpec.

Definition cfg_name : chars := $"SETTINGS.CFG".
Definition cfg_key : chars := Fat32.name_to_83 cfg_name.

Lemma cfg_name_good : Fat32Dir.good_name cfg_name.
Proof. split_and!; [|by vm_compute..]. apply (bool_decide_unpack _). by vm_compute. Qed.

(** The text is short, has no terminator inside, and reads back. *)
Lemma cfg_text g : cfg_ok g -> cstr (build_cfg_text 256 g) = build_cfg_text 256 g /\ length (build_cfg_text 256 g) = 29%nat.
Proof.
  destruct g as [sd md vb]. unfold cfg_ok. cbn [gfx_mode]. intros H.
  assert (md = 0 \/ md = 1 \/ md = 2) as [->|[->| ->]] by lia; destruct sd, vb; by vm_compute.
Qed.

Lemma cfg_text_reads g g0 : cfg_ok g -> apply_cfg_text (build_cfg_text 256 g) g0 = g.
Proof.
  destruct g as [sd md vb]. unfold cfg_ok. cbn [gfx_mode]. intros H.
  assert (md = 0 \/ md = 1 \/ md = 2) as [->|[->| ->]] by lia; destruct sd, vb; by vm_compute.
Qed.

(** Saving with room for one cluster (and one for the directory). *)
Lemma save_spec g f m :
  fat_holds f m -> cfg_ok g -> (forall b, m !! cfg_key <> Some (Dir b)) -> (2 <= free_clusters f)%nat ->
  exists text f', settings_save_fat g f = Ret (0, text, f') /\
    represents f' (Fat32.geom f) (<[cfg_key := File (build_cfg_text 256 g)]> m).
Proof.
  intros Hf Hg Hd Hr. destruct (cfg_text g Hg) as [Hc Hl]. unfold settings_save_fat.
  pose proof Hf as (L & D & rl & used & free & ls & Hv & _). rewrite (vol_mounted _ _ _ _ Hv). cbn [negb].
  pose proof (Fat32Vol.csize_bound _ _ _ _ Hv) as Hcs.
  destruct (write_refines f (Fat32.geom f) m cfg_name (build_cfg_text 256 g) Hf cfg_name_good) as (r & f' & om & E & Hst & Hm).
  cbn [run] in E. fold cfg_name. destruct (Fat32.fat32_write _ _ f) as [[r0 f0]|]; [|done].
  cbn [mbind out_mbind] in *. injection E as <- <-.
  assert (Hn : Fat32Chain.needed (Fat32.geom f) (length (cstr (build_cfg_text 256 g))) = 1%nat).
  { rewrite Hc, Hl, Fat32Chain.needed_S by lia. replace (29 - _)%nat with 0%nat by lia. by rewrite Fat32Chain.needed_0 by lia. }
  rewrite <- Hc. inversion Hst; subst; fold cfg_key in *; unfold Fat32.WRITE_MAX_BYTES in *; rewrite ?Hn, ?Hc, ?Hl in *; try lia.
  - cbn. eexists _, _. split; [done|]. by apply Hm.
  - by destruct (Hd b).
Qed.

Lemma load_spec g0 f geo m w :
  represents f geo m -> m !! cfg_key = Some (File w) ->
  exists text f', settings_load_fat g0 f = Ret (0, text, apply_cfg_text (take 511 w) g0, f') /\ represents f' geo m.
Proof.
  intros Hf Hw. unfold settings_load_fat.
  pose proof Hf as (L & D & rl & used & free & ls & Hv & _). rewrite (vol_mounted _ _ _ _ Hv). cbn [negb].
  destruct (read_refines f geo m cfg_name 511 Hf cfg_name_good) as (r & f' & E & Hst & Hr); [lia|].
  cbn [run] in E. fold cfg_name. rewrite E. cbn [mbind out_mbind].
  inversion Hst as [| | | | | ? ? w' Hl | ? ? b Hl | ? ? Hl | | | | | | |]; subst; fold cfg_key in Hl; try congruence.
  rewrite Hw in Hl. injection Hl as <-. cbn. eexists _, _. split; [done | done].
Qed.

(** C40. Settings saved on a consistent FAT32 volume with two free clusters, where
    SETTINGS.CFG is not a directory, are loaded back exactly, whatever
    settings were in force before loading; the save adds or replaces that
    one file and the volume stays consistent. *)
Theorem settings_persist g g0 f m :
  fat_holds f m -> cfg_ok g -> (forall b, m !! cfg_key <> Some (Dir b)) -> (2 <= free_clusters f)%nat ->
  exists t1 f1 t2 f2, settings_save_fat g f = Ret (0, t1, f1) /\ settings_load_fat g0 f1 = Ret (0, t2, g, f2) /\
    fat_holds f2 (<[cfg_key := File (build_cfg_text 256 g)]> m).
Proof.
  intros Hf Hg Hd Hr. destruct (save_spec g f m Hf Hg Hd Hr) as (t1 & f1 & E1 & H1).
  destruct (load_spec g0 f1 _ _ (build_cfg_text 256 g) H1) as (t2 & f2 & E2 & H2); [apply lookup_insert_eq|].
  rewrite take_ge, cfg_text_reads in E2 by (done || (destruct (cfg_text g Hg) as [_ ->]; lia)).
  exists t1, f1, t2, f2. split_and!; auto. by apply represents_holds in H2 as [? _].
Qed.

Lemma settings_persist_witness :
  exists t1 f1 t2 f2, settings_save_fat (mk_cfg false 2 true) Fat32Spec.Fat32Spec.volume = Ret (0, t1, f1) /\
    settings_load_fat settings_init f1 = Ret (0, t2, mk_cfg false 2 true, f2) /\
    fat_holds f2 {[ cfg_key := File (build_cfg_text 256 (mk_cfg false 2 true)) ]}.
Proof.
  apply (settings_persist (mk_cfg false 2 true) settings_init Fat32Spec.Fat32Spec.volume ∅).
  - apply volume_holds.
  - unfold cfg_ok. cbn. lia.
  - intros b. by rewrite lookup_empty.
  - assert (E : free_clusters Fat32Spec.Fat32Spec.volume = 506%nat) by by vm_compute. rewrite E. lia.
Defined.

End SettingsSpec.
