(* ===== verification/Snake.v ===== *)
(** * Snake (src/src/snake.c)

    The board, the snake in its two arrays, the food search with its random
    numbers, drawing in either video mode, and the game loop.  A round of the
    loop is given the keys it reads and the tick counter it sees.  Array
    accesses are checked; a read or write outside is [OutOfBounds]. *)

From S2P Require Import Prelude Memory Terminal Keyboard Ports Gfx Vbe Platform Settings.
Import Vbe Settings.

Module Snake.

Definition MAX_LEN : Z := 200.

(** ** State *)

(** What the start of the game derives from the video mode. *)
Record view : Type := mk_view {
  use_vbe : bool; cell : Z; grid_w : Z; grid_h : Z; screen_w : Z; screen_h : Z }.

Record game : Type := mk_game {
  sx : list Z; sy : list Z; slen : Z;
  dir_x : Z; dir_y : Z; next_dx : Z; next_dy : Z;
  food_x : Z; food_y : Z;
  score : Z; dead : bool; death_sounded : bool;
  rng : Z;
  tail_x : Z; tail_y : Z; grew : bool;
}.

Definition set_snake (xs ys : list Z) (n : Z) (g : game) : game :=
  mk_game xs ys n (dir_x g) (dir_y g) (next_dx g) (next_dy g) (food_x g) (food_y g) (score g) (dead g)
    (death_sounded g) (rng g) (tail_x g) (tail_y g) (grew g).
Definition set_dir (x y : Z) (g : game) : game :=
  mk_game (sx g) (sy g) (slen g) x y (next_dx g) (next_dy g) (food_x g) (food_y g) (score g) (dead g)
    (death_sounded g) (rng g) (tail_x g) (tail_y g) (grew g).
Definition set_next (x y : Z) (g : game) : game :=
  mk_game (sx g) (sy g) (slen g) (dir_x g) (dir_y g) x y (food_x g) (food_y g) (score g) (dead g)
    (death_sounded g) (rng g) (tail_x g) (tail_y g) (grew g).
Definition set_food (x y r : Z) (g : game) : game :=
  mk_game (sx g) (sy g) (slen g) (dir_x g) (dir_y g) (next_dx g) (next_dy g) x y (score g) (dead g)
    (death_sounded g) r (tail_x g) (tail_y g) (grew g).
Definition set_score (n : Z) (g : game) : game :=
  mk_game (sx g) (sy g) (slen g) (dir_x g) (dir_y g) (next_dx g) (next_dy g) (food_x g) (food_y g) n (dead g)
    (death_sounded g) (rng g) (tail_x g) (tail_y g) (grew g).
Definition set_dead (b d : bool) (g : game) : game :=
  mk_game (sx g) (sy g) (slen g) (dir_x g) (dir_y g) (next_dx g) (next_dy g) (food_x g) (food_y g) (score g) b
    d (rng g) (tail_x g) (tail_y g) (grew g).
Definition set_tail (x y : Z) (b : bool) (g : game) : game :=
  mk_game (sx g) (sy g) (slen g) (dir_x g) (dir_y g) (next_dx g) (next_dy g) (food_x g) (food_y g) (score g) (dead g)
    (death_sounded g) (rng g) x y b.

(** ** Checked arrays *)

Definition rd (a : list Z) (i : Z) : out Z :=
  if i <? 0 then Fault OutOfBounds
  else match a !! Z.to_nat i with Some v => Ret v | None => Fault OutOfBounds end.

Definition wr (a : list Z) (i v : Z) : out (list Z) :=
  if (i <? 0) || (Z.of_nat (length a) <=? i) then Fault OutOfBounds else Ret (<[Z.to_nat i := v]> a).

(** [for (i = ...; n rounds; i++) if (sx[i] == x && sy[i] == y) ...] *)
Fixpoint hits (n : nat) (i : Z) (xs ys : list Z) (x y : Z) : out bool :=
  match n with
  | O => Ret false
  | S n' =>
      a ← rd xs i;
      if a =? x then b ← rd ys i; if b =? y then Ret true else hits n' (i + 1) xs ys x y
      else hits n' (i + 1) xs ys x y
  end.

(** [for (i = n; i > 0; i--) { sx[i] = sx[i - 1]; sy[i] = sy[i - 1]; }] *)
Fixpoint shift (n : nat) (xs ys : list Z) : out (list Z * list Z) :=
  match n with
  | O => Ret (xs, ys)
  | S n' =>
      a ← rd xs (Z.of_nat n');
      xs ← wr xs (Z.of_nat n) a;
      b ← rd ys (Z.of_nat n');
      ys ← wr ys (Z.of_nat n) b;
      shift n' xs ys
  end.

(** ** Food *)

(** The next state of the generator, and the number taken from it. *)
Definition lcg (r : Z) : Z := u32 (r * 1103515245 + 12345).
Definition rand_of (r : Z) : Z := Z.land (Z.shiftr r 16) 0x7FFF.

Definition rand_u (g : game) : Z * game :=
  let r := lcg (rng g) in (rand_of r, set_food (food_x g) (food_y g) r g).

(** [a % b] on unsigned numbers; a zero divisor traps. *)
Definition umod (a b : Z) : out Z := if b =? 0 then Fault Trap else Ret (a mod b).

(** One round of the loop of [place_food]; the flag is [ok]. *)
Definition food_round (v : view) (g : game) : out (bool * game) :=
  let '(a, g) := rand_u g in
  x ← umod a (grid_w v);
  let g := set_food x (food_y g) (rng g) g in
  let '(b, g) := rand_u g in
  y ← umod b (grid_h v);
  let g := set_food (food_x g) y (rng g) g in
  h ← hits (Z.to_nat (slen g)) 0 (sx g) (sy g) (food_x g) (food_y g);
  Ret (negb h, g).

(** Up to 2 to the [d] rounds. *)
Fixpoint food_loop (d : nat) (v : view) (g : game) : out (bool * game) :=
  match d with
  | O => food_round v g
  | S d' =>
      '(ok, g) ← food_loop d' v g;
      if ok : bool then Ret (true, g) else food_loop d' v g
  end.

Definition food_depth : nat := 31.

Definition place_food (v : view) (g : game) : out game :=
  '(ok, g) ← food_loop food_depth v g;
  if ok : bool then Ret g else Fault NoFuel.

(** ** Drawing *)

Section Draw.

Context (vw : view) (vi : vbe_info).

Definition put_cell (gx gy color32 color8 : Z) (m : mem) : mem :=
  let x := s32 (gx * cell vw) in
  let y := s32 (gy * cell vw) in
  if use_vbe vw then vbe_fill_rect x y (cell vw) (cell vw) color32 vi m
  else Gfx.gfx_fill_rect x y (cell vw) (cell vw) color8 m.

Definition clear_screen (m : mem) : mem :=
  if use_vbe vw then vbe_clear 0 vi m else Gfx.gfx_clear Gfx.GFX_BLACK m.

Definition draw_border (m : mem) : mem :=
  if use_vbe vw then
    let g := vbe_rgb 80 80 80 in
    let m := vbe_fill_rect 0 0 (screen_w vw) 2 g vi m in
    let m := vbe_fill_rect 0 (screen_h vw - 2) (screen_w vw) 2 g vi m in
    let m := vbe_fill_rect 0 0 2 (screen_h vw) g vi m in
    vbe_fill_rect (screen_w vw - 2) 0 2 (screen_h vw) g vi m
  else
    let m := Gfx.gfx_hline 0 0 Gfx.GFX_WIDTH Gfx.GFX_DGRAY m in
    let m := Gfx.gfx_hline 0 (Gfx.GFX_HEIGHT - 1) Gfx.GFX_WIDTH Gfx.GFX_DGRAY m in
    let m := Gfx.gfx_vline 0 0 Gfx.GFX_HEIGHT Gfx.GFX_DGRAY m in
    Gfx.gfx_vline (Gfx.GFX_WIDTH - 1) 0 Gfx.GFX_HEIGHT Gfx.GFX_DGRAY m.

(** The colour of a kind of cell in either mode. *)
Definition color_of (kind : Z) : Z :=
  if use_vbe vw then
    if kind =? 1 then vbe_rgb 80 255 80 else if kind =? 2 then vbe_rgb 0 180 0
    else if kind =? 3 then vbe_rgb 255 60 60 else 0
  else
    if kind =? 1 then Gfx.GFX_LGREEN else if kind =? 2 then Gfx.GFX_GREEN
    else if kind =? 3 then Gfx.GFX_LRED else Gfx.GFX_BLACK.

Definition draw_cell (gx gy kind : Z) (m : mem) : mem :=
  if use_vbe vw then put_cell gx gy (color_of kind) 0 m else put_cell gx gy 0 (color_of kind) m.

(** The 16 rows of one character. *)
Definition draw_glyph (px py c fg32 fg8 : Z) (m : mem) : mem :=
  for_up 16 0 (fun row m =>
    for_up 8 0 (fun col m =>
      if Gfx.glyph_bit c row col then
        if use_vbe vw then vbe_putpixel (s32 (px + col)) (s32 (py + row)) fg32 vi m
        else Gfx.gfx_putpixel (s32 (px + col)) (s32 (py + row)) fg8 m
      else m) m) m.

Fixpoint draw_text_xy (px py : Z) (s : chars) (fg32 fg8 : Z) (m : mem) : mem :=
  match s with
  | [] => m
  | c :: s' => if c =? 0 then m else draw_text_xy (s32 (px + 8)) py s' fg32 fg8 (draw_glyph px py c fg32 fg8 m)
  end.

(** [while (v > 0 && ti < 11)], the digits in the order they are shown. *)
Fixpoint score_digits (n : nat) (v : Z) (acc : chars) : chars :=
  match n with
  | O => acc
  | S n' => if 0 <? v then score_digits n' (v / 10) (48 + v mod 10 :: acc) else acc
  end.
Definition score_text (v : Z) : chars :=
  $"Score: " ++ (if v =? 0 then [48] else score_digits 11 v []).

Definition draw_game_over (g : game) (m : mem) : mem :=
  let box_w := if use_vbe vw then screen_w vw / 2 else 200 in
  let box_h := if use_vbe vw then 80 else 60 in
  let bx := (screen_w vw - box_w) / 2 in
  let by_ := (screen_h vw - box_h) / 2 in
  if use_vbe vw then
    let m := vbe_fill_rect bx by_ box_w box_h (vbe_rgb 160 0 0) vi m in
    let m := vbe_fill_rect (bx + 2) (by_ + 2) (box_w - 4) (box_h - 4) (vbe_rgb 40 0 0) vi m in
    let m := draw_text_xy (bx + 16) (by_ + 16) $"GAME OVER" (vbe_rgb 255 220 220) 0 m in
    let m := draw_text_xy (bx + 16) (by_ + 40) (score_text (score g)) (vbe_rgb 255 255 100) 0 m in
    draw_text_xy (bx + 16) (by_ + 58) $"R=retry  Esc=quit" (vbe_rgb 200 200 200) 0 m
  else
    let m := Gfx.gfx_fill_rect bx by_ box_w box_h Gfx.GFX_RED m in
    let m := Gfx.gfx_fill_rect (bx + 2) (by_ + 2) (box_w - 4) (box_h - 4) Gfx.GFX_DGRAY m in
    let m := draw_text_xy (bx + 12) (by_ + 12) $"GAME OVER" 0 Gfx.GFX_WHITE m in
    let m := draw_text_xy (bx + 12) (by_ + 32) (score_text (score g)) 0 Gfx.GFX_YELLOW m in
    draw_text_xy (bx + 12) (by_ + 44) $"R=retry Esc=quit" 0 Gfx.GFX_LGRAY m.

(** [for (i = 0; i < slen; i++) draw_cell(sx[i], sy[i], i == 0 ? 1 : 2);] *)
Fixpoint draw_snake (n : nat) (i : Z) (g : game) (m : mem) : out mem :=
  match n with
  | O => Ret m
  | S n' =>
      x ← rd (sx g) i;
      y ← rd (sy g) i;
      draw_snake n' (i + 1) g (draw_cell x y (if i =? 0 then 1 else 2) m)
  end.

(** The drawing of [redraw_full] and of [redraw_step], after the wait for
    the retrace. *)
Definition paint_full (g : game) (m : mem) : out mem :=
  let m := clear_screen m in
  let m := draw_border m in
  let m := draw_cell (food_x g) (food_y g) 3 m in
  m ← draw_snake (Z.to_nat (slen g)) 0 g m;
  Ret (if dead g then draw_game_over g m else m).

Definition paint_step (g : game) (m : mem) : out mem :=
  let m := if negb (grew g) then draw_cell (tail_x g) (tail_y g) 0 m else m in
  x0 ← rd (sx g) 0;
  y0 ← rd (sy g) 0;
  let m := draw_cell x0 y0 1 m in
  m ← (if 1 <? slen g then x1 ← rd (sx g) 1; y1 ← rd (sy g) 1; Ret (draw_cell x1 y1 2 m) else Ret m);
  let m := draw_cell (food_x g) (food_y g) 3 m in
  Ret (draw_border m).

End Draw.

(** ** The machine around the game *)

(** One log of port events for all devices, kept in [svid]. *)
Record snk : Type := mk_snk {
  sview : view;
  sgame : game;
  svbe : vbest;
  svid : Gfx.gfxst;
  splat : Platform.platst;
}.
Definition set_game (g : game) (s : snk) : snk := mk_snk (sview s) g (svbe s) (svid s) (splat s).
Definition set_vid (v : Gfx.gfxst) (s : snk) : snk := mk_snk (sview s) (sgame s) (svbe s) v (splat s).
Definition slog (s : snk) : Ports.log := Gfx.gio (svid s).
Definition set_log (l : Ports.log) (s : snk) : snk := set_vid (Gfx.set_gio l (svid s)) s.
Definition smem (s : snk) : mem := Gfx.gmem (svid s).
Definition set_smem (m : mem) (s : snk) : snk :=
  set_vid (Gfx.mk_gfx (Gfx.gio (svid s)) m (Gfx.g_graphics (svid s)) (Gfx.gtty (svid s))) s.

Section Play.

Context (dev : Ports.device) (cfg : system_settings).

Definition is_virtualbox (s : snk) : bool * snk :=
  let '(b, p, l) := Platform.platform_is_virtualbox dev (splat s) (slog s) in
  (b, set_log l (mk_snk (sview s) (sgame s) (svbe s) (svid s) p)).

(** A call of vbe.c, on the common log. *)
Definition on_vbe {A} (f : vbest -> A * vbest) (s : snk) : A * snk :=
  let '(a, v) := f (set_vio (slog s) (svbe s)) in
  (a, set_log (vio v) (mk_snk (sview s) (sgame s) v (svid s) (splat s))).

(** [if (!use_vbe && !platform_is_virtualbox()) gfx_wait_vsync();] *)
Definition wait_frame (s : snk) : snk :=
  if use_vbe (sview s) then s
  else
    let '(b, s) := is_virtualbox s in
    if b : bool then s else set_log (Gfx.gfx_wait_vsync dev (slog s)) s.

Definition redraw_full (s : snk) : out snk :=
  let s := wait_frame s in
  m ← paint_full (sview s) (vbe_get_info (svbe s)) (sgame s) (smem s);
  Ret (set_smem m s).

Definition redraw_step (s : snk) : out snk :=
  let s := wait_frame s in
  m ← paint_step (sview s) (vbe_get_info (svbe s)) (sgame s) (smem s);
  Ret (set_smem m s).

(** The pending turn is taken unless it is the exact reverse. *)
Definition turn (g : game) : game :=
  if negb ((next_dx g =? - dir_x g) && (next_dy g =? - dir_y g)) then
    if negb (next_dx g =? dir_x g) || negb (next_dy g =? dir_y g) then set_dir (next_dx g) (next_dy g) g else g
  else g.

(** From [tail_x = ...] to [sx[0] = nx; sy[0] = ny;]. *)
Definition advance (nx ny : Z) (g : game) : out game :=
  tx ← rd (sx g) (slen g - 1);
  ty ← rd (sy g) (slen g - 1);
  let g := set_tail tx ty false g in
  '(xs, ys) ← shift (Z.to_nat (slen g - 1)) (sx g) (sy g);
  xs ← wr xs 0 nx;
  ys ← wr ys 0 ny;
  Ret (set_snake xs ys (slen g) g).

(** [if (slen < MAX_LEN) { ... grew = 1; }] *)
Definition grow (g : game) : out game :=
  if slen g <? MAX_LEN then
    xs ← wr (sx g) (slen g) (tail_x g);
    ys ← wr (sy g) (slen g) (tail_y g);
    let g := set_snake xs ys (slen g + 1) g in
    Ret (set_tail (tail_x g) (tail_y g) true g)
  else Ret g.

(** The flag says whether the food was eaten. *)
Definition step_game (v : view) (g : game) : out (bool * game) :=
  if dead g then Ret (false, g)
  else
    let g := turn g in
    x0 ← rd (sx g) 0;
    y0 ← rd (sy g) 0;
    let nx := s32 (x0 + dir_x g) in
    let ny := s32 (y0 + dir_y g) in
    if (nx <? 0) || (ny <? 0) || (grid_w v <=? nx) || (grid_h v <=? ny) then
      Ret (false, set_dead true (death_sounded g) g)
    else
      h ← hits (Z.to_nat (slen g)) 0 (sx g) (sy g) nx ny;
      if h : bool then Ret (false, set_dead true (death_sounded g) g)
      else
        g ← advance nx ny g;
        if (nx =? food_x g) && (ny =? food_y g) then
          g ← grow g;
          let g := set_score (s32 (score g + 1)) g in
          g ← place_food v g;
          Ret (true, g)
        else Ret (false, g).

Definition step (s : snk) : out snk :=
  '(ate, g) ← step_game (sview s) (sgame s);
  let s := set_game g s in
  Ret (if ate && sound_enabled cfg then set_log (Platform.sound_beep_coin dev (slog s)) s else s).

Definition handle_key (c : Z) (g : game) : game :=
  let queue ndx ndy :=
    if negb ((ndx =? - dir_x g) && (ndy =? - dir_y g)) then set_next ndx ndy g else g in
  if (c =? 119) || (c =? 87) || (c =? Keyboard.KEY_UP) then queue 0 (-1)
  else if (c =? 115) || (c =? 83) || (c =? Keyboard.KEY_DOWN) then queue 0 1
  else if (c =? 97) || (c =? 65) || (c =? Keyboard.KEY_LEFT) then queue (-1) 0
  else if (c =? 100) || (c =? 68) || (c =? Keyboard.KEY_RIGHT) then queue 1 0
  else g.

(** [slen = 3; ... death_sounded = 0;], at the start and for a retry. *)
Definition reset_game (v : view) (g : game) : out game :=
  xs ← wr (sx g) 0 (grid_w v / 2);
  ys ← wr (sy g) 0 (grid_h v / 2);
  x0 ← rd xs 0;
  xs ← wr xs 1 (x0 - 1);
  y0 ← rd ys 0;
  ys ← wr ys 1 y0;
  xs ← wr xs 2 (x0 - 2);
  ys ← wr ys 2 y0;
  Ret (set_dead false false (set_score 0 (set_next 1 0 (set_dir 1 0 (set_snake xs ys 3 g))))).

(** The reset, [place_food(); redraw_full();] *)
Definition new_round (s : snk) : out snk :=
  g ← reset_game (sview s) (sgame s);
  g ← place_food (sview s) g;
  redraw_full (set_game g s).

(** The keys of one round; the flag says that the game goes on. *)
Fixpoint read_keys (cs : chars) (s : snk) : out (bool * snk) :=
  match cs with
  | [] => Ret (true, s)
  | c :: cs' =>
      if (c =? 27) || (c =? 113) || (c =? 81) then Ret (false, s)
      else if dead (sgame s) && ((c =? 114) || (c =? 82)) then s ← new_round s; read_keys cs' s
      else read_keys cs' (set_game (handle_key c (sgame s)) s)
  end.

(** [if (do_step && !dead) ...] *)
Definition move_snake (s : snk) : out snk :=
  if dead (sgame s) then Ret s
  else
    s ← step s;
    if dead (sgame s) then
      let s := if negb (death_sounded (sgame s)) && sound_enabled cfg
               then let s := set_log (Platform.sound_beep_err dev (slog s)) s in
                    set_game (set_dead (dead (sgame s)) true (sgame s)) s
               else s in
      redraw_full s
    else redraw_step s.

(** The timer settings of the loop. *)
Record pace : Type := mk_pace { use_pit : bool; last : Z; period : Z }.

(** Whether the round steps, and the new [last]. *)
Definition due (now : Z) (p : pace) : bool * pace :=
  if use_pit p then
    if period p <=? u32 (now - last p) then (true, mk_pace (use_pit p) now (period p)) else (false, p)
  else (true, p).

(** One round: the keys that are read and the tick counter. *)
Definition round (r : chars * Z) (q : pace * snk) : out (bool * (pace * snk)) :=
  let '(p, s) := q in
  '(go, s) ← read_keys (fst r) s;
  if negb go then Ret (false, (p, s))
  else
    let '(do_step, p) := due (snd r) p in
    s ← (if do_step : bool then move_snake s else Ret s);
    Ret (true, (p, s)).

Fixpoint rounds (rs : list (chars * Z)) (q : pace * snk) : out (bool * (pace * snk)) :=
  match rs with
  | [] => Ret (true, q)
  | r :: rs' =>
      '(go, q) ← round r q;
      if go : bool then rounds rs' q else Ret (false, q)
  end.

(** ** Start and end *)

Definition vbe_view (vi : vbe_info) : view :=
  let w := s32 (width vi) in
  let h := s32 (height vi) in
  let c := if 1000 <=? w then 16 else if 700 <=? w then 12 else 10 in
  mk_view true c (w / c) (h / c) w h.

Definition mode13_view : view :=
  mk_view false 8 (Gfx.GFX_WIDTH / 8) (Gfx.GFX_HEIGHT / 8) Gfx.GFX_WIDTH Gfx.GFX_HEIGHT.

Definition set_view (v : view) (s : snk) : snk := mk_snk v (sgame s) (svbe s) (svid s) (splat s).

(** [!vbe_probe() || vbe_set_mode(cfg->gfx_mode) != 0] *)
Definition vbe_fails (s : snk) : bool * snk :=
  let '(ok, s) := on_vbe (vbe_probe dev) s in
  if negb ok then (true, s)
  else let '(r, s) := on_vbe (vbe_set_mode dev (gfx_mode cfg)) s in (negb (r =? 0), s).

Definition say (t : chars) (s : snk) : snk :=
  set_vid (Gfx.mk_gfx (slog s) (smem s) (Gfx.g_graphics (svid s))
             (Terminal.terminal_writestring t (Gfx.gtty (svid s)))) s.

(** The video mode. *)
Definition open_screen (s : snk) : snk :=
  let '(vbox, s) := if gfx_use_vbe cfg then is_virtualbox s else (true, s) in
  let '(ok, s) :=
    if gfx_use_vbe cfg && negb vbox then
      let '(bad, s) := vbe_fails s in
      if bad : bool then (false, say ($"snake: VBE failed, fallback mode13" ++ [10]) s)
      else (true, set_view (vbe_view (vbe_get_info (svbe s))) s)
    else (false, s) in
  if ok : bool then s else set_view mode13_view (set_vid (Gfx.gfx_init_mode13 dev (svid s)) s).

(** [ticks0] seeds the generator. *)
Definition start (ticks0 : Z) (s : snk) : out snk :=
  let s := open_screen s in
  let g := sgame s in
  new_round (set_game (set_food (food_x g) (food_y g) (Z.lxor ticks0 0xA5A5) g) s).

(** [last], [period] and [use_pit] from the tick counter before and after
    the busy wait. *)
Definition start_pace (hz t1 t2 t3 : Z) : pace :=
  let p := u32 (hz * 120) / 1000 in
  mk_pace (negb (t3 =? t2)) t1 (if p <? 1 then 1 else p).

Definition close_screen (s : snk) : snk :=
  let s := if use_vbe (sview s) then snd (on_vbe (fun v => (tt, vbe_disable v)) s) else s in
  set_vid (Gfx.gfx_restore_text dev (svid s)) s.

(** The whole game on the rounds [rs]; without a quit key among them the
    game is still on after the last one. *)
Definition snake_run (hz t0 t1 t2 t3 : Z) (rs : list (chars * Z)) (s : snk) : out (bool * snk) :=
  s ← start t0 s;
  '(go, q) ← rounds rs (start_pace hz t1 t2 t3, s);
  Ret (go, if go : bool then snd q else close_screen (snd q)).

End Play.

End Snake.
