(* ===== verification/SnakeSpec.v ===== *)
(** * Snake: the rules of the game

    The random numbers run through all states of one parity before they
    repeat, so the search for a free cell ends whatever the snake looks like.
    On this the invariant of the game is built. *)

From S2P Require Import Prelude Memory Terminal Keyboard Ports Gfx Vbe Platform Settings Snake.
Import Settings Snake.

Module SnakeSpec.

(** ** The period of the generator *)

(** Two steps of the generator: what one round of the search uses up. *)
Definition lcg2 (r : Z) : Z := lcg (lcg r).

(** Multiplier and increment of [2 ^ k] steps. *)
Fixpoint jump (k : nat) : Z * Z :=
  match k with
  | O => (1103515245, 12345)
  | S k' => let '(a, c) := jump k' in ((a * a) mod 4294967296, (a * c + c) mod 4294967296)
  end.

(** [2 ^ k] steps at once. *)
Definition leap (k : nat) (r : Z) : Z := (r * fst (jump k) + snd (jump k)) mod 4294967296.

Lemma leap_S k r : leap (S k) r = leap k (leap k r).
Proof.
  unfold leap. cbn [jump]. destruct (jump k) as [a c]. cbn [fst snd].
  rewrite <- (Z.add_mod_idemp_l (r * _)), Z.mul_mod_idemp_r, Z.add_mod_idemp_l, Z.add_mod_idemp_r by lia.
  rewrite <- (Z.add_mod_idemp_l (_ * a)), Z.mul_mod_idemp_l, Z.add_mod_idemp_l by lia.
  f_equal. ring.
Qed.

(** The multiplier is 1 and the increment [2 ^ k] modulo [2 ^ (k + 1)]. *)
Definition odd_jump (k : nat) : bool :=
  let '(a, c) := jump k in
  let n := 2 ^ (Z.of_nat k + 1) in (a mod n =? 1) && (c mod n =? 2 ^ Z.of_nat k).

Lemma jumps_odd : forallb odd_jump (seq 0 32) = true.
Proof. vm_compute. reflexivity. Qed.

Lemma jump_odd k : (k < 32)%nat -> odd_jump k = true.
Proof.
  intros Hk. pose proof jumps_odd as H. rewrite forallb_forall in H. apply H, in_seq. lia.
Qed.

(** Modulo [2 ^ (k + 1)] a leap adds [2 ^ k]. *)
Lemma leap_mod k r :
  (k < 32)%nat -> leap k r mod 2 ^ (Z.of_nat k + 1) = (r + 2 ^ Z.of_nat k) mod 2 ^ (Z.of_nat k + 1).
Proof.
  intros Hk. pose proof (jump_odd k Hk) as H. unfold odd_jump, leap in *. destruct (jump k) as [a c]. cbn [fst snd].
  apply andb_true_iff in H as [Ha%Z.eqb_eq Hc%Z.eqb_eq].
  set (n := 2 ^ (Z.of_nat k + 1)) in *. assert (0 < n) by (unfold n; apply Z.pow_pos_nonneg; lia).
  assert (4294967296 = n * 2 ^ (31 - Z.of_nat k)) as ->.
  { unfold n. rewrite <- Z.pow_add_r by lia. replace (_ + _) with 32 by lia. reflexivity. }
  assert (0 < 2 ^ (31 - Z.of_nat k)) by (apply Z.pow_pos_nonneg; lia).
  rewrite Z.rem_mul_r by lia. rewrite (Z.mul_comm n), Z.mod_add, Z.mod_mod by lia.
  rewrite (Z.add_mod (r * a)), (Z.mul_mod r), Ha, Hc, Z.mul_1_r, Z.mod_mod, Z.add_mod_idemp_l by lia. done.
Qed.

Lemma iter_double {A} (f g : A -> A) n x :
  (forall x, g x = f (f x)) -> Nat.iter n g x = Nat.iter (2 * n) f x.
Proof.
  intros H. induction n as [|n IH]; [done|]. replace (2 * S n)%nat with (S (S (2 * n))) by lia.
  rewrite !Nat.iter_succ, IH. apply H.
Qed.

Lemma iter_ext {A} (f g : A -> A) n x : (forall x, f x = g x) -> Nat.iter n f x = Nat.iter n g x.
Proof. intros H. induction n as [|n IH]; [done|]. by rewrite !Nat.iter_succ, IH, H. Qed.

(** Two numbers that agree modulo [q] but not modulo [2 q] differ by [q]. *)
Lemma half_turn q r t :
  0 < q -> r mod q = t mod q -> r mod (2 * q) <> t mod (2 * q) -> (r + q) mod (2 * q) = t mod (2 * q).
Proof.
  intros Hq E N. rewrite (Z.mul_comm 2 q), !Z.rem_mul_r in * by lia.
  replace (r + q) with (r + 1 * q) by lia. rewrite Z.mod_add, Z.div_add, E in * by lia. f_equal.
  set (u := r / q) in *. set (v := t / q) in *. assert (u mod 2 <> v mod 2) by (intros Heq; by rewrite Heq in N).
  f_equal. zlia.
Qed.

(** A state is reached from every other one that agrees with it modulo
    [2 ^ k], in steps of [2 ^ k]. *)
Lemma leap_reaches j : forall k r t,
  (j + k = 32)%nat -> in_u32 r -> in_u32 t -> r mod 2 ^ Z.of_nat k = t mod 2 ^ Z.of_nat k ->
  exists n, Z.of_nat n < 2 ^ Z.of_nat j /\ Nat.iter n (leap k) r = t.
Proof.
  unfold in_u32. induction j as [|j IH]; intros k r t Hjk Hr Ht E.
  - exists O. cbn. split; [done|]. assert (k = 32%nat) as -> by lia. change (2 ^ Z.of_nat 32) with 4294967296 in E.
    rewrite !Z.mod_small in E by lia. done.
  - assert (k < 32)%nat by lia. set (q := 2 ^ Z.of_nat k) in *. assert (0 < q) by (unfold q; apply Z.pow_pos_nonneg; lia).
    assert (2 ^ (Z.of_nat k + 1) = 2 * q) as Eq by (unfold q; rewrite Z.pow_add_r by lia; lia).
    assert (forall m x, Nat.iter m (leap (S k)) x = Nat.iter (2 * m) (leap k) x) as Hit
      by (intros m x; apply iter_double, leap_S).
    assert (Z.of_nat (S k) = Z.of_nat k + 1) as ES by lia.
    replace (2 ^ Z.of_nat (S j)) with (2 * 2 ^ Z.of_nat j) by (rewrite Nat2Z.inj_succ, Z.pow_succ_r; lia).
    destruct (decide (r mod (2 * q) = t mod (2 * q))) as [E2|E2].
    + destruct (IH (S k) r t) as (n & Hn & En); [lia | lia | lia | by rewrite ES, Eq |].
      exists (2 * n)%nat. split; [lia|]. by rewrite <- Hit.
    + destruct (IH (S k) (leap k r) t) as (n & Hn & En); [lia | | lia | |].
      * apply Z.mod_pos_bound. lia.
      * rewrite ES, leap_mod, Eq by done. fold q. by apply half_turn.
      * exists (S (2 * n)). split; [lia|]. rewrite Nat.iter_succ_r, <- Hit. done.
Qed.

(** The rounds of the search run through all states of one parity. *)
Lemma lcg2_reaches r t :
  in_u32 r -> in_u32 t -> r mod 2 = t mod 2 ->
  exists n, Z.of_nat n < 2 ^ Z.of_nat food_depth /\ Nat.iter n lcg2 r = t.
Proof.
  intros Hr Ht E. destruct (leap_reaches 31 1 r t) as (n & Hn & En); [done..|].
  exists n. split; [done|]. rewrite <- En. apply iter_ext. intros x. symmetry. apply (leap_S 0).
Qed.

(** ** The arrays as a list of cells *)

Definition cells (n : Z) (xs ys : list Z) : list (Z * Z) := zip (take (Z.to_nat n) xs) (take (Z.to_nat n) ys).
Definition body (g : game) : list (Z * Z) := cells (slen g) (sx g) (sy g).

Lemma rd_ok a i v : 0 <= i -> a !! Z.to_nat i = Some v -> rd a i = Ret v.
Proof. intros Hi E. unfold rd. destruct (Z.ltb_spec i 0); [lia|]. by rewrite E. Qed.

Lemma wr_ok a i v : 0 <= i < Z.of_nat (length a) -> wr a i v = Ret (<[Z.to_nat i := v]> a).
Proof.
  intros Hi. unfold wr. destruct (Z.ltb_spec i 0), (Z.leb_spec (Z.of_nat (length a)) i); try lia. done.
Qed.

Lemma hits_spec n xs ys x y : forall i,
  length xs = length ys -> (i + n <= length xs)%nat ->
  hits n (Z.of_nat i) xs ys x y = Ret (bool_decide ((x, y) ∈ zip (take n (drop i xs)) (take n (drop i ys)))).
Proof.
  induction n as [|n IH]; intros i El Hi; cbn [hits].
  - cbn. by rewrite bool_decide_false by (apply not_elem_of_nil).
  - destruct (lookup_lt_is_Some_2 xs i) as [a Ea]; [lia|]. destruct (lookup_lt_is_Some_2 ys i) as [b Eb]; [lia|].
    rewrite (rd_ok xs _ a) by (lia || by rewrite Nat2Z.id). cbn [mbind out_mbind].
    rewrite (rd_ok ys _ b) by (lia || by rewrite Nat2Z.id).
    rewrite (drop_S _ _ _ Ea), (drop_S _ _ _ Eb). cbn [take zip zip_with].
    replace (Z.of_nat i + 1) with (Z.of_nat (S i)) by lia. rewrite IH by lia.
    case_bool_decide as E1; case_bool_decide as E2; rewrite elem_of_cons in E2; cbn;
      destruct (Z.eqb_spec a x) as [->|]; destruct (Z.eqb_spec b y) as [->|]; naive_solver.
Qed.

Lemma hits_body g x y :
  length (sx g) = length (sy g) -> 0 <= slen g <= Z.of_nat (length (sx g)) ->
  hits (Z.to_nat (slen g)) 0 (sx g) (sy g) x y = Ret (bool_decide ((x, y) ∈ body g)).
Proof. intros El Hn. rewrite (hits_spec _ _ _ _ _ 0) by lia. by rewrite !drop_0. Qed.

(** ** The search for a free cell *)

(** The cell one round tries. *)
Definition cell_of (v : view) (r : Z) : Z * Z :=
  (rand_of (lcg r) mod grid_w v, rand_of (lcg2 r) mod grid_h v).

Section Food.

Context (v : view) (g : game).
Context (Hw : 0 < grid_w v) (Hh : 0 < grid_h v).
Context (El : length (sx g) = length (sy g)) (Hn : 0 <= slen g <= Z.of_nat (length (sx g))).

(** The game after a round that started in generator state [r]. *)
Definition tried (r : Z) : game := set_food (fst (cell_of v r)) (snd (cell_of v r)) (lcg2 r) g.
Definition free (r : Z) : Prop := cell_of v r ∉ body g.

Lemma food_round_spec fx fy r :
  food_round v (set_food fx fy r g) = Ret (bool_decide (free r), tried r).
Proof.
  unfold food_round, rand_u, umod. cbn [set_food rng food_x food_y].
  destruct (Z.eqb_spec (grid_w v) 0); [lia|]. destruct (Z.eqb_spec (grid_h v) 0); [lia|]. cbn [mbind out_mbind].
  rewrite hits_body by done. cbn [mbind out_mbind]. f_equal. f_equal.
  unfold free. change (body (set_food _ _ _ _)) with (body g). by rewrite bool_decide_not.
Qed.

Lemma food_loop_spec d : forall fx fy r,
  (exists n, Z.of_nat n < 2 ^ Z.of_nat d /\ free (Nat.iter n lcg2 r) /\
     food_loop d v (set_food fx fy r g) = Ret (true, tried (Nat.iter n lcg2 r))) \/
  ((forall n, Z.of_nat n < 2 ^ Z.of_nat d -> ~ free (Nat.iter n lcg2 r)) /\
   exists fx' fy', food_loop d v (set_food fx fy r g) =
     Ret (false, set_food fx' fy' (Nat.iter (Z.to_nat (2 ^ Z.of_nat d)) lcg2 r) g)).
Proof.
  induction d as [|d IH]; intros fx fy r; cbn [food_loop].
  - rewrite food_round_spec. case_bool_decide as E.
    + left. exists O. done.
    + right. split; [|by eexists _, _]. intros n Hlt. change (2 ^ Z.of_nat 0) with 1 in Hlt.
      assert (n = O) as -> by lia. done.
  - assert (2 ^ Z.of_nat (S d) = 2 ^ Z.of_nat d + 2 ^ Z.of_nat d) as Ed
      by (rewrite Nat2Z.inj_succ, Z.pow_succ_r; lia).
    assert (0 < 2 ^ Z.of_nat d) by (apply Z.pow_pos_nonneg; lia).
    destruct (IH fx fy r) as [(n & Hlt & Hf & E)|(Hno & fx1 & fy1 & E)]; rewrite E; cbn [mbind out_mbind].
    { left. exists n. split_and!; [lia | done | done]. }
    destruct (IH fx1 fy1 (Nat.iter (Z.to_nat (2 ^ Z.of_nat d)) lcg2 r)) as [(n & Hlt & Hf & E2)|(Hno2 & fx2 & fy2 & E2)];
      rewrite <- Nat.iter_add in *.
    + left. exists (n + Z.to_nat (2 ^ Z.of_nat d))%nat. split_and!; [lia | done | done].
    + right. rewrite E2. split.
      * intros n Hlt. destruct (decide (Z.of_nat n < 2 ^ Z.of_nat d)) as [H1|H1]; [by apply Hno|].
        specialize (Hno2 (n - Z.to_nat (2 ^ Z.of_nat d))%nat). rewrite <- Nat.iter_add in Hno2.
        replace (n - Z.to_nat (2 ^ Z.of_nat d) + Z.to_nat (2 ^ Z.of_nat d))%nat with n in Hno2 by lia. apply Hno2. lia.
      * exists fx2, fy2. by rewrite Ed, Z2Nat.inj_add by lia.
Qed.

End Food.

(** The views the start of the game can choose: VGA mode 13h and the three
    modes of the frame buffer. *)
Definition views : list view :=
  [mode13_view; mk_view true 10 64 48 640 480; mk_view true 12 66 50 800 600; mk_view true 16 64 48 1024 768].

(** Some states of each parity whose cells are more than a snake can cover. *)
Definition probes (p : Z) : list Z := map (fun j => (p + 2 * j * 987654321) mod 4294967296) (seqZ 0 300).
Definition enough (v : view) : bool :=
  forallb (fun p => (200 <? length (remove_dups (map (cell_of v) (probes p))))%nat) [0; 1].

Lemma views_enough : forallb enough views = true.
Proof. vm_compute. reflexivity. Qed.

Lemma probes_ok p r : p = 0 \/ p = 1 -> r ∈ probes p -> in_u32 r /\ r mod 2 = p.
Proof.
  intros Hp (j & -> & _)%list_elem_of_fmap. unfold in_u32. split; [apply Z.mod_pos_bound; lia|].
  replace 4294967296 with (2 * 2147483648) by lia. rewrite Z.rem_mul_r by lia.
  rewrite (Z.mul_comm 2 (_ mod _)), Z.mod_add, Z.mod_mod by lia.
  replace (p + 2 * j * 987654321) with (p + j * 987654321 * 2) by lia. rewrite Z.mod_add by lia. by destruct Hp as [-> | ->].
Qed.

Lemma some_free v g r :
  v ∈ views -> (length (body g) <= 200)%nat -> exists t, in_u32 t /\ t mod 2 = r mod 2 /\ free v g t.
Proof.
  intros Hv Hb. pose proof views_enough as H. rewrite forallb_forall in H.
  specialize (H v (proj1 (list_elem_of_In _ _) Hv)). unfold enough in H. rewrite forallb_forall in H.
  assert (r mod 2 = 0 \/ r mod 2 = 1) as Hp by zlia.
  specialize (H (r mod 2)). assert ((200 < length (remove_dups (map (cell_of v) (probes (r mod 2)))))%nat) as Hl.
  { apply Nat.ltb_lt, H. destruct Hp as [-> | ->]; cbn; tauto. }
  destruct (decide (Exists (free v g) (probes (r mod 2)))) as [(t & Ht & Hf)%Exists_exists|Hno].
  { exists t. by destruct (probes_ok _ _ Hp Ht). }
  exfalso. apply not_Exists_Forall in Hno; [|intros ?; unfold free; apply _]. rewrite Forall_forall in Hno.
  assert (remove_dups (map (cell_of v) (probes (r mod 2))) ⊆ body g) as Hsub.
  { intros c Hc%elem_of_remove_dups%list_elem_of_fmap. destruct Hc as (t & -> & Ht). apply Hno in Ht.
    unfold free in Ht. by apply dec_stable in Ht. }
  pose proof (NoDup_submseteq _ _ (NoDup_remove_dups _) Hsub) as Hs. apply submseteq_length in Hs. lia.
Qed.

Lemma length_body g : 0 <= slen g -> (length (body g) <= Z.to_nat (slen g))%nat.
Proof. intros H. unfold body, cells. rewrite length_zip_with, !length_take. lia. Qed.

(** The search ends with a free cell. *)
Lemma place_food_spec v g :
  v ∈ views -> length (sx g) = 200%nat -> length (sy g) = 200%nat -> 0 <= slen g <= 200 -> in_u32 (rng g) ->
  exists r, place_food v g = Ret (tried v g r) /\ in_u32 r /\ free v g r.
Proof.
  intros Hv Ex Ey Hn Hr.
  assert (0 < grid_w v /\ 0 < grid_h v) as [Hw Hh].
  { unfold views in Hv. set_unfold in Hv. destruct Hv as [->|[->|[->|[->|[]]]]]; by vm_compute. }
  assert (length (sx g) = length (sy g)) as El by congruence.
  assert (0 <= slen g <= Z.of_nat (length (sx g))) as Hn' by lia.
  pose proof (length_body g ltac:(lia)). destruct (some_free v g (rng g) Hv) as (t & Ht & Hp & Hf); [lia|].
  destruct (lcg2_reaches (rng g) t Hr Ht (eq_sym Hp)) as (n & Hlt & En).
  assert (forall k, in_u32 (Nat.iter k lcg2 (rng g))) as Hit.
  { intros [|k]; [done|]. rewrite Nat.iter_succ. unfold lcg2, lcg, u32, in_u32. apply Z.mod_pos_bound. lia. }
  assert (set_food (food_x g) (food_y g) (rng g) g = g) as Eg by (by destruct g). unfold place_food.
  destruct (food_loop_spec v g Hw Hh El Hn' food_depth (food_x g) (food_y g) (rng g))
    as [(k & _ & Hk & E)|[Hno _]].
  - exists (Nat.iter k lcg2 (rng g)). rewrite Eg in E. rewrite E. done.
  - destruct (Hno n Hlt). by rewrite En.
Qed.

(** ** Moving the snake *)

(** The array after the loop: the first [n] entries one place further. *)
Definition shifted (n : nat) (l : list Z) : list Z := take 1 l ++ take n l ++ drop (S n) l.

Lemma shifted_S n l a :
  l !! n = Some a -> (S n < length l)%nat -> shifted n (<[S n := a]> l) = shifted (S n) l.
Proof.
  intros E Hl. unfold shifted. rewrite !take_insert_ge by lia. rewrite (take_S_r _ _ _ E), <- app_assoc. do 2 f_equal.
  rewrite (drop_S (<[S n := a]> l) a) by (rewrite list_lookup_insert_eq; [done | lia]).
  cbn [app]. f_equal. by rewrite drop_insert_lt by lia.
Qed.

Lemma shift_spec n : forall xs ys,
  (n < length xs)%nat -> (n < length ys)%nat -> shift n xs ys = Ret (shifted n xs, shifted n ys).
Proof.
  induction n as [|n IH]; intros xs ys Hx Hy; cbn [shift].
  - unfold shifted. rewrite !take_0. cbn [app]. by rewrite !take_drop.
  - destruct (lookup_lt_is_Some_2 xs n) as [a Ea]; [lia|]. destruct (lookup_lt_is_Some_2 ys n) as [b Eb]; [lia|].
    rewrite (rd_ok xs _ a) by (lia || by rewrite Nat2Z.id). cbn [mbind out_mbind]. rewrite wr_ok by lia. cbn [mbind out_mbind].
    rewrite (rd_ok ys _ b) by (lia || by rewrite Nat2Z.id). cbn [mbind out_mbind]. rewrite wr_ok by lia. cbn [mbind out_mbind].
    rewrite !Nat2Z.id. rewrite IH by (rewrite length_insert; lia). by rewrite !shifted_S by (done || lia).
Qed.

Lemma insert_shifted n l v : (0 < length l)%nat -> <[0%nat := v]> (shifted n l) = v :: take n l ++ drop (S n) l.
Proof. destruct l; [cbn; lia|]. done. Qed.

Lemma zip_take {A B} n (l : list A) (k : list B) : zip (take n l) (take n k) = take n (zip l k).
Proof. revert l k. induction n as [|n IH]; intros [|a l] [|b k]; cbn; by try f_equal. Qed.

(** Where the arrays hold a snake. *)
Record arrays_ok (g : game) : Prop := mk_arrays_ok {
  ao_x : length (sx g) = 200%nat;
  ao_y : length (sy g) = 200%nat;
  ao_len : 3 <= slen g <= 200;
}.

Lemma body_length g : arrays_ok g -> length (body g) = Z.to_nat (slen g).
Proof. intros [Hx Hy Hn]. unfold body, cells. rewrite length_zip_with, !length_take. lia. Qed.

Lemma body_lookup g i : 
  arrays_ok g -> 0 <= i < slen g ->
  exists x y, rd (sx g) i = Ret x /\ rd (sy g) i = Ret y /\ body g !! Z.to_nat i = Some (x, y).
Proof.
  intros [Hx Hy Hn] Hi.
  destruct (lookup_lt_is_Some_2 (sx g) (Z.to_nat i)) as [x Ex]; [lia|].
  destruct (lookup_lt_is_Some_2 (sy g) (Z.to_nat i)) as [y Ey]; [lia|]. exists x, y.
  split_and!; [apply rd_ok; [lia | done] | apply rd_ok; [lia | done] |].
  unfold body, cells. apply lookup_zip_with_Some. exists x, y. split_and!; [done | |]; rewrite lookup_take_lt by lia; done.
Qed.

(** A snake without its last cell. *)
Abbreviation but_last := (fun l => take (length l - 1) l).

Lemma advance_spec nx ny g :
  arrays_ok g ->
  exists xs ys tx ty, advance nx ny g = Ret (set_snake xs ys (slen g) (set_tail tx ty false g)) /\
    length xs = 200%nat /\ length ys = 200%nat /\
    cells (slen g) xs ys = (nx, ny) :: but_last (body g) /\ body g = but_last (body g) ++ [(tx, ty)].
Proof.
  intros Ha. pose proof Ha as [Hx Hy Hn]. destruct (body_lookup g (slen g - 1) Ha) as (tx & ty & Ex & Ey & El); [lia|].
  unfold advance. rewrite Ex. cbn [mbind out_mbind]. rewrite Ey. cbn [mbind out_mbind set_tail slen sx sy].
  rewrite shift_spec by lia. cbn [mbind out_mbind].
  assert (forall l, length l = 200%nat -> length (shifted (Z.to_nat (slen g - 1)) l) = 200%nat) as Hs.
  { intros l Hl. unfold shifted. rewrite !length_app, !length_take, length_drop. lia. }
  rewrite !wr_ok by (rewrite Hs by done; lia). cbn [mbind out_mbind]. rewrite Z2Nat.inj_0, !insert_shifted by lia.
  eexists _, _, tx, ty. split; [done|]. rewrite body_length by done.
  split_and!; [cbn; rewrite length_app, length_take, length_drop; lia.. | |].
  - unfold cells. replace (Z.to_nat (slen g)) with (S (Z.to_nat (slen g - 1))) at 1 2 by lia. cbn [take zip zip_with].
    rewrite !take_app_length' by (rewrite length_take; lia). f_equal.
    replace (Z.to_nat (slen g) - 1)%nat with (Z.to_nat (slen g - 1)) by lia.
    unfold body, cells. rewrite <- zip_take, !take_take. do 2 f_equal; lia.
  - replace (Z.to_nat (slen g) - 1)%nat with (Z.to_nat (slen g - 1)) by lia.
    rewrite <- (take_S_r _ _ _ El). symmetry. apply take_ge. rewrite body_length by done. lia.
Qed.

Lemma grow_spec g :
  arrays_ok g -> slen g < 200 ->
  exists xs ys, grow g = Ret (set_tail (tail_x g) (tail_y g) true (set_snake xs ys (slen g + 1) g)) /\
    length xs = 200%nat /\ length ys = 200%nat /\
    cells (slen g + 1) xs ys = body g ++ [(tail_x g, tail_y g)].
Proof.
  intros [Hx Hy Hn] Hlt. unfold grow, MAX_LEN. destruct (Z.ltb_spec (slen g) 200); [|lia].
  rewrite !wr_ok by lia. cbn [mbind out_mbind]. eexists _, _. split; [done|]. rewrite !length_insert.
  split_and!; [done | done |]. unfold cells, body.
  replace (Z.to_nat (slen g + 1)) with (S (Z.to_nat (slen g))) by lia.
  rewrite (take_S_r _ _ (tail_x g)), (take_S_r _ _ (tail_y g)) by (apply list_lookup_insert_eq; lia).
  rewrite !take_insert_ge by lia. unfold cells. rewrite zip_with_app by (rewrite !length_take; lia). done.
Qed.

(** ** The invariant of the game *)

Definition in_grid (v : view) (c : Z * Z) : Prop := 0 <= fst c < grid_w v /\ 0 <= snd c < grid_h v.
Definition adjacent (c d : Z * Z) : Prop := Z.abs (fst c - fst d) + Z.abs (snd c - snd d) = 1.
Definition unit_dir (x y : Z) : Prop := adjacent (x, y) (0, 0).

(** Neighbours in the list are neighbours on the board. *)
Fixpoint linked (l : list (Z * Z)) : Prop :=
  match l with
  | a :: (b :: _) as t => adjacent a b /\ linked t
  | _ => True
  end.

(** The head is one step of the direction ahead of the second cell. *)
Definition heading (g : game) : Prop :=
  exists x y l, body g = (x, y) :: (x - dir_x g, y - dir_y g) :: l.

Record game_ok (v : view) (g : game) : Prop := mk_game_ok {
  go_arrays : arrays_ok g;
  go_rng : in_u32 (rng g);
  go_grid : Forall (in_grid v) (body g);
  go_nodup : NoDup (body g);
  go_linked : linked (body g);
  go_food : in_grid v (food_x g, food_y g) /\ (food_x g, food_y g) ∉ body g;
  go_dir : unit_dir (dir_x g) (dir_y g);
  go_next : unit_dir (next_dx g) (next_dy g);
  go_head : dead g = false -> heading g;
}.

Lemma linked_take n l : linked l -> linked (take n l).
Proof.
  revert n. induction l as [|a l IH]; intros [|n]; try done. intros H.
  destruct l as [|b l]; [by destruct n|]. destruct H as [Hab Hl]. specialize (IH n Hl). destruct n; [done|]. by split.
Qed.

Lemma view_grid v : v ∈ views -> 40 <= grid_w v <= 66 /\ 25 <= grid_h v <= 50.
Proof. unfold views. set_unfold. intros [->|[->|[->|[->|[]]]]]; vm_compute; split; split; discriminate. Qed.

(** What [turn] leaves alone, and that it never turns back. *)
Lemma turn_spec v g :
  game_ok v g -> exists x y, turn g = set_dir x y g /\ unit_dir x y /\ ~ (x = - dir_x g /\ y = - dir_y g).
Proof.
  intros Hg. pose proof (go_dir v g Hg) as Hd. pose proof (go_next v g Hg) as Hn.
  assert (~ (dir_x g = - dir_x g /\ dir_y g = - dir_y g)) as Hr by (unfold unit_dir, adjacent in Hd; cbn in Hd; lia).
  unfold turn. destruct ((next_dx g =? - dir_x g) && (next_dy g =? - dir_y g)) eqn:E; cbn [negb].
  - exists (dir_x g), (dir_y g). split_and!; [by destruct g | done | done].
  - destruct (negb (next_dx g =? dir_x g) || negb (next_dy g =? dir_y g)).
    + exists (next_dx g), (next_dy g). split_and!; [done | done | lia].
    + exists (dir_x g), (dir_y g). split_and!; [by destruct g | done | done].
Qed.

(** The cell the snake moves to. *)
Definition ahead (g : game) : Z * Z :=
  (default 0 (sx g !! 0%nat) + dir_x (turn g), default 0 (sy g !! 0%nat) + dir_y (turn g)).

(** A step that does not end the game: the head moves on, the rest follows,
    the last cell stays behind when the snake grows. *)
Definition moved (v : view) (g g' : game) : Prop :=
  (body g' = ahead g :: body g /\ grew g' = true /\ ahead g = (food_x g, food_y g) \/
   body g' = ahead g :: but_last (body g) /\ grew g' = false /\ body g = but_last (body g) ++ [(tail_x g', tail_y g')]) /\
  (ahead g <> (food_x g, food_y g) -> (food_x g', food_y g') = (food_x g, food_y g)).

(** Why a step ends the game: the wall, or the snake itself behind its
    second cell. *)
Definition crashed (v : view) (g : game) : Prop :=
  ~ in_grid v (ahead g) \/ ahead g ∈ drop 2 (body g).

Definition stepped (v : view) (g g' : game) : Prop :=
  if dead g' then crashed v g /\ g' = set_dead true (death_sounded g) (turn g)
  else moved v g g' /\ ~ crashed v g.

Lemma game_ok_tried v g r :
  v ∈ views -> in_u32 r -> free v g r ->
  (forall fx fy, in_grid v (fx, fy) -> (fx, fy) ∉ body g -> game_ok v (set_food fx fy (lcg2 r) g)) ->
  game_ok v (tried v g r).
Proof.
  intros Hv Hr Hf H. apply H; [|by rewrite <- surjective_pairing].
  destruct (view_grid v Hv). unfold cell_of, in_grid. cbn [fst snd]. split; apply Z.mod_pos_bound; lia.
Qed.

Lemma lcg2_range r : in_u32 (lcg2 r).
Proof. unfold lcg2, lcg, u32, in_u32. apply Z.mod_pos_bound. lia. Qed.

Lemma rd_inv a i x : rd a i = Ret x -> a !! Z.to_nat i = Some x.
Proof. unfold rd. destruct (i <? 0); [done|]. by destruct (a !! Z.to_nat i); intros [= ->]. Qed.

Lemma take_elem {A} n (x : A) l : x ∈ take n l -> x ∈ l.
Proof. intros H. rewrite <- (take_drop n l). apply elem_of_app. by left. Qed.

Lemma NoDup_take {A} n (l : list A) : NoDup l -> NoDup (take n l).
Proof. rewrite <- (take_drop n l) at 1. by intros (H & _ & _)%NoDup_app. Qed.

(** A head put in front of a part of the snake. *)
Lemma game_ok_next v g g' k x y l :
  game_ok v g -> body g = (x, y) :: l -> arrays_ok g' ->
  body g' = (x + dir_x g', y + dir_y g') :: take (S k) (body g) ->
  (x + dir_x g', y + dir_y g') ∉ body g -> in_grid v (x + dir_x g', y + dir_y g') ->
  unit_dir (dir_x g') (dir_y g') -> unit_dir (next_dx g') (next_dy g') -> in_u32 (rng g') ->
  in_grid v (food_x g', food_y g') /\ (food_x g', food_y g') ∉ body g' -> game_ok v g'.
Proof.
  intros Hg Eb Ha Eb' Hfree Hin Hd Hn Hr Hfood. pose proof (go_linked v g Hg) as Hl. split; try done.
  - rewrite Eb'. apply Forall_cons. split; [done|]. apply Forall_take. exact (go_grid v g Hg).
  - rewrite Eb'. apply NoDup_cons. split; [by intros ?%take_elem|]. apply NoDup_take, (go_nodup v g Hg).
  - rewrite Eb'. apply linked_take with (n := S k) in Hl. rewrite Eb in *. cbn [take] in *. split; [|done].
    unfold unit_dir, adjacent in *. cbn in *. lia.
  - intros _. unfold heading. rewrite Eb', Eb. cbn [take]. do 2 eexists. eexists. do 2 f_equal; f_equal; lia.
Qed.

(** The end of the game keeps the invariant. *)
Lemma game_ok_dead v g x y b :
  game_ok v g -> unit_dir x y -> game_ok v (set_dead true b (set_dir x y g)).
Proof. intros [[] Hr Hgr Hnd Hl Hf Hd Hn Hh] Hu. split; try done. Qed.

(** The head and the cell in front of it. *)
Lemma ahead_spec v g :
  game_ok v g -> dead g = false ->
  exists x y l dx dy, body g = (x, y) :: (x - dir_x g, y - dir_y g) :: l /\ turn g = set_dir dx dy g /\
    rd (sx g) 0 = Ret x /\ rd (sy g) 0 = Ret y /\ ahead g = (x + dx, y + dy) /\ in_grid v (x, y) /\ unit_dir dx dy /\
    ahead g <> (x, y) /\ ahead g <> (x - dir_x g, y - dir_y g).
Proof.
  intros Hg Hd. destruct (go_head v g Hg Hd) as (x & y & l & Eb). destruct (turn_spec v g Hg) as (dx & dy & Et & Hu & Hr).
  pose proof (go_grid v g Hg) as Hin. rewrite Eb in Hin. apply Forall_cons in Hin as [Hin _].
  destruct (body_lookup g 0 (go_arrays v g Hg)) as (x' & y' & Ex & Ey & E0).
  { pose proof (ao_len g (go_arrays v g Hg)). lia. }
  rewrite Z2Nat.inj_0, Eb in E0. injection E0 as <- <-.
  assert (ahead g = (x + dx, y + dy)) as Ea.
  { unfold ahead. apply rd_inv in Ex, Ey. rewrite Z2Nat.inj_0 in *. by rewrite Ex, Ey, Et. }
  exists x, y, l, dx, dy. split_and!; try done; rewrite Ea; intros [= E1 E2]; unfold unit_dir, adjacent in Hu; cbn in Hu; lia.
Qed.

Lemma crash_cell g x y dx dy l :
  body g = (x, y) :: (x - dx, y - dy) :: l -> ahead g <> (x, y) -> ahead g <> (x - dx, y - dy) ->
  ahead g ∈ body g <-> ahead g ∈ drop 2 (body g).
Proof. intros -> H1 H2. cbn [drop]. rewrite !elem_of_cons. tauto. Qed.

(** Eating: the snake grows at its end unless the arrays are full. *)
Lemma eat_spec v g :
  v ∈ views -> arrays_ok g -> in_u32 (rng g) -> 
  exists g', (g0 ← grow g; place_food v (set_score (s32 (score g0 + 1)) g0)) = Ret g' /\
    arrays_ok g' /\ in_u32 (rng g') /\ in_grid v (food_x g', food_y g') /\ ((food_x g', food_y g') ∉ body g') /\
    (dir_x g', dir_y g', next_dx g', next_dy g', dead g', tail_x g', tail_y g') =
    (dir_x g, dir_y g, next_dx g, next_dy g, dead g, tail_x g, tail_y g) /\
    (grew g' = true /\ body g' = body g ++ [(tail_x g, tail_y g)] \/ grew g' = grew g /\ body g' = body g).
Proof.
  intros Hv Ha Hr. pose proof Ha as [Hx Hy Hn]. destruct (view_grid v Hv).
  assert (forall r, in_grid v (cell_of v r)) as Hgr.
  { intros r. unfold cell_of, in_grid. cbn [fst snd]. split; apply Z.mod_pos_bound; lia. }
  destruct (decide (slen g < 200)) as [Hlt|Hge].
  - destruct (grow_spec g Ha Hlt) as (xs & ys & Eg & Lx & Ly & Ec). rewrite Eg. cbn [mbind out_mbind].
    match goal with |- context [place_food v ?h] => set (g1 := h) end.
    destruct (place_food_spec v g1) as (r & E & Hrr & Hf); [done | done | done | cbn; lia | done |].
    rewrite E. eexists. split; [done|]. split_and!; [split; cbn; lia | apply lcg2_range | apply Hgr | | done |].
    + cbn [tried set_food food_x food_y]. rewrite <- surjective_pairing. exact Hf.
    + left. split; [done|]. exact Ec.
  - unfold grow, MAX_LEN. destruct (Z.ltb_spec (slen g) 200); [lia|]. cbn [mbind out_mbind].
    match goal with |- context [place_food v ?h] => set (g1 := h) end.
    destruct (place_food_spec v g1) as (r & E & Hrr & Hf); [done | done | done | cbn; lia | done |].
    rewrite E. eexists. split; [done|]. split_and!; [split; cbn; lia | apply lcg2_range | apply Hgr | | done |].
    + cbn [tried set_food food_x food_y]. rewrite <- surjective_pairing. exact Hf.
    + by right.
Qed.

(** A call whose result is known, without looking into it. *)
Lemma bind_known {A B} (x : out A) (k : A -> out B) a : x = Ret a -> x ≫= k = k a.
Proof. by intros ->. Qed.

Lemma eat_bind {A} (x : out game) (k : game -> game) (F : game -> out A) a :
  (g0 ← x; F (k g0)) = Ret a -> (g0 ← x; (let g1 := k g0 in b ← F g1; Ret (true, b))) = Ret (true, a).
Proof. intros (g3 & -> & E)%bind_ret_inv. cbn [mbind out_mbind] in *. by rewrite E. Qed.

(** A step returns, keeps the invariant, and moves the snake or ends the
    game for a reason. *)
Lemma step_game_spec v g :
  v ∈ views -> game_ok v g -> dead g = false ->
  exists ate g', step_game v g = Ret (ate, g') /\ game_ok v g' /\ stepped v g g'.
Proof.
  intros Hv Hg Hd. pose proof (go_arrays v g Hg) as Ha. destruct (view_grid v Hv) as [Hw Hh].
  destruct (ahead_spec v g Hg Hd) as (x & y & l & dx & dy & Eb & Et & Ex & Ey & Ea & Hin & Hu & Hne1 & Hne2).
  unfold step_game. rewrite Hd, Et. cbn [set_dir sx sy slen dir_x dir_y]. rewrite Ex. cbn [mbind out_mbind].
  rewrite Ey. cbn [mbind out_mbind].
  assert (s32 (x + dx) = x + dx /\ s32 (y + dy) = y + dy) as [-> ->].
  { unfold in_grid, unit_dir, adjacent in *. cbn in *. split; apply s32_small; unfold in_s32; lia. }
  destruct ((x + dx <? 0) || (y + dy <? 0) || (grid_w v <=? x + dx) || (grid_h v <=? y + dy)) eqn:Eo.
  { eexists _, _. split; [done|]. split; [by apply game_ok_dead|]. unfold stepped. cbn [set_dead dead]. rewrite Et.
    split; [|done]. left. rewrite Ea. unfold in_grid. cbn. lia. }
  assert (in_grid v (ahead g)) as Hon by (rewrite Ea; unfold in_grid; cbn; lia).
  rewrite (hits_body g) by (destruct Ha; lia). cbn [mbind out_mbind]. rewrite <- Ea.
  case_bool_decide as Ec.
  { eexists _, _. split; [done|]. split; [by apply game_ok_dead|]. unfold stepped. cbn [set_dead dead]. rewrite Et.
    split; [|done]. right. by apply (crash_cell g x y (dir_x g) (dir_y g) l). }
  assert (~ crashed v g) as Hnc.
  { intros [?|Hc]; [done|]. apply Ec. by apply (crash_cell g x y (dir_x g) (dir_y g) l). }
  assert (arrays_ok (set_dir dx dy g)) as Ha1 by (destruct Ha; by split).
  destruct (advance_spec (x + dx) (y + dy) (set_dir dx dy g) Ha1) as (xs & ys & tx & ty & E & Lx & Ly & Ec1 & Ec2).
  change (body (set_dir dx dy g)) with (body g) in *. rewrite E. cbn [mbind out_mbind].
  match goal with |- context [grow ?h] => set (g2 := h) in * end.
  assert (arrays_ok g2) as Ha2 by (destruct Ha; split; done).
  assert (body g2 = ahead g :: take (length (body g) - 1) (body g)) as Eb2 by (rewrite Ea; exact Ec1).
  assert (exists k, length (body g) = S (S (S k))) as [k Ek].
  { pose proof (body_length g Ha). destruct Ha. exists (length (body g) - 3)%nat. lia. }
  assert (forall g' q, arrays_ok g' -> body g' = ahead g :: take (S q) (body g) -> in_u32 (rng g') ->
            (dir_x g', dir_y g', next_dx g', next_dy g') = (dx, dy, next_dx g, next_dy g) ->
            in_grid v (food_x g', food_y g') /\ (food_x g', food_y g') ∉ body g' -> game_ok v g') as Hok.
  { intros g' q Ha' Eb' Hr' [= E1 E2 E3 E4] Hf'. eapply (game_ok_next v g g' q x y); rewrite ?E1, ?E2, ?E3, ?E4, <- ?Ea; try done.
    exact (go_next v g Hg). }
  destruct ((x + dx =? food_x g2) && (y + dy =? food_y g2)) eqn:Ef.
  - apply andb_true_iff in Ef as [Ef1%Z.eqb_eq Ef2%Z.eqb_eq].
    destruct (eat_spec v g2 Hv Ha2 (go_rng v g Hg)) as (g' & Ee & Ha' & Hr' & Hf1 & Hf2 & E7 & Hbody).
    injection E7 as Edx Edy Enx Eny Edd Etx Ety. exists true, g'.
    split; [exact (eat_bind (grow g2) (fun g => set_score (s32 (score g + 1)) g) (place_food v) g' Ee)|].
    assert (ahead g = (food_x g, food_y g)) as Eaf by (rewrite Ea; by f_equal).
    destruct Hbody as [[Egr Eb3]|[Egr Eb3]]; rewrite Eb2 in Eb3.
    + assert (body g' = ahead g :: body g) as Eb4 by (rewrite Eb3; cbn [app]; f_equal; symmetry; exact Ec2). split.
      * apply (Hok g' (S (S k))); try done; [by rewrite <- Ek, firstn_all | congruence].
      * unfold stepped. rewrite Edd. cbn [g2 set_snake set_tail set_dir dead]. rewrite Hd. split; [|done].
        split; [by left | done].
    + split.
      * apply (Hok g' (S k)); try done; [by rewrite Ek in Eb3 | congruence].
      * unfold stepped. rewrite Edd. cbn [g2 set_snake set_tail set_dir dead]. rewrite Hd. split; [|done].
        split; [|done]. right. rewrite Etx, Ety. done.
  - eexists _, _. split; [done|]. assert (ahead g <> (food_x g, food_y g)) as Hnf.
    { rewrite Ea. intros [= E1 E2]. cbn [g2 set_snake set_tail set_dir food_x food_y] in Ef. lia. }
    destruct (go_food v g Hg) as [Hfg Hfb]. split.
    + apply (Hok g2 (S k)); try done; [by rewrite Ek in Eb2 | exact (go_rng v g Hg) |]. split; [done|].
      rewrite Eb2. apply not_elem_of_cons. split; [by apply not_eq_sym|]. by intros ?%take_elem.
    + unfold stepped. cbn [g2 set_snake set_tail set_dir dead]. rewrite Hd. split; [|done]. split; [by right | done].
Qed.

End SnakeSpec.
