(* ===== verification/SnakeDraw.v ===== *)
(** * Snake: what is on the screen

    Both video modes seen as a grid of pixels.  Every drawing routine acts
    on each pixel by itself ([local]); fills, cells, border and clearing are
    given by the colour they leave ([paints]).  A full redraw shows the board,
    and the incremental redraw of a step shows the board after it. *)

From S2P Require Import Prelude Memory Kmalloc Alloc Mkdisp MkdispSpec Terminal Keyboard Ports Gfx Vbe Platform Settings Snake SnakeSpec.
Import Vbe Settings Snake SnakeSpec.

Module SnakeDraw.

Section Screen.

Context (vw : view) (vi : vbe_info).

(** The frame buffer fits the view. *)
Record vid_ok : Prop := mk_vid_ok {
  vo_view : vw ∈ views;
  vo_vbe : use_vbe vw = true ->
    active vi = true /\ width vi = screen_w vw /\ height vi = screen_h vw /\ lfb vi <> 0 /\ lfb vi mod 4 = 0;
}.

Definition on_screen (a b : Z) : Prop := 0 <= a < screen_w vw /\ 0 <= b < screen_h vw.

(** A pixel of the visible frame. *)
Definition pix (m : mem) (a b : Z) : Z :=
  if use_vbe vw then ld32 m (px_addr (lfb vi) (b * screen_w vw + a)) else ld8 m (Gfx.VGA_VRAM + b * Gfx.GFX_WIDTH + a).

(** The stored value of a colour. *)
Definition pc (c : Z) : Z := if use_vbe vw then u32 c else u8 c.

(** The routine leaves [p a b v] at a pixel that had [v]. *)
Definition paints (p : Z -> Z -> Z -> Z) (F : mem -> mem) : Prop :=
  forall m a b, on_screen a b -> pix (F m) a b = p a b (pix m a b).

(** The routine treats each pixel by itself. *)
Definition local (F : mem -> mem) : Prop :=
  forall m1 m2 a b, on_screen a b -> pix m1 a b = pix m2 a b -> pix (F m1) a b = pix (F m2) a b.

Lemma paints_local p F : paints p F -> local F.
Proof. intros H m1 m2 a b Hab E. by rewrite !H, E. Qed.

Lemma local_id : local (fun m => m).
Proof. by intros m1 m2 a b. Qed.

Lemma local_comp F G : local F -> local G -> local (fun m => G (F m)).
Proof. intros HF HG m1 m2 a b Hab E. apply HG, HF; done. Qed.

Lemma local_for F n i : (forall k, i <= k < i + Z.of_nat n -> local (F k)) -> local (fun m => for_up n i F m).
Proof.
  revert i. induction n as [|n IH]; intros i H; cbn [for_up]; [apply local_id|].
  apply (local_comp (F i) (fun m => for_up n (i + 1) F m)); [apply H; lia | apply IH; intros k Hk; apply H; lia].
Qed.

Lemma paints_for p F n i :
  (forall k, i <= k < i + Z.of_nat n -> paints (p k) (F k)) ->
  paints (fun a b v => for_up n i (fun k => p k a b) v) (fun m => for_up n i F m).
Proof.
  revert i. induction n as [|n IH]; intros i H m a b Hab; cbn [for_up]; [done|].
  rewrite (IH (i + 1)) by (done || intros k Hk; apply H; lia). by rewrite (H i) by (done || lia).
Qed.

Lemma paints_comp p q F G : paints p F -> paints q G -> paints (fun a b v => q a b (p a b v)) (fun m => G (F m)).
Proof. intros HF HG m a b Hab. by rewrite HG, HF. Qed.

(** ** One pixel *)

(** The clipped store. *)
Definition plot (x y c : Z) (m : mem) : mem :=
  if bool_decide (on_screen x y) then
    if use_vbe vw then st32 m (px_addr (lfb vi) (y * screen_w vw + x)) c
    else st8 m (Gfx.VGA_VRAM + y * Gfx.GFX_WIDTH + x) c
  else m.

Context (Hv : vid_ok).

Lemma view_screen : 320 <= screen_w vw <= 1024 /\ 200 <= screen_h vw <= 768 /\
  (use_vbe vw = false -> screen_w vw = 320 /\ screen_h vw = 200).
Proof.
  destruct Hv as [H _]. unfold views in H. set_unfold in H.
  destruct H as [->|[->|[->|[->|[]]]]]; (split; [|split]); cbn; unfold Gfx.GFX_WIDTH, Gfx.GFX_HEIGHT; lia.
Qed.

(** Different pixels are different words. *)
Lemma px_addr_apart i j :
  lfb vi mod 4 = 0 -> 0 <= i < 1024 * 768 -> 0 <= j < 1024 * 768 -> i <> j ->
  px_addr (lfb vi) i + 4 <= px_addr (lfb vi) j \/ px_addr (lfb vi) j + 4 <= px_addr (lfb vi) i.
Proof. intros H Hi Hj Hne. unfold px_addr, u32. zlia. Qed.

Lemma plot_paints x y c : paints (fun a b v => if (a =? x) && (b =? y) then pc c else v) (plot x y c).
Proof.
  destruct view_screen as (Hw & Hh & H8). intros m a b Hab. unfold plot, pc.
  case_bool_decide as Hxy.
  - unfold pix. destruct (use_vbe vw) eqn:Eu.
    + destruct (vo_vbe Hv Eu) as (_ & _ & _ & _ & Hal). destruct ((a =? x) && (b =? y)) eqn:E.
      * apply andb_true_iff in E as [->%Z.eqb_eq ->%Z.eqb_eq]. apply ld32_st32_eq.
      * apply ld32_st32_ne. unfold on_screen in *.
        assert (0 <= b * screen_w vw + a < 1024 * 768) by nia. assert (0 <= y * screen_w vw + x < 1024 * 768) by nia.
        assert (b * screen_w vw + a <> y * screen_w vw + x).
        { intros Heq. assert (b = y) by (destruct (Z.lt_trichotomy b y) as [|[|]]; nia). subst b.
          assert (a = x) by lia. subst a. by rewrite !Z.eqb_refl in E. }
        pose proof (px_addr_apart (b * screen_w vw + a) (y * screen_w vw + x)). lia.
    + destruct (H8 eq_refl) as [Ew Eh]. unfold on_screen in *. rewrite ld8_st8. unfold Gfx.GFX_WIDTH.
      destruct ((a =? x) && (b =? y)) eqn:E.
      * apply andb_true_iff in E as [->%Z.eqb_eq ->%Z.eqb_eq]. by rewrite decide_True.
      * rewrite decide_False; [done|]. lia.
  - unfold on_screen in *. destruct ((a =? x) && (b =? y)) eqn:E; [|done].
    apply andb_true_iff in E as [->%Z.eqb_eq ->%Z.eqb_eq]. done.
Qed.

(** The two pixel routines are clipped stores. *)
Lemma vbe_putpixel_plot x y c m :
  use_vbe vw = true -> in_s32 x -> in_s32 y -> vbe_putpixel x y c vi m = plot x y c m.
Proof.
  intros Eu Hx Hy. destruct view_screen as (Hw & Hh & _). destruct (vo_vbe Hv Eu) as (Ea & Ew & Eh & Hl & _).
  unfold vbe_putpixel, plot. rewrite Ea, Ew, Eh. destruct (Z.eqb_spec (lfb vi) 0); [done|]. cbn [negb orb].
  rewrite !MkdispSpec.on_axis by (done || lia). rewrite Eu. unfold on_screen.
  case_bool_decide as E; [|destruct ((0 <=? x) && (x <? screen_w vw)) eqn:E1, ((0 <=? y) && (y <? screen_h vw)) eqn:E2; cbn; done || lia].
  replace (negb ((0 <=? x) && (x <? screen_w vw)) || negb ((0 <=? y) && (y <? screen_h vw))) with false by lia.
  rewrite (u32_small (y * _ + _)); [done|]. unfold in_u32. nia.
Qed.

Lemma gfx_putpixel_plot x y c m :
  use_vbe vw = false -> in_s32 x -> in_s32 y -> Gfx.gfx_putpixel x y c m = plot x y c m.
Proof.
  intros Eu Hx Hy. destruct view_screen as (_ & _ & H8). destruct (H8 Eu) as [Ew Eh].
  unfold Gfx.gfx_putpixel, plot, on_screen. rewrite Eu, Ew, Eh. unfold Gfx.GFX_WIDTH, Gfx.GFX_HEIGHT.
  rewrite !MkdispSpec.on_axis by (done || lia). case_bool_decide as E;
    destruct ((0 <=? x) && (x <? 320)) eqn:E1, ((0 <=? y) && (y <? 200)) eqn:E2; cbn; done || lia.
Qed.

(** ** Rectangles *)

Definition fill (x y w h c : Z) (m : mem) : mem :=
  if use_vbe vw then vbe_fill_rect x y w h c vi m else Gfx.gfx_fill_rect x y w h c m.

(** The arguments that occur: within a few thousand pixels of the screen. *)
Definition near (x : Z) : Prop := 0 <= x <= 4096.

Lemma fill_plots x y w h c m :
  near x -> near y -> near w -> near h ->
  fill x y w h c m = for_up (Z.to_nat h) 0 (fun j => for_up (Z.to_nat w) 0 (fun i => plot (x + i) (y + j) c)) m.
Proof.
  unfold near. intros Hx Hy Hw Hh. destruct view_screen as (Hsw & Hsh & H8).
  assert (forall i, 0 <= i < 4096 -> s32 (x + i) = x + i /\ s32 (y + i) = y + i) as Hs
    by (intros i Hi; split; apply s32_small; unfold in_s32; lia).
  assert (forall i j m, ~ on_screen (x + i) (y + j) -> plot (x + i) (y + j) c m = m) as Hoff
    by (intros i j m' Hno; unfold plot; by rewrite bool_decide_false).
  unfold fill. destruct (use_vbe vw) eqn:Eu.
  - destruct (vo_vbe Hv Eu) as (Ea & Ew & Eh & _ & _). unfold vbe_fill_rect. rewrite Ea, Ew, Eh.
    destruct (Z.leb_spec w 0) as [Hw0|Hw0]; [assert (w = 0) as -> by lia; symmetry; by apply MkdispSpec.for_up_miss|].
    destruct (Z.leb_spec h 0) as [Hh0|Hh0]; [by assert (h = 0) as -> by lia|]. cbn [orb negb].
    apply for_up_ext. intros j m1 Hj. destruct (Hs j) as [_ ->]; [lia|].
    rewrite MkdispSpec.on_axis by (unfold in_s32; lia).
    destruct ((0 <=? y + j) && (y + j <? screen_h vw)) eqn:Ey; cbn [negb].
    + apply for_up_ext. intros i m2 Hi. destruct (Hs i) as [-> _]; [lia|].
      rewrite MkdispSpec.on_axis by (unfold in_s32; lia).
      destruct ((0 <=? x + i) && (x + i <? screen_w vw)) eqn:Ex; cbn [negb].
      * apply vbe_putpixel_plot; [done | unfold in_s32; lia | unfold in_s32; lia].
      * symmetry. apply Hoff. unfold on_screen. lia.
    + symmetry. apply MkdispSpec.for_up_miss. intros i m2 Hi. apply Hoff. unfold on_screen. lia.
  - destruct (H8 eq_refl) as [Ew Eh]. unfold Gfx.gfx_fill_rect.
    destruct (Z.leb_spec w 0) as [Hw0|Hw0]; [assert (w = 0) as -> by lia; symmetry; by apply MkdispSpec.for_up_miss|].
    destruct (Z.leb_spec h 0) as [Hh0|Hh0]; [by assert (h = 0) as -> by lia|]. cbn [orb negb].
    apply for_up_ext. intros j m1 Hj. destruct (Hs j) as [_ ->]; [lia|]. unfold Gfx.GFX_HEIGHT.
    rewrite MkdispSpec.on_axis by (unfold in_s32; lia).
    destruct ((0 <=? y + j) && (y + j <? 200)) eqn:Ey; cbn [negb].
    + apply for_up_ext. intros i m2 Hi. destruct (Hs i) as [-> _]; [lia|]. unfold Gfx.GFX_WIDTH at 1.
      rewrite MkdispSpec.on_axis by (unfold in_s32; lia).
      destruct ((0 <=? x + i) && (x + i <? 320)) eqn:Ex; cbn [negb].
      * unfold plot. rewrite bool_decide_true, Eu by (unfold on_screen; lia). done.
      * symmetry. apply Hoff. unfold on_screen. lia.
    + symmetry. apply MkdispSpec.for_up_miss. intros i m2 Hi. apply Hoff. unfold on_screen. lia.
Qed.

Definition rectp (x y w h c : Z) (a b v : Z) : Z := if MkdispSpec.inside x y w h a b then pc c else v.

Lemma fill_paints x y w h c :
  near x -> near y -> near w -> near h -> paints (rectp x y w h c) (fill x y w h c).
Proof.
  intros Hx Hy Hw Hh m a b Hab. rewrite fill_plots by done.
  set (P := fun j i v => if (a =? x + i) && (b =? y + j) then pc c else v).
  assert (pix (for_up (Z.to_nat h) 0 (fun j => for_up (Z.to_nat w) 0 (fun i => plot (x + i) (y + j) c)) m) a b =
          for_up (Z.to_nat h) 0 (fun j => for_up (Z.to_nat w) 0 (P j)) (pix m a b)) as ->.
  { apply (paints_for (fun j a b v => for_up (Z.to_nat w) 0 (fun i v => if (a =? x + i) && (b =? y + j) then pc c else v) v));
      [|done]. intros j _.
    apply (paints_for (fun i a b v => if (a =? x + i) && (b =? y + j) then pc c else v)). intros i _.
    apply plot_paints. }
  rewrite (MkdispSpec.for_up_grid _ _ (b - y) (a - x)).
  - unfold rectp, MkdispSpec.inside, P, near in *. rewrite !Z2Nat.id by lia.
    replace ((0 <=? b - y) && (b - y <? h) && (0 <=? a - x) && (a - x <? w)) with
      ((x <=? a) && (a <? x + w) && (y <=? b) && (b <? y + h)) by lia.
    destruct (_ && (b <? y + h)); [|done]. by replace ((a =? x + (a - x)) && (b =? y + (b - y))) with true by lia.
  - intros j i v Hj Hi Hne. unfold P. by replace ((a =? x + i) && (b =? y + j)) with false by lia.
Qed.

(** ** The parts of the picture *)

Lemma clear_paints : paints (fun _ _ _ => pc 0) (clear_screen vw vi).
Proof.
  destruct view_screen as (Hw & Hh & H8). intros m a b Hab. unfold clear_screen.
  assert (0 <= b * screen_w vw + a < screen_w vw * screen_h vw /\ screen_w vw * screen_h vw <= 1024 * 768) as [Hi Hs]
    by (unfold on_screen in Hab; nia).
  set (k := b * screen_w vw + a) in *.
  set (P := fun i v => if k =? i then pc 0 else v).
  assert (for_up (Z.to_nat (screen_w vw * screen_h vw)) 0 P (pix m a b) = pc 0) as Hp.
  { rewrite (MkdispSpec.for_up_once _ _ k); unfold P; [by rewrite Z.eqb_refl | lia |].
    intros j v Hj Hne. by destruct (Z.eqb_spec k j). }
  rewrite <- Hp. destruct (use_vbe vw) eqn:Eu.
  - destruct (vo_vbe Hv Eu) as (Ea & Ew & Eh & Hl & Hal). unfold vbe_clear. rewrite Ea, Ew, Eh.
    destruct (Z.eqb_spec (lfb vi) 0); [done|]. cbn [negb orb]. rewrite u32_small by (unfold in_u32; lia).
    apply (for_up_rel (fun m v => pix m a b = v)); [done|]. intros i m1 v Hi1 <-. unfold P, pix, pc. rewrite Eu. fold k.
    destruct (Z.eqb_spec k i) as [<-|Hne]; [apply ld32_st32_eq|]. apply ld32_st32_ne.
    pose proof (px_addr_apart k i Hal). lia.
  - destruct (H8 eq_refl) as [Ew Eh]. unfold Gfx.gfx_clear. unfold Gfx.GFX_WIDTH at 1, Gfx.GFX_HEIGHT.
    rewrite <- Ew, <- Eh. apply (for_up_rel (fun m v => pix m a b = v)); [done|].
    intros i m1 v Hi1 <-. unfold P, pix, pc. rewrite Eu, ld8_st8.
    replace (Gfx.VGA_VRAM + b * Gfx.GFX_WIDTH + a) with (Gfx.VGA_VRAM + k) by (unfold k; rewrite Ew; unfold Gfx.GFX_WIDTH; lia).
    destruct (Z.eqb_spec k i) as [<-|Hne]; [by rewrite decide_True|]. by rewrite decide_False by lia.
Qed.

Lemma view_cell : 8 <= cell vw <= 16 /\ grid_w vw <= 66 /\ grid_h vw <= 50 /\
  grid_w vw * cell vw <= screen_w vw /\ grid_h vw * cell vw <= screen_h vw.
Proof.
  destruct Hv as [H _]. unfold views in H. set_unfold in H.
  destruct H as [->|[->|[->|[->|[]]]]]; vm_compute; intuition discriminate.
Qed.

(** The cell of the board a pixel belongs to. *)
Definition cell_at (a b : Z) : Z * Z := (a / cell vw, b / cell vw).

Definition cellp (c : Z * Z) (kind a b v : Z) : Z :=
  if bool_decide (cell_at a b = c) then pc (color_of vw kind) else v.

Lemma cell_paints c kind : in_grid vw c -> paints (cellp c kind) (draw_cell vw vi (fst c) (snd c) kind).
Proof.
  destruct c as [gx gy]. unfold in_grid. cbn [fst snd]. intros [Hx Hy]. destruct view_cell as (Hc & Hw & Hh & _ & _).
  intros m a b Hab.
  assert (draw_cell vw vi gx gy kind m = fill (gx * cell vw) (gy * cell vw) (cell vw) (cell vw) (color_of vw kind) m) as ->.
  { unfold draw_cell, put_cell, fill. rewrite !s32_small by (unfold in_s32; nia). by destruct (use_vbe vw). }
  rewrite fill_paints by (unfold near; nia || lia || done). unfold rectp, cellp, cell_at.
  destruct (MkdispSpec.inside _ _ _ _ a b) eqn:E.
  - apply MkdispSpec.inside_true in E. rewrite bool_decide_true; [done|].
    rewrite <- (Z.div_unique a (cell vw) gx (a - gx * cell vw)), <- (Z.div_unique b (cell vw) gy (b - gy * cell vw)) by lia. done.
  - apply MkdispSpec.inside_false in E. rewrite bool_decide_false; [done|]. intros [= E1 E2]. apply E.
    subst gx gy. pose proof (Z.div_mod a (cell vw)). pose proof (Z.div_mod b (cell vw)).
    pose proof (Z.mod_pos_bound a (cell vw)). pose proof (Z.mod_pos_bound b (cell vw)). lia.
Qed.

(** Pixels the border does not cover. *)
Definition interior (a b : Z) : Prop :=
  let t := if use_vbe vw then 2 else 1 in t <= a < screen_w vw - t /\ t <= b < screen_h vw - t.

Lemma border_fills m :
  draw_border vw vi m =
  let t := if use_vbe vw then 2 else 1 in
  let c := if use_vbe vw then vbe_rgb 80 80 80 else Gfx.GFX_DGRAY in
  fill (screen_w vw - t) 0 t (screen_h vw) c
    (fill 0 0 t (screen_h vw) c (fill 0 (screen_h vw - t) (screen_w vw) t c (fill 0 0 (screen_w vw) t c m))).
Proof.
  destruct view_screen as (_ & _ & H8). unfold draw_border, fill. destruct (use_vbe vw) eqn:Eu; [done|].
  by destruct (H8 eq_refl) as [-> ->].
Qed.

Lemma border_paints :
  exists p, paints p (draw_border vw vi) /\ forall a b v, interior a b -> p a b v = v.
Proof.
  destruct view_screen as (Hw & Hh & _).
  set (t := if use_vbe vw then 2 else 1). set (c := if use_vbe vw then vbe_rgb 80 80 80 else Gfx.GFX_DGRAY).
  assert (1 <= t <= 2) by (unfold t; destruct (use_vbe vw); lia).
  exists (fun a b v => rectp (screen_w vw - t) 0 t (screen_h vw) c a b
    (rectp 0 0 t (screen_h vw) c a b (rectp 0 (screen_h vw - t) (screen_w vw) t c a b (rectp 0 0 (screen_w vw) t c a b v)))).
  split.
  - intros m a b Hab. rewrite border_fills. cbv zeta. fold t c. by rewrite !fill_paints by (unfold near; lia || done).
  - intros a b v Hi. unfold interior in Hi. fold t in Hi. unfold rectp.
    repeat match goal with |- context [MkdispSpec.inside ?x ?y ?w ?h a b] =>
      assert (MkdispSpec.inside x y w h a b = false) as -> by (apply MkdispSpec.inside_false; lia) end. done.
Qed.

(** Texts and the final panel. *)
Lemma plot_local x y c32 c8 :
  local (fun m => if use_vbe vw then vbe_putpixel (s32 x) (s32 y) c32 vi m else Gfx.gfx_putpixel (s32 x) (s32 y) c8 m).
Proof.
  pose proof (s32_range x). pose proof (s32_range y). destruct (use_vbe vw) eqn:Eu; intros m1 m2 a b Hab E.
  - rewrite !vbe_putpixel_plot by done. by rewrite !plot_paints, E.
  - rewrite !gfx_putpixel_plot by done. by rewrite !plot_paints, E.
Qed.

Lemma glyph_local px py c c32 c8 : local (draw_glyph vw vi px py c c32 c8).
Proof.
  unfold draw_glyph. apply (local_for (fun row m => for_up 8 0 _ m)). intros row _.
  apply (local_for (fun col m => if Gfx.glyph_bit c row col then _ else m)). intros col _.
  destruct (Gfx.glyph_bit c row col); [apply plot_local | apply local_id].
Qed.

Lemma text_local s c32 c8 : forall px py, local (draw_text_xy vw vi px py s c32 c8).
Proof.
  induction s as [|c s IH]; intros px py; cbn [draw_text_xy]; [apply local_id|].
  destruct (c =? 0); [apply local_id|].
  apply (local_comp (draw_glyph vw vi px py c c32 c8) (draw_text_xy vw vi (s32 (px + 8)) py s c32 c8));
    [apply glyph_local | apply IH].
Qed.

Lemma game_over_local g : local (draw_game_over vw vi g).
Proof.
  destruct view_screen as (Hw & Hh & H8). pose proof fill_paints as Hf. unfold fill in Hf.
  unfold draw_game_over. cbv zeta. destruct (use_vbe vw) eqn:Eu.
  - assert (0 <= screen_w vw / 2 <= 512) by zlia. assert (0 <= (screen_w vw - screen_w vw / 2) / 2 <= 512) by zlia.
    assert (0 <= (screen_h vw - 80) / 2 <= 400) by zlia.
    do 3 (apply (local_comp _ (draw_text_xy _ _ _ _ _ _ _)); [|apply text_local]).
    apply (local_comp _ (vbe_fill_rect _ _ _ _ _ vi)); eapply paints_local, Hf; unfold near; lia || zlia.
  - destruct (H8 eq_refl) as [-> ->].
    do 3 (apply (local_comp _ (draw_text_xy _ _ _ _ _ _ _)); [|apply text_local]).
    apply (local_comp _ (Gfx.gfx_fill_rect _ _ _ _ _)); eapply paints_local, Hf; unfold near; lia || zlia.
Qed.

(** ** The whole snake *)

(** The first cell in the colour [k], the others as body. *)
Fixpoint draw_cells (k : Z) (l : list (Z * Z)) (m : mem) : mem :=
  match l with
  | [] => m
  | c :: l' => draw_cells 2 l' (draw_cell vw vi (fst c) (snd c) k m)
  end.

Lemma draw_snake_cells g n : forall i m,
  length (sx g) = length (sy g) -> (i + n <= length (sx g))%nat ->
  draw_snake vw vi n (Z.of_nat i) g m =
  Ret (draw_cells (if (i =? 0)%nat then 1 else 2) (zip (take n (drop i (sx g))) (take n (drop i (sy g)))) m).
Proof.
  induction n as [|n IH]; intros i m El Hi; cbn [draw_snake]; [done|].
  destruct (lookup_lt_is_Some_2 (sx g) i) as [a Ea]; [lia|]. destruct (lookup_lt_is_Some_2 (sy g) i) as [b Eb]; [lia|].
  rewrite (rd_ok (sx g) _ a) by (lia || by rewrite Nat2Z.id). cbn [mbind out_mbind].
  rewrite (rd_ok (sy g) _ b) by (lia || by rewrite Nat2Z.id). cbn [mbind out_mbind].
  rewrite (drop_S _ _ _ Ea), (drop_S _ _ _ Eb). cbn [take zip zip_with draw_cells fst snd].
  replace (Z.of_nat i + 1) with (Z.of_nat (S i)) by lia. rewrite IH by lia. cbn [Nat.eqb].
  by replace (Z.of_nat i =? 0) with (i =? 0)%nat by (destruct i; done).
Qed.

Lemma draw_body g m :
  arrays_ok g -> draw_snake vw vi (Z.to_nat (slen g)) 0 g m = Ret (draw_cells 1 (body g) m).
Proof. intros [Hx Hy Hn]. rewrite (draw_snake_cells g _ 0) by lia. by rewrite !drop_0. Qed.

Lemma cells_paints l : Forall (in_grid vw) l ->
  paints (fun a b v => if bool_decide (cell_at a b ∈ l) then pc (color_of vw 2) else v) (draw_cells 2 l).
Proof.
  induction 1 as [|c l Hc Hl IH]; intros m a b Hab; cbn [draw_cells].
  - by rewrite bool_decide_false by apply not_elem_of_nil.
  - rewrite IH, cell_paints by done. unfold cellp. repeat case_bool_decide; (done || set_solver).
Qed.

(** ** The board *)

(** The colour of a pixel of a running game, away from the border. *)
Definition board (g : game) (a b : Z) : Z :=
  let c := cell_at a b in
  pc (color_of vw (if bool_decide (head (body g) = Some c) then 1 else if bool_decide (c ∈ body g) then 2
                   else if bool_decide (c = (food_x g, food_y g)) then 3 else 0)).

Context (g : game) (Hg : game_ok vw g).

Lemma pc_black : pc (color_of vw 0) = pc 0.
Proof. unfold color_of. by destruct (use_vbe vw). Qed.

(** A full redraw: every pixel is set, whatever was there. *)
Lemma paint_full_spec m :
  exists m', paint_full vw vi g m = Ret m' /\
    (dead g = false -> forall a b, on_screen a b -> interior a b -> pix m' a b = board g a b).
Proof.
  pose proof Hg as [Ha _ Hgr Hnd _ [Hfg Hfb] _ _ _]. unfold paint_full. rewrite draw_body by done. cbn [mbind out_mbind].
  eexists. split; [done|]. intros -> a b Hab Hi. destruct border_paints as (p & Hp & Hpi). unfold board.
  pose proof (body_length g Ha) as Hl. destruct (body g) as [|c l] eqn:Eb; [cbn in Hl; destruct Ha; lia|].
  apply Forall_cons in Hgr as [Hc Hgr]. apply NoDup_cons in Hnd as [Hnc Hnd].
  cbn [draw_cells]. rewrite cells_paints, cell_paints by done.
  change (draw_cell vw vi (food_x g) (food_y g) 3) with (draw_cell vw vi (fst (food_x g, food_y g)) (snd (food_x g, food_y g)) 3).
  rewrite cell_paints, Hp, Hpi, clear_paints by done. unfold cellp. cbn [head].
  destruct (decide (cell_at a b = c)) as [->|Hne].
  - rewrite (bool_decide_false (c ∈ l)), !bool_decide_true by done. done.
  - rewrite (bool_decide_false (cell_at a b = c)), (bool_decide_false (Some c = _)) by (done || congruence).
    case_bool_decide as E1.
    + rewrite bool_decide_true by (apply elem_of_cons; by right). done.
    + rewrite (bool_decide_false (_ ∈ c :: l)) by (rewrite elem_of_cons; tauto).
      case_bool_decide; [done | by rewrite pc_black].
Qed.

(** Two full redraws of the same game agree. *)
Lemma paint_full_same m1 m2 m1' m2' a b :
  paint_full vw vi g m1 = Ret m1' -> paint_full vw vi g m2 = Ret m2' -> on_screen a b -> pix m1' a b = pix m2' a b.
Proof.
  pose proof Hg as [Ha _ Hgr _ _ [Hfg Hfb] _ _ _]. unfold paint_full. rewrite !draw_body by done. cbn [mbind out_mbind].
  intros [= <-] [= <-] Hab. destruct border_paints as (p & Hp & _).
  assert (local (draw_cells 1 (body g))) as Hl.
  { pose proof (body_length g Ha) as Hl. destruct (body g) as [|c l] eqn:Eb; [cbn in Hl; destruct Ha; lia|].
    apply Forall_cons in Hgr as [Hc Hgr]. apply (local_comp (draw_cell vw vi (fst c) (snd c) 1) (draw_cells 2 l));
      eapply paints_local; [by apply cell_paints | by apply cells_paints]. }
  assert (pix (clear_screen vw vi m1) a b = pix (clear_screen vw vi m2) a b) as E by (by rewrite !clear_paints).
  apply (paints_local p _ Hp _ _ a b Hab) in E.
  apply (paints_local _ _ (cell_paints (food_x g, food_y g) 3 Hfg) _ _ a b Hab) in E.
  apply (Hl _ _ a b Hab) in E. destruct (dead g); [by apply game_over_local | exact E].
Qed.

End Screen.

(** ** The incremental redraw *)

Section Step.

Context (vw : view) (vi : vbe_info) (Hv : vid_ok vw vi).
Context (g g' : game) (Hg : game_ok vw g) (Hg' : game_ok vw g') (Hm : moved vw g g').

(** The old head, and the cells that stay. *)
Lemma moved_body :
  exists h0 q, body g' = ahead g :: h0 :: q /\ head (body g) = Some h0 /\
    (if grew g' then body g = h0 :: q else body g = (h0 :: q) ++ [(tail_x g', tail_y g')]).
Proof.
  pose proof (body_length g (go_arrays _ _ Hg)) as Hl. pose proof (ao_len _ (go_arrays _ _ Hg)).
  destruct Hm as [[(Eb & Egr & _)|(Eb & Egr & Et)] _]; rewrite Egr.
  - destruct (body g) as [|h0 q]; [cbn in Hl; lia|]. by exists h0, q.
  - destruct (take (length (body g) - 1) (body g)) as [|h0 q] eqn:Eq.
    { apply (f_equal length) in Eq. rewrite length_take in Eq. cbn in Eq. lia. }
    exists h0, q. split_and!; [done | by rewrite Et | done].
Qed.

(** What the routine draws, in order. *)
Lemma paint_step_cells h0 q m :
  body g' = ahead g :: h0 :: q ->
  paint_step vw vi g' m = Ret (draw_border vw vi (draw_cell vw vi (food_x g') (food_y g') 3
    (draw_cell vw vi (fst h0) (snd h0) 2 (draw_cell vw vi (fst (ahead g)) (snd (ahead g)) 1
      (if grew g' then m else draw_cell vw vi (tail_x g') (tail_y g') 0 m))))).
Proof.
  intros Eb. pose proof (go_arrays _ _ Hg') as Ha. pose proof (ao_len _ Ha).
  destruct (body_lookup g' 0 Ha) as (x0 & y0 & Ex0 & Ey0 & E0); [lia|].
  destruct (body_lookup g' 1 Ha) as (x1 & y1 & Ex1 & Ey1 & E1); [lia|].
  rewrite Eb in E0, E1. change (Some (ahead g) = Some (x0, y0)) in E0. change (Some h0 = Some (x1, y1)) in E1.
  apply (inj Some) in E0, E1. rewrite E0, E1. cbn [fst snd].
  unfold paint_step. rewrite Ex0. cbn [mbind out_mbind]. rewrite Ey0. cbn [mbind out_mbind].
  destruct (Z.ltb_spec 1 (slen g')); [|lia]. rewrite Ex1. cbn [mbind out_mbind]. rewrite Ey1. cbn [mbind out_mbind].
  by destruct (grew g').
Qed.

Lemma paint_step_spec m :
  (forall a b, on_screen vw a b -> interior vw a b -> pix vw vi m a b = board vw g a b) ->
  exists m', paint_step vw vi g' m = Ret m' /\
    forall a b, on_screen vw a b -> interior vw a b -> pix vw vi m' a b = board vw g' a b.
Proof.
  intros Hold. destruct moved_body as (h0 & q & Eb' & Eh & Eb). rewrite (paint_step_cells h0 q m Eb').
  eexists. split; [done|]. intros a b Hab Hi. destruct (border_paints vw vi Hv) as (p & Hp & Hpi).
  pose proof (go_grid _ _ Hg') as Hgr. rewrite Eb' in Hgr. apply Forall_cons in Hgr as [Hga Hgr].
  apply Forall_cons in Hgr as [Hg0 _]. destruct (go_food _ _ Hg') as [Hfg Hfb]. pose proof (go_nodup _ _ Hg') as Hnd.
  rewrite Eb' in Hfb, Hnd.
  set (f := (food_x g', food_y g')) in *. set (t := (tail_x g', tail_y g')) in *. set (h := ahead g) in *.
  rewrite Hp, Hpi by done.
  change (draw_cell vw vi (food_x g') (food_y g') 3) with (draw_cell vw vi (fst f) (snd f) 3).
  change (draw_cell vw vi (tail_x g') (tail_y g') 0) with (draw_cell vw vi (fst t) (snd t) 0).
  rewrite (cell_paints vw vi Hv f), (cell_paints vw vi Hv h0), (cell_paints vw vi Hv h) by done.
  assert (pix vw vi (if grew g' then m else draw_cell vw vi (fst t) (snd t) 0 m) a b =
          if negb (grew g') && bool_decide (cell_at vw a b = t) then pc vw (color_of vw 0) else board vw g a b) as ->.
  { destruct (grew g'); cbn [negb andb]; [by apply Hold|].
    rewrite (cell_paints vw vi Hv t); [unfold cellp; by rewrite Hold | | done].
    pose proof (go_grid _ _ Hg) as Hgg. rewrite Eb in Hgg. apply Forall_app in Hgg as [_ Hgg]. by apply Forall_cons in Hgg as [? _]. }
  apply not_elem_of_cons in Hfb as [Hfh Hfb]. apply NoDup_cons in Hnd as [Hhq Hnd].
  unfold board. cbv zeta. rewrite Eb', Eh. cbn [head]. unfold cellp. fold f. set (c := cell_at vw a b). clearbody c.
  destruct (decide (c = f)) as [Hc|Hcf].
  { rewrite (bool_decide_true (c = f)), (bool_decide_false (Some h = Some c)), (bool_decide_false (c ∈ _)) by (congruence || set_solver). done. }
  rewrite (bool_decide_false (c = f)) by done.
  destruct (decide (c = h0)) as [->|Hc0].
  { rewrite (bool_decide_true (h0 = h0)), (bool_decide_false (Some h = _)), bool_decide_true by (congruence || set_solver). done. }
  rewrite (bool_decide_false (c = h0)) by done.
  destruct (decide (c = h)) as [->|Hch].
  { by rewrite !bool_decide_true. }
  rewrite (bool_decide_false (c = h)), (bool_decide_false (Some h = _)), (bool_decide_false (Some h0 = _)) by (congruence || set_solver).
  assert (c <> (food_x g, food_y g)) as Hcg.
  { intros Hc. destruct Hm as [_ Hf]. destruct (decide (ahead g = (food_x g, food_y g))) as [Ea|Ea]; [|specialize (Hf Ea)];
      unfold f, h in *; congruence. }
  rewrite (bool_decide_false (c = (food_x g, food_y g))) by done.
  destruct (grew g'); cbn [negb andb]; rewrite Eb.
  - by rewrite (bool_decide_ext (c ∈ h :: h0 :: q) (c ∈ h0 :: q)) by (congruence || set_solver).
  - case_bool_decide as Ect.
    + pose proof (go_nodup _ _ Hg) as Hndg. rewrite Eb in Hndg. apply NoDup_app in Hndg as (_ & Hnt & _).
      rewrite bool_decide_false; [done|]. rewrite elem_of_cons. intros [?|Hc]; [done|]. apply (Hnt c Hc). set_solver.
    + by rewrite (bool_decide_ext (c ∈ h :: h0 :: q) (c ∈ (h0 :: q) ++ [t])) by (congruence || set_solver).
Qed.

End Step.

End SnakeDraw.
