(* ===== verification/SnakeProps.v ===== *)
(** * Snake: the game as a whole

    From the start, through any keys and ticks, the game keeps its rules and
    the screen shows the board. *)

From S2P Require Import Prelude Memory Terminal Keyboard Ports Pci Gfx Vbe Platform Settings Snake SnakeSpec SnakeDraw.
Import Vbe Settings Snake SnakeSpec SnakeDraw.

Module SnakeProps.

Abbreviation vinfo s := (vbe_get_info (svbe s)).

(** Away from the border the screen is what a full redraw would show. *)
Definition shows (s : snk) : Prop :=
  exists m0 m', paint_full (sview s) (vinfo s) (sgame s) m0 = Ret m' /\
    forall a b, on_screen (sview s) a b -> interior (sview s) a b ->
      pix (sview s) (vinfo s) (smem s) a b = pix (sview s) (vinfo s) m' a b.

Record snk_ok (s : snk) : Prop := mk_snk_ok {
  ok_vid : vid_ok (sview s) (vinfo s);
  ok_game : game_ok (sview s) (sgame s);
  ok_shows : shows s;
}.

(** ** Steps that leave game and screen alone *)

Definition same (s s' : snk) : Prop :=
  sview s' = sview s /\ svbe s' = svbe s /\ sgame s' = sgame s /\ smem s' = smem s.

Lemma same_log l s : same s (set_log l s).
Proof. done. Qed.

Lemma same_vbox dev s : same s (snd (is_virtualbox dev s)).
Proof. unfold is_virtualbox. by destruct (Platform.platform_is_virtualbox _ _ _) as [[b p] l]. Qed.

Lemma same_wait dev s : same s (wait_frame dev s).
Proof.
  unfold wait_frame. destruct (use_vbe (sview s)); [done|]. pose proof (same_vbox dev s) as H.
  destruct (is_virtualbox dev s) as [[|] s1]; exact H.
Qed.

(** The picture does not depend on the pending turn nor on the sound flag. *)
Lemma draw_snake_ext vw vi g1 g2 n : forall i m,
  sx g1 = sx g2 -> sy g1 = sy g2 -> draw_snake vw vi n i g1 m = draw_snake vw vi n i g2 m.
Proof.
  induction n as [|n IH]; intros i m Ex Ey; [done|]. cbn [draw_snake]. rewrite Ex, Ey.
  destruct (rd (sx g2) i); [|done]. cbn [mbind out_mbind]. destruct (rd (sy g2) i); [|done]. by apply IH.
Qed.

Lemma paint_full_next vw vi x y g m : paint_full vw vi (set_next x y g) m = paint_full vw vi g m.
Proof. unfold paint_full. cbn. by rewrite (draw_snake_ext vw vi (set_next x y g) g). Qed.

(** ** Redrawing *)

Section Play.

Context (dev : Ports.device) (cfg : system_settings).

Lemma redraw_full_ok s :
  vid_ok (sview s) (vinfo s) -> game_ok (sview s) (sgame s) ->
  exists s', redraw_full dev s = Ret s' /\ sgame s' = sgame s /\ snk_ok s'.
Proof.
  intros Hv Hg. unfold redraw_full. destruct (same_wait dev s) as (Ev & Eb & Eg & Em). rewrite Ev, Eb, Eg.
  destruct (paint_full_spec (sview s) (vinfo s) Hv (sgame s) Hg (smem (wait_frame dev s))) as (m' & E & _).
  rewrite E. eexists. split; [done|]. split; [done|]. split; cbn; rewrite ?Ev, ?Eb, ?Eg; try done.
  exists (smem (wait_frame dev s)), m'. cbn. rewrite Ev, Eb, Eg. done.
Qed.

Lemma shows_board s :
  snk_ok s -> dead (sgame s) = false -> forall a b, on_screen (sview s) a b -> interior (sview s) a b ->
  pix (sview s) (vinfo s) (smem s) a b = board (sview s) (sgame s) a b.
Proof.
  intros [Hv Hg (m0 & m' & E & Hp)] Hd a b Hab Hi. rewrite Hp by done.
  destruct (paint_full_spec _ _ Hv _ Hg m0) as (m1 & E1 & H1). rewrite E in E1. injection E1 as <-. by apply H1.
Qed.

Lemma redraw_step_ok s g :
  snk_ok s -> dead (sgame s) = false -> game_ok (sview s) g -> dead g = false -> moved (sview s) (sgame s) g ->
  forall s1, sview s1 = sview s -> svbe s1 = svbe s -> sgame s1 = g -> smem s1 = smem s ->
  exists s', redraw_step dev s1 = Ret s' /\ snk_ok s'.
Proof.
  intros Hs Hd Hg Hd' Hm s1 Ev1 Eb1 Eg1 Em1. pose proof (ok_vid s Hs) as Hv. unfold redraw_step.
  destruct (same_wait dev s1) as (Ev & Eb & Eg & Em). rewrite Ev, Eb, Eg, Em, Ev1, Eb1, Eg1, Em1.
  destruct (paint_step_spec (sview s) (vinfo s) Hv (sgame s) g (ok_game s Hs) Hg Hm (smem s)) as (m' & E & Hp).
  { by apply shows_board. }
  rewrite E. eexists. split; [done|].
  destruct (paint_full_spec (sview s) (vinfo s) Hv g Hg m') as (m2 & E2 & H2).
  split; cbn; rewrite ?Ev, ?Eb, ?Eg, ?Ev1, ?Eb1, ?Eg1; try done.
  exists m', m2. cbn. rewrite Ev, Eb, Eg, Ev1, Eb1, Eg1. split; [done|]. intros a b Hab Hi. rewrite Hp, H2 by done. done.
Qed.

(** ** One round *)

Lemma move_snake_ok s : snk_ok s -> exists s', move_snake dev cfg s = Ret s' /\ snk_ok s'.
Proof.
  intros Hs. pose proof (ok_vid s Hs) as Hv. unfold move_snake. destruct (dead (sgame s)) eqn:Hd; [by exists s|].
  destruct (step_game_spec (sview s) (sgame s) (vo_view _ _ Hv) (ok_game s Hs) Hd) as (ate & g & E & Hg & Hst).
  unfold step. rewrite E. cbn [mbind out_mbind].
  set (s1 := if ate && sound_enabled cfg then _ else _).
  assert (sview s1 = sview s /\ svbe s1 = svbe s /\ sgame s1 = g /\ smem s1 = smem s) as (Ev & Eb & Eg & Em)
    by (unfold s1; by destruct (ate && sound_enabled cfg)).
  rewrite Eg. unfold stepped in Hst. destruct (dead g) eqn:Hd'.
  - set (s2 := if negb (death_sounded g) && sound_enabled cfg then _ else _).
    assert (exists d, sview s2 = sview s /\ svbe s2 = svbe s /\ sgame s2 = set_dead true d g) as (d & Ev2 & Eb2 & Eg2).
    { unfold s2. rewrite <- Eg. destruct (negb (death_sounded (sgame s1)) && sound_enabled cfg).
      - exists true. split_and!; [done.. |]. cbn. by rewrite Eg, Hd'.
      - exists (death_sounded g). split_and!; [done.. |]. rewrite Eg, <- Hd'. by destruct g. }
    destruct (redraw_full_ok s2) as (s' & E2 & _ & Hok); [by rewrite Ev2, Eb2 | | by exists s'].
    rewrite Ev2, Eg2. destruct Hg as [[] Hr Hgr Hnd Hl Hf Hdr Hn Hh]. split; try done.
  - destruct Hst as [Hm _]. by apply (redraw_step_ok s g Hs Hd Hg Hd' Hm s1).
Qed.

Lemma handle_key_ok c s : snk_ok s -> snk_ok (set_game (handle_key c (sgame s)) s).
Proof.
  intros Hs. assert (forall x y, unit_dir x y -> snk_ok (set_game (set_next x y (sgame s)) s)) as H.
  { intros x y Hu. destruct Hs as [Hv Hg (m0 & m' & E & Hp)]. split; [done | |].
    - destruct Hg as [[] Hr Hgr Hnd Hl Hf Hd Hn Hh]. split; done.
    - exists m0, m'. cbn. by rewrite paint_full_next. }
  assert (snk_ok (set_game (sgame s) s)) as H0 by (by destruct s).
  unfold handle_key. repeat case_match; (exact H0 || apply H; by vm_compute).
Qed.

(** The three cells in the middle. *)
Lemma reset_game_spec v g :
  length (sx g) = 200%nat -> length (sy g) = 200%nat ->
  exists xs ys, reset_game v g =
      Ret (set_dead false false (set_score 0 (set_next 1 0 (set_dir 1 0 (set_snake xs ys 3 g))))) /\
    length xs = 200%nat /\ length ys = 200%nat /\
    cells 3 xs ys = [(grid_w v / 2, grid_h v / 2); (grid_w v / 2 - 1, grid_h v / 2); (grid_w v / 2 - 2, grid_h v / 2)].
Proof.
  intros Lx Ly. unfold reset_game.
  repeat (first [ rewrite wr_ok by (rewrite ?length_insert; lia)
                | rewrite (rd_ok (<[Z.to_nat 0 := grid_w v / 2]> _) 0 (grid_w v / 2)) by (lia || apply list_lookup_insert_eq; lia)
                | rewrite (rd_ok (<[Z.to_nat 0 := grid_h v / 2]> _) 0 (grid_h v / 2)) by (lia || apply list_lookup_insert_eq; lia) ];
          cbn [mbind out_mbind]).
  eexists _, _. split; [done|]. rewrite !length_insert. split_and!; [done | done |].
  destruct (sx g) as [|x0 [|x1 [|x2 xs]]]; try done. by destruct (sy g) as [|y0 [|y1 [|y2 ys]]].
Qed.

(** What a new game needs of the old one. *)
Record ready (g : game) : Prop := mk_ready {
  rdy_x : length (sx g) = 200%nat;
  rdy_y : length (sy g) = 200%nat;
  rdy_rng : in_u32 (rng g);
}.

Lemma start_ok v xs ys g fx fy r :
  v ∈ views -> length xs = 200%nat -> length ys = 200%nat -> in_u32 r ->
  cells 3 xs ys = [(grid_w v / 2, grid_h v / 2); (grid_w v / 2 - 1, grid_h v / 2); (grid_w v / 2 - 2, grid_h v / 2)] ->
  in_grid v (fx, fy) -> (fx, fy) ∉ cells 3 xs ys ->
  game_ok v (set_food fx fy r (set_dead false false (set_score 0 (set_next 1 0 (set_dir 1 0 (set_snake xs ys 3 g)))))).
Proof.
  intros Hv Lx Ly Hr Ec Hin Hf. destruct (view_grid v Hv) as [Hw Hh].
  assert (2 <= grid_w v / 2 < grid_w v /\ 0 <= grid_h v / 2 < grid_h v) as [Hw2 Hh2] by (split; zlia).
  assert (body (set_food fx fy r (set_dead false false (set_score 0 (set_next 1 0 (set_dir 1 0 (set_snake xs ys 3 g))))))
          = cells 3 xs ys) as Eb by done.
  split; rewrite ?Eb; try done; rewrite ?Ec.
  - repeat apply Forall_cons_2; [..|apply Forall_nil]; unfold in_grid; cbn; lia.
  - repeat (apply NoDup_cons; split); [..|apply NoDup_nil_2]; rewrite ?elem_of_cons; intros H;
      repeat destruct H as [[=]|H]; lia || by apply not_elem_of_nil in H.
  - cbn. unfold adjacent. cbn. lia.
  - intros _. unfold heading. rewrite Eb, Ec. cbn. do 3 eexists. do 2 f_equal. f_equal; lia.
Qed.

Lemma new_round_ok s :
  vid_ok (sview s) (vinfo s) -> ready (sgame s) -> exists s', new_round dev s = Ret s' /\ snk_ok s'.
Proof.
  intros Hv [Lx Ly Hr]. pose proof (vo_view _ _ Hv) as Hvw. destruct (view_grid _ Hvw) as [Hw Hh].
  destruct (reset_game_spec (sview s) (sgame s) Lx Ly) as (xs & ys & E & Lx' & Ly' & Ec).
  match type of E with _ = Ret ?h => set (g := h) in * end.
  destruct (place_food_spec (sview s) g Hvw Lx' Ly') as (r & Ep & Hrr & Hf); [cbn; lia | done |].
  unfold new_round. rewrite (bind_known _ _ _ E), (bind_known _ _ _ Ep).
  destruct (redraw_full_ok (set_game (tried (sview s) g r) s) Hv) as (s' & E' & _ & Hok); [|by exists s'].
  apply start_ok; try done; [apply lcg2_range |].
  unfold in_grid, cell_of. cbn [fst snd set_game sview]. split; apply Z.mod_pos_bound; lia.
Qed.

Lemma ok_ready s : snk_ok s -> ready (sgame s).
Proof. intros [_ [[Lx Ly _] Hr _ _ _ _ _ _ _] _]. by split. Qed.

Lemma read_keys_ok cs : forall s, snk_ok s -> exists go s', read_keys dev cs s = Ret (go, s') /\ snk_ok s'.
Proof.
  induction cs as [|c cs IH]; intros s Hs; cbn [read_keys]; [by exists true, s|].
  destruct ((c =? 27) || (c =? 113) || (c =? 81)); [by exists false, s|].
  destruct (dead (sgame s) && ((c =? 114) || (c =? 82))).
  - destruct (new_round_ok s (ok_vid s Hs) (ok_ready s Hs)) as (s1 & E & Hs1). rewrite E. by apply IH.
  - by apply IH, handle_key_ok.
Qed.

Lemma rounds_ok rs : forall p s, snk_ok s ->
  exists go p' s', rounds dev cfg rs (p, s) = Ret (go, (p', s')) /\ snk_ok s'.
Proof.
  induction rs as [|r rs IH]; intros p s Hs; cbn [rounds]; [by exists true, p, s|]. unfold round.
  destruct (read_keys_ok (fst r) s Hs) as (go & s1 & E & Hs1). rewrite E. cbn [mbind out_mbind].
  destruct go; cbn [negb]; [|by exists false, p, s1].
  destruct (due (snd r) p) as [do_step p1]. destruct do_step.
  - destruct (move_snake_ok s1 Hs1) as (s2 & E2 & Hs2). rewrite E2. cbn [mbind out_mbind]. by apply IH.
  - cbn [mbind out_mbind]. by apply IH.
Qed.

(** ** Opening the screen *)

Lemma bar0_aligned d : bar0 d mod 4 = 0.
Proof.
  destruct d as [d|]; [|done]. unfold bar0. rewrite <- (Z.land_ones _ 2), <- Z.land_assoc by lia. apply Z.land_0_r.
Qed.

Lemma find_lfb_aligned l : fst (find_lfb_pci dev l) mod 4 = 0.
Proof.
  unfold find_lfb_pci. destruct (Pci.pci_find_device _ _ _ _) as [d1 l1]. destruct (negb (bar0 d1 =? 0)); [apply bar0_aligned|].
  destruct (Pci.pci_find_by_class _ _ _ _) as [d2 l2]. apply bar0_aligned.
Qed.

Lemma probe_spec v v' :
  vbe_probe dev v = (true, v') -> g_probed v' = true /\ g_dispi_ok v' = true /\ lfb (g_vbe v') <> 0 /\ lfb (g_vbe v') mod 4 = 0.
Proof.
  unfold vbe_probe. destruct (dispi_read _ _ _) as [id l]. destruct (_ || _); [done|].
  pose proof (find_lfb_aligned l) as Ha. destruct (find_lfb_pci dev l) as [a l']. cbn [fst] in Ha.
  destruct (Z.eqb_spec a 0); intros [=]. subst v'. done.
Qed.

Lemma set_mode_spec mode v v' :
  g_probed v = true -> g_dispi_ok v = true -> lfb (g_vbe v) <> 0 -> lfb (g_vbe v) mod 4 = 0 ->
  vbe_set_mode dev mode v = (0, v') -> vid_ok (vbe_view (g_vbe v')) (g_vbe v').
Proof.
  intros Hp Hd Hl Ha. unfold vbe_set_mode.
  assert (mode_size mode ∈ [(640, 480); (800, 600); (1024, 768)]) as Hm
    by (unfold mode_size; repeat case_match; set_solver).
  destruct (mode_size mode) as [w h]. unfold ensure_probed. rewrite Hp. cbn [negb]. rewrite Hd. cbn [negb].
  destruct (Z.eqb_spec (lfb (g_vbe v)) 0); [done|]. destruct (Z.eqb_spec (lfb (g_vbe v)) 0); [done|]. rewrite Hd. cbn [negb orb].
  unfold program_mode. destruct (dispi_read _ VBE_DISPI_INDEX_XRES _) as [rw l1]. destruct (dispi_read _ VBE_DISPI_INDEX_YRES _) as [rh l2].
  destruct (dispi_read _ VBE_DISPI_INDEX_ENABLE _) as [en l3]. destruct (_ || _); intros [=]. subst v'. cbn [set_info g_vbe].
  set_unfold in Hm. destruct Hm as [[= -> ->]|[[= -> ->]|[[= -> ->]|[]]]]; (split; [|done]); cbn; set_solver.
Qed.

Lemma open_screen_ok s :
  let s' := open_screen dev cfg s in vid_ok (sview s') (vinfo s') /\ sgame s' = sgame s.
Proof.
  assert (forall vi, vid_ok mode13_view vi) as H13 by (intros vi; split; [apply elem_of_cons; by left | done]).
  unfold open_screen. set (p := if gfx_use_vbe cfg then is_virtualbox dev s else (true, s)).
  assert (sgame (snd p) = sgame s) as Eg by (unfold p; destruct (gfx_use_vbe cfg); [apply same_vbox | done]).
  destruct p as [vbox s1]. cbn [snd] in Eg. rewrite <- Eg. clear s Eg.
  destruct (gfx_use_vbe cfg && negb vbox); [|by split]. unfold vbe_fails, on_vbe.
  destruct (vbe_probe dev (set_vio (slog s1) (svbe s1))) as [ok v1] eqn:E1. destruct ok; cbn [negb]; [|by split].
  destruct (probe_spec _ _ E1) as (Hp & Hd & Hl & Ha).
  match goal with |- context [vbe_set_mode dev ?md ?v] => destruct (vbe_set_mode dev md v) as [r v2] eqn:E2 end.
  destruct (Z.eqb_spec r 0) as [->|]; cbn [negb]; [|by split].
  split; [|done]. eapply set_mode_spec; [| | | | exact E2]; done.
Qed.

Lemma lxor_u32 x y : in_u32 x -> in_u32 y -> in_u32 (Z.lxor x y).
Proof.
  unfold in_u32. intros Hx Hy. assert (0 <= Z.lxor x y) as Hp by (apply Z.lxor_nonneg; lia). split; [done|].
  change 4294967296 with (2 ^ 32) in *. apply Z.bounded_iff_bits_nonneg; [lia | done |]. intros i Hi.
  rewrite Z.lxor_spec. rewrite (proj1 (Z.bounded_iff_bits_nonneg 32 x ltac:(lia) ltac:(lia)) ltac:(lia) i Hi).
  by rewrite (proj1 (Z.bounded_iff_bits_nonneg 32 y ltac:(lia) ltac:(lia)) ltac:(lia) i Hi).
Qed.

Lemma start_game_ok t0 s :
  length (sx (sgame s)) = 200%nat -> length (sy (sgame s)) = 200%nat -> in_u32 t0 ->
  exists s', start dev cfg t0 s = Ret s' /\ snk_ok s'.
Proof.
  intros Lx Ly Ht. unfold start. destruct (open_screen_ok s) as [Hv Eg]. apply new_round_ok; [done|].
  cbn. rewrite Eg. split; [done | done |]. cbn. unfold in_u32 in *. apply lxor_u32; [exact Ht | done].
Qed.

End Play.

(** C36. The food is always found: for every video mode, every snake of at
    most 200 cells and every state of the random number generator the
    endless loop of [place_food] ends, and the food is on a cell of the
    board that the snake does not cover.  (The generator runs through all
    states of one parity before it repeats, and these lead to more than 200
    cells.) *)
Theorem place_food_total v g :
  v ∈ views -> length (sx g) = 200%nat -> length (sy g) = 200%nat -> 0 <= slen g <= 200 -> in_u32 (rng g) ->
  exists g', place_food v g = Ret g' /\ in_grid v (food_x g', food_y g') /\ ((food_x g', food_y g') ∉ body g') /\
    body g' = body g.
Proof.
  intros Hv Lx Ly Hn Hr. destruct (place_food_spec v g Hv Lx Ly Hn Hr) as (r & E & _ & Hf).
  destruct (view_grid v Hv) as [Hw Hh]. eexists. split; [exact E|]. split_and!; [| |done].
  - unfold in_grid, tried. cbn [set_food food_x food_y fst snd]. split; apply Z.mod_pos_bound; lia.
  - cbn [tried set_food food_x food_y]. rewrite <- surjective_pairing. exact Hf.
Qed.

(** A step of the game: it returns and keeps the rules (the snake is a
    chain of neighbouring, distinct cells on the board, the food is beside
    it); the game ends exactly when the next cell is off the board or holds
    the snake behind its second cell, so a key press never turns the snake
    back into itself; otherwise the head moves one cell and the rest
    follows, one cell longer after eating unless the snake has 200. *)
Theorem snake_step_spec v g :
  v ∈ views -> game_ok v g -> dead g = false ->
  exists ate g', step_game v g = Ret (ate, g') /\ game_ok v g' /\ (dead g' = true <-> crashed v g) /\
    (dead g' = false -> moved v g g').
Proof.
  intros Hv Hg Hd. destruct (step_game_spec v g Hv Hg Hd) as (ate & g' & E & Hg' & Hst).
  exists ate, g'. unfold stepped in Hst. destruct (dead g'); destruct Hst as [H1 H2];
    (split_and!; [exact E | exact Hg' | split; intros ?; done | done]).
Qed.

(** C35. The game plays by its rules and shows them: from any start, with any
    settings, devices, keys and tick counts, the game never faults or hangs,
    the board stays well formed, and although a step redraws only the cells
    that changed, every pixel off the border is the one a full redraw would
    show; while the game runs this is the colour of the cell it lies in. *)
Theorem snake_screen_agrees dev cfg hz t0 t1 t2 t3 rs s :
  length (sx (sgame s)) = 200%nat -> length (sy (sgame s)) = 200%nat -> in_u32 t0 ->
  exists s1 go p s', start dev cfg t0 s = Ret s1 /\
    rounds dev cfg rs (start_pace hz t1 t2 t3, s1) = Ret (go, (p, s')) /\
    snake_run dev cfg hz t0 t1 t2 t3 rs s = Ret (go, if go then s' else close_screen dev s') /\
    let vw := sview s' in let vi := vbe_get_info (svbe s') in
    vw ∈ views /\ game_ok vw (sgame s') /\
    exists m', paint_full vw vi (sgame s') (smem s') = Ret m' /\
      forall a b, on_screen vw a b -> interior vw a b ->
        pix vw vi (smem s') a b = pix vw vi m' a b /\
        (dead (sgame s') = false -> pix vw vi (smem s') a b = board vw (sgame s') a b).
Proof.
  intros Lx Ly Ht. destruct (start_game_ok dev cfg t0 s Lx Ly Ht) as (s1 & E1 & Hs1).
  destruct (rounds_ok dev cfg rs (start_pace hz t1 t2 t3) s1 Hs1) as (go & p & s' & E2 & Hs').
  exists s1, go, p, s'. split; [exact E1|]. split; [exact E2|].
  split; [unfold snake_run; by rewrite (bind_known _ _ _ E1), (bind_known _ _ _ E2)|]. cbv zeta. pose proof Hs' as [Hv Hg (m0 & m' & E & Hp)].
  split; [exact (vo_view _ _ Hv)|]. split; [exact Hg|].
  destruct (paint_full_spec _ _ Hv _ Hg (smem s')) as (m2 & E3 & _). exists m2. split; [exact E3|].
  intros a b Hab Hi. split; [|intros Hd; by apply shows_board].
  rewrite Hp by done. by apply (paint_full_same _ _ Hv _ Hg m0 (smem s')).
Qed.

(** ** Concrete games *)

(** The state before a game: empty arrays, no VirtualBox, text mode. *)
Definition bss_game : game := mk_game (replicate 200 0) (replicate 200 0) 0 0 0 0 0 0 0 0 false false 0 0 0 false.
Definition before : snk :=
  mk_snk mode13_view bss_game (mk_vbe [] (mk_info 0 0 0 32 0 false) false false)
    (Gfx.mk_gfx [] ∅ false (Terminal.terminal_initialize (Terminal.mk_term 0 0 0 [] []))) (Platform.mk_plat false true).

(** A snake of three cells, about to eat. *)
Definition small_game : game :=
  mk_game ([20; 19; 18] ++ replicate 197 0) ([12; 12; 12] ++ replicate 197 0) 3 1 0 1 0 21 12 0 false false 42 0 0 false.

Lemma place_food_total_witness :
  exists g', place_food mode13_view small_game = Ret g' /\ in_grid mode13_view (food_x g', food_y g') /\
    ((food_x g', food_y g') ∉ body g') /\ body g' = body small_game.
Proof.
  apply (place_food_total mode13_view small_game);
    [apply elem_of_cons; by left | reflexivity | reflexivity | cbn; lia | unfold in_u32; cbn; lia].
Defined.

Lemma small_game_ok : game_ok mode13_view small_game.
Proof.
  split; try done.
  - repeat apply Forall_cons_2; [..|apply Forall_nil]; unfold in_grid; vm_compute; intuition discriminate.
  - apply (bool_decide_unpack _). vm_compute. done.
  - split; [unfold in_grid; vm_compute; intuition discriminate|]. apply (bool_decide_unpack _). vm_compute. done.
  - intros _. exists 20, 12, [(18, 12)]. reflexivity.
Qed.

Lemma snake_step_spec_witness :
  exists ate g', step_game mode13_view small_game = Ret (ate, g') /\ game_ok mode13_view g' /\
    (dead g' = true <-> crashed mode13_view small_game) /\ (dead g' = false -> moved mode13_view small_game g').
Proof.
  apply (snake_step_spec mode13_view small_game); [apply elem_of_cons; by left | exact small_game_ok | reflexivity].
Defined.

(** The step of that game: the food is eaten and the snake has four cells. *)
Example small_game_eats :
  match step_game mode13_view small_game with
  | Ret (ate, g) => ate = true /\ body g = [(21, 12); (20, 12); (19, 12); (18, 12)] /\ score g = 1
  | Fault _ => False
  end.
Proof. vm_compute. done. Qed.

Lemma snake_screen_agrees_witness :
  exists s1 go p s',
    start (fun _ _ => 0) (mk_cfg true 1 false) 5 before = Ret s1 /\
    rounds (fun _ _ => 0) (mk_cfg true 1 false) [([119], 20); ([100], 40)] (start_pace 100 5 5 8, s1) = Ret (go, (p, s')) /\
    game_ok (sview s') (sgame s').
Proof.
  destruct (snake_screen_agrees (fun _ _ => 0) (mk_cfg true 1 false) 100 5 5 5 8 [([119], 20); ([100], 40)] before)
    as (s1 & go & p & s' & E1 & E2 & _ & _ & Hg & _); [reflexivity | reflexivity | unfold in_u32; lia |].
  exists s1, go, p, s'. split; [exact E1|]. split; [exact E2 | exact Hg].
Defined.

End SnakeProps.
