(* ===== verification/Gdt.v ===== *)
(** * Segment descriptors and the task state segment (src/src/gdt.c,
    gdt_flush.s)

    The descriptor table is built field by field; the processor reads it as
    64-bit descriptors.  [raw] is the packed layout of [struct gdt_entry],
    and the [desc_] functions read a descriptor the way the processor does.
    The task state segment is the array of 32-bit words the source clears it
    as.  Link addresses are arguments. *)

From S2P Require Import Prelude.

Module Gdt.

Definition GDT_KCODE : Z := 0x08.
Definition GDT_KDATA : Z := 0x10.
Definition GDT_UCODE : Z := 0x18.
Definition GDT_UDATA : Z := 0x20.
Definition GDT_TSS : Z := 0x28.
Definition GDT_ENTRIES : nat := 6.

Record gdt_entry : Type := mk_ge {
  limit_low : Z;
  base_low : Z;
  base_middle : Z;
  access : Z;
  granularity : Z;
  base_high : Z;
}.
#[global] Instance gdt_entry_inhabited : Inhabited gdt_entry := populate (mk_ge 0 0 0 0 0 0).

(** Segment registers, and the registers [lgdt] and [ltr] load. *)
Record segst : Type := mk_seg {
  gdt : list gdt_entry;
  gdtp : Z * Z;          (** limit, base *)
  tss : list Z;          (** 26 words *)
  gdtr : Z * Z;
  tr : Z;
  cs : Z;
  data_segs : list Z;    (** ds, es, fs, gs, ss *)
}.

Definition set_gdt (g : list gdt_entry) (s : segst) : segst :=
  mk_seg g (gdtp s) (tss s) (gdtr s) (tr s) (cs s) (data_segs s).
Definition set_tss (t : list Z) (s : segst) : segst :=
  mk_seg (gdt s) (gdtp s) t (gdtr s) (tr s) (cs s) (data_segs s).

Definition TSS_WORDS : nat := 26.
Definition TSS_SIZE : Z := 104.
Definition tss_esp0 (s : segst) : Z := tss s !!! 1%nat.
Definition tss_ss0 (s : segst) : Z := tss s !!! 2%nat.
(** The last word holds [trap] and [iomap_base]. *)
Definition tss_iomap_base (s : segst) : Z := Z.shiftr (tss s !!! 25%nat) 16.

Definition gdt_set_gate (num base limit acc gran : Z) (s : segst) : segst :=
  set_gdt (<[Z.to_nat num := mk_ge
    (u16 (Z.land limit 0xFFFF))
    (u16 (Z.land base 0xFFFF))
    (u8 (Z.land (Z.shiftr base 16) 0xFF))
    (u8 acc)
    (Z.lor (u8 (Z.land (Z.shiftr limit 16) 0x0F)) (Z.land gran 0xF0))
    (u8 (Z.land (Z.shiftr base 24) 0xFF))]> (gdt s)) s.

Definition write_tss (tss_addr num ss0 esp0 : Z) (s : segst) : segst :=
  let s := gdt_set_gate num tss_addr (TSS_SIZE - 1) 0xE9 0x00 s in
  let s := set_tss (replicate TSS_WORDS 0) s in
  let s := set_tss (<[2%nat := u16 ss0]> (tss s)) s in
  let s := set_tss (<[1%nat := esp0]> (tss s)) s in
  set_tss (<[25%nat := Z.lor (u16 (tss s !!! 25%nat)) (Z.shiftl TSS_SIZE 16)]> (tss s)) s.

Definition tss_set_kernel_stack (esp0 : Z) (s : segst) : segst :=
  set_tss (<[1%nat := esp0]> (tss s)) s.

(** [gdt_flush]: [lgdt], the data segments, and a far jump to the code
    segment.  [tss_flush]: [ltr]. *)
Definition gdt_flush (s : segst) : segst :=
  mk_seg (gdt s) (gdtp s) (tss s) (gdtp s) (tr s) 0x08 (replicate 5 0x10).
Definition tss_flush (s : segst) : segst :=
  mk_seg (gdt s) (gdtp s) (tss s) (gdtr s) 0x28 (cs s) (data_segs s).

Definition gdt_install (gdt_addr tss_addr kstack : Z) (s : segst) : segst :=
  let s := mk_seg (gdt s) (8 * Z.of_nat GDT_ENTRIES - 1, gdt_addr) (tss s) (gdtr s) (tr s)
             (cs s) (data_segs s) in
  let s := gdt_set_gate 0 0 0 0 0 s in
  let s := gdt_set_gate 1 0 0xFFFFFFFF 0x9A 0xCF s in
  let s := gdt_set_gate 2 0 0xFFFFFFFF 0x92 0xCF s in
  let s := gdt_set_gate 3 0 0xFFFFFFFF 0xFA 0xCF s in
  let s := gdt_set_gate 4 0 0xFFFFFFFF 0xF2 0xCF s in
  let s := write_tss tss_addr 5 GDT_KDATA (kstack + 8192) s in
  tss_flush (gdt_flush s).

Definition gdt_init (gdt_addr tss_addr kstack : Z) (s : segst) : segst :=
  gdt_install gdt_addr tss_addr kstack s.

(** ** How the processor reads a descriptor *)

(** The eight bytes of the packed structure as one little-endian word. *)
Definition raw (e : gdt_entry) : Z :=
  limit_low e + Z.shiftl (base_low e) 16 + Z.shiftl (base_middle e) 32
  + Z.shiftl (access e) 40 + Z.shiftl (granularity e) 48 + Z.shiftl (base_high e) 56.

(** Bits [lo .. lo+n-1] of a word. *)
Definition bits (w lo n : Z) : Z := (w / 2 ^ lo) mod 2 ^ n.

Definition desc_base (d : Z) : Z := bits d 16 24 + 2 ^ 24 * bits d 56 8.
(** The limit field, and the last valid offset (4 KiB units when G is set). *)
Definition desc_limit20 (d : Z) : Z := bits d 0 16 + 2 ^ 16 * bits d 48 4.
Definition desc_limit (d : Z) : Z :=
  if bits d 55 1 =? 1 then desc_limit20 d * 4096 + 4095 else desc_limit20 d.
Definition desc_type (d : Z) : Z := bits d 40 4.
Definition desc_s (d : Z) : Z := bits d 44 1.
Definition desc_dpl (d : Z) : Z := bits d 45 2.
Definition desc_present (d : Z) : bool := bits d 47 1 =? 1.
Definition desc_flags (d : Z) : Z := bits d 52 4.

(** The descriptor a selector names. *)
Definition lookup_selector (s : segst) (sel : Z) : option Z :=
  if Z.ltb (fst (gdtr s)) (8 * (sel / 8) + 7) then None
  else raw <$> gdt s !! Z.to_nat (sel / 8).

(** ** Encoding and decoding *)

Lemma land_ffff x : Z.land x 0xFFFF = x mod 65536.
Proof. by apply (Z.land_ones x 16). Qed.
Lemma land_ff x : Z.land x 0xFF = x mod 256.
Proof. by apply (Z.land_ones x 8). Qed.
Lemma land_f x : Z.land x 0x0F = x mod 16.
Proof. by apply (Z.land_ones x 4). Qed.

(** The high nibble of a byte, kept by a mask. *)
Lemma land_f0 x : 0 <= x < 256 -> Z.land x 0xF0 = 16 * (x / 16).
Proof.
  intros Hx. change 0xF0 with (Z.shiftl (Z.ones 4) 4).
  apply Z.bits_inj'. intros n Hn.
  replace (16 * (x / 16)) with (Z.shiftl (Z.shiftr x 4) 4)
    by (rewrite Z.shiftl_mul_pow2, Z.shiftr_div_pow2 by lia; change (2 ^ 4) with 16; lia).
  rewrite Z.land_spec, !Z.shiftl_spec by lia.
  destruct (decide (n < 4)).
  { rewrite !(Z.testbit_neg_r _ (n - 4)) by lia. apply andb_false_r. }
  rewrite Z.shiftr_spec by lia. replace (n - 4 + 4) with n by lia.
  destruct (decide (n < 8)).
  - rewrite Z.ones_spec_low by lia. apply andb_true_r.
  - rewrite Z.ones_spec_high by lia. rewrite andb_false_r.
    symmetry. rewrite <- (Z.mod_small x (2 ^ 8)) by lia. apply Z.mod_pow2_bits_high. lia.
Qed.

(** Two fields that share no bit: the union is the sum. *)
Lemma lor_nibbles a b : 0 <= a < 16 -> 0 <= b < 16 -> Z.lor a (16 * b) = a + 16 * b.
Proof.
  intros Ha Hb. rewrite (Z.mul_comm 16). change 16 with (2 ^ 4).
  rewrite <- Z.shiftl_mul_pow2, <- Z.add_lor_land by lia.
  assert (E : Z.land a (Z.shiftl b 4) = 0); [|lia].
  apply Z.bits_inj_0. intros n. rewrite Z.land_spec.
  destruct (decide (n < 4)); [rewrite Z.shiftl_spec_low by lia; apply andb_false_r|].
  rewrite <- (Z.mod_small a (2 ^ 4)) by lia. by rewrite Z.mod_pow2_bits_high by lia.
Qed.

Lemma gran_byte l g :
  0 <= l -> 0 <= g < 256 ->
  Z.lor (u8 (Z.land (Z.shiftr l 16) 0x0F)) (Z.land g 0xF0) = l / 65536 mod 16 + 16 * (g / 16).
Proof.
  intros Hl Hg. rewrite land_f, land_f0, Z.shiftr_div_pow2 by lia.
  unfold u8. rewrite (Z.mod_small (_ mod 16) 256) by zlia.
  apply lor_nibbles; zlia.
Qed.

(** The descriptor that [gdt_set_gate] packs, as a sum of disjoint fields. *)
Lemma raw_sum base limit acc gran s (n : nat) :
  in_u32 base -> in_u32 limit -> 0 <= acc < 256 -> 0 <= gran < 256 -> (n < length (gdt s))%nat ->
  raw <$> gdt (gdt_set_gate (Z.of_nat n) base limit acc gran s) !! n =
  Some (limit mod 65536 + 65536 * (base mod 16777216) + 2 ^ 40 * acc
        + 2 ^ 48 * (limit / 65536 mod 16) + 2 ^ 52 * (gran / 16) + 2 ^ 56 * (base / 16777216)).
Proof.
  unfold in_u32. intros Hb Hl Ha Hg Hn. unfold gdt_set_gate, raw. simpl.
  rewrite Nat2Z.id, list_lookup_insert_eq by done. simpl. f_equal.
  rewrite gran_byte, !land_ffff, !land_ff, !Z.shiftr_div_pow2, !Z.shiftl_mul_pow2 by lia.
  unfold u8, u16. rewrite !Z.mod_mod by lia. rewrite (Z.mod_small acc) by lia.
  change (2 ^ 16) with 65536. change (2 ^ 24) with 16777216.
  change (2 ^ 32) with 4294967296. change (2 ^ 40) with 1099511627776.
  change (2 ^ 48) with 281474976710656. change (2 ^ 52) with 4503599627370496.
  change (2 ^ 56) with 72057594037927936. zlia.
Qed.

Ltac fields :=
  unfold desc_base, desc_limit, desc_limit20, desc_type, desc_s, desc_dpl, desc_present,
    desc_flags, bits;
  change (2 ^ 0) with 1; change (2 ^ 1) with 2; change (2 ^ 2) with 4; change (2 ^ 4) with 16;
  change (2 ^ 8) with 256; change (2 ^ 16) with 65536; change (2 ^ 24) with 16777216;
  change (2 ^ 32) with 4294967296; change (2 ^ 40) with 1099511627776;
  change (2 ^ 48) with 281474976710656; change (2 ^ 52) with 4503599627370496;
  change (2 ^ 56) with 72057594037927936.

(** What [gdt_set_gate] stores is what the processor reads: base,
    20-bit limit, access byte and flag nibble of the descriptor are the
    arguments, for every base, limit, access and granularity byte; no other
    descriptor changes. *)
Theorem gdt_gate_roundtrip (n : nat) base limit acc gran s :
  in_u32 base -> in_u32 limit -> 0 <= acc < 256 -> 0 <= gran < 256 -> (n < length (gdt s))%nat ->
  exists d,
    raw <$> gdt (gdt_set_gate (Z.of_nat n) base limit acc gran s) !! n = Some d
    /\ desc_base d = base
    /\ desc_limit20 d = limit mod 2 ^ 20
    /\ bits d 40 8 = acc
    /\ desc_flags d = gran / 16
    /\ forall m, m <> n ->
         gdt (gdt_set_gate (Z.of_nat n) base limit acc gran s) !! m = gdt s !! m.
Proof.
  intros Hb Hl Ha Hg Hn. eexists. split; [by apply raw_sum|].
  unfold in_u32 in *. repeat split.
  - fields. zlia.
  - fields. change (2 ^ 20) with 1048576. zlia.
  - fields. zlia.
  - fields. zlia.
  - intros m Hm. simpl. rewrite Nat2Z.id. by apply list_lookup_insert_ne.
Qed.

Lemma gdt_gate_roundtrip_witness :
  exists d,
    raw <$> gdt (gdt_set_gate (Z.of_nat 5) 0x12345678 103 0xE9 0
                   (mk_seg (replicate 6 inhabitant) (0, 0) [] (0, 0) 0 0 [])) !! 5%nat = Some d
    /\ desc_base d = 0x12345678.
Proof.
  destruct (gdt_gate_roundtrip 5 0x12345678 103 0xE9 0
              (mk_seg (replicate 6 inhabitant) (0, 0) [] (0, 0) 0 0 []))
    as (d & Hd & Hb & _); [by unfold in_u32; lia | by unfold in_u32; lia | lia | lia | simpl; lia |].
  by exists d.
Defined.

(** What the processor makes of a selector: base, last offset, privilege
    level, system/user bit and type; [None] for a descriptor that is absent
    or outside the table. *)
Record segment : Type := mk_segment {
  sg_base : Z; sg_limit : Z; sg_dpl : Z; sg_s : Z; sg_type : Z
}.
Definition decode_desc (d : Z) : option segment :=
  if desc_present d
  then Some (mk_segment (desc_base d) (desc_limit d) (desc_dpl d) (desc_s d) (desc_type d))
  else None.
Definition segment_of (s : segst) (sel : Z) : option segment :=
  lookup_selector s sel ≫= decode_desc.

Lemma tss_descriptor tss_addr s :
  in_u32 tss_addr -> (5 < length (gdt s))%nat ->
  (raw <$> gdt (gdt_set_gate 5 tss_addr 103 0xE9 0x00 s) !! 5%nat) ≫= decode_desc = Some (mk_segment tss_addr 103 3 0 9).
Proof.
  intros Ht Hl. change 5 with (Z.of_nat 5).
  rewrite raw_sum by (unfold in_u32 in *; lia || done). simpl. unfold in_u32 in Ht.
  change (103 mod 65536) with 103. change (103 / 65536 mod 16) with 0. change (0 / 16) with 0.
  set (d := _ + _).
  assert (E : desc_base d = tss_addr /\ bits d 40 8 = 233 /\ bits d 47 1 = 1 /\ bits d 55 1 = 0
              /\ desc_limit20 d = 103 /\ desc_dpl d = 3 /\ desc_s d = 0 /\ desc_type d = 9).
  { subst d. fields. change (2 ^ 44) with 17592186044416. change (2 ^ 45) with 35184372088832.
    change (2 ^ 47) with 140737488355328. change (2 ^ 55) with 36028797018963968.
    repeat split; zlia. }
  destruct E as (E1 & _ & E2 & E3 & E4 & E5 & E6 & E7).
  unfold decode_desc, desc_present, desc_limit. by rewrite E1, E2, E3, E4, E5, E6, E7.
Qed.

(** After [gdt_install] the processor sees four flat 4 GiB segments,
    code and data for ring 0 and for ring 3, no segment at selector 0, and
    the task state segment at its address with its exact size; the segment
    registers, GDTR and TR name them, and a trap from ring 3 switches to the
    top of the kernel stack.  The descriptor of the task state segment has
    privilege level 3. *)
Theorem segments_installed gdt_addr tss_addr kstack s :
  length (gdt s) = GDT_ENTRIES -> in_u32 tss_addr ->
  let s' := gdt_install gdt_addr tss_addr kstack s in
  segment_of s' 0 = None
  /\ segment_of s' GDT_KCODE = Some (mk_segment 0 0xFFFFFFFF 0 1 0xA)
  /\ segment_of s' GDT_KDATA = Some (mk_segment 0 0xFFFFFFFF 0 1 0x2)
  /\ segment_of s' GDT_UCODE = Some (mk_segment 0 0xFFFFFFFF 3 1 0xA)
  /\ segment_of s' GDT_UDATA = Some (mk_segment 0 0xFFFFFFFF 3 1 0x2)
  /\ segment_of s' GDT_TSS = Some (mk_segment tss_addr 103 3 0 0x9)
  /\ gdtr s' = (47, gdt_addr) /\ tr s' = GDT_TSS
  /\ cs s' = GDT_KCODE /\ data_segs s' = replicate 5 GDT_KDATA
  /\ tss_ss0 s' = GDT_KDATA /\ tss_esp0 s' = kstack + 8192 /\ tss_iomap_base s' = 104.
Proof.
  intros Hl Ht. cbn zeta.
  destruct s as [g ? ? ? ? ? ?]. unfold GDT_ENTRIES in Hl. simpl in Hl.
  do 6 (destruct g as [|? g]; [done|]). destruct g; [|done].
  repeat apply conj; try reflexivity.
  unfold segment_of, lookup_selector. cbn [gdtr gdt_install gdt_flush tss_flush fst].
  change (_ <? _) with false. cbn iota.
  match goal with |- context [gdt (gdt_install _ _ _ ?s)] =>
    change (gdt (gdt_install gdt_addr tss_addr kstack s) !! Z.to_nat (GDT_TSS / 8))
      with (gdt (gdt_set_gate 5 tss_addr 103 0xE9 0x00
        (gdt_set_gate 4 0 0xFFFFFFFF 0xF2 0xCF (gdt_set_gate 3 0 0xFFFFFFFF 0xFA 0xCF
        (gdt_set_gate 2 0 0xFFFFFFFF 0x92 0xCF (gdt_set_gate 1 0 0xFFFFFFFF 0x9A 0xCF
        (gdt_set_gate 0 0 0 0 0 s)))))) !! 5%nat)
  end.
  apply tss_descriptor; [exact Ht | simpl; lia].
Qed.

Lemma segments_installed_witness :
  segment_of (gdt_install 0x2000 0x3000 0x4000
    (mk_seg (replicate 6 inhabitant) (0, 0) [] (0, 0) 0 0 [])) GDT_TSS
  = Some (mk_segment 0x3000 103 3 0 0x9).
Proof.
  destruct (segments_installed 0x2000 0x3000 0x4000
              (mk_seg (replicate 6 inhabitant) (0, 0) [] (0, 0) 0 0 []))
    as (_ & _ & _ & _ & _ & H & _); [done | by unfold in_u32; lia | exact H].
Defined.

End Gdt.
