(* ===== verification/Irq.v ===== *)
(** * Interrupts (src/src/irq.c, idt.c, isr.s, idt_load.s)

    The gate table, the interrupt controllers, the assembly stubs that save
    and restore the interrupted program, and the two C handlers.  The
    machine is the register file [cpu] and flat memory; [deliver] and [iret]
    are what the processor does on its side of a gate.  Port traffic goes to
    the log of [Ports]; link addresses of the stubs and of the tables, the
    return address of a call and the scratch registers a C function leaves
    are arguments. *)

From S2P Require Import Prelude Memory Ports Terminal Kmalloc Syscall Gdt.
Import Ports.

Module Irq.

Definition IDT_FLAGS : Z := 0x8E.
Definition IDT_FLAGS_USER : Z := 0xEE.
Definition IDT_ENTRIES : nat := 256.

Definition PIC1_COMMAND : Z := 0x20.
Definition PIC1_DATA : Z := 0x21.
Definition PIC2_COMMAND : Z := 0xA0.
Definition PIC2_DATA : Z := 0xA1.
Definition PIC_EOI : Z := 0x20.
Definition ICW1_INIT : Z := 0x10.
Definition ICW1_ICW4 : Z := 0x01.
Definition ICW4_8086 : Z := 0x01.

Record idt_entry : Type := mk_ie {
  base_low : Z;
  sel : Z;
  always0 : Z;
  flags : Z;
  base_high : Z;
}.
#[global] Instance idt_entry_inhabited : Inhabited idt_entry := populate (mk_ie 0 0 0 0 0).

Record irqst : Type := mk_irq {
  idt : list idt_entry;
  idtp : Z * Z;               (** limit, base *)
  idtr : Z * Z;               (** what [lidt] loaded *)
  irq_handlers : list Z;      (** function pointers, 0 for NULL *)
  io : log;
}.

Definition set_idt (t : list idt_entry) (s : irqst) : irqst :=
  mk_irq t (idtp s) (idtr s) (irq_handlers s) (io s).
Definition set_io (l : log) (s : irqst) : irqst :=
  mk_irq (idt s) (idtp s) (idtr s) (irq_handlers s) l.

(** ** The gate table *)

Definition idt_set_gate (num handler sel flags : Z) (s : irqst) : irqst :=
  set_idt (<[Z.to_nat (u8 num) := mk_ie
    (u16 (Z.land handler 0xFFFF)) (u16 sel) 0 (u8 flags)
    (u16 (Z.land (Z.shiftr handler 16) 0xFFFF))]> (idt s)) s.

Definition idt_load (s : irqst) : irqst :=
  mk_irq (idt s) (idtp s) (idtp s) (irq_handlers s) (io s).

Definition idt_init (idt_addr : Z) (s : irqst) : irqst :=
  let s := mk_irq (idt s) (8 * Z.of_nat IDT_ENTRIES - 1, idt_addr) (idtr s) (irq_handlers s) (io s) in
  idt_load (for_up IDT_ENTRIES 0 (fun i => idt_set_gate i 0 0 0) s).

(** The entry points of isr.s. *)
Inductive stub : Type := Isr (n : Z) | Irq (n : Z).
#[global] Instance stub_eq_dec : EqDecision stub.
Proof. solve_decision. Defined.

(** Those the table is filled with: exceptions 0..19, 128, and the lines. *)
Definition isr_install (entry : stub -> Z) (s : irqst) : irqst :=
  let s := for_up 20 0 (fun i => idt_set_gate i (entry (Isr i)) 0x08 IDT_FLAGS) s in
  idt_set_gate 128 (entry (Isr 128)) 0x08 IDT_FLAGS_USER s.

(** ** The interrupt controllers *)

Definition pic_remap (dev : device) (l : log) : log :=
  let '(mask1, l) := inb dev PIC1_DATA l in
  let '(mask2, l) := inb dev PIC2_DATA l in
  let l := io_wait (outb PIC1_COMMAND (Z.lor ICW1_INIT ICW1_ICW4) l) in
  let l := io_wait (outb PIC2_COMMAND (Z.lor ICW1_INIT ICW1_ICW4) l) in
  let l := io_wait (outb PIC1_DATA 0x20 l) in
  let l := io_wait (outb PIC2_DATA 0x28 l) in
  let l := io_wait (outb PIC1_DATA 0x04 l) in
  let l := io_wait (outb PIC2_DATA 0x02 l) in
  let l := io_wait (outb PIC1_DATA ICW4_8086 l) in
  let l := io_wait (outb PIC2_DATA ICW4_8086 l) in
  outb PIC2_DATA mask2 (outb PIC1_DATA mask1 l).

Definition pic_init_masks (l : log) : log := outb PIC2_DATA 0xFF (outb PIC1_DATA 0xFF l).

Definition irq_mask (dev : device) (irq : Z) (l : log) : log :=
  let '(port, bit) := if irq <? 8 then (PIC1_DATA, irq) else (PIC2_DATA, u8 (irq - 8)) in
  let '(v, l) := inb dev port l in
  outb port (u8 (Z.lor v (u8 (Z.shiftl 1 bit)))) l.

Definition irq_unmask (dev : device) (irq : Z) (l : log) : log :=
  let '(port, bit, l) :=
    if irq <? 8 then (PIC1_DATA, irq, l)
    else
      let '(v, l) := inb dev PIC1_DATA l in
      (PIC2_DATA, u8 (irq - 8), outb PIC1_DATA (u8 (Z.land v (u8 (Z.lnot (Z.shiftl 1 2))))) l) in
  let '(v, l) := inb dev port l in
  outb port (u8 (Z.land v (u8 (Z.lnot (Z.shiftl 1 bit))))) l.

Definition irq_get_mask (dev : device) (l : log) : Z * log :=
  let '(lo, l) := inb dev PIC1_DATA l in
  let '(hi, l) := inb dev PIC2_DATA l in
  (Z.lor lo (Z.shiftl hi 8), l).

Definition pic_send_eoi (irq : Z) (l : log) : log :=
  let l := if 8 <=? irq then outb PIC2_COMMAND PIC_EOI l else l in
  outb PIC1_COMMAND PIC_EOI l.

Definition irq_install (dev : device) (entry : stub -> Z) (s : irqst) : irqst :=
  let s := set_io (pic_init_masks (pic_remap dev (io s))) s in
  for_up 16 0 (fun i => idt_set_gate (32 + i) (entry (Irq i)) 0x08 IDT_FLAGS) s.

(** [irq_handlers[irq] = handler]: the array has 16 slots, the index is not
    checked. *)
Definition irq_register_handler (irq handler : Z) (s : irqst) : out irqst :=
  if irq <? 16
  then Ret (mk_irq (idt s) (idtp s) (idtr s) (<[Z.to_nat irq := handler]> (irq_handlers s)) (io s))
  else Fault OutOfBounds.

(** ** The processor *)

Record cpu : Type := mk_cpu {
  eax : Z; ecx : Z; edx : Z; ebx : Z; esp : Z; ebp : Z; esi : Z; edi : Z;
  eip : Z; eflags : Z;
  cs : Z; ds : Z; es : Z; fs : Z; gs : Z; ss : Z;
}.

Definition set_esp (v : Z) (c : cpu) : cpu :=
  mk_cpu (eax c) (ecx c) (edx c) (ebx c) v (ebp c) (esi c) (edi c)
    (eip c) (eflags c) (cs c) (ds c) (es c) (fs c) (gs c) (ss c).
Definition set_eax (v : Z) (c : cpu) : cpu :=
  mk_cpu v (ecx c) (edx c) (ebx c) (esp c) (ebp c) (esi c) (edi c)
    (eip c) (eflags c) (cs c) (ds c) (es c) (fs c) (gs c) (ss c).
Definition set_eflags (v : Z) (c : cpu) : cpu :=
  mk_cpu (eax c) (ecx c) (edx c) (ebx c) (esp c) (ebp c) (esi c) (edi c)
    (eip c) v (cs c) (ds c) (es c) (fs c) (gs c) (ss c).
Definition set_code (s o : Z) (c : cpu) : cpu :=
  mk_cpu (eax c) (ecx c) (edx c) (ebx c) (esp c) (ebp c) (esi c) (edi c)
    o (eflags c) s (ds c) (es c) (fs c) (gs c) (ss c).
Definition set_ss (v : Z) (c : cpu) : cpu :=
  mk_cpu (eax c) (ecx c) (edx c) (ebx c) (esp c) (ebp c) (esi c) (edi c)
    (eip c) (eflags c) (cs c) (ds c) (es c) (fs c) (gs c) v.
(** [mov %ax, %ds; mov %ax, %es; mov %ax, %fs; mov %ax, %gs] *)
Definition set_segs (v : Z) (c : cpu) : cpu :=
  mk_cpu (eax c) (ecx c) (edx c) (ebx c) (esp c) (ebp c) (esi c) (edi c)
    (eip c) (eflags c) (cs c) v v v v (ss c).

Abbreviation machine := (cpu * mem)%type.

Definition push (v : Z) (x : machine) : machine :=
  let a := u32 (esp (fst x) - 4) in (set_esp a (fst x), st32 (snd x) a v).
Definition IF_BIT : Z := 0x200.
Definition cli (x : machine) : machine := (set_eflags (Z.ldiff (eflags (fst x)) IF_BIT) (fst x), snd x).
Definition sti (x : machine) : machine := (set_eflags (Z.lor (eflags (fst x)) IF_BIT) (fst x), snd x).

Definition cpl (c : cpu) : Z := Z.land (cs c) 3.

(** A gate as the processor reads it. *)
Definition gate_raw (e : idt_entry) : Z :=
  base_low e + Z.shiftl (sel e) 16 + Z.shiftl (always0 e) 32 + Z.shiftl (flags e) 40
  + Z.shiftl (base_high e) 48.
Definition gate_offset (d : Z) : Z := Gdt.bits d 0 16 + 2 ^ 16 * Gdt.bits d 48 16.
Definition gate_sel (d : Z) : Z := Gdt.bits d 16 16.
Definition gate_type (d : Z) : Z := Gdt.bits d 40 5.
Definition gate_dpl (d : Z) : Z := Gdt.bits d 45 2.
Definition gate_present (d : Z) : bool := Gdt.bits d 47 1 =? 1.

Record gate : Type := mk_gate { g_offset : Z; g_sel : Z; g_dpl : Z }.

(** A present 32-bit interrupt gate within the limit of IDTR. *)
Definition gate_of (s : irqst) (v : Z) : option gate :=
  if fst (idtr s) <? 8 * v + 7 then None
  else
    e ← idt s !! Z.to_nat v;
    let d := gate_raw e in
    if gate_present d && (gate_type d =? 0xE)
    then Some (mk_gate (gate_offset d) (gate_sel d) (gate_dpl d)) else None.

(** Interrupt [v]: an [int] instruction ([soft]) needs the gate's privilege;
    a gate to a more privileged segment switches to the stack of the task
    state segment; IF and the trace, nesting, resume and virtual-8086 flags
    are cleared.  [None]: the processor raises a fault instead. *)
Definition deliver (g : Gdt.segst) (s : irqst) (v : Z) (soft : bool) (err : option Z)
    (x : machine) : option machine :=
  gt ← gate_of s v;
  sg ← Gdt.segment_of g (g_sel gt);
  if soft && (g_dpl gt <? cpl (fst x)) then None
  else
    let c := fst x in
    let x := if Gdt.sg_dpl sg <? cpl c
             then push (esp c) (push (ss c)
                    (set_ss (Gdt.tss_ss0 g) (set_esp (Gdt.tss_esp0 g) c), snd x))
             else x in
    let x := push (eip c) (push (cs c) (push (eflags c) x)) in
    let x := match err with Some e => push e x | None => x end in
    Some (set_eflags (Z.ldiff (eflags c) 0x34300)
            (set_code (Z.lor (8 * (g_sel gt / 8)) (Gdt.sg_dpl sg)) (g_offset gt) (fst x)), snd x).

(** A data segment more privileged than the level returned to is lost. *)
Definition revoke (g : Gdt.segst) (level sel : Z) : Z :=
  match Gdt.segment_of g sel with
  | Some sg => if Gdt.sg_dpl sg <? level then 0 else sel
  | None => sel
  end.

(** The word at stack offset [i]. *)
Definition peek (x : machine) (i : Z) : Z := ld32 (snd x) (u32 (esp (fst x) + i)).

Definition iret (g : Gdt.segst) (x : machine) : machine :=
  let c := fst x in
  let o := peek x 0 in
  let s := u16 (peek x 4) in
  let f := peek x 8 in
  let level := Z.land s 3 in
  if cpl c <? level then
    let r := revoke g level in
    (mk_cpu (eax c) (ecx c) (edx c) (ebx c) (peek x 12) (ebp c) (esi c) (edi c) o f
       s (r (ds c)) (r (es c)) (r (fs c)) (r (gs c)) (u16 (peek x 16)), snd x)
  else
    (mk_cpu (eax c) (ecx c) (edx c) (ebx c) (u32 (esp c + 12)) (ebp c) (esi c) (edi c) o f
       s (ds c) (es c) (fs c) (gs c) (ss c), snd x).

(** ** The stubs *)

Definition has_errcode (n : Z) : bool := existsb (Z.eqb n) [8; 10; 11; 12; 13; 14; 17].

(** [ISR_NOERRCODE], [ISR_ERRCODE] and [IRQ]. *)
Definition stub_prologue (st : stub) (x : machine) : machine :=
  let x := cli x in
  match st with
  | Isr n => push n (if has_errcode n then x else push 0 x)
  | Irq n => push (n + 32) (push 0 x)
  end.

Definition pusha (x : machine) : machine :=
  let c := fst x in
  push (edi c) (push (esi c) (push (ebp c) (push (esp c) (push (ebx c) (push (edx c)
    (push (ecx c) (push (eax c) x))))))).

(** [isr_common_stub] and [irq_common_stub] up to the call: the pointer that
    is passed, and the machine at the first instruction of the C function. *)
Definition stub_save (ret : Z) (x : machine) : Z * machine :=
  let x := pusha x in
  let c := fst x in
  let x := (set_eax (Z.lor (Z.land (eax c) 0xFFFF0000) (u16 (ds c))) c, snd x) in
  let x := push (eax (fst x)) x in
  let c := fst x in
  let x := (set_segs 0x10 (set_eax (Z.lor (Z.land (eax c) 0xFFFF0000) 0x10) c), snd x) in
  let p := esp (fst x) in
  (p, push ret (push p x)).

(** [popa] skips the saved stack pointer. *)
Definition popa (x : machine) : machine :=
  let c := fst x in
  (mk_cpu (peek x 28) (peek x 24) (peek x 20) (peek x 16) (u32 (esp c + 32)) (peek x 8) (peek x 4)
     (peek x 0) (eip c) (eflags c) (cs c) (ds c) (es c) (fs c) (gs c) (ss c), snd x).

Definition add_esp (n : Z) (x : machine) : machine := (set_esp (u32 (esp (fst x) + n)) (fst x), snd x).

(** The rest of the two stubs, from the return of the C function. *)
Definition stub_restore (g : Gdt.segst) (x : machine) : machine :=
  let x := add_esp 4 x in          (* ret *)
  let x := add_esp 4 x in
  let v := peek x 0 in
  let x := add_esp 4 x in
  let x := (set_segs (u16 v) (set_eax v (fst x)), snd x) in
  iret g (sti (add_esp 8 (popa x))).

(** What a C function may leave in the scratch registers. *)
Definition clobber (k : Z * Z * Z) (c : cpu) : cpu :=
  mk_cpu (fst (fst k)) (snd (fst k)) (snd k) (ebx c) (esp c) (ebp c) (esi c) (edi c)
    (eip c) (eflags c) (cs c) (ds c) (es c) (fs c) (gs c) (ss c).

Definition all_stubs : list stub :=
  (Isr <$> seqZ 0 32) ++ [Isr 128] ++ (Irq <$> seqZ 0 16).

(** The stub whose code is at an address. *)
Definition stub_at (entry : stub -> Z) (a : Z) : option stub :=
  find (fun st => entry st =? a) all_stubs.

(** ** The C handlers *)

(** Fields of [struct registers] at [p]. *)
Definition r_ds (m : mem) (p : Z) : Z := ld32 m p.
Definition r_edi (m : mem) (p : Z) : Z := ld32 m (p + 4).
Definition r_esi (m : mem) (p : Z) : Z := ld32 m (p + 8).
Definition r_ebp (m : mem) (p : Z) : Z := ld32 m (p + 12).
Definition r_esp (m : mem) (p : Z) : Z := ld32 m (p + 16).
Definition r_ebx (m : mem) (p : Z) : Z := ld32 m (p + 20).
Definition r_edx (m : mem) (p : Z) : Z := ld32 m (p + 24).
Definition r_ecx (m : mem) (p : Z) : Z := ld32 m (p + 28).
Definition r_eax (m : mem) (p : Z) : Z := ld32 m (p + 32).
Definition r_int_no (m : mem) (p : Z) : Z := ld32 m (p + 36).
Definition r_err_code (m : mem) (p : Z) : Z := ld32 m (p + 40).
Definition r_eip (m : mem) (p : Z) : Z := ld32 m (p + 44).
Definition r_cs (m : mem) (p : Z) : Z := ld32 m (p + 48).
Definition r_eflags (m : mem) (p : Z) : Z := ld32 m (p + 52).
Definition r_useresp (m : mem) (p : Z) : Z := ld32 m (p + 56).
Definition r_ss (m : mem) (p : Z) : Z := ld32 m (p + 60).

Definition exception_messages : list chars :=
  [ $"Division By Zero"; $"Debug"; $"Non Maskable Interrupt"; $"Breakpoint";
    $"Overflow"; $"Bound Range Exceeded"; $"Invalid Opcode"; $"Device Not Available";
    $"Double Fault"; $"Coprocessor Segment Overrun"; $"Invalid TSS"; $"Segment Not Present";
    $"Stack-Segment Fault"; $"General Protection Fault"; $"Page Fault"; $"Reserved";
    $"x87 Floating-Point Exception"; $"Alignment Check"; $"Machine Check";
    $"SIMD Floating-Point Exception" ].

Definition frame_regs (m : mem) (p : Z) : Syscall.registers :=
  Syscall.mk_regs (r_eax m p) (r_ebx m p) (r_ecx m p) (r_edx m p) (r_esi m p) (r_edi m p) (r_ebp m p).

(** The kernel state the handlers work on: the system calls with the flat
    memory, the call a system call made into another component, and the
    interrupt tables. *)
Record kern : Type := mk_kern {
  k_sys : Syscall.sysst;
  k_call : option Syscall.kcall;
  k_irq : irqst;
}.
Definition kmem (x : kern) : mem := Syscall.umem (k_sys x).
Definition set_kmem (m : mem) (x : kern) : kern :=
  mk_kern (Syscall.set_umem m (k_sys x)) (k_call x) (k_irq x).

(** A C handler returns, or halts the machine. *)
Inductive handled (A : Type) : Type :=
| Returns (x : A)
| Halts (x : A).
Arguments Returns {A} x.
Arguments Halts {A} x.

Definition exception_report (n err : Z) (t : Terminal.term) : Terminal.term :=
  let t := Terminal.terminal_writestring ([10] ++ $"[EXCEPTION] ") t in
  let t := if n <? 20 then Terminal.terminal_writestring (exception_messages !!! Z.to_nat n) t
           else Terminal.terminal_writestring $"Unknown" t in
  let t := Terminal.terminal_writestring $" (int " t in
  let t := Terminal.terminal_write_uint n t in
  let t := Terminal.terminal_writestring $", err " t in
  let t := Terminal.terminal_write_uint err t in
  Terminal.terminal_writestring ($") -- system halted" ++ [10]) t.

Definition isr_handler (p : Z) (x : kern) : out (handled kern) :=
  let s := k_sys x in
  let m := kmem x in
  if r_int_no m p =? 128 then
    '((r, k), s') ← Syscall.syscall_handler (frame_regs m p) s;
    Ret (Returns (mk_kern (Syscall.set_umem (st32 (Syscall.umem s') (p + 32) (Syscall.eax r)) s') k (k_irq x)))
  else
    Ret (Halts (mk_kern
      (Syscall.set_tty (exception_report (r_int_no m p) (r_err_code m p) (Syscall.tty s)) s)
      (k_call x) (k_irq x))).

(** The driver functions behind the pointers are arguments: [run f p] is the
    function at address [f] called with the frame at [p]. *)
Definition irq_handler (run : Z -> Z -> kern -> kern) (p : Z) (x : kern) : kern :=
  let irq_num := s32 (r_int_no (kmem x) p) - 32 in
  if (irq_num <? 0) || (15 <? irq_num) then x
  else
    let f := irq_handlers (k_irq x) !!! Z.to_nat irq_num in
    let x := if f =? 0 then x else run f p x in
    mk_kern (k_sys x) (k_call x) (set_io (pic_send_eoi (u8 irq_num) (io (k_irq x))) (k_irq x)).

(** ** One interrupt *)

(** The C function a stub calls. *)
Definition stub_call (run : Z -> Z -> kern -> kern) (st : stub) (p : Z) (x : kern) : out (handled kern) :=
  match st with Isr _ => isr_handler p x | Irq _ => Ret (Returns (irq_handler run p x)) end.

(** From arrival to [iret]. *)
Definition interrupt (entry : stub -> Z) (run : Z -> Z -> kern -> kern) (g : Gdt.segst)
    (v : Z) (soft : bool) (err : option Z) (ret : Z) (k : Z * Z * Z) (c : cpu) (x : kern)
    : option (out (handled (cpu * kern))) :=
  y ← deliver g (k_irq x) v soft err (c, kmem x);
  st ← stub_at entry (eip (fst y));
  let '(p, y) := stub_save ret (stub_prologue st y) in
  Some (h ← stub_call run st p (set_kmem (snd y) x);
        match h with
        | Halts x' => Ret (Halts (clobber k (fst y), x'))
        | Returns x' =>
            let z := stub_restore g (clobber k (fst y), kmem x') in
            Ret (Returns (fst z, set_kmem (snd z) x'))
        end).

End Irq.
