(* ===== verification/IrqSpec.v ===== *)
(** * What the interrupt code promises (src/src/irq.c, idt.c, isr.s)

    Every vector of the installed table leads to its own stub; the masks of
    the interrupt controllers follow the calls; a stub passes the
    interrupted registers in the layout of [struct registers] and gives them
    back, es, fs and gs as copies of ds; int 0x80 is a system call on the caller's registers; an interrupt
    line runs its driver and acknowledges; an exception is reported with its
    number and error code. *)

From S2P Require Import Prelude Memory Ports Terminal Kmalloc Fs FsSpec Syscall SyscallSpec Gdt Irq.
Import Ports Irq.

Module IrqSpec.

(** ** Gates *)

Definition gate_at (t : list idt_entry) (v : Z) : option gate :=
  e ← t !! Z.to_nat v;
  let d := gate_raw e in
  if gate_present d && (gate_type d =? 0xE)
  then Some (mk_gate (gate_offset d) (gate_sel d) (gate_dpl d)) else None.

(** What the table should hold. *)
Definition vector_gate (entry : stub -> Z) (v : Z) : option gate :=
  if v <? 20 then Some (mk_gate (entry (Isr v)) 0x08 0)
  else if (32 <=? v) && (v <? 48) then Some (mk_gate (entry (Irq (v - 32))) 0x08 0)
  else if v =? 128 then Some (mk_gate (entry (Isr 128)) 0x08 3)
  else None.

Definition vectors_ok (entry : stub -> Z) (s : irqst) : Prop :=
  forall v, 0 <= v < 256 -> gate_of s v = vector_gate entry v.

Lemma gate_fields h fl :
  in_u32 h -> 0 <= fl < 256 ->
  let d := gate_raw (mk_ie (u16 (Z.land h 0xFFFF)) (u16 0x08) 0 (u8 fl)
                       (u16 (Z.land (Z.shiftr h 16) 0xFFFF))) in
  gate_offset d = h /\ gate_sel d = 0x08 /\ Gdt.bits d 40 8 = fl.
Proof.
  unfold in_u32. intros Hh Hf. cbn zeta.
  unfold gate_raw, gate_offset, gate_sel, Gdt.bits. cbn [base_low sel always0 flags base_high].
  rewrite !Gdt.land_ffff, !Z.shiftl_mul_pow2, !Z.shiftr_div_pow2 by lia.
  unfold u8, u16. rewrite !Z.mod_mod by lia. rewrite (Z.mod_small fl), (Z.mod_small 8) by lia.
  change (2 ^ 0) with 1. change (2 ^ 16) with 65536. change (2 ^ 8) with 256.
  change (2 ^ 32) with 4294967296. change (2 ^ 40) with 1099511627776.
  change (2 ^ 48) with 281474976710656. repeat split; zlia.
Qed.

(** The type, privilege and presence bits are those of the flag byte. *)
Lemma gate_flag_bits d fl :
  Gdt.bits d 40 8 = fl ->
  gate_type d = Gdt.bits fl 0 5 /\ gate_dpl d = Gdt.bits fl 5 2
  /\ Gdt.bits d 47 1 = Gdt.bits fl 7 1.
Proof.
  intros <-. unfold gate_type, gate_dpl, Gdt.bits.
  change (2 ^ 0) with 1. change (2 ^ 1) with 2. change (2 ^ 2) with 4. change (2 ^ 5) with 32.
  change (2 ^ 7) with 128. change (2 ^ 8) with 256.
  replace (2 ^ 45) with (2 ^ 40 * 32) by done. replace (2 ^ 47) with (2 ^ 40 * 128) by done.
  rewrite <- !(Z.div_div _ (2 ^ 40)) by lia. generalize (d / 2 ^ 40). intros z.
  repeat split; zlia.
Qed.

Lemma gate_at_set n h fl s v :
  0 <= n < 256 -> 0 <= v < 256 -> length (idt s) = IDT_ENTRIES -> in_u32 h ->
  fl = IDT_FLAGS \/ fl = IDT_FLAGS_USER ->
  gate_at (idt (idt_set_gate n h 0x08 fl s)) v =
  if decide (v = n) then Some (mk_gate h 0x08 (if fl =? IDT_FLAGS then 0 else 3))
  else gate_at (idt s) v.
Proof.
  intros Hn Hv Hl Hh Hf. unfold gate_at, idt_set_gate. cbn [idt set_idt].
  rewrite u8_small by lia. case_decide as E.
  - subst v. rewrite list_lookup_insert_eq by (rewrite Hl; unfold IDT_ENTRIES; lia).
    cbn [mbind option_bind].
    destruct (gate_fields h fl Hh) as (E1 & E2 & E3).
    { destruct Hf as [-> | ->]; unfold IDT_FLAGS, IDT_FLAGS_USER; lia. }
    set (d := gate_raw _) in *. destruct (gate_flag_bits d fl E3) as (E4 & E5 & E6).
    unfold gate_present. rewrite E1, E2, E4, E5, E6. by destruct Hf as [-> | ->].
  - rewrite list_lookup_insert_ne by lia. done.
Qed.

Lemma gate_at_clear n s v :
  0 <= n < 256 -> 0 <= v < 256 -> length (idt s) = IDT_ENTRIES ->
  gate_at (idt (idt_set_gate n 0 0 0 s)) v = if decide (v = n) then None else gate_at (idt s) v.
Proof.
  intros Hn Hv Hl. unfold gate_at, idt_set_gate. cbn [idt set_idt].
  rewrite u8_small by lia. case_decide as E.
  - subst v. by rewrite list_lookup_insert_eq by (rewrite Hl; unfold IDT_ENTRIES; lia).
  - rewrite list_lookup_insert_ne by lia. done.
Qed.

Lemma length_set_gate n h se fl s : length (idt (idt_set_gate n h se fl s)) = length (idt s).
Proof. apply length_insert. Qed.

(** A block of gates [k .. k+n-1]. *)
Lemma gate_at_block n k (h : Z -> Z) s v :
  0 <= k -> k + Z.of_nat n <= 256 -> 0 <= v < 256 -> length (idt s) = IDT_ENTRIES ->
  (forall i, in_u32 (h i)) ->
  let s' := for_up n 0 (fun i => idt_set_gate (k + i) (h i) 0x08 IDT_FLAGS) s in
  length (idt s') = IDT_ENTRIES /\ idtr s' = idtr s /\
  gate_at (idt s') v =
  if decide (k <= v < k + Z.of_nat n) then Some (mk_gate (h (v - k)) 0x08 0) else gate_at (idt s) v.
Proof.
  intros Hk Hn Hv Hl Hh. cbn zeta.
  pose (P (j : Z) (s' : irqst) := length (idt s') = IDT_ENTRIES /\ idtr s' = idtr s /\
    gate_at (idt s') v =
    if decide (k <= v < k + j) then Some (mk_gate (h (v - k)) 0x08 0) else gate_at (idt s) v).
  apply (for_up_inv P n 0).
  - split_and!; [done..|]. by rewrite decide_False by lia.
  - intros j b Hj (H1 & H2 & H3). split_and!; [by rewrite length_set_gate | done |].
    rewrite gate_at_set, H3 by (lia || done || by left).
    repeat case_decide; try lia; try done. subst v. repeat f_equal. lia.
Qed.

(** The table after [idt_init], [isr_install] and [irq_install]. *)
Definition install (dev : device) (entry : stub -> Z) (idt_addr : Z) (s : irqst) : irqst :=
  irq_install dev entry (isr_install entry (idt_init idt_addr s)).

Lemma install_vectors dev entry idt_addr s :
  length (idt s) = IDT_ENTRIES -> (forall st, in_u32 (entry st)) ->
  vectors_ok entry (install dev entry idt_addr s).
Proof.
  intros Hl He v Hv. unfold install, irq_install, isr_install.
  set (s0 := idt_init idt_addr s).
  assert (H0 : length (idt s0) = IDT_ENTRIES /\ idtr s0 = (2047, idt_addr)
               /\ gate_at (idt s0) v = None).
  { subst s0. unfold idt_init. set (s1 := mk_irq _ _ _ _ _).
    pose (P (j : Z) (s' : irqst) := length (idt s') = IDT_ENTRIES /\ idtp s' = (2047, idt_addr)
                                    /\ (v < j -> gate_at (idt s') v = None)).
    assert (HP : P (0 + Z.of_nat IDT_ENTRIES)
                   (for_up IDT_ENTRIES 0 (fun i => idt_set_gate i 0 0 0) s1)).
    { apply for_up_inv; [split_and!; [done | done | lia]|].
      unfold IDT_ENTRIES at 1. intros j b Hj (H1 & H2 & H3).
      split_and!; [by rewrite length_set_gate | done |]. intros Hvj.
      rewrite gate_at_clear by (lia || done). case_decide; [done | apply H3; lia]. }
    destruct HP as (H1 & H2 & H3). unfold IDT_ENTRIES in H3.
    cbn [idt_load idt idtr]. split_and!; [done | done | apply H3; lia]. }
  destruct H0 as (H1 & H2 & H3).
  destruct (gate_at_block 20 0 (fun i => entry (Isr i)) s0 v) as (A1 & A2 & A3); try (done || lia).
  set (s1 := for_up 20 0 _ s0) in *.
  assert (B1 : length (idt (idt_set_gate 128 (entry (Isr 128)) 8 IDT_FLAGS_USER s1)) = IDT_ENTRIES)
    by (by rewrite length_set_gate).
  destruct (gate_at_block 16 32 (fun i => entry (Irq i))
      (set_io (pic_init_masks (pic_remap dev (io (idt_set_gate 128 (entry (Isr 128)) 8 IDT_FLAGS_USER s1))))
         (idt_set_gate 128 (entry (Isr 128)) 8 IDT_FLAGS_USER s1)) v) as (C1 & C2 & C3);
    try (done || lia).
  unfold gate_of. rewrite C2. cbn [set_io idtr idt_set_gate set_idt]. rewrite A2, H2. cbn [fst].
  destruct (Z.ltb_spec 2047 (8 * v + 7)); [lia|].
  etrans; [exact C3|]. unfold vector_gate. clear C1 C2 C3 B1.
  cbn [set_io idt]. rewrite gate_at_set by (lia || done || by right). rewrite A3, H3.
  destruct (Z.ltb_spec v 20), (Z.leb_spec 32 v), (Z.ltb_spec v 48), (Z.eqb_spec v 128);
    cbn [andb]; repeat case_decide; try lia; try done; repeat f_equal; lia.
Qed.

(** What the interrupt path needs of the segments: [Gdt.segments_installed]
    and [tss_set_kernel_stack] give it. *)
Record segs_ok (g : Gdt.segst) : Prop := {
  so_code : Gdt.segment_of g Gdt.GDT_KCODE = Some (Gdt.mk_segment 0 0xFFFFFFFF 0 1 0xA);
  so_ss0 : Gdt.tss_ss0 g = Gdt.GDT_KDATA;
}.

Lemma user_gates entry s g v x :
  vectors_ok entry s -> segs_ok g -> 0 <= v < 256 -> cpl (fst x) = 3 ->
  is_Some (deliver g s v true None x) <-> v = 128.
Proof.
  intros HV [Hk _] Hv Hc. unfold deliver. rewrite (HV v Hv), Hc. unfold vector_gate.
  destruct (Z.ltb_spec v 20) as [H|H]; [|destruct (Z.leb_spec 32 v), (Z.ltb_spec v 48); cbn [andb];
    [|destruct (Z.eqb_spec v 128)..]]; cbn [mbind option_bind g_sel g_dpl andb];
    change 8 with Gdt.GDT_KCODE; rewrite ?Hk; cbn [mbind option_bind andb];
    try change (0 <? 3) with true; try change (3 <? 3) with false; cbn iota;
    (split; [intros [? Hx]; first [discriminate Hx | lia | assumption] | intros; first [lia | by eexists]]).
Qed.

(** After [idt_init], [isr_install] and [irq_install], each of the 256
    vectors is what it should be: exceptions 0 to 19 and the sixteen lines
    are ring 0 interrupt gates to their own stubs, 128 is a ring 3 gate to
    the system-call stub, and every other vector is absent.  So a program in
    ring 3 can enter the kernel by [int] through 128 and no other vector. *)
Theorem vectors_installed dev entry idt_addr s g :
  length (idt s) = IDT_ENTRIES -> (forall st, in_u32 (entry st)) -> segs_ok g ->
  vectors_ok entry (install dev entry idt_addr s)
  /\ forall v x, 0 <= v < 256 -> cpl (fst x) = 3 ->
       is_Some (deliver g (install dev entry idt_addr s) v true None x) <-> v = 128.
Proof.
  intros Hl He Hg. assert (HV := install_vectors dev entry idt_addr s Hl He).
  split; [exact HV|]. intros v x Hv Hc. by apply (user_gates entry).
Qed.

(** ** The stack *)

(** 32-bit words from [a] on. *)
Definition words (m : mem) (a : Z) (n : nat) : list Z :=
  (fun i => ld32 m (a + 4 * i)) <$> seqZ 0 (Z.of_nat n).

(** The memory and stack pointer after pushing [vs] in order. *)
Fixpoint pushw (vs : list Z) (a : Z) (m : mem) : Z * mem :=
  match vs with
  | [] => (a, m)
  | v :: vs' => pushw vs' (u32 (a - 4)) (st32 m (u32 (a - 4)) v)
  end.

Lemma pushw_out vs a m b :
  4 * Z.of_nat (length vs) <= a < 4294967296 -> b < a - 4 * Z.of_nat (length vs) \/ a <= b ->
  fst (pushw vs a m) = a - 4 * Z.of_nat (length vs) /\ ld8 (snd (pushw vs a m)) b = ld8 m b.
Proof.
  revert a m. induction vs as [|v vs IH]; intros a m Ha Hb; simpl length in *; cbn [pushw].
  - split; [simpl; lia | done].
  - rewrite u32_small by (unfold in_u32; lia).
    destruct (IH (a - 4) (st32 m (a - 4) v)) as [-> ->]; [lia | lia|].
    split; [lia | apply ld8_st32_ne; lia].
Qed.

Lemma pushw_words vs a m (i : nat) v :
  4 * Z.of_nat (length vs) <= a < 4294967296 -> vs !! i = Some v ->
  ld32 (snd (pushw vs a m)) (a - 4 - 4 * Z.of_nat i) = u32 v.
Proof.
  revert a m i. induction vs as [|w vs IH]; intros a m i Ha Hi; [done|].
  simpl length in *; cbn [pushw]. rewrite u32_small by (unfold in_u32; lia).
  destruct i as [|i]; simpl in Hi.
  - injection Hi as ->. rewrite <- (ld32_st32_eq m (a - 4) v).
    replace (a - 4 - 4 * Z.of_nat 0) with (a - 4) by lia. apply ld32_ext. intros b Hb.
    apply pushw_out; lia.
  - replace (a - 4 - 4 * Z.of_nat (S i)) with (a - 4 - 4 - 4 * Z.of_nat i) by lia.
    apply IH; [lia | done].
Qed.

(** What the processor and the stub push, in order. *)
Definition hw_pushes (c : cpu) (err : option Z) : list Z :=
  (if cpl c =? 3 then [ss c; esp c] else []) ++ [eflags c; cs c; eip c]
  ++ match err with Some e => [e] | None => [] end.
Definition stub_pushes (st : stub) (k : Z) (c : cpu) : list Z :=
  match st with Isr n => if has_errcode n then [n] else [0; n] | Irq n => [0; n + 32] end
  ++ [eax c; ecx c; edx c; ebx c; k; ebp c; esi c; edi c;
      Z.lor (Z.land (eax c) 0xFFFF0000) (u16 (ds c))].

(** The stack the interrupt arrives on. *)
Definition stack_top (g : Gdt.segst) (c : cpu) : Z :=
  if cpl c =? 3 then Gdt.tss_esp0 g else esp c.

(** The stub agrees with the processor on the error code. *)
Definition err_matches (st : stub) (err : option Z) : Prop :=
  match st with Isr n => has_errcode n = bool_decide (is_Some err) | Irq _ => err = None end.
Definition stub_number (st : stub) : Z := match st with Isr n => n | Irq n => n + 32 end.

Definition frame_size (c : cpu) : Z := if cpl c =? 3 then 64 else 56.

(** [struct registers] at [p] describes the interrupted machine. *)
Record frame_of (st : stub) (err : option Z) (c : cpu) (m : mem) (p : Z) : Prop := {
  fo_ds : u16 (r_ds m p) = u16 (ds c);
  fo_edi : r_edi m p = u32 (edi c);
  fo_esi : r_esi m p = u32 (esi c);
  fo_ebp : r_ebp m p = u32 (ebp c);
  fo_ebx : r_ebx m p = u32 (ebx c);
  fo_edx : r_edx m p = u32 (edx c);
  fo_ecx : r_ecx m p = u32 (ecx c);
  fo_eax : r_eax m p = u32 (eax c);
  fo_int_no : r_int_no m p = u32 (stub_number st);
  fo_err : r_err_code m p = u32 (default 0 err);
  fo_eip : r_eip m p = u32 (eip c);
  fo_cs : r_cs m p = u32 (cs c);
  fo_eflags : r_eflags m p = u32 (eflags c);
  fo_user : cpl c = 3 -> r_useresp m p = u32 (esp c) /\ r_ss m p = u32 (ss c);
}.

(** The machine at the first instruction of the C function. *)
Record at_handler (g : Gdt.segst) (st : stub) (err : option Z) (c : cpu) (m : mem)
    (p : Z) (c1 : cpu) (m1 : mem) : Prop := {
  ah_p : p = stack_top g c - frame_size c;
  ah_esp : esp c1 = p - 8;
  ah_cs : cs c1 = 8;
  ah_ss : cpl c = 0 -> ss c1 = ss c;
  ah_frame : frame_of st err c m1 p;
  ah_out : forall a, a < p - 8 \/ stack_top g c <= a -> ld8 m1 a = ld8 m a;
}.

Lemma lor_low16 a b : u16 (Z.lor (Z.land a 0xFFFF0000) (u16 b)) = u16 b.
Proof.
  unfold u16. change 65536 with (2 ^ 16). rewrite <- !Z.land_ones by lia.
  apply Z.bits_inj'. intros n Hn. rewrite !Z.land_spec, Z.lor_spec, !Z.land_spec.
  destruct (decide (n < 16)).
  - change 0xFFFF0000 with (Z.shiftl (Z.ones 16) 16). rewrite Z.shiftl_spec_low by lia.
    rewrite andb_false_r, orb_false_l. by rewrite Z.ones_spec_low, !andb_true_r by lia.
  - by rewrite !Z.ones_spec_high, !andb_false_r by lia.
Qed.

Lemma u16_u32 z : u16 (u32 z) = u16 z.
Proof. unfold u16, u32. zlia. Qed.

(** The frame as the words of one run of pushes. *)
Lemma at_handler_intro g st err c m c1 K ret num :
  let top := stack_top g c in
  let L := hw_pushes c err ++ num ++ [eax c; ecx c; edx c; ebx c; K; ebp c; esi c; edi c;
             Z.lor (Z.land (eax c) 0xFFFF0000) (u16 (ds c))] in
  let p := top - frame_size c in
  match err with Some e => num = [stub_number st] | None => num = [0; stub_number st] end ->
  72 <= top < 4294967296 -> cs c1 = 8 -> (cpl c = 0 -> ss c1 = ss c) ->
  esp c1 = fst (pushw (L ++ [p; ret]) top m) ->
  at_handler g st err c m p c1 (snd (pushw (L ++ [p; ret]) top m)).
Proof.
  cbn zeta. intros Hnum Ht Hcs Hss Hesp.
  set (L := hw_pushes c err ++ _ ++ _) in *. set (top := stack_top g c) in *.
  set (p := top - frame_size c) in *.
  assert (HL : 4 * Z.of_nat (length L) = frame_size c).
  { subst L. unfold frame_size, hw_pushes. destruct (cpl c =? 3), err; rewrite Hnum; done. }
  assert (HL2 : 4 * Z.of_nat (length (L ++ [p; ret])) = frame_size c + 8)
    by (rewrite length_app, Nat2Z.inj_add; simpl; lia).
  assert (Hfs : 56 <= frame_size c <= 64) by (unfold frame_size; destruct (_ =? 3); lia).
  assert (W : forall k v, L !! k = Some v ->
    ld32 (snd (pushw (L ++ [p; ret]) top m)) (p + (frame_size c - 4 - 4 * Z.of_nat k)) = u32 v).
  { intros k v Hk. rewrite <- (pushw_words (L ++ [p; ret]) top m k v); [f_equal; subst p; lia | lia |].
    by apply lookup_app_l_Some. }
  split; try done.
  - rewrite Hesp. destruct (pushw_out (L ++ [p; ret]) top m top) as [-> _]; subst p; lia.
  - generalize dependent (snd (pushw (L ++ [p; ret]) top m)). intros M W.
    clearbody p top. clear HL HL2 Hesp. unfold frame_size, hw_pushes in *. subst L.
    destruct (Z.eqb_spec (cpl c) 3) as [E3|E3]; destruct err as [e|]; subst num;
      cbn [app] in W; split; unfold r_ds, r_edi, r_esi, r_ebp, r_ebx, r_edx, r_ecx, r_eax, r_int_no,
        r_err_code, r_eip, r_cs, r_eflags, r_useresp, r_ss.
    all: try (intros ?; first [contradiction | split]).
    all: try match goal with |- u16 (ld32 _ ?q) = u16 (ds ?d) =>
      rewrite <- (Z.add_0_r q); rewrite <- (lor_low16 (eax d) (ds d)), <- (u16_u32 (Z.lor _ _)); f_equal end.
    all: match goal with W : forall k v, _ -> ld32 _ (_ + (?fs - _ - _)) = _ |- ld32 _ (_ + ?o) = _ =>
        let k := eval vm_compute in (Z.to_nat ((fs - 4 - o) / 4)) in exact (W k _ eq_refl) end.
  - intros a Ha. apply pushw_out; [lia|]. subst p. lia.
Qed.

Lemma pair3 {A B C} (x : A * (B * C)) : x = (fst x, (fst (snd x), snd (snd x))).
Proof. by destruct x as [? []]. Qed.

(** From the gate to the C function. *)
Lemma interrupt_entry entry g s v soft err ret c m st dpl :
  gate_of s v = Some (mk_gate (entry st) 0x08 dpl) -> (soft = true -> cpl c <= dpl) ->
  segs_ok g -> cpl c = 0 \/ cpl c = 3 -> err_matches st err ->
  72 <= stack_top g c < 4294967296 ->
  exists y c1 m1, deliver g s v soft err (c, m) = Some y /\ eip (fst y) = entry st
    /\ stub_save ret (stub_prologue st y) = (stack_top g c - frame_size c, (c1, m1))
    /\ at_handler g st err c m (stack_top g c - frame_size c) c1 m1.
Proof.
  intros Hgate Hsoft [Hk _] Hc Herr Ht. unfold deliver. rewrite Hgate. cbn [mbind option_bind g_sel].
  change 8 with Gdt.GDT_KCODE. rewrite Hk. cbn [mbind option_bind g_dpl Gdt.sg_dpl g_offset fst].
  destruct (soft && (dpl <? cpl c)) eqn:Es.
  { apply andb_prop in Es as [E1 E2]. apply Z.ltb_lt in E2. specialize (Hsoft E1). lia. }
  set (num := match err with Some _ => [stub_number st] | None => [0; stub_number st] end).
  set (K := fst (pushw (hw_pushes c err ++ num) (stack_top g c) m)).
  set (L := hw_pushes c err ++ num ++ [eax c; ecx c; edx c; ebx c; K; ebp c; esi c; edi c;
             Z.lor (Z.land (eax c) 0xFFFF0000) (u16 (ds c))]).
  set (p := stack_top g c - frame_size c).
  assert (Hp : fst (pushw L (stack_top g c) m) = p).
  { assert (HL : 4 * Z.of_nat (length L) = frame_size c).
    { subst L num. unfold frame_size, hw_pushes. destruct (cpl c =? 3), err; done. }
    assert (56 <= frame_size c <= 64) by (unfold frame_size; destruct (_ =? 3); lia).
    destruct (pushw_out L (stack_top g c) m (stack_top g c)) as [-> _]; lia. }
  match goal with |- exists y c1 m1, Some ?Y = Some y /\ _ => set (Y0 := Y) end.
  set (X := stub_save ret (stub_prologue st Y0)).
  assert (HX : fst X = fst (pushw L (stack_top g c) m)
    /\ snd (snd X) = snd (pushw (L ++ [fst (pushw L (stack_top g c) m); ret]) (stack_top g c) m)
    /\ esp (fst (snd X)) = fst (pushw (L ++ [fst (pushw L (stack_top g c) m); ret]) (stack_top g c) m)
    /\ cs (fst (snd X)) = 8 /\ (cpl c = 0 -> ss (fst (snd X)) = ss c)).
  { subst X Y0 L K num. clear Hp p Ht. unfold stack_top, hw_pushes, stub_prologue.
    unfold err_matches in Herr. destruct Hc as [Hc|Hc]; rewrite Hc;
      (destruct st as [n|n]; [destruct err as [e|]; [change (bool_decide (is_Some (Some e))) with true in Herr
        | change (bool_decide (is_Some (@None Z))) with false in Herr]; rewrite Herr | subst err]);
      cbn [fst snd eax ecx edx ebx esp ebp esi edi eip eflags cs ds es fs gs ss push pushw app pusha
        stub_save set_esp set_eax set_eflags set_code set_ss set_segs cli stub_number
        Z.eqb Z.ltb Z.compare Pos.eqb];
      (split_and!; [reflexivity.. | intros ?; first [reflexivity | lia]]). }
  rewrite Hp in HX. destruct HX as (H1 & H2 & H3 & H4 & H5).
  exists Y0, (fst (snd X)), (snd (snd X)). split; [done|]. split; [done|].
  split; [rewrite <- H1; exact (pair3 X)|].
  rewrite H2.
  apply (at_handler_intro g st err c m _ K ret num); try done. by destruct err.
Qed.

Lemma u32_add_l x y : u32 (u32 x + y) = u32 (x + y).
Proof. unfold u32. by rewrite Z.add_mod_idemp_l by lia. Qed.

(** From the return of the C function to the interrupted program. *)
Lemma stub_restore_eq g c m p :
  esp c = p - 8 -> 8 <= p -> p + 64 < 4294967296 -> cs c = 8 ->
  let f := mk_cpu (r_eax m p) (r_ecx m p) (r_edx m p) (r_ebx m p) (p + 56) (r_ebp m p)
             (r_esi m p) (r_edi m p) (r_eip m p) (r_eflags m p) (u16 (r_cs m p))
             (u16 (r_ds m p)) (u16 (r_ds m p)) (u16 (r_ds m p)) (u16 (r_ds m p)) (ss c) in
  stub_restore g (c, m) =
  (if 0 <? cpl f then set_segs (revoke g (cpl f) (u16 (r_ds m p)))
                        (set_ss (u16 (r_ss m p)) (set_esp (r_useresp m p) f)) else f, m).
Proof.
  intros He Hp Hp2 Hcs. cbn zeta. unfold stub_restore.
  assert (E1 : add_esp 4 (add_esp 4 (c, m)) = (set_esp p c, m)).
  { unfold add_esp. cbn [fst snd esp set_esp]. rewrite He, u32_add_l.
    rewrite u32_small by (unfold in_u32; lia). by replace (p - 8 + 4 + 4) with p by lia. }
  rewrite E1. clear E1. cbn zeta.
  unfold iret, sti, popa, add_esp, peek.
  cbn [fst snd eax ecx edx ebx esp ebp esi edi eip eflags cs ds es fs gs ss set_esp set_eax set_eflags
    set_segs cpl]. rewrite !u32_add_l, Hcs, <- !Z.add_assoc.
  repeat match goal with |- context [u32 ?e] => rewrite (u32_small e) by (unfold in_u32; lia) end.
  rewrite !(Z.add_0_r p), <- !(Z.add_assoc p). unfold cpl. cbn [cs set_eflags set_esp].
  change (Z.land 8 3) with 0.
  change (ld32 m (p + (4 + (32 + (8 + 4))))) with (r_cs m p).
  destruct (0 <? _); reflexivity.
Qed.

(** A register file: 32-bit registers, 16-bit selectors; in ring 3 the data
    selector is one ring 3 may hold. *)
Record cpu_ok (g : Gdt.segst) (c : cpu) : Prop := {
  co_regs : Forall in_u32 [eax c; ecx c; edx c; ebx c; esp c; ebp c; esi c; edi c; eip c; eflags c];
  co_segs : Forall (fun x => 0 <= x < 65536) [cs c; ds c; ss c];
  co_ring : cpl c = 0 \/ cpl c = 3;
  co_data : revoke g (cpl c) (ds c) = ds c;
}.

Lemma interrupt_exit g st err c c1 m2 k a :
  cpu_ok g c -> let p := stack_top g c - frame_size c in
  72 <= stack_top g c -> stack_top g c < 4294967288 ->
  esp c1 = p - 8 -> cs c1 = 8 -> (cpl c = 0 -> ss c1 = ss c) ->
  in_u32 a -> frame_of st err (set_eax a c) m2 p ->
  stub_restore g (clobber k c1, m2) = (set_segs (ds c) (set_eax a c), m2).
Proof.
  intros [Hr Hs Hring Hd] p Ht1 Ht2 He Hcs Hss Ha F.
  assert (Hfs : frame_size c = 64 /\ cpl c = 3 \/ frame_size c = 56 /\ cpl c = 0).
  { unfold frame_size. destruct Hring as [E|E]; rewrite E; [by right | by left]. }
  rewrite (stub_restore_eq g (clobber k c1) m2 p); [|done | subst p; lia | subst p; lia | done].
  destruct F as [F1 F2 F3 F4 F5 F6 F7 F8 _ _ F9 F10 F11 F12].
  cbn [set_eax eax ecx edx ebx esp ebp esi edi eip eflags cs ds ss clobber] in *.
  rewrite !Forall_cons in Hr. rewrite !Forall_cons in Hs.
  destruct Hr as (? & ? & ? & ? & R & ? & ? & ? & ? & ? & _). destruct Hs as (Q1 & Q2 & Q3 & _).
  change (cpl (set_eax a c)) with (cpl c) in F12.
  unfold cpl at 1 2. cbn [cs]. rewrite F1, F2, F3, F4, F5, F6, F7, F8, F9, F10, F11, !u16_u32.
  rewrite !u32_small, (u16_small (cs c)), (u16_small (ds c)) by done.
  change (Z.land (cs c) 3) with (cpl c). rewrite Hd.
  destruct Hfs as [[E1 E2]|[E1 E2]]; rewrite E2; cbn [Z.ltb Z.compare].
  - destruct (F12 E2) as [F13 F14]. rewrite F13, F14, u16_u32, (u32_small (esp c)), (u16_small (ss c)) by done.
    reflexivity.
  - assert (Et : stack_top g c = esp c) by (unfold stack_top; by rewrite E2).
    replace (p + 56) with (esp c) by (subst p; lia). rewrite (Hss E2). reflexivity.
Qed.

(** The stub found at a gate's target. *)
Definition stubs_apart (entry : stub -> Z) : Prop := NoDup (entry <$> all_stubs).

Lemma stub_at_entry entry st : stubs_apart entry -> st ∈ all_stubs -> stub_at entry (entry st) = Some st.
Proof.
  unfold stubs_apart, stub_at. induction all_stubs as [|a l IH]; intros Hd Hin; [by apply not_elem_of_nil in Hin|].
  simpl in *. apply NoDup_cons in Hd as [Hn Hd]. destruct (Z.eqb_spec (entry a) (entry st)) as [E|E].
  - f_equal. apply elem_of_cons in Hin as [->|Hin]; [done|].
    exfalso. apply Hn. rewrite E. apply list_elem_of_fmap. eauto.
  - apply elem_of_cons in Hin as [->|Hin]; [done|]. by apply IH.
Qed.

(** A frame depends on the words from [p] on only. *)
Lemma frame_of_ext st err c m m' p :
  (forall a, p <= a < p + frame_size c -> ld8 m' a = ld8 m a) ->
  frame_of st err c m p -> frame_of st err c m' p.
Proof.
  intros H F. assert (Hfs : 56 <= frame_size c /\ (cpl c = 3 -> frame_size c = 64)).
  { unfold frame_size. destruct (Z.eqb_spec (cpl c) 3); [lia | split; [lia | done]]. }
  destruct Hfs as [H1 H2].
  assert (W : forall o, 0 <= o -> o + 4 <= 56 -> ld32 m' (p + o) = ld32 m (p + o)).
  { intros o Ho1 Ho2. apply ld32_ext. intros i Hi. apply H. lia. }
  destruct F as [F1 F2 F3 F4 F5 F6 F7 F8 F9 F10 F11 F12 F13 F14].
  assert (W0 : ld32 m' p = ld32 m p) by (rewrite <- (Z.add_0_r p); apply W; lia).
  split; unfold r_ds, r_edi, r_esi, r_ebp, r_ebx, r_edx, r_ecx, r_eax, r_int_no, r_err_code, r_eip, r_cs,
    r_eflags in *; try (rewrite W by lia; done); [by rewrite W0|].
  intros E3. destruct (F14 E3) as [A B]. rewrite <- A, <- B. specialize (H2 E3).
  split; apply ld32_ext; intros i Hi; apply H; lia.
Qed.

Lemma set_kmem_same x : set_kmem (kmem x) x = x.
Proof. by destruct x as [[[] ? ? ? ? ? ? ? ? ? ? ?] ? ?]. Qed.
Lemma kmem_set m x : kmem (set_kmem m x) = m.
Proof. done. Qed.

(** An interrupt through an installed gate: what the handler starts from,
    and what the interrupted program gets back. *)
Lemma interrupt_run entry run g v soft err ret k c x st dpl :
  gate_of (k_irq x) v = Some (mk_gate (entry st) 0x08 dpl) -> (soft = true -> cpl c <= dpl) ->
  stubs_apart entry -> st ∈ all_stubs -> segs_ok g -> cpu_ok g c -> err_matches st err ->
  72 <= stack_top g c -> stack_top g c < 4294967288 ->
  let p := stack_top g c - frame_size c in
  exists m1, frame_of st err c m1 p
    /\ (forall a, a < p - 8 \/ stack_top g c <= a -> ld8 m1 a = ld8 (kmem x) a)
    /\ (forall x2 a, stub_call run st p (set_kmem m1 x) = Ret (Returns x2) -> in_u32 a ->
          frame_of st err (set_eax a c) (kmem x2) p ->
          interrupt entry run g v soft err ret k c x =
          Some (Ret (Returns (set_segs (ds c) (set_eax a c), x2))))
    /\ (forall x2, stub_call run st p (set_kmem m1 x) = Ret (Halts x2) ->
          exists c2, interrupt entry run g v soft err ret k c x = Some (Ret (Halts (c2, x2)))).
Proof.
  intros Hg Hsoft Ha Hst Hs Hc He Ht1 Ht2 p.
  destruct (interrupt_entry entry g (k_irq x) v soft err ret c (kmem x) st dpl)
    as (y & c1 & m1 & E1 & E2 & E3 & [A1 A2 A3 A4 A5 A6]); try done; [apply (co_ring g c Hc) | lia |].
  exists m1. unfold interrupt. rewrite E1. cbn [mbind option_bind].
  rewrite E2, (stub_at_entry entry st Ha Hst). cbn [mbind option_bind]. rewrite E3. cbn [fst snd].
  split; [done|]. split; [done|]. split.
  - intros x2 a Hcall Hr Hf. fold p. rewrite Hcall. cbn [mbind out_mbind].
    rewrite (interrupt_exit g st err c c1 (kmem x2) k a) by done. cbn [fst snd].
    by rewrite set_kmem_same.
  - intros x2 Hcall. fold p. rewrite Hcall. cbn [mbind out_mbind]. eauto.
Qed.

(** [regs->eax = a] *)
Lemma frame_set_eax st err c m p a :
  frame_of st err c m p -> frame_of st err (set_eax a c) (st32 m (p + 32) a) p.
Proof.
  intros [F1 F2 F3 F4 F5 F6 F7 F8 F9 F10 F11 F12 F13 F14].
  split; unfold r_ds, r_edi, r_esi, r_ebp, r_ebx, r_edx, r_ecx, r_eax, r_int_no, r_err_code, r_eip, r_cs,
    r_eflags, r_useresp, r_ss in *; cbn [set_eax eax ecx edx ebx esp ebp esi edi eip eflags cs ds ss];
    try (rewrite ld32_st32_ne by lia; done); [apply ld32_st32_eq|].
  rewrite !ld32_st32_ne by lia. exact F14.
Qed.

Lemma stub_listed st :
  match st with Isr n => 0 <= n < 20 \/ n = 128 | Irq n => 0 <= n < 16 end -> st ∈ all_stubs.
Proof.
  unfold all_stubs. rewrite !elem_of_app, !list_elem_of_fmap. setoid_rewrite elem_of_seqZ.
  destruct st as [n|n]; [intros [H| ->]|intros H].
  - left. exists n. split; [done | lia].
  - right. left. by apply list_elem_of_singleton.
  - right. right. exists n. split; [done | lia].
Qed.

(** Registers of a well-formed machine are what the frame holds. *)
Lemma frame_regs_eq g st err c m p :
  cpu_ok g c -> frame_of st err c m p ->
  frame_regs m p = Syscall.mk_regs (eax c) (ebx c) (ecx c) (edx c) (esi c) (edi c) (ebp c).
Proof.
  intros [Hr _ _ _] [F1 F2 F3 F4 F5 F6 F7 F8 _ _ _ _ _ _]. rewrite !Forall_cons in Hr.
  destruct Hr as (? & ? & ? & ? & R & ? & ? & ? & ? & ? & _).
  unfold frame_regs. rewrite F2, F3, F4, F5, F6, F7, F8, !u32_small by done. done.
Qed.

(** The trap around a call that leaves the saved frame alone. *)
Lemma trap_run entry run g ret k c x :
  vectors_ok entry (k_irq x) -> stubs_apart entry -> segs_ok g -> cpu_ok g c -> cpl c = 3 ->
  72 <= Gdt.tss_esp0 g < 4294967288 ->
  let p := Gdt.tss_esp0 g - 64 in
  exists m1,
    (forall a, a < p - 8 \/ Gdt.tss_esp0 g <= a -> ld8 m1 a = ld8 (kmem x) a) /\
    forall r kc s2,
      Syscall.syscall_handler
        (Syscall.mk_regs (eax c) (ebx c) (ecx c) (edx c) (esi c) (edi c) (ebp c))
        (Syscall.set_umem m1 (k_sys x)) = Ret ((r, kc), s2) ->
      (forall a, p <= a < Gdt.tss_esp0 g -> ld8 (Syscall.umem s2) a = ld8 m1 a) ->
      interrupt entry run g 128 true None ret k c x =
      Some (Ret (Returns (set_segs (ds c) (set_eax (Syscall.eax r) c),
        mk_kern (Syscall.set_umem (st32 (Syscall.umem s2) (p + 32) (Syscall.eax r)) s2) kc (k_irq x)))).
Proof.
  intros HV Ha Hs Hc H3 Ht p.
  assert (Et : stack_top g c = Gdt.tss_esp0 g) by (unfold stack_top; by rewrite H3).
  assert (Ef : frame_size c = 64) by (unfold frame_size; by rewrite H3).
  destruct (interrupt_run entry run g 128 true None ret k c x (Isr 128) 3)
    as (m1 & F & O & HR & _); try done; [by rewrite HV by lia | lia | apply stub_listed; lia | lia | lia |].
  rewrite Et, Ef in F, O, HR. fold p in F, O, HR. exists m1. split; [exact O|]. intros r kc s2 Hsys Hkeep.
  apply (HR _ (Syscall.eax r)).
  - unfold stub_call, isr_handler. rewrite kmem_set, (fo_int_no _ _ _ _ _ F).
    change (u32 (stub_number (Isr 128)) =? 128) with true. cbn iota.
    rewrite (frame_regs_eq g _ _ c m1 p Hc F). cbn [set_kmem k_sys k_irq]. by rewrite Hsys.
  - unfold Syscall.syscall_handler in Hsys. apply bind_ret_inv in Hsys as ([[v kv] s'] & _ & Hsys).
    injection Hsys as <- <- <-. apply u32_range.
  - unfold kmem. cbn [k_sys]. apply frame_set_eax. apply (frame_of_ext _ _ _ m1); [|done].
    intros a Ha'. apply Hkeep. rewrite Ef in Ha'. subst p. lia.
Qed.

(** Words of a kernel stack outside the heap window do not matter to the
    components. *)
Lemma sys_ok_stack s m bs lo hi :
  SyscallSpec.sys_ok s bs -> hi <= Kmalloc.KHEAP_START \/ Kmalloc.HEAP_END <= lo ->
  (forall a, a < lo \/ hi <= a -> ld8 m a = ld8 (Syscall.umem s) a) ->
  SyscallSpec.sys_ok (Syscall.set_umem m s) bs.
Proof.
  intros [Hwf (H1 & H2 & H3 & H4)] Hd Hm. split; [by apply SyscallSpec.wf_umem|].
  split; [done|]. split; [done|]. split; [|done].
  eapply Kmalloc.chain_frame; [exact H3|]. intros i Hi. apply Hm. lia.
Qed.


(** C27. An exception 0 to 19, with the error code the processor pushes for
    it, halts the machine after one report that names its number and that
    error code (0 for the exceptions without one); nothing but the terminal
    and the stack changes. *)
Theorem exception_halts entry run g err ret k c x v :
  vectors_ok entry (k_irq x) -> stubs_apart entry -> segs_ok g -> cpu_ok g c ->
  0 <= v < 20 -> has_errcode v = bool_decide (is_Some err) -> in_u32 (default 0 err) ->
  72 <= stack_top g c -> stack_top g c < 4294967288 ->
  exists c2 m1, interrupt entry run g v false err ret k c x =
    Some (Ret (Halts (c2, mk_kern
      (Syscall.set_tty (exception_report v (default 0 err) (Syscall.tty (k_sys x)))
         (Syscall.set_umem m1 (k_sys x))) (k_call x) (k_irq x))))
    /\ forall a, a < stack_top g c - frame_size c - 8 \/ stack_top g c <= a -> ld8 m1 a = ld8 (kmem x) a.
Proof.
  intros HV Ha Hs Hc Hv He Hu Ht1 Ht2.
  destruct (interrupt_run entry run g v false err ret k c x (Isr v) 0)
    as (m1 & F & O & _ & HH); try done.
  { rewrite HV by lia. unfold vector_gate. destruct (Z.ltb_spec v 20); [done | lia]. }
  { apply stub_listed. lia. }
  destruct (HH (mk_kern
      (Syscall.set_tty (exception_report v (default 0 err) (Syscall.tty (k_sys x)))
         (Syscall.set_umem m1 (k_sys x))) (k_call x) (k_irq x))) as (c2 & E); [|by exists c2, m1].
  unfold stub_call, isr_handler. rewrite kmem_set, (fo_int_no _ _ _ _ _ F), (fo_err _ _ _ _ _ F).
  cbn [stub_number]. rewrite !u32_small by (unfold in_u32 in *; lia).
  destruct (Z.eqb_spec v 128); [lia | done].
Qed.

(** C26. An interrupt line runs its driver and is acknowledged: the handler
    registered for line [i], if any, is called with the frame of the
    interrupted program, then one end-of-interrupt goes to the master
    controller, preceded by one to the slave for lines 8 to 15.  When the
    driver leaves the frame alone, the interrupted program, in either ring,
    continues with its general registers, flags, stack, cs, ss and ds as they
    were; es, fs and gs come back as copies of ds, which the stub loads into
    all of them. *)
Theorem irq_serviced entry run g ret k c x i :
  vectors_ok entry (k_irq x) -> stubs_apart entry -> segs_ok g -> cpu_ok g c ->
  0 <= i < 16 -> 72 <= stack_top g c -> stack_top g c < 4294967288 ->
  let p := stack_top g c - frame_size c in
  exists m1,
    frame_of (Irq i) None c m1 p /\
    (forall a, a < p - 8 \/ stack_top g c <= a -> ld8 m1 a = ld8 (kmem x) a) /\
    let f := irq_handlers (k_irq x) !!! Z.to_nat i in
    let x2 := if f =? 0 then set_kmem m1 x else run f p (set_kmem m1 x) in
    (forall a, p <= a < stack_top g c -> ld8 (kmem x2) a = ld8 m1 a) ->
    interrupt entry run g (32 + i) false None ret k c x =
    Some (Ret (Returns (set_segs (ds c) c, mk_kern (k_sys x2) (k_call x2)
      (set_io ([Out 8 PIC1_COMMAND PIC_EOI] ++ (if 8 <=? i then [Out 8 PIC2_COMMAND PIC_EOI] else [])
               ++ io (k_irq x2)) (k_irq x2))))).
Proof.
  intros HV Ha Hs Hc Hi Ht1 Ht2 p.
  destruct (interrupt_run entry run g (32 + i) false None ret k c x (Irq i) 0)
    as (m1 & F & O & HR & _); try done.
  { rewrite HV by lia. unfold vector_gate. destruct (Z.ltb_spec (32 + i) 20); [lia|].
    destruct (Z.leb_spec 32 (32 + i)), (Z.ltb_spec (32 + i) 48); try lia. cbn [andb].
    by replace (32 + i - 32) with i by lia. }
  { by apply stub_listed. }
  exists m1. split; [done|]. split; [done|]. fold p in F, HR.
  intros f x2 Hkeep.
  replace (set_segs (ds c) c) with (set_segs (ds c) (set_eax (eax c) c)) by (by destruct c).
  apply HR.
  - unfold stub_call, irq_handler. rewrite kmem_set, (fo_int_no _ _ _ _ _ F). cbn [stub_number].
    rewrite (u32_small (i + 32)), s32_small by (unfold in_u32, in_s32; lia).
    replace (i + 32 - 32) with i by lia.
    destruct (Z.ltb_spec i 0), (Z.ltb_spec 15 i); try lia. cbn [orb set_kmem k_irq].
    rewrite (u8_small i) by lia. do 2 f_equal. unfold pic_send_eoi. by destruct (8 <=? i).
  - destruct Hc as [Hr _ _ _]. rewrite Forall_cons in Hr. exact (proj1 Hr).
  - replace (set_eax (eax c) c) with c by (by destruct c).
    apply (frame_of_ext _ _ _ m1); [|done]. intros a Ha'. change (kmem (mk_kern _ _ _)) with (kmem x2).
    apply Hkeep. subst p. lia.
Qed.

(** ** A concrete machine *)

Definition entry0 (st : stub) : Z :=
  u32 match st with Isr n => 0x100000 + 16 * n | Irq n => 0x200000 + 16 * n end.
Definition irq0 : irqst :=
  install (fun _ _ => 0) entry0 0x9000 (mk_irq (replicate 256 inhabitant) (0, 0) (0, 0) (replicate 16 0) []).
Definition seg0 : Gdt.segst :=
  Gdt.gdt_install 0x2000 0x3000 0x4000
    (Gdt.mk_seg (replicate 6 inhabitant) (0, 0) [] (0, 0) 0 0 []).
(** A ring 3 program about to call [getpid]. *)
Definition cpu0 : cpu := mk_cpu 20 2 3 4 0x5F0000 6 7 8 0x400100 0x202 0x1B 0x23 0x23 0x23 0x23 0x23.
Definition kern0 : kern :=
  mk_kern (Syscall.power_on Fs.bss_fs (Terminal.mk_term 0 0 0 [] [])) None irq0.

Lemma irq0_vectors : vectors_ok entry0 irq0.
Proof. apply install_vectors; [done | intros st; apply u32_range]. Qed.
Lemma entry0_apart : stubs_apart entry0.
Proof. apply (bool_decide_unpack _). vm_compute. exact I. Qed.
Lemma seg0_ok : segs_ok seg0.
Proof. by split. Qed.
Lemma cpu0_ok : cpu_ok seg0 cpu0.
Proof.
  split; [|by repeat (apply Forall_cons; split; [simpl; lia|]) | by right | done].
  repeat (apply Forall_cons; split; [unfold in_u32; simpl; lia|]). done.
Qed.
#[local] Hint Resolve irq0_vectors entry0_apart seg0_ok cpu0_ok : kernel.

Lemma vectors_installed_witness :
  is_Some (deliver seg0 irq0 128 true None (cpu0, ∅)).
Proof.
  destruct (vectors_installed (fun _ _ => 0) entry0 0x9000
    (mk_irq (replicate 256 inhabitant) (0, 0) (0, 0) (replicate 16 0) []) seg0) as [_ H];
    [done | intros st; apply u32_range | exact seg0_ok |].
  apply (H 128 (cpu0, ∅)); [lia | done | done].
Defined.

(** A booted kernel with a program about to call [getpid]. *)
Definition kern1 : kern := mk_kern (SyscallSpec.running FsSpec.booted) None irq0.


Lemma exception_halts_witness :
  exists c2 m1, interrupt entry0 (fun _ _ x => x) seg0 13 false (Some 24) 0 (0, 0, 0) cpu0 kern0
    = Some (Ret (Halts (c2, mk_kern
      (Syscall.set_tty (exception_report 13 24 (Syscall.tty (k_sys kern0)))
         (Syscall.set_umem m1 (k_sys kern0))) None irq0))).
Proof.
  destruct (exception_halts entry0 (fun _ _ x => x) seg0 (Some 24) 0 (0, 0, 0) cpu0 kern0 13)
    as (c2 & m1 & H & _); [exact irq0_vectors | exact entry0_apart | exact seg0_ok | exact cpu0_ok
    | lia | reflexivity | unfold in_u32; simpl; lia | done | done |].
  by exists c2, m1.
Defined.

Lemma irq_serviced_witness :
  exists x', interrupt entry0 (fun _ _ x => x) seg0 (32 + 12) false None 0 (0, 0, 0) cpu0 kern0
    = Some (Ret (Returns (cpu0, x'))).
Proof.
  destruct (irq_serviced entry0 (fun _ _ x => x) seg0 0 (0, 0, 0) cpu0 kern0 12)
    as (m1 & _ & _ & H); [exact irq0_vectors | exact entry0_apart | exact seg0_ok | exact cpu0_ok
    | lia | done | done |].
  eexists. apply H. intros a Ha. by destruct (_ =? 0).
Defined.

End IrqSpec.
