(* ===== verification/PicSpec.v ===== *)
(** * The interrupt controllers (src/src/irq.c)

    The two 8259 controllers as the port log shows them: a controller is a
    function of the bytes sent to its command and data port.  The masks and
    the vector numbers that irq.c programs are stated against it. *)

From S2P Require Import Prelude Ports Gdt Irq.
Import Ports Irq.

Module PicSpec.

(** ** The 8259

    A command byte with bit 4 (ICW1) clears the mask and announces two to
    four initialisation words, the first of which is the vector base; a data
    byte outside an initialisation is the mask (OCW1). *)
Record pic : Type := mk_pic {
  imr : Z;
  vbase : Z;
  icw2_next : bool;
  icws : nat;        (** initialisation words still expected *)
}.

Definition pic_step (cmd data : Z) (e : io_event) (q : pic) : pic :=
  match e with
  | Out _ p v =>
      if p =? cmd then
        if Z.testbit v 4
        then mk_pic 0 (vbase q) true (1 + (if Z.testbit v 1 then 0 else 1) + (if Z.testbit v 0 then 1 else 0))
        else q
      else if p =? data then
        match icws q with
        | O => mk_pic v (vbase q) false 0
        | S n => mk_pic (imr q) (if icw2_next q then v else vbase q) false n
        end
      else q
  | In _ _ _ => q
  end.

Definition pic_of (cmd data : Z) (q0 : pic) (l : log) : pic := foldr (pic_step cmd data) q0 l.

(** Each data port answers with the mask of its controller, whatever the
    state [q1], [q2] the controllers were left in by the firmware. *)
Definition pics (q1 q2 : pic) (dev : device) : Prop :=
  forall l, dev l PIC1_DATA = imr (pic_of PIC1_COMMAND PIC1_DATA q1 l)
         /\ dev l PIC2_DATA = imr (pic_of PIC2_COMMAND PIC2_DATA q2 l).

(** ** Calls on lines *)

Inductive line_op : Type := Mask (i : Z) | Unmask (i : Z).
Definition op_line (o : line_op) : Z := match o with Mask i | Unmask i => i end.

Definition line_exec (dev : device) (l : log) (o : line_op) : log :=
  match o with Mask i => irq_mask dev i l | Unmask i => irq_unmask dev i l end.

(** Which lines are masked: unmasking a line of the slave opens the cascade. *)
Definition line_spec (f : Z -> bool) (o : line_op) : Z -> bool :=
  fun j => match o with
           | Mask i => if j =? i then true else f j
           | Unmask i => if (j =? i) || ((8 <=? i) && (j =? 2)) then false else f j
           end.

Lemma u8_bit x j : 0 <= j < 8 -> Z.testbit (u8 x) j = Z.testbit x j.
Proof. intros H. unfold u8. change 256 with (2 ^ 8). apply Z.mod_pow2_bits_low. lia. Qed.
Lemma bit_one i j : 0 <= i -> Z.testbit (Z.shiftl 1 i) j = (i =? j).
Proof. intros H. rewrite Z.shiftl_1_l. by apply Z.pow2_bits_eqb. Qed.

Lemma pic_data cmd data q l w v :
  cmd <> data -> icws (pic_of cmd data q l) = O ->
  pic_of cmd data q (Out w data v :: l) = mk_pic v (vbase (pic_of cmd data q l)) false 0.
Proof.
  intros Hn H. unfold pic_of in *. cbn [foldr pic_step].
  destruct (Z.eqb_spec data cmd); [congruence|]. by rewrite Z.eqb_refl, H.
Qed.
Lemma pic_other cmd data q l w p v :
  p <> cmd -> p <> data -> pic_of cmd data q (Out w p v :: l) = pic_of cmd data q l.
Proof.
  intros H1 H2. unfold pic_of. cbn [foldr pic_step].
  by destruct (Z.eqb_spec p cmd), (Z.eqb_spec p data).
Qed.

Section Controllers.
Context (q1 q2 : pic) (dev : device).
Abbreviation master l := (pic_of PIC1_COMMAND PIC1_DATA q1 l).
Abbreviation slave l := (pic_of PIC2_COMMAND PIC2_DATA q2 l).

(** Both controllers are out of initialisation, send vectors 32 to 47, and
    their masks are [f]. *)
Record programmed (f : Z -> bool) (l : log) : Prop := {
  pr_ready : icws (master l) = O /\ icws (slave l) = O;
  pr_base : vbase (master l) = 0x20 /\ vbase (slave l) = 0x28;
  pr_lo : forall j, 0 <= j < 8 -> Z.testbit (imr (master l)) j = f j;
  pr_hi : forall j, 0 <= j < 8 -> Z.testbit (imr (slave l)) j = f (j + 8);
}.

Lemma programmed_in f w p v l : programmed f l -> programmed f (In w p v :: l).
Proof. by intros []. Qed.

(** A data byte sent to a controller that is ready replaces its mask. *)
Lemma programmed_lo f f' l v :
  programmed f l -> (forall j, 0 <= j < 8 -> Z.testbit v j = f' j) ->
  (forall j, 8 <= j -> f' j = f j) -> programmed f' (outb PIC1_DATA v l).
Proof.
  intros [[R1 R2] [B1 B2] L H] Hv Hf. unfold outb.
  assert (E1 : slave (Out 8 PIC1_DATA (u8 v) :: l) = slave l) by (by apply pic_other).
  assert (E2 : master (Out 8 PIC1_DATA (u8 v) :: l) = mk_pic (u8 v) (vbase (master l)) false 0)
    by (by apply pic_data).
  split; rewrite ?E1, ?E2; [by split | by split | |].
  - intros j Hj. cbn [imr]. rewrite u8_bit by done. by apply Hv.
  - intros j Hj. rewrite Hf by lia. by apply H.
Qed.
Lemma programmed_hi f f' l v :
  programmed f l -> (forall j, 0 <= j < 8 -> Z.testbit v j = f' (j + 8)) ->
  (forall j, j < 8 -> f' j = f j) -> programmed f' (outb PIC2_DATA v l).
Proof.
  intros [[R1 R2] [B1 B2] L H] Hv Hf. unfold outb.
  assert (E1 : master (Out 8 PIC2_DATA (u8 v) :: l) = master l) by (by apply pic_other).
  assert (E2 : slave (Out 8 PIC2_DATA (u8 v) :: l) = mk_pic (u8 v) (vbase (slave l)) false 0)
    by (by apply pic_data).
  split; rewrite ?E1, ?E2; [by split | by split | |].
  - intros j Hj. rewrite Hf by lia. by apply L.
  - intros j Hj. cbn [imr]. rewrite u8_bit by done. by apply Hv.
Qed.

Context (Hdev : pics q1 q2 dev).

(** [x & (uint8_t) ~(1u << i)], bit by bit. *)
Lemma clear_bit x i j :
  0 <= i -> 0 <= j < 8 ->
  Z.testbit (u8 (Z.land x (u8 (Z.lnot (Z.shiftl 1 i))))) j = if j =? i then false else Z.testbit x j.
Proof.
  intros Hi Hj. rewrite u8_bit, Z.land_spec, u8_bit, Z.lnot_spec, bit_one by lia.
  rewrite (Z.eqb_sym i j). destruct (j =? i); [apply andb_false_r | apply andb_true_r].
Qed.
Lemma set_bit x i j :
  0 <= i -> 0 <= j < 8 ->
  Z.testbit (u8 (Z.lor x (u8 (Z.shiftl 1 i)))) j = if j =? i then true else Z.testbit x j.
Proof.
  intros Hi Hj. rewrite u8_bit, Z.lor_spec, u8_bit, bit_one by lia.
  rewrite (Z.eqb_sym i j). destruct (j =? i); [apply orb_true_r | apply orb_false_r].
Qed.

Lemma line_step f l o :
  programmed f l -> 0 <= op_line o < 16 -> programmed (line_spec f o) (line_exec dev l o).
Proof.
  intros P Hi. pose proof (proj1 (Hdev l)) as D1. pose proof (proj2 (Hdev l)) as D2.
  destruct o as [i|i]; cbn [op_line line_exec] in *.
  - unfold irq_mask, inb. destruct (Z.ltb_spec i 8).
    + rewrite D1. apply (programmed_lo f); [by apply programmed_in | |].
      * intros j Hj. rewrite set_bit, u8_bit by lia. unfold line_spec. by rewrite (pr_lo f l P) by done.
      * intros j Hj. unfold line_spec. by destruct (Z.eqb_spec j i); [lia|].
    + rewrite D2, (u8_small (i - 8)) by lia. apply (programmed_hi f); [by apply programmed_in | |].
      * intros j Hj. rewrite set_bit, u8_bit by lia. unfold line_spec. rewrite (pr_hi f l P) by done.
        destruct (Z.eqb_spec j (i - 8)), (Z.eqb_spec (j + 8) i); done || lia.
      * intros j Hj. unfold line_spec. by destruct (Z.eqb_spec j i); [lia|].
  - unfold irq_unmask, inb. destruct (Z.ltb_spec i 8).
    + rewrite D1. apply (programmed_lo f); [by apply programmed_in | |].
      * intros j Hj. rewrite clear_bit, u8_bit by lia. unfold line_spec.
        rewrite (pr_lo f l P) by done. destruct (Z.leb_spec 8 i); [lia|]. cbn [andb]. by rewrite orb_false_r.
      * intros j Hj. unfold line_spec. destruct (Z.eqb_spec j i), (Z.leb_spec 8 i); done || lia.
    + rewrite D1, (u8_small (i - 8)) by lia.
      set (l1 := outb PIC1_DATA _ _).
      set (f1 := fun j => if j =? 2 then false else f j).
      assert (P1 : programmed f1 l1).
      { apply (programmed_lo f); [by apply programmed_in | |].
        - intros j Hj. rewrite clear_bit, u8_bit by lia. subst f1. cbn beta. by rewrite (pr_lo f l P) by done.
        - intros j Hj. subst f1. cbn beta. destruct (Z.eqb_spec j 2); [lia | done]. }
      rewrite (proj2 (Hdev l1)). apply (programmed_hi f1); [by apply programmed_in | |].
      * intros j Hj. rewrite clear_bit, u8_bit by lia. unfold line_spec. rewrite (pr_hi f1 l1 P1) by done.
        subst f1. cbn beta. destruct (Z.eqb_spec j (i - 8)), (Z.eqb_spec (j + 8) i), (Z.eqb_spec (j + 8) 2),
          (Z.leb_spec 8 i); done || lia.
      * intros j Hj. unfold line_spec. subst f1. cbn beta.
        destruct (Z.eqb_spec j i), (Z.leb_spec 8 i), (Z.eqb_spec j 2); done || lia.
Qed.

Lemma install_programmed l :
  programmed (fun j => (0 <=? j) && (j <? 16)) (pic_init_masks (pic_remap dev l)).
Proof.
  unfold pic_remap, pic_init_masks, inb, io_wait, outb.
  generalize (u8 (dev l PIC1_DATA)). intros v1.
  generalize (u8 (dev (In 8 PIC1_DATA v1 :: l) PIC2_DATA)). intros v2.
  split; [done | done | |].
  - intros j Hj. change (imr _) with (Z.ones 8). rewrite (Z.ones_spec_low 8 j) by lia.
    destruct (Z.leb_spec 0 j), (Z.ltb_spec j 16); done || lia.
  - intros j Hj. change (imr _) with (Z.ones 8). rewrite (Z.ones_spec_low 8 j) by lia.
    destruct (Z.leb_spec 0 (j + 8)), (Z.ltb_spec (j + 8) 16); done || lia.
Qed.

Lemma lines_run f l ops :
  programmed f l -> Forall (fun o => 0 <= op_line o < 16) ops ->
  programmed (foldl line_spec f ops) (foldl (line_exec dev) l ops).
Proof.
  revert f l. induction ops as [|o ops IH]; intros f l P H; [done|].
  apply Forall_cons in H as [H1 H2]. cbn [foldl]. apply IH; [by apply line_step | done].
Qed.

Lemma get_mask_bits f l j :
  programmed f l -> 0 <= j < 16 -> Z.testbit (fst (irq_get_mask dev l)) j = f j.
Proof.
  intros P Hj. unfold irq_get_mask, inb. cbn [fst]. rewrite (proj1 (Hdev l)).
  rewrite (proj2 (Hdev (In 8 PIC1_DATA (u8 (imr (master l))) :: l))).
  rewrite Z.lor_spec. change (slave (In _ _ _ :: l)) with (slave l).
  destruct (decide (j < 8)).
  - rewrite Z.shiftl_spec_low, orb_false_r, u8_bit by lia. apply (pr_lo f l P). lia.
  - unfold u8 at 1. change 256 with (2 ^ 8). rewrite Z.mod_pow2_bits_high by lia.
    rewrite Z.shiftl_spec, u8_bit, (pr_hi f l P) by lia. by replace (j - 8 + 8) with j by lia.
Qed.

End Controllers.

(** From [irq_install] on, whatever state the firmware left, line [i]
    arrives as vector 32 + i, every line starts masked, and after any
    sequence of [irq_mask] and [irq_unmask] calls [irq_get_mask] reports
    exactly the lines the calls leave masked; unmasking a line of the slave
    also opens line 2, the cascade. *)
Theorem irq_lines_masked q1 q2 dev entry s ops :
  pics q1 q2 dev -> Forall (fun o => 0 <= op_line o < 16) ops ->
  let l := foldl (line_exec dev) (io (irq_install dev entry s)) ops in
  vbase (pic_of PIC1_COMMAND PIC1_DATA q1 l) = 32 /\ vbase (pic_of PIC2_COMMAND PIC2_DATA q2 l) = 40
  /\ forall j, 0 <= j < 16 ->
       Z.testbit (fst (irq_get_mask dev l)) j = foldl line_spec (fun _ => true) ops j.
Proof.
  intros Hd Ho l.
  assert (E : io (irq_install dev entry s) = pic_init_masks (pic_remap dev (io s))).
  { unfold irq_install. set (s1 := set_io _ s).
    apply (for_up_inv (fun _ s' => io s' = pic_init_masks (pic_remap dev (io s))) 16 0); [done|].
    by intros. }
  subst l. rewrite E.
  pose proof (lines_run q1 q2 dev Hd _ _ ops (install_programmed q1 q2 dev (io s)) Ho) as P.
  split; [apply (pr_base _ _ _ _ P)|]. split; [apply (pr_base _ _ _ _ P)|].
  intros j Hj. rewrite (get_mask_bits q1 q2 dev Hd _ _ j P Hj). clear P E.
  assert (G : forall f g, (forall i, 0 <= i < 16 -> f i = g i) ->
    foldl line_spec f ops j = foldl line_spec g ops j); [|apply G].
  - clear Ho. induction ops as [|o ops IH]; intros f g H; [by apply H|].
    cbn [foldl]. apply IH. intros i Hi. unfold line_spec. destruct o; by rewrite (H i Hi).
  - intros i Hi. destruct (Z.leb_spec 0 i), (Z.ltb_spec i 16); done || lia.
Qed.

(** Controllers that answer with their masks. *)
Definition dev0 : device := fun l p =>
  if p =? PIC1_DATA then imr (pic_of PIC1_COMMAND PIC1_DATA (mk_pic 0xB8 8 false 0) l)
  else if p =? PIC2_DATA then imr (pic_of PIC2_COMMAND PIC2_DATA (mk_pic 0x8F 0x70 false 0) l)
  else 0.

Lemma irq_lines_masked_witness :
  let l := foldl (line_exec dev0)
    (io (irq_install dev0 (fun _ => 0) (mk_irq (replicate 256 inhabitant) (0, 0) (0, 0) [] [])))
    [Unmask 0; Unmask 12; Mask 0] in
  Z.testbit (fst (irq_get_mask dev0 l)) 12 = false /\ Z.testbit (fst (irq_get_mask dev0 l)) 0 = true.
Proof.
  destruct (irq_lines_masked (mk_pic 0xB8 8 false 0) (mk_pic 0x8F 0x70 false 0) dev0 (fun _ => 0)
    (mk_irq (replicate 256 inhabitant) (0, 0) (0, 0) [] []) [Unmask 0; Unmask 12; Mask 0])
    as (_ & _ & H); [done | repeat (apply Forall_cons; split; [simpl; lia|]); done |].
  split; [rewrite (H 12) by lia | rewrite (H 0) by lia]; reflexivity.
Defined.

End PicSpec.
