(* ===== verification/Umalloc.v ===== *)
(** * The allocator of user programs (src/user/lib/malloc.c, string.c)

    A singly linked list of blocks that grows at the program break: first
    fit, no splitting, no merging.  The break is moved by the system call,
    so the state is that of [Syscall] with the two static variables of
    malloc.c; user memory is the flat memory the kernel serves. *)

From S2P Require Import Prelude Memory Kmalloc Fs Syscall.

Module Umalloc.

Definition ALIGN : Z := 8.
Definition SIZEOF_MHDR : Z := 12.
Definition NR_brk : Z := 45.

Record ust : Type := mk_ust {
  usys : Syscall.sysst;
  heap_head : Z;
  heap_end : Z;
}.
Definition mm (s : ust) : mem := Syscall.umem (usys s).
Definition set_mm (m : mem) (s : ust) : ust := mk_ust (Syscall.set_umem m (usys s)) (heap_head s) (heap_end s).

(** ** string.c *)

Definition memcpy (dest src n : Z) (m : mem) : Z * mem :=
  (dest, for_up (Z.to_nat n) 0 (fun i m => st8 m (u32 (dest + i)) (ld8 m (u32 (src + i)))) m).
Definition memset (s c n : Z) (m : mem) : Z * mem :=
  (s, for_up (Z.to_nat n) 0 (fun i m => st8 m (u32 (s + i)) c) m).
(** [strlen], for a string that ends within [fuel] bytes. *)
Fixpoint strlen_loop (fuel : nat) (m : mem) (s n : Z) : out Z :=
  match fuel with
  | O => Fault NoFuel
  | S f => if ld8 m (u32 (s + n)) =? 0 then Ret n else strlen_loop f m s (u32 (n + 1))
  end.
Fixpoint strcmp_loop (fuel : nat) (m : mem) (a b : Z) : out Z :=
  match fuel with
  | O => Fault NoFuel
  | S f =>
      let ca := ld8 m (u32 a) in let cb := ld8 m (u32 b) in
      if negb (ca =? 0) && (ca =? cb) then strcmp_loop f m (a + 1) (b + 1) else Ret (ca - cb)
  end.
Fixpoint strcpy_loop (fuel : nat) (m : mem) (d s : Z) : out mem :=
  match fuel with
  | O => Fault NoFuel
  | S f =>
      let c := ld8 m (u32 s) in
      let m := st8 m (u32 d) c in
      if c =? 0 then Ret m else strcpy_loop f m (d + 1) (s + 1)
  end.

(** ** malloc.c *)

Definition h_size (m : mem) (b : Z) : Z := ld32 m b.
Definition h_free (m : mem) (b : Z) : Z := ld32 m (b + 4).
Definition h_next (m : mem) (b : Z) : Z := ld32 m (b + 8).

Definition align_up (n : Z) : Z := Z.land (u32 (n + (ALIGN - 1))) (u32 (Z.lnot (ALIGN - 1))).

(** [__syscall3]: int 0x80 with three arguments; the registers the call does
    not pass are not read by it. *)
Definition syscall3 (n a b c : Z) (s : Syscall.sysst) : out (Z * Syscall.sysst) :=
  '((r, _), s') ← Syscall.syscall_handler (Syscall.mk_regs n a b c 0 0 0) s;
  Ret (Syscall.eax r, s').

Definition sys_brk (addr : Z) (s : ust) : out (Z * ust) :=
  '(r, y) ← syscall3 NR_brk addr 0 0 (usys s);
  Ret (u32 r, mk_ust y (heap_head s) (heap_end s)).

Definition heap_init (s : ust) : out (Z * ust) :=
  if negb (heap_head s =? 0) then Ret (0, s)
  else
    '(cur, s) ← sys_brk 0 s;
    if cur =? 0 then Ret (-1, s) else Ret (0, mk_ust (usys s) 0 cur).

Definition more_core (need : Z) (s : ust) : out (Z * ust) :=
  let need := align_up (u32 (need + SIZEOF_MHDR)) in
  '(old, s) ← sys_brk 0 s;
  '(neu, s) ← sys_brk (u32 (old + need)) s;
  if neu <? u32 (old + need) then Ret (0, s)
  else
    let m := st32 (mm s) old (u32 (need - SIZEOF_MHDR)) in
    let m := st32 m (old + 4) 1 in
    let m := st32 m (old + 8) 0 in
    let s := set_mm m s in
    Ret (old, mk_ust (usys s) (heap_head s) neu).

(** The list walk of [malloc]: the block found, or the last one seen. *)
Fixpoint find_fit (fuel : nat) (m : mem) (prev b size : Z) : out (Z + Z) :=
  match fuel with
  | O => Fault NoFuel
  | S f =>
      if b =? 0 then Ret (inr prev)
      else if negb (h_free m b =? 0) && (size <=? h_size m b) then Ret (inl b)
      else find_fit f m b (h_next m b) size
  end.

(** A block takes at least its header of the 1 MiB between the limits of the
    break. *)
Definition walk_fuel : nat := Z.to_nat 87400.

Definition malloc (size : Z) (s : ust) : out (Z * ust) :=
  if size =? 0 then Ret (0, s)
  else
    let size := align_up size in
    '(r, s) ← heap_init s;
    if negb (r =? 0) then Ret (0, s)
    else
      w ← find_fit walk_fuel (mm s) 0 (heap_head s) size;
      match w with
      | inl b => Ret (u32 (b + SIZEOF_MHDR), set_mm (st32 (mm s) (b + 4) 0) s)
      | inr prev =>
          '(b, s) ← more_core size s;
          if b =? 0 then Ret (0, s)
          else
            let s := set_mm (st32 (mm s) (b + 4) 0) s in
            let s := if negb (prev =? 0) then set_mm (st32 (mm s) (prev + 8) b) s
                     else mk_ust (usys s) b (heap_end s) in
            Ret (u32 (b + SIZEOF_MHDR), s)
      end.

Definition free (ptr : Z) (s : ust) : ust :=
  if ptr =? 0 then s else set_mm (st32 (mm s) (u32 (ptr - SIZEOF_MHDR) + 4) 1) s.

Definition realloc (ptr size : Z) (s : ust) : out (Z * ust) :=
  if ptr =? 0 then malloc size s
  else if size =? 0 then Ret (0, free ptr s)
  else
    let b := u32 (ptr - SIZEOF_MHDR) in
    if size <=? h_size (mm s) b then Ret (ptr, s)
    else
      '(n, s) ← malloc size s;
      if n =? 0 then Ret (0, s)
      else
        let m := for_up (Z.to_nat (h_size (mm s) b)) 0
                   (fun i m => st8 m (u32 (n + i)) (ld8 m (u32 (ptr + i)))) (mm s) in
        Ret (n, free ptr (set_mm m s)).

Definition calloc (n size : Z) (s : ust) : out (Z * ust) :=
  let total := u32 (n * size) in
  '(p, s) ← malloc total s;
  if p =? 0 then Ret (0, s)
  else Ret (p, set_mm (snd (memset p 0 total (mm s))) s).

End Umalloc.
