(* ===== verification/UmallocSpec.v ===== *)
(** * What the user allocator promises (src/user/lib/malloc.c)

    [urep s l]: the block list in memory is [l], between the limits of the
    program break.  Requests that do not wrap get fresh memory that no live
    block meets; [free] and [realloc] keep the other blocks and the
    contents.  A request near 4 GiB wraps and is answered with memory the
    program does not own. *)

From S2P Require Import Prelude Memory Kmalloc Terminal Fs Syscall Umalloc.
Import Umalloc.

Module UmallocSpec.

Definition BASE : Z := Syscall.USER_HEAP_BASE.
Definition LIMIT : Z := Syscall.USER_HEAP_MAX.
Ltac uconst := unfold BASE, LIMIT, Syscall.USER_HEAP_BASE, Syscall.USER_HEAP_MAX, SIZEOF_MHDR, ALIGN, in_u32 in *.
Ltac ulia := uconst; lia.

(** ** Blocks *)

Record ub : Type := UB { ua : Z; usz : Z; ufree : bool }.
Definition payload (b : ub) : Z * Z := (ua b + SIZEOF_MHDR, usz b).
Definition live (l : list ub) : list (Z * Z) := payload <$> filter (fun b => ufree b = false) l.

(** First block, or [p] at the end of the list. *)
Definition first (l : list ub) (p : Z) : Z := match l with [] => p | b :: _ => ua b end.

(** The headers of [l] are in [m]; the last one points to [p]. *)
Fixpoint cells (m : mem) (l : list ub) (p : Z) : Prop :=
  match l with
  | [] => True
  | b :: r => h_size m (ua b) = usz b /\ h_free m (ua b) = (if ufree b then 1 else 0)
              /\ h_next m (ua b) = first r p /\ cells m r p
  end.

(** The blocks lie in order between [lo] and [hi]. *)
Fixpoint ordered (lo : Z) (l : list ub) (hi : Z) : Prop :=
  match l with
  | [] => lo <= hi
  | b :: r => lo <= ua b /\ 0 <= usz b /\ ordered (ua b + SIZEOF_MHDR + usz b) r hi
  end.

Record urep (s : ust) (l : list ub) : Prop := {
  ur_brk : BASE <= Syscall.user_brk (usys s) <= LIMIT;
  ur_head : heap_head s = first l 0;
  ur_cells : cells (mm s) l 0;
  ur_order : ordered BASE l (Syscall.user_brk (usys s));
}.

Lemma first_app l r p : first (l ++ r) p = first l (first r p).
Proof. by destruct l. Qed.

Lemma cells_app m l r p : cells m (l ++ r) p <-> cells m l (first r p) /\ cells m r p.
Proof.
  induction l as [|b l IH]; simpl; [tauto|]. rewrite IH, first_app. tauto.
Qed.

Lemma cells_frame m m' l p :
  (forall b i, b ∈ l -> ua b <= i < ua b + SIZEOF_MHDR -> ld8 m' i = ld8 m i) ->
  cells m l p -> cells m' l p.
Proof.
  induction l as [|b l IH]; intros H Hc; simpl in *; [done|].
  destruct Hc as (H1 & H2 & H3 & H4).
  assert (E : forall o, 0 <= o <= 8 -> ld32 m' (ua b + o) = ld32 m (ua b + o)).
  { intros o Ho. apply ld32_ext. intros i Hi. apply (H b); [left | ulia]. }
  assert (E0 : ld32 m' (ua b) = ld32 m (ua b)) by (rewrite <- (Z.add_0_r (ua b)); apply E; lia).
  unfold h_size, h_free, h_next in *. rewrite E0, !E by lia. split_and!; try done.
  apply IH; [|done]. intros c i Hc. apply H. by right.
Qed.

Lemma ordered_le lo l hi : ordered lo l hi -> lo <= hi.
Proof.
  revert lo. induction l as [|b l IH]; intros lo H; simpl in *; [done|].
  destruct H as (H1 & H2 & H3). apply IH in H3. ulia.
Qed.
Lemma ordered_app lo l r hi :
  ordered lo (l ++ r) hi <-> exists mid, ordered lo l mid /\ ordered mid r hi.
Proof.
  revert lo. induction l as [|b l IH]; intros lo; simpl.
  - split; [intros H; exists lo; split; [lia | done] | intros (mid & H1 & H2)].
    destruct r as [|c r]; simpl in *; [lia | destruct H2 as (? & ? & ?); split_and!; [lia | done | done]].
  - rewrite IH. split; [intros (H1 & H2 & mid & H3 & H4) | intros (mid & (H1 & H2 & H3) & H4)]; eauto 10.
Qed.
Lemma ordered_in lo l hi b :
  ordered lo l hi -> b ∈ l -> lo <= ua b /\ 0 <= usz b /\ ua b + SIZEOF_MHDR + usz b <= hi.
Proof.
  revert lo. induction l as [|c l IH]; intros lo H Hb; [by apply elem_of_nil in Hb|].
  simpl in H. destruct H as (H1 & H2 & H3). apply elem_of_cons in Hb as [->|Hb].
  - apply ordered_le in H3. ulia.
  - apply (IH _ H3) in Hb. ulia.
Qed.
Lemma ordered_weaken lo l hi hi' : hi <= hi' -> ordered lo l hi -> ordered lo l hi'.
Proof.
  intros Hh. revert lo. induction l as [|b l IH]; intros lo H; simpl in *; [lia|].
  destruct H as (H1 & H2 & H3). split_and!; auto.
Qed.

(** Where a block sits: everything else lies below or above it. *)
Lemma block_apart lo pre b r hi c :
  ordered lo (pre ++ b :: r) hi -> c ∈ pre \/ c ∈ r ->
  ua c + SIZEOF_MHDR + usz c <= ua b \/ ua b + SIZEOF_MHDR + usz b <= ua c.
Proof.
  intros H Hc. apply ordered_app in H as (mid & H1 & H2). simpl in H2. destruct H2 as (H2 & H3 & H4).
  destruct Hc as [Hc|Hc]; [left; apply (ordered_in _ _ _ _ H1) in Hc; lia
                          | right; apply (ordered_in _ _ _ _ H4) in Hc; lia].
Qed.

Lemma length_ordered lo l hi : ordered lo l hi -> 12 * Z.of_nat (length l) <= hi - lo.
Proof.
  revert lo. induction l as [|b l IH]; intros lo H; simpl in *; [lia|].
  destruct H as (H1 & H2 & H3). apply IH in H3. ulia.
Qed.

(** ** The break *)

Lemma brk_call addr s :
  BASE <= Syscall.user_brk (usys s) <= LIMIT -> in_u32 addr ->
  sys_brk addr s =
  Ret (if (addr =? 0) || (addr <? BASE) || (LIMIT <? addr)
       then (Syscall.user_brk (usys s), s)
       else (addr, mk_ust (Syscall.set_brk addr (Syscall.mmap_bump (usys s)) (usys s)) (heap_head s) (heap_end s))).
Proof.
  intros Hb Ha. unfold sys_brk, syscall3, Syscall.syscall_handler.
  change (Syscall.dispatch (Syscall.mk_regs NR_brk addr 0 0 0 0 0) (usys s)) with
    (Syscall.ret (let '(v, s') := Syscall.sys_brk addr (usys s) in Ret (Syscall.int v, s'))).
  unfold Syscall.sys_brk, Syscall.int.
  assert (E : forall z, BASE <= z <= LIMIT -> u32 (u32 (s32 z)) = z).
  { intros z Hz. rewrite s32_small, u32_u32, (u32_small z) by (unfold in_s32; ulia). done. }
  fold BASE LIMIT. destruct (Z.eqb_spec addr 0); cbn [orb].
  { cbn. rewrite E by done. by destruct s. }
  destruct (Z.ltb_spec addr BASE); cbn [orb]; [cbn; rewrite E by done; by destruct s|].
  destruct (Z.ltb_spec LIMIT addr); cbn; rewrite E by done; by destruct s.
Qed.

Lemma align_eq n : align_up n = 8 * (u32 (n + 7) / 8).
Proof.
  unfold align_up. change (n + (ALIGN - 1)) with (n + 7).
  change (ALIGN - 1) with (2 ^ 3 - 1). rewrite land_clear_low; [done | apply u32_range | lia].
Qed.

(** ** The walk *)

Definition fits (size : Z) (b : ub) : Prop := ufree b = true /\ size <= usz b.

Lemma find_fit_ok m l prev fuel size lo hi :
  cells m l 0 -> ordered lo l hi -> 0 < lo -> (length l < fuel)%nat ->
  (exists pre b r, l = pre ++ b :: r /\ fits size b /\ find_fit fuel m prev (first l 0) size = Ret (inl (ua b)))
  \/ (Forall (fun b => ~ fits size b) l
      /\ find_fit fuel m prev (first l 0) size = Ret (inr (default prev (ua <$> last l)))).
Proof.
  revert prev fuel lo. induction l as [|b l IH]; intros prev fuel lo Hc Ho Hlo Hf;
    (destruct fuel as [|fuel]; [simpl in *; lia|]).
  - right. split; [constructor | done].
  - simpl in Hc, Ho, Hf. destruct Hc as (C1 & C2 & C3 & C4). destruct Ho as (O1 & O2 & O3).
    cbn [find_fit first]. rewrite (proj2 (Z.eqb_neq (ua b) 0)) by lia.
    rewrite C1, C2, C3.
    destruct (decide (ufree b = true /\ size <= usz b)) as [[F1 F2]|F].
    + left. exists [], b, l. rewrite F1. destruct (Z.leb_spec size (usz b)); [|lia]. by split_and!.
    + replace (negb _ && _) with false
        by (destruct (ufree b) eqn:E; [destruct (Z.leb_spec size (usz b)); tauto | done]).
      destruct (IH (ua b) fuel (ua b + SIZEOF_MHDR + usz b) C4 O3) as [(pre & b' & r & -> & Hfit & Hr)|[Hn Hr]];
        [ulia | lia | |].
      * left. exists (b :: pre), b', r. by split_and!.
      * right. split; [by constructor|]. rewrite Hr.
        destruct l as [|c l]; [done|]. change (last (b :: c :: l)) with (last (c :: l)).
        destruct (last (c :: l)) eqn:El; [done|]. by apply last_None in El.
Qed.

(** ** Allocation *)

Lemma live_app l r : live (l ++ r) = live l ++ live r.
Proof. unfold live. by rewrite filter_app, fmap_app. Qed.
Lemma live_cons_used b l : ufree b = false -> live (b :: l) = payload b :: live l.
Proof. intros H. unfold live. by rewrite filter_cons_True. Qed.
Lemma live_cons_free b l : ufree b = true -> live (b :: l) = live l.
Proof. intros H. unfold live. rewrite filter_cons_False; [done | by rewrite H]. Qed.
Lemma live_in l q j : (q, j) ∈ live l -> exists b, b ∈ l /\ ufree b = false /\ (q, j) = payload b.
Proof.
  unfold live. intros H. apply list_elem_of_fmap in H as (b & Hb & Hin).
  apply list_elem_of_filter in Hin as [H1 H2]. eauto.
Qed.

(** Rewriting the header of one block. *)
Lemma cells_header m m' pre b b' r lo hi :
  cells m (pre ++ b :: r) 0 -> ordered lo (pre ++ b :: r) hi -> ua b' = ua b ->
  h_size m' (ua b) = usz b' -> h_free m' (ua b) = (if ufree b' then 1 else 0) ->
  h_next m' (ua b) = first r 0 ->
  (forall i, i < ua b \/ ua b + SIZEOF_MHDR <= i -> ld8 m' i = ld8 m i) ->
  cells m' (pre ++ b' :: r) 0.
Proof.
  intros Hc Ho Ea H1 H2 H3 Hf.
  assert (Hn : forall c, c ∈ pre ++ b :: r -> 0 <= usz c)
    by (intros c Hin; apply (ordered_in _ _ _ _ Ho Hin)).
  assert (Hb : 0 <= usz b) by (apply Hn, elem_of_app; right; left).
  assert (Hx : forall c i, c ∈ pre \/ c ∈ r -> ua c <= i < ua c + SIZEOF_MHDR -> ld8 m' i = ld8 m i).
  { intros c i Hin Hi. assert (0 <= usz c)
      by (apply Hn, elem_of_app; destruct Hin; [by left | right; by right]). apply Hf.
    destruct (block_apart _ _ _ _ _ c Ho Hin); ulia. }
  apply cells_app in Hc as [Hp Hr]. simpl in Hr. destruct Hr as (_ & _ & _ & Hr).
  apply cells_app. split; simpl; rewrite Ea.
  - eapply cells_frame; [|exact Hp]. intros c i Hin. apply Hx. by left.
  - split_and!; try done. eapply cells_frame; [|exact Hr]. intros c i Hin. apply Hx. by right.
Qed.

Lemma ordered_swap lo pre b b' r hi :
  ua b' = ua b -> usz b' = usz b -> ordered lo (pre ++ b :: r) hi -> ordered lo (pre ++ b' :: r) hi.
Proof.
  intros Ea Es H. apply ordered_app in H as (mid & H1 & H2). apply ordered_app. exists mid.
  split; [done|]. simpl in *. by rewrite Ea, Es.
Qed.

(** Bytes of a live block are outside every header. *)
Lemma live_not_header l q j i c lo hi :
  ordered lo l hi -> (q, j) ∈ live l -> q <= i < q + j -> c ∈ l ->
  i < ua c \/ ua c + SIZEOF_MHDR <= i.
Proof.
  intros Ho Hq Hi Hc. apply live_in in Hq as (b & Hb & _ & [= -> ->]).
  pose proof (ordered_in _ _ _ _ Ho Hb). pose proof (ordered_in _ _ _ _ Ho Hc).
  apply list_elem_of_split in Hc as (pre & r & ->).
  apply elem_of_app in Hb as [Hb|Hb]; [|apply elem_of_cons in Hb as [->|Hb]; [ulia|]].
  - destruct (block_apart _ _ _ _ _ b Ho (or_introl Hb)); ulia.
  - destruct (block_apart _ _ _ _ _ b Ho (or_intror Hb)); ulia.
Qed.

Lemma mm_set m s : mm (set_mm m s) = m.
Proof. done. Qed.

(** What an allocation promises: [s'] has one more live block. *)
Record allocated (s : ust) (l : list ub) (size p : Z) (s' : ust) (l' : list ub) (k : Z) : Prop := {
  al_rep : urep s' l';
  al_size : size <= k;
  al_range : BASE < p /\ p + k <= LIMIT;
  al_live : live l' ≡ₚ (p, k) :: live l;
  al_fresh : forall q j, (q, j) ∈ live l -> q + j <= p \/ p + k <= q;
  al_keep : forall q j i, (q, j) ∈ live l -> q <= i < q + j -> ld8 (mm s') i = ld8 (mm s) i;
  al_out : forall i, i < BASE \/ LIMIT <= i -> ld8 (mm s') i = ld8 (mm s) i;
}.

(** The list with [b] taken. *)
Definition taken (b : ub) : ub := UB (ua b) (usz b) false.

Lemma alloc_reuse s pre b r size :
  urep s (pre ++ b :: r) -> fits size b ->
  allocated s (pre ++ b :: r) size (ua b + SIZEOF_MHDR) (set_mm (st32 (mm s) (ua b + 4) 0) s)
    (pre ++ taken b :: r) (usz b).
Proof.
  intros [Hk Hh Hc Ho] [Hf Hs].
  assert (Hin : b ∈ pre ++ b :: r) by (apply elem_of_app; right; left).
  pose proof (ordered_in _ _ _ _ Ho Hin) as Hb.
  assert (Hfar : forall i, i < ua b \/ ua b + SIZEOF_MHDR <= i ->
    ld8 (st32 (mm s) (ua b + 4) 0) i = ld8 (mm s) i) by (intros; apply ld8_st32_ne; ulia).
  assert (Hcb := Hc). apply cells_app in Hcb as [_ Hcb]. simpl in Hcb. destruct Hcb as (H1 & _ & H3 & _).
  split.
  - split; [done | | | by apply (ordered_swap _ _ b)].
    + rewrite first_app. cbn [set_mm heap_head]. by rewrite Hh, first_app.
    + rewrite mm_set. apply (cells_header (mm s) _ pre b (taken b) r BASE (Syscall.user_brk (usys s))); try done.
      * unfold h_size. rewrite ld32_st32_ne by lia. exact H1.
      * unfold h_free. by rewrite ld32_st32_eq.
      * unfold h_next. rewrite ld32_st32_ne by lia. exact H3.
  - done.
  - ulia.
  - rewrite !live_app, live_cons_used, live_cons_free by done. symmetry. apply Permutation_middle.
  - intros q j Hq. apply live_in in Hq as (c & Hc' & Hcf & [= -> ->]).
    assert (Hcc : c ∈ pre \/ c ∈ r).
    { apply elem_of_app in Hc' as [?|Hc']; [by left|]. apply elem_of_cons in Hc' as [->|?]; [congruence | by right]. }
    pose proof (ordered_in _ _ _ _ Ho Hc'). destruct (block_apart _ _ _ _ _ c Ho Hcc); ulia.
  - intros q j i Hq Hi. apply Hfar. by apply (live_not_header _ q j i b _ _ Ho).
  - intros i Hi. apply Hfar. ulia.
Qed.

(** The memory after a block of [sz] bytes has been put at [b] and linked. *)
Definition grown (m : mem) (l : list ub) (b sz : Z) : mem :=
  let m := st32 (st32 (st32 (st32 m b sz) (b + 4) 1) (b + 8) 0) (b + 4) 0 in
  match last l with Some z => st32 m (ua z + 8) b | None => m end.

Lemma grown_far m l b sz i :
  i < b \/ b + SIZEOF_MHDR <= i ->
  (forall z, z ∈ l -> i < ua z \/ ua z + SIZEOF_MHDR <= i) -> ld8 (grown m l b sz) i = ld8 m i.
Proof.
  intros H1 H2. unfold grown. destruct (last l) as [z|] eqn:E.
  - apply last_Some in E as (l0 & ->). specialize (H2 z ltac:(apply elem_of_app; right; left)).
    rewrite !ld8_st32_ne by ulia. done.
  - by rewrite !ld8_st32_ne by ulia.
Qed.

Lemma grown_cells m l b sz lo :
  cells m l 0 -> ordered lo l b -> in_u32 sz -> in_u32 b ->
  cells (grown m l b sz) (l ++ [UB b sz false]) 0.
Proof.
  intros Hc Ho Hs Hb. destruct l as [|z l0 _] using rev_ind.
  - unfold grown. simpl. unfold h_size, h_free, h_next.
    repeat (rewrite ld32_st32_eq || rewrite ld32_st32_ne by lia). by rewrite !u32_small.
  - assert (Hz : z ∈ l0 ++ [z]) by (apply elem_of_app; right; left).
    pose proof (ordered_in _ _ _ _ Ho Hz) as Hzb. unfold grown. rewrite last_snoc.
    rewrite <- app_assoc. apply cells_app in Hc as [H1 H2]. simpl in H2. destruct H2 as (C1 & C2 & C3 & _).
    apply cells_app. split.
    + eapply cells_frame; [|exact H1]. intros c i Hin Hi.
      pose proof (ordered_in _ _ _ c Ho ltac:(apply elem_of_app; by left)).
      destruct (block_apart _ _ _ _ _ c Ho (or_introl Hin)) as [Hd|Hd];
        rewrite !ld8_st32_ne by ulia; done.
    + cbn [cells first app ua usz ufree]. unfold h_size, h_free, h_next in *.
      repeat (rewrite ld32_st32_eq || rewrite ld32_st32_ne by ulia). by rewrite !u32_small.
Qed.

Lemma alloc_grow s l size need :
  urep s l -> size <= need - SIZEOF_MHDR -> SIZEOF_MHDR <= need ->
  Syscall.user_brk (usys s) + need <= LIMIT ->
  forall s', Syscall.user_brk (usys s') = Syscall.user_brk (usys s) + need ->
  heap_head s' = first l (Syscall.user_brk (usys s)) ->
  mm s' = grown (mm s) l (Syscall.user_brk (usys s)) (need - SIZEOF_MHDR) ->
  allocated s l size (Syscall.user_brk (usys s) + SIZEOF_MHDR) s'
    (l ++ [UB (Syscall.user_brk (usys s)) (need - SIZEOF_MHDR) false]) (need - SIZEOF_MHDR).
Proof.
  intros [Hk Hh Hc Ho] Hsz Hn Hroom s' E1 E2 E3. set (b := Syscall.user_brk (usys s)) in *.
  assert (Hlive : forall q j i, (q, j) ∈ live l -> q <= i < q + j -> q + j <= b /\
    ld8 (mm s') i = ld8 (mm s) i).
  { intros q j i Hq Hi. assert (Hq2 := Hq). apply live_in in Hq2 as (c & Hin & _ & [= -> ->]).
    pose proof (ordered_in _ _ _ _ Ho Hin). split; [ulia|]. rewrite E3. apply grown_far; [ulia|].
    intros z Hz. by apply (live_not_header l (ua c + SIZEOF_MHDR) (usz c) i z _ _ Ho). }
  split.
  - split; [rewrite E1; ulia | by rewrite first_app | |].
    + rewrite E3. apply (grown_cells _ _ _ _ BASE); try done; ulia.
    + rewrite E1. apply ordered_app. exists b. split; [done|]. simpl. ulia.
  - done.
  - ulia.
  - rewrite live_app. cbn. symmetry. apply Permutation_cons_append.
  - intros q j Hq. left. apply live_in in Hq as (c & Hin & _ & [= -> ->]).
    pose proof (ordered_in _ _ _ _ Ho Hin). ulia.
  - intros q j i Hq Hi. by apply (Hlive q j i).
  - intros i Hi. rewrite E3. apply grown_far; [ulia|]. intros z Hz.
    pose proof (ordered_in _ _ _ _ Ho Hz). ulia.
Qed.

(** Bytes a new block of a request takes from the break. *)
Definition need_of (size : Z) : Z := align_up (u32 (align_up size + SIZEOF_MHDR)).

Lemma need_of_spec size :
  0 < size <= 0xFF000000 ->
  size <= align_up size <= 0xFF000000 /\ need_of size = align_up size + 16.
Proof.
  intros H. assert (E : align_up size = 8 * ((size + 7) / 8))
    by (rewrite align_eq, u32_small; [done | ulia]).
  assert (H1 : size <= align_up size <= 0xFF000000) by (rewrite E; zlia). split; [done|].
  unfold need_of. rewrite align_eq, (u32_small (align_up size + SIZEOF_MHDR)) by ulia.
  rewrite u32_small by ulia. unfold SIZEOF_MHDR. rewrite E. zlia.
Qed.

Lemma heap_init_run s l :
  urep s l -> exists s1, heap_init s = Ret (0, s1) /\ urep s1 l /\ usys s1 = usys s.
Proof.
  intros [Hk Hh Hc Ho]. unfold heap_init. destruct (Z.eqb_spec (heap_head s) 0) as [E|E]; cbn [negb].
  - rewrite brk_call by (done || ulia). cbn [mbind out_mbind orb Z.eqb].
    rewrite (proj2 (Z.eqb_neq _ 0)) by ulia.
    eexists. split; [done|]. split; [|done]. split; [done | by rewrite <- Hh, E | done | done].
  - exists s. by split.
Qed.

Lemma more_core_run s l size :
  urep s l -> 0 < size <= 0xFF000000 ->
  let b := Syscall.user_brk (usys s) in
  more_core (align_up size) s =
  if decide (b + need_of size <= LIMIT) then
    Ret (b, mk_ust (Syscall.set_umem
                      (st32 (st32 (st32 (mm s) b (need_of size - SIZEOF_MHDR)) (b + 4) 1) (b + 8) 0)
                      (Syscall.set_brk (b + need_of size) (Syscall.mmap_bump (usys s)) (usys s)))
              (heap_head s) (b + need_of size))
  else Ret (0, s).
Proof.
  intros [Hk _ _ _] Hs. cbn zeta. destruct (need_of_spec size Hs) as [H1 H2].
  unfold more_core. fold (need_of size). rewrite brk_call by (done || ulia).
  cbn [mbind out_mbind orb Z.eqb]. rewrite (u32_small (_ + need_of size)) by ulia.
  rewrite brk_call by (done || ulia).
  set (b := Syscall.user_brk (usys s)) in *. rewrite (proj2 (Z.eqb_neq (b + need_of size) 0)) by ulia.
  rewrite (proj2 (Z.ltb_ge (b + need_of size) BASE)) by ulia. cbn [orb].
  case_decide as E.
  - rewrite (proj2 (Z.ltb_ge LIMIT (b + need_of size))) by lia. cbn [mbind out_mbind].
    rewrite (proj2 (Z.ltb_ge (b + need_of size) (b + need_of size))) by lia.
    rewrite (u32_small (need_of size - SIZEOF_MHDR)) by ulia. done.
  - rewrite (proj2 (Z.ltb_lt LIMIT (b + need_of size))) by lia. cbn [mbind out_mbind].
    by rewrite (proj2 (Z.ltb_lt b (b + need_of size))) by ulia.
Qed.

Lemma malloc_run s l size :
  urep s l -> 0 < size <= 0xFF000000 ->
  exists p s', malloc size s = Ret (p, s') /\
    ((p = 0 /\ Forall (fun b => ~ fits (align_up size) b) l
      /\ LIMIT < Syscall.user_brk (usys s) + need_of size /\ urep s' l /\ usys s' = usys s)
     \/ exists l' k, allocated s l size p s' l' k).
Proof.
  intros R0 Hs. destruct (need_of_spec size Hs) as [Ha Hneed].
  unfold malloc. rewrite (proj2 (Z.eqb_neq size 0)) by lia.
  destruct (heap_init_run s l R0) as (s1 & -> & R & Eu). cbn [mbind out_mbind Z.eqb negb].
  assert (Tr : forall p s' l' k, allocated s1 l (align_up size) p s' l' k -> allocated s l size p s' l' k).
  { unfold mm. intros p s' l' k [A1 A2 A3 A4 A5 A6 A7]. unfold mm in *. rewrite Eu in *.
    split; try done. lia. }
  pose proof R as [Hk Hh Hc Ho]. rewrite <- Eu. clear R0 Eu.
  destruct (find_fit_ok (mm s1) l 0 walk_fuel (align_up size) BASE (Syscall.user_brk (usys s1)) Hc Ho)
    as [(pre & b & r & -> & Hfit & Hff)|[Hno Hff]]; [done | |rewrite <- Hh in Hff..].
  - apply length_ordered in Ho. unfold walk_fuel. ulia.
  - rewrite Hff. cbn [mbind out_mbind].
    pose proof (ordered_in _ _ _ b Ho ltac:(apply elem_of_app; right; left)).
    rewrite u32_small by ulia. eexists _, _. split; [done|]. right. eexists _, _.
    apply Tr, (alloc_reuse s1 pre b r); done.
  - rewrite Hff. cbn [mbind out_mbind]. rewrite (more_core_run s1 l size R Hs). case_decide as E; cbn [mbind out_mbind].
    + set (b := Syscall.user_brk (usys s1)) in *. rewrite (proj2 (Z.eqb_neq b 0)) by ulia.
      rewrite (u32_small (b + SIZEOF_MHDR)) by ulia.
      eexists _, _. split; [done|]. right. eexists _, _.
      apply Tr, (alloc_grow s1 l (align_up size) (need_of size) R); try ulia.
      * by destruct (negb _).
      * destruct l as [|z l0 _] using rev_ind; [done|]. rewrite last_snoc. change (default 0 (ua <$> Some z)) with (ua z).
        pose proof (ordered_in _ _ _ z Ho ltac:(apply elem_of_app; right; left)).
        rewrite (proj2 (Z.eqb_neq (ua z) 0)) by ulia. cbn [negb set_mm heap_head].
        rewrite Hh, !first_app. by destruct l0.
      * unfold grown. destruct (last l) as [z|] eqn:El; [change (default 0 (ua <$> Some z)) with (ua z) | done].
        apply last_Some in El as (l0 & ->).
        pose proof (ordered_in _ _ _ z Ho ltac:(apply elem_of_app; right; left)).
        by rewrite (proj2 (Z.eqb_neq (ua z) 0)) by ulia.
    + exists 0, s1. split; [done|]. left. split_and!; try done. lia.
Qed.

(** C23. A request of up to 0xFF000000 bytes either fails, and then no free
    block was large enough, the break had no room left, and nothing changed,
    or returns memory of at least that size inside the program's break that
    no live block meets; the block list stays intact, and live blocks and
    memory outside the break area keep their contents. *)
Theorem umalloc_safe s l size :
  urep s l -> 0 < size <= 0xFF000000 ->
  exists p s', malloc size s = Ret (p, s') /\
    ((p = 0 /\ Forall (fun b => ~ fits (align_up size) b) l
      /\ LIMIT < Syscall.user_brk (usys s) + need_of size /\ urep s' l /\ usys s' = usys s)
     \/ exists l' k, allocated s l size p s' l' k).
Proof. apply malloc_run. Qed.

(** ** Release and resizing *)

(** A program writes inside one of its blocks. *)
Lemma urep_write s l p k m' :
  urep s l -> (p, k) ∈ live l -> (forall i, i < p \/ p + k <= i -> ld8 m' i = ld8 (mm s) i) ->
  urep (set_mm m' s) l.
Proof.
  intros [Hk Hh Hc Ho] Hp Hw. split; [done | done | | done]. rewrite mm_set.
  eapply cells_frame; [|exact Hc]. intros b i Hb Hi. apply Hw.
  destruct (decide (p <= i < p + k)) as [Hin|]; [|lia].
  destruct (live_not_header l p k i b _ _ Ho Hp Hin Hb); ulia.
Qed.

Lemma free_run s l p k :
  urep s l -> (p, k) ∈ live l ->
  exists l', urep (free p s) l' /\ live l ≡ₚ (p, k) :: live l'
    /\ forall q j i, (q, j) ∈ live l -> q <= i < q + j -> ld8 (mm (free p s)) i = ld8 (mm s) i.
Proof.
  intros [Hk Hh Hc Ho] Hp. assert (Hp2 := Hp). apply live_in in Hp2 as (b & Hb & Hf & [= -> ->]).
  pose proof (ordered_in _ _ _ _ Ho Hb) as Hbo.
  assert (E : free (ua b + SIZEOF_MHDR) s = set_mm (st32 (mm s) (ua b + 4) 1) s).
  { unfold free. rewrite (proj2 (Z.eqb_neq _ 0)) by ulia.
    rewrite u32_small by ulia. by replace (ua b + SIZEOF_MHDR - SIZEOF_MHDR) with (ua b) by lia. }
  rewrite E. clear E. assert (Hb2 := Hb). apply list_elem_of_split in Hb2 as (pre & r & ->).
  assert (Hcb := Hc). apply cells_app in Hcb as [_ Hcb]. simpl in Hcb. destruct Hcb as (H1 & _ & H3 & _).
  exists (pre ++ UB (ua b) (usz b) true :: r). split; [split | split].
  - done.
  - rewrite first_app. cbn [set_mm heap_head]. by rewrite Hh, first_app.
  - rewrite mm_set. apply (cells_header (mm s) _ pre b (UB (ua b) (usz b) true) r BASE (Syscall.user_brk (usys s))); try done.
    + unfold h_size. rewrite ld32_st32_ne by lia. exact H1.
    + unfold h_free. by rewrite ld32_st32_eq.
    + unfold h_next. rewrite ld32_st32_ne by lia. exact H3.
    + intros i Hi. apply ld8_st32_ne. ulia.
  - by apply (ordered_swap _ _ b).
  - rewrite !live_app, live_cons_used, live_cons_free by done. symmetry. apply Permutation_middle.
  - intros q j i Hq Hi. rewrite mm_set. apply ld8_st32_ne.
    destruct (live_not_header _ q j i b _ _ Ho Hq Hi Hb); ulia.
Qed.

Lemma copy_loop n p (k : nat) j m :
  0 <= n + j -> 0 <= p + j -> n + j + Z.of_nat k < 4294967296 -> p + j + Z.of_nat k < 4294967296 ->
  for_up k j (fun i m => st8 m (u32 (n + i)) (ld8 m (u32 (p + i)))) m = mem_copy m (n + j) (p + j) k.
Proof.
  revert j m. induction k as [|k IH]; intros j m H1 H2 H3 H4; [done|]. cbn [for_up mem_copy].
  rewrite !u32_small by (unfold in_u32; lia). rewrite IH by lia. f_equal; lia.
Qed.

(** Resizing a live block to up to 0xFF000000 bytes either fails and
    changes nothing, or returns a live block of at least the new size that
    replaces the old one and starts with its contents; the other live blocks
    keep theirs. *)
Theorem urealloc_keeps s l p k size :
  urep s l -> (p, k) ∈ live l -> 0 < size <= 0xFF000000 ->
  exists n s' l', realloc p size s = Ret (n, s') /\ urep s' l' /\
    ((n = 0 /\ l' = l /\ usys s' = usys s)
     \/ exists k' rest, size <= k' /\ live l ≡ₚ (p, k) :: rest /\ live l' ≡ₚ (n, k') :: rest
        /\ (forall i, 0 <= i < k `min` k' -> ld8 (mm s') (n + i) = ld8 (mm s) (p + i))
        /\ forall q j i, (q, j) ∈ rest -> q <= i < q + j -> ld8 (mm s') i = ld8 (mm s) i).
Proof.
  intros R Hp Hs. pose proof R as [Hk Hh Hc Ho].
  assert (Hp2 := Hp). apply live_in in Hp2 as (b & Hb & Hf & [= -> ->]).
  pose proof (ordered_in _ _ _ _ Ho Hb) as Hbo.
  assert (Hsz : forall s1 l1, urep s1 l1 -> payload b ∈ live l1 -> h_size (mm s1) (ua b) = usz b).
  { intros s1 l1 [_ _ Hc1 _] Hin. apply live_in in Hin as (c & Hin & _ & E).
    assert (ua c = ua b /\ usz c = usz b) as [<- <-] by (unfold payload in E; injection E; lia).
    apply list_elem_of_split in Hin as (pre & r & ->). apply cells_app in Hc1 as [_ Hc1]. simpl in Hc1. tauto. }
  assert (Eb : u32 (ua b + SIZEOF_MHDR - SIZEOF_MHDR) = ua b).
  { rewrite u32_small by ulia. lia. }
  destruct (free_run s l (ua b + SIZEOF_MHDR) (usz b) R Hp) as (lf & _ & Hlf & _).
  unfold realloc. rewrite (proj2 (Z.eqb_neq (ua b + SIZEOF_MHDR) 0)) by ulia.
  rewrite (proj2 (Z.eqb_neq size 0)) by lia. rewrite Eb, (Hsz s l R Hp).
  destruct (Z.leb_spec size (usz b)).
  { exists (ua b + SIZEOF_MHDR), s, l. split; [done|]. split; [done|]. right. exists (usz b), (live lf).
    by split_and!. }
  destruct (malloc_run s l size R Hs) as (n & s1 & -> & [(-> & _ & _ & R1 & E1)|(l1 & k1 & A)]);
    cbn [mbind out_mbind].
  { exists 0, s1, l. by split_and!; [..|left]. }
  destruct A as [A1 A2 A3 A4 A5 A6 A7].
  rewrite (proj2 (Z.eqb_neq n 0)) by ulia.
  assert (Hin1 : (ua b + SIZEOF_MHDR, usz b) ∈ live l1) by (rewrite A4; by right).
  rewrite (Hsz s1 l1 A1 Hin1).
  rewrite copy_loop by ulia. rewrite !Z.add_0_r.
  set (m2 := mem_copy (mm s1) n (ua b + SIZEOF_MHDR) (Z.to_nat (usz b))).
  pose proof (A5 _ _ Hp) as Hdis.
  assert (M2 : forall i, ld8 m2 i = if decide (n <= i < n + usz b)
                                    then ld8 (mm s1) (ua b + SIZEOF_MHDR + (i - n)) else ld8 (mm s1) i).
  { intros i. subst m2. rewrite ld8_mem_copy by ulia. by rewrite Z2Nat.id by lia. }
  assert (R2 : urep (set_mm m2 s1) l1).
  { apply (urep_write s1 l1 n k1); [done | rewrite A4; left |]. intros i Hi. rewrite M2.
    rewrite decide_False by lia. done. }
  destruct (free_run (set_mm m2 s1) l1 _ _ R2 Hin1) as (l2 & R3 & P3 & K3).
  eexists n, _, l2. split; [done|]. split; [done|]. right. exists k1, (live lf).
  assert (P2 : live l2 ≡ₚ (n, k1) :: live lf).
  { apply (Permutation_cons_inv (a := (ua b + SIZEOF_MHDR, usz b))). rewrite <- P3, A4, Hlf. apply Permutation_swap. }
  split_and!; [done | done | done | |].
  - intros i Hi. rewrite (K3 n k1) by (rewrite ?A4; (left || lia)). rewrite mm_set, M2.
    rewrite decide_True by lia. replace (n + i - n) with i by lia. apply (A6 _ _ _ Hp). lia.
  - intros q j i Hq Hi. assert (Hql : (q, j) ∈ live l) by (rewrite Hlf; by right).
    rewrite (K3 q j) by (rewrite ?A4; (by right) || lia). rewrite mm_set, M2.
    rewrite decide_False by (pose proof (A5 _ _ Hql); lia). by apply (A6 q j).
Qed.

(** ** A fresh process *)

Definition fresh (b : Z) : ust :=
  mk_ust (Syscall.set_brk b Syscall.MMAP_BASE (Syscall.power_on Fs.bss_fs (Terminal.mk_term 0 0 0 [] []))) 0 0.

Lemma fresh_rep b : BASE <= b <= LIMIT -> urep (fresh b) [].
Proof. intros H. split; cbn; [exact H | done | done | lia]. Qed.

Lemma umalloc_safe_witness :
  exists p s', malloc 100 (fresh BASE) = Ret (p, s')
    /\ (p = 0 \/ exists l' k, allocated (fresh BASE) [] 100 p s' l' k).
Proof.
  destruct (umalloc_safe (fresh BASE) [] 100) as (p & s' & E & H);
    [apply fresh_rep; ulia | lia |].
  exists p, s'. split; [exact E|]. destruct H as [H|H]; [left; apply H | right; exact H].
Defined.

(** A process with one live block of 12 bytes. *)
Definition one_block : ust :=
  mk_ust (Syscall.set_umem (st32 (st32 (st32 ∅ BASE 12) (BASE + 4) 0) (BASE + 8) 0) (usys (fresh (BASE + 24)))) BASE 0.
Lemma one_block_rep : urep one_block [UB BASE 12 false].
Proof.
  split; cbn [ordered cells first ua usz ufree]; [cbn; ulia | done | | cbn; ulia].
  change (mm one_block) with (st32 (st32 (st32 ∅ BASE 12) (BASE + 4) 0) (BASE + 8) 0).
  unfold h_size, h_free, h_next. by repeat (rewrite ld32_st32_eq || rewrite ld32_st32_ne by lia).
Qed.

Lemma urealloc_keeps_witness :
  exists n s' l', realloc (BASE + 12) 32 one_block = Ret (n, s') /\ urep s' l'.
Proof.
  destruct (urealloc_keeps one_block [UB BASE 12 false] (BASE + 12) 12 32)
    as (n & s' & l' & E & R & _); [exact one_block_rep | by apply list_elem_of_singleton | lia |].
  by exists n, s', l'.
Defined.

Lemma wrap_need size :
  4294967296 - BASE <= size <= 0xFFFFFFE8 ->
  size + 16 <= need_of size <= 0xFFFFFFF8 /\ u32 (BASE + need_of size) = BASE + need_of size - 4294967296.
Proof.
  intros Hs.
  assert (Ea : align_up size = 8 * ((size + 7) / 8)) by (rewrite align_eq, u32_small; [done | ulia]).
  assert (Ha : size <= align_up size <= 0xFFFFFFE8) by (rewrite Ea; zlia).
  assert (En : need_of size = align_up size + 16).
  { unfold need_of. rewrite align_eq, (u32_small (_ + SIZEOF_MHDR)) by ulia.
    rewrite u32_small by ulia. unfold SIZEOF_MHDR. rewrite Ea. zlia. }
  split; [ulia|]. unfold u32. rewrite <- (Z_mod_plus _ (-1)) by lia. apply Z.mod_small. ulia.
Qed.

(** The wrapped request is answered at the unmoved break. *)
Lemma wrap_first s size :
  urep s [] -> Syscall.user_brk (usys s) = BASE -> 4294967296 - BASE <= size <= 0xFFFFFFE8 ->
  malloc size s = Ret (BASE + SIZEOF_MHDR,
    mk_ust (Syscall.set_umem (grown (mm s) [] BASE (need_of size - SIZEOF_MHDR)) (usys s)) BASE BASE).
Proof.
  intros R Hb Hs. destruct (wrap_need size Hs) as [HN Ew].
  unfold malloc. rewrite (proj2 (Z.eqb_neq size 0)) by ulia.
  destruct (heap_init_run s [] R) as (s0 & -> & [Hk0 Hh0 _ _] & Eu). cbn [mbind out_mbind Z.eqb negb].
  rewrite Hh0. change (find_fit walk_fuel (mm s0) 0 (first [] 0) (align_up size)) with (@Ret (Z + Z) (inr 0)).
  cbn [mbind out_mbind]. unfold more_core.
  change (align_up (u32 (align_up size + SIZEOF_MHDR))) with (need_of size).
  rewrite brk_call by (done || ulia). cbn [mbind out_mbind orb Z.eqb]. rewrite Eu, Hb, Ew.
  rewrite brk_call by (done || ulia). rewrite Eu, Hb.
  rewrite (proj2 (Z.ltb_lt (_ - 4294967296) BASE)) by ulia. rewrite orb_true_r. cbn [orb mbind out_mbind].
  rewrite (proj2 (Z.ltb_ge BASE _)) by ulia. cbn [mbind out_mbind].
  rewrite (proj2 (Z.eqb_neq BASE 0)) by ulia.
  rewrite (u32_small (BASE + SIZEOF_MHDR)), (u32_small (need_of size - SIZEOF_MHDR)) by ulia.
  unfold set_mm, mm, grown. cbn [usys heap_head heap_end]. rewrite Eu. done.
Qed.

(** A request after it, when the only block is not free: the same address,
    and the block is linked to itself. *)
Lemma wrap_second s1 :
  Syscall.user_brk (usys s1) = BASE -> heap_head s1 = BASE ->
  h_free (mm s1) BASE = 0 -> h_next (mm s1) BASE = 0 ->
  exists s2, malloc 8 s1 = Ret (BASE + SIZEOF_MHDR, s2)
    /\ h_size (mm s2) BASE = 12 /\ h_next (mm s2) BASE = BASE.
Proof.
  intros Hb Hh F1 F2.
  unfold malloc. cbn [Z.eqb]. change (align_up 8) with 8. unfold heap_init.
  rewrite Hh, (proj2 (Z.eqb_neq BASE 0)) by ulia. cbn [negb mbind out_mbind Z.eqb].
  change walk_fuel with (S (S (Z.to_nat 87398))). cbn [find_fit].
  rewrite Hh, (proj2 (Z.eqb_neq BASE 0)), F1, F2 by ulia. cbn [Z.eqb negb andb mbind out_mbind].
  unfold more_core. change (align_up (u32 (8 + SIZEOF_MHDR))) with 24.
  rewrite brk_call by (rewrite ?Hb; ulia). cbn [mbind out_mbind orb Z.eqb].
  rewrite Hb, (u32_small (BASE + 24)), brk_call by (rewrite ?Hb; ulia).
  rewrite (proj2 (Z.eqb_neq (BASE + 24) 0)), (proj2 (Z.ltb_ge (BASE + 24) BASE)),
    (proj2 (Z.ltb_ge LIMIT (BASE + 24))) by ulia.
  cbn [orb mbind out_mbind]. rewrite (proj2 (Z.ltb_ge (BASE + 24) (BASE + 24))) by lia. cbn [mbind out_mbind].
  rewrite (proj2 (Z.eqb_neq BASE 0)), (u32_small (BASE + SIZEOF_MHDR)) by ulia. cbn [negb].
  eexists. split; [done|]. rewrite mm_set. unfold h_size, h_next. rewrite !mm_set.
  repeat (rewrite ld32_st32_eq || rewrite ld32_st32_ne by lia). rewrite u32_small by ulia. split; [|done].
  match goal with |- ld32 (mm (mk_ust (usys (set_mm ?m _)) _ _)) _ = _ => change (ld32 m BASE = 12) end.
  repeat (rewrite ld32_st32_eq || rewrite ld32_st32_ne by lia). rewrite u32_small by ulia. done.
Qed.

(** C38. A request whose end passes 4 GiB succeeds.  From an empty block list
    with the break at the start of the heap, a request of 4 GiB - BASE to
    0xFFFFFFE8 bytes is answered with a block that claims that size at the
    unmoved break: the wrapped break is refused by the kernel, which answers
    with the current break, and the comparison takes that for success.
    [malloc(8)] then returns the same address and links the block to itself,
    so that a search from there for more than 12 bytes never ends. *)
Theorem umalloc_wraps s size :
  urep s [] -> Syscall.user_brk (usys s) = BASE -> 4294967296 - BASE <= size <= 0xFFFFFFE8 ->
  exists s1 s2,
    malloc size s = Ret (BASE + SIZEOF_MHDR, s1)
    /\ Syscall.user_brk (usys s1) = BASE /\ size <= h_size (mm s1) BASE
    /\ malloc 8 s1 = Ret (BASE + SIZEOF_MHDR, s2)
    /\ h_next (mm s2) BASE = BASE
    /\ forall fuel prev n, 12 < n -> find_fit fuel (mm s2) prev BASE n = Fault NoFuel.
Proof.
  intros R Hb Hs. destruct (wrap_need size Hs) as [HN _].
  pose proof (wrap_first s size R Hb Hs) as E1. set (s1 := mk_ust _ BASE BASE) in E1.
  destruct (grown_cells (mm s) [] BASE (need_of size - SIZEOF_MHDR) BASE) as (G1 & G2 & G3 & _);
    [done | simpl; ulia | ulia | ulia |].
  destruct (wrap_second s1 Hb eq_refl G2 G3) as (s2 & E2 & S2 & N2).
  exists s1, s2. split_and!; try done.
  - change (h_size (mm s1) BASE) with (h_size (grown (mm s) [] BASE (need_of size - SIZEOF_MHDR)) BASE).
    cbn [ua usz] in G1. rewrite G1. ulia.
  - intros fuel. induction fuel as [|fuel IH]; intros prev n Hn; [done|].
    cbn [find_fit]. rewrite (proj2 (Z.eqb_neq BASE 0)) by ulia.
    rewrite S2, N2, (proj2 (Z.leb_gt n 12)), andb_false_r by lia. by apply IH.
Qed.

Lemma umalloc_wraps_witness :
  exists s1 s2, malloc 0xFFC00000 (fresh BASE) = Ret (BASE + 12, s1) /\ malloc 8 s1 = Ret (BASE + 12, s2).
Proof.
  destruct (umalloc_wraps (fresh BASE) 0xFFC00000) as (s1 & s2 & E1 & _ & _ & E2 & _);
    [apply fresh_rep; ulia | done | cbn; ulia |].
  by exists s1, s2.
Defined.

End UmallocSpec.
