(* ===== verification/Ustdio.v ===== *)
(** * Formatted output of user programs (src/user/lib/stdio.c)

    Every character goes through a local variable and one [write] system
    call; [sp] is the address of that variable, [nullp] that of the literal
    printed for a null string.  The variable arguments are the list of
    32-bit words on the stack. *)

From S2P Require Import Prelude Memory Kmalloc Terminal Fs Syscall Umalloc.
Import Umalloc.

Module Ustdio.

Definition NR_write : Z := 4.
Definition STDOUT_FILENO : Z := 1.

Section Stdio.
Context (sp nullp : Z).
Abbreviation sysst := Syscall.sysst.

(** [strlen] of string.c; a string ends within the stored bytes. *)
Definition strlen (p : Z) (s : sysst) : out Z :=
  strlen_loop (S (size (Syscall.umem s))) (Syscall.umem s) p 0.

Definition putchar (c : Z) (s : sysst) : out sysst :=
  let s := Syscall.set_umem (st8 (Syscall.umem s) sp c) s in
  '(_, s) ← syscall3 NR_write STDOUT_FILENO sp 1 s;
  Ret s.

Definition write_str (p : Z) (s : sysst) : out (Z * sysst) :=
  n ← strlen p s;
  '(_, s) ← syscall3 NR_write STDOUT_FILENO p n s;
  Ret (n, s).

Definition puts (p : Z) (s : sysst) : out (Z * sysst) :=
  '(_, s) ← write_str p s;
  s ← putchar 10 s;
  Ret (0, s).

(** [buf] of [print_uint], least significant digit first. *)
Fixpoint digit_buf (i : nat) (v base : Z) : chars :=
  match i with
  | O => []
  | S i' => if 0 <? v then char_at $"0123456789abcdef" (Z.to_nat (v mod base)) :: digit_buf i' (v / base) base
            else []
  end.

(** [while (i--) putchar(buf[i]);] *)
Fixpoint put_all (cs : chars) (s : sysst) : out sysst :=
  match cs with [] => Ret s | c :: cs' => s ← putchar c s; put_all cs' s end.

Definition print_uint (v base : Z) (s : sysst) : out sysst :=
  if v =? 0 then putchar 48 s else put_all (reverse (digit_buf 32 v base)) s.

Definition print_int (v : Z) (s : sysst) : out sysst :=
  if v <? 0 then
    s ← putchar 45 s;
    print_uint (u32 (u32 (- (v + 1)) + 1)) 10 s
  else print_uint (u32 v) 10 s.

(** [va_arg]: reading past the arguments is undefined. *)
Definition va_arg (ap : list Z) : out (Z * list Z) :=
  match ap with a :: ap' => Ret (a, ap') | [] => Fault OutOfBounds end.

(** The switch on the character after a percent sign. *)
Definition conversion (d : Z) (ap : list Z) (written : Z) (s : sysst) : out (list Z * Z * sysst) :=
  if d =? 115 then (* s *)
    '(p, ap) ← va_arg ap;
    let p := if p =? 0 then nullp else p in
    '(n, s) ← write_str p s;
    Ret (ap, written + n, s)
  else if d =? 99 then (* c *)
    '(a, ap) ← va_arg ap; s ← putchar (u8 a) s; Ret (ap, written + 1, s)
  else if (d =? 100) || (d =? 105) then (* d, i *)
    '(a, ap) ← va_arg ap; s ← print_int (s32 a) s; Ret (ap, written + 1, s)
  else if d =? 117 then (* u *)
    '(a, ap) ← va_arg ap; s ← print_uint (u32 a) 10 s; Ret (ap, written + 1, s)
  else if d =? 120 then (* x *)
    '(a, ap) ← va_arg ap; s ← print_uint (u32 a) 16 s; Ret (ap, written + 1, s)
  else if d =? 112 then (* p *)
    '(a, ap) ← va_arg ap;
    s ← putchar 48 s; s ← putchar 120 s;
    s ← print_uint (u32 a) 16 s; Ret (ap, written + 1, s)
  else if d =? 37 then s ← putchar 37 s; Ret (ap, written + 1, s)
  else s ← putchar 37 s; s ← putchar d s; Ret (ap, written + 2, s).

Fixpoint vprintf_loop (fmt : chars) (ap : list Z) (written : Z) (s : sysst) : out (Z * sysst) :=
  match fmt with
  | [] => Ret (written, s)
  | c :: fmt' =>
      if negb (c =? 37) then s ← putchar c s; vprintf_loop fmt' ap (written + 1) s
      else
        match fmt' with
        | [] => Ret (written, s)
        | d :: fmt'' =>
            '(ap, written, s) ← conversion d ap written s;
            vprintf_loop fmt'' ap written s
        end
  end.

Definition vprintf (fmt : chars) (ap : list Z) (s : sysst) : out (Z * sysst) :=
  vprintf_loop (cstr fmt) ap 0 s.
Definition printf (fmt : chars) (ap : list Z) (s : sysst) : out (Z * sysst) := vprintf fmt ap s.

(** ** What is printed *)

Definition base_chars (v base : Z) : chars :=
  if v =? 0 then [48] else reverse (digit_buf 32 v base).
Definition signed_chars (v : Z) : chars :=
  if v <? 0 then 45 :: base_chars (- v) 10 else base_chars v 10.

(** The text of one conversion and the count [vprintf] adds for it. *)
Definition render_one (str : Z -> option chars) (d : Z) (ap : list Z) : option (chars * Z * list Z) :=
  match ap with
  | a :: ap' =>
      if d =? 115 then t ← str (if a =? 0 then nullp else a); Some (t, Z.of_nat (length t), ap')
      else if d =? 99 then Some ([u8 a], 1, ap')
      else if (d =? 100) || (d =? 105) then Some (signed_chars (s32 a), 1, ap')
      else if d =? 117 then Some (base_chars (u32 a) 10, 1, ap')
      else if d =? 120 then Some (base_chars (u32 a) 16, 1, ap')
      else if d =? 112 then Some ([48; 120] ++ base_chars (u32 a) 16, 1, ap')
      else if d =? 37 then Some ([37], 1, ap) else Some ([37; d], 2, ap)
  | [] =>
      if existsb (Z.eqb d) [115; 99; 100; 105; 117; 120; 112] then None
      else if d =? 37 then Some ([37], 1, ap) else Some ([37; d], 2, ap)
  end.

Fixpoint render (str : Z -> option chars) (fmt : chars) (ap : list Z) : option (chars * Z) :=
  match fmt with
  | [] => Some ([], 0)
  | c :: fmt' =>
      if negb (c =? 37) then '(t, n) ← render str fmt' ap; Some (c :: t, n + 1)
      else
        match fmt' with
        | [] => Some ([], 0)
        | d :: fmt'' =>
            '(t, n, ap) ← render_one str d ap;
            '(t', n') ← render str fmt'' ap; Some (t ++ t', n + n')
        end
  end.

(** Memory that differs at the local variable only. *)
Definition off_sp (m m' : mem) : Prop := forall i, i <> sp -> m' !! i = m !! i.

(** Standard output is the console; [str] gives the strings that lie in
    memory clear of the local variable, short enough for [int]. *)
Record printable (s : sysst) (str : Z -> option chars) : Prop := {
  pb_out : Syscall.bad_fd 1 s = false /\ Syscall.ftype (Syscall.fd_at s 1) = Syscall.FD_CONSOLE;
  pb_sp : 0 < sp < 4294967296;
  pb_str : forall m' p t, off_sp (Syscall.umem s) m' -> str p = Some t ->
    p <> 0 /\ Z.of_nat (length t) < 2147483648
    /\ strlen_loop (S (size m')) m' p 0 = Ret (Z.of_nat (length t)) /\ get m' p (length t) = t;
}.

(** [s'] is [s] after printing [t]. *)
Definition printed (s : sysst) (t : chars) (s' : sysst) : Prop :=
  exists m', off_sp (Syscall.umem s) m'
    /\ s' = Syscall.set_tty (foldl (fun t c => Terminal.terminal_putchar c t) (Syscall.tty s) t)
              (Syscall.set_umem m' s).

Lemma printed_nil s : printed s [] s.
Proof. exists (Syscall.umem s). split; [done|]. by destruct s as [[] ? ? ? ? ? ? ? ? ? ? ?]. Qed.
Lemma printed_app s t1 s1 t2 s2 : printed s t1 s1 -> printed s1 t2 s2 -> printed s (t1 ++ t2) s2.
Proof.
  intros (m1 & H1 & ->) (m2 & H2 & ->). exists m2. split.
  - intros i Hi. rewrite (H2 i Hi). apply (H1 i Hi).
  - cbn [Syscall.tty Syscall.set_tty Syscall.set_umem]. by rewrite foldl_app.
Qed.
Lemma printable_after s str t s' : printable s str -> printed s t s' -> printable s' str.
Proof.
  intros [H1 H2 H3] (m' & Hm & ->). split; [done | done |].
  intros m2 p x Hm2. apply H3. intros i Hi. rewrite (Hm2 i Hi). apply (Hm i Hi).
Qed.

Lemma write_call s p n :
  Syscall.bad_fd 1 s = false -> Syscall.ftype (Syscall.fd_at s 1) = Syscall.FD_CONSOLE ->
  p <> 0 -> 0 <= n < 2147483648 ->
  syscall3 NR_write STDOUT_FILENO p n s =
  Ret (u32 n, Syscall.set_tty (foldl (fun t c => Terminal.terminal_putchar c t) (Syscall.tty s)
                                 (get (Syscall.umem s) p (Z.to_nat n))) s).
Proof.
  intros Hb Hf Hp Hn. unfold syscall3, Syscall.syscall_handler.
  change (Syscall.dispatch _ s) with (Syscall.ret (Syscall.sys_write (Syscall.int 1) p (Syscall.int n) s)).
  unfold Syscall.int, Syscall.sys_write. rewrite (s32_small n) by (unfold in_s32; lia).
  change (s32 1) with 1. rewrite (proj2 (Z.ltb_ge n 0)), (proj2 (Z.eqb_neq p 0)) by lia.
  rewrite Hb, bool_decide_true by done. done.
Qed.

Lemma putchar_prints s str c :
  printable s str -> exists s', putchar c s = Ret s' /\ printed s [u8 c] s'.
Proof.
  intros [[H1 H2] H3 _]. unfold putchar. rewrite write_call by (done || lia). cbn [mbind out_mbind].
  eexists. split; [done|]. exists (st8 (Syscall.umem s) sp c). split.
  - intros i Hi. unfold st8. by rewrite lookup_insert_ne.
  - cbn [get Z.to_nat Pos.to_nat Pos.iter_op]. change (Syscall.umem (Syscall.set_umem ?m s)) with m.
    change (Z.to_nat 1) with 1%nat. cbn [get]. rewrite (u32_small sp), ld8_st8_eq by (unfold in_u32; lia). done.
Qed.

Lemma put_all_prints cs s str :
  printable s str -> Forall (fun c => 0 <= c < 256) cs ->
  exists s', put_all cs s = Ret s' /\ printed s cs s'.
Proof.
  revert s. induction cs as [|c cs IH]; intros s H Hc; [exists s; split; [done | apply printed_nil]|].
  apply Forall_cons in Hc as [Hc Hcs]. destruct (putchar_prints s str c H) as (s1 & E1 & P1).
  destruct (IH s1) as (s2 & E2 & P2); [by eapply printable_after | done |].
  exists s2. cbn [put_all]. rewrite E1. cbn [mbind out_mbind]. split; [done|].
  rewrite u8_small in P1 by lia. exact (printed_app _ [c] _ cs _ P1 P2).
Qed.

Lemma digit_buf_bytes i v base : 0 < base <= 16 -> Forall (fun c => 0 <= c < 256) (digit_buf i v base).
Proof.
  intros Hb. revert v. induction i as [|i IH]; intros v; cbn [digit_buf]; [done|].
  destruct (0 <? v); [|done]. constructor; [|apply IH].
  assert (H : 0 <= v mod base < 16) by (pose proof (Z.mod_pos_bound v base); lia).
  generalize dependent (v mod base). intros k Hk.
  assert (A : forall n : nat, (n < 16)%nat -> 0 <= char_at $"0123456789abcdef" n < 256).
  { intros n Hn. do 16 (destruct n as [|n]; [vm_compute; split; congruence|]). lia. }
  apply A. lia.
Qed.

Lemma print_uint_prints v base s str :
  printable s str -> 0 < base <= 16 ->
  exists s', print_uint v base s = Ret s' /\ printed s (base_chars v base) s'.
Proof.
  intros H Hb. unfold print_uint, base_chars. destruct (v =? 0); [by apply (putchar_prints s str 48)|].
  apply (put_all_prints _ s str H), Forall_reverse, digit_buf_bytes, Hb.
Qed.

Lemma print_int_prints v s str :
  printable s str -> in_s32 v -> exists s', print_int v s = Ret s' /\ printed s (signed_chars v) s'.
Proof.
  unfold in_s32. intros H Hv. unfold print_int, signed_chars. destruct (Z.ltb_spec v 0).
  - destruct (putchar_prints s str 45 H) as (s1 & -> & P1). cbn [mbind out_mbind].
    destruct (print_uint_prints (- v) 10 s1 str) as (s2 & E2 & P2); [by eapply printable_after | lia |].
    exists s2. rewrite (u32_small (- (v + 1))) by (unfold in_u32; lia).
    replace (- (v + 1) + 1) with (- v) by lia. rewrite u32_small by (unfold in_u32; lia).
    split; [done|]. exact (printed_app _ [45] _ _ _ P1 P2).
  - rewrite u32_small by (unfold in_u32; lia). by apply (print_uint_prints v 10 s str H).
Qed.

Lemma write_str_prints p t s str :
  printable s str -> str p = Some t ->
  exists s', write_str p s = Ret (Z.of_nat (length t), s') /\ printed s t s'.
Proof.
  intros [[H1 H2] H3 H4] Ht. destruct (H4 (Syscall.umem s) p t) as (A & B & C & D); [done | done |].
  unfold write_str, strlen. rewrite C. cbn [mbind out_mbind]. rewrite write_call by (done || lia).
  cbn [mbind out_mbind]. rewrite Nat2Z.id, D. eexists. split; [done|].
  exists (Syscall.umem s). split; [done|]. by destruct s as [[] ? ? ? ? ? ? ? ? ? ? ?].
Qed.

Lemma percent_prints str (ap : list Z) w s :
  printable s str ->
  exists s', (s ← putchar 37 s; Ret (ap, w + 1, s)) = Ret (ap, w + 1, s') /\ printed s [37] s'.
Proof. intros H. destruct (putchar_prints s str 37 H) as (s1 & -> & P1). by exists s1. Qed.
Lemma literal_prints str (ap : list Z) d w s :
  printable s str -> 0 <= d < 256 ->
  exists s', (s ← putchar 37 s; s ← putchar d s; Ret (ap, w + 2, s)) = Ret (ap, w + 2, s')
    /\ printed s [37; d] s'.
Proof.
  intros H Hd. destruct (putchar_prints s str 37 H) as (s1 & -> & P1). cbn [mbind out_mbind].
  destruct (putchar_prints s1 str d) as (s2 & -> & P2); [by eapply printable_after|].
  exists s2. split; [done|]. rewrite (u8_small d) in P2 by lia. exact (printed_app _ [37] _ _ _ P1 P2).
Qed.

Lemma conversion_prints str d ap w s t n ap' :
  printable s str -> 0 <= d < 256 -> render_one str d ap = Some (t, n, ap') ->
  exists s', conversion d ap w s = Ret (ap', w + n, s') /\ printed s t s'.
Proof.
  intros H Hd Hr.
  unfold conversion. destruct ap as [|a ap]; cbn [render_one existsb] in Hr.
  - destruct (d =? 115), (d =? 99), (d =? 100), (d =? 105), (d =? 117), (d =? 120), (d =? 112);
      try discriminate Hr. cbn [orb] in *.
    destruct (d =? 37); injection Hr as <- <- <-; [by apply (percent_prints str) | by apply (literal_prints str)].
  - cbn [va_arg mbind out_mbind].
    destruct (d =? 115).
    { apply bind_Some in Hr as (t' & Ht & [= <- <- <-]).
      destruct (write_str_prints _ _ s str H Ht) as (s1 & -> & P). by exists s1. }
    destruct (d =? 99).
    { injection Hr as <- <- <-. destruct (putchar_prints s str (u8 a) H) as (s1 & -> & P1). exists s1.
      rewrite u8_u8 in P1. done. }
    destruct ((d =? 100) || (d =? 105)).
    { injection Hr as <- <- <-. destruct (print_int_prints (s32 a) s str H (s32_range a)) as (s1 & -> & P1).
      by exists s1. }
    destruct (d =? 117).
    { injection Hr as <- <- <-. destruct (print_uint_prints (u32 a) 10 s str H) as (s1 & -> & P1); [lia|].
      by exists s1. }
    destruct (d =? 120).
    { injection Hr as <- <- <-. destruct (print_uint_prints (u32 a) 16 s str H) as (s1 & -> & P1); [lia|].
      by exists s1. }
    destruct (d =? 112).
    { injection Hr as <- <- <-. destruct (putchar_prints s str 48 H) as (s1 & -> & P1).
      cbn [mbind out_mbind]. assert (H1 := printable_after _ _ _ _ H P1).
      destruct (putchar_prints s1 str 120 H1) as (s2 & -> & P2). cbn [mbind out_mbind].
      destruct (print_uint_prints (u32 a) 16 s2 str) as (s3 & -> & P3); [by eapply printable_after | lia |].
      exists s3. split; [done|]. exact (printed_app _ [48] _ _ _ P1 (printed_app _ [120] _ _ _ P2 P3)). }
    destruct (d =? 37); injection Hr as <- <- <-; [by apply (percent_prints str) | by apply (literal_prints str)].
Qed.

Lemma vprintf_loop_prints str fmt ap w s t n :
  printable s str -> Forall (fun c => 0 <= c < 256) fmt -> render str fmt ap = Some (t, n) ->
  exists s', vprintf_loop fmt ap w s = Ret (w + n, s') /\ printed s t s'.
Proof.
  revert ap w s t n. induction fmt as [fmt IH] using (induction_ltof1 _ (@length Z)). unfold ltof in IH.
  intros ap w s t n H Hf Hr. destruct fmt as [|c fmt]; cbn [render vprintf_loop] in *.
  { injection Hr as <- <-. exists s. rewrite Z.add_0_r. split; [done | apply printed_nil]. }
  apply Forall_cons in Hf as [Hc Hf]. destruct (negb (c =? 37)).
  - apply bind_Some in Hr as ([t' n'] & Hr & [= <- <-]).
    destruct (putchar_prints s str c H) as (s1 & -> & P1). cbn [mbind out_mbind].
    destruct (IH fmt ltac:(simpl; lia) ap (w + 1) s1 t' n') as (s2 & E2 & P2);
      [by eapply printable_after | done | done |].
    exists s2. rewrite E2. split; [do 2 f_equal; lia|]. rewrite u8_small in P1 by lia.
    exact (printed_app _ [c] _ _ _ P1 P2).
  - destruct fmt as [|d fmt].
    { injection Hr as <- <-. exists s. rewrite Z.add_0_r. split; [done | apply printed_nil]. }
    apply Forall_cons in Hf as [Hd Hf].
    apply bind_Some in Hr as ([[t1 n1] ap1] & H1 & Hr). apply bind_Some in Hr as ([t2 n2] & H2 & [= <- <-]).
    destruct (conversion_prints str d ap w s t1 n1 ap1 H Hd H1) as (s1 & -> & P1). cbn [mbind out_mbind].
    destruct (IH fmt ltac:(simpl; lia) ap1 (w + n1) s1 t2 n2) as (s2 & E2 & P2);
      [by eapply printable_after | done | done |].
    exists s2. rewrite E2. split; [do 2 f_equal; lia | by eapply printed_app].
Qed.

(** C31. [printf] writes to the console, character by character through the
    write system call, exactly the text its format and arguments describe,
    changes no other state than the screen and its own local variable, and
    returns one per literal character or number, and the length of each
    string. *)
Theorem printf_renders str fmt ap s t n :
  printable s str -> Forall (fun c => 0 <= c < 256) (cstr fmt) -> render str (cstr fmt) ap = Some (t, n) ->
  exists s', printf fmt ap s = Ret (n, s') /\ printed s t s'.
Proof. intros H Hf Hr. exact (vprintf_loop_prints str (cstr fmt) ap 0 s t n H Hf Hr). Qed.

End Stdio.

(** ** The digits *)

Definition digit_value (c : Z) : Z := if c <? 58 then c - 48 else c - 87.
Definition base_value (base : Z) (s : chars) : Z := foldl (fun v c => v * base + digit_value c) 0 s.

Lemma digit_value_char k : 0 <= k < 16 -> digit_value (char_at $"0123456789abcdef" (Z.to_nat k)) = k.
Proof.
  intros Hk. assert (A : forall n : nat, (n < 16)%nat -> digit_value (char_at $"0123456789abcdef" n) = Z.of_nat n).
  { intros n Hn. do 16 (destruct n as [|n]; [done|]). lia. }
  rewrite A by lia. lia.
Qed.

Lemma digit_buf_value i v base :
  2 <= base <= 16 -> 0 <= v < base ^ Z.of_nat i -> base_value base (reverse (digit_buf i v base)) = v.
Proof.
  intros Hb. revert v. induction i as [|i IH]; intros v Hv; cbn [digit_buf].
  - change (base ^ Z.of_nat 0) with 1 in Hv. cbn. lia.
  - rewrite Nat2Z.inj_succ, Z.pow_succ_r in Hv by lia. destruct (Z.ltb_spec 0 v); [|cbn; lia].
    rewrite reverse_cons. unfold base_value in *. rewrite foldl_app. cbn [foldl].
    rewrite IH by (split; [apply Z.div_pos; lia | apply Z.div_lt_upper_bound; lia]).
    rewrite digit_value_char by (pose proof (Z.mod_pos_bound v base); lia).
    pose proof (Z.div_mod v base). lia.
Qed.

(** Numbers print as their digits: reading the text back gives the value,
    for every 32-bit number, the smallest negative one included. *)
Lemma printed_number_value v :
  (0 <= v < 4294967296 -> base_value 10 (base_chars v 10) = v /\ base_value 16 (base_chars v 16) = v)
  /\ (in_s32 v -> v < 0 -> exists t, signed_chars v = 45 :: t /\ base_value 10 t = - v).
Proof.
  assert (D : forall u base, 2 <= base <= 16 -> 0 <= u < 4294967296 -> base_value base (base_chars u base) = u).
  { intros u base Hb Hu. unfold base_chars. destruct (Z.eqb_spec u 0) as [->|]; [done|].
    apply digit_buf_value; [done|]. split; [lia|].
    apply Z.lt_le_trans with (2 ^ Z.of_nat 32); [change (2 ^ Z.of_nat 32) with 4294967296; lia|]. apply Z.pow_le_mono_l. lia. }
  split.
  - intros Hv. split; apply D; lia.
  - unfold in_s32. intros Hv Hn. unfold signed_chars. rewrite (proj2 (Z.ltb_lt v 0)) by lia.
    eexists. split; [done|]. apply D; lia.
Qed.

(** ** A run *)

Definition console0 : Syscall.sysst :=
  Syscall.fd_table_reset (Syscall.power_on Fs.bss_fs (Terminal.mk_term 0 0 0 [] [])).

Lemma printf_renders_witness :
  exists s', printf 0x5FFFF0 0 $"%d = 0x%x%%" [u32 (-5); 255] console0 = Ret (8, s')
    /\ printed 0x5FFFF0 console0 $"-5 = 0xff%" s'.
Proof.
  apply (printf_renders 0x5FFFF0 0 (fun _ => None) $"%d = 0x%x%%" [u32 (-5); 255] console0
    $"-5 = 0xff%" 8); [split; [by split | lia | intros ? ? ? ? [=]] | by repeat constructor | reflexivity].
Defined.

End Ustdio.
