(* ===== verification/Lined.v ===== *)
(** * The line editor of the shell (src/src/shell.c)

    [read_line] with its history and tab completion, and the small string
    functions of shell.c.  The edited line lives in a character array; an
    access outside it is an [OutOfBounds] fault.  Keys are the list of
    characters the keyboard delivers; waiting for a key that never comes is
    [Hang].  The file system is only read. *)

From S2P Require Import Prelude Terminal Fs Keyboard.
Import Fs Terminal.

Module Lined.

Definition CMD_BUFFER_SIZE : nat := 128.
Definition PWD_BUFFER_SIZE : nat := 128.
Definition HISTORY_SIZE : nat := 16.
Definition RUN_LINE_MAX : nat := 128.

(** ** Strings *)

Definition str_equals (a b : chars) : bool := c_streq a b.

Fixpoint str_starts_with (str prefix : chars) : bool :=
  match prefix with
  | [] => true
  | c :: prefix' =>
      if c =? 0 then true
      else if negb (char_at str 0 =? c) then false
      else str_starts_with (tail str) prefix'
  end.

Definition str_copy (dst src : chars) (max : nat) : chars := c_strcpy_truncate dst src max.
Definition str_len (s : chars) : nat := c_strlen s.

(** The characters before the first NUL or blank, at most [n]. *)
Fixpoint word (n : nat) (s : chars) : chars :=
  match n, s with
  | S n', c :: s' => if (c =? 0) || (c =? 32) then [] else c :: word n' s'
  | _, _ => []
  end.
Fixpoint skip_blanks (s : chars) : chars :=
  match s with c :: s' => if c =? 32 then skip_blanks s' else s | [] => [] end.

(** [name_out] and [*rest_out], or the result 0. *)
Definition split_name_and_rest (args : chars) (name_out_size : nat) : option (chars * chars) :=
  let w := word (name_out_size - 1) args in
  match w with [] => None | _ => Some (w, skip_blanks (drop (length w) args)) end.

Definition split_two_names (args : chars) (asz bsz : nat) : option (chars * chars) :=
  '(a, rest) ← split_name_and_rest args asz;
  let b := word (bsz - 1) rest in
  match b with [] => None | _ => Some (a, b) end.

(** ** History *)

Record hist : Type := mk_hist {
  history : list chars;      (** [char history[16][128]], newest first *)
  history_count : Z;
  history_pos : Z;
}.

Definition copy_entry (i : nat) (src : chars) (l : list chars) : list chars :=
  <[i := str_copy (l !!! i) src CMD_BUFFER_SIZE]> l.

(** [for (i = n; i > 0; i--) history[i] = history[i - 1];] *)
Fixpoint shift_history (n : nat) (l : list chars) : list chars :=
  match n with
  | O => l
  | S n' => shift_history n' (copy_entry n (l !!! n') l)
  end.

Definition history_add (line : chars) (h : hist) : hist :=
  if char_at line 0 =? 0 then h
  else
    let l := copy_entry 0 line (shift_history (HISTORY_SIZE - 1) (history h)) in
    mk_hist l (if history_count h <? Z.of_nat HISTORY_SIZE then history_count h + 1 else history_count h) (-1).

Definition set_hpos (p : Z) (h : hist) : hist := mk_hist (history h) (history_count h) p.

(** ** The edited line *)

Record ed : Type := mk_ed {
  buffer : chars;
  len : nat;
  cursor : nat;
  prompt_x : nat;
  prompt_y : nat;
}.

Record lst : Type := mk_lst { e : ed; h : hist; t : term }.

Definition set_line (b : chars) (n c : nat) (x : ed) : ed := mk_ed b n c (prompt_x x) (prompt_y x).

(** [b[i] = c] *)
Definition store (b : chars) (i : nat) (c : Z) : out chars :=
  if (i <? length b)%nat then Ret (<[i := c]> b) else Fault OutOfBounds.

(** [for (i = i; n rounds; i++) b[i] = b[i + 1];] *)
Fixpoint shift_left (n i : nat) (b : chars) : out chars :=
  match n with
  | O => Ret b
  | S n' => b ← store b i (b !!! S i); shift_left n' (S i) b
  end.

(** [for (i = cursor + n; i > cursor; i--) b[i + k] = b[i - 1];], the index
    being a 32-bit [size_t]. *)
Fixpoint shift_right (n cursor : nat) (k : Z) (b : chars) : out chars :=
  match n with
  | O => Ret b
  | S n' =>
      b ← store b (Z.to_nat (u32 (Z.of_nat (cursor + n) + k))) (b !!! (cursor + n')%nat);
      shift_right n' cursor k b
  end.

(** [for (i = 0; i < k; i++) b[at + i] = m[off + i];]: some index leaves the
    array exactly when the last one does. *)
Definition copy_in (b : chars) (at_ : nat) (m : chars) (off : nat) (k : Z) : out chars :=
  if Z.of_nat (length b) <? Z.of_nat at_ + k then Fault OutOfBounds
  else
    let w := take (Z.to_nat k) (drop off m) in
    Ret (take at_ b ++ w ++ drop (at_ + length w) b).

(** [for (i = from; i < to; i++) terminal_putchar(b[i]);] *)
Definition put_range (b : chars) (from to : nat) (t : term) : term :=
  foldl (fun t c => terminal_putchar c t) t (take (to - from) (drop from b)).
Definition put_blanks (n : nat) (t : term) : term :=
  foldl (fun t c => terminal_putchar c t) t (replicate n 32).

Definition key_backspace (x : lst) : out lst :=
  let ed := e x in
  match cursor ed with
  | O => Ret x
  | S c =>
      b ← shift_left (len ed - cursor ed) c (buffer ed);
      let n := (len ed - 1)%nat in
      b ← store b n 0;
      let y := terminal_row (t x) in
      let t := terminal_set_cursor (prompt_x ed + c) y (t x) in
      let t := terminal_putchar 32 (put_range b c n t) in
      let t := terminal_set_cursor (prompt_x ed + c) y t in
      Ret (mk_lst (set_line b n c ed) (h x) t)
  end.

Definition key_left (x : lst) : lst :=
  let ed := e x in
  match cursor ed with
  | O => x
  | S c => mk_lst (set_line (buffer ed) (len ed) c ed) (h x) (terminal_move_left 1 (t x))
  end.

Definition key_right (x : lst) : lst :=
  let ed := e x in
  if (cursor ed <? len ed)%nat
  then mk_lst (set_line (buffer ed) (len ed) (S (cursor ed)) ed) (h x) (terminal_move_right 1 (t x))
  else x.

(** The line is blanked on the screen and the cursor put behind the prompt. *)
Definition wipe (ed : ed) (t : term) : term :=
  let y := terminal_row t in
  let t := terminal_set_cursor (prompt_x ed) y t in
  terminal_set_cursor (prompt_x ed) y (put_blanks (len ed) t).

(** [str_copy(buffer, history[pos], max_len)], the line becoming that entry. *)
Definition recall (pos : Z) (max_len : nat) (h : hist) (t : term) (ed : ed) : lst :=
  let b := str_copy (buffer ed) (history h !!! Z.to_nat pos) max_len in
  let n := str_len b in
  mk_lst (set_line b n n ed) (set_hpos pos h) (terminal_writestring b t).

Definition key_up (max_len : nat) (x : lst) : lst :=
  let h := h x in
  if history_count h =? 0 then x
  else
    let pos := if history_pos h <? history_count h - 1 then history_pos h + 1 else history_pos h in
    recall pos max_len h (wipe (e x) (t x)) (e x).

Definition key_down (max_len : nat) (x : lst) : out lst :=
  let h := h x in
  let t := wipe (e x) (t x) in
  if 0 <? history_pos h then Ret (recall (history_pos h - 1) max_len h t (e x))
  else
    b ← store (buffer (e x)) 0 0;
    Ret (mk_lst (set_line b 0 0 (e x)) (set_hpos (-1) h) t).

Definition key_char (c : Z) (x : lst) : out lst :=
  let ed := e x in
  b ← shift_right (len ed - cursor ed) (cursor ed) 0 (buffer ed);
  b ← store b (cursor ed) c;
  let n := S (len ed) in
  let cu := S (cursor ed) in
  b ← store b n 0;
  let y := terminal_row (t x) in
  let t := terminal_set_cursor (prompt_x ed + cu - 1) y (t x) in
  let t := put_range b (cu - 1) n t in
  Ret (mk_lst (set_line b n cu ed) (h x) (terminal_set_cursor (prompt_x ed + cu) y t)).

(** ** Completion *)

Definition cmds : list chars :=
  [ $"help"; $"clear"; $"echo"; $"about"; $"uname"; $"whoami"; $"free"; $"history";
    $"reboot"; $"shutdown"; $"calc"; $"ls"; $"pwd"; $"cd"; $"mkdir"; $"touch"; $"cat";
    $"rm"; $"write"; $"append"; $"cp"; $"mv"; $"mount"; $"umount"; $"fatmount"; $"fatinfo"; $"fatls"; $"fatcat";
    $"fatwrite"; $"lang"; $"ps"; $"spawn"; $"snake"; $"pong"; $"beep"; $"lspci"; $"beep97";
    $"exec"; $"settings"; $"vbetest"; $"dynhello"; $"desktop" ].

(** [while (tok_start > 0 && buffer[tok_start - 1] != ' ') tok_start--;] *)
Fixpoint token_start (c : nat) (b : chars) : nat :=
  match c with
  | O => O
  | S c' => if b !!! c' =? 32 then c else token_start c' b
  end.

(** [while (prefix[j] && s[j] && prefix[j] == s[j]) j++;] and then
    [prefix[j] == 0]. *)
Fixpoint prefix_matches (prefix s : chars) : bool :=
  match prefix with
  | [] => true
  | c :: prefix' =>
      if c =? 0 then true
      else if (char_at s 0 =? 0) || negb (c =? char_at s 0) then false
      else prefix_matches prefix' (tail s)
  end.

Definition MATCH_MAX : nat := 64.

Definition add_command (prefix : chars) (ms : list chars) (c : chars) : list chars :=
  if (length ms <? MATCH_MAX)%nat && prefix_matches prefix c
  then ms ++ [take (FS_NAME_MAX - 1) (cstr c)] else ms.

Definition entry_text (name : chars) (is_dir : bool) : chars :=
  take (FS_NAME_MAX - 2) (cstr name) ++ (if is_dir then [47] else []).

(** [for (idx = 0; nmatch < 64; idx++)] over the entries of the directory. *)
Fixpoint add_entries (fuel idx : nat) (prefix : chars) (d : ramfs) (ms : list chars) : list chars :=
  match fuel with
  | O => ms
  | S f =>
      if negb (length ms <? MATCH_MAX)%nat then ms
      else match fs_cwd_entry idx FS_NAME_MAX d with
           | None => ms
           | Some (name, is_dir) =>
               add_entries f (S idx) prefix d
                 (if prefix_matches prefix name then ms ++ [entry_text name is_dir] else ms)
           end
  end.

Definition find_matches (tok_start : nat) (prefix : chars) (d : ramfs) : list chars :=
  let ms := if (tok_start =? 0)%nat then foldl (add_command prefix) [] cmds else [] in
  add_entries (S FS_MAX_NODES) 0 prefix d ms.

Definition key_tab (d : ramfs) (max_len : nat) (x : lst) : out lst :=
  let ed := e x in
  let tok_start := token_start (cursor ed) (buffer ed) in
  let plen := Nat.min (cursor ed - tok_start) 63 in
  let prefix := take plen (drop tok_start (buffer ed)) in
  match find_matches tok_start prefix d with
  | [m] =>
      let need := u32 (Z.of_nat (length m) - Z.of_nat plen) in
      let total := u32 (Z.of_nat (len ed) + need) in
      if total <? Z.of_nat max_len - 1 then
        b ← shift_right (len ed - cursor ed) (cursor ed) need (buffer ed);
        b ← copy_in b (cursor ed) m plen need;
        let n := Z.to_nat total in
        let cu := Z.to_nat (u32 (Z.of_nat (cursor ed) + need)) in
        b ← store b n 0;
        let y := terminal_row (t x) in
        let t := terminal_set_cursor (prompt_x ed + tok_start) y (t x) in
        let t := put_range b tok_start n t in
        Ret (mk_lst (set_line b n cu ed) (h x) (terminal_set_cursor (prompt_x ed + cu) y t))
      else Ret x
  | [] => Ret x
  | ms =>
      let t := terminal_putchar 10 (t x) in
      let t := foldl (fun t m => terminal_putchar 32 (terminal_writestring m t)) t ms in
      let t := terminal_writestring $"> " (terminal_putchar 10 t) in
      let px := terminal_column t in
      let py := terminal_row t in
      let t := terminal_writestring (buffer ed) t in
      let t := terminal_set_cursor (px + cursor ed) py t in
      Ret (mk_lst (mk_ed (buffer ed) (len ed) (cursor ed) px py) (h x) t)
  end.

(** ** The loop *)

(** One round of [read_line]: whether the line is finished. *)
Definition key (d : ramfs) (max_len : nat) (c : Z) (x : lst) : out (bool * lst) :=
  if c =? Keyboard.KEY_ENTER then
    b ← store (buffer (e x)) (len (e x)) 0;
    Ret (true, mk_lst (set_line b (len (e x)) (cursor (e x)) (e x)) (h x) (terminal_putchar 10 (t x)))
  else if c =? Keyboard.KEY_BACKSPACE then x ← key_backspace x; Ret (false, x)
  else if c =? Keyboard.KEY_LEFT then Ret (false, key_left x)
  else if c =? Keyboard.KEY_RIGHT then Ret (false, key_right x)
  else if c =? Keyboard.KEY_UP then Ret (false, key_up max_len x)
  else if c =? Keyboard.KEY_DOWN then x ← key_down max_len x; Ret (false, x)
  else if c =? 9 then x ← key_tab d max_len x; Ret (false, x)
  else if (32 <=? c) && (c <? 127) && (Z.of_nat (len (e x)) <? Z.of_nat max_len - 1)
  then x ← key_char c x; Ret (false, x)
  else Ret (false, x).

Fixpoint read_keys (d : ramfs) (max_len : nat) (keys : list Z) (x : lst) : out (lst * list Z) :=
  match keys with
  | [] => Fault Hang
  | c :: keys' =>
      '(fin, x) ← key d max_len c x;
      if (fin : bool) then Ret (x, keys') else read_keys d max_len keys' x
  end.

(** [read_line(buffer, max_len)]: the line, the history, the terminal and
    the keys not yet read. *)
Definition read_line (d : ramfs) (b : chars) (max_len : nat) (hi : hist) (tm : term) (keys : list Z)
    : out (chars * hist * term * list Z) :=
  b ← store b 0 0;
  '(x, keys) ← read_keys d max_len keys
      (mk_lst (mk_ed b 0 0 (terminal_column tm) (terminal_row tm)) (set_hpos (-1) hi) tm);
  Ret (buffer (e x), h x, t x, keys).

End Lined.
