(* ===== verification/LinedSpec.v ===== *)
(** * What the line editor promises (src/src/shell.c, read_line)

    The editor is an ideal one: a text with a cursor in it and a list of
    earlier lines.  Two things break the promise, both in completion: a
    completion inside the line, and a name of the largest length. *)

From S2P Require Import Prelude Terminal Fs Keyboard Lined.
Import Fs Terminal Lined.

Module LinedSpec.

(** ** The loops over the array *)

Lemma store_at b1 x b2 c : store (b1 ++ x :: b2) (length b1) c = Ret (b1 ++ c :: b2).
Proof.
  unfold store. rewrite length_app. simpl.
  rewrite (proj2 (Nat.ltb_lt _ _)) by lia. by rewrite insert_app_r_alt, Nat.sub_diag by lia.
Qed.
Lemma store_at' b1 x b2 c n : n = length b1 -> store (b1 ++ x :: b2) n c = Ret (b1 ++ c :: b2).
Proof. intros ->. apply store_at. Qed.

Lemma total_middle (l1 : chars) x l2 : (l1 ++ x :: l2) !!! length l1 = x.
Proof. by apply list_lookup_total_middle. Qed.

Lemma shift_left_spec pre x mid rest :
  exists y, shift_left (length mid) (length pre) (pre ++ x :: mid ++ rest) = Ret (pre ++ mid ++ y :: rest).
Proof.
  revert pre x. induction mid as [|m mid IH]; intros pre x; cbn [length shift_left app].
  - by exists x.
  - replace ((pre ++ x :: m :: mid ++ rest) !!! S (length pre)) with m.
    2:{ replace (pre ++ x :: m :: mid ++ rest) with ((pre ++ [x]) ++ m :: mid ++ rest) by (by rewrite <- app_assoc).
        replace (S (length pre)) with (length (pre ++ [x])) by (rewrite length_app; simpl; lia).
        by rewrite total_middle. }
    rewrite store_at. cbn [mbind out_mbind].
    destruct (IH (pre ++ [m]) m) as (y & Hy). exists y.
    rewrite length_app, <- !app_assoc in Hy. cbn [app length] in Hy. rewrite Nat.add_1_r in Hy. exact Hy.
Qed.

Lemma shift_right_spec left mid rest (k : nat) :
  (S k <= length rest)%nat -> Z.of_nat (length (left ++ mid ++ rest)) < 4294967296 ->
  shift_right (length mid) (length left) (Z.of_nat k) (left ++ mid ++ rest) =
  Ret (left ++ take (S k) (mid ++ rest) ++ mid ++ drop (S k) rest).
Proof.
  revert rest. induction mid as [|z mid IH] using rev_ind; intros rest Hk Hs.
  - cbn [length shift_right app]. by rewrite take_drop.
  - rewrite !length_app in Hs. simpl in Hs. rewrite length_app, Nat.add_1_r. cbn [shift_right].
    rewrite <- app_assoc. cbn [app].
    replace ((left ++ mid ++ z :: rest) !!! (length left + length mid)%nat) with z
      by (rewrite app_assoc, <- length_app; by rewrite total_middle).
    destruct (drop k rest) as [|y r2] eqn:Ed.
    { apply (f_equal length) in Ed. rewrite length_drop in Ed. simpl in Ed. lia. }
    rewrite <- (take_drop k rest) at 1. rewrite Ed. set (r1 := take k rest).
    assert (Hr1 : length r1 = k) by (subst r1; rewrite length_take; lia).
    replace (left ++ mid ++ z :: r1 ++ y :: r2) with ((left ++ mid ++ z :: r1) ++ y :: r2)
      by (rewrite <- !app_assoc; done).
    rewrite store_at'.
    2:{ rewrite u32_small by (unfold in_u32; lia). rewrite !length_app. simpl. lia. }
    cbn [mbind out_mbind]. rewrite <- !app_assoc. cbn [app].
    rewrite (IH (z :: r1 ++ z :: r2)).
    2:{ simpl. rewrite length_app. simpl. lia. }
    2:{ apply (f_equal length) in Ed. rewrite length_drop in Ed. simpl in Ed.
        rewrite !length_app. simpl. rewrite !length_app. simpl. lia. }
    f_equal. f_equal.
    assert (E1 : drop (S k) (z :: r1 ++ z :: r2) = z :: r2).
    { cbn [drop]. rewrite drop_app_length' by done. done. }
    assert (E2 : drop (S k) rest = r2).
    { replace (S k) with (k + 1)%nat by lia. rewrite <- drop_drop, Ed. done. }
    rewrite E1, E2. cbn [app]. f_equal.
    rewrite <- (take_drop k rest) at 1. rewrite Ed. fold r1.
    replace (mid ++ z :: r1 ++ z :: r2) with ((mid ++ z :: r1) ++ z :: r2) by (by rewrite <- app_assoc).
    replace (mid ++ z :: r1 ++ y :: r2) with ((mid ++ z :: r1) ++ y :: r2) by (by rewrite <- app_assoc).
    assert (Hle : (S k <= length (mid ++ z :: r1))%nat) by (rewrite length_app; simpl; lia).
    by rewrite (take_app_le _ (z :: r2) _ Hle), (take_app_le _ (y :: r2) _ Hle).
Qed.

Lemma copy_in_spec left w old m off rest :
  length w = length old -> take (length w) (drop off m) = w ->
  copy_in (left ++ old ++ rest) (length left) m off (Z.of_nat (length w)) = Ret (left ++ w ++ rest).
Proof.
  intros Hl Hw. unfold copy_in. rewrite !length_app.
  destruct (Z.ltb_spec (Z.of_nat (length left + (length old + length rest))) (Z.of_nat (length left) + Z.of_nat (length w)));
    [lia|].
  rewrite Nat2Z.id, Hw, take_app_length. f_equal. f_equal. f_equal.
  rewrite Hl, app_assoc, <- length_app, drop_app_length. done.
Qed.

(** ** The ideal editor *)

(** The text left and right of the cursor, and which earlier line is shown. *)
Record ideal : Type := mk_id { il : chars; ir : chars; ipos : Z }.
Definition text (i : ideal) : chars := il i ++ ir i.

(** The word before the cursor, and the candidates for it. *)
Definition token (left : chars) : chars := drop (token_start (length left) left) left.
Definition candidates (d : ramfs) (left : chars) : list chars :=
  find_matches (token_start (length left) left) (take 63 (token left)) d.

Definition ideal_tab (d : ramfs) (i : ideal) : ideal :=
  match candidates d (il i) with
  | [m] =>
      let w := drop (Nat.min (length (token (il i))) 63) m in
      if (length (text i) + length w <? CMD_BUFFER_SIZE - 1)%nat
      then mk_id (il i ++ w) (ir i) (ipos i) else i
  | _ => i
  end.

(** What a key does, [hl] being the earlier lines, newest first. *)
Definition ideal_key (d : ramfs) (hl : list chars) (i : ideal) (c : Z) : ideal :=
  if c =? Keyboard.KEY_BACKSPACE then mk_id (take (length (il i) - 1) (il i)) (ir i) (ipos i)
  else if c =? Keyboard.KEY_LEFT then
    mk_id (take (length (il i) - 1) (il i)) (drop (length (il i) - 1) (il i) ++ ir i) (ipos i)
  else if c =? Keyboard.KEY_RIGHT then mk_id (il i ++ take 1 (ir i)) (drop 1 (ir i)) (ipos i)
  else if c =? Keyboard.KEY_UP then
    match hl with
    | [] => i
    | _ => let p := if ipos i <? Z.of_nat (length hl) - 1 then ipos i + 1 else ipos i in
           mk_id (hl !!! Z.to_nat p) [] p
    end
  else if c =? Keyboard.KEY_DOWN then
    if 0 <? ipos i then mk_id (hl !!! Z.to_nat (ipos i - 1)) [] (ipos i - 1) else mk_id [] [] (-1)
  else if c =? 9 then ideal_tab d i
  else if (32 <=? c) && (c <? 127) && (length (text i) <? CMD_BUFFER_SIZE - 1)%nat
  then mk_id (il i ++ [c]) (ir i) (ipos i) else i.

(** A completion is sound at the end of the line, and when the candidate is
    not shorter than what has been typed. *)
Definition tab_fine (d : ramfs) (i : ideal) : Prop :=
  match candidates d (il i) with
  | [m] => ir i = [] /\ (Nat.min (length (token (il i))) 63 <= length m)%nat
  | _ => True
  end.
Fixpoint tabs_fine (d : ramfs) (hl : list chars) (i : ideal) (ks : list Z) : Prop :=
  match ks with
  | [] => True
  | c :: ks' => (c = 9 -> tab_fine d i) /\ tabs_fine d hl (ideal_key d hl i c) ks'
  end.

(** ** The array holds the ideal line *)

Record hist_rep (h : hist) (hl : list chars) : Prop := {
  hr_len : length (history h) = HISTORY_SIZE;
  hr_rows : Forall (fun r => length r = CMD_BUFFER_SIZE) (history h);
  hr_count : history_count h = Z.of_nat (length hl) /\ (length hl <= HISTORY_SIZE)%nat;
  hr_lines : forall k l, hl !! k = Some l -> cstr (history h !!! k) = l;
  hr_short : Forall (fun l => (length l < CMD_BUFFER_SIZE)%nat /\ no_nul l) hl;
}.

Record line_rep (x : lst) (hl : list chars) (i : ideal) : Prop := {
  lr_buf : exists junk, buffer (e x) = text i ++ 0 :: junk;
  lr_size : length (buffer (e x)) = CMD_BUFFER_SIZE;
  lr_len : len (e x) = length (text i);
  lr_cur : cursor (e x) = length (il i);
  lr_nul : no_nul (text i);
  lr_pos : history_pos (h x) = ipos i /\ -1 <= ipos i < Z.of_nat (length hl);
  lr_hist : hist_rep (h x) hl;
}.

Lemma hist_rep_pos p h hl : hist_rep h hl -> hist_rep (set_hpos p h) hl.
Proof. by intros []. Qed.

Lemma no_nul_app l1 l2 : no_nul (l1 ++ l2) <-> no_nul l1 /\ no_nul l2.
Proof. apply Forall_app. Qed.

(** The line and its NUL fit the array. *)
Lemma rep_room x hl i junk :
  line_rep x hl i -> buffer (e x) = text i ++ 0 :: junk ->
  (length (text i) + S (length junk) = CMD_BUFFER_SIZE)%nat.
Proof. intros H E. rewrite <- (lr_size x hl i H), E, length_app. done. Qed.

Lemma backspace_step x hl i :
  line_rep x hl i ->
  exists x', key_backspace x = Ret x'
    /\ line_rep x' hl (mk_id (take (length (il i) - 1) (il i)) (ir i) (ipos i)).
Proof.
  intros R. pose proof R as [[junk Hb] Hs Hl Hc Hn Hp Hh]. unfold key_backspace. rewrite Hc.
  destruct (il i) as [|z l _] eqn:El using rev_ind.
  { exists x. split; [done|]. destruct i as [l r p]. simpl in El. subst l. exact R. }
  rewrite length_app. cbn [length]. replace (length l + 1)%nat with (S (length l)) by lia.
  replace (S (length l) - 1)%nat with (length l) by lia. rewrite take_app_length.
  unfold text in *. rewrite El in *.
  assert (E1 : buffer (e x) = l ++ z :: ir i ++ 0 :: junk) by (rewrite Hb, <- !app_assoc; done).
  rewrite Hl, E1. rewrite !length_app. cbn [length].
  replace (length l + 1 + length (ir i) - S (length l))%nat with (length (ir i)) by lia.
  destruct (shift_left_spec l z (ir i) (0 :: junk)) as (y & ->). cbn [mbind out_mbind].
  replace (length l + 1 + length (ir i) - 1)%nat with (length (l ++ ir i)) by (rewrite length_app; lia).
  rewrite app_assoc, store_at. cbn [mbind out_mbind]. eexists. split; [done|].
  split; cbn [e buffer len cursor il ir ipos h set_line]; try done.
  - by exists (0 :: junk).
  - rewrite Hb, !length_app in Hs. simpl in Hs. rewrite !length_app. simpl. lia.
  - rewrite !no_nul_app in Hn. apply no_nul_app. tauto.
Qed.

Lemma recall_rep x hl i pos tm :
  line_rep x hl i -> 0 <= pos < Z.of_nat (length hl) ->
  line_rep (recall pos CMD_BUFFER_SIZE (h x) tm (e x)) hl (mk_id (hl !!! Z.to_nat pos) [] pos).
Proof.
  intros [_ Hs _ _ _ _ Hh] Hpos.
  destruct (lookup_lt_is_Some_2 hl (Z.to_nat pos)) as [l Hlk]; [lia|].
  pose proof (hr_lines _ _ Hh _ _ Hlk) as Hc.
  pose proof (Forall_lookup_1 _ _ _ _ (hr_short _ _ Hh) Hlk) as [Hsh Hnn].
  rewrite (list_lookup_total_correct _ _ _ Hlk).
  assert (Ew : str_copy (buffer (e x)) (history (h x) !!! Z.to_nat pos) CMD_BUFFER_SIZE =
               l ++ 0 :: drop (S (length l)) (buffer (e x))).
  { unfold str_copy, c_strcpy_truncate. rewrite Hc, take_ge; [done|]. unfold CMD_BUFFER_SIZE in *. lia. }
  assert (En : str_len (l ++ 0 :: drop (S (length l)) (buffer (e x))) = length l).
  { unfold str_len. rewrite c_strlen_cstr, cstr_app_nul; done. }
  unfold recall. rewrite Ew, En.
  split; cbn [e buffer len cursor il ir ipos h set_line set_hpos history_pos text]; unfold text; cbn [il ir]; rewrite ?app_nil_r; try done.
  - by eexists.
  - rewrite length_app. simpl. rewrite length_drop, Hs. unfold CMD_BUFFER_SIZE in *. lia.
  - split; [done | lia].
  - by apply hist_rep_pos.
Qed.

Lemma char_step x hl i c :
  line_rep x hl i -> c <> 0 -> (length (text i) < CMD_BUFFER_SIZE - 1)%nat ->
  exists x', key_char c x = Ret x' /\ line_rep x' hl (mk_id (il i ++ [c]) (ir i) (ipos i)).
Proof.
  intros R Hc0 Hroom. pose proof R as [[junk Hb] Hs Hl Hc Hn Hp Hh].
  pose proof (rep_room x hl i junk R Hb) as Hj.
  destruct junk as [|j junk]; [simpl in Hj; lia|]. unfold key_char, text in *.
  rewrite Hc, Hl, Hb, length_app. replace (length (il i) + length (ir i) - length (il i))%nat with (length (ir i)) by lia.
  rewrite <- app_assoc.
  match goal with |- context [shift_right ?n ?c 0 ?b] => change (shift_right n c 0 b) with (shift_right n c (Z.of_nat 0) b) end.
  rewrite shift_right_spec; [|simpl; lia|].
  2:{ rewrite Hb in Hs. rewrite <- app_assoc in Hs. rewrite Hs. unfold CMD_BUFFER_SIZE. lia. }
  cbn [mbind out_mbind].
  assert (exists y, take 1 (ir i ++ 0 :: j :: junk) = [y]) as (y & ->) by (destruct (ir i); eexists; done).
  cbn [drop]. cbn [app]. rewrite store_at. cbn [mbind out_mbind].
  replace (il i ++ c :: ir i ++ j :: junk) with ((il i ++ c :: ir i) ++ j :: junk) by (by rewrite <- app_assoc).
  rewrite store_at' by (rewrite length_app; simpl; lia). cbn [mbind out_mbind].
  eexists. split; [done|].
  split; cbn [e buffer len cursor il ir ipos h set_line]; unfold text; cbn [il ir]; try done.
  - exists junk. by rewrite <- !app_assoc.
  - rewrite Hb, !length_app in Hs. simpl in Hs. rewrite !length_app. simpl. lia.
  - rewrite !length_app. simpl. lia.
  - rewrite length_app. simpl. lia.
  - rewrite !no_nul_app in *. split_and!; try tauto. by constructor.
Qed.

(** ** Completion *)

Lemma token_start_le c b : (token_start c b <= c)%nat.
Proof. induction c as [|c IH]; simpl; [done|]. destruct (_ =? 32); lia. Qed.
Lemma token_start_app c l r : (c <= length l)%nat -> token_start c (l ++ r) = token_start c l.
Proof.
  induction c as [|c IH]; intros Hc; simpl; [done|].
  rewrite lookup_total_app_l by lia. by rewrite IH by lia.
Qed.

(** What [key_tab] computes from the array is the word before the cursor. *)
Lemma token_prefix l r :
  let ts := token_start (length l) (l ++ r) in
  ts = token_start (length l) l /\ (length l - ts)%nat = length (token l)
  /\ take (Nat.min (length l - ts) 63) (drop ts (l ++ r)) = take 63 (token l).
Proof.
  cbn zeta. rewrite token_start_app by done. split; [done|].
  pose proof (token_start_le (length l) l) as Hle. unfold token. rewrite length_drop. split; [done|].
  rewrite drop_app_le by done. set (tk := drop _ l).
  assert (Ht : length tk = (length l - token_start (length l) l)%nat) by apply length_drop.
  rewrite <- Ht, take_app_le by lia.
  destruct (Nat.le_gt_cases (length tk) 63); [|by rewrite Nat.min_r by lia].
  rewrite Nat.min_l, !take_ge by lia. done.
Qed.

Lemma add_entries_no_nul fuel idx prefix d ms :
  Forall no_nul ms -> Forall no_nul (add_entries fuel idx prefix d ms).
Proof.
  revert idx ms. induction fuel as [|f IH]; intros idx ms H; cbn [add_entries]; [done|].
  destruct (negb _); [done|]. destruct (fs_cwd_entry _ _ _) as [[nm isd]|]; [|done].
  apply IH. destruct (prefix_matches _ _); [|done]. apply Forall_app. split; [done|].
  constructor; [|done]. apply no_nul_app. split; [apply cstr_take_no_nul|].
  destruct isd; by repeat constructor.
Qed.
Lemma find_matches_no_nul ts prefix d : Forall no_nul (find_matches ts prefix d).
Proof.
  apply add_entries_no_nul. destruct (ts =? 0)%nat; [|done].
  assert (G : forall cs ms, Forall no_nul ms -> Forall no_nul (foldl (add_command prefix) ms cs)); [|by apply G].
  induction cs as [|c cs IH]; intros ms H; [done|]. apply IH. unfold add_command.
  destruct (_ && _); [|done]. apply Forall_app. split; [done|]. constructor; [apply cstr_take_no_nul | done].
Qed.

(** The array after a completion by [w]: the part right of the cursor is
    moved one place too far. *)
Lemma tab_array l r junk w m off :
  drop off m = w -> (length l + length r + length w < CMD_BUFFER_SIZE - 1)%nat ->
  length (l ++ r ++ 0 :: junk) = CMD_BUFFER_SIZE ->
  exists junk',
    (b ← shift_right (length r) (length l) (Z.of_nat (length w)) (l ++ r ++ 0 :: junk);
     b ← copy_in b (length l) m off (Z.of_nat (length w));
     store b (length l + length r + length w) 0)
    = Ret (match r with
           | [] => l ++ w
           | _ => l ++ w ++ (r ++ 0 :: junk) !!! length w :: take (length r - 1) r
           end ++ 0 :: junk')
    /\ (length junk' + length w = length junk)%nat.
Proof.
  intros Hw Hroom Hsz. set (k := length w) in *. unfold CMD_BUFFER_SIZE in *.
  rewrite !length_app in Hsz. simpl in Hsz.
  rewrite shift_right_spec by (rewrite ?length_app; simpl; rewrite ?length_app; simpl; lia).
  cbn [mbind out_mbind].
  set (z := (r ++ 0 :: junk) !!! k).
  assert (Ht : take (S k) (r ++ 0 :: junk) = take k (r ++ 0 :: junk) ++ [z]).
  { apply take_S_r. subst z. apply list_lookup_lookup_total_lt. rewrite length_app. simpl. lia. }
  rewrite Ht, <- app_assoc. subst k.
  rewrite (copy_in_spec l w (take (length w) (r ++ 0 :: junk)) m off).
  2:{ rewrite length_take, length_app. simpl. lia. }
  2:{ rewrite Hw. by rewrite take_ge. }
  cbn [mbind out_mbind app drop]. exists (drop (length w) junk).
  split; [|rewrite length_drop; lia].
  destruct r as [|c r]; cbn [app].
  - cbn [length]. rewrite app_assoc, store_at' by (rewrite length_app; simpl; lia). by rewrite <- app_assoc.
  - set (r1 := c :: r) in *.
    change (c :: r ++ drop (length w) junk) with (r1 ++ drop (length w) junk).
    destruct (exists_last (l := r1)) as (r0 & q & Er); [done|]. rewrite Er. rewrite Er in Hroom.
    rewrite length_app in *. cbn [length] in *. replace (length r0 + 1 - 1)%nat with (length r0) by lia.
    rewrite take_app_length.
    replace (l ++ w ++ z :: (r0 ++ [q]) ++ drop (length w) junk)
      with ((l ++ w ++ z :: r0) ++ q :: drop (length w) junk) by (rewrite <- !app_assoc; done).
    apply store_at'. rewrite !length_app. simpl. lia.
Qed.


(** [key_tab] on a line whose word has one candidate with room for it. *)
Lemma tab_unique d x hl i m junk :
  line_rep x hl i -> buffer (e x) = text i ++ 0 :: junk ->
  candidates d (il i) = [m] -> (Nat.min (length (token (il i))) 63 <= length m)%nat ->
  let w := drop (Nat.min (length (token (il i))) 63) m in
  (length (text i) + length w < CMD_BUFFER_SIZE - 1)%nat ->
  exists x' junk', key_tab d CMD_BUFFER_SIZE x = Ret x'
    /\ buffer (e x') = match ir i with
                       | [] => il i ++ w
                       | _ => il i ++ w ++ (ir i ++ 0 :: junk) !!! length w :: take (length (ir i) - 1) (ir i)
                       end ++ 0 :: junk'
    /\ length (buffer (e x')) = CMD_BUFFER_SIZE
    /\ len (e x') = (length (text i) + length w)%nat /\ cursor (e x') = (length (il i) + length w)%nat
    /\ h x' = h x.
Proof.
  intros R Hb Hm Hle w Hroom. pose proof R as [_ Hs Hl Hc Hn Hp Hh].
  unfold text in *. unfold key_tab. rewrite Hc, Hl, Hb.
  rewrite <- app_assoc. destruct (token_prefix (il i) (ir i ++ 0 :: junk)) as (E1 & E2 & E3).
  rewrite E3, E2, E1. fold (candidates d (il i)). rewrite Hm.
  set (pl := Nat.min (length (token (il i))) 63) in *.
  assert (Hw : length w = (length m - pl)%nat) by apply length_drop.
  rewrite length_app in Hroom.
  assert (Hm32 : (length m < 256)%nat).
  { unfold CMD_BUFFER_SIZE in Hroom. assert (pl <= 63)%nat by (subst pl; lia). lia. }
  unfold CMD_BUFFER_SIZE in Hroom.
  rewrite (u32_small (Z.of_nat (length m) - Z.of_nat pl)) by (unfold in_u32; lia).
  replace (Z.of_nat (length m) - Z.of_nat pl) with (Z.of_nat (length w)) by lia.
  rewrite length_app, u32_small by (unfold in_u32; lia).
  destruct (Z.ltb_spec (Z.of_nat (length (il i) + length (ir i)) + Z.of_nat (length w)) (Z.of_nat CMD_BUFFER_SIZE - 1));
    [|unfold CMD_BUFFER_SIZE in *; lia].
  replace (length (il i) + length (ir i) - length (il i))%nat with (length (ir i)) by lia.
  destruct (tab_array (il i) (ir i) junk w m pl eq_refl) as (junk' & Ha & Hj').
  { unfold CMD_BUFFER_SIZE. lia. }
  { rewrite Hb, <- app_assoc in Hs. exact Hs. }
  destruct (shift_right _ _ _ _) as [b1|]; [|done]. cbn [mbind out_mbind] in Ha |- *.
  destruct (copy_in _ _ _ _ _) as [b2|]; [|done]. cbn [mbind out_mbind] in Ha |- *.
  replace (Z.to_nat (Z.of_nat (length (il i) + length (ir i)) + Z.of_nat (length w)))
    with (length (il i) + length (ir i) + length w)%nat by lia.
  rewrite Ha. cbn [mbind out_mbind]. eexists _, junk'. split; [done|].
  cbn [e buffer len cursor set_line h]. split; [done|]. split.
  { rewrite Hb, !length_app in Hs. simpl in Hs. rewrite length_app. cbn [length].
    destruct (ir i) as [|c r] eqn:Er; [rewrite length_app; simpl in *; lia|]. rewrite <- Er in *.
    rewrite !length_app. cbn [length]. rewrite length_take, Er in *. simpl in *. lia. }
  split; [done|]. split; [|done].
  rewrite u32_small by (unfold in_u32; lia). lia.
Qed.

(** Without a unique candidate, or without room for it, the line stays. *)
Lemma tab_other d x hl i :
  line_rep x hl i ->
  (forall m, candidates d (il i) = [m] -> (Nat.min (length (token (il i))) 63 <= length m)%nat
     /\ (length m <= FS_NAME_MAX)%nat
     /\ (CMD_BUFFER_SIZE - 1 <= length (text i) + length (drop (Nat.min (length (token (il i))) 63) m))%nat) ->
  exists x', key_tab d CMD_BUFFER_SIZE x = Ret x' /\ line_rep x' hl i.
Proof.
  intros R Hno. pose proof R as [[junk Hb] Hs Hl Hc Hn Hp Hh].
  assert (Hb' : buffer (e x) = il i ++ ir i ++ 0 :: junk) by (rewrite Hb; unfold text; by rewrite <- app_assoc).
  unfold key_tab. rewrite Hc, Hb'.
  destruct (token_prefix (il i) (ir i ++ 0 :: junk)) as (E1 & E2 & E3). rewrite E3, E2, E1.
  fold (candidates d (il i)). destruct (candidates d (il i)) as [|m [|m2 ms]].
  - by exists x.
  - destruct (Hno m eq_refl) as (H1 & H2 & H3). rewrite length_drop in H3. unfold FS_NAME_MAX, CMD_BUFFER_SIZE in *.
    assert (Hlt : (length (text i) < 128)%nat) by (rewrite Hb, length_app in Hs; simpl in Hs; lia).
    rewrite (u32_small (_ - _)), Hl, u32_small by (unfold in_u32; lia).
    match goal with |- context [if ?t <? ?u then _ else _] => destruct (Z.ltb_spec t u) end; [lia|].
    by exists x.
  - eexists. split; [done|]. split; cbn [e buffer len cursor h]; try done; [|by rewrite <- Hb'].
    exists junk. unfold text. by rewrite <- app_assoc.
Qed.

Lemma candidates_short d l m : candidates d l = [m] -> (length m <= FS_NAME_MAX)%nat.
Proof.
  intros E.
  assert (F : Forall (fun m => (length m <= FS_NAME_MAX)%nat) (candidates d l)); [|rewrite E in F; by apply Forall_cons in F as [? _]].
  clear E m. unfold candidates, find_matches, FS_NAME_MAX.
  assert (G1 : forall cs ms, Forall (fun m : chars => (length m <= 48)%nat) ms ->
    Forall (fun m : chars => (length m <= 48)%nat) (foldl (add_command (take 63 (token l))) ms cs)).
  { induction cs as [|c cs IH]; intros ms H; [done|]. apply IH. unfold add_command. destruct (_ && _); [|done].
    apply Forall_app. split; [done|]. constructor; [|done]. rewrite length_take. unfold FS_NAME_MAX. lia. }
  assert (G2 : forall fuel idx ms, Forall (fun m : chars => (length m <= 48)%nat) ms ->
    Forall (fun m : chars => (length m <= 48)%nat) (add_entries fuel idx (take 63 (token l)) d ms)).
  { induction fuel as [|f IH]; intros idx ms H; cbn [add_entries]; [done|]. destruct (negb _); [done|].
    destruct (fs_cwd_entry _ _ _) as [[nm isd]|]; [|done]. apply IH. destruct (prefix_matches _ _); [|done].
    apply Forall_app. split; [done|]. constructor; [|done]. unfold entry_text. rewrite length_app, length_take.
    unfold FS_NAME_MAX. destruct isd; cbn [length]; lia. }
  apply G2. destruct (_ =? 0)%nat; [by apply G1 | done].
Qed.

Lemma tab_step d x hl i :
  line_rep x hl i -> tab_fine d i ->
  exists x', key_tab d CMD_BUFFER_SIZE x = Ret x' /\ line_rep x' hl (ideal_tab d i).
Proof.
  intros R Hf. pose proof R as [[junk Hb] Hs Hl Hc Hn Hp Hh].
  unfold tab_fine, ideal_tab in *. destruct (candidates d (il i)) as [|m [|m2 ms]] eqn:Em;
    [apply tab_other; [done | by rewrite Em] | | apply tab_other; [done | by rewrite Em]].
  destruct Hf as [Hr Hle]. set (w := drop _ m).
  destruct (Nat.ltb_spec (length (text i) + length w) (CMD_BUFFER_SIZE - 1)) as [Hroom|Hroom].
  2:{ apply tab_other; [done|]. rewrite Em. intros m' [= <-]. split; [done|].
      split; [by apply (candidates_short d (il i)) | exact Hroom]. }
  assert (Hnm : no_nul m).
  { pose proof (find_matches_no_nul (token_start (length (il i)) (il i)) (take 63 (token (il i))) d) as F.
    fold (candidates d (il i)) in F. rewrite Em in F. by apply Forall_cons in F as [? _]. }
  destruct (tab_unique d x hl i m junk R Hb Em Hle Hroom) as (x' & junk' & Hx & B & S' & L & C & Hh').
  exists x'. split; [done|]. unfold text in *. rewrite Hr in *. rewrite !app_nil_r in *. fold w in B, L, C.
  split; unfold text; cbn [il ir ipos]; rewrite ?app_nil_r, ?Hh'; try done.
  - by exists junk'.
  - rewrite L, length_app. done.
  - rewrite C, length_app. done.
  - apply no_nul_app. split; [done|]. by apply Forall_drop.
Qed.


(** ** Every key *)

(** Moving the cursor. *)
Lemma move_rep x hl i l r tm :
  line_rep x hl i -> l ++ r = text i ->
  line_rep (mk_lst (set_line (buffer (e x)) (len (e x)) (length l) (e x)) (h x) tm) hl (mk_id l r (ipos i)).
Proof.
  intros [H1 H2 H3 H4 H5 H6 H7] E.
  split; unfold text; cbn [e buffer len cursor set_line h il ir ipos]; rewrite ?E; done.
Qed.

Lemma down_clear x hl i b tm :
  line_rep x hl i -> store (buffer (e x)) 0 0 = Ret b ->
  line_rep (mk_lst (set_line b 0 0 (e x)) (set_hpos (-1) (h x)) tm) hl (mk_id [] [] (-1)).
Proof.
  intros [[junk Hb] Hs _ _ _ _ Hh] E.
  assert (exists c r, buffer (e x) = c :: r) as (c & r & Ec) by (rewrite Hb; destruct (text i); eauto).
  rewrite Ec in E, Hs. change (store (c :: r) 0 0) with (@Ret chars (0 :: r)) in E. injection E as <-.
  split; unfold text; cbn [e buffer len cursor set_line set_hpos h il ir ipos history_pos app];
    [by exists r | exact Hs | done | done | constructor | split; [done | lia] | by apply hist_rep_pos].
Qed.

Lemma key_step d x hl i c :
  line_rep x hl i -> c <> Keyboard.KEY_ENTER -> (c = 9 -> tab_fine d i) ->
  exists x', key d CMD_BUFFER_SIZE c x = Ret (false, x') /\ line_rep x' hl (ideal_key d hl i c).
Proof.
  intros R Hne Htab. pose proof R as [[junk Hb] Hs Hl Hc Hn [Hp1 Hp2] Hh].
  unfold key, ideal_key. rewrite (proj2 (Z.eqb_neq c _) Hne).
  destruct (c =? Keyboard.KEY_BACKSPACE).
  { destruct (backspace_step x hl i R) as (x' & -> & R'). by exists x'. }
  destruct (c =? Keyboard.KEY_LEFT).
  { eexists. split; [done|]. unfold key_left. rewrite Hc.
    destruct (il i) as [|z l] eqn:El.
    - simpl. destruct i as [il0 ir0 p0]. simpl in El. by subst il0.
    - rewrite <- El. replace (length (il i)) with (S (length (il i) - 1)) at 1 by (rewrite El; simpl; lia).
      replace (length (il i) - 1)%nat with (length (take (length (il i) - 1) (il i))) at 1 by (rewrite length_take; lia).
      apply move_rep; [done|]. unfold text. by rewrite app_assoc, take_drop. }
  destruct (c =? Keyboard.KEY_RIGHT).
  { eexists. split; [done|]. unfold key_right. rewrite Hc, Hl. unfold text. rewrite length_app.
    destruct (ir i) as [|z r] eqn:Er.
    - rewrite (proj2 (Nat.ltb_ge _ _)) by (simpl; lia). simpl. rewrite app_nil_r.
      destruct i as [il0 ir0 p0]. simpl in Er. by subst ir0.
    - rewrite (proj2 (Nat.ltb_lt _ _)) by (simpl; lia). cbn [take drop].
      replace (S (length (il i))) with (length (il i ++ [z])) by (rewrite length_app; simpl; lia).
      rewrite take_0, drop_0. replace (length (il i) + length (z :: r))%nat with (len (e x))
        by (rewrite Hl; unfold text; by rewrite length_app, Er).
      apply move_rep; [done|]. unfold text. rewrite Er, <- app_assoc. done. }
  destruct (c =? Keyboard.KEY_UP).
  { eexists. split; [done|]. unfold key_up. rewrite (proj1 (hr_count _ _ Hh)), Hp1.
    destruct hl as [|l0 hl]; [done|]. rewrite (proj2 (Z.eqb_neq _ 0)) by (simpl; lia).
    apply (recall_rep x (l0 :: hl) i); [done|]. destruct (Z.ltb_spec (ipos i) (Z.of_nat (length (l0 :: hl)) - 1)); simpl length in *; lia. }
  destruct (c =? Keyboard.KEY_DOWN).
  { unfold key_down. rewrite Hp1. destruct (Z.ltb_spec 0 (ipos i)).
    - cbn [mbind out_mbind]. eexists. split; [done|]. apply (recall_rep x hl i); [done | lia].
    - destruct (store (buffer (e x)) 0 0) as [b|] eqn:Est.
      2:{ unfold store in Est. rewrite Hs in Est. done. }
      cbn [mbind out_mbind]. eexists. split; [done|]. by apply (down_clear x hl i). }
  destruct (Z.eqb_spec c 9) as [E9|_].
  { destruct (tab_step d x hl i R (Htab E9)) as (x' & -> & R'). by exists x'. }
  rewrite Hl.
  destruct ((32 <=? c) && (c <? 127)) eqn:Ec; cbn [andb]; [|by exists x].
  destruct (Nat.ltb_spec (length (text i)) (CMD_BUFFER_SIZE - 1)) as [H|H].
  - rewrite (proj2 (Z.ltb_lt _ _)) by (unfold CMD_BUFFER_SIZE in *; lia).
    destruct (char_step x hl i c R) as (x' & -> & R'); [lia | done |]. by exists x'.
  - rewrite (proj2 (Z.ltb_ge _ _)) by (unfold CMD_BUFFER_SIZE in *; lia). by exists x.
Qed.

Lemma read_keys_run d hl ks rest x i :
  line_rep x hl i -> Forall (fun c => c <> Keyboard.KEY_ENTER) ks -> tabs_fine d hl i ks ->
  exists x', read_keys d CMD_BUFFER_SIZE (ks ++ Keyboard.KEY_ENTER :: rest) x = Ret (x', rest)
    /\ line_rep x' hl (foldl (ideal_key d hl) i ks).
Proof.
  revert x i. induction ks as [|c ks IH]; intros x i R Hk Ht; cbn [app read_keys].
  - pose proof R as [[junk Hb] Hs Hl Hc Hn Hp Hh]. unfold key. rewrite Z.eqb_refl, Hl, Hb, store_at.
    cbn [mbind out_mbind]. eexists. split; [done|]. rewrite <- Hl, Hc, <- Hb.
    destruct i as [l r p]. apply (move_rep x hl (mk_id l r p) l r _ R eq_refl).
  - apply Forall_cons in Hk as [Hc Hk]. destruct Ht as [Ht1 Ht2].
    destruct (key_step d x hl i c R Hc Ht1) as (x1 & -> & R1). cbn [mbind out_mbind foldl]. by apply IH.
Qed.

Lemma read_line_run d b hl hi tm ks rest :
  length b = CMD_BUFFER_SIZE -> hist_rep hi hl -> Forall (fun c => c <> Keyboard.KEY_ENTER) ks ->
  tabs_fine d hl (mk_id [] [] (-1)) ks ->
  exists b' hi' tm',
    read_line d b CMD_BUFFER_SIZE hi tm (ks ++ Keyboard.KEY_ENTER :: rest) = Ret (b', hi', tm', rest)
    /\ cstr b' = text (foldl (ideal_key d hl) (mk_id [] [] (-1)) ks)
    /\ (length (cstr b') < CMD_BUFFER_SIZE)%nat /\ length b' = CMD_BUFFER_SIZE /\ hist_rep hi' hl.
Proof.
  intros Hb Hh Hk Ht. unfold read_line. destruct b as [|c b]; [done|].
  change (store (c :: b) 0 0) with (@Ret chars (0 :: b)). cbn [mbind out_mbind].
  destruct (read_keys_run d hl ks rest
    (mk_lst (mk_ed (0 :: b) 0 0 (terminal_column tm) (terminal_row tm)) (set_hpos (-1) hi) tm) (mk_id [] [] (-1)))
    as (x' & -> & R); [|done|done|].
  { split; unfold text; cbn [e buffer len cursor h il ir ipos set_hpos history_pos app];
      [by exists b | exact Hb | done | done | constructor | split; [done | lia] | by apply hist_rep_pos]. }
  cbn [mbind out_mbind]. pose proof R as [[junk Hbuf] Hs _ _ Hn _ Hh'].
  pose proof (rep_room _ _ _ _ R Hbuf) as Hroom.
  assert (E : cstr (buffer (e x')) = text (foldl (ideal_key d hl) (mk_id [] [] (-1)) ks)).
  { rewrite Hbuf. by apply cstr_app_nul. }
  eexists _, _, _. split; [done|]. split; [done|]. split; [rewrite E; lia|]. by split.
Qed.

(** C24. Reading a line is editing a text: for every sequence of keys
    (characters, backspace, cursor keys, earlier lines) in which TAB is
    pressed only where its completion is harmless ([tabs_fine]: at the end of
    the line, or with no candidate or several, and with a word not longer
    than its candidate), [read_line] returns when Enter arrives, with exactly
    the text an ideal editor holds, of at most 127 characters, after any
    earlier contents of the array; it consumes the keys up to Enter, never
    leaves the array, and keeps the history.  What the other completions do
    is in [tab_inside_line] and [tab_long_name]. *)
Theorem read_line_edits d b hl hi tm ks rest :
  length b = CMD_BUFFER_SIZE -> hist_rep hi hl -> Forall (fun c => c <> Keyboard.KEY_ENTER) ks ->
  tabs_fine d hl (mk_id [] [] (-1)) ks ->
  exists b' hi' tm',
    read_line d b CMD_BUFFER_SIZE hi tm (ks ++ Keyboard.KEY_ENTER :: rest) = Ret (b', hi', tm', rest)
    /\ cstr b' = text (foldl (ideal_key d hl) (mk_id [] [] (-1)) ks)
    /\ (length (cstr b') < CMD_BUFFER_SIZE)%nat /\ length b' = CMD_BUFFER_SIZE /\ hist_rep hi' hl.
Proof. apply read_line_run. Qed.

(** ** History *)

Lemma shift_history_spec n l k :
  (n < length l)%nat ->
  length (shift_history n l) = length l /\
  shift_history n l !!! k =
  if decide (1 <= k <= n)%nat then str_copy (l !!! k) (l !!! (k - 1)%nat) CMD_BUFFER_SIZE else l !!! k.
Proof.
  revert l. induction n as [|n IH]; intros l Hn; cbn [shift_history].
  { rewrite decide_False by lia. done. }
  unfold copy_entry. destruct (IH (<[S n := str_copy (l !!! S n) (l !!! n) CMD_BUFFER_SIZE]> l)) as [H1 H2].
  { rewrite length_insert. lia. }
  rewrite H1, length_insert. split; [done|]. rewrite H2.
  destruct (decide (k = S n)) as [->|Hk].
  - rewrite decide_False, decide_True by lia. rewrite list_lookup_total_insert_eq by done.
    do 2 f_equal. lia.
  - rewrite list_lookup_total_insert_ne by done. case_decide; [|by rewrite decide_False by lia].
    rewrite list_lookup_total_insert_ne by lia. by rewrite decide_True by lia.
Qed.

(** A new line pushes the others back; the seventeenth is forgotten. *)
Lemma history_add_rep line h hl :
  hist_rep h hl ->
  hist_rep (history_add line h)
    (if char_at line 0 =? 0 then hl else take HISTORY_SIZE (take (CMD_BUFFER_SIZE - 1) (cstr line) :: hl)).
Proof.
  intros R. unfold history_add. destruct (char_at line 0 =? 0); [done|].
  pose proof R as [H1 H2 [H3 H3'] H4 H5]. unfold HISTORY_SIZE in *.
  assert (S1 : forall k, length (shift_history 15 (history h)) = 16%nat /\ shift_history 15 (history h) !!! k =
    if decide (1 <= k <= 15)%nat then str_copy (history h !!! k) (history h !!! (k - 1)%nat) CMD_BUFFER_SIZE
    else history h !!! k).
  { intros k. rewrite <- H1. apply shift_history_spec. lia. }
  assert (Hrow : forall k, (k < 16)%nat -> length (history h !!! k) = CMD_BUFFER_SIZE).
  { intros k Hk. rewrite Forall_lookup in H2. apply (H2 k). apply list_lookup_lookup_total_lt. lia. }
  change (16 - 1)%nat with 15%nat. unfold copy_entry.
  split; cbn [history history_count].
  - rewrite length_insert. apply (S1 0%nat).
  - apply Forall_lookup. intros k r Hk. apply list_lookup_total_correct in Hk as Ek.
    apply lookup_lt_Some in Hk. rewrite length_insert, (proj1 (S1 0%nat)) in Hk. subst r.
    destruct (decide (k = 0%nat)) as [->|Hk0].
    + rewrite list_lookup_total_insert_eq by (rewrite (proj1 (S1 0%nat)); lia).
      apply c_strcpy_truncate_length; [unfold CMD_BUFFER_SIZE; lia|]. rewrite (proj2 (S1 0%nat)).
      apply Hrow. lia.
    + rewrite list_lookup_total_insert_ne by done. rewrite (proj2 (S1 k)).
      case_decide; [apply c_strcpy_truncate_length; [unfold CMD_BUFFER_SIZE; lia|]|]; apply Hrow; lia.
  - rewrite length_take. cbn [length]. rewrite H3. unfold HISTORY_SIZE. split; [|lia].
    destruct (Z.ltb_spec (Z.of_nat (length hl)) (Z.of_nat 16)); lia.
  - intros k l Hk. apply lookup_take_Some in Hk as [Hk Hlt]. destruct k as [|k].
    + simpl in Hk. injection Hk as <-. rewrite list_lookup_total_insert_eq by (rewrite (proj1 (S1 0%nat)); lia).
      apply cstr_strcpy_truncate.
    + simpl in Hk. rewrite list_lookup_total_insert_ne by done. rewrite (proj2 (S1 (S k))), decide_True by lia.
      unfold str_copy. rewrite cstr_strcpy_truncate. replace (S k - 1)%nat with k by lia.
      rewrite (H4 k l Hk). apply take_ge.
      pose proof (Forall_lookup_1 _ _ _ _ H5 Hk) as [? _]. lia.
  - apply Forall_take. constructor; [|done]. split; [|apply cstr_take_no_nul].
    rewrite length_take. unfold CMD_BUFFER_SIZE. lia.
Qed.

(** ** Where completion goes wrong *)

(** Completing a word inside the line damages what follows it: the rest
    of the line is moved one place too far, a character of it appears twice
    and its last character is lost, where the line should have become the
    completed word followed by the unchanged rest. *)
Theorem tab_inside_line d x hl i m :
  line_rep x hl i -> candidates d (il i) = [m] -> (Nat.min (length (token (il i))) 63 <= length m)%nat ->
  let w := drop (Nat.min (length (token (il i))) 63) m in
  (length w < length (ir i))%nat -> (length (text i) + length w < CMD_BUFFER_SIZE - 1)%nat ->
  exists x', key_tab d CMD_BUFFER_SIZE x = Ret x'
    /\ cstr (buffer (e x')) = il i ++ w ++ (ir i !!! length w) :: take (length (ir i) - 1) (ir i).
Proof.
  intros R Hm Hle w Hw Hroom. pose proof R as [[junk Hb] _ _ _ Hn _ _].
  destruct (tab_unique d x hl i m junk R Hb Hm Hle Hroom) as (x' & junk' & Hx & B & _).
  exists x'. split; [done|]. rewrite B. fold w. destruct (ir i) as [|c r] eqn:Er; [simpl in Hw; lia|]. rewrite <- Er in *.
  rewrite lookup_total_app_l by done.
  assert (Hnm : no_nul m).
  { pose proof (find_matches_no_nul (token_start (length (il i)) (il i)) (take 63 (token (il i))) d) as F.
    fold (candidates d (il i)) in F. rewrite Hm in F. by apply Forall_cons in F as [? _]. }
  unfold text in Hn. apply no_nul_app in Hn as [Hn1 Hn2].
  apply cstr_app_nul. apply no_nul_app. split; [done|]. apply no_nul_app. split; [by apply Forall_drop|].
  constructor; [|by apply Forall_take].
  apply (Forall_lookup_1 _ _ (length w) _ Hn2). by apply list_lookup_lookup_total_lt.
Qed.

(** Completing a word at the end of the line that is longer than its
    only candidate, which a file name of 47 characters makes possible because
    candidates are cut to 46, makes the number of characters to insert wrap
    to almost 2^32: the copy runs out of the array. *)
Theorem tab_long_name d x hl i m :
  line_rep x hl i -> ir i = [] -> candidates d (il i) = [m] ->
  (length m < Nat.min (length (token (il i))) 63)%nat ->
  key_tab d CMD_BUFFER_SIZE x = Fault OutOfBounds.
Proof.
  intros R Hr Hm Hlt. pose proof R as [[junk Hb] Hs Hl Hc Hn Hp Hh].
  unfold text in *. rewrite Hr, app_nil_r in *. unfold key_tab. rewrite Hc, Hl, Hb.
  destruct (token_prefix (il i) (0 :: junk)) as (E1 & E2 & E3). rewrite E3, E2, E1.
  fold (candidates d (il i)). rewrite Hm.
  set (pl := Nat.min (length (token (il i))) 63) in *.
  assert (Hpl : (pl <= 63 /\ pl <= length (il i))%nat).
  { subst pl. unfold token in *. rewrite length_drop in *. lia. }
  rewrite Hb, length_app in Hs. simpl in Hs. unfold CMD_BUFFER_SIZE in *.
  assert (En : u32 (Z.of_nat (length m) - Z.of_nat pl) = 4294967296 - Z.of_nat (pl - length m)).
  { unfold u32. rewrite <- (Z_mod_plus _ 1) by lia. rewrite Z.mod_small by lia. lia. }
  rewrite En.
  assert (Et : u32 (Z.of_nat (length (il i)) + (4294967296 - Z.of_nat (pl - length m)))
               = Z.of_nat (length (il i)) - Z.of_nat (pl - length m)).
  { unfold u32. rewrite <- (Z_mod_plus _ (-1)) by lia. rewrite Z.mod_small by lia. lia. }
  rewrite Et. rewrite (proj2 (Z.ltb_lt _ _)) by lia. rewrite Nat.sub_diag. cbn [shift_right mbind out_mbind].
  unfold copy_in. rewrite (proj2 (Z.ltb_lt _ _)); [done|]. rewrite length_app. simpl. lia.
Qed.

(** ** Concrete lines *)

Definition hist0 : hist := mk_hist (replicate 16 (replicate 128 0)) 0 (-1).
Definition term0 : term := mk_term 0 0 7 (replicate 2000 0) [].
Lemma hist0_rep : hist_rep hist0 [].
Proof.
  split; [done | by apply Forall_replicate | split; [done | simpl; lia] | intros k l Hk; by rewrite lookup_nil in Hk | constructor].
Qed.

(** The state in which [l], and [r] behind the cursor, have been typed. *)
Definition typed (l r : chars) : lst :=
  mk_lst (mk_ed (l ++ r ++ 0 :: replicate (127 - length l - length r) 0) (length l + length r) (length l) 0 0)
    (set_hpos (-1) hist0) term0.
Lemma typed_rep l r :
  (length l + length r < 128)%nat -> no_nul (l ++ r) -> line_rep (typed l r) [] (mk_id l r (-1)).
Proof.
  intros Hl Hn. unfold typed, text. split; cbn [e buffer len cursor h il ir ipos set_hpos history_pos]; unfold text.
  - eexists. cbn [il ir]. rewrite <- app_assoc. done.
  - rewrite !length_app. simpl. rewrite length_replicate. unfold CMD_BUFFER_SIZE. lia.
  - by rewrite length_app.
  - done.
  - done.
  - split; [done | simpl; lia].
  - apply hist_rep_pos, hist0_rep.
Qed.

(** "lx", backspace, "s" and Enter give "ls". *)
Lemma read_line_edits_witness :
  exists b' hi' tm',
    read_line (data bss_fs) (replicate 128 0) CMD_BUFFER_SIZE hist0 term0
      ([108; 120; Keyboard.KEY_BACKSPACE; 115] ++ Keyboard.KEY_ENTER :: [33]) = Ret (b', hi', tm', [33])
    /\ cstr b' = $"ls".
Proof.
  destruct (read_line_edits (data bss_fs) (replicate 128 0) [] hist0 term0
    [108; 120; Keyboard.KEY_BACKSPACE; 115] [33]) as (b' & hi' & tm' & E & T & _).
  - done.
  - exact hist0_rep.
  - by repeat constructor.
  - refine (conj _ (conj _ (conj _ (conj _ I)))); intros H; discriminate H.
  - exists b', hi', tm'. split; [exact E | exact T].
Defined.

(** "ech x" with the cursor behind "ech": the line becomes "echox ". *)
Lemma tab_inside_line_witness :
  exists x', key_tab (data bss_fs) CMD_BUFFER_SIZE (typed $"ech" $" x") = Ret x'
    /\ cstr (buffer (e x')) = $"echox ".
Proof.
  apply (tab_inside_line (data bss_fs) (typed $"ech" $" x") [] (mk_id $"ech" $" x" (-1)) $"echo").
  - apply typed_rep; [simpl; lia | by repeat constructor].
  - vm_compute. reflexivity.
  - vm_compute. lia.
  - vm_compute. lia.
  - vm_compute. lia.
Defined.

(** A directory with one file whose name has 47 characters. *)
Definition long_dir : ramfs :=
  match fs_touch (replicate 47 97) bss_fs with Ret (_, s) => data s | Fault _ => data bss_fs end.

Lemma tab_long_name_witness :
  key_tab long_dir CMD_BUFFER_SIZE (typed (replicate 47 97) []) = Fault OutOfBounds.
Proof.
  apply (tab_long_name long_dir (typed (replicate 47 97) []) [] (mk_id (replicate 47 97) [] (-1)) (replicate 46 97)).
  - apply typed_rep; [simpl; lia | by repeat constructor].
  - reflexivity.
  - vm_compute. reflexivity.
  - vm_compute. lia.
Defined.

End LinedSpec.
