(* ===== verification/Shell.v ===== *)
(** * The shell (src/src/shell.c)

    The command loop over the modelled components: the RAM file system and
    the mount table with the FAT32 driver, the partition tables, the kernel
    heap, the calculator, the script language, the terminal, the speaker and
    the PCI bus.  Parts that only start another program of the kernel (the
    games, the desktop, the installer, a process, the scheduler's list, the
    network stub, power) are the calls [extcall]; what they do to the state
    is the argument [ext].  The line editor is [Lined]. *)

From S2P Require Import Prelude Memory Kmalloc Terminal Fs Keyboard Vfs Ata Fat32 Fat32Spec Part Calc Mlang Ports Pci Platform Lined.
Import Fs Terminal Lined.
#[local] Existing Instance Fat32Spec.Fat32Spec.fat32_driver.

Module Shell.

Record shst : Type := mk_sh {
  hi : hist;
  vs : Vfs.vfs Fat32.fatst;   (** mounts, RAM file system, FAT32 and its disk *)
  psec : list Z;                     (** the sector buffer of part.c *)
  tm : term;
  heap : Kmalloc.kstate;
  vars : list Mlang.var;             (** variables of the script language *)
  ports : Ports.log;
  keys : list Z;                     (** keys still to come *)
  ticks : Z;                         (** [timer_ticks()] *)
}.

Definition set_hi (x : hist) (s : shst) : shst :=
  mk_sh x (vs s) (psec s) (tm s) (heap s) (vars s) (ports s) (keys s) (ticks s).
Definition set_vs (x : Vfs.vfs Fat32.fatst) (s : shst) : shst :=
  mk_sh (hi s) x (psec s) (tm s) (heap s) (vars s) (ports s) (keys s) (ticks s).
Definition set_psec (x : list Z) (s : shst) : shst :=
  mk_sh (hi s) (vs s) x (tm s) (heap s) (vars s) (ports s) (keys s) (ticks s).
Definition set_tm (x : term) (s : shst) : shst :=
  mk_sh (hi s) (vs s) (psec s) x (heap s) (vars s) (ports s) (keys s) (ticks s).
Definition set_vars (x : list Mlang.var) (s : shst) : shst :=
  mk_sh (hi s) (vs s) (psec s) (tm s) (heap s) x (ports s) (keys s) (ticks s).
Definition set_ports (x : Ports.log) (s : shst) : shst :=
  mk_sh (hi s) (vs s) (psec s) (tm s) (heap s) (vars s) x (keys s) (ticks s).
Definition set_keys (x : list Z) (s : shst) : shst :=
  mk_sh (hi s) (vs s) (psec s) (tm s) (heap s) (vars s) (ports s) x (ticks s).

Definition ramst (s : shst) : fs_state := Vfs.ram (vs s).
Definition ram (s : shst) : ramfs := data (ramst s).
Definition set_ram (x : fs_state) (s : shst) : shst := set_vs (Vfs.set_ram x (vs s)) s.
Definition fatst (s : shst) : Fat32.fatst := Vfs.fat (vs s).
Definition set_fat (x : Fat32.fatst) (s : shst) : shst := set_vs (Vfs.set_fat x (vs s)) s.

(** Calls into the other programs of the kernel. *)
Inductive extcall : Type :=
| machine_reboot | machine_shutdown | install_wizard
| net_ping (host : chars) (count : Z)
| process_exec (image : chars)
| snake_run | pong_run | sched_list | sched_spawn_worker
| settings_menu | vbe_test | desktop_run
| ac97_is_present | ac97_play_test_tone (freq ms : Z).

Section Shell.
Context (ext : extcall -> shst -> out (Z * shst)).
Context (dev : Ports.device).
(** The programs the build embeds. *)
Context (hello_elf dynhello_elf : chars).

Definition ext_ (c : extcall) (s : shst) : out shst := '(_, s) ← ext c s; Ret s.

(** [terminal_writestring] and [terminal_putchar('\n')]. *)
Definition say (t : chars) (s : shst) : shst := set_tm (terminal_writestring t (tm s)) s.
Definition nl (s : shst) : shst := set_tm (terminal_putchar 10 (tm s)) s.
Definition line_ (t : chars) (s : shst) : shst := say (t ++ [10]) s.

Definition print_fs_error (err : fs_result) (s : shst) : shst :=
  nl (say (fs_strerror err) (say $"Error: " s)).
Definition print_fat_error (err : Fat32.fat_result) (s : shst) : shst :=
  nl (say (Fat32.fat_strerror err) (say $"FAT: " s)).

Definition fs_ok (r : fs_result) : bool := bool_decide (r = FS_OK).
Definition fat_ok (r : Fat32.fat_result) : bool := match r with Fat32.FAT_OK => true | _ => false end.

(** [r = f(...); if (r != FS_OK) print_fs_error(r);] *)
Definition on_ram (f : fs_state -> out (fs_result * fs_state)) (s : shst) : out shst :=
  '(r, d) ← f (ramst s);
  let s := set_ram d s in
  Ret (if fs_ok r then s else print_fs_error r s).

(** ** Mounts and the disk *)

Definition show_mounts (s : shst) : out shst :=
  '(o, v) ← Vfs.vfs_list (vs s); Ret (say o (set_vs v s)).

Definition cmd_mount (arg : chars) (s : shst) : out shst :=
  let arg := skip_blanks arg in
  if char_at arg 0 =? 0 then show_mounts s
  else
    let type := word 15 arg in
    let arg := skip_blanks (drop (length type) arg) in
    if char_at arg 0 =? 0 then
      Ret (line_ $"       mount          (list mounts)" (line_ $"Usage: mount [fat|ram] <path>" s))
    else
      let ty :=
        if (char_at type 0 =? 102) && (char_at type 1 =? 97) then Some Vfs.VFS_FS_FAT32
        else if (char_at type 0 =? 114) && (char_at type 1 =? 97) then Some Vfs.VFS_FS_RAM else None in
      match ty with
      | None => Ret (line_ $"Unknown FS type (use fat or ram)" s)
      | Some ty =>
          '(r, v) ← Vfs.vfs_mount (Some arg) ty (vs s);
          let s := set_vs v s in
          if negb (fs_ok r) then Ret (nl (say (fs_strerror r) (say $"mount: " s)))
          else show_mounts (line_ $"Mounted." s)
      end.

Definition cmd_umount (arg : chars) (s : shst) : out shst :=
  let arg := skip_blanks arg in
  if char_at arg 0 =? 0 then Ret (line_ $"Usage: umount <path>" s)
  else
    '(r, v) ← Vfs.vfs_umount (Some arg) (vs s);
    let s := set_vs v s in
    if negb (fs_ok r) then Ret (nl (say (fs_strerror r) (say $"umount: " s)))
    else Ret (line_ $"Unmounted." s).

Definition cmd_fatmkdir (arg : chars) (s : shst) : out shst :=
  let arg := skip_blanks arg in
  if char_at arg 0 =? 0 then Ret (line_ $"Usage: fatmkdir <name>" s)
  else
    '(r, f) ← Fat32.fat32_mkdir (Some arg) (fatst s);
    let s := set_fat f s in
    Ret (if fat_ok r then s else nl (say (Fat32.fat_strerror r) s)).

Definition cmd_fatrm (arg : chars) (s : shst) : out shst :=
  let arg := skip_blanks arg in
  if char_at arg 0 =? 0 then Ret (line_ $"Usage: fatrm <name>" s)
  else
    '(r, f) ← Fat32.fat32_unlink (Some arg) (fatst s);
    let s := set_fat f s in
    Ret (if fat_ok r then s else nl (say (Fat32.fat_strerror r) s)).

(** The printing functions of part.c, on the same disk. *)
Definition on_part (f : Part.partst -> out (chars * Part.partst)) (s : shst) : out shst :=
  '(o, p) ← f (Part.mk_part (psec s) (Fat32.dsk (fatst s)));
  Ret (say o (set_psec (Part.sec p) (set_fat (Fat32.set_dsk (Part.pdisk p) (fatst s)) s))).

Definition cmd_fdisk (s : shst) : out shst := on_part Part.part_print_mbr s.

Definition cmd_mkfs (s : shst) : out shst :=
  let s := line_ $"Formatting partition LBA 2048 (128MiB)..." s in
  '(r, f) ← Fat32.fat32_mkfs 2048 262144 (fatst s);
  let s := set_fat f s in
  Ret (nl (if fat_ok r then line_ $"mkfs OK. Run: fatmount" s else say (Fat32.fat_strerror r) s)).

Definition cmd_install (s : shst) : out shst := ext_ install_wizard s.

Definition cmd_ping (arg : chars) (s : shst) : out shst :=
  let host := word 63 (skip_blanks arg) in
  match host with
  | [] => Ret (line_ $"Usage: ping <host>   e.g. ping 127.0.0.1" s)
  | _ => ext_ (net_ping host 4) s
  end.

(** ** System *)

Definition help_lines : list chars :=
  [ $"System: help clear echo about uname whoami free history";
    $"        reboot shutdown calc <expr>";
    $"RAM FS: ls pwd cd mkdir touch cat write append cp mv";
    $"        rm <name> | rm -r <dir>   recursive delete";
    $"VFS:    mount [fat|ram] <path> | umount <path> | mount";
    $"FAT32:  fatmount fatinfo fatls fatcat fatwrite fatmkdir fatrm";
    $"Net:    ping <host>   (loopback 127.0.0.1)";
    $"Disk:   fdisk gpt mkfs install  |  boot: make disk.img";
    $"Lang:   lang | lang <file>";
    $"Tasks:  ps spawn";
    $"Games:  snake pong beep [freq|err|coin]";
    $"GUI:    desktop";
    $"PCI:    lspci beep97 [freq]";
    $"Programs: exec <name>   (example: exec hello)";
    $"Config: settings vbetest" ].
Definition cmd_help (s : shst) : shst := foldl (fun s l => line_ l s) s help_lines.

Definition cmd_reboot (s : shst) : out shst := ext_ machine_reboot s.
Definition cmd_shutdown (s : shst) : out shst := ext_ machine_shutdown s.

Definition cmd_calc (expr : chars) (s : shst) : out shst :=
  if char_at expr 0 =? 0 then Ret (line_ $"Usage: calc <expr>" s)
  else
    '(v, error) ← Calc.calc_eval expr;
    if (error : bool) then Ret (line_ $"Error in expression" s)
    else Ret (nl (set_tm (terminal_write_int v (tm s)) s)).

Definition cmd_uname (s : shst) : shst := line_ $"MyKernel i686 GNU/MyKernel" s.
Definition cmd_whoami (s : shst) : shst := line_ $"root" s.

Definition cmd_free (s : shst) : out shst :=
  '(used, total, freeb) ← Kmalloc.kmalloc_stats (heap s);
  let s := say $"Kernel heap: used=" s in
  let s := set_tm (terminal_write_uint used (tm s)) s in
  let s := say $" free=" s in
  let s := set_tm (terminal_write_uint freeb (tm s)) s in
  let s := say $" total=" s in
  Ret (nl (set_tm (terminal_write_uint total (tm s)) s)).

(** [for (i = history_count - 1; i >= 0; i--)] *)
Fixpoint history_lines (i : nat) (s : shst) : shst :=
  match i with
  | O => s
  | S i' =>
      let s := set_tm (terminal_write_uint (history_count (hi s) - Z.of_nat i') (tm s)) s in
      let s := say (history (hi s) !!! i') (say $"  " s) in
      history_lines i' (nl s)
  end.
Definition cmd_history_list (s : shst) : shst :=
  if history_count (hi s) =? 0 then line_ $"(no history)" s
  else history_lines (Z.to_nat (history_count (hi s))) s.

(** ** The RAM file system *)

Definition cmd_pwd (s : shst) : shst := nl (say (fs_pwd PWD_BUFFER_SIZE (ram s)) s).

Definition cmd_cd (arg : chars) (s : shst) : out shst :=
  if char_at arg 0 =? 0 then Ret (line_ $"Usage: cd <dir>" s) else on_ram (fs_cd arg) s.
Definition cmd_mkdir (arg : chars) (s : shst) : out shst :=
  if char_at arg 0 =? 0 then Ret (line_ $"Usage: mkdir <name>" s) else on_ram (fs_mkdir arg) s.
Definition cmd_touch (arg : chars) (s : shst) : out shst :=
  if char_at arg 0 =? 0 then Ret (line_ $"Usage: touch <name>" s) else on_ram (fs_touch arg) s.

(** The option loop of [cmd_rm]: [None] prints the usage. *)
Fixpoint rm_options (fuel : nat) (recursive : bool) (arg : chars) : option (bool * chars) :=
  match fuel with
  | O => None
  | S f =>
      if char_at arg 0 =? 45 then
        if (char_at arg 1 =? 114) || (char_at arg 1 =? 82) then
          let arg := drop 2 arg in
          let arg := if (char_at arg 0 =? 102) || (char_at arg 0 =? 70) then drop 1 arg else arg in
          rm_options f true (skip_blanks arg)
        else None
      else Some (recursive, arg)
  end.
Definition cmd_rm (arg : chars) (s : shst) : out shst :=
  match rm_options (S (length arg)) false arg with
  | Some (recursive, arg) =>
      if char_at arg 0 =? 0 then Ret (line_ $"Usage: rm [-r|-rf] <name>" s)
      else on_ram ((if recursive : bool then fs_rm_rf else fs_rm) (Some arg)) s
  | None => Ret (line_ $"Usage: rm [-r|-rf] <name>" s)
  end.

Definition node_text (s : shst) (idx : nat) : chars := content (nodes (ram s) !!! idx).

Definition cmd_cat (arg : chars) (s : shst) : out shst :=
  if char_at arg 0 =? 0 then Ret (line_ $"Usage: cat <file>" s)
  else match fs_read arg (ram s) with
       | (_, Some (idx, _)) => Ret (nl (say (node_text s idx) s))
       | (r, None) => Ret (print_fs_error r s)
       end.

Definition cmd_write (args : chars) (s : shst) : out shst :=
  match split_name_and_rest args FS_NAME_MAX with
  | None => Ret (line_ $"Usage: write <file> <text>" s)
  | Some (name, text) => on_ram (fs_write name text) s
  end.
Definition cmd_append (args : chars) (s : shst) : out shst :=
  match split_name_and_rest args FS_NAME_MAX with
  | None => Ret (line_ $"Usage: append <file> <text>" s)
  | Some (name, text) => on_ram (fs_append name text) s
  end.
Definition cmd_cp (args : chars) (s : shst) : out shst :=
  match split_two_names args FS_NAME_MAX FS_NAME_MAX with
  | None => Ret (line_ $"Usage: cp <src> <dst>" s)
  | Some (src, dst) => on_ram (fs_cp src dst) s
  end.
Definition cmd_mv (args : chars) (s : shst) : out shst :=
  match split_two_names args FS_NAME_MAX FS_NAME_MAX with
  | None => Ret (line_ $"Usage: mv <src> <dst>" s)
  | Some (src, dst) => on_ram (fs_mv src dst) s
  end.

Definition cmd_exec (arg : chars) (s : shst) : out shst :=
  let run (image : chars) :=
    '(code, s) ← ext (process_exec image) s;
    Ret (nl (set_tm (terminal_write_int code (tm (say $"exit " s))) (say $"exit " s))) in
  if char_at arg 0 =? 0 then Ret (line_ $"Usage: exec hello | exec dynhello" s)
  else if str_equals arg $"hello" then run hello_elf
  else if str_equals arg $"dynhello" then run dynhello_elf
  else
    r ← (match fs_read arg (ram s) with
         | (FS_OK, f) => Ret (FS_OK, f)
         | _ => fs_read_path (Some arg) (ram s)
         end);
    match r with
    | (_, Some (idx, len)) => run (file_bytes (ram s) idx len)
    | (r, None) => Ret (print_fs_error r s)
    end.

(** ** FAT32 *)

Definition cmd_fatmount (s : shst) : out shst :=
  '(r, f) ← Fat32.fat32_mount (fatst s);
  let s := set_fat f s in
  if negb (fat_ok r) then Ret (print_fat_error r s)
  else Ret (say (Fat32.fat32_info f) (line_ $"FAT32 mounted OK" s)).
Definition cmd_fatls (s : shst) : out shst :=
  '((r, o), f) ← Fat32.fat32_ls (fatst s);
  let s := say o (set_fat f s) in
  Ret (if fat_ok r then s else print_fat_error r s).
Definition cmd_fatcat (path : chars) (s : shst) : out shst :=
  if char_at path 0 =? 0 then Ret (line_ $"Usage: fatcat FILE" s)
  else
    '((r, o), f) ← Fat32.fat32_cat (Some path) (fatst s);
    let s := say o (set_fat f s) in
    Ret (if fat_ok r then s else print_fat_error r s).
Definition cmd_fatwrite (args : chars) (s : shst) : out shst :=
  let usage := Ret (line_ $"Usage: fatwrite NOTE.TXT text" s) in
  match split_name_and_rest args 16 with
  | None => usage
  | Some (name, text) =>
      if char_at text 0 =? 0 then usage
      else
        '(r, f) ← Fat32.fat32_write (Some name) (Some text) (fatst s);
        let s := set_fat f s in
        Ret (if fat_ok r then line_ $"OK" s else print_fat_error r s)
  end.

(** ** Devices and programs *)

(** [for (p = arg; *p >= '0' && *p <= '9'; p++) f = f * 10 + ( *p - '0');] *)
Fixpoint read_uint (f : Z) (p : chars) : Z :=
  match p with
  | c :: p' => if (48 <=? c) && (c <=? 57) then read_uint (u32 (f * 10 + (c - 48))) p' else f
  | [] => f
  end.
Definition tone (arg : chars) : Z := let f := read_uint 0 arg in if f =? 0 then 440 else f.

Definition cmd_beep (arg : chars) (s : shst) : shst :=
  set_ports
    (if char_at arg 0 =? 0 then Platform.sound_beep_ok dev (ports s)
     else if str_equals arg $"err" then Platform.sound_beep_err dev (ports s)
     else if str_equals arg $"coin" then Platform.sound_beep_coin dev (ports s)
     else Platform.sound_beep dev (tone arg) 120 (ports s)) s.

Definition cmd_lspci (s : shst) : shst :=
  let '(t, l) := Pci.pci_scan_and_print dev (tm s) (ports s) in set_ports l (set_tm t s).

Definition cmd_beep97 (arg : chars) (s : shst) : out shst :=
  '(present, s) ← ext ac97_is_present s;
  if present =? 0 then Ret (line_ $"ac97: device not available" s)
  else
    s ← ext_ (ac97_play_test_tone (tone arg) 500) (line_ $"ac97: DMA test tone..." s);
    Ret (line_ $"ac97: done" s).

Definition cmd_snake (s : shst) : out shst := ext_ snake_run (line_ $"Snake: arrows/WASD, Q=quit" s).
Definition cmd_pong (s : shst) : out shst := ext_ pong_run (line_ $"Pong: W/S left, arrows right, Q=quit" s).

Definition cmd_ps (s : shst) : out shst :=
  let s := say $"ticks=" s in
  ext_ sched_list (nl (set_tm (terminal_write_uint (ticks s) (tm s)) s)).

Definition cmd_spawn (s : shst) : out shst :=
  '(id, s) ← ext sched_spawn_worker s;
  if id <? 0 then Ret (line_ $"spawn failed" s)
  else
    let s := say $"spawned worker id=" s in
    Ret (nl (set_tm (terminal_write_uint (u32 id) (tm s)) s)).

(** ** The script language *)

Definition on_mlang (f : Mlang.mlst -> out (Z * Mlang.mlst)) (s : shst) : out shst :=
  '(_, m) ← f (Mlang.mk_ml (vars s) (tm s));
  Ret (set_vars (Mlang.vars m) (set_tm (Mlang.tty m) s)).
Definition mlang_reset (s : shst) : shst :=
  set_vars (Mlang.vars (Mlang.mlang_reset (Mlang.mk_ml (vars s) (tm s)))) s.

(** [p[0] == 'i' && p[1] == 'f' && (p[2] == ' ' || p[2] == '\t')], or
    "while". *)
Definition opens_block (p : chars) : bool :=
  ((char_at p 0 =? 105) && (char_at p 1 =? 102) && ((char_at p 2 =? 32) || (char_at p 2 =? 9)))
  || ((char_at p 0 =? 119) && (char_at p 1 =? 104) && (char_at p 2 =? 105) && (char_at p 3 =? 108)
      && (char_at p 4 =? 101)).
Fixpoint skip_space (p : chars) : chars :=
  match p with c :: p' => if (c =? 32) || (c =? 9) then skip_space p' else p | [] => [] end.

Definition SCRIPT_MAX : nat := 1024.

(** The loop of the interactive mode; every round reads at least one key. *)
Fixpoint lang_loop (fuel : nat) (line script : chars) (depth : Z) (s : shst) : out shst :=
  match fuel with
  | O => Fault NoFuel
  | S f =>
      let s := say (if depth =? 0 then $"lang> " else $"... ") s in
      '(line, h, t, ks) ← read_line (ram s) line CMD_BUFFER_SIZE (hi s) (tm s) (keys s);
      let s := set_keys ks (set_tm t (set_hi h s)) in
      if str_equals line $"quit" || str_equals line $"exit" then Ret s
      else
        let p := skip_space (cstr line) in
        if (depth =? 0) && negb (opens_block p) then
          s ← on_mlang (Mlang.mlang_exec_line (cstr line)) s;
          lang_loop f line script depth s
        else
          let n := str_len line in
          let script := if (length script + n + 2 <? SCRIPT_MAX)%nat
                        then script ++ take n line ++ [10] else script in
          if opens_block p then lang_loop f line script (depth + 1) s
          else if str_equals p $"end" then
            if depth - 1 <=? 0 then
              s ← on_mlang (Mlang.mlang_exec_script script) s;
              lang_loop f line [] 0 s
            else lang_loop f line script (depth - 1) s
          else lang_loop f line script depth s
  end.

Definition cmd_lang (arg : chars) (s : shst) : out shst :=
  if negb (char_at arg 0 =? 0) then
    match fs_read arg (ram s) with
    | (_, Some (idx, _)) => on_mlang (Mlang.mlang_exec_script (node_text s idx)) (mlang_reset s)
    | (r, None) => Ret (print_fs_error r s)
    end
  else
    let s := mlang_reset (line_ $"MyLang - quit to exit" s) in
    lang_loop (S (length (keys s))) (replicate CMD_BUFFER_SIZE 0) [] 0 s.

(** ** Commands *)

Inductive command : Type :=
| CNone | CHelp | CClear | CAbout | CReboot | CShutdown | CUname | CWhoami | CFree | CHistory
| CEcho (a : chars) | CEchoNl | CCalc (a : chars) | CLs | CPwd | CCd (a : chars) | CMkdir (a : chars)
| CTouch (a : chars) | CRm (a : chars) | CCat (a : chars) | CWrite (a : chars) | CAppend (a : chars)
| CCp (a : chars) | CMv (a : chars) | CRun (a : chars) | CExec (a : chars)
| CFatmount | CFatinfo | CFatls | CFatcat (a : chars) | CFatwrite (a : chars) | CLang (a : chars)
| CPs | CSpawn | CSnake | CPong | CBeep (a : chars) | CLspci | CBeep97 (a : chars) | CSettings | CVbetest
| CMount (a : chars) | CUmount (a : chars) | CInstall | CFdisk | CGpt | CMkfs
| CFatmkdir (a : chars) | CFatrm (a : chars) | CPing (a : chars) | CDesktop | CUnknown (line : chars).

(** The tests of [execute_command], in order. *)
Definition parse_command (line : chars) : command :=
  let eq w := str_equals line w in
  let pre w := str_starts_with line w in
  let arg n := drop n line in
  if char_at line 0 =? 0 then CNone
  else if eq $"help" then CHelp
  else if eq $"clear" then CClear
  else if eq $"about" then CAbout
  else if eq $"reboot" then CReboot
  else if eq $"shutdown" then CShutdown
  else if eq $"uname" then CUname
  else if eq $"whoami" then CWhoami
  else if eq $"free" then CFree
  else if eq $"history" then CHistory
  else if pre $"echo " then CEcho (arg 5%nat)
  else if eq $"echo" then CEchoNl
  else if pre $"calc " then CCalc (arg 5%nat)
  else if eq $"calc" then CCalc []
  else if eq $"ls" then CLs
  else if eq $"pwd" then CPwd
  else if pre $"cd " then CCd (arg 3%nat)
  else if eq $"cd" then CCd []
  else if pre $"mkdir " then CMkdir (arg 6%nat)
  else if pre $"touch " then CTouch (arg 6%nat)
  else if pre $"rm " then CRm (arg 3%nat)
  else if pre $"cat " then CCat (arg 4%nat)
  else if pre $"write " then CWrite (arg 6%nat)
  else if pre $"append " then CAppend (arg 7%nat)
  else if pre $"cp " then CCp (arg 3%nat)
  else if pre $"mv " then CMv (arg 3%nat)
  else if pre $"run " then CRun (arg 4%nat)
  else if eq $"run" then CRun []
  else if pre $"exec " then CExec (arg 5%nat)
  else if eq $"exec" then CExec []
  else if eq $"fatmount" then CFatmount
  else if eq $"fatinfo" then CFatinfo
  else if pre $"fatls " then CFatls
  else if eq $"fatls" then CFatls
  else if pre $"fatcat " then CFatcat (arg 7%nat)
  else if eq $"fatcat" then CFatcat []
  else if pre $"fatwrite " then CFatwrite (arg 9%nat)
  else if eq $"fatwrite" then CFatwrite []
  else if pre $"lang " then CLang (arg 5%nat)
  else if eq $"lang" then CLang []
  else if eq $"ps" then CPs
  else if eq $"spawn" then CSpawn
  else if eq $"snake" then CSnake
  else if eq $"pong" then CPong
  else if pre $"beep " then CBeep (arg 5%nat)
  else if eq $"beep" then CBeep []
  else if eq $"lspci" then CLspci
  else if pre $"beep97 " then CBeep97 (arg 7%nat)
  else if eq $"beep97" then CBeep97 []
  else if eq $"settings" then CSettings
  else if eq $"vbetest" then CVbetest
  else if eq $"mount" then CMount []
  else if pre $"mount " then CMount (arg 6%nat)
  else if pre $"umount " then CUmount (arg 7%nat)
  else if eq $"umount" then CUmount []
  else if eq $"install" then CInstall
  else if eq $"fdisk" then CFdisk
  else if eq $"gpt" then CGpt
  else if eq $"mkfs" then CMkfs
  else if pre $"fatmkdir " then CFatmkdir (arg 9%nat)
  else if pre $"fatrm " then CFatrm (arg 6%nat)
  else if pre $"ping " then CPing (arg 5%nat)
  else if eq $"ping" then CPing []
  else if eq $"desktop" then CDesktop
  else CUnknown line.

(** Every command but [run]. *)
Definition perform (c : command) (s : shst) : out shst :=
  match c with
  | CNone | CRun _ => Ret s
  | CHelp => Ret (cmd_help s)
  | CClear => Ret (set_tm (terminal_initialize (tm s)) s)
  | CAbout => Ret (line_ $"MyKernel -- gfx + VBE + settings + snake + pong" s)
  | CReboot => cmd_reboot s
  | CShutdown => cmd_shutdown s
  | CUname => Ret (cmd_uname s)
  | CWhoami => Ret (cmd_whoami s)
  | CFree => cmd_free s
  | CHistory => Ret (cmd_history_list s)
  | CEcho a => Ret (nl (say a s))
  | CEchoNl => Ret (nl s)
  | CCalc a => cmd_calc a s
  | CLs => Ret (say (fs_ls (ram s)) s)
  | CPwd => Ret (cmd_pwd s)
  | CCd a => cmd_cd a s
  | CMkdir a => cmd_mkdir a s
  | CTouch a => cmd_touch a s
  | CRm a => cmd_rm a s
  | CCat a => cmd_cat a s
  | CWrite a => cmd_write a s
  | CAppend a => cmd_append a s
  | CCp a => cmd_cp a s
  | CMv a => cmd_mv a s
  | CExec a => cmd_exec a s
  | CFatmount => cmd_fatmount s
  | CFatinfo => Ret (say (Fat32.fat32_info (fatst s)) s)
  | CFatls => cmd_fatls s
  | CFatcat a => cmd_fatcat a s
  | CFatwrite a => cmd_fatwrite a s
  | CLang a => cmd_lang a s
  | CPs => cmd_ps s
  | CSpawn => cmd_spawn s
  | CSnake => cmd_snake s
  | CPong => cmd_pong s
  | CBeep a => Ret (cmd_beep a s)
  | CLspci => Ret (cmd_lspci s)
  | CBeep97 a => cmd_beep97 a s
  | CSettings => ext_ settings_menu s
  | CVbetest => ext_ vbe_test s
  | CMount a => cmd_mount a s
  | CUmount a => cmd_umount a s
  | CInstall => cmd_install s
  | CFdisk => cmd_fdisk s
  | CGpt => on_part Part.part_print_gpt s
  | CMkfs => cmd_mkfs s
  | CFatmkdir a => cmd_fatmkdir a s
  | CFatrm a => cmd_fatrm a s
  | CPing a => cmd_ping a s
  | CDesktop => ext_ desktop_run s
  | CUnknown line =>
      Ret (say ([10] ++ $"Type 'help'" ++ [10]) (say line (say $"Unknown command: " s)))
  end.

(** ** Scripts of commands *)

(** [while (i < len && content[i] != '\n' && j < n)] *)
Fixpoint script_line (n : nat) (c : chars) : chars :=
  match n, c with
  | S n', x :: c' => if x =? 10 then [] else x :: script_line n' c'
  | _, _ => []
  end.

Section Run.
Variable exec : chars -> shst -> out shst.

(** The loop of [cmd_run]; the text is read through the pointer into the
    file's node, so a command that changes the file changes what is read. *)
Fixpoint run_loop (fuel : nat) (idx : nat) (len i : nat) (s : shst) : out shst :=
  match fuel with
  | O => Fault NoFuel
  | S f =>
      if (len <=? i)%nat then Ret s
      else
        let rest := take (len - i) (drop i (node_text s idx)) in
        let line := script_line (RUN_LINE_MAX - 1) rest in
        let i := (i + length line)%nat in
        let i := if (i <? len)%nat && (node_text s idx !!! i =? 10) then S i else i in
        let p := skip_space line in
        if (char_at p 0 =? 0) || (char_at p 0 =? 35) then run_loop f idx len i s
        else
          s ← exec p (nl (say p (say $"+ " s)));
          run_loop f idx len i s
  end.

Definition cmd_run (arg : chars) (s : shst) : out shst :=
  if char_at arg 0 =? 0 then Ret (line_ $"Usage: run <file>" s)
  else match fs_read arg (ram s) with
       | (_, Some (idx, len)) => run_loop (S (Z.to_nat len)) idx (Z.to_nat len) 0 s
       | (r, None) => Ret (print_fs_error r s)
       end.
End Run.

(** [execute_command], with at most [depth] scripts inside one another: the
    source has no bound and uses the kernel stack up. *)
Fixpoint execute_command (depth : nat) (line : chars) (s : shst) : out shst :=
  match parse_command line with
  | CRun a =>
      match depth with
      | O => Fault NoFuel
      | S d => cmd_run (execute_command d) a s
      end
  | c => perform c s
  end.

(** ** The loop *)

(** One round of [shell_run]; [line] is its local array, of which
    [execute_command] sees the string before the NUL. *)
Definition shell_turn (depth : nat) (line : chars) (s : shst) : out (chars * shst) :=
  let s := say $"> " (say (fs_pwd PWD_BUFFER_SIZE (ram s)) s) in
  '(line, h, t, ks) ← read_line (ram s) line CMD_BUFFER_SIZE (hi s) (tm s) (keys s);
  let s := set_keys ks (set_tm t (set_hi (history_add line h) s)) in
  s ← execute_command depth (cstr line) s;
  Ret (line, s).

(** The first [n] rounds of [shell_run]. *)
Fixpoint shell_rounds (n depth : nat) (line : chars) (s : shst) : out (chars * shst) :=
  match n with
  | O => Ret (line, s)
  | S n' => '(line, s) ← shell_turn depth line s; shell_rounds n' depth line s
  end.

Definition shell_run (n depth : nat) (line : chars) (s : shst) : out (chars * shst) :=
  shell_rounds n depth line
    (line_ $"MyKernel. help | settings | desktop | snake | pong" (nl s)).

End Shell.
End Shell.
