(* ===== verification/ShellSpec.v ===== *)
(** * Properties of the shell

    A session of typed lines carries out the calls on the file systems, the
    mount table and the other components that the lines name; a script runs its lines in order; a script that runs itself never
    comes to an end. *)

From S2P Require Import Prelude Memory Kmalloc Terminal Fs FsInv FsProps FsSpec Keyboard Vfs Ata Fat32 Fat32Spec Part Calc Mlang Ports Pci Platform Lined LinedSpec Shell.
Import Fs FsInv FsProps Terminal Lined LinedSpec Shell.
#[local] Existing Instance Fat32Spec.Fat32Spec.fat32_driver.

Module ShellSpec.

Section Session.
Context (ext : extcall -> shst -> out (Z * shst)) (dev : Ports.device) (hello_elf dynhello_elf : chars).
Abbreviation perform := (perform ext dev hello_elf dynhello_elf).
Abbreviation execute_command := (execute_command ext dev hello_elf dynhello_elf).
Abbreviation shell_turn := (shell_turn ext dev hello_elf dynhello_elf).
Abbreviation shell_rounds := (shell_rounds ext dev hello_elf dynhello_elf).

(** ** What a line asks of the system *)

(** What the commands below change: the mounts with both file systems, the
    sector buffer of the partition tables and the kernel heap. *)
Record sys : Type := mk_sys { svfs : Vfs.vfs Fat32.fatst; ssec : list Z; sheap : Kmalloc.kstate }.

(** The calls into other components. *)
Inductive call : Type :=
| Ram (op : fs_op)
| Calc (e : chars) | HeapStats
| FatMount | FatLs | FatCat (p : chars) | FatWrite (p txt : chars) | FatMkdir (p : chars) | FatUnlink (p : chars) | Mkfs
| ListMounts | Mount (p : chars) (ty : Vfs.vfs_fs_type) | Umount (p : chars)
| PrintMbr | PrintGpt.

Definition at_vfs {A} (o : out (A * Vfs.vfs Fat32.fatst)) (y : sys) : out sys := '(_, v) ← o; Ret (mk_sys v (ssec y) (sheap y)).
Definition at_fat {A} (o : out (A * Fat32.fatst)) (y : sys) : out sys :=
  '(_, f) ← o; Ret (mk_sys (Vfs.set_fat f (svfs y)) (ssec y) (sheap y)).
Definition at_part (f : Part.partst -> out (chars * Part.partst)) (y : sys) : out sys :=
  let fat := Vfs.fat (svfs y) in
  '(_, p) ← f (Part.mk_part (ssec y) (Fat32.dsk fat));
  Ret (mk_sys (Vfs.set_fat (Fat32.set_dsk (Part.pdisk p) fat) (svfs y)) (Part.sec p) (sheap y)).

Definition do_call (c : call) (y : sys) : out sys :=
  let fat := Vfs.fat (svfs y) in
  match c with
  | Ram op => '(_, d) ← exec op (Vfs.ram (svfs y)); Ret (mk_sys (Vfs.set_ram d (svfs y)) (ssec y) (sheap y))
  | Calc e => _ ← Calc.calc_eval e; Ret y
  | HeapStats => _ ← Kmalloc.kmalloc_stats (sheap y); Ret y
  | FatMount => at_fat (Fat32.fat32_mount fat) y
  | FatLs => at_fat (Fat32.fat32_ls fat) y
  | FatCat p => at_fat (Fat32.fat32_cat (Some p) fat) y
  | FatWrite p txt => at_fat (Fat32.fat32_write (Some p) (Some txt) fat) y
  | FatMkdir p => at_fat (Fat32.fat32_mkdir (Some p) fat) y
  | FatUnlink p => at_fat (Fat32.fat32_unlink (Some p) fat) y
  | Mkfs => at_fat (Fat32.fat32_mkfs 2048 262144 fat) y
  | ListMounts => at_vfs (Vfs.vfs_list (svfs y)) y
  | Mount p ty =>
      (* a successful mount lists the mounts *)
      '(r, v) ← Vfs.vfs_mount (Some p) ty (svfs y);
      let y := mk_sys v (ssec y) (sheap y) in
      if fs_ok r then at_vfs (Vfs.vfs_list v) y else Ret y
  | Umount p => at_vfs (Vfs.vfs_umount (Some p) (svfs y)) y
  | PrintMbr => at_part Part.part_print_mbr y
  | PrintGpt => at_part Part.part_print_gpt y
  end.

Fixpoint do_calls (cs : list call) (y : sys) : out sys :=
  match cs with [] => Ret y | c :: cs => y ← do_call c y; do_calls cs y end.

Lemma do_calls_app cs1 cs2 y : do_calls (cs1 ++ cs2) y = (y1 ← do_calls cs1 y; do_calls cs2 y1).
Proof. revert y. induction cs1 as [|c cs IH]; intros y; [done|]. cbn [app do_calls]. destruct (do_call c y); [apply IH | done]. Qed.

Definition with_arg (a : chars) (c : call) : list call := if char_at a 0 =? 0 then [] else [c].

Definition mount_calls (arg : chars) : list call :=
  let arg := skip_blanks arg in
  if char_at arg 0 =? 0 then [ListMounts]
  else
    let type := word 15 arg in
    let arg := skip_blanks (drop (length type) arg) in
    if char_at arg 0 =? 0 then []
    else if (char_at type 0 =? 102) && (char_at type 1 =? 97) then [Mount arg Vfs.VFS_FS_FAT32]
    else if (char_at type 0 =? 114) && (char_at type 1 =? 97) then [Mount arg Vfs.VFS_FS_RAM] else [].

(** The calls a command stands for; [None] for the commands that run another
    program: scripts, user programs, the installer, the network, sound and
    task commands, programs that take over the screen, and power. *)
Definition effect (c : command) : option (list call) :=
  match c with
  | CNone | CHelp | CClear | CAbout | CUname | CWhoami | CHistory | CEcho _ | CEchoNl | CLs | CPwd
  | CCat _ | CFatinfo | CBeep _ | CLspci | CUnknown _ => Some []
  | CCalc a => Some (with_arg a (Calc a))
  | CFree => Some [HeapStats]
  | CCd a => Some (with_arg a (Ram (OpCd a)))
  | CMkdir a => Some (with_arg a (Ram (OpMkdir a)))
  | CTouch a => Some (with_arg a (Ram (OpTouch a)))
  | CRm a =>
      Some (match rm_options (S (length a)) false a with
            | Some (recursive, a) => with_arg a (Ram (if recursive : bool then OpRmRf (Some a) else OpRm (Some a)))
            | None => []
            end)
  | CWrite a => Some (match split_name_and_rest a FS_NAME_MAX with Some p => [Ram (OpWrite p.1 p.2)] | None => [] end)
  | CAppend a => Some (match split_name_and_rest a FS_NAME_MAX with Some p => [Ram (OpAppend p.1 p.2)] | None => [] end)
  | CCp a => Some (match split_two_names a FS_NAME_MAX FS_NAME_MAX with Some p => [Ram (OpCp p.1 p.2)] | None => [] end)
  | CMv a => Some (match split_two_names a FS_NAME_MAX FS_NAME_MAX with Some p => [Ram (OpMv p.1 p.2)] | None => [] end)
  | CFatmount => Some [FatMount]
  | CFatls => Some [FatLs]
  | CFatcat a => Some (with_arg a (FatCat a))
  | CFatwrite a =>
      Some (match split_name_and_rest a 16 with Some (n, t) => with_arg t (FatWrite n t) | None => [] end)
  | CFatmkdir a => Some (with_arg (skip_blanks a) (FatMkdir (skip_blanks a)))
  | CFatrm a => Some (with_arg (skip_blanks a) (FatUnlink (skip_blanks a)))
  | CMount a => Some (mount_calls a)
  | CUmount a => Some (with_arg (skip_blanks a) (Umount (skip_blanks a)))
  | CFdisk => Some [PrintMbr]
  | CGpt => Some [PrintGpt]
  | CMkfs => Some [Mkfs]
  | _ => None
  end.

Definition sys_of (s : shst) : sys := mk_sys (vs s) (psec s) (heap s).
(** The parts of the state no call changes. *)
Definition same_rest (s s' : shst) : Prop := hi s' = hi s /\ keys s' = keys s /\ vars s' = vars s.

(** A command that is the given step of the system, and otherwise prints. *)
Definition steps (o' : out sys) (s : shst) (o : out shst) : Prop :=
  match o' with
  | Ret y => exists s', o = Ret s' /\ sys_of s' = y /\ same_rest s s'
  | Fault e => o = Fault e
  end.

Lemma steps_none s s' : sys_of s' = sys_of s -> same_rest s s' -> steps (do_calls [] (sys_of s)) s (Ret s').
Proof. intros E H. by exists s'. Qed.

Lemma steps_one c s o : steps (do_call c (sys_of s)) s o -> steps (do_calls [c] (sys_of s)) s o.
Proof. cbn [do_calls]. by destruct (do_call c (sys_of s)). Qed.

(** A command that prints a usage without its argument. *)
Lemma steps_arg a c s s' o :
  sys_of s' = sys_of s -> same_rest s s' -> steps (do_call c (sys_of s)) s o ->
  steps (do_calls (with_arg a c) (sys_of s)) s (if char_at a 0 =? 0 then Ret s' else o).
Proof. unfold with_arg. intros. destruct (_ =? _); [by apply steps_none | by apply steps_one]. Qed.

Lemma steps_opt {A} (x : option A) c s s' o :
  sys_of s' = sys_of s -> same_rest s s' -> (forall p, steps (do_call (c p) (sys_of s)) s (o p)) ->
  steps (do_calls (match x with Some p => [c p] | None => [] end) (sys_of s)) s (match x with None => Ret s' | Some p => o p end).
Proof. intros. destruct x; [by apply steps_one | by apply steps_none]. Qed.

Ltac printed := repeat case_match; by eexists.

Lemma steps_ram op s : steps (do_call (Ram op) (sys_of s)) s (on_ram (exec op) s).
Proof.
  unfold on_ram, do_call. cbn [sys_of svfs]. change (Vfs.ram (vs s)) with (ramst s).
  destruct (exec op (ramst s)) as [[r d]|]; cbn [mbind out_mbind]; [printed | done].
Qed.

(** The same for the calls that print their result: each is run once and what
    follows only prints. *)
Ltac by_call f :=
  unfold do_call, at_fat, at_vfs, at_part; cbn [sys_of svfs ssec sheap];
  unfold fatst; destruct f as [[? ?]|]; cbn [mbind out_mbind]; [printed | done].

Lemma history_lines_rest i s : sys_of (history_lines i s) = sys_of s /\ same_rest s (history_lines i s).
Proof.
  revert s. induction i as [|i IH]; intros s; [done|]. cbn [history_lines].
  match goal with |- context [history_lines i ?x] => destruct (IH x) as [E H] end. by rewrite E.
Qed.

Lemma show_mounts_steps s0 s :
  sys_of s = sys_of s0 -> same_rest s0 s -> steps (at_vfs (Vfs.vfs_list (vs s)) (sys_of s)) s0 (show_mounts s).
Proof.
  intros E (H1 & H2 & H3). unfold show_mounts, at_vfs. destruct (Vfs.vfs_list (vs s)) as [[o v]|]; cbn [mbind out_mbind]; [|done].
  by eexists.
Qed.

Lemma mount_steps a s : steps (do_calls (mount_calls a) (sys_of s)) s (cmd_mount a s).
Proof.
  unfold mount_calls, cmd_mount. destruct (_ =? 0); [apply steps_one; by apply show_mounts_steps|].
  destruct (_ =? 0); [by apply steps_none|].
  assert (forall p ty, steps (do_calls [Mount p ty] (sys_of s)) s
    ('(r, v) ← Vfs.vfs_mount (Some p) ty (vs s);
     let s := set_vs v s in
     if negb (fs_ok r) then Ret (nl (say (fs_strerror r) (say $"mount: " s))) else show_mounts (line_ $"Mounted." s))) as H.
  { intros p ty. apply steps_one. unfold do_call. cbn [sys_of svfs]. destruct (Vfs.vfs_mount _ _ _) as [[r v]|]; cbn [mbind out_mbind]; [|done].
    cbv zeta. destruct (fs_ok r); cbn [negb]; [|by eexists].
    unfold show_mounts, at_vfs. change (vs (line_ $"Mounted." (set_vs v s))) with v.
    destruct (Vfs.vfs_list v) as [[o v1]|]; cbn [mbind out_mbind]; [by eexists | done]. }
  destruct (_ && _); [apply H|]. destruct (_ && _); [apply H | by apply steps_none].
Qed.

(** The cases [None] and [Some (x, y)] of a split argument. *)
Lemma pair_cases {A B C} (o : option (A * B)) (f : A -> B -> C) (z : C) :
  match o with Some (x, y) => f x y | None => z end = match o with Some p => f p.1 p.2 | None => z end.
Proof. by destruct o as [[]|]. Qed.

Lemma rm_steps a s :
  steps (do_calls (match rm_options (S (length a)) false a with
                   | Some (recursive, a) => with_arg a (Ram (if recursive : bool then OpRmRf (Some a) else OpRm (Some a)))
                   | None => []
                   end) (sys_of s)) s (cmd_rm a s).
Proof.
  unfold cmd_rm. destruct (rm_options _ _ _) as [[r b]|]; [|by apply steps_none].
  destruct r; (apply steps_arg; try done; apply steps_ram).
Qed.

Lemma perform_steps c cs s : effect c = Some cs -> steps (do_calls cs (sys_of s)) s (perform c s).
Proof.
  destruct c; try (intros E; discriminate E); cbn [effect]; intros E; injection E as <-; cbn [Shell.perform];
    try (by apply steps_none); try apply mount_steps;
    unfold cmd_cd, cmd_mkdir, cmd_touch, cmd_calc, cmd_fatcat, cmd_fatmkdir, cmd_fatrm, cmd_umount,
      cmd_write, cmd_append, cmd_cp, cmd_mv, cmd_free, cmd_fatmount, cmd_fatls, cmd_mkfs, cmd_fdisk, on_part.
  - apply steps_one. unfold do_call. cbn [sys_of sheap]. destruct (Kmalloc.kmalloc_stats (heap s)) as [[[? ?] ?]|]; [printed | done].
  - unfold cmd_history_list. destruct (_ =? _); [by apply steps_none|].
    destruct (history_lines_rest (Z.to_nat (history_count (hi s))) s). by apply steps_none.
  - apply steps_arg; try done. unfold do_call. destruct (Calc.calc_eval a) as [[v e]|]; [|done]. cbn [mbind out_mbind].
    destruct e; by eexists.
  - apply steps_arg; try done. apply steps_ram.
  - apply steps_arg; try done. apply steps_ram.
  - apply steps_arg; try done. apply steps_ram.
  - apply rm_steps.
  - unfold cmd_cat. destruct (_ =? _); [by apply steps_none|].
    destruct (fs_read a (ram s)) as [r [[idx l]|]]; by apply steps_none.
  - rewrite !pair_cases. by apply steps_opt; [..|intros; apply steps_ram].
  - rewrite !pair_cases. by apply steps_opt; [..|intros; apply steps_ram].
  - rewrite !pair_cases. by apply steps_opt; [..|intros; apply steps_ram].
  - rewrite !pair_cases. by apply steps_opt; [..|intros; apply steps_ram].
  - apply steps_one. by_call (Fat32.fat32_mount (Vfs.fat (vs s))).
  - apply steps_one. by_call (Fat32.fat32_ls (Vfs.fat (vs s))).
  - apply steps_arg; try done. by_call (Fat32.fat32_cat (Some a) (Vfs.fat (vs s))).
  - unfold cmd_fatwrite. destruct (split_name_and_rest a 16) as [[n txt]|]; [|by apply steps_none].
    apply steps_arg; try done. by_call (Fat32.fat32_write (Some n) (Some txt) (Vfs.fat (vs s))).
  - unfold cmd_lspci. destruct (Pci.pci_scan_and_print _ _ _). by apply steps_none.
  - apply steps_arg; try done. by_call (Vfs.vfs_umount (Some (skip_blanks a)) (vs s)).
  - apply steps_one. by_call (Part.part_print_mbr (Part.mk_part (psec s) (Fat32.dsk (Vfs.fat (vs s))))).
  - apply steps_one. by_call (Part.part_print_gpt (Part.mk_part (psec s) (Fat32.dsk (Vfs.fat (vs s))))).
  - apply steps_one. cbv zeta. change (fatst (line_ _ s)) with (fatst s). by_call (Fat32.fat32_mkfs 2048 262144 (Vfs.fat (vs s))).
  - apply steps_arg; try done. by_call (Fat32.fat32_mkdir (Some (skip_blanks a)) (Vfs.fat (vs s))).
  - apply steps_arg; try done. by_call (Fat32.fat32_unlink (Some (skip_blanks a)) (Vfs.fat (vs s))).
Qed.

(** ** Calls on the RAM file system *)

(** Every call on the RAM file system a command makes is one the file
    system's own claims are about. *)
Lemma effect_ok c ops : effect c = Some (map Ram ops) -> Forall op_ok ops.
Proof.
  assert (forall cs, (forall op, In (Ram op) cs -> op_ok op) -> cs = map Ram ops -> Forall op_ok ops) as H.
  { intros cs Hcs ->. apply Forall_forall. intros op Hop. apply Hcs, in_map. by apply list_elem_of_In. }
  destruct c; cbn [effect]; unfold with_arg, mount_calls; intros E; try discriminate E; injection E as E;
    (eapply H; [|exact E]); intros op; repeat case_match; cbn [In]; naive_solver.
Qed.

Lemma ram_calls ops y :
  idle (Vfs.ram (svfs y)) -> Forall op_ok ops ->
  exists d, run ops (Vfs.ram (svfs y)) = Ret d /\ idle d /\
    do_calls (map Ram ops) y = Ret (mk_sys (Vfs.set_ram d (svfs y)) (ssec y) (sheap y)).
Proof.
  revert y. induction ops as [|op ops IH]; intros y Hid Hops; cbn [map do_calls run].
  { exists (Vfs.ram (svfs y)). by destruct y as [[] ? ?]. }
  apply Forall_cons in Hops as [Hop Hops]. unfold do_call.
  destruct (exec_ret op (Vfs.ram (svfs y)) Hid Hop) as (r & d & E & Hd & _). rewrite E. cbn [mbind out_mbind].
  destruct (IH (mk_sys (Vfs.set_ram d (svfs y)) (ssec y) (sheap y))) as (d' & E1 & H1 & E2); [done..|].
  exists d'. by rewrite E2.
Qed.

(** ** Typing lines *)

Definition typable (l : chars) : Prop :=
  Forall (fun c => 32 <= c < 127) l /\ (length l < CMD_BUFFER_SIZE)%nat.
Definition typed_keys (ls : list chars) : list Z := concat (map (fun l => l ++ [Keyboard.KEY_ENTER]) ls).

(** The lines kept for recall, newest first. *)
Definition remember (hl : list chars) (l : chars) : list chars :=
  match l with [] => hl | _ => take HISTORY_SIZE (l :: hl) end.

Lemma type_chars d hl l0 l :
  Forall (fun c => 32 <= c < 127) l -> (length l0 + length l < CMD_BUFFER_SIZE)%nat ->
  foldl (ideal_key d hl) (mk_id l0 [] (-1)) l = mk_id (l0 ++ l) [] (-1)
  /\ tabs_fine d hl (mk_id l0 [] (-1)) l.
Proof.
  revert l0. induction l as [|c l IH]; intros l0 Hl Hn; [by rewrite app_nil_r|].
  apply Forall_cons in Hl as [Hc Hl]. cbn [foldl tabs_fine]. cbn [length] in Hn.
  assert (E : ideal_key d hl (mk_id l0 [] (-1)) c = mk_id (l0 ++ [c]) [] (-1)).
  { unfold ideal_key, Keyboard.KEY_BACKSPACE, Keyboard.KEY_LEFT, Keyboard.KEY_RIGHT, Keyboard.KEY_UP, Keyboard.KEY_DOWN.
    unfold text. cbn [il ir ipos]. rewrite !app_nil_r.
    repeat match goal with |- context [c =? ?k] => destruct (Z.eqb_spec c k); [lia|] end.
    destruct (Z.leb_spec 32 c); [|lia]. destruct (Z.ltb_spec c 127); [|lia].
    destruct (Nat.ltb_spec (length l0) (CMD_BUFFER_SIZE - 1)); [done | lia]. }
  rewrite E. destruct (IH (l0 ++ [c])) as [E1 E2]; [done | rewrite length_app; simpl; lia|].
  rewrite E1, <- app_assoc. split; [done|]. split; [intros ->; lia | done].
Qed.

Lemma execute_effect depth l cs s :
  effect (parse_command l) = Some cs -> execute_command depth l s = perform (parse_command l) s.
Proof. destruct depth; cbn [Shell.execute_command]; by destruct (parse_command l). Qed.

Lemma typed_remember b l h hl :
  cstr b = l -> (length l < CMD_BUFFER_SIZE)%nat -> hist_rep h hl -> hist_rep (history_add b h) (remember hl l).
Proof.
  intros E Hl Hh. pose proof (history_add_rep b h hl Hh) as H. rewrite E in H.
  rewrite (take_ge l) in H by (unfold CMD_BUFFER_SIZE in *; lia).
  destruct b as [|c b]; cbn [cstr] in E; [by subst|]. unfold char_at in H. cbn [lookup list_lookup default] in H.
  simpl in H. destruct (c =? 0); by subst l.
Qed.

Lemma turn_effect depth l rest b s hl cs :
  typable l -> effect (parse_command l) = Some cs -> length b = CMD_BUFFER_SIZE ->
  hist_rep (hi s) hl -> keys s = l ++ Keyboard.KEY_ENTER :: rest ->
  match do_calls cs (sys_of s) with
  | Ret y =>
      exists b' s', shell_turn depth b s = Ret (b', s') /\ length b' = CMD_BUFFER_SIZE /\ sys_of s' = y /\
        hist_rep (hi s') (remember hl l) /\ keys s' = rest /\ vars s' = vars s
  | Fault e => shell_turn depth b s = Fault e
  end.
Proof.
  intros [Hl Hn] He Hb Hh Hk.
  destruct (type_chars (ram s) hl [] l) as [E1 E2]; [done | done|].
  destruct (read_line_run (ram s) b hl (hi s)
    (terminal_writestring $"> " (terminal_writestring (fs_pwd PWD_BUFFER_SIZE (ram s)) (tm s))) l rest)
    as (b' & h' & t' & E & Eb & Hlb & Hlb' & Hh'); [done | done | | done|].
  { eapply Forall_impl; [exact Hl|]. cbn beta. intros c Hc. unfold Keyboard.KEY_ENTER. lia. }
  rewrite E1 in Eb. change (cstr b' = l ++ []) in Eb. rewrite app_nil_r in Eb.
  unfold Shell.shell_turn. cbn [set_tm say ram vs hi tm keys]. rewrite Hk.
  change (ram (say _ (say _ s))) with (ram s). rewrite E. cbn [mbind out_mbind]. rewrite Eb.
  set (s1 := set_keys _ _). rewrite (execute_effect depth l cs) by done.
  pose proof (perform_steps (parse_command l) cs s1 He) as Hp. change (sys_of s1) with (sys_of s) in Hp. unfold steps in Hp.
  destruct (do_calls cs (sys_of s)) as [y|e]; [|by rewrite Hp].
  destruct Hp as (s' & -> & Es & H1 & H2 & H3). cbn [mbind out_mbind].
  exists b', s'. split_and!; [done | done | done | | by rewrite H2 | by rewrite H3].
  rewrite H1. by apply typed_remember.
Qed.

End Session.

(** ** Scripts *)

(** The lines of a script, each ended by a newline. *)
Definition unlines (ls : list chars) : chars := concat (map (fun l => l ++ [10]) ls).
Definition script_ok (l : chars) : Prop := Forall (fun c => c <> 10) l /\ (length l < RUN_LINE_MAX)%nat.

(** The first [len] bytes of a node. *)
Definition file_text (idx len : nat) (s : shst) : chars := take len (node_text s idx).

Section Script.
Variable exec : chars -> shst -> out shst.
Variables (idx len : nat).

Definition skipped (p : chars) : bool := (char_at p 0 =? 0) || (char_at p 0 =? 35).
(** Running the lines one after the other. *)
Fixpoint run_each (ls : list chars) (s : shst) : out shst :=
  match ls with
  | [] => Ret s
  | l :: ls' =>
      let p := skip_space l in
      if skipped p then run_each ls' s
      else s ← exec p (nl (say p (say $"+ " s))); run_each ls' s
  end.

Lemma script_line_app n l rest :
  Forall (fun c => c <> 10) l -> (length l <= n)%nat -> script_line n (l ++ 10 :: rest) = l.
Proof.
  revert n. induction l as [|c l IH]; intros n Hl Hn; [by destruct n|].
  apply Forall_cons in Hl as [Hc Hl]. destruct n as [|n]; [simpl in Hn; lia|]. cbn [app script_line].
  rewrite (proj2 (Z.eqb_neq c 10) Hc). f_equal. apply IH; [done | simpl in Hn; lia].
Qed.

(** The text is read from the node, at the offset reached. *)
Lemma script_at s pre l rest :
  file_text idx len s = pre ++ l ++ 10 :: rest ->
  len = length (pre ++ l ++ 10 :: rest) ->
  take (len - length pre) (drop (length pre) (node_text s idx)) = l ++ 10 :: rest
  /\ node_text s idx !!! (length pre + length l)%nat = 10.
Proof.
  unfold file_text. intros E Hlen. split.
  - rewrite take_drop_commute, Nat.add_comm, Nat.sub_add by (rewrite Hlen, length_app; lia).
    by rewrite E, drop_app_length.
  - rewrite list_lookup_total_alt, <- (lookup_take_lt _ len) by (rewrite Hlen, !length_app; simpl; lia).
    rewrite E, app_assoc, lookup_app_r by (rewrite length_app; lia).
    by rewrite length_app, Nat.sub_diag.
Qed.

Hypothesis exec_keeps : forall p s s',
  exec p s = Ret s' -> file_text idx len s' = file_text idx len s.

Lemma run_loop_each ls pre fuel s :
  Forall script_ok ls -> file_text idx len s = pre ++ unlines ls -> len = length (pre ++ unlines ls) ->
  (length (unlines ls) < fuel)%nat ->
  run_loop exec fuel idx len (length pre) s = run_each ls s.
Proof.
  revert pre fuel s. induction ls as [|l ls IH]; intros pre fuel s Hls Et Hlen Hf;
    (destruct fuel as [|fuel]; [lia|]); cbn [run_loop run_each].
  { rewrite app_nil_r in Hlen. by rewrite (proj2 (Nat.leb_le _ _)) by lia. }
  apply Forall_cons in Hls as [[Hl Hn] Hls].
  unfold unlines in Et, Hlen, Hf. cbn [map concat] in *. fold (unlines ls) in *. rewrite <- app_assoc in *.
  change ([10] ++ unlines ls) with (10 :: unlines ls) in *.
  pose proof Hlen as Hlen'. rewrite !length_app in Hlen'. cbn [length] in Hlen'.
  destruct (script_at s pre l (unlines ls) Et Hlen) as [E1 E2].
  rewrite (proj2 (Nat.leb_gt _ _)) by lia. rewrite E1, script_line_app, E2 by (done || lia).
  rewrite (proj2 (Nat.ltb_lt _ _)) by lia. cbn [andb]. change (10 =? 10) with true.
  assert (Ei : S (length pre + length l) = length (pre ++ l ++ [10])) by (rewrite !length_app; simpl; lia).
  rewrite length_app in Hf. cbn [length] in Hf.
  assert (G : forall s1, file_text idx len s1 = file_text idx len s ->
    run_loop exec fuel idx len (S (length pre + length l)) s1 = run_each ls s1).
  { intros s1 Es. rewrite Ei. apply IH; [done | | | lia].
    - by rewrite Es, Et, <- !app_assoc.
    - by rewrite Hlen, <- !app_assoc. }
  unfold skipped. destruct (_ || _); [by apply G|].
  destruct (exec _ _) as [s1|] eqn:Ex; cbn [mbind out_mbind]; [|done]. apply G. by rewrite (exec_keeps _ _ _ Ex).
Qed.

(** A script runs its lines in order: when [run] finds a file that
    consists of lines of fewer than 128 characters, each ended by a newline,
    and the commands leave its text alone, it is the sequence of the
    commands on its lines, blanks in front dropped, empty lines and comments
    skipped, each announced before it runs; a fault stops the rest. *)
Theorem run_script_lines arg s ls :
  char_at arg 0 <> 0 -> fs_read arg (ram s) = (FS_OK, Some (idx, Z.of_nat len)) ->
  Forall script_ok ls -> file_text idx len s = unlines ls -> length (unlines ls) = len ->
  cmd_run exec arg s = run_each ls s.
Proof.
  intros Ha Hr Hls Et Hlen. unfold cmd_run. rewrite (proj2 (Z.eqb_neq _ _) Ha), Hr, Nat2Z.id.
  apply (run_loop_each ls []); [done | done | done | lia].
Qed.
End Script.

Lemma parse_run nm : parse_command ($"run " ++ nm) = CRun nm.
Proof. reflexivity. Qed.

(** A script that runs itself has no end: if the first line of a file
    is [run] with the file's own name, then [execute_command] on that line
    needs more scripts inside one another than any bound, so that the
    source, which has none, uses the kernel stack up. *)
Theorem run_itself_never_ends ext dev hello_elf dynhello_elf depth nm idx len s rest :
  char_at nm 0 <> 0 -> Forall (fun c => c <> 10) nm -> (length nm + 4 < RUN_LINE_MAX)%nat ->
  fs_read nm (ram s) = (FS_OK, Some (idx, Z.of_nat len)) ->
  file_text idx len s = $"run " ++ nm ++ 10 :: rest -> length (file_text idx len s) = len ->
  execute_command ext dev hello_elf dynhello_elf depth ($"run " ++ nm) s = Fault NoFuel.
Proof.
  intros Ha Hn Hsz Hr Et Hlen. revert s Hr Et Hlen.
  induction depth as [|depth IH]; intros s Hr Et Hlen; cbn [execute_command]; rewrite parse_run; [done|].
  unfold cmd_run. rewrite (proj2 (Z.eqb_neq _ _) Ha), Hr, Nat2Z.id. cbn [run_loop].
  pose proof Hlen as Hl. rewrite Et, !length_app in Hl. cbn [length] in Hl.
  destruct (script_at idx len s [] ($"run " ++ nm) rest) as [E1 E2]; [by rewrite Et, <- app_assoc | |].
  { rewrite <- Hlen, Et. by rewrite <- app_assoc. }
  cbn [length] in E1. rewrite (proj2 (Nat.leb_gt _ _)) by lia. rewrite E1, script_line_app.
  - change (skip_space ($"run " ++ nm)) with ($"run " ++ nm).
    change ((char_at ($"run " ++ nm) 0 =? 0) || (char_at ($"run " ++ nm) 0 =? 35)) with false. cbn [orb].
    rewrite IH; done.
  - apply Forall_app. split; [repeat constructor; done | done].
  - rewrite length_app. simpl. unfold RUN_LINE_MAX in *. lia.
Qed.

(** ** Witnesses *)

Definition no_ext (c : extcall) (s : shst) : out (Z * shst) := Ret (0, s).
Definition quiet : Ports.device := fun _ _ => 0.
Definition boot (ks : list Z) : shst :=
  mk_sh hist0 (Vfs.mk_vfs (replicate 4 Vfs.bss_mount) 0 FsSpec.booted (Fat32.bss_fat Fat32.blank_disk)) [] term0
    (Kmalloc.mk_kstate ∅ 0 0) [] [] ks 0.

Definition lines0 : list chars :=
  [$"mkdir docs"; $"cd docs"; $"write a hello"; $"cp a b"; $"rm -r a"; []; $"ls"; $"calc 6*7"; $"mount ram /x"; $"fatmount"].
Definition calls0 : list (list call) :=
  [[Ram (OpMkdir $"docs")]; [Ram (OpCd $"docs")]; [Ram (OpWrite $"a" $"hello")]; [Ram (OpCp $"a" $"b")]; [Ram (OpRmRf (Some $"a"))];
   []; []; [Calc $"6*7"]; [Mount $"/x" Vfs.VFS_FS_RAM]; [FatMount]].


(** A file [f] with the given text in the root directory. *)
Definition with_file (text : chars) : shst :=
  match fs_write $"f" text (ramst (boot [])) with
  | Ret (_, d) => set_ram d (boot [])
  | Fault _ => boot []
  end.
Definition script0 : list chars := [$"# a comment"; $"  echo one"; []; $"pwd"].

Lemma run_script_lines_witness :
  cmd_run (fun p s => Ret (say p s)) $"f" (with_file (unlines script0))
  = run_each (fun p s => Ret (say p s)) script0 (with_file (unlines script0)).
Proof.
  apply (run_script_lines (fun p s => Ret (say p s)) 5 28).
  - intros p s s' E. injection E as <-. reflexivity.
  - vm_compute. discriminate.
  - vm_compute. reflexivity.
  - unfold script_ok. apply (bool_decide_unpack _). vm_compute. exact I.
  - vm_compute. reflexivity.
  - vm_compute. reflexivity.
Defined.

Lemma run_itself_never_ends_witness :
  execute_command no_ext quiet [] [] 50 $"run f" (with_file ($"run f" ++ [10])) = Fault NoFuel.
Proof.
  apply (run_itself_never_ends no_ext quiet [] [] 50 $"f" 5 6 (with_file ($"run f" ++ [10])) []).
  - vm_compute. discriminate.
  - repeat (constructor; [discriminate|]). constructor.
  - unfold RUN_LINE_MAX. simpl. lia.
  - vm_compute. reflexivity.
  - vm_compute. reflexivity.
  - vm_compute. reflexivity.
Defined.

End ShellSpec.
