(* ===== verification/Devices.v ===== *)
(** * Small devices (serial.c, power.c, timer.c, net.c, mouse.c, keyboard.c, vga.c under src/src)

    The UART, the reset and power-off ports, the interval timer, the start of
    the keyboard and of the mouse, the hardware cursor of the text mode, and
    the network facade, over the port log.  A loop that polls a device has a
    fuel; the theorems say for which devices it is enough. *)

From S2P Require Import Prelude Ports Terminal Gdt Irq Mouse.
Import Ports Terminal Irq.

Module Devices.

(** ** The serial port *)

Definition COM1_PORT : Z := 0x3F8.

Definition serial_configure (l : log) : log :=
  outs [(COM1_PORT + 1, 0x00); (COM1_PORT + 3, 0x80); (COM1_PORT + 0, 0x03); (COM1_PORT + 1, 0x00);
        (COM1_PORT + 3, 0x03); (COM1_PORT + 2, 0xC7); (COM1_PORT + 4, 0x0B)] l.
Definition serial_init (l : log) : log := serial_configure l.

Section Ports.
Context (dev : device).

Definition serial_transmit_ready (l : log) : bool * log :=
  let '(v, l) := inb dev (COM1_PORT + 5) l in (negb (Z.land v 0x20 =? 0), l).

(** [while (!serial_transmit_ready()) { }] *)
Fixpoint serial_wait (fuel : nat) (l : log) : out log :=
  match fuel with
  | O => Fault NoFuel
  | S f => let '(ready, l) := serial_transmit_ready l in if ready : bool then Ret l else serial_wait f l
  end.

Definition serial_putchar (fuel : nat) (c : Z) (l : log) : out log :=
  l ← serial_wait fuel l;
  let l := if c =? 10 then outb COM1_PORT 13 l else l in
  Ret (outb COM1_PORT c l).

Fixpoint serial_write (fuel : nat) (data : chars) (l : log) : out log :=
  match data with
  | [] => Ret l
  | c :: data' => if c =? 0 then Ret l else l ← serial_putchar fuel c l; serial_write fuel data' l
  end.

Definition serial_has_data (l : log) : bool * log :=
  let '(v, l) := inb dev (COM1_PORT + 5) l in (negb (Z.land v 0x01 =? 0), l).
Definition serial_read_char (l : log) : Z * log := inb dev COM1_PORT l.

(** ** Power *)

(** [do { st = inb(0x64); } while (st & 0x02);] *)
Fixpoint kbc_wait (fuel : nat) (l : log) : out log :=
  match fuel with
  | O => Fault NoFuel
  | S f => let '(st, l) := inb dev 0x64 l in if Z.land st 0x02 =? 0 then Ret l else kbc_wait f l
  end.

(** The log and the screen with which the machine halts. *)
Definition machine_reboot (fuel : nat) (t : term) (l : log) : out (term * log) :=
  let t := terminal_writestring ($"Rebooting..." ++ [10]) t in
  l ← kbc_wait fuel l; Ret (t, outb 0x64 0xFE l).
Definition machine_shutdown (t : term) (l : log) : term * log :=
  (terminal_writestring ($"Shutting down..." ++ [10]) t, outb 0x64 0xFE (outw 0x604 0x2000 l)).

(** ** Keyboard and mouse *)

Definition KBD_DATA : Z := 0x60.
Definition KBD_CMD : Z := 0x64.
Definition KBC_POLLS : nat := Z.to_nat 100000.

(** [for (i = 0; i < n; i++) if (ready(inb(KBD_STAT))) return;] *)
Fixpoint kbc_poll (n : nat) (ready : Z -> bool) (l : log) : log :=
  match n with
  | O => l
  | S n' => let '(st, l) := inb dev KBD_CMD l in if ready st then l else kbc_poll n' ready l
  end.
Definition mouse_wait_write : log -> log := kbc_poll KBC_POLLS (fun st => Z.land st 2 =? 0).
Definition mouse_wait_read : log -> log := kbc_poll KBC_POLLS (fun st => negb (Z.land st 1 =? 0)).

Definition mouse_write (b : Z) (l : log) : log :=
  outb KBD_DATA b (mouse_wait_write (outb KBD_CMD 0xD4 (mouse_wait_write l))).
Definition mouse_read (l : log) : Z * log := inb dev KBD_DATA (mouse_wait_read l).

(** The port traffic of [mouse_init]. *)
Definition mouse_program (l : log) : log :=
  let l := outb KBD_CMD 0xA8 (mouse_wait_write l) in
  let l := outb KBD_CMD 0x20 (mouse_wait_write l) in
  let '(status, l) := inb dev KBD_DATA (mouse_wait_read l) in
  let status := u8 (Z.lor status 0x02) in
  let status := u8 (Z.land status (Z.lnot 0x20)) in
  let l := outb KBD_CMD 0x60 (mouse_wait_write l) in
  let l := outb KBD_DATA status (mouse_wait_write l) in
  let '(_, l) := mouse_read (mouse_write 0xF6 l) in
  snd (mouse_read (mouse_write 0xF4 l)).

(** [handler] is the address of [mouse_irq_handler]. *)
Definition mouse_init (handler : Z) (m : Mouse.mouse) (s : irqst) : out (Mouse.mouse * irqst) :=
  let m := Mouse.mouse_init m in
  s ← irq_register_handler 12 handler (set_io (mouse_program (io s)) s);
  Ret (m, set_io (irq_unmask dev 12 (io s)) s).

(** [handler] is the address of [keyboard_irq_handler]. *)
Definition keyboard_init (handler : Z) (s : irqst) : out irqst :=
  s ← irq_register_handler 1 handler s;
  Ret (set_io (irq_unmask dev 1 (io s)) s).

(** ** The interval timer *)

Definition PIT_CHANNEL0 : Z := 0x40.
Definition PIT_COMMAND : Z := 0x43.
Definition PIT_BASE_HZ : Z := 1193182.

Record timer : Type := mk_timer { g_ticks : Z; g_hz : Z }.

Definition clamp_hz (hz : Z) : Z :=
  let hz := if hz =? 0 then 100 else hz in if 1000 <? hz then 1000 else hz.
Definition pit_divisor (hz : Z) : Z :=
  let d := PIT_BASE_HZ / hz in
  let d := if d <? 1 then 1 else d in
  if 65535 <? d then 65535 else d.

(** [callback] is the address of [timer_callback]. *)
Definition timer_init (callback hz : Z) (s : irqst) : out (timer * irqst) :=
  let hz := clamp_hz hz in
  let d := pit_divisor hz in
  let l := outs [(PIT_COMMAND, 0x36); (PIT_CHANNEL0, Z.land d 0xFF);
                 (PIT_CHANNEL0, Z.land (Z.shiftr d 8) 0xFF)] (io s) in
  s ← irq_register_handler 0 callback (set_io l s);
  Ret (mk_timer 0 hz, set_io (irq_unmask dev 0 (io s)) s).

Definition timer_callback (t : timer) : timer := mk_timer (u32 (g_ticks t + 1)) (g_hz t).
Definition timer_ticks (t : timer) : Z := g_ticks t.
Definition timer_hz (t : timer) : Z := g_hz t.

(** Interrupts that arrive during one [hlt]. *)
Definition halted (n : nat) (t : timer) : timer := Nat.iter n timer_callback t.

Definition sleep_ticks (ms : Z) (t : timer) : Z :=
  let need := u32 (g_hz t * ms) / 1000 in if need =? 0 then 1 else need.

Inductive slept : Type := Slept | Busy.

(** The loop of [timer_sleep_ms]; [hlts] says how many timer interrupts
    arrive at each [hlt]. *)
Fixpoint sleep_loop (start need spins : Z) (hlts : list nat) (t : timer) : out (slept * timer) :=
  if need <=? u32 (g_ticks t - start) then Ret (Slept, t)
  else
    let spins := if g_ticks t =? start then u32 (spins + 1) else spins in
    if (g_ticks t =? start) && (1000 <? spins) then Ret (Busy, t)
    else match hlts with
         | [] => Fault Hang
         | n :: hlts' => sleep_loop start need spins hlts' (halted n t)
         end.
Definition timer_sleep_ms (ms : Z) (hlts : list nat) (t : timer) : out (slept * timer) :=
  sleep_loop (g_ticks t) (sleep_ticks ms t) 0 hlts t.

(** The delay loop has no state of its own; [n] timer interrupts arrive
    while it runs. *)
Definition timer_busy_ms (ms : Z) (n : nat) (t : timer) : timer := halted n t.
Definition timer_is_alive (n : nat) (t : timer) : bool * timer :=
  let a := g_ticks t in
  let t := timer_busy_ms 20 n t in
  (negb (g_ticks t =? a), t).

End Ports.

(** ** The cursor of the text mode *)

Definition VGA_CTRL_PORT : Z := 0x3D4.
Definition VGA_DATA_PORT : Z := 0x3D5.

Definition hw_cursor (x y : nat) (l : log) : log :=
  let pos := u16 (Z.of_nat (y * VGA_TEXT_W + x)) in
  outs [(VGA_CTRL_PORT, 0x0F); (VGA_DATA_PORT, u8 (Z.land pos 0xFF));
        (VGA_CTRL_PORT, 0x0E); (VGA_DATA_PORT, u8 (Z.land (Z.shiftr pos 8) 0xFF))] l.
Definition terminal_hide_cursor (l : log) : log := outs [(VGA_CTRL_PORT, 0x0A); (VGA_DATA_PORT, 0x20)] l.
Definition terminal_show_cursor (t : term) (l : log) : log :=
  hw_cursor (terminal_column t) (terminal_row t)
    (outs [(VGA_CTRL_PORT, 0x0A); (VGA_DATA_PORT, 13); (VGA_CTRL_PORT, 0x0B); (VGA_DATA_PORT, 14)] l).

Definition terminal_get_cursor (t : term) : nat * nat := (terminal_column t, terminal_row t).

(** The console operations with their port traffic, in text mode. *)
Definition follow (t : term) (l : log) : term * log := (t, hw_cursor (terminal_column t) (terminal_row t) l).
Definition text_putchar (s : term * log) (c : Z) : term * log := follow (terminal_putchar c (fst s)) (snd s).
Definition text_write (w : chars) (s : term * log) : term * log := foldl text_putchar s (cstr w).
Definition text_exec (s : term * log) (o : term_op) : term * log :=
  let '(t, l) := s in
  match o with
  | OpPutchar c => text_putchar s c
  | OpBackspace =>
      match terminal_column t with
      | O => (terminal_backspace t, l)
      | S _ => follow (terminal_backspace t) l
      end
  | OpSetCursor x y => follow (terminal_set_cursor x y t) l
  | OpMoveLeft n => follow (terminal_move_left n t) l
  | OpMoveRight n => follow (terminal_move_right n t) l
  | OpWriteUint v => text_write (uint_chars v) s
  | OpWriteHex v => text_write (hex_chars v) s
  end.
Definition text_initialize (s : term * log) : term * log :=
  let t := terminal_initialize (fst s) in
  follow t (terminal_show_cursor t (snd s)).

(** ** Network *)

Definition is_loopback (host : chars) : bool :=
  c_streq host $"127.0.0.1" || c_streq host $"localhost" || c_streq host $"::1".

Definition say (s : chars) (t : term) : term := terminal_writestring s t.
Definition ping_count (count : Z) : Z :=
  let count := if count <? 1 then 4 else count in if 10 <? count then 10 else count.
Definition loop_line (i : Z) (t : term) : term :=
  say ($"  ttl=64  time<1 ms  (loopback)" ++ [10])
    (terminal_write_uint i (say $"  icmp_seq=" (terminal_write_uint i (say $"  seq=" t)))).
Definition lost_line (i : Z) (t : term) : term :=
  say ($"  timeout (no NIC TX)" ++ [10]) (terminal_write_uint i (say $"  seq=" t)).

Definition net_ping (host : option chars) (count : Z) (t : term) : Z * term :=
  let host := match host with
              | Some h => if char_at h 0 =? 0 then $"127.0.0.1" else h
              | None => $"127.0.0.1"
              end in
  let count := ping_count count in
  let t := say [10] (say host (say $"PING " t)) in
  if is_loopback host then
    let t := for_up (Z.to_nat count) 0 loop_line t in
    (0, say ($" packets  0% loss" ++ [10]) (terminal_write_uint count (say $"ping: " t)))
  else
    let t := say ($"  note: full Ethernet/IP stack not linked" ++ [10]) t in
    let t := say ($"  (e1000/virtio driver = next step)" ++ [10]) t in
    let t := for_up (Z.to_nat count) 0 lost_line t in
    (-1, say ($"ping: host unreachable " ++ [226; 128; 148] ++ $" try: ping 127.0.0.1" ++ [10]) t).

(** ** The serial line carries the text *)

(** The bytes sent to the data register, in order. *)
Definition sent (l : log) : chars :=
  omap (fun e => match e with Out w p v => if (w =? 8) && (p =? COM1_PORT) then Some v else None | In _ _ _ => None end)
    (rev l).

(** A newline goes out as CR LF. *)
Definition crlf (s : chars) : chars := concat (map (fun c => if c =? 10 then [13; 10] else [c]) s).

Section Sent.
Context (dev : device) (fuel : nat).
(** The transmitter becomes free within [fuel] polls. *)
Fixpoint polled (n : nat) (l : log) : log :=
  match n with O => l | S n' => polled n' (snd (inb dev (COM1_PORT + 5) l)) end.
Hypothesis drains : forall l, exists n, (n < fuel)%nat /\ fst (serial_transmit_ready dev (polled n l)) = true.

Lemma sent_cons e l :
  sent (e :: l) = sent l ++ match e with
    | Out w p v => if (w =? 8) && (p =? COM1_PORT) then [v] else []
    | In _ _ _ => [] end.
Proof.
  unfold sent. cbn [rev]. rewrite omap_app. destruct e as [w p v|]; cbn; [by destruct (_ && _) | done].
Qed.

Lemma wait_polls n f l :
  (n < f)%nat -> fst (serial_transmit_ready dev (polled n l)) = true ->
  exists l', serial_wait dev f l = Ret l' /\ sent l' = sent l.
Proof.
  revert f l. induction n as [|n IH]; intros [|f] l Hn Hr; try lia; cbn [serial_wait].
  - cbn [polled] in Hr. unfold serial_transmit_ready in *. cbn in *. rewrite Hr. eexists. split; [done|].
    rewrite sent_cons. by rewrite app_nil_r.
  - unfold serial_transmit_ready at 1. cbn [inb]. cbn iota beta zeta.
    destruct (negb _).
    + eexists. split; [done|]. rewrite sent_cons. by rewrite app_nil_r.
    + destruct (IH f (snd (inb dev (COM1_PORT + 5) l))) as (l' & E & Es); [lia | done|].
      exists l'. split; [exact E|]. rewrite Es. cbn [inb snd]. rewrite sent_cons. by rewrite app_nil_r.
Qed.

Lemma putchar_sent c l :
  0 <= c < 256 -> exists l', serial_putchar dev fuel c l = Ret l' /\ sent l' = sent l ++ (if c =? 10 then [13; 10] else [c]).
Proof.
  intros Hc. unfold serial_putchar. destruct (drains l) as (n & Hn & Hr).
  destruct (wait_polls n fuel l Hn Hr) as (l1 & -> & E1). cbn [mbind out_mbind].
  eexists. split; [done|]. unfold outb. rewrite sent_cons.
  change ((8 =? 8) && (COM1_PORT =? COM1_PORT)) with true. cbn iota.
  replace (u8 c) with c by (unfold u8; symmetry; by apply Z.mod_small).
  destruct (c =? 10) eqn:E.
  - rewrite sent_cons, E1, <- app_assoc. apply Z.eqb_eq in E. by subst c.
  - by rewrite E1.
Qed.

(** The serial line carries exactly the text with CR before each newline;
    it is what [Terminal.serial_putchar] appends to [serial_out]. *)
Theorem serial_write_sent s l :
  Forall (fun c => 0 <= c < 256) s -> exists l', serial_write dev fuel s l = Ret l' /\ sent l' = sent l ++ crlf (cstr s).
Proof.
  revert l. induction s as [|c s IH]; intros l Hs; cbn [serial_write cstr].
  { exists l. split; [done|]. by rewrite app_nil_r. }
  apply Forall_cons in Hs as [Hc Hs]. destruct (c =? 0); [exists l; split; [done|]; by rewrite app_nil_r|].
  destruct (putchar_sent c l Hc) as (l1 & -> & E1). cbn [mbind out_mbind].
  destruct (IH l1 Hs) as (l' & -> & E2). exists l'. split; [done|]. rewrite E2, E1, <- app_assoc.
  by unfold crlf.
Qed.
End Sent.

Lemma serial_out_crlf s t : serial_out (terminal_writestring s t) = serial_out t ++ crlf (cstr s).
Proof.
  unfold terminal_writestring. generalize (cstr s). intros l. revert t.
  induction l as [|c l IH]; intros t; cbn [foldl]; [by rewrite app_nil_r|].
  rewrite IH.
  assert (E : serial_out (terminal_putchar c t) = serial_out t ++ (if c =? 10 then [13; 10] else [c])).
  { unfold terminal_putchar, Terminal.serial_putchar. destruct (c =? 10); repeat case_match; reflexivity. }
  rewrite E, <- app_assoc. done.
Qed.

(** ** The timer *)

(** The divisor sent to the timer is 1193182/hz, the rate that is recorded,
    for every rate the divider can express. *)
Theorem timer_init_rate dev cb hz s :
  19 <= hz <= 1000 -> (length (irq_handlers s) = 16)%nat ->
  exists t s' lo hi l1, timer_init dev cb hz s = Ret (t, s') /\ g_ticks t = 0 /\ g_hz t = hz /\
    io s' = l1 ++ Out 8 PIT_CHANNEL0 hi :: Out 8 PIT_CHANNEL0 lo :: Out 8 PIT_COMMAND 0x36 :: io s /\
    hi * 256 + lo = PIT_BASE_HZ / hz /\ irq_handlers s' !! 0%nat = Some cb.
Proof.
  intros Hz Hl. unfold timer_init.
  assert (Ec : clamp_hz hz = hz) by (unfold clamp_hz; destruct (Z.eqb_spec hz 0), (Z.ltb_spec 1000 hz); lia).
  assert (Hd : 1193 <= PIT_BASE_HZ / hz <= 62799).
  { unfold PIT_BASE_HZ. split; [apply Z.div_le_lower_bound; lia|].
    apply Z.lt_succ_r, Z.div_lt_upper_bound; lia. }
  assert (Ed : pit_divisor hz = PIT_BASE_HZ / hz).
  { unfold pit_divisor. destruct (Z.ltb_spec (PIT_BASE_HZ / hz) 1); [lia|].
    destruct (Z.ltb_spec 65535 (PIT_BASE_HZ / hz)); lia. }
  rewrite Ec, Ed. set (d := PIT_BASE_HZ / hz) in *. unfold irq_register_handler. cbn [Z.ltb Z.compare mbind out_mbind].
  cbn [set_io io irq_handlers].
  eexists _, _, (d mod 256), (d / 256 mod 256), [_; _].
  split; [reflexivity|]. split; [done|]. split; [done|]. split; [|split].
  - unfold irq_unmask. cbn [Z.ltb Z.compare inb]. cbn iota beta zeta. unfold outs, outb. cbn [foldl fst snd io set_io app].
    change 0xFF with (Z.ones 8). rewrite !Z.land_ones, Z.shiftr_div_pow2 by lia. change (2 ^ 8) with 256.
    unfold u8. change (2 ^ 8) with 256. rewrite !Z.mod_mod by lia. reflexivity.
  - rewrite Z.add_comm, Z.mul_comm, (Z.mod_small (d / 256)); [symmetry; rewrite Z.add_comm; apply Z.div_mod; lia|].
    split; [apply Z.div_pos; lia | apply Z.div_lt_upper_bound; lia].
  - cbn. apply list_lookup_insert_eq. lia.
Qed.

Lemma sleep_ticks_range ms t : 0 < sleep_ticks ms t < 2 ^ 32.
Proof.
  unfold sleep_ticks, u32. pose proof (Z.mod_pos_bound (g_hz t * ms) 4294967296 ltac:(lia)).
  set (n := (g_hz t * ms) mod _) in *.
  assert (0 <= n / 1000 <= n) by (split; [apply Z.div_pos; lia | apply Z.div_le_upper_bound; lia]).
  destruct (Z.eqb_spec (n / 1000) 0); lia.
Qed.

Lemma sleep_loop_ticks start need k j spins t :
  0 <= start < 2 ^ 32 -> 0 <= j <= need -> need < 2 ^ 32 -> g_ticks t = u32 (start + j) ->
  (j = 0 -> 0 <= spins < 1000) -> need <= j + Z.of_nat k ->
  exists t', sleep_loop start need spins (replicate k 1%nat) t = Ret (Slept, t') /\ g_ticks t' = u32 (start + need).
Proof.
  revert j spins t. induction k as [|k IH]; intros j spins t Hs Hj Hn Et Hsp Hk; cbn [replicate sleep_loop]; rewrite Et.
  all: replace (u32 (u32 (start + j) - start)) with j
    by (unfold u32; rewrite Zminus_mod_idemp_l; replace (start + j - start) with j by lia; symmetry; apply Z.mod_small; lia).
  - replace j with need in * by lia. rewrite Z.leb_refl. eauto.
  - destruct (Z.leb_spec need j); [exists t; replace need with j by lia; done|].
    assert (Hne : j <> 0 -> (u32 (start + j) =? start) = false).
    { intros Hj0. apply Z.eqb_neq. unfold u32. intros E.
      assert (start + j < 2 * 2 ^ 32) by lia. destruct (Z.lt_ge_cases (start + j) (2 ^ 32)).
      - rewrite Z.mod_small in E by lia. lia.
      - replace (start + j) with (start + j - 2 ^ 32 + 1 * 2 ^ 32) in E by lia. rewrite Z.mod_add, Z.mod_small in E by lia. lia. }
    assert (Hgo : forall sp, (j + 1 = 0 -> 0 <= sp < 1000) ->
      exists t', sleep_loop start need sp (replicate k 1%nat) (halted 1 t) = Ret (Slept, t') /\ g_ticks t' = u32 (start + need)).
    { intros sp Hsp2. apply (IH (j + 1)); try lia. change (g_ticks (halted 1 t)) with (u32 (g_ticks t + 1)). rewrite Et.
      unfold u32. rewrite Zplus_mod_idemp_l. f_equal. lia. }
    destruct (decide (j = 0)) as [Hj0|Hj0].
    + subst j. replace (u32 (start + 0)) with start by (unfold u32; rewrite Z.add_0_r; symmetry; apply Z.mod_small; lia).
      rewrite Z.eqb_refl. unfold u32 at 1. rewrite Z.mod_small by lia.
      destruct (Z.ltb_spec 1000 (spins + 1)); [lia|]. cbn [andb]. apply Hgo. lia.
    + rewrite Hne by done. cbn [andb]. apply Hgo. lia.
Qed.

(** With a timer interrupt at every halt, [timer_sleep_ms] returns after
    exactly the requested number of ticks, also across the wrap of the
    counter. *)
Theorem timer_sleep_exact ms t k :
  0 <= g_ticks t < 2 ^ 32 -> sleep_ticks ms t <= Z.of_nat k ->
  exists t', timer_sleep_ms ms (replicate k 1%nat) t = Ret (Slept, t') /\
    g_ticks t' = u32 (g_ticks t + sleep_ticks ms t).
Proof.
  intros Ht Hk. unfold timer_sleep_ms.
  pose proof (sleep_ticks_range ms t).
  apply (sleep_loop_ticks _ _ k 0); try lia. unfold u32. rewrite Z.add_0_r. symmetry. by apply Z.mod_small.
Qed.

(** A machine whose timer does not run is not stuck: after 1000 halts the
    sleep falls back to the busy loop. *)
Theorem timer_sleep_gives_up ms t :
  0 <= g_ticks t < 2 ^ 32 -> timer_sleep_ms ms (replicate 1000 0%nat) t = Ret (Busy, t).
Proof.
  intros Ht. unfold timer_sleep_ms.
  pose proof (sleep_ticks_range ms t) as [Hs _].
  assert (G : forall k spins, spins + Z.of_nat k = 1000 -> 0 <= spins ->
    sleep_loop (g_ticks t) (sleep_ticks ms t) spins (replicate k 0%nat) t = Ret (Busy, t)); [|by apply (G 1000%nat 0)].
  induction k as [|k IH]; intros spins Hk H0; cbn [replicate sleep_loop]; rewrite Z.sub_diag, Z.eqb_refl;
    change (u32 0) with 0; (destruct (Z.leb_spec (sleep_ticks ms t) 0); [lia|]);
    unfold u32 at 1; rewrite Z.mod_small by lia; cbn [andb].
  - destruct (Z.ltb_spec 1000 (spins + 1)); [done | lia].
  - destruct (Z.ltb_spec 1000 (spins + 1)); [lia|]. unfold u32. rewrite Z.mod_small by lia. apply IH; lia.
Qed.

Lemma halted_ticks n t : 0 <= g_ticks t < 2 ^ 32 -> g_ticks (halted n t) = u32 (g_ticks t + Z.of_nat n).
Proof.
  intros Ht. induction n as [|n IH]; [cbn; unfold u32; rewrite Z.add_0_r; symmetry; by apply Z.mod_small|].
  change (halted (S n) t) with (timer_callback (halted n t)). unfold timer_callback. cbn [g_ticks]. rewrite IH.
  unfold u32. rewrite Zplus_mod_idemp_l. f_equal. lia.
Qed.

(** [timer_is_alive] answers whether an interrupt arrived during its delay
    (up to a multiple of 2^32 of them). *)
Theorem timer_alive n t :
  0 <= g_ticks t < 2 ^ 32 -> timer_is_alive n t = (negb (Z.of_nat n mod 2 ^ 32 =? 0), halted n t).
Proof.
  intros Ht. unfold timer_is_alive, timer_busy_ms. rewrite halted_ticks by done. do 2 f_equal. apply eq_iff_eq_true.
  rewrite !Z.eqb_eq. unfold u32. change 4294967296 with (2 ^ 32).
  assert (Hn := Z.mod_pos_bound (Z.of_nat n) (2 ^ 32) ltac:(lia)). rewrite <- Zplus_mod_idemp_r.
  set (r := Z.of_nat n mod 2 ^ 32) in *. split; intros H.
  - destruct (Z.lt_ge_cases (g_ticks t + r) (2 ^ 32)); [rewrite Z.mod_small in H by lia; lia|].
    replace (g_ticks t + r) with (g_ticks t + r - 2 ^ 32 + 1 * 2 ^ 32) in H by lia.
    rewrite Z.mod_add, Z.mod_small in H by lia. lia.
  - rewrite H, Z.add_0_r. by apply Z.mod_small.
Qed.

(** ** The hardware cursor is where the next character goes *)

(** The display controller: the selected register and the registers. *)
Definition crtc_step (e : io_event) (c : Z * gmap Z Z) : Z * gmap Z Z :=
  match e with
  | Out _ p v =>
      if p =? VGA_CTRL_PORT then (v, snd c)
      else if p =? VGA_DATA_PORT then (fst c, <[fst c := v]> (snd c)) else c
  | In _ _ _ => c
  end.
Definition crtc (l : log) : Z * gmap Z Z := foldr crtc_step (0, ∅) l.
Definition crtc_reg (l : log) (r : Z) : Z := default 0 (snd (crtc l) !! r).
Definition cursor_at (l : log) : Z := 256 * crtc_reg l 0x0E + crtc_reg l 0x0F.
(** Bit 5 of register 0x0A turns the cursor off. *)
Definition cursor_on (l : log) : bool := negb (Z.testbit (crtc_reg l 0x0A) 5).

Lemma hw_cursor_moves x y l :
  (x < VGA_TEXT_W)%nat -> (y < VGA_TEXT_H)%nat ->
  cursor_at (hw_cursor x y l) = Z.of_nat (y * VGA_TEXT_W + x) /\ cursor_on (hw_cursor x y l) = cursor_on l.
Proof.
  unfold hw_cursor, VGA_TEXT_W, VGA_TEXT_H. intros Hx Hy. unfold cursor_at, cursor_on, crtc_reg, outs, outb, crtc.
  cbn [foldl foldr fst snd]. fold (crtc l). destruct (crtc l) as [i rs]. cbn [crtc_step fst snd].
  set (n := Z.of_nat _). assert (Hn : 0 <= n < 2000) by lia.
  change (u8 15) with 15. change (u8 14) with 14.
  change (VGA_CTRL_PORT =? VGA_CTRL_PORT) with true. change (VGA_DATA_PORT =? VGA_CTRL_PORT) with false.
  change (VGA_DATA_PORT =? VGA_DATA_PORT) with true. cbn iota. cbn [fst snd].
  rewrite lookup_insert_eq, (lookup_insert_ne _ 14 15) by lia. rewrite lookup_insert_eq, !lookup_insert_ne by lia.
  cbn [default from_option id]. split; [|done]. change 255 with (Z.ones 8). rewrite !Z.land_ones, Z.shiftr_div_pow2 by lia.
  unfold u16, u8. change (2 ^ 8) with 256. rewrite (Z.mod_small n 65536), !Z.mod_mod, (Z.mod_small (n / 256)) by zlia. zlia.
Qed.

(** The screen is in order, and the cursor is on and in place. *)
Definition in_place (s : term * log) : Prop :=
  term_wf (fst s) /\ cursor_on (snd s) = true /\
  cursor_at (snd s) = Z.of_nat (terminal_row (fst s) * VGA_TEXT_W + terminal_column (fst s)).

Lemma follow_in_place t l : term_wf t -> cursor_on l = true -> in_place (follow t l).
Proof.
  intros Ht Hl. pose proof Ht as (Hr & Hc & _). destruct (hw_cursor_moves _ _ l Hc Hr) as [H1 H2].
  unfold in_place, follow. cbn [fst snd]. by rewrite H1, H2.
Qed.

Lemma text_write_in_place w s : in_place s -> in_place (text_write w s).
Proof.
  unfold text_write. generalize (cstr w). intros l. revert s. induction l as [|c l IH]; intros s Hs; [done|].
  cbn [foldl]. apply IH. destruct Hs as (Ht & Hl & _). apply follow_in_place; [by apply terminal_putchar_wf | done].
Qed.

(** The port traffic leaves the screen alone. *)
Lemma text_write_screen w s : fst (text_write w s) = terminal_writestring w (fst s).
Proof.
  unfold text_write, terminal_writestring. generalize (cstr w). intros l. revert s.
  induction l as [|c l IH]; intros s; cbn [foldl]; [done|]. apply IH.
Qed.

(** In text mode, after [terminal_initialize] and any sequence of console
    operations the screen is that of [Terminal], and the hardware cursor is
    on and at the cell where the next character goes. *)
Theorem cursor_follows s ops :
  let s' := foldl text_exec (text_initialize s) ops in
  fst s' = foldl term_exec (terminal_initialize (fst s)) ops /\ in_place s'.
Proof.
  assert (H0 : in_place (text_initialize s)).
  { apply follow_in_place; [split_and!; vm_compute; lia|]. unfold terminal_show_cursor.
    pose proof (hw_cursor_moves 0 0) as H. cbn [terminal_column terminal_row terminal_initialize].
    rewrite (proj2 (H _ ltac:(unfold VGA_TEXT_W; lia) ltac:(unfold VGA_TEXT_H; lia))).
    unfold cursor_on, crtc_reg, outs, outb, crtc. cbn [foldl foldr]. fold (crtc (snd s)).
    destruct (crtc (snd s)) as [i rs]. change (snd _) with (<[11 := 14]> (<[10 := 13]> rs)).
    rewrite lookup_insert_ne, lookup_insert_eq by done. done. }
  cbv zeta. change (terminal_initialize (fst s)) with (fst (text_initialize s)). revert H0. generalize (text_initialize s).
  induction ops as [|o ops IH]; intros x Hx; cbn [foldl]; [done|].
  assert (Hs : fst (text_exec x o) = term_exec (fst x) o /\ in_place (text_exec x o)).
  { pose proof (term_exec_wf (fst x) o (proj1 Hx)) as Hw. destruct x as [t l]. pose proof Hx as (Ht & Hl & Hp). cbn [fst snd] in *.
    destruct o; cbn [text_exec term_exec] in *;
      try (split; [by rewrite text_write_screen | by apply text_write_in_place]);
      try (split; [done | by apply follow_in_place]).
    destruct (terminal_column t) as [|c] eqn:E; [|split; [done | by apply follow_in_place]].
    split; [done|]. split; [done|]. split; [done|]. cbn [fst snd]. rewrite Hp. unfold terminal_backspace. rewrite E. cbn. by rewrite E. }
  destruct Hs as [<- Hi]. by apply IH.
Qed.

End Devices.
