(* ===== verification/Desktop.v ===== *)
(** * The desktop (src/src/desktop.c)

    The event loop over the compositor: icons, the start menu, ten kinds of
    windows with their painters, dragging, the desk calculator.  A round of
    the loop reads the keys that are waiting, the mouse and the clock; these
    readings are its input (interrupts are taken at the [hlt] that ends a
    round).  The two hooks of the compositor draw the icons and the open
    menu; a frame is composed with the drawing they do. *)

From S2P Require Import Prelude Memory Kmalloc Alloc Ports Terminal Mouse Gfx Vbe Mkdraw Mkdisp Gdt Irq Devices.
Import Terminal Mkdisp.

Module Desktop.

(** ** Numbers as text *)

(** [while (v && n < 11) tmp[n++] = '0' + v % 10, v /= 10;], the digits then
    reversed into [out]. *)
Fixpoint u32_digits (n : nat) (v : Z) : chars :=
  match n with
  | O => []
  | S n' => if v =? 0 then [] else u32_digits n' (v / 10) ++ [48 + v mod 10]
  end.
Definition u32_to_str (v : Z) : chars := if v =? 0 then [48] else u32_digits 11 v.

Definition format_uptime (ticks hz : Z) : chars :=
  let hz := if hz =? 0 then 100 else hz in
  let sec := ticks / hz in
  let m := sec / 60 in
  let s := sec mod 60 in
  let h := m / 60 in
  let m := m mod 60 in
  u32_to_str h ++ [58] ++ (if m <? 10 then [48] else []) ++ u32_to_str m
    ++ [58] ++ (if s <? 10 then [48] else []) ++ u32_to_str s.

(** [line] with a signed number behind a label. *)
Definition labelled (label : chars) (v : Z) : chars :=
  label ++ (if v <? 0 then [45] else []) ++ u32_to_str (u32 (if v <? 0 then - v else v)).

(** ** The applications *)

Inductive app : Type :=
| Welcome | Clock | SysInfo | Calculator | About | Tasks | Notes | Help | Trash | Demo.
#[export] Instance app_eq_dec : EqDecision app.
Proof. solve_decision. Defined.

#[export] Instance app_inhabited : Inhabited app := populate Welcome.

Definition all_apps : list app :=
  [Welcome; Clock; SysInfo; Calculator; About; Tasks; Notes; Help; Trash; Demo].

(** Arguments of the [OPEN_APP] of each application. *)
Definition app_window (a : app) : Z * Z * chars :=
  match a with
  | Welcome => (400, 180, $"Welcome")
  | Clock => (260, 140, $"Clock")
  | SysInfo => (320, 200, $"SysInfo")
  | Calculator => (280, 160, $"Calculator")
  | About => (300, 170, $"About")
  | Tasks => (300, 160, $"Tasks")
  | Notes => (280, 160, $"Notes")
  | Help => (320, 170, $"Help")
  | Demo => (340, 160, $"Demo")
  | Trash => (300, 170, $"Recycle Bin")
  end.

Record calcst : Type := mk_calc { calc_acc : Z; calc_val : Z; calc_op : Z }.

Definition calc_apply_op (c : calcst) : calcst :=
  let acc :=
    if calc_op c =? 1 then s32 (calc_acc c + calc_val c)
    else if calc_op c =? 2 then s32 (calc_acc c - calc_val c)
    else if calc_op c =? 3 then s32 (calc_acc c * calc_val c)
    else calc_val c in
  mk_calc acc acc 0.

(** What a round reads: the keys waiting, the mouse driver, the clock, the
    number of tasks. *)
Record input : Type := mk_in {
  keys : list Z;
  pointer : Mouse.mouse;
  now : Z;          (** [timer_ticks()] *)
  hz : Z;           (** [timer_hz()] *)
  tasks : Z;        (** [sched_task_count()] *)
}.

(** Column, row, text and colour of each [mk_buf_text] of a painter. *)
Definition text_line : Type := Z * Z * chars * Z.

Definition app_colour (a : app) : Z :=
  match a with
  | Welcome | Trash => 0x00F0F0F0
  | Clock | Demo => 0x001A1A2E
  | SysInfo => 0x00F5F5F5
  | Calculator => 0x00222222
  | About => 0x00E8EEF8
  | Tasks => 0x00FAFAFA
  | Notes => 0x00FFF8DC
  | Help => 0x00FFFFFF
  end.

Definition app_text (a : app) (c : calcst) (i : input) : list text_line :=
  match a with
  | Welcome =>
      [(12, 12, $"Welcome to MyKernel Desktop", 0); (12, 36, $"Icons on desktop open apps", 0);
       (12, 56, $"Start menu: apps + power", 0); (12, 76, $"Drag title bar; X closes", 0);
       (12, 100, $"ESC / Q leaves desktop", 0x00003399); (12, 130, $"Not Linux-compatible yet", 0x00AA0000)]
  | Clock =>
      [(16, 16, $"System Clock", 0x00EEEEFF); (16, 48, format_uptime (now i) (hz i), 0x00FFFFFF);
       (16, 80, $"ticks=" ++ u32_to_str (now i), 0x00AAAAAA);
       (16, 104, $"PIT Hz=" ++ u32_to_str (if hz i =? 0 then 100 else hz i), 0x00AAAAAA)]
  | SysInfo =>
      [(12, 12, $"System Information", 0); (12, 40, $"OS: MyKernel", 0); (12, 60, $"Arch: i686 (32-bit)", 0);
       (12, 80, $"ABI: Linux i386 int 0x80", 0); (12, 100, $"Display: VBE LFB", 0);
       (12, 120, $"Tasks: " ++ u32_to_str (u32 (tasks i)), 0);
       (12, 150, $"x86_64 uses different", 0x00666666); (12, 170, $"syscall numbers than i386", 0x00666666)]
  | Calculator =>
      [(12, 12, $"Calculator", 0x00FFFFFF); (12, 44, labelled $"Value: " (calc_val c), 0x00FFFF00);
       (12, 72, $"Keys: 0-9  + - *  Enter==", 0x00CCCCCC); (12, 92, $"C clear   (focus this win)", 0x00CCCCCC);
       (12, 120, labelled $"Acc: " (calc_acc c), 0x00AAAAAA)]
  | About =>
      [(12, 12, $"About MyKernel", 0); (12, 40, $"Hobby teaching OS", 0); (12, 60, $"VGA / VBE / FAT / ELF", 0);
       (12, 80, $"Shell + Desktop (MK)", 0); (12, 110, $"Inspired by Wayland model", 0x00333333);
       (12, 130, $"Not a Linux distro", 0x00AA0000)]
  | Tasks =>
      [(12, 12, $"Task Manager", 0); (12, 44, $"sched tasks: " ++ u32_to_str (u32 (tasks i)), 0);
       (12, 72, $"Desktop is kernel-mode", 0x00444444); (12, 92, $"User threads: future", 0x00444444);
       (12, 120, $"shell | timer | IRQ0", 0x00006699)]
  | Notes =>
      [(12, 12, $"Sticky Notes", 0); (12, 40, $"- make && make run", 0); (12, 60, $"- desktop for GUI", 0);
       (12, 80, $"- snake / pong games", 0); (12, 100, $"- fatmount for disk", 0);
       (12, 130, $"(read-only sticky)", 0x00888888)]
  | Trash =>
      [(12, 12, $"Recycle Bin", 0); (12, 40, $"Empty (demo)", 0x00666666); (12, 64, $"No deleted files yet.", 0);
       (12, 88, $"Future: drop windows here", 0x00333333); (12, 120, $"Icon uses screen coords:", 0);
       (12, 140, $"origin top-left, Y down", 0x00006699)]
  | Help =>
      [(12, 12, $"Desktop Help", 0); (12, 40, $"Double-click icons (single)", 0);
       (12, 60, $"Start: apps list + power", 0); (12, 80, $"Calc: type digits when open", 0);
       (12, 100, $"Panel Reboot / Shutdown", 0); (12, 130, $"QEMU + VBE recommended", 0x00006600)]
  | Demo =>
      [(12, 12, $"Demo App", 0x00FFFFFF); (12, 40, $"Ring3 + icons demo", 0x00AAAAFF);
       (12, 64, $"Shell: exec hello", 0x00AAFFAA); (12, 88, $"Shell: ping 127.0.0.1", 0x00AAFFAA);
       (12, 112, $"Two windows on start", 0x00FFFFFF)]
  end.

(** ** Icons and the start menu *)

Definition ICON_W : Z := 60.
Definition ICON_H : Z := 70.
Definition PANEL_H : Z := 28.

Record desk_icon : Type := mk_icon { ix : Z; iy : Z; anchor : Z; label : chars; open : app }.
#[export] Instance desk_icon_inhabited : Inhabited desk_icon := populate (mk_icon 0 0 0 [] Welcome).

Definition icons : list desk_icon :=
  [mk_icon 20 48 0 $"Clock" Clock; mk_icon 20 118 0 $"SysInfo" SysInfo; mk_icon 20 188 0 $"Calc" Calculator;
   mk_icon 20 258 0 $"About" About; mk_icon 100 48 0 $"Tasks" Tasks; mk_icon 100 118 0 $"Notes" Notes;
   mk_icon 100 188 0 $"Help" Help; mk_icon 100 258 0 $"Welcome" Welcome; mk_icon 180 48 0 $"Demo" Demo;
   mk_icon (-1) (-1) 1 $"Recycle" Trash].

(** [sw] and [sh] are [mk_screen_w()] and [mk_screen_h()]. *)
Definition icon_pos (sw sh : Z) (d : desk_icon) : Z * Z :=
  if anchor d =? 1 then (sw - ICON_W - 16, sh - PANEL_H - ICON_H - 12) else (ix d, iy d).

Definition icon_color (i : nat) : Z :=
  [0x00E81123; 0x000078D7; 0x00107C10; 0x00FFB900; 0x008812CD; 0x00F7630C; 0x0000B7C3; 0x00E3008C] !!! (i mod 8)%nat.

Definition draw_icon (idx : nat) (d : desk_icon) (x y : Z) : list draw_op :=
  let is_trash := anchor d =? 1 in
  let c := if is_trash then 0x00666666 else icon_color idx in
  [DFill (x + 3) (y + 3) 56 48 0x00202020; DFill x y 56 48 0x00FFFFFF; DFill (x + 3) (y + 3) 50 42 c]
  ++ (if is_trash then
        [DFill (x + 14) (y + 10) 28 4 0x00DDDDDD; DFill (x + 24) (y + 6) 8 6 0x00DDDDDD;
         DFill (x + 16) (y + 16) 24 22 0x00AAAAAA; DFill (x + 20) (y + 20) 4 14 0x00444444;
         DFill (x + 26) (y + 20) 4 14 0x00444444; DFill (x + 32) (y + 20) 4 14 0x00444444]
      else [DText (x + 22) (y + 14) [char_at (label d) 0] 0x00FFFFFF c])
  ++ [DFill (x - 2) (y + 52) 64 16 0; DText (x + 2) (y + 54) (label d) 0x00FFFFFF 0].

Definition in_box (mx my x y w h : Z) : bool := (x <=? mx) && (mx <? x + w) && (y <=? my) && (my <? y + h).

Definition icon_at (sw sh mx my : Z) : option nat :=
  for_find (fun i => let '(x, y) := icon_pos sw sh (icons !!! i) in in_box mx my x y ICON_W ICON_H)
    0 (length icons).

Definition desktop_layer_paint (sw sh : Z) : list draw_op :=
  concat (imap (fun i d =>
    let '(x, y) := icon_pos sw sh d in
    if y + ICON_H <=? sh - PANEL_H then draw_icon i d x y else []) icons).

Definition SM_X : Z := 4.
Definition SM_W : Z := 200.
Definition SM_ITEM_H : Z := 22.
Definition start_menu_h : Z := 28 + 8 * SM_ITEM_H + 8 + 3 * SM_ITEM_H + 8.

(** x, y, w, h *)
Definition start_btn_rect (sh : Z) : Z * Z * Z * Z := (4, sh - 28 + 3, 88, 22).
Definition start_menu_rect (sh : Z) : Z * Z * Z * Z := (SM_X, sh - 28 - start_menu_h, SM_W, start_menu_h).

Definition menu_items : list (chars * app) :=
  [($"Clock", Clock); ($"SysInfo", SysInfo); ($"Calculator", Calculator); ($"About", About);
   ($"Tasks", Tasks); ($"Notes", Notes); ($"Help", Help); ($"Welcome", Welcome)].

Definition draw_menu_item (x w iy : Z) (i : nat) (name : chars) : list draw_op :=
  let bg := if (i mod 2 =? 0)%nat then 0x001E1E1E else 0x00252525 in
  [DFill x iy w SM_ITEM_H bg; DFill (x + 4) (iy + 4) 14 14 (icon_color i); DText (x + 24) (iy + 4) name 0x00F0F0F0 bg].

Definition draw_menu_button (x w iy dx : Z) (name : chars) (c : Z) : list draw_op :=
  [DFill (x + 8) iy (w - 16) (SM_ITEM_H - 2) c; DText (x + dx) (iy + 2) name 0x00FFFFFF c].

Definition draw_start_menu (sh : Z) (start_open : bool) : list draw_op :=
  if negb start_open then []
  else
    let '(x, y, w, h) := start_menu_rect sh in
    let row k := y + 28 + Z.of_nat k * SM_ITEM_H in
    let iy := row 8%nat + 6 in
    [DFill (x + 4) (y + 4) w h 0x00101010; DFill x y w h 0x001E1E1E; DFill x y w 28 0x000078D7;
     DText (x + 12) (y + 6) $"MyKernel Start" 0x00FFFFFF 0x000078D7]
    ++ concat (imap (fun i it => draw_menu_item x w (row i) i (fst it)) menu_items)
    ++ [DFill x (row 8%nat) w 1 0x00444444]
    ++ draw_menu_button x w iy 16 $"Recycle Bin" 0x00555555
    ++ draw_menu_button x w (iy + SM_ITEM_H) 20 $"Reboot" 0x00C19C00
    ++ draw_menu_button x w (iy + 2 * SM_ITEM_H) 16 $"Shutdown" 0x00C42B1C.

Definition desktop_overlay_paint (sh : Z) (start_open : bool) : list draw_op := draw_start_menu sh start_open.

(** [for (i = 0; i < 8; i++) { if (...) return i; iy += SM_ITEM_H; }] *)
Fixpoint menu_rows (n : nat) (i iy my : Z) : Z + Z :=
  match n with
  | O => inr iy
  | S n' => if (iy <=? my) && (my <? iy + SM_ITEM_H) then inl i else menu_rows n' (i + 1) (iy + SM_ITEM_H) my
  end.
Definition start_menu_click (sh mx my : Z) : Z :=
  let '(x, y, w, h) := start_menu_rect sh in
  if (mx <? x) || (x + w <=? mx) || (my <? y) || (y + h <=? my) then -1
  else match menu_rows 8 0 (y + 28) my with
  | inl i => i
  | inr iy =>
      let iy := iy + 6 in
      if (iy <=? my) && (my <? iy + SM_ITEM_H) then 99
      else
        let iy := iy + SM_ITEM_H in
        if (iy <=? my) && (my <? iy + SM_ITEM_H) then 100
        else
          let iy := iy + SM_ITEM_H in
          if (iy <=? my) && (my <? iy + SM_ITEM_H) then 101 else -2
  end.

(** ** State *)

Section Desk.
Context {H : Type} `{!Allocator H} (dev : Ports.device).

Record deskst : Type := mk_desk {
  disp : dispst H;
  ids : app -> Z;            (** [id_welcome] ..., -1 when the window is closed *)
  start_open : bool;
  calc : calcst;
  dragging : bool; drag_id : Z; drag_off_x : Z; drag_off_y : Z;
  prev_buttons : Z;
  need_redraw : bool;
  last_draw : Z; last_clock : Z;
  last_mx : Z; last_my : Z;
}.

Definition set_disp (d : dispst H) (s : deskst) : deskst :=
  mk_desk d (ids s) (start_open s) (calc s) (dragging s) (drag_id s) (drag_off_x s) (drag_off_y s)
    (prev_buttons s) (need_redraw s) (last_draw s) (last_clock s) (last_mx s) (last_my s).
Definition set_id (a : app) (v : Z) (s : deskst) : deskst :=
  mk_desk (disp s) (fun b => if decide (b = a) then v else ids s b) (start_open s) (calc s) (dragging s) (drag_id s)
    (drag_off_x s) (drag_off_y s) (prev_buttons s) (need_redraw s) (last_draw s) (last_clock s) (last_mx s) (last_my s).
Definition set_start (b : bool) (s : deskst) : deskst :=
  mk_desk (disp s) (ids s) b (calc s) (dragging s) (drag_id s) (drag_off_x s) (drag_off_y s)
    (prev_buttons s) (need_redraw s) (last_draw s) (last_clock s) (last_mx s) (last_my s).
Definition set_calc (c : calcst) (s : deskst) : deskst :=
  mk_desk (disp s) (ids s) (start_open s) c (dragging s) (drag_id s) (drag_off_x s) (drag_off_y s)
    (prev_buttons s) (need_redraw s) (last_draw s) (last_clock s) (last_mx s) (last_my s).
Definition set_drag (b : bool) (id x y : Z) (s : deskst) : deskst :=
  mk_desk (disp s) (ids s) (start_open s) (calc s) b id x y
    (prev_buttons s) (need_redraw s) (last_draw s) (last_clock s) (last_mx s) (last_my s).
Definition stop_drag (s : deskst) : deskst := set_drag false (drag_id s) (drag_off_x s) (drag_off_y s) s.
Definition set_redraw (b : bool) (s : deskst) : deskst :=
  mk_desk (disp s) (ids s) (start_open s) (calc s) (dragging s) (drag_id s) (drag_off_x s) (drag_off_y s)
    (prev_buttons s) b (last_draw s) (last_clock s) (last_mx s) (last_my s).
Definition set_last (draw clock mx my : Z) (s : deskst) : deskst :=
  mk_desk (disp s) (ids s) (start_open s) (calc s) (dragging s) (drag_id s) (drag_off_x s) (drag_off_y s)
    (prev_buttons s) (need_redraw s) draw clock mx my.
Definition set_prev (b : Z) (s : deskst) : deskst :=
  mk_desk (disp s) (ids s) (start_open s) (calc s) (dragging s) (drag_id s) (drag_off_x s) (drag_off_y s)
    b (need_redraw s) (last_draw s) (last_clock s) (last_mx s) (last_my s).

Definition surface_alive (id : Z) (d : dispst H) : bool :=
  (0 <=? id) && match mk_surface_get id d with Some f => used f | None => false end.

(** ** Windows *)

(** The painter of an application; a NULL surface or buffer is left alone. *)
Definition paint (a : app) (c : calcst) (i : input) (f : option mk_surface) (d : dispst H) : dispst H :=
  match f with
  | None => d
  | Some f =>
      if pixels f =? 0 then d
      else
        let bg := app_colour a in
        let m := Mkdraw.mk_buf_fill (pixels f) (sw f) (sh f) bg (pmem d) in
        set_pmem (foldl (fun m l => let '(x, y, t, fg) := l in
                           Mkdraw.mk_buf_text (pixels f) (sw f) (sh f) x y t fg bg m) m (app_text a c i)) d
  end.

(** [paintfn(mk_surface_get(id)); mk_surface_commit(id);] *)
Definition repaint (a : app) (i : input) (s : deskst) : deskst :=
  let d := paint a (calc s) i (mk_surface_get (ids s a) (disp s)) (disp s) in
  set_disp (mk_surface_commit (ids s a) d) s.

Definition open_app (a : app) (i : input) (s : deskst) : out deskst :=
  if surface_alive (ids s a) (disp s) then Ret s
  else
    let '(w, h, t) := app_window a in
    '(id, d) ← mk_surface_create w h (Some t) (disp s);
    let s := set_disp d s in
    if id <? 0 then Ret s
    else
      let s := set_id a id s in
      Ret (match mk_surface_get id (disp s) with Some _ => repaint a i s | None => s end).

Definition on_close_id (id : Z) (s : deskst) : deskst :=
  foldl (fun s a => if id =? ids s a then set_id a (-1) s else s) s all_apps.

(** A frame with the hooks of the desktop. *)
Definition compose (s : deskst) : deskst :=
  let d := disp s in
  set_disp (mk_compose (Some (desktop_layer_paint (mk_screen_w d) (mk_screen_h d)))
                       (Some (desktop_overlay_paint (mk_screen_h d) (start_open s))) d) s.

(** ** Keys *)

(** The calculator's keys; [true] when the window is painted again. *)
Definition calc_key (k : Z) (c : calcst) : calcst * bool :=
  let op n := let c := calc_apply_op c in mk_calc (calc_acc c) 0 n in
  if (48 <=? k) && (k <=? 57) then (mk_calc (calc_acc c) (s32 (calc_val c * 10 + (k - 48))) (calc_op c), true)
  else if k =? 43 then (op 1, false)
  else if k =? 45 then (op 2, false)
  else if k =? 42 then (op 3, false)
  else if (k =? 10) || (k =? 61) then (calc_apply_op c, true)
  else if (k =? 99) || (k =? 67) then (mk_calc 0 0 0, true)
  else (c, false).

(** One key; [true] leaves the desktop. *)
Definition desk_key (i : input) (k : Z) (s : deskst) : bool * deskst :=
  if (k =? 0x1B) && negb (start_open s) then (true, s)
  else
    let s := if k =? 0x1B then set_redraw true (set_start false s) else s in
    if (k =? 113) || (k =? 81) then (true, s)
    else if surface_alive (ids s Calculator) (disp s) then
      let '(c, painted) := calc_key k (calc s) in
      let s := set_calc c s in
      (false, if painted : bool then set_redraw true (repaint Calculator i s) else s)
    else (false, s).

Fixpoint desk_keys (i : input) (ks : list Z) (s : deskst) : bool * deskst :=
  match ks with
  | [] => (false, s)
  | k :: ks' =>
      let '(quit, s) := desk_key i k s in
      if quit : bool then (true, s) else desk_keys i ks' s
  end.

(** ** The mouse *)

Inductive outcome : Type :=
| Going      (** the loop goes on *)
| Left       (** [goto done] *)
| Rebooting  (** [machine_reboot] does not return *)
| PowerOff.  (** [machine_shutdown] does not return *)

(** A menu entry or an icon opens its application. *)
Definition open_and_redraw (a : app) (i : input) (s : deskst) : out deskst :=
  s ← open_app a i s; Ret (set_redraw true s).

(** The press of the left button at (mx, my); [mk_shutdown] and
    [gfx_restore_text] of the power buttons are part of leaving. *)
Definition on_press (i : input) (mx my : Z) (s : deskst) : out (outcome * deskst) :=
  let d := disp s in
  let '(rx, shx, by_, bw, bh) := mk_panel_power_rects d in
  if in_box mx my rx by_ bw bh then Ret (Rebooting, s)
  else if in_box mx my shx by_ bw bh then Ret (PowerOff, s)
  else
    let '(stx, sty, stw, sth) := start_btn_rect (mk_screen_h d) in
    if in_box mx my stx sty stw sth then Ret (Going, set_redraw true (set_start (negb (start_open s)) s))
    else if start_open s then
      let sm := start_menu_click (mk_screen_h d) mx my in
      if (0 <=? sm) && (sm <=? 7) then
        s ← open_app (snd (menu_items !!! Z.to_nat sm)) i s;
        Ret (Going, set_redraw true (set_start false s))
      else if sm =? 99 then s ← open_app Trash i s; Ret (Going, set_redraw true (set_start false s))
      else if sm =? 100 then Ret (Rebooting, s)
      else if sm =? 101 then Ret (PowerOff, s)
      else if sm =? -1 then Ret (Going, set_redraw true (set_start false s))
      else Ret (Going, s)
    else
      match icon_at (mk_screen_w d) (mk_screen_h d) mx my with
      | Some ic => s ← open_and_redraw (open (icons !!! ic)) i s; Ret (Going, s)
      | None =>
          let hit := mk_hit_test mx my d in
          if (0 <=? hit_id hit) && on_close hit then
            let s := on_close_id (hit_id hit) s in
            d ← mk_surface_destroy (hit_id hit) (disp s);
            Ret (Going, stop_drag (set_redraw true (set_disp d s)))
          else if (0 <=? hit_id hit) && on_title hit then
            match mk_surface_get (hit_id hit) d with
            | Some f => Ret (Going, set_drag true (hit_id hit) (mx - sx f) (my - sy f) s)
            | None => Fault OutOfBounds
            end
          else Ret (Going, s)
      end.

(** The clock and the task list, once a second. *)
Definition refresh (i : input) (s : deskst) : deskst :=
  let hz := if hz i =? 0 then 100 else hz i in
  let s := if surface_alive (ids s Clock) (disp s) && (hz <=? u32 (now i - last_clock s)) then
             let s := set_redraw true (repaint Clock i s) in
             set_last (last_draw s) (now i) (last_mx s) (last_my s) s
           else s in
  if surface_alive (ids s Tasks) (disp s) && (hz <=? u32 (now i - last_clock s)) then repaint Tasks i s else s.

(** The end of a round: compose, or move the cursor only. *)
Definition redraw (i : input) (mx my : Z) (edge : bool) (s : deskst) : deskst :=
  let moved := negb ((mx =? last_mx s) && (my =? last_my s)) in
  let s := if moved then set_last (last_draw s) (last_clock s) mx my s else s in
  if need_redraw s then
    if ((if dragging s then 1 else 0) <=? u32 (now i - last_draw s)) || edge then
      let s := set_redraw false (compose s) in
      set_last (now i) (last_clock s) mx my s
    else s
  else if moved then set_disp (mk_cursor_move mx my (disp s)) s
  else s.

Definition round (i : input) (s : deskst) : out (outcome * deskst) :=
  let s := set_disp (set_mouse (pointer i) (disp s)) s in
  let '(quit, s) := desk_keys i (keys i) s in
  if quit : bool then Ret (Left, s)
  else
    let '((mx, my, _, _, buttons), m) := Mouse.mouse_get (dmouse (disp s)) in
    let s := set_disp (set_mouse m (disp s)) s in
    let left := Z.testbit buttons 0 in
    let was := Z.testbit (prev_buttons s) 0 in
    '(o, s) ← (if left && negb was then on_press i mx my s else Ret (Going, s));
    match o with
    | Going =>
        let s := if negb left && was then stop_drag s else s in
        let s := if dragging s && (0 <=? drag_id s) && left
                 then set_redraw true (set_disp (mk_surface_move (drag_id s) (s32 (mx - drag_off_x s))
                                                   (s32 (my - drag_off_y s)) (disp s)) s)
                 else s in
        let s := refresh i s in
        let s := redraw i mx my ((left && negb was) || (negb left && was)) s in
        Ret (Going, set_prev buttons s)
    | _ => Ret (o, s)
    end.

(** The loop on the inputs it meets; it stops when it is left. *)
Fixpoint rounds (ins : list input) (s : deskst) : out (outcome * deskst) :=
  match ins with
  | [] => Ret (Going, s)
  | i :: ins' =>
      '(o, s) ← round i s;
      match o with Going => rounds ins' s | _ => Ret (o, s) end
  end.

(** ** Start and end *)

(** The state after [mk_init]: no window, the menu closed. *)
Definition fresh_desk (i : input) (d : dispst H) (last_mx last_my : Z) : deskst :=
  mk_desk d (fun _ => -1) false (mk_calc 0 0 0) false (-1) 0 0 0 true (now i) (now i) last_mx last_my.

Definition park (a : app) (x y : Z) (s : deskst) : deskst :=
  if surface_alive (ids s a) (disp s) then set_disp (mk_surface_move (ids s a) x y (disp s)) s else s.

Definition desktop_start (i : input) (s : deskst) : out deskst :=
  s ← open_app Welcome i s;
  s ← open_app Clock i s;
  Ret (compose (park Clock 520 40 (park Welcome 200 40 s))).

Record screen : Type := mk_screen { sdisp : dispst H; stty : term; sgraphics : bool }.

(** [gfx_restore_text()] on the memory and the ports of the compositor. *)
Definition restore_text (s : screen) : screen :=
  let d := sdisp s in
  let g := Gfx.gfx_restore_text dev (Gfx.mk_gfx (Vbe.vio (dvbe d)) (pmem d) (sgraphics s) (stty s)) in
  mk_screen (set_pmem (Gfx.gmem g) (set_vbe (Vbe.set_vio (Gfx.gio g) (dvbe d)) d)) (Gfx.gtty g) (Gfx.g_graphics g).

(** Leaving: [mk_shutdown], the text mode, and what the outcome asks for.
    [fuel] bounds the wait for the keyboard controller of a reboot. *)
Definition desktop_end (fuel : nat) (o : outcome) (s : deskst) (t : term) (graphics : bool) : out screen :=
  d ← mk_shutdown (disp s);
  let x := restore_text (mk_screen d t graphics) in
  let l := Vbe.vio (dvbe (sdisp x)) in
  let put (r : term * Ports.log) :=
    mk_screen (set_vbe (Vbe.set_vio (snd r) (dvbe (sdisp x))) (sdisp x)) (fst r) (sgraphics x) in
  match o with
  | Rebooting => r ← Devices.machine_reboot dev fuel (stty x) l; Ret (put r)
  | PowerOff => Ret (put (Devices.machine_shutdown (stty x) l))
  | _ => Ret (mk_screen (sdisp x) (terminal_writestring ($"desktop: exited" ++ [10]) (stty x)) (sgraphics x))
  end.

Definition VBE_MODE_640x480 : Z := 0.
Definition VBE_MODE_800x600 : Z := 1.

(** [desktop_run] on the inputs it meets: the outcome and the screen it
    leaves; with [Going] the loop is still waiting for input. *)
Definition desktop_run (fuel : nat) (virtualbox : bool) (lmx lmy : Z) (i0 : input) (ins : list input) (s : screen)
  : out (outcome * screen) :=
  let fail m := Ret (Left, mk_screen (sdisp s) (terminal_writestring (m ++ [10]) (stty s)) (sgraphics s)) in
  if virtualbox then fail $"desktop: needs Bochs VBE (QEMU). Not supported on VirtualBox."
  else
    let '(r, d) := mk_init dev VBE_MODE_800x600 (sdisp s) in
    let '(r, d) := if r =? 0 then (r, d) else mk_init dev VBE_MODE_640x480 d in
    if negb (r =? 0) then
      Ret (Left, mk_screen d (terminal_writestring ($"desktop: VBE init failed" ++ [10]) (stty s)) (sgraphics s))
    else
      s1 ← desktop_start i0 (fresh_desk i0 d lmx lmy);
      '(o, s1) ← rounds ins s1;
      match o with
      | Going => Ret (Going, mk_screen (disp s1) (stty s) (sgraphics s))
      | _ => x ← desktop_end fuel o s1 (stty s) (sgraphics s); Ret (o, x)
      end.

End Desk.
End Desktop.
