(* ===== verification/DesktopSpec.v ===== *)
(** * Properties of the desktop

    Every window belongs to exactly one application whatever the user does;
    the menu answers a click with the entry that is drawn there; the desk
    calculator computes from left to right; an icon takes the click of the
    window above it. *)

From S2P Require Import Prelude Memory Kmalloc Alloc Ports Terminal Mouse Gfx Vbe Mkdraw Mkdisp MkdispSpec MkdispProps Gdt Irq Devices Desktop.
Import Mkdisp MkdispSpec MkdispProps Desktop.

Module DesktopSpec.

Section Desk.
Context {H : Type} `{!Allocator H}.
Implicit Types (d : dispst H) (s : deskst (H := H)).

(** ** Which windows are open *)

(** The same windows are open. *)
Definition same_open (d d' : dispst H) : Prop :=
  forall i, 0 <= i < 8 -> used (surf_at d' i) = used (surf_at d i).

Lemma same_open_trans d1 d2 d3 : same_open d1 d2 -> same_open d2 d3 -> same_open d1 d3.
Proof. intros H1 H2 i Hi. by rewrite H2, H1. Qed.

(** A step of the compositor that keeps it well formed and the same windows
    open. *)
Definition calm (l : list (Z * Z)) (d d' : dispst H) : Prop := disp_wf l d' /\ same_open d d'.

Lemma upd_open l d id g :
  disp_wf l d -> 0 <= id < 8 -> (forall f, used (g f) = used f) -> same_open d (upd_surf id g d).
Proof.
  intros Hwf Hid Hg i Hi. rewrite surf_upd; [|apply Hwf | done | done]. case_decide; [apply Hg | done].
Qed.

Lemma commit_calm l d id : disp_wf l d -> calm l d (mk_surface_commit id d).
Proof.
  intros Hwf. unfold mk_surface_commit. destruct (bad_id id d) eqn:Eb; [done|]. apply good_id in Eb as [Hid Hu].
  edestruct wf_upd as [H1 _]; [exact Hwf | exact Hid | | | split; [exact H1|]]; [done | | by apply (upd_open l)].
  intros []. by constructor.
Qed.

Lemma move_calm l d id x y :
  disp_wf l d -> -0x40000000 <= x <= 0x40000000 -> -0x40000000 <= y <= 0x40000000 ->
  calm l d (mk_surface_move id x y d).
Proof.
  intros Hwf Hx Hy. split; [by apply move_wf|]. unfold mk_surface_move. destruct (bad_id id d) eqn:Eb; [done|].
  apply good_id in Eb as [Hid _]. by apply (upd_open l).
Qed.

Lemma cursor_calm l d x y : disp_wf l d -> in_s32 x -> in_s32 y -> calm l d (mk_cursor_move x y d).
Proof.
  intros Hwf Hx Hy. split; [by apply cursor_wf|].
  destruct (move_step x y d (w_screen _ _ Hwf) (w_under _ _ Hwf) Hx Hy) as (m & u & x' & y' & v & E & _).
  rewrite E. done.
Qed.

Lemma compose_calm l d layer overlay :
  disp_wf l d -> hook_ok layer -> hook_ok overlay -> calm l d (mk_compose layer overlay d).
Proof.
  intros Hwf Hla Hov. split; [by apply compose_wf|].
  destruct (compose_spec layer overlay d (disp_wf_ok _ _ Hwf) Hla Hov) as (_ & m & u & x & y & v & ms & E & _).
  rewrite E. intros i Hi. unfold surf_at. cbn. unfold cleaned. rewrite !list_lookup_total_alt, list_lookup_imap.
  destruct (g_surf d !! Z.to_nat i) as [f|]; [|done]. cbn. by destruct (_ && _).
Qed.

Lemma mouse_calm l d m :
  disp_wf l d -> in_s32 (Mouse.mx m) /\ in_s32 (Mouse.my m) -> calm l d (set_mouse m d).
Proof.
  intros [Hs Hl Hu _ Hi Huse Hap] Hm. split; [|done]. constructor; try done; [destruct Hs; by constructor|].
  intros i Hi' Hui. destruct (Huse i Hi' Hui) as [[] Hk]. split; [|done]. by constructor.
Qed.

Lemma paint_calm l d a c i id :
  disp_wf l d -> calm l d (paint a c i (mk_surface_get id d) d).
Proof.
  intros Hwf. unfold paint, mk_surface_get. destruct (bad_id id d) eqn:Eb; [done|]. apply good_id in Eb as [Hid Hu].
  destruct (_ =? 0); [done|]. split; [|done].
  pose proof (w_screen _ _ Hwf) as Hs. destruct (w_used _ _ Hwf id Hid Hu) as [Hf _].
  eapply wf_write; [done | exact Hid | done|].
  pose proof (writes_buf (BFill (app_colour a)) d (surf_at d id) (pmem d) Hs Hf) as Hw. cbn [run_buf] in Hw.
  revert Hw. generalize (Mkdraw.mk_buf_fill (pixels (surf_at d id)) (sw (surf_at d id)) (sh (surf_at d id)) (app_colour a) (pmem d)).
  generalize (app_text a c i). induction l0 as [|[[[x y] t] fg] ls IH]; intros m Hw; cbn [foldl]; [done|].
  apply IH. eapply writes_trans; [exact Hw|]. by apply (writes_buf (BText x y t fg (app_colour a)) d).
Qed.

Lemma create_open l d w h t r d' :
  disp_wf l d -> mk_surface_create w h t d = Ret (r, d') ->
  (r = -1 /\ same_open d d') \/
  (0 <= r < 8 /\ used (surf_at d r) = false /\
   forall i, 0 <= i < 8 -> used (surf_at d' i) = if decide (i = r) then true else used (surf_at d i)).
Proof.
  intros Hwf. unfold mk_surface_create. destruct (_ || _ || _ || _); [intros [= <- <-]; by left|].
  destruct (for_find _ 0 _) as [n|] eqn:Ef; [|intros [= <- <-]; by left].
  apply for_find_Some in Ef as (Hn & Hfree & _). unfold MK_MAX_SURFACES in Hn.
  destruct (a_alloc _ _) as [[p h']|]; [|done]. cbn [mbind out_mbind].
  destruct (p =? 0); intros [= <- <-]; [by left | right]. split; [lia|]. split.
  - unfold surf_at. rewrite Nat2Z.id. by destruct (used _).
  - intros i Hi. change (surf_at (set_pmem ?m ?x) i) with (surf_at x i).
    rewrite surf_upd; [|apply Hwf | lia | done]. by case_decide.
Qed.

Lemma destroy_open l d id d' :
  disp_wf l d -> 0 <= id < 8 -> mk_surface_destroy id d = Ret d' ->
  forall i, 0 <= i < 8 -> used (surf_at d' i) = if decide (i = id) then false else used (surf_at d i).
Proof.
  intros Hwf Hid. unfold mk_surface_destroy, bad_id. change (Z.of_nat MK_MAX_SURFACES) with 8.
  rewrite (proj2 (Z.ltb_ge id 0)), (proj2 (Z.leb_gt 8 id)) by lia. cbn [orb].
  destruct (used (surf_at d id)) eqn:Eu; cbn [negb].
  - destruct (if negb _ then _ else _) as [d1|] eqn:E1; [|done]. cbn [mbind out_mbind]. intros [= <-] i Hi.
    assert (Es : g_surf d1 = g_surf d).
    { destruct (negb _); [|by injection E1 as <-]. destruct (a_free _ _) as [h'|]; [|done].
      cbn [mbind out_mbind] in E1. by injection E1 as <-. }
    rewrite surf_upd; [|rewrite Es; apply Hwf | done | done]. replace (surf_at d1 i) with (surf_at d i) by (unfold surf_at; by rewrite Es). by case_decide.
  - intros [= <-] i Hi. case_decide; by subst.
Qed.

(** ** Windows and applications *)

Record desk_ok (l : list (Z * Z)) (s : deskst) : Prop := {
  dk_wf : disp_wf l (disp s);
  dk_ids : forall a, ids s a = -1 \/ (0 <= ids s a < 8 /\ used (surf_at (disp s) (ids s a)) = true);
  dk_inj : forall a b, ids s a <> -1 -> ids s a = ids s b -> a = b;
  dk_own : forall i, 0 <= i < 8 -> used (surf_at (disp s) i) = true -> exists a, ids s a = i;
  dk_drag : dragging s = true -> 0 <= drag_off_x s <= 1024 /\ 0 <= drag_off_y s <= 1024;
}.

(** A step that only touches the compositor, calmly. *)
Lemma ok_calm l l' s s' :
  desk_ok l s -> calm l' (disp s) (disp s') -> ids s' = ids s ->
  (dragging s' = true -> 0 <= drag_off_x s' <= 1024 /\ 0 <= drag_off_y s' <= 1024) -> desk_ok l' s'.
Proof.
  intros [Hwf Hids Hinj Hown Hdr] [Hwf' Ho] Ei Hdr'. constructor; rewrite ?Ei; try done.
  - intros a. destruct (Hids a) as [|[? ?]]; [by left | right]. rewrite Ho by done. done.
  - intros i Hi. rewrite Ho by done. by apply Hown.
Qed.

Lemma alive_used l s a :
  desk_ok l s -> surface_alive (ids s a) (disp s) = negb (ids s a =? -1).
Proof.
  intros K. destruct (dk_ids _ _ K a) as [E|[Hi Hu]]; [by rewrite E|].
  unfold surface_alive, mk_surface_get, bad_id. change (Z.of_nat MK_MAX_SURFACES) with 8. rewrite Hu.
  destruct (Z.leb_spec 0 (ids s a)), (Z.ltb_spec (ids s a) 0), (Z.leb_spec 8 (ids s a)), (Z.eqb_spec (ids s a) (-1)); lia || done.
Qed.

Lemma repaint_ok l s a i : desk_ok l s -> desk_ok l (repaint a i s).
Proof.
  intros K. unfold repaint. eapply ok_calm; [exact K | | done | apply K]. cbn [disp set_disp].
  destruct (paint_calm l (disp s) a (calc s) i (ids s a) (dk_wf _ _ K)) as [H1 H2].
  destruct (commit_calm l _ (ids s a) H1) as [H3 H4]. split; [done | by eapply same_open_trans].
Qed.

Lemma open_ok l s a i : desk_ok l s -> exists l' s', open_app a i s = Ret s' /\ desk_ok l' s'.
Proof.
  intros K. unfold open_app. rewrite (alive_used l) by done.
  destruct (Z.eqb_spec (ids s a) (-1)) as [Ea|Ea]; cbn [negb]; [|eauto].
  destruct (app_window a) as [[w h] t].
  destruct (surface_create_wf w h (Some t) l (disp s) (dk_wf _ _ K)) as (l' & r & d' & E & Hwf' & _).
  rewrite E. cbn [mbind out_mbind].
  destruct (create_open l _ _ _ _ _ _ (dk_wf _ _ K) E) as [[-> Ho]|(Hr & Hun & Hus)].
  { exists l'. eexists. split; [done|]. eapply ok_calm; [exact K | by split | done | apply K]. }
  rewrite (proj2 (Z.ltb_ge r 0)) by lia.
  assert (K1 : desk_ok l' (set_id a r (set_disp d' s))).
  { destruct K as [Hwf Hids Hinj Hown Hdr].
    assert (Hne : forall b, ids s b <> r).
    { intros b Eb. destruct (Hids b) as [?|[? Hu]]; [lia|]. congruence. }
    constructor; cbn [disp ids set_id set_disp dragging drag_off_x drag_off_y]; try done.
    - intros b. destruct (decide (b = a)) as [->|]; [right; split; [done|]; rewrite Hus by done; by rewrite decide_True|].
      destruct (Hids b) as [|[? ?]]; [by left | right]. rewrite Hus by done. by case_decide.
    - intros b c. destruct (decide (b = a)) as [->|], (decide (c = a)) as [->|]; try done.
      + intros _ Hc. by destruct (Hne c).
      + intros _ Hb. by destruct (Hne b).
      + apply Hinj.
    - intros j Hj. rewrite Hus by done. case_decide as Hjr.
      + intros _. exists a. by rewrite decide_True.
      + intros Hu. destruct (Hown j Hj Hu) as [b Eb]. exists b. rewrite decide_False; [done|]. intros ->. lia. }
  exists l'. eexists. split; [reflexivity|]. destruct (mk_surface_get _ _); [by apply repaint_ok | done].
Qed.

(** [on_close_id] forgets the window and changes nothing else. *)
Lemma close_ids id s a :
  id <> -1 -> ids (on_close_id id s) a = if decide (ids s a = id) then -1 else ids s a.
Proof.
  intros Hid. unfold on_close_id.
  assert (G : forall L s, ids (foldl (fun s a => if id =? ids s a then set_id a (-1) s else s) s L) a =
    if decide (a ∈ L /\ ids s a = id) then -1 else ids s a).
  { induction L as [|b L IH]; intros s0; cbn [foldl].
    { rewrite decide_False; [done|]. intros [Hn _]. by apply elem_of_nil in Hn. }
    rewrite IH. destruct (Z.eqb_spec id (ids s0 b)) as [Eb|Eb]; cbn [ids set_id];
      repeat case_decide; rewrite ?elem_of_cons in *; intuition congruence. }
  assert (Ha : a ∈ all_apps) by (destruct a; set_solver).
  rewrite G. repeat case_decide; intuition congruence.
Qed.
Lemma close_rest id s :
  disp (on_close_id id s) = disp s /\ dragging (on_close_id id s) = dragging s.
Proof.
  unfold on_close_id. generalize all_apps. intros L. revert s.
  induction L as [|b L IH]; intros s0; cbn [foldl]; [done|]. destruct (id =? ids s0 b); [exact (IH (set_id b (-1) s0)) | apply IH].
Qed.

Lemma close_ok l s id :
  desk_ok l s -> 0 <= id < 8 -> used (surf_at (disp s) id) = true ->
  exists l' d, mk_surface_destroy id (disp (on_close_id id s)) = Ret d /\
    desk_ok l' (stop_drag (set_redraw true (set_disp d (on_close_id id s)))).
Proof.
  intros K Hid Hu. destruct (close_rest id s) as [-> _].
  destruct (destroy_wf id l (disp s) (dk_wf _ _ K)) as (l' & d & E & Hwf' & _). exists l', d. split; [done|].
  pose proof (destroy_open l _ _ _ (dk_wf _ _ K) Hid E) as Ho. destruct K as [Hwf Hids Hinj Hown Hdr].
  constructor; cbn [disp ids stop_drag set_drag set_redraw set_disp dragging]; try done.
  - intros a. rewrite close_ids by lia. case_decide as Ea; [by left|]. destruct (Hids a) as [|[? ?]]; [by left | right].
    rewrite Ho by done. by rewrite decide_False.
  - intros a b. rewrite !close_ids by lia. case_decide; case_decide; try done; apply Hinj.
  - intros j Hj. rewrite Ho by done. case_decide as Ej; [done|]. intros Huj. destruct (Hown j Hj Huj) as [a Ea].
    exists a. rewrite close_ids by lia. rewrite decide_False; [done | congruence].
Qed.

(** ** A round *)

Definition input_ok (i : input) : Prop :=
  0 <= Mouse.mx (pointer i) < 1024 /\ 0 <= Mouse.my (pointer i) < 768.

Lemma key_ok l s i k : desk_ok l s -> desk_ok l (snd (desk_key i k s)).
Proof.
  intros K. unfold desk_key. destruct (_ && _); [done|].
  assert (K1 : desk_ok l (if k =? 27 then set_redraw true (set_start false s) else s))
    by (destruct (k =? 27); [destruct K; by constructor | done]).
  revert K1. generalize (if k =? 27 then set_redraw true (set_start false s) else s). intros s1 K1.
  destruct (_ || _); [done|]. destruct (surface_alive _ _); [|done].
  destruct (calc_key k (calc s1)) as [c []]; [|destruct K1; by constructor].
  assert (K2 : desk_ok l (repaint Calculator i (set_calc c s1))) by (apply repaint_ok; destruct K1; by constructor).
  destruct K2. by constructor.
Qed.
Lemma keys_ok l s i ks : desk_ok l s -> desk_ok l (snd (desk_keys i ks s)).
Proof.
  revert s. induction ks as [|k ks IH]; intros s K; cbn [desk_keys]; [done|].
  pose proof (key_ok l s i k K) as K1. destruct (desk_key i k s) as [[] s1]; [done|]. by apply IH.
Qed.

Lemma layer_ok d : screen_ok d -> hook_ok (Some (desktop_layer_paint (mk_screen_w d) (mk_screen_h d))).
Proof.
  intros Hs. pose proof (so_sw d Hs). pose proof (so_sh d Hs). unfold mk_screen_w, mk_screen_h.
  unfold hook_ok, desktop_layer_paint. apply Forall_concat. rewrite Forall_lookup. intros n ops E.
  rewrite list_lookup_imap in E. destruct (icons !! n) as [ic|] eqn:Ei; [|done]. cbn in E. injection E as <-.
  assert (Hp : 0 <= fst (icon_pos (g_sw d) (g_sh d) ic) <= 1024 /\ 0 <= snd (icon_pos (g_sw d) (g_sh d) ic) <= 1024).
  { apply list_elem_of_lookup_2 in Ei. unfold icons in Ei.
    repeat (apply elem_of_cons in Ei as [->|Ei]; [unfold icon_pos, ICON_W, ICON_H, PANEL_H; cbn; lia|]). by apply elem_of_nil in Ei. }
  destruct (icon_pos _ _ _) as [x y]. cbn [fst snd] in Hp. destruct (_ <=? _); [|constructor].
  unfold draw_icon. destruct (anchor ic =? 1); repeat constructor; unfold in_s32; cbn; lia.
Qed.

Lemma overlay_ok d b : screen_ok d -> hook_ok (Some (desktop_overlay_paint (mk_screen_h d) b)).
Proof.
  intros Hs. pose proof (so_sh d Hs). unfold mk_screen_h, hook_ok, desktop_overlay_paint, draw_start_menu.
  destruct b; cbn [negb]; [|constructor]. unfold start_menu_rect, start_menu_h, SM_W, SM_X, SM_ITEM_H.
  assert (Hmid : forall n it, menu_items !! n = Some it -> (n < 8)%nat) by (intros n it E; by apply lookup_lt_Some in E).
  rewrite !Forall_app. unfold draw_menu_button, SM_ITEM_H.
  split_and!; try (repeat constructor; unfold in_s32; cbn; lia).
  apply Forall_concat. rewrite Forall_lookup. intros n ops E. rewrite list_lookup_imap in E.
  destruct (menu_items !! n) as [it|] eqn:Ei; [|done]. cbn in E. injection E as <-. apply Hmid in Ei.
  unfold draw_menu_item, SM_ITEM_H. repeat constructor; unfold in_s32; cbn; lia.
Qed.

Lemma compose_ok l s : desk_ok l s -> desk_ok l (compose s).
Proof.
  intros K. eapply ok_calm; [exact K | | done | apply K]. cbn [disp compose set_disp].
  pose proof (w_screen _ _ (dk_wf _ _ K)) as Hs.
  apply compose_calm; [apply K | by apply layer_ok | by apply overlay_ok].
Qed.

Lemma refresh_ok l s i : desk_ok l s -> desk_ok l (refresh i s).
Proof.
  intros K. unfold refresh. set (h := if hz i =? 0 then 100 else hz i).
  set (s1 := if _ && _ then _ else s).
  assert (K1 : desk_ok l s1).
  { unfold s1. destruct (_ && _); [|done]. pose proof (repaint_ok l s Clock i K) as []. by constructor. }
  clearbody s1. destruct (_ && _); [by apply repaint_ok | done].
Qed.

Lemma redraw_ok l s i mx my edge :
  desk_ok l s -> in_s32 mx -> in_s32 my -> desk_ok l (redraw i mx my edge s).
Proof.
  intros K Hx Hy. unfold redraw. set (moved := negb _). set (s1 := if moved then _ else s).
  assert (K1 : desk_ok l s1) by (unfold s1; destruct moved; [destruct K; by constructor | done]).
  clearbody s1. destruct (need_redraw s1).
  - destruct (_ || _); [|done]. pose proof (compose_ok l s1 K1) as []. by constructor.
  - destruct moved; [|done]. eapply ok_calm; [exact K1 | | done | apply K1]. cbn [disp set_disp].
    by apply cursor_calm; [apply K1 | |].
Qed.

Lemma press_ok l s i mx my :
  desk_ok l s -> exists l' o s', on_press i mx my s = Ret (o, s') /\ desk_ok l' s'.
Proof.
  intros K. unfold on_press. destruct (mk_panel_power_rects (disp s)) as [[[[rx shx] by_] bw] bh].
  destruct (in_box _ _ rx _ _ _); [by exists l, Rebooting, s|].
  destruct (in_box _ _ shx _ _ _); [by exists l, PowerOff, s|].
  destruct (start_btn_rect _) as [[[stx sty] stw] sth].
  destruct (in_box _ _ stx _ _ _); [exists l, Going; eexists; split; [done|]; destruct K; by constructor|].
  assert (Hop : forall a, exists l' s', (s ← open_app a i s; Ret (Going, set_redraw true (set_start false s))) = Ret (Going, s')
    /\ desk_ok l' s').
  { intros a. destruct (open_ok l s a i K) as (l' & s' & -> & K'). exists l'. eexists. split; [done|].
    destruct K'. by constructor. }
  destruct (start_open s).
  - destruct (_ && _); [destruct (Hop (snd (menu_items !!! Z.to_nat (start_menu_click (mk_screen_h (disp s)) mx my)))) as (l' & s' & E & K');
      by exists l', Going, s'|].
    destruct (_ =? 99); [destruct (Hop Trash) as (l' & s' & E & K'); by exists l', Going, s'|].
    destruct (_ =? 100); [by exists l, Rebooting, s|]. destruct (_ =? 101); [by exists l, PowerOff, s|].
    destruct (_ =? -1); [exists l, Going; eexists; split; [done|]; destruct K; by constructor | by exists l, Going, s].
  - destruct (icon_at _ _ _ _) as [ic|].
    { unfold open_and_redraw. destruct (open_ok l s (open (icons !!! ic)) i K) as (l' & s' & -> & K').
      exists l', Going. eexists. split; [done|]. destruct K'. by constructor. }
    destruct (mk_hit_test mx my (disp s)) as [id lx ly ti cl] eqn:Eh. cbn [hit_id on_close on_title].
    destruct (Z.leb_spec 0 id) as [Hid|]; cbn [andb]; [|by exists l, Going, s].
    destruct (hit_loop_inv _ _ _ _ _ _ _ _ _ Eh Hid) as (Hid8 & Hsh & Hcov & _ & _).
    change (Z.of_nat MK_MAX_SURFACES) with 8 in Hid8. apply andb_true_iff in Hsh as [Hu _].
    destruct cl.
    { destruct (close_ok l s id K Hid8 Hu) as (l' & d & -> & K'). exists l', Going. by eexists. }
    destruct ti; [|by exists l, Going, s].
    unfold mk_surface_get. replace (bad_id id (disp s)) with false.
    2:{ unfold bad_id. change (Z.of_nat MK_MAX_SURFACES) with 8. rewrite Hu. lia. }
    exists l, Going. eexists. split; [done|].
    destruct (w_used _ _ (dk_wf _ _ K) id Hid8 Hu) as [Hf _]. pose proof (w_screen _ _ (dk_wf _ _ K)) as Hs.
    pose proof (so_sw _ Hs). pose proof (so_sh _ Hs). destruct K. constructor; try done.
    intros _. cbn [drag_off_x drag_off_y set_drag]. unfold covers, MK_TITLE_H in Hcov. destruct Hf. unfold MK_TITLE_H, MK_PANEL_H in *. lia.
Qed.

Lemma repaint_mouse a i s : dmouse (disp (repaint a i s)) = dmouse (disp s).
Proof.
  unfold repaint, mk_surface_commit, paint. cbn [disp set_disp]. destruct (mk_surface_get _ _); [|by destruct (bad_id _ _)].
  destruct (_ =? 0); by destruct (bad_id _ _).
Qed.
Lemma keys_mouse i ks s : dmouse (disp (snd (desk_keys i ks s))) = dmouse (disp s).
Proof.
  revert s. induction ks as [|k ks IH]; intros s; cbn [desk_keys]; [done|].
  assert (E : dmouse (disp (snd (desk_key i k s))) = dmouse (disp s)).
  { unfold desk_key. destruct (_ && _); [done|]. set (s1 := if k =? 27 then _ else s).
    assert (E1 : dmouse (disp s1) = dmouse (disp s)) by (unfold s1; by destruct (k =? 27)). clearbody s1. rewrite <- E1.
    destruct (_ || _); [done|]. destruct (surface_alive _ _); [|done].
    destruct (calc_key k (calc s1)) as [c []]; [|done]. cbn [snd disp set_redraw]. by rewrite repaint_mouse. }
  destruct (desk_key i k s) as [[] s1]; [done|]. by rewrite IH.
Qed.

Lemma round_ok l s i :
  desk_ok l s -> input_ok i -> exists l' o s', round i s = Ret (o, s') /\ desk_ok l' s'.
Proof.
  intros K [Hx Hy]. unfold round.
  set (s0 := set_disp (set_mouse (pointer i) (disp s)) s).
  assert (K0 : desk_ok l s0).
  { eapply ok_calm; [exact K | | done | apply K]. apply mouse_calm; [apply K | unfold in_s32; lia]. }
  pose proof (keys_ok l s0 i (keys i) K0) as K1. pose proof (keys_mouse i (keys i) s0) as Hm.
  change (dmouse (disp s0)) with (pointer i) in Hm.
  destruct (desk_keys i (keys i) s0) as [[] s1]; cbn [snd] in *; [by exists l, Left, s1|].
  rewrite Hm. cbn [Mouse.mouse_get]. set (m' := Mouse.mk_mouse _ _ _ _ _ _ _ _ _ _ _).
  set (mx := Mouse.mx (pointer i)) in *. set (my := Mouse.my (pointer i)) in *.
  set (s2 := set_disp (set_mouse m' (disp s1)) s1).
  assert (K2 : desk_ok l s2).
  { eapply ok_calm; [exact K1 | | done | apply K1]. apply mouse_calm; [apply K1 | unfold in_s32; cbn; lia]. }
  clearbody s2. clear K0 K1 Hm s0 s1 K.
  set (left := Z.testbit _ 0). set (was := Z.testbit (prev_buttons s2) 0).
  assert (exists l' o s', (if left && negb was then on_press i mx my s2 else Ret (Going, s2)) = Ret (o, s') /\ desk_ok l' s')
    as (l3 & o & s3 & -> & K3) by (destruct (left && negb was); [by apply (press_ok l) | by exists l, Going, s2]).
  cbn [mbind out_mbind]. destruct o; [|by exists l3; eexists _, _..].
  exists l3, Going. eexists. split; [done|].
  set (s4 := if negb left && was then stop_drag s3 else s3).
  assert (K4 : desk_ok l3 s4) by (unfold s4; destruct (negb left && was); [destruct K3; by constructor | done]).
  clearbody s4. set (s5 := if dragging s4 && _ && left then _ else s4).
  assert (K5 : desk_ok l3 s5).
  { unfold s5. destruct (dragging s4) eqn:Ed; [|done]. destruct (_ && left); [|done].
    destruct (dk_drag _ _ K4 Ed). eapply ok_calm; [exact K4 | | done | apply K4].
    cbn [disp set_redraw set_disp]. rewrite !s32_small by (unfold in_s32; lia). apply move_calm; [apply K4 | lia | lia]. }
  clearbody s5.
  assert (K6 : desk_ok l3 (redraw i mx my (left && negb was || negb left && was) (refresh i s5))).
  { apply redraw_ok; [by apply refresh_ok | unfold in_s32; lia | unfold in_s32; lia]. }
  destruct K6. by constructor.
Qed.

Lemma desk_rounds_ok l s ins :
  desk_ok l s -> Forall input_ok ins -> exists l' o s', rounds ins s = Ret (o, s') /\ desk_ok l' s'.
Proof.
  intros K Hin. revert l s K. induction Hin as [|i ins Hi _ IH]; intros l s K; cbn [rounds]; [by exists l, Going, s|].
  destruct (round_ok l s i K Hi) as (l1 & o & s1 & -> & K1). cbn [mbind out_mbind].
  destruct o; [by apply (IH l1) | by exists l1; eexists _, _..].
Qed.

Lemma park_ok l s a x y :
  desk_ok l s -> -0x40000000 <= x <= 0x40000000 -> -0x40000000 <= y <= 0x40000000 -> desk_ok l (park a x y s).
Proof.
  intros K Hx Hy. unfold park. destruct (surface_alive _ _); [|done].
  eapply ok_calm; [exact K | | done | apply K]. by apply move_calm; [apply K | |].
Qed.

Lemma desk_start_ok l d i x y :
  disp_wf l d -> (forall i, 0 <= i < 8 -> used (surf_at d i) = false) ->
  exists l' s, desktop_start i (fresh_desk i d x y) = Ret s /\ desk_ok l' s.
Proof.
  intros Hwf Hno. unfold desktop_start.
  assert (K : desk_ok l (fresh_desk i d x y)).
  { constructor; cbn; try done; [by left|]. intros j Hj. by rewrite Hno. }
  destruct (open_ok _ _ Welcome i K) as (l1 & s1 & -> & K1). cbn [mbind out_mbind].
  destruct (open_ok _ _ Clock i K1) as (l2 & s2 & -> & K2). cbn [mbind out_mbind].
  exists l2. eexists. split; [done|]. apply compose_ok, park_ok; [apply park_ok; [done|lia|lia] | lia | lia].
Qed.

(** C14. The desktop keeps its books whatever the user does: on a compositor
    that has just started, the opening windows and any number of rounds with
    any keys, clicks and mouse positions run without a fault; every open
    window belongs to exactly one application and every application has at
    most one, the pixel buffers stay apart in the heap, and a window that is
    closed is forgotten. *)
Theorem desktop_invariant l d i0 x y ins :
  disp_wf l d -> (forall i, 0 <= i < 8 -> used (surf_at d i) = false) -> Forall input_ok ins ->
  exists s0 l' o s', desktop_start i0 (fresh_desk i0 d x y) = Ret s0 /\ rounds ins s0 = Ret (o, s') /\ desk_ok l' s'.
Proof.
  intros Hwf Hno Hin. destruct (desk_start_ok l d i0 x y Hwf Hno) as (l1 & s0 & E & K).
  destruct (desk_rounds_ok l1 s0 ins K Hin) as (l2 & o & s' & E2 & K2). by exists s0, l2, o, s'.
Qed.

(** ** The desk calculator *)

(** Digits to a number, and an expression from left to right. *)
Definition number (ds : list Z) : Z := foldl (fun v x => v * 10 + x) 0 ds.
Inductive arith : Type := Plus | Minus | Times.
Definition arith_key (o : arith) : Z := match o with Plus => 43 | Minus => 45 | Times => 42 end.
Definition arith_code (o : arith) : Z := match o with Plus => 1 | Minus => 2 | Times => 3 end.
Definition arith_fun (o : arith) : Z -> Z -> Z := match o with Plus => Z.add | Minus => Z.sub | Times => Z.mul end.
Definition left_to_right (v : Z) (e : list (arith * list Z)) : Z :=
  foldl (fun v p => arith_fun (fst p) v (number (snd p))) v e.
Definition digit_keys (ds : list Z) : list Z := map (fun x => 48 + x) ds.
Definition expr_keys (e : list (arith * list Z)) : list Z :=
  concat (map (fun p => arith_key (fst p) :: digit_keys (snd p)) e).
Definition digits (ds : list Z) : Prop := Forall (fun x => 0 <= x <= 9) ds.

Lemma arith_s32 o a b : s32 (arith_fun o (s32 a) (s32 b)) = s32 (arith_fun o a b).
Proof.
  destruct o; cbn [arith_fun].
  - by rewrite s32_add_l, s32_add_r.
  - apply s32_eqm. by rewrite Zminus_mod, !s32_mod, <- Zminus_mod.
  - by rewrite s32_mul_l, s32_mul_r.
Qed.

(** A key for the calculator reaches it and leaves its window open. *)
Definition calc_open (l : list (Z * Z)) (s : deskst) : Prop := desk_ok l s /\ ids s Calculator <> -1.

Lemma calc_step l s i k :
  calc_open l s -> k <> 27 -> k <> 113 -> k <> 81 ->
  exists s', desk_key i k s = (false, s') /\ calc_open l s' /\ calc s' = fst (calc_key k (calc s)).
Proof.
  intros [K Ho] H1 H2 H3. pose proof (key_ok l s i k K) as K'. unfold desk_key in *.
  rewrite (proj2 (Z.eqb_neq k 27)), (proj2 (Z.eqb_neq k 113)), (proj2 (Z.eqb_neq k 81)) in * by done. cbn [andb orb] in *.
  rewrite (alive_used l) in * by done. rewrite (proj2 (Z.eqb_neq (ids s Calculator) (-1))) in * by done. cbn [negb] in *.
  destruct (calc_key k (calc s)) as [c []]; cbn [snd fst] in *; eexists; (split; [done|]); by split.
Qed.

Lemma keys_cons i k ks s s' :
  desk_key i k s = (false, s') -> desk_keys i (k :: ks) s = desk_keys i ks s'.
Proof. intros E. cbn [desk_keys]. by rewrite E. Qed.

Lemma type_digits l s i ds rest :
  calc_open l s -> digits ds ->
  exists s', desk_keys i (digit_keys ds ++ rest) s = desk_keys i rest s' /\ calc_open l s' /\
    calc s' = mk_calc (calc_acc (calc s)) (foldl (fun v x => s32 (v * 10 + x)) (calc_val (calc s)) ds) (calc_op (calc s)).
Proof.
  intros K Hd. revert s K. induction Hd as [|d ds Hd _ IH]; intros s K; cbn [digit_keys map Datatypes.app].
  { exists s. split; [done|]. split; [done|]. by destruct (calc s). }
  destruct (calc_step l s i (48 + d) K) as (s1 & E1 & K1 & C1); try lia.
  destruct (IH s1 K1) as (s2 & E2 & K2 & C2). exists s2. rewrite (keys_cons _ _ _ _ _ E1). split; [done|]. split; [done|].
  unfold calc_key in C1. rewrite (proj2 (Z.leb_le 48 (48 + d))), (proj2 (Z.leb_le (48 + d) 57)) in C1 by lia. cbn [andb fst] in C1.
  rewrite C2, C1. cbn [calc_acc calc_val calc_op foldl]. by replace (48 + d - 48) with d by lia.
Qed.

Lemma number_s32 ds : foldl (fun v x => s32 (v * 10 + x)) 0 ds = s32 (number ds).
Proof.
  unfold number. assert (G : forall v, foldl (fun v x => s32 (v * 10 + x)) (s32 v) ds = s32 (foldl (fun v x => v * 10 + x) v ds));
    [|apply (G 0)].
  induction ds as [|d ds IH]; intros v; cbn [foldl]; [done|]. rewrite <- IH. f_equal.
  by rewrite <- (s32_add_l (s32 v * 10)), s32_mul_l, s32_add_l.
Qed.

(** What the calculator holds after a number: the sum so far, the operator
    to come and the number typed. *)
Definition pending (v : Z) (o : option arith) (n : Z) (c : calcst) : Prop :=
  match o with
  | None => calc_op c = 0 /\ calc_val c = s32 v
  | Some o => c = mk_calc (s32 v) (s32 n) (arith_code o)
  end.
Definition settle (v : Z) (o : option arith) (n : Z) : Z :=
  match o with None => v | Some o => arith_fun o v n end.

Lemma apply_pending v o n c : pending v o n c -> calc_apply_op c = mk_calc (s32 (settle v o n)) (s32 (settle v o n)) 0.
Proof.
  unfold pending, calc_apply_op. destruct o as [o|].
  - intros ->. cbn [calc_op calc_acc calc_val settle]. rewrite <- (arith_s32 o v n). by destruct o.
  - by intros [-> ->].
Qed.

Lemma op_key_pending v o n c o' :
  pending v o n c -> fst (calc_key (arith_key o') c) = mk_calc (s32 (settle v o n)) 0 (arith_code o').
Proof.
  intros Hp. unfold calc_key. rewrite (apply_pending v o n c Hp). by destruct o'.
Qed.

Lemma type_expr l s i e v o n rest :
  calc_open l s -> Forall (fun p => digits (snd p)) e -> pending v o n (calc s) ->
  exists s' v' o' n', desk_keys i (expr_keys e ++ rest) s = desk_keys i rest s' /\ calc_open l s' /\
    pending v' o' n' (calc s') /\ settle v' o' n' = left_to_right (settle v o n) e.
Proof.
  intros K He. revert s v o n K. induction He as [|[o1 ds] e Hd _ IH]; intros s v o n K Hp.
  { exists s, v, o, n. by split_and!. }
  cbn [snd] in Hd. unfold expr_keys. cbn [map concat fst snd]. rewrite <- app_assoc. cbn [Datatypes.app].
  destruct (calc_step l s i (arith_key o1) K) as (s1 & E1 & K1 & C1); [by destruct o1..|].
  rewrite (op_key_pending v o n _ o1 Hp) in C1. rewrite (keys_cons _ _ _ _ _ E1).
  destruct (type_digits l s1 i ds (concat (map (fun p => arith_key (fst p) :: digit_keys (snd p)) e) ++ rest) K1 Hd)
    as (s2 & E2 & K2 & C2).
  rewrite C1 in C2. cbn [calc_acc calc_val calc_op] in C2. rewrite number_s32 in C2.
  destruct (IH s2 (settle v o n) (Some o1) (number ds) K2) as (s3 & v3 & o3 & n3 & E3 & K3 & P3 & S3); [done|].
  exists s3, v3, o3, n3. rewrite E2. by split_and!.
Qed.

(** The desk calculator computes an expression from left to right: with
    its window open and cleared, typing a number, any further operators and
    numbers, and Enter leaves the value of the expression, read from left to
    right without precedence, modulo 2^32. *)
Theorem desk_calc_left_to_right l s i ds e :
  desk_ok l s -> ids s Calculator <> -1 -> calc s = mk_calc 0 0 0 -> digits ds -> Forall (fun p => digits (snd p)) e ->
  let v := s32 (left_to_right (number ds) e) in
  exists s', desk_keys i (digit_keys ds ++ expr_keys e ++ [10]) s = (false, s') /\ calc s' = mk_calc v v 0.
Proof.
  intros K Ho Hc Hd He. cbv zeta.
  destruct (type_digits l s i ds (expr_keys e ++ [10]) (conj K Ho) Hd) as (s1 & -> & K1 & C1).
  rewrite Hc in C1. cbn [calc_acc calc_val calc_op] in C1. rewrite number_s32 in C1.
  destruct (type_expr l s1 i e (number ds) None 0 [10] K1 He) as (s2 & v & o & n & -> & K2 & P2 & S2); [by rewrite C1|].
  cbn [settle] in S2. rewrite <- S2.
  destruct (calc_step l s2 i 10 K2) as (s3 & E3 & K3 & C3); [lia..|].
  exists s3. rewrite (keys_cons _ _ _ _ _ E3). split; [done|]. rewrite C3. change (fst (calc_key 10 (calc s2))) with (calc_apply_op (calc s2)).
  by apply apply_pending.
Qed.

(** ** Clicks *)

(** Where a window's title bar lies over an icon the click goes to the
    icon, although the window is drawn above it: the hit test names the
    title bar, and still the press opens the icon's application and no drag
    begins. *)
Theorem icon_takes_click l s i mx my ic id :
  desk_ok l s -> start_open s = false -> 0 <= my < g_sh (disp s) - PANEL_H ->
  mk_hit_test mx my (disp s) = mk_hit id 0 0 true false -> 0 <= id ->
  icon_at (mk_screen_w (disp s)) (mk_screen_h (disp s)) mx my = Some ic ->
  exists s', on_press i mx my s = Ret (Going, s') /\ need_redraw s' = true /\ dragging s' = dragging s /\
    exists s1, open_app (open (icons !!! ic)) i s = Ret s1 /\ disp s' = disp s1 /\ ids s' = ids s1.
Proof.
  intros K Hst Hy Hh Hid Hic. pose proof (w_screen _ _ (dk_wf _ _ K)) as Hs. pose proof (so_sh _ Hs).
  unfold PANEL_H in Hy. unfold on_press, mk_panel_power_rects, start_btn_rect, mk_screen_h.
  unfold MK_PANEL_H, PANEL_BTN_H, PANEL_BTN_W.
  assert (Hb : forall x w h y, g_sh (disp s) - 28 <= y -> in_box mx my x y w h = false).
  { intros x w h y Hyy. unfold in_box. destruct (Z.leb_spec y my); [lia|]. by rewrite andb_false_r. }
  rewrite !Hb by lia. rewrite Hst. fold (mk_screen_h (disp s)). rewrite Hic. unfold open_and_redraw.
  destruct (open_ok l s (open (icons !!! ic)) i K) as (l' & s1 & E & K1). rewrite E. cbn [mbind out_mbind].
  eexists. split; [done|]. split; [done|]. split; [|by exists s1].
  unfold open_app in E. destruct (surface_alive _ _); [by injection E as <-|].
  destruct (app_window _) as [[w h] t]. destruct (mk_surface_create _ _ _ _) as [[r d']|]; [|done]. cbn [mbind out_mbind] in E.
  destruct (r <? 0); [by injection E as <-|]. injection E as <-. by destruct (mk_surface_get _ _).
Qed.

End Desk.

(** The rows of the menu as one division. *)
Lemma menu_rows_spec n i iy my :
  menu_rows n i iy my =
  if decide (iy <= my < iy + 22 * Z.of_nat n) then inl (i + (my - iy) / 22) else inr (iy + 22 * Z.of_nat n).
Proof.
  revert i iy. induction n as [|n IH]; intros i iy; cbn [menu_rows].
  - rewrite decide_False by lia. f_equal. lia.
  - unfold SM_ITEM_H. destruct (Z.leb_spec iy my), (Z.ltb_spec my (iy + 22)); cbn [andb].
    2-4: rewrite IH; repeat case_decide; try lia; f_equal; try lia.
    + rewrite decide_True by lia. f_equal. rewrite Z.div_small by lia. lia.
    + replace (my - iy) with (my - (iy + 22) + 1 * 22) by lia. rewrite Z.div_add by lia. lia.
Qed.

Lemma menu_click_spec scr mx my :
  let y := scr - 314 in
  start_menu_click scr mx my =
  if negb (in_box mx my 4 y 200 286) then -1
  else if decide (y + 28 <= my < y + 204) then (my - (y + 28)) / 22
  else if decide (y + 210 <= my < y + 232) then 99
  else if decide (y + 232 <= my < y + 254) then 100
  else if decide (y + 254 <= my < y + 276) then 101 else -2.
Proof.
  cbv zeta. unfold start_menu_click, start_menu_rect, start_menu_h, SM_X, SM_W, SM_ITEM_H.
  replace (scr - 28 - (28 + 8 * 22 + 8 + 3 * 22 + 8)) with (scr - 314) by lia. set (y := scr - 314).
  rewrite menu_rows_spec. change (28 + 8 * 22 + 8 + 3 * 22 + 8) with 286. change (22 * Z.of_nat 8) with 176.
  unfold in_box.
  replace ((mx <? 4) || (4 + 200 <=? mx) || (my <? y) || (y + 286 <=? my))
    with (negb ((4 <=? mx) && (mx <? 4 + 200) && (y <=? my) && (my <? y + 286))) by lia.
  destruct (negb _); [done|].
  destruct (decide (y + 28 <= my < y + 28 + 176)); [rewrite decide_True by lia; lia|]. rewrite (decide_False (P := y + 28 <= my < y + 204)) by lia.
  destruct (Z.leb_spec (y + 28 + 176 + 6) my), (Z.ltb_spec my (y + 28 + 176 + 6 + 22)); cbn [andb];
    repeat case_decide; try lia; try done;
    destruct (Z.leb_spec (y + 28 + 176 + 6 + 22) my), (Z.ltb_spec my (y + 28 + 176 + 6 + 22 + 22)); cbn [andb]; try lia; try done;
    destruct (Z.leb_spec (y + 28 + 176 + 6 + 22 + 22) my), (Z.ltb_spec my (y + 28 + 176 + 6 + 22 + 22 + 22)); cbn [andb]; try lia; done.
Qed.

Lemma menu_item_drawn scr n it o :
  menu_items !! n = Some it -> o ∈ draw_menu_item 4 200 (scr - 314 + 28 + Z.of_nat n * 22) n (fst it) ->
  o ∈ draw_start_menu scr true.
Proof.
  intros Hn Ho. unfold draw_start_menu, start_menu_rect, start_menu_h, SM_X, SM_W, SM_ITEM_H. cbn [negb].
  replace (scr - 28 - (28 + 8 * 22 + 8 + 3 * 22 + 8)) with (scr - 314) by lia.
  rewrite !elem_of_app. right. left. apply list_elem_of_In, in_concat. eexists. split; [|by apply list_elem_of_In].
  apply list_elem_of_In, (list_elem_of_lookup_2 _ n). by rewrite list_lookup_imap, Hn.
Qed.

(** The three buttons: what they answer, name, indent and colour. *)
Definition menu_buttons : list (Z * chars * Z * Z) :=
  [(0, $"Recycle Bin", 16, 0x00555555); (1, $"Reboot", 20, 0x00C19C00); (2, $"Shutdown", 16, 0x00C42B1C)].

Lemma menu_button_drawn scr k name dx c o :
  (k, name, dx, c) ∈ menu_buttons -> o ∈ draw_menu_button 4 200 (scr - 314 + 210 + k * 22) dx name c ->
  0 <= k <= 2 /\ o ∈ draw_start_menu scr true.
Proof.
  unfold draw_start_menu, start_menu_rect, start_menu_h, SM_X, SM_W, SM_ITEM_H, menu_buttons. cbn [negb].
  replace (scr - 28 - (28 + 8 * 22 + 8 + 3 * 22 + 8)) with (scr - 314) by lia. rewrite !elem_of_app, !elem_of_cons.
  replace (scr - 314 + 28 + Z.of_nat 8 * 22 + 6) with (scr - 314 + 210 + 0 * 22) by lia.
  replace (scr - 314 + 210 + 0 * 22 + 22) with (scr - 314 + 210 + 1 * 22) by lia.
  replace (scr - 314 + 210 + 0 * 22 + 2 * 22) with (scr - 314 + 210 + 2 * 22) by lia.
  intros [[= -> -> -> ->]|[[= -> -> -> ->]|[[= -> -> -> ->]|Hin]]] Ho; [..|by apply elem_of_nil in Hin]; (split; [lia|]); tauto.
Qed.

Lemma menu_button_answers scr k name dx c :
  (k, name, dx, c) ∈ menu_buttons ->
  exists bx by_ bw bh c, DFill bx by_ bw bh c ∈ draw_start_menu scr true
    /\ (exists dx, DText (4 + dx) (by_ + 2) name 0x00FFFFFF c ∈ draw_start_menu scr true)
    /\ forall mx my, in_box mx my bx by_ bw bh = true -> start_menu_click scr mx my = 99 + k.
Proof.
  intros Hin. exists 12, (scr - 314 + 210 + k * 22), 184, 20, c.
  destruct (menu_button_drawn scr k name dx c (DFill 12 (scr - 314 + 210 + k * 22) 184 20 c) Hin) as [Hk Ho]; [by constructor|].
  split; [done|]. split; [exists dx; eapply menu_button_drawn; [done|]; apply list_elem_of_further, list_elem_of_here|].
  intros mx my Hb. rewrite menu_click_spec. unfold in_box in *. replace (negb _) with false by lia.
  repeat case_decide; lia.
Qed.

(** The open menu answers a click with the entry that is drawn there:
    each of the eight rows is a filled rectangle with its name in it, and a
    click is answered by row [n] exactly inside that rectangle; each of the
    three buttons below is answered by its own action. *)
Theorem menu_click_drawn scr n it :
  menu_items !! n = Some it ->
  exists x y w h bg, DFill x y w h bg ∈ draw_start_menu scr true
    /\ DText (x + 24) (y + 4) (fst it) 0x00F0F0F0 bg ∈ draw_start_menu scr true
    /\ (forall mx my, in_box mx my x y w h = true <-> start_menu_click scr mx my = Z.of_nat n)
    /\ Forall (fun p : Z * chars => exists bx by_ bw bh c, DFill bx by_ bw bh c ∈ draw_start_menu scr true
         /\ (exists dx, DText (x + dx) (by_ + 2) (snd p) 0x00FFFFFF c ∈ draw_start_menu scr true)
         /\ forall mx my, in_box mx my bx by_ bw bh = true -> start_menu_click scr mx my = fst p)
       [(99, $"Recycle Bin"); (100, $"Reboot"); (101, $"Shutdown")].
Proof.
  intros Hn. assert (H8 : (n < 8)%nat) by (by apply lookup_lt_Some in Hn).
  exists 4, (scr - 314 + 28 + Z.of_nat n * 22), 200, 22, (if (n mod 2 =? 0)%nat then 0x001E1E1E else 0x00252525).
  split; [eapply menu_item_drawn; [done|]; by constructor|].
  split; [eapply menu_item_drawn; [done|]; apply list_elem_of_further, list_elem_of_further, list_elem_of_here|].
  split.
  { intros mx my. rewrite menu_click_spec. unfold in_box. split.
    - intros Hb. replace (negb _) with false by lia. rewrite decide_True by lia. zlia.
    - destruct (negb _) eqn:Eb; [lia|]. case_decide; [|repeat case_decide; lia]. intros Hq.
      assert (22 * Z.of_nat n <= my - (scr - 314 + 28) < 22 * Z.of_nat n + 22) by zlia. lia. }
  repeat constructor; cbn [fst snd].
  - apply (menu_button_answers scr 0 _ 16 0x00555555). by constructor.
  - apply (menu_button_answers scr 1 _ 20 0x00C19C00). apply list_elem_of_further. by constructor.
  - apply (menu_button_answers scr 2 _ 16 0x00C42B1C). do 2 apply list_elem_of_further. by constructor.
Qed.

(** ** The clock *)

Lemma number_snoc ds x : number (ds ++ [x]) = number ds * 10 + x.
Proof. unfold number. by rewrite foldl_app. Qed.

Lemma u32_digits_value n k v :
  0 <= v < 10 ^ Z.of_nat k -> (k <= n)%nat ->
  exists ds, u32_digits n v = digit_keys ds /\ digits ds /\ number ds = v /\ (length ds <= k)%nat.
Proof.
  revert k v. induction n as [|n IH]; intros k v Hv Hk; cbn [u32_digits].
  { replace k with 0%nat in * by lia. exists []. split; [done|]. split; [constructor|]. cbn in *. lia. }
  destruct (Z.eqb_spec v 0) as [->|Hv0]; [exists []; split; [done|]; split; [constructor|]; cbn; lia|].
  destruct k as [|k]; [cbn in Hv; lia|].
  destruct (IH k (v / 10)) as (ds & E & Hd & Hn & Hl); [|lia|].
  { rewrite Nat2Z.inj_succ, Z.pow_succ_r in Hv by lia. split; [apply Z.div_pos; lia | apply Z.div_lt_upper_bound; lia]. }
  exists (ds ++ [v mod 10]). rewrite E. split; [unfold digit_keys; by rewrite map_app|]. split.
  - apply Forall_app. split; [done|]. constructor; [|constructor]. pose proof (Z.mod_pos_bound v 10). lia.
  - rewrite number_snoc, Hn, length_app. split; [pose proof (Z.div_mod v 10); lia | simpl; lia].
Qed.

Lemma u32_to_str_value v :
  0 <= v < 2 ^ 32 -> exists ds, u32_to_str v = digit_keys ds /\ digits ds /\ number ds = v /\ (length ds <= 10)%nat.
Proof.
  intros Hv. unfold u32_to_str. destruct (Z.eqb_spec v 0) as [->|].
  - exists [0]. split; [done|]. split; [constructor; [lia | constructor]|]. cbn. split; [done | lia].
  - apply (u32_digits_value 11 10 v); [lia | lia].
Qed.

(** A number below sixty with its leading zero. *)
Lemma two_digits m :
  0 <= m < 60 -> (if m <? 10 then [48] else []) ++ u32_to_str m = digit_keys [m / 10; m mod 10].
Proof.
  intros Hm. assert (G : forallb (fun m => bool_decide ((if m <? 10 then [48] else []) ++ u32_to_str m = digit_keys [m / 10; m mod 10]))
    (seqZ 0 60) = true) by (by vm_compute).
  rewrite forallb_forall in G. specialize (G m). rewrite <- list_elem_of_In, elem_of_seqZ in G.
  by apply bool_decide_eq_true in G; [|lia].
Qed.

(** The clock window shows the time since boot: the text is hours,
    minutes and seconds, two digits for minutes and seconds, that add up to
    the whole seconds of the tick count, and it fits the line buffer of 48
    characters at any tick count and rate. *)
Theorem uptime_shown ticks rate :
  0 <= ticks < 2 ^ 32 -> 0 <= rate ->
  exists h m1 m2 s1 s2,
    format_uptime ticks rate = digit_keys h ++ [58] ++ digit_keys [m1; m2] ++ [58] ++ digit_keys [s1; s2]
    /\ digits (h ++ [m1; m2; s1; s2]) /\ number [m1; m2] < 60 /\ number [s1; s2] < 60
    /\ number h * 3600 + number [m1; m2] * 60 + number [s1; s2] = ticks / (if rate =? 0 then 100 else rate)
    /\ (length (format_uptime ticks rate) < 48)%nat.
Proof.
  intros Ht Hr. unfold format_uptime. set (r := if rate =? 0 then 100 else rate).
  assert (0 < r) by (unfold r; destruct (Z.eqb_spec rate 0); lia). clearbody r.
  assert (Hsec : 0 <= ticks / r < 2 ^ 32).
  { split; [apply Z.div_pos; lia|]. apply Z.div_lt_upper_bound; nia. }
  set (sec := ticks / r) in *. clearbody sec.
  pose proof (Z.mod_pos_bound sec 60 ltac:(lia)) as Hs. pose proof (Z.mod_pos_bound (sec / 60) 60 ltac:(lia)) as Hm.
  destruct (u32_to_str_value (sec / 60 / 60)) as (h & Eh & Hd & Hn & Hl); [zlia|].
  exists h, (sec / 60 mod 60 / 10), (sec / 60 mod 60 mod 10), (sec mod 60 / 10), (sec mod 60 mod 10).
  assert (E : u32_to_str (sec / 60 / 60) ++ [58] ++ (if sec / 60 mod 60 <? 10 then [48] else []) ++ u32_to_str (sec / 60 mod 60)
      ++ [58] ++ (if sec mod 60 <? 10 then [48] else []) ++ u32_to_str (sec mod 60)
    = digit_keys h ++ [58] ++ digit_keys [sec / 60 mod 60 / 10; sec / 60 mod 60 mod 10] ++ [58] ++ digit_keys [sec mod 60 / 10; sec mod 60 mod 10]).
  { rewrite Eh, <- !two_digits, <- !app_assoc by done. done. }
  rewrite E. split; [done|]. unfold number in *. cbn [foldl]. rewrite !length_app. unfold digit_keys. rewrite length_map. cbn [map length].
  split; [apply Forall_app; split; [done|]; repeat constructor; zlia|]. split; [zlia|]. split; [zlia|]. split; [|lia].
  rewrite Hn. zlia.
Qed.

(** ** Witnesses *)

Definition in0 (ks : list Z) (m : Mouse.mouse) : input := mk_in ks m 1000 100 3.
Definition mouse_at (x y b : Z) : Mouse.mouse :=
  Mouse.mk_mouse x y b 0 0 639 479 (Mouse.evq Mouse.bss_mouse) 0 0 [].
Definition desk0 : deskst (H := Kmalloc.kstate) := fresh_desk (in0 [] Mouse.bss_mouse) demo0 (-1) (-1).

Lemma demo0_closed i : 0 <= i < 8 -> used (surf_at demo0 i) = false.
Proof. intros Hi. unfold surf_at. cbn [g_surf demo0]. by rewrite lookup_total_replicate_2 by lia. Qed.
Lemma desk0_ok : desk_ok [] desk0.
Proof.
  constructor; cbn; try done; [exact demo0_wf | by left|]. intros i Hi. unfold desk0. cbn. by rewrite demo0_closed.
Qed.

Lemma desktop_invariant_witness :
  exists s0 l' o s', desktop_start (in0 [] Mouse.bss_mouse) desk0 = Ret s0 /\
    rounds [in0 [49; 43] (mouse_at 30 60 1); in0 [] (mouse_at 300 50 0)] s0 = Ret (o, s') /\ desk_ok l' s'.
Proof.
  apply (desktop_invariant [] demo0).
  - exact demo0_wf.
  - exact demo0_closed.
  - repeat constructor; cbn; lia.
Defined.

(** The first window of the empty desktop, without drawing it. *)
Lemma create_demo0 w h t :
  40 <= w <= 640 -> 20 <= h <= 400 ->
  (exists p hp, a_alloc (dheap demo0) (u32 (w * h * 4)) = Ret (p, hp) /\ p <> 0) ->
  exists d f, mk_surface_create w h (Some t) demo0 = Ret (0, d) /\ g_sw d = 640 /\ g_sh d = 480 /\
    g_surf d = f :: replicate 7 bss_surface /\ f = mk_surf true 40 40 w h true (title f) (pixels f) true.
Proof.
  intros Hw Hh (p & hp & E & Hp). unfold mk_surface_create, MK_TITLE_H, MK_PANEL_H. cbn [g_sw g_sh demo0 g_surf].
  replace (_ || _) with false by lia.
  change (for_find _ 0 MK_MAX_SURFACES) with (Some 0%nat). cbn iota. cbn [dheap demo0] in E |- *. rewrite E. cbn [mbind out_mbind].
  rewrite (proj2 (Z.eqb_neq p 0) Hp). by eexists _, _.
Qed.

(** The calculator opened on the empty desktop. *)
Definition with_calc : deskst (H := Kmalloc.kstate) :=
  match open_app Calculator (in0 [] Mouse.bss_mouse) desk0 with Ret s => s | Fault _ => desk0 end.
Lemma with_calc_open :
  ids with_calc Calculator = 0 /\ calc with_calc = mk_calc 0 0 0 /\ start_open with_calc = false /\
  g_sw (disp with_calc) = 640 /\ g_sh (disp with_calc) = 480 /\
  exists f, g_surf (disp with_calc) = f :: replicate 7 bss_surface /\
    f = mk_surf true 40 40 280 160 true (title f) (pixels f) true.
Proof.
  unfold with_calc, open_app. change (surface_alive _ _) with false. cbn iota beta. cbn [app_window].
  destruct (create_demo0 280 160 $"Calculator") as (d & f & E & Ew & Eh & Es & Ef); [lia | lia | |].
  { change (u32 (280 * 160 * 4)) with 179200.
    destruct (a_alloc (dheap demo0) 179200) as [[p hp]|] eqn:E; [|exfalso; revert E; by vm_compute].
    exists p, hp. split; [done|]. intros ->.
    assert (Hn : (match a_alloc (dheap demo0) 179200 with Ret (p, _) => p | Fault _ => 0 end) <> 0) by (vm_compute; discriminate).
    rewrite E in Hn. done. }
  change (disp desk0) with demo0. rewrite E. cbn [mbind out_mbind]. change (0 <? 0) with false. cbn iota.
  assert (Hb : forall m, bad_id 0 (set_pmem m d) = false /\ bad_id 0 d = false).
  { intros m. unfold bad_id, surf_at. cbn [set_pmem set_heap g_surf]. rewrite Es, Ef. done. }
  unfold mk_surface_get. cbn [disp set_id set_disp]. rewrite (proj2 (Hb (pmem d))).
  unfold repaint, mk_surface_get. cbn [disp ids set_id set_disp].
  change (if decide (Calculator = Calculator) then 0 else _) with 0. rewrite (proj2 (Hb (pmem d))).
  set (x := paint _ _ _ _ d).
  assert (Ex : exists m, x = set_pmem m d \/ x = d) by (unfold x, paint; destruct (_ =? 0); [exists (pmem d); by right | eexists; by left]).
  clearbody x. destruct Ex as [m Ex].
  assert (Hx : g_surf x = g_surf d /\ g_sw x = 640 /\ g_sh x = 480) by (by destruct Ex as [-> | ->]).
  destruct Hx as (Hx1 & Hx2 & Hx3). unfold mk_surface_commit.
  replace (bad_id 0 x) with false by (unfold bad_id, surf_at; rewrite Hx1, Es, Ef; done).
  cbn [calc start_open set_id set_disp ids g_sw g_sh g_surf disp upd_surf set_surf]. rewrite Hx1, Es.
  split_and!; try done. eexists. split; [done|]. by rewrite Ef.
Qed.
Lemma with_calc_ok : exists l, desk_ok l with_calc.
Proof.
  unfold with_calc. destruct (open_ok [] desk0 Calculator (in0 [] Mouse.bss_mouse) desk0_ok) as (l & s' & -> & K). by exists l.
Qed.

Lemma desk_calc_left_to_right_witness :
  exists s', desk_keys (in0 [] Mouse.bss_mouse) [49; 50; 43; 51; 42; 52; 10] with_calc = (false, s') /\
    calc s' = mk_calc 60 60 0.
Proof.
  destruct with_calc_ok as [l K]. destruct with_calc_open as (Ei & Ec & _).
  apply (desk_calc_left_to_right l with_calc (in0 [] Mouse.bss_mouse) [1; 2] [(Plus, [3]); (Times, [4])]).
  - exact K.
  - rewrite Ei. discriminate.
  - exact Ec.
  - repeat (constructor; [lia|]). constructor.
  - repeat constructor; cbn; lia.
Defined.

(** The calculator's window is at (40, 40), over the icon of the clock. *)
Lemma icon_takes_click_witness :
  mk_hit_test 50 50 (disp with_calc) = mk_hit 0 0 0 true false /\
  exists s', on_press (in0 [] (mouse_at 50 50 1)) 50 50 with_calc = Ret (Going, s') /\ dragging s' = dragging with_calc.
Proof.
  destruct with_calc_ok as [l K]. destruct with_calc_open as (_ & _ & Hst & Ew & Eh & f & Es & Ef).
  assert (Hh : mk_hit_test 50 50 (disp with_calc) = mk_hit 0 0 0 true false).
  { unfold mk_hit_test, MK_MAX_SURFACES. cbn [hit_loop]. unfold surf_at. rewrite Es, Ef. reflexivity. }
  split; [exact Hh|].
  destruct (icon_takes_click l with_calc (in0 [] (mouse_at 50 50 1)) 50 50 0 0) as (s' & E & _ & Hd & _).
  - exact K.
  - exact Hst.
  - rewrite Eh. unfold PANEL_H. lia.
  - exact Hh.
  - lia.
  - unfold mk_screen_w, mk_screen_h. rewrite Ew, Eh. reflexivity.
  - exists s'. split; [exact E | exact Hd].
Defined.

Lemma menu_click_drawn_witness :
  exists x y w h bg, DFill x y w h bg ∈ draw_start_menu 600 true
    /\ forall mx my, in_box mx my x y w h = true <-> start_menu_click 600 mx my = 1.
Proof.
  destruct (menu_click_drawn 600 1 ($"SysInfo", SysInfo) eq_refl) as (x & y & w & h & bg & Hf & _ & Hc & _).
  exists x, y, w, h, bg. split; [exact Hf | exact Hc].
Defined.

Lemma uptime_shown_witness :
  exists h m1 m2 s1 s2, format_uptime 366100 100 = digit_keys h ++ [58] ++ digit_keys [m1; m2] ++ [58] ++ digit_keys [s1; s2]
    /\ number h * 3600 + number [m1; m2] * 60 + number [s1; s2] = 3661.
Proof.
  destruct (uptime_shown 366100 100) as (h & m1 & m2 & s1 & s2 & E & _ & _ & _ & Hn & _); [lia | lia|].
  by exists h, m1, m2, s1, s2.
Defined.
End DesktopSpec.
