(* ===== verification/Install.v ===== *)
(** * The installer (src/src/install.c)

    Boot sector, second stage, partition tables, file system and kernel
    image on the disk the FAT32 driver and the partition code share.  The
    images the build may link in are arguments: [None] when the symbols are
    missing or empty. *)

From S2P Require Import Prelude Memory Terminal Fs Ata Fat32 Fat32Spec Part Vfs Elf.
Import Terminal Ata.
#[local] Existing Instance Fat32Spec.Fat32Spec.fat32_driver.

Module Install.

Definition KERNEL_LBA : Z := 8192.
Definition META_LBA : Z := 8191.
Definition STAGE2_LBA : Z := 1.

Record inst : Type := mk_inst {
  ivfs : Vfs.vfs Fat32.fatst;
  isec : list Z;             (** the sector buffer of part.c *)
  itm : term;
}.

Definition fat (s : inst) : Fat32.fatst := Vfs.fat (ivfs s).
Definition idisk (s : inst) : disk := Fat32.dsk (fat s).
Definition set_fat (f : Fat32.fatst) (s : inst) : inst := mk_inst (Vfs.set_fat f (ivfs s)) (isec s) (itm s).
Definition set_disk (d : disk) (s : inst) : inst := set_fat (Fat32.set_dsk d (fat s)) s.
Definition say (t : chars) (s : inst) : inst := mk_inst (ivfs s) (isec s) (terminal_writestring t (itm s)).

Definition step (t : chars) (s : inst) : inst :=
  let s := say t (say $"[install] " s) in mk_inst (ivfs s) (isec s) (terminal_putchar 10 (itm s)).

(** [sec[i] = (off + i < nbytes) ? p[off + i] : 0], for the 512 bytes. *)
Definition sector_of (data : chars) (off : nat) : list Z :=
  let c := take SECTOR_SIZE (drop off data) in c ++ replicate (SECTOR_SIZE - length c) 0.

(** The loop of [write_raw]; the fuel is the number of sectors and one. *)
Fixpoint write_raw_loop (fuel : nat) (lba : Z) (data : chars) (off : nat) (d : disk) : out (Z * disk) :=
  match fuel with
  | O => Fault NoFuel
  | S f =>
      if (length data <=? off)%nat then Ret (0, d)
      else
        '(r, d) ← ata_write_sectors d lba 1 (sector_of data off);
        if negb (r =? 0) then Ret (-1, d)
        else write_raw_loop f (u32 (lba + 1)) data (off + SECTOR_SIZE) d
  end.
Definition write_raw (lba : Z) (data : chars) (s : inst) : out (Z * inst) :=
  '(r, d) ← write_raw_loop (S (length data)) lba data 0 (idisk s);
  Ret (r, set_disk d s).

(** The functions of part.c on the shared disk. *)
Definition on_part (f : Part.partst -> out (Z * Part.partst)) (s : inst) : out (Z * inst) :=
  '(r, p) ← f (Part.mk_part (isec s) (idisk s));
  let s := set_disk (Part.pdisk p) s in
  Ret (r, mk_inst (ivfs s) (Part.sec p) (itm s)).

Definition PART_START : Z := 2048.
Definition PART_SIZE : Z := 262144.

(** The boot sector [install_bootloader] writes for the code [mbr]. *)
Definition boot_sector (mbr : chars) : list Z :=
  let b := take 446 mbr ++ replicate (512 - length (take 446 mbr)) 0 in
  let b := Part.set8 (Part.set8 b 510 0x55) 511 0xAA in
  let b := Part.set8 (Part.set8 b 446 0x80) (446 + 4) 0x0C in
  Part.set32 (Part.set32 b (446 + 8) PART_START) (446 + 12) PART_SIZE.

Section Images.
Context (mbr stage2 kernel : option chars).

Definition install_bootloader (s : inst) : out (Z * inst) :=
  match mbr with
  | None =>
      let s := step ($"WARN: mbr.bin not linked " ++ [226; 128; 148]
                     ++ $" partition table only (rebuild host disk.img for boot code)") s in
      '(_, s) ← on_part (Part.part_create_mbr_fat32 PART_START PART_SIZE) s;
      match stage2 with
      | None => Ret (0, s)
      | Some s2 =>
          '(r, s) ← write_raw STAGE2_LBA s2 s;
          if negb (r =? 0) then Ret (-1, s) else Ret (0, step $"stage2 written" s)
      end
  | Some code =>
      '(r, d) ← ata_write_sectors (idisk s) 0 1 (boot_sector code);
      let s := set_disk d s in
      if negb (r =? 0) then Ret (-1, s)
      else match stage2 with
      | None => Ret (0, s)
      | Some s2 =>
          '(r, s) ← write_raw STAGE2_LBA s2 (step $"Writing stage2..." s);
          if negb (r =? 0) then Ret (-1, s) else Ret (0, s)
      end
  end.

(** The sector in front of the kernel: a magic number and the length in
    sectors. *)
Definition meta_sector (sects : Z) : list Z :=
  Part.set32 (wr Part.zero_sector 0 [0x4C; 0x4E; 0x52; 0x4B]) 4 sects.

Definition install_kernel_image (s : inst) : out (Z * inst) :=
  match kernel with
  | None => Ret (0, step $"WARN: kernel payload not linked (build with KERNEL_PAYLOAD=1)" s)
  | Some k =>
      let ksize := u32 (Z.of_nat (length k)) in
      let sects := u32 (ksize + 511) / 512 in
      let s := step $"Writing kernel image at LBA 8192..." s in
      '(r, d) ← ata_write_sectors (idisk s) META_LBA 1 (meta_sector sects);
      let s := set_disk d s in
      if negb (r =? 0) then Ret (-1, s)
      else
        '(r, s) ← write_raw KERNEL_LBA k s;
        if negb (r =? 0) then Ret (-1, s) else Ret (0, step $"Kernel sectors written." s)
  end.

(** A call of the FAT32 driver whose result is not used. *)
Definition on_fat (f : Fat32.fatst -> out (Fat32.fat_result * Fat32.fatst)) (s : inst) : out inst :=
  '(_, x) ← f (fat s); Ret (set_fat x s).

Definition fat_ok (r : Fat32.fat_result) : bool := match r with Fat32.FAT_OK => true | _ => false end.

Definition QUOTE : Z := 34.
Definition readme : chars := $"MyKernel installed volume. Boot via BIOS MBR stage2 or GRUB." ++ [13; 10].
Definition grub_cfg : chars :=
  $"set timeout=3" ++ [10] ++ $"menuentry " ++ [QUOTE] ++ $"MyKernel" ++ [QUOTE] ++ $" {" ++ [10]
  ++ $" multiboot /BOOT/KERNEL.BIN" ++ [10] ++ $" boot" ++ [10] ++ $"}" ++ [10].
Definition kernel_txt : chars := $"Raw image at LBA 8192; stage2 loads it to 1MB." ++ [13; 10].

Definition fail (m : chars) (s : inst) : out (Z * inst) := Ret (-1, step m s).

Definition install_run (s : inst) : out (Z * inst) :=
  if negb (ata_present (idisk s)) then fail $"FAIL: no ATA disk" s
  else
    '(r, s) ← install_bootloader (step $"1/6 Bootloader (MBR+stage2)..." s);
    if negb (r =? 0) then fail $"FAIL: bootloader" s
    else
      let s := step $"2/6 GPT (optional secondary layout)..." s in
      '(_, s) ← on_part (Part.part_create_gpt_fat32 PART_START PART_SIZE) s;
      '(_, s) ← on_part (Part.part_create_mbr_fat32 PART_START PART_SIZE) s;
      '(r, s) ← install_bootloader (step $"2b/6 Re-write MBR+stage2 after GPT..." s);
      if negb (r =? 0) then fail $"FAIL: bootloader rewrite" s
      else
        let s := step $"3/6 FAT32 mkfs @ LBA 2048..." s in
        '(r, f) ← Fat32.fat32_mkfs PART_START PART_SIZE (fat s);
        let s := set_fat f s in
        if negb (fat_ok r) then fail $"FAIL: mkfs" s
        else
          let s := step $"4/6 Mount + seed files..." s in
          let s := set_fat (Fat32.fat32_set_partition_lba PART_START (fat s)) s in
          '(r, f) ← Fat32.fat32_mount (fat s);
          let s := set_fat f s in
          if negb (fat_ok r) then fail $"FAIL: mount" s
          else
            s ← on_fat (Fat32.fat32_mkdir (Some $"BOOT")) s;
            s ← on_fat (Fat32.fat32_mkdir (Some $"BIN")) s;
            s ← on_fat (Fat32.fat32_write (Some $"README.TXT") (Some readme)) s;
            s ← on_fat (Fat32.fat32_write (Some $"GRUB.CFG") (Some grub_cfg)) s;
            '(_, s) ← install_kernel_image (step $"5/6 Embedded kernel to raw LBA + FAT note..." s);
            s ← on_fat (Fat32.fat32_write (Some $"KERNEL.TXT") (Some kernel_txt)) s;
            let s := step $"6/6 VFS mount /mnt" s in
            '(_, v) ← Vfs.vfs_mount (Some $"/mnt") Vfs.VFS_FS_FAT32 (ivfs s);
            let s := mk_inst v (isec s) (itm s) in
            Ret (0, step $"(no -kernel needed if stage2 + payload present)"
                      (step $"DONE. Reboot with: qemu-system-i386 -hda disk.img -m 128" s)).

Definition install_wizard (s : inst) : out inst :=
  let s := say ([10] ++ $"=== MyKernel Install Wizard ===" ++ [10]) s in
  let s := say ($"Writes disk: MBR/stage2, GPT, FAT32, kernel payload" ++ [10]) s in
  '(r, s) ← install_run s;
  Ret (say (if r =? 0 then $"Install OK." ++ [10] else $"Install failed." ++ [10]) s).

End Images.
End Install.
