(* ===== verification/InstallSpec.v ===== *)
(** * Properties of the installer

    What a bootable disk needs is where the boot code looks for it; and two
    regions the installer writes overlap: the second stage lies on the GPT,
    the kernel image in the data area of the FAT32 volume. *)

From S2P Require Import Prelude Memory Terminal Fs Ata Fat32 Fat32Spec Part Vfs Elf Install.
Import Ata Part Install.

Module InstallSpec.

(** A drive that answers, without bad sectors. *)
Definition good_disk (d : disk) : Prop := g_ata_ok d = true /\ broken d = ∅ /\ disk_wf d.

Lemma good_set a bytes d : length bytes = SECTOR_SIZE -> good_disk d -> good_disk (set_sector a bytes d).
Proof. intros Hb (H1 & H2 & H3). split_and!; [done | done | by apply set_sector_wf]. Qed.

Lemma disk_write_ok d lba bytes :
  good_disk d -> length bytes = SECTOR_SIZE -> 0 <= lba < 268435456 ->
  ata_write_sectors d lba 1 bytes = Ret (0, set_sector lba bytes d).
Proof.
  intros (H1 & H2 & H3) Hb Hl. rewrite write_one by done. unfold lba28. rewrite Z.mod_small by done.
  rewrite H1, H2. by rewrite bool_decide_false by set_solver.
Qed.

(** ** Raw images *)

Definition nsect (data : chars) : Z := (Z.of_nat (length data) + 511) / 512.

(** The disk after an image has been written from [lba] on. *)
Definition holds_image (lba : Z) (data : chars) (d d' : disk) : Prop :=
  forall a, sector d' a =
    if decide (lba <= a < lba + nsect data) then sector_of data (512 * Z.to_nat (a - lba)) else sector d a.

Lemma sector_of_length data off : length (sector_of data off) = SECTOR_SIZE.
Proof.
  unfold sector_of. rewrite length_app, length_replicate.
  pose proof (length_take (drop off data) SECTOR_SIZE). lia.
Qed.

Lemma write_raw_loop_spec data k fuel lba d :
  good_disk d -> 0 <= lba -> lba + (nsect data - Z.of_nat k) < 268435456 -> Z.of_nat k <= nsect data ->
  (length data < fuel + k)%nat ->
  exists d', write_raw_loop fuel lba data (512 * k) d = Ret (0, d') /\ good_disk d' /\
    forall a, sector d' a =
      if decide (lba <= a < lba + (nsect data - Z.of_nat k)) then sector_of data (512 * (k + Z.to_nat (a - lba))) else sector d a.
Proof.
  revert k lba d. induction fuel as [|fuel IH]; intros k lba d Hg Hl Hr Hk Hf; cbn [write_raw_loop].
  { unfold nsect in *. assert (Z.of_nat k <= Z.of_nat (length data)) by zlia. lia. }
  destruct (Nat.leb_spec (length data) (512 * k)) as [Hd|Hd].
  - assert (nsect data = Z.of_nat k) by (unfold nsect in *; zlia).
    exists d. split; [done|]. split; [done|]. intros a. by rewrite decide_False by lia.
  - assert (Z.of_nat k < nsect data) by (unfold nsect; zlia).
    rewrite disk_write_ok by (done || apply sector_of_length || lia). cbn [mbind out_mbind Z.eqb negb].
    rewrite u32_small by (unfold in_u32; lia).
    destruct (IH (S k) (lba + 1) (set_sector lba (sector_of data (512 * k)) d)) as (d' & E & Hg' & Hs).
    + apply good_set; [apply sector_of_length | done].
    + lia. + lia. + lia. + lia.
    + exists d'. split; [replace (512 * k + SECTOR_SIZE)%nat with (512 * S k)%nat by (unfold SECTOR_SIZE; lia); exact E|].
      split; [done|]. intros a. rewrite Hs, sector_set.
      destruct (decide (a = lba)) as [->|Hne].
      * rewrite (decide_False (P := lba + 1 <= lba < _)) by lia. rewrite decide_True by lia. f_equal. lia.
      * repeat case_decide; try lia; [f_equal; lia | done].
Qed.

Lemma write_raw_spec lba data s :
  good_disk (idisk s) -> 0 <= lba -> lba + nsect data < 268435456 ->
  exists s', write_raw lba data s = Ret (0, s') /\ good_disk (idisk s') /\ holds_image lba data (idisk s) (idisk s').
Proof.
  intros Hg Hl Hr. unfold write_raw.
  destruct (write_raw_loop_spec data 0 (S (length data)) lba (idisk s)) as (d' & E & Hg' & Hs); try done; try lia.
  { unfold nsect. zlia. }
  change (512 * 0)%nat with 0%nat in E. rewrite E. cbn [mbind out_mbind]. eexists. split; [done|]. split; [exact Hg'|].
  intros a. change (idisk (set_disk d' s)) with d'. rewrite Hs, Z.sub_0_r. by rewrite Nat.add_0_l.
Qed.

(** ** The boot sector *)

Lemma boot_base_length mbr : length (take 446 mbr ++ replicate (512 - length (take 446 mbr)) 0) = 512%nat.
Proof. rewrite length_app, length_replicate, length_take. lia. Qed.

Lemma boot_sector_length mbr : length (boot_sector mbr) = 512%nat.
Proof. unfold boot_sector. cbv zeta. pose proof (boot_base_length mbr). sector_length. Qed.

Lemma boot_sector_code mbr i :
  0 <= i < 446 -> im8 (boot_sector mbr) i = im8 (take 446 mbr ++ replicate (512 - length (take 446 mbr)) 0) i.
Proof.
  intros Hi. unfold boot_sector, set8, set32. cbv zeta. pose proof (boot_base_length mbr) as Hb.
  repeat skip_store. done.
Qed.

Lemma boot_sector_fields mbr :
  Fat32.mbr_fat_entry (boot_sector mbr) = Some PART_START /\ im32 (boot_sector mbr) 458 = PART_SIZE /\
  im8 (boot_sector mbr) 510 = 0x55 /\ im8 (boot_sector mbr) 511 = 0xAA.
Proof.
  pose proof (boot_base_length mbr) as Hb.
  assert (Hbyte : forall c off v, length c = 512%nat -> 0 <= off < 512 -> im8 (wr c off [u8 v]) off = u8 v).
  { intros c off v Hc Ho. rewrite wr512_byte by (done || cbn [length]; lia).
    rewrite decide_True by (cbn [length]; lia). replace (off - off) with 0 by lia. apply u8_u8. }
  assert (F1 : im8 (boot_sector mbr) 450 = 0x0C).
  { unfold boot_sector, set8, set32. cbv zeta. do 2 skip_store. rewrite (Hbyte _ 450 0x0C); [done | sector_length | lia]. }
  assert (F2 : im32 (boot_sector mbr) 454 = PART_START).
  { unfold boot_sector, set8, set32. cbv zeta. skip_store32.
    rewrite Fat32Spec.im32_wr, decide_True; [done | done | lia | | lia | by left].
    replace (length _) with 512%nat; [lia | symmetry; sector_length]. }
  split_and!.
  - unfold Fat32.mbr_fat_entry. cbn [for_find]. change (446 + Z.of_nat 0 * 16 + 4) with 450.
    rewrite F1. cbn [Z.eqb Pos.eqb orb]. change (446 + Z.of_nat 0 * 16 + 8) with 454. by rewrite F2.
  - unfold boot_sector, set8, set32. cbv zeta.
    rewrite Fat32Spec.im32_wr, decide_True; [done | done | lia | | lia | by left].
    replace (length _) with 512%nat; [lia | symmetry; sector_length].
  - unfold boot_sector, set8, set32. cbv zeta. do 5 skip_store. rewrite Hbyte; [done | sector_length | lia].
  - unfold boot_sector, set8, set32. cbv zeta. do 4 skip_store. rewrite Hbyte; [done | sector_length | lia].
Qed.

Lemma bootloader_run code s2 s :
  good_disk (idisk s) -> 1 + nsect s2 < 268435456 ->
  exists s', install_bootloader (Some code) (Some s2) s = Ret (0, s') /\ good_disk (idisk s') /\
    let b := sector (idisk s') 0 in
    (forall i, 0 <= i < 446 -> im8 b i = im8 (take 446 code ++ replicate (512 - length (take 446 code)) 0) i) /\
    Fat32.mbr_fat_entry b = Some PART_START /\ im32 b 458 = PART_SIZE /\ im8 b 510 = 0x55 /\ im8 b 511 = 0xAA /\
    (forall k, 0 <= k < nsect s2 -> sector (idisk s') (1 + k) = sector_of s2 (512 * Z.to_nat k)) /\
    (forall a, a < 0 \/ 1 + nsect s2 <= a -> sector (idisk s') a = sector (idisk s) a).
Proof.
  intros Hg Hr. unfold install_bootloader.
  rewrite disk_write_ok by (done || apply boot_sector_length || lia). cbn [mbind out_mbind Z.eqb negb].
  set (s1 := step _ _). assert (Hg1 : good_disk (idisk s1)) by (apply good_set; [apply boot_sector_length | exact Hg]).
  assert (E1 : idisk s1 = set_sector 0 (boot_sector code) (idisk s)) by done. clearbody s1.
  assert (Hn : 0 <= nsect s2) by (unfold nsect; apply Z.div_pos; lia).
  destruct (write_raw_spec STAGE2_LBA s2 s1 Hg1) as (s' & -> & Hg' & Hi); [unfold STAGE2_LBA; lia.. |].
  cbn [mbind out_mbind Z.eqb negb]. exists s'. split; [done|]. split; [done|]. cbv zeta. unfold STAGE2_LBA in Hi.
  assert (E0 : sector (idisk s') 0 = boot_sector code).
  { rewrite Hi, decide_False by lia. rewrite E1, sector_set. by rewrite decide_True. }
  rewrite E0. destruct (boot_sector_fields code) as (F1 & F2 & F3 & F4). split_and!; try done.
  - intros i Hi'. by apply boot_sector_code.
  - intros k Hk. rewrite Hi, decide_True by lia. f_equal. f_equal. lia.
  - intros a Ha. rewrite Hi, decide_False by lia. rewrite E1, sector_set. by rewrite decide_False by lia.
Qed.

(** C37. The boot loader is where the machine looks for it: with both images
    linked and a working disk, [install_bootloader] succeeds; sector 0 holds
    the first 446 bytes of the boot code, the signature and a FAT32 entry at
    2048, where the file-system driver's table search goes; the sectors from
    1 on hold the second stage, padded with zeros; nothing else changes. *)
Theorem bootloader_installed code s2 s :
  good_disk (idisk s) -> 1 + nsect s2 < 268435456 ->
  exists s', install_bootloader (Some code) (Some s2) s = Ret (0, s') /\ good_disk (idisk s') /\
    let b := sector (idisk s') 0 in
    (forall i, 0 <= i < 446 -> im8 b i = im8 (take 446 code ++ replicate (512 - length (take 446 code)) 0) i) /\
    Fat32.mbr_fat_entry b = Some PART_START /\ im32 b 458 = PART_SIZE /\ im8 b 510 = 0x55 /\ im8 b 511 = 0xAA /\
    (forall k, 0 <= k < nsect s2 -> sector (idisk s') (1 + k) = sector_of s2 (512 * Z.to_nat k)) /\
    (forall a, a < 0 \/ 1 + nsect s2 <= a -> sector (idisk s') a = sector (idisk s) a).
Proof. apply bootloader_run. Qed.

(** The kernel image is inside the volume it is installed next to: on a
    working disk [install_kernel_image] writes the header and the image, and
    the image fills cluster 702 and those behind it of the FAT32 volume that
    [fat32_mkfs(2048, 262144)] has made, without an entry in its FAT: the
    driver may give the same clusters to a file. *)
Theorem kernel_image_in_clusters k s f :
  good_disk (idisk s) -> 0 < Z.of_nat (length k) <= 0x1000000 ->
  Fat32.partition_lba f = PART_START ->
  Fat32.geom f = Fat32.bpb_geometry (Fat32.mkfs_bpb PART_START PART_SIZE (Fat32.mkfs_fat_sz PART_SIZE)) ->
  exists s', install_kernel_image (Some k) s = Ret (0, s') /\ good_disk (idisk s') /\
    sector (idisk s') META_LBA = meta_sector (nsect k) /\
    (forall c j, 702 <= c -> 0 <= j < 8 -> 8 * (c - 702) + j < nsect k ->
       sector (idisk s') (Fat32.partition_lba f + Fat32.cluster_to_lba c f + j)
       = sector_of k (512 * Z.to_nat (8 * (c - 702) + j))) /\
    (forall a, Fat32.partition_lba f + Fat32.fat_start (Fat32.geom f) <= a < Fat32.partition_lba f + Fat32.data_start (Fat32.geom f) ->
       sector (idisk s') a = sector (idisk s) a).
Proof.
  intros Hg Hk Hp Hge. unfold install_kernel_image.
  assert (Eg : Fat32.geom f = Fat32.mk_geom 32 544 2 8 256 2 32700) by (rewrite Hge; by vm_compute).
  unfold Fat32.cluster_to_lba. rewrite Eg, Hp. cbn [Fat32.data_start Fat32.sectors_per_cluster Fat32.fat_start].
  unfold PART_START.
  assert (Hn : 0 < nsect k <= 0x8000) by (unfold nsect; zlia).
  rewrite (u32_small (Z.of_nat (length k))) by (unfold in_u32; lia). rewrite u32_small by (unfold in_u32; lia). fold (nsect k).
  assert (Hm : length (meta_sector (nsect k)) = 512%nat).
  { unfold meta_sector, set32, zero_sector. sector_length. }
  set (s0 := step _ s). change (idisk s) with (idisk s0) in *. clearbody s0.
  rewrite disk_write_ok by (done || unfold META_LBA; lia). cbn [mbind out_mbind Z.eqb negb].
  set (s1 := set_disk _ s0). assert (Hg1 : good_disk (idisk s1)) by (by apply good_set).
  assert (E1 : idisk s1 = set_sector META_LBA (meta_sector (nsect k)) (idisk s0)) by done. clearbody s1.
  destruct (write_raw_spec KERNEL_LBA k s1 Hg1) as (s' & -> & Hg' & Hi); [unfold KERNEL_LBA; lia.. |].
  cbn [mbind out_mbind Z.eqb negb]. eexists. split; [done|]. change (idisk (step ?t s')) with (idisk s').
  unfold KERNEL_LBA, META_LBA in *. split; [done|]. split; [|split].
  - rewrite Hi, decide_False by lia. rewrite E1, sector_set. by rewrite decide_True.
  - intros c j Hc Hj Hcj. rewrite (u32_small (544 + _)) by (unfold in_u32; lia). rewrite Hi, decide_True by lia.
    f_equal. f_equal. lia.
  - intros a Ha. rewrite Hi, decide_False by lia. rewrite E1, sector_set. by rewrite decide_False by lia.
Qed.

(** The geometry a mount reads from such a volume is the one above. *)
Example mount_geometry :
  match Fat32.fat32_mount (Fat32.fat32_set_partition_lba 2048
          (Fat32.bss_fat (set_sector 2048 (Fat32.mkfs_bpb PART_START PART_SIZE (Fat32.mkfs_fat_sz PART_SIZE)) Fat32.blank_disk))) with
  | Ret (Fat32.FAT_OK, f) => Fat32.partition_lba f = 2048 /\ Fat32.geom f = Fat32.mk_geom 32 544 2 8 256 2 32700
  | _ => False
  end.
Proof. by vm_compute. Qed.

(** The second stage replaces the GPT: whatever tables the disk holds,
    once [install_bootloader] has run with a second stage that is not itself
    a GPT header, [part_print_gpt] finds no GPT on the disk. *)
Theorem stage2_replaces_gpt code s2 s b :
  good_disk (idisk s) -> 1 + nsect s2 < 268435456 -> s2 <> [] -> length b = 512%nat ->
  im8 (sector_of s2 0) 0 <> 69 ->
  exists s', install_bootloader (Some code) (Some s2) s = Ret (0, s') /\
    exists p, part_print_gpt (mk_part b (idisk s')) = Ret ($"No GPT header at LBA1" ++ [10], p).
Proof.
  intros Hg Hr Hne Hb Hsig. destruct (bootloader_run code s2 s Hg Hr) as (s' & E & (G1 & G2 & G3) & _ & _ & _ & _ & _ & Hs & _).
  exists s'. split; [done|]. unfold part_print_gpt, read_sec, ata_present. cbn [pdisk sec]. rewrite G1. cbn [negb].
  rewrite read_one by done. change (lba28 1) with 1. rewrite G1, G2, bool_decide_false by set_solver. cbn [negb orb mbind out_mbind].
  change (0 =? 0) with true. cbn [negb sec set_sec].
  assert (Hn : 0 < nsect s2) by (unfold nsect; destruct s2; [done|]; cbn [length]; zlia).
  replace (sector (idisk s') 1) with (sector_of s2 0) by (symmetry; apply (Hs 0); lia).
  rewrite (proj2 (Z.eqb_neq _ _) Hsig). cbn [negb orb]. by eexists.
Qed.

(** ** Witnesses *)

Definition blank : inst :=
  mk_inst (Vfs.mk_vfs [] 0 (Fs.mk_fs (Fs.mk_ramfs [] 0) (Fs.mk_lockst 0 0 0 false)) (Fat32.bss_fat Fat32.blank_disk))
    zero_sector (Terminal.mk_term 0 0 7 [] []).
Lemma blank_good : good_disk (idisk blank).
Proof. done. Qed.

Lemma bootloader_installed_witness :
  exists s', install_bootloader (Some [0xFA; 0xEB]) (Some (replicate 600 7)) blank = Ret (0, s') /\
    Fat32.mbr_fat_entry (sector (idisk s') 0) = Some 2048 /\
    sector (idisk s') 2 = sector_of (replicate 600 7) 512.
Proof.
  destruct (bootloader_installed [0xFA; 0xEB] (replicate 600 7) blank) as (s' & E & _ & _ & F & _ & _ & _ & Hs & _).
  - exact blank_good.
  - vm_compute. reflexivity.
  - exists s'. split; [exact E|]. split; [exact F|]. apply (Hs 1). vm_compute. split; [discriminate | reflexivity].
Defined.

Lemma kernel_image_in_clusters_witness :
  exists s', install_kernel_image (Some [1; 2; 3]) blank = Ret (0, s') /\
    sector (idisk s') 8192 = sector_of [1; 2; 3] 0.
Proof.
  set (f := Fat32.mk_fat true 2048
    (Fat32.bpb_geometry (Fat32.mkfs_bpb PART_START PART_SIZE (Fat32.mkfs_fat_sz PART_SIZE))) [] [] Fat32.blank_disk).
  destruct (kernel_image_in_clusters [1; 2; 3] blank f) as (s' & E & _ & _ & Hc & _).
  - exact blank_good.
  - simpl. lia.
  - reflexivity.
  - reflexivity.
  - exists s'. split; [exact E|].
    replace 8192 with (Fat32.partition_lba f + Fat32.cluster_to_lba 702 f + 0) by (vm_compute; reflexivity).
    apply (Hc 702 0); [lia | lia | vm_compute; reflexivity].
Defined.

Lemma stage2_replaces_gpt_witness :
  exists s', install_bootloader (Some [0xFA]) (Some [0xFC; 0x31]) blank = Ret (0, s') /\
    exists p, part_print_gpt (mk_part zero_sector (idisk s')) = Ret ($"No GPT header at LBA1" ++ [10], p).
Proof.
  apply (stage2_replaces_gpt [0xFA] [0xFC; 0x31] blank zero_sector).
  - exact blank_good.
  - vm_compute. reflexivity.
  - discriminate.
  - reflexivity.
  - vm_compute. discriminate.
Defined.

End InstallSpec.
