(* ===== verification/Ac97.v ===== *)
(** * The AC97 sound card (src/src/ac97.c)

    Finding the card, the buffer descriptor, playing a sample buffer by DMA
    in pieces, and the test tone.  Memory is the flat memory of the heap.
    The controller reads the descriptor when it is started; what it is given
    is kept in [runs].  The sine table is computed in floating point and is
    an argument, [sine]; the bound of the wait for the controller
    (20000000 polls in the source) is the argument [polls]; the delays of
    the initialisation have no effect in the model. *)

From S2P Require Import Prelude Memory Kmalloc Alloc Ports Terminal Pci.
Import Ports Terminal.

Module Ac97.

Definition ld16 (m : mem) (a : Z) : Z := ld8 m a + 256 * ld8 m (a + 1).
Definition st16 (m : mem) (a v : Z) : mem := st8 (st8 m a v) (a + 1) (Z.shiftr v 8).

Definition AC97_NAM_RESET : Z := 0x00.
Definition AC97_NAM_MASTER_VOL : Z := 0x02.
Definition AC97_NAM_PCM_VOL : Z := 0x18.
Definition AC97_NABM_PO_BDBAR : Z := 0x10.
Definition AC97_NABM_PO_LVI : Z := 0x15.
Definition AC97_NABM_PO_SR : Z := 0x16.
Definition AC97_NABM_PO_CR : Z := 0x1B.
Definition AC97_CR_RUN : Z := 0x01.
Definition AC97_CR_RESET : Z := 0x02.
Definition AC97_SR_DCH : Z := 0x01.
Definition BDL_ENTRIES : Z := 32.
Definition SINE_TABLE_SIZE : Z := 256.
Definition SAMPLE_RATE : Z := 44100.
Definition CHUNK_MAX : Z := 0xFFFE.

Definition bar_to_io_port (bar : Z) : Z := u16 (Z.land bar 0xFFFC).

Section Card.
Context {H : Type} `{!Allocator H} (dev : device) (polls : nat) (sine : list Z).

Record acst : Type := mk_ac {
  heap : H;
  nam_base : Z; nabm_base : Z;
  present : bool;
  bdl : Z;
  sine_table : list Z; sine_table_ready : bool;
  aio : log; atty : term;
  runs : list (Z * Z);     (** address and samples of each buffer played *)
}.

Definition set_heap (h : H) (s : acst) : acst :=
  mk_ac h (nam_base s) (nabm_base s) (present s) (bdl s) (sine_table s) (sine_table_ready s) (aio s) (atty s) (runs s).
Definition set_mem (m : mem) (s : acst) : acst := set_heap (a_set_mem m (heap s)) s.
Definition set_io (l : log) (s : acst) : acst :=
  mk_ac (heap s) (nam_base s) (nabm_base s) (present s) (bdl s) (sine_table s) (sine_table_ready s) l (atty s) (runs s).
Definition set_present (b : bool) (s : acst) : acst :=
  mk_ac (heap s) (nam_base s) (nabm_base s) b (bdl s) (sine_table s) (sine_table_ready s) (aio s) (atty s) (runs s).
Definition set_bdl (p : Z) (s : acst) : acst :=
  mk_ac (heap s) (nam_base s) (nabm_base s) (present s) p (sine_table s) (sine_table_ready s) (aio s) (atty s) (runs s).
Definition set_bases (x y : Z) (s : acst) : acst :=
  mk_ac (heap s) x y (present s) (bdl s) (sine_table s) (sine_table_ready s) (aio s) (atty s) (runs s).
Definition set_table (t : list Z) (s : acst) : acst :=
  mk_ac (heap s) (nam_base s) (nabm_base s) (present s) (bdl s) t true (aio s) (atty s) (runs s).
Definition add_run (r : Z * Z) (s : acst) : acst :=
  mk_ac (heap s) (nam_base s) (nabm_base s) (present s) (bdl s) (sine_table s) (sine_table_ready s) (aio s) (atty s)
    (runs s ++ [r]).
Definition say (t : chars) (s : acst) : acst :=
  mk_ac (heap s) (nam_base s) (nabm_base s) (present s) (bdl s) (sine_table s) (sine_table_ready s) (aio s)
    (terminal_writestring (t ++ [10]) (atty s)) (runs s).

Definition amem (s : acst) : mem := a_mem (heap s).

Definition ac97_is_present (s : acst) : bool := present s.

(** Find the card by its number, or by its class. *)
Definition find_card (l : log) : option Pci.pci_device * log :=
  let '(d, l) := Pci.pci_find_device dev 0x8086 0x2415 l in
  match d with Some d => (Some d, l) | None => Pci.pci_find_by_class dev 0x04 0x01 l end.

Definition ac97_init (s : acst) : out (Z * acst) :=
  let '(d, l) := find_card (aio s) in
  let s := set_io l s in
  match d with
  | None => Ret (0, set_present false (say $"ac97: PCI audio device not found" s))
  | Some d =>
      let s := set_bases (bar_to_io_port (Pci.bar d !!! 0%nat)) (bar_to_io_port (Pci.bar d !!! 1%nat)) s in
      let l := Pci.pci_enable_bus_mastering dev d (aio s) in
      let l := outw (nam_base s + AC97_NAM_RESET) 0x0000 l in
      let l := outw (nam_base s + AC97_NAM_MASTER_VOL) 0x0000 l in
      let l := outw (nam_base s + AC97_NAM_PCM_VOL) 0x0000 l in
      let l := outb (nabm_base s + AC97_NABM_PO_CR) AC97_CR_RESET l in
      let s := set_io l s in
      '(raw, h) ← a_alloc (heap s) (8 * BDL_ENTRIES + 8);
      let s := set_heap h s in
      if raw =? 0 then Ret (0, set_present false (say $"ac97: out of memory for BDL" s))
      else
        let addr := Z.land (u32 (raw + 7)) (u32 (Z.lnot 7)) in
        Ret (1, say $"ac97: audio device ready (bus master DMA)" (set_present true (set_bdl addr s)))
  end.

(** [for (i = 0; i < polls; i++) if (inw(...) & AC97_SR_DCH) return;] *)
Fixpoint wait_dma_halted (n : nat) (base : Z) (l : log) : log :=
  match n with
  | O => l
  | S n' =>
      let '(sr, l) := inw dev (base + AC97_NABM_PO_SR) l in
      if negb (Z.land sr AC97_SR_DCH =? 0) then l else wait_dma_halted n' base l
  end.
Definition ac97_wait_dma_halted (s : acst) : acst := set_io (wait_dma_halted polls (nabm_base s) (aio s)) s.

(** Starting the channel: the controller reads entry 0 of the list at
    [BDBAR]. *)
Definition start_dma (s : acst) : acst :=
  let l := outl (nabm_base s + AC97_NABM_PO_BDBAR) (bdl s) (aio s) in
  let l := outb (nabm_base s + AC97_NABM_PO_LVI) 0 l in
  let l := outb (nabm_base s + AC97_NABM_PO_CR) AC97_CR_RUN l in
  add_run (ld32 (amem s) (u32 (bdl s)), ld16 (amem s) (u32 (bdl s) + 4)) (set_io l s).

(** One piece: the descriptor, the run, the wait, the stop. *)
Definition play_chunk (samples offset chunk : Z) (s : acst) : acst :=
  let m := st32 (amem s) (bdl s) (u32 (samples + 2 * offset)) in
  let m := st16 m (bdl s + 4) (u16 chunk) in
  let m := st16 m (bdl s + 6) 0 in
  let s := ac97_wait_dma_halted (start_dma (set_mem m s)) in
  set_io (outb (nabm_base s + AC97_NABM_PO_CR) 0x00 (aio s)) s.

(** The loop of [ac97_play]; the fuel is the number of pieces and one. *)
Fixpoint play_loop (fuel : nat) (samples sample_count offset : Z) (s : acst) : out acst :=
  match fuel with
  | O => Fault NoFuel
  | S f =>
      if negb (offset <? sample_count) then Ret s
      else
        let remaining := sample_count - offset in
        let chunk := if CHUNK_MAX <? remaining then CHUNK_MAX else remaining in
        play_loop f samples sample_count (u32 (offset + chunk)) (play_chunk samples offset chunk s)
  end.
Definition ac97_play (samples sample_count : Z) (s : acst) : out acst :=
  if negb (present s) || (samples =? 0) || (sample_count =? 0) then Ret s
  else play_loop (S (S (Z.to_nat (sample_count / CHUNK_MAX)))) samples sample_count 0 s.

Definition ac97_ensure_sine_table (s : acst) : acst :=
  if sine_table_ready s then s else set_table sine s.

(** The loop that fills the buffer, [n] frames from frame [i] on. *)
Fixpoint tone_loop (n : nat) (i phase freq_hz buf : Z) (table : list Z) (m : mem) : mem :=
  match n with
  | O => m
  | S n' =>
      let table_pos := u32 (phase * SINE_TABLE_SIZE) / SAMPLE_RATE in
      let sample := table !!! Z.to_nat (table_pos mod SINE_TABLE_SIZE) in
      let m := st16 m (u32 (buf + 2 * u32 (i * 2))) sample in
      let m := st16 m (u32 (buf + 2 * u32 (i * 2 + 1))) sample in
      let phase := u32 (phase + freq_hz) in
      let phase := if SAMPLE_RATE <=? phase then phase - SAMPLE_RATE else phase in
      tone_loop n' (i + 1) phase freq_hz buf table m
  end.

Definition frame_count (duration_ms : Z) : Z := u32 (SAMPLE_RATE * duration_ms) / 1000.

Definition ac97_play_test_tone (freq_hz duration_ms : Z) (s : acst) : out acst :=
  if negb (present s) then Ret s
  else
    let freq_hz := if freq_hz =? 0 then 440 else freq_hz in
    let frames := frame_count duration_ms in
    if frames =? 0 then Ret s
    else
      '(buf, h) ← a_alloc (heap s) (u32 (frames * 2 * 2));
      let s := set_heap h s in
      if buf =? 0 then Ret (say $"ac97: out of memory for test tone buffer" s)
      else
        let s := ac97_ensure_sine_table s in
        let s := set_mem (tone_loop (Z.to_nat frames) 0 0 freq_hz buf (sine_table s) (amem s)) s in
        s ← ac97_play buf (u32 (frames * 2)) s;
        h ← a_free (heap s) buf;
        Ret (set_heap h s).

End Card.
Arguments acst : clear implicits.
End Ac97.
