(* ===== verification/Ac97Spec.v ===== *)
(** * Properties of the sound driver

    The test tone is the sine table read at the right pace, the buffer is
    handed to the controller piece by piece without a gap, and the heap is
    left as it was found. *)

From S2P Require Import Prelude Memory Kmalloc Alloc Ports Terminal Pci Ac97.
Import Ports Ac97.

Module Ac97Spec.

Lemma ld8_st16 m a v b :
  ld8 (st16 m a v) b = if decide (b = a) then u8 v else if decide (b = a + 1) then u8 (Z.shiftr v 8) else ld8 m b.
Proof. unfold st16. rewrite !ld8_st8. repeat case_decide; subst; (done || lia). Qed.

Lemma u8_split v : u8 v + 256 * u8 (Z.shiftr v 8) = u16 v.
Proof.
  unfold u8, u16. rewrite Z.shiftr_div_pow2 by lia. change (2 ^ 8) with 256. zlia.
Qed.
Lemma ld16_st16_eq m a v : ld16 (st16 m a v) a = u16 v.
Proof.
  unfold ld16. rewrite !ld8_st16, decide_True by done. rewrite (decide_False (P := a + 1 = a)), decide_True by lia.
  apply u8_split.
Qed.
Lemma ld16_st16_ne m a b v : b + 2 <= a \/ a + 2 <= b -> ld16 (st16 m a v) b = ld16 m b.
Proof. intros Hd. unfold ld16. rewrite !ld8_st16. by rewrite !decide_False by lia. Qed.
Lemma ld32_st16_ne m a b v : b + 4 <= a \/ a + 2 <= b -> ld32 (st16 m a v) b = ld32 m b.
Proof. intros Hd. apply ld32_ext. intros i Hi. rewrite ld8_st16. by rewrite !decide_False by lia. Qed.

(** ** The tone *)

(** The table index of frame [i]: the phase [i * freq / 44100] of the wave
    in 256 steps. *)
Definition tone_pos (freq i : Z) : Z := (i * freq mod SAMPLE_RATE) * SINE_TABLE_SIZE / SAMPLE_RATE.

Lemma tone_pos_range freq i : 0 <= tone_pos freq i < SINE_TABLE_SIZE.
Proof.
  unfold tone_pos, SAMPLE_RATE, SINE_TABLE_SIZE. pose proof (Z.mod_pos_bound (i * freq) 44100 ltac:(lia)).
  split; [apply Z.div_pos; lia | apply Z.div_lt_upper_bound; lia].
Qed.

Lemma phase_step p freq i :
  p = i * freq mod SAMPLE_RATE -> 0 < freq < SAMPLE_RATE ->
  (if SAMPLE_RATE <=? u32 (p + freq) then u32 (p + freq) - SAMPLE_RATE else u32 (p + freq)) = (i + 1) * freq mod SAMPLE_RATE.
Proof.
  unfold SAMPLE_RATE. intros -> Hf. pose proof (Z.mod_pos_bound (i * freq) 44100 ltac:(lia)) as Hp.
  rewrite u32_small by (unfold in_u32; lia).
  replace ((i + 1) * freq) with (i * freq + freq) by lia. rewrite <- (Zplus_mod_idemp_l (i * freq)).
  set (p := i * freq mod 44100) in *. clearbody p.
  destruct (Z.leb_spec 44100 (p + freq)).
  - replace (p + freq) with (p + freq - 44100 + 1 * 44100) at 2 by lia. rewrite Z.mod_add, Z.mod_small by lia. done.
  - by rewrite Z.mod_small by lia.
Qed.

Lemma tone_loop_spec n i phase freq buf table m :
  0 <= i -> 0 < freq < SAMPLE_RATE -> phase = i * freq mod SAMPLE_RATE ->
  0 <= buf -> buf + 4 * (i + Z.of_nat n) <= 4294967296 ->
  let m' := tone_loop n i phase freq buf table m in
  (forall j, i <= j < i + Z.of_nat n ->
     ld16 m' (buf + 4 * j) = u16 (table !!! Z.to_nat (tone_pos freq j)) /\
     ld16 m' (buf + 4 * j + 2) = u16 (table !!! Z.to_nat (tone_pos freq j))) /\
  (forall b, b < buf + 4 * i \/ buf + 4 * (i + Z.of_nat n) <= b -> ld8 m' b = ld8 m b).
Proof.
  revert i phase m. induction n as [|n IH]; intros i phase m Hi Hf Hp Hb Hr; cbn [tone_loop]; [split; [lia | done]|].
  rewrite (u32_small (i * 2)), (u32_small (i * 2 + 1)) by (unfold in_u32; lia).
  rewrite (u32_small (buf + 2 * (i * 2))), (u32_small (buf + 2 * (i * 2 + 1))) by (unfold in_u32; lia).
  assert (Et : u32 (phase * SINE_TABLE_SIZE) / SAMPLE_RATE mod SINE_TABLE_SIZE = tone_pos freq i).
  { pose proof (tone_pos_range freq i) as Ht. subst phase. unfold tone_pos in *.
    pose proof (Z.mod_pos_bound (i * freq) SAMPLE_RATE ltac:(unfold SAMPLE_RATE; lia)).
    rewrite u32_small by (unfold in_u32, SINE_TABLE_SIZE, SAMPLE_RATE in *; lia). by apply Z.mod_small. }
  rewrite Et. set (v := table !!! _). set (m1 := st16 (st16 m _ v) _ v).
  destruct (IH (i + 1) _ m1 ltac:(lia) Hf (phase_step phase freq i Hp Hf) Hb ltac:(lia)) as [H1 H2].
  set (m' := tone_loop n _ _ _ _ _ _) in *. clearbody m'.
  assert (Hkeep : forall b, b < buf + 4 * i + 4 -> ld8 m' b = ld8 m1 b) by (intros b Hlt; apply H2; lia).
  split.
  - intros j Hj. destruct (decide (j = i)) as [->|]; [|apply H1; lia].
    unfold ld16. rewrite !Hkeep by lia. fold (ld16 m1 (buf + 4 * i)). fold (ld16 m1 (buf + 4 * i + 2)). unfold m1.
    replace (buf + 2 * (i * 2)) with (buf + 4 * i) by lia. replace (buf + 2 * (i * 2 + 1)) with (buf + 4 * i + 2) by lia. split.
    + rewrite ld16_st16_ne by lia. apply ld16_st16_eq.
    + apply ld16_st16_eq.
  - intros b Hbb. rewrite H2 by lia. unfold m1. rewrite !ld8_st16. by rewrite !decide_False by lia.
Qed.

(** Whatever the frequency, only the buffer is written. *)
Lemma tone_loop_out n i phase freq buf table m b :
  0 <= i -> 0 <= buf -> buf + 4 * (i + Z.of_nat n) <= 4294967296 ->
  b < buf + 4 * i \/ buf + 4 * (i + Z.of_nat n) <= b -> ld8 (tone_loop n i phase freq buf table m) b = ld8 m b.
Proof.
  revert i phase m. induction n as [|n IH]; intros i phase m Hi Hb Hr Hbb; cbn [tone_loop]; [done|].
  rewrite IH by lia. rewrite (u32_small (i * 2)), (u32_small (i * 2 + 1)) by (unfold in_u32; lia).
  rewrite (u32_small (buf + 2 * (i * 2))), (u32_small (buf + 2 * (i * 2 + 1))) by (unfold in_u32; lia).
  rewrite !ld8_st16. by rewrite !decide_False by lia.
Qed.

(** The test tone is the wave asked for: below the sample rate, the
    buffer of [n] stereo frames holds, in both channels of frame [j], the
    entry of the 256-step sine table at the phase [j * freq / 44100] of the
    wave, however long the tone is (the running phase never leaves one
    period and its product never leaves 32 bits), and nothing outside the
    buffer is written. *)
Theorem tone_samples freq buf table n m :
  0 < freq < SAMPLE_RATE -> 0 <= buf -> buf + 4 * Z.of_nat n <= 4294967296 ->
  let m' := tone_loop n 0 0 freq buf table m in
  (forall j, 0 <= j < Z.of_nat n ->
     ld16 m' (buf + 4 * j) = u16 (table !!! Z.to_nat (tone_pos freq j)) /\
     ld16 m' (buf + 4 * j + 2) = u16 (table !!! Z.to_nat (tone_pos freq j))) /\
  (forall b, b < buf \/ buf + 4 * Z.of_nat n <= b -> ld8 m' b = ld8 m b).
Proof.
  intros Hf Hb Hr. destruct (tone_loop_spec n 0 0 freq buf table m) as [H1 H2]; try done; try lia.
  split; [apply H1 | intros b Hbb; apply H2; lia].
Qed.

(** ** Playing *)

(** Buffers that follow each other without gap or overlap, [n] samples. *)
Fixpoint tiles (base n : Z) (l : list (Z * Z)) : Prop :=
  match l with
  | [] => n = 0
  | (p, k) :: l' => p = base /\ 0 < k <= CHUNK_MAX /\ tiles (base + 2 * k) (n - k) l'
  end.

Section Play.
Context {H : Type} `{!Allocator H} (dev : device) (polls : nat) (sine : list Z).

(** The descriptor is inside the live block [(p, k)]. *)
Record ready (l : list (Z * Z)) (p k : Z) (s : acst H) : Prop := mk_ready {
  r_present : present s = true;
  r_inv : a_inv (heap s) l;
  r_in : (p, k) ∈ l;
  r_bdl : p <= bdl s /\ bdl s + 8 <= p + k;
}.

Lemma play_chunk_ready l p k samples off chunk s :
  ready l p k s -> 0 <= samples + 2 * off < 4294967296 -> 0 < chunk <= CHUNK_MAX ->
  let s' := play_chunk dev polls samples off chunk s in
  ready l p k s' /\ runs s' = runs s ++ [(samples + 2 * off, chunk)] /\ bdl s' = bdl s /\
  forall i, i < bdl s \/ bdl s + 8 <= i -> ld8 (amem s') i = ld8 (amem s) i.
Proof.
  intros [Hpr Hi Hin Hb] Hs Hc. cbv zeta. pose proof (a_block _ _ _ _ Hi Hin) as Hblk.
  assert (Hu : u32 (bdl s) = bdl s) by (apply u32_small; unfold in_u32; lia).
  unfold play_chunk. set (m := st16 (st16 (st32 _ _ _) _ _) _ _).
  assert (Hm : forall i, i < bdl s \/ bdl s + 8 <= i -> ld8 m i = ld8 (amem s) i).
  { intros i Hii. unfold m. rewrite !ld8_st16, !decide_False by lia. apply ld8_st32_ne. destruct Hii; [left | right]; lia. }
  assert (Hmem : amem (set_mem m s) = m) by (unfold amem, set_mem; cbn; apply a_mem_set).
  split.
  - constructor; cbn; try done. apply (a_write_in _ l p k); [done | done|]. intros i Hii. apply Hm. lia.
  - split; [|split; [done|]].
    + cbn [runs set_io ac97_wait_dma_halted start_dma add_run]. rewrite Hmem. f_equal.
      cbn [bdl set_mem set_heap]. rewrite Hu. unfold m, CHUNK_MAX in *.
      rewrite !ld32_st16_ne by lia. rewrite ld32_st32_eq, u32_u32, u32_small by (unfold in_u32; lia).
      rewrite ld16_st16_ne by lia. rewrite ld16_st16_eq. unfold u16.
      rewrite (Z.mod_small chunk) by lia. by rewrite Z.mod_small by lia.
    + intros i Hii. change (ld8 (amem (set_mem m s)) i = ld8 (amem s) i). rewrite Hmem. by apply Hm.
Qed.

Lemma play_loop_ready fuel l p k samples count off s :
  ready l p k s -> 0 < samples -> 0 <= off <= count -> samples + 2 * count < 4294967296 ->
  count - off + CHUNK_MAX <= CHUNK_MAX * Z.of_nat fuel ->
  exists s' rs, play_loop dev polls fuel samples count off s = Ret s' /\ ready l p k s' /\
    runs s' = runs s ++ rs /\ tiles (samples + 2 * off) (count - off) rs /\ bdl s' = bdl s /\
    forall i, i < bdl s \/ bdl s + 8 <= i -> ld8 (amem s') i = ld8 (amem s) i.
Proof.
  revert off s. induction fuel as [|fuel IH]; intros off s Hr Hs Ho Hw Hf; cbn [play_loop]; [unfold CHUNK_MAX in Hf; lia|].
  destruct (Z.ltb_spec off count); cbn [negb].
  - set (chunk := if CHUNK_MAX <? count - off then CHUNK_MAX else count - off).
    assert (Hc : 0 < chunk <= CHUNK_MAX /\ chunk <= count - off /\ (chunk = CHUNK_MAX \/ chunk = count - off)).
    { unfold chunk, CHUNK_MAX. destruct (Z.ltb_spec 0xFFFE (count - off)); lia. }
    clearbody chunk. destruct Hc as (Hc1 & Hc2 & Hc3).
    destruct (play_chunk_ready l p k samples off chunk s Hr ltac:(lia) Hc1) as (R1 & E1 & B1 & M1).
    rewrite u32_small by (unfold in_u32; lia).
    destruct (IH (off + chunk) _ R1 Hs ltac:(lia) Hw) as (s' & rs & E & R' & Er & Ht & Eb & M').
    { unfold CHUNK_MAX in *. lia. }
    exists s', ((samples + 2 * off, chunk) :: rs). split; [exact E|]. split; [done|]. split; [|split; [|split]].
    + by rewrite Er, E1, <- app_assoc.
    + cbn [tiles]. split; [done|]. split; [done|]. replace (samples + 2 * off + 2 * chunk) with (samples + 2 * (off + chunk)) by lia.
      by replace (count - off - chunk) with (count - (off + chunk)) by lia.
    + congruence.
    + intros i Hi. rewrite M' by (rewrite B1; done). by apply M1.
  - exists s, []. split_and!; try done; [by rewrite app_nil_r | cbn; lia].
Qed.

(** A tone is played once, whole, and costs nothing: with the card
    present and its descriptor in a live heap block, [ac97_play_test_tone]
    returns; either the heap had no room and nothing was played, or the
    controller was given the buffer of all the frames piece by piece, in
    order, without gap or overlap, each piece short enough for the 16-bit
    length field; the buffer is freed again and the other blocks of the heap
    are as before. *)
Theorem tone_played l p k freq ms s :
  ready l p k s -> 0 < frame_count ms <= 0x10000000 ->
  exists s' rs, ac97_play_test_tone dev polls sine freq ms s = Ret s' /\ ready l p k s' /\
    runs s' = runs s ++ rs /\ bdl s' = bdl s /\
    (rs = [] \/ exists buf, 0 < buf /\ tiles buf (2 * frame_count ms) rs).
Proof.
  intros Hr Hf. unfold ac97_play_test_tone. rewrite (r_present _ _ _ _ Hr). cbn [negb].
  rewrite (proj2 (Z.eqb_neq _ 0)) by lia. set (freq' := if freq =? 0 then 440 else freq).
  set (n := frame_count ms) in *. clearbody n. rewrite (u32_small (n * 2 * 2)) by (unfold in_u32; lia).
  destruct Hr as [Hpr Hi Hin Hb].
  destruct (a_alloc_ok _ _ (n * 2 * 2) Hi ltac:(lia)) as (buf & h & E & Hz & Hnz). rewrite E. cbn [mbind out_mbind].
  destruct (Z.eqb_spec buf 0) as [->|Hbuf].
  { rewrite Hz by done. exists (say $"ac97: out of memory for test tone buffer" (set_heap (heap s) s)), [].
    split; [done|]. split; [by constructor|]. split; [by rewrite app_nil_r|]. split; [done | by left]. }
  destruct (Hnz Hbuf) as (kb & Hkb & _ & Hi' & Hdis & Hpay & _).
  assert (Hinb : (buf, kb) ∈ (buf, kb) :: l) by constructor.
  pose proof (a_block _ _ _ _ Hi' Hinb) as Hblk.
  set (s1 := ac97_ensure_sine_table sine (set_heap h s)).
  assert (E1 : heap s1 = h /\ present s1 = true /\ bdl s1 = bdl s /\ runs s1 = runs s)
    by (unfold s1, ac97_ensure_sine_table; by destruct (sine_table_ready _)).
  clearbody s1. destruct E1 as (Eh & Ep & Ebd & Er).
  set (m := tone_loop _ _ _ _ _ _ _).
  assert (Hm : forall i, i < buf \/ buf + 4 * n <= i -> ld8 m i = ld8 (a_mem h) i).
  { intros i Hii. unfold m. rewrite tone_loop_out by lia. unfold amem. by rewrite Eh. }
  assert (R2 : ready ((buf, kb) :: l) p k (set_mem m s1)).
  { constructor; cbn; try done; [|by constructor | by rewrite Ebd].
    rewrite Eh. apply (a_write_in _ _ buf kb); [done | done|]. intros i Hii. apply Hm. lia. }
  clearbody m. unfold ac97_play. change (present (set_mem m s1)) with (present s1). rewrite Ep. cbn [negb orb].
  rewrite (u32_small (n * 2)) by (unfold in_u32; lia).
  rewrite (proj2 (Z.eqb_neq buf 0) Hbuf), (proj2 (Z.eqb_neq (n * 2) 0)) by lia. cbn [orb].
  destruct (play_loop_ready (S (S (Z.to_nat (n * 2 / CHUNK_MAX)))) ((buf, kb) :: l) p k buf (n * 2) 0 (set_mem m s1) R2)
    as (s3 & rs & E3 & [P3 I3 N3 B3] & Er3 & Ht & Eb3 & M3); [lia | lia | lia | |].
  { pose proof (Z.div_pos (n * 2) CHUNK_MAX ltac:(lia) ltac:(unfold CHUNK_MAX; lia)).
    rewrite !Nat2Z.inj_succ, Z2Nat.id by done. unfold CHUNK_MAX in *. pose proof (Z.mul_succ_div_gt (n * 2) 0xFFFE ltac:(lia)). lia. }
  rewrite E3. cbn [mbind out_mbind].
  destruct (a_free_ok _ _ _ _ I3) as (h' & Ef & If & _). rewrite Ef. cbn [mbind out_mbind].
  exists (set_heap h' s3), rs. split; [done|]. split; [constructor; cbn; try done|].
  split; [cbn; by rewrite Er3; cbn; rewrite Er|]. split; [cbn; rewrite Eb3; exact Ebd|]. right. exists buf.
  split; [lia|]. rewrite Z.mul_0_r, Z.add_0_r, Z.sub_0_r in Ht. by rewrite Z.mul_comm.
Qed.

(** A successful [ac97_init] leaves an aligned list of 32 descriptors inside
    one block of the heap. *)
Theorem ac97_init_ready l s s' :
  a_inv (heap s) l -> ac97_init dev s = Ret (1, s') ->
  exists p k, ready ((p, k) :: l) p k s' /\ bdl s' mod 8 = 0 /\ bdl s' + 8 * BDL_ENTRIES <= p + k.
Proof.
  intros Hi. unfold ac97_init, BDL_ENTRIES. destruct (find_card dev (aio s)) as [[d|] lg]; [|done].
  set (s1 := set_io _ (set_bases _ _ _)). assert (E1 : heap s1 = heap s) by done. clearbody s1.
  rewrite E1. destruct (a_alloc_ok _ _ (8 * 32 + 8) Hi ltac:(lia)) as (raw & h & -> & _ & Hnz). cbn [mbind out_mbind].
  destruct (Z.eqb_spec raw 0) as [|Hr]; [done|]. intros [= <-].
  destruct (Hnz Hr) as (k & Hk & _ & Hi' & _). pose proof (a_block _ _ _ _ Hi' (list_elem_of_here _ _)) as Hb.
  exists raw, k. cbn [bdl say set_present set_bdl set_heap].
  rewrite (u32_small (raw + 7)) by (unfold in_u32; lia).
  pose proof (land_clear_low (raw + 7) 3 ltac:(unfold in_u32; lia) ltac:(lia)) as E8. change (2 ^ 3 - 1) with 7 in E8.
  change (2 ^ 3) with 8 in E8. rewrite E8. split; [|split; [rewrite Z.mul_comm; by apply Z.mod_mul | zlia]].
  constructor; cbn [present heap bdl say set_present set_bdl set_heap]; [done | done | constructor |].
  zlia.
Qed.
End Play.

(** ** Witnesses *)

Lemma tone_samples_witness :
  let m' := tone_loop 4 0 0 11025 0x300000 (seqZ 0 256) ∅ in
  ld16 m' (0x300000 + 4 * 3) = 192 /\ ld16 m' (0x300000 + 4 * 3 + 2) = 192.
Proof.
  destruct (tone_samples 11025 0x300000 (seqZ 0 256) 4 ∅) as [H1 _]; [unfold SAMPLE_RATE; lia | lia | lia|].
  apply (H1 3). lia.
Defined.

Lemma boot_block : exists p k h, a_inv h [(p, k)] /\ 264 <= k /\ 0 < p.
Proof.
  assert (Hi : a_inv Kmalloc.boot_heap []).
  { exists Kmalloc.boot_blocks. split; [apply Kmalloc.kmalloc_init_rep | done]. }
  destruct (a_alloc_ok _ _ 264 Hi ltac:(lia)) as (p & h & E & _ & Hnz).
  assert (Hp : p <> 0).
  { intros ->.
    assert (Hn : (match a_alloc Kmalloc.boot_heap 264 with Ret (p, _) => p | Fault _ => 0 end) <> 0) by (vm_compute; discriminate).
    rewrite E in Hn. done. }
  destruct (Hnz Hp) as (k & Hk & _ & Hi' & _). exists p, k, h. split; [done|]. split; [done|].
  pose proof (a_block _ _ _ _ Hi' (list_elem_of_here _ _)). lia.
Qed.

Lemma tone_played_witness :
  exists (s s' : acst Kmalloc.kstate) rs,
    ac97_play_test_tone (fun _ _ => 1) 10 (seqZ 0 256) 440 500 s = Ret s' /\ runs s' = rs /\
    (rs = [] \/ exists buf, 0 < buf /\ tiles buf 44100 rs).
Proof.
  destruct boot_block as (p & k & h & Hi & Hk & Hp).
  set (s := mk_ac h 0x1000 0x1400 true p [] false [] (Terminal.mk_term 0 0 7 [] []) []).
  destruct (tone_played (fun _ _ => 1) 10 (seqZ 0 256) [(p, k)] p k 440 500 s) as (s' & rs & E & _ & Er & _ & Ht).
  - constructor; [reflexivity | exact Hi | apply list_elem_of_here | simpl; lia].
  - vm_compute. split; [reflexivity | discriminate].
  - exists s, s', rs. split; [exact E|]. split; [exact Er | exact Ht].
Defined.

End Ac97Spec.
