(* ===== verification/Pong.v ===== *)
(** * Pong (src/src/pong.c)

    The two paddles, the ball with its bounces and the score, the frame in
    either video mode, and the game loop.  A round of the loop is given the
    keys it reads and the two values of the tick counter it sees: at the
    comparison and at the assignment of [last]. *)

From S2P Require Import Prelude Memory Terminal Keyboard Ports Gfx Vbe Platform Settings.
Import Vbe Settings.

Module Pong.

Definition GFX_LCYAN : Z := 11.

(** ** State *)

(** [use_vbe], [W] and [H]. *)
Record court : Type := mk_court { use_vbe : bool; W : Z; H : Z }.

Record game : Type := mk_game { p1y : Z; p2y : Z; bx : Z; by_ : Z; bdx : Z; bdy : Z; s1 : Z; s2 : Z }.

Definition set_p1 (y : Z) (g : game) : game := mk_game y (p2y g) (bx g) (by_ g) (bdx g) (bdy g) (s1 g) (s2 g).
Definition set_p2 (y : Z) (g : game) : game := mk_game (p1y g) y (bx g) (by_ g) (bdx g) (bdy g) (s1 g) (s2 g).
Definition set_ball (x y : Z) (g : game) : game := mk_game (p1y g) (p2y g) x y (bdx g) (bdy g) (s1 g) (s2 g).
Definition set_speed (x y : Z) (g : game) : game := mk_game (p1y g) (p2y g) (bx g) (by_ g) x y (s1 g) (s2 g).
Definition set_score (a b : Z) (g : game) : game := mk_game (p1y g) (p2y g) (bx g) (by_ g) (bdx g) (bdy g) a b.

(** ** Sizes *)

Section Sizes.

Context (v : court).

Definition paddle_h : Z := H v / 6.
Definition paddle_w : Z := if use_vbe v then 12 else 6.
Definition ball : Z := if use_vbe v then 10 else 6.
Definition margin : Z := if use_vbe v then 20 else 8.
Definition speed_x : Z := if use_vbe v then 5 else 3.
Definition speed_y : Z := if use_vbe v then 3 else 2.
Definition paddle_step : Z := if use_vbe v then 16 else 8.

Definition new_game : game :=
  mk_game (H v / 2 - paddle_h / 2) (H v / 2 - paddle_h / 2) (W v / 2) (H v / 2) speed_x speed_y 0 0.

(** ** Keys *)

(** The four [if]s after the test for the quit keys. *)
Definition move_key (c : Z) (g : game) : game :=
  let g := if (c =? 119) || (c =? 87) then set_p1 (s32 (p1y g - paddle_step)) g else g in
  let g := if (c =? 115) || (c =? 83) then set_p1 (s32 (p1y g + paddle_step)) g else g in
  let g := if c =? Keyboard.KEY_UP then set_p2 (s32 (p2y g - paddle_step)) g else g in
  if c =? Keyboard.KEY_DOWN then set_p2 (s32 (p2y g + paddle_step)) g else g.

(** The flag says that no quit key was read. *)
Fixpoint read_keys (cs : chars) (g : game) : bool * game :=
  match cs with
  | [] => (true, g)
  | c :: cs' => if (c =? 27) || (c =? 113) || (c =? 81) then (false, g) else read_keys cs' (move_key c g)
  end.

Definition clamp (y : Z) : Z :=
  let y := if y <? 0 then 0 else y in
  if H v <? s32 (y + paddle_h) then s32 (H v - paddle_h) else y.

Definition clamp_paddles (g : game) : game := set_p2 (clamp (p2y g)) (set_p1 (clamp (p1y g)) g).

(** ** A tick *)

(** What is heard: the bounces off the walls and the paddles, and a point. *)
Inductive cue : Type := Wall | Paddle | Point.

Definition move_ball (g : game) : game := set_ball (s32 (bx g + bdx g)) (s32 (by_ g + bdy g)) g.

Definition bounce_wall (g : game) : list cue * game :=
  if (by_ g <=? 0) || (H v <=? s32 (by_ g + ball)) then ([Wall], set_speed (bdx g) (s32 (- bdy g)) g) else ([], g).

(** The rows of the ball meet those of the paddle at [p]. *)
Definition meets (p : Z) (g : game) : bool := (p <=? s32 (by_ g + ball)) && (by_ g <=? s32 (p + paddle_h)).

Definition bounce_left (g : game) : list cue * game :=
  if (bx g <=? margin + paddle_w) && meets (p1y g) g && (bdx g <? 0)
  then ([Paddle], set_speed (s32 (- bdx g)) (bdy g) g) else ([], g).

Definition bounce_right (g : game) : list cue * game :=
  if (W v - margin - paddle_w <=? s32 (bx g + ball)) && meets (p2y g) g && (0 <? bdx g)
  then ([Paddle], set_speed (s32 (- bdx g)) (bdy g) g) else ([], g).

Definition serve (dx : Z) (g : game) : game := set_speed dx (bdy g) (set_ball (W v / 2) (H v / 2) g).

Definition leave_left (g : game) : list cue * game :=
  if bx g <? 0 then ([Point], serve speed_x (set_score (s1 g) (s32 (s2 g + 1)) g)) else ([], g).
Definition leave_right (g : game) : list cue * game :=
  if W v <? bx g then ([Point], serve (- speed_x) (set_score (s32 (s1 g + 1)) (s2 g) g)) else ([], g).

(** From [bx += bdx] to the drawing, with the sounds asked for. *)
Definition tick (g : game) : list cue * game :=
  let g := move_ball g in
  let '(c1, g) := bounce_wall g in
  let '(c2, g) := bounce_left g in
  let '(c3, g) := bounce_right g in
  let '(c4, g) := leave_left g in
  let '(c5, g) := leave_right g in
  (c1 ++ c2 ++ c3 ++ c4 ++ c5, g).

End Sizes.

(** ** Drawing *)

Section Draw.

Context (v : court) (vi : vbe_info).

Definition clear (c32 c8 : Z) (m : mem) : mem := if use_vbe v then vbe_clear c32 vi m else Gfx.gfx_clear c8 m.
Definition rect (x y w h c32 c8 : Z) (m : mem) : mem :=
  if use_vbe v then vbe_fill_rect x y w h c32 vi m else Gfx.gfx_fill_rect x y w h c8 m.

(** [for (y = 0; y < H; y += 16)]: the dashes of the net. *)
Definition net_rows : nat := Z.to_nat ((H v + 15) / 16).

Definition frame (g : game) (m : mem) : mem :=
  let m := clear 0x001010 Gfx.GFX_BLACK m in
  let m := for_up net_rows 0 (fun i m => rect (W v / 2 - 1) (16 * i) 2 8 (vbe_rgb 40 80 40) Gfx.GFX_DGRAY m) m in
  let m := rect (margin v) (p1y g) (paddle_w v) (paddle_h v) (vbe_rgb 80 200 255) GFX_LCYAN m in
  let m := rect (W v - margin v - paddle_w v) (p2y g) (paddle_w v) (paddle_h v) (vbe_rgb 255 180 80) Gfx.GFX_YELLOW m in
  rect (bx g) (by_ g) (ball v) (ball v) (vbe_rgb 255 255 255) Gfx.GFX_WHITE m.

End Draw.

(** ** The machine around the game *)

(** One log of port events for all devices, kept in [pvid]. *)
Record pst : Type := mk_pst {
  pcourt : court; pgame : game; pvbe : vbest; pvid : Gfx.gfxst; pplat : Platform.platst }.

Definition set_court (v : court) (s : pst) : pst := mk_pst v (pgame s) (pvbe s) (pvid s) (pplat s).
Definition set_game (g : game) (s : pst) : pst := mk_pst (pcourt s) g (pvbe s) (pvid s) (pplat s).
Definition set_vid (x : Gfx.gfxst) (s : pst) : pst := mk_pst (pcourt s) (pgame s) (pvbe s) x (pplat s).
Definition plog (s : pst) : Ports.log := Gfx.gio (pvid s).
Definition set_log (l : Ports.log) (s : pst) : pst := set_vid (Gfx.set_gio l (pvid s)) s.
Definition set_pmem (m : mem) (s : pst) : pst :=
  set_vid (Gfx.mk_gfx (Gfx.gio (pvid s)) m (Gfx.g_graphics (pvid s)) (Gfx.gtty (pvid s))) s.
Definition on_tty (f : Terminal.term -> Terminal.term) (s : pst) : pst :=
  set_vid (Gfx.mk_gfx (Gfx.gio (pvid s)) (Gfx.gmem (pvid s)) (Gfx.g_graphics (pvid s)) (f (Gfx.gtty (pvid s)))) s.

Section Play.

Context (dev : Ports.device) (cfg : system_settings).

Definition is_virtualbox (s : pst) : bool * pst :=
  let '(b, p, l) := Platform.platform_is_virtualbox dev (pplat s) (plog s) in
  (b, set_log l (mk_pst (pcourt s) (pgame s) (pvbe s) (pvid s) p)).

Definition on_vbe {A} (f : vbest -> A * vbest) (s : pst) : A * pst :=
  let '(a, x) := f (set_vio (plog s) (pvbe s)) in
  (a, set_log (vio x) (mk_pst (pcourt s) (pgame s) x (pvid s) (pplat s))).

(** [!vbe_probe() || vbe_set_mode(cfg->gfx_mode) != 0] *)
Definition vbe_fails (s : pst) : bool * pst :=
  let '(ok, s) := on_vbe (vbe_probe dev) s in
  if negb ok then (true, s)
  else let '(r, s) := on_vbe (vbe_set_mode dev (gfx_mode cfg)) s in (negb (r =? 0), s).

Definition vbe_court (vi : vbe_info) : court := mk_court true (s32 (width vi)) (s32 (height vi)).
Definition mode13_court : court := mk_court false Gfx.GFX_WIDTH Gfx.GFX_HEIGHT.

Definition open_screen (s : pst) : pst :=
  let '(vbox, s) := if gfx_use_vbe cfg then is_virtualbox s else (true, s) in
  let '(bad, s) := if gfx_use_vbe cfg && negb vbox then vbe_fails s else (true, s) in
  if bad : bool then set_court mode13_court (set_vid (Gfx.gfx_init_mode13 dev (pvid s)) s)
  else set_court (vbe_court (vbe_get_info (pvbe s))) s.

Definition start (s : pst) : pst := let s := open_screen s in set_game (new_game (pcourt s)) s.

Definition play_cue (c : cue) (l : Ports.log) : Ports.log :=
  if sound_enabled cfg then
    match c with
    | Wall => Platform.sound_beep dev 400 20 l
    | Paddle => Platform.sound_beep dev 600 20 l
    | Point => Platform.sound_beep_err dev l
    end
  else l.

(** [if (tick) { ... }] *)
Definition tick_and_draw (s : pst) : pst :=
  let '(cs, g) := tick (pcourt s) (pgame s) in
  let s := set_log (foldl (fun l c => play_cue c l) (plog s) cs) (set_game g s) in
  set_pmem (frame (pcourt s) (vbe_get_info (pvbe s)) (pgame s) (Gfx.gmem (pvid s))) s.

(** [use_pit] and [last]. *)
Record pace : Type := mk_pace { use_pit : bool; last : Z }.

Record input : Type := mk_input { keys : chars; now : Z; now2 : Z }.

Definition due (r : input) (p : pace) : bool * pace :=
  if use_pit p then
    if 2 <=? u32 (now r - last p) then (true, mk_pace (use_pit p) (now2 r)) else (false, p)
  else (true, p).

Definition round (r : input) (q : pace * pst) : bool * (pace * pst) :=
  let '(p, s) := q in
  let '(go, g) := read_keys (pcourt s) (keys r) (pgame s) in
  if negb go then (false, (p, set_game g s))
  else
    let s := set_game (clamp_paddles (pcourt s) g) s in
    let '(t, p) := due r p in
    (true, (p, if t : bool then tick_and_draw s else s)).

Fixpoint rounds (rs : list input) (q : pace * pst) : bool * (pace * pst) :=
  match rs with
  | [] => (true, q)
  | r :: rs' =>
      let '(go, q) := round r q in
      if go : bool then rounds rs' q else (false, q)
  end.

(** [use_pit] from the tick counter before and after the busy wait. *)
Definition start_pace (t1 t2 t3 : Z) : pace := mk_pace (negb (t3 =? t2)) t1.

(** From [done:] to the end. *)
Definition finish (s : pst) : pst :=
  let s := if use_vbe (pcourt s) then snd (on_vbe (fun x => (tt, vbe_disable x)) s) else s in
  let s := set_vid (Gfx.gfx_restore_text dev (pvid s)) s in
  let s := on_tty (Terminal.terminal_writestring $"Pong score: ") s in
  let s := on_tty (Terminal.terminal_write_uint (u32 (s1 (pgame s)))) s in
  let s := on_tty (Terminal.terminal_writestring $" - ") s in
  let s := on_tty (Terminal.terminal_write_uint (u32 (s2 (pgame s)))) s in
  on_tty (Terminal.terminal_putchar 10) s.

(** The whole game on the rounds [rs]; without a quit key among them the
    game is still on after the last one. *)
Definition pong_run (t1 t2 t3 : Z) (rs : list input) (s : pst) : bool * pst :=
  let '(go, q) := rounds rs (start_pace t1 t2 t3, start s) in
  (go, if go : bool then snd q else finish (snd q)).

End Play.

End Pong.
