(* ===== verification/PongSpec.v ===== *)
(** * The rules of Pong

    The court that a start sets up, the invariant of the game over any keys
    and any clock, and what a player who keeps the paddle at the height of
    the ball can rely on. *)

From S2P Require Import Prelude Memory Terminal Keyboard Ports Gfx Vbe Platform Settings Snake SnakeSpec SnakeDraw SnakeProps Pong.
Import Vbe Settings Pong.

Module PongSpec.

(** ** The game without the machine around it *)

Definition game_round (v : court) (r : input) (q : pace * game) : bool * (pace * game) :=
  let '(go, g) := read_keys v (keys r) (snd q) in
  if negb go then (false, (fst q, g))
  else
    let g := clamp_paddles v g in
    let '(t, p) := due r (fst q) in
    (true, (p, if t : bool then snd (tick v g) else g)).

Fixpoint game_rounds (v : court) (rs : list input) (q : pace * game) : bool * (pace * game) :=
  match rs with
  | [] => (true, q)
  | r :: rs' =>
      let '(go, q) := game_round v r q in
      if go : bool then game_rounds v rs' q else (false, q)
  end.

Definition proj (q : bool * (pace * pst)) : bool * (pace * game) :=
  (fst q, (fst (snd q), pgame (snd (snd q)))).

Section Projection.

Context (dev : Ports.device) (cfg : system_settings).

Lemma tick_and_draw_game s :
  pgame (tick_and_draw dev cfg s) = snd (tick (pcourt s) (pgame s)) /\ pcourt (tick_and_draw dev cfg s) = pcourt s.
Proof. unfold tick_and_draw. by destruct (tick (pcourt s) (pgame s)) as [cs g]. Qed.

Lemma round_game r p s :
  proj (round dev cfg r (p, s)) = game_round (pcourt s) r (p, pgame s) /\
  pcourt (snd (snd (round dev cfg r (p, s)))) = pcourt s.
Proof.
  unfold round, game_round. cbn [fst snd]. destruct (read_keys _ _ _) as [go g]. destruct go; [|done].
  cbn [negb]. destruct (due r p) as [t p']. destruct t; [|done].
  match goal with |- context [tick_and_draw dev cfg ?x] => destruct (tick_and_draw_game x) as [E1 E2] end.
  unfold proj. cbn [fst snd]. by rewrite E1, E2.
Qed.

Lemma rounds_game rs p s :
  proj (rounds dev cfg rs (p, s)) = game_rounds (pcourt s) rs (p, pgame s) /\
  pcourt (snd (snd (rounds dev cfg rs (p, s)))) = pcourt s.
Proof.
  revert p s. induction rs as [|r rs IH]; intros p s; [done|]. cbn [rounds game_rounds].
  destruct (round_game r p s) as [E1 E2]. rewrite <- E1. destruct (round dev cfg r (p, s)) as [go [p' s']].
  unfold proj at 2. cbn [fst snd] in *. destruct go; [|done]. rewrite <- E2. apply IH.
Qed.

End Projection.

(** ** The court *)

Definition courts : list court := [mode13_court; mk_court true 640 480; mk_court true 800 600; mk_court true 1024 768].

Lemma start_court dev cfg s : pcourt (start dev cfg s) ∈ courts.
Proof.
  assert (forall s', pcourt (set_court mode13_court s') ∈ courts) as H13 by (intros ?; apply elem_of_cons; by left).
  unfold start, open_screen. set (p := if gfx_use_vbe cfg then is_virtualbox dev s else (true, s)). clearbody p.
  destruct p as [vbox s1]. destruct (gfx_use_vbe cfg && negb vbox); [|apply H13]. unfold vbe_fails, on_vbe.
  destruct (vbe_probe dev (set_vio (plog s1) (pvbe s1))) as [ok v1] eqn:E1. destruct ok; cbn [negb]; [|apply H13].
  destruct (SnakeProps.probe_spec _ _ _ E1) as (Hp & Hd & Hl & Ha).
  match goal with |- context [vbe_set_mode dev ?md ?v] => destruct (vbe_set_mode dev md v) as [r v2] eqn:E2 end.
  destruct (Z.eqb_spec r 0) as [->|]; cbn [negb]; [|apply H13].
  apply SnakeProps.set_mode_spec in E2; [|done..]. apply SnakeDraw.vo_view in E2.
  change (vbe_court (g_vbe v2) ∈ courts). unfold courts, vbe_court, SnakeSpec.views, Snake.vbe_view in *.
  set_unfold in E2. set_unfold. destruct E2 as [E|[E|[E|[E|[]]]]]; try discriminate E; injection E as _ _ _ -> ->; tauto.
Qed.

(** ** The invariant *)

Record game_ok (v : court) (g : game) : Prop := mk_ok {
  ok_p1 : 0 <= p1y g <= H v - paddle_h v;
  ok_p2 : 0 <= p2y g <= H v - paddle_h v;
  ok_bx : 0 <= bx g <= W v;
  ok_by : - speed_y v < by_ g < H v - ball v + speed_y v;
  ok_dx : bdx g = speed_x v \/ bdx g = - speed_x v;
  ok_dy : bdy g = speed_y v \/ bdy g = - speed_y v;
  ok_top : by_ g <= 0 -> bdy g = speed_y v;
  ok_bottom : H v - ball v <= by_ g -> bdy g = - speed_y v;
}.

(** The numbers of a court, for [lia]. *)
Record sizes_ok (v : court) : Prop := mk_sizes {
  sz_w : 320 <= W v <= 1024;
  sz_h : 200 <= H v <= 768;
  sz_ph : paddle_h v = H v / 6;
  sz_m : 8 <= margin v <= 20;
  sz_pw : 6 <= paddle_w v <= 12;
  sz_b : 6 <= ball v <= 10;
  sz_sx : 3 <= speed_x v <= 5;
  sz_sy : 2 <= speed_y v <= 3;
  sz_st : 8 <= paddle_step v <= 16;
}.

Lemma courts_sizes v : v ∈ courts -> sizes_ok v.
Proof.
  intros Hv. unfold courts in Hv. set_unfold in Hv.
  destruct Hv as [->|[->|[->|[->|[]]]]]; split; vm_compute; intuition congruence.
Qed.

Ltac sizes := repeat match goal with H : sizes_ok _ |- _ => destruct H end.

Lemma new_game_ok v : v ∈ courts -> game_ok v (new_game v).
Proof.
  intros Hv. destruct (courts_sizes v Hv). unfold new_game. split; cbn [p1y p2y bx by_ bdx bdy]; zlia.
Qed.

(** ** Keys *)

(** The ball and the score are untouched, the paddles move at most 16 rows a
    key. *)
Definition ball_of (g : game) : Z * Z * Z * Z * Z * Z := (bx g, by_ g, bdx g, bdy g, s1 g, s2 g).

Lemma move_key_spec v c g :
  sizes_ok v -> - 2000000000 <= p1y g <= 2000000000 -> - 2000000000 <= p2y g <= 2000000000 ->
  ball_of (move_key v c g) = ball_of g /\ Z.abs (p1y (move_key v c g) - p1y g) <= 16 /\
  Z.abs (p2y (move_key v c g) - p2y g) <= 16.
Proof.
  intros Hs H1 H2. sizes. unfold move_key, Keyboard.KEY_UP, Keyboard.KEY_DOWN.
  destruct (Z.eqb_spec c 119), (Z.eqb_spec c 87), (Z.eqb_spec c 115), (Z.eqb_spec c 83), (Z.eqb_spec c 17), (Z.eqb_spec c 18);
    try lia; cbn [orb]; cbn [ball_of set_p1 set_p2 p1y p2y bx by_ bdx bdy s1 s2]; split; try done;
    rewrite ?s32_small by (unfold in_s32; lia); lia.
Qed.

Definition quits (cs : chars) : bool := existsb (fun c => (c =? 27) || (c =? 113) || (c =? 81)) cs.

Lemma read_keys_spec v cs g n :
  sizes_ok v -> 0 <= n -> n + 16 * Z.of_nat (length cs) <= 1900000000 -> Z.abs (p1y g) <= n -> Z.abs (p2y g) <= n ->
  let r := read_keys v cs g in
  fst r = negb (quits cs) /\ ball_of (snd r) = ball_of g /\ Z.abs (p1y (snd r)) <= n + 16 * Z.of_nat (length cs) /\
  Z.abs (p2y (snd r)) <= n + 16 * Z.of_nat (length cs).
Proof.
  intros Hs Hn. revert g n Hn. induction cs as [|c cs IH]; intros g n Hn Hl H1 H2; cbn [read_keys length quits existsb].
  { cbn. split_and!; (done || lia). }
  destruct ((c =? 27) || (c =? 113) || (c =? 81)); [cbn; split_and!; (done || lia)|].
  cbn [length] in Hl. destruct (move_key_spec v c g Hs) as (E & M1 & M2); [lia..|].
  destruct (IH (move_key v c g) (n + 16)) as (I1 & I2 & I3 & I4); [lia..|].
  cbn [orb]. rewrite I2, E. split_and!; (done || lia).
Qed.

(** The paddles after the clamp, the ball as it was. *)
Lemma clamp_spec v y : sizes_ok v -> Z.abs y <= 1900000000 -> 0 <= clamp v y <= H v - paddle_h v.
Proof.
  intros Hs Hy. sizes. unfold clamp. cbv zeta. set (z := if y <? 0 then 0 else y).
  assert (0 <= z <= 1900000000) as Hz by (unfold z; destruct (Z.ltb_spec y 0); lia). clearbody z.
  assert (0 <= paddle_h v <= 200) by zlia. rewrite (s32_small (z + paddle_h v)) by (unfold in_s32; lia).
  rewrite s32_small by (unfold in_s32; lia). destruct (Z.ltb_spec (H v) (z + paddle_h v)); lia.
Qed.

(** ** A tick *)

(** Where the ball is after the move, without the wrap of the machine. *)
Lemma move_ball_spec v g :
  sizes_ok v -> game_ok v g ->
  move_ball g = set_ball (bx g + bdx g) (by_ g + bdy g) g /\ - speed_x v <= bx g + bdx g <= W v + speed_x v /\
  - speed_y v < by_ g + bdy g < H v - ball v + speed_y v.
Proof.
  intros Hs []. sizes. unfold move_ball. rewrite !s32_small by (unfold in_s32; lia). split_and!; (done || lia).
Qed.

(** The new vertical speed. *)
Definition turned (v : court) (g : game) : Z :=
  if (by_ g + bdy g <=? 0) || (H v <=? by_ g + bdy g + ball v) then - bdy g else bdy g.

(** The new horizontal speed before a point is counted. *)
Definition returned (v : court) (g : game) : Z :=
  let hit p := (p <=? by_ g + bdy g + ball v) && (by_ g + bdy g <=? p + paddle_h v) in
  let x := bx g + bdx g in
  if (x <=? margin v + paddle_w v) && hit (p1y g) && (bdx g <? 0) then - bdx g
  else if (W v - margin v - paddle_w v <=? x + ball v) && hit (p2y g) && (0 <? bdx g) then - bdx g else bdx g.

(** A tick in one piece. *)
Definition tick_result (v : court) (g : game) : game :=
  let x := bx g + bdx g in
  if x <? 0 then mk_game (p1y g) (p2y g) (W v / 2) (H v / 2) (speed_x v) (turned v g) (s1 g) (s32 (s2 g + 1))
  else if W v <? x then mk_game (p1y g) (p2y g) (W v / 2) (H v / 2) (- speed_x v) (turned v g) (s32 (s1 g + 1)) (s2 g)
  else mk_game (p1y g) (p2y g) x (by_ g + bdy g) (returned v g) (turned v g) (s1 g) (s2 g).

Lemma tick_spec v g : sizes_ok v -> game_ok v g -> snd (tick v g) = tick_result v g.
Proof.
  intros Hs Hg. unfold tick. destruct (move_ball_spec v g Hs Hg) as (-> & Hx & Hy). destruct Hg. sizes.
  assert (0 <= paddle_h v <= 200) by zlia.
  destruct g as [a1 a2 x y dx dy n1 n2]. cbn [p1y p2y bx by_ bdx bdy s1 s2] in *.
  unfold tick_result, returned, turned, bounce_wall, set_ball. cbn [p1y p2y bx by_ bdx bdy s1 s2].
  set (x' := x + dx) in *. set (y' := y + dy) in *. clearbody x' y'.
  rewrite (s32_small (y' + ball v)) by (unfold in_s32; lia). rewrite (s32_small (- dy)) by (unfold in_s32; lia).
  set (w := (y' <=? 0) || (H v <=? y' + ball v)). set (dy' := if w then - dy else dy).
  unfold bounce_left, bounce_right, meets.
  assert (forall c : list cue, (if w then (c, set_speed dx (- dy) (mk_game a1 a2 x' y' dx dy n1 n2)) else ([], mk_game a1 a2 x' y' dx dy n1 n2))
    = (if w then c else [], mk_game a1 a2 x' y' dx dy' n1 n2)) as -> by (intros c; unfold dy'; by destruct w).
  clearbody w dy'. cbn [p1y p2y bx by_ bdx bdy s1 s2].
  rewrite (s32_small (y' + ball v)), (s32_small (a1 + paddle_h v)), (s32_small (- dx)) by (unfold in_s32; lia).
  set (h1 := (a1 <=? y' + ball v) && (y' <=? a1 + paddle_h v)). set (h2 := (a2 <=? y' + ball v) && (y' <=? a2 + paddle_h v)).
  unfold leave_left, leave_right, serve.
  assert (s32 (a2 + paddle_h v) = a2 + paddle_h v) as E1 by (apply s32_small; unfold in_s32; lia).
  assert (s32 (x' + ball v) = x' + ball v) as E2 by (apply s32_small; unfold in_s32; lia).
  assert (s32 (y' + ball v) = y' + ball v) as E3 by (apply s32_small; unfold in_s32; lia).
  assert (s32 (- dx) = - dx) as E4 by (apply s32_small; unfold in_s32; lia).
  destruct ((x' <=? margin v + paddle_w v) && h1 && (dx <? 0)) eqn:El; unfold set_speed; cbn [p1y p2y bx by_ bdx bdy s1 s2];
    rewrite E1, E2, E3; fold h2.
  - apply andb_prop in El as [El _]. apply andb_prop in El as [El _]. apply Z.leb_le in El.
    rewrite (proj2 (Z.leb_gt (W v - margin v - paddle_w v) (x' + ball v))) by lia. cbn [andb bx].
    rewrite !(proj2 (Z.ltb_ge (W v) x')) by lia.
    destruct (x' <? 0); cbn [set_ball set_score p1y p2y bx by_ bdx bdy s1 s2 snd];
      rewrite ?(proj2 (Z.ltb_ge (W v) (W v / 2))), ?(proj2 (Z.ltb_ge (W v) x')) by zlia; done.
  - clear El. rewrite E4. clearbody h1 h2. unfold set_ball, set_score.
    destruct ((W v - margin v - paddle_w v <=? x' + ball v) && h2 && (0 <? dx)); cbn [p1y p2y bx by_ bdx bdy s1 s2];
      (destruct (x' <? 0); cbn [p1y p2y bx by_ bdx bdy s1 s2];
        [rewrite (proj2 (Z.ltb_ge (W v) (W v / 2))) by zlia | destruct (W v <? x')]; done).
Qed.

Lemma turned_ok v g :
  sizes_ok v -> game_ok v g ->
  (turned v g = speed_y v \/ turned v g = - speed_y v) /\ (by_ g + bdy g <= 0 -> turned v g = speed_y v) /\
  (H v - ball v <= by_ g + bdy g -> turned v g = - speed_y v).
Proof.
  intros Hs []. sizes. unfold turned.
  destruct (Z.leb_spec (by_ g + bdy g) 0), (Z.leb_spec (H v) (by_ g + bdy g + ball v)); cbn [orb]; lia.
Qed.

Lemma returned_ok v g : game_ok v g -> returned v g = speed_x v \/ returned v g = - speed_x v.
Proof. intros []. unfold returned. repeat case_match; lia. Qed.

Lemma tick_ok v g : sizes_ok v -> game_ok v g -> game_ok v (snd (tick v g)).
Proof.
  intros Hs Hg. rewrite tick_spec by done. destruct (turned_ok v g Hs Hg) as (Ht & Hu & Hd).
  pose proof (returned_ok v g Hg) as Hr. destruct Hg. pose proof Hs as []. unfold tick_result.
  destruct (Z.ltb_spec (bx g + bdx g) 0); [|destruct (Z.ltb_spec (W v) (bx g + bdx g))];
    split; cbn [p1y p2y bx by_ bdx bdy]; try zlia; auto.
Qed.

(** ** A guarded goal *)

(** Whether the paddle of a side ([true] is the left one) is at the height
    the ball will have after its next move. *)
Definition guards (v : court) (left : bool) (g : game) : bool :=
  meets v (if left then p1y g else p2y g) (move_ball g).

(** The points of the other player. *)
Definition conceded (left : bool) (g : game) : Z := if left then s2 g else s1 g.

(** The ball does not move towards the goal behind the paddle. *)
Definition kept_out (v : court) (left : bool) (g : game) : Prop :=
  if left then bdx g < 0 -> margin v + paddle_w v < bx g
  else 0 < bdx g -> bx g + ball v < W v - margin v - paddle_w v.

Lemma guards_spec v left g :
  sizes_ok v -> game_ok v g ->
  guards v left g = ((if left then p1y g else p2y g) <=? by_ g + bdy g + ball v) &&
                    (by_ g + bdy g <=? (if left then p1y g else p2y g) + paddle_h v).
Proof.
  intros Hs Hg. unfold guards. destruct (move_ball_spec v g Hs Hg) as (-> & _ & Hy). destruct Hg. sizes.
  assert (0 <= paddle_h v <= 200) by zlia. unfold meets. cbn [set_ball by_].
  rewrite !s32_small by (unfold in_s32; destruct left; lia). done.
Qed.

Lemma tick_guarded v left g :
  sizes_ok v -> game_ok v g -> kept_out v left g -> guards v left g = true ->
  kept_out v left (snd (tick v g)) /\ conceded left (snd (tick v g)) = conceded left g.
Proof.
  intros Hs Hg Hk Hm. rewrite guards_spec in Hm by done. rewrite tick_spec by done. destruct Hg. pose proof Hs as [].
  unfold tick_result, kept_out, conceded, returned in *. destruct left.
  - rewrite Hm. clear Hm. destruct (Z.ltb_spec (bx g + bdx g) 0); [lia|].
    destruct (Z.ltb_spec (W v) (bx g + bdx g)); cbn [bdx bx s2]; [split; zlia|]. split; [|done].
    destruct (Z.leb_spec (bx g + bdx g) (margin v + paddle_w v)), (Z.ltb_spec (bdx g) 0); cbn [andb];
      repeat case_match; lia.
  - rewrite Hm. clear Hm. destruct (Z.ltb_spec (bx g + bdx g) 0); cbn [bdx bx s1]; [split; zlia|].
    destruct (Z.ltb_spec (W v) (bx g + bdx g)); cbn [bdx bx s1]; [lia|]. split; [|done].
    destruct (Z.leb_spec (W v - margin v - paddle_w v) (bx g + bdx g + ball v)), (Z.ltb_spec 0 (bdx g)); cbn [andb];
      repeat case_match; lia.
Qed.

(** ** The whole game *)

(** The game a round ticks with: after the keys and the clamp. *)
Definition before_tick (v : court) (r : input) (g : game) : game := clamp_paddles v (snd (read_keys v (keys r) g)).

(** Every tick of the rounds finds the paddle at the height of the ball. *)
Fixpoint always_guards (v : court) (left : bool) (rs : list input) (q : pace * game) : bool :=
  match rs with
  | [] => true
  | r :: rs' =>
      (negb (fst (due r (fst q))) || guards v left (before_tick v r (snd q))) &&
      always_guards v left rs' (snd (game_round v r q))
  end.

(** What a reader types in one round. *)
Definition few_keys (r : input) : Prop := Z.of_nat (length (keys r)) <= 1000000.

Lemma before_tick_spec v r g :
  sizes_ok v -> game_ok v g -> few_keys r ->
  game_ok v (before_tick v r g) /\ ball_of (before_tick v r g) = ball_of g /\
  fst (read_keys v (keys r) g) = negb (quits (keys r)) /\ (ball_of (snd (read_keys v (keys r) g)) = ball_of g).
Proof.
  intros Hs Hg Hk. pose proof Hg as []. pose proof Hs as []. unfold few_keys in Hk.
  destruct (read_keys_spec v (keys r) g 1000 Hs) as (E & Eb & H1 & H2); [zlia..|].
  unfold before_tick. destruct (read_keys v (keys r) g) as [go g1]. cbn [fst snd] in *.
  pose proof (clamp_spec v (p1y g1) Hs ltac:(lia)). pose proof (clamp_spec v (p2y g1) Hs ltac:(lia)).
  split_and!; [|done..]. destruct g1, g. injection Eb as -> -> -> -> -> ->. by split.
Qed.

Lemma game_rounds_ok v rs p g :
  sizes_ok v -> game_ok v g -> Forall few_keys rs ->
  let r := game_rounds v rs (p, g) in
  fst r = negb (existsb (fun x => quits (keys x)) rs) /\ (fst r = true -> game_ok v (snd (snd r))) /\
  (forall left, kept_out v left g -> always_guards v left rs (p, g) = true ->
    conceded left (snd (snd r)) = conceded left g).
Proof.
  intros Hs Hg Hf. revert p g Hg. induction Hf as [|r rs Hr Hf IH]; intros p g Hg; cbn [game_rounds existsb always_guards].
  { cbn. by split_and!. }
  destruct (before_tick_spec v r g Hs Hg Hr) as (Hb & Eb & Eg & Er). unfold game_round, before_tick in *. cbn [fst snd] in *.
  destruct (read_keys v (keys r) g) as [go g1]. cbn [fst snd] in *. rewrite Eg in *. destruct (quits (keys r)); cbn [negb orb].
  { split_and!; [done.. |]. intros left _ _. cbn. by destruct g1, g, left; injection Er. }
  set (g2 := clamp_paddles v g1) in *. clearbody g2.
  assert (forall left, kept_out v left g -> kept_out v left g2 /\ conceded left g2 = conceded left g) as Hsame.
  { intros left Hk. destruct g2, g, left; injection Eb as -> -> -> -> -> ->; by split. }
  destruct (due r p) as [t p']. cbn [fst snd]. destruct t; cbn [negb orb].
  - destruct (IH p' (snd (tick v g2)) (tick_ok v g2 Hs Hb)) as (I1 & I2 & I3). split_and!; [done..|].
    intros left Hk Ha. apply andb_prop in Ha as [Hm Ha]. destruct (Hsame left Hk) as [Hk2 <-].
    destruct (tick_guarded v left g2 Hs Hb Hk2 Hm) as [Hk3 <-]. by apply I3.
  - destruct (IH p' g2 Hb) as (I1 & I2 & I3). split_and!; [done..|].
    intros left Hk Ha. destruct (Hsame left Hk) as [Hk2 <-]. by apply I3.
Qed.

(** Pong: whatever the video hardware, the settings, the keys and the
    clock, the court has one of four known sizes and the game ends exactly in
    the first round that reads a quit key; while it is on, both paddles are
    on the screen, the ball is between the goals and within one step of the
    walls, its speed keeps its two magnitudes and it moves away from a wall
    it touches; and a player whose paddle is at the height of the ball at
    every tick concedes no point. *)
Theorem pong_rules dev cfg t1 t2 t3 rs s :
  Forall few_keys rs ->
  let s0 := start dev cfg s in
  let q0 := (start_pace t1 t2 t3, s0) in
  let r := rounds dev cfg rs q0 in
  let g := pgame (snd (snd r)) in
  pcourt s0 ∈ courts /\ fst r = negb (existsb (fun x => quits (keys x)) rs) /\
  (fst r = true -> game_ok (pcourt s0) g) /\
  (forall left, always_guards (pcourt s0) left rs (fst q0, pgame s0) = true -> conceded left g = 0).
Proof.
  intros Hf s0 q0 r g. pose proof (start_court dev cfg s) as Hc. fold s0 in Hc. pose proof (courts_sizes _ Hc) as Hs.
  destruct (rounds_game dev cfg rs (fst q0) s0) as [E _]. change (pgame s0) with (new_game (pcourt s0)) in E |- *.
  destruct (game_rounds_ok (pcourt s0) rs (fst q0) _ Hs (new_game_ok _ Hc) Hf) as (I1 & I2 & I3).
  rewrite <- E in I1, I2, I3. split_and!; [done..|].
  intros left Ha. etrans; [apply I3; [|exact Ha] | by destruct left].
  destruct Hs. destruct left; unfold kept_out, new_game; cbn [bdx bx]; zlia.
Qed.

(** A game on a machine without a framebuffer, six ticks, with keys for
    both players. *)
Definition sample_rounds : list input :=
  [mk_input [119; Keyboard.KEY_DOWN] 12 12; mk_input [] 13 13; mk_input [115] 14 15; mk_input [] 17 17; mk_input [] 20 20].

Definition dark : Ports.device := fun _ _ => 0.

Definition powered_on : pst :=
  mk_pst (mk_court false 0 0) (mk_game 0 0 0 0 0 0 0 0) (mk_vbe [] (mk_info 0 0 0 32 0 false) false false)
    (Gfx.mk_gfx [] ∅ false (Terminal.mk_term 0 0 0 [] [])) (Platform.mk_plat false true).

Lemma pong_rules_witness :
  let s0 := start dark (mk_cfg false 0 false) powered_on in
  let r := rounds dark (mk_cfg false 0 false) sample_rounds (start_pace 10 10 11, s0) in
  pcourt s0 ∈ courts /\ fst r = true /\ game_ok (pcourt s0) (pgame (snd (snd r))) /\
  always_guards (pcourt s0) true sample_rounds (start_pace 10 10 11, pgame s0) = true /\ s2 (pgame (snd (snd r))) = 0.
Proof.
  intros s0 r. destruct (pong_rules dark (mk_cfg false 0 false) 10 10 11 sample_rounds powered_on) as (H1 & H2 & H3 & H4).
  { repeat constructor; unfold few_keys; cbn; lia. }
  assert (always_guards (pcourt s0) true sample_rounds (start_pace 10 10 11, pgame s0) = true) as Hg by reflexivity.
  split_and!; [exact H1 | exact H2 | exact (H3 H2) | exact Hg | exact (H4 true Hg)].
Defined.

End PongSpec.
