(* ===== verification/Fbcon.v ===== *)
(** * The framebuffer console (src/src/vga.c)

    The terminal with its second mode: text drawn with the 8x16 font into the
    linear frame buffer.  In text mode ([fb_mode] = 0) the operations are
    those of [Terminal]; the position, the colour and the serial line are
    shared by both modes, so they stay in the record of [Terminal]. *)

From S2P Require Import Prelude Memory Terminal Ports Gfx Vbe.
Import Terminal Vbe.

Module Fbcon.

Definition FONT_W : Z := 8.
Definition FONT_H : Z := 16.

Record con : Type := mk_con {
  tm : term;
  fb_mode : bool;
  term_cols : nat;
  term_rows : nat;
  fb_fg : Z;
  fb_bg : Z;
  cvbe : vbest;
  cmem : mem;
}.

Definition set_tm (t : term) (k : con) : con :=
  mk_con t (fb_mode k) (term_cols k) (term_rows k) (fb_fg k) (fb_bg k) (cvbe k) (cmem k).
Definition set_cmem (m : mem) (k : con) : con :=
  mk_con (tm k) (fb_mode k) (term_cols k) (term_rows k) (fb_fg k) (fb_bg k) (cvbe k) m.
Definition set_cvbe (v : vbest) (k : con) : con :=
  mk_con (tm k) (fb_mode k) (term_cols k) (term_rows k) (fb_fg k) (fb_bg k) v (cmem k).
Definition set_mode (b : bool) (cols rows : nat) (k : con) : con :=
  mk_con (tm k) b cols rows (fb_fg k) (fb_bg k) (cvbe k) (cmem k).
Definition set_colors (fg bg : Z) (k : con) : con :=
  mk_con (tm k) (fb_mode k) (term_cols k) (term_rows k) fg bg (cvbe k) (cmem k).

Definition row (k : con) : nat := terminal_row (tm k).
Definition col (k : con) : nat := terminal_column (tm k).
Definition place (r c : nat) (k : con) : con := set_tm (set_pos r c (tm k)) k.
Definition info (k : con) : vbe_info := vbe_get_info (cvbe k).

(** The palette of [terminal_setcolor]. *)
Definition palette : list Z :=
  [0x000000; 0x0000AA; 0x00AA00; 0x00AAAA; 0xAA0000; 0xAA00AA; 0xAA5500; 0xAAAAAA;
   0x555555; 0x5555FF; 0x55FF55; 0x55FFFF; 0xFF5555; 0xFF55FF; 0xFFFF55; 0xFFFFFF].

Definition terminal_setcolor (color : Z) (k : con) : con :=
  let t := tm k in
  set_colors (palette !!! Z.to_nat (Z.land color 0xF)) (palette !!! Z.to_nat (Z.land (Z.shiftr color 4) 0xF))
    (set_tm (mk_term (terminal_row t) (terminal_column t) color (terminal_buffer t) (serial_out t)) k).

(** ** Drawing *)

Definition fb_draw_glyph (cx cy : nat) (ch fg bg : Z) (k : con) : con :=
  let vi := info k in
  if negb (active vi) || (lfb vi =? 0) then k
  else if (term_cols k <=? cx)%nat || (term_rows k <=? cy)%nat then k
  else
    let px := s32 (Z.of_nat cx * FONT_W) in
    let py := s32 (Z.of_nat cy * FONT_H) in
    set_cmem (for_up 16 0 (fun r => for_up 8 0 (fun c =>
      vbe_putpixel (s32 (px + c)) (s32 (py + r)) (if Gfx.glyph_bit ch r c then fg else bg) vi)) (cmem k)) k.

Definition fb_fill_cell (cx cy : nat) (color : Z) (k : con) : con :=
  if negb (active (info k)) then k
  else set_cmem (vbe_fill_rect (s32 (Z.of_nat cx * FONT_W)) (s32 (Z.of_nat cy * FONT_H)) FONT_W FONT_H color
                   (info k) (cmem k)) k.

Definition fb_draw_cursor (k : con) : con :=
  if negb (fb_mode k) then k
  else if negb (active (info k)) then k
  else set_cmem (vbe_fill_rect (s32 (Z.of_nat (col k) * FONT_W)) (s32 (Z.of_nat (row k) * FONT_H + FONT_H - 2)) FONT_W 2
                   (fb_fg k) (info k) (cmem k)) k.

Definition fb_putentryat (c : Z) (x y : nat) (k : con) : con :=
  fb_draw_glyph x y (u8 c) (fb_fg k) (fb_bg k) k.

(** The two loops over the pixels. *)
Definition scroll_up (n line_px base : Z) (m : mem) : mem :=
  for_up (Z.to_nat n) 0 (fun i m => st32 m (px_addr base i) (ld32 m (px_addr base (u32 (i + line_px))))) m.
Definition fill_from (start stop base color : Z) (m : mem) : mem :=
  for_up (Z.to_nat (stop - start)) start (fun i m => st32 m (px_addr base i) color) m.

Definition fb_scroll (k : con) : con :=
  let vi := info k in
  if negb (active vi) || (lfb vi =? 0) then k
  else
    let pitch := width vi in
    let line_px := u32 (FONT_H * pitch) in
    let rows_px := u32 (u32 ((Z.of_nat (term_rows k) - 1) * FONT_H) * pitch) in
    let m := scroll_up rows_px line_px (lfb vi) (cmem k) in
    let stop := u32 (u32 (Z.of_nat (term_rows k) * FONT_H) * pitch) in
    let m := fill_from rows_px (Z.min stop (u32 (width vi * height vi))) (lfb vi) (fb_bg k) m in
    place (term_rows k - 1) (col k) (set_cmem m k).

(** ** Operations *)

Definition terminal_putentryat (c color : Z) (x y : nat) (k : con) : con :=
  if fb_mode k then fb_putentryat c x y k
  else set_tm (Terminal.terminal_putentryat c color x y (tm k)) k.

Definition serial_putchar (c : Z) (k : con) : con := set_tm (Terminal.serial_putchar c (tm k)) k.

(** The tail of [terminal_putchar] in framebuffer mode. *)
Definition fb_settle (k : con) : con :=
  fb_draw_cursor (if (term_rows k <=? row k)%nat then fb_scroll k else k).

Definition fb_putchar (c : Z) (k : con) : con :=
  let k := serial_putchar c k in
  fb_settle
    (if c =? 10 then place (S (row k)) 0 (fb_fill_cell (col k) (row k) (fb_bg k) k)
     else if c =? 13 then place (row k) 0 k
     else
       let k := fb_putentryat c (col k) (row k) k in
       if (S (col k) =? term_cols k)%nat then place (S (row k)) 0 k else place (row k) (S (col k)) k).

Definition terminal_putchar (c : Z) (k : con) : con :=
  if fb_mode k then fb_putchar c k else set_tm (Terminal.terminal_putchar c (tm k)) k.

Definition fb_backspace (k : con) : con :=
  let k :=
    match col k with
    | O => k
    | S c => fb_draw_cursor (fb_putentryat 32 c (row k) (place (row k) c k))
    end in
  serial_putchar 8 (serial_putchar 32 (serial_putchar 8 k)).

Definition terminal_backspace (k : con) : con :=
  if fb_mode k then fb_backspace k else set_tm (Terminal.terminal_backspace (tm k)) k.

Definition fb_set_cursor (x y : nat) (k : con) : con :=
  let x := if (term_cols k <=? x)%nat then (term_cols k - 1)%nat else x in
  let y := if (term_rows k <=? y)%nat then (term_rows k - 1)%nat else y in
  fb_draw_cursor (place y x (fb_fill_cell (col k) (row k) (fb_bg k) k)).

Definition terminal_set_cursor (x y : nat) (k : con) : con :=
  if fb_mode k then fb_set_cursor x y k else set_tm (Terminal.terminal_set_cursor x y (tm k)) k.

(** The loop of [terminal_move_left]. *)
Fixpoint fb_left (n : nat) (k : con) : con :=
  match n, col k with
  | S n', S c => fb_left n' (place (row k) c (fb_fill_cell (col k) (row k) (fb_bg k) k))
  | _, _ => k
  end.
Definition terminal_move_left (n : nat) (k : con) : con :=
  if fb_mode k then fb_draw_cursor (fb_left n k) else set_tm (Terminal.terminal_move_left n (tm k)) k.

Fixpoint fb_right (n : nat) (k : con) : con :=
  match n with
  | O => k
  | S n' =>
      if (col k <? term_cols k - 1)%nat
      then fb_right n' (place (row k) (S (col k)) (fb_fill_cell (col k) (row k) (fb_bg k) k))
      else k
  end.
Definition terminal_move_right (n : nat) (k : con) : con :=
  if fb_mode k then fb_draw_cursor (fb_right n k) else set_tm (Terminal.terminal_move_right n (tm k)) k.

Definition terminal_putchar_at_cursor (c : Z) (k : con) : con :=
  terminal_putentryat c (terminal_color (tm k)) (col k) (row k) k.

Definition terminal_show_cursor (k : con) : con := if fb_mode k then fb_draw_cursor k else k.

Definition terminal_writestring (s : chars) (k : con) : con := foldl (fun k c => terminal_putchar c k) k (cstr s).
Definition terminal_write_uint (v : Z) (k : con) : con := terminal_writestring (uint_chars v) k.

(** ** Modes *)

Definition cols_of (vi : vbe_info) : nat := Z.to_nat (width vi / FONT_W).
Definition rows_of (vi : vbe_info) : nat := Z.to_nat (height vi / FONT_H).

Definition terminal_initialize (k : con) : con :=
  let t := tm k in
  if fb_mode k && vbe_is_active (cvbe k) then
    let k := set_colors 0x55FF55 0 (set_tm (mk_term 0 0 (vga_entry_color 10 0) (terminal_buffer t) (serial_out t)) k) in
    set_mode true (Nat.max 40 (cols_of (info k))) (Nat.max 15 (rows_of (info k)))
      (set_cmem (vbe_clear (fb_bg k) (info k) (cmem k)) k)
  else
    set_mode false VGA_TEXT_W VGA_TEXT_H (set_colors 0x55FF55 0 (set_tm (Terminal.terminal_initialize t) k)).

Section Modes.

Context (dev : Ports.device).

Definition terminal_enable_fb (vbe_mode_id : Z) (k : con) : Z * con :=
  let k := set_cvbe (snd (vbe_probe dev (cvbe k))) k in
  let '(r, v) := vbe_set_mode dev vbe_mode_id (cvbe k) in
  let k := set_cvbe v k in
  if negb (r =? 0) then (-1, k)
  else
    let k := place 0 0 (set_mode true (cols_of (info k)) (rows_of (info k)) k) in
    (0, set_cmem (vbe_clear (fb_bg k) (info k) (cmem k)) k).

Definition terminal_disable_fb (k : con) : con :=
  if negb (fb_mode k) then k
  else place 0 0 (set_mode false VGA_TEXT_W VGA_TEXT_H (set_cvbe (vbe_disable (cvbe k)) k)).

End Modes.

Definition terminal_fb_active (k : con) : bool := fb_mode k.
Definition terminal_cols (k : con) : nat := term_cols k.
Definition terminal_rows (k : con) : nat := term_rows k.

End Fbcon.
