(* ===== verification/FbconSpec.v ===== *)
(** * What the framebuffer console shows

    The pixels as a grid of character cells.  Every operation of the console
    acts on the cells as on an array of characters, colours and cursor marks;
    text that is written appears as on a plain terminal of that size; and
    moving the cursor back erases what it passes over. *)

From S2P Require Import Prelude Memory Kmalloc Alloc Terminal Ports Pci Gfx Vbe Mkdisp MkdispSpec Settings Snake SnakeSpec SnakeDraw SnakeProps Fbcon.
Import Vbe SnakeDraw Fbcon.

Module FbconSpec.

(** ** Pixels *)

Section Pixels.

Context (vi : vbe_info) (Hv : vid_ok (Snake.vbe_view vi) vi).

Abbreviation vw := (Snake.vbe_view vi).

Lemma vbe_sizes :
  active vi = true /\ lfb vi <> 0 /\ lfb vi mod 4 = 0 /\ Snake.screen_w vw = width vi /\ Snake.screen_h vw = height vi /\
  320 <= width vi <= 1024 /\ 200 <= height vi <= 768 /\ width vi mod 8 = 0.
Proof.
  destruct Hv as [Hm Hi]. destruct (Hi eq_refl) as (? & Ew & Eh & ? & ?). split_and!; try done.
  all: rewrite ?Ew, ?Eh; unfold SnakeSpec.views in Hm; set_unfold in Hm;
    destruct Hm as [E|[E|[E|[E|[]]]]]; rewrite E; cbn; unfold Gfx.GFX_WIDTH, Gfx.GFX_HEIGHT; lia || done.
Qed.

(** A picture drawn pixel by pixel. *)
Definition picture (x y w h : Z) (c : Z -> Z -> Z) (a b v : Z) : Z :=
  if MkdispSpec.inside x y w h a b then pc vw (c (a - x) (b - y)) else v.

Lemma picture_paints x y w h c :
  0 <= w -> 0 <= h ->
  paints vw vi (picture x y w h c)
    (for_up (Z.to_nat h) 0 (fun j => for_up (Z.to_nat w) 0 (fun i => plot vw vi (x + i) (y + j) (c i j)))).
Proof.
  intros Hw Hh m a b Hab.
  set (P := fun j i v => if (a =? x + i) && (b =? y + j) then pc vw (c i j) else v).
  assert (pix vw vi (for_up (Z.to_nat h) 0 (fun j => for_up (Z.to_nat w) 0 (fun i => plot vw vi (x + i) (y + j) (c i j))) m) a b =
          for_up (Z.to_nat h) 0 (fun j => for_up (Z.to_nat w) 0 (P j)) (pix vw vi m a b)) as ->.
  { apply (paints_for vw vi (fun j a b v => for_up (Z.to_nat w) 0 (fun i v => if (a =? x + i) && (b =? y + j) then pc vw (c i j) else v) v));
      [|done]. intros j _.
    apply (paints_for vw vi (fun i a b v => if (a =? x + i) && (b =? y + j) then pc vw (c i j) else v)). intros i _.
    by apply plot_paints. }
  rewrite (MkdispSpec.for_up_grid _ _ (b - y) (a - x)).
  - unfold picture, MkdispSpec.inside, P. rewrite !Z2Nat.id by lia.
    replace ((0 <=? b - y) && (b - y <? h) && (0 <=? a - x) && (a - x <? w)) with
      ((x <=? a) && (a <? x + w) && (y <=? b) && (b <? y + h)) by lia.
    destruct (_ && (b <? y + h)); [|done]. by replace ((a =? x + (a - x)) && (b =? y + (b - y))) with true by lia.
  - intros j i v Hj Hi Hne. unfold P. by replace ((a =? x + i) && (b =? y + j)) with false by lia.
Qed.

(** A glyph at the pixel position (x, y). *)
Lemma glyph_paints x y ch fg bg :
  0 <= x <= 4096 -> 0 <= y <= 4096 ->
  paints vw vi (picture x y 8 16 (fun i j => if Gfx.glyph_bit ch j i then fg else bg))
    (for_up 16 0 (fun r => for_up 8 0 (fun c =>
      vbe_putpixel (s32 (x + c)) (s32 (y + r)) (if Gfx.glyph_bit ch r c then fg else bg) vi))).
Proof.
  intros Hx Hy m a b Hab. rewrite <- (picture_paints x y 8 16 (fun i j => if Gfx.glyph_bit ch j i then fg else bg)) by (done || lia).
  f_equal. change (Z.to_nat 8) with 8%nat. change (Z.to_nat 16) with 16%nat.
  apply for_up_ext. intros j m1 Hj. apply for_up_ext. intros i m2 Hi.
  rewrite !s32_small by (unfold in_s32; lia). apply vbe_putpixel_plot; [done | done | unfold in_s32; lia..].
Qed.

(** A filled rectangle. *)
Lemma rect_paints x y w h c :
  near x -> near y -> near w -> near h ->
  paints vw vi (picture x y w h (fun _ _ => c)) (vbe_fill_rect x y w h c vi).
Proof. intros Hx Hy Hw Hh. apply (fill_paints vw vi Hv x y w h c Hx Hy Hw Hh). Qed.

(** ** Pixels by their number *)

Definition word (m : mem) (p : Z) : Z := ld32 m (px_addr (lfb vi) p).

Lemma word_set m p q c :
  0 <= p < 1024 * 768 -> 0 <= q < 1024 * 768 ->
  word (st32 m (px_addr (lfb vi) q) c) p = if p =? q then u32 c else word m p.
Proof.
  intros Hp Hq. destruct vbe_sizes as (_ & _ & Ha & _). unfold word. destruct (Z.eqb_spec p q) as [->|Hne]; [apply ld32_st32_eq|].
  apply ld32_st32_ne. pose proof (px_addr_apart vi p q Ha Hp Hq Hne). lia.
Qed.

Lemma fill_from_word start stop c m p :
  0 <= start -> stop <= 1024 * 768 -> 0 <= p < 1024 * 768 ->
  word (fill_from start stop (lfb vi) c m) p = if (start <=? p) && (p <? stop) then u32 c else word m p.
Proof.
  intros H0 H1 Hp. unfold fill_from.
  set (P := fun i v => if p =? i then u32 c else v).
  transitivity (for_up (Z.to_nat (stop - start)) start P (word m p)).
  { apply (for_up_rel (fun m v => word m p = v)); [done|]. intros i m1 v Hi <-. apply word_set; lia. }
  destruct ((start <=? p) && (p <? stop)) eqn:E.
  - rewrite (MkdispSpec.for_up_once _ _ p); unfold P; [by rewrite Z.eqb_refl | lia |].
    intros j v Hj Hne. by destruct (Z.eqb_spec p j).
  - apply MkdispSpec.for_up_miss. intros j v Hj. unfold P. destruct (Z.eqb_spec p j); [lia | done].
Qed.

Lemma scroll_up_word n line m p :
  0 < line -> 0 <= n -> n + line <= 1024 * 768 -> 0 <= p < 1024 * 768 ->
  word (scroll_up n line (lfb vi) m) p = if p <? n then word m (p + line) else word m p.
Proof.
  intros Hl Hn Hs Hp. unfold scroll_up. rewrite <- (Z2Nat.id n) in Hs |- * by lia. rewrite Nat2Z.id.
  revert p Hp. generalize (Z.to_nat n) Hs. clear n Hn Hs. intros n. induction n as [|n IH]; intros Hs p Hp.
  { cbn [for_up]. change (Z.of_nat 0) with 0. destruct (Z.ltb_spec p 0); [lia | done]. }
  rewrite for_up_last. cbv beta. rewrite (word_set _ p) by lia.
  rewrite (u32_small (0 + Z.of_nat n + line)) by (unfold in_u32; lia).
  change (ld32 ?m' (px_addr (lfb vi) ?q)) with (word m' q).
  rewrite !IH by lia. destruct (Z.eqb_spec p (0 + Z.of_nat n)) as [->|Hne].
  - rewrite (proj2 (Z.ltb_ge (0 + Z.of_nat n + line) (Z.of_nat n))) by (clear -Hl; lia).
    rewrite (proj2 (Z.ltb_lt (0 + Z.of_nat n) (Z.of_nat (S n)))) by (clear; lia). apply u32_small, ld32_range.
  - destruct (Z.ltb_spec p (Z.of_nat n)), (Z.ltb_spec p (Z.of_nat (S n))); done || lia.
Qed.

(** The number of a pixel. *)
Lemma pix_word m a b : pix vw vi m a b = word m (b * width vi + a).
Proof. unfold pix, word. destruct vbe_sizes as (_ & _ & _ & -> & _). done. Qed.

Lemma pixel_number a b :
  on_screen vw a b -> 0 <= b * width vi + a < width vi * height vi /\ width vi * height vi <= 1024 * 768.
Proof. unfold on_screen. destruct vbe_sizes as (_ & _ & _ & -> & -> & Hw & Hh & _). nia. Qed.

(** Clearing the frame. *)
Lemma vbe_clear_paints c : paints vw vi (fun _ _ _ => u32 c) (vbe_clear c vi).
Proof.
  intros m a b Hab. destruct (pixel_number a b Hab) as [Hn Hm]. rewrite !pix_word. destruct vbe_sizes as (Ha & Hl & _).
  unfold vbe_clear. rewrite Ha. destruct (Z.eqb_spec (lfb vi) 0); [done|]. cbn [negb orb]. rewrite u32_small by (unfold in_u32; lia).
  pose proof (fill_from_word 0 (width vi * height vi) c m (b * width vi + a)) as H. unfold fill_from in H.
  rewrite Z.sub_0_r in H. rewrite H by lia. by replace (_ && _) with true by lia.
Qed.

End Pixels.

(** ** Cells *)

(** What is drawn in a character cell: a glyph in two colours and perhaps
    the two lines of a cursor. *)
Record cell : Type := mk_cell { glyph : Z; ink : Z; paper : Z; mark : option Z }.

Definition cell_px (c : cell) (i j : Z) : Z :=
  let base := if Gfx.glyph_bit (glyph c) j i then ink c else paper c in
  u32 (match mark c with Some u => if 14 <=? j then u else base | None => base end).

Definition plain (ch fg bg : Z) : cell := mk_cell ch fg bg None.
Definition blank (color : Z) : cell := plain 32 color color.
Definition marked (u : Z) (c : cell) : cell := mk_cell (glyph c) (ink c) (paper c) (Some u).

Definition upd {A} (x y : nat) (c : A) (g : nat -> nat -> A) : nat -> nat -> A :=
  fun x' y' => if decide (x' = x /\ y' = y) then c else g x' y'.

(** The frame shows the cells. *)
Definition grid_shown (vi : vbe_info) (cols rows : nat) (m : mem) (g : nat -> nat -> cell) : Prop :=
  forall x y i j, (x < cols)%nat -> (y < rows)%nat -> 0 <= i < 8 -> 0 <= j < 16 ->
    pix (Snake.vbe_view vi) vi m (8 * Z.of_nat x + i) (16 * Z.of_nat y + j) = cell_px (g x y) i j.

Section Cells.

Context (vi : vbe_info) (Hv : vid_ok (Snake.vbe_view vi) vi) (cols rows : nat).
Context (Hc : 8 * Z.of_nat cols <= width vi) (Hr : 16 * Z.of_nat rows <= height vi).

Lemma cell_on_screen x y i j :
  (x < cols)%nat -> (y < rows)%nat -> 0 <= i < 8 -> 0 <= j < 16 ->
  on_screen (Snake.vbe_view vi) (8 * Z.of_nat x + i) (16 * Z.of_nat y + j).
Proof. intros. unfold on_screen. destruct (vbe_sizes vi Hv) as (_ & _ & _ & -> & -> & _). lia. Qed.

(** A picture inside one cell changes that cell. *)
Lemma grid_picture x0 y0 dy h c c' F m g :
  0 <= dy -> dy + h <= 16 -> paints (Snake.vbe_view vi) vi (picture vi (8 * Z.of_nat x0) (16 * Z.of_nat y0 + dy) 8 h c) F ->
  (forall i j, 0 <= i < 8 -> 0 <= j < 16 ->
    cell_px c' i j = if (dy <=? j) && (j <? dy + h) then u32 (c i (j - dy)) else cell_px (g x0 y0) i j) ->
  grid_shown vi cols rows m g -> grid_shown vi cols rows (F m) (upd x0 y0 c' g).
Proof.
  intros Hd Hh HF Hpx Hg x y i j Hx Hy Hi Hj. rewrite HF by by apply cell_on_screen. rewrite Hg by done.
  unfold picture, MkdispSpec.inside, upd. change (pc (Snake.vbe_view vi)) with u32. destruct (decide (x = x0 /\ y = y0)) as [[-> ->]|Hne].
  - rewrite Hpx by done.
    replace ((8 * Z.of_nat x0 <=? 8 * Z.of_nat x0 + i) && (8 * Z.of_nat x0 + i <? 8 * Z.of_nat x0 + 8) &&
      (16 * Z.of_nat y0 + dy <=? 16 * Z.of_nat y0 + j) && (16 * Z.of_nat y0 + j <? 16 * Z.of_nat y0 + dy + h))
      with ((dy <=? j) && (j <? dy + h)) by lia.
    replace (8 * Z.of_nat x0 + i - 8 * Z.of_nat x0) with i by lia.
    by replace (16 * Z.of_nat y0 + j - (16 * Z.of_nat y0 + dy)) with (j - dy) by lia.
  - destruct (_ && _) eqn:E; [|done]. exfalso. apply Hne. lia.
Qed.

Lemma glyph_cell x y ch fg bg m g :
  (x < cols)%nat -> (y < rows)%nat -> grid_shown vi cols rows m g ->
  grid_shown vi cols rows
    (for_up 16 0 (fun r => for_up 8 0 (fun c =>
      vbe_putpixel (s32 (s32 (Z.of_nat x * FONT_W) + c)) (s32 (s32 (Z.of_nat y * FONT_H) + r))
        (if Gfx.glyph_bit ch r c then fg else bg) vi)) m)
    (upd x y (plain ch fg bg) g).
Proof.
  intros Hx Hy. destruct (vbe_sizes vi Hv) as (_ & _ & _ & _ & _ & Hw & Hh & _).
  unfold FONT_W, FONT_H. rewrite !(s32_small (Z.of_nat _ * _)) by (unfold in_s32; lia).
  rewrite (Z.mul_comm (Z.of_nat x)), (Z.mul_comm (Z.of_nat y)). apply (grid_picture x y 0 16 (fun i j => if Gfx.glyph_bit ch j i then fg else bg)); [lia | lia | |].
  - rewrite Z.add_0_r. apply glyph_paints; (done || lia).
  - intros i j Hi Hj. replace (_ && _) with true by lia. unfold cell_px, plain. cbn [mark glyph ink paper]. by rewrite Z.sub_0_r.
Qed.

Lemma fill_cell x y color m g :
  (x < cols)%nat -> (y < rows)%nat -> grid_shown vi cols rows m g ->
  grid_shown vi cols rows
    (vbe_fill_rect (s32 (Z.of_nat x * FONT_W)) (s32 (Z.of_nat y * FONT_H)) FONT_W FONT_H color vi m)
    (upd x y (blank color) g).
Proof.
  intros Hx Hy. destruct (vbe_sizes vi Hv) as (_ & _ & _ & _ & _ & Hw & Hh & _).
  unfold FONT_W, FONT_H. rewrite !s32_small by (unfold in_s32; lia). rewrite (Z.mul_comm (Z.of_nat x)), (Z.mul_comm (Z.of_nat y)).
  apply (grid_picture x y 0 16 (fun _ _ => color)); [lia | lia | |].
  - rewrite Z.add_0_r. apply rect_paints; (done || unfold near; lia).
  - intros i j Hi Hj. replace (_ && _) with true by lia. unfold cell_px, blank, plain. cbn [mark glyph ink paper]. by destruct (Gfx.glyph_bit _ _ _).
Qed.

Lemma mark_cell x y color m g :
  (x < cols)%nat -> (y < rows)%nat -> grid_shown vi cols rows m g ->
  grid_shown vi cols rows
    (vbe_fill_rect (s32 (Z.of_nat x * FONT_W)) (s32 (Z.of_nat y * FONT_H + FONT_H - 2)) FONT_W 2 color vi m)
    (upd x y (marked color (g x y)) g).
Proof.
  intros Hx Hy. destruct (vbe_sizes vi Hv) as (_ & _ & _ & _ & _ & Hw & Hh & _).
  unfold FONT_W, FONT_H. rewrite !s32_small by (unfold in_s32; lia). rewrite (Z.mul_comm (Z.of_nat x)).
  replace (Z.of_nat y * 16 + 16 - 2) with (16 * Z.of_nat y + 14) by lia.
  apply (grid_picture x y 14 2 (fun _ _ => color)); [lia | lia | |].
  - apply rect_paints; (done || unfold near; lia).
  - intros i j Hi Hj. replace ((14 <=? j) && (j <? 14 + 2)) with (14 <=? j) by lia. unfold cell_px, marked. cbn [mark glyph ink paper].
    destruct (Z.leb_spec 14 j); [done|]. by destruct (mark (g x y)).
Qed.

(** Scrolling moves the rows of cells up by one. *)
Definition scrolled (color : Z) (g : nat -> nat -> cell) : nat -> nat -> cell :=
  fun x y => if decide (S y = rows) then blank color else g x (S y).

Lemma scroll_cells color m g :
  (0 < rows)%nat -> grid_shown vi cols rows m g ->
  grid_shown vi cols rows
    (fill_from (u32 (u32 ((Z.of_nat rows - 1) * FONT_H) * width vi))
       (Z.min (u32 (u32 (Z.of_nat rows * FONT_H) * width vi)) (u32 (width vi * height vi))) (lfb vi) color
       (scroll_up (u32 (u32 ((Z.of_nat rows - 1) * FONT_H) * width vi)) (u32 (FONT_H * width vi)) (lfb vi) m))
    (scrolled color g).
Proof.
  intros Hr0 Hg x y i j Hx Hy Hi Hj. destruct (vbe_sizes vi Hv) as (_ & _ & _ & _ & _ & Hw & Hh & _). unfold FONT_H.
  rewrite (u32_small ((Z.of_nat rows - 1) * 16)), (u32_small (Z.of_nat rows * 16)) by (unfold in_u32; lia).
  rewrite (u32_small ((Z.of_nat rows - 1) * 16 * width vi)), (u32_small (Z.of_nat rows * 16 * width vi)),
    (u32_small (width vi * height vi)), (u32_small (16 * width vi)) by (unfold in_u32; nia).
  destruct (pixel_number vi Hv _ _ (cell_on_screen x y i j Hx Hy Hi Hj)) as [Hn Hm].
  rewrite (pix_word vi Hv), (fill_from_word vi Hv), (scroll_up_word vi Hv) by nia.
  unfold scrolled. destruct (decide (S y = rows)) as [E|E].
  - replace (_ && _) with true by (symmetry; apply andb_true_iff; split; [apply Z.leb_le | apply Z.ltb_lt]; nia).
    unfold cell_px, blank, plain. cbn [mark glyph ink paper]. by destruct (Gfx.glyph_bit _ _ _).
  - replace (_ && _) with false by (symmetry; apply andb_false_iff; left; apply Z.leb_gt; nia).
    rewrite (proj2 (Z.ltb_lt _ _)) by nia. rewrite <- Hg by lia. rewrite (pix_word vi Hv). f_equal. lia.
Qed.

End Cells.

(** ** The console as an array of cells *)

Record scr : Type := mk_scr {
  grid : nat -> nat -> cell; sr : nat; sc : nat; scols : nat; srows : nat; sfg : Z; sbg : Z }.

Definition set_grid (g : nat -> nat -> cell) (s : scr) : scr := mk_scr g (sr s) (sc s) (scols s) (srows s) (sfg s) (sbg s).
Definition go (r c : nat) (s : scr) : scr := mk_scr (grid s) r c (scols s) (srows s) (sfg s) (sbg s).

Definition s_write (c : Z) (x y : nat) (s : scr) : scr := set_grid (upd x y (plain (u8 c) (sfg s) (sbg s)) (grid s)) s.
Definition s_erase (s : scr) : scr := set_grid (upd (sc s) (sr s) (blank (sbg s)) (grid s)) s.
Definition s_mark (s : scr) : scr := set_grid (upd (sc s) (sr s) (marked (sfg s) (grid s (sc s) (sr s))) (grid s)) s.
Definition s_scroll (s : scr) : scr := go (srows s - 1) (sc s) (set_grid (scrolled (srows s) (sbg s) (grid s)) s).
Definition s_settle (s : scr) : scr := s_mark (if (srows s <=? sr s)%nat then s_scroll s else s).

Fixpoint s_left (n : nat) (s : scr) : scr :=
  match n, sc s with S n', S c => s_left n' (go (sr s) c (s_erase s)) | _, _ => s end.
Fixpoint s_right (n : nat) (s : scr) : scr :=
  match n with
  | O => s
  | S n' => if (sc s <? scols s - 1)%nat then s_right n' (go (sr s) (S (sc s)) (s_erase s)) else s
  end.

(** The calls other components make, on the console and on the cells. *)
Inductive op : Type :=
| Put (c : Z) | Backspace | SetCursor (x y : nat) | MoveLeft (n : nat) | MoveRight (n : nat)
| SetColor (c : Z) | PutAtCursor (c : Z).

Definition exec (o : op) (k : con) : con :=
  match o with
  | Put c => terminal_putchar c k
  | Backspace => terminal_backspace k
  | SetCursor x y => terminal_set_cursor x y k
  | MoveLeft n => terminal_move_left n k
  | MoveRight n => terminal_move_right n k
  | SetColor c => terminal_setcolor c k
  | PutAtCursor c => terminal_putchar_at_cursor c k
  end.

Definition s_exec (o : op) (s : scr) : scr :=
  match o with
  | Put c =>
      s_settle
        (if c =? 10 then go (S (sr s)) 0 (s_erase s)
         else if c =? 13 then go (sr s) 0 s
         else
           let s := s_write c (sc s) (sr s) s in
           if (S (sc s) =? scols s)%nat then go (S (sr s)) 0 s else go (sr s) (S (sc s)) s)
  | Backspace =>
      match sc s with O => s | S c => s_mark (s_write 32 c (sr s) (go (sr s) c s)) end
  | SetCursor x y => s_mark (go (Nat.min y (srows s - 1)) (Nat.min x (scols s - 1)) (s_erase s))
  | MoveLeft n => s_mark (s_left n s)
  | MoveRight n => s_mark (s_right n s)
  | SetColor c =>
      mk_scr (grid s) (sr s) (sc s) (scols s) (srows s)
        (palette !!! Z.to_nat (Z.land c 0xF)) (palette !!! Z.to_nat (Z.land (Z.shiftr c 4) 0xF))
  | PutAtCursor c => s_write c (sc s) (sr s) s
  end.

Record shows (k : con) (s : scr) : Prop := mk_shows {
  sh_mode : fb_mode k = true;
  sh_vid : vid_ok (Snake.vbe_view (info k)) (info k);
  sh_cols : term_cols k = cols_of (info k);
  sh_rows : term_rows k = rows_of (info k);
  sh_scols : scols s = term_cols k;
  sh_srows : srows s = term_rows k;
  sh_row : row k = sr s;
  sh_col : col k = sc s;
  sh_fg : fb_fg k = sfg s;
  sh_bg : fb_bg k = sbg s;
  sh_grid : grid_shown (info k) (term_cols k) (term_rows k) (cmem k) (grid s);
}.

(** The cursor is on the screen. *)
Definition inside (s : scr) : Prop := (sc s < scols s)%nat /\ (sr s < srows s)%nat.

Lemma shows_room k s :
  shows k s -> 8 * Z.of_nat (term_cols k) <= width (info k) /\ 16 * Z.of_nat (term_rows k) <= height (info k) /\
    (40 <= term_cols k)%nat /\ (12 <= term_rows k)%nat.
Proof.
  intros []. destruct (vbe_sizes _ sh_vid0) as (_ & _ & _ & _ & _ & Hw & Hh & _). rewrite sh_cols0, sh_rows0.
  unfold cols_of, rows_of, FONT_W, FONT_H. rewrite !Z2Nat.id by (apply Z.div_pos; lia). split_and!; zlia.
Qed.

Lemma shows_ready k s : shows k s -> active (info k) = true /\ (lfb (info k) =? 0) = false.
Proof. intros []. destruct (vbe_sizes _ sh_vid0) as (? & ? & _). split; [done | by apply Z.eqb_neq]. Qed.

(** The same console with another frame. *)
Lemma shows_mem k s m g :
  shows k s -> grid_shown (info k) (term_cols k) (term_rows k) m g -> shows (set_cmem m k) (set_grid g s).
Proof. intros [] Hg. by split. Qed.

Lemma shows_place k s r c : shows k s -> shows (place r c k) (go r c s).
Proof. intros []. by split. Qed.

Lemma write_shows k s c x y :
  shows k s -> (x < scols s)%nat -> (y < srows s)%nat -> shows (fb_putentryat c x y k) (s_write c x y s).
Proof.
  intros Hs Hx Hy. destruct (shows_room k s Hs) as (Hc & Hr & _). destruct (shows_ready k s Hs) as [Ha Hl].
  unfold fb_putentryat, fb_draw_glyph. rewrite Ha, Hl. cbn [negb orb]. rewrite <- (sh_scols k s Hs), <- (sh_srows k s Hs).
  rewrite (proj2 (Nat.leb_gt _ _) Hx), (proj2 (Nat.leb_gt _ _) Hy). cbn [orb]. rewrite (sh_fg k s Hs), (sh_bg k s Hs).
  apply shows_mem; [done|]. rewrite (sh_scols k s Hs) in Hx. rewrite (sh_srows k s Hs) in Hy.
  apply glyph_cell; try done; by destruct Hs.
Qed.

Lemma erase_shows k s : shows k s -> inside s -> shows (fb_fill_cell (col k) (row k) (fb_bg k) k) (s_erase s).
Proof.
  intros Hs [Hx Hy]. destruct (shows_room k s Hs) as (Hc & Hr & _). destruct (shows_ready k s Hs) as [Ha _].
  unfold fb_fill_cell. rewrite Ha. cbn [negb]. rewrite (sh_bg k s Hs), (sh_row k s Hs), (sh_col k s Hs).
  rewrite (sh_scols k s Hs) in Hx. rewrite (sh_srows k s Hs) in Hy.
  apply shows_mem; [done|]. apply fill_cell; try done; by destruct Hs.
Qed.

Lemma mark_shows k s : shows k s -> inside s -> shows (fb_draw_cursor k) (s_mark s).
Proof.
  intros Hs [Hx Hy]. destruct (shows_room k s Hs) as (Hc & Hr & _). destruct (shows_ready k s Hs) as [Ha _].
  unfold fb_draw_cursor. rewrite (sh_mode k s Hs), Ha. cbn [negb]. rewrite (sh_fg k s Hs), (sh_row k s Hs), (sh_col k s Hs).
  rewrite (sh_scols k s Hs) in Hx. rewrite (sh_srows k s Hs) in Hy.
  apply shows_mem; [done|]. apply mark_cell; try done; by destruct Hs.
Qed.

Lemma scroll_shows k s : shows k s -> shows (fb_scroll k) (s_scroll s).
Proof.
  intros Hs. destruct (shows_room k s Hs) as (Hc & Hr & _ & H12). destruct (shows_ready k s Hs) as [Ha Hl].
  unfold fb_scroll, s_scroll. rewrite Ha, Hl. cbn [negb orb]. rewrite (sh_col k s Hs), (sh_srows k s Hs), (sh_bg k s Hs).
  apply shows_place, shows_mem; [done|]. apply scroll_cells; try done; try lia; by destruct Hs.
Qed.

Lemma settle_shows k s :
  shows k s -> (sc s < scols s)%nat -> (sr s <= srows s)%nat -> shows (fb_settle k) (s_settle s) /\ inside (s_settle s).
Proof.
  intros Hs Hx Hy. destruct (shows_room k s Hs) as (_ & _ & _ & H12). unfold fb_settle, s_settle.
  rewrite <- (sh_srows k s Hs), (sh_row k s Hs). rewrite <- (sh_srows k s Hs) in H12.
  destruct (Nat.leb_spec (srows s) (sr s)).
  - assert (inside (s_scroll s)) as Hi by (split; cbn; lia). split; [|done]. by apply mark_shows; [apply scroll_shows|].
  - split; [|done]. by apply mark_shows.
Qed.

Lemma left_shows n k s : shows k s -> inside s -> shows (fb_left n k) (s_left n s) /\ inside (s_left n s).
Proof.
  revert k s. induction n as [|n IH]; intros k s Hs Hi; [by destruct k, s|]. cbn [fb_left s_left].
  rewrite (sh_col k s Hs). destruct (sc s) as [|c] eqn:Ec; [done|]. rewrite (sh_row k s Hs). apply IH.
  - apply shows_place. rewrite <- Ec, <- (sh_col k s Hs), <- (sh_row k s Hs). by apply erase_shows.
  - destruct Hi. split; cbn; lia.
Qed.

Lemma right_shows n k s : shows k s -> inside s -> shows (fb_right n k) (s_right n s) /\ inside (s_right n s).
Proof.
  revert k s. induction n as [|n IH]; intros k s Hs Hi; [done|]. cbn [fb_right s_right].
  rewrite (sh_col k s Hs), <- (sh_scols k s Hs). destruct (Nat.ltb_spec (sc s) (scols s - 1)); [|done].
  rewrite (sh_row k s Hs). apply IH.
  - apply shows_place. rewrite <- (sh_col k s Hs), <- (sh_row k s Hs). by apply erase_shows.
  - destruct Hi. split; cbn; lia.
Qed.

Lemma serial_shows k s c : shows k s -> shows (serial_putchar c k) s.
Proof. intros []. by split. Qed.

Lemma exec_shows o k s : shows k s -> inside s -> shows (exec o k) (s_exec o s) /\ inside (s_exec o s).
Proof.
  intros Hs Hi. pose proof Hi as [Hx Hy]. destruct (shows_room k s Hs) as (_ & _ & H40 & H12).
  rewrite <- (sh_scols k s Hs) in H40. rewrite <- (sh_srows k s Hs) in H12.
  destruct o; cbn [exec s_exec]; unfold terminal_putchar, terminal_backspace, terminal_set_cursor, terminal_move_left,
    terminal_move_right, terminal_putchar_at_cursor, terminal_putentryat; rewrite ?(sh_mode k s Hs).
  - unfold fb_putchar. cbv zeta. apply (serial_shows k s c) in Hs. set (k1 := serial_putchar c k) in *. clearbody k1.
    destruct (c =? 10); [apply settle_shows; [rewrite (sh_row k1 s Hs) at 1; by apply shows_place, erase_shows | cbn; lia..]|].
    rewrite (sh_row k1 s Hs), (sh_col k1 s Hs).
    destruct (c =? 13); [apply settle_shows; [by apply shows_place | cbn; lia..]|].
    pose proof (write_shows k1 s c (sc s) (sr s) Hs Hx Hy) as Hw.
    rewrite (sh_row _ _ Hw), (sh_col _ _ Hw), <- (sh_scols _ _ Hw). cbn [s_write set_grid sc sr scols].
    destruct (Nat.eqb_spec (S (sc s)) (scols s)); (apply settle_shows; [by apply shows_place | cbn; lia..]).
  - unfold fb_backspace. cbv zeta. rewrite (sh_col k s Hs), (sh_row k s Hs). destruct (sc s) as [|c]; [by split; [do 3 apply serial_shows|]|].
    assert (inside (s_write 32 c (sr s) (go (sr s) c s))) by (split; cbn; lia).
    split; [|done]. do 3 apply serial_shows. apply mark_shows; [|done].
    apply write_shows; [by apply shows_place | cbn; lia | done].
  - unfold fb_set_cursor. cbv zeta. rewrite <- (sh_scols k s Hs), <- (sh_srows k s Hs).
    replace (if (scols s <=? x)%nat then (scols s - 1)%nat else x) with (Nat.min x (scols s - 1)) by (destruct (Nat.leb_spec (scols s) x); lia).
    replace (if (srows s <=? y)%nat then (srows s - 1)%nat else y) with (Nat.min y (srows s - 1)) by (destruct (Nat.leb_spec (srows s) y); lia).
    split; [apply mark_shows; [by apply shows_place, erase_shows|]|]; split; cbn; lia.
  - destruct (left_shows n k s Hs Hi) as [Hl Hli]. split; [by apply mark_shows | done].
  - destruct (right_shows n k s Hs Hi) as [Hl Hli]. split; [by apply mark_shows | done].
  - split; [|done]. destruct Hs. by split.
  - split; [|done]. rewrite (sh_row k s Hs), (sh_col k s Hs). by apply write_shows.
Qed.

(** The cleared screen after the switch. *)
Definition cleared (k : con) : scr :=
  mk_scr (fun _ _ => blank (fb_bg k)) 0 0 (term_cols k) (term_rows k) (fb_fg k) (fb_bg k).

Lemma set_mode_probed dev mode v0 v' :
  vbe_set_mode dev mode (snd (vbe_probe dev v0)) = (0, v') -> vid_ok (Snake.vbe_view (g_vbe v')) (g_vbe v').
Proof.
  destruct (vbe_probe dev v0) as [ok v] eqn:E. cbn [snd]. destruct ok.
  - destruct (SnakeProps.probe_spec _ _ _ E) as (? & ? & ? & ?). by apply SnakeProps.set_mode_spec.
  - assert (g_probed v = true /\ g_dispi_ok v = false) as [Hp Hd].
    { unfold vbe_probe in E. destruct (dispi_read _ _ _) as [id l]. destruct (_ || _); [injection E as <-; done|].
      destruct (find_lfb_pci dev l) as [a l']. injection E as Ea <-. cbn. by rewrite Ea. }
    destruct (vbe_probe dev v) as [ok1 v1] eqn:E1. intros H.
    assert (vbe_set_mode dev mode v1 = (0, v') /\ ok1 = true) as [H1 ->].
    { unfold vbe_set_mode, ensure_probed in *. rewrite Hp in H. cbn [negb] in H. rewrite Hd in H. cbn [negb] in H. rewrite E1 in H.
      destruct (mode_size mode) as [w h]. destruct ok1; [|done]. destruct (SnakeProps.probe_spec _ _ _ E1) as (-> & Hd1 & ? & ?).
      cbn [negb] in *. by rewrite Hd1 in *. }
    destruct (SnakeProps.probe_spec _ _ _ E1) as (? & ? & ? & ?). by eapply SnakeProps.set_mode_spec.
Qed.

Lemma clear_shows k :
  fb_mode k = true -> vid_ok (Snake.vbe_view (info k)) (info k) -> term_cols k = cols_of (info k) -> term_rows k = rows_of (info k) ->
  row k = 0%nat -> col k = 0%nat ->
  shows (set_cmem (vbe_clear (fb_bg k) (info k) (cmem k)) k) (cleared k) /\ inside (cleared k).
Proof.
  intros Hm Hv Ec Er E1 E2. destruct (vbe_sizes _ Hv) as (_ & _ & _ & Ew & Eh & Hw & Hh & _).
  assert (8 * Z.of_nat (term_cols k) <= width (info k) /\ 16 * Z.of_nat (term_rows k) <= height (info k) /\
    (0 < term_cols k)%nat /\ (0 < term_rows k)%nat) as (Hc & Hr & Hc0 & Hr0).
  { rewrite Ec, Er. unfold cols_of, rows_of, FONT_W, FONT_H. rewrite !Z2Nat.id by (apply Z.div_pos; lia). split_and!; zlia. }
  split; [|done]. split; try done. intros x y i j Hx Hy Hi Hj. cbn [cmem set_cmem]. change (info (set_cmem _ k)) with (info k).
  rewrite (vbe_clear_paints _ Hv) by (by eapply cell_on_screen). unfold cell_px. cbn. by destruct (Gfx.glyph_bit _ _ _).
Qed.

Lemma enable_shows dev mode k k' :
  terminal_enable_fb dev mode k = (0, k') -> shows k' (cleared k') /\ inside (cleared k').
Proof.
  unfold terminal_enable_fb. destruct (vbe_set_mode dev mode _) as [r v] eqn:E. destruct (Z.eqb_spec r 0) as [->|]; [|done].
  cbn [negb]. intros [= <-]. apply set_mode_probed in E.
  exact (clear_shows (place 0 0 (set_mode true (cols_of (g_vbe v)) (rows_of (g_vbe v))
           (set_cvbe v (set_cvbe (snd (vbe_probe dev (cvbe k))) k)))) eq_refl E eq_refl eq_refl eq_refl eq_refl).
Qed.

(** The console is an array of cells: after a successful switch to the
    framebuffer, whatever is printed, erased, moved and coloured in any
    order, every pixel of the text area is the one its cell of the array
    describes, and the cursor stays on the screen. *)
Theorem fb_console_refines dev mode k k' ops :
  terminal_enable_fb dev mode k = (0, k') ->
  shows (foldl (fun k o => exec o k) k' ops) (foldl (fun s o => s_exec o s) (cleared k') ops) /\
  inside (foldl (fun s o => s_exec o s) (cleared k') ops).
Proof.
  intros H. destruct (enable_shows _ _ _ _ H) as [Hs Hi]. revert Hs Hi. generalize (cleared k'). clear H. revert k'.
  induction ops as [|o ops IH]; intros k' s Hs Hi; [done|]. cbn [foldl]. destruct (exec_shows o k' s Hs Hi). by apply IH.
Qed.

(** ** Text *)

(** What text looks like on a console of any size: the characters, the
    underlines that cursors left behind, and the position. *)
Record page : Type := mk_page { txt : nat -> nat -> Z; left : nat -> nat -> bool; pr : nat; pcol : nat }.

(** The rows above move up and a blank row follows. *)
Definition p_scroll (rows : nat) (p : page) : page :=
  mk_page (fun x y => if decide (S y = rows) then 32 else txt p x (S y))
    (fun x y => if decide (S y = rows) then false else left p x (S y)) (rows - 1) (pcol p).

(** One character: a newline blanks the cell of the position, a carriage
    return leaves the underline of the cursor where it was, and any other
    character replaces what the cell held. *)
Definition p_put (cols rows : nat) (p : page) (c : Z) : page :=
  let p :=
    if c =? 10 then mk_page (upd (pcol p) (pr p) 32 (txt p)) (upd (pcol p) (pr p) false (left p)) (S (pr p)) 0
    else if c =? 13 then mk_page (txt p) (upd (pcol p) (pr p) true (left p)) (pr p) 0
    else
      let t := upd (pcol p) (pr p) (u8 c) (txt p) in
      let l := upd (pcol p) (pr p) false (left p) in
      if (S (pcol p) =? cols)%nat then mk_page t l (S (pr p)) 0 else mk_page t l (pr p) (S (pcol p)) in
  if (rows <=? pr p)%nat then p_scroll rows p else p.

Definition p_empty : page := mk_page (fun _ _ => 32) (fun _ _ => false) 0 0.

(** A cell that looks like the character [c]: blanks may be erased cells. *)
Definition looks (c fg bg : Z) (d : cell) : Prop :=
  glyph d = c /\ paper d = bg /\ (ink d = fg \/ c = 32).

Definition left_mark (s : scr) (p : page) (x y : nat) : option Z := if left p x y then Some (sfg s) else None.

(** The cells are the page, but for the underline of the cursor. *)
Record steady (s : scr) (p : page) : Prop := mk_steady {
  st_row : sr s = pr p;
  st_col : sc s = pcol p;
  st_cell : forall x y, (x < scols s)%nat -> (y < srows s)%nat -> looks (txt p x y) (sfg s) (sbg s) (grid s x y);
  st_mark : forall x y, (x < scols s)%nat -> (y < srows s)%nat -> ~ (x = pcol p /\ y = pr p) ->
    mark (grid s x y) = left_mark s p x y;
}.

(** The cursor is drawn under the position. *)
Definition drawn (s : scr) (p : page) : Prop := mark (grid s (pcol p) (pr p)) = Some (sfg s).

Lemma mark_prints s p : steady s p -> inside s -> steady (s_mark s) p /\ drawn (s_mark s) p.
Proof.
  intros [Er Ec Hcell Hm] [Hx Hy]. unfold drawn. split; [split|]; cbn [s_mark set_grid grid sr sc sfg sbg scols srows]; try done;
    unfold upd; rewrite Er, Ec.
  - intros x y Hx' Hy'. destruct (decide _) as [[-> ->]|]; by apply Hcell.
  - intros x y Hx' Hy' Hn. rewrite decide_False by done. by apply Hm.
  - by rewrite decide_True.
Qed.

Lemma scroll_steady s p : steady s p -> sr s = srows s -> (0 < srows s)%nat -> steady (s_scroll s) (p_scroll (srows s) p).
Proof.
  intros [Er Ec Hcell Hm] Es H0. split; unfold left_mark; cbn [s_scroll p_scroll set_grid go grid sr sc sfg sbg scols srows txt left pr pcol]; try done;
    intros x y Hx Hy; unfold scrolled; destruct (decide (S y = srows s)); try done; [split_and!; try done; by right | |].
  - apply Hcell; [done | lia].
  - intros _. apply Hm; [done | lia | lia].
Qed.

Lemma settle_prints s p :
  steady s p -> (sc s < scols s)%nat -> (sr s <= srows s)%nat -> (0 < srows s)%nat ->
  let p' := if (srows s <=? pr p)%nat then p_scroll (srows s) p else p in
  steady (s_settle s) p' /\ drawn (s_settle s) p'.
Proof.
  intros Hu Hx Hy H0. unfold s_settle. rewrite <- (st_row s p Hu). destruct (Nat.leb_spec (srows s) (sr s)).
  - apply mark_prints; [|split; cbn; lia]. apply scroll_steady; [done | lia | done].
  - by apply mark_prints.
Qed.

(** A change of the cell of the position, and the next position. *)
Lemma cell_steady s p c b d r0 c0 :
  steady s p -> looks c (sfg s) (sbg s) d -> mark d = (if b : bool then Some (sfg s) else None) ->
  steady (go r0 c0 (set_grid (upd (sc s) (sr s) d (grid s)) s)) (mk_page (upd (pcol p) (pr p) c (txt p)) (upd (pcol p) (pr p) b (left p)) r0 c0).
Proof.
  intros [Er Ec Hcell Hm] Hd Hb. split; unfold left_mark; cbn [go set_grid grid sc sr scols srows sfg sbg txt left pr pcol]; try done;
    intros x y Hx Hy; unfold upd; rewrite Er, Ec; destruct (decide _) as [|Hne]; try done; [by apply Hcell|].
  intros _. by apply Hm.
Qed.

Lemma put_prints s p c :
  steady s p -> pcol p = O \/ drawn s p -> inside s ->
  let p' := p_put (scols s) (srows s) p c in steady (s_exec (Put c) s) p' /\ drawn (s_exec (Put c) s) p'.
Proof.
  intros Hs Hd [Hx Hy] p'. subst p'. cbn [s_exec]. unfold p_put. destruct (c =? 10).
  { apply (settle_prints (go (S (sr s)) 0 (s_erase s)) (mk_page _ _ (S (pr p)) 0)); cbn [go s_erase set_grid sc sr scols srows]; try lia.
    rewrite (st_row _ _ Hs). apply cell_steady; [done | | done]. split_and!; try done. by right. }
  destruct (c =? 13).
  { apply (settle_prints (go (sr s) 0 s) (mk_page _ _ (pr p) 0)); cbn [go set_grid sc sr scols srows]; try lia.
    destruct Hs as [Er Ec Hcell Hm]. split; unfold left_mark; cbn [go grid sc sr scols srows sfg sbg txt left pr pcol]; try done.
    intros x y Hx' Hy' Hn. unfold upd. destruct (decide _) as [[-> ->]|Hne]; [|by apply Hm]. destruct Hd as [Hd|Hd]; [by destruct Hn | done]. }
  pose proof (st_row _ _ Hs) as Er. pose proof (st_col _ _ Hs) as Ec. cbn [s_write set_grid sc scols].
  replace (S (sc s) =? scols s)%nat with (S (pcol p) =? scols s)%nat by congruence.
  assert (forall r0 c0 r1 c1, r1 = r0 -> c1 = c0 -> steady (go r1 c1 (s_write c (sc s) (sr s) s))
    (mk_page (upd (pcol p) (pr p) (u8 c) (txt p)) (upd (pcol p) (pr p) false (left p)) r0 c0)) as Hum.
  { intros r0 c0 ? ? -> ->. apply (cell_steady s p (u8 c) false); [done | | done]. split_and!; try done. by left. }
  destruct (Nat.eqb_spec (S (pcol p)) (scols s)).
  - apply (settle_prints (go (S (sr s)) 0 (s_write c (sc s) (sr s) s)) (mk_page _ _ (S (pr p)) 0)); [apply Hum; congruence | cbn; lia..].
  - apply (settle_prints (go (sr s) (S (sc s)) (s_write c (sc s) (sr s) s)) (mk_page _ _ (pr p) (S (pcol p)))); [apply Hum; congruence | cbn; lia..].
Qed.

Lemma exec_sizes o s : scols (s_exec o s) = scols s /\ srows (s_exec o s) = srows s.
Proof.
  assert (forall n s, scols (s_left n s) = scols s /\ srows (s_left n s) = srows s) as Hl.
  { induction n as [|n IH]; intros s'; [by destruct s'|]. cbn [s_left]. destruct (sc s'); [done|]. split; (etrans; [apply IH | done]). }
  assert (forall n s, scols (s_right n s) = scols s /\ srows (s_right n s) = srows s) as Hr.
  { induction n as [|n IH]; intros s'; [done|]. cbn [s_right]. destruct (_ <? _)%nat; [|done]. split; (etrans; [apply IH | done]). }
  destruct o; cbn [s_exec]; try done; try apply Hl; try apply Hr.
  - unfold s_settle. repeat case_match; done.
  - by destruct (sc s).
Qed.

(** Put colours do not change. *)
Lemma put_colours c s : sfg (s_exec (Put c) s) = sfg s /\ sbg (s_exec (Put c) s) = sbg s.
Proof. cbn [s_exec]. unfold s_settle. repeat case_match; done. Qed.

Lemma text_prints cs s k p :
  shows k s -> inside s -> steady s p -> pcol p = O \/ drawn s p ->
  exists s', shows (foldl (fun k c => terminal_putchar c k) k cs) s' /\
    steady s' (foldl (p_put (scols s) (srows s)) p cs) /\ (cs <> [] -> drawn s' (foldl (p_put (scols s) (srows s)) p cs)) /\
    (cs = [] -> s' = s) /\ scols s' = scols s /\ srows s' = srows s /\ sfg s' = sfg s /\ sbg s' = sbg s.
Proof.
  revert s k p. induction cs as [|c cs IH]; intros s k p Hs Hi Hp Hd; [by exists s|].
  destruct (exec_shows (Put c) k s Hs Hi) as [Hs1 Hi1]. destruct (put_prints s p c Hp Hd Hi) as [Hp1 Hd1].
  destruct (exec_sizes (Put c) s) as [E1 E2]. destruct (put_colours c s) as [E3 E4]. cbn [foldl].
  destruct (IH (s_exec (Put c) s) (terminal_putchar c k) _ Hs1 Hi1 Hp1 (or_intror Hd1)) as (s' & H1 & H2 & H3 & H4 & H5 & H6 & H7 & H8).
  exists s'. rewrite E1, E2 in H2, H3.
  assert (drawn s' (foldl (p_put (scols s) (srows s)) (p_put (scols s) (srows s) p c) cs)) as H9
    by (destruct cs; [by rewrite (H4 eq_refl) | by apply H3]).
  split_and!; congruence || done.
Qed.

(** Text without carriage returns leaves no underlines behind. *)
Lemma no_marks_left cols rows cs p x y :
  Forall (fun c => c <> 13) cs -> (forall x y, left p x y = false) -> left (foldl (p_put cols rows) p cs) x y = false.
Proof.
  revert p. induction cs as [|c cs IH]; intros p Hc Hl; [apply Hl|]. apply Forall_cons in Hc as [Hc Hcs]. cbn [foldl]. apply IH; [done|].
  intros x' y'. unfold p_put. destruct (Z.eqb_spec c 13); [done|]. unfold p_scroll, upd. repeat case_match; cbn; repeat case_match; done.
Qed.

(** The blank has no ink. *)
Lemma blank_glyph i j : 0 <= i < 8 -> 0 <= j < 16 -> Gfx.glyph_bit 32 j i = false.
Proof.
  intros Hi Hj. assert (forallb (fun j => forallb (fun i => negb (Gfx.glyph_bit 32 j i)) (seqZ 0 8)) (seqZ 0 16) = true) as H by reflexivity.
  rewrite forallb_forall in H. specialize (H j). rewrite <- list_elem_of_In, elem_of_seqZ in H. specialize (H ltac:(lia)).
  rewrite forallb_forall in H. specialize (H i). rewrite <- list_elem_of_In, elem_of_seqZ in H. specialize (H ltac:(lia)).
  by apply negb_true_iff.
Qed.

(** C33. Text on the framebuffer console: after a successful switch to any
    mode, writing any string shows, pixel by pixel, the glyphs of the page
    that [p_put] builds character by character at that many columns and rows,
    wrapped and scrolled there, in the current colours, with the cursor under
    the next position (once anything was written) and, besides, exactly the
    underlines that carriage returns left behind; a string without carriage
    returns leaves none. *)
Theorem fb_shows_text dev mode k k' t :
  terminal_enable_fb dev mode k = (0, k') ->
  let k2 := terminal_writestring t k' in
  let p := foldl (p_put (term_cols k') (term_rows k')) p_empty (cstr t) in
  row k2 = pr p /\ col k2 = pcol p /\
  (Forall (fun c => c <> 13) (cstr t) -> forall x y, left p x y = false) /\
  forall x y i j, (x < term_cols k')%nat -> (y < term_rows k')%nat -> 0 <= i < 8 -> 0 <= j < 16 ->
    pix (Snake.vbe_view (info k2)) (info k2) (cmem k2) (8 * Z.of_nat x + i) (16 * Z.of_nat y + j) =
    u32 (if decide (14 <= j /\ (left p x y = true \/ x = pcol p /\ y = pr p /\ cstr t <> [])) then fb_fg k'
         else if Gfx.glyph_bit (txt p x y) j i then fb_fg k' else fb_bg k').
Proof.
  intros He k2 p. destruct (enable_shows _ _ _ _ He) as [Hs Hi].
  destruct (text_prints (cstr t) (cleared k') k' p_empty Hs Hi) as (s' & H1 & [Er Ec Hcell Hm] & Hd & H0 & E1 & E2 & E3 & E4); [|by left|].
  { split; try done. intros x y _ _. split_and!; try done. by right. }
  change (foldl (p_put (scols (cleared k')) (srows (cleared k'))) p_empty (cstr t)) with p in *.
  change (foldl (fun k c => terminal_putchar c k) k' (cstr t)) with k2 in *. pose proof H1 as [].
  split_and!; [congruence | congruence | intros ? x y; by apply no_marks_left |]. intros x y i j Hx Hy Hi' Hj. cbn [cleared scols srows sfg sbg] in *.
  rewrite sh_grid0 by lia || congruence. destruct (Hcell x y) as (G & P & I); [congruence..|].
  assert (mark (grid s' x y) = if decide (left p x y = true \/ x = pcol p /\ y = pr p /\ cstr t <> []) then Some (fb_fg k') else None) as M.
  { destruct (decide (cstr t = [])) as [E|E].
    - rewrite (H0 E). cbn. rewrite decide_False; [done|]. subst p. rewrite E. cbn. naive_solver.
    - destruct (decide (x = pcol p /\ y = pr p)) as [[-> ->]|Hn].
      + rewrite decide_True by tauto. rewrite <- E3. by apply Hd.
      + rewrite (Hm x y) by (congruence || done). unfold left_mark. rewrite E3. destruct (left p x y).
        * rewrite decide_True by tauto. done.
        * rewrite decide_False by naive_solver. done. }
  unfold cell_px. rewrite G, P, M, E4. f_equal.
  assert ((if Gfx.glyph_bit (txt p x y) j i then ink (grid s' x y) else fb_bg k') =
    (if Gfx.glyph_bit (txt p x y) j i then fb_fg k' else fb_bg k')) as ->.
  { destruct I as [->|I]; [by rewrite E3|]. rewrite I. by rewrite blank_glyph. }
  destruct (decide (left p x y = true \/ _)) as [Hu|Hu].
  - destruct (Z.leb_spec 14 j); [by rewrite decide_True | by rewrite decide_False by lia].
  - by rewrite decide_False by tauto.
Qed.

(** A line that ends in a carriage return and a newline loses its first
    character, and keeps an underline behind its last: the newline blanks the
    cell the carriage return went back to. *)
Example crlf_erases :
  let p := foldl (p_put 80 30) p_empty [72; 105; 13; 10] in
  map (fun x => txt p x 0%nat) [0; 1; 2]%nat = [32; 105; 32] /\ left p 2%nat 0%nat = true.
Proof. by vm_compute. Qed.

(** ** The page of text mode *)

(** The 80 by 25 screen of [Terminal] holds the page. *)
Record text_page (t : Terminal.term) (p : page) : Prop := mk_text_page {
  tp_row : Terminal.terminal_row t = pr p;
  tp_col : Terminal.terminal_column t = pcol p;
  tp_len : length (Terminal.terminal_buffer t) = 2000%nat;
  tp_cell : forall x y, (x < 80)%nat -> (y < 25)%nat ->
    Terminal.terminal_buffer t !! (y * 80 + x)%nat = Some (Terminal.vga_entry (txt p x y) (Terminal.terminal_color t));
  (* behind the position there is nothing yet *)
  tp_fresh : forall x y, (pr p < y)%nat \/ y = pr p /\ (pcol p <= x)%nat -> txt p x y = 32;
}.

Lemma text_scroll t p :
  text_page t p -> (pr p = 25)%nat ->
  text_page (Terminal.terminal_scroll t) (p_scroll 25 p).
Proof.
  intros [Er Ec El Hc Hf] H25.
  split; cbn [p_scroll Terminal.terminal_scroll Terminal.terminal_row Terminal.terminal_column Terminal.terminal_buffer Terminal.terminal_color txt pr pcol];
    try done; [by rewrite length_app, length_drop, length_replicate, El | |];
    [|intros x y Hxy; destruct (decide (S y = 25%nat)); [done | apply Hf; lia]].
  intros x y Hx Hy. unfold Terminal.VGA_TEXT_W. destruct (decide (S y = 25%nat)) as [E|E].
  - rewrite lookup_app_r by (rewrite length_drop, El; lia). by rewrite lookup_replicate_2 by (rewrite length_drop, El; lia).
  - rewrite lookup_app_l by (rewrite length_drop, El; lia). rewrite lookup_drop, <- Hc by lia. done.
Qed.

Lemma text_put t p c :
  text_page t p -> (pr p < 25)%nat -> (pcol p < 80)%nat -> c <> 13 ->
  text_page (Terminal.terminal_putchar c t) (p_put 80 25 p c) /\ (pr (p_put 80 25 p c) < 25)%nat /\ (pcol (p_put 80 25 p c) < 80)%nat.
Proof.
  intros [Er Ec El Hc Hf] Hr Hcol Hne.
  assert (forall t1 p1, text_page t1 p1 -> (pr p1 <= 25)%nat -> (pcol p1 < 80)%nat ->
    let p2 := if (25 <=? pr p1)%nat then p_scroll 25 p1 else p1 in
    text_page (if (25 <=? Terminal.terminal_row t1)%nat then Terminal.terminal_scroll t1 else t1) p2 /\ (pr p2 < 25)%nat /\ (pcol p2 < 80)%nat) as Hset.
  { intros t1 p1 H1 Hr1 Hc1. rewrite (tp_row _ _ H1). destruct (Nat.leb_spec 25 (pr p1)); cbn [pr pcol]; [|done].
    split; [apply text_scroll; [done|lia] | cbn; lia]. }
  unfold Terminal.terminal_putchar, p_put, Terminal.VGA_TEXT_H, Terminal.VGA_TEXT_W. cbv zeta.
  destruct (Z.eqb_spec c 10) as [->|Hn]; [apply (Hset _ (mk_page _ _ (S (pr p)) 0)); cbn; [|lia..]|].
  { split; cbn; rewrite ?Er; try done; intros x y; unfold upd; destruct (decide _) as [[-> ->]|]; try done; intros; [|by apply Hc | apply Hf; lia].
    rewrite Hc, Hf by (done || lia). done. }
  destruct (Z.eqb_spec c 13); [done|].
  cbn [Terminal.terminal_putentryat Terminal.serial_putchar Terminal.terminal_column Terminal.terminal_row Terminal.terminal_color Terminal.terminal_buffer].
  rewrite Er, Ec.
  assert (forall r0 c0, (r0 = S (pr p) /\ c0 = O \/ r0 = pr p /\ c0 = S (pcol p)) -> text_page
    (Terminal.set_pos r0 c0 (Terminal.terminal_putentryat c (Terminal.terminal_color t) (pcol p) (pr p) (Terminal.serial_putchar c t)))
    (mk_page (upd (pcol p) (pr p) (u8 c) (txt p)) (upd (pcol p) (pr p) false (left p)) r0 c0)) as Hput.
  { intros r0 c0 Hrc. split; cbn [Terminal.set_pos Terminal.terminal_putentryat Terminal.serial_putchar Terminal.terminal_column
      Terminal.terminal_row Terminal.terminal_color Terminal.terminal_buffer txt pr pcol]; [done | done | by rewrite length_insert | |
      intros x y Hxy; unfold upd; destruct (decide _) as [[-> ->]|]; [lia | apply Hf; lia]].
    intros x y Hx Hy. unfold Terminal.VGA_TEXT_W, upd. destruct (decide _) as [[-> ->]|Hxy].
    - rewrite list_lookup_insert_eq by lia. unfold Terminal.vga_entry. by rewrite u8_u8.
    - rewrite list_lookup_insert_ne; [by apply Hc|]. intros E. apply Hxy. lia. }
  destruct (Nat.eqb_spec (S (pcol p)) 80).
  - apply (Hset _ (mk_page _ _ (S (pr p)) 0)); [apply Hput; by left | cbn; lia..].
  - apply (Hset _ (mk_page _ _ (pr p) (S (pcol p)))); [apply Hput; by right | cbn; lia..].
Qed.

(** At 80 columns and 25 rows the page is what text mode shows for the same
    text, as long as there is no carriage return in it. *)
Theorem page_is_text_mode t0 t :
  Forall (fun c => c <> 13) (cstr t) ->
  text_page (Terminal.terminal_writestring t (Terminal.terminal_initialize t0)) (foldl (p_put 80 25) p_empty (cstr t)).
Proof.
  unfold Terminal.terminal_writestring.
  assert (forall cs t1 p1, Forall (fun c => c <> 13) cs -> text_page t1 p1 -> (pr p1 < 25)%nat -> (pcol p1 < 80)%nat ->
    text_page (foldl (fun t c => Terminal.terminal_putchar c t) t1 cs) (foldl (p_put 80 25) p1 cs)) as H.
  { induction cs as [|c cs IH]; intros t1 p1 Hc H1 Hr Hcol; [done|]. apply Forall_cons in Hc as [Hc Hcs]. cbn [foldl].
    destruct (text_put t1 p1 c) as (? & ? & ?); [done..|]. by apply IH. }
  intros Hc. apply H; [done | | cbn; lia..]. split; try done.
  intros x y Hx Hy. cbn [Terminal.terminal_initialize Terminal.terminal_buffer Terminal.terminal_color txt p_empty].
  apply lookup_replicate_2. unfold Terminal.VGA_TEXT_W, Terminal.VGA_TEXT_H. lia.
Qed.

(** ** Moving back erases *)

Lemma s_left_grid n s x y :
  (n <= sc s)%nat ->
  grid (s_left n s) x y = if decide (y = sr s /\ (sc s - n < x <= sc s)%nat) then blank (sbg s) else grid s x y.
Proof.
  revert s. induction n as [|n IH]; intros s Hn.
  { cbn [s_left]. rewrite decide_False by lia. by destruct (sc s). }
  cbn [s_left]. destruct (sc s) as [|c] eqn:Ec; [lia|]. rewrite IH by (cbn; lia).
  cbn [go s_erase set_grid grid sr sc sbg]. unfold upd. rewrite Ec.
  destruct (decide (y = sr s /\ (c - n < x <= c)%nat)), (decide (x = S c /\ y = sr s)), (decide (y = sr s /\ (S c - S n < x <= S c)%nat));
    try done; lia.
Qed.

(** Moving the cursor back by two or more erases what it passes over: every
    pixel of the cells between the new and the old position has the
    background colour afterwards, although nothing was deleted. *)
Theorem fb_left_erases k s n x i j :
  shows k s -> inside s -> (n <= sc s)%nat -> (sc s - n < x < sc s)%nat -> 0 <= i < 8 -> 0 <= j < 16 ->
  let k2 := terminal_move_left n k in
  pix (Snake.vbe_view (info k2)) (info k2) (cmem k2) (8 * Z.of_nat x + i) (16 * Z.of_nat (sr s) + j) = u32 (fb_bg k).
Proof.
  intros Hs Hi Hn Hx Hi8 Hj k2. destruct (exec_shows (MoveLeft n) k s Hs Hi) as [H2 [Hc2 Hr2]].
  destruct (exec_sizes (MoveLeft n) s) as [E1 E2]. destruct Hi as [Hc Hr].
  assert (sr (s_left n s) = sr s) as Er.
  { clear. revert s. induction n as [|n IH]; intros s; [by destruct s|]. cbn [s_left]. destruct (sc s); [done|]. by rewrite IH. }
  assert (sc (s_left n s) = (sc s - n)%nat) as Ec.
  { clear -Hn. revert s Hn. induction n as [|n IH]; intros s Hn; [cbn [s_left]; destruct (sc s); lia|]. cbn [s_left].
    destruct (sc s) eqn:E; [lia|]. rewrite IH by (cbn; lia). done. }
  change (exec (MoveLeft n) k) with k2 in H2. rewrite (sh_grid _ _ H2);
    [| rewrite <- (sh_scols _ _ H2), E1; lia | rewrite <- (sh_srows _ _ H2), E2; done | done | done].
  cbn [s_exec s_mark set_grid grid]. unfold upd. rewrite Ec. rewrite decide_False by lia.
  rewrite s_left_grid by done. rewrite decide_True by lia. rewrite (sh_bg _ _ Hs). unfold cell_px. cbn. by destruct (Gfx.glyph_bit _ _ _).
Qed.

(** ** A machine with the Bochs display *)

(** The display's registers answer for a mode of 640 by 480; the bus answers
    every read with the word of the display's first register. *)
Definition bochs : Ports.device :=
  fun l port =>
    match l with
    | Ports.Out _ _ v :: _ =>
        if port =? VBE_DISPI_IOPORT_DATA
        then if v =? 0 then 0xB0C5 else if v =? 1 then 640 else if v =? 2 then 480 else 1
        else 0x11111234
    | _ => 0
    end.

Lemma bochs_lfb l : exists l', find_lfb_pci bochs l = (0x11111230, l').
Proof.
  unfold find_lfb_pci, Pci.pci_find_device, Pci.find_by_id_visitor. set (p := fun d => _ && _).
  destruct (Pci.for_each_spec bochs (fun _ => 0x11111234) (fun l a => eq_refl) (Pci.find_visitor p) None l) as [l' E]. exists l'.
  assert (exists ds, Pci.present (fun _ => 0x11111234) = Pci.device_at (fun _ => 0x11111234) 0 0 0 :: ds) as [ds Ep]
    by (eexists; reflexivity).
  rewrite Ep in E.
  change (Pci.visit_all (Pci.find_visitor p) (?d :: ds) None) with (Pci.visit_all (Pci.find_visitor p) ds (Pci.find_visitor p d None)) in E.
  replace (Pci.find_visitor p (Pci.device_at (fun _ => 0x11111234) 0 0 0) None) with (Some (Pci.device_at (fun _ => 0x11111234) 0 0 0)) in E
    by reflexivity.
  rewrite Pci.find_visitor_some in E. rewrite E. reflexivity.
Qed.

Definition console0 : con :=
  mk_con (Terminal.mk_term 0 0 0 [] []) false 80 25 0x55FF55 0 (mk_vbe [] (mk_info 0 0 0 32 0 false) false false) ∅.

Lemma bochs_enable :
  exists k', terminal_enable_fb bochs 0 console0 = (0, k') /\ term_cols k' = 80%nat /\ term_rows k' = 30%nat /\
    fb_fg k' = 0x55FF55 /\ fb_bg k' = 0.
Proof.
  unfold terminal_enable_fb, vbe_probe. cbn [cvbe console0 vio].
  destruct (dispi_read bochs VBE_DISPI_INDEX_ID _) as [id l] eqn:E. assert (id = 0xB0C5) as -> by by injection E as <- <-.
  cbn [Z.ltb Z.compare VBE_DISPI_ID0 VBE_DISPI_ID5]. destruct (bochs_lfb l) as [l' ->].
  eexists. split; [reflexivity|]. split_and!; reflexivity.
Qed.

Lemma fb_shows_text_witness :
  exists k', terminal_enable_fb bochs 0 console0 = (0, k') /\
    let k2 := terminal_writestring $"Hi" k' in
    row k2 = 0%nat /\ col k2 = 2%nat /\
    forall i j, 0 <= i < 8 -> 0 <= j < 16 ->
      pix (Snake.vbe_view (info k2)) (info k2) (cmem k2) (8 + i) j = u32 (if Gfx.glyph_bit 105 j i then 0x55FF55 else 0).
Proof.
  destruct bochs_enable as (k' & E & Ec & Er & Ef & Eb). exists k'. split; [exact E|].
  destruct (fb_shows_text bochs 0 console0 k' $"Hi" E) as (H1 & H2 & _ & H3).
  rewrite Ec, Er, Ef, Eb in *. split_and!; [exact H1 | exact H2 |]. intros i j Hi Hj.
  etransitivity; [apply (H3 1%nat 0%nat i j); [lia | lia | exact Hi | exact Hj]|].
  rewrite decide_False; [reflexivity|]. intros (_ & [H|(H & _)]); vm_compute in H; discriminate H.
Defined.

End FbconSpec.
