(* ===== verification/Menu.v ===== *)
(** * The settings menu (src/src/settings.c) and the VBE demo (src/src/vbe.c)

    The menu on the console that can be in either mode.  Its input is the
    list of keys [keyboard_getchar] returns; what [kbd_drain] throws away
    before it is not part of that list. *)

From S2P Require Import Prelude Memory Terminal Ports Gfx Vbe Platform Ata Fat32 Settings Fbcon.
Import Vbe Settings Fbcon.

Module Menu.

Record menust : Type := mk_menu {
  cfg : system_settings;
  con_ : con;
  graphics : bool;           (** [gfx_is_graphics()] *)
  mplat : Platform.platst;
  mfat : Fat32.fatst;
}.

Definition set_cfg (g : system_settings) (s : menust) : menust := mk_menu g (con_ s) (graphics s) (mplat s) (mfat s).
Definition set_con (k : con) (s : menust) : menust := mk_menu (cfg s) k (graphics s) (mplat s) (mfat s).
Definition set_fat (f : Fat32.fatst) (s : menust) : menust := mk_menu (cfg s) (con_ s) (graphics s) (mplat s) f.

Definition say (t : chars) (s : menust) : menust := set_con (terminal_writestring t (con_ s)) s.
Definition line_ (t : chars) (s : menust) : menust := say (t ++ [10]) s.
Definition set_sound (b : bool) (s : menust) : menust :=
  set_cfg (mk_cfg b (gfx_mode (cfg s)) (gfx_use_vbe (cfg s))) s.
Definition set_gfx (m : Z) (s : menust) : menust :=
  set_cfg (mk_cfg (sound_enabled (cfg s)) m (gfx_use_vbe (cfg s))) s.
Definition set_vbe (b : bool) (s : menust) : menust :=
  set_cfg (mk_cfg (sound_enabled (cfg s)) (gfx_mode (cfg s)) b) s.

Definition mlog (s : menust) : Ports.log := vio (cvbe (con_ s)).
Definition set_log (l : Ports.log) (s : menust) : menust := set_con (set_cvbe (set_vio l (cvbe (con_ s))) (con_ s)) s.

Definition mode_name (m : Z) : chars :=
  if m =? 0 then $"640x480" else if m =? 1 then $"800x600" else if m =? 2 then $"1024x768" else $"?".
Definition print_mode_name (m : Z) (s : menust) : menust := say (mode_name m) s.

Definition show_status (s : menust) : menust :=
  let s := line_ $"--- current ---" s in
  let s := say $"  sound: " s in
  let s := line_ (if sound_enabled (cfg s) then $"on" else $"off") s in
  let s := say $"  gfx:   " s in
  let s := print_mode_name (gfx_mode (cfg s)) s in
  line_ (if gfx_use_vbe (cfg s) then $" (VBE)" else $" (Mode13 prefer)") s.

(** [settings_wait_key]: the first digit or q; [None] when the keys run out
    while it waits. *)
Fixpoint settings_wait_key (ks : chars) : option (Z * chars) :=
  match ks with
  | [] => None
  | c :: ks' =>
      if (48 <=? c) && (c <=? 57) || (c =? 113) || (c =? 81) then Some (c, ks') else settings_wait_key ks'
  end.

Definition menu_text : chars :=
  concat (map (fun t => t ++ [10])
    [$"  1) Toggle sound"; $"  2) System res: 640x480 (VBE console)"; $"  3) System res: 800x600 (VBE console)";
     $"  4) System res: 1024x768 (VBE console)"; $"  5) Prefer VBE + enable FB console";
     $"  6) Prefer Mode13 + text 80x25"; $"  7) Test VBE now (demo)"; $"  8) Save to FAT (SETTINGS.CFG)";
     $"  9) Load from FAT"; $"  0) Exit"]).

(** The dash of the source text in UTF-8. *)
Definition DASH : chars := [0xE2; 0x80; 0x94].

Section Run.

Context (dev : Ports.device).

Definition is_virtualbox (s : menust) : bool * menust :=
  let '(b, p, l) := Platform.platform_is_virtualbox dev (mplat s) (mlog s) in
  (b, set_log l (mk_menu (cfg s) (con_ s) (graphics s) p (mfat s))).

(** [gfx_restore_text()], whose last step is [terminal_initialize]. *)
Definition restore_text (s : menust) : menust :=
  let k := con_ s in
  let g := Gfx.gfx_restore_text dev (Gfx.mk_gfx (mlog s) (cmem k) (graphics s) (tm k)) in
  let k := set_cmem (Gfx.gmem g) (set_cvbe (set_vio (Gfx.gio g) (cvbe k)) k) in
  mk_menu (cfg s) (terminal_initialize k) (Gfx.g_graphics g) (mplat s) (mfat s).

(** [for (i = 0; i < 8; i++) vbe_fill_rect(40 + i * 80, ...)] on a cleared frame. *)
Definition demo_picture (vi : vbe_info) (m : mem) : mem :=
  for_up 8 0 (fun i m =>
    vbe_fill_rect (40 + i * 80) 80 60 60 (vbe_rgb (u8 (i * 32)) (u8 (255 - i * 20)) 128) vi m) (vbe_clear 0x20 vi m).

(** [None] when it still waits for its key. *)
Definition vbe_demo (ks : chars) (s : menust) : option chars * menust :=
  let s := line_ $"VBE: probe..." s in
  let '(ok, v) := vbe_probe dev (cvbe (con_ s)) in
  let s := set_con (set_cvbe v (con_ s)) s in
  if negb ok then (Some ks, line_ $"VBE: DISPI not available (ok on VirtualBox)" s)
  else
    let s := line_ $"VBE: setting 800x600x32..." s in
    let '(r, v) := vbe_set_mode dev 1 (cvbe (con_ s)) in
    let s := set_con (set_cvbe v (con_ s)) s in
    if negb (r =? 0) then (Some ks, line_ $"VBE: set_mode failed" s)
    else
      let vi := info (con_ s) in
      let s := say $"VBE: LFB=" s in
      let s := say (Terminal.hex_chars (lfb vi)) s in
      let s := say $" " s in
      let s := say (Terminal.uint_chars (width vi)) s in
      let s := say $"x" s in
      let s := say (Terminal.uint_chars (height vi)) s in
      let s := say [10] s in
      let s := set_con (set_cmem (demo_picture vi (cmem (con_ s))) (con_ s)) s in
      let s := line_ $"VBE demo: press any key to restore text" s in
      match ks with
      | [] => (None, s)
      | _ :: ks => (Some ks, restore_text (set_con (set_cvbe (vbe_disable (cvbe (con_ s))) (con_ s)) s))
      end.

(** [terminal_enable_fb] and the two messages. *)
Definition try_fb (mode : Z) (done_ : chars) (s : menust) : menust :=
  let s := set_vbe true s in
  let '(r, k) := terminal_enable_fb dev mode (con_ s) in
  let s := set_con k s in
  if r =? 0 then line_ done_ s else line_ $"VBE failed" (set_vbe false s).

Definition choose_mode (c : Z) (s : menust) : menust :=
  let '(vbox, s) := is_virtualbox s in
  if vbox : bool then
    set_vbe false (line_ $"Use option 6 (Mode13) or run under QEMU." (line_ $"VBE console not supported on VirtualBox." s))
  else if c =? 50 then try_fb 0 $"system console: 640x480 VBE" (set_gfx 0 s)
  else if c =? 51 then try_fb 1 $"system console: 800x600 VBE" (set_gfx 1 s)
  else if c =? 52 then try_fb 2 $"system console: 1024x768 VBE" (set_gfx 2 s)
  else try_fb (gfx_mode (cfg s)) $"prefer VBE + FB console on" s.

Definition toggle_sound (s : menust) : menust :=
  let s := set_sound (negb (sound_enabled (cfg s))) s in
  let s := line_ (if sound_enabled (cfg s) then $"sound on" else $"sound off") s in
  if sound_enabled (cfg s) then set_log (Platform.sound_beep_ok dev (mlog s)) s else s.

(** The choice [c] other than the exit; the keys are those left for the demo. *)
Definition choose (c : Z) (ks : chars) (s : menust) : out (option chars * menust) :=
  if c =? 49 then Ret (Some ks, toggle_sound s)
  else if (50 <=? c) && (c <=? 53) then Ret (Some ks, choose_mode c s)
  else if c =? 54 then
    let s := set_vbe false s in
    let s := restore_text (set_con (terminal_disable_fb (con_ s)) s) in
    Ret (Some ks, line_ $"prefer Mode13, text 80x25 restored" s)
  else if c =? 55 then
    let '(vbox, s) := is_virtualbox s in
    let '(o, s) := if vbox : bool then (Some ks, line_ $"VBE demo skipped on VirtualBox" s) else vbe_demo ks s in
    Ret (o, match o with Some _ => restore_text s | None => s end)
  else if c =? 56 then
    '(_, t, f) ← settings_save_fat (cfg s) (mfat s); Ret (Some ks, say t (set_fat f s))
  else if c =? 57 then
    '(_, t, g, f) ← settings_load_fat (cfg s) (mfat s); Ret (Some ks, say t (set_cfg g (set_fat f s)))
  else Ret (Some ks, s).

(** The loop; [None] when it waits for a key.  A round takes a key, so the
    keys bound the rounds. *)
Fixpoint menu_loop (fuel : nat) (ks : chars) (s : menust) : out (option chars * menust) :=
  match fuel with
  | O => Fault NoFuel
  | S f =>
      let s := say $"settings> " s in
      match settings_wait_key ks with
      | None => Ret (None, s)
      | Some (c, ks) =>
          if (c =? 48) || (c =? 113) || (c =? 81) then Ret (Some ks, say [10] s)
          else
            let s := say [10] (set_con (terminal_putchar c (con_ s)) s) in
            '(o, s) ← choose c ks s;
            match o with
            | None => Ret (None, s)
            | Some ks => menu_loop f ks (show_status s)
            end
      end
  end.

(** From the title to the choices. *)
Definition menu_head (s : menust) : menust :=
  let s := line_ $"=== MyKernel Settings ===" (say [10] s) in
  let '(vbox, s) := is_virtualbox s in
  let s :=
    if vbox : bool then
      let s := line_ $"Host: VirtualBox detected" s in
      let s := line_ ($"  VBE/DISPI: not available " ++ DASH ++ $" use Mode13 for games") s in
      let s := line_ $"  desktop: needs QEMU (Bochs VBE)" s in
      let s := line_ $"  sound: PC speaker often silent in VBox" s in
      set_vbe false s
    else
      let s := say $"VBE DISPI: " s in
      let '(ok, v) := vbe_probe dev (cvbe (con_ s)) in
      line_ (if ok : bool then $"yes (QEMU)" else $"no") (set_con (set_cvbe v (con_ s)) s) in
  say menu_text (show_status s).

Definition settings_menu (ks : chars) (s : menust) : out (option chars * menust) :=
  let s := set_con (terminal_disable_fb (con_ s)) s in
  let '(gr, s) := if graphics s then (true, s) else is_virtualbox s in
  let s := if gr && graphics s then restore_text s else s in
  menu_loop (S (length ks)) ks (menu_head s).

End Run.

End Menu.
