(* ===== verification/MenuSpec.v ===== *)
(** * The settings menu keeps settings and console in order

    Whatever is typed, the menu leaves a mode that exists and a console that
    is in one of three states: text mode, a frame that shows its cells, or a
    framebuffer console whose display has been switched off by a failed
    change of mode. *)

From S2P Require Import Prelude Memory Terminal Ports Gfx Vbe Platform Ata Fat32 Settings Snake SnakeSpec SnakeDraw Fbcon FbconSpec Menu.
Import Vbe Settings Fbcon FbconSpec Menu.

Module MenuSpec.

Definition con_ok (k : con) : Prop :=
  fb_mode k = false \/ (exists s, shows k s /\ inside s) \/ active (info k) = false.

(** ** The console alone *)

Lemma putchar_same c k : cvbe (terminal_putchar c k) = cvbe k /\ fb_mode (terminal_putchar c k) = fb_mode k.
Proof.
  unfold terminal_putchar. destruct (fb_mode k) eqn:E; [|done].
  unfold fb_putchar, fb_settle, fb_draw_cursor, fb_scroll, fb_fill_cell, fb_putentryat, fb_draw_glyph. cbv zeta.
  repeat case_match; done.
Qed.

Lemma putchar_con c k : con_ok k -> con_ok (terminal_putchar c k).
Proof.
  intros Hk. destruct (fb_mode k) eqn:Em; [|left; by rewrite (proj2 (putchar_same c k))].
  destruct Hk as [?|[(s & Hs & Hi)|Ha]]; [congruence | |].
  - right; left. exists (s_exec (Put c) s). by apply (exec_shows (Put c)).
  - right; right. unfold info, vbe_get_info in *. by rewrite (proj1 (putchar_same c k)).
Qed.

Lemma write_same t k : cvbe (terminal_writestring t k) = cvbe k /\ fb_mode (terminal_writestring t k) = fb_mode k.
Proof.
  unfold terminal_writestring. generalize (cstr t). intros cs. revert k. induction cs as [|c cs IH]; intros k; [done|].
  cbn [foldl]. destruct (IH (terminal_putchar c k)) as [-> ->]. apply putchar_same.
Qed.

Lemma write_con t k : con_ok k -> con_ok (terminal_writestring t k).
Proof.
  unfold terminal_writestring. generalize (cstr t). intros cs. revert k. induction cs as [|c cs IH]; intros k Hk; [done|].
  cbn [foldl]. by apply IH, putchar_con.
Qed.

(** A display that was probed or whose mode could not be set is off. *)
Lemma probe_off dev v : active (g_vbe (snd (vbe_probe dev v))) = false.
Proof. unfold vbe_probe. destruct (dispi_read _ _ _) as [id l]. destruct (_ || _); [done|]. by destruct (find_lfb_pci _ _). Qed.

Lemma set_mode_off dev mode v r v' :
  active (g_vbe v) = false -> vbe_set_mode dev mode v = (r, v') -> r <> 0 -> active (g_vbe v') = false.
Proof.
  intros Ha. unfold vbe_set_mode. destruct (mode_size mode) as [w h].
  assert (active (g_vbe (snd (ensure_probed dev v))) = false) as He.
  { unfold ensure_probed. pose proof (probe_off dev v) as Hp. destruct (g_probed v); cbn [negb].
    - destruct (g_dispi_ok v); [done | exact Hp].
    - destruct (vbe_probe dev v) as [ok v1]. cbn [snd] in Hp. destruct ok; cbn [negb]; [|done].
      destruct (g_dispi_ok v1); [done | apply probe_off]. }
  destruct (ensure_probed dev v) as [ok v1]. cbn [snd] in He. destruct ok; cbn [negb]; [|by intros [= <- <-]].
  set (v2 := if lfb (g_vbe v1) =? 0 then _ else v1).
  assert (active (g_vbe v2) = false) as H2 by (unfold v2; destruct (_ =? 0); [by destruct (find_lfb_pci _ _) | done]). clearbody v2.
  destruct (_ || _); [by intros [= <- <-]|]. unfold program_mode. repeat destruct (dispi_read _ _ _).
  destruct (_ || _); intros [= <- <-]; [done | lia].
Qed.

(** With the display off every drawing routine does nothing. *)
Lemma off_draws k :
  active (info k) = false ->
  fb_draw_cursor k = k /\ fb_scroll k = k /\ (forall x y c, fb_fill_cell x y c k = k) /\ (forall c x y, fb_putentryat c x y k = k).
Proof.
  intros Ha. unfold fb_draw_cursor, fb_scroll, fb_fill_cell, fb_putentryat, fb_draw_glyph. rewrite Ha. cbn [negb orb].
  split_and!; [by destruct (negb (fb_mode k)) | done..].
Qed.

Lemma off_settle k : active (info k) = false -> fb_settle k = k.
Proof. intros Ha. unfold fb_settle. destruct (off_draws k Ha) as (E1 & E2 & _). by destruct (_ <=? _)%nat; rewrite ?E2, E1. Qed.

Lemma off_putchar c k :
  active (info k) = false -> cmem (fb_putchar c k) = cmem k /\
    Terminal.terminal_buffer (tm (fb_putchar c k)) = Terminal.terminal_buffer (tm k).
Proof.
  intros Ha. unfold fb_putchar. cbv zeta. destruct (off_draws (serial_putchar c k) Ha) as (_ & _ & E3 & E4). rewrite E3, E4.
  destruct (c =? 10); [by rewrite off_settle|]. destruct (c =? 13); [by rewrite off_settle|].
  destruct (_ =? _)%nat; by rewrite off_settle.
Qed.

(** A console that loses its display falls silent: when a second switch of
    mode fails, the console stays in framebuffer mode with the display off,
    and whatever is written from then on, the error message first, changes
    no pixel and no cell of the text screen. *)
Theorem failed_switch_mutes dev mode k k' r t :
  fb_mode k = true -> terminal_enable_fb dev mode k = (r, k') -> r <> 0 ->
  fb_mode k' = true /\ cmem (terminal_writestring t k') = cmem k' /\
  Terminal.terminal_buffer (tm (terminal_writestring t k')) = Terminal.terminal_buffer (tm k').
Proof.
  intros Hm E Hr. unfold terminal_enable_fb in E. destruct (vbe_set_mode dev mode _) as [r1 v] eqn:Em.
  destruct (Z.eqb_spec r1 0) as [->|Hr1]; [by injection E as <- _|]. injection E as _ <-.
  apply set_mode_off in Em; [|apply probe_off | done].
  set (k' := set_cvbe v _). assert (fb_mode k' = true /\ active (info k') = false) as [Hk Ha] by done. clearbody k'. split; [done|].
  unfold terminal_writestring. generalize (cstr t). intros cs. revert k' Hk Ha. induction cs as [|c cs IH]; intros k' Hk Ha; [done|].
  cbn [foldl]. destruct (putchar_same c k') as [E1 E2].
  destruct (IH (terminal_putchar c k')) as [-> ->]; [by rewrite E2 | unfold info, vbe_get_info in *; by rewrite E1|].
  unfold terminal_putchar. rewrite Hk. by apply off_putchar.
Qed.

(** A switch that fails leaves the display off, whatever was shown before. *)
Lemma enable_con dev mode k : con_ok (snd (terminal_enable_fb dev mode k)).
Proof.
  destruct (terminal_enable_fb dev mode k) as [r k'] eqn:E. cbn [snd]. destruct (decide (r = 0)) as [->|Hr].
  - right; left. exists (cleared k'). by eapply enable_shows.
  - right; right. unfold terminal_enable_fb in E. destruct (vbe_set_mode dev mode _) as [r1 v] eqn:Em.
    destruct (Z.eqb_spec r1 0) as [->|Hr1]; injection E as <- <-; [done|]. cbn. eapply set_mode_off; [|exact Em|exact Hr1].
    cbn. apply probe_off.
Qed.

(** [terminal_initialize] needs only to know that an active display is in a
    mode that was set. *)
Definition vid_fine (k : con) : Prop :=
  fb_mode k = true -> active (info k) = true -> SnakeDraw.SnakeDraw.vid_ok (Snake.Snake.vbe_view (info k)) (info k).

Lemma con_vid k : con_ok k -> vid_fine k.
Proof. intros [?|[(s & Hs & _)|?]] Hm Ha; [congruence | by destruct Hs | congruence]. Qed.

Lemma initialize_con k :
  vid_fine k -> con_ok (terminal_initialize k) /\
    fb_mode (terminal_initialize k) = fb_mode k && active (info k).
Proof.
  intros Hv. unfold terminal_initialize, vbe_is_active. change (g_vbe (cvbe k)) with (info k).
  destruct (fb_mode k) eqn:Em; [|split; [by left | done]]. destruct (active (info k)) eqn:Ea; [|split; [by left | done]].
  cbn [andb]. split; [|done]. right; left. specialize (Hv Em Ea).
  assert ((80 <= cols_of (info k))%nat /\ (30 <= rows_of (info k))%nat) as [Hc Hr].
  { destruct Hv as [Hm Hi]. destruct (Hi eq_refl) as (_ & Ew & Eh & _). unfold cols_of, rows_of. rewrite Ew, Eh.
    unfold SnakeSpec.SnakeSpec.views in Hm. set_unfold in Hm.
    destruct Hm as [E|[E|[E|[E|[]]]]]; rewrite E; cbn; (done || vm_compute; lia). }
  cbv zeta. match goal with |- context [Nat.max 40 ?x] => change x with (cols_of (info k)) end.
  match goal with |- context [Nat.max 15 ?x] => change x with (rows_of (info k)) end.
  rewrite !Nat.max_r by lia. eexists.
  exact (clear_shows (set_mode true (cols_of (info k)) (rows_of (info k)) (set_colors 0x55FF55 0
    (set_tm (Terminal.mk_term 0 0 (Terminal.vga_entry_color 10 0) (Terminal.terminal_buffer (tm k)) (Terminal.serial_out (tm k))) k)))
    eq_refl Hv eq_refl eq_refl eq_refl eq_refl).
Qed.

(** ** The menu *)

Section Run.

Context (dev : Ports.device).

Lemma restore_text_con s :
  vid_fine (con_ s) ->
  con_ok (con_ (restore_text dev s)) /\ fb_mode (con_ (restore_text dev s)) = fb_mode (con_ s) && active (info (con_ s)) /\
  cfg (restore_text dev s) = cfg s /\ mplat (restore_text dev s) = mplat s /\ mfat (restore_text dev s) = mfat s.
Proof.
  intros Hv. unfold restore_text. cbn [con_ cfg mplat mfat]. set (k := set_cmem _ _).
  destruct (initialize_con k) as [H1 H2]; [exact Hv|]. by split_and!.
Qed.

(** What a round keeps. *)
Record menu_ok (vbox : bool) (s : menust) : Prop := mk_menu_ok {
  mo_cfg : cfg_ok (cfg s);
  mo_con : con_ok (con_ s);
  mo_plat : mplat s = Platform.mk_plat vbox true;
  mo_fat : Fat32.mounted (mfat s) = false;
  mo_vbox : vbox = true -> gfx_use_vbe (cfg s) = false /\ fb_mode (con_ s) = false;
}.

Lemma say_ok v t s : menu_ok v s -> menu_ok v (say t s).
Proof.
  intros []. split; cbn; try done; [by apply write_con|]. intros Hv. destruct (mo_vbox0 Hv). split; [done|].
  by rewrite (proj2 (write_same _ _)).
Qed.

Lemma log_ok v l s : menu_ok v s -> menu_ok v (set_log l s).
Proof.
  intros []. split; cbn; try done. destruct mo_con0 as [?|[(x & Hx & Hi)|?]]; [by left | | by right; right].
  right; left. exists x. split; [|done]. destruct Hx. by split.
Qed.

Lemma vbox_ok v s : menu_ok v s -> exists s', is_virtualbox dev s = (v, s') /\ menu_ok v s' /\ cfg s' = cfg s.
Proof.
  intros Hs. unfold is_virtualbox, Platform.platform_is_virtualbox. rewrite (mo_plat v s Hs). cbn [Platform.g_inited negb Platform.g_vbox].
  eexists. split; [done|]. split; [|done].
  replace (mk_menu (cfg s) (con_ s) (graphics s) (Platform.mk_plat v true) (mfat s)) with s by (rewrite <- (mo_plat v s Hs); by destruct s).
  by apply log_ok.
Qed.

Lemma cfg_set_ok v g s :
  menu_ok v s -> cfg_ok g -> (v = true -> gfx_use_vbe g = false) -> menu_ok v (set_cfg g s).
Proof. intros [] Hg Hv. split; cbn; try done. intros E. by destruct (mo_vbox0 E), (Hv E). Qed.

Create HintDb menu.
#[local] Hint Resolve say_ok log_ok : menu.

Lemma status_ok v s : menu_ok v s -> menu_ok v (show_status s).
Proof. intros H. unfold show_status, print_mode_name, line_. cbv zeta. eauto 10 with menu. Qed.

Lemma restore_ok v s : menu_ok v s -> menu_ok v (restore_text dev s).
Proof.
  intros []. destruct (restore_text_con s (con_vid _ mo_con0)) as (H1 & H2 & H3 & H4 & H5).
  split; rewrite ?H3, ?H4, ?H5; try done. intros E. destruct (mo_vbox0 E) as [? Hf]. split; [done|]. by rewrite H2, Hf.
Qed.

Lemma try_fb_ok mode t s : menu_ok false s -> menu_ok false (try_fb dev mode t s).
Proof.
  intros Hs. unfold try_fb, line_. pose proof (enable_con dev mode (con_ (set_vbe true s))) as He.
  destruct (terminal_enable_fb dev mode _) as [r k]. cbn [snd] in He.
  assert (forall b, menu_ok false (set_vbe b (set_con k (set_vbe true s)))) as Hb by (intros b; destruct Hs; by split).
  destruct (r =? 0); apply say_ok; [|apply Hb]. destruct Hs; by split.
Qed.

Lemma choose_mode_ok v c s : menu_ok v s -> menu_ok v (choose_mode dev c s).
Proof.
  intros Hs. unfold choose_mode. destruct (vbox_ok v s Hs) as (s1 & -> & H1 & _). destruct v.
  - unfold line_, set_vbe. apply cfg_set_ok; [by do 2 apply say_ok | | done]. by destruct H1.
  - assert (forall m, 0 <= m <= 2 -> menu_ok false (set_gfx m s1)) as Hm.
    { intros m Hm. unfold set_gfx. apply cfg_set_ok; done. }
    repeat case_match; apply try_fb_ok; try done; apply Hm; lia.
Qed.

Lemma toggle_ok v s : menu_ok v s -> menu_ok v (toggle_sound dev s).
Proof.
  intros Hs. unfold toggle_sound. cbv zeta.
  assert (forall b, menu_ok v (set_sound b s)) as Hb.
  { intros b. unfold set_sound. apply cfg_set_ok; [done | by destruct Hs |]. intros E. by destruct (mo_vbox v s Hs E). }
  repeat case_match; try apply log_ok; by apply say_ok.
Qed.

(** Printing and drawing change the console only. *)
Definition keeps (s s' : menust) : Prop := cfg s' = cfg s /\ mplat s' = mplat s /\ mfat s' = mfat s.

Lemma keeps_con s s' k : keeps s s' -> keeps s (set_con k s').
Proof. done. Qed.
Lemma keeps_say s s' t : keeps s s' -> keeps s (say t s').
Proof. apply keeps_con. Qed.

Lemma disable_off v : active (g_vbe (vbe_disable v)) = false.
Proof. done. Qed.

Lemma say_display t s : cvbe (con_ (say t s)) = cvbe (con_ s).
Proof. apply write_same. Qed.

(** A console whose display is off. *)
Lemma off_fine k : active (info k) = false -> vid_fine k /\ fb_mode k && active (info k) = false.
Proof. intros E. split; [intros _ ?; congruence | by rewrite E, andb_false_r]. Qed.

Lemma restore_off s s' :
  keeps s s' -> active (g_vbe (cvbe (con_ s'))) = false ->
  keeps s (restore_text dev s') /\ vid_fine (con_ (restore_text dev s')) /\
  fb_mode (con_ (restore_text dev s')) && active (info (con_ (restore_text dev s'))) = false.
Proof.
  intros (E1 & E2 & E3) Ha. destruct (off_fine (con_ s') Ha) as [Hv Hf].
  destruct (restore_text_con s' Hv) as (H1 & H2 & H3 & H4 & H5). unfold keeps. rewrite H3, H4, H5.
  split_and!; try done; [by apply con_vid | by rewrite H2, Hf].
Qed.

(** The demo switches the display off in every case that comes back. *)
Lemma demo_off ks s o s' :
  vbe_demo dev ks s = (o, s') ->
  keeps s s' /\
  match o with
  | Some ks' => vid_fine (con_ s') /\ fb_mode (con_ s') && active (info (con_ s')) = false /\ (length ks' <= length ks)%nat
  | None => True
  end.
Proof.
  unfold vbe_demo, line_. cbv zeta.
  assert (keeps s (say ($"VBE: probe..." ++ [10]) s)) as K0 by by apply keeps_say. set (s0 := say _ s) in *. clearbody s0.
  pose proof (probe_off dev (cvbe (con_ s0))) as Hp. destruct (vbe_probe dev _) as [ok v]. cbn [snd] in Hp.
  assert (keeps s (set_con (set_cvbe v (con_ s0)) s0)) as K1 by by apply keeps_con.
  assert (active (g_vbe (cvbe (con_ (set_con (set_cvbe v (con_ s0)) s0)))) = false) as A1 by exact Hp.
  set (s1 := set_con _ s0) in *. clearbody s1. clear Hp K0. destruct ok; cbn [negb].
  2:{ intros [= <- <-]. split; [by apply keeps_say|].
      destruct (off_fine (con_ (say ($"VBE: DISPI not available (ok on VirtualBox)" ++ [10]) s1))); [|done].
      unfold info, vbe_get_info. by rewrite say_display. }
  assert (keeps s (say ($"VBE: setting 800x600x32..." ++ [10]) s1)) as K2 by by apply keeps_say.
  pose proof (say_display ($"VBE: setting 800x600x32..." ++ [10]) s1) as E2. rewrite <- E2 in A1. set (s2 := say _ s1) in *. clearbody s2.
  destruct (vbe_set_mode dev 1 (cvbe (con_ s2))) as [r v2] eqn:Em.
  assert (keeps s (set_con (set_cvbe v2 (con_ s2)) s2)) as K3 by by apply keeps_con.
  assert (r <> 0 -> active (g_vbe (cvbe (con_ (set_con (set_cvbe v2 (con_ s2)) s2)))) = false) as A3
    by (intros Hr; exact (set_mode_off dev 1 _ _ _ A1 Em Hr)).
  set (s3 := set_con _ s2) in *. clearbody s3. destruct (Z.eqb_spec r 0) as [->|Hr]; cbn [negb].
  - match goal with |- context [say ($"VBE demo: press any key to restore text" ++ [10]) ?x] => set (s4 := say _ x) end.
    assert (keeps s s4) as K4 by (unfold s4; apply keeps_say, keeps_con; repeat apply keeps_say; exact K3). clearbody s4.
    destruct ks as [|c ks]; intros [= <- <-]; [done|].
    destruct (restore_off s (set_con (set_cvbe (vbe_disable (cvbe (con_ s4))) (con_ s4)) s4)) as (R1 & R2 & R3);
      [by apply keeps_con | apply disable_off|]. split_and!; try done. cbn. lia.
  - intros [= <- <-]. split; [by apply keeps_say|]. destruct (off_fine (con_ (say ($"VBE: set_mode failed" ++ [10]) s3))); [|done].
    unfold info, vbe_get_info. rewrite say_display. by apply A3.
Qed.

(** A choice returns; unless it waits in the demo, the menu goes on in order
    with no more keys than before. *)
Lemma choose_ok v c ks s :
  menu_ok v s -> exists o s', choose dev c ks s = Ret (o, s') /\ cfg_ok (cfg s') /\
    match o with Some ks' => menu_ok v s' /\ (length ks' <= length ks)%nat | None => True end.
Proof.
  intros Hs. unfold choose.
  assert (forall s', menu_ok v s' -> exists o s'', Ret (Some ks, s') = Ret (o, s'') /\ cfg_ok (cfg s'') /\
    match o with Some ks' => menu_ok v s'' /\ (length ks' <= length ks)%nat | None => True end) as Hgo.
  { intros s' H'. exists (Some ks), s'. split; [done|]. split; [by destruct H' | done]. }
  destruct (c =? 49); [by apply Hgo, toggle_ok|].
  destruct ((50 <=? c) && (c <=? 53)); [by apply Hgo, choose_mode_ok|].
  destruct (c =? 54).
  { cbv zeta. apply Hgo. apply say_ok, restore_ok. unfold terminal_disable_fb.
    destruct Hs. destruct (negb (fb_mode (con_ (set_vbe false s)))) eqn:Em; split; cbn; try done.
    - intros E. by destruct (mo_vbox0 E).
    - by left. }
  destruct (c =? 55).
  { destruct (vbox_ok v s Hs) as (s1 & -> & H1 & E1). destruct v.
    - apply Hgo. by apply restore_ok, say_ok.
    - destruct (vbe_demo dev ks s1) as [o s2] eqn:Ed. destruct (demo_off _ _ _ _ Ed) as [(Ec & Ep & Ef) Hd]. destruct o as [ks'|].
      + destruct Hd as (Hv & Hf & Hl). destruct (restore_text_con s2 Hv) as (R1 & R2 & R3 & R4 & R5).
        eexists _, _. split; [done|]. assert (menu_ok false (restore_text dev s2)) as Hr.
        { destruct H1. split; [by rewrite R3, Ec | done | by rewrite R4, Ep | by rewrite R5, Ef | done]. }
        split; [by destruct Hr | done].
      + eexists _, _. split; [done|]. split; [|done]. rewrite Ec. by destruct H1. }
  destruct (c =? 56).
  { unfold settings_save_fat. rewrite (mo_fat v s Hs). cbn [negb mbind out_mbind]. apply Hgo, say_ok. destruct Hs. by split. }
  destruct (c =? 57); [|by apply Hgo].
  unfold settings_load_fat. rewrite (mo_fat v s Hs). cbn [negb mbind out_mbind]. apply Hgo, say_ok.
  apply (cfg_set_ok v (cfg s) (set_fat (mfat s) s)); [destruct Hs; by split | by destruct Hs |]. intros E. by destruct (mo_vbox v s Hs E).
Qed.

Lemma wait_key_shorter ks c ks' : settings_wait_key ks = Some (c, ks') -> (length ks' < length ks)%nat.
Proof.
  induction ks as [|a ks IH]; [done|]. cbn [settings_wait_key length]. destruct (_ || _); [intros [= _ <-]; lia|].
  intros E. specialize (IH E). lia.
Qed.

Lemma menu_loop_ok v fuel ks s :
  menu_ok v s -> (length ks < fuel)%nat ->
  exists o s', menu_loop dev fuel ks s = Ret (o, s') /\ cfg_ok (cfg s') /\
    match o with Some _ => menu_ok v s' | None => True end.
Proof.
  revert ks s. induction fuel as [|f IH]; intros ks s Hs Hl; [lia|]. cbn [menu_loop].
  assert (menu_ok v (say $"settings> " s)) as H1 by by apply say_ok. set (s1 := say _ s) in *. clearbody s1.
  destruct (settings_wait_key ks) as [[c ks1]|] eqn:E; [|eexists _, _; split; [done|]; split; [by destruct H1 | done]].
  apply wait_key_shorter in E. destruct (_ || _).
  { eexists _, _. split; [done|]. assert (menu_ok v (say [10] s1)) as H2 by by apply say_ok. split; [by destruct H2 | done]. }
  assert (menu_ok v (say [10] (set_con (terminal_putchar c (con_ s1)) s1))) as H2.
  { apply say_ok. destruct H1. split; cbn; try done; [by apply putchar_con|]. intros Ev. destruct (mo_vbox0 Ev). by rewrite (proj2 (putchar_same _ _)). }
  destruct (choose_ok v c ks1 _ H2) as (o & s2 & -> & Hc & Ho). cbn [mbind out_mbind].
  destruct o as [ks2|]; [|by eexists _, _]. destruct Ho as [Ho Hl2]. apply IH; [by apply status_ok | lia].
Qed.

(** On entry the console is in text mode and the preference may still be the
    other one. *)
Record entered (v : bool) (s : menust) : Prop := mk_entered {
  en_cfg : cfg_ok (cfg s);
  en_plat : mplat s = Platform.mk_plat v true;
  en_fat : Fat32.mounted (mfat s) = false;
  en_text : fb_mode (con_ s) = false;
}.

Lemma entered_ok v s : entered v s -> (v = true -> gfx_use_vbe (cfg s) = false) -> menu_ok v s.
Proof. intros [] Hv. split; try done; [by left|]. intros E. by split; [apply Hv|]. Qed.

Lemma entered_say v t s : entered v s -> entered v (say t s).
Proof. intros []. split; try done. cbn. by rewrite (proj2 (write_same _ _)). Qed.

Lemma entered_vbe v b s : entered v s -> entered v (set_vbe b s).
Proof. intros []. by split. Qed.

Lemma entered_display v w s : entered v s -> entered v (set_con (set_cvbe w (con_ s)) s).
Proof. intros []. by split. Qed.

Lemma entered_vbox v s : entered v s -> exists s', is_virtualbox dev s = (v, s') /\ entered v s'.
Proof.
  intros []. unfold is_virtualbox, Platform.platform_is_virtualbox. rewrite en_plat0. cbn [Platform.g_inited negb Platform.g_vbox].
  eexists. split; [done|]. by split.
Qed.

Lemma entered_restore v s : entered v s -> entered v (restore_text dev s).
Proof.
  intros []. destruct (restore_text_con s) as (H1 & H2 & H3 & H4 & H5); [intros ?; congruence|].
  split; rewrite ?H3, ?H4, ?H5; try done. by rewrite H2, en_text0.
Qed.

Lemma head_ok v s : entered v s -> menu_ok v (menu_head dev s).
Proof.
  intros Hs. unfold menu_head, line_. cbv zeta.
  destruct (entered_vbox v (say ($"=== MyKernel Settings ===" ++ [10]) (say [10] s))) as (s1 & -> & H1); [by do 2 apply entered_say|].
  apply say_ok, status_ok. destruct v; (apply entered_ok; [|by intros]).
  - apply entered_vbe. do 4 apply entered_say. exact H1.
  - destruct (vbe_probe dev _) as [ok w]. apply entered_say, entered_display, entered_say, H1.
Qed.

(** The settings menu: without a mounted volume it returns for every
    sequence of keys, either at an exit key or waiting for the next one; the
    chosen mode always exists; after the exit the console is in order, and
    under VirtualBox the linear framebuffer is neither preferred nor in use. *)
Theorem settings_menu_safe v ks s :
  cfg_ok (cfg s) -> mplat s = Platform.mk_plat v true -> Fat32.mounted (mfat s) = false ->
  exists o s', settings_menu dev ks s = Ret (o, s') /\ cfg_ok (cfg s') /\
    match o with Some _ => menu_ok v s' | None => True end.
Proof.
  intros Hc Hp Hf. unfold settings_menu. cbv zeta.
  assert (entered v (set_con (terminal_disable_fb (con_ s)) s)) as H0.
  { split; try done. cbn. unfold terminal_disable_fb. by destruct (fb_mode (con_ s)) eqn:E. }
  set (s0 := set_con _ s) in *. clearbody s0.
  destruct (if graphics s0 then (true, s0) else is_virtualbox dev s0) as [gr s1] eqn:E.
  assert (entered v s1) as H1.
  { destruct (graphics s0); [by injection E as _ <-|]. destruct (entered_vbox v s0 H0) as (s2 & E2 & H2). rewrite E2 in E. by injection E as _ <-. }
  apply menu_loop_ok; [|lia]. apply head_ok. destruct (gr && graphics s1); [by apply entered_restore | done].
Qed.

End Run.

End MenuSpec.
