(* ===== verification/Boot.v ===== *)
(** * Starting the kernel (src/src/kernel.c)

    [kernel_main] runs the start-up code of every component in a fixed
    order, turns interrupts on and enters the shell.  The state here is the
    machine: the states of the components, with what they share (flat memory
    and heap, console, port log, RAM file system, interrupt flag) kept once.
    A component that has its own copy of a shared part in its record is given
    the machine's before a call and the machine takes it back afterwards.
    [BootSpec] shows that the state the shell starts from is one the theorems
    of the components ask for. *)

From S2P Require Import Prelude Memory Kmalloc Atomic Alloc Ports Terminal Fs FsInv FsProps FsSpec Sched SchedInv SchedSpec Ring Keyboard Mouse Vfs VfsSpec Syscall SyscallSpec Dyld Ata AtaPio Fat32 Fat32Spec Mlang Pci Vbe Platform Settings Gdt Irq IrqSpec PicSpec Devices Lined LinedSpec Shell Ac97 Ac97Spec.
Import Ports Fs FsInv FsProps Irq.
#[local] Existing Instances Fat32Spec.Fat32Spec.fat32_driver Sched.task_inhabited Mlang.var_inhabited.

Module Boot.

Record machine : Type := mk_machine {
  seg : Gdt.segst;
  irq : irqst;                           (** with the port log *)
  sys : Syscall.sysst;                   (** with memory, heap, RAM file system, console *)
  sched : @Sched.sys Kmalloc.kstate;
  mouse : Mouse.mouse;
  keyboard : Keyboard.kbd;
  plat : Platform.platst;
  mounts : list Vfs.mount;
  vfs_lock : Z;
  timer : Devices.timer;
  drive : AtaPio.drive;
  sound : Ac97.acst Kmalloc.kstate;
  cfg : Settings.system_settings;
  video : Vbe.vbest;
}.

(** ** The shared parts *)

Definition log_of (m : machine) : log := io (irq m).
Definition heap_of (m : machine) : Kmalloc.kstate := Syscall.heap (sys m).
Definition set_heap (h : Kmalloc.kstate) (s : Syscall.sysst) : Syscall.sysst :=
  Syscall.mk_sys h (Syscall.fds s) (Syscall.user_brk s) (Syscall.mmap_bump s) (Syscall.g_umask s)
    (Syscall.tls_base s) (Syscall.g_hostname s) (Syscall.rng s) (Syscall.fsys s) (Syscall.tty s)
    (Syscall.ticks s) (Syscall.current_id s).
Definition set_current_id (i : option Z) (s : Syscall.sysst) : Syscall.sysst :=
  Syscall.mk_sys (Syscall.heap s) (Syscall.fds s) (Syscall.user_brk s) (Syscall.mmap_bump s)
    (Syscall.g_umask s) (Syscall.tls_base s) (Syscall.g_hostname s) (Syscall.rng s) (Syscall.fsys s)
    (Syscall.tty s) (Syscall.ticks s) i.

Definition set_seg (x : Gdt.segst) (m : machine) : machine :=
  mk_machine x (irq m) (sys m) (sched m) (mouse m) (keyboard m) (plat m) (mounts m) (vfs_lock m)
    (timer m) (drive m) (sound m) (cfg m) (video m).
Definition set_irq (x : irqst) (m : machine) : machine :=
  mk_machine (seg m) x (sys m) (sched m) (mouse m) (keyboard m) (plat m) (mounts m) (vfs_lock m)
    (timer m) (drive m) (sound m) (cfg m) (video m).
Definition set_sys (x : Syscall.sysst) (m : machine) : machine :=
  mk_machine (seg m) (irq m) x (sched m) (mouse m) (keyboard m) (plat m) (mounts m) (vfs_lock m)
    (timer m) (drive m) (sound m) (cfg m) (video m).
Definition set_sched (x : Sched.sys) (m : machine) : machine :=
  mk_machine (seg m) (irq m) (sys m) x (mouse m) (keyboard m) (plat m) (mounts m) (vfs_lock m)
    (timer m) (drive m) (sound m) (cfg m) (video m).
Definition set_mouse (x : Mouse.mouse) (m : machine) : machine :=
  mk_machine (seg m) (irq m) (sys m) (sched m) x (keyboard m) (plat m) (mounts m) (vfs_lock m)
    (timer m) (drive m) (sound m) (cfg m) (video m).
Definition set_plat (x : Platform.platst) (m : machine) : machine :=
  mk_machine (seg m) (irq m) (sys m) (sched m) (mouse m) (keyboard m) x (mounts m) (vfs_lock m)
    (timer m) (drive m) (sound m) (cfg m) (video m).
Definition set_mounts (x : list Vfs.mount) (l : Z) (m : machine) : machine :=
  mk_machine (seg m) (irq m) (sys m) (sched m) (mouse m) (keyboard m) (plat m) x l
    (timer m) (drive m) (sound m) (cfg m) (video m).
Definition set_timer (x : Devices.timer) (m : machine) : machine :=
  mk_machine (seg m) (irq m) (sys m) (sched m) (mouse m) (keyboard m) (plat m) (mounts m) (vfs_lock m)
    x (drive m) (sound m) (cfg m) (video m).
Definition set_drive (x : AtaPio.drive) (m : machine) : machine :=
  mk_machine (seg m) (irq m) (sys m) (sched m) (mouse m) (keyboard m) (plat m) (mounts m) (vfs_lock m)
    (timer m) x (sound m) (cfg m) (video m).
Definition set_sound (x : Ac97.acst Kmalloc.kstate) (m : machine) : machine :=
  mk_machine (seg m) (irq m) (sys m) (sched m) (mouse m) (keyboard m) (plat m) (mounts m) (vfs_lock m)
    (timer m) (drive m) x (cfg m) (video m).
Definition set_cfg (x : Settings.system_settings) (m : machine) : machine :=
  mk_machine (seg m) (irq m) (sys m) (sched m) (mouse m) (keyboard m) (plat m) (mounts m) (vfs_lock m)
    (timer m) (drive m) (sound m) x (video m).
Definition set_video (x : Vbe.vbest) (m : machine) : machine :=
  mk_machine (seg m) (irq m) (sys m) (sched m) (mouse m) (keyboard m) (plat m) (mounts m) (vfs_lock m)
    (timer m) (drive m) (sound m) (cfg m) x.

Definition set_log (l : log) (m : machine) : machine := set_irq (set_io l (irq m)) m.
Definition on_tty (f : Terminal.term -> Terminal.term) (m : machine) : machine :=
  set_sys (Syscall.set_tty (f (Syscall.tty (sys m))) (sys m)) m.
Definition say (s : chars) (m : machine) : machine := on_tty (Terminal.terminal_writestring (s ++ [10])) m.
Definition set_ram (f : fs_state) (m : machine) : machine := set_sys (Syscall.set_fsys f (sys m)) m.
Definition ram_of (m : machine) : fs_state := Syscall.fsys (sys m).

(** The records of the components with the shared parts in place.  The FAT32
    driver has not been called yet; its disk is the one behind the drive. *)
Definition vfs_view (m : machine) : Vfs.vfs Fat32.fatst :=
  Vfs.mk_vfs (mounts m) (vfs_lock m) (ram_of m) (Fat32.bss_fat (AtaPio.med (drive m))).
Definition sched_view (m : machine) : @Sched.sys Kmalloc.kstate := Sched.set_heap (heap_of m) (sched m).
Definition sound_view (m : machine) : Ac97.acst Kmalloc.kstate :=
  let a := sound m in
  Ac97.mk_ac (heap_of m) (Ac97.nam_base a) (Ac97.nabm_base a) (Ac97.present a) (Ac97.bdl a)
    (Ac97.sine_table a) (Ac97.sine_table_ready a) (log_of m) (Syscall.tty (sys m)) (Ac97.runs a).

Definition put_vfs (v : Vfs.vfs Fat32.fatst) (m : machine) : machine :=
  set_mounts (Vfs.mounts v) (Vfs.vfs_lock v) (set_ram (Vfs.ram v) m).
Definition put_sound (a : Ac97.acst Kmalloc.kstate) (m : machine) : machine :=
  set_sound a (set_log (Ac97.aio a)
    (set_sys (Syscall.set_tty (Ac97.atty a) (set_heap (Ac97.heap a) (sys m))) m)).

(** [sti], outside an interrupt. *)
Definition cpu_sti (m : machine) : machine :=
  let f := ram_of m in
  let k := lockst f in
  set_sched (Sched.set_if true (sched m))
    (set_ram (mk_fs (data f) (mk_lockst (fs_spinlock k) (fs_lock_depth k) (fs_if_was_on k) true)) m).

(** ** kernel_main *)

Section Main.

(** Link addresses: the tables, the kernel stack of the task state segment,
    the interrupt stubs and the three handlers; the embedded programs. *)
Context (dev : device) (entry : stub -> Z) (gdt_addr tss_addr kstack idt_addr : Z).
Context (timer_callback keyboard_irq_handler mouse_irq_handler : Z).
Context (hello_elf libhello_so dynhello_elf : chars).

(** From the entry to [irq_install]. *)
Definition init_tables (m : machine) : machine :=
  let m := set_seg (Gdt.gdt_init gdt_addr tss_addr kstack (seg m)) m in
  let m := set_log (Devices.serial_init (log_of m)) m in
  let m := on_tty Terminal.terminal_initialize m in
  let m := say $"MyKernel booting..." m in
  let m := say $"Booting kernel subsystems..." m in
  let m := set_sys (set_heap (Kmalloc.kmalloc_init (heap_of m)) (sys m)) m in
  let m := set_sys (Syscall.fd_table_reset (sys m)) m in
  let m := set_irq (idt_init idt_addr (irq m)) m in
  let m := set_irq (isr_install entry (irq m)) m in
  set_irq (irq_install dev entry (irq m)) m.

(** The input devices and the platform. *)
Definition init_input (m : machine) : out machine :=
  i ← Devices.keyboard_init dev keyboard_irq_handler (irq m);
  let m := set_irq i m in
  '(x, i) ← Devices.mouse_init dev mouse_irq_handler (mouse m) (irq m);
  let m := set_mouse x (set_irq i m) in
  let '(p, l) := Platform.platform_init dev (plat m) (log_of m) in
  Ret (set_plat p (set_log l m)).

(** The file systems; [net_init] does nothing. *)
Definition init_files (m : machine) : out machine :=
  f ← fs_init (ram_of m);
  let m := set_ram f m in
  let m := put_vfs (Vfs.vfs_init (vfs_view m)) m in
  '(f, t) ← Dyld.dyld_install_lib_tree libhello_so dynhello_elf (ram_of m) (Syscall.tty (sys m));
  Ret (on_tty (fun _ => t) (set_ram f m)).

(** Tasks and the tick, the disk, and [sti]. *)
Definition init_tasks (m : machine) : out machine :=
  let s := Sched.sched_init (sched_view m) in
  let m := set_sched s m in
  let m := set_sys (set_current_id (Some (Sched.id (Sched.tasks s !!! Sched.current s))) (sys m)) m in
  '(t, i) ← Devices.timer_init dev timer_callback 100 (irq m);
  let m := set_timer t (set_irq i m) in
  let '(r, d) := AtaPio.ata_init (drive m) in
  let m := set_drive d m in
  Ret (cpu_sti (say (if r =? 0 then $"ATA: disk detected" else $"ATA: no disk") m)).

(** What runs with interrupts on, up to the shell. *)
Definition init_devices (m : machine) : out machine :=
  '(_, a) ← Ac97.ac97_init dev (sound_view m);
  let m := put_sound a m in
  let m := set_cfg Settings.settings_init m in
  let '(_, v) := Vbe.vbe_probe dev (Vbe.set_vio (log_of m) (video m)) in
  let m := set_video v (set_log (Vbe.vio v) m) in
  Ret (say $"Ready. settings | vbetest | snake | pong | help" m).

Definition kernel_init (m : machine) : out machine :=
  m ← init_input (init_tables m);
  m ← init_files m;
  init_tasks m.

(** The shell's own variables are zero; [keys] are the keys to come. *)
Definition shell_state (keys : list Z) (m : machine) : Shell.shst :=
  Shell.mk_sh (Lined.mk_hist (replicate 16 (replicate 128 0)) 0 0) (vfs_view m) (replicate 512 0)
    (Syscall.tty (sys m)) (heap_of m) (replicate 32 inhabitant) (log_of m) keys
    (Devices.timer_ticks (timer m)).

Definition kernel_main (ext : Shell.extcall -> Shell.shst -> out (Z * Shell.shst)) (n depth : nat)
    (line : chars) (keys : list Z) (m : machine) : out (chars * Shell.shst) :=
  m ← kernel_init m;
  m ← init_devices m;
  Shell.shell_run ext dev hello_elf dynhello_elf n depth line (shell_state keys m).

End Main.

(** The machine as the boot loader leaves it: initialised data, zeroed
    variables, interrupts off; memory, screen, ports, registers and the
    drive as they are. *)
Definition power_on (mem : mem) (screen : list Z) (l : log) (r : Sched.cpu) (cs : Z) (ds : list Z)
    (d : AtaPio.drive) : machine :=
  let h := Kmalloc.mk_kstate mem 0 0 in
  let t := Terminal.mk_term 0 0 0 screen [] in
  let s := Syscall.power_on (mk_fs (data bss_fs) (mk_lockst 0 0 0 false)) t in
  mk_machine
    (Gdt.mk_seg (replicate Gdt.GDT_ENTRIES inhabitant) (0, 0) (replicate 26 0) (0, 0) 0 cs ds)
    (mk_irq (replicate IDT_ENTRIES inhabitant) (0, 0) (0, 0) (replicate 16 0) l)
    (set_heap h s)
    (Sched.mk_sys (replicate Sched.SCHED_MAX_TASKS Sched.bss_task) 0 false 0 0 h r false false)
    Mouse.bss_mouse Keyboard.kbd_boot (Platform.mk_plat false false)
    (replicate Vfs.VFS_MAX_MOUNTS Vfs.bss_mount) 0 (Devices.mk_timer 0 100) d
    (Ac97.mk_ac h 0 0 false 0 (replicate 256 0) false [] t [])
    (Settings.mk_cfg true 1 true)
    (Vbe.mk_vbe [] (Vbe.mk_info 0 0 0 0 0 false) false false).

End Boot.

Module BootSpec.
Import Boot IrqSpec PicSpec.

(** ** Ports of the interrupt controllers are left alone *)

Definition pic_port (p : Z) : bool := existsb (Z.eqb p) [PIC1_COMMAND; PIC1_DATA; PIC2_COMMAND; PIC2_DATA].

(** The second log is the first with events that send nothing to the
    controllers. *)
Inductive off_pic (l : log) : log -> Prop :=
| off_refl : off_pic l l
| off_in w p v l' : off_pic l l' -> off_pic l (In w p v :: l')
| off_out w p v l' : pic_port p = false -> off_pic l l' -> off_pic l (Out w p v :: l').
#[local] Hint Constructors off_pic : kernel.

Lemma off_trans l1 l2 l3 : off_pic l1 l2 -> off_pic l2 l3 -> off_pic l1 l3.
Proof. induction 2; auto with kernel. Qed.

Lemma programmed_off q1 q2 f l l' : off_pic l l' -> programmed q1 q2 f l -> programmed q1 q2 f l'.
Proof.
  induction 1 as [|w p v l' _ IH|w p v l' Hp _ IH]; intros P; [done | by apply programmed_in, IH|].
  apply IH in P. unfold pic_port in Hp. cbn [existsb] in Hp.
  repeat (apply orb_false_iff in Hp as [?%Z.eqb_neq Hp]).
  destruct P as [A B C D].
  split; rewrite ?(pic_other PIC1_COMMAND PIC1_DATA), ?(pic_other PIC2_COMMAND PIC2_DATA) by done; done.
Qed.

Section Quiet.
Context (dev : device).

Lemma off_poll n ready l : off_pic l (Devices.kbc_poll dev n ready l).
Proof.
  revert l. induction n as [|n IH]; intros l; cbn [Devices.kbc_poll inb]; [constructor|]. case_match; [auto with kernel|].
  eapply off_trans; [|apply IH]. auto with kernel.
Qed.

Lemma off_mouse l : off_pic l (Devices.mouse_program dev l).
Proof.
  unfold Devices.mouse_program, Devices.mouse_read, Devices.mouse_write, Devices.mouse_wait_write, Devices.mouse_wait_read.
  cbn [inb snd]. unfold outb.
  repeat first [apply off_refl | apply off_in | apply off_out; [reflexivity|] | eapply off_trans; [|apply off_poll]].
Qed.

Lemma off_read16 b d f o l : off_pic l (snd (Pci.pci_config_read16 dev b d f o l)).
Proof. apply off_in, off_out, off_refl. reflexivity. Qed.

Lemma off_vendor_fn n v b d f l : off_pic l (snd (Platform.has_vendor_fn dev n v b d f l)).
Proof.
  revert f l. induction n as [|n IH]; intros f l; cbn [Platform.has_vendor_fn]; [constructor|].
  pose proof (off_read16 b d f 0x00 l) as H1. destruct (Pci.pci_config_read16 dev b d f 0x00 l) as [w l1]. cbn [snd] in H1.
  destruct (w =? v); [done|]. destruct (f =? 0); [|eapply off_trans; [exact H1 | apply IH]].
  pose proof (off_read16 b d f 0x0E l1) as H2. destruct (Pci.pci_config_read16 dev b d f 0x0E l1) as [w2 l2]. cbn [snd] in H2.
  destruct (negb _); [by eapply off_trans|]. eapply off_trans; [exact H1|]. eapply off_trans; [exact H2 | apply IH].
Qed.

Lemma off_vendor_dev n v b d l : off_pic l (snd (Platform.has_vendor_dev dev n v b d l)).
Proof.
  revert d l. induction n as [|n IH]; intros d l; cbn [Platform.has_vendor_dev]; [constructor|].
  pose proof (off_vendor_fn 8 v b d 0 l) as H. destruct (Platform.has_vendor_fn dev 8 v b d 0 l) as [[] l1]; [done|].
  by eapply off_trans.
Qed.

Lemma off_vendor_bus n v b l : off_pic l (snd (Platform.has_vendor_bus dev n v b l)).
Proof.
  revert b l. induction n as [|n IH]; intros b l; cbn [Platform.has_vendor_bus]; [constructor|].
  pose proof (off_vendor_dev 32 v b 0 l) as H. destruct (Platform.has_vendor_dev dev 32 v b 0 l) as [[] l1]; [done|].
  by eapply off_trans.
Qed.

Lemma off_platform p l : off_pic l (snd (Platform.platform_init dev p l)).
Proof.
  unfold Platform.platform_init, Platform.pci_has_vendor. pose proof (off_vendor_bus 2 0x80EE 0 l) as H.
  by destruct (Platform.has_vendor_bus dev 2 0x80EE 0 l).
Qed.
End Quiet.

(** ** The interrupt tables on the way *)

Section Tables.
Context (q1 q2 : pic) (dev : device) (entry : stub -> Z).
Context (Hdev : pics q1 q2 dev).

(** The gates are installed, the drivers are [hs] and the masks are [f]. *)
Record tables (hs : list Z) (f : Z -> bool) (i : irqst) : Prop := mk_tables {
  t_gates : vectors_ok entry i;
  t_drivers : irq_handlers i = hs;
  t_pics : programmed q1 q2 f (io i);
}.

Lemma tables_register hs f i n h :
  tables hs f i -> 0 <= n < 16 ->
  exists i', irq_register_handler n h i = Ret i' /\ tables (<[Z.to_nat n := h]> hs) f i' /\ io i' = io i.
Proof.
  intros [A B C] Hn. unfold irq_register_handler. rewrite (proj2 (Z.ltb_lt n 16)) by lia.
  eexists. split; [done|]. split; [|done]. split; [exact A | by rewrite <- B | exact C].
Qed.

Lemma tables_unmask hs f i n :
  tables hs f i -> 0 <= n < 16 ->
  tables hs (line_spec f (Unmask n)) (set_io (irq_unmask dev n (io i)) i).
Proof. intros [A B C] Hn. split; [exact A | exact B |]. by apply (line_step q1 q2 dev Hdev f (io i) (Unmask n)). Qed.

Lemma tables_log hs f i l : tables hs f i -> off_pic (io i) l -> tables hs f (set_io l i).
Proof. intros [A B C] H. split; [exact A | exact B | by eapply programmed_off]. Qed.

(** Registering a handler and opening its line. *)
Lemma tables_driver hs f i n h :
  tables hs f i -> 0 <= n < 16 ->
  exists i', (s ← irq_register_handler n h i; Ret (set_io (irq_unmask dev n (io s)) s)) = Ret i' /\
    tables (<[Z.to_nat n := h]> hs) (line_spec f (Unmask n)) i'.
Proof.
  intros H Hn. destruct (tables_register hs f i n h H Hn) as (i' & -> & Ht & _). cbn [mbind out_mbind].
  eexists. split; [done|]. by apply tables_unmask.
Qed.

End Tables.

(** ** The phases *)

Section Phases.
Context (q1 q2 : pic) (dev : device) (entry : stub -> Z) (gdt_addr tss_addr kstack idt_addr : Z).
Context (timer_callback keyboard_irq_handler mouse_irq_handler : Z).
Context (hello_elf libhello_so dynhello_elf : chars).
Context (Hdev : pics q1 q2 dev) (Hentry : forall st, in_u32 (entry st)) (Htss : in_u32 tss_addr).

Abbreviation tabs := (tables q1 q2 entry).

Definition all_masked (j : Z) : bool := (0 <=? j) && (j <? 16).

Lemma installed i :
  length (idt i) = IDT_ENTRIES ->
  tabs (irq_handlers i) all_masked (install dev entry idt_addr i).
Proof.
  intros Hl. split; [by apply install_vectors| |].
  - unfold install, irq_install, isr_install, idt_init.
    apply (for_up_inv (fun _ s => irq_handlers s = irq_handlers i) 16 0); [|by intros]. cbn [set_io irq_handlers idt_set_gate set_idt].
    apply (for_up_inv (fun _ s => irq_handlers s = irq_handlers i) 20 0); [|by intros]. cbn [idt_load irq_handlers].
    by apply (for_up_inv (fun _ s => irq_handlers s = irq_handlers i) IDT_ENTRIES 0).
  - unfold install, irq_install. set (i1 := isr_install entry _).
    apply (for_up_inv (fun _ s => programmed q1 q2 all_masked (io s)) 16 0); [|by intros].
    apply install_programmed.
Qed.

(** A state of the system calls that needs only a file system and a console. *)
Definition sys_static (s : Syscall.sysst) : Prop :=
  forall f t, idle f -> Terminal.term_wf t -> SyscallSpec.sys_wf (Syscall.set_tty t (Syscall.set_fsys f s)).

Lemma static_tty t s : sys_static s -> sys_static (Syscall.set_tty t s).
Proof. intros H f' t' Hf Ht. exact (H f' t' Hf Ht). Qed.
Lemma static_fsys f s : sys_static s -> sys_static (Syscall.set_fsys f s).
Proof. intros H f' t' Hf Ht. exact (H f' t' Hf Ht). Qed.
Lemma static_heap h s : sys_static s -> sys_static (set_heap h s).
Proof. intros H f' t' Hf Ht. by destruct (H f' t' Hf Ht). Qed.
Lemma static_current c s : sys_static s -> sys_static (set_current_id c s).
Proof. intros H f' t' Hf Ht. by destruct (H f' t' Hf Ht). Qed.
Lemma static_said w m : sys_static (sys m) -> sys_static (sys (say w m)).
Proof. apply static_tty. Qed.
Lemma static_sti m : sys_static (sys m) -> sys_static (sys (cpu_sti m)).
Proof. apply static_fsys. Qed.
Lemma static_wf s : sys_static s -> idle (Syscall.fsys s) -> Terminal.term_wf (Syscall.tty s) -> SyscallSpec.sys_wf s.
Proof. intros H Hf Ht. destruct (H _ _ Hf Ht). by constructor. Qed.
#[local] Hint Resolve static_tty static_fsys static_heap static_current : kernel.

Lemma static_reset f t h : sys_static (Syscall.fd_table_reset (set_heap h (Syscall.power_on f t))).
Proof.
  intros f' t' Hf Ht. destruct (SyscallSpec.started_wf f' Hf). by constructor.
Qed.

Lemma initialized_wf t : Terminal.term_wf (Terminal.terminal_initialize t).
Proof. split_and!; vm_compute; lia. Qed.
#[local] Hint Resolve initialized_wf Terminal.terminal_writestring_wf : kernel.

Lemma input_phase m hs f :
  tabs hs f (irq m) ->
  exists i p, init_input dev keyboard_irq_handler mouse_irq_handler m =
      Ret (set_plat p (set_irq i (set_mouse (Mouse.mouse_init (mouse m)) m))) /\
    tabs (<[12%nat := mouse_irq_handler]> (<[1%nat := keyboard_irq_handler]> hs))
      (line_spec (line_spec f (Unmask 1)) (Unmask 12)) i.
Proof.
  intros H. unfold init_input, Devices.keyboard_init.
  destruct (tables_driver q1 q2 dev entry Hdev hs f (irq m) 1 keyboard_irq_handler H ltac:(lia)) as (i1 & -> & H1).
  cbn [mbind out_mbind]. unfold Devices.mouse_init.
  pose proof (tables_log q1 q2 entry _ _ _ (Devices.mouse_program dev (io i1)) H1 (off_mouse dev _)) as H2.
  destruct (tables_driver q1 q2 dev entry Hdev _ _ _ 12 mouse_irq_handler H2 ltac:(lia)) as (i2 & E2 & H3).
  cbn [irq set_irq mouse]. set (c := irq_register_handler 12 _ _) in *. destruct c as [i|]; cbn [mbind out_mbind] in *; [|discriminate].
  injection E2 as E2. rewrite E2.
  change (Platform.platform_init dev _ _) with (Platform.platform_init dev (plat m) (io i2)).
  pose proof (off_platform dev (plat m) (io i2)) as H4. destruct (Platform.platform_init dev (plat m) (io i2)) as [p l].
  exists (set_io l i2), p. split; [done|]. by eapply tables_log.
Qed.

Lemma cd_root s : unlocked (lockst s) -> exists r s', fs_cd $"/" s = Ret (r, s') /\ cwd (data s') = 0.
Proof. intros H. unfold fs_cd. rewrite locked_pure by done. by eexists _, _. Qed.

Lemma run_last ops op s :
  run (ops ++ [op]) s = (s1 ← run ops s; '(_, s2) ← exec op s1; Ret s2).
Proof.
  revert s. induction ops as [|o ops IH]; intros s; cbn [app run]; [done|].
  destruct (exec o s) as [[r s1]|]; cbn [mbind out_mbind]; [apply IH | done].
Qed.

Lemma run_root ops s :
  idle s -> Forall op_ok ops ->
  exists s', run (ops ++ [OpCd $"/"]) s = Ret s' /\ idle s' /\ cpu_if (lockst s') = cpu_if (lockst s) /\ cwd (data s') = 0.
Proof.
  intros Hs Ho. destruct (run_ret (ops ++ [OpCd $"/"]) s Hs) as (s' & E & Hi & Hc).
  { apply Forall_app. split; [done | by repeat constructor]. }
  exists s'. split_and!; try done. rewrite run_last in E.
  destruct (run_ret ops s Hs Ho) as (s1 & E1 & [_ Hu] & _). rewrite E1 in E. cbn [mbind out_mbind exec] in E.
  destruct (cd_root s1 Hu) as (r & s2 & E2 & Hr). rewrite E2 in E. cbn [mbind out_mbind] in E. by injection E as <-.
Qed.

(** [dyld_install_lib_tree] as a sequence of calls that ends in the root. *)
Definition lib_ops : list fs_op :=
  [OpMkdirP (Some $"/lib"); OpCd $"/"; OpCd $"lib";
   OpWrite $"ld-mykernel.so" $"MyKernel in-kernel dyld (not a real userspace ld)
"] ++
  (if (0 <? Z.of_nat (length libhello_so)) && (Z.of_nat (length libhello_so) <? FS_FILE_MAX)
   then [OpWriteBin $"libhello.so" libhello_so; OpWriteBin $"libc.so.6" libhello_so] else []) ++
  (if (0 <? Z.of_nat (length dynhello_elf)) && (Z.of_nat (length dynhello_elf) <? FS_FILE_MAX)
   then [OpCd $"/"; OpCd $"bin"; OpWriteBin $"dynhello" dynhello_elf] else []).

Lemma lib_tree_run s t :
  exists t', (Terminal.term_wf t -> Terminal.term_wf t') /\
    Dyld.dyld_install_lib_tree libhello_so dynhello_elf s t =
    (s' ← run (lib_ops ++ [OpCd $"/"]) s; Ret (s', t')).
Proof.
  unfold Dyld.dyld_install_lib_tree, lib_ops. cbv zeta.
  destruct ((0 <? Z.of_nat (length libhello_so)) && _), ((0 <? Z.of_nat (length dynhello_elf)) && _);
    (eexists; split; [|
       cbn [app run exec];
       repeat match goal with
       | |- (?c ≫= _) = _ => destruct c as [[? ?]|]; cbn [mbind out_mbind]; [|reflexivity]
       end; reflexivity]);
    intros Ht; eauto using Terminal.terminal_writestring_wf.
Qed.

Lemma files_phase m :
  table_ok (data (ram_of m)) -> Terminal.term_wf (Syscall.tty (sys m)) ->
  exists f t, init_files libhello_so dynhello_elf m =
      Ret (set_sys (Syscall.set_tty t (Syscall.set_fsys f (sys m)))
             (set_mounts (Vfs.mounts (Vfs.vfs_init (vfs_view m))) Atomic.spin_init m)) /\
    idle f /\ cwd (data f) = 0 /\ cpu_if (lockst f) = cpu_if (lockst (ram_of m)) /\ Terminal.term_wf t.
Proof.
  intros Hd Ht. unfold init_files. destruct (fs_init_ret (ram_of m) Hd) as (f0 & -> & Hi0 & Hc0).
  cbn [mbind out_mbind]. change (ram_of (put_vfs _ _)) with f0. change (Syscall.tty (sys (put_vfs _ _))) with (Syscall.tty (sys m)).
  destruct (lib_tree_run f0 (Syscall.tty (sys m))) as (t & Ht' & ->).
  destruct (run_root lib_ops f0 Hi0) as (f & -> & Hi & Hc & Hr).
  { unfold lib_ops. apply Forall_app. split; [|repeat case_match; repeat constructor].
    constructor; [|repeat constructor]. apply (bool_decide_unpack _). by vm_compute. }
  cbn [mbind out_mbind]. exists f, t. split; [done|]. split_and!; [done | done | congruence | auto].
Qed.

Lemma tasks_phase m hs f :
  tabs hs f (irq m) ->
  exists i d, init_tasks dev timer_callback m =
      Ret (cpu_sti (say (if fst (AtaPio.ata_init (drive m)) =? 0 then $"ATA: disk detected" else $"ATA: no disk")
        (set_drive d (set_timer (Devices.mk_timer 0 100) (set_irq i
          (set_sys (set_current_id (Some (Sched.id (Sched.tasks (Sched.sched_init (sched_view m)) !!! 0%nat))) (sys m))
             (set_sched (Sched.sched_init (sched_view m)) m))))))) /\
    d = snd (AtaPio.ata_init (drive m)) /\
    tabs (<[0%nat := timer_callback]> hs) (line_spec f (Unmask 0)) i.
Proof.
  intros H. unfold init_tasks, Devices.timer_init. cbv zeta.
  set (l := outs _ _). assert (Ho : off_pic (io (irq m)) l) by (by repeat (apply off_out; [reflexivity|]); apply off_refl).
  pose proof (tables_log q1 q2 entry _ _ _ l H Ho) as H1.
  destruct (tables_driver q1 q2 dev entry Hdev _ _ _ 0 timer_callback H1 ltac:(lia)) as (i & E & H2).
  change (irq (set_sys _ _)) with (irq m). destruct (irq_register_handler 0 timer_callback _) as [i0|]; cbn [mbind out_mbind] in *; [|discriminate].
  injection E as ->. change (drive (set_timer _ _)) with (drive m).
  exists i, (snd (AtaPio.ata_init (drive m))). destruct (AtaPio.ata_init (drive m)) as [r d]. done.
Qed.

Lemma sound_total (a : Ac97.acst Kmalloc.kstate) l :
  a_inv (Ac97.heap a) l -> Terminal.term_wf (Ac97.atty a) ->
  exists r a', Ac97.ac97_init dev a = Ret (r, a') /\ (exists l', a_inv (Ac97.heap a') l') /\
    Terminal.term_wf (Ac97.atty a') /\
    (Ac97.present a' = true -> exists l' p k, Ac97Spec.ready l' p k a' /\ Ac97.bdl a' mod 8 = 0
       /\ Ac97.bdl a' + 8 * Ac97.BDL_ENTRIES <= p + k).
Proof.
  intros Hi Ht. pose proof (Ac97Spec.ac97_init_ready dev l a) as Hr.
  unfold Ac97.ac97_init in *. destruct (Ac97.find_card dev (Ac97.aio a)) as [[c|] lg].
  2:{ eexists _, _. split; [done|]. split; [by exists l|]. split; [|done]. by apply Terminal.terminal_writestring_wf. }
  set (a1 := Ac97.set_io _ (Ac97.set_bases _ _ _)) in *.
  assert (E1 : Ac97.heap a1 = Ac97.heap a /\ Ac97.atty a1 = Ac97.atty a) by done. clearbody a1. destruct E1 as [E1 E2].
  rewrite E1 in *. destruct (a_alloc_ok _ _ (8 * Ac97.BDL_ENTRIES + 8) Hi ltac:(by vm_compute)) as (raw & h & E & Hz & Hn).
  rewrite E in *. cbn [mbind out_mbind] in *. destruct (Z.eqb_spec raw 0) as [Z0|Hnz].
  - eexists _, _. split; [done|]. split; [exists l; by rewrite (Hz Z0)|]. split; [|done].
    apply Terminal.terminal_writestring_wf. change (Terminal.term_wf (Ac97.atty a1)). by rewrite E2.
  - destruct (Hr _ Hi eq_refl) as (p & k & Hrd & H8 & Hle). destruct (Hn Hnz) as (k' & _ & _ & Hi' & _).
    eexists _, _. split; [done|]. split; [by eexists|]. split; [|intros _; by eexists _, p, k].
    apply Terminal.terminal_writestring_wf. change (Terminal.term_wf (Ac97.atty a1)). by rewrite E2.
Qed.

(** ** What the start establishes *)

(** When interrupts are turned on: segments and gates are in place, the
    controllers send vectors 32 to 47, and exactly the lines of the timer,
    the keyboard and the mouse (with the cascade) are open, each with its
    driver; a program in ring 3 can enter by [int 0x80] only. *)
Record interrupts_ready (m : machine) : Prop := mk_interrupts_ready {
  ir_segs : segs_ok (seg m) /\ Gdt.tr (seg m) = Gdt.GDT_TSS /\ Gdt.tss_esp0 (seg m) = kstack + 8192;
  ir_gates : vectors_ok entry (irq m);
  ir_user : forall v x, 0 <= v < 256 -> cpl (fst x) = 3 ->
    is_Some (deliver (seg m) (irq m) v true None x) <-> v = 128;
  ir_bases : vbase (pic_of PIC1_COMMAND PIC1_DATA q1 (log_of m)) = 32 /\
             vbase (pic_of PIC2_COMMAND PIC2_DATA q2 (log_of m)) = 40;
  ir_lines : forall j, 0 <= j < 16 ->
    Z.testbit (fst (irq_get_mask dev (log_of m))) j = negb (existsb (Z.eqb j) [0; 1; 2; 12]);
  ir_drivers : irq_handlers (irq m) =
    [timer_callback; keyboard_irq_handler; 0; 0; 0; 0; 0; 0; 0; 0; 0; 0; mouse_irq_handler; 0; 0; 0];
  ir_flag : cpu_if (lockst (ram_of m)) = true /\ Sched.cpu_if (sched m) = true;
}.

(** When the shell starts: every component is in a state its own theorems
    start from. *)
Record handed_over (m : machine) : Prop := mk_handed_over {
  ho_sys : SyscallSpec.sys_wf (sys m);
  ho_heap : exists l, a_inv (heap_of m) l;
  ho_sched : exists s0, SchedSpec.startable s0 /\ sched_view m = Sched.sched_init s0;
  ho_vfs : VfsSpec.vwf (vfs_view m);
  ho_ram : idle (ram_of m) /\ cwd (data (ram_of m)) = 0;
  ho_mouse : Mouse.mouse_wf (mouse m) [];
  ho_keyboard : Keyboard.kreach (Keyboard.mk_conf (keyboard m) Keyboard.AtTest [] []);
  ho_timer : timer m = Devices.mk_timer 0 100;
  ho_cfg : Settings.cfg_ok (cfg m);
  ho_sound : Ac97.present (sound m) = true -> exists l p k, Ac97Spec.ready l p k (sound m) /\
    Ac97.bdl (sound m) mod 8 = 0 /\ Ac97.bdl (sound m) + 8 * Ac97.BDL_ENTRIES <= p + k;
  ho_history : forall keys, LinedSpec.hist_rep (Shell.hi (shell_state keys m)) [];
}.

Abbreviation start := (kernel_init dev entry gdt_addr tss_addr kstack idt_addr timer_callback
  keyboard_irq_handler mouse_irq_handler libhello_so dynhello_elf).

(** The first half after the tables, with the parts of the state it leaves. *)
Lemma init_phase m :
  tabs (replicate 16 0) all_masked (irq m) -> table_ok (data (ram_of m)) -> Terminal.term_wf (Syscall.tty (sys m)) ->
  exists i p f t,
    let s := Sched.sched_init (sched_view m) in
    (m ← init_input dev keyboard_irq_handler mouse_irq_handler m;
     m ← init_files libhello_so dynhello_elf m;
     init_tasks dev timer_callback m) =
    Ret (cpu_sti (say (if fst (AtaPio.ata_init (drive m)) =? 0 then $"ATA: disk detected" else $"ATA: no disk")
      (mk_machine (seg m) i
        (set_current_id (Some (Sched.id (Sched.tasks s !!! 0%nat))) (Syscall.set_tty t (Syscall.set_fsys f (sys m))))
        s (Mouse.mouse_init (mouse m)) (keyboard m) p
        (Vfs.mounts (Vfs.vfs_init (vfs_view m))) Atomic.spin_init (Devices.mk_timer 0 100)
        (snd (AtaPio.ata_init (drive m))) (sound m) (cfg m) (video m)))) /\
    idle f /\ cwd (data f) = 0 /\ Terminal.term_wf t /\
    tabs [timer_callback; keyboard_irq_handler; 0; 0; 0; 0; 0; 0; 0; 0; 0; 0; mouse_irq_handler; 0; 0; 0]
      (foldl line_spec all_masked [Unmask 1; Unmask 12; Unmask 0]) i.
Proof.
  intros T Hd Ht0. destruct (input_phase m _ _ T) as (i2 & p & -> & T2). cbn [mbind out_mbind].
  set (m2 := set_plat p (set_irq i2 (set_mouse (Mouse.mouse_init (mouse m)) m))).
  destruct (files_phase m2 Hd Ht0) as (f & t & -> & Hf & Hr & _ & Ht). cbn [mbind out_mbind].
  set (m3 := set_sys _ _). destruct (tasks_phase m3 _ _ T2) as (i & d' & -> & -> & T4).
  exists i, p, f, t. by split_and!.
Qed.

Abbreviation tabled := (init_tables dev entry gdt_addr tss_addr kstack idt_addr).

Lemma tabled_parts m :
  seg (tabled m) = Gdt.gdt_install gdt_addr tss_addr kstack (seg m) /\
  irq (tabled m) = install dev entry idt_addr (set_io (Devices.serial_init (log_of m)) (irq m)) /\
  sys (tabled m) = Syscall.fd_table_reset (set_heap (Kmalloc.kmalloc_init (heap_of m)) (Syscall.set_tty
    (Terminal.terminal_writestring ($"Booting kernel subsystems..." ++ [10])
      (Terminal.terminal_writestring ($"MyKernel booting..." ++ [10])
        (Terminal.terminal_initialize (Syscall.tty (sys m))))) (sys m))) /\
  sched (tabled m) = sched m /\ mouse (tabled m) = mouse m /\ keyboard (tabled m) = keyboard m /\
  mounts (tabled m) = mounts m /\ drive (tabled m) = drive m.
Proof. done. Qed.

Lemma reset_parts s :
  Syscall.heap (Syscall.fd_table_reset s) = Syscall.heap s /\ Syscall.fsys (Syscall.fd_table_reset s) = Syscall.fsys s /\
  Syscall.tty (Syscall.fd_table_reset s) = Syscall.tty s.
Proof. done. Qed.

Lemma static_tabled f t h t' h' :
  sys_static (Syscall.fd_table_reset (set_heap h' (Syscall.set_tty t' (set_heap h (Syscall.power_on f t))))).
Proof. exact (static_tty t' _ (static_reset f t h')). Qed.

Lemma fresh_heap h : a_inv (Kmalloc.kmalloc_init h) [].
Proof. exists Kmalloc.boot_blocks. split; [apply Kmalloc.kmalloc_init_rep | done]. Qed.

(** The mount table after [vfs_init]. *)
Lemma mounted_root (v : Vfs.vfs Fat32.fatst) ram (f : Fat32.fatst) :
  Vfs.mounts v = replicate Vfs.VFS_MAX_MOUNTS Vfs.bss_mount ->
  VfsSpec.vwf (Vfs.mk_vfs (Vfs.mounts (Vfs.vfs_init v)) Atomic.spin_init ram f).
Proof.
  intros E. unfold Vfs.vfs_init. rewrite E. destruct VfsSpec.booted_vwf. by constructor.
Qed.

Lemma idle_sti m : idle (ram_of m) -> idle (ram_of (cpu_sti m)).
Proof. by intros [? ?]. Qed.

(** The lines that are open. *)
Lemma open_lines j :
  0 <= j < 16 -> foldl line_spec all_masked [Unmask 1; Unmask 12; Unmask 0] j = negb (existsb (Z.eqb j) [0; 1; 2; 12]).
Proof.
  intros Hj. assert (Hall : forallb (fun j => Bool.eqb (foldl line_spec all_masked [Unmask 1; Unmask 12; Unmask 0] j)
    (negb (existsb (Z.eqb j) [0; 1; 2; 12]))) (seqZ 0 16) = true) by reflexivity.
  rewrite forallb_forall in Hall. apply eqb_prop, Hall. apply list_elem_of_In, elem_of_seqZ. lia.
Qed.

(** [init_devices] keeps everything but console, heap, ports and the two
    devices. *)
Lemma devices_phase m l :
  a_inv (heap_of m) l -> Terminal.term_wf (Syscall.tty (sys m)) ->
  exists a v lg t, init_devices dev m = Ret (mk_machine (seg m) (set_io lg (irq m))
      (Syscall.set_tty t (set_heap (Ac97.heap a) (sys m))) (sched m) (mouse m) (keyboard m) (plat m) (mounts m) (vfs_lock m)
      (timer m) (drive m) a Settings.settings_init v) /\
    Terminal.term_wf t /\ (exists l', a_inv (Ac97.heap a) l') /\
    (Ac97.present a = true -> exists l' p k, Ac97Spec.ready l' p k a /\ Ac97.bdl a mod 8 = 0
       /\ Ac97.bdl a + 8 * Ac97.BDL_ENTRIES <= p + k).
Proof.
  intros Hi Ht. unfold init_devices. destruct (sound_total (sound_view m) l Hi Ht) as (r & a & -> & Hh & Hta & Hr).
  cbn [mbind out_mbind]. change (log_of (set_cfg _ _)) with (Ac97.aio a).
  destruct (Vbe.vbe_probe dev _) as [ok v]. exists a, v, (Vbe.vio v).
  eexists. split; [reflexivity|]. split; [by apply Terminal.terminal_writestring_wf | done].
Qed.

(** [interrupts_ready] needs the segments, the tables and the flag. *)
Lemma ready_at_sti m :
  (exists s, length (Gdt.gdt s) = Gdt.GDT_ENTRIES /\ seg m = Gdt.gdt_install gdt_addr tss_addr kstack s) ->
  tabs [timer_callback; keyboard_irq_handler; 0; 0; 0; 0; 0; 0; 0; 0; 0; 0; mouse_irq_handler; 0; 0; 0]
      (foldl line_spec all_masked [Unmask 1; Unmask 12; Unmask 0]) (irq m) ->
  cpu_if (lockst (ram_of m)) = true -> Sched.cpu_if (sched m) = true -> interrupts_ready m.
Proof.
  intros (s & Hs & E) [G D P] H1 H2.
  destruct (Gdt.segments_installed gdt_addr tss_addr kstack s Hs Htss) as (_ & K & _ & _ & _ & _ & _ & R & _ & _ & S0 & P0 & _).
  assert (Hsg : segs_ok (seg m)) by (rewrite E; by split).
  constructor; [| exact G | | exact (pr_base _ _ _ _ P) | | exact D | by split].
  - split; [done|]. by rewrite E.
  - intros v x Hv Hx. by apply (user_gates entry).
  - intros j Hj. unfold log_of. rewrite (get_mask_bits q1 q2 dev Hdev _ _ j P Hj). by apply open_lines.
Qed.

Lemma history_empty keys m : LinedSpec.hist_rep (Shell.hi (shell_state keys m)) [].
Proof. apply (LinedSpec.hist_rep_pos 0 LinedSpec.hist0), LinedSpec.hist0_rep. Qed.

(** The machine once the tables are in place. *)
Record tables_done (m : machine) : Prop := mk_tables_done {
  td_seg : exists s, length (Gdt.gdt s) = Gdt.GDT_ENTRIES /\ seg m = Gdt.gdt_install gdt_addr tss_addr kstack s;
  td_irq : tabs (replicate 16 0) all_masked (irq m);
  td_sys : sys_static (sys m);
  td_heap : a_inv (heap_of m) [];
  td_ram : table_ok (data (ram_of m));
  td_tty : Terminal.term_wf (Syscall.tty (sys m));
  td_tasks : length (Sched.tasks (sched m)) = Sched.SCHED_MAX_TASKS /\ SchedInv.regs_ok (Sched.gpr (Sched.core (sched m)));
  td_mouse : mouse m = Mouse.bss_mouse;
  td_keyboard : keyboard m = Keyboard.kbd_boot;
  td_mounts : mounts m = replicate Vfs.VFS_MAX_MOUNTS Vfs.bss_mount;
}.

Lemma run_phases m :
  tables_done m ->
  exists m1 m2,
    (m ← init_input dev keyboard_irq_handler mouse_irq_handler m;
     m ← init_files libhello_so dynhello_elf m;
     init_tasks dev timer_callback m) = Ret m1 /\ interrupts_ready m1 /\
    init_devices dev m1 = Ret m2 /\ handed_over m2 /\ drive m2 = snd (AtaPio.ata_init (drive m)).
Proof.
  intros [Eg T St Hh Hd Ht [Hlen Hregs] E2 E3 E4].
  destruct (init_phase m T Hd Ht) as (i & p & f & t & E & Hf & Hc & Ht' & T'). cbv zeta in E. rewrite E. clear E.
  generalize (if fst (AtaPio.ata_init (drive m)) =? 0 then $"ATA: disk detected" else $"ATA: no disk"). intros w.
  set (m1 := cpu_sti _).
  assert (Ht1 : Terminal.term_wf (Syscall.tty (sys m1))) by (by apply Terminal.terminal_writestring_wf).
  assert (Hf1 : idle (ram_of m1)) by (apply idle_sti; exact Hf).
  destruct (devices_phase m1 [] Hh Ht1) as (a & v & lg & t2 & E & Ht2 & Hh2 & Hs).
  exists m1. eexists. split; [done|]. split; [by apply ready_at_sti|]. split; [exact E|]. split; [|done].
  constructor; [| exact Hh2 | | | exact (conj Hf1 Hc) | | | done | | exact Hs | intros; apply history_empty].
  - apply static_wf; [| exact Hf1 | exact Ht2].
    by apply static_tty, static_heap, static_sti, static_said, static_current, static_tty, static_fsys.
  - exists (Sched.set_if true (Sched.set_heap (Ac97.heap a) (sched m))). split; [by split_and! | done].
  - exact (mounted_root (vfs_view m) _ _ E4).
  - cbn. rewrite E2. apply Mouse.init_wf.
  - cbn. rewrite E3. constructor.
  - split; discriminate.
Qed.

Lemma power_on_tabled mem screen l r cs ds d :
  SchedInv.regs_ok (Sched.gpr r) -> tables_done (tabled (power_on mem screen l r cs ds d)).
Proof.
  intros Hregs. set (m0 := power_on mem screen l r cs ds d).
  destruct (tabled_parts m0) as (Eg & Ei & Es & E1 & E2 & E3 & E4 & E5).
  constructor; rewrite ?E1, ?E2, ?E3, ?E4; [| | | | | | by split | done..].
  - exists (seg m0). by split.
  - rewrite Ei. by apply (installed (set_io _ (irq m0))).
  - rewrite Es. apply static_tabled.
  - unfold heap_of. rewrite Es. apply fresh_heap.
  - unfold ram_of. rewrite Es. apply bss_table_ok.
  - rewrite Es. apply Terminal.terminal_writestring_wf, Terminal.terminal_writestring_wf, initialized_wf.
Qed.

(** C6. From the state in which the boot loader leaves the machine, whatever
    memory, screen, interrupt controllers, buses and disk hold, the start-up
    code of [kernel_main] runs to the shell.  When it turns interrupts on,
    every vector leads to its own stub, ring 3 can enter by [int 0x80] only,
    and exactly the lines with a registered driver are open; when the shell starts, heap, file system, mount table,
    scheduler, system calls, console, input queues, timer, settings and
    sound are in the states that the theorems about them assume, the working
    directory is the root, and the disk is known as the drive reports it. *)
Theorem boot_ready mem screen l r cs ds d :
  SchedInv.regs_ok (Sched.gpr r) ->
  let m0 := power_on mem screen l r cs ds d in
  exists m1 m2, start m0 = Ret m1 /\ interrupts_ready m1 /\
    init_devices dev m1 = Ret m2 /\ handed_over m2 /\
    (AtaPioSpec.ready d -> AtaPio.med (drive m2) = snd (Ata.ata_init (AtaPio.med d))) /\
    forall ext n depth line keys,
      kernel_main dev entry gdt_addr tss_addr kstack idt_addr timer_callback keyboard_irq_handler
        mouse_irq_handler hello_elf libhello_so dynhello_elf ext n depth line keys m0 =
      Shell.shell_run ext dev hello_elf dynhello_elf n depth line (shell_state keys m2).
Proof.
  intros Hregs. cbv zeta. set (m0 := power_on mem screen l r cs ds d).
  destruct (run_phases (tabled m0) (power_on_tabled mem screen l r cs ds d Hregs)) as (m1 & m2 & E1 & H1 & E2 & H2 & E3).
  assert (Es : start m0 = Ret m1) by exact E1. exists m1, m2. split_and!; [done | done | done | done | |].
  - rewrite E3. intros Hrd. change (drive (tabled m0)) with d.
    destruct (AtaPioSpec.init_spec d Hrd) as (x & d' & -> & -> & _). done.
  - intros. unfold kernel_main. rewrite Es. cbn [mbind out_mbind]. rewrite E2. done.
Qed.

End Phases.

(** ** Witnesses *)

Definition cpu0 : Sched.cpu := Sched.mk_cpu (Sched.mk_regs 0x2BADB002 0 0 0x9500 0 0 0) 0x160000 0x100010.
Definition drive0 : AtaPio.drive := AtaPioSpec.sample false.
Definition entry0 (st : stub) : Z := match st with Isr n => u32 (0x110000 + 16 * n) | Irq n => u32 (0x120000 + 16 * n) end.

Lemma boot_ready_witness :
  exists m1 m2,
    kernel_init dev0 entry0 0x140000 0x141000 0x142000 0x144000 0x101000 0x102000 0x103000 [1; 2; 3] [4; 5]
      (power_on ∅ [] [] cpu0 0x10 [] drive0) = Ret m1 /\
    init_devices dev0 m1 = Ret m2 /\ handed_over m2 /\ Ata.g_ata_ok (AtaPio.med (drive m2)) = true.
Proof.
  destruct (boot_ready (mk_pic 0xB8 8 false 0) (mk_pic 0x8F 0x70 false 0) dev0 entry0 0x140000 0x141000 0x142000 0x144000
    0x101000 0x102000 0x103000 [] [1; 2; 3] [4; 5]) with (mem := ∅ : mem) (screen := [] : list Z) (l := [] : log) (r := cpu0)
    (cs := 0x10) (ds := [] : list Z) (d := drive0) as (m1 & m2 & E1 & _ & E2 & H & Hd & _).
  - done.
  - intros []; apply u32_range.
  - unfold in_u32. lia.
  - unfold SchedInv.regs_ok, in_u32. cbn. lia.
  - exists m1, m2. split_and!; [exact E1 | exact E2 | exact H |]. by rewrite (Hd AtaPioSpec.sample_ready).
Defined.

(** The linker places the kernel's variables from 1 MiB on.  Wherever the node
    table of the file system lies there, its 256 nodes of 8252 bytes reach
    into the window that kmalloc.c takes to be free, or past 4 MiB, where user
    programs are loaded. *)
Lemma nodes_overlap a :
  0x100000 <= a ->
  let stop := a + Z.of_nat FS_MAX_NODES * (4 + Z.of_nat FS_NAME_MAX + 4 + FS_FILE_MAX + 4) in
  (exists x, a <= x < stop /\ Kmalloc.KHEAP_START <= x < Kmalloc.KHEAP_START + Kmalloc.KHEAP_SIZE) \/ 0x400000 < stop.
Proof.
  intros Ha. cbv zeta. change (Z.of_nat FS_MAX_NODES * _) with 2112512. unfold Kmalloc.KHEAP_START, Kmalloc.KHEAP_SIZE.
  destruct (Z.lt_ge_cases a 0x300000); [left | right; lia]. exists (Z.max a 0x200000). lia.
Qed.

(** The embedded library is found where the loader looks for it. *)
Example library_installed :
  match Dyld.dyld_install_lib_tree [1; 2; 3] [4; 5] FsSpec.booted (Terminal.mk_term 0 0 7 [] []) with
  | Ret (s, _) => match fs_read_path (Some $"/lib/libhello.so") (data s) with
                  | Ret (FS_OK, Some (i, n)) => take (Z.to_nat n) (content (nodes (data s) !!! i)) = [1; 2; 3]
                  | _ => False
                  end
  | Fault _ => False
  end.
Proof. vm_compute. reflexivity. Qed.

End BootSpec.
